(* ===== verification/_CoqProject ===== *)
-Q . S2P
Prelude.v
CString.v
Console.v
Rtc.v
Block.v
Frames.v
Pmm.v
Paging.v
Kheap.v
Heaps.v
Sched.v
Fat12.v
Fat12Table.v
Fat12Logic.v
Fat12Dir.v
Fat12Names.v
Fat12Store.v
Fat12Files.v
Fat12Volume.v
Io.v
Serial.v
Returns.v
Elf.v
ElfThm.v
Gfx.v
Compositor.v
Desktop.v
DesktopThm.v
Rtl8139.v
Net.v
NetThm.v
Tcp.v
TcpThm.v
Dns.v
Dhcp.v
Pic.v
Keyboard.v
Timer.v
Floppy.v
FloppyThm.v
Mouse.v
Cpu.v
Isr.v
Editor.v
EditorThm.v
Ata.v
AtaThm.v
Shell.v
ShellThm.v
IdentityMap.v
Acpi.v
AcpiThm.v
Ac97.v
Ac97Thm.v
Vga.v
VgaThm.v
Boot.v
BootThm.v
User.v
