(* ===== verification/Prelude.v ===== *)
(** * PumpkinOS: a verification library

    PumpkinOS (src/) is a 32-bit x86 hobby operating system in C: a freestanding
    kernel with paging and a heap, preemptive kernel threads, drivers, a FAT12
    file system, a TCP/IP stack, an ELF loader, a shell, an editor and a desktop.
    This library holds a model of it as executable definitions, one file or group
    of files per component, and the theorems that make each component correct.

    ** How the program is modelled

    - Machine words are integers of type [Z] with their wrap-around written out
      ([u8], [u16], [u32]; below).  Signed [int] arithmetic is unbounded, since its
      overflow is undefined in C.  Bit operations are those of [Z].
    - Arrays and byte strings are lists of [Z] read and written with [arr_get] and
      [arr_set]; raw memory is a finite map from addresses, read with [ld] and
      written with [st], absent addresses reading 0.
    - A module's static variables are a record; each function is a function on it.
      Code that prints produces the console calls it makes ([Console.con_call]),
      which [Console.con_run] performs on the screen.
    - Code that waits for hardware is in the monad [Io.IO]: state passing with
      [None] for a wait that has not ended within its fuel.  Theorems about it say
      which fuel is enough, or hold for every fuel at which the code comes back
      ([Io.ilp]) where the wait depends on the outside world.
    - Hardware is a parameter, with its documented behaviour as the laws of a
      class and a concrete machine as an instance of it: ports ([Io.Ports]), DMA
      memory ([Io.Dma]), the network card ([Rtl8139.Card8139]), the floppy
      controller ([Floppy.Fdc]), the hard disks' channels ([Ata.Ide]), the serial line
      ([Serial.Uart]), the tick counter ([Ac97.Ticks], [Ac97Thm.Clock]), the BIOS interrupts ([Vga.Bios]).
      Code that must come back whatever the hardware answers is reasoned about with
      [Returns.ends].
    - Components are joined by interfaces: [Frames.FrameAllocator] (what paging,
      the heap and the loader need of mm/pmm.c; [Pmm] implements it),
      [Heaps.HeapAllocator] (what the scheduler and the graphics need of
      mm/kheap.c; [Kheap] implements it), [Block.BlockDevice] (what the file system
      needs of drivers/floppy.c; [Floppy] implements it), [Net.Nic] (what the stack
      needs of a card and a clock), [Timer.Waits] (how a driver waits by the clock),
      [Editor.Desk] (what the editor needs of the keyboard and the file system),
      [Desktop.Seat] and [DesktopThm.Display] (what the desktop needs of everything
      else), [Shell.Office] (what the shell needs beyond files and network).  Clients
      are proved against the class; the implementation's theorems discharge it, or,
      for [Nic], [Desk], [Seat] and [Office], a small concrete instance shows the
      laws can hold.

    ** The parts, bottom up

    - [Prelude]: integers, arrays, byte memory, counted loops; the tactics [zlia]
      (linear arithmetic with division), [zcase] (case analysis on the comparisons
      of a goal) and the hint database of the word lemmas.
    - [CString] (lib/string.c), [Console] (drivers/console.c), [Rtc]
      (drivers/rtc.c), [Io] (cpu/io.h).  [Serial] has the console with its waits for
      the serial line, which the others leave out.
    - Memory: [Pmm] (mm/pmm.c) is the bitmap allocator; [Paging] (mm/paging.c)
      builds page tables in its frames; [Kheap] (mm/kheap.c) is the kernel heap in
      the pages; [Sched] (sched/sched.c, sched/switch.asm) allocates tasks and
      stacks in the heap and switches between them.
    - Interrupts: [Cpu] has the descriptor tables of cpu/gdt.c and cpu/idt.c, the
      stubs of cpu/isr.asm and the processor's part between them; [Isr] the
      dispatcher of cpu/idt.c and the system calls of cpu/syscall.c; [Pic] the
      interrupt controller (cpu/pic.c); [Timer], [Keyboard] and [Mouse] the drivers
      whose interrupts it dispatches.
    - Files: [Floppy] (drivers/floppy.c) drives the controller; [Fat12] (fs/fat12.c)
      is the file system on the sectors.  Its theory is in [Fat12Table] (the
      allocation table), [Fat12Logic] (a program logic for its monad), [Fat12Dir]
      (directories), [Fat12Names] (8.3 names, paths), [Fat12Store] (contents),
      [Fat12Files] (the volume's invariant, and the abstract file system: a map from
      names to contents) and [Fat12Volume] (the theorems, a RAM disk).
    - Disks and sound: [Ata] (drivers/ata.c) finds hard disks and moves their
      sectors; [Ac97] (drivers/ac97.c) finds and programs the two kinds of audio
      controller, prepares the two clips and plays them.
    - Programs: [Elf] (kernel/elf.c) loads them through the page tables; [User] is
      one (userprog/hello.c), run over [Isr.isr_handler] and the page tables.
    - Firmware: [Acpi] (drivers/acpi.c) reads the tables for power-off.  It maps them
      with the loop that the display driver has too, [IdentityMap].
    - Network: [Rtl8139] (drivers/rtl8139.c, cpu/pci.h), [Net] (net/net.c,
      net/icmp.c), [Tcp], [Dns], [Dhcp] (the files of those names under net/).
    - Screen: [Vga] (drivers/vga.c) sets the mode, for which it provides what [Gfx]
      (drivers/gfx.c) takes as [Gfx.video]; [Gfx] draws and presents; [Compositor]
      says what that does to the two images; [Desktop] (kernel/desktop.c) is the
      graphical desktop; [Editor] (shell/editor.c) the text editor; [Shell]
      (shell/shell.c) the command line with its history, its completion and its
      commands.
    - Boot: [Boot] (kernel/kernel.c) initialises all of them in order and starts the
      shell; its state is [Isr.machine] with the remaining components' statics.
    A component [X] with a file [XThm] has its program in the first and its theory
    in the second.

    ** What the theorems show

    - Memory.  [pmm_init_exact], [pmm_refines_set]: the bitmap allocator frees what
      the BIOS says is usable and implements a set of frames.
      [paging_map_translates], [paging_init_identity]: translation is exactly what
      was mapped.  [kmalloc_correct], [kfree_correct]: the chain of headers is always
      a partition of the heap, blocks are fresh, and freeing coalesces.
    - Scheduling.  [switch_resumes]: in every execution a task resumes with the
      registers it was switched away with; [round_robin_fair]: it does so after at
      most as many slices as there are tasks before it.
    - Interrupts.  [tables_decode]: the tables mean what they were meant to;
      [interrupt_transparent]: an IRQ runs its driver and is invisible to the code
      it interrupts; [user_enters_kernel]: ring 3 gets in by system calls only.
    - Files.  [fs_create_correct], [fs_read_correct], [fs_remove_correct],
      [create_read_roundtrip], [fs_readdir_lists], [fs_init_mounts]: the operations
      are those of a map, and keep the volume sound (chains disjoint, links inside
      the volume, directory and table in agreement).  [fat_entries_independent] and
      [free_chain_terminates] are about the packed table.
      [floppy_drives_disk]: the driver provides the device all this is proved over.
    - Boot.  [kernel_ready]: the order of [kernel_main] establishes the invariants
      that the theorems about memory, the scheduler and interrupts start from, and
      keeps the audio driver's fixed buffer out of every allocator's reach.
    - Programs.  [elf_exec_correct], [elf_task_loads]; [hello_prints]: a program in
      ring 3 prints through the system calls what it means to.
    - Devices.  [ata_drives_disks]: the driver lists the disks that are there and
      moves exactly the sectors asked for or reports an error, as far as the task
      file protocol lets it ([ata_write_sectors] breaks the protocol at its cache
      flush, where the claim stops); [clip_prepared], [audio_never_hangs];
      [acpi_powers_off]: tables that are laid out as ACPI has them are read without a
      fault and end in the right port writes; [graphics_entered]: the mode set is one
      that [drawing_exact] and [present_shows] can be used in, if a BIOS mode's lines
      are as long as their pixels; [serial_mirrors]: the console's text reaches the
      serial line.
    - Shell.  [line_on_screen]: the line on the screen is the line that is executed,
      as long as it fits its row;
      [write_then_cat], [history_recalls], [parse_ipv4_exact].
    - Network.  [rtl8139_carries_frames]: the driver is a queue of frames;
      [udp_delivered], [tcp_segment_delivered], [tcp_stream_in_order]: what one
      stack sends the other receives, once and in order, over a network that may
      reorder, repeat and lose; [dns_parse_correct]; [dhcp_lease].
    - Input and screen.  [keyboard_fifo], [mouse_follows]; [console_stays_sane];
      [drawing_exact], [present_shows]; [editor_keys], [editor_renders],
      [editor_session]; [desktop_screen]: on a display at least 640 pixels wide the
      partial redraws of the event loop show what a full one would, the clock's time
      apart, and the clock is redrawn when it ticks; [desktop_typed]; [windows_follow].
      The flag [Desktop.overran] stands for [build_path] having written past
      [cur_path]; the desktop's theorems claim nothing where it is set.

    ** Bounds and fuel

    Loops over a counter are [for_range]; loops the source bounds itself keep that
    bound ([Fat12.READ_GUARD], the attempts of [Floppy.floppy_rw], the polling limits
    of the drivers).  Fuel that the model adds is enough by a theorem: [heap_fuel]
    (a block takes a header's worth of heap), [pages_fuel], [free_fuel] and
    [walk_fuel] (a chain inside the volume has no more clusters than the volume;
    [free_chain_terminates]: the loop exits on cyclic tables too), [zorder_at] and the name loops
    (structural).  Waits on the world take fuel as an argument: [Timer.sleep_wait]
    ends with the first wake-up late enough ([timer_sleep_waits]); [Floppy] waits end
    within the class's response times; [Desktop.wait_8042] needs [patient];
    [Net.net_poll] carries the depth of its own recursion, which the source does not
    bound, and its theorems hold at every depth; [Ac97]'s waits on the clock end
    within the reads of 3901 ticks ([Ac97Thm.ck_fuel]), however many reads the machine
    fits between two ticks; [Serial]'s within the reads the line takes for a byte; [map_new] maps
    2^20 pages, the whole address space; the polls of [Ata] and [Mouse] are bounded by
    the source; [Keyboard.drain] needs a controller that runs empty.

    ** What is not modelled

    [int] overflow (undefined in C; the values concerned stay small);
    interrupts between two instructions of code that is not atomic, except where a
    component's model has them (the keyboard's ring, the drivers' waits, the
    scheduler's steps); the processor's caches and TLB but for the flush
    [paging_map] makes; that a driver's port writes have their effect on the card,
    except where a class states it.  The boot loader (boot/boot.asm), kernel/entry.asm,
    cpu/bios.asm and cpu/usermode.asm run before or beside C; the switch to ring 3 is
    the last step of [Elf].  After interrupts are turned on in [Boot.kernel_main]
    (drivers that wait, then the shell) each component comes back by its own theorem,
    under the laws of its device; no theorem composes these.  user/user.asm,
    fsroot/, sfx/ and the build files are assembly for a demonstration and data.
*)
From Stdlib Require Import ZArith Lia Bool Ascii String.
From stdpp Require Import base numbers list list_numbers gmap option.

#[local] Open Scope Z_scope.

(** ** Machine integers

    The kernel is compiled for i386: [uint8_t], [uint16_t], [uint32_t],
    [uint64_t] wrap modulo a power of two; [int] is 32-bit two's complement. *)

Definition u8 (z : Z) : Z := z mod 2 ^ 8.
Definition u16 (z : Z) : Z := z mod 2 ^ 16.
Definition u32 (z : Z) : Z := z mod 2 ^ 32.
Definition u64 (z : Z) : Z := z mod 2 ^ 64.
Definition i32 (z : Z) : Z := (z + 2 ^ 31) mod 2 ^ 32 - 2 ^ 31.

Declare Scope c_scope.
Delimit Scope c_scope with c.
Infix "&&&" := Z.land (at level 40, left associativity) : c_scope.
Infix "|||" := Z.lor (at level 50, left associativity) : c_scope.
Infix "<<<" := Z.shiftl (at level 35, no associativity) : c_scope.
Infix ">>>" := Z.shiftr (at level 35, no associativity) : c_scope.
#[local] Open Scope c_scope.

(** Bitwise complement of a 32-bit value, C's [~x] on [uint32_t]. *)
Definition u32_not (z : Z) : Z := u32 (Z.lnot z).

(** C truth value of an integer expression. *)
Definition c_true (z : Z) : bool := negb (z =? 0).

(** ** Tactics *)

(** Split on the comparisons that guard the goal, keeping arithmetic facts. *)
Ltac zcase :=
  match goal with
  | |- context [ ?a <? ?b ] => destruct (Z.ltb_spec a b)
  | |- context [ ?a <=? ?b ] => destruct (Z.leb_spec a b)
  | |- context [ ?a =? ?b ] => destruct (Z.eqb_spec a b)
  | |- context [ ?a >=? ?b ] => rewrite (Z.geb_leb a b)
  | |- context [ ?a >? ?b ] => rewrite (Z.gtb_ltb a b)
  end.

Ltac zcase_in H :=
  match type of H with
  | context [ ?a <? ?b ] => destruct (Z.ltb_spec a b)
  | context [ ?a <=? ?b ] => destruct (Z.leb_spec a b)
  | context [ ?a =? ?b ] => destruct (Z.eqb_spec a b)
  | context [ ?a >=? ?b ] => rewrite (Z.geb_leb a b) in H
  | context [ ?a >? ?b ] => rewrite (Z.gtb_ltb a b) in H
  end.

(** Evaluate the closed powers of two. *)
Ltac zpow :=
  repeat match goal with
  | |- context [ Z.pow (Zpos ?a) (Zpos ?b) ] =>
      let v := eval vm_compute in (Z.pow (Zpos a) (Zpos b)) in
      change (Z.pow (Zpos a) (Zpos b)) with v
  | H : context [ Z.pow (Zpos ?a) (Zpos ?b) ] |- _ =>
      let v := eval vm_compute in (Z.pow (Zpos a) (Zpos b)) in
      change (Z.pow (Zpos a) (Zpos b)) with v in H
  end.

(** Linear arithmetic with division and modulo by constants. *)
Ltac zlia :=
  unfold u8, u16, u32, u64, i32 in *; zpow; Z.to_euclidean_division_equations; lia.

(** ** Loops *)

(** [for (i = lo; n times; i++) s = f(i, s)]. *)
Fixpoint for_loop {S} (n : nat) (i : Z) (f : Z → S → S) (s : S) : S :=
  match n with
  | O => s
  | Datatypes.S n' => for_loop n' (i + 1) f (f i s)
  end.

Definition for_range {S} (lo hi : Z) (f : Z → S → S) (s : S) : S :=
  for_loop (Z.to_nat (hi - lo)) lo f s.

(** [for (i = lo; i < hi; i++) if (f(i)) return f(i);], the early-return
    search loop: the first [Some] in order, [None] when the loop runs out. *)
Fixpoint find_loop {R} (n : nat) (i : Z) (f : Z → option R) : option R :=
  match n with
  | O => None
  | Datatypes.S n' =>
      match f i with
      | Some r => Some r
      | None => find_loop n' (i + 1) f
      end
  end.

Definition find_range {R} (lo hi : Z) (f : Z → option R) : option R :=
  find_loop (Z.to_nat (hi - lo)) lo f.

Lemma for_range_nil {S} lo hi (f : Z → S → S) s :
  hi ≤ lo → for_range lo hi f s = s.
Proof. intros H. unfold for_range. by replace (Z.to_nat (hi - lo)) with 0%nat by lia. Qed.

Lemma for_range_step {S} lo hi (f : Z → S → S) s :
  lo < hi → for_range lo hi f s = for_range (lo + 1) hi f (f lo s).
Proof.
  intros H. unfold for_range.
  replace (Z.to_nat (hi - lo)) with (Datatypes.S (Z.to_nat (hi - (lo + 1)))) by lia.
  done.
Qed.

(** The Hoare rule of a counting loop: an invariant indexed by the counter. *)
Lemma for_range_ind {S} (P : Z → S → Prop) lo hi (f : Z → S → S) s :
  lo ≤ hi → P lo s →
  (∀ i s, lo ≤ i < hi → P i s → P (i + 1) (f i s)) →
  P hi (for_range lo hi f s).
Proof.
  intros Hle H0 Hstep. unfold for_range.
  remember (Z.to_nat (hi - lo)) as n eqn:Hn.
  revert lo s Hle H0 Hstep Hn.
  induction n as [|n IH]; intros lo s Hle H0 Hstep Hn; simpl.
  - by replace hi with lo by lia.
  - apply IH; [lia | apply Hstep; [lia|done] | | lia].
    intros i s' Hi. apply Hstep. lia.
Qed.

(** An invariant that does not depend on the counter. *)
Lemma for_range_inv {S} (P : S → Prop) lo hi (f : Z → S → S) s :
  P s → (∀ i s, lo ≤ i < hi → P s → P (f i s)) → P (for_range lo hi f s).
Proof.
  intros H0 Hstep. destruct (Z.le_gt_cases lo hi).
  - apply (for_range_ind (λ _, P)); auto.
  - by rewrite for_range_nil by lia.
Qed.

Lemma find_range_Some {R} lo hi (f : Z → option R) r :
  find_range lo hi f = Some r →
  ∃ i, lo ≤ i < hi ∧ f i = Some r ∧ ∀ j, lo ≤ j < i → f j = None.
Proof.
  unfold find_range. remember (Z.to_nat (hi - lo)) as n eqn:Hn.
  revert lo Hn. induction n as [|n IH]; intros lo Hn; simpl; [done|].
  destruct (f lo) eqn:Hf.
  - intros [= ->]. exists lo. split; [lia|]. split; [done|]. intros; lia.
  - intros Hr. destruct (IH (lo + 1)) as (i & Hi & Hfi & Hmin); [lia|done|].
    exists i. split; [lia|]. split; [done|]. intros j Hj.
    destruct (Z.eq_dec j lo) as [->|]; [done|]. apply Hmin. lia.
Qed.

Lemma find_range_None {R} lo hi (f : Z → option R) :
  find_range lo hi f = None ↔ ∀ i, lo ≤ i < hi → f i = None.
Proof.
  unfold find_range. remember (Z.to_nat (hi - lo)) as n eqn:Hn.
  revert lo Hn. induction n as [|n IH]; intros lo Hn; simpl.
  - split; [intros _ i Hi; lia | done].
  - destruct (f lo) eqn:Hf.
    + split; [done|]. intros H. rewrite H in Hf; [done|lia].
    + rewrite IH by lia. split; intros H i Hi; [|apply H; lia].
      destruct (Z.eq_dec i lo) as [->|]; [done|]. apply H. lia.
Qed.

(** ** Arrays

    A C array of fixed length is a list; [arr_get] reads index [i] (a read out
    of range is undefined behaviour in C and gives [0] here: the components
    prove their indices in range), [arr_set] writes it. *)

Definition arr_get (l : list Z) (i : Z) : Z :=
  if i <? 0 then 0 else default 0 (l !! Z.to_nat i).

Definition arr_set (l : list Z) (i v : Z) : list Z :=
  if i <? 0 then l else <[Z.to_nat i := v]> l.

Definition zlen {A} (l : list A) : Z := Z.of_nat (length l).

Lemma length_arr_set l i v : length (arr_set l i v) = length l.
Proof. unfold arr_set. zcase; [done|]. apply length_insert. Qed.

Lemma zlen_arr_set l i v : zlen (arr_set l i v) = zlen l.
Proof. unfold zlen. by rewrite length_arr_set. Qed.

Lemma arr_get_set_eq l i v : 0 ≤ i < zlen l → arr_get (arr_set l i v) i = v.
Proof.
  unfold zlen, arr_get, arr_set. intros H. repeat zcase; try lia.
  rewrite list_lookup_insert_eq by lia. done.
Qed.

Lemma arr_get_set_ne l i j v : i ≠ j → arr_get (arr_set l i v) j = arr_get l j.
Proof.
  unfold arr_get, arr_set. intros H. repeat zcase; try done.
  rewrite list_lookup_insert_ne by lia. done.
Qed.

Lemma arr_get_lookup l i x : 0 ≤ i → l !! Z.to_nat i = Some x → arr_get l i = x.
Proof. intros Hi H. unfold arr_get. zcase; [lia|]. by rewrite H. Qed.

Lemma arr_get_Forall (P : Z → Prop) l i : P 0 → Forall P l → P (arr_get l i).
Proof.
  intros H0 HF. unfold arr_get. zcase; [done|].
  destruct (l !! Z.to_nat i) eqn:E; simpl; [|done].
  by eapply Forall_lookup_1.
Qed.

Lemma arr_set_Forall (P : Z → Prop) l i v : P v → Forall P l → Forall P (arr_set l i v).
Proof. intros Hv HF. unfold arr_set. zcase; [done|]. by apply Forall_insert. Qed.

(** ** Word memory

    Physical or stack memory as 32-bit words by address; a word never written
    reads as 0 here, and no theorem relies on that. *)

Definition ld (m : gmap Z Z) (a : Z) : Z := default 0 (m !! a).
Definition st (m : gmap Z Z) (a v : Z) : gmap Z Z := <[a := v]> m.

Lemma ld_st_eq m a v : ld (st m a v) a = v.
Proof. unfold ld, st. by rewrite lookup_insert_eq. Qed.

Lemma ld_st_ne m a b v : a ≠ b → ld (st m a v) b = ld m b.
Proof. intros. unfold ld, st. by rewrite lookup_insert_ne. Qed.

(** ** Characters

    A C string literal as its bytes, without the final NUL. *)
Definition str (s : string) : list Z :=
  List.map (λ a, Z.of_N (N_of_ascii a)) (list_ascii_of_string s).

Definition chr (a : ascii) : Z := Z.of_N (N_of_ascii a).
Arguments chr a%_char_scope.

(** ** Counting *)

Fixpoint count_below (p : Z → bool) (n : nat) : Z :=
  match n with
  | O => 0
  | S k => count_below p k + (if p (Z.of_nat k) then 1 else 0)
  end.

Lemma count_below_ext p q n :
  (∀ i, 0 ≤ i < Z.of_nat n → p i = q i) → count_below p n = count_below q n.
Proof.
  induction n as [|n IH]; intros H; simpl; [done|].
  rewrite IH by (intros; apply H; lia). rewrite H by lia. done.
Qed.

Lemma count_below_bounds p n : 0 ≤ count_below p n ≤ Z.of_nat n.
Proof. induction n as [|n IH]; simpl; [lia|]. destruct (p _); lia. Qed.

Lemma count_below_flip p q n f :
  0 ≤ f < Z.of_nat n → p f = false → q f = true →
  (∀ i, i ≠ f → q i = p i) → count_below q n = count_below p n + 1.
Proof.
  induction n as [|n IH]; intros Hf Hp Hq Heq; simpl; [lia|].
  destruct (Z.eq_dec f (Z.of_nat n)) as [->|Hne].
  - rewrite Hp, Hq. rewrite (count_below_ext q p); [lia|]. intros; apply Heq; lia.
  - rewrite IH by (done || lia). rewrite (Heq (Z.of_nat n)) by lia. lia.
Qed.

Lemma count_below_all p n :
  (∀ i, 0 ≤ i < Z.of_nat n → p i = true) → count_below p n = Z.of_nat n.
Proof.
  induction n as [|n IH]; intros H; simpl; [done|].
  rewrite IH by (intros; apply H; lia). rewrite H by lia. lia.
Qed.

(** ** Bits *)

Lemma testbit_land_pow2 w b :
  0 ≤ b → c_true (w &&& (1 <<< b)) = Z.testbit w b.
Proof.
  intros Hb. unfold c_true. destruct (Z.eqb_spec (w &&& (1 <<< b)) 0) as [E|E]; simpl.
  - apply (f_equal (λ z, Z.testbit z b)) in E.
    rewrite Z.land_spec, Z.shiftl_spec, Z.sub_diag, Z.bits_0 in E by lia.
    by rewrite andb_true_r in E.
  - destruct (Z.testbit w b) eqn:Ht; [done|]. exfalso. apply E.
    apply Z.bits_inj_iff. intros n. rewrite Z.land_spec, Z.bits_0.
    rewrite Z.shiftl_1_l. destruct (Z.eq_dec b n) as [->|Hne].
    + by rewrite Ht.
    + rewrite Z.pow2_bits_false by lia. apply andb_false_r.
Qed.

Lemma testbit_set w b n :
  0 ≤ b → Z.testbit (w ||| (1 <<< b)) n = (Z.testbit w n || (n =? b)).
Proof.
  intros Hb. rewrite Z.lor_spec, Z.shiftl_1_l. f_equal.
  destruct (Z.eqb_spec n b) as [->|]; [by apply Z.pow2_bits_true|].
  by rewrite Z.pow2_bits_false by lia.
Qed.

Lemma testbit_u32 z n : 0 ≤ n < 32 → Z.testbit (u32 z) n = Z.testbit z n.
Proof. intros. unfold u32. by rewrite Z.mod_pow2_bits_low by lia. Qed.

Lemma testbit_clear w b n :
  0 ≤ b < 32 → 0 ≤ n < 32 →
  Z.testbit (w &&& u32_not (1 <<< b)) n = (Z.testbit w n && negb (n =? b)).
Proof.
  intros Hb Hn. unfold u32_not. rewrite Z.land_spec, testbit_u32 by lia.
  rewrite Z.lnot_spec by lia. rewrite Z.shiftl_1_l. f_equal. f_equal.
  destruct (Z.eqb_spec n b) as [->|]; [apply Z.pow2_bits_true; lia|].
  by rewrite Z.pow2_bits_false by lia.
Qed.

Lemma shiftr_div n k : 0 ≤ k → n >>> k = n / 2 ^ k.
Proof. apply Z.shiftr_div_pow2. Qed.

Lemma shiftl_mul n k : 0 ≤ k → n <<< k = n * 2 ^ k.
Proof. apply Z.shiftl_mul_pow2. Qed.

Lemma land_mask n k m : 0 ≤ k → m = Z.ones k → n &&& m = n mod 2 ^ k.
Proof. intros Hk ->. by apply Z.land_ones. Qed.

Lemma land_low n : n &&& 31 = n mod 32.
Proof. by apply (land_mask n 5). Qed.

(** Two values with no common bit add like they or. *)
Lemma lor_disjoint_add a b k :
  0 ≤ k → 0 ≤ a < 2 ^ k → b mod 2 ^ k = 0 → a ||| b = a + b.
Proof.
  intros Hk Ha Hb.
  assert (Z.land a b = 0) as Hab.
  { apply Z.bits_inj_iff. intros n. rewrite Z.land_spec, Z.bits_0.
    destruct (Z.lt_ge_cases n k).
    - rewrite <- (Z.mod_pow2_bits_low b k n) by lia.
      rewrite Hb, Z.bits_0. apply andb_false_r.
    - rewrite <- (Z.mod_small a (2 ^ k)) by lia.
      rewrite Z.mod_pow2_bits_high by lia. done. }
  rewrite Z.add_nocarry_lxor, Z.lxor_lor; done.
Qed.

(** A non-negative number whose bits from [k] on are clear is below [2^k]. *)
Lemma bits_below a k :
  0 ≤ k → 0 ≤ a → (∀ n, k ≤ n → Z.testbit a n = false) → a < 2 ^ k.
Proof.
  intros Hk Ha H. replace a with (a mod 2 ^ k).
  { apply Z.mod_pos_bound. lia. }
  apply Z.bits_inj_iff. intros n. destruct (Z.lt_ge_cases n k).
  - by rewrite Z.mod_pow2_bits_low by lia.
  - rewrite Z.mod_pow2_bits_high by lia. by rewrite H by lia.
Qed.

Lemma testbit_above a k n : 0 ≤ a < 2 ^ k → k ≤ n → Z.testbit a n = false.
Proof.
  intros Ha Hn. destruct (Z.lt_ge_cases k 0).
  { rewrite Z.pow_neg_r in Ha by lia. lia. }
  rewrite <- (Z.mod_small a (2 ^ k)) by lia. by rewrite Z.mod_pow2_bits_high by lia.
Qed.

Lemma lor_range a b k :
  0 ≤ k → 0 ≤ a < 2 ^ k → 0 ≤ b < 2 ^ k → 0 ≤ a ||| b < 2 ^ k.
Proof.
  intros Hk Ha Hb. split; [apply Z.lor_nonneg; lia|].
  apply bits_below; [lia|apply Z.lor_nonneg; lia|]. intros n Hn.
  rewrite Z.lor_spec, (testbit_above a k), (testbit_above b k) by lia. done.
Qed.

Lemma land_range a b k : 0 ≤ k → 0 ≤ a < 2 ^ k → 0 ≤ a &&& b < 2 ^ k.
Proof.
  intros Hk Ha. split; [apply Z.land_nonneg; lia|].
  apply bits_below; [lia|apply Z.land_nonneg; lia|]. intros n Hn.
  rewrite Z.land_spec, (testbit_above a k) by lia. done.
Qed.

Lemma u8_range z : 0 ≤ u8 z < 2 ^ 8.
Proof. unfold u8. apply Z.mod_pos_bound. lia. Qed.
Lemma u16_range z : 0 ≤ u16 z < 2 ^ 16.
Proof. unfold u16. apply Z.mod_pos_bound. lia. Qed.
Lemma u32_range z : 0 ≤ u32 z < 2 ^ 32.
Proof. unfold u32. apply Z.mod_pos_bound. lia. Qed.
Lemma u64_range z : 0 ≤ u64 z < 2 ^ 64.
Proof. unfold u64. apply Z.mod_pos_bound. lia. Qed.
Lemma u8_small z : 0 ≤ z < 2 ^ 8 → u8 z = z.
Proof. apply Z.mod_small. Qed.
Lemma u16_small z : 0 ≤ z < 2 ^ 16 → u16 z = z.
Proof. apply Z.mod_small. Qed.
Lemma u32_small z : 0 ≤ z < 2 ^ 32 → u32 z = z.
Proof. apply Z.mod_small. Qed.
Lemma u64_small z : 0 ≤ z < 2 ^ 64 → u64 z = z.
Proof. apply Z.mod_small. Qed.

(** [x & ~(2^k - 1)]: rounding down to a multiple of [2^k]. *)
Lemma land_align n k :
  0 ≤ k ≤ 32 → 0 ≤ n < 2 ^ 32 → n &&& u32_not (Z.ones k) = n - n mod 2 ^ k.
Proof.
  intros Hk Hn.
  replace (n - n mod 2 ^ k) with ((n >>> k) <<< k).
  2: { rewrite shiftl_mul, shiftr_div by lia. pose proof (Z.div_mod n (2 ^ k)). lia. }
  apply Z.bits_inj_iff. intros m. destruct (Z.lt_ge_cases m 0).
  { by rewrite !Z.testbit_neg_r by lia. }
  rewrite Z.land_spec, Z.shiftl_spec by lia. unfold u32_not.
  destruct (Z.lt_ge_cases m 32).
  - rewrite testbit_u32, Z.lnot_spec by lia. destruct (Z.lt_ge_cases m k).
    + rewrite Z.ones_spec_low, (Z.testbit_neg_r _ (m - k)) by lia. apply andb_false_r.
    + rewrite Z.ones_spec_high, Z.shiftr_spec by lia.
      rewrite andb_true_r. f_equal. lia.
  - rewrite (testbit_above n 32 m) by lia. rewrite Z.shiftr_spec by lia.
    rewrite (testbit_above n 32) by lia. done.
Qed.

(** Bytes put together into words. *)
Lemma lor_bytes a b : 0 ≤ a < 256 → 0 ≤ b < 256 → a ||| (b <<< 8) = a + 256 * b.
Proof. intros. rewrite shiftl_mul by lia. rewrite (lor_disjoint_add _ _ 8); zlia. Qed.

Lemma lor4_bytes a b c d :
  0 ≤ a < 256 → 0 ≤ b < 256 → 0 ≤ c < 256 → 0 ≤ d < 256 →
  (a <<< 24) ||| (b <<< 16) ||| (c <<< 8) ||| d = 16777216 * a + 65536 * b + 256 * c + d.
Proof.
  intros Ha Hb Hc Hd. rewrite !shiftl_mul by lia.
  rewrite (Z.lor_comm _ d), (lor_disjoint_add d _ 8).
  - rewrite (Z.lor_comm _ (c * 2 ^ 8)), (lor_disjoint_add (c * 2 ^ 8) _ 16).
    + rewrite (Z.lor_comm _ (b * 2 ^ 16)), (lor_disjoint_add (b * 2 ^ 16) _ 24); zlia.
    + lia.
    + zlia.
    + rewrite (Z.lor_comm _ (b * 2 ^ 16)), (lor_disjoint_add (b * 2 ^ 16) _ 24); zlia.
  - lia.
  - zlia.
  - rewrite (Z.lor_comm _ (c * 2 ^ 8)), (lor_disjoint_add (c * 2 ^ 8) _ 16).
    + rewrite (Z.lor_comm _ (b * 2 ^ 16)), (lor_disjoint_add (b * 2 ^ 16) _ 24); zlia.
    + lia.
    + zlia.
    + rewrite (Z.lor_comm _ (b * 2 ^ 16)), (lor_disjoint_add (b * 2 ^ 16) _ 24); zlia.
Qed.

Create HintDb cint.
#[export] Hint Resolve u8_range u16_range u32_range u64_range : cint.
#[export] Hint Resolve land_range lor_range : cint.
#[export] Hint Extern 5 (_ ≤ _) => lia : cint.
