(* ===== verification/CString.v ===== *)
(** Memory and string routines: lib/string.c, over a flat byte memory, with the
    list-level meaning the other components use. *)
From Stdlib Require Import ZArith Lia Bool String.
From stdpp Require Import base numbers gmap option list.
From S2P Require Import Prelude.

#[local] Open Scope Z_scope.

(** Byte memory by address; [lb] and [sb] are one byte's load and store. *)
Definition bmem := Z → Z.
Definition lb (m : bmem) (a : Z) : Z := m a.
Definition sb (m : bmem) (a v : Z) : bmem := λ x, if x =? a then v else m x.

(** [char] is signed on i386. *)
Definition s8 (b : Z) : Z := (b + 128) mod 256 - 128.

(** [while (n--) *d++ = c;] *)
Fixpoint memset (n : nat) (dst c : Z) (m : bmem) : bmem :=
  match n with O => m | S n => memset n (dst + 1) c (sb m dst (u8 c)) end.

(** The forward copy of [memcpy] and of [memmove] with [d < s]. *)
Fixpoint memcpy (n : nat) (dst src : Z) (m : bmem) : bmem :=
  match n with O => m | S n => memcpy n (dst + 1) (src + 1) (sb m dst (lb m src)) end.

(** [while (n--) *--d = *--s;] from one past the ends. *)
Fixpoint copy_back (n : nat) (d s : Z) (m : bmem) : bmem :=
  match n with O => m | S n => copy_back n (d - 1) (s - 1) (sb m (d - 1) (lb m (s - 1))) end.

Definition memmove (n : nat) (dst src : Z) (m : bmem) : bmem :=
  if dst <? src then memcpy n dst src m
  else copy_back n (dst + Z.of_nat n) (src + Z.of_nat n) m.

Fixpoint memcmp (n : nat) (a b : Z) (m : bmem) : Z :=
  match n with
  | O => 0
  | S n => if lb m a =? lb m b then memcmp n (a + 1) (b + 1) m else lb m a - lb m b
  end.

(** [while (s[n]) n++;] with fuel for the length. *)
Fixpoint strlen (fuel : nat) (s n : Z) (m : bmem) : Z :=
  match fuel with
  | O => n
  | S fuel => if lb m (s + n) =? 0 then n else strlen fuel s (n + 1) m
  end.

(** The comparisons in the loops are between [char]s, the result between
    [unsigned char]s. *)
Fixpoint strcmp (fuel : nat) (a b : Z) (m : bmem) : Z :=
  match fuel with
  | O => u8 (lb m a) - u8 (lb m b)
  | S fuel =>
      if negb (lb m a =? 0) && (s8 (lb m a) =? s8 (lb m b)) then strcmp fuel (a + 1) (b + 1) m
      else u8 (lb m a) - u8 (lb m b)
  end.

Fixpoint strncmp (n : nat) (a b : Z) (m : bmem) : Z :=
  match n with
  | O => 0
  | S n =>
      if negb (s8 (lb m a) =? s8 (lb m b)) then u8 (lb m a) - u8 (lb m b)
      else if lb m a =? 0 then 0
      else strncmp n (a + 1) (b + 1) m
  end.

(** ** Lists in memory *)

Definition bytes (l : list Z) : Prop := Forall (λ b, 0 ≤ b < 256) l.

(** The bytes [l] are stored at [a]. *)
Definition holds (m : bmem) (a : Z) (l : list Z) : Prop :=
  ∀ i, 0 ≤ i < zlen l → lb m (a + i) = arr_get l i.

(** A C string: no NUL inside, one behind. *)
Definition cstring (m : bmem) (a : Z) (s : list Z) : Prop :=
  holds m a (s ++ [0]) ∧ Forall (λ b, 0 < b < 256) s.

Lemma arr_get_cons_0 x l : arr_get (x :: l) 0 = x.
Proof. done. Qed.

Lemma arr_get_cons_S x l i : 0 ≤ i → arr_get (x :: l) (i + 1) = arr_get l i.
Proof.
  intros Hi. unfold arr_get. do 2 zcase; try lia.
  replace (Z.to_nat (i + 1)) with (S (Z.to_nat i)) by lia. done.
Qed.

Lemma zlen_cons {A} (x : A) l : zlen (x :: l) = zlen l + 1.
Proof. unfold zlen. simpl length. lia. Qed.

Lemma holds_cons m a x l : holds m a (x :: l) ↔ lb m a = x ∧ holds m (a + 1) l.
Proof.
  split.
  - intros H. split.
    + assert (0 ≤ 0 < zlen (x :: l)) as H0 by (rewrite zlen_cons; unfold zlen; lia).
      pose proof (H 0 H0) as E. by rewrite Z.add_0_r in E.
    + intros i Hi. replace (a + 1 + i) with (a + (i + 1)) by lia.
      rewrite H by (rewrite zlen_cons; lia). apply arr_get_cons_S. lia.
  - intros [Hx Hl] i Hi. rewrite zlen_cons in Hi. destruct (Z.eq_dec i 0) as [->|Hne].
    + by rewrite Z.add_0_r.
    + replace (a + i) with (a + 1 + (i - 1)) by lia. rewrite Hl by lia.
      replace i with (i - 1 + 1) at 2 by lia. by rewrite arr_get_cons_S by lia.
Qed.

Lemma holds_ext m m' a l :
  (∀ i, 0 ≤ i < zlen l → lb m' (a + i) = lb m (a + i)) → holds m a l → holds m' a l.
Proof. intros Hm Hl i Hi. rewrite Hm by done. by apply Hl. Qed.

Lemma sb_eq m a v : lb (sb m a v) a = v.
Proof. unfold lb, sb. by rewrite Z.eqb_refl. Qed.

Lemma sb_ne m a b v : a ≠ b → lb (sb m a v) b = lb m b.
Proof. intros. unfold lb, sb. destruct (Z.eqb_spec b a); [congruence|done]. Qed.

Lemma memset_spec n dst c m x :
  lb (memset n dst c m) x = if (dst <=? x) && (x <? dst + Z.of_nat n) then u8 c else lb m x.
Proof.
  revert dst m. induction n as [|n IH]; intros dst m; cbn [memset].
  - repeat (zcase; cbn [andb]); first [done|lia].
  - rewrite IH. destruct (Z.eq_dec x dst) as [->|Hne].
    + rewrite sb_eq. repeat (zcase; cbn [andb]); first [done|lia].
    + rewrite sb_ne by congruence. repeat (zcase; cbn [andb]); first [done|lia].
Qed.

(** Forward copying is right when the destination is below the source, or the
    two do not overlap. *)
Lemma memcpy_spec n dst src m x :
  dst ≤ src ∨ src + Z.of_nat n ≤ dst →
  lb (memcpy n dst src m) x =
  if (dst <=? x) && (x <? dst + Z.of_nat n) then lb m (src + (x - dst)) else lb m x.
Proof.
  revert dst src m. induction n as [|n IH]; intros dst src m Hd; cbn [memcpy].
  - repeat (zcase; cbn [andb]); first [done|lia].
  - rewrite IH by lia. destruct (Z.eq_dec x dst) as [->|Hne].
    + rewrite sb_eq, Z.sub_diag, Z.add_0_r. repeat (zcase; cbn [andb]); first [done|lia].
    + rewrite (sb_ne _ dst x) by congruence.
      repeat (zcase; cbn [andb]); try lia; try done.
      rewrite sb_ne by lia. f_equal. lia.
Qed.

Lemma copy_back_spec n dst src m x :
  src ≤ dst →
  lb (copy_back n (dst + Z.of_nat n) (src + Z.of_nat n) m) x =
  if (dst <=? x) && (x <? dst + Z.of_nat n) then lb m (src + (x - dst)) else lb m x.
Proof.
  intros Hd. revert m. induction n as [|n IH]; intros m; cbn [copy_back].
  - repeat (zcase; cbn [andb]); first [done|lia].
  - replace (dst + Z.of_nat (S n) - 1) with (dst + Z.of_nat n) by lia.
    replace (src + Z.of_nat (S n) - 1) with (src + Z.of_nat n) by lia.
    rewrite IH. destruct (Z.eq_dec x (dst + Z.of_nat n)) as [->|Hne].
    + rewrite sb_eq. repeat (zcase; cbn [andb]); try lia. f_equal. lia.
    + rewrite (sb_ne _ (dst + Z.of_nat n) x) by congruence.
      repeat (zcase; cbn [andb]); try lia; try done. rewrite sb_ne by lia. done.
Qed.

Lemma memcmp_spec la lb' a b m :
  length la = length lb' → holds m a la → holds m b lb' →
  (memcmp (length la) a b m = 0 ↔ la = lb').
Proof.
  revert lb' a b. induction la as [|x la IH]; intros [|y lb'] a b Hl Ha Hb; try done.
  simpl length in *. cbn [memcmp]. apply holds_cons in Ha as [Hx Ha]. apply holds_cons in Hb as [Hy Hb].
  rewrite Hx, Hy. destruct (Z.eqb_spec x y) as [->|Hne].
  - injection Hl as Hl. rewrite (IH lb' (a + 1) (b + 1) Hl Ha Hb). split; [by intros ->|by intros [= ->]].
  - split; [lia|]. intros [= -> _]. done.
Qed.

Lemma strlen_spec fuel s a k m :
  cstring m a s → 0 ≤ k ≤ zlen s → (Z.to_nat (zlen s - k) < fuel)%nat → strlen fuel a k m = zlen s.
Proof.
  intros [Hh Hs]. revert k. induction fuel as [|fuel IH]; intros k Hk Hf; [lia|]. cbn [strlen].
  assert (zlen (s ++ [0]) = zlen s + 1) as Hlen by (unfold zlen; rewrite length_app; simpl; lia).
  rewrite Hh by lia. destruct (Z.eq_dec k (zlen s)) as [->|Hne].
  - unfold arr_get, zlen at 2. zcase; [unfold zlen in *; lia|]. rewrite Nat2Z.id.
    rewrite lookup_app_r by lia. by rewrite Nat.sub_diag.
  - unfold arr_get. zcase; [lia|].
    assert (Z.to_nat k < length s)%nat as Hlt by (unfold zlen in *; lia).
    destruct (lookup_lt_is_Some_2 s (Z.to_nat k) Hlt) as [b Hb].
    rewrite (lookup_app_l_Some _ _ _ _ Hb). simpl.
    pose proof (Forall_lookup_1 _ _ _ _ Hs Hb) as Hr. simpl in Hr. zcase; [lia|].
    apply IH; lia.
Qed.

Lemma s8_inj a b : 0 ≤ a < 256 → 0 ≤ b < 256 → s8 a = s8 b → a = b.
Proof. unfold s8. intros. zlia. Qed.

Lemma cstring_cons m a x s : cstring m a (x :: s) ↔ lb m a = x ∧ 0 < x < 256 ∧ cstring m (a + 1) s.
Proof.
  unfold cstring. change ((x :: s) ++ [0]) with (x :: (s ++ [0])).
  rewrite holds_cons, Forall_cons. tauto.
Qed.

Lemma cstring_nil m a : cstring m a [] ↔ lb m a = 0.
Proof. unfold cstring. simpl app. rewrite holds_cons. split; [tauto|]. intros E.
  split; [split; [done|]|done]. intros i Hi. unfold zlen in Hi. simpl in Hi. lia. Qed.

(** Lexicographic order of strings as unsigned bytes. *)
Fixpoint str_order (s t : list Z) : Z :=
  match s, t with
  | [], [] => 0
  | [], y :: _ => - y
  | x :: _, [] => x
  | x :: s, y :: t => if x =? y then str_order s t else x - y
  end.

Lemma strcmp_spec fuel s t a b m :
  cstring m a s → cstring m b t → (length s < fuel)%nat → strcmp fuel a b m = str_order s t.
Proof.
  revert fuel t a b. induction s as [|x s IH]; intros fuel t a b Ha Hb Hf;
    (destruct fuel as [|fuel]; [lia|]); cbn [strcmp].
  - apply cstring_nil in Ha. rewrite Ha. change (0 =? 0) with true. cbn [negb andb].
    destruct t as [|y t].
    + apply cstring_nil in Hb. by rewrite Hb.
    + apply cstring_cons in Hb as (-> & Hy & _). simpl. rewrite (u8_small y) by (zpow; lia).
      change (u8 0) with 0. lia.
  - apply cstring_cons in Ha as (Hx & Hxr & Ha). rewrite Hx.
    destruct (Z.eqb_spec x 0); [lia|]. cbn [negb andb].
    destruct t as [|y t].
    + apply cstring_nil in Hb. rewrite Hb. destruct (Z.eqb_spec (s8 x) (s8 0)) as [E|_].
      * apply s8_inj in E; lia.
      * simpl. rewrite (u8_small x) by (zpow; lia). change (u8 0) with 0. lia.
    + apply cstring_cons in Hb as (Hy & Hyr & Hb). rewrite Hy. simpl str_order.
      destruct (Z.eqb_spec (s8 x) (s8 y)) as [E|E].
      * apply s8_inj in E; [|lia|lia]. rewrite E, Z.eqb_refl.
        apply IH; [done|done|simpl in Hf; lia].
      * destruct (Z.eqb_spec x y) as [->|]; [done|]. rewrite !u8_small by (zpow; lia). done.
Qed.

Lemma str_order_zero s t :
  Forall (λ b, 0 < b < 256) s → Forall (λ b, 0 < b < 256) t → (str_order s t = 0 ↔ s = t).
Proof.
  revert t. induction s as [|x s IH]; intros [|y t] Hs Ht; simpl; try done.
  - apply Forall_cons in Ht as [? _]. split; [lia|done].
  - apply Forall_cons in Hs as [? _]. split; [lia|done].
  - apply Forall_cons in Hs as [? Hs]. apply Forall_cons in Ht as [? Ht].
    destruct (Z.eqb_spec x y) as [->|Hne].
    + rewrite IH by done. split; [by intros ->|by intros [= ->]].
    + split; [lia|]. by intros [= -> _].
Qed.

Lemma strncmp_spec n s t a b m :
  cstring m a s → cstring m b t → strncmp n a b m = str_order (take n s) (take n t).
Proof.
  revert s t a b. induction n as [|n IH]; intros s t a b Ha Hb; cbn [strncmp take]; [done|].
  destruct s as [|x s]; destruct t as [|y t].
  - apply cstring_nil in Ha, Hb. by rewrite Ha, Hb.
  - apply cstring_nil in Ha. apply cstring_cons in Hb as (-> & Hy & _). rewrite Ha.
    destruct (Z.eqb_spec (s8 0) (s8 y)) as [E|_]; [apply s8_inj in E; lia|].
    simpl. rewrite (u8_small y) by (zpow; lia). change (u8 0) with 0. lia.
  - apply cstring_nil in Hb. apply cstring_cons in Ha as (-> & Hx & _). rewrite Hb.
    destruct (Z.eqb_spec (s8 x) (s8 0)) as [E|_]; [apply s8_inj in E; lia|].
    simpl. rewrite (u8_small x) by (zpow; lia). change (u8 0) with 0. lia.
  - apply cstring_cons in Ha as (-> & Hx & Ha). apply cstring_cons in Hb as (-> & Hy & Hb).
    simpl take. simpl str_order. destruct (Z.eqb_spec (s8 x) (s8 y)) as [E|E]; cbn [negb].
    + apply s8_inj in E; [|lia|lia]. rewrite E, Z.eqb_refl.
      destruct (Z.eqb_spec y 0); [lia|]. by apply IH.
    + destruct (Z.eqb_spec x y) as [->|]; [done|]. rewrite !u8_small by (zpow; lia). done.
Qed.

(** ** Properties *)

(** [memmove] copies correctly whatever the overlap: afterwards the
    destination holds what the source held before, and no other byte changed;
    [memcpy] does the same when the destination starts below the source or the
    two do not overlap. *)
Theorem memmove_copies n dst src m x :
  (lb (memmove n dst src m) x =
     if (dst <=? x) && (x <? dst + Z.of_nat n) then lb m (src + (x - dst)) else lb m x) ∧
  (dst ≤ src ∨ src + Z.of_nat n ≤ dst → lb (memcpy n dst src m) x = lb (memmove n dst src m) x).
Proof.
  assert (lb (memmove n dst src m) x =
     if (dst <=? x) && (x <? dst + Z.of_nat n) then lb m (src + (x - dst)) else lb m x) as Hm.
  { unfold memmove. zcase; [apply memcpy_spec; lia|apply copy_back_spec; lia]. }
  split; [done|]. intros Hd. rewrite Hm. by apply memcpy_spec.
Qed.

Lemma memmove_copies_witness :
  let m := λ a, if (10 <=? a) && (a <? 14) then 65 + (a - 10) else 0 in
  map (lb (memmove 4 12 10 m)) [10; 11; 12; 13; 14; 15] = str "ABABCD" ∧
  lb (memcpy 4 8 10 m) 8 = lb (memmove 4 8 10 m) 8.
Proof.
  split; [vm_compute; reflexivity|].
  assert (8 ≤ 10 ∨ 10 + Z.of_nat 4 ≤ 8) as Hd by lia.
  exact (proj2 (memmove_copies 4 8 10 _ 8) Hd).
Defined.

(** The comparisons compare: [strcmp] of two C strings has the sign of their
    lexicographic order as unsigned bytes and is 0 exactly on equal strings;
    [strncmp] is the same on the first [n] bytes; [memcmp] is 0 exactly when the
    two blocks are equal. *)
Theorem comparisons_correct fuel n m a b s t :
  cstring m a s → cstring m b t → (length s < fuel)%nat →
  strcmp fuel a b m = str_order s t ∧ (strcmp fuel a b m = 0 ↔ s = t) ∧
  strncmp n a b m = str_order (take n s) (take n t) ∧
  (length s = length t → (memcmp (length s) a b m = 0 ↔ s = t)).
Proof.
  intros Ha Hb Hf. pose proof (strcmp_spec fuel s t a b m Ha Hb Hf) as E.
  split; [done|]. split; [rewrite E; apply str_order_zero; [apply Ha|apply Hb]|].
  split; [by apply strncmp_spec|]. intros Hl.
  assert (∀ c u, cstring m c u → holds m c u) as Hh.
  { intros c u [Hh _] i Hi. assert (zlen (u ++ [0]) = zlen u + 1) as Hlen
      by (unfold zlen; rewrite length_app; simpl; lia).
    rewrite Hh by lia. unfold arr_get. zcase; [done|]. unfold zlen in Hi.
    by rewrite lookup_app_l by lia. }
  apply memcmp_spec; auto.
Qed.

Lemma comparisons_correct_witness :
  let m := λ a, arr_get (str "abc" ++ [0] ++ str "abd" ++ [0]) a in
  strcmp 4 0 4 m = -1 ∧ strncmp 2 0 4 m = 0.
Proof.
  set (m := λ a, arr_get (str "abc" ++ [0] ++ str "abd" ++ [0]) a).
  assert (cstring m 0 (str "abc")) as H1.
  { repeat (apply cstring_cons; split; [reflexivity|split; [vm_compute; split; reflexivity|]]).
    apply cstring_nil. reflexivity. }
  assert (cstring m 4 (str "abd")) as H2.
  { repeat (apply cstring_cons; split; [reflexivity|split; [vm_compute; split; reflexivity|]]).
    apply cstring_nil. reflexivity. }
  assert (length (str "abc") < 4)%nat as Hf by (vm_compute; constructor).
  destruct (comparisons_correct 4 2 m 0 4 (str "abc") (str "abd") H1 H2 Hf) as (E1 & _ & E2 & _).
  split; [exact E1|exact E2].
Defined.
