(* ===== verification/Console.v ===== *)
(** Text console: drivers/console.c, the 80x25 VGA text screen with its hardware
    cursor, mirrored on the serial port.  Other components produce console
    calls ([con_call]); this one says what they do to the screen. *)
From Stdlib Require Import ZArith Lia Bool String.
From stdpp Require Import base numbers gmap option list.
From S2P Require Import Prelude.

#[local] Open Scope Z_scope.
#[local] Open Scope c_scope.

Definition VGA_COLS : Z := 80.
Definition VGA_ROWS : Z := 25.
Definition COM1 : Z := 0x3F8.

Inductive vga_color :=
  | VGA_BLACK | VGA_BLUE | VGA_GREEN | VGA_CYAN
  | VGA_RED | VGA_MAGENTA | VGA_BROWN | VGA_LIGHT_GREY
  | VGA_DARK_GREY | VGA_LIGHT_BLUE | VGA_LIGHT_GREEN | VGA_LIGHT_CYAN
  | VGA_LIGHT_RED | VGA_LIGHT_MAGENTA | VGA_YELLOW | VGA_WHITE.

Definition color_val (c : vga_color) : Z :=
  match c with
  | VGA_BLACK => 0 | VGA_BLUE => 1 | VGA_GREEN => 2 | VGA_CYAN => 3
  | VGA_RED => 4 | VGA_MAGENTA => 5 | VGA_BROWN => 6 | VGA_LIGHT_GREY => 7
  | VGA_DARK_GREY => 8 | VGA_LIGHT_BLUE => 9 | VGA_LIGHT_GREEN => 10 | VGA_LIGHT_CYAN => 11
  | VGA_LIGHT_RED => 12 | VGA_LIGHT_MAGENTA => 13 | VGA_YELLOW => 14 | VGA_WHITE => 15
  end.

(** The screen's cells, the module's statics, and the port writes made, newest
    first. *)
Record console := MkConsole {
  cells : list Z;
  cur_row : Z;
  cur_col : Z;
  cur_attr : Z;
  port_log : list (Z * Z)
}.

Definition outb (port v : Z) (s : console) : console :=
  MkConsole (cells s) (cur_row s) (cur_col s) (cur_attr s) ((port, v) :: port_log s).
Definition set_pos (row col : Z) (s : console) : console :=
  MkConsole (cells s) row col (cur_attr s) (port_log s).
Definition set_cell (i v : Z) (s : console) : console :=
  MkConsole (arr_set (cells s) i v) (cur_row s) (cur_col s) (cur_attr s) (port_log s).

Definition vga_cell (c attr : Z) : Z := u16 (u8 c ||| (attr <<< 8)).

Definition console_set_color (fg bg : vga_color) (s : console) : console :=
  MkConsole (cells s) (cur_row s) (cur_col s)
    (u8 (color_val fg ||| u8 (color_val bg <<< 4))) (port_log s).

Definition vga_move_cursor (s : console) : console :=
  let pos := u16 (cur_row s * VGA_COLS + cur_col s) in
  outb 0x3D5 (u8 ((pos >>> 8) &&& 0xFF))
    (outb 0x3D4 0x0E (outb 0x3D5 (u8 (pos &&& 0xFF)) (outb 0x3D4 0x0F s))).

Definition console_clear (s : console) : console :=
  let blank := vga_cell 32 (cur_attr s) in
  let s := for_range 0 (VGA_COLS * VGA_ROWS) (λ i s, set_cell i blank s) s in
  vga_move_cursor (set_pos 0 0 s).

Definition vga_scroll (s : console) : console :=
  let s := for_range 1 VGA_ROWS (λ r s, for_range 0 VGA_COLS (λ c s,
             set_cell ((r - 1) * VGA_COLS + c) (arr_get (cells s) (r * VGA_COLS + c)) s) s) s in
  let blank := vga_cell 32 (cur_attr s) in
  let s := for_range 0 VGA_COLS (λ c s, set_cell ((VGA_ROWS - 1) * VGA_COLS + c) blank s) s in
  set_pos (VGA_ROWS - 1) (cur_col s) s.

(** The switch of [vga_putc]. *)
Definition vga_put (c : Z) (s : console) : console :=
  if c =? 10 then set_pos (cur_row s + 1) 0 s
  else if c =? 13 then set_pos (cur_row s) 0 s
  else if c =? 9 then set_pos (cur_row s) (u32 (cur_col s + 4) &&& u32_not 3) s
  else if c =? 8 then
    if 0 <? cur_col s then
      let s := set_pos (cur_row s) (cur_col s - 1) s in
      set_cell (cur_row s * VGA_COLS + cur_col s) (vga_cell 32 (cur_attr s)) s
    else s
  else
    let s := set_cell (cur_row s * VGA_COLS + cur_col s) (vga_cell c (cur_attr s)) s in
    set_pos (cur_row s) (cur_col s + 1) s.

Definition vga_putc (c : Z) (s : console) : console :=
  let s := vga_put c s in
  let s := if VGA_COLS <=? cur_col s then set_pos (cur_row s + 1) 0 s else s in
  if VGA_ROWS <=? cur_row s then vga_scroll s else s.

(** [serial_putc] from the write of the data port on; the wait for the transmitter
    before it is in [Serial], which shows that it changes nothing else. *)
Definition serial_putc (c : Z) (s : console) : console := outb COM1 (u8 c) s.

Definition serial_init (s : console) : console :=
  fold_left (λ s pv, outb pv.1 pv.2 s)
    [(COM1 + 1, 0x00); (COM1 + 3, 0x80); (COM1 + 0, 0x03); (COM1 + 1, 0x00);
     (COM1 + 3, 0x03); (COM1 + 2, 0xC7); (COM1 + 4, 0x0B)] s.

Definition console_init (s : console) : console :=
  console_clear (console_set_color VGA_LIGHT_GREY VGA_BLACK (serial_init s)).

Definition console_putc (c : Z) (s : console) : console :=
  let s := if c =? 10 then serial_putc 13 s else s in
  let s := if c =? 8 then serial_putc 8 (serial_putc 32 (serial_putc 8 s)) else serial_putc c s in
  vga_move_cursor (vga_putc c s).

(** [console_write] of a string of bytes. *)
Definition console_write (t : list Z) (s : console) : console :=
  fold_left (λ s c, console_putc c s) t s.

(** The digit buffer of [console_write_dec], least significant digit first; ten
    digits hold any 32-bit value. *)
Fixpoint dec_buf (fuel : nat) (value : Z) : list Z :=
  match fuel with
  | O => []
  | S fuel => if 0 <? value then (48 + value mod 10) :: dec_buf fuel (value / 10) else []
  end.

Definition dec_digits (value : Z) : list Z :=
  if value =? 0 then [48] else rev (dec_buf 10 value).

Definition console_write_dec (value : Z) (s : console) : console :=
  console_write (dec_digits value) s.

Definition hex_digit (d : Z) : Z := arr_get (str "0123456789ABCDEF") d.

(** [for (shift = 28; shift >= 0; shift -= 4)] *)
Definition hex_digits (value : Z) : list Z :=
  str "0x" ++ map (λ shift, hex_digit ((value >>> shift) &&& 0xF)) [28; 24; 20; 16; 12; 8; 4; 0].

Definition console_write_hex (value : Z) (s : console) : console :=
  console_write (hex_digits value) s.

(** ** Console calls, as the other components make them *)

Inductive con_call :=
  | CPutc (c : Z)
  | CColor (fg bg : vga_color)
  | CClear.

Definition con_write (t : list Z) : list con_call := map CPutc t.
Definition con_dec (v : Z) : list con_call := con_write (dec_digits v).
Definition con_hex (v : Z) : list con_call := con_write (hex_digits v).
Definition nl : list Z := [10].

Definition con_run (calls : list con_call) (s : console) : console :=
  fold_left (λ s k, match k with
    | CPutc c => console_putc c s
    | CColor fg bg => console_set_color fg bg s
    | CClear => console_clear s
    end) calls s.

(** ** Well-formed screens *)

Record console_wf (s : console) : Prop := {
  cw_len : zlen (cells s) = VGA_COLS * VGA_ROWS;
  cw_row : 0 ≤ cur_row s < VGA_ROWS;
  cw_col : 0 ≤ cur_col s < VGA_COLS;
  cw_attr : 0 ≤ cur_attr s < 2 ^ 8
}.

(** The position the hardware cursor was last given: the newest values sent to
    the low and high cursor registers. *)
Definition hw_cursor (s : console) : option Z :=
  match port_log s with
  | (0x3D5, hi) :: (0x3D4, 0x0E) :: (0x3D5, lo) :: (0x3D4, 0x0F) :: _ => Some (hi * 256 + lo)
  | _ => None
  end.

Lemma move_cursor_hw s : console_wf s →
  hw_cursor (vga_move_cursor s) = Some (cur_row s * VGA_COLS + cur_col s).
Proof.
  intros [_ Hr Hc _]. unfold VGA_ROWS, VGA_COLS in *. unfold hw_cursor, vga_move_cursor, outb.
  cbn [port_log]. f_equal. set (p := u16 _).
  assert (p = cur_row s * VGA_COLS + cur_col s) as -> by (apply u16_small; unfold VGA_COLS; zpow; lia).
  unfold VGA_COLS. rewrite !(land_mask _ 8) by done. rewrite shiftr_div by lia.
  unfold u8. zpow. clear -Hr Hc. Z.to_euclidean_division_equations; lia.
Qed.

(** Same cursor, attribute and log: only cells differ. *)
Definition only_cells (s s' : console) : Prop :=
  cur_row s' = cur_row s ∧ cur_col s' = cur_col s ∧ cur_attr s' = cur_attr s ∧
  port_log s' = port_log s ∧ zlen (cells s') = zlen (cells s).

Lemma set_cell_only i v s : only_cells s (set_cell i v s).
Proof. split_and!; try done. apply zlen_arr_set. Qed.

Lemma only_cells_refl s : only_cells s s.
Proof. by split_and!. Qed.

Lemma only_cells_trans s1 s2 s3 : only_cells s1 s2 → only_cells s2 s3 → only_cells s1 s3.
Proof. intros (? & ? & ? & ? & ?) (? & ? & ? & ? & ?). split_and!; congruence. Qed.

Lemma loop_only lo hi f s :
  (∀ i s, only_cells s (f i s)) → only_cells s (for_range lo hi f s).
Proof.
  intros Hf. apply (for_range_inv (only_cells s)); [done|].
  intros i s' _ H. eapply only_cells_trans; [exact H|apply Hf].
Qed.

(** Moving one row up, cell by cell. *)
Lemma scroll_row r s :
  1 ≤ r < VGA_ROWS → zlen (cells s) = VGA_COLS * VGA_ROWS →
  let s' := for_range 0 VGA_COLS (λ c s,
      set_cell ((r - 1) * VGA_COLS + c) (arr_get (cells s) (r * VGA_COLS + c)) s) s in
  only_cells s s' ∧ ∀ i,
    arr_get (cells s') i =
    if ((r - 1) * VGA_COLS <=? i) && (i <? (r - 1) * VGA_COLS + VGA_COLS)
    then arr_get (cells s) (i + VGA_COLS)
    else arr_get (cells s) i.
Proof.
  unfold VGA_ROWS, VGA_COLS. intros Hr Hlen. cbv zeta.
  apply (for_range_ind (λ k s', only_cells s s' ∧ ∀ i, arr_get (cells s') i =
    if ((r - 1) * 80 <=? i) && (i <? (r - 1) * 80 + k) then arr_get (cells s) (i + 80)
    else arr_get (cells s) i) 0 80); [lia| |].
  - split; [apply only_cells_refl|]. intros i. do 2 zcase; cbn [andb]; try done. lia.
  - intros k s' Hk [Ho IH]. split; [eapply only_cells_trans; [exact Ho|apply set_cell_only]|].
    destruct Ho as (_ & _ & _ & _ & Hz). intros i.
    cbn [set_cell cells]. destruct (Z.eq_dec i ((r - 1) * 80 + k)) as [->|Hne].
    + rewrite arr_get_set_eq by lia. rewrite IH. do 4 zcase; cbn [andb]; try lia.
      f_equal. lia.
    + rewrite arr_get_set_ne by lia. rewrite IH. repeat (zcase; cbn [andb]); first [done|lia].
Qed.

(** [vga_scroll]: every line moves up by one, the last is blank. *)
Lemma vga_scroll_spec s :
  zlen (cells s) = VGA_COLS * VGA_ROWS →
  let s' := vga_scroll s in
  zlen (cells s') = VGA_COLS * VGA_ROWS ∧ cur_row s' = VGA_ROWS - 1 ∧ cur_col s' = cur_col s ∧
  cur_attr s' = cur_attr s ∧
  ∀ i, 0 ≤ i < VGA_COLS * VGA_ROWS → arr_get (cells s') i =
    if i <? (VGA_ROWS - 1) * VGA_COLS then arr_get (cells s) (i + VGA_COLS)
    else vga_cell 32 (cur_attr s).
Proof.
  intros Hlen. cbv zeta. unfold vga_scroll.
  set (s1 := for_range 1 VGA_ROWS _ s).
  assert (only_cells s s1 ∧ ∀ i, 0 ≤ i → arr_get (cells s1) i =
    if i <? (VGA_ROWS - 1) * VGA_COLS then arr_get (cells s) (i + VGA_COLS)
    else arr_get (cells s) i) as [Ho1 H1].
  { apply (for_range_ind (λ r s', only_cells s s' ∧ ∀ i, 0 ≤ i → arr_get (cells s') i =
      if i <? (r - 1) * VGA_COLS then arr_get (cells s) (i + VGA_COLS) else arr_get (cells s) i)
      1 VGA_ROWS); [done| |].
    - split; [apply only_cells_refl|]. intros i Hi. unfold VGA_COLS. zcase; [lia|done].
    - intros r s' Hr [Ho IH].
      assert (zlen (cells s') = VGA_COLS * VGA_ROWS) as Hl' by (destruct Ho as (_ & _ & _ & _ & ->); done).
      destruct (scroll_row r s' Hr Hl') as [Ho' Hrow]. split; [by eapply only_cells_trans|].
      intros i Hi. rewrite Hrow. rewrite !IH by (unfold VGA_COLS; lia).
      unfold VGA_COLS in *. repeat (zcase; cbn [andb]); first [done|lia]. }
  set (blank := vga_cell 32 (cur_attr s1)).
  assert (cur_attr s1 = cur_attr s) as Hattr by apply Ho1.
  clearbody s1. set (s2 := for_range 0 VGA_COLS _ s1).
  assert (only_cells s1 s2 ∧ ∀ i, arr_get (cells s2) i =
    if ((VGA_ROWS - 1) * VGA_COLS <=? i) && (i <? VGA_ROWS * VGA_COLS) then blank
    else arr_get (cells s1) i) as [Ho2 H2].
  { unfold s2. change (VGA_ROWS * VGA_COLS) with ((VGA_ROWS - 1) * VGA_COLS + VGA_COLS).
    apply (for_range_ind (λ k s', only_cells s1 s' ∧ ∀ i, arr_get (cells s') i =
      if ((VGA_ROWS - 1) * VGA_COLS <=? i) && (i <? (VGA_ROWS - 1) * VGA_COLS + k) then blank
      else arr_get (cells s1) i) 0 VGA_COLS); [done| |].
    - split; [apply only_cells_refl|]. intros i. do 2 zcase; cbn [andb]; try done. lia.
    - intros k s' Hk [Ho IH]. split; [eapply only_cells_trans; [exact Ho|apply set_cell_only]|].
      assert (zlen (cells s') = VGA_COLS * VGA_ROWS) as Hl'.
      { destruct Ho as (_ & _ & _ & _ & ->). destruct Ho1 as (_ & _ & _ & _ & ->). done. }
      unfold VGA_ROWS, VGA_COLS in *. intros i. cbn [set_cell cells].
      destruct (Z.eq_dec i ((25 - 1) * 80 + k)) as [->|Hne].
      + rewrite arr_get_set_eq by lia. repeat (zcase; cbn [andb]); first [done|lia].
      + rewrite arr_get_set_ne by lia. rewrite IH. repeat (zcase; cbn [andb]); first [done|lia]. }
  clearbody s2. cbn [set_pos cells cur_row cur_col cur_attr].
  destruct (only_cells_trans _ _ _ Ho1 Ho2) as (_ & Ec & Ea & _ & El).
  split_and!; [by rewrite El|done|done|done|].
  intros i Hi. rewrite H2, H1 by lia. unfold blank. rewrite Hattr.
  unfold VGA_ROWS, VGA_COLS in *. repeat (zcase; cbn [andb]); first [done|lia].
Qed.

(** ** One character *)

Lemma vga_put_spec c s :
  console_wf s →
  let s' := vga_put c s in
  zlen (cells s') = VGA_COLS * VGA_ROWS ∧ 0 ≤ cur_row s' ≤ VGA_ROWS ∧ 0 ≤ cur_col s' ≤ VGA_COLS ∧
  (VGA_ROWS = cur_row s' → cur_col s' = 0) ∧ cur_attr s' = cur_attr s.
Proof.
  intros [Hl Hr Hc Ha]. cbv zeta. unfold vga_put, VGA_ROWS, VGA_COLS in *.
  destruct (c =? 10); [cbn; split_and!; lia|]. destruct (c =? 13); [cbn; split_and!; lia|].
  destruct (c =? 9).
  { cbn [set_pos cells cur_row cur_col cur_attr]. change 3 with (Z.ones 2).
    rewrite u32_small, land_align by (zpow; lia). split_and!; try lia; zpow; zlia. }
  destruct (c =? 8).
  { zcase; cbn; rewrite ?zlen_arr_set; split_and!; lia. }
  cbn. rewrite zlen_arr_set. split_and!; lia.
Qed.

Lemma vga_putc_wf c s : console_wf s → console_wf (vga_putc c s).
Proof.
  intros Hwf. destruct (vga_put_spec c s Hwf) as (Hl & Hr & Hc & Hrc & Ha). unfold vga_putc.
  set (s1 := vga_put c s) in *.
  set (s2 := if VGA_COLS <=? cur_col s1 then set_pos (cur_row s1 + 1) 0 s1 else s1).
  assert (zlen (cells s2) = VGA_COLS * VGA_ROWS ∧ 0 ≤ cur_row s2 ≤ VGA_ROWS ∧
    0 ≤ cur_col s2 < VGA_COLS ∧ cur_attr s2 = cur_attr s) as (Hl2 & Hr2 & Hc2 & Ha2).
  { unfold s2, VGA_COLS, VGA_ROWS in *. zcase; cbn; split_and!; lia. }
  pose proof (cw_attr _ Hwf) as Hat. zcase.
  - destruct (vga_scroll_spec s2 Hl2) as (Hl3 & Hr3 & Hc3 & Ha3 & _).
    split; [done|rewrite Hr3; unfold VGA_ROWS; lia|by rewrite Hc3|by rewrite Ha3, Ha2].
  - split; [done|lia|done|by rewrite Ha2].
Qed.

Lemma outb_wf p v s : console_wf s → console_wf (outb p v s).
Proof. intros []. by split. Qed.

Lemma move_cursor_wf s : console_wf s → console_wf (vga_move_cursor s).
Proof. intros H. unfold vga_move_cursor. by do 4 apply outb_wf. Qed.

Lemma console_putc_spec c s :
  console_wf s →
  console_wf (console_putc c s) ∧
  hw_cursor (console_putc c s) =
    Some (cur_row (console_putc c s) * VGA_COLS + cur_col (console_putc c s)).
Proof.
  intros Hwf. unfold console_putc. set (s0 := if c =? 8 then _ else _).
  assert (console_wf s0) as H0.
  { unfold s0, serial_putc. destruct (c =? 8); destruct (c =? 10); repeat apply outb_wf; done. }
  pose proof (vga_putc_wf c s0 H0) as H1. split; [by apply move_cursor_wf|].
  by rewrite move_cursor_hw.
Qed.

Lemma set_color_wf fg bg s : console_wf s → console_wf (console_set_color fg bg s).
Proof. intros []. split; cbn; try done. apply u8_range. Qed.

Lemma clear_spec s :
  zlen (cells s) = VGA_COLS * VGA_ROWS → 0 ≤ cur_attr s < 2 ^ 8 →
  console_wf (console_clear s) ∧ hw_cursor (console_clear s) = Some 0 ∧
  ∀ i, 0 ≤ i < VGA_COLS * VGA_ROWS → arr_get (cells (console_clear s)) i = vga_cell 32 (cur_attr s).
Proof.
  intros Hl Ha. unfold console_clear. set (blank := vga_cell 32 (cur_attr s)).
  set (s1 := for_range 0 (VGA_COLS * VGA_ROWS) _ s).
  assert (only_cells s s1 ∧ ∀ i, 0 ≤ i < VGA_COLS * VGA_ROWS → arr_get (cells s1) i = blank) as [Ho Hb].
  { apply (for_range_ind (λ k s', only_cells s s' ∧ ∀ i, 0 ≤ i < k → arr_get (cells s') i = blank)
      0 (VGA_COLS * VGA_ROWS)); [done|split; [apply only_cells_refl|lia]|].
    intros k s' Hk [Ho IH]. split; [eapply only_cells_trans; [exact Ho|apply set_cell_only]|].
    assert (zlen (cells s') = VGA_COLS * VGA_ROWS) as Hl' by (by destruct Ho as (_ & _ & _ & _ & ->)).
    intros i Hi. cbn [set_cell cells]. destruct (Z.eq_dec i k) as [->|].
    - by rewrite arr_get_set_eq by lia.
    - rewrite arr_get_set_ne by lia. apply IH. lia. }
  clearbody s1. destruct Ho as (_ & _ & Ea & _ & El).
  assert (console_wf (set_pos 0 0 s1)) as Hw by (split; cbn; [by rewrite El|done|done|by rewrite Ea]).
  split; [by apply move_cursor_wf|]. split; [by rewrite move_cursor_hw|]. exact Hb.
Qed.

Lemma con_run_wf calls s : console_wf s → console_wf (con_run calls s).
Proof.
  revert s. induction calls as [|k calls IH]; intros s Hwf; [done|]. apply IH.
  destruct k as [c|fg bg|].
  - exact (proj1 (console_putc_spec c s Hwf)).
  - exact (set_color_wf fg bg s Hwf).
  - exact (proj1 (clear_spec s (cw_len _ Hwf) (cw_attr _ Hwf))).
Qed.

(** ** Numbers *)

(** Reading digits back, as a left-to-right reader does. *)
Definition dec_value (ds : list Z) : Z := fold_left (λ v d, v * 10 + (d - 48)) ds 0.

Lemma fold_left_snoc {A B} (f : A → B → A) l x a : fold_left f (l ++ [x]) a = f (fold_left f l a) x.
Proof. by rewrite fold_left_app. Qed.

Lemma dec_buf_spec fuel v :
  0 ≤ v < 10 ^ Z.of_nat fuel →
  dec_value (rev (dec_buf fuel v)) = v ∧ Forall (λ d, 48 ≤ d ≤ 57) (dec_buf fuel v) ∧
  (0 < v → last (dec_buf fuel v) ≠ Some 48).
Proof.
  revert v. induction fuel as [|fuel IH]; intros v Hv; cbn [dec_buf].
  - assert (v = 0) as -> by (simpl in Hv; lia). by split_and!.
  - zcase; [|assert (v = 0) as -> by lia; by split_and!].
    destruct (IH (v / 10)) as (IHv & IHd & IHl).
    { rewrite Nat2Z.inj_succ, Z.pow_succ_r in Hv by lia. split; [zlia|].
      apply Z.div_lt_upper_bound; lia. }
    split_and!.
    + simpl rev. unfold dec_value in *. rewrite fold_left_snoc, IHv. zlia.
    + constructor; [zlia|done].
    + intros _. destruct (Z.le_gt_cases v 9).
      * assert (v / 10 = 0) as -> by zlia. assert (dec_buf fuel 0 = []) as -> by (by destruct fuel).
        cbn [last]. intros E. apply Some_inj in E. zlia.
      * assert (0 < v / 10) as Hpos by zlia. specialize (IHl Hpos).
        destruct (dec_buf fuel (v / 10)) as [|d l]; [|done].
        exfalso. revert IHv Hpos. unfold dec_value. simpl. lia.
Qed.

Lemma head_rev {A} (l : list A) : head (rev l) = last l.
Proof. destruct l as [|x l _] using rev_ind; [done|]. by rewrite rev_app_distr, last_snoc. Qed.

(** ** Properties *)

Definition demo_screen : console := MkConsole (replicate 2000 0) 0 0 7 [].

Lemma demo_screen_wf : console_wf demo_screen.
Proof. by split. Qed.

(** C38: whatever the kernel prints, the console stays sane: after any sequence
    of characters, colour changes and clears the cursor is inside the 80x25
    screen, so every cell [vga_putc] writes next exists; and after a character
    the hardware cursor has been programmed to exactly that position. *)
Theorem console_stays_sane calls c s :
  console_wf s →
  let s1 := con_run calls s in
  let s2 := console_putc c s1 in
  console_wf s1 ∧ 0 ≤ cur_row s1 * VGA_COLS + cur_col s1 < zlen (cells s1) ∧
  console_wf s2 ∧ hw_cursor s2 = Some (cur_row s2 * VGA_COLS + cur_col s2).
Proof.
  intros Hwf s1 s2. assert (console_wf s1) as H1 by (by apply con_run_wf).
  destruct (console_putc_spec c s1 H1) as [H2 Hh]. split; [done|].
  split; [|by split]. destruct H1 as [-> Hr Hc _]. unfold VGA_ROWS, VGA_COLS in *. lia.
Qed.

Lemma console_stays_sane_witness :
  let s2 := console_putc 65 (con_run (con_write [10; 9; 8; 66]) demo_screen) in
  console_wf s2 ∧ hw_cursor s2 = Some 85.
Proof.
  destruct (console_stays_sane (con_write [10; 9; 8; 66]) 65 demo_screen demo_screen_wf) as (_ & _ & H1 & H2).
  split; [exact H1|]. vm_compute. reflexivity.
Defined.

(** A newline on the last line scrolls: every line moves up by one, the last
    line is blank in the current colour, and the cursor is at its start. *)
Theorem newline_scrolls s :
  console_wf s → cur_row s = VGA_ROWS - 1 →
  let s' := vga_putc 10 s in
  cur_row s' = VGA_ROWS - 1 ∧ cur_col s' = 0 ∧
  ∀ r c, 0 ≤ r < VGA_ROWS → 0 ≤ c < VGA_COLS →
    arr_get (cells s') (r * VGA_COLS + c) =
    if r <? VGA_ROWS - 1 then arr_get (cells s) ((r + 1) * VGA_COLS + c)
    else vga_cell 32 (cur_attr s).
Proof.
  intros [Hl Hr Hc Ha] Hrow. cbv zeta. unfold vga_putc, vga_put. change (10 =? 10) with true. cbv iota.
  cbn [set_pos cur_row cur_col]. change (VGA_COLS <=? 0) with false. cbv iota.
  cbn [set_pos cur_row cur_col]. rewrite Hrow. change (VGA_ROWS <=? VGA_ROWS - 1 + 1) with true. cbv iota.
  destruct (vga_scroll_spec (set_pos (VGA_ROWS - 1 + 1) 0 s) Hl) as (_ & H1 & H2 & _ & H3).
  split; [exact H1|]. split; [exact H2|]. intros r c Hr' Hc'.
  unfold VGA_ROWS, VGA_COLS in *. rewrite H3 by lia.
  cbn [set_pos cells cur_attr]. do 2 zcase; first [lia|reflexivity|f_equal; lia].
Qed.

Lemma newline_scrolls_witness :
  console_wf demo_screen ∧
  cur_col (vga_putc 10 (set_pos 24 3 demo_screen)) = 0.
Proof.
  split; [exact demo_screen_wf|].
  assert (console_wf (set_pos 24 3 demo_screen)) as Hw by (by split).
  exact (proj1 (proj2 (newline_scrolls (set_pos 24 3 demo_screen) Hw eq_refl))).
Defined.

(** [console_write_dec] prints the number: at most ten decimal digits that
    read back as the 32-bit value, without a leading zero. *)
Theorem dec_digits_correct v :
  0 ≤ v < 2 ^ 32 →
  dec_value (dec_digits v) = v ∧ Forall (λ d, 48 ≤ d ≤ 57) (dec_digits v) ∧
  (length (dec_digits v) ≤ 10)%nat ∧ (0 < v → head (dec_digits v) ≠ Some 48).
Proof.
  intros Hv. unfold dec_digits. destruct (Z.eqb_spec v 0) as [->|Hne].
  { split; [done|]. split; [by repeat constructor|]. split; [simpl; lia|lia]. }
  destruct (dec_buf_spec 10 v) as (H1 & H2 & H3); [zpow; simpl Z.of_nat; zpow; lia|].
  split_and!; [done|by apply Forall_rev| |].
  - rewrite length_rev. clear. generalize 10%nat as n. intros n. revert v.
    induction n as [|n IH]; intros v; simpl; [lia|]. zcase; simpl; [|lia].
    specialize (IH (v / 10)). lia.
  - intros Hpos. rewrite head_rev. by apply H3.
Qed.

Lemma dec_digits_correct_witness : dec_digits 4294967295 = str "4294967295" ∧
  dec_value (dec_digits 4294967295) = 4294967295.
Proof.
  split; [vm_compute; reflexivity|]. exact (proj1 (dec_digits_correct 4294967295 ltac:(lia))).
Defined.
