(* ===== verification/Rtc.v ===== *)
(** Real-time clock: drivers/rtc.c.  The CMOS registers are hardware: the
    successive register dumps [read_raw] obtains are the input. *)
From Stdlib Require Import ZArith Lia Bool.
From stdpp Require Import base numbers gmap option list.
From S2P Require Import Prelude.

#[local] Open Scope Z_scope.
#[local] Open Scope c_scope.

(** [struct rtc_time] *)
Record rtc_time := RtcTime {
  year : Z; month : Z; day : Z; hour : Z; minute : Z; second : Z
}.

(** One dump: seconds, minutes, hours, day, month, year, as [read_raw] stores
    them once no update is in progress. *)
Record rtc_raw := RtcRaw { w_s : Z; w_m : Z; w_h : Z; w_d : Z; w_mo : Z; w_y : Z }.

#[export] Instance rtc_raw_eq : EqDecision rtc_raw.
Proof. solve_decision. Defined.

Definition bcd2bin (v : Z) : Z := u8 ((v &&& 0x0F) + (v >>> 4) * 10).

(** The second half of [rtc_read]: from the agreed dump and status register B. *)
Definition rtc_decode (w : rtc_raw) (regb : Z) : rtc_time :=
  let is_bcd := negb (c_true (regb &&& 0x04)) in
  let is_12h := negb (c_true (regb &&& 0x02)) in
  let pm := c_true (w_h w &&& 0x80) in
  let h := w_h w &&& 0x7F in
  let cv v := if is_bcd then bcd2bin v else v in
  let h := cv h in
  let h := if is_12h then
             let h := if h =? 12 then 0 else h in
             if pm then u8 (h + 12) else h
           else h in
  RtcTime (u16 (2000 + cv (w_y w))) (cv (w_mo w)) (cv (w_d w)) h (cv (w_m w)) (cv (w_s w)).

(** [do { ... } while]: read until two successive dumps agree; [None] while the
    dumps given never do. *)
Fixpoint rtc_agree (prev : rtc_raw) (dumps : list rtc_raw) : option rtc_raw :=
  match dumps with
  | [] => None
  | w :: dumps => if decide (w = prev) then Some w else rtc_agree w dumps
  end.

Definition rtc_read (dumps : list rtc_raw) (regb : Z) : option rtc_time :=
  match dumps with
  | [] => None
  | w :: dumps => match rtc_agree w dumps with
                  | Some w => Some (rtc_decode w regb)
                  | None => None
                  end
  end.

(** ** How the clock encodes a time *)

Definition bcd (v : Z) : Z := v / 10 * 16 + v mod 10.

(** Hours of a 12-hour clock: 12, 1, ..., 11, with bit 7 for the afternoon. *)
Definition encode_hour (is_bcd is_12h : bool) (h : Z) : Z :=
  let v := if is_12h then (if h mod 12 =? 0 then 12 else h mod 12) else h in
  (if is_bcd then bcd v else v) + (if is_12h && (12 <=? h) then 0x80 else 0).

Definition encode (is_bcd is_12h : bool) (t : rtc_time) : rtc_raw :=
  let e v := if is_bcd then bcd v else v in
  RtcRaw (e (second t)) (e (minute t)) (encode_hour is_bcd is_12h (hour t))
         (e (day t)) (e (month t)) (e (year t - 2000)).

Definition status_b (is_bcd is_12h : bool) : Z :=
  (if is_bcd then 0 else 4) + (if is_12h then 0 else 2).

Definition time_ok (t : rtc_time) : Prop :=
  2000 ≤ year t ≤ 2099 ∧ 0 ≤ month t ≤ 99 ∧ 0 ≤ day t ≤ 99 ∧
  0 ≤ hour t ≤ 23 ∧ 0 ≤ minute t ≤ 99 ∧ 0 ≤ second t ≤ 99.

Lemma bcd_roundtrip v : 0 ≤ v ≤ 99 → bcd2bin (bcd v) = v.
Proof.
  intros Hv. unfold bcd2bin, bcd. rewrite (land_mask _ 4), shiftr_div by done. zlia.
Qed.

Lemma hour_roundtrip is_bcd is_12h h :
  0 ≤ h ≤ 23 →
  hour (rtc_decode (RtcRaw 0 0 (encode_hour is_bcd is_12h h) 0 0 0) (status_b is_bcd is_12h)) = h.
Proof.
  intros Hh.
  assert (h ∈ seqZ 0 24) as Hin by (apply elem_of_seqZ; lia).
  revert h Hin Hh. assert (Forall (λ h, hour (rtc_decode (RtcRaw 0 0 (encode_hour is_bcd is_12h h) 0 0 0)
    (status_b is_bcd is_12h)) = h) (seqZ 0 24)) as HF.
  { destruct is_bcd, is_12h; repeat constructor. }
  intros h Hin _. rewrite Forall_forall in HF. by apply HF.
Qed.

Lemma rtc_agree_spec w dumps r :
  rtc_agree w dumps = Some r →
  ∃ i, (w :: dumps) !! i = Some r ∧ (w :: dumps) !! S i = Some r.
Proof.
  revert w. induction dumps as [|v dumps IH]; intros w; simpl; [done|].
  destruct (decide (v = w)) as [->|Hne].
  - intros [= ->]. by exists 0%nat.
  - intros H. destruct (IH v H) as (i & H1 & H2). by exists (S i).
Qed.

(** ** Properties *)

(** In every register mode, binary or BCD, 12- or 24-hour, [rtc_read] returns
    the time the clock shows as soon as it has been read twice running. *)
Theorem rtc_read_correct is_bcd is_12h t before :
  time_ok t → Forall (λ w, w ≠ encode is_bcd is_12h t) before → NoDup before →
  rtc_read (before ++ [encode is_bcd is_12h t; encode is_bcd is_12h t]) (status_b is_bcd is_12h) = Some t.
Proof.
  intros Ht Hb Hnd. set (w := encode is_bcd is_12h t).
  assert (rtc_decode w (status_b is_bcd is_12h) = t) as Hdec.
  { destruct t as [y mo d h m s]. destruct Ht as (Hy & Hmo & Hd & Hh & Hm & Hs). simpl in *.
    pose proof (hour_roundtrip is_bcd is_12h h Hh) as Hr.
    assert (c_true (status_b is_bcd is_12h &&& 0x04) = negb is_bcd) as E1 by (by destruct is_bcd, is_12h).
    assert (c_true (status_b is_bcd is_12h &&& 0x02) = negb is_12h) as E2 by (by destruct is_bcd, is_12h).
    unfold rtc_decode in *. cbn [w_h hour] in Hr. unfold w, encode.
    cbn [w_h w_s w_m w_d w_mo w_y year month day hour minute second]. rewrite E1, E2 in *.
    rewrite Hr. rewrite !negb_involutive.
    assert (∀ v, 0 ≤ v ≤ 99 → (if is_bcd then bcd2bin (if is_bcd then bcd v else v)
      else if is_bcd then bcd v else v) = v) as Hcv by (intros v Hv; destruct is_bcd; [by apply bcd_roundtrip|done]).
    rewrite !Hcv by lia. f_equal. rewrite u16_small by (zpow; lia). lia. }
  assert (∀ p l, p ≠ w → Forall (λ v, v ≠ w) l → NoDup (p :: l) →
    rtc_agree p (l ++ [w; w]) = Some w) as Hag.
  { intros p l. revert p. induction l as [|v l IH]; intros p Hp Hl Hnd'; simpl.
    - rewrite decide_False by congruence. by rewrite decide_True.
    - apply Forall_cons in Hl as [Hv Hl]. apply NoDup_cons in Hnd' as [Hn Hnd'].
      rewrite decide_False; [by apply IH|]. intros ->. apply Hn. left. }
  destruct before as [|p l]; unfold rtc_read; simpl.
  - rewrite decide_True by done. by rewrite Hdec.
  - apply Forall_cons in Hb as [Hp Hl]. rewrite Hag by done. by rewrite Hdec.
Qed.

Lemma rtc_read_correct_witness :
  rtc_read [RtcRaw 0x59 0x59 0x11 0x31 0x12 0x23; RtcRaw 0 0 0x92 1 1 0x24; RtcRaw 0 0 0x92 1 1 0x24] 0
  = Some (RtcTime 2024 1 1 12 0 0).
Proof.
  apply (rtc_read_correct true true (RtcTime 2024 1 1 12 0 0) [RtcRaw 0x59 0x59 0x11 0x31 0x12 0x23]).
  - unfold time_ok. simpl. lia.
  - by repeat constructor.
  - apply NoDup_singleton.
Defined.
