(* ===== verification/Block.v ===== *)
(** The interface between the floppy driver (drivers/floppy.c) and the file
    system (fs/fat12.c): numbered 512-byte sectors.  The laws say what a healthy
    drive does; a RAM disk shows that they can hold. *)
From Stdlib Require Import ZArith Lia.
From stdpp Require Import base numbers gmap option list.
From S2P Require Import Prelude.

#[local] Open Scope Z_scope.

Definition is_sector (l : list Z) : Prop := length l = 512%nat ∧ Forall (λ b, 0 ≤ b < 256) l.

Class BlockDevice (D : Type) := {
  (** [floppy_read_sector]: the data, or an error. *)
  bd_read : Z → D → D * option (list Z);
  (** [floppy_write_sector]: whether it succeeded. *)
  bd_write : Z → list Z → D → D * bool;
  (** [floppy_motor_off] *)
  bd_motor_off : D → D;
  bd_healthy : D → Prop;
  bd_size : D → Z;
  bd_sector : D → Z → list Z;

  bd_sector_ok d lba : bd_healthy d → 0 ≤ lba < bd_size d → is_sector (bd_sector d lba);
  bd_read_ok d lba : bd_healthy d → 0 ≤ lba < bd_size d →
    (bd_read lba d).2 = Some (bd_sector d lba) ∧ bd_healthy (bd_read lba d).1 ∧
    bd_size (bd_read lba d).1 = bd_size d ∧
    ∀ l, bd_sector (bd_read lba d).1 l = bd_sector d l;
  bd_write_ok d lba data : bd_healthy d → 0 ≤ lba < bd_size d → is_sector data →
    (bd_write lba data d).2 = true ∧ bd_healthy (bd_write lba data d).1 ∧
    bd_size (bd_write lba data d).1 = bd_size d ∧
    ∀ l, bd_sector (bd_write lba data d).1 l = if l =? lba then data else bd_sector d l;
  bd_motor_off_ok d : bd_healthy d →
    bd_healthy (bd_motor_off d) ∧ bd_size (bd_motor_off d) = bd_size d ∧
    ∀ l, bd_sector (bd_motor_off d) l = bd_sector d l
}.

(** ** A RAM disk

    [rd_sectors] holds the sectors written; the others are zero.  Out-of-range
    accesses fail. *)
Record ramdisk := RamDisk { rd_size : Z; rd_sectors : gmap Z (list Z); rd_motor : bool }.

Definition zero_sector : list Z := replicate 512 0.

Definition rd_get (d : ramdisk) (lba : Z) : list Z := default zero_sector (rd_sectors d !! lba).

Definition rd_read (lba : Z) (d : ramdisk) : ramdisk * option (list Z) :=
  (RamDisk (rd_size d) (rd_sectors d) true,
   if (0 <=? lba) && (lba <? rd_size d) then Some (rd_get d lba) else None).

Definition rd_write (lba : Z) (data : list Z) (d : ramdisk) : ramdisk * bool :=
  if (0 <=? lba) && (lba <? rd_size d)
  then (RamDisk (rd_size d) (<[lba := data]> (rd_sectors d)) true, true)
  else (RamDisk (rd_size d) (rd_sectors d) true, false).

Definition rd_healthy (d : ramdisk) : Prop := map_Forall (λ _ l, is_sector l) (rd_sectors d).

Lemma zero_sector_ok : is_sector zero_sector.
Proof. split; [done|]. apply Forall_replicate. lia. Qed.

#[export] Program Instance ramdisk_device : BlockDevice ramdisk := {|
  bd_read := rd_read;
  bd_write := rd_write;
  bd_motor_off d := RamDisk (rd_size d) (rd_sectors d) false;
  bd_healthy := rd_healthy;
  bd_size := rd_size;
  bd_sector := rd_get
|}.
Next Obligation.
  intros d lba Hh _. unfold rd_get. destruct (rd_sectors d !! lba) eqn:E; simpl.
  - by apply (Hh lba).
  - apply zero_sector_ok.
Qed.
Next Obligation.
  intros d lba Hh [H1%Z.leb_le H2%Z.ltb_lt]. unfold rd_read. simpl. rewrite H1, H2. done.
Qed.
Next Obligation.
  intros d lba data Hh [H1%Z.leb_le H2%Z.ltb_lt] Hd. unfold rd_write. rewrite H1, H2. simpl.
  split_and!; [done| |done|].
  - apply map_Forall_insert_2; [done|exact Hh].
  - intros l. unfold rd_get. simpl. destruct (Z.eqb_spec l lba) as [->|Hne].
    + by rewrite lookup_insert_eq.
    + by rewrite lookup_insert_ne.
Qed.
Next Obligation. done. Qed.
