(* ===== verification/Frames.v ===== *)
(** The interface between the physical memory manager (mm/pmm.c) and its
    clients (mm/paging.c, mm/kheap.c, kernel/elf.c, drivers/acpi.c): a source of
    4 KiB frames.  [Pmm.v] discharges the laws for the bitmap allocator; the
    clients' theorems are proved against the class. *)
From Stdlib Require Import ZArith Lia.
From stdpp Require Import base numbers.
From S2P Require Import Prelude.

#[local] Open Scope Z_scope.

Class FrameAllocator (A : Type) := {
  (** [pmm_alloc_frame]: the new state and a physical address, 0 when full. *)
  fa_alloc : A → A * Z;
  (** [pmm_free_frame] *)
  fa_free : Z → A → A;
  (** [pmm_total_frames] *)
  fa_total : A → Z;
  (** [pmm_free_frames] *)
  fa_count : A → Z;
  fa_inv : A → Prop;
  (** The frame at this physical address may be handed out. *)
  fa_is_free : A → Z → Prop;

  fa_total_range a : fa_inv a → 0 ≤ fa_total a ≤ 2 ^ 20;
  fa_free_managed a p :
    fa_inv a → fa_is_free a p → p mod 4096 = 0 ∧ 0 < p < 4096 * fa_total a;
  fa_alloc_ok a a' p :
    fa_inv a → fa_alloc a = (a', p) → p ≠ 0 →
    fa_inv a' ∧ fa_total a' = fa_total a ∧ fa_is_free a p ∧
    ∀ q, fa_is_free a' q ↔ fa_is_free a q ∧ q ≠ p;
  fa_alloc_full a a' :
    fa_inv a → fa_alloc a = (a', 0) → a' = a ∧ ∀ q, ¬ fa_is_free a q;
  fa_free_ok a p :
    fa_inv a → p mod 4096 = 0 → 0 < p < 4096 * fa_total a →
    fa_inv (fa_free p a) ∧ fa_total (fa_free p a) = fa_total a ∧
    ∀ q, fa_is_free (fa_free p a) q ↔ fa_is_free a q ∨ q = p;
  fa_count_range a : fa_inv a → 0 ≤ fa_count a ≤ fa_total a;
  fa_alloc_count a a' p :
    fa_inv a → fa_alloc a = (a', p) → p ≠ 0 → fa_count a' = fa_count a - 1;
  fa_free_count a p :
    fa_inv a → p mod 4096 = 0 → 0 < p < 4096 * fa_total a → ¬ fa_is_free a p →
    fa_count (fa_free p a) = fa_count a + 1;
  fa_full_count a : fa_inv a → (∀ q, ¬ fa_is_free a q) → fa_count a = 0
}.

Section Clients.
Context {A : Type} `{FrameAllocator A}.

(** A frame handed out is a page-aligned 32-bit address that was free. *)
Lemma fa_alloc_addr a a' p :
  fa_inv a → fa_alloc a = (a', p) → p ≠ 0 →
  p mod 4096 = 0 ∧ 0 < p < 2 ^ 32 ∧ p < 4096 * fa_total a.
Proof.
  intros Hi Ha Hp. destruct (fa_alloc_ok a a' p) as (_ & _ & Hf & _); [done..|].
  destruct (fa_free_managed a p) as [? ?]; [done..|].
  pose proof (fa_total_range a Hi). zpow. lia.
Qed.

Lemma fa_alloc_inv a a' p : fa_inv a → fa_alloc a = (a', p) → fa_inv a'.
Proof.
  intros Hi Ha. destruct (Z.eq_dec p 0) as [->|Hp].
  - by destruct (fa_alloc_full a a') as [-> _].
  - by destruct (fa_alloc_ok a a' p) as (? & _).
Qed.

Lemma fa_alloc_total a a' p : fa_inv a → fa_alloc a = (a', p) → fa_total a' = fa_total a.
Proof.
  intros Hi Ha. destruct (Z.eq_dec p 0) as [->|Hp].
  - by destruct (fa_alloc_full a a') as [-> _].
  - by destruct (fa_alloc_ok a a' p) as (_ & ? & _).
Qed.

End Clients.
