(* ===== verification/Pmm.v ===== *)
(** Physical memory manager: mm/pmm.c, the bitmap allocator over 4 KiB frames. *)
From Stdlib Require Import ZArith Lia Bool String.
From stdpp Require Import base numbers list list_numbers option gmap sets.
From S2P Require Import Prelude Frames Console.

#[local] Open Scope Z_scope.
#[local] Open Scope c_scope.

Definition FRAME_SIZE : Z := 4096.
Definition E820_USABLE : Z := 1.
Definition FOUR_GIB : Z := 0x100000000.

(** [struct e820_entry]: the BIOS map entry as the boot loader left it. *)
Record e820_entry := E820 {
  e_base : Z;       (* uint64_t *)
  e_length : Z;     (* uint64_t *)
  e_type : Z;       (* uint32_t *)
  e_attr : Z        (* uint32_t *)
}.

(** The three statics of the module; [bitmap] is the array of 32-bit words
    stored at physical address [bitmap_addr]. *)
Record pmm := MkPmm {
  bitmap : list Z;
  bitmap_addr : Z;
  total_frames : Z;
  used_frames : Z
}.

(** ** Bitmap primitives *)

Definition frame_bit (f : Z) : Z := 1 <<< (f &&& 31).

Definition frame_used (s : pmm) (f : Z) : bool :=
  c_true (arr_get (bitmap s) (f >>> 5) &&& frame_bit f).

Definition frame_mark_used (f : Z) (s : pmm) : pmm :=
  if total_frames s <=? f then s
  else if negb (frame_used s f) then
    MkPmm (arr_set (bitmap s) (f >>> 5) (arr_get (bitmap s) (f >>> 5) ||| frame_bit f))
        (bitmap_addr s) (total_frames s) (u32 (used_frames s + 1))
  else s.

Definition frame_mark_free (f : Z) (s : pmm) : pmm :=
  if total_frames s <=? f then s
  else if frame_used s f then
    MkPmm (arr_set (bitmap s) (f >>> 5) (arr_get (bitmap s) (f >>> 5) &&& u32_not (frame_bit f)))
        (bitmap_addr s) (total_frames s) (u32 (used_frames s - 1))
  else s.

(** Clamp of a region end to 4 GiB, as both range functions and both passes of
    [pmm_init] do. *)
Definition clamp_4g (e : Z) : Z := if FOUR_GIB <? e then FOUR_GIB else e.

Definition reserve_range (start end_ : Z) (s : pmm) : pmm :=
  let end_ := clamp_4g end_ in
  if end_ <=? start then s
  else
    let f0 := u32 (start >>> 12) in
    let f1 := u32 (u64 (end_ + 0xFFF) >>> 12) in
    for_range f0 f1 frame_mark_used s.

Definition free_range (start end_ : Z) (s : pmm) : pmm :=
  let end_ := clamp_4g end_ in
  if end_ <=? start then s
  else
    let f0 := u32 (u64 (start + 0xFFF) >>> 12) in
    let f1 := u32 (end_ >>> 12) in
    for_range f0 f1 frame_mark_free s.

(** ** Initialisation from the E820 map *)

(** [if (e[i].type != E820_USABLE) continue; if (e[i].base >> 32) continue;] *)
Definition region_ok (e : e820_entry) : bool :=
  (e_type e =? E820_USABLE) && negb (c_true (e_base e >>> 32)).

Definition region_end (e : e820_entry) : Z := u64 (e_base e + e_length e).

Definition pass1 (map : list e820_entry) : Z :=
  fold_left (λ max_addr e,
    if region_ok e then
      let end_ := clamp_4g (region_end e) in
      if max_addr <? end_ then end_ else max_addr
    else max_addr) map 0.

Fixpoint pass2 (map : list e820_entry) (bitmap_bytes : Z) : Z :=
  match map with
  | [] => 0
  | e :: map' =>
      if region_ok e then
        let end_ := clamp_4g (region_end e) in
        let b := if e_base e <? 0x100000 then 0x100000 else e_base e in
        if end_ <=? b then pass2 map' bitmap_bytes
        else if bitmap_bytes <=? end_ - b then u32 b
        else pass2 map' bitmap_bytes
      else pass2 map' bitmap_bytes
  end.

Definition bitmap_bytes_for (total : Z) : Z :=
  u32 (u32 ((total + 7) >>> 3) + 3) &&& u32_not 3.

Definition free_usable (map : list e820_entry) (s : pmm) : pmm :=
  fold_left (λ s e,
    if region_ok e then free_range (e_base e) (region_end e) s else s) map s.

Definition pmm_init (map : list e820_entry) : pmm :=
  let max_addr := pass1 map in
  if max_addr =? 0 then MkPmm [] 0 0 0
  else
    let total := u32 (max_addr >>> 12) in
    let bitmap_bytes := bitmap_bytes_for total in
    let bitmap_addr := pass2 map bitmap_bytes in
    if bitmap_addr =? 0 then MkPmm [] 0 0 0
    else
      let s := MkPmm (replicate (Z.to_nat (bitmap_bytes >>> 2)) 0xFFFFFFFF)
                   bitmap_addr total total in
      let s := free_usable map s in
      let s := reserve_range 0 0x100000 s in
      reserve_range bitmap_addr (u64 (bitmap_addr + bitmap_bytes)) s.

(** ** Allocation *)

(** The search of [pmm_alloc_frame]: skip full words, then the first clear bit
    of the word; a frame number past the end breaks out of the inner loop only. *)
Definition alloc_search (s : pmm) : option Z :=
  let words := u32 (total_frames s + 31) >>> 5 in
  find_range 0 words (λ i,
    if arr_get (bitmap s) i =? 0xFFFFFFFF then None
    else
      default None (find_range 0 32 (λ b,
        let f := u32 ((i <<< 5) + b) in
        if total_frames s <=? f then Some None
        else if negb (c_true (arr_get (bitmap s) i &&& (1 <<< b))) then Some (Some f)
        else None))).

Definition pmm_alloc_frame (s : pmm) : pmm * Z :=
  if total_frames s =? 0 then (s, 0)
  else match alloc_search s with
       | Some f => (frame_mark_used f s, u32 (f <<< 12))
       | None => (s, 0)
       end.

Definition pmm_free_frame (phys_addr : Z) (s : pmm) : pmm :=
  frame_mark_free (phys_addr >>> 12) s.

Definition pmm_reserve (phys bytes : Z) (s : pmm) : pmm :=
  reserve_range phys (u64 (phys + bytes)) s.

Definition pmm_total_frames (s : pmm) : Z := total_frames s.
Definition pmm_used_frames (s : pmm) : Z := used_frames s.
Definition pmm_free_frames (s : pmm) : Z := u32 (total_frames s - used_frames s).

(** ** Reporting *)

Definition type_name (t : Z) : list Z :=
  if t =? 1 then str "usable"
  else if t =? 2 then str "reserved"
  else if t =? 3 then str "ACPI reclaim"
  else if t =? 4 then str "ACPI NVS"
  else if t =? 5 then str "bad memory"
  else str "other".

Definition print_size_kb (kb : Z) : list con_call :=
  if 1024 <=? kb then con_dec (kb >>> 10) ++ con_write (str " MB")
  else con_dec kb ++ con_write (str " KB").

(** The map is the one the boot loader left; the result is what is printed. *)
Definition report_entry (e : e820_entry) : list con_call :=
  con_write (str "    ") ++ con_hex (u32 (e_base e)) ++ con_write (str "  ") ++
  print_size_kb (u32 (e_length e >>> 10)) ++ con_write [9] ++
  con_write (type_name (e_type e)) ++ [CPutc 10].

Definition report_frames (label : list Z) (frames : Z) : list con_call :=
  con_write label ++ con_dec frames ++ con_write (str " frames, ") ++
  print_size_kb (u32 (frames * 4)) ++ [CPutc 10].

Definition pmm_report (map : list e820_entry) (s : pmm) : list con_call :=
  (if zlen map =? 0 then con_write (str "  BIOS E820 memory map: unavailable" ++ nl)
   else con_write (str "  BIOS E820 memory map (") ++ con_dec (zlen map) ++
        con_write (str " entries):" ++ nl) ++ concat (List.map report_entry map)) ++
  con_write (str "  frame size .. 4 KB" ++ nl) ++
  report_frames (str "  total ....... ") (pmm_total_frames s) ++
  report_frames (str "  used ........ ") (pmm_used_frames s) ++
  report_frames (str "  free ........ ") (pmm_free_frames s).

(** ** Well-formedness *)

Record pmm_wf (s : pmm) : Prop := {
  wf_total : 0 ≤ total_frames s ≤ 2 ^ 20;
  wf_len : total_frames s ≤ 32 * zlen (bitmap s);
  wf_words : Forall (λ w, 0 ≤ w < 2 ^ 32) (bitmap s);
  wf_used : used_frames s = count_below (frame_used s) (Z.to_nat (total_frames s))
}.

(** ** Bitmap lemmas *)

Lemma word_index s f :
  pmm_wf s → 0 ≤ f < total_frames s → 0 ≤ f >>> 5 < zlen (bitmap s).
Proof.
  intros [Ht Hl _ _] Hf. rewrite shiftr_div by lia. change (2 ^ 5) with 32.
  Z.to_euclidean_division_equations; lia.
Qed.

Lemma frame_used_testbit s f :
  frame_used s f = Z.testbit (arr_get (bitmap s) (f >>> 5)) (f mod 32).
Proof.
  unfold frame_used, frame_bit. rewrite land_low.
  apply testbit_land_pow2. apply Z.mod_pos_bound. lia.
Qed.

Lemma split_frame f g : f >>> 5 = g >>> 5 → f mod 32 = g mod 32 → f = g.
Proof. rewrite !shiftr_div by lia. change (2 ^ 5) with 32. intros. zlia. Qed.

Lemma word_range s i : pmm_wf s → 0 ≤ arr_get (bitmap s) i < 2 ^ 32.
Proof.
  intros [_ _ Hw _]. apply (arr_get_Forall (λ w, 0 ≤ w < 2 ^ 32)); [lia|done].
Qed.

(** How the two read-modify-write steps change the frames' bits. *)
Lemma frame_used_set s f g :
  pmm_wf s → 0 ≤ f < total_frames s →
  ∀ ba tf uf,
  frame_used (MkPmm (arr_set (bitmap s) (f >>> 5)
      (arr_get (bitmap s) (f >>> 5) ||| frame_bit f)) ba tf uf) g
  = (frame_used s g || (g =? f)).
Proof.
  intros Hwf Hf ba tf uf. rewrite !frame_used_testbit. simpl.
  destruct (Z.eq_dec (f >>> 5) (g >>> 5)) as [E|E].
  - rewrite <- E. rewrite arr_get_set_eq by by apply word_index.
    unfold frame_bit. rewrite land_low, testbit_set by (apply Z.mod_pos_bound; lia).
    f_equal. destruct (Z.eqb_spec g f) as [->|Hne]; [apply Z.eqb_refl|].
    apply Z.eqb_neq. intros Hm. apply Hne. symmetry. by apply split_frame.
  - rewrite arr_get_set_ne by done.
    destruct (Z.eqb_spec g f) as [->|]; [done|]. by rewrite orb_false_r.
Qed.

Lemma frame_used_clear s f g :
  pmm_wf s → 0 ≤ f < total_frames s →
  ∀ ba tf uf,
  frame_used (MkPmm (arr_set (bitmap s) (f >>> 5)
      (arr_get (bitmap s) (f >>> 5) &&& u32_not (frame_bit f))) ba tf uf) g
  = (frame_used s g && negb (g =? f)).
Proof.
  intros Hwf Hf ba tf uf. rewrite !frame_used_testbit. simpl.
  destruct (Z.eq_dec (f >>> 5) (g >>> 5)) as [E|E].
  - rewrite <- E. rewrite arr_get_set_eq by by apply word_index.
    unfold frame_bit. rewrite land_low, testbit_clear by (apply Z.mod_pos_bound; lia).
    f_equal. f_equal. destruct (Z.eqb_spec g f) as [->|Hne]; [apply Z.eqb_refl|].
    apply Z.eqb_neq. intros Hm. apply Hne. symmetry. by apply split_frame.
  - rewrite arr_get_set_ne by done.
    destruct (Z.eqb_spec g f) as [->|]; [done|]. by rewrite andb_true_r.
Qed.

Lemma used_bounds s : pmm_wf s → 0 ≤ used_frames s ≤ total_frames s.
Proof.
  intros [Ht _ _ ->]. pose proof (count_below_bounds (frame_used s) (Z.to_nat (total_frames s))).
  lia.
Qed.

Lemma frame_bit_range f : 0 ≤ frame_bit f < 2 ^ 32.
Proof.
  unfold frame_bit. rewrite land_low, Z.shiftl_1_l.
  pose proof (Z.mod_pos_bound f 32). split; [lia|]. apply Z.pow_lt_mono_r; lia.
Qed.
#[local] Hint Resolve frame_bit_range word_range : cint.

(** Marking is idempotent on the frame's bit, leaves every other frame alone,
    and keeps the invariant (so [used_frames] counts the set bits). *)
Lemma frame_mark_used_spec f s :
  pmm_wf s → 0 ≤ f →
  pmm_wf (frame_mark_used f s) ∧
  total_frames (frame_mark_used f s) = total_frames s ∧
  bitmap_addr (frame_mark_used f s) = bitmap_addr s ∧
  ∀ g, 0 ≤ g < total_frames s →
    frame_used (frame_mark_used f s) g = (frame_used s g || (g =? f)).
Proof.
  intros Hwf Hf. unfold frame_mark_used. zcase.
  { split_and!; try done. intros g Hg. destruct (Z.eqb_spec g f); [lia|].
    by rewrite orb_false_r. }
  destruct (frame_used s f) eqn:Hu; simpl.
  { split_and!; try done. intros g Hg. destruct (Z.eqb_spec g f) as [->|].
    - by rewrite Hu. - by rewrite orb_false_r. }
  pose proof (used_bounds s Hwf) as Hub. pose proof Hwf as [Ht Hl Hw Hc].
  split_and!; try done.
  2: { intros g Hg. by apply frame_used_set. }
  assert (used_frames s + 1 = count_below
    (frame_used (MkPmm (arr_set (bitmap s) (f >>> 5)
      (arr_get (bitmap s) (f >>> 5) ||| frame_bit f)) (bitmap_addr s)
      (total_frames s) (u32 (used_frames s + 1)))) (Z.to_nat (total_frames s))) as Hcnt.
  { rewrite Hc. symmetry. apply (count_below_flip _ _ _ f); [lia|done| |].
    - rewrite frame_used_set by done. by rewrite Z.eqb_refl, orb_true_r.
    - intros i Hi. rewrite frame_used_set by done.
      apply Z.eqb_neq in Hi. by rewrite Hi, orb_false_r. }
  constructor; simpl; [done| by rewrite zlen_arr_set | |].
  - apply arr_set_Forall; [|done]. eauto with cint.
  - rewrite u32_small by lia. rewrite Hcnt. apply count_below_ext. intros i _.
    by rewrite !frame_used_set by done.
Qed.

Lemma frame_mark_free_spec f s :
  pmm_wf s → 0 ≤ f →
  pmm_wf (frame_mark_free f s) ∧
  total_frames (frame_mark_free f s) = total_frames s ∧
  bitmap_addr (frame_mark_free f s) = bitmap_addr s ∧
  ∀ g, 0 ≤ g < total_frames s →
    frame_used (frame_mark_free f s) g = (frame_used s g && negb (g =? f)).
Proof.
  intros Hwf Hf. unfold frame_mark_free. zcase.
  { split_and!; try done. intros g Hg. destruct (Z.eqb_spec g f); [lia|].
    by rewrite andb_true_r. }
  destruct (frame_used s f) eqn:Hu; simpl.
  2: { split_and!; try done. intros g Hg. destruct (Z.eqb_spec g f) as [->|].
    - by rewrite Hu. - by rewrite andb_true_r. }
  pose proof (used_bounds s Hwf) as Hub. pose proof Hwf as [Ht Hl Hw Hc].
  split_and!; try done.
  2: { intros g Hg. by apply frame_used_clear. }
  assert (used_frames s = count_below
    (frame_used (MkPmm (arr_set (bitmap s) (f >>> 5)
      (arr_get (bitmap s) (f >>> 5) &&& u32_not (frame_bit f))) (bitmap_addr s)
      (total_frames s) (u32 (used_frames s - 1)))) (Z.to_nat (total_frames s)) + 1) as Hcnt.
  { rewrite Hc. apply (count_below_flip _ _ _ f); [lia| |done|].
    - rewrite frame_used_clear by done. by rewrite Z.eqb_refl, andb_false_r.
    - intros i Hi. rewrite frame_used_clear by done.
      apply Z.eqb_neq in Hi. by rewrite Hi, andb_true_r. }
  pose proof (count_below_bounds (frame_used (MkPmm (arr_set (bitmap s) (f >>> 5)
      (arr_get (bitmap s) (f >>> 5) &&& u32_not (frame_bit f))) (bitmap_addr s)
      (total_frames s) (u32 (used_frames s - 1)))) (Z.to_nat (total_frames s))).
  constructor; simpl; [done| by rewrite zlen_arr_set | |].
  - apply arr_set_Forall; [|done]. eauto with cint.
  - rewrite u32_small by lia. rewrite Hcnt at 1. rewrite Z.add_simpl_r.
    apply count_below_ext. intros i _. by rewrite !frame_used_clear by done.
Qed.

(** ** Ranges of frames *)

(** What a sequence of marks must preserve. *)
Definition same_shape (s s' : pmm) : Prop :=
  pmm_wf s' ∧ total_frames s' = total_frames s ∧ bitmap_addr s' = bitmap_addr s.

Definition in_range (lo hi g : Z) : bool := (lo <=? g) && (g <? hi).

Lemma in_range_step lo i g : lo ≤ i → in_range lo (i + 1) g = (in_range lo i g || (g =? i)).
Proof. unfold in_range. intros. repeat zcase; try lia; done. Qed.

Lemma mark_used_range lo hi s :
  pmm_wf s → 0 ≤ lo →
  same_shape s (for_range lo hi frame_mark_used s) ∧
  ∀ g, 0 ≤ g < total_frames s →
    frame_used (for_range lo hi frame_mark_used s) g = (frame_used s g || in_range lo hi g).
Proof.
  intros Hwf Hlo. destruct (Z.le_gt_cases hi lo) as [Hle|Hlt].
  { rewrite for_range_nil by lia. split; [done|]. intros g _. unfold in_range.
    repeat zcase; try lia; by rewrite ?orb_false_r. }
  apply (for_range_ind (λ i s', same_shape s s' ∧ ∀ g, 0 ≤ g < total_frames s →
    frame_used s' g = (frame_used s g || in_range lo i g))); [lia| |].
  - split; [done|]. intros g _. unfold in_range. repeat zcase; try lia; by rewrite ?orb_false_r.
  - intros i s' Hi [(Hwf' & Ht & Ha) Hu].
    destruct (frame_mark_used_spec i s') as (Hw & Ht' & Ha' & Hu'); [done|lia|].
    split; [split_and!; [done|congruence|congruence]|].
    intros g Hg. rewrite Hu' by lia. rewrite Hu by done. rewrite in_range_step by lia.
    by rewrite orb_assoc.
Qed.

Lemma mark_free_range lo hi s :
  pmm_wf s → 0 ≤ lo →
  same_shape s (for_range lo hi frame_mark_free s) ∧
  ∀ g, 0 ≤ g < total_frames s →
    frame_used (for_range lo hi frame_mark_free s) g = (frame_used s g && negb (in_range lo hi g)).
Proof.
  intros Hwf Hlo. destruct (Z.le_gt_cases hi lo) as [Hle|Hlt].
  { rewrite for_range_nil by lia. split; [done|]. intros g _. unfold in_range.
    repeat zcase; try lia; by rewrite ?andb_true_r. }
  apply (for_range_ind (λ i s', same_shape s s' ∧ ∀ g, 0 ≤ g < total_frames s →
    frame_used s' g = (frame_used s g && negb (in_range lo i g)))); [lia| |].
  - split; [done|]. intros g _. unfold in_range. repeat zcase; try lia; by rewrite ?andb_true_r.
  - intros i s' Hi [(Hwf' & Ht & Ha) Hu].
    destruct (frame_mark_free_spec i s') as (Hw & Ht' & Ha' & Hu'); [done|lia|].
    split; [split_and!; [done|congruence|congruence]|].
    intros g Hg. rewrite Hu' by lia. rewrite Hu by done. rewrite in_range_step by lia.
    by rewrite negb_orb, andb_assoc.
Qed.

(** The frames that touch [start, end): those [reserve_range] marks; and the
    frames lying whole inside it: those [free_range] clears. *)
Definition touches (start end_ f : Z) : bool :=
  (start <? end_) && (start <? (f + 1) * FRAME_SIZE) && (f * FRAME_SIZE <? end_).
Definition inside (start end_ f : Z) : bool :=
  (start <=? f * FRAME_SIZE) && ((f + 1) * FRAME_SIZE <=? end_).

Lemma clamp_4g_min e : clamp_4g e = Z.min e 4294967296.
Proof. unfold clamp_4g, FOUR_GIB. zcase; lia. Qed.

Lemma reserve_range_spec start end_ s :
  pmm_wf s → 0 ≤ start →
  same_shape s (reserve_range start end_ s) ∧
  ∀ g, 0 ≤ g < total_frames s →
    frame_used (reserve_range start end_ s) g = (frame_used s g || touches start end_ g).
Proof.
  intros Hwf Hse. pose proof (wf_total _ Hwf). zpow.
  unfold reserve_range. rewrite clamp_4g_min. zcase.
  - split; [done|]. intros g Hg. unfold touches, FRAME_SIZE. repeat zcase; try lia; cbn [andb]; by rewrite ?orb_false_r.
  - match goal with |- context [ for_range ?a ?b _ _ ] =>
      destruct (mark_used_range a b s) as [Hsh Hu]; [done|apply u32_range|] end.
    split; [done|]. intros g Hg. rewrite Hu by done. f_equal.
    rewrite u64_small, !shiftr_div, !u32_small by zlia. clear Hsh Hu.
    unfold in_range, touches, FRAME_SIZE. repeat zcase; try zlia; done.
Qed.

Lemma free_range_spec start end_ s :
  pmm_wf s → 0 ≤ start < 2 ^ 32 →
  same_shape s (free_range start end_ s) ∧
  ∀ g, 0 ≤ g < total_frames s →
    frame_used (free_range start end_ s) g = (frame_used s g && negb (inside start end_ g)).
Proof.
  intros Hwf Hs. pose proof (wf_total _ Hwf). zpow.
  unfold free_range. rewrite clamp_4g_min. unfold inside, FRAME_SIZE. zcase.
  - split; [done|]. intros g Hg. repeat zcase; try lia; by rewrite ?andb_true_r.
  - match goal with |- context [ for_range ?a ?b _ _ ] =>
      destruct (mark_free_range a b s) as [Hsh Hu]; [done|apply u32_range|] end.
    split; [done|]. intros g Hg. rewrite Hu by done. do 2 f_equal.
    rewrite u64_small, !shiftr_div, !u32_small by zlia. clear Hsh Hu.
    unfold in_range. repeat zcase; try zlia; done.
Qed.

(** ** Initialisation *)

(** The firmware's numbers are 64-bit. *)
Definition entry_wf (e : e820_entry) : Prop := 0 ≤ e_base e < 2 ^ 64 ∧ 0 ≤ e_length e < 2 ^ 64.

(** Frame [f] lies whole in a usable region that starts below 4 GiB. *)
Definition usable (map : list e820_entry) (f : Z) : bool :=
  existsb (λ e, region_ok e && inside (e_base e) (region_end e) f) map.

Lemma region_ok_base e : entry_wf e → region_ok e = true → 0 ≤ e_base e < 2 ^ 32.
Proof.
  intros [Hb _]. unfold region_ok, c_true. rewrite shiftr_div by lia. intros H.
  apply andb_true_iff in H as [_ H]. rewrite negb_involutive in H.
  apply Z.eqb_eq in H. zlia.
Qed.

Lemma free_usable_spec map s :
  pmm_wf s → Forall entry_wf map →
  same_shape s (free_usable map s) ∧
  ∀ f, 0 ≤ f < total_frames s →
    frame_used (free_usable map s) f = (frame_used s f && negb (usable map f)).
Proof.
  intros Hwf HF. revert s Hwf. unfold free_usable.
  induction HF as [|e map He HF IH]; intros s Hwf; simpl.
  { split; [done|]. intros f _. by rewrite andb_true_r. }
  destruct (region_ok e) eqn:Hok; simpl.
  2: { apply IH; done. }
  pose proof (region_ok_base e He Hok) as Hb.
  destruct (free_range_spec (e_base e) (region_end e) s) as [(Hwf' & Ht & Ha) Hu]; [done|done|].
  destruct (IH _ Hwf') as [(Hwf'' & Ht' & Ha') Hu'].
  split; [split_and!; [done|congruence|congruence]|].
  intros f Hf. rewrite Hu' by lia. rewrite Hu by done.
  by rewrite negb_orb, andb_assoc.
Qed.

Lemma pass1_range map : 0 ≤ pass1 map ≤ FOUR_GIB.
Proof.
  unfold pass1. assert (∀ m, 0 ≤ m ≤ FOUR_GIB →
    0 ≤ fold_left (λ max_addr e, if region_ok e then
      let end_ := clamp_4g (region_end e) in if max_addr <? end_ then end_ else max_addr
      else max_addr) map m ≤ FOUR_GIB) as H; [|apply H; unfold FOUR_GIB; lia].
  induction map as [|e map IH]; intros m Hm; simpl; [done|].
  apply IH. destruct (region_ok e); [|done]. simpl. zcase; [|done].
  pose proof (u64_range (e_base e + e_length e)). unfold FOUR_GIB, region_end in *.
  rewrite clamp_4g_min. lia.
Qed.

Lemma pass2_range map bytes :
  0 ≤ bytes → Forall entry_wf map →
  pass2 map bytes = 0 ∨ (0x100000 ≤ pass2 map bytes ∧ pass2 map bytes + bytes ≤ FOUR_GIB
                         ∧ pass2 map bytes < FOUR_GIB).
Proof.
  intros Hb. unfold FOUR_GIB. induction 1 as [|e map He HF IH]; simpl; [by left|].
  destruct (region_ok e) eqn:Hok; [|done]. rewrite clamp_4g_min.
  pose proof (region_ok_base e He Hok). zpow.
  destruct (e_base e <? 1048576) eqn:Eb.
  all: zcase; [done|]; zcase; [|done]; right.
  - rewrite u32_small by lia. lia.
  - apply Z.ltb_ge in Eb. rewrite u32_small by lia. lia.
Qed.

(** The bitmap is big enough for one bit per frame, in whole words. *)
Lemma bitmap_bytes_spec total :
  0 ≤ total ≤ 2 ^ 20 →
  bitmap_bytes_for total mod 4 = 0 ∧ total ≤ 8 * bitmap_bytes_for total < total + 64.
Proof.
  intros Ht. zpow. unfold bitmap_bytes_for. change (u32_not 3) with (u32_not (Z.ones 2)).
  rewrite !land_align by (lia || apply u32_range).
  rewrite shiftr_div by lia. rewrite (u32_small ((total + 7) / 2 ^ 3)) by zlia.
  rewrite !u32_small by zlia. zlia.
Qed.

Lemma initial_used n ba tf uf f :
  0 ≤ f < 32 * Z.of_nat n →
  frame_used (MkPmm (replicate n 0xFFFFFFFF) ba tf uf) f = true.
Proof.
  intros Hf. rewrite frame_used_testbit. simpl.
  rewrite (arr_get_lookup _ _ 0xFFFFFFFF).
  - change 4294967295 with (Z.ones 32). apply Z.ones_spec_low. apply Z.mod_pos_bound. lia.
  - rewrite shiftr_div; zlia.
  - apply lookup_replicate_2. rewrite shiftr_div by lia. zlia.
Qed.

Lemma initial_wf n ba tf :
  0 ≤ tf ≤ 2 ^ 20 → tf ≤ 32 * Z.of_nat n →
  pmm_wf (MkPmm (replicate n 0xFFFFFFFF) ba tf tf).
Proof.
  intros Ht Hn. constructor; simpl; [done| | |].
  - unfold zlen. by rewrite length_replicate.
  - apply Forall_replicate. lia.
  - rewrite count_below_all; [lia|]. intros i Hi. apply initial_used. lia.
Qed.

Lemma empty_wf : pmm_wf (MkPmm [] 0 0 0).
Proof. constructor; simpl; [lia|done|constructor|done]. Qed.

(** What [pmm_init] builds, in terms of what its two passes find. *)
Lemma pmm_init_passes map :
  Forall entry_wf map →
  let s := pmm_init map in
  let n := pass1 map / 4096 in
  pmm_wf s ∧
  (total_frames s = 0 ∧ (pass1 map = 0 ∨ pass2 map (bitmap_bytes_for n) = 0) ∨
   total_frames s = n ∧ pass1 map ≠ 0 ∧
   bitmap_addr s = pass2 map (bitmap_bytes_for n) ∧ 0x100000 ≤ bitmap_addr s ∧
   ∀ f, 0 ≤ f < total_frames s →
     frame_used s f =
       (negb (usable map f) || touches 0 0x100000 f ||
        touches (bitmap_addr s) (bitmap_addr s + bitmap_bytes_for (total_frames s)) f)).
Proof.
  intros HF s n. subst s n. unfold pmm_init.
  pose proof (pass1_range map) as H1. unfold FOUR_GIB in H1.
  zcase; [split; [apply empty_wf|by left; split; [|left]]|]. cbv zeta.
  replace (pass1 map / 4096) with (u32 (pass1 map >>> 12))
    by (rewrite shiftr_div, u32_small by zlia; done).
  set (total := u32 (pass1 map >>> 12)).
  assert (0 ≤ total ≤ 2 ^ 20) as Ht.
  { subst total. rewrite shiftr_div, u32_small by zlia. zlia. }
  destruct (bitmap_bytes_spec total Ht) as [Hm4 Hbytes].
  set (bytes := bitmap_bytes_for total) in *.
  assert (32 * Z.of_nat (Z.to_nat (bytes >>> 2)) = 8 * bytes) as Hwords.
  { clear -Hm4 Hbytes Ht. rewrite shiftr_div by lia. zlia. }
  destruct (pass2_range map bytes) as [E2|(Ha1 & Ha2 & Ha3)]; [lia|done| |].
  { rewrite E2. split; [apply empty_wf|left; split; [done|by right]]. }
  set (addr := pass2 map bytes) in *. unfold FOUR_GIB in *.
  zcase; [lia|].
  destruct (free_usable_spec map (MkPmm (replicate (Z.to_nat (bytes >>> 2)) 0xFFFFFFFF) addr total total))
    as [(Hw1 & Ht1 & Hb1) Hu1]; [|done|].
  { apply initial_wf; [done|lia]. }
  set (s1 := free_usable _ _) in *. cbn [total_frames bitmap_addr] in Ht1, Hb1, Hu1.
  destruct (reserve_range_spec 0 0x100000 s1) as [(Hw2 & Ht2 & Hb2) Hu2]; [done|lia|].
  set (s2 := reserve_range _ _ s1) in *.
  rewrite u64_small by lia.
  destruct (reserve_range_spec addr (addr + bytes) s2) as [(Hw3 & Ht3 & Hb3) Hu3]; [done|lia|].
  set (s3 := reserve_range _ _ s2) in *.
  split; [done|]. right. replace (bitmap_addr s3) with addr by congruence.
  replace (total_frames s3) with total by congruence. split_and!; try done.
  intros f Hf. rewrite Hu3 by lia. rewrite Hu2 by lia. rewrite Hu1 by lia.
  rewrite initial_used; [done|]. lia.
Qed.

(** The part of it that the allocator's users need. *)
Lemma pmm_init_spec map :
  Forall entry_wf map →
  let s := pmm_init map in
  pmm_wf s ∧
  (total_frames s = 0 ∨
   0x100000 ≤ bitmap_addr s ∧
   ∀ f, 0 ≤ f < total_frames s →
     frame_used s f =
       (negb (usable map f) || touches 0 0x100000 f ||
        touches (bitmap_addr s) (bitmap_addr s + bitmap_bytes_for (total_frames s)) f)).
Proof.
  intros HF s. destruct (pmm_init_passes map HF) as [Hwf Hs]. split; [done|].
  destruct Hs as [[Ht _]|(_ & _ & _ & Ha & Hu)]; [by left|by right].
Qed.

(** ** Allocation *)

Definition all_used (s : pmm) : Prop :=
  ∀ f, 0 ≤ f < total_frames s → frame_used s f = true.

Lemma full_word_used s i b :
  arr_get (bitmap s) i = 0xFFFFFFFF → 0 ≤ b < 32 → 0 ≤ i →
  frame_used s (i * 32 + b) = true.
Proof.
  intros Hw Hb Hi. rewrite frame_used_testbit, shiftr_div by lia.
  replace ((i * 32 + b) / 2 ^ 5) with i by zlia. rewrite Hw.
  replace ((i * 32 + b) mod 32) with b by zlia.
  change 4294967295 with (Z.ones 32). apply Z.ones_spec_low. lia.
Qed.

Lemma word_bit s i b :
  0 ≤ b < 32 → 0 ≤ i →
  c_true (arr_get (bitmap s) i &&& (1 <<< b)) = frame_used s (i * 32 + b).
Proof.
  intros Hb Hi. rewrite testbit_land_pow2 by lia. rewrite frame_used_testbit, shiftr_div by lia.
  replace ((i * 32 + b) / 2 ^ 5) with i by zlia.
  by replace ((i * 32 + b) mod 32) with b by zlia.
Qed.

(** The inner loop over one word. *)
Definition word_search (s : pmm) (i : Z) : option Z :=
  default None (find_range 0 32 (λ b,
    let f := u32 ((i <<< 5) + b) in
    if total_frames s <=? f then Some None
    else if negb (c_true (arr_get (bitmap s) i &&& (1 <<< b))) then Some (Some f)
    else None)).

Lemma word_search_Some s i f :
  0 ≤ i < 2 ^ 15 → word_search s i = Some f →
  i * 32 ≤ f < i * 32 + 32 ∧ f < total_frames s ∧ frame_used s f = false ∧
  ∀ g, i * 32 ≤ g < f → frame_used s g = true.
Proof.
  intros Hi. unfold word_search.
  destruct (find_range 0 32 _) as [r|] eqn:Hr; simpl; [|done]. intros ->.
  apply find_range_Some in Hr as (b & Hb & Hfb & Hmin).
  rewrite shiftl_mul, u32_small in Hfb by zlia. zcase_in Hfb; [done|].
  rewrite word_bit in Hfb by lia. destruct (frame_used s (i * 32 + b)) eqn:Hu; [done|].
  simpl in Hfb. injection Hfb as <-. zpow. split_and!; try lia; [done|].
  intros g Hg. specialize (Hmin (g - i * 32)). rewrite shiftl_mul, u32_small in Hmin by zlia.
  zcase_in Hmin; [lia|]. rewrite word_bit in Hmin by lia.
  replace (i * 32 + (g - i * 32)) with g in Hmin by lia.
  destruct (frame_used s g); [done|]. simpl in Hmin. discriminate Hmin. lia.
Qed.

Lemma word_search_None s i g :
  0 ≤ i < 2 ^ 15 → word_search s i = None →
  i * 32 ≤ g < i * 32 + 32 → g < total_frames s → frame_used s g = true.
Proof.
  intros Hi Hw Hg Ht. unfold word_search in Hw.
  destruct (find_range 0 32 _) as [r|] eqn:Hr; simpl in Hw; [subst r|].
  - apply find_range_Some in Hr as (b & Hb & Hfb & Hmin).
    rewrite shiftl_mul, u32_small in Hfb by zlia. zcase_in Hfb.
    2: { by destruct (negb _) in Hfb. }
    zpow. specialize (Hmin (g - i * 32)). rewrite shiftl_mul, u32_small in Hmin by zlia.
    zcase_in Hmin; [lia|]. rewrite word_bit in Hmin by lia.
    replace (i * 32 + (g - i * 32)) with g in Hmin by lia.
    destruct (frame_used s g); [done|]. simpl in Hmin. discriminate Hmin. lia.
  - pose proof (proj1 (find_range_None _ _ _) Hr (g - i * 32) ltac:(lia)) as Hn. simpl in Hn.
    rewrite shiftl_mul, u32_small in Hn by zlia. zcase_in Hn; [lia|].
    rewrite word_bit in Hn by lia. zpow.
    replace (i * 32 + (g - i * 32)) with g in Hn by lia.
    by destruct (frame_used s g).
Qed.

(** The two-level search finds the lowest free frame, or there is none. *)
Lemma alloc_search_spec s :
  pmm_wf s →
  match alloc_search s with
  | Some f => 0 ≤ f < total_frames s ∧ frame_used s f = false ∧
              ∀ g, 0 ≤ g < f → frame_used s g = true
  | None => all_used s
  end.
Proof.
  intros Hwf. pose proof (wf_total _ Hwf) as Ht. zpow. unfold alloc_search.
  rewrite u32_small, shiftr_div by zlia.
  destruct (find_range _ _ _) as [f|] eqn:Hs.
  - apply find_range_Some in Hs as (i & Hi & Hfi & Hmin).
    zcase_in Hfi; [done|]. apply word_search_Some in Hfi as (Hf & Hft & Hu & Hlow); [|zlia].
    split_and!; [lia|done|done|]. intros g Hg.
    destruct (Z.le_gt_cases (i * 32) g); [apply Hlow; lia|].
    specialize (Hmin (g / 32) ltac:(zlia)). simpl in Hmin. zcase_in Hmin.
    + rewrite (Z.div_mod g 32), (Z.mul_comm 32) by lia. apply full_word_used; [done|zlia|zlia].
    + apply (word_search_None s (g / 32)); [zlia|done|zlia|lia].
  - intros g Hg. pose proof (proj1 (find_range_None _ _ _) Hs (g / 32) ltac:(zlia)) as Hn.
    simpl in Hn. zcase_in Hn.
    + rewrite (Z.div_mod g 32), (Z.mul_comm 32) by lia. apply full_word_used; [done|zlia|zlia].
    + apply (word_search_None s (g / 32)); [zlia|done|zlia|lia].
Qed.

(** ** The allocator as a source of frames *)

Definition pmm_inv (s : pmm) : Prop :=
  pmm_wf s ∧ (0 < total_frames s → frame_used s 0 = true).

Definition pmm_is_free (s : pmm) (p : Z) : Prop :=
  p mod 4096 = 0 ∧ 0 ≤ p < 4096 * total_frames s ∧ frame_used s (p / 4096) = false.

(** The two outcomes of an allocation. *)
Lemma pmm_alloc_cases s :
  pmm_wf s →
  (∃ f, 0 ≤ f < total_frames s ∧ frame_used s f = false ∧
        (∀ g, 0 ≤ g < f → frame_used s g = true) ∧
        pmm_alloc_frame s = (frame_mark_used f s, f * 4096)) ∨
  (all_used s ∧ pmm_alloc_frame s = (s, 0)).
Proof.
  intros Hwf. pose proof (wf_total _ Hwf) as Ht. zpow. unfold pmm_alloc_frame. zcase.
  { right. split; [|done]. intros f Hf. lia. }
  pose proof (alloc_search_spec s Hwf) as Hs.
  destruct (alloc_search s) as [f|]; [|by right].
  destruct Hs as (Hf & Hu & Hlow). left. exists f. split_and!; try done; try lia.
  rewrite shiftl_mul, u32_small by zlia. done.
Qed.

Lemma pmm_alloc_ok s s' p :
  pmm_inv s → pmm_alloc_frame s = (s', p) → p ≠ 0 →
  pmm_inv s' ∧ total_frames s' = total_frames s ∧ pmm_is_free s p ∧
  ∀ q, pmm_is_free s' q ↔ pmm_is_free s q ∧ q ≠ p.
Proof.
  intros [Hwf H0] Ha Hp.
  destruct (pmm_alloc_cases s Hwf) as [(f & Hf & Hu & Hlow & E)|[_ E]]; [|congruence].
  rewrite E in Ha. injection Ha as <- <-.
  destruct (frame_mark_used_spec f s) as (Hwf' & Ht' & _ & Hu'); [done|lia|].
  assert (f * 4096 / 4096 = f) as Hdiv by (apply Z.div_mul; lia).
  assert (f * 4096 mod 4096 = 0) as Hmod by (apply Z.mod_mul; lia).
  split_and!; try done.
  - split; [done|]. intros Hpos. rewrite Ht' in Hpos. rewrite Hu' by lia. by rewrite H0.
  - unfold pmm_is_free. rewrite Hdiv. split_and!; try done; lia.
  - intros q. unfold pmm_is_free. rewrite Ht'. split.
    + intros (Hm & Hq & Huq). rewrite Hu' in Huq by zlia.
      apply orb_false_iff in Huq as [Huq Hne]. apply Z.eqb_neq in Hne.
      split_and!; try done; [lia|lia|]. intros ->. by rewrite Hdiv in Hne.
    + intros [(Hm & Hq & Huq) Hne]. split_and!; try done; [lia|lia|].
      rewrite Hu' by zlia. rewrite Huq. apply Z.eqb_neq. clear -Hm Hne. zlia.
Qed.

Lemma pmm_alloc_full s s' :
  pmm_inv s → pmm_alloc_frame s = (s', 0) → s' = s ∧ ∀ q, ¬ pmm_is_free s q.
Proof.
  intros [Hwf H0] Ha.
  destruct (pmm_alloc_cases s Hwf) as [(f & Hf & Hu & Hlow & E)|[Hall E]].
  - rewrite E in Ha. injection Ha as _ Hf0. assert (f = 0) as -> by lia.
    rewrite H0 in Hu by lia. done.
  - rewrite E in Ha. injection Ha as <-. split; [done|].
    intros q (Hm & Hq & Huq). rewrite Hall in Huq; [done|zlia].
Qed.

Lemma pmm_free_ok s p :
  pmm_inv s → p mod 4096 = 0 → 0 < p < 4096 * total_frames s →
  pmm_inv (pmm_free_frame p s) ∧ total_frames (pmm_free_frame p s) = total_frames s ∧
  ∀ q, pmm_is_free (pmm_free_frame p s) q ↔ pmm_is_free s q ∨ q = p.
Proof.
  intros [Hwf H0] Hm Hp. unfold pmm_free_frame. rewrite shiftr_div by lia.
  change (2 ^ 12) with 4096.
  destruct (frame_mark_free_spec (p / 4096) s) as (Hwf' & Ht' & _ & Hu'); [done|zlia|].
  split_and!; try done.
  - split; [done|]. intros Hpos. rewrite Ht' in Hpos. rewrite Hu', H0 by lia. cbn [andb].
    apply negb_true_iff, Z.eqb_neq. zlia.
  - intros q. unfold pmm_is_free. rewrite Ht'. split.
    + intros (Hmq & Hq & Huq). rewrite Hu' in Huq by zlia.
      apply andb_false_iff in Huq as [Huq|Hne]; [by left|].
      apply negb_false_iff, Z.eqb_eq in Hne. right. zlia.
    + intros [(Hmq & Hq & Huq)| ->]; (split_and!; [done|lia|lia|]).
      * rewrite Hu' by zlia. by rewrite Huq.
      * rewrite Hu' by zlia. rewrite Z.eqb_refl. apply andb_false_r.
Qed.

(** The statistics count: one allocation takes one free frame, one free of a
    used frame gives one back. *)
Lemma free_count s : pmm_wf s → pmm_free_frames s = total_frames s - used_frames s.
Proof.
  intros Hwf. pose proof (used_bounds s Hwf). pose proof (wf_total _ Hwf).
  unfold pmm_free_frames. zpow. apply u32_small. lia.
Qed.

Lemma mark_used_count f s :
  pmm_wf s → 0 ≤ f < total_frames s → frame_used s f = false →
  used_frames (frame_mark_used f s) = used_frames s + 1.
Proof.
  intros Hwf Hf Hu. destruct (frame_mark_used_spec f s Hwf ltac:(lia)) as (Hwf' & Ht & _ & Hu').
  rewrite (wf_used _ Hwf'), (wf_used _ Hwf), Ht.
  apply (count_below_flip _ _ _ f); [lia|done|by rewrite Hu', Z.eqb_refl, orb_true_r by lia|].
  intros i Hi. unfold frame_mark_used. rewrite Hu. zcase; [done|]. cbn [negb].
  rewrite frame_used_set by done. apply Z.eqb_neq in Hi. by rewrite Hi, orb_false_r.
Qed.

Lemma mark_free_count f s :
  pmm_wf s → 0 ≤ f < total_frames s → frame_used s f = true →
  used_frames (frame_mark_free f s) = used_frames s - 1.
Proof.
  intros Hwf Hf Hu. destruct (frame_mark_free_spec f s Hwf ltac:(lia)) as (Hwf' & Ht & _ & Hu').
  enough (used_frames s = used_frames (frame_mark_free f s) + 1) by lia.
  rewrite (wf_used _ Hwf'), (wf_used _ Hwf), Ht.
  apply (count_below_flip _ _ _ f); [lia|by rewrite Hu', Z.eqb_refl, andb_false_r by lia|done|].
  intros i Hi. unfold frame_mark_free. rewrite Hu. zcase; [done|].
  rewrite frame_used_clear by done. apply Z.eqb_neq in Hi. by rewrite Hi, andb_true_r.
Qed.

Lemma pmm_alloc_count s s' p :
  pmm_inv s → pmm_alloc_frame s = (s', p) → p ≠ 0 →
  pmm_free_frames s' = pmm_free_frames s - 1.
Proof.
  intros [Hwf H0] Ha Hp.
  destruct (pmm_alloc_cases s Hwf) as [(f & Hf & Hu & Hlow & E)|[_ E]]; [|congruence].
  rewrite E in Ha. injection Ha as <- <-.
  destruct (frame_mark_used_spec f s Hwf ltac:(lia)) as (Hwf' & Ht & _).
  rewrite !free_count by done. rewrite mark_used_count by done. lia.
Qed.

Lemma pmm_free_count s p :
  pmm_inv s → p mod 4096 = 0 → 0 < p < 4096 * total_frames s → ¬ pmm_is_free s p →
  pmm_free_frames (pmm_free_frame p s) = pmm_free_frames s + 1.
Proof.
  intros [Hwf H0] Hm Hp Hn. unfold pmm_free_frame. rewrite shiftr_div by lia.
  change (2 ^ 12) with 4096.
  destruct (frame_mark_free_spec (p / 4096) s Hwf ltac:(zlia)) as (Hwf' & Ht & _).
  rewrite !free_count by done. rewrite mark_free_count; [lia|done|zlia|].
  apply not_false_iff_true. intros Hu. apply Hn. unfold pmm_is_free.
  split; [done|]. split; [lia|done].
Qed.

Lemma pmm_full_count s : pmm_inv s → (∀ q, ¬ pmm_is_free s q) → pmm_free_frames s = 0.
Proof.
  intros [Hwf H0] Hno. pose proof (wf_total _ Hwf) as Ht. rewrite free_count by done.
  rewrite (wf_used _ Hwf), count_below_all; [lia|].
  intros f Hf. apply not_false_iff_true. intros Hu. apply (Hno (f * 4096)).
  unfold pmm_is_free. rewrite Z.div_mul, Z.mod_mul by lia. split; [done|]. split; [lia|done].
Qed.

#[export] Program Instance pmm_frames : FrameAllocator pmm := {|
  fa_alloc := pmm_alloc_frame;
  fa_free := pmm_free_frame;
  fa_total := pmm_total_frames;
  fa_count := pmm_free_frames;
  fa_inv := pmm_inv;
  fa_is_free := pmm_is_free
|}.
Next Obligation. intros a [Hwf _]. apply (wf_total _ Hwf). Qed.
Next Obligation.
  intros a p [Hwf H0] (Hm & Hp & Hu). split; [done|]. unfold pmm_total_frames.
  assert (p ≠ 0); [|lia]. intros ->. change (0 / 4096) with 0 in Hu. rewrite H0 in Hu; [done|lia].
Qed.
Next Obligation. intros a a' p. apply pmm_alloc_ok. Qed.
Next Obligation. intros a a'. apply pmm_alloc_full. Qed.
Next Obligation. intros a p. apply pmm_free_ok. Qed.
Next Obligation.
  intros a [Hwf _]. rewrite free_count by done. pose proof (used_bounds a Hwf).
  unfold pmm_total_frames. lia.
Qed.
Next Obligation. intros a a' p. apply pmm_alloc_count. Qed.
Next Obligation. intros a p. apply pmm_free_count. Qed.
Next Obligation. intros a. apply pmm_full_count. Qed.

(** The state [pmm_init] leaves satisfies the allocator's invariant. *)
Lemma pmm_init_inv map : Forall entry_wf map → pmm_inv (pmm_init map).
Proof.
  intros HF. destruct (pmm_init_spec map HF) as [Hwf Hs]. split; [done|].
  intros Hpos. destruct Hs as [Ht|[Ha Hu]]; [lia|]. rewrite Hu by lia.
  unfold touches, FRAME_SIZE. simpl. by rewrite orb_true_r.
Qed.

(** ** Abstract specification

    A set of free frame numbers below a fixed total; allocation removes the
    least element, freeing adds one. *)

Definition free_frames (s : pmm) : gset Z :=
  list_to_set (filter (λ f, frame_used s f = false) (seqZ 0 (total_frames s))).

Definition least (total : Z) (F : gset Z) : option Z :=
  snd <$> list_find (λ f, f ∈ F) (seqZ 0 total).

Inductive request := Alloc | Free (p : Z).

Definition spec_step (total : Z) (F : gset Z) (r : request) : gset Z * Z :=
  match r with
  | Alloc => match least total F with
             | Some f => (F ∖ {[f]}, f * 4096)
             | None => (F, 0)
             end
  | Free p => (if (0 <=? p / 4096) && (p / 4096 <? total) then {[p / 4096]} ∪ F else F, 0)
  end.

Definition pmm_step (s : pmm) (r : request) : pmm * Z :=
  match r with
  | Alloc => pmm_alloc_frame s
  | Free p => (pmm_free_frame p s, 0)
  end.

Fixpoint run {S} (step : S → request → S * Z) (s : S) (rs : list request) : S * list Z :=
  match rs with
  | [] => (s, [])
  | r :: rs => let '(s', v) := step s r in
               let '(s'', vs) := run step s' rs in (s'', v :: vs)
  end.

Lemma elem_of_free_frames s f :
  f ∈ free_frames s ↔ 0 ≤ f < total_frames s ∧ frame_used s f = false.
Proof.
  unfold free_frames. rewrite elem_of_list_to_set, list_elem_of_filter, elem_of_seqZ.
  intuition lia.
Qed.

Lemma least_None total F : (∀ f, 0 ≤ f < total → f ∉ F) → least total F = None.
Proof.
  intros H. unfold least. rewrite (proj2 (list_find_None _ _)); [done|].
  apply Forall_forall. intros f Hf. apply elem_of_seqZ in Hf. apply H. lia.
Qed.

Lemma least_Some total F f :
  0 ≤ f < total → f ∈ F → (∀ g, 0 ≤ g < f → g ∉ F) → least total F = Some f.
Proof.
  intros Hf HF Hmin. unfold least.
  rewrite (proj2 (list_find_Some _ _ (Z.to_nat f) f)); [done|].
  split_and!; [|done|].
  - apply lookup_seqZ. lia.
  - intros j g Hg Hj. apply lookup_seqZ in Hg as [-> ?]. apply Hmin. lia.
Qed.

Lemma refine_alloc s :
  pmm_wf s →
  let '(s', p) := pmm_alloc_frame s in
  pmm_wf s' ∧ total_frames s' = total_frames s ∧
  spec_step (total_frames s) (free_frames s) Alloc = (free_frames s', p).
Proof.
  intros Hwf. destruct (pmm_alloc_cases s Hwf) as [(f & Hf & Hu & Hlow & ->)|[Hall ->]].
  - destruct (frame_mark_used_spec f s) as (Hwf' & Ht' & _ & Hu'); [done|lia|].
    split_and!; [done|done|]. simpl. rewrite (least_Some _ _ f); [|done| |].
    + f_equal. apply set_eq. intros g.
      rewrite elem_of_difference, elem_of_singleton, !elem_of_free_frames, Ht'.
      split.
      * intros [[Hg Hug] Hne]. split; [done|]. rewrite Hu', Hug by lia. by apply Z.eqb_neq.
      * intros [Hg Hug]. rewrite Hu' in Hug by lia. apply orb_false_iff in Hug as [? ?].
        split; [done|]. by apply Z.eqb_neq.
    + by apply elem_of_free_frames.
    + intros g Hg. rewrite elem_of_free_frames. intros [_ Hug]. rewrite Hlow in Hug; done.
  - split_and!; [done|done|]. simpl. rewrite least_None; [done|].
    intros f Hf. rewrite elem_of_free_frames. intros [_ Hug]. by rewrite Hall in Hug.
Qed.

Lemma refine_free s p :
  pmm_wf s → 0 ≤ p →
  pmm_wf (pmm_free_frame p s) ∧ total_frames (pmm_free_frame p s) = total_frames s ∧
  spec_step (total_frames s) (free_frames s) (Free p) = (free_frames (pmm_free_frame p s), 0).
Proof.
  intros Hwf Hp. unfold pmm_free_frame. rewrite shiftr_div by lia. change (2 ^ 12) with 4096.
  destruct (frame_mark_free_spec (p / 4096) s) as (Hwf' & Ht' & _ & Hu'); [done|zlia|].
  split_and!; [done|done|]. simpl. f_equal. apply set_eq. intros g.
  rewrite elem_of_free_frames, Ht'.
  destruct ((0 <=? p / 4096) && (p / 4096 <? total_frames s)) eqn:Hin.
  - rewrite elem_of_union, elem_of_singleton, elem_of_free_frames.
    apply andb_true_iff in Hin as [H1%Z.leb_le H2%Z.ltb_lt]. split.
    + intros [->|[Hg Hug]]; (split; [lia|]); rewrite Hu' by lia.
      * rewrite Z.eqb_refl. apply andb_false_r.
      * by rewrite Hug.
    + intros [Hg Hug]. rewrite Hu' in Hug by lia.
      destruct (Z.eqb_spec g (p / 4096)); [by left|right]. by rewrite andb_true_r in Hug.
  - rewrite elem_of_free_frames. split; intros [Hg Hug]; (split; [done|]).
    + rewrite Hu', Hug by lia. done.
    + rewrite Hu' in Hug by lia. destruct (Z.eqb_spec g (p / 4096)) as [->|].
      * exfalso. apply andb_false_iff in Hin. rewrite Z.leb_gt, Z.ltb_ge in Hin. lia.
      * by rewrite andb_true_r in Hug.
Qed.

Definition request_wf (r : request) : Prop :=
  match r with Alloc => True | Free p => 0 ≤ p < 2 ^ 32 end.

(** ** Properties *)

(** A two-megabyte machine: 640 KiB of low RAM and RAM from 1 to 2 MiB. *)
Definition demo_map : list e820_entry :=
  [E820 0 0x9FC00 1 0; E820 0xF0000 0x10000 2 0; E820 0x100000 0x100000 1 0].

Lemma demo_map_wf : Forall entry_wf demo_map.
Proof. repeat constructor; simpl; lia. Qed.

(** What an entry of the BIOS map says, in plain arithmetic: usable memory that
    starts below 4 GiB, and its end as far as 32 bits can address it. *)
Definition ram (e : e820_entry) : Prop := e_type e = 1 ∧ e_base e < 2 ^ 32.
Definition ram_end (e : e820_entry) : Z := (e_base e + e_length e) mod 2 ^ 64.
Definition ram_top (e : e820_entry) : Z := Z.min (2 ^ 32) (ram_end e).

(** The top of memory: the highest address that usable memory reaches, 0 if there is
    none. *)
Definition top_of_memory (map : list e820_entry) (top : Z) : Prop :=
  (top = 0 ∨ ∃ e, e ∈ map ∧ ram e ∧ ram_top e = top) ∧
  ∀ e, e ∈ map → ram e → ram_top e ≤ top.

(** The entry has room for [bytes] bytes above the first MiB, and where. *)
Definition room_at (e : e820_entry) : Z := Z.max (2 ^ 20) (e_base e).
Definition has_room (bytes : Z) (e : e820_entry) : Prop :=
  ram e ∧ room_at e < ram_top e ∧ room_at e + bytes ≤ ram_top e.

Lemma region_ok_ram e : entry_wf e → region_ok e = true ↔ ram e.
Proof.
  intros [Hb _]. unfold region_ok, ram, c_true, E820_USABLE. rewrite shiftr_div by lia.
  rewrite andb_true_iff, Z.eqb_eq, negb_involutive, Z.eqb_eq. zlia.
Qed.

Lemma ram_end_region e : region_end e = ram_end e.
Proof. done. Qed.

Lemma pass1_top map : Forall entry_wf map → top_of_memory map (pass1 map).
Proof.
  intros HF. unfold pass1.
  assert (∀ m, let t := fold_left (λ max_addr e, if region_ok e then
      let end_ := clamp_4g (region_end e) in if max_addr <? end_ then end_ else max_addr
      else max_addr) map m in
    m ≤ t ∧ (t = m ∨ ∃ e, e ∈ map ∧ ram e ∧ ram_top e = t) ∧
    ∀ e, e ∈ map → ram e → ram_top e ≤ t) as H; [|by destruct (H 0) as (_ & ? & ?)].
  induction HF as [|e map He HF IH]; intros m t; subst t; cbn [fold_left].
  { split_and!; [lia|by left|]. intros e He. by apply elem_of_nil in He. }
  pose proof (region_ok_ram e He) as Hr.
  rewrite clamp_4g_min, ram_end_region.
  assert (Z.min (ram_end e) 4294967296 = ram_top e) as -> by (unfold ram_top; lia).
  match goal with |- context [ fold_left ?f map ?m1 ] =>
    destruct (IH m1) as (H1 & H2 & H3); set (t := fold_left f map m1) in *;
    remember m1 as m' eqn:Em end.
  clearbody t.
  assert (m ≤ m' ∧ (ram e → ram_top e ≤ m') ∧ (m' = m ∨ (ram e ∧ ram_top e = m'))) as (Ha & Hb & Hc).
  { rewrite Em. destruct (region_ok e); [zcase|]; (split_and!; [lia|try lia|]);
      try (by left); try (right; tauto); intros Hram; by apply Hr in Hram. }
  split_and!; [lia| |].
  - destruct H2 as [->|(x & Hx & ?)]; [|right; exists x; split; [by right|done]].
    destruct Hc as [->|[? ?]]; [by left|right; exists e; split; [by left|done]].
  - intros x Hx Hram. apply elem_of_cons in Hx as [->|Hx]; [specialize (Hb Hram); lia|by apply H3].
Qed.

(** The second pass takes the first region with room. *)
Lemma pass2_first map bytes :
  0 ≤ bytes → Forall entry_wf map →
  pass2 map bytes = 0 ∧ (∀ e, e ∈ map → ¬ has_room bytes e) ∨
  ∃ before e after, map = before ++ e :: after ∧ has_room bytes e ∧
    (∀ x, x ∈ before → ¬ has_room bytes x) ∧ pass2 map bytes = room_at e.
Proof.
  intros Hby. induction 1 as [|e map He HF IH]; cbn [pass2].
  { left. split; [done|]. intros e He. by apply elem_of_nil in He. }
  pose proof (region_ok_ram e He) as Hr.
  assert (¬ has_room bytes e →
    pass2 map bytes = 0 ∧ (∀ x, x ∈ e :: map → ¬ has_room bytes x) ∨
    ∃ before e' after, e :: map = before ++ e' :: after ∧ has_room bytes e' ∧
    (∀ x, x ∈ before → ¬ has_room bytes x) ∧ pass2 map bytes = room_at e') as Hskip.
  { intros Hno. destruct IH as [[-> Hn]|(b & e' & a & -> & Hh & Hb & ->)].
    - left. split; [done|]. intros x Hx. apply elem_of_cons in Hx as [->|Hx]; [done|by apply Hn].
    - right. exists (e :: b), e', a. split_and!; try done.
      intros x Hx. apply elem_of_cons in Hx as [->|Hx]; [done|by apply Hb]. }
  destruct (region_ok e) eqn:Hok.
  2: { apply Hskip. intros [Hram _]. apply Hr in Hram. congruence. }
  pose proof (region_ok_base e He Hok) as Hbase. pose proof (proj1 Hr eq_refl) as Hram.
  rewrite clamp_4g_min, ram_end_region.
  replace (Z.min (ram_end e) 4294967296) with (ram_top e) by (unfold ram_top; lia).
  replace (if e_base e <? 1048576 then 1048576 else e_base e) with (room_at e)
    by (unfold room_at; zcase; lia).
  zcase; [apply Hskip; intros (_ & ? & _); lia|].
  zcase; [|apply Hskip; intros (_ & _ & ?); lia].
  right. exists [], e, map. split_and!; try done.
  - unfold has_room. split_and!; [done|lia|lia].
  - intros x Hx. by apply elem_of_nil in Hx.
  - apply u32_small. unfold room_at. lia.
Qed.

(** The size of the bitmap: a bit per frame, in whole 32-bit words. *)
Lemma bitmap_bytes_words n : 0 ≤ n ≤ 2 ^ 20 → bitmap_bytes_for n = 4 * ((n + 31) / 32).
Proof.
  intros Hn. zpow. unfold bitmap_bytes_for. change (u32_not 3) with (u32_not (Z.ones 2)).
  rewrite !land_align by (lia || apply u32_range).
  rewrite shiftr_div by lia. rewrite (u32_small ((n + 7) / 2 ^ 3)) by zlia.
  rewrite !u32_small by zlia. zlia.
Qed.

(** C16: after [pmm_init] the allocator manages the frames below the top of usable
    memory (at most 4 GiB) and exactly the right ones are free.  Its bitmap, a bit
    per frame, is placed in the first usable region with room for it above 1 MiB, at
    the lowest such address; a frame is allocatable iff it lies whole inside a usable
    region, not in the first MiB and not on the bitmap; and [used_frames] counts the
    rest.  When no region has room it manages nothing. *)
Theorem pmm_init_exact map :
  Forall entry_wf map →
  let s := pmm_init map in
  pmm_wf s ∧
  ∃ top, top_of_memory map top ∧
    let n := top / 4096 in
    let bytes := 4 * ((n + 31) / 32) in
    ((∀ e, e ∈ map → ¬ has_room bytes e) ∧ total_frames s = 0 ∨
     ∃ before e after, map = before ++ e :: after ∧ has_room bytes e ∧
       (∀ x, x ∈ before → ¬ has_room bytes x) ∧
       total_frames s = n ∧ bitmap_addr s = room_at e ∧
       ∀ f, 0 ≤ f < n →
         (frame_used s f = false ↔
            (∃ r, r ∈ map ∧ ram r ∧ e_base r ≤ f * 4096 ∧ (f + 1) * 4096 ≤ ram_end r) ∧
            2 ^ 20 ≤ f * 4096 ∧
            ((f + 1) * 4096 ≤ room_at e ∨ room_at e + bytes ≤ f * 4096))).
Proof.
  intros HF s. subst s. destruct (pmm_init_passes map HF) as [Hwf Hs]. split; [done|].
  exists (pass1 map). pose proof (pass1_top map HF) as Htop. split; [done|].
  pose proof (pass1_range map) as H1. unfold FOUR_GIB in H1.
  set (n := pass1 map / 4096) in *.
  assert (0 ≤ n ≤ 2 ^ 20) as Hn by (subst n; zlia).
  pose proof (bitmap_bytes_words n Hn) as Hbw. cbv zeta. rewrite Hbw in Hs.
  set (bytes := 4 * ((n + 31) / 32)) in *.
  assert (0 ≤ bytes) as Hby by (subst bytes; zlia).
  destruct (pass2_first map bytes Hby HF) as [[E2 Hno]|(before & e & after & Em & He & Hb & E2)].
  { left. split; [done|]. destruct Hs as [[? _]|(_ & _ & E & Hge & _)]; [done|lia]. }
  assert (room_at e ≠ 0) as Hne by (unfold room_at; lia).
  right. exists before, e, after.
  destruct Hs as [[Ht [E1|E]]|(Ht & _ & Ea & Hge & Hu)]; [|lia|].
  { exfalso. destruct He as (Hram & Hlt & _). destruct Htop as [_ Htop].
    specialize (Htop e ltac:(rewrite Em; set_solver) Hram). unfold room_at in Hlt. lia. }
  split_and!; [done|done|done|done|lia|]. intros f Hf. rewrite Hu by lia. rewrite Ht, Ea, E2, Hbw.
  fold bytes. rewrite !orb_false_iff, negb_false_iff. unfold usable. rewrite existsb_exists.
  assert (∀ a b, a < b → touches a b f = false ↔ (f + 1) * FRAME_SIZE ≤ a ∨ b ≤ f * FRAME_SIZE)
    as Htouch by (intros a b Hab; unfold touches; rewrite !andb_false_iff, !Z.ltb_ge; lia).
  assert (0 < bytes) as Hpos by (subst bytes; zlia).
  rewrite !Htouch by lia. unfold inside.
  assert ((∃ x, In x map ∧ region_ok x && ((e_base x <=? f * FRAME_SIZE) &&
             ((f + 1) * FRAME_SIZE <=? region_end x)) = true) ↔
          (∃ r, r ∈ map ∧ ram r ∧ e_base r ≤ f * 4096 ∧ (f + 1) * 4096 ≤ ram_end r)) as ->.
  { split; intros (x & Hx & H); exists x; rewrite list_elem_of_In in *; (split; [done|]);
      rewrite !andb_true_iff, !Z.leb_le, region_ok_ram, ram_end_region in *;
      try done; apply (proj1 (Forall_forall _ _) HF), list_elem_of_In; done. }
  unfold FRAME_SIZE. split; [intros [[? ?] ?]|intros (? & ? & ?)]; (split_and!; [done|lia|lia]).
Qed.

Lemma pmm_init_exact_witness :
  Forall entry_wf demo_map ∧
  total_frames (pmm_init demo_map) = 512 ∧ bitmap_addr (pmm_init demo_map) = 0x100000 ∧
  pmm_wf (pmm_init demo_map).
Proof.
  split; [exact demo_map_wf|]. split; [vm_compute; reflexivity|].
  split; [vm_compute; reflexivity|]. exact (proj1 (pmm_init_exact demo_map demo_map_wf)).
Defined.

(** C3: the bitmap allocator refines the set allocator: on every sequence of
    allocations and frees the addresses returned are those of the abstract
    machine that hands out the least free frame, and the abstraction of the
    final bitmap is the abstract machine's final set. *)
Theorem pmm_refines_set rs s :
  pmm_wf s → Forall request_wf rs →
  let '(s', out) := run pmm_step s rs in
  run (spec_step (total_frames s)) (free_frames s) rs = (free_frames s', out) ∧ pmm_wf s'.
Proof.
  revert s. induction rs as [|r rs IH]; intros s Hwf Hrs; simpl; [done|].
  apply Forall_cons in Hrs as [Hr Hrs'].
  assert (∃ s' v, pmm_step s r = (s', v) ∧ pmm_wf s' ∧ total_frames s' = total_frames s ∧
    spec_step (total_frames s) (free_frames s) r = (free_frames s', v)) as (s' & v & -> & Hw & Ht & ->).
  { destruct r as [|p]; simpl.
    - pose proof (refine_alloc s Hwf) as H. destruct (pmm_alloc_frame s) as [s' v].
      exists s', v. by destruct H as (? & ? & ?).
    - destruct (refine_free s p Hwf) as (? & ? & ?); [simpl in Hr; lia|]. by eexists _, _. }
  specialize (IH s' Hw Hrs'). rewrite Ht in IH.
  destruct (run pmm_step s' rs) as [s'' vs]. destruct IH as [-> ?]. done.
Qed.

Lemma pmm_refines_set_witness :
  let s := pmm_init demo_map in
  (run pmm_step s [Alloc; Alloc; Free 0x101000; Alloc]).2 = [0x101000; 0x102000; 0; 0x101000] ∧
  pmm_wf (run pmm_step s [Alloc; Alloc; Free 0x101000; Alloc]).1.
Proof.
  split; [vm_compute; reflexivity|].
  assert (pmm_wf (pmm_init demo_map)) as Hwf by exact (proj1 (pmm_init_spec demo_map demo_map_wf)).
  pose proof (pmm_refines_set [Alloc; Alloc; Free 0x101000; Alloc] (pmm_init demo_map) Hwf
    ltac:(repeat constructor; simpl; lia)) as H.
  destruct (run pmm_step _ _) as [s' out]. exact (proj2 H).
Defined.

(** Out of memory is reported exactly when every frame is in use: on an
    initialised allocator [pmm_alloc_frame] returns 0 iff [pmm_free_frames] is 0,
    and then it changes nothing. *)
Theorem pmm_alloc_zero_iff_full s :
  pmm_inv s →
  ((pmm_alloc_frame s).2 = 0 ↔ pmm_free_frames s = 0) ∧
  ((pmm_alloc_frame s).2 = 0 → (pmm_alloc_frame s).1 = s).
Proof.
  intros [Hwf H0]. pose proof (used_bounds s Hwf) as Hub. pose proof (wf_total _ Hwf) as Ht.
  unfold pmm_free_frames. zpow.
  destruct (pmm_alloc_cases s Hwf) as [(f & Hf & Hu & Hlow & ->)|[Hall ->]]; simpl.
  - assert (f ≠ 0) as Hf0 by (intros ->; rewrite H0 in Hu by lia; done).
    destruct (frame_mark_used_spec f s) as (Hwf' & Ht' & _ & Hu'); [done|lia|].
    pose proof (used_bounds _ Hwf') as Hub'.
    assert (used_frames (frame_mark_used f s) = used_frames s + 1) as Hcnt.
    { unfold frame_mark_used. rewrite Hu. zcase; [lia|]. simpl. rewrite u32_small; lia. }
    split; [|lia]. rewrite u32_small by lia. lia.
  - split; [|done]. split; [intros _|done].
    rewrite (wf_used _ Hwf), count_below_all; [rewrite Z2Nat.id, Z.sub_diag by lia; done|].
    intros i Hi. apply Hall. lia.
Qed.

Lemma pmm_alloc_zero_iff_full_witness :
  pmm_free_frames (pmm_init demo_map) = 255 ∧
  ((pmm_alloc_frame (pmm_init demo_map)).2 = 0 ↔ pmm_free_frames (pmm_init demo_map) = 0).
Proof.
  split; [vm_compute; reflexivity|].
  exact (proj1 (pmm_alloc_zero_iff_full _ (pmm_init_inv demo_map demo_map_wf))).
Defined.
