(* ===== verification/Paging.v ===== *)
(** Paging: mm/paging.c, the two-level i386 page tables built from frames of the
    physical memory manager.  Proved against [Frames.FrameAllocator]; the
    bitmap allocator of [Pmm.v] instantiates it in the witnesses. *)
From Stdlib Require Import ZArith Lia Bool String.
From stdpp Require Import base numbers list gmap option.
From S2P Require Import Prelude Console Frames Pmm.

#[local] Open Scope Z_scope.
#[local] Open Scope c_scope.

Definition ENTRIES : Z := 1024.
Definition PAGE_SIZE : Z := 4096.
Definition ADDR_MASK : Z := 0xFFFFF000.
Definition IDENTITY_CAP : Z := 0x40000000.
Definition PAGE_PRESENT : Z := 0x1.
Definition PAGE_WRITE : Z := 0x2.
Definition PAGE_USER : Z := 0x4.

(** [virt >> 22], [(virt >> 12) & 0x3FF] *)
Definition pdi_of (virt : Z) : Z := virt >>> 22.
Definition pti_of (virt : Z) : Z := (virt >>> 12) &&& 0x3FF.

(** The value stored for a new page table and for a page. *)
Definition pde_value (pt_phys flags : Z) : Z :=
  pt_phys ||| PAGE_PRESENT ||| PAGE_WRITE ||| (flags &&& PAGE_USER).
Definition pte_value (phys flags : Z) : Z :=
  (phys &&& ADDR_MASK) ||| (flags &&& 0xFFF) ||| PAGE_PRESENT.
Definition present (e : Z) : bool := c_true (e &&& PAGE_PRESENT).

(** What the page-fault handler prints before it halts, from CR2 and the error
    code and program counter of the interrupt frame. *)
Definition paging_fault (cr2 err_code eip : Z) : list con_call :=
  [CColor VGA_WHITE VGA_RED] ++
  con_write (nl ++ nl ++ str " *** PAGE FAULT *** faulting address ") ++ con_hex cr2 ++
  con_write (nl ++ str "  cause: ") ++
  con_write (if c_true (err_code &&& 0x1) then str "protection violation" else str "page not present") ++
  con_write (if c_true (err_code &&& 0x2) then str ", on write" else str ", on read") ++
  con_write (if c_true (err_code &&& 0x4) then str ", user mode" else str ", kernel mode") ++
  (if c_true (err_code &&& 0x10) then con_write (str ", instruction fetch") else []) ++
  con_write (nl ++ str "  eip = ") ++ con_hex eip ++ con_write (nl ++ str " PumpkinOS halted." ++ nl).

(** The module's statics, the frame allocator it calls, the physical memory as
    32-bit words at their (aligned) physical addresses, and the two control
    registers it writes.  The tables are read and written at their physical
    addresses, as the identity map of [paging_init] makes them appear. *)
Record paging (A : Type) := MkPaging {
  pg_frames : A;
  pg_mem : gmap Z Z;
  page_directory : Z;
  enabled : bool;
  cr3 : Z;
  cr0_pg : bool
}.
Arguments MkPaging {A}.
Arguments pg_frames {A}. Arguments pg_mem {A}. Arguments page_directory {A}.
Arguments enabled {A}. Arguments cr3 {A}. Arguments cr0_pg {A}.

(** [table[i] = 0] for every entry. *)
Definition zero_table (table : Z) (m : gmap Z Z) : gmap Z Z :=
  for_range 0 ENTRIES (λ i m, st m (table + 4 * i) 0) m.

Section Paging.
Context {A : Type} `{FrameAllocator A}.
Abbreviation pg := (paging A).

Definition with_mem (m : gmap Z Z) (s : pg) : pg :=
  MkPaging (pg_frames s) m (page_directory s) (enabled s) (cr3 s) (cr0_pg s).
Definition with_frames (a : A) (s : pg) : pg :=
  MkPaging a (pg_mem s) (page_directory s) (enabled s) (cr3 s) (cr0_pg s).

Definition load_cr3 (pd_phys : Z) (s : pg) : pg :=
  MkPaging (pg_frames s) (pg_mem s) (page_directory s) (enabled s) pd_phys (cr0_pg s).
Definition set_paging_bit (s : pg) : pg :=
  MkPaging (pg_frames s) (pg_mem s) (page_directory s) (enabled s) (cr3 s) true.

(** [page_directory[pdi]] and the table it points to. *)
Definition pde (s : pg) (pdi : Z) : Z := ld (pg_mem s) (page_directory s + 4 * pdi).
Definition table_of (s : pg) (pdi : Z) : Z := pde s pdi &&& ADDR_MASK.

(** The first half of [paging_map]: find or make the page table.  [None] is the
    out-of-memory return. *)
Definition get_table (pdi flags : Z) (s : pg) : pg * option Z :=
  if negb (present (pde s pdi)) then
    let '(a, pt_phys) := fa_alloc (pg_frames s) in
    let s := with_frames a s in
    if pt_phys =? 0 then (s, None)
    else
      let m := zero_table pt_phys (pg_mem s) in
      (with_mem (st m (page_directory s + 4 * pdi) (pde_value pt_phys flags)) s, Some pt_phys)
  else (s, Some (table_of s pdi)).

(** [if (enabled) load_cr3(page_directory)] *)
Definition flush_tlb (s : pg) : pg :=
  if enabled s then load_cr3 (page_directory s) s else s.

Definition paging_map (virt phys flags : Z) (s : pg) : pg * Z :=
  match get_table (pdi_of virt) flags s with
  | (s, None) => (s, -1)
  | (s, Some pt) =>
      (flush_tlb (with_mem (st (pg_mem s) (pt + 4 * pti_of virt) (pte_value phys flags)) s), 0)
  end.

Definition paging_unmap (virt : Z) (s : pg) : pg :=
  if negb (present (pde s (pdi_of virt))) then s
  else
    let pt := table_of s (pdi_of virt) in
    flush_tlb (with_mem (st (pg_mem s) (pt + 4 * pti_of virt) 0) s).

Definition paging_get_phys (virt : Z) (s : pg) : Z :=
  if negb (present (pde s (pdi_of virt))) then 0xFFFFFFFF
  else
    let e := ld (pg_mem s) (table_of s (pdi_of virt) + 4 * pti_of virt) in
    if negb (present e) then 0xFFFFFFFF
    else (e &&& ADDR_MASK) ||| (virt &&& 0xFFF).

Definition paging_is_enabled (s : pg) : bool := enabled s.

Definition identity_top (s : pg) : Z :=
  let top64 := u64 (fa_total (pg_frames s) <<< 12) in
  u32 (if IDENTITY_CAP <? top64 then IDENTITY_CAP else top64).

(** The loop adds [PAGE_SIZE] to [addr] while it is below [top], a multiple of
    [PAGE_SIZE] of at most 1 GiB; the results of [paging_map] are ignored. *)
Definition map_identity (s : pg) : pg :=
  for_range 0 (identity_top s / PAGE_SIZE) (λ i s,
    (paging_map (i * PAGE_SIZE) (i * PAGE_SIZE) (PAGE_PRESENT ||| PAGE_WRITE) s).1) s.

Definition paging_init (s : pg) : pg :=
  let '(a, pd_phys) := fa_alloc (pg_frames s) in
  let s := MkPaging a (zero_table pd_phys (pg_mem s)) pd_phys (enabled s) (cr3 s) (cr0_pg s) in
  let s := map_identity s in
  let s := set_paging_bit (load_cr3 pd_phys s) in
  MkPaging (pg_frames s) (pg_mem s) (page_directory s) true (cr3 s) (cr0_pg s).

(** ** Reading the tables *)

(** The page-table entry that translates [virt], if both levels are present. *)
Definition pte (s : pg) (virt : Z) : option Z :=
  if present (pde s (pdi_of virt)) then
    let e := ld (pg_mem s) (table_of s (pdi_of virt) + 4 * pti_of virt) in
    if present e then Some e else None
  else None.

Definition page_of (a : Z) : Z := a - a mod 4096.

Record paging_wf (s : pg) : Prop := {
  pw_frames : fa_inv (pg_frames s);
  pw_pd : page_directory s mod 4096 = 0 ∧ 0 < page_directory s < 2 ^ 32;
  pw_pd_ram : page_directory s < 4096 * fa_total (pg_frames s);
  pw_pd_used : ¬ fa_is_free (pg_frames s) (page_directory s);
  pw_words a : 0 ≤ ld (pg_mem s) a < 2 ^ 32;
  pw_table i : 0 ≤ i < 1024 → present (pde s i) = true →
    0 < table_of s i < 4096 * fa_total (pg_frames s) ∧ table_of s i ≠ page_directory s ∧
    ¬ fa_is_free (pg_frames s) (table_of s i);
  pw_inj i j : 0 ≤ i < 1024 → 0 ≤ j < 1024 →
    present (pde s i) = true → present (pde s j) = true →
    table_of s i = table_of s j → i = j
}.

End Paging.

(** ** Entries *)

Lemma addr_mask n : 0 ≤ n < 2 ^ 32 → n &&& ADDR_MASK = n - n mod 4096.
Proof. intros Hn. change ADDR_MASK with (u32_not (Z.ones 12)). by rewrite land_align by lia. Qed.

Lemma present_odd e : present e = Z.odd e.
Proof. unfold present. change PAGE_PRESENT with (1 <<< 0). by rewrite testbit_land_pow2, Z.bit0_odd. Qed.

Lemma entry_addr p l :
  p mod 4096 = 0 → 0 ≤ p < 2 ^ 32 → 0 ≤ l < 4096 →
  0 ≤ p ||| l < 2 ^ 32 ∧ (p ||| l) &&& ADDR_MASK = p ∧ present (p ||| l) = Z.odd l.
Proof.
  intros Hm Hp Hl. rewrite present_odd.
  rewrite Z.lor_comm. rewrite (lor_disjoint_add l p 12) by (done || lia).
  split; [zlia|]. split.
  - rewrite addr_mask by zlia. zlia.
  - rewrite Z.odd_add. assert (Z.odd p = false) as ->; [|by rewrite xorb_false_r].
    rewrite <- Z.negb_even. apply negb_false_iff, Z.even_spec. exists (p / 2). zlia.
Qed.

Lemma pde_value_spec p flags :
  p mod 4096 = 0 → 0 ≤ p < 2 ^ 32 →
  0 ≤ pde_value p flags < 2 ^ 32 ∧ pde_value p flags &&& ADDR_MASK = p ∧
  present (pde_value p flags) = true.
Proof.
  intros Hm Hp. unfold pde_value. rewrite <- !Z.lor_assoc.
  assert (0 ≤ flags &&& PAGE_USER < 2 ^ 3) as Hf.
  { rewrite Z.land_comm. apply land_range; done. }
  set (u := flags &&& PAGE_USER) in *.
  assert (0 ≤ PAGE_PRESENT ||| (PAGE_WRITE ||| u) < 2 ^ 12).
  { apply lor_range; [lia|done|]. apply lor_range; [lia|done|]. zlia. }
  destruct (entry_addr p (PAGE_PRESENT ||| (PAGE_WRITE ||| u))) as (? & ? & Hodd); [done|done|done|].
  split_and!; [lia|lia|done|]. rewrite Hodd, <- Z.bit0_odd, Z.lor_spec. done.
Qed.

Lemma pte_value_spec phys flags :
  0 ≤ phys < 2 ^ 32 →
  0 ≤ pte_value phys flags < 2 ^ 32 ∧
  pte_value phys flags &&& ADDR_MASK = page_of phys ∧
  present (pte_value phys flags) = true.
Proof.
  intros Hp. unfold pte_value. rewrite addr_mask, <- Z.lor_assoc by done.
  assert (0 ≤ flags &&& 0xFFF < 2 ^ 12).
  { rewrite Z.land_comm. apply land_range; done. }
  assert (0 ≤ (flags &&& 0xFFF) ||| PAGE_PRESENT < 2 ^ 12) by (apply lor_range; done).
  destruct (entry_addr (phys - phys mod 4096) ((flags &&& 0xFFF) ||| PAGE_PRESENT))
    as (? & ? & Hodd); [zlia|zlia|done|].
  split_and!; [lia|lia|done|]. rewrite Hodd, <- Z.bit0_odd, Z.lor_spec. apply orb_true_r.
Qed.

(** ** Indices *)

Lemma pdi_range v : 0 ≤ v < 2 ^ 32 → 0 ≤ pdi_of v < 1024.
Proof. intros. unfold pdi_of. rewrite shiftr_div by lia. zlia. Qed.

Lemma pti_eq v : pti_of v = v / 4096 mod 1024.
Proof.
  unfold pti_of. rewrite (land_mask _ 10) by done. by rewrite shiftr_div by lia.
Qed.

Lemma pti_range v : 0 ≤ pti_of v < 1024.
Proof. rewrite pti_eq. zlia. Qed.

Lemma same_page v w :
  pdi_of v = pdi_of w → pti_of v = pti_of w → v / 4096 = w / 4096.
Proof.
  rewrite !pti_eq. unfold pdi_of. rewrite !shiftr_div by lia. intros. zlia.
Qed.

Lemma page_indices v w :
  v / 4096 = w / 4096 → pdi_of v = pdi_of w ∧ pti_of v = pti_of w.
Proof.
  intros E. rewrite !pti_eq, E. unfold pdi_of. rewrite !shiftr_div by lia. split; [zlia|done].
Qed.

(** Entries of different tables never overlap. *)
Lemma entry_ne p q i j :
  p mod 4096 = 0 → q mod 4096 = 0 → p ≠ q →
  0 ≤ i < 1024 → 0 ≤ j < 1024 → p + 4 * i ≠ q + 4 * j.
Proof. intros. zlia. Qed.

Lemma entry_page p i : p mod 4096 = 0 → 0 ≤ i < 1024 → page_of (p + 4 * i) = p.
Proof. intros. unfold page_of. zlia. Qed.

Lemma page_of_eqb v w : (page_of v =? page_of w) = (v / 4096 =? w / 4096).
Proof.
  unfold page_of. destruct (Z.eqb_spec (v / 4096) (w / 4096)) as [E|E].
  - apply Z.eqb_eq. zlia.
  - apply Z.eqb_neq. zlia.
Qed.

(** ** Memory *)

Lemma ld_st_range m a v :
  0 ≤ v < 2 ^ 32 → (∀ b, 0 ≤ ld m b < 2 ^ 32) → ∀ b, 0 ≤ ld (st m a v) b < 2 ^ 32.
Proof.
  intros Hv Hm b. destruct (Z.eq_dec a b) as [->|].
  - by rewrite ld_st_eq. - by rewrite ld_st_ne.
Qed.

Lemma zero_table_eq t m i : 0 ≤ i < 1024 → ld (zero_table t m) (t + 4 * i) = 0.
Proof.
  unfold zero_table.
  apply (for_range_ind (λ k m', 0 ≤ i < k → ld m' (t + 4 * i) = 0)); [done|lia|].
  intros k m' Hk IH Hi. destruct (Z.eq_dec i k) as [->|]; [apply ld_st_eq|].
  rewrite ld_st_ne by lia. apply IH. lia.
Qed.

Lemma zero_table_ne t m a : t mod 4096 = 0 → page_of a ≠ t → ld (zero_table t m) a = ld m a.
Proof.
  intros Ht Ha. unfold zero_table.
  apply (for_range_inv (λ m', ld m' a = ld m a)); [done|].
  intros k m' Hk IH. rewrite ld_st_ne; [done|]. intros <-. apply Ha.
  apply entry_page; [done|]. unfold ENTRIES in Hk. lia.
Qed.

Lemma zero_table_range t m :
  (∀ a, 0 ≤ ld m a < 2 ^ 32) → ∀ a, 0 ≤ ld (zero_table t m) a < 2 ^ 32.
Proof.
  intros Hm. unfold zero_table. apply (for_range_inv (λ m', ∀ a, 0 ≤ ld m' a < 2 ^ 32)); [done|].
  intros k m' _ IH. by apply ld_st_range.
Qed.

(** ** The operations *)

Section Operations.
Context {A : Type} `{FrameAllocator A}.
Abbreviation pg := (paging A).

(** What no operation after initialisation changes. *)
Definition same_regs (s s' : pg) : Prop :=
  page_directory s' = page_directory s ∧ enabled s' = enabled s ∧
  cr0_pg s' = cr0_pg s ∧ fa_total (pg_frames s') = fa_total (pg_frames s).

Lemma same_regs_trans s1 s2 s3 : same_regs s1 s2 → same_regs s2 s3 → same_regs s1 s3.
Proof. intros (? & ? & ? & ?) (? & ? & ? & ?). split_and!; congruence. Qed.

(** The frames whose words a call may write: the directory, the tables it
    reaches and frames that were free when it was called. *)
Definition owned_frame (s : pg) (p : Z) : Prop :=
  p = page_directory s ∨ fa_is_free (pg_frames s) p ∨
  ∃ i, 0 ≤ i < 1024 ∧ present (pde s i) = true ∧ p = table_of s i.

Definition writes_owned (s s' : pg) : Prop :=
  ∀ a, ld (pg_mem s') a ≠ ld (pg_mem s) a → owned_frame s (page_of a).

Lemma table_aligned s i :
  paging_wf s → table_of s i mod 4096 = 0 ∧ 0 ≤ table_of s i < 2 ^ 32.
Proof.
  intros Hw. unfold table_of. pose proof (pw_words _ Hw (page_directory s + 4 * i)) as Hr.
  fold (pde s i) in Hr. rewrite addr_mask by done. zlia.
Qed.

(** Storing an entry in a present table: the directory and the other tables are
    untouched, so the state stays well formed. *)
Lemma store_pte s i j v :
  paging_wf s → 0 ≤ i < 1024 → 0 ≤ j < 1024 → present (pde s i) = true → 0 ≤ v < 2 ^ 32 →
  let s' := with_mem (st (pg_mem s) (table_of s i + 4 * j) v) s in
  paging_wf s' ∧ (∀ k, 0 ≤ k < 1024 → pde s' k = pde s k).
Proof.
  intros Hw Hi Hj Hp Hv s'.
  destruct (table_aligned s i Hw) as [Ha Hr]. destruct (pw_pd _ Hw) as [Hpa Hpr].
  destruct (pw_table _ Hw i Hi Hp) as (Ht0 & Htd & Htf).
  assert (∀ k, 0 ≤ k < 1024 → pde s' k = pde s k) as Hpde.
  { intros k Hk. unfold pde, s'. cbn [with_mem pg_mem page_directory].
    apply ld_st_ne. by apply entry_ne. }
  assert (∀ k, 0 ≤ k < 1024 → table_of s' k = table_of s k) as Htab.
  { intros k Hk. unfold table_of. by rewrite Hpde. }
  split; [|done]. split; try apply Hw.
  - intros a. by apply ld_st_range; [|apply Hw].
  - intros k Hk. rewrite Hpde, Htab by done. by apply Hw.
  - intros k l Hk Hl. rewrite !Hpde, !Htab by done. by apply Hw.
Qed.

Lemma store_pte_pte s i j v w :
  paging_wf s → 0 ≤ i < 1024 → 0 ≤ j < 1024 → present (pde s i) = true → 0 ≤ v < 2 ^ 32 →
  0 ≤ w < 2 ^ 32 →
  pte (with_mem (st (pg_mem s) (table_of s i + 4 * j) v) s) w =
  if (pdi_of w =? i) && (pti_of w =? j) then (if present v then Some v else None) else pte s w.
Proof.
  intros Hw Hi Hj Hp Hv Hwr. destruct (store_pte s i j v) as [Hw' Hpde]; [done..|].
  pose proof (pdi_range w Hwr) as Hk. pose proof (pti_range w) as Hl.
  assert (table_of (with_mem (st (pg_mem s) (table_of s i + 4 * j) v) s) (pdi_of w)
          = table_of s (pdi_of w)) as Htab by (unfold table_of; by rewrite Hpde).
  unfold pte. rewrite Hpde, Htab by done. cbn [with_mem pg_mem].
  destruct (table_aligned s i Hw) as [Ha _].
  destruct (table_aligned s (pdi_of w) Hw) as [Ha' _].
  destruct (Z.eqb_spec (pdi_of w) i) as [->|Hne]; cbn [andb].
  - rewrite Hp. destruct (Z.eqb_spec (pti_of w) j) as [->|Hne].
    + by rewrite ld_st_eq.
    + by rewrite ld_st_ne by lia.
  - destruct (present (pde s (pdi_of w))) eqn:Hpw; [|done].
    rewrite ld_st_ne; [done|]. apply entry_ne; try done.
    intros E. apply Hne. symmetry. by apply (pw_inj _ Hw).
Qed.

Lemma get_table_old s i flags :
  present (pde s i) = true → get_table i flags s = (s, Some (table_of s i)).
Proof. intros Hp. unfold get_table. by rewrite Hp. Qed.

(** A new table: a zeroed frame, installed in the directory; no translation
    changes. *)
Lemma get_table_new s i flags a t :
  paging_wf s → 0 ≤ i < 1024 → present (pde s i) = false →
  fa_alloc (pg_frames s) = (a, t) → t ≠ 0 →
  let s' := with_mem (st (zero_table t (pg_mem s)) (page_directory s + 4 * i)
                         (pde_value t flags)) (with_frames a s) in
  get_table i flags s = (s', Some t) ∧ paging_wf s' ∧ table_of s' i = t ∧
  present (pde s' i) = true ∧
  (∀ w, 0 ≤ w < 2 ^ 32 → pte s' w = pte s w) ∧ same_regs s s' ∧
  (∀ q, fa_is_free a q → fa_is_free (pg_frames s) q) ∧ writes_owned s s' ∧
  (∀ q, owned_frame s' q → owned_frame s q) ∧ fa_count a = fa_count (pg_frames s) - 1.
Proof.
  intros Hw Hi Hp Hall Ht0 s'. pose proof (pw_frames _ Hw) as Hfi.
  destruct (fa_alloc_ok _ _ _ Hfi Hall Ht0) as (Hfi' & Htot & Hfree & Hfr).
  destruct (fa_alloc_addr _ _ _ Hfi Hall Ht0) as (Ha & Hr & Hram).
  destruct (pw_pd _ Hw) as [Hpa Hpr]. destruct (pde_value_spec t flags) as (Hv & Hmask & Hpv);
    [done|lia|].
  assert (t ≠ page_directory s) as Hne by (intros ->; by apply (pw_pd_used _ Hw)).
  assert (∀ k, 0 ≤ k < 1024 → pde s' k = if k =? i then pde_value t flags else pde s k) as Hpde.
  { intros k Hk. unfold pde, s'. cbn [with_mem with_frames pg_mem page_directory].
    destruct (Z.eqb_spec k i) as [->|Hki]; [apply ld_st_eq|].
    rewrite ld_st_ne by lia. apply zero_table_ne; [done|]. by rewrite entry_page. }
  assert (∀ k, 0 ≤ k < 1024 → table_of s' k = if k =? i then t else table_of s k) as Htab.
  { intros k Hk. unfold table_of. rewrite Hpde by done. by destruct (k =? i). }
  assert (∀ k, 0 ≤ k < 1024 → present (pde s k) = true → k ≠ i ∧ table_of s k ≠ t) as Hold.
  { intros k Hk Hpk. split; [intros ->; by rewrite Hp in Hpk|]. intros <-.
    by destruct (pw_table _ Hw k Hk Hpk) as (_ & _ & Hn). }
  split_and!.
  - unfold get_table. rewrite Hp, Hall. cbn [negb].
    destruct (Z.eqb_spec t 0); [done|]. done.
  - split; [done|done|cbn; rewrite Htot; apply Hw|cbn; rewrite Hfr; intros [? _]; by apply (pw_pd_used _ Hw)| | |].
    + intros b. apply ld_st_range; [done|]. apply zero_table_range, Hw.
    + intros k Hk. rewrite Hpde, Htab by done. destruct (Z.eqb_spec k i) as [->|Hki].
      * intros _. cbn. rewrite Htot. split_and!; [lia|lia|done|]. rewrite Hfr. by intros [_ ?].
      * intros Hpk. destruct (pw_table _ Hw k Hk Hpk) as (? & ? & Hn).
        cbn. rewrite Htot. split_and!; [lia|lia|done|]. rewrite Hfr. by intros [? _].
    + intros k l Hk Hl. rewrite !Hpde, !Htab by done.
      destruct (Z.eqb_spec k i) as [->|]; destruct (Z.eqb_spec l i) as [->|]; intros Hpk Hpl E.
      * done. * by destruct (Hold l). * by destruct (Hold k). * by apply (pw_inj _ Hw).
  - by rewrite Htab, Z.eqb_refl.
  - by rewrite Hpde, Z.eqb_refl.
  - intros w Hwr. pose proof (pdi_range w Hwr) as Hk. pose proof (pti_range w) as Hl.
    unfold pte. rewrite Hpde, Htab by done.
    change (pg_mem s') with (st (zero_table t (pg_mem s)) (page_directory s + 4 * i)
                               (pde_value t flags)).
    destruct (Z.eqb_spec (pdi_of w) i) as [E|Hki].
    + rewrite Hpv, ld_st_ne by (apply entry_ne; done).
      rewrite zero_table_eq by done. by rewrite E, Hp.
    + destruct (present (pde s (pdi_of w))) eqn:Hpw; [|done].
      destruct (table_aligned s (pdi_of w) Hw) as [Hta _].
      destruct (pw_table _ Hw _ Hk Hpw) as (_ & Htd & _).
      rewrite ld_st_ne by (apply entry_ne; done).
      rewrite zero_table_ne; [done|done|]. rewrite entry_page by done. by apply Hold.
  - done.
  - intros q. rewrite Hfr. by intros [? _].
  - intros b Hb. unfold owned_frame.
    destruct (Z.eq_dec (page_of b) (page_directory s)) as [?|Hd]; [by left|].
    destruct (Z.eq_dec (page_of b) t) as [->|Hnt]; [by right; left|].
    exfalso. apply Hb. unfold s'. cbn [with_mem with_frames pg_mem].
    rewrite ld_st_ne; [by apply zero_table_ne|]. intros <-. apply Hd. by apply entry_page.
  - intros q [->|[Hq|(k & Hk & Hpk & ->)]]; [by left|right; left; by apply Hfr|].
    rewrite Htab by done. rewrite Hpde in Hpk by done. destruct (k =? i); [by right; left|].
    right; right. by exists k.
  - by apply (fa_alloc_count _ _ t).
Qed.

Lemma get_table_oom s i flags a :
  paging_wf s → present (pde s i) = false → fa_alloc (pg_frames s) = (a, 0) →
  get_table i flags s = (s, None) ∧ ∀ q, ¬ fa_is_free (pg_frames s) q.
Proof.
  intros Hw Hp Hall. destruct (fa_alloc_full _ _ (pw_frames _ Hw) Hall) as [-> Hno].
  split; [|done]. unfold get_table. rewrite Hp, Hall. cbn [negb]. by destruct s.
Qed.

(** [flush_tlb] reloads CR3 and nothing else. *)
Lemma flush_tlb_spec (s : pg) :
  (paging_wf s → paging_wf (flush_tlb s)) ∧ same_regs s (flush_tlb s) ∧
  pg_mem (flush_tlb s) = pg_mem s ∧ pg_frames (flush_tlb s) = pg_frames s ∧
  (∀ w, pte (flush_tlb s) w = pte s w) ∧ (∀ q, owned_frame (flush_tlb s) q → owned_frame s q) ∧
  (enabled s = true → cr3 (flush_tlb s) = page_directory s).
Proof.
  unfold flush_tlb. destruct (enabled s) eqn:E; [|done].
  split_and!; try done. intros []. by split.
Qed.

(** The second half of [paging_map] and the body of [paging_unmap]. *)
Lemma set_entry_spec (s : pg) virt v :
  paging_wf s → 0 ≤ virt < 2 ^ 32 → present (pde s (pdi_of virt)) = true → 0 ≤ v < 2 ^ 32 →
  let s' := flush_tlb (with_mem
    (st (pg_mem s) (table_of s (pdi_of virt) + 4 * pti_of virt) v) s) in
  paging_wf s' ∧ same_regs s s' ∧ pg_frames s' = pg_frames s ∧
  (∀ a, ld (pg_mem s') a ≠ ld (pg_mem s) a → page_of a = table_of s (pdi_of virt)) ∧
  (enabled s = true → cr3 s' = page_directory s) ∧
  (∀ q, owned_frame s' q → owned_frame s q) ∧
  ∀ w, 0 ≤ w < 2 ^ 32 →
    pte s' w = if w / 4096 =? virt / 4096 then (if present v then Some v else None) else pte s w.
Proof.
  intros Hw Hvr Hp Hv s'.
  destruct (store_pte s (pdi_of virt) (pti_of virt) v) as [Hw1 _];
    [done|by apply pdi_range|apply pti_range|done..|].
  destruct (store_pte s (pdi_of virt) (pti_of virt) v) as [_ Hpde];
    [done|by apply pdi_range|apply pti_range|done..|].
  destruct (flush_tlb_spec (with_mem (st (pg_mem s)
    (table_of s (pdi_of virt) + 4 * pti_of virt) v) s)) as (Hw' & Hr & Hm & Hf & Hpte & Hown & Hc).
  split; [by apply Hw'|]. split; [exact Hr|]. split; [exact Hf|]. split_and!; [|exact Hc| |].
  - unfold s'. rewrite Hm. intros a Ha. cbn [with_mem pg_mem] in Ha.
    destruct (Z.eq_dec (table_of s (pdi_of virt) + 4 * pti_of virt) a) as [<-|Hne].
    + apply entry_page; [by apply table_aligned|apply pti_range].
    + by rewrite ld_st_ne in Ha.
  - intros q Hq. apply Hown in Hq as [->|[Hq|(k & Hk & Hpk & ->)]]; [by left|by right; left|].
    right; right. exists k. unfold table_of. rewrite Hpde in * by done. done.
  - intros w Hwr. unfold s'. rewrite Hpte.
    rewrite (store_pte_pte _ _ _ _ _ Hw (pdi_range _ Hvr) (pti_range _) Hp Hv Hwr).
    destruct (Z.eqb_spec (w / 4096) (virt / 4096)) as [E|E].
    + destruct (page_indices _ _ E) as [-> ->]. by rewrite !Z.eqb_refl.
    + destruct (Z.eqb_spec (pdi_of w) (pdi_of virt)) as [E1|]; [|done].
      destruct (Z.eqb_spec (pti_of w) (pti_of virt)) as [E2|]; [|done].
      destruct E. by apply same_page.
Qed.

(** What [paging_map] does, entry by entry. *)
Lemma paging_map_spec s virt phys flags :
  paging_wf s → 0 ≤ virt < 2 ^ 32 → 0 ≤ phys < 2 ^ 32 →
  let '(s', r) := paging_map virt phys flags s in
  paging_wf s' ∧ same_regs s s' ∧ writes_owned s s' ∧
  (∀ q, fa_is_free (pg_frames s') q → fa_is_free (pg_frames s) q) ∧
  (∀ q, owned_frame s' q → owned_frame s q) ∧
  fa_count (pg_frames s') ≤ fa_count (pg_frames s) ∧
  ((r = -1 ∧ s' = s ∧ ∀ q, ¬ fa_is_free (pg_frames s) q) ∨
   (r = 0 ∧ (enabled s = true → cr3 s' = page_directory s) ∧
    ∀ w, 0 ≤ w < 2 ^ 32 →
      pte s' w = if w / 4096 =? virt / 4096 then Some (pte_value phys flags) else pte s w)).
Proof.
  intros Hw Hvr Hpr. destruct (pte_value_spec phys flags Hpr) as (Hv & _ & Hpv).
  pose proof (pdi_range virt Hvr) as Hi. unfold paging_map.
  destruct (present (pde s (pdi_of virt))) eqn:Hp.
  - rewrite get_table_old by done.
    destruct (set_entry_spec s virt (pte_value phys flags)) as (Hw' & Hr & Hf & Ho & Hc & Hown & Hpte);
      [done..|].
    split; [done|]. split; [done|]. split_and!.
    + intros a Ha. right; right. exists (pdi_of virt). split_and!; [lia|lia|done|by apply Ho].
    + by rewrite Hf.
    + done.
    + by rewrite Hf.
    + right. split_and!; [done|done|]. intros w Hwr. by rewrite Hpte, Hpv.
  - destruct (fa_alloc (pg_frames s)) as [a t] eqn:Hall. destruct (Z.eq_dec t 0) as [->|Ht].
    + destruct (get_table_oom s (pdi_of virt) flags a) as [-> Hno]; [done..|].
      split; [done|]. split; [done|]. split; [by intros b|]. split_and!; [done|done|done|by left].
    + destruct (get_table_new s (pdi_of virt) flags a t) as (-> & Hw1 & Ht1 & Hp1 & Hpte1 & Hr1 & Hfr1 & Ho1 & Hown1 & Hcnt1);
        [done..|].
      set (s1 := with_mem _ (with_frames a s)) in *.
      destruct (set_entry_spec s1 virt (pte_value phys flags)) as (Hw' & Hr & Hf & Ho & Hc & Hown & Hpte);
        [done..|]. rewrite Ht1 in *.
      split; [done|]. split; [by apply (same_regs_trans s s1)|]. split_and!.
      * intros b Hb. destruct (Z.eq_dec (ld (pg_mem s1) b) (ld (pg_mem s) b)) as [E|E].
        -- right; left. rewrite <- E in Hb. rewrite (Ho b Hb).
           by destruct (fa_alloc_ok _ _ _ (pw_frames _ Hw) Hall Ht) as (_ & _ & ? & _).
        -- by apply Ho1.
      * rewrite Hf. done.
      * auto.
      * rewrite Hf. cbn. lia.
      * right. split_and!; [done|done|]. intros w Hwr. rewrite Hpte, Hpv by done.
        by destruct (_ =? _); [|apply Hpte1].
Qed.

Lemma paging_unmap_spec (s : pg) virt :
  paging_wf s → 0 ≤ virt < 2 ^ 32 →
  let s' := paging_unmap virt s in
  paging_wf s' ∧ same_regs s s' ∧ writes_owned s s' ∧ pg_frames s' = pg_frames s ∧
  ∀ w, 0 ≤ w < 2 ^ 32 →
    pte s' w = if w / 4096 =? virt / 4096 then None else pte s w.
Proof.
  intros Hw Hvr s'. pose proof (pdi_range virt Hvr) as Hi. unfold s', paging_unmap.
  destruct (present (pde s (pdi_of virt))) eqn:Hp; cbn [negb].
  - destruct (set_entry_spec s virt 0) as (Hw' & Hr & Hf & Ho & Hc & Hown & Hpte); [done..|].
    split; [done|]. split; [done|]. split_and!; [|done|done].
    intros a Ha. right; right. exists (pdi_of virt). split_and!; [lia|lia|done|by apply Ho].
  - split; [done|]. split; [done|]. split; [by intros b|]. split; [done|]. intros w Hwr.
    destruct (Z.eqb_spec (w / 4096) (virt / 4096)) as [E|]; [|done].
    unfold pte. destruct (page_indices _ _ E) as [-> _]. by rewrite Hp.
Qed.

(** [paging_get_phys] reads the entry. *)
Lemma get_phys_pte (s : pg) w :
  paging_wf s →
  paging_get_phys w s =
  match pte s w with Some e => page_of e + w mod 4096 | None => 0xFFFFFFFF end.
Proof.
  intros Hw. unfold paging_get_phys, pte.
  destruct (present (pde s (pdi_of w))); [|done]; cbn [negb].
  destruct (present _) eqn:E; [|done]; cbn [negb].
  pose proof (pw_words _ Hw (table_of s (pdi_of w) + 4 * pti_of w)) as Hr.
  set (e := ld _ _) in *. rewrite addr_mask by done.
  rewrite (land_mask w 12) by done. change (2 ^ 12) with 4096.
  rewrite Z.lor_comm. rewrite (lor_disjoint_add _ _ 12) by zlia. unfold page_of. lia.
Qed.

Lemma get_phys_value (s : pg) w phys flags :
  paging_wf s → 0 ≤ phys < 2 ^ 32 → pte s w = Some (pte_value phys flags) →
  paging_get_phys w s = page_of phys + w mod 4096.
Proof.
  intros Hw Hp He. rewrite get_phys_pte, He by done. f_equal.
  destruct (pte_value_spec phys flags Hp) as (Hr & Hm & _).
  rewrite addr_mask in Hm by done. exact Hm.
Qed.

End Operations.

(** ** Initialisation *)

Section Init.
Context {A : Type} `{FrameAllocator A}.
Abbreviation pg := (paging A).

(** The translations once the pages below [top] are identity-mapped. *)
Definition identity_below (top : Z) (s : pg) : Prop :=
  ∀ w, 0 ≤ w < 2 ^ 32 →
    pte s w = if w <? top then Some (pte_value w (PAGE_PRESENT ||| PAGE_WRITE)) else None.

Definition exhausted (s : pg) : Prop := ∀ q, ¬ fa_is_free (pg_frames s) q.

Lemma pte_value_page v w flags :
  0 ≤ v < 2 ^ 32 → 0 ≤ w < 2 ^ 32 → v / 4096 = w / 4096 → pte_value v flags = pte_value w flags.
Proof.
  intros Hv Hw E. unfold pte_value. rewrite !addr_mask by done. f_equal. f_equal. zlia.
Qed.

Lemma identity_top_range (s : pg) :
  fa_inv (pg_frames s) →
  identity_top s mod 4096 = 0 ∧ 0 ≤ identity_top s ≤ IDENTITY_CAP ∧
  (4096 * fa_total (pg_frames s) ≤ IDENTITY_CAP →
   identity_top s = 4096 * fa_total (pg_frames s)).
Proof.
  intros Hi. pose proof (fa_total_range _ Hi) as Ht. unfold identity_top, IDENTITY_CAP.
  rewrite shiftl_mul by lia. rewrite (u64_small (_ * _)) by zlia.
  zcase; rewrite u32_small by zlia; zlia.
Qed.

(** One step of the identity loop: the next page, or out of memory. *)
Lemma identity_step (s : pg) i :
  paging_wf s → 0 ≤ i < 2 ^ 20 → identity_below (i * 4096) s ∨ exhausted s →
  let s' := (paging_map (i * PAGE_SIZE) (i * PAGE_SIZE) (PAGE_PRESENT ||| PAGE_WRITE) s).1 in
  paging_wf s' ∧ same_regs s s' ∧ (identity_below ((i + 1) * 4096) s' ∨ exhausted s').
Proof.
  intros Hw Hi Hid. unfold PAGE_SIZE.
  pose proof (paging_map_spec s (i * 4096) (i * 4096) (PAGE_PRESENT ||| PAGE_WRITE) Hw
    ltac:(zlia) ltac:(zlia)) as Hspec.
  destruct (paging_map _ _ _ s) as [s' r]. destruct Hspec as (Hw' & Hr & _ & Hfr & _ & _ & Hcase).
  cbn [fst]. split; [done|]. split; [done|].
  destruct Hcase as [(_ & -> & Hno)|(_ & _ & Hpte)]; [by right|].
  destruct Hid as [Hid|Hno]; [left|right; intros q Hq; by apply (Hno q), Hfr].
  intros w Hwr. rewrite Hpte by done. destruct (Z.eqb_spec (w / 4096) (i * 4096 / 4096)) as [E|E].
  - zcase; [|exfalso; clear -E H0; zlia]. f_equal. apply pte_value_page; [zlia|done|done].
  - rewrite Hid by done. do 2 zcase; try done; exfalso; clear -E H0 H1 Hi Hwr; zlia.
Qed.

Lemma map_identity_spec (s : pg) :
  paging_wf s → (∀ w, 0 ≤ w < 2 ^ 32 → pte s w = None) →
  paging_wf (map_identity s) ∧ same_regs s (map_identity s) ∧
  (identity_below (identity_top s) (map_identity s) ∨ exhausted (map_identity s)).
Proof.
  intros Hw H0. destruct (identity_top_range s (pw_frames _ Hw)) as (Hm & Hr & _).
  unfold IDENTITY_CAP in Hr. unfold map_identity.
  set (n := identity_top s / PAGE_SIZE).
  assert (identity_top s = n * 4096) as -> by (unfold n, PAGE_SIZE; clear n; zlia).
  apply (for_range_ind (λ i s', paging_wf s' ∧ same_regs s s' ∧
    (identity_below (i * 4096) s' ∨ exhausted s'))).
  - unfold n, PAGE_SIZE. clear n. zlia.
  - split; [done|]. split; [done|]. left. intros w Hwr. rewrite H0 by done. zcase; [lia|done].
  - intros i s' Hi (Hw' & Hr' & Hid). destruct (identity_step s' i) as (? & ? & ?);
      [done|unfold n, PAGE_SIZE in Hi; clear n; zlia|done|].
    split; [done|]. split; [by eapply same_regs_trans|done].
Qed.

(** A zeroed directory in a frame that was free: nothing is mapped. *)
Lemma fresh_directory a a' m pd en c3 pgb :
  fa_inv a → fa_alloc a = (a', pd) → pd ≠ 0 → (∀ b, 0 ≤ ld m b < 2 ^ 32) →
  let s := MkPaging a' (zero_table pd m) pd en c3 pgb in
  paging_wf s ∧ ∀ w, 0 ≤ w < 2 ^ 32 → pte s w = None.
Proof.
  intros Hi Hall Hpd Hm s. destruct (fa_alloc_ok _ _ _ Hi Hall Hpd) as (Hi' & Ht & _ & Hfr).
  destruct (fa_alloc_addr _ _ _ Hi Hall Hpd) as (Ha & Hr & Hram).
  assert (∀ i, 0 ≤ i < 1024 → present (pde s i) = false) as Hnone.
  { intros i Hin. unfold pde, s. cbn. by rewrite zero_table_eq. }
  split.
  - split; cbn; [done|done|by rewrite Ht|rewrite Hfr; by intros [_ ?]|by apply zero_table_range| |].
    + intros i Hin Hp. exfalso. change (present (pde s i) = true) in Hp.
      by rewrite (Hnone i Hin) in Hp.
    + intros i j Hin Hj Hp. exfalso. change (present (pde s i) = true) in Hp.
      by rewrite (Hnone i Hin) in Hp.
  - intros w Hwr. unfold pte. by rewrite Hnone by by apply pdi_range.
Qed.

(** Out of memory for the directory itself: no frame appears later. *)
Lemma map_frames_inv (s : pg) virt phys flags :
  fa_inv (pg_frames s) → exhausted s →
  fa_inv (pg_frames (paging_map virt phys flags s).1) ∧ exhausted (paging_map virt phys flags s).1.
Proof.
  intros Hi Hex. unfold paging_map, get_table. destruct (negb _).
  - destruct (fa_alloc (pg_frames s)) as [a t] eqn:Hall. destruct (Z.eqb_spec t 0) as [->|Ht].
    + destruct (fa_alloc_full _ _ Hi Hall) as [-> _]. done.
    + destruct (fa_alloc_ok _ _ _ Hi Hall Ht) as (_ & _ & Hf & _). by destruct (Hex t).
  - unfold flush_tlb. by destruct (enabled _).
Qed.

Lemma paging_init_cases (s : pg) :
  fa_inv (pg_frames s) → (∀ a, 0 ≤ ld (pg_mem s) a < 2 ^ 32) →
  let s' := paging_init s in
  exhausted s' ∨
  paging_wf s' ∧ enabled s' = true ∧ cr0_pg s' = true ∧ cr3 s' = page_directory s' ∧
  fa_total (pg_frames s') = fa_total (pg_frames s) ∧ identity_below (identity_top s) s'.
Proof.
  intros Hi Hm. cbv zeta. unfold paging_init.
  destruct (fa_alloc (pg_frames s)) as [a pd] eqn:Hall.
  destruct (Z.eq_dec pd 0) as [->|Hpd].
  - left. destruct (fa_alloc_full _ _ Hi Hall) as [-> Hno].
    set (s0 := MkPaging (pg_frames s) _ 0 _ _ _).
    enough (fa_inv (pg_frames (map_identity s0)) ∧ exhausted (map_identity s0)) as [_ Hex]; [exact Hex|].
    unfold map_identity. apply (for_range_inv (λ t, fa_inv (pg_frames t) ∧ exhausted t)).
    { split; [exact Hi|exact Hno]. }
    intros i t _ [? ?]. by apply map_frames_inv.
  - destruct (fresh_directory _ a (pg_mem s) pd (enabled s) (cr3 s) (cr0_pg s) Hi Hall Hpd Hm)
      as [Hw0 Hn0].
    set (s0 := MkPaging a _ pd _ _ _) in *.
    destruct (fa_alloc_ok _ _ _ Hi Hall Hpd) as (_ & Ht & _).
    assert (identity_top s0 = identity_top s) as Htop
      by (unfold identity_top, s0; cbn [pg_frames]; by rewrite Ht).
    destruct (map_identity_spec s0 Hw0 Hn0) as (Hw1 & Hr1 & Hid).
    rewrite Htop in Hid. destruct Hid as [Hid|Hex]; [right|by left].
    destruct Hr1 as (Hpd1 & _ & _ & Ht1).
    split; [by destruct Hw1; split|]. split_and!; [done|done|symmetry; exact Hpd1| |exact Hid].
    cbn. rewrite Ht1. exact Ht.
Qed.

Lemma paging_init_wf (s : pg) q :
  fa_inv (pg_frames s) → (∀ a, 0 ≤ ld (pg_mem s) a < 2 ^ 32) →
  fa_is_free (pg_frames (paging_init s)) q → paging_wf (paging_init s).
Proof.
  intros Hi Hm Hq. destruct (paging_init_cases s Hi Hm) as [Hex|[Hw _]]; [|done].
  by destruct (Hex q).
Qed.

End Init.

(** ** Properties *)

(** A two-megabyte machine after [paging_init], whose RAM held garbage before. *)
Definition demo_boot : paging pmm :=
  MkPaging (pmm_init demo_map) {[ 0x101000 := 0xDEADBEEF; 0x102004 := 7 ]} 0 false 0 false.
Lemma demo_boot_words a : 0 ≤ ld (pg_mem demo_boot) a < 2 ^ 32.
Proof.
  unfold demo_boot, ld. cbn [pg_mem].
  destruct (decide (a = 0x101000)) as [->|H1]; [vm_compute; done|].
  rewrite lookup_insert_ne by done.
  destruct (decide (a = 0x102004)) as [->|H2]; [vm_compute; done|].
  by rewrite lookup_singleton_ne.
Qed.

Lemma demo_boot_inv : fa_inv (pg_frames demo_boot).
Proof. exact (pmm_init_inv demo_map demo_map_wf). Qed.

Lemma demo_paging_free : fa_is_free (pg_frames (paging_init demo_boot)) 0x150000.
Proof.
  assert (frame_used (pg_frames (paging_init demo_boot)) 0x150 = false) by (vm_compute; reflexivity).
  assert (total_frames (pg_frames (paging_init demo_boot)) = 512) by (vm_compute; reflexivity).
  change (pmm_is_free (pg_frames (paging_init demo_boot)) 0x150000). unfold pmm_is_free.
  split; [reflexivity|]. split; [|done]. lia.
Qed.

Lemma demo_paging_wf : paging_wf (paging_init demo_boot).
Proof.
  exact (paging_init_wf demo_boot 0x150000 demo_boot_inv demo_boot_words
           demo_paging_free).
Qed.

(** C8: [paging_map] is a page-granular update of the translation: on success
    the page of [virt] reads as the frame of [phys] with the given flags, every
    other page translates as before, the TLB is flushed when paging is on, and
    only the directory, its tables or a newly allocated frame were written; it
    fails only when no frame is left, and then nothing changed. *)
Theorem paging_map_translates `{FrameAllocator A} (s : paging A) virt phys flags :
  paging_wf s → 0 ≤ virt < 2 ^ 32 → 0 ≤ phys < 2 ^ 32 →
  let '(s', r) := paging_map virt phys flags s in
  paging_wf s' ∧ writes_owned s s' ∧
  (r = 0 ∨ r = -1 ∧ s' = s ∧ exhausted s) ∧
  (r = 0 →
   pte s' virt = Some (pte_value phys flags) ∧
   (enabled s = true → cr3 s' = page_directory s) ∧
   ∀ w, 0 ≤ w < 2 ^ 32 →
     paging_get_phys w s' =
     if page_of w =? page_of virt then page_of phys + w mod 4096 else paging_get_phys w s).
Proof.
  intros Hw Hv Hp. pose proof (paging_map_spec s virt phys flags Hw Hv Hp) as Hs.
  destruct (paging_map virt phys flags s) as [s' r].
  destruct Hs as (Hw' & _ & Ho & _ & _ & _ & [(-> & -> & Hno)|(-> & Hc & Hpte)]).
  - split; [done|]. split; [done|]. split; [by right|done].
  - split; [done|]. split; [done|]. split; [by left|]. intros _.
    split_and!; [by rewrite Hpte, Z.eqb_refl|done|].
    intros w Hwr. rewrite page_of_eqb.
    destruct (w / 4096 =? virt / 4096) eqn:E.
    + eapply get_phys_value; [done..|]. by rewrite Hpte, E.
    + rewrite !get_phys_pte by done. by rewrite Hpte, E.
Qed.

Lemma paging_map_translates_witness :
  let '(s', r) := paging_map 0x40001000 0x150000 PAGE_USER (paging_init demo_boot) in
  r = 0 ∧ paging_get_phys 0x40001234 s' = 0x150234 ∧ paging_wf s'.
Proof.
  pose proof (paging_map_translates (paging_init demo_boot) 0x40001000 0x150000 PAGE_USER
    demo_paging_wf ltac:(lia) ltac:(lia)) as H.
  assert ((paging_map 0x40001000 0x150000 PAGE_USER (paging_init demo_boot)).2 = 0) as Hr
    by (vm_compute; reflexivity).
  destruct (paging_map 0x40001000 0x150000 PAGE_USER (paging_init demo_boot)) as [s' r].
  cbn [snd] in Hr. destruct H as (Hw & _ & _ & Hg). destruct (Hg Hr) as (_ & _ & Hg').
  split; [exact Hr|]. split; [exact (Hg' 0x40001234 ltac:(lia))|exact Hw].
Defined.

(** [paging_unmap] removes exactly the page of its argument: afterwards it
    translates to the "not mapped" value, every other address translates as
    before, no frame is allocated or freed, and only tables are written. *)
Theorem paging_unmap_removes `{FrameAllocator A} (s : paging A) virt :
  paging_wf s → 0 ≤ virt < 2 ^ 32 →
  let s' := paging_unmap virt s in
  paging_wf s' ∧ writes_owned s s' ∧ pg_frames s' = pg_frames s ∧
  ∀ w, 0 ≤ w < 2 ^ 32 →
    paging_get_phys w s' =
    if page_of w =? page_of virt then 0xFFFFFFFF else paging_get_phys w s.
Proof.
  intros Hw Hv s'. destruct (paging_unmap_spec s virt Hw Hv) as (Hw' & _ & Ho & Hf & Hpte).
  split; [done|]. split; [done|]. split; [done|]. intros w Hwr. unfold s'.
  rewrite page_of_eqb, !get_phys_pte by done. rewrite Hpte by done. by destruct (_ =? _).
Qed.

Lemma paging_unmap_removes_witness :
  paging_get_phys 0x5123 (paging_init demo_boot) = 0x5123 ∧
  paging_get_phys 0x5123 (paging_unmap 0x5000 (paging_init demo_boot)) = 0xFFFFFFFF.
Proof.
  split; [vm_compute; reflexivity|].
  destruct (paging_unmap_removes (paging_init demo_boot) 0x5000 demo_paging_wf ltac:(lia))
    as (_ & _ & _ & H).
  exact (H 0x5123 ltac:(lia)).
Defined.

(** When memory lasts, [paging_init] turns paging on with exactly the
    identity map of RAM (capped at 1 GiB), writable, kernel-only; when all RAM
    is below the cap, the directory and every page table stay reachable at
    their own address afterwards. *)
Theorem paging_init_identity `{FrameAllocator A} (s : paging A) :
  fa_inv (pg_frames s) → (∀ a, 0 ≤ ld (pg_mem s) a < 2 ^ 32) →
  let s' := paging_init s in
  exhausted s' ∨
  paging_wf s' ∧ paging_is_enabled s' = true ∧ cr0_pg s' = true ∧ cr3 s' = page_directory s' ∧
  (∀ w, 0 ≤ w < 2 ^ 32 →
    pte s' w = (if w <? identity_top s then Some (pte_value w (PAGE_PRESENT ||| PAGE_WRITE))
                else None) ∧
    (w < identity_top s → paging_get_phys w s' = w)) ∧
  (4096 * fa_total (pg_frames s) ≤ IDENTITY_CAP → ∀ p j, 0 ≤ j < 1024 →
    p = page_directory s' ∨ (∃ i, 0 ≤ i < 1024 ∧ present (pde s' i) = true ∧ p = table_of s' i) →
    paging_get_phys (p + 4 * j) s' = p + 4 * j).
Proof.
  intros Hi Hm s'. destruct (paging_init_cases s Hi Hm) as [Hex|(Hw & He & Hpg & Hc & Ht & Hid)];
    [by left|right].
  assert (∀ w, 0 ≤ w < 2 ^ 32 → w < identity_top s → paging_get_phys w s' = w) as Hphys.
  { intros w Hwr Hwt. rewrite (get_phys_value _ _ w (PAGE_PRESENT ||| PAGE_WRITE));
      [unfold page_of; lia|done|done|]. rewrite Hid by done. zcase; [done|lia]. }
  destruct (identity_top_range s Hi) as (_ & Hr & Htop). unfold IDENTITY_CAP in Hr.
  split; [done|]. split_and!; [done|done|done| |].
  - intros w Hwr. split; [by apply Hid|]. by apply Hphys.
  - intros Hsmall p j Hj Hp. specialize (Htop Hsmall). fold s' in Hw, Ht.
    assert (p mod 4096 = 0 ∧ 0 ≤ p < 4096 * fa_total (pg_frames s)) as [Hpm Hpr].
    { destruct Hp as [->|(i & Hi' & Hpi & ->)]; rewrite <- Ht.
      - pose proof (pw_pd _ Hw). pose proof (pw_pd_ram _ Hw). lia.
      - destruct (table_aligned s' i Hw). destruct (pw_table _ Hw i Hi' Hpi). lia. }
    unfold IDENTITY_CAP in Hsmall. apply Hphys; clear -Hpm Hpr Hj Htop Hr Hsmall; zlia.
Qed.

Lemma paging_init_identity_witness :
  paging_is_enabled (paging_init demo_boot) = true ∧ identity_top demo_boot = 0x200000 ∧
  paging_get_phys 0x1FFABC (paging_init demo_boot) = 0x1FFABC.
Proof.
  split; [vm_compute; reflexivity|]. split; [vm_compute; reflexivity|].
  destruct (paging_init_identity demo_boot demo_boot_inv demo_boot_words)
    as [Hex|(_ & _ & _ & _ & H & _)].
  - exfalso. exact (Hex 0x150000 demo_paging_free).
  - apply (H 0x1FFABC ltac:(lia)). vm_compute. reflexivity.
Defined.
