(* ===== verification/Kheap.v ===== *)
(** Kernel heap: mm/kheap.c, the first-fit free list over demand-mapped pages at
    3 GiB.  The pointer program over block headers refines operations on the
    address-ordered list of blocks; pages come from [Paging] and the frame
    allocator. *)
From Stdlib Require Import ZArith Lia Bool String.
From stdpp Require Import base numbers list gmap option.
From S2P Require Import Prelude Console Frames Pmm Paging.

#[local] Open Scope Z_scope.
#[local] Open Scope c_scope.

Definition KHEAP_BASE : Z := 0xC0000000.
Definition KHEAP_INITIAL : Z := 0x4000.
Definition HEADER_SIZE : Z := 16.
Definition MIN_SPLIT : Z := 8.

(** [struct block]: the header at a block's address ([_pad] is never used). *)
Record block_t := Block { b_size : Z; b_next : Z; b_used : Z }.

(** The module's statics, the headers in the heap's memory by virtual address,
    and the paging state it maps pages in. *)
Record kheap (A : Type) := MkKheap {
  kh_paging : paging A;
  kh_mem : gmap Z block_t;
  heap_base : Z;
  heap_end : Z;
  head : Z
}.
Arguments MkKheap {A}.
Arguments kh_paging {A}. Arguments kh_mem {A}. Arguments heap_base {A}.
Arguments heap_end {A}. Arguments head {A}.

Definition blk (m : gmap Z block_t) (b : Z) : block_t := default (Block 0 0 0) (m !! b).

(** ** The pointer loops, over the headers *)

(** Loop fuel: every block takes at least a header. *)
Definition heap_fuel (base end_ : Z) : nat := Z.to_nat ((end_ - base) / HEADER_SIZE).

Fixpoint coalesce_loop (fuel : nat) (b : Z) (m : gmap Z block_t) : gmap Z block_t :=
  match fuel with
  | O => m
  | S fuel =>
      if (b =? 0) || (b_next (blk m b) =? 0) then m
      else
        let n := b_next (blk m b) in
        if negb (c_true (b_used (blk m b))) && negb (c_true (b_used (blk m n))) then
          let m := <[b := Block (u32 (b_size (blk m b) + u32 (HEADER_SIZE + b_size (blk m n))))
                                (b_next (blk m n)) (b_used (blk m b))]> m in
          coalesce_loop fuel b m
        else coalesce_loop fuel n m
  end.

Fixpoint last_loop (fuel : nat) (b : Z) (m : gmap Z block_t) : Z :=
  match fuel with
  | O => b
  | S fuel => if b_next (blk m b) =? 0 then b else last_loop fuel (b_next (blk m b)) m
  end.

(** [for (b = head; b; b = b->next) if (!b->used && b->size >= need) ...] *)
Fixpoint fit_loop (fuel : nat) (need b : Z) (m : gmap Z block_t) : option Z :=
  match fuel with
  | O => None
  | S fuel =>
      if b =? 0 then None
      else if negb (c_true (b_used (blk m b))) && (need <=? b_size (blk m b)) then Some b
      else fit_loop fuel need (b_next (blk m b)) m
  end.

Definition split (b size : Z) (m : gmap Z block_t) : gmap Z block_t :=
  if u32 (u32 (size + HEADER_SIZE) + MIN_SPLIT) <=? b_size (blk m b) then
    let n := u32 (u32 (b + HEADER_SIZE) + size) in
    let m := <[n := Block (u32 (u32 (b_size (blk m b) - size) - HEADER_SIZE))
                          (b_next (blk m b)) 0]> m in
    <[b := Block size n (b_used (blk m b))]> m
  else m.

(** [b->used = v] *)
Definition set_used (b v : Z) (m : gmap Z block_t) : gmap Z block_t :=
  <[b := Block (b_size (blk m b)) (b_next (blk m b)) v]> m.

Definition set_next (b n : Z) (m : gmap Z block_t) : gmap Z block_t :=
  <[b := Block (b_size (blk m b)) n (b_used (blk m b))]> m.

Definition coalesce {A} (s : kheap A) : kheap A :=
  MkKheap (kh_paging s)
    (coalesce_loop (heap_fuel (heap_base s) (heap_end s)) (head s) (kh_mem s))
    (heap_base s) (heap_end s) (head s).

(** The totals of [kheap_report]: used and free bytes, blocks, free blocks. *)
Fixpoint report_loop (fuel : nat) (b : Z) (m : gmap Z block_t) (t : Z * Z * Z * Z) : Z * Z * Z * Z :=
  match fuel with
  | O => t
  | S fuel =>
      if b =? 0 then t
      else
        let '(used, freeb, nblocks, nfree) := t in
        let nblocks := u32 (nblocks + 1) in
        report_loop fuel (b_next (blk m b)) m
          (if c_true (b_used (blk m b)) then (u32 (used + b_size (blk m b)), freeb, nblocks, nfree)
           else (used, u32 (freeb + b_size (blk m b)), nblocks, u32 (nfree + 1)))
  end.

Definition kheap_report {A} (s : kheap A) : list con_call :=
  let '(used, freeb, nblocks, nfree) :=
    report_loop (heap_fuel (heap_base s) (heap_end s)) (head s) (kh_mem s) (0, 0, 0, 0) in
  con_write (str "  heap base ... ") ++ con_hex (heap_base s) ++
  con_write (nl ++ str "  mapped ...... ") ++ con_dec (u32 (heap_end s - heap_base s) >>> 10) ++
  con_write (str " KB" ++ nl ++ str "  blocks ...... ") ++ con_dec nblocks ++
  con_write (str " (") ++ con_dec nfree ++
  con_write (str " free)" ++ nl ++ str "  used ........ ") ++ con_dec used ++
  con_write (str " bytes" ++ nl ++ str "  free ........ ") ++ con_dec freeb ++
  con_write (str " bytes" ++ nl).

Section Kheap.
Context {A : Type} `{FrameAllocator A}.

(** The mapping loop of [grow_heap]: [n] is the number of pages still to map;
    the result is the state, the new [heap_end] and the pages mapped. *)
Fixpoint map_pages (n : nat) (heap_end : Z) (p : paging A) : paging A * Z * Z :=
  match n with
  | O => (p, heap_end, 0)
  | S n =>
      let '(a, phys) := fa_alloc (pg_frames p) in
      let p := with_frames a p in
      if phys =? 0 then (p, heap_end, 0)
      else
        let '(p, r) := paging_map heap_end phys (PAGE_PRESENT ||| PAGE_WRITE) p in
        if negb (r =? 0) then (with_frames (fa_free phys (pg_frames p)) p, heap_end, 0)
        else
          let '(p, e, mapped) := map_pages n (u32 (heap_end + PAGE_SIZE)) p in
          (p, e, u32 (mapped + PAGE_SIZE))
  end.

Definition grow_bytes (min_bytes : Z) : Z :=
  u32 (min_bytes + (PAGE_SIZE - 1)) &&& u32_not (PAGE_SIZE - 1).

Definition grow_heap (min_bytes : Z) (s : kheap A) : kheap A * Z :=
  let bytes := grow_bytes min_bytes in
  let start := heap_end s in
  let '(p, end_, mapped) := map_pages (Z.to_nat (bytes / PAGE_SIZE)) (heap_end s) (kh_paging s) in
  if mapped =? 0 then (MkKheap p (kh_mem s) (heap_base s) end_ (head s), -1)
  else
    let m := <[start := Block (u32 (mapped - HEADER_SIZE)) 0 0]> (kh_mem s) in
    let '(m, hd) :=
      if head s =? 0 then (m, start)
      else (set_next (last_loop (heap_fuel (heap_base s) end_) (head s) m) start m, head s) in
    (coalesce (MkKheap p m (heap_base s) end_ hd), 0).

Definition kheap_init (s : kheap A) : kheap A :=
  (grow_heap KHEAP_INITIAL (MkKheap (kh_paging s) (kh_mem s) KHEAP_BASE KHEAP_BASE 0)).1.

(** The body of one attempt of [kmalloc]: first fit, split, mark. *)
Definition take_fit (need : Z) (s : kheap A) : option (kheap A * Z) :=
  match fit_loop (heap_fuel (heap_base s) (heap_end s)) need (head s) (kh_mem s) with
  | Some b =>
      Some (MkKheap (kh_paging s) (set_used b 1 (split b need (kh_mem s)))
              (heap_base s) (heap_end s) (head s),
            u32 (b + HEADER_SIZE))
  | None => None
  end.

Fixpoint kmalloc_attempts (n : nat) (need : Z) (s : kheap A) : kheap A * Z :=
  match n with
  | O => (s, 0)
  | S n =>
      match take_fit need s with
      | Some r => r
      | None =>
          let '(s, r) := grow_heap (u32 (need + HEADER_SIZE)) s in
          if negb (r =? 0) then (s, 0) else kmalloc_attempts n need s
      end
  end.

Definition kmalloc_need (size : Z) : Z := u32 (size + 7) &&& u32_not 7.

Definition kmalloc (size : Z) (s : kheap A) : kheap A * Z :=
  if size =? 0 then (s, 0) else kmalloc_attempts 2 (kmalloc_need size) s.

Definition kfree (ptr : Z) (s : kheap A) : kheap A :=
  if ptr =? 0 then s
  else
    let b := u32 (ptr - HEADER_SIZE) in
    coalesce (MkKheap (kh_paging s) (set_used b 0 (kh_mem s)) (heap_base s) (heap_end s) (head s)).

End Kheap.

(** ** The heap as a list of blocks

    A block of the list is its payload size and whether it is allocated; the
    blocks are laid out one after the other, each behind its header. *)

Definition ablock : Type := Z * bool.

Definition bsize (x : ablock) : Z := HEADER_SIZE + x.1.

Fixpoint extent (l : list ablock) : Z :=
  match l with [] => 0 | x :: l => bsize x + extent l end.

(** [seg m p a l q e]: from pointer [p] at address [a] the headers in [m] chain
    through the blocks [l], and end with next pointer [q] at address [e]. *)
Fixpoint seg (m : gmap Z block_t) (p a : Z) (l : list ablock) (q e : Z) : Prop :=
  match l with
  | [] => p = q ∧ a = e
  | x :: l => p = a ∧ ∃ n, m !! a = Some (Block x.1 n (Z.b2z x.2)) ∧ seg m n (a + bsize x) l q e
  end.

(** Merge every run of free blocks. *)
Fixpoint coal (x : ablock) (l : list ablock) : list ablock :=
  match l with
  | [] => [x]
  | y :: l' =>
      if negb x.2 && negb y.2 then coal (x.1 + (HEADER_SIZE + y.1), x.2) l'
      else x :: coal y l'
  end.

Definition coalesced (l : list ablock) : list ablock :=
  match l with [] => [] | x :: l => coal x l end.

(** The first free block that fits, with what precedes and follows it. *)
Fixpoint first_fit (need : Z) (l : list ablock) : option (list ablock * Z * list ablock) :=
  match l with
  | [] => None
  | x :: l =>
      if negb x.2 && (need <=? x.1) then Some ([], x.1, l)
      else match first_fit need l with
           | Some (l1, sz, l2) => Some (x :: l1, sz, l2)
           | None => None
           end
  end.

Definition carve (need sz : Z) : list ablock :=
  if need + HEADER_SIZE + MIN_SPLIT <=? sz
  then [(need, true); (sz - need - HEADER_SIZE, false)] else [(sz, true)].

(** The allocated payloads, by address. *)
Fixpoint live (a : Z) (l : list ablock) : list (Z * Z) :=
  match l with
  | [] => []
  | x :: l =>
      (if x.2 then [(a + HEADER_SIZE, x.1)] else []) ++ live (a + bsize x) l
  end.

(** No two neighbours are both free. *)
Fixpoint no_adjacent (l : list ablock) : Prop :=
  match l with
  | x :: ((y :: _) as l') => (x.2 = true ∨ y.2 = true) ∧ no_adjacent l'
  | _ => True
  end.

Definition sizes_ok (l : list ablock) : Prop := Forall (λ x, 0 ≤ x.1 ∧ x.1 mod 8 = 0) l.

(** ** Lists of blocks *)

Lemma extent_app l1 l2 : extent (l1 ++ l2) = extent l1 + extent l2.
Proof. induction l1 as [|x l1 IH]; simpl; [done|]. rewrite IH. lia. Qed.

Lemma sizes_cons x l : sizes_ok (x :: l) ↔ (0 ≤ x.1 ∧ x.1 mod 8 = 0) ∧ sizes_ok l.
Proof. unfold sizes_ok. apply Forall_cons_iff. Qed.

Lemma sizes_app l1 l2 : sizes_ok (l1 ++ l2) ↔ sizes_ok l1 ∧ sizes_ok l2.
Proof. unfold sizes_ok. by rewrite Forall_app. Qed.

Lemma extent_nonneg l : sizes_ok l → 0 ≤ extent l.
Proof.
  induction 1 as [|x l [Hx _] _ IH]; simpl; [lia|]. unfold bsize, HEADER_SIZE. lia.
Qed.

Lemma extent_length l : sizes_ok l → 16 * zlen l ≤ extent l.
Proof.
  unfold zlen. induction 1 as [|x l [Hx _] _ IH]; simpl; [lia|].
  unfold bsize, HEADER_SIZE. lia.
Qed.

Lemma extent_mod8 l : sizes_ok l → extent l mod 8 = 0.
Proof.
  induction 1 as [|x l [Hx Hm] _ IH]; simpl; [done|]. unfold bsize, HEADER_SIZE. zlia.
Qed.

Lemma live_app a l1 l2 : live a (l1 ++ l2) = live a l1 ++ live (a + extent l1) l2.
Proof.
  revert a. induction l1 as [|x l1 IH]; intros a; simpl.
  - by rewrite Z.add_0_r.
  - rewrite IH, <- app_assoc. do 2 f_equal. f_equal. lia.
Qed.

Lemma live_elem a l q n :
  (q, n) ∈ live a l →
  ∃ l1 l2, l = l1 ++ (n, true) :: l2 ∧ q = a + extent l1 + HEADER_SIZE.
Proof.
  revert a. induction l as [|[sz u] l IH]; intros a; simpl; [by intros ?%elem_of_nil|].
  rewrite elem_of_app. intros [Hh|Ht].
  - destruct u; [|by apply elem_of_nil in Hh].
    apply list_elem_of_singleton in Hh as [= -> ->]. exists [], l. simpl. split; [done|lia].
  - destruct (IH _ Ht) as (l1 & l2 & -> & ->). exists ((sz, u) :: l1), l2. simpl.
    split; [done|lia].
Qed.

(** Merging free neighbours keeps the extent, the sizes and the allocations. *)
Lemma coal_extent x l : extent (coal x l) = extent (x :: l).
Proof.
  revert x. induction l as [|y l IH]; intros x; simpl; [done|].
  destruct (negb x.2 && negb y.2); [rewrite IH|simpl; rewrite IH]; simpl; unfold bsize; simpl; lia.
Qed.

Lemma coal_sizes x l : sizes_ok (x :: l) → sizes_ok (coal x l).
Proof.
  revert x. induction l as [|y l IH]; intros x Hs; simpl; [done|].
  apply sizes_cons in Hs as [[Hx Hx8] Hs]. apply sizes_cons in Hs as [[Hy Hy8] Hs].
  destruct (negb x.2 && negb y.2).
  - apply IH, sizes_cons. split; [|done]. simpl. unfold HEADER_SIZE. clear -Hx Hx8 Hy Hy8. zlia.
  - apply sizes_cons. split; [done|]. by apply IH, sizes_cons.
Qed.

Lemma coal_live a x l : live a (coal x l) = live a (x :: l).
Proof.
  revert a x. induction l as [|y l IH]; intros a x; simpl; [done|].
  destruct (negb x.2 && negb y.2) eqn:E.
  - apply andb_true_iff in E as [Hx%negb_true_iff Hy%negb_true_iff].
    rewrite IH. simpl. rewrite Hx, Hy. simpl. f_equal. unfold bsize. simpl. lia.
  - simpl. by rewrite IH.
Qed.

Lemma coal_head_used x l : x.2 = true → coal x l = x :: coalesced l.
Proof. intros Hx. destruct l as [|y l]; simpl; [done|]. by rewrite Hx. Qed.

Lemma no_adjacent_cons2 x y l :
  no_adjacent (x :: y :: l) ↔ (x.2 = true ∨ y.2 = true) ∧ no_adjacent (y :: l).
Proof. done. Qed.

Lemma coal_no_adjacent x l : no_adjacent (coal x l).
Proof.
  revert x. induction l as [|y l IH]; intros x; simpl; [done|].
  destruct (negb x.2 && negb y.2) eqn:E; [apply IH|].
  apply andb_false_iff in E. rewrite !negb_false_iff in E.
  pose proof (IH y) as Hy.
  assert (∃ z t, coal y l = z :: t ∧ z.2 = y.2) as (z & t & Ez & Hz).
  { clear. revert y. induction l as [|w l IHl]; intros y; simpl; [by exists y, []|].
    destruct (negb y.2 && negb w.2) eqn:E; [|by exists y, (coal w l)].
    destruct (IHl (y.1 + (HEADER_SIZE + w.1), y.2)) as (z & t & -> & Hz). by exists z, t. }
  rewrite Ez in *. apply no_adjacent_cons2. by rewrite Hz.
Qed.

(** A list without free neighbours is left alone. *)
Lemma coalesced_id l : no_adjacent l → coalesced l = l.
Proof.
  destruct l as [|x l]; [done|]. simpl coalesced. revert x.
  induction l as [|y l IH]; intros x Hn; [done|].
  apply no_adjacent_cons2 in Hn as [Hxy Hn]. cbn [coal].
  assert (negb x.2 && negb y.2 = false) as -> by (destruct Hxy as [-> | ->]; [done|by destruct x.2]).
  f_equal. by apply IH.
Qed.

Lemma first_fit_Some need l l1 sz l2 :
  first_fit need l = Some (l1, sz, l2) →
  l = l1 ++ (sz, false) :: l2 ∧ need ≤ sz ∧
  Forall (λ x, x.2 = true ∨ x.1 < need) l1.
Proof.
  revert l1. induction l as [|[s u] l IH]; intros l1; simpl; [done|].
  destruct u; cbn [negb andb].
  - destruct (first_fit need l) as [[[l1' sz'] l2']|]; [|done]. intros [= <- -> ->].
    destruct (IH l1') as (-> & Hsz & Hl); [done|]. split_and!; [done|done|].
    constructor; [by left|done].
  - zcase; [intros [= <- -> ->]; by split_and!|].
    destruct (first_fit need l) as [[[l1' sz'] l2']|]; [|done]. intros [= <- -> ->].
    destruct (IH l1') as (-> & Hsz & Hl); [done|]. split_and!; [done|done|].
    constructor; [by right|done].
Qed.

Lemma first_fit_None need l :
  first_fit need l = None → Forall (λ x, x.2 = true ∨ x.1 < need) l.
Proof.
  induction l as [|[s u] l IH]; simpl; [done|]. destruct u; cbn [negb andb].
  - destruct (first_fit need l) as [[[? ?] ?]|]; [done|]. constructor; [by left|auto].
  - zcase; [done|]. destruct (first_fit need l) as [[[? ?] ?]|]; [done|].
    constructor; [by right|auto].
Qed.

(** A block that fits survives coalescing. *)
Definition fits (need : Z) (l : list ablock) : Prop := Exists (λ x, x.2 = false ∧ need ≤ x.1) l.

Lemma first_fit_fits need l : fits need l → first_fit need l ≠ None.
Proof.
  intros Hf Hn%first_fit_None. revert Hn. induction Hf as [x l [Hu Hsz]|x l _ IH];
    intros [Hx Hl]%Forall_cons_iff; [|by apply IH].
  destruct Hx as [Hx|Hx]; [by rewrite Hu in Hx|lia].
Qed.

Lemma coal_fits need x l : sizes_ok (x :: l) → fits need (x :: l) → fits need (coal x l).
Proof.
  revert x. induction l as [|y l IH]; intros x Hs Hf; [done|]. cbn [coal].
  apply sizes_cons in Hs as [[Hx Hx8] Hs]. pose proof Hs as [[Hy Hy8] Hl]%sizes_cons.
  destruct (negb x.2 && negb y.2) eqn:E.
  - apply andb_true_iff in E as [Hxu%negb_true_iff Hyu%negb_true_iff].
    apply IH.
    + apply sizes_cons. split; [|done]. unfold HEADER_SIZE. simpl. clear -Hx Hx8 Hy Hy8. zlia.
    + apply Exists_cons in Hf as [[_ ?]|Hf].
      { apply Exists_cons_hd. unfold HEADER_SIZE. simpl. split; [done|lia]. }
      apply Exists_cons in Hf as [[_ ?]|Hf]; [|by apply Exists_cons_tl].
      apply Exists_cons_hd. unfold HEADER_SIZE. simpl. split; [done|lia].
  - apply Exists_cons in Hf as [?|Hf]; [by apply Exists_cons_hd|].
    apply Exists_cons_tl. by apply IH.
Qed.

Lemma coalesced_fits need l : sizes_ok l → fits need l → fits need (coalesced l).
Proof. destruct l; [done|]. apply coal_fits. Qed.

Lemma carve_extent need sz : extent (carve need sz) = bsize (sz, false).
Proof. unfold carve. zcase; simpl; unfold bsize; simpl; lia. Qed.

Lemma carve_sizes need sz :
  0 ≤ need ≤ sz → need mod 8 = 0 → sz mod 8 = 0 → sizes_ok (carve need sz).
Proof.
  intros H1 H2 H3. unfold carve, HEADER_SIZE, MIN_SPLIT. zcase; repeat constructor; simpl; zlia.
Qed.

(** The one allocation that carving adds. *)
Definition carved (need sz : Z) : Z := if need + HEADER_SIZE + MIN_SPLIT <=? sz then need else sz.

Lemma carve_live a need sz : live a (carve need sz) = [(a + HEADER_SIZE, carved need sz)].
Proof. unfold carve, carved. by zcase. Qed.

Lemma no_adjacent_app l1 x l2 :
  no_adjacent (l1 ++ x :: l2) ↔ no_adjacent (l1 ++ [x]) ∧ no_adjacent (x :: l2).
Proof.
  induction l1 as [|y l1 IH]; [simpl; tauto|].
  destruct l1 as [|z l1].
  - simpl. destruct l2; tauto.
  - change ((y :: z :: l1) ++ x :: l2) with (y :: z :: (l1 ++ x :: l2)).
    change ((y :: z :: l1) ++ [x]) with (y :: z :: (l1 ++ [x])).
    rewrite !no_adjacent_cons2. simpl app in IH. rewrite IH. tauto.
Qed.

Lemma no_adjacent_used l1 sz : no_adjacent (l1 ++ [(sz, false)]) → ∀ sz', no_adjacent (l1 ++ [(sz', true)]).
Proof.
  induction l1 as [|x l1 IH]; [done|]. destruct l1 as [|y l1]; [simpl; tauto|].
  simpl app. rewrite no_adjacent_cons2. intros [? ?] sz'. apply no_adjacent_cons2.
  split; [done|]. by apply IH.
Qed.

Lemma carve_no_adjacent l1 l2 need sz :
  no_adjacent (l1 ++ (sz, false) :: l2) → no_adjacent (l1 ++ carve need sz ++ l2).
Proof.
  rewrite no_adjacent_app. intros [H1 H2]. unfold carve. zcase; simpl.
  - apply no_adjacent_app. split; [by eapply no_adjacent_used|]. simpl. split; [by left|].
    destruct l2 as [|y l2]; [done|]. simpl in *. tauto.
  - apply no_adjacent_app. split; [by eapply no_adjacent_used|].
    destruct l2 as [|y l2]; [done|]. simpl in *. tauto.
Qed.

(** ** Chains of headers *)

Lemma seg_app m p a l1 l2 q e :
  seg m p a (l1 ++ l2) q e ↔
  ∃ r, seg m p a l1 r (a + extent l1) ∧ seg m r (a + extent l1) l2 q e.
Proof.
  revert p a. induction l1 as [|x l1 IH]; intros p a; simpl.
  - rewrite Z.add_0_r. split; [by exists p|]. by intros (r & [-> _] & ?).
  - setoid_rewrite IH. rewrite Z.add_assoc. firstorder.
Qed.

Lemma seg_end m p a l q e : seg m p a l q e → e = a + extent l.
Proof.
  revert p a. induction l as [|x l IH]; intros p a; simpl; [lia|].
  intros (_ & n & _ & Hs). rewrite (IH _ _ Hs). lia.
Qed.

(** Only the headers between [a] and [e] matter. *)
Lemma seg_ext m m' p a l q e :
  sizes_ok l → (∀ k, a ≤ k < e → m' !! k = m !! k) → seg m p a l q e → seg m' p a l q e.
Proof.
  revert p a. induction l as [|x l IH]; intros p a Hs Hm; simpl; [done|].
  apply sizes_cons in Hs as [[Hx _] Hs]. intros (-> & n & Hl & Hseg).
  pose proof (seg_end _ _ _ _ _ _ Hseg) as He. pose proof (extent_nonneg l Hs).
  assert (0 < bsize x) by (unfold bsize, HEADER_SIZE; lia).
  split; [done|]. exists n. split; [rewrite Hm; [done|lia]|].
  apply IH; [done| |done]. intros k Hk. apply Hm. lia.
Qed.

Lemma seg_insert m p a l q e k b :
  sizes_ok l → k < a ∨ e ≤ k → seg m p a l q e → seg (<[k := b]> m) p a l q e.
Proof.
  intros Hs Hk. apply seg_ext; [done|]. intros j Hj. rewrite lookup_insert_ne; [done|lia].
Qed.

Lemma seg_head m p a x l q e : seg m p a (x :: l) q e → p = a.
Proof. by intros [-> _]. Qed.

(** The header of the first block, and the pointer to the rest. *)
Lemma seg_blk m p a x l e :
  seg m p a (x :: l) 0 e →
  b_size (blk m a) = x.1 ∧ b_used (blk m a) = Z.b2z x.2 ∧
  seg m (b_next (blk m a)) (a + bsize x) l 0 e.
Proof. intros (-> & n & Hl & Hs). unfold blk. by rewrite Hl. Qed.

Lemma b2z_true u : c_true (Z.b2z u) = u.
Proof. by destruct u. Qed.

(** A pointer to a chain is null exactly at its end. *)
Lemma seg_null m p a l e : 0 < a → seg m p a l 0 e → (p = 0 ↔ l = []).
Proof.
  intros Ha. destruct l as [|x l]; [by intros [-> _]|]. intros [-> _]. split; [lia|done].
Qed.

(** Joining: [x] and the next block [y] both free. *)
Lemma seg_merge m a x y l e :
  0 < a → e ≤ 2 ^ 32 → sizes_ok (x :: y :: l) → x.2 = false → y.2 = false →
  seg m a a (x :: y :: l) 0 e →
  let n := b_next (blk m a) in
  seg (<[a := Block (u32 (b_size (blk m a) + u32 (HEADER_SIZE + b_size (blk m n))))
                    (b_next (blk m n)) (b_used (blk m a))]> m)
    a a ((x.1 + (HEADER_SIZE + y.1), x.2) :: l) 0 e.
Proof.
  intros Ha He Hs Hx Hy Hseg n. apply sizes_cons in Hs as [[Hx0 _] Hs].
  apply sizes_cons in Hs as [[Hy0 _] Hs].
  destruct (seg_blk _ _ _ _ _ _ Hseg) as (Hsx & Hux & Hseg1). fold n in Hseg1.
  pose proof (seg_head _ _ _ _ _ _ _ Hseg1) as Hn. rewrite Hn in Hseg1 |- *.
  destruct (seg_blk _ _ _ _ _ _ Hseg1) as (Hsy & Huy & Hseg2).
  pose proof (seg_end _ _ _ _ _ _ Hseg2) as Hend. pose proof (extent_nonneg l Hs).
  unfold bsize, HEADER_SIZE in *. rewrite Hsx, Hsy, Hux.
  rewrite (u32_small (16 + y.1)), u32_small by lia.
  split; [done|]. eexists. rewrite lookup_insert_eq. split; [done|].
  apply seg_insert; [done|unfold bsize, HEADER_SIZE; simpl; lia|].
  unfold bsize, HEADER_SIZE. simpl.
  by replace (a + (16 + (x.1 + (16 + y.1)))) with (a + (16 + x.1) + (16 + y.1)) by lia.
Qed.

(** The coalescing loop computes [coal], whatever else the memory holds. *)
Lemma coalesce_loop_spec fuel a x l m e :
  0 < a → e ≤ 2 ^ 32 → sizes_ok (x :: l) → (length l < fuel)%nat →
  seg m a a (x :: l) 0 e →
  seg (coalesce_loop fuel a m) a a (coal x l) 0 e ∧
  ∀ k, k < a ∨ e ≤ k → coalesce_loop fuel a m !! k = m !! k.
Proof.
  revert fuel a x m. induction l as [|y l IH]; intros fuel a x m Ha He Hs Hf Hseg;
    (destruct fuel as [|fuel]; [simpl in Hf; lia|]); cbn [coalesce_loop].
  - destruct (seg_blk _ _ _ _ _ _ Hseg) as (_ & _ & Hn & _). rewrite Hn.
    change (0 =? 0) with true. rewrite orb_true_r. done.
  - destruct (seg_blk _ _ _ _ _ _ Hseg) as (Hsx & Hux & Hseg1).
    pose proof (seg_head _ _ _ _ _ _ _ Hseg1) as Hn.
    assert (0 < bsize x) by (apply sizes_cons in Hs as [[? _] _]; unfold bsize, HEADER_SIZE; lia).
    pose proof Hseg1 as Hseg1'. rewrite Hn in Hseg1'.
    destruct (seg_blk _ _ _ _ _ _ Hseg1') as (Hsy & Huy & _).
    destruct (Z.eqb_spec a 0); [lia|]. destruct (Z.eqb_spec (b_next (blk m a)) 0); [lia|].
    assert (c_true (b_used (blk m (b_next (blk m a)))) = y.2) as Hcy
      by (rewrite Hn, Huy; apply b2z_true).
    cbn [orb]. rewrite Hcy, Hux, b2z_true.
    cbn [coal]. destruct (negb x.2 && negb y.2) eqn:E.
    + apply andb_true_iff in E as [Hx%negb_true_iff Hy%negb_true_iff].
      pose proof (seg_merge m a x y l e Ha He Hs Hx Hy Hseg) as Hm. cbv zeta in Hm.
      rewrite Hux in Hm.
      match goal with |- context [coalesce_loop fuel a ?m1] =>
        destruct (IH fuel a (x.1 + (HEADER_SIZE + y.1), x.2) m1) as [Hr Hfr] end;
        [done|done| |simpl in Hf; lia|exact Hm|].
      { apply sizes_cons in Hs as [[Hx0 Hx8] Hs]. apply sizes_cons in Hs as [[Hy0 Hy8] Hs].
        apply sizes_cons. split; [|done]. unfold HEADER_SIZE; simpl. clear -Hx0 Hx8 Hy0 Hy8. zlia. }
      split; [exact Hr|]. intros k Hk. rewrite Hfr by done.
      pose proof (seg_end _ _ _ _ _ _ Hm) as Hend.
      apply lookup_insert_ne. intros <-. apply sizes_cons in Hs as [_ Hs].
      apply sizes_cons in Hs as [[Hy0 _] Hs]. pose proof (extent_nonneg l Hs).
      simpl in Hend. unfold bsize, HEADER_SIZE in *. simpl in Hend. lia.
    + rewrite Hn. destruct (IH fuel (a + bsize x) y m) as [Hr Hfr];
        [lia|done|exact (proj2 (proj1 (sizes_cons _ _) Hs))|simpl in Hf; lia|done|].
      pose proof (seg_end _ _ _ _ _ _ Hseg1) as Hend.
      apply sizes_cons in Hs as [_ Hs]. pose proof (extent_nonneg _ Hs).
      split; [|intros k Hk; apply Hfr; lia].
      destruct Hseg as (_ & n' & Hl & Hrest). split; [done|]. exists n'.
      rewrite Hfr by lia. split; [done|].
      assert (n' = a + bsize x) as -> by (by apply seg_head in Hrest). exact Hr.
Qed.

(** The walk to the last block. *)
Lemma last_loop_spec fuel p a l x m e :
  0 < a → sizes_ok (l ++ [x]) → (length l < fuel)%nat →
  seg m p a (l ++ [x]) 0 e → last_loop fuel p m = a + extent l.
Proof.
  revert fuel p a. induction l as [|y l IH]; intros fuel p a Ha Hs Hf Hseg;
    (destruct fuel as [|fuel]; [simpl in Hf; lia|]); cbn [last_loop];
    pose proof (seg_head _ _ _ _ _ _ _ Hseg) as ->;
    destruct (seg_blk _ _ _ _ _ _ Hseg) as (_ & _ & Hn).
  - destruct Hn as [-> _]. simpl. lia.
  - assert (0 < bsize y) by (apply sizes_cons in Hs as [[? _] _]; unfold bsize, HEADER_SIZE; lia).
    apply sizes_cons in Hs as [_ Hs].
    destruct (Z.eqb_spec (b_next (blk m a)) 0) as [E|_].
    { apply (seg_null m _ (a + bsize y)) in Hn; [|lia]. apply Hn in E. by destruct l. }
    rewrite (IH fuel _ (a + bsize y)); [simpl; lia|lia|done|simpl in Hf; lia|done].
Qed.

(** The search loop computes [first_fit]. *)
Lemma fit_loop_spec fuel need p a l m e :
  0 < a → sizes_ok l → (length l ≤ fuel)%nat → seg m p a l 0 e →
  fit_loop fuel need p m =
  match first_fit need l with Some (l1, _, _) => Some (a + extent l1) | None => None end.
Proof.
  revert fuel p a. induction l as [|y l IH]; intros fuel p a Ha Hs Hf Hseg.
  - destruct Hseg as [-> _]. by destruct fuel.
  - destruct fuel as [|fuel]; [simpl in Hf; lia|]. cbn [fit_loop first_fit].
    pose proof (seg_head _ _ _ _ _ _ _ Hseg) as ->.
    destruct (seg_blk _ _ _ _ _ _ Hseg) as (Hsz & Hu & Hn). rewrite Hsz, Hu, b2z_true.
    assert (0 < bsize y) by (apply sizes_cons in Hs as [[? _] _]; unfold bsize, HEADER_SIZE; lia).
    apply sizes_cons in Hs as [_ Hs].
    destruct (Z.eqb_spec a 0); [lia|].
    destruct (negb y.2 && (need <=? y.1)); [simpl; f_equal; lia|].
    rewrite (IH fuel _ (a + bsize y)); [|lia|done|simpl in Hf; lia|done].
    destruct (first_fit need l) as [[[l1 ?] ?]|]; [simpl; f_equal; lia|done].
Qed.

(** Replacing the chain from a block on keeps what precedes it. *)
Lemma seg_replace m m' p a l1 l2 l2' e e' :
  sizes_ok l1 →
  (∀ k, a ≤ k < a + extent l1 → m' !! k = m !! k) →
  (∀ r, seg m r (a + extent l1) l2 0 e → seg m' r (a + extent l1) l2' 0 e') →
  seg m p a (l1 ++ l2) 0 e → seg m' p a (l1 ++ l2') 0 e'.
Proof.
  intros Hs Hm H2 (r & Hr1 & Hr2)%seg_app. apply seg_app. exists r.
  split; [by eapply seg_ext|by apply H2].
Qed.

Lemma set_used_seg m r b sz u l e v :
  0 < b → sizes_ok ((sz, u) :: l) → seg m r b ((sz, u) :: l) 0 e →
  seg (set_used b (Z.b2z v) m) r b ((sz, v) :: l) 0 e.
Proof.
  intros Hb Hs Hseg. pose proof (seg_head _ _ _ _ _ _ _ Hseg) as ->.
  destruct (seg_blk _ _ _ _ _ _ Hseg) as (Hsz & Hu & Hn).
  apply sizes_cons in Hs as [[Hx _] Hs]. split; [done|].
  exists (b_next (blk m b)). unfold set_used. rewrite lookup_insert_eq, Hsz. split; [done|].
  apply seg_insert; [done| |exact Hn]. unfold bsize, HEADER_SIZE. simpl in *. lia.
Qed.

(** [split] then [b->used = 1] on a free block that fits. *)
Lemma take_seg m r b need sz l e :
  16 ≤ b → e ≤ 2 ^ 32 → sizes_ok ((sz, false) :: l) → 0 ≤ need ≤ sz → need mod 8 = 0 →
  seg m r b ((sz, false) :: l) 0 e →
  seg (set_used b 1 (split b need m)) r b (carve need sz ++ l) 0 e.
Proof.
  intros Hb He Hs Hn Hn8 Hseg. pose proof (seg_end _ _ _ _ _ _ Hseg) as Hend.
  destruct (seg_blk _ _ _ _ _ _ Hseg) as (Hsz & Hu & Hnx).
  pose proof Hs as Hs'. apply sizes_cons in Hs' as [[Hx Hx8] Hl]. pose proof (extent_nonneg l Hl).
  simpl in Hend, Hsz, Hx, Hx8. unfold bsize in Hend. simpl in Hend. zpow.
  unfold split, carve, HEADER_SIZE, MIN_SPLIT in *. rewrite Hsz.
  rewrite (u32_small (need + 16)), (u32_small (need + 16 + 8)) by lia.
  zcase; [|by apply (set_used_seg m r b sz false l e true); [lia|..]].
  rewrite (u32_small (b + 16)), (u32_small (b + 16 + need)), (u32_small (sz - need)),
    (u32_small (sz - need - 16)) by lia.
  assert (sizes_ok ((sz - need - 16, false) :: l)) as Htail.
  { apply sizes_cons. split; [|done]. simpl. clear -Hn8 Hx8 H0. zlia. }
  apply (set_used_seg _ r b need false ((sz - need - 16, false) :: l) e true); [lia| |].
  { apply sizes_cons. split; [simpl; lia|done]. }
  pose proof (seg_head _ _ _ _ _ _ _ Hseg) as ->.
  split; [done|]. exists (b + 16 + need). rewrite lookup_insert_eq. split.
  { unfold blk. rewrite lookup_insert_ne by lia. fold (blk m b). by rewrite Hu. }
  simpl in Hend. apply seg_insert; [done|unfold bsize, HEADER_SIZE; simpl; lia|].
  unfold bsize, HEADER_SIZE. simpl. split; [lia|]. exists (b_next (blk m b)).
  replace (b + (16 + need)) with (b + 16 + need) by lia. rewrite lookup_insert_eq. split; [done|].
  unfold bsize, HEADER_SIZE in *. simpl in Hnx |- *.
  replace (b + 16 + need + (16 + (sz - need - 16))) with (b + (16 + sz)) by lia.
  apply seg_insert; [done|lia|done].
Qed.

(** ** Pages of the heap *)

Section Pages.
Context {A : Type} `{FrameAllocator A}.

(** Every page of [base, end) is mapped writable to a frame of its own, which
    is not free and is no page table. *)
Record backed (p : paging A) (base end_ : Z) : Prop := {
  bk_map v : base ≤ v < end_ → v mod 4096 = 0 →
    let f := paging_get_phys v p in
    f mod 4096 = 0 ∧ 0 ≤ f < 2 ^ 32 ∧ ¬ owned_frame p f ∧
    pte p v = Some (pte_value f (PAGE_PRESENT ||| PAGE_WRITE));
  bk_inj v w : base ≤ v < end_ → base ≤ w < end_ → v mod 4096 = 0 → w mod 4096 = 0 →
    paging_get_phys v p = paging_get_phys w p → v = w
}.

(** Allocating or giving back frames without touching the tables. *)
Lemma with_frames_wf (p : paging A) a :
  paging_wf p → fa_inv a → fa_total a = fa_total (pg_frames p) →
  (∀ q, fa_is_free a q → fa_is_free (pg_frames p) q) →
  paging_wf (with_frames a p) ∧
  (∀ q, owned_frame (with_frames a p) q → owned_frame p q) ∧
  (∀ w, pte (with_frames a p) w = pte p w) ∧
  (∀ w, paging_get_phys w (with_frames a p) = paging_get_phys w p).
Proof.
  intros Hw Hi Ht Hfr. split_and!; [| |done|done].
  - destruct Hw as [H1 H2 H3 H4 H5 H6 H7]. split; cbn; rewrite ?Ht; auto.
    intros i Hin Hp. destruct (H6 i Hin Hp) as (Hr & Hd & Hn).
    split; [exact Hr|]. split; [exact Hd|]. intros Hq%Hfr. exact (Hn Hq).
  - intros q [->|[Hq|Ht']]; [by left|right; left; by apply Hfr|by right; right].
Qed.

Lemma backed_sub (p p' : paging A) base end_ :
  backed p base end_ → (∀ q, owned_frame p' q → owned_frame p q) →
  (∀ w, base ≤ w < end_ → pte p' w = pte p w ∧ paging_get_phys w p' = paging_get_phys w p) →
  backed p' base end_.
Proof.
  intros [Hm Hinj] Ho Hp. split.
  - intros v Hv Hv0. destruct (Hp v Hv) as [-> ->]. destruct (Hm v Hv Hv0) as (? & ? & Hn & ?).
    cbv zeta. split_and!; [done|lia|lia|intros Hq%Ho; done|done].
  - intros v w Hv Hw. rewrite (proj2 (Hp v Hv)), (proj2 (Hp w Hw)). by apply Hinj.
Qed.

(** A frame handed out and mapped, or given back. *)
Lemma map_fresh p a f va flags :
  paging_wf p → fa_alloc (pg_frames p) = (a, f) → f ≠ 0 → 0 ≤ va < 2 ^ 32 →
  let '(p2, r) := paging_map va f flags (with_frames a p) in
  r = 0 ∧ paging_wf p2 ∧ fa_is_free (pg_frames p) f ∧ ¬ owned_frame p2 f ∧ f mod 4096 = 0 ∧ 0 < f < 2 ^ 32 ∧
    (∀ q, owned_frame p2 q → owned_frame p q) ∧ fa_count (pg_frames p2) ≤ fa_count (pg_frames p) - 1 ∧
    (∀ w, 0 ≤ w < 2 ^ 32 → pte p2 w = if w / 4096 =? va / 4096 then Some (pte_value f flags) else pte p w) ∨
  r = -1 ∧ let p3 := with_frames (fa_free f (pg_frames p2)) p2 in
    paging_wf p3 ∧ (∀ q, owned_frame p3 q → owned_frame p q) ∧
    fa_count (pg_frames p3) = fa_count (pg_frames p) ∧ fa_count (pg_frames p) = 1 ∧
    ∀ w, pte p3 w = pte p w.
Proof.
  intros Hw Hall Hf Hva. pose proof (pw_frames _ Hw) as Hi.
  destruct (fa_alloc_ok _ _ _ Hi Hall Hf) as (Hi1 & Ht1 & Hfree & Hfr1).
  destruct (fa_alloc_addr _ _ _ Hi Hall Hf) as (Hp0 & Hpr & Hpt).
  pose proof (fa_alloc_count _ _ _ Hi Hall Hf) as Hc1.
  destruct (with_frames_wf p a Hw Hi1 Ht1 ltac:(intros q Hq; by apply Hfr1)) as (Hw1 & Ho1 & Hpte1 & _).
  assert (¬ owned_frame (with_frames a p) f) as Hn.
  { intros [E|[Hq|(i & Hin & Hpi & E)]].
    - apply (pw_pd_used _ Hw). cbn in E. by rewrite <- E.
    - by apply Hfr1 in Hq as [_ ?].
    - destruct (pw_table _ Hw i Hin Hpi) as (_ & _ & Hn). apply Hn.
      change (table_of p i) with (table_of (with_frames a p) i). by rewrite <- E. }
  pose proof (paging_map_spec (with_frames a p) va f flags Hw1 Hva ltac:(lia)) as Hm.
  destruct (paging_map _ _ _ (with_frames a p)) as [p2 r].
  destruct Hm as (Hw2 & _ & _ & Hfr2 & Ho2 & Hc2 & [(-> & -> & Hno)|(-> & _ & Hpte2)]).
  - right. split; [done|]. cbv zeta. cbn [with_frames pg_frames].
    destruct (fa_free_ok a f Hi1 Hp0 ltac:(lia)) as (Hi3 & Ht3 & Hfr3).
    pose proof (fa_free_count a f Hi1 Hp0 ltac:(lia) (Hno f)) as Hc3.
    pose proof (fa_full_count a Hi1 Hno).
    destruct (with_frames_wf p (fa_free f a) Hw Hi3 ltac:(congruence)) as (Hw3 & Ho3 & Hpte3 & _).
    { intros q [Hq| ->]%Hfr3; [by apply Hfr1|done]. }
    split_and!; [exact Hw3|exact Ho3|lia|lia|exact Hpte3].
  - left. split_and!; [done|done|done|intros Hq; by apply Hn, Ho2|done|lia|lia| |cbn in Hc2; lia|].
    + intros q Hq. by apply Ho1, Ho2.
    + intros w Hwr. rewrite Hpte2 by done. by rewrite Hpte1.
Qed.
(** One page more at the end of the heap, or the frame is given back. *)
Lemma map_one (p : paging A) base end_ a phys :
  paging_wf p → backed p base end_ → base mod 4096 = 0 → end_ mod 4096 = 0 →
  0 ≤ base ≤ end_ → end_ < 2 ^ 32 → fa_alloc (pg_frames p) = (a, phys) → phys ≠ 0 →
  let '(p2, r) := paging_map end_ phys (PAGE_PRESENT ||| PAGE_WRITE) (with_frames a p) in
  (r = 0 ∧ paging_wf p2 ∧ backed p2 base (end_ + 4096) ∧
   fa_count (pg_frames p2) ≤ fa_count (pg_frames p) - 1 ∧
   ∀ w, 0 ≤ w < 2 ^ 32 → w < end_ ∨ end_ + 4096 ≤ w → pte p2 w = pte p w) ∨
  (r = -1 ∧ let p3 := with_frames (fa_free phys (pg_frames p2)) p2 in
   paging_wf p3 ∧ backed p3 base end_ ∧ fa_count (pg_frames p3) = fa_count (pg_frames p) ∧
   fa_count (pg_frames p) = 1 ∧ ∀ w, pte p3 w = pte p w).
Proof.
  intros Hw Hb Hb0 He0 Hbe Hend Hall Hphys.
  pose proof (map_fresh p a phys end_ (PAGE_PRESENT ||| PAGE_WRITE) Hw Hall Hphys ltac:(lia)) as Hm.
  destruct (paging_map _ _ _ (with_frames a p)) as [p2 r].
  destruct Hm as [(-> & Hw2 & Hfree & Hn & Hp0 & Hpr & Ho2 & Hc2 & Hpte2)|(-> & Hw3 & Ho3 & Hc3 & H1 & Hpte3)].
  2: { right. split; [done|]. cbv zeta. split_and!; [exact Hw3| |exact Hc3|exact H1|exact Hpte3].
       apply (backed_sub p); [done|exact Ho3|]. intros w _. split; [apply Hpte3|].
       rewrite !get_phys_pte by done. by rewrite Hpte3. }
  left. assert (∀ w, base ≤ w < end_ → pte p2 w = pte p w ∧ paging_get_phys w p2 = paging_get_phys w p)
      as Hold.
    { intros w Hwr. assert (pte p2 w = pte p w) as E.
      { rewrite Hpte2 by lia. destruct (Z.eqb_spec (w / 4096) (end_ / 4096)); [|done].
        exfalso. clear -Hwr He0 e. zlia. }
      split; [done|]. rewrite !get_phys_pte by done. by rewrite E. }
    assert (∀ v, v mod 4096 = 0 → end_ ≤ v < end_ + 4096 → v = end_) as Hv by (clear -He0; intros; zlia).
    assert (pte p2 end_ = Some (pte_value phys (PAGE_PRESENT ||| PAGE_WRITE))) as Hnew
      by (by rewrite Hpte2, Z.eqb_refl by lia).
    assert (paging_get_phys end_ p2 = phys) as Hgn.
    { rewrite (get_phys_value _ _ phys (PAGE_PRESENT ||| PAGE_WRITE)) by (done || lia).
      unfold page_of. lia. }
    assert (∀ v, base ≤ v < end_ → v mod 4096 = 0 → paging_get_phys v p ≠ phys) as Hdist.
    { intros v Hvr Hv0 E. destruct (bk_map _ _ _ Hb v Hvr Hv0) as (_ & _ & Hn' & _).
      apply Hn'. right; left. by rewrite E. }
    split_and!; [done|done| |lia|].
    + split.
      * intros v Hvr Hv0. destruct (Z.lt_ge_cases v end_).
        -- destruct (Hold v) as [-> ->]; [lia|]. destruct (bk_map _ _ _ Hb v) as (? & ? & Hn' & ?);
             [lia|done|]. cbv zeta. split_and!; [done|lia|lia| |done].
           intros Hq%Ho2. done.
        -- rewrite (Hv v) by (done || lia). cbv zeta. rewrite Hgn.
           by split_and!; [done|lia|lia|exact Hn|].
      * intros v w Hvr Hwr Hv0 Hw0.
        destruct (Z.lt_ge_cases v end_) as [H1|H1]; destruct (Z.lt_ge_cases w end_) as [H2|H2].
        -- rewrite (proj2 (Hold v ltac:(lia))), (proj2 (Hold w ltac:(lia))).
           apply (bk_inj _ _ _ Hb); [lia|lia|done|done].
        -- rewrite (proj2 (Hold v ltac:(lia))), (Hv w), Hgn by (done || lia).
           intros E. by destruct (Hdist v ltac:(lia) Hv0).
        -- rewrite (proj2 (Hold w ltac:(lia))), (Hv v), Hgn by (done || lia).
           intros E. by destruct (Hdist w ltac:(lia) Hw0).
        -- rewrite (Hv v), (Hv w) by (done || lia). done.
    + intros w Hwr Hout. rewrite Hpte2 by done.
      destruct (Z.eqb_spec (w / 4096) (end_ / 4096)); [|done].
      exfalso. clear -Hout He0 e. zlia.
Qed.

(** The mapping loop: it maps all the pages asked for, or stops with at most
    one frame left. *)
Lemma map_pages_spec n (p : paging A) base end_ :
  paging_wf p → backed p base end_ → base mod 4096 = 0 → end_ mod 4096 = 0 →
  0 ≤ base ≤ end_ → end_ + 4096 * fa_count (pg_frames p) < 2 ^ 32 →
  ∃ p' k, map_pages n end_ p = (p', end_ + 4096 * k, 4096 * k) ∧ 0 ≤ k ≤ Z.of_nat n ∧
    paging_wf p' ∧ backed p' base (end_ + 4096 * k) ∧
    fa_count (pg_frames p') ≤ fa_count (pg_frames p) - k ∧
    (k = Z.of_nat n ∨ fa_count (pg_frames p') ≤ 1) ∧
    ∀ w, 0 ≤ w < 2 ^ 32 → w < end_ ∨ end_ + 4096 * k ≤ w → pte p' w = pte p w.
Proof.
  revert p end_. induction n as [|n IH]; intros p end_ Hw Hb Hb0 He0 Hbe Hroom.
  { exists p, 0. rewrite Z.mul_0_r, Z.add_0_r. split_and!; auto; lia. }
  cbn [map_pages]. destruct (fa_alloc (pg_frames p)) as [a phys] eqn:Hall.
  pose proof (pw_frames _ Hw) as Hi. pose proof (fa_count_range _ Hi).
  destruct (Z.eqb_spec phys 0) as [->|Hphys].
  { destruct (fa_alloc_full _ _ Hi Hall) as [-> Hno]. pose proof (fa_full_count _ Hi Hno) as Hc.
    exists (with_frames (pg_frames p) p), 0. rewrite Z.mul_0_r, Z.add_0_r.
    split; [done|]. destruct p. cbn in *. split_and!; auto; lia. }
  pose proof (map_one p base end_ a phys Hw Hb Hb0 He0 Hbe ltac:(lia) Hall Hphys) as Hone.
  destruct (paging_map _ _ _ _) as [p2 r].
  destruct Hone as [(-> & Hw2 & Hb2 & Hc2 & Hp2)|(-> & Hw3 & Hb3 & Hc3 & Hone & Hp3)]; cbn [Z.eqb negb].
  - pose proof (fa_count_range _ (pw_frames _ Hw2)).
    change PAGE_SIZE with 4096. rewrite (u32_small (end_ + 4096)) by (zpow; lia).
    destruct (IH p2 (end_ + 4096)) as (p' & k & -> & Hk & Hw' & Hb' & Hc' & Hstop & Hp');
      [done|done|done|clear -He0; zlia|lia|lia|].
    pose proof (fa_count_range _ (pw_frames _ Hw')).
    rewrite (u32_small (4096 * k + 4096)) by (zpow; lia).
    exists p', (k + 1). replace (4096 * (k + 1)) with (4096 * k + 4096) by lia.
    replace (end_ + (4096 * k + 4096)) with (end_ + 4096 + 4096 * k) by lia.
    split_and!; [done|lia|lia|done|done|lia|lia|].
    intros w Hwr Hout. rewrite Hp', Hp2 by lia. done.
  - exists (with_frames (fa_free phys (pg_frames p2)) p2), 0.
    rewrite Z.mul_0_r, Z.add_0_r. split_and!; auto; lia.
Qed.

End Pages.

(** ** The invariant *)

(** The blocks of the heap, read off the headers. *)
Fixpoint walk (fuel : nat) (p : Z) (m : gmap Z block_t) : list ablock :=
  match fuel with
  | O => []
  | S fuel =>
      if p =? 0 then []
      else (b_size (blk m p), c_true (b_used (blk m p))) :: walk fuel (b_next (blk m p)) m
  end.

Definition chain {A} (s : kheap A) : list ablock :=
  walk (heap_fuel (heap_base s) (heap_end s)) (head s) (kh_mem s).

(** The memory handed out: payload addresses and sizes. *)
Definition allocated {A} (s : kheap A) : list (Z * Z) := live (heap_base s) (chain s).

Lemma walk_spec fuel p a l m e :
  0 < a → sizes_ok l → (length l ≤ fuel)%nat → seg m p a l 0 e → walk fuel p m = l.
Proof.
  revert fuel p a. induction l as [|[sz u] l IH]; intros fuel p a Ha Hs Hf Hseg.
  - destruct Hseg as [-> _]. by destruct fuel.
  - destruct fuel as [|fuel]; [simpl in Hf; lia|]. cbn [walk].
    pose proof (seg_head _ _ _ _ _ _ _ Hseg) as ->.
    destruct (seg_blk _ _ _ _ _ _ Hseg) as (Hsz & Hu & Hn). rewrite Hsz, Hu, b2z_true.
    assert (0 < bsize (sz, u)) by (apply sizes_cons in Hs as [[? _] _]; unfold bsize, HEADER_SIZE; lia).
    apply sizes_cons in Hs as [_ Hs]. destruct (Z.eqb_spec a 0); [lia|].
    rewrite (IH fuel _ (a + bsize (sz, u))); [done|lia|done|simpl in Hf; lia|done].
Qed.

Section Invariant.
Context {A : Type} `{FrameAllocator A}.

(** The heap [s] holds the blocks [l]; everything but the merging of free
    neighbours. *)
Record kheap_rep (s : kheap A) (l : list ablock) : Prop := {
  kr_base : heap_base s = KHEAP_BASE;
  kr_end : heap_end s mod 4096 = 0 ∧ KHEAP_BASE ≤ heap_end s;
  kr_seg : seg (kh_mem s) (head s) KHEAP_BASE l 0 (heap_end s);
  kr_sizes : sizes_ok l;
  kr_paging : paging_wf (kh_paging s);
  kr_backed : backed (kh_paging s) KHEAP_BASE (heap_end s);
  kr_room : heap_end s + 4096 * fa_count (pg_frames (kh_paging s)) < 2 ^ 32
}.

Definition kheap_wf (s : kheap A) : Prop := kheap_rep s (chain s) ∧ no_adjacent (chain s).

Lemma rep_bounds s l : kheap_rep s l →
  heap_end s = KHEAP_BASE + extent l ∧ heap_end s < 2 ^ 32 ∧
  (length l ≤ heap_fuel (heap_base s) (heap_end s))%nat.
Proof.
  intros [Hb He Hseg Hs Hp _ Hroom]. pose proof (seg_end _ _ _ _ _ _ Hseg) as E.
  pose proof (fa_count_range _ (pw_frames _ Hp)). pose proof (extent_length l Hs) as Hlen.
  unfold zlen in Hlen. split; [done|]. split; [lia|].
  rewrite Hb, E. unfold heap_fuel, HEADER_SIZE. clear -Hlen. zlia.
Qed.

Lemma rep_chain s l : kheap_rep s l → chain s = l.
Proof.
  intros Hr. destruct (rep_bounds s l Hr) as (_ & _ & Hf). destruct Hr as [Hb _ Hseg Hs _ _ _].
  unfold chain. by apply (walk_spec _ _ KHEAP_BASE _ _ (heap_end s)).
Qed.

Lemma rep_wf s l : kheap_rep s l → no_adjacent l → kheap_wf s.
Proof. intros Hr Ha. unfold kheap_wf. by rewrite (rep_chain s l Hr). Qed.

Lemma rep_allocated s l : kheap_rep s l → allocated s = live KHEAP_BASE l.
Proof. intros Hr. unfold allocated. rewrite (rep_chain s l Hr). by rewrite (kr_base _ _ Hr). Qed.

Lemma coalesce_rep s l :
  kheap_rep s l → kheap_rep (coalesce s) (coalesced l) ∧
  heap_end (coalesce s) = heap_end s ∧ kh_paging (coalesce s) = kh_paging s.
Proof.
  intros Hr. destruct (rep_bounds s l Hr) as (_ & Hlt & Hf). destruct Hr as [Hb He Hseg Hs Hp Hbk Hroom].
  split; [|done]. destruct l as [|x l].
  - by split.
  - pose proof (seg_head _ _ _ _ _ _ _ Hseg) as Hh. rewrite Hh in Hseg.
    destruct (coalesce_loop_spec (heap_fuel (heap_base s) (heap_end s)) KHEAP_BASE x l
      (kh_mem s) (heap_end s)) as [Hc _]; [done|lia|done|simpl in Hf; lia|done|].
    split; try done.
    + unfold coalesce. cbn [kh_mem head heap_end]. rewrite Hh. exact Hc.
    + by apply coal_sizes.
Qed.

Lemma coalesced_live a l : live a (coalesced l) = live a l.
Proof. destruct l; [done|apply coal_live]. Qed.

Lemma coalesced_no_adjacent l : no_adjacent (coalesced l).
Proof. destruct l; [done|apply coal_no_adjacent]. Qed.

(** ** Growing *)

Lemma grow_bytes_spec min :
  0 ≤ grow_bytes min < 2 ^ 32 ∧ grow_bytes min mod 4096 = 0 ∧
  (0 ≤ min < 2 ^ 32 - 4096 → min ≤ grow_bytes min).
Proof.
  unfold grow_bytes, PAGE_SIZE. pose proof (u32_range (min + (4096 - 1))) as Hr.
  change (u32_not (4096 - 1)) with (u32_not (Z.ones 12)).
  rewrite land_align by lia. split; [zlia|]. split; [zlia|]. intros Hm.
  rewrite u32_small by (zpow; lia). zlia.
Qed.

(** A new free block at the end of the chain. *)
Lemma append_seg m hd l start e sz fuel :
  sizes_ok l → 0 ≤ sz → sz mod 8 = 0 → (length l ≤ fuel)%nat →
  seg m hd KHEAP_BASE l 0 start → e = start + (16 + sz) →
  let m1 := <[start := Block sz 0 0]> m in
  let '(m2, hd2) := if hd =? 0 then (m1, start) else (set_next (last_loop fuel hd m1) start m1, hd) in
  seg m2 hd2 KHEAP_BASE (l ++ [(sz, false)]) 0 e.
Proof.
  intros Hs Hsz Hsz8 Hf Hseg -> m1. pose proof (seg_end _ _ _ _ _ _ Hseg) as Hend.
  pose proof (extent_nonneg l Hs).
  assert (seg m1 hd KHEAP_BASE l 0 start) as Hseg1 by (apply seg_insert; [done|lia|done]).
  assert (∀ m', m' !! start = Some (Block sz 0 0) →
    seg m' start start [(sz, false)] 0 (start + (16 + sz))) as Hlast.
  { intros m' Hm'. split; [done|]. exists 0. split; [done|]. done. }
  destruct (Z.eqb_spec hd 0) as [->|Hne].
  - destruct l as [|x l]; [|destruct Hseg as [? _]; done]. destruct Hseg as [_ <-].
    simpl app. apply Hlast. unfold m1. apply lookup_insert_eq.
  - destruct l as [|x l1 _] using rev_ind; [by destruct Hseg|].
    rewrite (last_loop_spec fuel hd KHEAP_BASE l1 x m1 start);
      [|done|done|rewrite length_app in Hf; simpl in Hf; lia|done].
    rewrite <- app_assoc. apply sizes_app in Hs as [Hs1 Hsx]. pose proof (extent_nonneg _ Hs1).
    rewrite extent_app in Hend. simpl extent in Hend.
    pose proof Hsx as [[Hx _] _]%sizes_cons. unfold bsize, HEADER_SIZE in Hend.
    apply (seg_replace m1 _ _ _ l1 [x] _ start); [done| | |exact Hseg1].
    + intros k Hk. unfold set_next. apply lookup_insert_ne. lia.
    + intros r Hr. pose proof (seg_head _ _ _ _ _ _ _ Hr) as ->.
      destruct Hr as (_ & n & Hl & -> & Hn2). split; [done|]. exists start.
      unfold set_next. rewrite lookup_insert_eq. unfold blk. rewrite Hl. cbn [default b_size b_used].
      split; [done|]. unfold bsize, HEADER_SIZE.
      replace (KHEAP_BASE + extent l1 + (16 + x.1)) with start by lia.
      apply Hlast. rewrite lookup_insert_ne by lia. unfold m1. apply lookup_insert_eq.
Qed.

Definition frames_left (s : kheap A) : Z := fa_count (pg_frames (kh_paging s)).

(** The translations outside the heap's growing end. *)
Definition same_below (s s' : kheap A) : Prop :=
  heap_end s ≤ heap_end s' ∧
  ∀ w, 0 ≤ w < 2 ^ 32 → w < heap_end s ∨ heap_end s' ≤ w →
    pte (kh_paging s') w = pte (kh_paging s) w.

Lemma grow_rep s l min :
  kheap_rep s l →
  let '(s', r) := grow_heap min s in
  same_below s s' ∧ frames_left s' ≤ frames_left s ∧
  (r = -1 ∧ kheap_rep s' l ∧ heap_end s' = heap_end s ∧
     (grow_bytes min = 0 ∨ frames_left s' ≤ 1) ∨
   r = 0 ∧ ∃ k, 1 ≤ k ∧ 4096 * k ≤ grow_bytes min ∧
     kheap_rep s' (coalesced (l ++ [(4096 * k - 16, false)])) ∧
     (4096 * k = grow_bytes min ∨ frames_left s' ≤ 1)).
Proof.
  intros Hr. destruct (rep_bounds s l Hr) as (Hend & Hlt & Hf).
  pose proof Hr as [Hb [He0 He] Hseg Hs Hp Hbk Hroom].
  destruct (grow_bytes_spec min) as (Hg & Hg0 & _). unfold grow_heap.
  change PAGE_SIZE with 4096. set (n := Z.to_nat (grow_bytes min / 4096)).
  assert (4096 * Z.of_nat n = grow_bytes min) as Hn by (unfold n; clear -Hg Hg0; zlia).
  destruct (map_pages_spec n (kh_paging s) KHEAP_BASE (heap_end s)) as
    (p' & k & -> & Hk & Hw' & Hb' & Hc & Hstop & Hsame); [done|done|done|done|unfold KHEAP_BASE in *; lia|done|].
  pose proof (fa_count_range _ (pw_frames _ Hw')).
  destruct (Z.eqb_spec (4096 * k) 0) as [E|E].
  - replace (heap_end s + 4096 * k) with (heap_end s) in * by lia.
    split; [split; [cbn; lia|exact Hsame]|].
    split; [unfold frames_left; cbn; lia|]. left. split; [done|].
    split; [split; cbn; [done|done|done|done|done|done|lia]|]. split; [done|].
    unfold frames_left. cbn. lia.
  - change HEADER_SIZE with 16. rewrite (u32_small (4096 * k - 16)) by (zpow; lia).
    assert (heap_fuel (heap_base s) (heap_end s) ≤ heap_fuel (heap_base s) (heap_end s + 4096 * k))%nat
      by (unfold heap_fuel, HEADER_SIZE; clear -Hk; zlia).
    pose proof (append_seg (kh_mem s) (head s) l (heap_end s) (heap_end s + 4096 * k) (4096 * k - 16)
      (heap_fuel (heap_base s) (heap_end s + 4096 * k)) Hs ltac:(lia) ltac:(clear; zlia) ltac:(lia)
      Hseg ltac:(lia)) as Happ. cbv zeta in Happ.
    destruct (if head s =? 0 then _ else _) as [m2 hd2].
    assert (kheap_rep (MkKheap p' m2 (heap_base s) (heap_end s + 4096 * k) hd2)
      (l ++ [(4096 * k - 16, false)])) as Hrep.
    { split; cbn; [done| |done| |done|done|lia].
      - split; [clear -He0; zlia|lia].
      - apply sizes_app. split; [done|]. apply sizes_cons. split; [cbn; clear -Hk E; zlia|].
        by constructor. }
    destruct (coalesce_rep _ _ Hrep) as (Hrep' & Hend' & Hpg').
    split; [split; [rewrite Hend'; cbn; lia|]|].
    { intros w Hwr Hout. rewrite Hpg'. rewrite Hend' in Hout. by apply Hsame. }
    split; [unfold frames_left; rewrite Hpg'; cbn; lia|].
    right. split; [done|]. exists k. split_and!; [lia|lia|done|].
    unfold frames_left. rewrite Hpg'. cbn. lia.
Qed.

(** ** Allocation *)

Lemma take_rep s l need :
  kheap_rep s l → 0 ≤ need → need mod 8 = 0 →
  match first_fit need l with
  | None => take_fit need s = None
  | Some (l1, sz, l2) => ∃ s',
      take_fit need s = Some (s', KHEAP_BASE + extent l1 + HEADER_SIZE) ∧
      kheap_rep s' (l1 ++ carve need sz ++ l2) ∧
      heap_end s' = heap_end s ∧ kh_paging s' = kh_paging s
  end.
Proof.
  intros Hr Hn Hn8. destruct (rep_bounds s l Hr) as (Hend & Hlt & Hf).
  destruct Hr as [Hb He Hseg Hs Hp Hbk Hroom]. unfold take_fit.
  rewrite (fit_loop_spec _ _ _ KHEAP_BASE l _ (heap_end s)) by done.
  destruct (first_fit need l) as [[[l1 sz] l2]|] eqn:Hfit; [|done].
  destruct (first_fit_Some _ _ _ _ _ Hfit) as (-> & Hsz & _).
  rewrite extent_app in Hend. simpl extent in Hend. unfold bsize in Hend. cbn [fst] in Hend.
  pose proof Hs as [Hs1 Hs2]%sizes_app. pose proof (extent_nonneg _ Hs1) as Hx1.
  pose proof Hs2 as [[Hsz0 Hsz8] Hs3]%sizes_cons. pose proof (extent_nonneg _ Hs3) as Hx3.
  cbn [fst] in Hsz0, Hsz8. unfold HEADER_SIZE, KHEAP_BASE in *.
  set (b := 0xC0000000 + extent l1) in *.
  eexists. split; [rewrite u32_small by lia; reflexivity|]. split; [|done].
  split; cbn; try done.
  - unfold KHEAP_BASE.
    apply (seg_replace (kh_mem s) _ _ _ l1 ((sz, false) :: l2) _ (heap_end s)); [done| | |done].
    + intros k Hk. fold b in Hk. unfold set_used. rewrite lookup_insert_ne by lia.
      unfold split. zcase; [|done]. unfold HEADER_SIZE, MIN_SPLIT in *.
      rewrite (u32_small (b + 16)), (u32_small (b + 16 + need)) by lia.
      by rewrite !lookup_insert_ne by lia.
    + intros r Hr. fold b in Hr |- *. apply take_seg; [lia|lia|done|lia|done|done].
  - apply sizes_app. split; [done|]. apply sizes_app. split; [|done]. by apply carve_sizes.
Qed.

Lemma kmalloc_need_spec size :
  0 ≤ size < 2 ^ 32 →
  0 ≤ kmalloc_need size < 2 ^ 32 ∧ kmalloc_need size mod 8 = 0 ∧
  (size ≤ 0xFFFFFFF8 → size ≤ kmalloc_need size < size + 8).
Proof.
  intros Hs. unfold kmalloc_need. pose proof (u32_range (size + 7)) as Hr.
  change (u32_not 7) with (u32_not (Z.ones 3)). rewrite land_align by lia.
  split; [zlia|]. split; [zlia|]. intros Hle. rewrite u32_small by (zpow; lia). zlia.
Qed.

(** What [kmalloc] leaves behind: either nothing was handed out, or one block
    of at least the size needed was. *)
Definition kmalloc_post (need : Z) (s s' : kheap A) (p : Z) : Prop :=
  kheap_wf s' ∧ same_below s s' ∧
  (p = 0 ∧ allocated s' = allocated s ∨
   ∃ n, need ≤ n ∧ p mod 8 = 0 ∧ p ≠ 0 ∧ allocated s' ≡ₚ (p, n) :: allocated s).

Lemma take_post s l l1 sz l2 need s' :
  kheap_rep s l → no_adjacent l → 0 ≤ need → first_fit need l = Some (l1, sz, l2) →
  kheap_rep s' (l1 ++ carve need sz ++ l2) → heap_end s' = heap_end s →
  kh_paging s' = kh_paging s →
  kmalloc_post need s s' (KHEAP_BASE + extent l1 + HEADER_SIZE).
Proof.
  intros Hr Hadj Hn Hfit Hr' He Hp. destruct (first_fit_Some _ _ _ _ _ Hfit) as (-> & Hsz & _).
  pose proof (kr_sizes _ _ Hr) as [Hs1 _]%sizes_app. pose proof (extent_nonneg _ Hs1).
  pose proof (extent_mod8 _ Hs1) as H8.
  split; [eapply rep_wf; [done|by apply carve_no_adjacent]|].
  split; [split; [lia|intros w _ _; by rewrite Hp]|]. right. exists (carved need sz).
  split_and!.
  - unfold carved. zcase; lia.
  - unfold KHEAP_BASE, HEADER_SIZE. clear -H8. zlia.
  - unfold KHEAP_BASE, HEADER_SIZE. lia.
  - rewrite (rep_allocated _ _ Hr'), (rep_allocated _ _ Hr).
    rewrite !live_app, carve_live, carve_extent. simpl live.
    rewrite (Permutation_middle _ _ (KHEAP_BASE + extent l1 + HEADER_SIZE, carved need sz)). done.
Qed.

Lemma grow_post s s' l min r :
  kheap_rep s l → no_adjacent l → grow_heap min s = (s', r) →
  kheap_wf s' ∧ same_below s s' ∧ allocated s' = allocated s.
Proof.
  intros Hr Hadj Hg. pose proof (grow_rep s l min Hr) as Hs. rewrite Hg in Hs.
  destruct Hs as (Hb & _ & [(_ & Hr' & _)|(_ & k & _ & _ & Hr' & _)]).
  - split; [by eapply rep_wf|]. split; [done|].
    by rewrite (rep_allocated _ _ Hr'), (rep_allocated _ _ Hr).
  - split; [eapply rep_wf; [done|apply coalesced_no_adjacent]|]. split; [done|].
    rewrite (rep_allocated _ _ Hr'), (rep_allocated _ _ Hr), coalesced_live, live_app.
    simpl. by rewrite app_nil_r.
Qed.

Lemma same_below_trans s1 s2 s3 : same_below s1 s2 → same_below s2 s3 → same_below s1 s3.
Proof.
  intros [H1 P1] [H2 P2]. split; [lia|]. intros w Hw Ho. rewrite P2, P1 by lia. done.
Qed.

Lemma attempts_post n need s :
  kheap_wf s → 0 ≤ need → need mod 8 = 0 →
  let '(s', p) := kmalloc_attempts n need s in kmalloc_post need s s' p.
Proof.
  intros Hwf Hn Hn8. revert s Hwf. induction n as [|n IH]; intros s [Hr Hadj]; cbn [kmalloc_attempts].
  { split; [done|]. split; [by split|]. by left. }
  pose proof (take_rep s _ need Hr Hn Hn8) as Ht.
  destruct (first_fit need (chain s)) as [[[l1 sz] l2]|] eqn:Hfit.
  - destruct Ht as (s' & -> & Hr' & He & Hp). by eapply take_post.
  - rewrite Ht. destruct (grow_heap _ s) as [s1 r] eqn:Hg.
    destruct (grow_post _ _ _ _ _ Hr Hadj Hg) as (Hw1 & Hb1 & Ha1).
    destruct (negb (r =? 0)).
    + split; [done|]. split; [done|]. by left.
    + specialize (IH s1 Hw1). destruct (kmalloc_attempts n need s1) as [s' p].
      destruct IH as (Hw' & Hb' & Hcase). split; [done|].
      split; [by eapply same_below_trans|]. by rewrite Ha1 in Hcase.
Qed.

(** When [kmalloc] fails, no block fits and memory has run out. *)
Lemma grow_fits s l need s' r :
  kheap_rep s l → 0 ≤ need < 2 ^ 32 - 8192 → grow_heap (u32 (need + HEADER_SIZE)) s = (s', r) →
  frames_left s' ≤ 1 ∨ r = 0 ∧ first_fit need (chain s') ≠ None.
Proof.
  intros Hr Hn Hg. pose proof (grow_rep s l (u32 (need + HEADER_SIZE)) Hr) as Hs. rewrite Hg in Hs.
  destruct (grow_bytes_spec (u32 (need + HEADER_SIZE))) as (_ & _ & Hge).
  unfold HEADER_SIZE in *. rewrite (u32_small (need + 16)) in * by (zpow; lia). zpow.
  destruct Hs as (_ & _ & [(_ & _ & _ & [?|?])|(-> & k & Hk & Hkb & Hr' & [Hall|Hlow])]);
    [lia|by left| |by left].
  right. split; [done|]. rewrite (rep_chain _ _ Hr'). apply first_fit_fits, coalesced_fits.
  - apply sizes_app. split; [by apply (kr_sizes _ _ Hr)|].
    apply sizes_cons. split; [cbn; clear -Hk; zlia|]. by constructor.
  - apply Exists_app. right. apply Exists_cons_hd. cbn. split; [done|lia].
Qed.

Lemma attempts_null need s s' :
  kheap_wf s → 0 ≤ need < 2 ^ 32 - 8192 → need mod 8 = 0 →
  kmalloc_attempts 2 need s = (s', 0) →
  first_fit need (chain s) = None ∧ frames_left s' ≤ 1.
Proof.
  intros [Hr Hadj] Hn Hn8. cbn [kmalloc_attempts].
  pose proof (take_rep s _ need Hr ltac:(lia) Hn8) as Ht.
  destruct (first_fit need (chain s)) as [[[l1 sz] l2]|] eqn:Hfit.
  { destruct Ht as (s1 & -> & Hr' & _). intros [= _ E].
    destruct (first_fit_Some _ _ _ _ _ Hfit) as (El & _ & _).
    pose proof (kr_sizes _ _ Hr) as Hs. rewrite El in Hs. apply sizes_app in Hs as [Hs _].
    pose proof (extent_nonneg _ Hs). unfold KHEAP_BASE, HEADER_SIZE in E. lia. }
  rewrite Ht. destruct (grow_heap _ s) as [s1 r] eqn:Hg.
  destruct (grow_post _ _ _ _ _ Hr Hadj Hg) as ([Hr1 Hadj1] & _ & _).
  destruct (grow_fits _ _ _ _ _ Hr Hn Hg) as [Hlow|[-> Hfits]].
  - destruct (negb (r =? 0)); [by intros [= ->]|].
    pose proof (take_rep s1 _ need Hr1 ltac:(lia) Hn8) as Ht1.
    destruct (first_fit need (chain s1)) as [[[l1 sz] l2]|] eqn:Hfit1.
    + destruct Ht1 as (s2 & -> & _). intros [= _ E].
      destruct (first_fit_Some _ _ _ _ _ Hfit1) as (El & _ & _).
      pose proof (kr_sizes _ _ Hr1) as Hs. rewrite El in Hs. apply sizes_app in Hs as [Hs _].
      pose proof (extent_nonneg _ Hs). unfold KHEAP_BASE, HEADER_SIZE in E. lia.
    + rewrite Ht1. destruct (grow_heap _ s1) as [s2 r2] eqn:Hg2.
      pose proof (grow_rep s1 _ (u32 (need + HEADER_SIZE)) Hr1) as Hs. rewrite Hg2 in Hs.
      destruct Hs as (_ & Hle & _).
      destruct (negb (r2 =? 0)); intros [= <-]; (split; [done|lia]).
  - cbn [Z.eqb negb]. pose proof (take_rep s1 _ need Hr1 ltac:(lia) Hn8) as Ht1.
    destruct (first_fit need (chain s1)) as [[[l1 sz] l2]|] eqn:Hfit1; [|done].
    destruct Ht1 as (s2 & -> & _). intros [= _ E].
    destruct (first_fit_Some _ _ _ _ _ Hfit1) as (El & _ & _).
    pose proof (kr_sizes _ _ Hr1) as Hs. rewrite El in Hs. apply sizes_app in Hs as [Hs _].
    pose proof (extent_nonneg _ Hs). unfold KHEAP_BASE, HEADER_SIZE in E. lia.
Qed.

(** ** Freeing *)

Lemma kfree_post s ptr n :
  kheap_wf s → (ptr, n) ∈ allocated s →
  kheap_wf (kfree ptr s) ∧ (ptr, n) :: allocated (kfree ptr s) ≡ₚ allocated s ∧
  heap_end (kfree ptr s) = heap_end s ∧ kh_paging (kfree ptr s) = kh_paging s.
Proof.
  intros [Hr Hadj] Hin. rewrite (rep_allocated _ _ Hr) in Hin |- *.
  destruct (live_elem _ _ _ _ Hin) as (l1 & l2 & El & ->). rewrite El in Hr |- *.
  destruct (rep_bounds _ _ Hr) as (Hend & Hlt & _). pose proof Hr as [Hb He Hseg Hs Hp Hbk Hroom].
  pose proof Hs as [Hs1 Hs2]%sizes_app. pose proof (extent_nonneg _ Hs1).
  pose proof Hs2 as [[Hn0 Hn8] Hs3]%sizes_cons. pose proof (extent_nonneg _ Hs3).
  rewrite extent_app in Hend. simpl extent in Hend. unfold bsize, HEADER_SIZE, KHEAP_BASE in *.
  cbn [fst] in *. set (b := 0xC0000000 + extent l1) in *.
  unfold kfree, HEADER_SIZE. destruct (Z.eqb_spec (b + 16) 0); [lia|].
  replace (b + 16 - 16) with b by lia. rewrite u32_small by (zpow; lia).
  assert (kheap_rep (MkKheap (kh_paging s) (set_used b 0 (kh_mem s)) (heap_base s) (heap_end s) (head s))
    (l1 ++ (n, false) :: l2)) as Hrep.
  { split; cbn; try done.
    - apply (seg_replace (kh_mem s) _ _ _ l1 ((n, true) :: l2) _ (heap_end s)); [done| | |done].
      + intros k Hk. unfold KHEAP_BASE in Hk. unfold set_used. apply lookup_insert_ne. lia.
      + intros r Hr'. unfold KHEAP_BASE in *. fold b in Hr' |- *.
        apply (set_used_seg _ r b n true l2 _ false); [lia|done|done].
    - apply sizes_app. split; [done|]. apply sizes_cons. by split; [split|]. }
  destruct (coalesce_rep _ _ Hrep) as (Hrep' & He' & Hp').
  split; [eapply rep_wf; [done|apply coalesced_no_adjacent]|].
  split; [|by split]. rewrite (rep_allocated _ _ Hrep'), coalesced_live, !live_app.
  simpl live. unfold bsize, KHEAP_BASE, HEADER_SIZE. fold b. simpl.
  by rewrite Permutation_middle.
Qed.

(** ** Initialisation *)

Lemma kheap_init_wf (s : kheap A) :
  paging_wf (kh_paging s) → KHEAP_BASE + 4096 * frames_left s < 2 ^ 32 →
  kheap_wf (kheap_init s) ∧ allocated (kheap_init s) = [].
Proof.
  intros Hw Hroom. unfold kheap_init. set (s0 := MkKheap (kh_paging s) _ _ _ _).
  assert (kheap_rep s0 []) as Hr.
  { split; cbn; try done; [by constructor|]. split; intros v; [intros ?; lia|intros w ?; lia]. }
  destruct (grow_heap KHEAP_INITIAL s0) as [s1 r] eqn:Hg.
  destruct (grow_post s0 s1 [] KHEAP_INITIAL r Hr I Hg) as (Hw1 & _ & Ha). split; [done|].
  cbn [fst]. by rewrite Ha, (rep_allocated _ _ Hr).
Qed.

(** ** Live blocks *)

Lemma live_in a l p n :
  sizes_ok l → (p, n) ∈ live a l →
  a + HEADER_SIZE ≤ p ∧ p + n ≤ a + extent l ∧ 0 ≤ n ∧ (p - a) mod 8 = 0.
Proof.
  intros Hs Hin. destruct (live_elem _ _ _ _ Hin) as (l1 & l2 & -> & ->).
  apply sizes_app in Hs as [Hs1 Hs2]. apply sizes_cons in Hs2 as [[Hn Hn8] Hs2].
  pose proof (extent_nonneg _ Hs1). pose proof (extent_nonneg _ Hs2). pose proof (extent_mod8 _ Hs1).
  rewrite extent_app. simpl. unfold bsize, HEADER_SIZE in *. cbn [fst] in *.
  split_and!; [lia|lia|lia|]. clear -H2. zlia.
Qed.

Lemma live_disjoint a l i j p n q k :
  sizes_ok l → live a l !! i = Some (p, n) → live a l !! j = Some (q, k) → (i < j)%nat →
  p + n + HEADER_SIZE ≤ q.
Proof.
  revert a i j. induction l as [|[sz u] l IH]; intros a i j Hs Hi Hj Hij; [done|].
  pose proof (proj2 (proj1 (sizes_cons _ _) Hs)) as Hl.
  simpl live in *. destruct u; [|by eapply IH].
  destruct j as [|j]; [lia|]. simpl in Hj. destruct i as [|i]; simpl in Hi.
  - injection Hi as <- <-. apply list_elem_of_lookup_2 in Hj.
    destruct (live_in _ _ _ _ Hl Hj) as (Hq & _). unfold bsize, HEADER_SIZE in *. simpl in Hq. lia.
  - eapply IH; [done..|lia].
Qed.

End Invariant.

(** ** The report *)

Definition sum_sizes (used : bool) (l : list ablock) : Z :=
  foldr (λ (x : ablock) v, (if Bool.eqb x.2 used then x.1 else 0) + v) 0 l.
Definition count_free (l : list ablock) : Z :=
  foldr (λ (x : ablock) v, (if x.2 then 0 else 1) + v) 0 l.

Lemma sums_extent l :
  sizes_ok l →
  sum_sizes true l + sum_sizes false l + HEADER_SIZE * zlen l = extent l ∧
  0 ≤ sum_sizes true l ∧ 0 ≤ sum_sizes false l ∧ 0 ≤ count_free l ≤ zlen l.
Proof.
  unfold zlen, HEADER_SIZE. induction l as [|[sz u] l IH]; intros Hs; [done|].
  apply sizes_cons in Hs as [[Hx _] Hs]. destruct (IH Hs) as (H1 & H2 & H3 & H4).
  simpl in *. unfold bsize, HEADER_SIZE. simpl. destruct u; simpl; lia.
Qed.

Lemma report_loop_spec fuel p a l m e u f n k :
  0 < a → sizes_ok l → (length l ≤ fuel)%nat → seg m p a l 0 e →
  0 ≤ u → 0 ≤ f → 0 ≤ k ≤ n → u + f + 16 * n + extent l < 2 ^ 32 →
  report_loop fuel p m (u, f, n, k) =
  (u + sum_sizes true l, f + sum_sizes false l, n + zlen l, k + count_free l).
Proof.
  unfold zlen. revert fuel p a u f n k. induction l as [|[sz used] l IH]; intros fuel p a u f n k Ha Hs Hf Hseg Hu Hfr Hk Hb.
  - destruct Hseg as [-> _]. simpl. rewrite !Z.add_0_r. by destruct fuel.
  - destruct fuel as [|fuel]; [simpl in Hf; lia|]. cbn [report_loop].
    pose proof (seg_head _ _ _ _ _ _ _ Hseg) as ->.
    destruct (seg_blk _ _ _ _ _ _ Hseg) as (Hsz & Hus & Hn). rewrite Hsz, Hus, b2z_true.
    apply sizes_cons in Hs as [[Hx _] Hs]. cbn [fst snd] in *.
    pose proof (extent_nonneg l Hs). simpl extent in Hb. unfold bsize, HEADER_SIZE in *.
    cbn [fst] in *. zpow. destruct (Z.eqb_spec a 0); [lia|].
    rewrite (u32_small (n + 1)) by (zpow; lia).
    cbn [length].
    assert (0 < a + (16 + sz)) as Ha' by lia.
    destruct used; cbn [sum_sizes count_free foldr fst snd Bool.eqb].
    + rewrite (u32_small (u + sz)) by (zpow; lia).
      rewrite (IH fuel _ (a + (16 + sz))); [|done|done|simpl in Hf; lia|done|lia|lia|lia|zpow; lia].
      unfold sum_sizes, count_free. rewrite !pair_equal_spec. split_and!; lia.
    + rewrite (u32_small (f + sz)), (u32_small (k + 1)) by (zpow; lia).
      rewrite (IH fuel _ (a + (16 + sz))); [|done|done|simpl in Hf; lia|done|lia|lia|lia|zpow; lia].
      unfold sum_sizes, count_free. rewrite !pair_equal_spec. split_and!; lia.
Qed.

(** ** Properties *)

(** The heap of a two-megabyte machine, after paging is on. *)
Definition demo_heap : kheap pmm :=
  kheap_init (MkKheap (paging_init demo_boot) ∅ 0 0 0).

Lemma demo_heap_wf : kheap_wf demo_heap.
Proof.
  destruct (kheap_init_wf (MkKheap (paging_init demo_boot) ∅ 0 0 0)) as [Hw _]; [|vm_compute; done|exact Hw].
  exact demo_paging_wf.
Qed.

(** C4: [kmalloc] hands out fresh storage: on any request it keeps the heap's
    invariant and every block handed out before; a non-null result is an
    8-aligned block of at least the requested size that was not handed out, and
    a null result hands out nothing.  Translations outside the heap's growing
    end are untouched. *)
Theorem kmalloc_correct `{FrameAllocator A} (s : kheap A) size :
  kheap_wf s → 0 ≤ size ≤ 0xFFFFFFF8 →
  let '(s', p) := kmalloc size s in
  kheap_wf s' ∧ same_below s s' ∧
  (p = 0 ∧ allocated s' = allocated s ∨
   ∃ n, 0 < size ≤ n ∧ p mod 8 = 0 ∧ p ≠ 0 ∧ allocated s' ≡ₚ (p, n) :: allocated s).
Proof.
  intros Hwf Hs. unfold kmalloc. destruct (Z.eqb_spec size 0) as [->|Hne].
  - split; [done|]. split; [by split|]. by left.
  - destruct (kmalloc_need_spec size ltac:(lia)) as (Hn & Hn8 & Hge).
    pose proof (attempts_post 2 (kmalloc_need size) s Hwf ltac:(lia) Hn8) as Hp.
    destruct (kmalloc_attempts 2 _ s) as [s' p]. destruct Hp as (Hw & Hb & Hcase).
    split; [done|]. split; [done|]. destruct Hcase as [?|(n & Hn' & ?)]; [by left|right].
    exists n. split; [lia|done].
Qed.

Lemma kmalloc_correct_witness :
  (kmalloc 100 demo_heap).2 = 0xC0000010 ∧ kheap_wf (kmalloc 100 demo_heap).1.
Proof.
  split; [vm_compute; reflexivity|].
  pose proof (kmalloc_correct demo_heap 100 demo_heap_wf ltac:(lia)) as Hk.
  destruct (kmalloc 100 demo_heap) as [s' p]. exact (proj1 Hk).
Defined.

(** C17: [kfree] of an allocated block gives exactly that block back, keeps the
    others and the invariant (so no two free blocks are left side by side), and
    neither moves the heap's end nor touches the page tables. *)
Theorem kfree_correct `{FrameAllocator A} (s : kheap A) p n :
  kheap_wf s → (p, n) ∈ allocated s →
  let s' := kfree p s in
  kheap_wf s' ∧ allocated s ≡ₚ (p, n) :: allocated s' ∧
  no_adjacent (chain s') ∧ heap_end s' = heap_end s ∧ kh_paging s' = kh_paging s.
Proof.
  intros Hwf Hin s'. destruct (kfree_post s p n Hwf Hin) as (Hw & Hp & He & Hpg).
  split; [done|]. split; [done|]. split; [apply Hw|done].
Qed.

Lemma kfree_correct_witness :
  (0xC0000010, 104) ∈ allocated (kmalloc 100 demo_heap).1 ∧
  kheap_wf (kfree 0xC0000010 (kmalloc 100 demo_heap).1).
Proof.
  assert (allocated (kmalloc 100 demo_heap).1 = [(0xC0000010, 104)]) as E by (vm_compute; reflexivity).
  assert ((0xC0000010, 104) ∈ allocated (kmalloc 100 demo_heap).1) as Hin by (rewrite E; left).
  split; [exact Hin|].
  pose proof (attempts_post 2 (kmalloc_need 100) demo_heap demo_heap_wf ltac:(vm_compute; congruence)
    ltac:(vm_compute; reflexivity)) as Hk.
  assert (kheap_wf (kmalloc 100 demo_heap).1) as Hw.
  { unfold kmalloc. change (100 =? 0) with false. cbv iota.
    destruct (kmalloc_attempts 2 (kmalloc_need 100) demo_heap). exact (proj1 Hk). }
  exact (proj1 (kfree_correct (kmalloc 100 demo_heap).1 0xC0000010 104 Hw Hin)).
Defined.

(** Allocated blocks are real, separate storage: each lies inside the heap,
    is 8-aligned, two different ones never overlap (a header's room lies
    between them), and each page under a block is mapped writable to a frame of
    its own that the allocator will not hand out and that holds no page table. *)
Theorem allocated_separate `{FrameAllocator A} (s : kheap A) :
  kheap_wf s →
  (∀ p n, (p, n) ∈ allocated s →
     p mod 8 = 0 ∧ KHEAP_BASE < p ∧ p + n ≤ heap_end s ∧
     ∀ a, p ≤ a < p + n → let f := paging_get_phys (page_of a) (kh_paging s) in
       ¬ owned_frame (kh_paging s) f ∧
       pte (kh_paging s) (page_of a) = Some (pte_value f (PAGE_PRESENT ||| PAGE_WRITE))) ∧
  (∀ i j p n q k, allocated s !! i = Some (p, n) → allocated s !! j = Some (q, k) → (i < j)%nat →
     p + n + HEADER_SIZE ≤ q) ∧
  (∀ v w, KHEAP_BASE ≤ v < heap_end s → KHEAP_BASE ≤ w < heap_end s →
     v mod 4096 = 0 → w mod 4096 = 0 →
     paging_get_phys v (kh_paging s) = paging_get_phys w (kh_paging s) → v = w).
Proof.
  intros [Hr Hadj]. rewrite (rep_allocated _ _ Hr). destruct (rep_bounds _ _ Hr) as (Hend & _).
  split_and!.
  - intros p n Hin. destruct (live_in _ _ _ _ (kr_sizes _ _ Hr) Hin) as (H1 & H2 & H3 & H4).
    unfold KHEAP_BASE, HEADER_SIZE in *.
    split_and!; [clear -H4; zlia|lia|lia|]. intros a Ha.
    destruct (bk_map _ _ _ (kr_backed _ _ Hr) (page_of a)) as (_ & _ & ? & ?);
      [unfold page_of, KHEAP_BASE; pose proof (kr_end _ _ Hr) as [? _];
       clear -Ha H1 H2 Hend H0; zlia|unfold page_of; clear; zlia|done].
  - intros i j p n q k. apply live_disjoint. apply (kr_sizes _ _ Hr).
  - apply (bk_inj _ _ _ (kr_backed _ _ Hr)).
Qed.

Lemma allocated_separate_witness :
  kheap_wf demo_heap ∧
  ∀ v w, KHEAP_BASE ≤ v < heap_end demo_heap → KHEAP_BASE ≤ w < heap_end demo_heap →
     v mod 4096 = 0 → w mod 4096 = 0 →
     paging_get_phys v (kh_paging demo_heap) = paging_get_phys w (kh_paging demo_heap) → v = w.
Proof.
  split; [exact demo_heap_wf|].
  exact (proj2 (proj2 (allocated_separate demo_heap demo_heap_wf))).
Defined.

(** [kmalloc] gives up only when it must: a null result for a non-zero
    request means that no free block was big enough and that growing has left
    at most one free frame in the machine. *)
Theorem kmalloc_null `{FrameAllocator A} (s s' : kheap A) size :
  kheap_wf s → 0 < size < 2 ^ 32 - 8208 → kmalloc size s = (s', 0) →
  Forall (λ x, x.2 = true ∨ x.1 < kmalloc_need size) (chain s) ∧ frames_left s' ≤ 1.
Proof.
  intros Hwf Hs. unfold kmalloc. destruct (Z.eqb_spec size 0); [lia|]. intros Hk.
  destruct (kmalloc_need_spec size ltac:(lia)) as (Hn & Hn8 & Hge).
  destruct (attempts_null (kmalloc_need size) s s' Hwf) as [Hf Hl]; [lia|done|done|].
  split; [by apply first_fit_None|done].
Qed.

Lemma kmalloc_null_witness :
  (kmalloc 0x200000 demo_heap).2 = 0 ∧ frames_left (kmalloc 0x200000 demo_heap).1 ≤ 1.
Proof.
  assert ((kmalloc 0x200000 demo_heap).2 = 0) as Hp by (vm_compute; reflexivity).
  split; [exact Hp|].
  exact (proj2 (kmalloc_null demo_heap (kmalloc 0x200000 demo_heap).1 0x200000 demo_heap_wf
    ltac:(lia) (eq_trans (surjective_pairing _) (f_equal (pair _) Hp)))).
Defined.

(** The rounding [(size + 7) & ~7] wraps for the seven largest sizes: [kmalloc]
    then succeeds with a block of no bytes at all. *)
Lemma kmalloc_need_wraps size : 0xFFFFFFF9 ≤ size < 2 ^ 32 → kmalloc_need size = 0.
Proof.
  intros Hs. unfold kmalloc_need. zpow.
  assert (size = 0xFFFFFFF9 ∨ size = 0xFFFFFFFA ∨ size = 0xFFFFFFFB ∨ size = 0xFFFFFFFC ∨
    size = 0xFFFFFFFD ∨ size = 0xFFFFFFFE ∨ size = 0xFFFFFFFF) as Hc by lia.
  by destruct Hc as [-> |[-> |[-> |[-> |[-> |[-> | ->]]]]]].
Qed.

Lemma kmalloc_wraps_demo :
  (kmalloc 0xFFFFFFFF demo_heap).2 = 0xC0000010 ∧
  allocated (kmalloc 0xFFFFFFFF demo_heap).1 = [(0xC0000010, 0)].
Proof. split; vm_compute; reflexivity. Qed.

(** The heap report tells the truth: the used and free bytes it prints are
    the sizes of the allocated and free blocks, the block counts are right, and
    together with the headers they make up all the mapped memory. *)
Theorem kheap_report_adds_up `{FrameAllocator A} (s : kheap A) :
  kheap_wf s →
  let '(used, freeb, nblocks, nfree) :=
    report_loop (heap_fuel (heap_base s) (heap_end s)) (head s) (kh_mem s) (0, 0, 0, 0) in
  used = sum_sizes true (chain s) ∧ freeb = sum_sizes false (chain s) ∧
  nblocks = zlen (chain s) ∧ nfree = count_free (chain s) ∧
  used + freeb + HEADER_SIZE * nblocks = heap_end s - heap_base s.
Proof.
  intros [Hr _]. destruct (rep_bounds _ _ Hr) as (Hend & Hlt & Hf).
  pose proof Hr as [Hb _ Hseg Hs _ _ _]. destruct (sums_extent _ Hs) as (Hsum & _).
  unfold KHEAP_BASE in *. zpow.
  rewrite (report_loop_spec _ _ 0xC0000000 (chain s) _ (heap_end s)) by (done || (zpow; lia)).
  split_and!; lia.
Qed.

Lemma kheap_report_adds_up_witness :
  kheap_wf demo_heap ∧
  let '(used, freeb, nblocks, nfree) :=
    report_loop (heap_fuel (heap_base demo_heap) (heap_end demo_heap)) (head demo_heap)
      (kh_mem demo_heap) (0, 0, 0, 0) in
  used = sum_sizes true (chain demo_heap) ∧ freeb = sum_sizes false (chain demo_heap) ∧
  nblocks = zlen (chain demo_heap) ∧ nfree = count_free (chain demo_heap) ∧
  used + freeb + HEADER_SIZE * nblocks = heap_end demo_heap - heap_base demo_heap.
Proof. split; [exact demo_heap_wf|exact (kheap_report_adds_up demo_heap demo_heap_wf)]. Defined.
