(* ===== verification/Heaps.v ===== *)
(** The interface between the kernel heap (mm/kheap.c) and its clients
    (sched/sched.c): storage that is fresh and separate from all storage handed
    out before.  [Kheap] discharges the laws. *)
From Stdlib Require Import ZArith Lia.
From stdpp Require Import base numbers list.
From S2P Require Import Prelude Frames Kheap.

#[local] Open Scope Z_scope.

Class HeapAllocator (B : Type) := {
  (** [kmalloc]: the new state and an address, 0 when there is no memory. *)
  hp_alloc : Z → B → B * Z;
  (** [kfree] *)
  hp_free : Z → B → B;
  hp_inv : B → Prop;
  (** The blocks handed out: address and size. *)
  hp_live : B → list (Z * Z);

  hp_alloc_ok b b' size p :
    hp_inv b → 0 ≤ size ≤ 0xFFFFFFF8 → hp_alloc size b = (b', p) →
    hp_inv b' ∧
    (p = 0 ∧ hp_live b' = hp_live b ∨
     p ≠ 0 ∧ ∃ n, size ≤ n ∧ hp_live b' ≡ₚ (p, n) :: hp_live b);
  hp_free_ok b p n :
    hp_inv b → (p, n) ∈ hp_live b →
    hp_inv (hp_free p b) ∧ (p, n) :: hp_live (hp_free p b) ≡ₚ hp_live b;
  hp_bounds b p n :
    hp_inv b → (p, n) ∈ hp_live b → p mod 8 = 0 ∧ 0xC0000000 < p ∧ 0 ≤ n ∧ p + n < 2 ^ 32;
  hp_separate b i j p n q k :
    hp_inv b → hp_live b !! i = Some (p, n) → hp_live b !! j = Some (q, k) → (i < j)%nat →
    p + n < q
}.

Section Instance.
Context {A : Type} `{FrameAllocator A}.

#[export] Program Instance kheap_allocator : HeapAllocator (kheap A) := {|
  hp_alloc := kmalloc;
  hp_free := kfree;
  hp_inv := kheap_wf;
  hp_live := allocated
|}.
Next Obligation.
  intros b b' size p Hwf Hs Hk. unfold kmalloc in Hk. destruct (Z.eqb_spec size 0) as [->|Hne].
  - injection Hk as <- <-. split; [done|by left].
  - destruct (kmalloc_need_spec size ltac:(lia)) as (Hn & Hn8 & Hge).
    pose proof (attempts_post 2 (kmalloc_need size) b Hwf ltac:(lia) Hn8) as Hp.
    rewrite Hk in Hp. destruct Hp as (Hw & _ & Hcase). split; [done|].
    destruct Hcase as [?|(n & Hn' & _ & Hp0 & Hperm)]; [by left|right].
    split; [done|]. exists n. split; [lia|done].
Qed.
Next Obligation. intros b p n Hwf Hin. by destruct (kfree_post b p n Hwf Hin) as (? & ? & _). Qed.
Next Obligation.
  intros b p n [Hr Hadj] Hin. rewrite (rep_allocated _ _ Hr) in Hin.
  destruct (live_in _ _ _ _ (kr_sizes _ _ Hr) Hin) as (H1 & H2 & H3 & H4).
  destruct (rep_bounds _ _ Hr) as (Hend & Hlt & _). unfold KHEAP_BASE, HEADER_SIZE in *.
  split_and!; [clear -H4; zlia|lia|lia|lia].
Qed.
Next Obligation.
  intros b i j p n q k [Hr Hadj] Hi Hj Hij. rewrite (rep_allocated _ _ Hr) in Hi, Hj.
  pose proof (live_disjoint _ _ _ _ _ _ _ _ (kr_sizes _ _ Hr) Hi Hj Hij).
  unfold HEADER_SIZE in *. lia.
Qed.

End Instance.

Section Clients.
Context {B : Type} `{HeapAllocator B}.

Lemma hp_disjoint b p n q k :
  hp_inv b → (p, n) ∈ hp_live b → (q, k) ∈ hp_live b → p ≠ q → p + n < q ∨ q + k < p.
Proof.
  intros Hi [i Hp]%list_elem_of_lookup [j Hq]%list_elem_of_lookup Hne.
  destruct (Nat.lt_trichotomy i j) as [Hij|[->|Hij]].
  - left. by apply (hp_separate b i j p n q k).
  - congruence.
  - right. by apply (hp_separate b j i q k p n).
Qed.

(** A new block is at an address no live block has. *)
Lemma hp_alloc_fresh b b' size p :
  hp_inv b → 0 ≤ size ≤ 0xFFFFFFF8 → hp_alloc size b = (b', p) → p ≠ 0 →
  hp_inv b' ∧ ∃ n, size ≤ n ∧ (p, n) ∈ hp_live b' ∧
    (∀ q k, (q, k) ∈ hp_live b' ↔ (q, k) = (p, n) ∨ (q, k) ∈ hp_live b) ∧
    (∀ k, (p, k) ∉ hp_live b).
Proof.
  intros Hi Hs Ha Hp. destruct (hp_alloc_ok _ _ _ _ Hi Hs Ha) as [Hi' [[? _]|(_ & n & Hn & Hperm)]];
    [done|].
  split; [done|]. exists n.
  assert (∀ q k, (q, k) ∈ hp_live b' ↔ (q, k) = (p, n) ∨ (q, k) ∈ hp_live b) as Hel.
  { intros q k. rewrite Hperm. apply elem_of_cons. }
  split_and!; [done| |done|]; [apply Hel; by left|].
  intros k Hk. apply list_elem_of_lookup in Hk as [j Hj].
  symmetry in Hperm. apply Permutation_inj in Hperm as (_ & f & Hf & Hlook).
  pose proof (Hlook 0%nat) as H0. pose proof (Hlook (Datatypes.S j)) as H1.
  simpl in H0, H1. rewrite Hj in H1.
  assert (f 0%nat ≠ f (Datatypes.S j)) as Hne by (intros E; by apply Hf in E).
  destruct (Nat.lt_trichotomy (f 0%nat) (f (Datatypes.S j))) as [Hlt|[E|Hlt]]; [| done |].
  - pose proof (hp_separate b' _ _ p n p k Hi' (eq_sym H0) (eq_sym H1) Hlt). lia.
  - pose proof (hp_separate b' _ _ p k p n Hi' (eq_sym H1) (eq_sym H0) Hlt). 
    assert ((p, k) ∈ hp_live b') as Hin by (apply Hel; right; by eapply list_elem_of_lookup_2).
    pose proof (hp_bounds b' p k Hi' Hin). lia.
Qed.

End Clients.
