(* ===== verification/Sched.v ===== *)
(** Scheduler: sched/sched.c and sched/switch.asm, the round-robin ring of kernel
    threads and the context switch, with the registers and the stack words the
    switch moves.  Storage comes from the [Heaps] interface. *)
From Stdlib Require Import ZArith Lia Bool.
From stdpp Require Import base numbers gmap option list.
From S2P Require Import Prelude Pmm Kheap Heaps.

#[local] Open Scope Z_scope.
#[local] Open Scope c_scope.

Definition STACK_SIZE : Z := 8192.
(** [sizeof(task_t)] on i386: ten 32-bit fields. *)
Definition SIZEOF_TASK : Z := 40.
Definition BOOT_STACK_TOP : Z := 0x90000.

(** [struct task]; pointers and function pointers are 32-bit addresses. *)
Record task_t := Task {
  t_esp : Z;
  t_id : Z;
  t_name : Z;
  t_state : Z;
  t_entry : Z;
  t_arg : Z;
  t_stack : Z;
  t_kstack_top : Z;
  t_counter : Z;
  t_next : Z
}.

(** The registers a context switch deals with. *)
Record cpu := Cpu {
  r_esp : Z;
  r_ebp : Z;
  r_ebx : Z;
  r_esi : Z;
  r_edi : Z;
  r_eflags : Z;
  r_eip : Z
}.

(** The module's statics, the TCBs by address, the TSS field it sets, the
    registers, the stack words, and the heap. *)
Record sched (B : Type) := MkSched {
  tasks : gmap Z task_t;
  current : Z;
  next_id : Z;
  ntasks : Z;
  tss_esp0 : Z;
  regs : cpu;
  words : gmap Z Z;
  sched_heap : B
}.
Arguments MkSched {B}.
Arguments tasks {B}. Arguments current {B}. Arguments next_id {B}. Arguments ntasks {B}.
Arguments tss_esp0 {B}. Arguments regs {B}. Arguments words {B}. Arguments sched_heap {B}.

Definition no_task : task_t := Task 0 0 0 0 0 0 0 0 0 0.
Definition task_at (m : gmap Z task_t) (a : Z) : task_t := default no_task (m !! a).

(** Assignments [t->esp = v], [t->next = v], [t->state = v]. *)
Definition set_esp (a v : Z) (m : gmap Z task_t) : gmap Z task_t :=
  let t := task_at m a in
  <[a := Task v (t_id t) (t_name t) (t_state t) (t_entry t) (t_arg t) (t_stack t)
              (t_kstack_top t) (t_counter t) (t_next t)]> m.
Definition set_next (a v : Z) (m : gmap Z task_t) : gmap Z task_t :=
  let t := task_at m a in
  <[a := Task (t_esp t) (t_id t) (t_name t) (t_state t) (t_entry t) (t_arg t) (t_stack t)
              (t_kstack_top t) (t_counter t) v]> m.
Definition set_state (a v : Z) (m : gmap Z task_t) : gmap Z task_t :=
  let t := task_at m a in
  <[a := Task (t_esp t) (t_id t) (t_name t) v (t_entry t) (t_arg t) (t_stack t)
              (t_kstack_top t) (t_counter t) (t_next t)]> m.

(** ** switch.asm *)

(** [push v] and [pop], on registers and stack words. *)
Definition push (v : Z) (cw : cpu * gmap Z Z) : cpu * gmap Z Z :=
  let '(c, w) := cw in
  let sp := u32 (r_esp c - 4) in
  (Cpu sp (r_ebp c) (r_ebx c) (r_esi c) (r_edi c) (r_eflags c) (r_eip c), st w sp v).

Definition top (c : cpu) (w : gmap Z Z) (off : Z) : Z := ld w (u32 (r_esp c + off)).

(** The call [context_switch(&old->esp, new_esp)] from code that continues at
    [ret]: the arguments and the return address are pushed, then the body of
    the routine runs.  [*old_esp] is the saved stack pointer of the TCB [old]. *)
Definition context_switch (ret old new_esp : Z) (c : cpu) (w : gmap Z Z) (m : gmap Z task_t)
    : cpu * gmap Z Z * gmap Z task_t :=
  (* the call *)
  let '(c, w) := push ret (push old (push new_esp (c, w))) in
  (* push ebp; push ebx; push esi; push edi; pushfd *)
  let '(c, w) := push (r_eflags c) (push (r_edi c) (push (r_esi c)
                   (push (r_ebx c) (push (r_ebp c) (c, w))))) in
  (* mov eax, [esp+24]; mov [eax], esp; mov eax, [esp+28]; mov esp, eax *)
  let m := set_esp (top c w 24) (r_esp c) m in
  let sp := top c w 28 in
  (* popfd; pop edi; pop esi; pop ebx; pop ebp; ret *)
  (Cpu (u32 (sp + 24)) (ld w (u32 (sp + 16))) (ld w (u32 (sp + 12))) (ld w (u32 (sp + 8)))
       (ld w (u32 (sp + 4))) (ld w (u32 sp)) (ld w (u32 (sp + 20))), w, m).

(** Interrupt-enable flag, [pushf; pop; cli] and [push; popf]. *)
Definition IF_BIT : Z := 0x200.
Definition set_eflags (v : Z) (c : cpu) : cpu :=
  Cpu (r_esp c) (r_ebp c) (r_ebx c) (r_esi c) (r_edi c) v (r_eip c).
Definition irq_save (c : cpu) : cpu * Z :=
  (set_eflags (r_eflags c &&& u32_not IF_BIT) c, r_eflags c).
Definition irq_restore (flags : Z) (c : cpu) : cpu := set_eflags flags c.

Section Sched.
Context {B : Type} `{HeapAllocator B}.

Definition with_regs (c : cpu) (s : sched B) : sched B :=
  MkSched (tasks s) (current s) (next_id s) (ntasks s) (tss_esp0 s) c (words s) (sched_heap s).

Definition sched_current (s : sched B) : Z := current s.
Definition sched_count (s : sched B) : Z := ntasks s.

(** [kmain] is the address of the boot task's name. *)
Definition sched_init (kmain : Z) (s : sched B) : sched B :=
  let '(h, t) := hp_alloc SIZEOF_TASK (sched_heap s) in
  MkSched (<[t := Task 0 (next_id s) kmain 0 0 0 0 BOOT_STACK_TOP 0 t]> (tasks s))
    t (u32 (next_id s + 1)) 1 (tss_esp0 s) (regs s) (words s) h.

(** The six words [task_spawn] stores below the top of a new stack;
    [bootstrap] is the address of [task_bootstrap]. *)
Definition craft_stack (bootstrap kstack_top : Z) (w : gmap Z Z) : gmap Z Z * Z :=
  let sp := u32 (kstack_top - 4) in let w := st w sp bootstrap in
  let sp := u32 (sp - 4) in let w := st w sp 0 in
  let sp := u32 (sp - 4) in let w := st w sp 0 in
  let sp := u32 (sp - 4) in let w := st w sp 0 in
  let sp := u32 (sp - 4) in let w := st w sp 0 in
  let sp := u32 (sp - 4) in let w := st w sp 0x202 in
  (w, sp).

Definition task_spawn (bootstrap entry arg name : Z) (s : sched B) : sched B * Z :=
  let '(h, t) := hp_alloc SIZEOF_TASK (sched_heap s) in
  let '(h, stack) := hp_alloc STACK_SIZE h in
  let kstack_top := u32 (stack + STACK_SIZE) in
  let '(w, sp) := craft_stack bootstrap kstack_top (words s) in
  let m := <[t := Task sp (next_id s) name 0 entry arg stack kstack_top 0
                    (t_next (task_at (tasks s) t))]> (tasks s) in
  let '(c, flags) := irq_save (regs s) in
  let m := set_next t (t_next (task_at m (current s))) m in
  let m := set_next (current s) t m in
  (MkSched m (current s) (u32 (next_id s + 1)) (u32 (ntasks s + 1)) (tss_esp0 s)
     (irq_restore flags c) w h, t).

(** [while (t->state != 0 && t != current) t = t->next;], fuel by the number of
    TCBs. *)
Fixpoint pick_loop (fuel : nat) (t cur : Z) (m : gmap Z task_t) : Z :=
  match fuel with
  | O => t
  | S fuel =>
      if c_true (t_state (task_at m t)) && negb (t =? cur)
      then pick_loop fuel (t_next (task_at m t)) cur m else t
  end.

Definition pick_next (s : sched B) : Z :=
  pick_loop (size (tasks s)) (t_next (task_at (tasks s) (current s))) (current s) (tasks s).

(** [switch_to]: [ret] is the address the task resumes at. *)
Definition switch_to (ret next : Z) (s : sched B) : sched B :=
  let prev := current s in
  let '(c, w, m) := context_switch ret prev (t_esp (task_at (tasks s) next))
                      (regs s) (words s) (tasks s) in
  MkSched m next (next_id s) (ntasks s) (t_kstack_top (task_at (tasks s) next)) c w (sched_heap s).

Definition sched_tick (ret : Z) (s : sched B) : sched B :=
  if current s =? 0 then s
  else
    let next := pick_next s in
    if negb (next =? current s) then switch_to ret next s else s.

(** [task_yield] up to the point where the caller is running again; the flags
    it restores then are its own local, returned here. *)
Definition task_yield (ret : Z) (s : sched B) : sched B * Z :=
  let '(c, flags) := irq_save (regs s) in
  let s := with_regs c s in
  let next := pick_next s in
  if negb (next =? current s) then (switch_to ret next s, flags)
  else (with_regs (irq_restore flags (regs s)) s, flags).

(** What [task_bootstrap] calls: the entry point and its argument. *)
Definition task_bootstrap (s : sched B) : Z * Z :=
  let self := task_at (tasks s) (current s) in (t_entry self, t_arg self).

(** [while (p->next != current) p = p->next;] *)
Fixpoint unlink_loop (fuel : nat) (p cur : Z) (m : gmap Z task_t) : Z :=
  match fuel with
  | O => p
  | S fuel => if t_next (task_at m p) =? cur then p
              else unlink_loop fuel (t_next (task_at m p)) cur m
  end.

Definition task_exit (ret : Z) (s : sched B) : sched B :=
  let c := set_eflags (r_eflags (regs s) &&& u32_not IF_BIT) (regs s) in
  let m := set_state (current s) 1 (tasks s) in
  let p := unlink_loop (size m) (current s) (current s) m in
  let m := set_next p (t_next (task_at m (current s))) m in
  let n := u32 (ntasks s - 1) in
  let dead := current s in
  let cur := t_next (task_at m (current s)) in
  let esp0 := t_kstack_top (task_at m cur) in
  let '(c, w, m) := context_switch ret dead (t_esp (task_at m cur)) c (words s) m in
  MkSched m cur (next_id s) n esp0 c w (sched_heap s).

End Sched.

(** ** TCB updates *)

Lemma task_at_insert m a t b : task_at (<[a := t]> m) b = if decide (a = b) then t else task_at m b.
Proof. unfold task_at. destruct (decide (a = b)) as [->|]; by simplify_map_eq. Qed.

(** Each update changes one field of one TCB. *)
Lemma set_esp_fields a v m b :
  t_next (task_at (set_esp a v m) b) = t_next (task_at m b) ∧
  t_state (task_at (set_esp a v m) b) = t_state (task_at m b) ∧
  t_stack (task_at (set_esp a v m) b) = t_stack (task_at m b) ∧
  t_kstack_top (task_at (set_esp a v m) b) = t_kstack_top (task_at m b) ∧
  t_esp (task_at (set_esp a v m) b) = if decide (a = b) then v else t_esp (task_at m b).
Proof. unfold set_esp. rewrite task_at_insert. destruct (decide (a = b)) as [->|]; done. Qed.

Lemma set_next_fields a v m b :
  t_next (task_at (set_next a v m) b) = (if decide (a = b) then v else t_next (task_at m b)) ∧
  t_state (task_at (set_next a v m) b) = t_state (task_at m b) ∧
  t_stack (task_at (set_next a v m) b) = t_stack (task_at m b) ∧
  t_kstack_top (task_at (set_next a v m) b) = t_kstack_top (task_at m b) ∧
  t_esp (task_at (set_next a v m) b) = t_esp (task_at m b).
Proof. unfold set_next. rewrite task_at_insert. destruct (decide (a = b)) as [->|]; done. Qed.

Lemma set_state_fields a v m b :
  t_next (task_at (set_state a v m) b) = t_next (task_at m b) ∧
  t_state (task_at (set_state a v m) b) = (if decide (a = b) then v else t_state (task_at m b)) ∧
  t_stack (task_at (set_state a v m) b) = t_stack (task_at m b) ∧
  t_kstack_top (task_at (set_state a v m) b) = t_kstack_top (task_at m b) ∧
  t_esp (task_at (set_state a v m) b) = t_esp (task_at m b).
Proof. unfold set_state. rewrite task_at_insert. destruct (decide (a = b)) as [->|]; done. Qed.

Lemma set_some {f : Z → Z → gmap Z task_t → gmap Z task_t} a v m b :
  (∀ a v m, ∃ t, f a v m = <[a := t]> m) → is_Some (m !! b) → is_Some (f a v m !! b).
Proof. intros Hf Hs. destruct (Hf a v m) as [t ->]. apply lookup_insert_is_Some'. by right. Qed.

(** ** The ring *)

(** Following [next] from the head of [l] visits [l] and then [e]. *)
Fixpoint linked (m : gmap Z task_t) (l : list Z) (e : Z) : Prop :=
  match l with
  | [] => True
  | a :: l => t_next (task_at m a) = hd e l ∧ linked m l e
  end.

Lemma linked_app m l1 l2 e : linked m (l1 ++ l2) e ↔ linked m l1 (hd e l2) ∧ linked m l2 e.
Proof.
  induction l1 as [|a l1 IH]; simpl; [tauto|]. rewrite IH.
  assert (hd e (l1 ++ l2) = hd (hd e l2) l1) as -> by (by destruct l1). tauto.
Qed.

Lemma linked_ext m m' l e :
  (∀ a, a ∈ l → t_next (task_at m' a) = t_next (task_at m a)) → linked m l e → linked m' l e.
Proof.
  induction l as [|a l IH]; simpl; [done|]. intros Hm [Ha Hl].
  rewrite Hm by left. split; [done|]. apply IH; [|done]. intros b Hb. apply Hm. by right.
Qed.

Lemma linked_rotate m c b l : linked m (c :: b :: l) c → linked m ((b :: l) ++ [c]) b.
Proof. intros [Hc Hl]. apply linked_app. by split_and!. Qed.

(** Redirecting the last link. *)
Lemma linked_set_last m l p e e' :
  NoDup (l ++ [p]) → linked m (l ++ [p]) e → linked (set_next p e' m) (l ++ [p]) e'.
Proof.
  intros Hnd [Hl Hp]%linked_app. apply linked_app. simpl in *.
  apply NoDup_app in Hnd as (_ & Hnin & _). split.
  - eapply linked_ext; [|exact Hl]. intros a Ha.
    destruct (set_next_fields p e' m a) as [-> _]. destruct (decide (p = a)) as [->|]; [|done].
    exfalso. apply (Hnin a Ha). by left.
  - split; [|done]. destruct (set_next_fields p e' m p) as [-> _]. by rewrite decide_True.
Qed.

Lemma unlink_loop_spec fuel m a l cur :
  linked m (a :: l) cur → cur ∉ l → (length l < fuel)%nat →
  ∃ l1, a :: l = l1 ++ [unlink_loop fuel a cur m].
Proof.
  revert fuel a. induction l as [|b l IH]; intros fuel a Hl Hn Hf;
    (destruct fuel as [|fuel]; [simpl in Hf; lia|]); cbn [unlink_loop].
  - destruct Hl as [Ha _]. simpl in Ha. rewrite Ha, Z.eqb_refl. by exists [].
  - destruct Hl as [Ha Hl]. simpl in Ha. rewrite Ha.
    destruct (Z.eqb_spec b cur) as [->|Hne]; [exfalso; apply Hn; left|].
    destruct (IH fuel b Hl) as [l1 ->]; [intros ?; apply Hn; by right|simpl in Hf; lia|].
    by exists (a :: l1).
Qed.

Lemma ring_size m (l : list Z) : NoDup l → (∀ a, a ∈ l → is_Some (m !! a)) → (length l ≤ size (m : gmap Z task_t))%nat.
Proof.
  intros Hnd Hin. rewrite <- size_dom, <- (size_list_to_set (C := gset Z) l Hnd).
  apply subseteq_size. intros a Ha%elem_of_list_to_set. apply elem_of_dom. by apply Hin.
Qed.

(** ** The context switch *)

(** The six words at [sp] hold the registers [c] resumes with. *)
Definition frame_in (w : gmap Z Z) (sp : Z) (c : cpu) : Prop :=
  ld w sp = r_eflags c ∧ ld w (sp + 4) = r_edi c ∧ ld w (sp + 8) = r_esi c ∧
  ld w (sp + 12) = r_ebx c ∧ ld w (sp + 16) = r_ebp c ∧ ld w (sp + 20) = r_eip c ∧
  r_esp c = sp + 24.

(** What a task switched out at [ret] resumes with: its own registers, the two
    arguments of the call still on its stack. *)
Definition suspended (ret : Z) (c : cpu) : cpu :=
  Cpu (r_esp c - 8) (r_ebp c) (r_ebx c) (r_esi c) (r_edi c) (r_eflags c) ret.

Lemma frame_in_ext w w' sp c :
  (∀ a, sp ≤ a < sp + 24 → ld w' a = ld w a) → frame_in w sp c → frame_in w' sp c.
Proof. intros Hw (? & ? & ? & ? & ? & ? & ?). unfold frame_in. rewrite !Hw by lia. done. Qed.

Lemma push_cpu v e ebp ebx esi edi fl ip w :
  push v (Cpu e ebp ebx esi edi fl ip, w) =
  (Cpu (u32 (e - 4)) ebp ebx esi edi fl ip, st w (u32 (e - 4)) v).
Proof. done. Qed.

#[local] Arguments push : simpl never.

Lemma context_switch_spec ret old new_esp c w m f :
  32 ≤ r_esp c < 2 ^ 32 → 0 ≤ new_esp → new_esp + 24 < 2 ^ 32 →
  frame_in w new_esp f → new_esp + 24 ≤ r_esp c - 32 ∨ r_esp c ≤ new_esp →
  ∃ w', context_switch ret old new_esp c w m = (f, w', set_esp old (r_esp c - 32) m) ∧
    frame_in w' (r_esp c - 32) (suspended ret c) ∧
    ∀ a, a < r_esp c - 32 ∨ r_esp c ≤ a → ld w' a = ld w a.
Proof.
  intros He Hn0 Hn Hf Hdis. destruct c as [e ebp ebx esi edi fl ip]. cbn [r_esp] in *. zpow.
  unfold context_switch. rewrite !push_cpu. cbn [r_esp r_ebp r_ebx r_esi r_edi r_eflags r_eip].
  unfold top. cbn [r_esp].
  rewrite (u32_small (e - 4)), (u32_small (e - 4 - 4)), (u32_small (e - 4 - 4 - 4)),
    (u32_small (e - 4 - 4 - 4 - 4)), (u32_small (e - 4 - 4 - 4 - 4 - 4)),
    (u32_small (e - 4 - 4 - 4 - 4 - 4 - 4)), (u32_small (e - 4 - 4 - 4 - 4 - 4 - 4 - 4)),
    (u32_small (e - 4 - 4 - 4 - 4 - 4 - 4 - 4 - 4)) by (zpow; lia).
  replace (e - 4 - 4 - 4 - 4 - 4 - 4 - 4 - 4) with (e - 32) by lia.
  replace (e - 4 - 4 - 4 - 4 - 4 - 4 - 4) with (e - 28) by lia.
  replace (e - 4 - 4 - 4 - 4 - 4 - 4) with (e - 24) by lia.
  replace (e - 4 - 4 - 4 - 4 - 4) with (e - 20) by lia.
  replace (e - 4 - 4 - 4 - 4) with (e - 16) by lia.
  replace (e - 4 - 4 - 4) with (e - 12) by lia. replace (e - 4 - 4) with (e - 8) by lia.
  set (w' := st (st (st (st (st (st (st (st w _ _) _ _) _ _) _ _) _ _) _ _) _ _) _ _).
  assert (∀ a, a < e - 32 ∨ e ≤ a → ld w' a = ld w a) as Hout.
  { intros a Ha. unfold w'. rewrite !ld_st_ne by lia. done. }
  assert (ld w' (u32 (e - 32 + 24)) = old) as ->.
  { rewrite u32_small by (zpow; lia). replace (e - 32 + 24) with (e - 8) by lia.
    unfold w'. rewrite !ld_st_ne by lia. by rewrite ld_st_eq. }
  assert (ld w' (u32 (e - 32 + 28)) = new_esp) as ->.
  { rewrite u32_small by (zpow; lia). replace (e - 32 + 28) with (e - 4) by lia.
    unfold w'. rewrite !ld_st_ne by lia. by rewrite ld_st_eq. }
  exists w'. destruct Hf as (F1 & F2 & F3 & F4 & F5 & F6 & F7).
  rewrite !u32_small by (zpow; lia). rewrite !Hout by lia.
  split_and!; [|unfold frame_in, suspended; cbn [r_esp r_ebp r_ebx r_esi r_edi r_eflags r_eip]|done].
  - rewrite F1, F2, F3, F4, F5, F6, <- F7. by destruct f.
  - replace (e - 32 + 4) with (e - 28) by lia. replace (e - 32 + 8) with (e - 24) by lia.
    replace (e - 32 + 12) with (e - 20) by lia. replace (e - 32 + 16) with (e - 16) by lia.
    replace (e - 32 + 20) with (e - 12) by lia.
    unfold w'. split_and!; try lia; repeat (rewrite ld_st_eq || rewrite ld_st_ne by lia); done.
Qed.

(** The crafted stack of a new task. *)
Definition fresh_regs (bootstrap kstack_top : Z) : cpu := Cpu kstack_top 0 0 0 0 0x202 bootstrap.

Lemma craft_stack_spec bootstrap top w :
  24 ≤ top < 2 ^ 32 →
  let '(w', sp) := craft_stack bootstrap top w in
  sp = top - 24 ∧ frame_in w' sp (fresh_regs bootstrap top) ∧
  ∀ a, a < top - 24 ∨ top ≤ a → ld w' a = ld w a.
Proof.
  intros Ht. zpow. unfold craft_stack.
  rewrite (u32_small (top - 4)), (u32_small (top - 4 - 4)), (u32_small (top - 4 - 4 - 4)),
    (u32_small (top - 4 - 4 - 4 - 4)), (u32_small (top - 4 - 4 - 4 - 4 - 4)),
    (u32_small (top - 4 - 4 - 4 - 4 - 4 - 4)) by (zpow; lia).
  split; [lia|]. split.
  - unfold frame_in, fresh_regs. cbn [r_esp r_ebp r_ebx r_esi r_edi r_eflags r_eip].
    replace (top - 4 - 4 - 4 - 4 - 4 - 4) with (top - 24) by lia.
    replace (top - 24 + 4) with (top - 4 - 4 - 4 - 4 - 4) by lia.
    replace (top - 24 + 8) with (top - 4 - 4 - 4 - 4) by lia.
    replace (top - 24 + 12) with (top - 4 - 4 - 4) by lia.
    replace (top - 24 + 16) with (top - 4 - 4) by lia.
    replace (top - 24 + 20) with (top - 4) by lia.
    split_and!; try lia; repeat (rewrite ld_st_eq || rewrite ld_st_ne by lia); done.
  - intros a Ha. rewrite !ld_st_ne by lia. done.
Qed.

(** ** The invariant *)

Section Invariant.
Context {B : Type} `{HeapAllocator B}.

Abbreviation tk s a := (task_at (tasks s) a).

(** The memory between a task's stack and its top: the boot stack, or a block of
    the heap. *)
Definition stack_ok (s : sched B) (a : Z) : Prop :=
  t_stack (tk s a) = 0 ∧ t_kstack_top (tk s a) = BOOT_STACK_TOP ∨
  ∃ n, STACK_SIZE ≤ n ∧ (t_stack (tk s a), n) ∈ hp_live (sched_heap s) ∧
       t_kstack_top (tk s a) = t_stack (tk s a) + STACK_SIZE.

(** [rest] are the tasks waiting, in ring order; [g] the registers each of them
    will resume with. *)
Record sched_inv (s : sched B) (rest : list Z) (g : gmap Z cpu) : Prop := {
  si_heap : hp_inv (sched_heap s);
  si_linked : linked (tasks s) (current s :: rest) (current s);
  si_nodup : NoDup (current s :: rest);
  si_count : ntasks s = u32 (zlen (current s :: rest));
  si_task a : a ∈ current s :: rest →
    is_Some (tasks s !! a) ∧ t_state (tk s a) = 0 ∧ a ≠ 0 ∧
    (∃ n, (a, n) ∈ hp_live (sched_heap s)) ∧ stack_ok s a;
  si_stacks a b : a ∈ current s :: rest → b ∈ current s :: rest →
    t_stack (tk s a) = t_stack (tk s b) → a = b;
  si_frame a : a ∈ rest →
    ∃ f, g !! a = Some f ∧ frame_in (words s) (t_esp (tk s a)) f ∧
      t_stack (tk s a) ≤ t_esp (tk s a) ∧ t_esp (tk s a) + 24 ≤ t_kstack_top (tk s a)
}.

(** The running task's stack pointer leaves room for a context switch. *)
Definition room (s : sched B) : Prop :=
  t_stack (tk s (current s)) + 32 ≤ r_esp (regs s) ≤ t_kstack_top (tk s (current s)).

Lemma stack_range s a :
  hp_inv (sched_heap s) → stack_ok s a →
  0 ≤ t_stack (tk s a) ∧ t_stack (tk s a) + STACK_SIZE ≤ t_kstack_top (tk s a) < 2 ^ 32.
Proof.
  intros Hi [[-> ->]|(n & Hn & Hin & ->)]; [done|].
  pose proof (hp_bounds _ _ _ Hi Hin) as (_ & ? & ? & ?). zpow. lia.
Qed.

Lemma stacks_disjoint s rest g a b :
  sched_inv s rest g → a ∈ current s :: rest → b ∈ current s :: rest → a ≠ b →
  t_kstack_top (tk s a) ≤ t_stack (tk s b) ∨ t_kstack_top (tk s b) ≤ t_stack (tk s a).
Proof.
  intros Hi Ha Hb Hne. pose proof (si_heap _ _ _ Hi) as Hh.
  destruct (si_task _ _ _ Hi a Ha) as (_ & _ & _ & _ & Sa).
  destruct (si_task _ _ _ Hi b Hb) as (_ & _ & _ & _ & Sb).
  assert (t_stack (tk s a) ≠ t_stack (tk s b)) as Hst by (intros E; by apply Hne, (si_stacks _ _ _ Hi)).
  unfold BOOT_STACK_TOP, STACK_SIZE in *.
  destruct Sa as [[Ea Ta]|(n & Hn & Hin & Ta)]; destruct Sb as [[Eb Tb]|(k & Hk & Hink & Tb)].
  - congruence.
  - pose proof (hp_bounds _ _ _ Hh Hink). unfold BOOT_STACK_TOP in *. lia.
  - pose proof (hp_bounds _ _ _ Hh Hin). unfold BOOT_STACK_TOP in *. lia.
  - destruct (hp_disjoint _ _ _ _ _ Hh Hin Hink Hst); unfold STACK_SIZE in *; lia.
Qed.

(** The switch itself: the target's registers come back as they were saved,
    the caller's are saved, and only the caller's stack is written. *)
Lemma switch_spec s rest g b ret c m :
  sched_inv s rest g → room s → b ∈ rest → r_esp c = r_esp (regs s) →
  ∃ f w', g !! b = Some f ∧
    context_switch ret (current s) (t_esp (tk s b)) c (words s) m =
      (f, w', set_esp (current s) (r_esp c - 32) m) ∧
    frame_in w' (r_esp c - 32) (suspended ret c) ∧
    ∀ a, a < t_stack (tk s (current s)) ∨ t_kstack_top (tk s (current s)) ≤ a → ld w' a = ld (words s) a.
Proof.
  intros Hi [Hr1 Hr2] Hb Hc. pose proof (si_nodup _ _ _ Hi) as Hnd.
  destruct (si_frame _ _ _ Hi b Hb) as (f & Hg & Hf & Hlo & Hhi).
  assert (current s ∈ current s :: rest) as Hcur by left.
  assert (b ∈ current s :: rest) as Hb' by (by right).
  destruct (si_task _ _ _ Hi _ Hcur) as (_ & _ & _ & _ & Sc).
  destruct (si_task _ _ _ Hi _ Hb') as (_ & _ & _ & _ & Sb).
  pose proof (stack_range _ _ (si_heap _ _ _ Hi) Sc) as Rc.
  pose proof (stack_range _ _ (si_heap _ _ _ Hi) Sb) as Rb.
  assert (current s ≠ b) as Hne by (intros E; apply NoDup_cons in Hnd as [Hn _]; by rewrite E in Hn).
  pose proof (stacks_disjoint _ _ _ _ _ Hi Hcur Hb' Hne) as Hd.
  unfold STACK_SIZE in *. zpow.
  destruct (context_switch_spec ret (current s) (t_esp (tk s b)) c (words s) m f) as (w' & E & Hf' & Ho);
    [zpow; lia|lia|zpow; lia|done|lia|].
  exists f, w'. split_and!; [done|done|done|]. intros a Ha. apply Ho. lia.
Qed.

(** Frames of waiting tasks survive writes to the running task's stack. *)
Lemma frame_kept s rest g a w :
  sched_inv s rest g → a ∈ rest →
  (∀ x, x < t_stack (tk s (current s)) ∨ t_kstack_top (tk s (current s)) ≤ x → ld w x = ld (words s) x) →
  ∃ f, g !! a = Some f ∧ frame_in w (t_esp (tk s a)) f ∧
    t_stack (tk s a) ≤ t_esp (tk s a) ∧ t_esp (tk s a) + 24 ≤ t_kstack_top (tk s a).
Proof.
  intros Hi Ha Hw. destruct (si_frame _ _ _ Hi a Ha) as (f & Hg & Hf & Hlo & Hhi).
  exists f. split_and!; [done| |done|done]. eapply frame_in_ext; [|exact Hf].
  intros x Hx. apply Hw.
  assert (current s ≠ a) as Hne.
  { intros E. pose proof (si_nodup _ _ _ Hi) as [Hn _]%NoDup_cons. by rewrite E in Hn. }
  destruct (stacks_disjoint _ _ _ (current s) a Hi ltac:(left) ltac:(by right) Hne); lia.
Qed.

Lemma pick_next_spec s rest g :
  sched_inv s rest g → pick_next s = hd (current s) rest.
Proof.
  intros Hi. pose proof (si_linked _ _ _ Hi) as [Hn _]. unfold pick_next. rewrite Hn.
  assert (hd (current s) rest ∈ current s :: rest) as Hin.
  { destruct rest as [|b l]; simpl; [left|right; left]. }
  destruct (si_task _ _ _ Hi _ Hin) as (_ & Hst & _).
  destruct (size (tasks s)); [done|]. cbn [pick_loop]. by rewrite Hst.
Qed.

(** Switching to the next task of the ring rotates it. *)
Lemma switch_to_inv s b l g ret :
  sched_inv s (b :: l) g → room s →
  let s' := switch_to ret b s in
  sched_inv s' (l ++ [current s]) (<[current s := suspended ret (regs s)]> g) ∧
  current s' = b ∧ g !! b = Some (regs s') ∧ tss_esp0 s' = t_kstack_top (tk s b) ∧
  tasks s' = set_esp (current s) (r_esp (regs s) - 32) (tasks s).
Proof.
  intros Hi Hroom s'. assert (b ∈ b :: l) as Hb by left.
  destruct (switch_spec s (b :: l) g b ret (regs s) (tasks s) Hi Hroom Hb eq_refl)
    as (f & w' & Hg & E & Hfr & Hout).
  unfold s', switch_to. rewrite E. cbn [current regs tss_esp0 tasks].
  pose proof (si_nodup _ _ _ Hi) as Hnd.
  assert (∀ a, a ∈ b :: l ++ [current s] ↔ a ∈ current s :: b :: l) as Hperm.
  { intros a. change (b :: l ++ [current s]) with ((b :: l) ++ [current s]).
    rewrite elem_of_app, !elem_of_cons, elem_of_nil. tauto. }
  set (m' := set_esp (current s) (r_esp (regs s) - 32) (tasks s)).
  assert (∀ a, t_next (task_at m' a) = t_next (tk s a) ∧ t_state (task_at m' a) = t_state (tk s a) ∧
    t_stack (task_at m' a) = t_stack (tk s a) ∧ t_kstack_top (task_at m' a) = t_kstack_top (tk s a) ∧
    t_esp (task_at m' a) = if decide (current s = a) then r_esp (regs s) - 32 else t_esp (tk s a))
    as Hm by (intros a; apply set_esp_fields).
  split; [|split; [reflexivity|split; [exact Hg|split; reflexivity]]]. split; cbn [sched_heap tasks current ntasks words].
  - apply Hi.
  - eapply linked_ext; [|apply linked_rotate, (si_linked _ _ _ Hi)]. intros a _. apply Hm.
  - change (NoDup ((b :: l) ++ [current s])). rewrite Permutation_app_comm. exact Hnd.
  - rewrite (si_count _ _ _ Hi). f_equal. unfold zlen. simpl. rewrite length_app. simpl. lia.
  - intros a Ha%Hperm. destruct (si_task _ _ _ Hi a Ha) as (? & ? & ? & ? & Hs).
    unfold stack_ok in *. cbn [tasks sched_heap]. destruct (Hm a) as (_ & -> & -> & -> & _).
    split; [apply lookup_insert_is_Some'; by right|]. split_and!; assumption.
  - intros a c Ha%Hperm Hc%Hperm. destruct (Hm a) as (_ & _ & -> & _).
    destruct (Hm c) as (_ & _ & -> & _). by apply (si_stacks _ _ _ Hi).
  - intros a Ha. apply elem_of_app in Ha as [Ha|Ha%list_elem_of_singleton].
    + destruct (frame_kept _ _ _ a w' Hi ltac:(by right) Hout) as (fa & Hga & ?).
      destruct (Hm a) as (_ & _ & -> & -> & ->).
      assert (current s ≠ a) as Hne.
      { intros E'. apply NoDup_cons in Hnd as [Hn _]. apply Hn. rewrite E'. by right. }
      exists fa. rewrite decide_False, lookup_insert_ne by exact Hne. split; assumption.
    + subst a. destruct (Hm (current s)) as (_ & _ & -> & -> & ->). rewrite decide_True by done.
      exists (suspended ret (regs s)). rewrite lookup_insert_eq. destruct Hroom.
      split_and!; [done|done|lia|lia].
Qed.

Lemma irq_pair c : irq_restore (irq_save c).2 (irq_save c).1 = c.
Proof. by destruct c. Qed.

Lemma with_regs_inv s rest g c : sched_inv s rest g → sched_inv (with_regs c s) rest g.
Proof. intros [H1 H2 H3 H4 H5 H6 H7]. by split. Qed.

(** A new task takes the place after the current one, with a stack that
    resumes in [task_bootstrap]. *)
Lemma task_spawn_inv s rest g bootstrap entry arg name h1 h2 t stack :
  sched_inv s rest g →
  hp_alloc SIZEOF_TASK (sched_heap s) = (h1, t) → t ≠ 0 →
  hp_alloc STACK_SIZE h1 = (h2, stack) → stack ≠ 0 →
  let '(s', p) := task_spawn bootstrap entry arg name s in
  p = t ∧ (t ∉ current s :: rest) ∧ current s' = current s ∧ regs s' = regs s ∧
  (t_entry (tk s' t) = entry) ∧ (t_arg (tk s' t) = arg) ∧
  (t_kstack_top (tk s' t) = stack + STACK_SIZE) ∧
  (room s → room s') ∧
  sched_inv s' (t :: rest) (<[t := fresh_regs bootstrap (stack + STACK_SIZE)]> g).
Proof.
  intros Hi Ha1 Ht Ha2 Hs. pose proof (si_heap _ _ _ Hi) as Hh.
  assert (0 ≤ SIZEOF_TASK ≤ 0xFFFFFFF8 ∧ 0 ≤ STACK_SIZE ≤ 0xFFFFFFF8) as [Hsz1 Hsz2] by done.
  destruct (hp_alloc_fresh _ _ _ _ Hh Hsz1 Ha1 Ht) as (Hh1 & n1 & Hn1 & Hin1 & Hel1 & Hf1).
  destruct (hp_alloc_fresh _ _ _ _ Hh1 Hsz2 Ha2 Hs) as (Hh2 & n2 & Hn2 & Hin2 & Hel2 & Hf2).
  pose proof (hp_bounds _ _ _ Hh2 Hin2) as Hb.
  assert (t ∉ current s :: rest) as Hfresh.
  { intros Hin. destruct (si_task _ _ _ Hi t Hin) as (_ & _ & _ & [k Hk] & _). by apply (Hf1 k). }
  assert (current s ≠ t) as Hct by (intros <-; apply Hfresh; left).
  assert (∀ a, a ∈ current s :: rest → t_stack (tk s a) ≠ stack) as Hstk.
  { intros a Ha E. destruct (si_task _ _ _ Hi a Ha) as (_ & _ & _ & _ & [[E0 _]|(k & _ & Hk & _)]).
    - apply Hs. by rewrite <- E.
    - apply (Hf2 k). rewrite <- E. apply Hel1. by right. }
  assert (∀ q k, (q, k) ∈ hp_live (sched_heap s) → (q, k) ∈ hp_live h2) as Hmono.
  { intros q k Hq. apply Hel2. right. apply Hel1. by right. }
  unfold task_spawn. rewrite Ha1, Ha2. unfold STACK_SIZE in *. zpow.
  rewrite (u32_small (stack + 8192)) by (zpow; lia).
  pose proof (craft_stack_spec bootstrap (stack + 8192) (words s) ltac:(zpow; lia)) as Hcraft.
  destruct (craft_stack bootstrap (stack + 8192) (words s)) as [w sp].
  destruct Hcraft as (-> & Hfr & Hout).
  set (m0 := <[t := Task _ _ _ _ _ _ _ _ _ _]> (tasks s)).
  destruct (irq_save (regs s)) as [c flags] eqn:Hirq.
  assert (irq_restore flags c = regs s) as ->.
  { pose proof (irq_pair (regs s)) as E. by rewrite Hirq in E. }
  assert (∀ a, a ≠ t → task_at m0 a = tk s a) as Hm0.
  { intros a Ha. unfold m0. rewrite task_at_insert, decide_False; [reflexivity|congruence]. }
  set (m1 := set_next t (t_next (task_at m0 (current s))) m0).
  set (m2 := set_next (current s) t m1).
  assert (∀ a, a ≠ t → t_state (task_at m2 a) = t_state (tk s a) ∧
    t_stack (task_at m2 a) = t_stack (tk s a) ∧ t_kstack_top (task_at m2 a) = t_kstack_top (tk s a) ∧
    t_esp (task_at m2 a) = t_esp (tk s a) ∧
    (a ≠ current s → t_next (task_at m2 a) = t_next (tk s a))) as Hm.
  { intros a Ha. destruct (set_next_fields (current s) t m1 a) as (E1 & E2 & E3 & E4 & E5).
    destruct (set_next_fields t (t_next (task_at m0 (current s))) m0 a) as (F1 & F2 & F3 & F4 & F5).
    unfold m2. rewrite E1, E2, E3, E4, E5. unfold m1. rewrite F1, F2, F3, F4, F5, (Hm0 a Ha).
    split_and!; try reflexivity. intros Hac. rewrite !decide_False by congruence. reflexivity. }
  assert (t_state (task_at m2 t) = 0 ∧ t_stack (task_at m2 t) = stack ∧
    t_kstack_top (task_at m2 t) = stack + 8192 ∧ t_esp (task_at m2 t) = stack + 8192 - 24 ∧
    t_next (task_at m2 t) = hd (current s) rest ∧ t_entry (task_at m2 t) = entry ∧
    t_arg (task_at m2 t) = arg) as (T1 & T2 & T3 & T4 & T5 & T6 & T7).
  { unfold m2, m1, set_next. rewrite !task_at_insert, !decide_False, !decide_True by congruence.
    cbn. unfold m0 at 1 2 3 4 6 7. rewrite task_at_insert, decide_True by reflexivity. cbn.
    rewrite (Hm0 (current s) Hct). split_and!; try reflexivity.
    apply (si_linked _ _ _ Hi). }
  split; [reflexivity|]. split; [exact Hfresh|]. split; [reflexivity|]. split; [reflexivity|].
  cbn [tasks]. split; [exact T6|]. split; [exact T7|]. split; [exact T3|].
  split.
  { unfold room. cbn [tasks current regs]. destruct (Hm (current s) Hct) as (_ & -> & -> & _). auto. }
  split; cbn [sched_heap tasks current ntasks words].
  - exact Hh2.
  - split; [|split].
    + cbn [hd]. unfold m2. rewrite (proj1 (set_next_fields _ _ _ _)), decide_True by reflexivity. reflexivity.
    + exact T5.
    + destruct (si_linked _ _ _ Hi) as [_ Hl]. eapply linked_ext; [|exact Hl]. intros a Ha.
      pose proof (si_nodup _ _ _ Hi) as [Hn _]%NoDup_cons.
      apply (Hm a); intros ->; [apply Hfresh; by right|done].
  - pose proof (si_nodup _ _ _ Hi) as [Hn1' Hn2']%NoDup_cons. apply NoDup_cons. split.
    + intros [E|?]%elem_of_cons; [by apply Hct|done].
    + apply NoDup_cons. split; [|done]. intros ?. apply Hfresh. by right.
  - rewrite (si_count _ _ _ Hi). unfold u32. rewrite Zplus_mod_idemp_l. f_equal.
    unfold zlen. cbn [length]. lia.
  - intros a Ha. destruct (decide (a = t)) as [->|Hat].
    + split_and!; [|exact T1|exact Ht|exists n1; apply Hel2; by right|].
      * unfold m2, m1, m0, set_next. apply lookup_insert_is_Some'. right. apply lookup_insert_is_Some'.
        by left.
      * right. exists n2. cbn [tasks sched_heap]. rewrite T2, T3. by split_and!.
    + assert (a ∈ current s :: rest) as Ha'.
      { apply elem_of_cons in Ha as [->|Ha]; [left|]. apply elem_of_cons in Ha as [->|Ha]; [done|by right]. }
      destruct (si_task _ _ _ Hi a Ha') as (Hsome & Hst & Hne & [k Hk] & Hok).
      destruct (Hm a Hat) as (E1 & E2 & E3 & _). rewrite E1.
      split_and!; [|exact Hst|exact Hne|exists k; by apply Hmono|].
      * unfold m2, m1, m0, set_next. apply lookup_insert_is_Some'. right. apply lookup_insert_is_Some'.
        right. apply lookup_insert_is_Some'. by right.
      * unfold stack_ok in *. cbn [tasks sched_heap]. rewrite E2, E3.
        destruct Hok as [?|(k' & ? & ? & ?)]; [by left|right]. exists k'. split_and!; auto.
  - assert (∀ a, a ∈ current s :: t :: rest → a ≠ t → a ∈ current s :: rest) as Hback.
    { intros a Ha Hat. apply elem_of_cons in Ha as [->|Ha]; [left|].
      apply elem_of_cons in Ha as [->|Ha]; [done|by right]. }
    intros a b Ha Hb'. destruct (decide (a = t)) as [->|Hat]; destruct (decide (b = t)) as [->|Hbt].
    + done.
    + destruct (Hm b Hbt) as (_ & -> & _). rewrite T2. intros E. by destruct (Hstk b (Hback b Hb' Hbt)).
    + destruct (Hm a Hat) as (_ & -> & _). rewrite T2. intros E. by destruct (Hstk a (Hback a Ha Hat)).
    + destruct (Hm a Hat) as (_ & -> & _). destruct (Hm b Hbt) as (_ & -> & _).
      apply (si_stacks _ _ _ Hi); auto.
  - intros a Ha. destruct (decide (a = t)) as [->|Hat].
    + rewrite lookup_insert_eq, T2, T3, T4. eexists. split; [reflexivity|]. split; [exact Hfr|lia].
    + assert (a ∈ rest) as Har by (apply elem_of_cons in Ha as [?|?]; [done|done]).
      destruct (si_frame _ _ _ Hi a Har) as (f & Hg & Hf & Hlo & Hhi).
      destruct (Hm a Hat) as (_ & E2 & E3 & E4 & _). rewrite E2, E3, E4.
      rewrite lookup_insert_ne by congruence. exists f. split; [exact Hg|].
      split; [|split; assumption]. eapply frame_in_ext; [|exact Hf]. intros x Hx. apply Hout.
      destruct (si_task _ _ _ Hi a ltac:(by right)) as (_ & _ & _ & _ & Hok).
      unfold STACK_SIZE, BOOT_STACK_TOP in *.
      destruct Hok as [[? ?]|(k & Hk & Hkin & Htop)]; [unfold BOOT_STACK_TOP in *; lia|].
      destruct (hp_disjoint h2 _ _ stack n2 Hh2 (Hmono _ _ Hkin) Hin2); [|lia|unfold STACK_SIZE in *; lia].
      apply Hstk. by right.
Qed.

(** A task that ends leaves the ring; the next one runs. *)
Lemma task_exit_inv s b l g ret :
  sched_inv s (b :: l) g → room s →
  let s' := task_exit ret s in
  sched_inv s' l g ∧ current s' = b ∧ g !! b = Some (regs s') ∧
  tss_esp0 s' = t_kstack_top (tk s b) ∧ (t_state (tk s' (current s)) = 1).
Proof.
  intros Hi Hroom s'. pose proof (si_nodup _ _ _ Hi) as Hnd. pose proof Hnd as [Hcn Hndr]%NoDup_cons.
  set (m1 := set_state (current s) 1 (tasks s)).
  assert (linked m1 (current s :: b :: l) (current s)) as Hl1.
  { eapply linked_ext; [|exact (si_linked _ _ _ Hi)]. intros a _.
    apply (set_state_fields (current s) 1 (tasks s) a). }
  assert ((length (b :: l) < size m1)%nat) as Hfuel.
  { pose proof (ring_size m1 (current s :: b :: l) Hnd) as Hsz. simpl in Hsz |- *.
    apply Hsz. intros a Ha. destruct (si_task _ _ _ Hi a Ha) as (Hsome & _).
    unfold m1, set_state. apply lookup_insert_is_Some'. by right. }
  destruct (unlink_loop_spec (size m1) m1 (current s) (b :: l) (current s) Hl1 Hcn Hfuel) as [l1 Hp].
  set (p := unlink_loop (size m1) (current s) (current s) m1) in *.
  destruct l1 as [|c0 l1]; [done|]. injection Hp as <- Hp.
  assert (p ∈ b :: l) as Hpin by (rewrite Hp; apply elem_of_app; right; left).
  assert (p ≠ current s) as Hpc by (intros E; by rewrite E in Hpin).
  assert (t_next (task_at m1 (current s)) = b) as Hn1 by apply Hl1.
  set (m2 := set_next p b m1).
  assert (∀ a, t_state (task_at m2 a) = t_state (task_at m1 a) ∧ t_stack (task_at m2 a) = t_stack (tk s a) ∧
    t_kstack_top (task_at m2 a) = t_kstack_top (tk s a) ∧ t_esp (task_at m2 a) = t_esp (tk s a)) as Hm2.
  { intros a. destruct (set_next_fields p b m1 a) as (_ & E2 & E3 & E4 & E5).
    destruct (set_state_fields (current s) 1 (tasks s) a) as (_ & _ & F3 & F4 & F5).
    unfold m2. rewrite E2, E3, E4, E5. split; [reflexivity|]. split; [exact F3|]. split; [exact F4|exact F5]. }
  assert (t_next (task_at m2 (current s)) = b) as Hn2.
  { unfold m2. rewrite (proj1 (set_next_fields _ _ _ _)), decide_False by done. exact Hn1. }
  assert (linked m2 (b :: l) b) as Hl2.
  { rewrite Hp. apply (linked_set_last m1 l1 p (current s) b); [by rewrite <- Hp|].
    rewrite <- Hp. apply Hl1. }
  set (c := set_eflags (r_eflags (regs s) &&& u32_not IF_BIT) (regs s)).
  assert (b ∈ b :: l) as Hb by left.
  destruct (switch_spec s (b :: l) g b ret c m2 Hi Hroom Hb eq_refl) as (f & w' & Hg & E & Hfr & Hout).
  assert (s' = MkSched (set_esp (current s) (r_esp c - 32) m2) b (next_id s) (u32 (ntasks s - 1))
    (t_kstack_top (task_at m2 b)) f w' (sched_heap s)) as Es'.
  { unfold s', task_exit. fold c m1. fold p. rewrite Hn1. fold m2. rewrite Hn2.
    rewrite (proj2 (proj2 (proj2 (Hm2 b)))), E. reflexivity. }
  rewrite Es'. cbn [current regs tss_esp0].
  set (m3 := set_esp (current s) (r_esp c - 32) m2).
  assert (∀ a, t_next (task_at m3 a) = t_next (task_at m2 a) ∧ t_state (task_at m3 a) = t_state (task_at m1 a) ∧
    t_stack (task_at m3 a) = t_stack (tk s a) ∧ t_kstack_top (task_at m3 a) = t_kstack_top (tk s a) ∧
    (a ≠ current s → t_esp (task_at m3 a) = t_esp (tk s a))) as Hm3.
  { intros a. destruct (set_esp_fields (current s) (r_esp c - 32) m2 a) as (E1 & E2 & E3 & E4 & E5).
    destruct (Hm2 a) as (F1 & F2 & F3 & F4). unfold m3. rewrite E1, E2, E3, E4, E5.
    split; [reflexivity|]. split; [exact F1|]. split; [exact F2|]. split; [exact F3|].
    intros Ha. rewrite decide_False by congruence. exact F4. }
  assert (∀ a, a ∈ b :: l → a ≠ current s) as Hne by (intros a Ha ->; by apply Hcn).
  split; [|split; [reflexivity|split; [exact Hg|split]]].
  2: { exact (proj1 (proj2 (proj2 (Hm2 b)))). }
  2: { cbn [tasks]. destruct (Hm3 (current s)) as (_ & -> & _). unfold m1.
       rewrite (proj1 (proj2 (set_state_fields _ _ _ _))), decide_True by reflexivity. reflexivity. }
  split; cbn [sched_heap tasks current ntasks words].
  - apply Hi.
  - eapply linked_ext; [|exact Hl2]. intros a _. apply Hm3.
  - exact Hndr.
  - rewrite (si_count _ _ _ Hi). unfold u32. rewrite Zminus_mod_idemp_l. f_equal.
    unfold zlen. cbn [length]. lia.
  - intros a Ha. destruct (si_task _ _ _ Hi a ltac:(by right)) as (Hsome & Hst & Ha0 & Hlive & Hok).
    destruct (Hm3 a) as (_ & E2 & E3 & E4 & _). rewrite E2.
    split_and!; [| |exact Ha0|exact Hlive|].
    + unfold m3, m2, m1, set_esp, set_next, set_state. do 3 (apply lookup_insert_is_Some'; right). exact Hsome.
    + unfold m1. rewrite (proj1 (proj2 (set_state_fields _ _ _ _))), decide_False; [exact Hst|].
      intros E'. by apply (Hne a Ha).
    + unfold stack_ok in *. cbn [tasks sched_heap]. rewrite E3, E4. exact Hok.
  - intros a d Ha Hd. destruct (Hm3 a) as (_ & _ & E3 & _). destruct (Hm3 d) as (_ & _ & F3 & _).
    rewrite E3, F3. apply (si_stacks _ _ _ Hi); by right.
  - intros a Ha. destruct (frame_kept s (b :: l) g a w' Hi ltac:(by right) Hout) as (fa & Hga & Hrest).
    destruct (Hm3 a) as (_ & _ & E3 & E4 & E5). rewrite E3, E4, E5 by (apply Hne; by right).
    exists fa. split; [exact Hga|exact Hrest].
Qed.

(** ** Executions *)

(** What a machine state may do next: the running task computes, writing only
    its own stack; it is preempted, yields, spawns a task (storage permitting)
    or ends (another task permitting).  The second component records, for each
    waiting task, the registers it was switched out with. *)
Inductive step : sched B * gmap Z cpu → sched B * gmap Z cpu → Prop :=
  | step_run s g c w :
      (∀ x, x < t_stack (tk s (current s)) ∨ t_kstack_top (tk s (current s)) ≤ x → ld w x = ld (words s) x) →
      step (s, g) (MkSched (tasks s) (current s) (next_id s) (ntasks s) (tss_esp0 s) c w (sched_heap s), g)
  | step_tick s g ret :
      room s →
      step (s, g) (sched_tick ret s,
        if pick_next s =? current s then g else <[current s := suspended ret (regs s)]> g)
  | step_yield s g ret :
      room s →
      step (s, g) ((task_yield ret s).1,
        if pick_next s =? current s then g
        else <[current s := suspended ret (irq_save (regs s)).1]> g)
  | step_spawn s g bootstrap entry arg name h1 h2 t stack :
      hp_alloc SIZEOF_TASK (sched_heap s) = (h1, t) → t ≠ 0 →
      hp_alloc STACK_SIZE h1 = (h2, stack) → stack ≠ 0 →
      step (s, g) ((task_spawn bootstrap entry arg name s).1,
        <[t := fresh_regs bootstrap (stack + STACK_SIZE)]> g)
  | step_exit s g ret :
      room s → pick_next s ≠ current s →
      step (s, g) (task_exit ret s, g).

Definition wf (sg : sched B * gmap Z cpu) : Prop := ∃ rest, sched_inv sg.1 rest sg.2.

Lemma pick_next_ne s rest g :
  sched_inv s rest g → pick_next s ≠ current s → ∃ b l, rest = b :: l ∧ pick_next s = b.
Proof.
  intros Hi Hne. rewrite (pick_next_spec _ _ _ Hi) in Hne |- *.
  destruct rest as [|b l]; [done|]. by exists b, l.
Qed.

(** A preemption rotates the ring and resumes the next task where it was. *)
Lemma sched_tick_inv s b l g ret :
  sched_inv s (b :: l) g → room s →
  let s' := sched_tick ret s in
  sched_inv s' (l ++ [current s]) (<[current s := suspended ret (regs s)]> g) ∧
  current s' = b ∧ g !! b = Some (regs s') ∧ tss_esp0 s' = t_kstack_top (tk s b) ∧
  tasks s' = set_esp (current s) (r_esp (regs s) - 32) (tasks s).
Proof.
  intros Hi Hroom. destruct (si_task _ _ _ Hi (current s) ltac:(left)) as (_ & _ & Hc0 & _).
  pose proof (pick_next_spec _ _ _ Hi) as Hp. cbn [hd] in Hp.
  assert (b ≠ current s) as Hne.
  { intros E. pose proof (si_nodup _ _ _ Hi) as [Hn _]%NoDup_cons. apply Hn. rewrite <- E. left. }
  unfold sched_tick. rewrite Hp. apply Z.eqb_neq in Hc0, Hne. rewrite Hc0, Hne. cbn [negb].
  destruct (switch_to_inv s b l g ret Hi Hroom) as (H1 & H2 & H3 & H4 & H5). cbv zeta. auto.
Qed.

Lemma task_yield_inv s b l g ret :
  sched_inv s (b :: l) g → room s →
  let s' := (task_yield ret s).1 in
  sched_inv s' (l ++ [current s]) (<[current s := suspended ret (irq_save (regs s)).1]> g) ∧
  current s' = b ∧ g !! b = Some (regs s').
Proof.
  intros Hi Hroom. unfold task_yield. destruct (irq_save (regs s)) as [c flags] eqn:Hirq.
  assert (r_esp c = r_esp (regs s)) as He by (unfold irq_save in Hirq; by injection Hirq as <- _).
  pose proof (with_regs_inv s _ g c Hi) as Hi'.
  pose proof (pick_next_spec _ _ _ Hi') as Hp. cbn [hd] in Hp. rewrite Hp.
  assert (b ≠ current (with_regs c s)) as Hne.
  { intros E. pose proof (si_nodup _ _ _ Hi) as [Hn _]%NoDup_cons. apply Hn. cbn in E. rewrite <- E. left. }
  apply Z.eqb_neq in Hne. rewrite Hne. cbn [negb fst].
  destruct (switch_to_inv (with_regs c s) b l g ret Hi') as (H1 & H2 & H3 & _).
  { unfold room in *. cbn. by rewrite He. }
  cbv zeta. auto.
Qed.

Lemma step_wf sg sg' : wf sg → step sg sg' → wf sg'.
Proof.
  intros [rest Hi] Hstep. destruct Hstep as [s g c w Hw|s g ret Hr|s g ret Hr|
    s g bootstrap entry arg name h1 h2 t stack Ha1 Ht Ha2 Hs|s g ret Hr Hne]; cbn [fst snd] in Hi.
  - exists rest. cbn [fst snd]. pose proof Hi as [H1 H2 H3 H4 H5 H6 H7].
    split; try assumption. intros a Ha. exact (frame_kept s rest g a w Hi Ha Hw).
  - destruct (Z.eqb_spec (pick_next s) (current s)) as [E|E].
    + exists rest. cbn [fst snd]. unfold sched_tick. rewrite E, Z.eqb_refl. by destruct (_ =? 0).
    + destruct (pick_next_ne _ _ _ Hi E) as (b & l & -> & _).
      eexists. exact (proj1 (sched_tick_inv s b l g ret Hi Hr)).
  - destruct (Z.eqb_spec (pick_next s) (current s)) as [E|E].
    + exists rest. cbn [fst snd]. unfold task_yield.
      destruct (irq_save (regs s)) as [c flags] eqn:Hirq.
      change (pick_next (with_regs c s)) with (pick_next s). change (current (with_regs c s)) with (current s).
      rewrite E, Z.eqb_refl. cbn [negb fst]. by do 2 apply with_regs_inv.
    + destruct (pick_next_ne _ _ _ Hi E) as (b & l & -> & _).
      eexists. exact (proj1 (task_yield_inv s b l g ret Hi Hr)).
  - pose proof (task_spawn_inv s rest g bootstrap entry arg name h1 h2 t stack Hi Ha1 Ht Ha2 Hs) as Hsp.
    destruct (task_spawn bootstrap entry arg name s) as [s' p].
    exists (t :: rest). apply Hsp.
  - destruct (pick_next_ne _ _ _ Hi Hne) as (b & l & -> & _).
    exists l. exact (proj1 (task_exit_inv s b l g ret Hi Hr)).
Qed.

Lemma steps_wf sg sg' : wf sg → rtc step sg sg' → wf sg'.
Proof. intros Hw. induction 1; [done|]. apply IHrtc. by eapply step_wf. Qed.

(** One time slice: the running task computes, then the timer preempts it. *)
Inductive slice : sched B * gmap Z cpu → sched B * gmap Z cpu → Prop :=
  | slice_intro s g c w ret :
      (∀ x, x < t_stack (tk s (current s)) ∨ t_kstack_top (tk s (current s)) ≤ x → ld w x = ld (words s) x) →
      let s1 := MkSched (tasks s) (current s) (next_id s) (ntasks s) (tss_esp0 s) c w (sched_heap s) in
      room s1 →
      slice (s, g) (sched_tick ret s1,
        if pick_next s1 =? current s1 then g else <[current s1 := suspended ret c]> g).

Lemma slice_idle s g ret :
  room s →
  slice (s, g) (sched_tick ret s,
    if pick_next s =? current s then g else <[current s := suspended ret (regs s)]> g).
Proof.
  destruct s as [m c n k e r w h]. intros Hr.
  exact (slice_intro (MkSched m c n k e r w h) g r w ret (λ _ _, eq_refl) Hr).
Qed.

Lemma slice_inv s b l g sg' :
  sched_inv s (b :: l) g → slice (s, g) sg' →
  sched_inv sg'.1 (l ++ [current s]) sg'.2 ∧ current sg'.1 = b.
Proof.
  intros Hi Hs. inversion Hs as [s0 g0 c w ret Hw s1 Hroom]. subst s0 g0 sg'. cbn [fst snd].
  assert (sched_inv s1 (b :: l) g) as Hi1.
  { pose proof Hi as [H1 H2 H3 H4 H5 H6 H7]. split; try assumption.
    intros a Ha. exact (frame_kept s (b :: l) g a w Hi Ha Hw). }
  pose proof (pick_next_spec _ _ _ Hi1) as Hp. cbn [hd] in Hp. rewrite Hp.
  assert (b ≠ current s1) as Hne.
  { intros E. pose proof (si_nodup _ _ _ Hi) as [Hn _]%NoDup_cons. apply Hn. cbn in E. rewrite <- E. left. }
  apply Z.eqb_neq in Hne. rewrite Hne.
  destruct (sched_tick_inv s1 b l g ret Hi1 Hroom) as (H1 & H2 & _). split; [exact H1|exact H2].
Qed.

Lemma sched_init_inv s kmain h t :
  hp_inv (sched_heap s) → hp_alloc SIZEOF_TASK (sched_heap s) = (h, t) → t ≠ 0 →
  sched_inv (sched_init kmain s) [] ∅ ∧ current (sched_init kmain s) = t.
Proof.
  intros Hh Ha Ht. assert (0 ≤ SIZEOF_TASK ≤ 0xFFFFFFF8) as Hsz by done.
  destruct (hp_alloc_fresh _ _ _ _ Hh Hsz Ha Ht) as (Hh1 & n & Hn & Hin & _).
  unfold sched_init. rewrite Ha. split; [|reflexivity].
  set (tt := Task _ _ _ _ _ _ _ _ _ _).
  assert (task_at (<[t := tt]> (tasks s)) t = tt) as Et
    by (by rewrite task_at_insert, decide_True by reflexivity).
  split; cbn [sched_heap tasks current ntasks words].
  - exact Hh1.
  - split; [|done]. cbn [hd]. by rewrite Et.
  - apply NoDup_singleton.
  - done.
  - intros a Ha'%list_elem_of_singleton. subst a. rewrite Et. unfold stack_ok. cbn [tasks]. rewrite Et.
    split_and!; [apply lookup_insert_is_Some'; by left|done|done|by exists n|by left].
  - intros a b Ha'%list_elem_of_singleton Hb%list_elem_of_singleton. congruence.
  - intros a Ha'. by apply elem_of_nil in Ha'.
Qed.

End Invariant.

(** ** Properties *)

(** The scheduler of the two-megabyte machine, its boot stack in use. *)
Definition demo_sched0 : sched (kheap pmm) :=
  MkSched ∅ 0 0 0 0 (Cpu 0x8FF00 1 2 3 4 0x202 0x10000) ∅ demo_heap.
Definition demo_sched : sched (kheap pmm) := sched_init 0x5000 demo_sched0.
Definition demo_spawned : sched (kheap pmm) := (task_spawn 0x10100 0x10200 7 0x5010 demo_sched).1.

Lemma demo_heap_inv : hp_inv (sched_heap demo_sched0).
Proof. exact demo_heap_wf. Qed.

Lemma demo_sched_inv : sched_inv demo_sched [] ∅ ∧ current demo_sched = 0xC0000010.
Proof.
  destruct (hp_alloc SIZEOF_TASK (sched_heap demo_sched0)) as [h t] eqn:Ha.
  assert (t = 0xC0000010) as Ht.
  { change t with (h, t).2. rewrite <- Ha. vm_compute. reflexivity. }
  assert (t ≠ 0) as Ht0 by (rewrite Ht; done).
  destruct (sched_init_inv demo_sched0 0x5000 h t demo_heap_inv Ha Ht0) as [Hi Hc].
  split; [exact Hi|]. rewrite <- Ht. exact Hc.
Qed.

(** C5: contexts are never mixed up: in any execution from a well-formed state
    (tasks computing on their own stacks, ticks, yields, spawns, exits in any
    order), whenever the current task is preempted, yields or ends and another
    one waits, the next one in the ring runs, with exactly the registers, stack
    pointer, flags and program counter it was switched out with (or was created
    with), and, unless it yielded, the TSS points at that task's kernel stack. *)
Theorem switch_resumes `{HeapAllocator B} (s0 s : sched B) (g0 g : gmap Z cpu) ret :
  wf (s0, g0) → rtc step (s0, g0) (s, g) → room s → pick_next s ≠ current s →
  (let s' := sched_tick ret s in
   current s' = pick_next s ∧ g !! current s' = Some (regs s') ∧
   tss_esp0 s' = t_kstack_top (task_at (tasks s) (current s'))) ∧
  (let s' := (task_yield ret s).1 in
   current s' = pick_next s ∧ g !! current s' = Some (regs s')) ∧
  (let s' := task_exit ret s in
   current s' = pick_next s ∧ g !! current s' = Some (regs s') ∧
   tss_esp0 s' = t_kstack_top (task_at (tasks s) (current s'))).
Proof.
  intros Hw Hst Hroom Hne. destruct (steps_wf _ _ Hw Hst) as [rest Hi].
  destruct (pick_next_ne s rest g Hi Hne) as (b & l & -> & ->). cbv zeta.
  destruct (sched_tick_inv s _ _ g ret Hi Hroom) as (_ & -> & Hg1 & Ht1 & _).
  destruct (task_yield_inv s _ _ g ret Hi Hroom) as (_ & -> & Hg2).
  destruct (task_exit_inv s _ _ g ret Hi Hroom) as (_ & -> & Hg3 & Ht3 & _).
  split_and!; assumption || reflexivity.
Qed.

Lemma demo_spawn_step :
  ∃ g : gmap Z cpu, step (demo_sched, ∅) (demo_spawned, g).
Proof.
  destruct (hp_alloc SIZEOF_TASK (sched_heap demo_sched)) as [h1 t] eqn:Ha1.
  destruct (hp_alloc STACK_SIZE h1) as [h2 stack] eqn:Ha2.
  eexists. apply (step_spawn demo_sched ∅ 0x10100 0x10200 7 0x5010 h1 h2 t stack Ha1); [|exact Ha2|].
  - change t with (h1, t).2. rewrite <- Ha1. vm_compute. discriminate.
  - change stack with (h2, stack).2. rewrite <- Ha2. change h1 with (h1, t).1. rewrite <- Ha1.
    vm_compute. discriminate.
Qed.

Lemma demo_spawned_inv :
  sched_inv demo_spawned [0xC0000048] (<[0xC0000048 := fresh_regs 0x10100 0xC0002080]> ∅).
Proof.
  destruct (hp_alloc SIZEOF_TASK (sched_heap demo_sched)) as [h1 t] eqn:Ha1.
  destruct (hp_alloc STACK_SIZE h1) as [h2 stack] eqn:Ha2.
  assert (t = 0xC0000048) as Et by (change t with (h1, t).2; rewrite <- Ha1; vm_compute; reflexivity).
  assert (stack = 0xC0000080) as Es.
  { change stack with (h2, stack).2. rewrite <- Ha2. change h1 with (h1, t).1. rewrite <- Ha1.
    vm_compute. reflexivity. }
  subst t stack.
  pose proof (task_spawn_inv demo_sched [] ∅ 0x10100 0x10200 7 0x5010 h1 h2 _ _ (proj1 demo_sched_inv)
    Ha1 ltac:(done) Ha2 ltac:(done)) as Hsp.
  change demo_spawned with (task_spawn 0x10100 0x10200 7 0x5010 demo_sched).1.
  destruct (task_spawn 0x10100 0x10200 7 0x5010 demo_sched) as [s' p]. apply Hsp.
Qed.

Lemma switch_resumes_witness :
  current (sched_tick 0x11000 demo_spawned) = 0xC0000048 ∧
  ∃ g : gmap Z cpu, g !! current (sched_tick 0x11000 demo_spawned) = Some (regs (sched_tick 0x11000 demo_spawned)).
Proof.
  split; [vm_compute; reflexivity|].
  destruct demo_spawn_step as [g Hstep].
  assert (wf (demo_sched, ∅)) as Hw by (exists []; exact (proj1 demo_sched_inv)).
  assert (room demo_spawned) as Hroom by (split; vm_compute; discriminate).
  assert (pick_next demo_spawned ≠ current demo_spawned) as Hne by (vm_compute; discriminate).
  pose proof (proj1 (switch_resumes demo_sched demo_spawned ∅ g 0x11000 Hw (rtc_once _ _ Hstep) Hroom Hne))
    as Hg.
  exists g. exact (proj1 (proj2 Hg)).
Defined.

(** C19: round robin is fair: a task waiting behind [length l1] others runs after
    exactly that many more time slices, whatever the tasks compute meanwhile. *)
Theorem round_robin_fair `{HeapAllocator B} (s : sched B) (g : gmap Z cpu) l1 a l2 sg' :
  sched_inv s (l1 ++ a :: l2) g → nsteps slice (Datatypes.S (length l1)) (s, g) sg' →
  current sg'.1 = a ∧ sched_inv sg'.1 (l2 ++ current s :: l1) sg'.2.
Proof.
  revert s g l2. induction l1 as [|b l1 IH]; intros s g l2 Hi Hn.
  - apply nsteps_once_inv in Hn. destruct (slice_inv _ _ _ _ _ Hi Hn) as [Hi' Hc]. by split.
  - inversion Hn as [|n x [s1 g1] z Hslice Hrest]; subst.
    destruct (slice_inv s b (l1 ++ a :: l2) g _ Hi Hslice) as [Hi' Hc]. cbn [fst snd] in Hi', Hc.
    rewrite <- app_assoc in Hi'. simpl app in Hi'.
    destruct (IH s1 g1 (l2 ++ [current s]) Hi' Hrest) as [Ha Hi2]. split; [exact Ha|].
    rewrite Hc, <- app_assoc in Hi2. exact Hi2.
Qed.

Lemma round_robin_fair_witness :
  ∃ sg', nsteps slice 1 (demo_spawned, <[0xC0000048 := fresh_regs 0x10100 0xC0002080]> ∅) sg' ∧
         current sg'.1 = 0xC0000048.
Proof.
  pose proof demo_spawned_inv as Hi.
  assert (room demo_spawned) as Hroom by (split; vm_compute; discriminate).
  assert (∃ sg', slice (demo_spawned, <[0xC0000048 := fresh_regs 0x10100 0xC0002080]> ∅) sg')
    as [sg' Hslice].
  { eexists. exact (slice_idle demo_spawned _ 0x11000 Hroom). }
  exists sg'. split; [exact (nsteps_once _ _ Hslice)|].
  exact (proj1 (round_robin_fair demo_spawned _ [] 0xC0000048 [] sg' Hi (nsteps_once _ _ Hslice))).
Defined.

(** A spawned task starts as it must: [task_spawn] keeps the invariant, puts
    the new task right behind the current one and changes neither the current
    task nor its registers; the next preemption lands in [task_bootstrap] with
    interrupts enabled and an empty stack of its own, and what that calls is the
    task's entry point with its argument. *)
Theorem spawned_task_starts `{HeapAllocator B} (s : sched B) rest g bootstrap entry arg name h1 h2 t stack ret :
  sched_inv s rest g → room s →
  hp_alloc SIZEOF_TASK (sched_heap s) = (h1, t) → t ≠ 0 →
  hp_alloc STACK_SIZE h1 = (h2, stack) → stack ≠ 0 →
  let '(s1, p) := task_spawn bootstrap entry arg name s in
  let s2 := sched_tick ret s1 in
  p = t ∧ current s1 = current s ∧ regs s1 = regs s ∧
  sched_inv s1 (t :: rest) (<[t := fresh_regs bootstrap (stack + STACK_SIZE)]> g) ∧
  current s2 = t ∧ regs s2 = Cpu (stack + STACK_SIZE) 0 0 0 0 0x202 bootstrap ∧
  tss_esp0 s2 = stack + STACK_SIZE ∧ task_bootstrap s2 = (entry, arg).
Proof.
  intros Hi Hroom Ha1 Ht Ha2 Hs.
  pose proof (task_spawn_inv s rest g bootstrap entry arg name h1 h2 t stack Hi Ha1 Ht Ha2 Hs) as Hsp.
  destruct (task_spawn bootstrap entry arg name s) as [s1 p].
  destruct Hsp as (-> & _ & Hc & Hr & He & Harg & Htop & Hroom1 & Hi1). cbv zeta.
  destruct (sched_tick_inv s1 t rest _ ret Hi1 (Hroom1 Hroom)) as (_ & Hc2 & Hg2 & Ht2 & Htk).
  rewrite lookup_insert_eq in Hg2. injection Hg2 as Hg2.
  rewrite Hc2, Ht2, Htop, <- Hg2. split_and!; try assumption; try reflexivity.
  unfold task_bootstrap. rewrite Hc2, Htk, <- He, <- Harg.
  unfold set_esp. rewrite task_at_insert. destruct (decide (current s1 = t)) as [E|_]; [by rewrite E|done].
Qed.

Lemma spawned_task_starts_witness :
  let s2 := sched_tick 0x11000 demo_spawned in
  current s2 = 0xC0000048 ∧ regs s2 = Cpu 0xC0002080 0 0 0 0 0x202 0x10100 ∧
  task_bootstrap s2 = (0x10200, 7).
Proof.
  destruct (hp_alloc SIZEOF_TASK (sched_heap demo_sched)) as [h1 t] eqn:Ha1.
  destruct (hp_alloc STACK_SIZE h1) as [h2 stack] eqn:Ha2.
  assert (t = 0xC0000048) as Et by (change t with (h1, t).2; rewrite <- Ha1; vm_compute; reflexivity).
  assert (stack = 0xC0000080) as Es.
  { change stack with (h2, stack).2. rewrite <- Ha2. change h1 with (h1, t).1. rewrite <- Ha1.
    vm_compute. reflexivity. }
  subst t stack.
  assert (room demo_sched) as Hroom by (split; vm_compute; discriminate).
  pose proof (spawned_task_starts demo_sched [] ∅ 0x10100 0x10200 7 0x5010 h1 h2 _ _ 0x11000
    (proj1 demo_sched_inv) Hroom Ha1 ltac:(done) Ha2 ltac:(done)) as Hsp.
  unfold demo_spawned. destruct (task_spawn 0x10100 0x10200 7 0x5010 demo_sched) as [s1 p].
  destruct Hsp as (_ & _ & _ & _ & Hc & Hr & _ & Hb). split; [exact Hc|]. split; [exact Hr|exact Hb].
Defined.

(** [task_exit] retires the task: with another task waiting, the one that
    ends is marked dead and never comes back in the ring, the count drops by
    one, and the waiting tasks keep their order, places and saved contexts. *)
Theorem task_exit_retires `{HeapAllocator B} (s : sched B) b l g ret :
  sched_inv s (b :: l) g → room s →
  let s' := task_exit ret s in
  sched_inv s' l g ∧ current s' = b ∧ (current s ∉ current s' :: l) ∧
  t_state (task_at (tasks s') (current s)) = 1 ∧ sched_count s' = u32 (sched_count s - 1).
Proof.
  intros Hi Hroom s'. destruct (task_exit_inv s b l g ret Hi Hroom) as (Hi' & Hc & _ & _ & Hst).
  fold s' in Hi', Hc, Hst. split; [exact Hi'|]. split; [exact Hc|]. rewrite Hc.
  split; [by pose proof (si_nodup _ _ _ Hi) as [? _]%NoDup_cons|]. split; [exact Hst|].
  unfold sched_count. rewrite (si_count _ _ _ Hi), (si_count _ _ _ Hi').
  unfold u32. rewrite Zminus_mod_idemp_l. f_equal. unfold zlen. cbn [length]. lia.
Qed.

Lemma task_exit_retires_witness :
  let s' := task_exit 0x11000 demo_spawned in
  current s' = 0xC0000048 ∧ sched_count s' = 1 ∧ sched_count demo_spawned = 2.
Proof.
  assert (room demo_spawned) as Hroom by (split; vm_compute; discriminate).
  destruct (task_exit_retires demo_spawned _ _ _ 0x11000 demo_spawned_inv Hroom) as (_ & Hc & _ & _ & Hn).
  split; [exact Hc|]. split; [vm_compute; reflexivity|vm_compute; reflexivity].
Defined.
