(* ===== verification/Fat12.v ===== *)
(** FAT12 file system: fs/fat12.c, over the block device of [Block.v], printing
    through [Console.v] and dated by [Rtc.v].  This file is the program;
    its theory is in the files [Fat12Table] to [Fat12Volume]. *)
From Stdlib Require Import ZArith Lia Bool Ascii String.
From stdpp Require Import base numbers gmap option list.
From S2P Require Import Prelude Console Rtc Block.

#[local] Open Scope Z_scope.
#[local] Open Scope c_scope.

Definition ATTR_LFN : Z := 0x0F.
Definition ATTR_VOLUME : Z := 0x08.
Definition ATTR_DIR : Z := 0x10.
Definition ATTR_FILE : Z := 0x20.
Definition EOC : Z := 0x0FF8.

(** The BPB-derived geometry. *)
Record geom := Geom {
  bytes_per_sector : Z;
  sectors_per_cluster : Z;
  reserved_sectors : Z;
  num_fats : Z;
  root_entries : Z;
  sectors_per_fat : Z;
  total_secs : Z;
  fat_start : Z;
  root_start : Z;
  root_sectors : Z;
  data_start : Z;
  cluster_count : Z
}.

(** The module's statics ([fat_cache] as the bytes it points to, [cwd_path] as
    the 128-byte array), the device, the readings the clock will give, and the
    console calls made so far. *)
Record fs (D : Type) := MkFs {
  dev : D;
  geo : geom;
  fat_cache : list Z;
  mounted : bool;
  cwd_cluster : Z;
  cwd_path : list Z;
  clock : list rtc_time;
  printed : list con_call
}.
Arguments MkFs {D}.
Arguments dev {D}. Arguments geo {D}. Arguments fat_cache {D}. Arguments mounted {D}.
Arguments cwd_cluster {D}. Arguments cwd_path {D}. Arguments clock {D}. Arguments printed {D}.

(** ** The FAT, as the cached bytes *)

(** The 16-bit word an entry lies in. *)
Definition fat_word (fat : list Z) (off : Z) : Z :=
  u16 (arr_get fat off ||| (arr_get fat (off + 1) <<< 8)).

Definition fat_off (cluster : Z) : Z := cluster + cluster / 2.

Definition fat_get (fat : list Z) (cluster : Z) : Z :=
  let v := fat_word fat (fat_off cluster) in
  if c_true (cluster &&& 1) then v >>> 4 else v &&& 0x0FFF.

Definition fat_put (cluster value : Z) (fat : list Z) : list Z :=
  let off := fat_off cluster in
  let v := fat_word fat off in
  let v := if c_true (cluster &&& 1)
           then u16 ((v &&& 0x000F) ||| (value <<< 4))
           else u16 ((v &&& 0xF000) ||| (value &&& 0x0FFF)) in
  arr_set (arr_set fat off (u8 (v &&& 0xFF))) (off + 1) (u8 (v >>> 8)).

Definition in_chain (c : Z) : bool := (2 <=? c) && (c <? EOC).

(** [alloc_cluster] on the cached FAT; the loop counter is 16 bits wide, which
    the geometry of a floppy never exceeds. *)
Definition alloc_in (count : Z) (fat : list Z) : list Z * Z :=
  match find_range 2 (u32 (count + 2)) (λ c, if fat_get fat c =? 0 then Some c else None) with
  | Some c => (fat_put c 0xFFF fat, c)
  | None => (fat, 0)
  end.

(** Every step clears an entry, and a cleared entry ends the walk: no more than
    one step per cluster number and one.  [None]: the loop has not ended. *)
Definition free_fuel : nat := Z.to_nat EOC.

Fixpoint free_chain_loop (fuel : nat) (cluster : Z) (fat : list Z) : option (list Z) :=
  if in_chain cluster then
    match fuel with
    | O => None
    | S fuel => free_chain_loop fuel (fat_get fat cluster) (fat_put cluster 0 fat)
    end
  else Some fat.

(** ** Geometry *)

Definition cluster_lba (g : geom) (cluster : Z) : Z :=
  u32 (data_start g + u32 (cluster - 2) * sectors_per_cluster g).

(** The walk of [dir_sector_lba] along the chain; [None] when it ends early. *)
Fixpoint chain_nth (n : nat) (c : Z) (fat : list Z) : option Z :=
  match n with
  | O => Some c
  | S n => let c := fat_get fat c in
           if (c <? 2) || (EOC <=? c) then None else chain_nth n c fat
  end.

Definition dir_sector_lba (g : geom) (fat : list Z) (dir_cluster index : Z) : Z :=
  if dir_cluster =? 0 then
    if root_sectors g <=? index then 0 else u32 (root_start g + index)
  else
    let ci := index / sectors_per_cluster g in
    let si := index mod sectors_per_cluster g in
    match chain_nth (Z.to_nat ci) dir_cluster fat with
    | None => 0
    | Some c => u32 (cluster_lba g c + si)
    end.

(** ** Names *)

(** The string an array holds. *)
Fixpoint c_string (l : list Z) : list Z :=
  match l with
  | [] => []
  | c :: l => if c =? 0 then [] else c :: c_string l
  end.

Definition to_upper (c : Z) : Z := if (chr "a" <=? c) && (c <=? chr "z") then c - 32 else c.

(** [while ( *name && *name != stop && i < n)]: at most [n] characters, upper
    case, and what is left of the name. *)
Fixpoint take_part (n : nat) (stop : bool) (name : list Z) : list Z * list Z :=
  match n, name with
  | S n, c :: rest =>
      if stop && (c =? chr ".") then ([], name)
      else let '(p, r) := take_part n stop rest in (to_upper c :: p, r)
  | _, _ => ([], name)
  end.

(** [while ( *name && *name != '.') name++;] *)
Fixpoint skip_to_dot (name : list Z) : list Z :=
  match name with
  | [] => []
  | c :: rest => if c =? chr "." then name else skip_to_dot rest
  end.

Definition pad (n : nat) (l : list Z) : list Z := l ++ replicate (n - length l) 32.

Definition to_83 (name : list Z) : list Z :=
  let '(base, rest) := take_part 8 true name in
  pad 8 base ++
  match skip_to_dot rest with
  | [] => replicate 3 32
  | _ :: ext => pad 3 (take_part 3 false ext).1
  end.

(** [for (j = lo; j < hi && e[j] != ' '; j++)] *)
Fixpoint until_space (l : list Z) : list Z :=
  match l with
  | [] => []
  | c :: l => if c =? 32 then [] else c :: until_space l
  end.

Definition format_name (e : list Z) : list Z :=
  until_space (take 8 e) ++
  (if arr_get e 8 =? 32 then [] else chr "." :: until_space (take 3 (drop 8 e))).

(** The string [format_name] leaves in a name buffer. *)
Definition entry_name (e : list Z) : list Z := c_string (format_name e).

(** ** Directory entries *)

Definition entry_at (sec : list Z) (e : Z) : list Z := take 32 (drop (Z.to_nat (32 * e)) sec).
(** [memcpy(buf + off, data, n)] *)
Definition splice (buf : list Z) (off : Z) (data : list Z) : list Z :=
  take (Z.to_nat off) buf ++ data ++ drop (Z.to_nat off + length data) buf.

Definition ent_cluster (ent : list Z) : Z := u16 (arr_get ent 26 ||| (arr_get ent 27 <<< 8)).
Definition ent_size (ent : list Z) : Z :=
  u32 (arr_get ent 28 ||| (arr_get ent 29 <<< 8) ||| (arr_get ent 30 <<< 16) ||| (arr_get ent 31 <<< 24)).
Definition ent_attr (ent : list Z) : Z := arr_get ent 11.
Definition ent_is_dir (ent : list Z) : bool := c_true (ent_attr ent &&& ATTR_DIR).
(** Skipped by every walk: deleted entries and long-name records. *)
Definition ent_skip (ent : list Z) : bool := (arr_get ent 0 =? 0xE5) || (ent_attr ent =? ATTR_LFN).
(** Skipped by the listings as well: the volume label. *)
Definition ent_hidden (ent : list Z) : bool := ent_skip ent || c_true (ent_attr ent &&& ATTR_VOLUME).
Definition ent_dot (ent : list Z) : bool := arr_get ent 0 =? chr ".".

(** The bytes of [make_entry]. *)
Definition fat_date (t : rtc_time) : Z :=
  let y := if 1980 <=? year t then u16 (year t - 1980) else 0 in
  u16 ((y <<< 9) ||| ((month t &&& 0x0F) <<< 5) ||| (day t &&& 0x1F)).
Definition fat_time (t : rtc_time) : Z :=
  u16 (((hour t &&& 0x1F) <<< 11) ||| ((minute t &&& 0x3F) <<< 5) ||| ((second t / 2) &&& 0x1F)).

Definition entry_bytes (name83 : list Z) (attr first_cluster size : Z) (t : rtc_time) : list Z :=
  let lo v := u8 (v &&& 0xFF) in
  let hi v := u8 (v >>> 8) in
  let fd := fat_date t in
  let ft := fat_time t in
  take 11 name83 ++ [u8 attr; 0; 0; lo ft; hi ft; lo fd; hi fd; lo fd; hi fd; 0; 0;
    lo ft; hi ft; lo fd; hi fd; lo first_cluster; hi first_cluster;
    lo size; u8 (size >>> 8); u8 (size >>> 16); u8 (size >>> 24)].

(** ** Paths

    [cwd_path] is an array of 128 bytes holding a NUL-terminated string. *)

(** [for (p = name; *p && l < sizeof(cwd_path) - 1; p++) cwd_path[l++] = *p;] *)
Fixpoint push_chars (l : Z) (name path : list Z) : Z * list Z :=
  match name with
  | [] => (l, path)
  | c :: rest => if l <? 127 then push_chars (l + 1) rest (arr_set path l c) else (l, path)
  end.

Definition path_push (name path : list Z) : list Z :=
  let l := zlen (c_string path) in
  let '(l, path) := if negb (l =? 1) then (l + 1, arr_set path l 47) else (l, path) in
  let '(l, path) := push_chars l name path in
  arr_set path l 0.

(** [while (l > 1 && cwd_path[l - 1] != '/') l--;] *)
Fixpoint pop_loop (n : nat) (l : Z) (path : list Z) : Z :=
  match n with
  | O => l
  | S n => if (1 <? l) && negb (arr_get path (l - 1) =? 47) then pop_loop n (l - 1) path else l
  end.

Definition path_pop (path : list Z) : list Z :=
  let l := zlen (c_string path) in
  let l := pop_loop (Z.to_nat l) l path in
  let l := if 1 <? l then l - 1 else l in
  let l := if l =? 0 then 1 else l in
  arr_set (arr_set path l 0) 0 47.

(** [while ( *p == '/') p++;] *)
Fixpoint skip_slashes (p : list Z) : list Z :=
  match p with
  | [] => []
  | c :: rest => if c =? 47 then skip_slashes rest else p
  end.

(** [while ( *p && *p != '/')]: the component and what follows it. *)
Fixpoint split_comp (p : list Z) : list Z * list Z :=
  match p with
  | [] => ([], [])
  | c :: rest => if c =? 47 then ([], p) else let '(x, r) := split_comp rest in (c :: x, r)
  end.

(** What precedes the last slash and what follows it. *)
Fixpoint split_last (p : list Z) : option (list Z * list Z) :=
  match p with
  | [] => None
  | c :: rest =>
      match split_last rest with
      | Some (d, f) => Some (c :: d, f)
      | None => if c =? 47 then Some ([], rest) else None
      end
  end.

Definition upper (c : Z) : Z := if (chr "a" <=? c) && (c <=? chr "z") then c - 32 else c.

(** The test of a name against the prefix typed: [up] is in upper case. *)
Fixpoint has_prefix (up name : list Z) : bool :=
  match up, name with
  | [], _ => true
  | _, [] => false
  | u :: up, c :: name => (upper c =? u) && has_prefix up name
  end.

(** [while (out[i] && name[i] && upper(out[i]) == upper(name[i])) i++;] *)
Fixpoint common (out name : list Z) : list Z :=
  match out, name with
  | a :: out, b :: name => if upper a =? upper b then a :: common out name else []
  | _, _ => []
  end.

(** ** State passing *)

Section Fat12.
Context {D : Type} `{BlockDevice D}.
(** What a local sector buffer holds when the read meant to fill it fails. *)
Variable junk : list Z.

Definition M (A : Type) : Type := fs D → fs D * A.
Definition ret {A} (x : A) : M A := λ s, (s, x).
Definition bind {A B} (m : M A) (k : A → M B) : M B := λ s, let '(s, x) := m s in k x s.
Notation "'let*' x := m 'in' k" := (bind m (λ x, k)) (at level 10, x pattern, k at level 200).
Notation "m ;;; k" := (bind m (λ _, k)) (at level 100, right associativity).

Definition get : M (fs D) := λ s, (s, s).
Definition upd (f : fs D → fs D) : M unit := λ s, (f s, tt).

Definition with_dev (d : D) (s : fs D) : fs D :=
  MkFs d (geo s) (fat_cache s) (mounted s) (cwd_cluster s) (cwd_path s) (clock s) (printed s).
Definition with_geo (g : geom) (s : fs D) : fs D :=
  MkFs (dev s) g (fat_cache s) (mounted s) (cwd_cluster s) (cwd_path s) (clock s) (printed s).
Definition with_fat (f : list Z) (s : fs D) : fs D :=
  MkFs (dev s) (geo s) f (mounted s) (cwd_cluster s) (cwd_path s) (clock s) (printed s).
Definition with_mounted (b : bool) (s : fs D) : fs D :=
  MkFs (dev s) (geo s) (fat_cache s) b (cwd_cluster s) (cwd_path s) (clock s) (printed s).
Definition with_cwd (c : Z) (p : list Z) (s : fs D) : fs D :=
  MkFs (dev s) (geo s) (fat_cache s) (mounted s) c p (clock s) (printed s).
Definition print (k : list con_call) (s : fs D) : fs D :=
  MkFs (dev s) (geo s) (fat_cache s) (mounted s) (cwd_cluster s) (cwd_path s) (clock s) (printed s ++ k).

Definition say (t : list Z) : M unit := upd (print (con_write t)).
Definition floppy_motor_off : M unit := upd (λ s, with_dev (bd_motor_off (dev s)) s).

(** One sector; an error leaves the buffer as it was. *)
Definition read_sector (lba : Z) : M (option (list Z)) :=
  λ s, let '(d, r) := bd_read lba (dev s) in (with_dev d s, r).
Definition write_sector (lba : Z) (data : list Z) : M bool :=
  λ s, let '(d, ok) := bd_write lba data (dev s) in (with_dev d s, ok).

(** [read_fs(lba, count, buf)]: the data of all sectors, or an error. *)
Fixpoint read_fs (lba : Z) (count : nat) : M (option (list Z)) :=
  match count with
  | O => ret (Some [])
  | S count =>
      let* r := read_sector lba in
      match r with
      | None => ret None
      | Some sec =>
          let* rest := read_fs (lba + 1) count in
          ret (match rest with Some l => Some (sec ++ l) | None => None end)
      end
  end.

Fixpoint write_fs (lba : Z) (count : nat) (data : list Z) : M bool :=
  match count with
  | O => ret true
  | S count =>
      let* ok := write_sector lba (take 512 data) in
      if ok then write_fs (lba + 1) count (drop 512 data) else ret false
  end.

(** [fat_flush]: the cache to every copy; errors are ignored. *)
Fixpoint fat_flush_loop (copies : nat) (i : Z) : M unit :=
  match copies with
  | O => ret tt
  | S copies =>
      let* s := get in
      write_fs (u32 (reserved_sectors (geo s) + i * sectors_per_fat (geo s)))
        (Z.to_nat (sectors_per_fat (geo s))) (fat_cache s) ;;;
      fat_flush_loop copies (i + 1)
  end.

Definition fat_flush : M unit := let* s := get in fat_flush_loop (Z.to_nat (num_fats (geo s))) 0.

Definition fatPut (cluster value : Z) : M unit := upd (λ s, with_fat (fat_put cluster value (fat_cache s)) s).

Definition alloc_cluster : M Z :=
  λ s, let '(f, c) := alloc_in (cluster_count (geo s)) (fat_cache s) in (with_fat f s, c).

(** A loop that did not end would leave no table; [Fat12Table.free_chain_terminates]
    is that it ends. *)
Definition free_chain (cluster : Z) : M unit :=
  upd (λ s, with_fat (default [] (free_chain_loop free_fuel cluster (fat_cache s))) s).

(** ** Walking a directory *)

Inductive verdict (A : Type) := Go (a : A) | Stop (a : A).
Arguments Go {A}. Arguments Stop {A}.

(** [AtEnd]: no further sector; [Broken]: a read failed; [Stopped]: the body
    left the loop; [Endless]: more sectors than the volume has, so the chain is
    cyclic and the C loop would not come to an end. *)
Inductive walk_end := AtEnd | Broken | Stopped | Endless.

Fixpoint scan_sector {A} (n : nat) (e : Z) (body : Z → list Z → A → verdict A) (sec : list Z) (a : A)
    : verdict A :=
  match n with
  | O => Go a
  | S n => match body e (entry_at sec e) a with
           | Stop a => Stop a
           | Go a => scan_sector n (e + 1) body sec a
           end
  end.

(** A directory has no more sectors than the volume. *)
Definition walk_fuel (g : geom) : nat :=
  Z.to_nat (root_sectors g + (cluster_count g + 2) * sectors_per_cluster g + 1).

(** [for (idx = 0; more; idx++) { lba = dir_sector_lba(dir, idx); ... for 16
    entries: body }] *)
Fixpoint dir_walk {A} (fuel : nat) (idx dir : Z) (more : A → bool)
    (body : Z → Z → list Z → A → verdict A) (a : A) : M (walk_end * A) :=
  match fuel with
  | O => ret (Endless, a)
  | S fuel =>
      if negb (more a) then ret (Stopped, a)
      else
        let* s := get in
        let lba := dir_sector_lba (geo s) (fat_cache s) dir idx in
        if lba =? 0 then ret (AtEnd, a)
        else
          let* r := read_sector lba in
          match r with
          | None => ret (Broken, a)
          | Some sec =>
              match scan_sector 16 0 (body lba) sec a with
              | Stop a => ret (Stopped, a)
              | Go a => dir_walk fuel (idx + 1) dir more body a
              end
          end
  end.

Definition walk {A} (dir : Z) (more : A → bool) (body : Z → Z → list Z → A → verdict A) (a : A)
    : M (walk_end * A) :=
  let* s := get in dir_walk (walk_fuel (geo s)) 0 dir more body a.

Definition always {A} (_ : A) : bool := true.

(** The entry's sector, byte offset and copy. *)
Definition found : Type := Z * Z * list Z.

Definition find_body (name83 : list Z) (lba e : Z) (ent : list Z) (a : option found) : verdict (option found) :=
  if arr_get ent 0 =? 0x00 then Stop None
  else if ent_skip ent then Go None
  else if bool_decide (take 11 ent = name83) then Stop (Some (lba, e * 32, ent))
  else Go None.

Definition dir_find (dir : Z) (name83 : list Z) : M (option found) :=
  let* r := walk dir always (find_body name83) None in ret r.2.

(** [while (fat_get(c) >= 2 && fat_get(c) < EOC) c = fat_get(c);] *)
Fixpoint last_cluster (fuel : nat) (c : Z) (fat : list Z) : Z :=
  match fuel with
  | O => c
  | S fuel => if in_chain (fat_get fat c) then last_cluster fuel (fat_get fat c) fat else c
  end.

(** [for (s = 0; s < n; s++) write_fs(lba + s, 1, sec);] *)
Fixpoint fill_sectors (n : nat) (lba : Z) (sec : list Z) : M unit :=
  match n with
  | O => ret tt
  | S n => write_sector lba sec ;;; fill_sectors n (lba + 1) sec
  end.

(** The first free slot of a sector. *)
Definition slot_body (e : Z) (ent : list Z) (a : option Z) : verdict (option Z) :=
  if (arr_get ent 0 =? 0x00) || (arr_get ent 0 =? 0xE5) then Stop (Some e) else Go None.

(** Out of fuel, the chain is cyclic and full and the C loop does not end. *)
Fixpoint dir_add_loop (fuel : nat) (idx dir : Z) (entry : list Z) : M Z :=
  match fuel with
  | O => ret (-1)
  | S fuel =>
      let* s := get in
      let lba := dir_sector_lba (geo s) (fat_cache s) dir idx in
      if lba =? 0 then
        if dir =? 0 then ret (-1)
        else
          let c := last_cluster free_fuel dir (fat_cache s) in
          let* nc := alloc_cluster in
          if nc =? 0 then ret (-1)
          else
            fatPut c nc ;;;
            fat_flush ;;;
            fill_sectors (Z.to_nat (sectors_per_cluster (geo s))) (cluster_lba (geo s) nc)
              (replicate 512 0) ;;;
            write_sector (cluster_lba (geo s) nc) (splice (replicate 512 0) 0 entry) ;;;
            ret 0
      else
        let* r := read_sector lba in
        match r with
        | None => ret (-1)
        | Some sec =>
            match scan_sector 16 0 slot_body sec None with
            | Stop (Some e) =>
                let* ok := write_sector lba (splice sec (32 * e) entry) in
                ret (if ok then 0 else -1)
            | _ => dir_add_loop fuel (idx + 1) dir entry
            end
        end
  end.

Definition dir_add (dir : Z) (entry : list Z) : M Z :=
  let* s := get in dir_add_loop (walk_fuel (geo s)) 0 dir entry.

(** The next reading of the clock. *)
Definition rtc_now : M rtc_time :=
  λ s, (MkFs (dev s) (geo s) (fat_cache s) (mounted s) (cwd_cluster s) (cwd_path s)
          (tl (clock s)) (printed s),
        match clock s with t :: _ => t | [] => RtcTime 2000 1 1 0 0 0 end).

Definition make_entry (name83 : list Z) (attr first_cluster size : Z) : M (list Z) :=
  let* t := rtc_now in ret (entry_bytes name83 attr first_cluster size t).

(** ** Mount *)

Definition fs_mounted : M bool := let* s := get in ret (mounted s).
Definition fs_cwd : M (list Z) := let* s := get in ret (cwd_path s).

Definition word_at (l : list Z) (i : Z) : Z := u16 (arr_get l i ||| (arr_get l (i + 1) <<< 8)).

Definition parse_bpb (bpb : list Z) (old : geom) : geom :=
  let bps := word_at bpb 11 in
  let spc := arr_get bpb 13 in
  let res := word_at bpb 14 in
  let nf := arr_get bpb 16 in
  let re := word_at bpb 17 in
  let ts := word_at bpb 19 in
  let spf := word_at bpb 22 in
  if negb (bps =? 512) || (spc =? 0) || (nf =? 0) || (2 <? nf) then
    Geom bps spc res nf re spf ts (fat_start old) (root_start old) (root_sectors old)
      (data_start old) (cluster_count old)
  else
    let rs := u32 (res + nf * spf) in
    let rsec := u32 (re * 32 + 511) / 512 in
    let ds := u32 (rs + rsec) in
    Geom bps spc res nf re spf ts res rs rsec ds (u32 (ts - ds) / spc).

Definition bpb_ok (g : geom) : bool :=
  negb (negb (bytes_per_sector g =? 512) || (sectors_per_cluster g =? 0) ||
        (num_fats g =? 0) || (2 <? num_fats g)).

Definition count_body (lba e : Z) (ent : list Z) (n : Z) : verdict Z :=
  if arr_get ent 0 =? 0x00 then Stop n
  else if ent_hidden ent then Go n
  else Go (n + 1).

Definition root_path : list Z := 47 :: replicate 127 0.
(** [cwd_path[0] = '/'; cwd_path[1] = '\0';] *)
Definition set_root_path (p : list Z) : list Z := arr_set (arr_set p 0 47) 1 0.

(** [kmalloc_ok] says whether the allocation of the FAT cache succeeds. *)
Definition fs_init (kmalloc_ok : bool) : M Z :=
  upd (with_mounted false) ;;;
  let* r := read_sector 0 in
  match r with
  | None => floppy_motor_off ;;; ret (-1)
  | Some bpb =>
      upd (λ s, with_geo (parse_bpb bpb (geo s)) s) ;;;
      let* s := get in
      if negb (bpb_ok (geo s)) then floppy_motor_off ;;; ret (-1)
      else
        if negb kmalloc_ok then floppy_motor_off ;;; ret (-1)
        else
        let* f := read_fs (fat_start (geo s)) (Z.to_nat (sectors_per_fat (geo s))) in
        match f with
        | None => floppy_motor_off ;;; ret (-1)
        | Some f =>
            upd (with_fat f) ;;;
            floppy_motor_off ;;;
            upd (with_mounted true) ;;;
            upd (λ s, with_cwd 0 (set_root_path (cwd_path s)) s) ;;;
            let* r := walk 0 always count_body 0 in
            floppy_motor_off ;;; ret r.2
        end
  end.

(** ** ls *)

(** [struct fs_dirent] *)
Record fs_dirent := Dirent { d_name : list Z; d_is_dir : bool; d_size : Z; d_cluster : Z }.

Definition fs_root_cluster : Z := 0.

Definition to_dirent (ent : list Z) : fs_dirent :=
  Dirent (entry_name ent) (ent_is_dir ent) (ent_size ent) (ent_cluster ent).

Definition readdir_body (max : Z) (lba e : Z) (ent : list Z) (out : list fs_dirent)
    : verdict (list fs_dirent) :=
  if max <=? zlen out then Stop out
  else if arr_get ent 0 =? 0x00 then Stop out
  else if ent_hidden ent then Go out
  else if ent_dot ent then Go out
  else Go (out ++ [to_dirent ent]).

Definition fs_readdir (cluster max : Z) : M (list fs_dirent) :=
  let* s := get in
  if negb (mounted s) || (max <=? 0) then ret []
  else
    let* r := walk cluster (λ out, zlen out <? max) (readdir_body max) [] in
    floppy_motor_off ;;; ret r.2.

Definition list_line (ent : list Z) : list con_call :=
  let name := entry_name ent in
  con_write (str "  ") ++ [CColor VGA_LIGHT_CYAN VGA_BLACK] ++ con_write name ++
  [CColor VGA_LIGHT_GREY VGA_BLACK] ++ con_write (replicate (14 - length name) 32) ++
  (if ent_is_dir ent then con_write (str "<DIR>")
   else con_dec (ent_size ent) ++ con_write (str " bytes")) ++ [CPutc 10].

Definition list_body (lba e : Z) (ent : list Z) (a : Z * list con_call) : verdict (Z * list con_call) :=
  if arr_get ent 0 =? 0x00 then Stop a
  else if ent_hidden ent then Go a
  else if ent_dot ent then Go a
  else Go (a.1 + 1, a.2 ++ list_line ent).

Definition fs_list : M unit :=
  let* s := get in
  if negb (mounted s) then say (str "ls: no filesystem mounted" ++ nl)
  else
    let* r := walk (cwd_cluster s) always list_body (0, []) in
    upd (print r.2.2) ;;;
    floppy_motor_off ;;;
    upd (print (con_write (str "  ") ++ con_dec r.2.1 ++
      con_write (if r.2.1 =? 1 then str " entry" ++ nl else str " entries" ++ nl))).

(** ** Reading files *)

(** One cluster: up to [n] sectors while bytes remain; the data read, what
    remains, and whether every read succeeded. *)
Fixpoint read_cluster (n : nat) (lba remaining : Z) (acc : list Z) : M (bool * list Z * Z) :=
  match n with
  | O => ret (true, acc, remaining)
  | S n =>
      if remaining <=? 0 then ret (true, acc, remaining)
      else
        let* r := read_sector lba in
        match r with
        | None => ret (false, acc, remaining)
        | Some sec =>
            let m := if remaining <? 512 then remaining else 512 in
            read_cluster n (lba + 1) (remaining - m) (acc ++ take (Z.to_nat m) sec)
        end
  end.

(** [guard++ < 8192] *)
Definition READ_GUARD : nat := Z.to_nat 8192.

(** The cluster loop; [guard] is the source's own limit of rounds. *)
Fixpoint read_chain (guard : nat) (cluster remaining : Z) (acc : list Z) : M (bool * list Z) :=
  match guard with
  | O => ret (true, acc)
  | S guard =>
      if in_chain cluster && (0 <? remaining) then
        let* s := get in
        let* r := read_cluster (Z.to_nat (sectors_per_cluster (geo s))) (cluster_lba (geo s) cluster)
                    remaining acc in
        let '(ok, acc, remaining) := r in
        if negb ok then ret (false, acc)
        else
          let* s := get in
          read_chain guard (fat_get (fat_cache s) cluster) remaining acc
      else ret (true, acc)
  end.

Definition fs_cat (name : list Z) : M Z :=
  let* s := get in
  if negb (mounted s) then say (str "cat: no filesystem mounted" ++ nl) ;;; ret 0
  else
    let* r := dir_find (cwd_cluster s) (to_83 name) in
    match r with
    | None => floppy_motor_off ;;; ret (-1)
    | Some (_, _, ent) =>
        if ent_is_dir ent then
          say (str "cat: is a directory" ++ nl) ;;; floppy_motor_off ;;; ret 0
        else
          let* r := read_chain READ_GUARD (ent_cluster ent) (ent_size ent) [] in
          say r.2 ;;; floppy_motor_off ;;; ret 0
    end.

(** The return value and the bytes stored at [buf]. *)
Definition fs_read (name : list Z) (maxlen : Z) : M (Z * list Z) :=
  let* s := get in
  if negb (mounted s) then ret (-1, [])
  else
    let* r := dir_find (cwd_cluster s) (to_83 name) in
    match r with
    | None => floppy_motor_off ;;; ret (-1, [])
    | Some (_, _, ent) =>
        if ent_is_dir ent then floppy_motor_off ;;; ret (-1, [])
        else if maxlen <? ent_size ent then floppy_motor_off ;;; ret (-1, [])
        else
          let* r := read_chain READ_GUARD (ent_cluster ent) (ent_size ent) [] in
          floppy_motor_off ;;;
          ret (if r.1 then zlen r.2 else -1, r.2)
    end.

(** ** create / touch *)

(** The sectors of one new cluster: the next 512 bytes of the data, or zeros. *)
Fixpoint write_cluster (n : nat) (lba : Z) (data : list Z) : M (list Z) :=
  match n with
  | O => ret data
  | S n =>
      write_sector lba (splice (replicate 512 0) 0 (take 512 data)) ;;;
      write_cluster n (lba + 1) (drop 512 data)
  end.

(** [while (written < len)]: allocate, link, write.  The result is the first
    cluster, or nothing when the disk is full. *)
Fixpoint create_loop (fuel : nat) (first prev : Z) (data : list Z) : M (option Z) :=
  match fuel with
  | O => ret (Some first)
  | S fuel =>
      match data with
      | [] => ret (Some first)
      | _ =>
          let* c := alloc_cluster in
          if c =? 0 then
            free_chain first ;;; fat_flush ;;; floppy_motor_off ;;;
            say (str "create: disk full" ++ nl) ;;; ret None
          else
            let first := if first =? 0 then c else first in
            (if negb (prev =? 0) then fatPut prev c else ret tt) ;;;
            let* s := get in
            let* rest := write_cluster (Z.to_nat (sectors_per_cluster (geo s)))
                           (cluster_lba (geo s) c) data in
            create_loop fuel first c rest
      end
  end.

(** The in-place update of an existing entry; read errors are ignored, and then
    the buffer holds what it held before. *)
Definition rewrite_sector (lba : Z) (f : list Z → list Z) : M unit :=
  let* r := read_sector lba in
  write_sector lba (f (match r with Some sec => sec | None => junk end)) ;;; ret tt.

(** What [fs_create] does once the name has been looked up. *)
Definition create_file (name83 : list Z) (existing : option found) (data : list Z) : M Z :=
  (match existing with
   | Some (_, _, ent) => free_chain (ent_cluster ent)
   | None => ret tt
   end) ;;;
  let* first := create_loop (length data) 0 0 data in
  match first with
  | None => ret (-1)
  | Some first =>
      fat_flush ;;;
      let* entry := make_entry name83 ATTR_FILE first (zlen data) in
      match existing with
      | Some (lba, off, _) =>
          rewrite_sector lba (λ sec, splice sec off entry) ;;;
          floppy_motor_off ;;; ret 0
      | None =>
          let* s := get in
          let* r := dir_add (cwd_cluster s) entry in
          if negb (r =? 0) then
            free_chain first ;;; fat_flush ;;; floppy_motor_off ;;;
            say (str "create: directory full" ++ nl) ;;; ret (-1)
          else floppy_motor_off ;;; ret 0
      end
  end.

Definition fs_create (name data : list Z) : M Z :=
  let* s := get in
  if negb (mounted s) then say (str "no filesystem mounted" ++ nl) ;;; ret (-1)
  else
    let* existing := dir_find (cwd_cluster s) (to_83 name) in
    match existing with
    | Some (_, _, ent) =>
        if ent_is_dir ent then
          say (str "create: is a directory" ++ nl) ;;; floppy_motor_off ;;; ret (-1)
        else create_file (to_83 name) existing data
    | None => create_file (to_83 name) existing data
    end.

(** ** mkdir *)

Definition dot : list Z := pad 11 [chr "."].
Definition dotdot : list Z := pad 11 [chr "."; chr "."].

Definition fs_mkdir (name : list Z) : M Z :=
  let* s := get in
  if negb (mounted s) then say (str "no filesystem mounted" ++ nl) ;;; ret (-1)
  else
    let* r := dir_find (cwd_cluster s) (to_83 name) in
    match r with
    | Some _ => say (str "mkdir: already exists" ++ nl) ;;; floppy_motor_off ;;; ret (-1)
    | None =>
        let* nc := alloc_cluster in
        if nc =? 0 then say (str "mkdir: disk full" ++ nl) ;;; floppy_motor_off ;;; ret (-1)
        else
          let* e1 := make_entry dot ATTR_DIR nc 0 in
          let* e2 := make_entry dotdot ATTR_DIR (cwd_cluster s) 0 in
          let* s := get in
          write_sector (cluster_lba (geo s) nc)
            (splice (splice (replicate 512 0) 0 e1) 32 e2) ;;;
          fill_sectors (Z.to_nat (sectors_per_cluster (geo s) - 1)) (cluster_lba (geo s) nc + 1)
            (replicate 512 0) ;;;
          fat_flush ;;;
          let* entry := make_entry (to_83 name) ATTR_DIR nc 0 in
          let* r := dir_add (cwd_cluster s) entry in
          if negb (r =? 0) then
            free_chain nc ;;; fat_flush ;;; floppy_motor_off ;;;
            say (str "mkdir: directory full" ++ nl) ;;; ret (-1)
          else floppy_motor_off ;;; ret 0
    end.

(** ** rm *)

(** [sec[off] = 0xE5] in the entry's sector. *)
Definition mark_deleted (lba off : Z) : M unit := rewrite_sector lba (λ sec, arr_set sec off 0xE5).

Definition fs_remove (name : list Z) : M Z :=
  let* s := get in
  if negb (mounted s) then ret (-1)
  else
    let* r := dir_find (cwd_cluster s) (to_83 name) in
    match r with
    | None => floppy_motor_off ;;; ret (-1)
    | Some (lba, off, ent) =>
        if ent_is_dir ent then
          say (str "rm: is a directory" ++ nl) ;;; floppy_motor_off ;;; ret 0
        else
          free_chain (ent_cluster ent) ;;; fat_flush ;;;
          mark_deleted lba off ;;; floppy_motor_off ;;; ret 0
    end.

(** The directory holds nothing but '.' and '..': an entry of any other name
    stops the walk with [false]. *)
Definition empty_body (lba e : Z) (ent : list Z) (a : bool) : verdict bool :=
  if arr_get ent 0 =? 0x00 then Stop true
  else if ent_skip ent then Go true
  else if ent_dot ent then Go true
  else Stop false.

Definition is_dot_name (name : list Z) : bool :=
  bool_decide (name = str ".") || bool_decide (name = str "..").

Definition fs_rmdir (name : list Z) : M Z :=
  let* s := get in
  if negb (mounted s) then ret (-1)
  else if is_dot_name name then
    say (str "rmdir: refusing to remove '.' or '..'" ++ nl) ;;; ret 0
  else
    let* r := dir_find (cwd_cluster s) (to_83 name) in
    match r with
    | None => floppy_motor_off ;;; ret (-1)
    | Some (lba, off, ent) =>
        if negb (ent_is_dir ent) then
          say (str "rmdir: not a directory" ++ nl) ;;; floppy_motor_off ;;; ret 0
        else
          let* r := walk (ent_cluster ent) always empty_body true in
          if negb r.2 then
            say (str "rmdir: directory not empty" ++ nl) ;;; floppy_motor_off ;;; ret 0
          else
            free_chain (ent_cluster ent) ;;; fat_flush ;;;
            mark_deleted lba off ;;; floppy_motor_off ;;; ret 0
    end.

(** ** rm -r *)

(** [rmrf_cluster] of depth [33 - depth]: the 16 entries of a sector, freeing
    each one's chain, subdirectories first. *)
Fixpoint rmrf_entries (recurse : Z → M unit) (n : nat) (e : Z) (sec : list Z) : M bool :=
  match n with
  | O => ret false
  | S n =>
      let ent := entry_at sec e in
      if arr_get ent 0 =? 0x00 then ret true
      else if ent_skip ent then rmrf_entries recurse n (e + 1) sec
      else if ent_dot ent then rmrf_entries recurse n (e + 1) sec
      else
        let c := ent_cluster ent in
        (if ent_is_dir ent then recurse c else ret tt) ;;;
        free_chain c ;;;
        rmrf_entries recurse n (e + 1) sec
  end.

Fixpoint rmrf_sectors (recurse : Z → M unit) (fuel : nat) (idx dir : Z) : M unit :=
  match fuel with
  | O => ret tt
  | S fuel =>
      let* s := get in
      let lba := dir_sector_lba (geo s) (fat_cache s) dir idx in
      if lba =? 0 then ret tt
      else
        let* r := read_sector lba in
        match r with
        | None => ret tt
        | Some sec =>
            let* stop := rmrf_entries recurse 16 0 sec in
            if stop : bool then ret tt else rmrf_sectors recurse fuel (idx + 1) dir
        end
  end.

(** [levels] counts the calls the depth guard still allows. *)
Fixpoint rmrf_cluster (levels : nat) (dir : Z) : M unit :=
  match levels with
  | O => ret tt
  | S levels =>
      let* s := get in rmrf_sectors (rmrf_cluster levels) (walk_fuel (geo s)) 0 dir
  end.

(** The guard [depth > 32] lets depths 0 to 32 run. *)
Definition RMRF_LEVELS : nat := 33.

Definition fs_rmrf (name : list Z) : M Z :=
  let* s := get in
  if negb (mounted s) then ret (-1)
  else if is_dot_name name then
    say (str "rm: refusing to remove '.' or '..'" ++ nl) ;;; ret 0
  else
    let* r := dir_find (cwd_cluster s) (to_83 name) in
    match r with
    | None => floppy_motor_off ;;; ret (-1)
    | Some (lba, off, ent) =>
        (if ent_is_dir ent then rmrf_cluster RMRF_LEVELS (ent_cluster ent) else ret tt) ;;;
        free_chain (ent_cluster ent) ;;; fat_flush ;;;
        mark_deleted lba off ;;; floppy_motor_off ;;; ret 0
    end.

(** ** cd / pwd *)

Definition cd_one (comp : list Z) : M Z :=
  if bool_decide (comp = []) || bool_decide (comp = str ".") then ret 0
  else if bool_decide (comp = str "..") then
    let* s := get in
    if cwd_cluster s =? 0 then ret 0
    else
      let* r := dir_find (cwd_cluster s) dotdot in
      match r with
      | None => ret (-1)
      | Some (_, _, ent) =>
          upd (λ s, with_cwd (ent_cluster ent) (path_pop (cwd_path s)) s) ;;; ret 0
      end
  else
    let* s := get in
    let* r := dir_find (cwd_cluster s) (to_83 comp) in
    match r with
    | None => ret (-1)
    | Some (_, _, ent) =>
        if negb (ent_is_dir ent) then ret (-1)
        else upd (λ s, with_cwd (ent_cluster ent) (path_push comp (cwd_path s)) s) ;;; ret 0
    end.

(** The component loop; every round consumes a character of what is left. *)
Fixpoint cd_loop (fuel : nat) (p : list Z) : M Z :=
  match fuel with
  | O => ret 0
  | S fuel =>
      match p with
      | [] => ret 0
      | _ =>
          let '(comp, rest) := split_comp p in
          let comp := take 12 comp in
          let rest := skip_slashes rest in
          if bool_decide (comp = []) then cd_loop fuel rest
          else
            let* r := cd_one comp in
            if negb (r =? 0) then ret (-1) else cd_loop fuel rest
      end
  end.

Definition fs_cd (path : list Z) : M Z :=
  let* s := get in
  if negb (mounted s) then ret (-1)
  else
    match path with
    | [] => ret 0
    | c :: _ =>
        (if c =? 47 then upd (λ s, with_cwd 0 (set_root_path (cwd_path s)) s) else ret tt) ;;;
        let* r := cd_loop (length path) (if c =? 47 then skip_slashes path else path) in
        if negb (r =? 0) then
          upd (with_cwd (cwd_cluster s) (cwd_path s)) ;;;
          say (str "cd: no such directory: ") ;;; say path ;;; upd (print [CPutc 10]) ;;;
          floppy_motor_off ;;; ret (-1)
        else floppy_motor_off ;;; ret 0
    end.

Definition fs_pwd : M unit :=
  let* s := get in say (c_string (cwd_path s)) ;;; upd (print [CPutc 10]).

Definition fs_read_path (path : list Z) (maxlen : Z) : M (Z * list Z) :=
  let* s := get in
  if negb (mounted s) then ret (-1, [])
  else
    match split_last path with
    | None => fs_read path maxlen
    | Some (d, file) =>
        let dir := match d with [] => [47] | _ => take 126 d end in
        let* r := fs_cd dir in
        let* n := (if r =? 0 then fs_read file maxlen else ret (-1, [])) in
        upd (with_cwd (cwd_cluster s) (cwd_path s)) ;;;
        ret n
    end.

(** ** Tab completion *)

(** How many entries match so far, and the string in [out]. *)
Definition complete_body (up : list Z) (outsize lba e : Z) (ent : list Z) (a : Z * list Z)
    : verdict (Z * list Z) :=
  if arr_get ent 0 =? 0x00 then Stop a
  else if ent_hidden ent then Go a
  else if ent_dot ent then Go a
  else
    let name := entry_name ent in
    if negb (has_prefix up name) then Go a
    else if a.1 + 1 =? 1 then Go (a.1 + 1, take (Z.to_nat (u32 (outsize - 1))) name)
    else Go (a.1 + 1, common a.2 name).

Definition fs_complete (prefix : list Z) (outsize : Z) : M (Z * list Z) :=
  let up := List.map upper (take 12 prefix) in
  let* s := get in
  let* r := walk (cwd_cluster s) always (complete_body up outsize) (0, []) in
  floppy_motor_off ;;; ret r.2.

End Fat12.

Arguments Go {A}. Arguments Stop {A}.
