(* ===== verification/Fat12Table.v ===== *)
(** The file allocation table of [Fat12.v]: the packed 12-bit entries behave as
    an array, allocation takes the first free cluster, and freeing a chain frees
    exactly the chain. *)
From Stdlib Require Import ZArith Lia Bool.
From stdpp Require Import base numbers gmap option list.
From S2P Require Import Prelude Fat12.

#[local] Open Scope Z_scope.
#[local] Open Scope c_scope.

Definition bytes_ok (l : list Z) : Prop := Forall (λ b, 0 ≤ b < 256) l.

(** The table is made of bytes and has room for the clusters [2, ..., n - 1]. *)
Definition table_ok (n : Z) (fat : list Z) : Prop :=
  bytes_ok fat ∧ 2 ≤ n ≤ EOC ∧ 3 * n ≤ 2 * zlen fat.

(** ** Bytes *)

Lemma byte_at l i : bytes_ok l → 0 ≤ arr_get l i < 256.
Proof. apply (arr_get_Forall (λ b, 0 ≤ b < 256)). lia. Qed.

Lemma bytes_ok_set l i v : bytes_ok l → 0 ≤ v < 256 → bytes_ok (arr_set l i v).
Proof. intros. by apply (arr_set_Forall (λ b, 0 ≤ b < 256)). Qed.

Lemma join_bytes a b : 0 ≤ a < 256 → 0 ≤ b < 256 → a ||| (b <<< 8) = a + 256 * b.
Proof.
  intros. rewrite shiftl_mul by lia. rewrite (lor_disjoint_add _ _ 8); zlia.
Qed.

Lemma fat_word_bytes fat off :
  bytes_ok fat → fat_word fat off = arr_get fat off + 256 * arr_get fat (off + 1).
Proof.
  intros Hb. unfold fat_word.
  pose proof (byte_at fat off Hb). pose proof (byte_at fat (off + 1) Hb).
  rewrite join_bytes by done. apply u16_small. zpow. lia.
Qed.

Lemma cluster_cases c : (∃ k, c = 2 * k) ∨ (∃ k, c = 2 * k + 1).
Proof.
  destruct (Z.Even_or_Odd c) as [[k ->]|[k ->]]; [left|right]; by exists k.
Qed.

Lemma fat_off_even k : fat_off (2 * k) = 3 * k.
Proof. unfold fat_off. zlia. Qed.
Lemma fat_off_odd k : fat_off (2 * k + 1) = 3 * k + 1.
Proof. unfold fat_off. zlia. Qed.
Lemma odd_bit_even k : c_true (2 * k &&& 1) = false.
Proof.
  unfold c_true. rewrite (land_mask _ 1) by done. apply negb_false_iff, Z.eqb_eq. zlia.
Qed.
Lemma odd_bit_odd k : c_true ((2 * k + 1) &&& 1) = true.
Proof.
  unfold c_true. rewrite (land_mask _ 1) by done. apply negb_true_iff, Z.eqb_neq. zlia.
Qed.

(** Entry [2k] is byte [3k] and the low half of byte [3k + 1]; entry [2k + 1]
    the high half of that byte and byte [3k + 2]. *)
Lemma fat_get_even fat k :
  bytes_ok fat → fat_get fat (2 * k) = arr_get fat (3 * k) + 256 * (arr_get fat (3 * k + 1) mod 16).
Proof.
  intros Hb. unfold fat_get. rewrite odd_bit_even, fat_off_even, fat_word_bytes by done.
  pose proof (byte_at fat (3 * k) Hb). pose proof (byte_at fat (3 * k + 1) Hb).
  rewrite (land_mask _ 12) by done. zlia.
Qed.

Lemma fat_get_odd fat k :
  bytes_ok fat → fat_get fat (2 * k + 1) = arr_get fat (3 * k + 1) / 16 + 16 * arr_get fat (3 * k + 2).
Proof.
  intros Hb. unfold fat_get. rewrite odd_bit_odd, fat_off_odd, fat_word_bytes by done.
  replace (3 * k + 1 + 1) with (3 * k + 2) by lia.
  pose proof (byte_at fat (3 * k + 1) Hb). pose proof (byte_at fat (3 * k + 2) Hb).
  rewrite shiftr_div by lia. zlia.
Qed.

Lemma fat_get_range fat c : bytes_ok fat → 0 ≤ fat_get fat c < 4096.
Proof.
  intros Hb. destruct (cluster_cases c) as [[k ->]|[k ->]].
  - rewrite fat_get_even by done. pose proof (byte_at fat (3 * k) Hb). zlia.
  - rewrite fat_get_odd by done. pose proof (byte_at fat (3 * k + 1) Hb).
    pose proof (byte_at fat (3 * k + 2) Hb). zlia.
Qed.

(** The two bytes [fat_put] stores. *)
Definition put_bytes (c v : Z) (fat : list Z) : Z * Z :=
  let b0 := arr_get fat (fat_off c) in
  let b1 := arr_get fat (fat_off c + 1) in
  if c_true (c &&& 1) then (b0 mod 16 + 16 * (v mod 16), v / 16)
  else (v mod 256, b1 / 16 * 16 + v / 256).

Lemma fat_put_bytes c v fat :
  bytes_ok fat → 0 ≤ v < 4096 →
  fat_put c v fat = arr_set (arr_set fat (fat_off c) (put_bytes c v fat).1)
                      (fat_off c + 1) (put_bytes c v fat).2.
Proof.
  intros Hb Hv. unfold fat_put, put_bytes. rewrite fat_word_bytes by done.
  pose proof (byte_at fat (fat_off c) Hb) as H0. pose proof (byte_at fat (fat_off c + 1) Hb) as H1.
  set (b0 := arr_get fat (fat_off c)) in *. set (b1 := arr_get fat (fat_off c + 1)) in *. clearbody b0 b1.
  destruct (c_true (c &&& 1)); cbn [fst snd].
  - assert (u16 (((b0 + 256 * b1) &&& 15) ||| (v <<< 4)) = b0 mod 16 + 16 * v) as E.
    { rewrite (land_mask _ 4), shiftl_mul by done. rewrite (lor_disjoint_add _ _ 4) by zlia.
      rewrite u16_small by zlia. zlia. }
    change (2 ^ 8) with 256 in *. rewrite E. rewrite (land_mask _ 8), shiftr_div by done.
    f_equal; [f_equal|]; zlia.
  - assert ((b0 + 256 * b1) &&& 61440 = 4096 * (b1 / 16)) as Em.
    { change 61440 with (Z.shiftl 15 12). apply Z.bits_inj_iff. intros n.
      replace (4096 * (b1 / 16)) with ((((b0 + 256 * b1) >>> 12) &&& 15) <<< 12).
      2:{ rewrite (land_mask _ 4), shiftr_div, shiftl_mul by done. zlia. }
      destruct (Z.lt_ge_cases n 0); [by rewrite !Z.testbit_neg_r|].
      rewrite Z.land_spec, !Z.shiftl_spec by lia.
      destruct (Z.lt_ge_cases n 12); [by rewrite !(Z.testbit_neg_r _ (n - 12)), andb_false_r by lia|].
      rewrite Z.land_spec, Z.shiftr_spec by lia. do 2 f_equal. lia. }
    assert (u16 (((b0 + 256 * b1) &&& 61440) ||| (v &&& 4095)) = 4096 * (b1 / 16) + v) as E.
    { rewrite Em, (land_mask _ 12) by done. rewrite Z.lor_comm.
      rewrite (lor_disjoint_add _ _ 12) by (clear Em H0 H1; zlia). rewrite (Z.mod_small v) by (zpow; lia).
      rewrite Z.add_comm. apply u16_small. clear Em; zlia. }
    rewrite E. rewrite (land_mask _ 8), shiftr_div by done. f_equal; [f_equal|]; zlia.
Qed.

Lemma put_bytes_range c v fat :
  bytes_ok fat → 0 ≤ v < 4096 →
  0 ≤ (put_bytes c v fat).1 < 256 ∧ 0 ≤ (put_bytes c v fat).2 < 256.
Proof.
  intros Hb Hv. unfold put_bytes.
  pose proof (byte_at fat (fat_off c) Hb). pose proof (byte_at fat (fat_off c + 1) Hb).
  destruct (c_true _); cbn [fst snd]; zlia.
Qed.

Lemma fat_put_ok c v fat : bytes_ok fat → 0 ≤ v < 4096 → bytes_ok (fat_put c v fat).
Proof.
  intros Hb Hv. rewrite fat_put_bytes by done. destruct (put_bytes_range c v fat Hb Hv).
  by repeat apply bytes_ok_set.
Qed.

Lemma length_fat_put c v fat : length (fat_put c v fat) = length fat.
Proof. unfold fat_put. by rewrite !length_arr_set. Qed.

Lemma table_ok_put n c v fat : table_ok n fat → 0 ≤ v < 4096 → table_ok n (fat_put c v fat).
Proof.
  intros (Hb & Hn & Hz) Hv. split; [by apply fat_put_ok|]. unfold zlen in *.
  by rewrite length_fat_put.
Qed.

Lemma fat_get_put_eq n fat c v :
  table_ok n fat → 0 ≤ c < n → 0 ≤ v < 4096 → fat_get (fat_put c v fat) c = v.
Proof.
  intros (Hb & Hn & Hz) Hc Hv. pose proof (fat_put_ok c v fat Hb Hv) as Hb'.
  destruct (cluster_cases c) as [[k ->]|[k ->]].
  - rewrite fat_get_even by done. rewrite fat_put_bytes by done. unfold put_bytes.
    rewrite odd_bit_even, fat_off_even. cbn [fst snd].
    rewrite arr_get_set_ne by lia. rewrite !arr_get_set_eq by (rewrite ?zlen_arr_set; lia). zlia.
  - rewrite fat_get_odd by done. rewrite fat_put_bytes by done. unfold put_bytes.
    rewrite odd_bit_odd, fat_off_odd. cbn [fst snd].
    replace (3 * k + 1 + 1) with (3 * k + 2) by lia.
    rewrite arr_get_set_ne by lia. rewrite !arr_get_set_eq by (rewrite ?zlen_arr_set; lia).
    pose proof (byte_at fat (3 * k + 1) Hb). zlia.
Qed.

Lemma fat_get_put_ne n fat c d v :
  table_ok n fat → 0 ≤ c < n → 0 ≤ v < 4096 → c ≠ d → fat_get (fat_put c v fat) d = fat_get fat d.
Proof.
  intros (Hb & Hn & Hz) Hc Hv Hne. pose proof (fat_put_ok c v fat Hb Hv) as Hb'.
  destruct (cluster_cases d) as [[k ->]|[k ->]]; destruct (cluster_cases c) as [[j ->]|[j ->]];
    rewrite ?fat_get_even, ?fat_get_odd by done; rewrite fat_put_bytes by done; unfold put_bytes;
    rewrite ?odd_bit_even, ?odd_bit_odd, ?fat_off_even, ?fat_off_odd; cbn [fst snd].
  - by rewrite !arr_get_set_ne by lia.
  - destruct (Z.eq_dec j k) as [->|].
    + rewrite !(arr_get_set_ne _ _ (3 * k)) by lia.
      rewrite (arr_get_set_ne _ _ (3 * k + 1)) by lia. rewrite arr_get_set_eq by lia. zlia.
    + by rewrite !arr_get_set_ne by lia.
  - destruct (Z.eq_dec j k) as [->|].
    + rewrite !(arr_get_set_ne _ _ (3 * k + 2)) by lia.
      rewrite arr_get_set_eq by (rewrite zlen_arr_set; lia).
      pose proof (byte_at fat (3 * k + 1) Hb). zlia.
    + by rewrite !arr_get_set_ne by lia.
  - by rewrite !arr_get_set_ne by lia.
Qed.

(** The one equation the rest uses. *)
Lemma fat_get_put n fat c d v :
  table_ok n fat → 0 ≤ c < n → 0 ≤ v < 4096 →
  fat_get (fat_put c v fat) d = if d =? c then v else fat_get fat d.
Proof.
  intros. destruct (Z.eqb_spec d c) as [->|]; [by eapply fat_get_put_eq|by eapply fat_get_put_ne].
Qed.

(** ** Allocation *)

Lemma alloc_in_spec count fat f c :
  table_ok (count + 2) fat → 0 ≤ count → alloc_in count fat = (f, c) →
  (c = 0 ∧ f = fat ∧ ∀ d, 2 ≤ d < count + 2 → fat_get fat d ≠ 0) ∨
  (2 ≤ c < count + 2 ∧ fat_get fat c = 0 ∧ f = fat_put c 0xFFF fat ∧
   ∀ d, 2 ≤ d < c → fat_get fat d ≠ 0).
Proof.
  intros (Hb & Hn & Hz) Hc. unfold alloc_in. rewrite u32_small by (unfold EOC in *; zpow; lia).
  destruct (find_range _ _ _) as [c'|] eqn:E; intros [= <- <-].
  - right. apply find_range_Some in E as (i & Hi & Hg & Hmin).
    destruct (Z.eqb_spec (fat_get fat i) 0) as [E0|]; [|done]. injection Hg as <-.
    split_and!; try done || lia. intros d Hd.
    specialize (Hmin d Hd). by destruct (Z.eqb_spec (fat_get fat d) 0).
  - left. split_and!; [done..|]. intros d Hd. pose proof (proj1 (find_range_None _ _ _) E d Hd) as H.
    cbv beta in H. by destruct (Z.eqb_spec (fat_get fat d) 0).
Qed.

(** ** Chains

    [chain n fat c cl]: following the table from [c] visits exactly [cl], all of
    it inside the volume and in use, and then leaves the range of links. *)

Fixpoint chain (n : Z) (fat : list Z) (c : Z) (cl : list Z) : Prop :=
  match cl with
  | [] => in_chain c = false
  | x :: cl => x = c ∧ 2 ≤ c < n ∧ fat_get fat c ≠ 0 ∧ chain n fat (fat_get fat c) cl
  end.

Lemma in_chain_true n c : 2 ≤ c < n → n ≤ EOC → in_chain c = true.
Proof. unfold in_chain. intros. apply andb_true_iff. lia. Qed.

Lemma chain_in n fat c cl x : chain n fat c cl → x ∈ cl → 2 ≤ x < n ∧ fat_get fat x ≠ 0.
Proof.
  revert c. induction cl as [|y cl IH]; intros c; simpl; [by intros _ ?%elem_of_nil|].
  intros (-> & Hc & Hz & Hcl) [->|Hx]%elem_of_cons; [done|]. by eapply IH.
Qed.

Lemma chain_det n fat c cl cl' :
  n ≤ EOC → chain n fat c cl → chain n fat c cl' → cl = cl'.
Proof.
  intros Hn. revert c cl'. induction cl as [|y cl IH]; intros c [|y' cl']; simpl; [done| | |].
  - intros H1 (_ & H2 & _). by rewrite (in_chain_true n) in H1.
  - intros (_ & H2 & _) H1. by rewrite (in_chain_true n) in H1.
  - intros (-> & _ & _ & H1) (-> & _ & _ & H2). f_equal. by eapply IH.
Qed.

Lemma chain_suffix n fat c l1 x l2 :
  chain n fat c (l1 ++ x :: l2) → chain n fat x (x :: l2).
Proof.
  revert c. induction l1 as [|y l1 IH]; intros c; simpl.
  - by intros (-> & H).
  - intros (_ & _ & _ & H). by eapply IH.
Qed.

Lemma chain_NoDup n fat c cl : n ≤ EOC → chain n fat c cl → NoDup cl.
Proof.
  intros Hn. revert c. induction cl as [|y cl IH]; intros c H; [constructor|].
  pose proof H as (-> & Hc & Hz & Hcl). constructor; [|by eapply IH].
  intros Hin. apply list_elem_of_split in Hin as (l1 & l2 & ->).
  pose proof (chain_suffix _ _ _ _ _ _ Hcl) as H2.
  pose proof (chain_det _ _ _ _ _ Hn H H2) as E. injection E as E.
  apply (f_equal length) in E. rewrite length_app in E. simpl in E. lia.
Qed.

Lemma chain_ext n fat fat' c cl :
  (∀ d, d ∈ cl → fat_get fat' d = fat_get fat d) → chain n fat c cl → chain n fat' c cl.
Proof.
  revert c. induction cl as [|y cl IH]; intros c Hext; simpl; [done|].
  intros (-> & Hc & Hz & Hcl). rewrite Hext by left. do 3 (split; [done|]).
  apply IH; [|done]. intros d Hd. apply Hext. by right.
Qed.

(** A chain grows by a cluster linked behind its last. *)
Lemma chain_snoc n fat fat' c cl x nc :
  chain n fat c cl → last cl = Some x → 2 ≤ nc < n →
  (∀ d, d ∈ cl → d ≠ x → fat_get fat' d = fat_get fat d) →
  NoDup cl → fat_get fat' x = nc → fat_get fat' nc ≠ 0 → in_chain (fat_get fat' nc) = false →
  chain n fat' c (cl ++ [nc]).
Proof.
  revert c. induction cl as [|y cl IH]; intros c Hch Hl Hnc Hext Hnd Hx Hz He; [done|].
  destruct Hch as (-> & Hc & Hz' & Hch). apply NoDup_cons in Hnd as [Hni Hnd].
  destruct cl as [|z cl].
  - injection Hl as ->. simpl. rewrite Hx. split_and!; try done; lia.
  - change (last (z :: cl) = Some x) in Hl.
    assert (x ∈ z :: cl) as Hin by (by apply last_Some_elem_of).
    assert (c ≠ x) as Hne by (by intros ->).
    change ((c :: z :: cl) ++ [nc]) with (c :: (z :: cl) ++ [nc]). cbn [chain].
    rewrite Hext by (done || left). do 3 (split; [done|]).
    apply IH; try done. intros d Hd. apply Hext. by right.
Qed.

Lemma last_cluster_spec n fat c cl fuel :
  n ≤ EOC → chain n fat c cl → 2 ≤ c < n → (length cl ≤ fuel)%nat → last cl = Some (last_cluster fuel c fat).
Proof.
  intros Hn. revert c fuel. induction cl as [|x cl IH]; intros c fuel Hch Hc Hf.
  { simpl in Hch. by rewrite (in_chain_true n) in Hch. }
  destruct Hch as (-> & _ & Hz & Hch). destruct fuel as [|fuel]; [simpl in Hf; lia|]. cbn [last_cluster].
  destruct cl as [|y cl].
  - simpl in Hch. by rewrite Hch.
  - pose proof Hch as (-> & Hy & _). rewrite (in_chain_true n) by done.
    rewrite last_cons_cons. apply IH; [done|done|simpl in *; lia].
Qed.

Lemma NoDup_range_length (l : list Z) lo hi :
  lo ≤ hi → NoDup l → (∀ x, x ∈ l → lo ≤ x < hi) → Z.of_nat (length l) ≤ hi - lo.
Proof.
  intros Hle Hnd Hl. assert (l ⊆+ seqZ lo (hi - lo)) as Hs.
  { apply NoDup_submseteq; [done|]. intros x Hx. apply elem_of_seqZ. specialize (Hl x Hx). lia. }
  apply submseteq_length in Hs. rewrite length_seqZ in Hs. lia.
Qed.

Lemma chain_length n fat c cl :
  2 ≤ n ≤ EOC → chain n fat c cl → Z.of_nat (length cl) ≤ n - 2.
Proof.
  intros Hn H. apply NoDup_range_length; [lia| |].
  - eapply chain_NoDup; [|done]. lia.
  - intros x Hx. by destruct (chain_in _ _ _ _ _ H Hx).
Qed.

Lemma chain_cons n fat c cl :
  n ≤ EOC → 2 ≤ c < n → chain n fat c cl → ∃ cl', cl = c :: cl'.
Proof.
  intros Hn Hc. destruct cl as [|y cl]; simpl.
  - intros H. by rewrite (in_chain_true n) in H.
  - intros (-> & _). by eexists.
Qed.

(** ** Freeing *)

Lemma free_loop_spec n fat c cl fuel :
  table_ok n fat → chain n fat c cl → (length cl ≤ fuel)%nat →
  ∃ f, free_chain_loop fuel c fat = Some f ∧ table_ok n f ∧ length f = length fat ∧
  ∀ d, fat_get f d = if decide (d ∈ cl) then 0 else fat_get fat d.
Proof.
  revert n fat c fuel. induction cl as [|x cl IH]; intros n fat c fuel Hok Hch Hf.
  - simpl in Hch. exists fat. split; [destruct fuel; simpl; by rewrite Hch|done].
  - pose proof (chain_NoDup _ _ _ _ (proj2 (proj1 (proj2 Hok))) Hch) as Hnd.
    apply NoDup_cons in Hnd as [Hni Hnd].
    destruct Hch as (-> & Hc & Hz & Hcl). destruct fuel as [|fuel]; [simpl in Hf; lia|].
    simpl. rewrite (in_chain_true n) by (destruct Hok; lia).
    assert (∀ d, fat_get (fat_put c 0 fat) d = if d =? c then 0 else fat_get fat d) as Hput
      by (intros; apply (fat_get_put n); [done|lia..]).
    destruct (IH n (fat_put c 0 fat) (fat_get fat c) fuel) as (f & Ef & Ht & Hl & Hg).
    + by apply table_ok_put.
    + eapply chain_ext; [|done]. intros d Hd. rewrite Hput.
      destruct (Z.eqb_spec d c) as [->|]; [done|done].
    + simpl in Hf. lia.
    + exists f. split_and!; [done|done| |].
      * by rewrite Hl, length_fat_put.
      * intros d. rewrite Hg, Hput.
        destruct (decide (d ∈ cl)) as [Hd|Hd]; destruct (decide (d ∈ c :: cl)) as [Hd'|Hd'].
        -- done.
        -- exfalso. apply Hd'. by right.
        -- apply elem_of_cons in Hd' as [->|]; [|done]. by rewrite Z.eqb_refl.
        -- destruct (Z.eqb_spec d c) as [->|]; [|done]. exfalso. apply Hd'. left.
Qed.

Lemma free_fuel_enough n fat c cl :
  2 ≤ n ≤ EOC → chain n fat c cl → (length cl ≤ free_fuel)%nat.
Proof.
  intros Hn H. pose proof (chain_length _ _ _ _ Hn H). unfold free_fuel, EOC in *. lia.
Qed.

Definition links_ok (n : Z) (fat : list Z) : Prop :=
  ∀ d, 2 ≤ d < n → in_chain (fat_get fat d) = true → fat_get fat d < n.

(** From [c] the links of the table lead through [cl] to [stop]. *)
Fixpoint follows (fat : list Z) (c : Z) (cl : list Z) (stop : Z) : Prop :=
  match cl with [] => stop = c | x :: cl => x = c ∧ follows fat (fat_get fat c) cl stop end.

(** The loop in the middle: the clusters [pre] have been cleared. *)
Lemma free_loop_walks n fat F c pre fuel :
  table_ok n F → links_ok n fat → (∀ d, fat_get F d = if decide (d ∈ pre) then 0 else fat_get fat d) →
  (in_chain c = true → c < n) → NoDup pre → (∀ x, x ∈ pre → 2 ≤ x < n) →
  n - 1 ≤ Z.of_nat (length pre) + Z.of_nat fuel →
  ∃ f cl stop, free_chain_loop fuel c F = Some f ∧ follows fat c cl stop ∧ NoDup cl ∧
    (∀ x, x ∈ cl → 2 ≤ x < n ∧ x ∉ pre) ∧ (in_chain stop = false ∨ stop ∈ pre ∨ stop ∈ cl) ∧
    ∀ d, fat_get f d = if decide (d ∈ cl) then 0 else fat_get F d.
Proof.
  revert F c pre. induction fuel as [|fuel IH]; intros F c pre Hok Hl HF Hc Hnd Hpre Hm.
  - pose proof (proj1 (proj2 Hok)) as Hn.
    assert (Z.of_nat (length pre) ≤ n - 2) by (apply NoDup_range_length; [lia|done|done]). lia.
  - cbn [free_chain_loop]. destruct (in_chain c) eqn:Ec.
    2: { exists F, [], c. split_and!; [done|done|constructor|by intros x ?%elem_of_nil|by left|].
      intros d. rewrite decide_False; [done|]. by intros ?%elem_of_nil. }
    specialize (Hc eq_refl). assert (2 ≤ c) as Hc2 by (unfold in_chain in Ec; lia).
    assert (∀ d, fat_get (fat_put c 0 F) d = if d =? c then 0 else fat_get F d) as Hput
      by (intros; apply (fat_get_put n); [done|lia..]).
    destruct (decide (c ∈ pre)) as [Hin|Hin].
    + exists (fat_put c 0 F), [], c. rewrite HF, decide_True by done.
      split_and!; [by destruct fuel|done|constructor|by intros x ?%elem_of_nil|by right; left|].
      intros d. rewrite decide_False by (by intros ?%elem_of_nil). rewrite Hput.
      destruct (Z.eqb_spec d c) as [->|]; [|done]. by rewrite HF, decide_True.
    + assert (fat_get F c = fat_get fat c) as Ecc by (by rewrite HF, decide_False).
      destruct (IH (fat_put c 0 F) (fat_get F c) (c :: pre)) as (f & cl & stop & Ef & Hw & Hn & Hcl & Hs & Hg).
      * by apply table_ok_put.
      * done.
      * intros d. rewrite Hput, HF. destruct (Z.eqb_spec d c) as [->|Hne]; [by rewrite decide_True by left|].
        destruct (decide (d ∈ pre)) as [Hd|Hd]; [by rewrite decide_True by (by right)|].
        rewrite decide_False; [done|]. by intros [?|?]%elem_of_cons.
      * rewrite Ecc. intros. by apply Hl.
      * by apply NoDup_cons.
      * intros x [->|?]%elem_of_cons; [lia|auto].
      * cbn [length]. lia.
      * exists f, (c :: cl), stop. split_and!; [done|split; [done|by rewrite <- Ecc]| | | |].
        -- apply NoDup_cons. split; [|done]. intros Hcc. destruct (Hcl c Hcc) as [_ Hno]. apply Hno. left.
        -- intros x [->|Hx]%elem_of_cons; [done|]. destruct (Hcl x Hx) as [? Hno]. split; [done|].
           intros ?. apply Hno. by right.
        -- destruct Hs as [?|[[->|?]%elem_of_cons|?]]; [by left|right; right; left|right; by left|right; right; by right].
        -- intros d. rewrite Hg, Hput. destruct (decide (d ∈ cl)) as [Hd|Hd].
           ++ by rewrite decide_True by (by right).
           ++ destruct (Z.eqb_spec d c) as [->|Hne]; [by rewrite decide_True by left|].
              rewrite (decide_False (P := d ∈ c :: cl)); [done|]. by intros [?|?]%elem_of_cons.
Qed.

(** ** Properties *)

(** The packed table is an array of 12-bit entries: writing one entry is read
    back, and changes no other, although neighbours share a byte. *)
Theorem fat_entries_independent n fat c v :
  table_ok n fat → 0 ≤ c < n → 0 ≤ v < 4096 →
  table_ok n (fat_put c v fat) ∧ length (fat_put c v fat) = length fat ∧
  ∀ d, fat_get (fat_put c v fat) d = if d =? c then v else fat_get fat d.
Proof.
  intros Hok Hc Hv. split; [by apply table_ok_put|]. split; [apply length_fat_put|].
  intros d. by apply (fat_get_put n).
Qed.

(** A table of one sector: room for 341 clusters. *)
Definition demo_fat : list Z := [0xF0; 0xFF; 0xFF] ++ replicate 509 0.

Lemma demo_fat_ok : table_ok 341 demo_fat.
Proof.
  split; [|split; [unfold EOC; lia|unfold zlen; vm_compute; discriminate]].
  apply Forall_app. split; [repeat (constructor; [lia|]); constructor|]. apply Forall_replicate. lia.
Qed.

Lemma fat_entries_independent_witness :
  let f := fat_put 3 0xABC demo_fat in
  fat_get f 3 = 0xABC ∧ fat_get f 2 = 0 ∧ fat_get f 4 = 0 ∧
  ∀ d, fat_get f d = if d =? 3 then 0xABC else fat_get demo_fat d.
Proof.
  assert (0 ≤ 3 < 341) as H1 by lia. assert (0 ≤ 0xABC < 4096) as H2 by lia.
  destruct (fat_entries_independent 341 demo_fat 3 0xABC demo_fat_ok H1 H2) as (_ & _ & H).
  split_and!; [reflexivity..|exact H].
Defined.

(** [free_chain] frees exactly the clusters of the chain and touches no other
    entry. *)
Theorem free_chain_frees n fat c cl :
  table_ok n fat → chain n fat c cl →
  ∃ f, free_chain_loop free_fuel c fat = Some f ∧ table_ok n f ∧
  ∀ d, fat_get f d = if decide (d ∈ cl) then 0 else fat_get fat d.
Proof.
  intros Hok Hch. pose proof (free_fuel_enough n fat c cl (proj1 (proj2 Hok)) Hch) as Hf.
  destruct (free_loop_spec n fat c cl free_fuel Hok Hch Hf) as (f & E & H1 & _ & H2). by exists f.
Qed.

Definition demo_chain : list Z := fat_put 5 0xFFF (fat_put 3 5 (fat_put 2 7 demo_fat)).

Lemma demo_chain_ok : table_ok 341 demo_chain.
Proof. repeat (apply table_ok_put; [|lia]). apply demo_fat_ok. Qed.

Lemma free_chain_frees_witness :
  ∃ f, free_chain_loop free_fuel 3 demo_chain = Some f ∧
  chain 341 demo_chain 3 [3; 5] ∧ fat_get f 3 = 0 ∧ fat_get f 5 = 0 ∧ fat_get f 2 = 7.
Proof.
  assert (chain 341 demo_chain 3 [3; 5]) as Hc.
  { simpl. split_and!; try done; discriminate. }
  destruct (free_chain_frees 341 demo_chain 3 [3; 5] demo_chain_ok Hc) as (f & E & _ & H).
  exists f. rewrite !H. split; [exact E|]. split; [exact Hc|]. split_and!; reflexivity.
Defined.

(** C39: the loop of [free_chain] ends on every table whose links stay inside the
    volume, also when they form a cycle: with fuel for [EOC] steps it comes to its
    exit.  It clears exactly the entries that the links lead through from the cluster
    it is given, each once, up to a link that ends the chain or leads back to a cluster
    already cleared, and touches no other. *)
Theorem free_chain_terminates n fat c fuel :
  table_ok n fat → links_ok n fat → (in_chain c = true → c < n) → (free_fuel ≤ fuel)%nat →
  ∃ f cl stop, free_chain_loop fuel c fat = Some f ∧
    follows fat c cl stop ∧ NoDup cl ∧ (∀ x, x ∈ cl → 2 ≤ x < n) ∧ (in_chain stop = false ∨ stop ∈ cl) ∧
    ∀ d, fat_get f d = if decide (d ∈ cl) then 0 else fat_get fat d.
Proof.
  intros Hok Hl Hc Hf. pose proof (proj1 (proj2 Hok)) as Hn.
  destruct (free_loop_walks n fat fat c [] fuel) as (f & cl & stop & E & Hw & Hnd & Hcl & Hs & Hg); try done.
  - constructor.
  - by intros x ?%elem_of_nil.
  - unfold free_fuel, EOC in *. cbn [length]. lia.
  - exists f, cl, stop. split_and!; try done.
    + intros x Hx. by apply Hcl.
    + destruct Hs as [?|[?%elem_of_nil|?]]; [by left|done|by right].
Qed.

(** Clusters 2 and 3 link to each other. *)
Definition demo_cycle : list Z := fat_put 2 3 (fat_put 3 2 demo_fat).

Lemma free_chain_terminates_witness :
  fat_get demo_cycle 2 = 3 ∧ fat_get demo_cycle 3 = 2 ∧
  ∃ f, free_chain_loop free_fuel 2 demo_cycle = Some f ∧ fat_get f 2 = 0 ∧ fat_get f 3 = 0.
Proof.
  assert (table_ok 341 demo_cycle) as Hok.
  { repeat (apply table_ok_put; [|lia]). apply demo_fat_ok. }
  assert (links_ok 341 demo_cycle) as Hl.
  { assert (Forall (λ d, in_chain (fat_get demo_cycle d) = true → fat_get demo_cycle d < 341) (seqZ 2 339)) as HF.
    { apply (bool_decide_unpack _). vm_compute. exact I. }
    intros d Hd. rewrite Forall_forall in HF. apply HF. apply elem_of_seqZ. lia. }
  assert (in_chain 2 = true → 2 < 341) as Hc by (intros; lia).
  split; [reflexivity|]. split; [reflexivity|].
  destruct (free_chain_terminates 341 demo_cycle 2 free_fuel Hok Hl Hc (le_n _)) as (f & cl & stop & E & _ & _ & _ & _ & Hg).
  exists f. split; [exact E|]. vm_compute in E. injection E as <-. split; reflexivity.
Defined.
