(* ===== verification/Fat12Logic.v ===== *)
(** A small program logic for the file system's monad ([wp]), and the rules of
    its sector operations on a healthy device. *)
From Stdlib Require Import ZArith Lia Bool.
From stdpp Require Import base numbers gmap option list.
From S2P Require Import Prelude Console Rtc Block Fat12 Fat12Table.

#[local] Open Scope Z_scope.
#[local] Open Scope c_scope.

(** ** Geometry *)

(** The regions of the volume follow one another and fit the device. *)
Record geom_ok (g : geom) (size : Z) : Prop := {
  go_spc : 1 ≤ sectors_per_cluster g;
  go_fats : 1 ≤ num_fats g;
  go_res : 1 ≤ reserved_sectors g;
  go_spf : 0 ≤ sectors_per_fat g;
  go_fat_start : fat_start g = reserved_sectors g;
  go_root_start : root_start g = reserved_sectors g + num_fats g * sectors_per_fat g;
  go_root : 0 ≤ root_sectors g;
  go_data : data_start g = root_start g + root_sectors g;
  go_count : 0 ≤ cluster_count g;
  go_size : data_start g + cluster_count g * sectors_per_cluster g ≤ size;
  go_32 : size ≤ 2 ^ 31
}.

(** One past the highest cluster number. *)
Definition clusters (g : geom) : Z := cluster_count g + 2.

Definition cluster_sectors (g : geom) (c : Z) : list Z := seqZ (cluster_lba g c) (sectors_per_cluster g).

(** The sectors of a directory whose chain is [cl]; 0 is the root. *)
Definition dir_lbas (g : geom) (dir : Z) (cl : list Z) : list Z :=
  if dir =? 0 then seqZ (root_start g) (root_sectors g) else concat (map (cluster_sectors g) cl).

Definition dir_at (g : geom) (fat : list Z) (dir : Z) (cl : list Z) : Prop :=
  (dir = 0 ∧ cl = []) ∨ (2 ≤ dir < clusters g ∧ chain (clusters g) fat dir cl).

Lemma cluster_lba_val g size c :
  geom_ok g size → 2 ≤ c < clusters g →
  cluster_lba g c = data_start g + (c - 2) * sectors_per_cluster g ∧
  data_start g ≤ cluster_lba g c ∧ cluster_lba g c + sectors_per_cluster g ≤ size.
Proof.
  intros Hg Hc. unfold clusters in Hc. destruct Hg.
  assert (0 ≤ (c - 2) * sectors_per_cluster g) by nia.
  assert ((c - 2) * sectors_per_cluster g + sectors_per_cluster g ≤
          cluster_count g * sectors_per_cluster g) by nia.
  assert (0 ≤ num_fats g * sectors_per_fat g) by nia.
  assert (c - 2 ≤ (c - 2) * sectors_per_cluster g) by nia.
  assert (cluster_lba g c = data_start g + (c - 2) * sectors_per_cluster g) as E.
  { unfold cluster_lba. rewrite (u32_small (c - 2)) by (zpow; lia). apply u32_small. zpow. lia. }
  rewrite E. lia.
Qed.

Lemma elem_cluster_sectors g l c :
  l ∈ cluster_sectors g c ↔ cluster_lba g c ≤ l < cluster_lba g c + sectors_per_cluster g.
Proof. unfold cluster_sectors. by rewrite elem_of_seqZ. Qed.

Lemma cluster_sectors_disjoint g size c d l :
  geom_ok g size → 2 ≤ c < clusters g → 2 ≤ d < clusters g →
  l ∈ cluster_sectors g c → l ∈ cluster_sectors g d → c = d.
Proof.
  intros Hg Hc Hd. rewrite !elem_cluster_sectors.
  destruct (cluster_lba_val g size c Hg Hc) as [-> _].
  destruct (cluster_lba_val g size d Hg Hd) as [-> _].
  pose proof (go_spc _ _ Hg). nia.
Qed.

Lemma length_cluster_sectors g c : length (cluster_sectors g c) = Z.to_nat (sectors_per_cluster g).
Proof. unfold cluster_sectors. by rewrite length_seqZ. Qed.

Lemma lookup_concat_const {A} (ll : list (list A)) m i j :
  (∀ l, l ∈ ll → length l = m) → (j < m)%nat →
  concat ll !! (i * m + j)%nat = ll !! i ≫= λ l, l !! j.
Proof.
  revert i. induction ll as [|l ll IH]; intros i Hl Hj; simpl.
  - by rewrite !lookup_nil.
  - assert (length l = m) as El by (apply Hl; left). destruct i as [|i]; simpl.
    + rewrite lookup_app_l by lia. done.
    + rewrite lookup_app_r by lia. rewrite El.
      replace (m + i * m + j - m)%nat with (i * m + j)%nat by lia.
      apply IH; [|done]. intros l' Hl'. apply Hl. by right.
Qed.

Lemma chain_nth_spec n fat c cl k :
  n ≤ EOC → chain n fat c cl → cl ≠ [] → chain_nth k c fat = cl !! k.
Proof.
  intros Hn. revert c cl. induction k as [|k IH]; intros c [|x cl] Hch Hne; try done; simpl.
  - by destruct Hch as (-> & _).
  - destruct Hch as (-> & Hc & Hz & Hch). destruct cl as [|y cl].
    + simpl in Hch. unfold in_chain in Hch. rewrite lookup_nil.
      replace ((fat_get fat c <? 2) || (EOC <=? fat_get fat c)) with true; [done|].
      symmetry. apply orb_true_iff. apply andb_false_iff in Hch. lia.
    + pose proof Hch as (_ & Hc2 & _).
      replace ((fat_get fat c <? 2) || (EOC <=? fat_get fat c)) with false.
      2:{ symmetry. apply orb_false_iff. unfold EOC in *. lia. }
      by apply IH.
Qed.

Lemma dir_sector_lba_spec g size fat dir cl i :
  geom_ok g size → clusters g ≤ EOC → dir_at g fat dir cl → 0 ≤ i →
  dir_sector_lba g fat dir i = arr_get (dir_lbas g dir cl) i.
Proof.
  intros Hg Hn Hd Hi. unfold dir_sector_lba, dir_lbas, arr_get.
  rewrite (proj2 (Z.ltb_ge i 0)) by done.
  pose proof (go_spc _ _ Hg). assert (0 ≤ num_fats g * sectors_per_fat g) by (destruct Hg; nia).
  assert (0 ≤ cluster_count g * sectors_per_cluster g) by (destruct Hg; nia).
  destruct Hd as [[-> ->]|[Hd Hch]].
  - simpl. destruct (Z.leb_spec (root_sectors g) i).
    + by rewrite lookup_seqZ_ge by lia.
    + rewrite lookup_seqZ_lt by lia. simpl. rewrite Z2Nat.id by done.
      apply u32_small. destruct Hg. zpow. lia.
  - rewrite (proj2 (Z.eqb_neq dir 0)) by lia.
    set (m := sectors_per_cluster g) in *.
    pose proof (Z.div_mod i m) as Hdm. pose proof (Z.mod_pos_bound i m).
    assert (0 ≤ i / m) by (apply Z.div_pos; lia).
    replace (Z.to_nat i) with (Z.to_nat (i / m) * Z.to_nat m + Z.to_nat (i mod m))%nat by nia.
    rewrite lookup_concat_const; [|intros l (c & -> & _)%list_elem_of_fmap; apply length_cluster_sectors|lia].
    destruct (chain_cons _ _ _ _ Hn Hd Hch) as [cl' ->].
    rewrite (chain_nth_spec (clusters g) _ _ (dir :: cl')) by done.
    rewrite list_lookup_fmap. destruct ((dir :: cl') !! Z.to_nat (i / m)) as [c|] eqn:E; simpl; [|done].
    assert (2 ≤ c < clusters g) as Hc.
    { eapply chain_in; [exact Hch|]. by eapply list_elem_of_lookup_2. }
    unfold cluster_sectors. fold m. rewrite lookup_seqZ_lt by lia. simpl.
    rewrite Z2Nat.id by lia. apply u32_small.
    destruct (cluster_lba_val g size c Hg Hc). destruct Hg. subst m. zpow. lia.
Qed.

(** ** Weakest preconditions *)

Section Logic.
Context {D : Type} `{BlockDevice D}.
Implicit Types s : fs D.

Definition wp {A} (m : M A) (Q : fs D → A → Prop) (s : fs D) : Prop := Q (m s).1 (m s).2.

Lemma wp_ret {A} (x : A) Q s : Q s x → wp (ret x) Q s.
Proof. done. Qed.
Lemma wp_bind {A B} (m : M A) (k : A → M B) Q s :
  wp m (λ s' x, wp (k x) Q s') s → wp (bind m k) Q s.
Proof. unfold wp, bind. by destruct (m s). Qed.
Lemma wp_get Q s : Q s s → wp get Q s.
Proof. done. Qed.
Lemma wp_upd f Q s : Q (f s) tt → wp (upd f) Q s.
Proof. done. Qed.
Lemma wp_mono {A} (m : M A) (P Q : fs D → A → Prop) s :
  wp m P s → (∀ s' x, P s' x → Q s' x) → wp m Q s.
Proof. unfold wp. auto. Qed.
Lemma wp_elim {A} (m : M A) Q s s' x : wp m Q s → m s = (s', x) → Q s' x.
Proof. unfold wp. intros HQ E. by rewrite E in HQ. Qed.

(** ** What an operation keeps *)

Definition sec (s : fs D) (l : Z) : list Z := bd_sector (dev s) l.

(** The volume is as [fs_init] leaves it on a healthy drive. *)
Record vol_ok (s : fs D) : Prop := {
  vo_healthy : bd_healthy (dev s);
  vo_geom : geom_ok (geo s) (bd_size (dev s));
  vo_table : table_ok (clusters (geo s)) (fat_cache s);
  vo_cache : zlen (fat_cache s) = 512 * sectors_per_fat (geo s)
}.

(** [s'] is [s] with another table and other sector contents. *)
Record same_vol (s s' : fs D) : Prop := {
  sv_size : bd_size (dev s') = bd_size (dev s);
  sv_geo : geo s' = geo s;
  sv_mounted : mounted s' = mounted s;
  sv_cwd : cwd_cluster s' = cwd_cluster s;
  sv_path : cwd_path s' = cwd_path s
}.

#[global] Instance same_vol_preorder : PreOrder same_vol.
Proof.
  split; [by intros s|]. intros s1 s2 s3 [] []. split; congruence.
Qed.

(** Nothing on the volume has changed: only the drive's motor, the clock and the
    screen may have. *)
Record quiet (s s' : fs D) : Prop := {
  qu_vol : same_vol s s';
  qu_healthy : bd_healthy (dev s) → bd_healthy (dev s');
  qu_fat : fat_cache s' = fat_cache s;
  qu_sec l : sec s' l = sec s l
}.

#[global] Instance quiet_preorder : PreOrder quiet.
Proof.
  split.
  - intros s. by split.
  - intros s1 s2 s3 [] []. split; [by etrans|auto|congruence|congruence].
Qed.

Lemma quiet_vol_ok s s' : quiet s s' → vol_ok s → vol_ok s'.
Proof.
  intros [[] Hh Hf _] []. split; [by apply Hh|congruence..].
Qed.

(** The table is [f], and the sectors have changed as [u] says. *)
Definition effect (s s' : fs D) (f : list Z) (u : Z → list Z) : Prop :=
  same_vol s s' ∧ bd_healthy (dev s') ∧ fat_cache s' = f ∧ ∀ l, sec s' l = u l.

Lemma quiet_effect s s' : bd_healthy (dev s) → quiet s s' → effect s s' (fat_cache s) (sec s).
Proof. by intros ? [? Hh ? ?]; split_and!; auto. Qed.

Lemma effect_quiet s s1 s2 f u : effect s s1 f u → quiet s1 s2 → effect s s2 f u.
Proof.
  intros (Hv & Hh & Hf & Hu) [Hv' Hh' Hf' Hu']. split_and!; [by etrans|auto|congruence|].
  intros l. by rewrite Hu', Hu.
Qed.

Lemma quiet_effect_trans s s1 s2 f u : quiet s s1 → effect s1 s2 f u → effect s s2 f u.
Proof. intros [Hv _ _ _] (Hv' & ?). split; [by etrans|done]. Qed.

Lemma effect_vol_ok s s' f u :
  vol_ok s → effect s s' f u → table_ok (clusters (geo s)) f → length f = length (fat_cache s) → vol_ok s'.
Proof.
  intros [] ([] & Hh & <- & _) Ht Hl. split; [done|congruence|congruence|].
  unfold zlen in *. congruence.
Qed.

(** ** The operations *)

Lemma wp_motor_off Q s :
  bd_healthy (dev s) → (∀ s', quiet s s' → Q s' tt) → wp floppy_motor_off Q s.
Proof.
  intros Hh HQ. apply wp_upd, HQ. destruct (bd_motor_off_ok (dev s) Hh) as (H1 & H2 & H3).
  split; [by split|done|done|done].
Qed.

Lemma wp_print k Q s : (∀ s', quiet s s' → Q s' tt) → wp (upd (print k)) Q s.
Proof. intros HQ. apply wp_upd, HQ. split; [by split|done..]. Qed.

Lemma wp_say t Q s : (∀ s', quiet s s' → Q s' tt) → wp (say t) Q s.
Proof. apply wp_print. Qed.

Lemma wp_make_entry name83 attr c size Q s :
  (∀ s' t, quiet s s' → Q s' (entry_bytes name83 attr c size t)) → wp (make_entry name83 attr c size) Q s.
Proof.
  intros HQ. apply wp_bind. unfold wp, rtc_now. simpl. apply wp_ret, HQ. split; [by split|done..].
Qed.

Lemma wp_read_sector lba Q s :
  bd_healthy (dev s) → 0 ≤ lba < bd_size (dev s) →
  (∀ s', quiet s s' → Q s' (Some (sec s lba))) → wp (read_sector lba) Q s.
Proof.
  intros Hh Hl HQ. destruct (bd_read_ok (dev s) lba Hh Hl) as (H1 & H2 & H3 & H4).
  unfold wp, read_sector. destruct (bd_read lba (dev s)) as [d r]. simpl in *. subst r.
  apply HQ. split; [by split|done|done|done].
Qed.

Lemma wp_write_sector lba data Q s :
  bd_healthy (dev s) → 0 ≤ lba < bd_size (dev s) → is_sector data →
  (∀ s', effect s s' (fat_cache s) (λ l, if l =? lba then data else sec s l) → Q s' true) →
  wp (write_sector lba data) Q s.
Proof.
  intros Hh Hl Hd HQ. destruct (bd_write_ok (dev s) lba data Hh Hl Hd) as (H1 & H2 & H3 & H4).
  unfold wp, write_sector. destruct (bd_write lba data (dev s)) as [d r]. simpl in *. subst r.
  apply HQ. split_and!; [by split|done|done|done].
Qed.

Lemma sec_ok s lba : bd_healthy (dev s) → 0 ≤ lba < bd_size (dev s) → is_sector (sec s lba).
Proof. apply bd_sector_ok. Qed.

(** Sectors [lba], [lba + 1], ... written from [data]. *)
Definition written (lba : Z) (count : nat) (data : list Z) (old : Z → list Z) (l : Z) : list Z :=
  if (lba <=? l) && (l <? lba + Z.of_nat count)
  then take 512 (drop (512 * Z.to_nat (l - lba)) data) else old l.

Lemma wp_write_fs count lba data Q s :
  bd_healthy (dev s) → 0 ≤ lba → lba + Z.of_nat count ≤ bd_size (dev s) →
  length data = (512 * count)%nat → bytes_ok data →
  (∀ s', effect s s' (fat_cache s) (written lba count data (sec s)) → Q s' true) →
  wp (write_fs lba count data) Q s.
Proof.
  revert lba data s Q. induction count as [|count IH]; intros lba data s Q Hh H0 Hs Hl Hb HQ; simpl.
  - apply wp_ret, HQ. split_and!; [done..|]. intros l. unfold written.
    destruct (Z.leb_spec lba l), (Z.ltb_spec l (lba + Z.of_nat 0)); simpl; done || lia.
  - apply wp_bind, wp_write_sector; [done|lia| |].
    { split; [rewrite length_take; lia|by apply Forall_take]. }
    intros s1 (Hv & Hh1 & Hf & Hu). destruct (sv_size _ _ Hv). apply IH; [done|lia|lia| | |].
    + rewrite length_drop. lia.
    + by apply Forall_drop.
    + intros s2 (Hv2 & Hh2 & Hf2 & Hu2). apply HQ. split_and!; [by etrans|done|congruence|].
      intros l. rewrite Hu2. unfold written. rewrite Hu.
      destruct (Z.eqb_spec l lba) as [->|Hne].
      * rewrite (proj2 (Z.leb_gt (lba + 1) lba)), (proj2 (Z.leb_le lba lba)) by lia. cbn [andb].
        rewrite (proj2 (Z.ltb_lt _ _)) by lia. rewrite Z.sub_diag.
        by replace (512 * Z.to_nat 0)%nat with 0%nat by lia.
      * destruct (Z.leb_spec (lba + 1) l), (Z.ltb_spec l (lba + 1 + Z.of_nat count)),
          (Z.leb_spec lba l), (Z.ltb_spec l (lba + Z.of_nat (S count))); cbn [andb]; try done; try lia.
        rewrite drop_drop. do 2 f_equal. lia.
Qed.

(** [fat_flush] touches no sector from the root directory on. *)
Lemma wp_fat_flush Q s :
  vol_ok s →
  (∀ s', same_vol s s' → bd_healthy (dev s') → fat_cache s' = fat_cache s →
     (∀ l, root_start (geo s) ≤ l → sec s' l = sec s l) → Q s' tt) →
  wp fat_flush Q s.
Proof.
  intros Hvol HQ. apply wp_bind, wp_get.
  assert (∀ copies i s1, vol_ok s1 → 0 ≤ i → i + Z.of_nat copies ≤ num_fats (geo s) →
    same_vol s s1 → fat_cache s1 = fat_cache s → (∀ l, root_start (geo s) ≤ l → sec s1 l = sec s l) →
    wp (fat_flush_loop copies i) Q s1) as Hloop.
  2:{ apply Hloop; [done|lia| |done..]. pose proof (go_fats _ _ (vo_geom _ Hvol)). lia. }
  clear Hvol. induction copies as [|copies IH]; intros i s1 Hvol Hi Hc Hv Hf Hu; simpl.
  - apply HQ; [done|apply Hvol|done|done].
  - apply wp_bind, wp_get, wp_bind.
    pose proof Hvol as [Hh1 Hg Ht Hz]. pose proof Hg as [].
    assert (geo s1 = geo s) as Eg by apply Hv. rewrite Eg in *.
    assert (0 ≤ i * sectors_per_fat (geo s)) by nia.
    assert (i * sectors_per_fat (geo s) + sectors_per_fat (geo s) ≤ num_fats (geo s) * sectors_per_fat (geo s)) by nia.
    assert (0 ≤ cluster_count (geo s) * sectors_per_cluster (geo s)) by nia.
    rewrite u32_small by (zpow; lia).
    apply wp_write_fs; [done|lia|lia| |apply Ht|].
    { unfold zlen in Hz. lia. }
    intros s2 Heff. pose proof (effect_vol_ok _ _ _ _ Hvol Heff) as Hvol2.
    destruct Heff as (Hv2 & Hh2 & Hf2 & Hu2).
    apply IH; [apply Hvol2; [by rewrite Eg|done]|lia|lia|by etrans|congruence|].
    intros l Hl. rewrite Hu2. unfold written.
    rewrite (proj2 (Z.ltb_ge l _)) by lia. rewrite andb_false_r. by apply Hu.
Qed.

End Logic.
