(* ===== verification/Fat12Dir.v ===== *)
(** Directories of [Fat12.v]: the slots of a directory's sectors, the entries
    that are live in them, what the walks compute, and how adding, replacing and
    deleting an entry changes the live ones. *)
From Stdlib Require Import ZArith Lia Bool.
From stdpp Require Import base numbers gmap option list.
From S2P Require Import Prelude Console Rtc Block Fat12 Fat12Table Fat12Logic.

#[local] Open Scope Z_scope.

Lemma elem_of_concat {A} (x : A) ll : x ∈ concat ll ↔ ∃ l, x ∈ l ∧ l ∈ ll.
Proof.
  rewrite list_elem_of_In, in_concat. setoid_rewrite list_elem_of_In. firstorder.
Qed.

(** ** Slots of a sector *)

Definition slots_of (sec : list Z) : list (list Z) := map (entry_at sec) (seqZ 0 16).

Lemma length_slots_of sec : length (slots_of sec) = 16%nat.
Proof. done. Qed.

Lemma slots_of_lookup sec e : 0 ≤ e < 16 → slots_of sec !! Z.to_nat e = Some (entry_at sec e).
Proof.
  intros He. unfold slots_of. rewrite list_lookup_fmap, lookup_seqZ_lt by lia. simpl. f_equal. f_equal. lia.
Qed.

Lemma length_splice buf off data :
  0 ≤ off → (Z.to_nat off + length data ≤ length buf)%nat → length (splice buf off data) = length buf.
Proof.
  intros. unfold splice. rewrite !length_app, length_take, length_drop. lia.
Qed.

Lemma splice_sector sec off data :
  is_sector sec → 0 ≤ off → (Z.to_nat off + length data ≤ 512)%nat → bytes_ok data →
  is_sector (splice sec off data).
Proof.
  intros [Hl Hb] Ho Hd Hbd. split; [rewrite length_splice; lia|].
  unfold splice. apply Forall_app. split; [by apply Forall_take|].
  apply Forall_app. split; [done|by apply Forall_drop].
Qed.

Lemma splice_lookup buf off data i :
  (Z.to_nat off + length data ≤ length buf)%nat →
  splice buf off data !! i =
    if decide (Z.to_nat off ≤ i < Z.to_nat off + length data)%nat
    then data !! (i - Z.to_nat off)%nat else buf !! i.
Proof.
  intros H. unfold splice. destruct (decide (i < Z.to_nat off)%nat).
  - rewrite lookup_app_l by (rewrite length_take; lia). rewrite lookup_take_lt by lia.
    by rewrite decide_False by lia.
  - rewrite lookup_app_r by (rewrite length_take; lia). rewrite length_take, Nat.min_l by lia.
    destruct (decide (i - Z.to_nat off < length data)%nat).
    + rewrite lookup_app_l by lia. by rewrite decide_True by lia.
    + rewrite lookup_app_r by lia. rewrite lookup_drop. rewrite decide_False by lia. f_equal. lia.
Qed.

Lemma entry_at_lookup sec e i :
  0 ≤ e → (i < 32)%nat → entry_at sec e !! i = sec !! (32 * Z.to_nat e + i)%nat.
Proof.
  intros. unfold entry_at. rewrite lookup_take_lt by lia. rewrite lookup_drop. f_equal. lia.
Qed.

Lemma length_entry_at sec e : length sec = 512%nat → 0 ≤ e < 16 → length (entry_at sec e) = 32%nat.
Proof. intros. unfold entry_at. rewrite length_take, length_drop. lia. Qed.

Lemma entry_at_splice sec e f ent :
  length sec = 512%nat → 0 ≤ e < 16 → 0 ≤ f < 16 → length ent = 32%nat →
  entry_at (splice sec (32 * e) ent) f = if f =? e then ent else entry_at sec f.
Proof.
  intros Hs He Hf Hl. apply list_eq_same_length with (n := 32%nat).
  - destruct (f =? e); [done|]. by apply length_entry_at.
  - apply length_entry_at; [rewrite length_splice; lia|done].
  - intros i x y Hi. rewrite entry_at_lookup by lia. rewrite splice_lookup by lia.
    destruct (Z.eqb_spec f e) as [->|Hne].
    + rewrite decide_True by lia. intros H1 H2.
      replace (32 * Z.to_nat e + i - Z.to_nat (32 * e))%nat with i in H1 by lia. congruence.
    + rewrite entry_at_lookup by lia. rewrite decide_False by lia. congruence.
Qed.

Lemma slots_of_splice sec e ent :
  length sec = 512%nat → 0 ≤ e < 16 → length ent = 32%nat →
  slots_of (splice sec (32 * e) ent) = <[Z.to_nat e := ent]> (slots_of sec).
Proof.
  intros Hs He Hl. apply list_eq. intros i. destruct (decide (i < 16)%nat) as [Hi|Hi].
  2:{ rewrite !lookup_ge_None_2; [done| |]; rewrite ?length_insert, ?length_slots_of; lia. }
  rewrite <- (Nat2Z.id i). rewrite slots_of_lookup by lia. rewrite entry_at_splice by lia.
  destruct (Z.eqb_spec (Z.of_nat i) e) as [<-|Hne].
  - rewrite list_lookup_insert_eq; [done|]. rewrite length_slots_of. lia.
  - rewrite list_lookup_insert_ne by lia. rewrite slots_of_lookup by lia. done.
Qed.

(** Marking a slot deleted is storing the entry so marked. *)
Lemma arr_set_splice sec e :
  length sec = 512%nat → 0 ≤ e < 16 →
  arr_set sec (e * 32) 0xE5 = splice sec (32 * e) (arr_set (entry_at sec e) 0 0xE5).
Proof.
  intros Hs He. pose proof (length_entry_at sec e Hs He) as Hl.
  assert (length (arr_set (entry_at sec e) 0 0xE5) = 32%nat) as Hl' by (by rewrite length_arr_set).
  apply list_eq_same_length with (n := 512%nat).
  - rewrite length_splice; lia.
  - by rewrite length_arr_set.
  - intros i x y Hi. rewrite splice_lookup by lia. rewrite Hl'.
    unfold arr_set. rewrite (proj2 (Z.ltb_ge (e * 32) 0)) by lia. simpl.
    destruct (decide (i = Z.to_nat (e * 32))) as [->|Hne].
    + rewrite list_lookup_insert_eq by lia. rewrite decide_True by lia.
      replace (Z.to_nat (e * 32) - Z.to_nat (32 * e))%nat with 0%nat by lia.
      rewrite list_lookup_insert_eq by lia. congruence.
    + rewrite list_lookup_insert_ne by lia. destruct (decide _) as [Hin|]; [|congruence].
      rewrite list_lookup_insert_ne by lia. rewrite entry_at_lookup by lia.
      replace (32 * Z.to_nat e + (i - Z.to_nat (32 * e)))%nat with i by lia. congruence.
Qed.

(** ** Live entries *)

Definition ent_end (ent : list Z) : bool := arr_get ent 0 =? 0x00.
Definition ent_free (ent : list Z) : bool := (arr_get ent 0 =? 0x00) || (arr_get ent 0 =? 0xE5).
Definition ent_name (ent : list Z) : list Z := take 11 ent.

(** The entries a walk sees: up to the end mark, without deleted entries and
    long-name records. *)
Fixpoint live (l : list (list Z)) : list (list Z) :=
  match l with
  | [] => []
  | ent :: l => if ent_end ent then [] else if ent_skip ent then live l else ent :: live l
  end.

(** After the end mark there are only end marks. *)
Fixpoint tail_ok (l : list (list Z)) : Prop :=
  match l with
  | [] => True
  | ent :: l => if ent_end ent then Forall (λ e, ent_end e = true) l else tail_ok l
  end.

Lemma live_entries_elem l ent : ent ∈ live l → ent ∈ l ∧ ent_end ent = false ∧ ent_skip ent = false.
Proof.
  induction l as [|x l IH]; simpl; [by intros ?%elem_of_nil|].
  destruct (ent_end x) eqn:E1; [by intros ?%elem_of_nil|]. destruct (ent_skip x) eqn:E2.
  - intros Hin%IH. destruct Hin as (? & ? & ?). split; [by right|done].
  - intros [->|Hin%IH]%elem_of_cons; [split; [left|done]|].
    destruct Hin as (? & ? & ?). split; [by right|done].
Qed.

Lemma live_entries_app l1 l2 :
  Forall (λ e, ent_end e = false) l1 → live (l1 ++ l2) = live l1 ++ live l2.
Proof.
  induction l1 as [|x l1 IH]; [done|]. intros [Hx H1]%Forall_cons. simpl. rewrite Hx.
  destruct (ent_skip x); [by apply IH|]. simpl. by rewrite IH.
Qed.

Lemma live_ends l : Forall (λ e, ent_end e = true) l → live l = [].
Proof. destruct l; [done|]. intros [Hx _]%Forall_cons. simpl. by rewrite Hx. Qed.

Lemma tail_ok_app l1 l2 :
  Forall (λ e, ent_end e = false) l1 → (tail_ok (l1 ++ l2) ↔ tail_ok l2).
Proof.
  induction l1 as [|x l1 IH]; [done|]. intros [Hx H1]%Forall_cons. simpl. rewrite Hx. by apply IH.
Qed.

Lemma ends_tail_ok l : Forall (λ e, ent_end e = true) l → tail_ok l.
Proof. destruct l; [done|]. intros [Hx H1]%Forall_cons. simpl. by rewrite Hx. Qed.

(** An entry put in the first free slot joins the live ones. *)
Lemma live_add l1 old l2 new :
  Forall (λ e, ent_free e = false) l1 → ent_free old = true →
  ent_end new = false → ent_skip new = false → tail_ok (l1 ++ old :: l2) →
  live (l1 ++ old :: l2) = live l1 ++ live l2 ∧
  live (l1 ++ new :: l2) = live l1 ++ new :: live l2 ∧ tail_ok (l1 ++ new :: l2).
Proof.
  intros H1 Ho He Hs Ht.
  assert (Forall (λ e, ent_end e = false) l1) as H1'.
  { eapply Forall_impl; [exact H1|]. intros x Hx. unfold ent_free in Hx. by apply orb_false_iff in Hx as [? _]. }
  rewrite !live_entries_app, !tail_ok_app in * by done. simpl in *. rewrite He, Hs.
  destruct (ent_end old) eqn:Eo.
  - rewrite (live_ends l2) by done. split_and!; [done..|]. by apply ends_tail_ok.
  - assert (ent_skip old = true) as ->; [|done].
    unfold ent_free in Ho. unfold ent_end in Eo. rewrite Eo in Ho. unfold ent_skip.
    simpl in Ho. by rewrite Ho.
Qed.

(** A live entry replaced by another. *)
Lemma live_replace l1 old l2 new :
  Forall (λ e, ent_end e = false) l1 → ent_end old = false → ent_skip old = false →
  ent_end new = false → tail_ok (l1 ++ old :: l2) →
  live (l1 ++ old :: l2) = live l1 ++ old :: live l2 ∧
  live (l1 ++ new :: l2) = live l1 ++ (if ent_skip new then [] else [new]) ++ live l2 ∧
  tail_ok (l1 ++ new :: l2).
Proof.
  intros H1 Ho1 Ho2 Hn Ht. rewrite !live_entries_app, !tail_ok_app in * by done. simpl in *.
  rewrite Ho1, Ho2, Hn in *. by destruct (ent_skip new).
Qed.

(** ** Looking a name up in a list of placed entries *)

Definition placed : Type := Z * Z * list Z.

Fixpoint find_ent (name83 : list Z) (l : list placed) : option found :=
  match l with
  | [] => None
  | (lba, e, ent) :: l =>
      if ent_end ent then None
      else if ent_skip ent then find_ent name83 l
      else if bool_decide (take 11 ent = name83) then Some (lba, e * 32, ent)
      else find_ent name83 l
  end.

Definition ents (l : list placed) : list (list Z) := l.*2.

Lemma find_ent_None name l :
  find_ent name l = None ↔ ∀ ent, ent ∈ live (ents l) → ent_name ent ≠ name.
Proof.
  induction l as [|[[lba e] ent] l IH]; simpl.
  - split; [|done]. intros _ ent H. by apply elem_of_nil in H.
  - destruct (ent_end ent); [split; [|done]; intros _ x H; by apply elem_of_nil in H|].
    destruct (ent_skip ent); [done|]. case_bool_decide as Hn.
    + split; [done|]. intros H. exfalso. apply (H ent); [left|done].
    + rewrite IH. split.
      * intros H x [->|Hx]%elem_of_cons; [done|by apply H].
      * intros H x Hx. apply H. by right.
Qed.

Lemma find_ent_Some name l lba off ent :
  find_ent name l = Some (lba, off, ent) →
  ∃ l1 e l2, l = l1 ++ (lba, e, ent) :: l2 ∧ off = e * 32 ∧ ent_name ent = name ∧
    ent_end ent = false ∧ ent_skip ent = false ∧ Forall (λ x, ent_end x = false) (ents l1).
Proof.
  induction l as [|[[lba' e'] ent'] l IH]; simpl; [done|].
  destruct (ent_end ent') eqn:E1; [done|].
  destruct (ent_skip ent') eqn:E2; [|case_bool_decide as Hn].
  - intros (l1 & e & l2 & -> & ? & ? & ? & ? & ?)%IH.
    exists ((lba', e', ent') :: l1), e, l2. split_and!; try done; by constructor.
  - intros [= -> <- ->]. exists [], e', l. split_and!; try done; by constructor.
  - intros (l1 & e & l2 & -> & ? & ? & ? & ? & ?)%IH.
    exists ((lba', e', ent') :: l1), e, l2. split_and!; try done; by constructor.
Qed.

Lemma find_ent_live name l lba off ent :
  find_ent name l = Some (lba, off, ent) → ent ∈ live (ents l).
Proof.
  intros (l1 & e & l2 & -> & _ & _ & H1 & H2 & H3)%find_ent_Some.
  unfold ents. rewrite fmap_app, fmap_cons, live_entries_app by done. simpl. rewrite H1, H2.
  apply elem_of_app. right. left.
Qed.

(** ** Walks *)

Section Walk.
Context {D : Type} `{BlockDevice D}.
Implicit Types s : fs D.

Definition place_sector (s : fs D) (lba : Z) : list placed :=
  map (λ e, (lba, e, entry_at (sec s lba) e)) (seqZ 0 16).

(** The placed slots of the sectors [ls]. *)
Definition placed_slots (s : fs D) (ls : list Z) : list placed := concat (map (place_sector s) ls).

Definition slots (s : fs D) (ls : list Z) : list (list Z) := concat (map (λ l, slots_of (sec s l)) ls).

Lemma ents_placed s ls : ents (placed_slots s ls) = slots s ls.
Proof.
  unfold ents, placed_slots, slots. induction ls as [|l ls IH]; [done|].
  cbn [map concat]. rewrite fmap_app, IH. f_equal.
Qed.

Definition value {A} (v : verdict A) : A := match v with Go a | Stop a => a end.

Fixpoint scan {A} (body : Z → Z → list Z → A → verdict A) (l : list placed) (a : A) : verdict A :=
  match l with
  | [] => Go a
  | (lba, e, ent) :: l =>
      match body lba e ent a with
      | Stop a => Stop a
      | Go a => scan body l a
      end
  end.

Lemma scan_app {A} (body : Z → Z → list Z → A → verdict A) l1 l2 a :
  scan body (l1 ++ l2) a = match scan body l1 a with Stop a => Stop a | Go a => scan body l2 a end.
Proof.
  revert a. induction l1 as [|[[lba e] ent] l1 IH]; intros a; simpl; [done|].
  destruct (body lba e ent a); [apply IH|done].
Qed.

Lemma scan_sector_scan {A} (body : Z → Z → list Z → A → verdict A) lba sec n e a :
  scan_sector n e (body lba) sec a =
  scan body (map (λ e, (lba, e, entry_at sec e)) (seqZ e (Z.of_nat n))) a.
Proof.
  revert e a. induction n as [|n IH]; intros e a; [done|].
  rewrite (seqZ_cons e) by lia. cbn [map scan scan_sector].
  destruct (body lba e (entry_at sec e) a); [|done].
  rewrite IH. do 3 f_equal; lia.
Qed.

Lemma placed_quiet s s' ls : quiet s s' → placed_slots s' ls = placed_slots s ls.
Proof.
  intros Hq. unfold placed_slots. f_equal. apply map_ext. intros l. unfold place_sector.
  by rewrite (qu_sec _ _ Hq).
Qed.

#[local] Arguments scan_sector : simpl never.

Definition lbas_ok (s : fs D) (ls : list Z) : Prop := Forall (λ l, 0 < l < bd_size (dev s)) ls.

Lemma wp_dir_walk {A} fuel idx dir (more : A → bool) body (a : A) ls s :
  bd_healthy (dev s) → 0 ≤ idx ≤ zlen ls → lbas_ok s ls →
  (∀ i, 0 ≤ i → dir_sector_lba (geo s) (fat_cache s) dir i = arr_get ls i) →
  (length ls < Z.to_nat idx + fuel)%nat →
  (∀ a lba e ent, more a = false → body lba e ent a = Stop a) →
  wp (dir_walk fuel idx dir more body a)
     (λ s' r, quiet s s' ∧ r.1 ≠ Endless ∧ r.1 ≠ Broken ∧
              r.2 = value (scan body (placed_slots s (drop (Z.to_nat idx) ls)) a)) s.
Proof.
  revert idx a s. induction fuel as [|fuel IH]; intros idx a s Hh Hi Hls Hdir Hf Hmore.
  { unfold zlen in Hi. lia. }
  simpl. destruct (more a) eqn:Em; simpl.
  2:{ apply wp_ret. split_and!; try done. simpl. destruct (placed_slots _ _) as [|[[lba e] ent] l]; [done|].
      simpl. by rewrite Hmore. }
  apply wp_bind, wp_get. rewrite Hdir by lia. unfold arr_get. rewrite (proj2 (Z.ltb_ge idx 0)) by lia.
  destruct (ls !! Z.to_nat idx) as [lba|] eqn:El; simpl.
  2:{ apply wp_ret. split_and!; try done. apply lookup_ge_None in El. by rewrite drop_ge. }
  pose proof (Forall_lookup_1 _ _ _ _ Hls El) as Hlba. simpl in Hlba.
  rewrite (proj2 (Z.eqb_neq lba 0)) by lia.
  apply wp_bind, wp_read_sector; [done|lia|]. intros s1 Hq.
  rewrite (drop_S _ _ _ El). change (placed_slots s (lba :: drop (S (Z.to_nat idx)) ls)) with
    (place_sector s lba ++ placed_slots s (drop (S (Z.to_nat idx)) ls)).
  rewrite scan_app. pose proof (scan_sector_scan body lba (sec s lba) 16 0 a) as Hsc.
  change (scan body (map (λ e, (lba, e, entry_at (sec s lba) e)) (seqZ 0 (Z.of_nat 16))) a)
    with (scan body (place_sector s lba) a) in Hsc. rewrite Hsc.
  destruct (scan body (place_sector s lba) a) as [a'|a'].
  2:{ by apply wp_ret. }
  eapply wp_mono; [apply IH|].
  - by apply Hq.
  - apply lookup_lt_Some in El. unfold zlen. lia.
  - unfold lbas_ok. by rewrite (sv_size _ _ (qu_vol _ _ Hq)).
  - intros i Hi'. rewrite (sv_geo _ _ (qu_vol _ _ Hq)), (qu_fat _ _ Hq). by apply Hdir.
  - lia.
  - done.
  - cbv beta. intros s2 r (Hq2 & H1 & H2 & H3). split; [by etrans|]. split; [done|]. split; [done|].
    rewrite H3, (placed_quiet s s1) by done. by replace (Z.to_nat (idx + 1)) with (S (Z.to_nat idx)) by lia.
Qed.

(** ** The directory a volume's chain describes *)

Lemma length_dir_lbas g dir cl :
  length (dir_lbas g dir cl) =
    if dir =? 0 then Z.to_nat (root_sectors g) else (length cl * Z.to_nat (sectors_per_cluster g))%nat.
Proof.
  unfold dir_lbas. destruct (dir =? 0); [by rewrite length_seqZ|].
  induction cl as [|c cl IH]; [done|]. cbn [map concat length].
  rewrite length_app, IH, length_cluster_sectors. lia.
Qed.

Lemma elem_dir_lbas g dir cl l :
  l ∈ dir_lbas g dir cl ↔
    if dir =? 0 then root_start g ≤ l < root_start g + root_sectors g
    else ∃ c, c ∈ cl ∧ l ∈ cluster_sectors g c.
Proof.
  unfold dir_lbas. destruct (dir =? 0); [by rewrite elem_of_seqZ|].
  rewrite elem_of_concat. split.
  - intros (x & Hx & (c & -> & Hc)%list_elem_of_fmap). eauto.
  - intros (c & Hc & Hl). exists (cluster_sectors g c). split; [done|]. apply list_elem_of_fmap. eauto.
Qed.

Lemma dir_lbas_ok s dir cl :
  vol_ok s → dir_at (geo s) (fat_cache s) dir cl → lbas_ok s (dir_lbas (geo s) dir cl).
Proof.
  intros Hv Hd. pose proof (vo_geom _ Hv) as Hg. pose proof Hg as [].
  assert (0 ≤ num_fats (geo s) * sectors_per_fat (geo s)) by nia.
  assert (0 ≤ cluster_count (geo s) * sectors_per_cluster (geo s)) by nia.
  apply Forall_forall. intros l. rewrite elem_dir_lbas. destruct Hd as [[-> ->]|[Hd Hch]].
  - simpl. lia.
  - rewrite (proj2 (Z.eqb_neq dir 0)) by lia. intros (c & Hc & Hl).
    apply elem_cluster_sectors in Hl. destruct (chain_in _ _ _ _ _ Hch Hc) as [Hc' _].
    destruct (cluster_lba_val _ _ _ Hg Hc'). lia.
Qed.

Lemma NoDup_cluster_sectors g size cl :
  geom_ok g size → NoDup cl → (∀ c, c ∈ cl → 2 ≤ c < clusters g) →
  NoDup (concat (map (cluster_sectors g) cl)).
Proof.
  intros Hg. induction cl as [|c cl IH]; intros Hnd Hcl; [constructor|].
  apply NoDup_cons in Hnd as [Hni Hnd]. cbn [map concat]. apply NoDup_app. split_and!.
  - unfold cluster_sectors. apply NoDup_seqZ.
  - intros l Hl. rewrite elem_of_concat. intros (x & Hx & (d & -> & Hd)%list_elem_of_fmap).
    apply Hni. rewrite (cluster_sectors_disjoint g size c d l); [done|done| | |done|done].
    + apply Hcl. left.
    + apply Hcl. by right.
  - apply IH; [done|]. intros d Hd. apply Hcl. by right.
Qed.

Lemma NoDup_dir_lbas s dir cl :
  vol_ok s → dir_at (geo s) (fat_cache s) dir cl → NoDup (dir_lbas (geo s) dir cl).
Proof.
  intros Hv Hd. unfold dir_lbas. pose proof (vo_geom _ Hv) as Hg.
  pose proof (proj2 (proj1 (proj2 (vo_table _ Hv)))) as Hn. destruct Hd as [[-> ->]|[Hd Hch]].
  - apply NoDup_seqZ.
  - rewrite (proj2 (Z.eqb_neq dir 0)) by lia. eapply NoDup_cluster_sectors; [done|by eapply chain_NoDup|].
    intros c Hc. by destruct (chain_in _ _ _ _ _ Hch Hc).
Qed.

Lemma walk_fuel_enough s dir cl :
  vol_ok s → dir_at (geo s) (fat_cache s) dir cl →
  (length (dir_lbas (geo s) dir cl) < walk_fuel (geo s))%nat.
Proof.
  intros Hv Hd. pose proof (vo_geom _ Hv) as Hg. pose proof (vo_table _ Hv) as (_ & Hn & _).
  pose proof Hg as []. rewrite length_dir_lbas. unfold walk_fuel.
  assert (0 ≤ cluster_count (geo s) * sectors_per_cluster (geo s)) by nia.
  destruct Hd as [[-> ->]|[Hd Hch]]; simpl; [lia|].
  rewrite (proj2 (Z.eqb_neq dir 0)) by lia.
  pose proof (chain_length _ _ _ _ Hn Hch). unfold clusters in *. nia.
Qed.

Lemma dir_lookup s dir cl i :
  vol_ok s → dir_at (geo s) (fat_cache s) dir cl → 0 ≤ i →
  dir_sector_lba (geo s) (fat_cache s) dir i = arr_get (dir_lbas (geo s) dir cl) i.
Proof.
  intros Hv Hd Hi. apply dir_sector_lba_spec with (size := bd_size (dev s)); [apply Hv|apply (vo_table _ Hv)|done..].
Qed.

(** Every walk of a directory on a sound volume comes to its end, and computes
    the scan of its slots. *)
Lemma wp_walk {A} dir cl (more : A → bool) body (a : A) (Q : fs D → walk_end * A → Prop) s :
  vol_ok s → dir_at (geo s) (fat_cache s) dir cl →
  (∀ a lba e ent, more a = false → body lba e ent a = Stop a) →
  (∀ s' e, quiet s s' → e ≠ Endless →
     Q s' (e, value (scan body (placed_slots s (dir_lbas (geo s) dir cl)) a))) →
  wp (walk dir more body a) Q s.
Proof.
  intros Hv Hd Hmore HQ. apply wp_bind, wp_get. eapply wp_mono.
  - apply (wp_dir_walk _ _ _ _ _ _ (dir_lbas (geo s) dir cl)).
    + apply Hv.
    + unfold zlen. lia.
    + by apply dir_lbas_ok.
    + intros i Hi. by apply dir_lookup.
    + simpl. by apply walk_fuel_enough.
    + done.
  - cbv beta. intros s' [e r] (Hq & He & _ & Hr). simpl in *. subst r. rewrite drop_0. by apply HQ.
Qed.

Lemma scan_find name l : value (scan (find_body name) l None) = find_ent name l.
Proof.
  induction l as [|[[lba e] ent] l IH]; [done|]. simpl. unfold find_body at 1. unfold ent_end.
  destruct (arr_get ent 0 =? 0); [done|]. destruct (ent_skip ent); [done|].
  by destruct (bool_decide (take 11 ent = name)).
Qed.

Lemma wp_dir_find dir cl name (Q : fs D → option found → Prop) s :
  vol_ok s → dir_at (geo s) (fat_cache s) dir cl →
  (∀ s', quiet s s' → Q s' (find_ent name (placed_slots s (dir_lbas (geo s) dir cl)))) →
  wp (dir_find dir name) Q s.
Proof.
  intros Hv Hd HQ. apply wp_bind. eapply wp_walk; [done|done|done|].
  intros s' e Hq _. apply wp_ret. simpl. rewrite scan_find. by apply HQ.
Qed.

(** ** Writing a slot *)

(** A placed slot: which sector of the directory it lies in. *)
Lemma placed_split s ls l1 lba e ent l2 :
  placed_slots s ls = l1 ++ (lba, e, ent) :: l2 →
  ∃ ls1 ls2, ls = ls1 ++ lba :: ls2 ∧ 0 ≤ e < 16 ∧ ent = entry_at (sec s lba) e ∧
    l1 = placed_slots s ls1 ++ take (Z.to_nat e) (place_sector s lba) ∧
    l2 = drop (S (Z.to_nat e)) (place_sector s lba) ++ placed_slots s ls2.
Proof.
  revert l1. induction ls as [|l ls IH]; intros l1 H1.
  { by destruct l1. }
  change (placed_slots s (l :: ls)) with (place_sector s l ++ placed_slots s ls) in H1.
  assert (length (place_sector s l) = 16%nat) as Hlen by done.
  destruct (decide (length l1 < 16)%nat) as [Hl|Hl].
  - assert (place_sector s l !! length l1 = Some (lba, e, ent)) as Hp.
    { rewrite <- (lookup_app_l _ (placed_slots s ls)) by lia. rewrite H1.
      by rewrite list_lookup_middle. }
    pose proof Hp as Hp'. unfold place_sector in Hp'. rewrite list_lookup_fmap in Hp'.
    rewrite lookup_seqZ_lt in Hp' by lia. rewrite Z.add_0_l in Hp'. cbn [fmap option_fmap option_map] in Hp'.
    injection Hp' as -> <- <-.
    exists [], ls. rewrite Nat2Z.id. split; [done|]. split; [lia|]. split; [done|].
    assert (take (length l1) (place_sector s lba ++ placed_slots s ls) = l1) as E1.
    { rewrite H1. by rewrite take_app_length. }
    assert (drop (S (length l1)) (place_sector s lba ++ placed_slots s ls) = l2) as E2.
    { rewrite H1. rewrite cons_middle, app_assoc. rewrite drop_app_length'; [done|]. rewrite length_app. simpl. lia. }
    split.
    + rewrite <- E1 at 1. rewrite take_app_le by lia. done.
    + rewrite <- E2 at 1. rewrite drop_app_le by lia. done.
  - assert (l1 = place_sector s l ++ drop 16 l1) as E1.
    { rewrite <- (take_drop 16 l1) at 1. f_equal.
      rewrite <- (take_app_le l1 ((lba, e, ent) :: l2) 16) by lia. rewrite <- H1.
      by apply take_app_length'. }
    rewrite E1, <- app_assoc in H1. apply app_inv_head in H1.
    destruct (IH _ H1) as (ls1 & ls2 & -> & He & Hent & H2 & H3).
    exists (l :: ls1), ls2. split; [done|]. split; [done|]. split; [done|]. split; [|done].
    rewrite E1, H2. change (placed_slots s (l :: ls1)) with (place_sector s l ++ placed_slots s ls1).
    by rewrite app_assoc.
Qed.

(** What storing [new] in a slot does to the slots of the directory. *)
Lemma slots_write s s' ls l1 lba e ent l2 new :
  bd_healthy (dev s) → lbas_ok s ls → NoDup ls → length new = 32%nat →
  placed_slots s ls = l1 ++ (lba, e, ent) :: l2 →
  (∀ l, l ∈ ls → sec s' l = if l =? lba then splice (sec s lba) (32 * e) new else sec s l) →
  slots s' ls = ents l1 ++ new :: ents l2.
Proof.
  intros Hh Hok Hnd Hn Hpl Hu.
  destruct (placed_split _ _ _ _ _ _ _ Hpl) as (ls1 & ls2 & -> & He & -> & -> & ->).
  pose proof (proj1 (Forall_forall _ _) Hok lba) as Hlba.
  assert (lba ∈ ls1 ++ lba :: ls2) as Hin by (apply elem_of_app; right; left).
  specialize (Hlba Hin). simpl in Hlba.
  destruct (sec_ok s lba Hh) as [Hlen _]; [lia|].
  apply NoDup_app in Hnd as (_ & Hd1 & Hnd2). apply NoDup_cons in Hnd2 as [Hd2 _].
  unfold slots. rewrite map_app, concat_app. cbn [map concat].
  rewrite Hu by done. rewrite Z.eqb_refl, slots_of_splice by done.
  unfold ents. rewrite !fmap_app. fold (ents (placed_slots s ls1)) (ents (placed_slots s ls2)).
  rewrite !ents_placed. unfold slots.
  assert (∀ l, l ∈ ls1 ++ ls2 → sec s' l = sec s l) as Hsame.
  { intros l Hl. rewrite Hu. 2:{ apply elem_of_app in Hl as [|]; apply elem_of_app; [by left|right; by right]. }
    destruct (Z.eqb_spec l lba) as [->|]; [|done]. exfalso.
    apply elem_of_app in Hl as [Hl|Hl]; [|done]. apply (Hd1 _ Hl). left. }
  assert (∀ k, (∀ l, l ∈ k → l ∈ ls1 ++ ls2) →
    map (λ l, slots_of (sec s' l)) k = map (λ l, slots_of (sec s l)) k) as Hmap.
  { intros k Hk. apply list_fmap_ext. intros i l Hl. by rewrite Hsame by (apply Hk; by eapply list_elem_of_lookup_2). }
  rewrite !Hmap by (intros l Hl; apply elem_of_app; auto).
  rewrite <- app_assoc. f_equal. rewrite app_comm_cons, app_assoc. f_equal.
  assert ((place_sector s lba).*2 = slots_of (sec s lba)) as E by done.
  rewrite fmap_take, fmap_drop, E. rewrite insert_take_drop; [done|]. rewrite length_slots_of. lia.
Qed.

(** ** Adding an entry *)

Lemma scan_sector_S {A} n e (body : Z → list Z → A → verdict A) sec a :
  scan_sector (S n) e body sec a =
  match body e (entry_at sec e) a with Stop a => Stop a | Go a => scan_sector n (e + 1) body sec a end.
Proof. done. Qed.

Lemma scan_slot_spec n e sec :
  0 ≤ e →
  (∃ f, e ≤ f < e + Z.of_nat n ∧ scan_sector n e slot_body sec None = Stop (Some f) ∧
     ent_free (entry_at sec f) = true ∧ ∀ j, e ≤ j < f → ent_free (entry_at sec j) = false) ∨
  (scan_sector n e slot_body sec None = Go None ∧
     ∀ j, e ≤ j < e + Z.of_nat n → ent_free (entry_at sec j) = false).
Proof.
  revert e. induction n as [|n IH]; intros e He; [right; split; [done|lia]|].
  rewrite scan_sector_S.
  assert (slot_body e (entry_at sec e) None = if ent_free (entry_at sec e) then Stop (Some e) else Go None) as -> by done.
  destruct (ent_free (entry_at sec e)) eqn:E.
  - left. exists e. split_and!; try done; lia.
  - destruct (IH (e + 1)) as [(f & Hf & H1 & H2 & H3)|[H1 H2]]; [lia|left|right].
    + exists f. split_and!; try done; try lia. intros j Hj.
      destruct (Z.eq_dec j e) as [->|]; [done|]. apply H3. lia.
    + split; [done|]. intros j Hj. destruct (Z.eq_dec j e) as [->|]; [done|]. apply H2. lia.
Qed.

Lemma wp_fill_sectors n lba data (Q : fs D → unit → Prop) s :
  bd_healthy (dev s) → 0 ≤ lba → lba + Z.of_nat n ≤ bd_size (dev s) → is_sector data →
  (∀ s', effect s s' (fat_cache s) (λ l, if (lba <=? l) && (l <? lba + Z.of_nat n) then data else sec s l) →
     Q s' tt) →
  wp (fill_sectors n lba data) Q s.
Proof.
  revert lba s. induction n as [|n IH]; intros lba s Hh H0 Hn Hd HQ.
  - apply wp_ret, HQ. split_and!; try done. intros l.
    destruct (Z.leb_spec lba l), (Z.ltb_spec l (lba + Z.of_nat 0)); simpl; done || lia.
  - apply wp_bind, wp_write_sector; [done|lia|done|]. intros s1 (Hv & Hh1 & Hf & Hu).
    apply IH; [done|lia|rewrite (sv_size _ _ Hv); lia|done|].
    intros s2 (Hv2 & Hh2 & Hf2 & Hu2). apply HQ. split_and!; [by etrans|done|congruence|].
    intros l. rewrite Hu2, Hu. destruct (Z.eqb_spec l lba) as [->|].
    + rewrite (proj2 (Z.leb_gt (lba + 1) lba)), (proj2 (Z.leb_le lba lba)) by lia.
      rewrite (proj2 (Z.ltb_lt lba (lba + Z.of_nat (S n)))) by lia. done.
    + destruct (Z.leb_spec (lba + 1) l), (Z.ltb_spec l (lba + 1 + Z.of_nat n)),
        (Z.leb_spec lba l), (Z.ltb_spec l (lba + Z.of_nat (S n))); cbn [andb]; done || lia.
Qed.

Lemma wp_alloc_cluster (Q : fs D → Z → Prop) s :
  vol_ok s →
  ((∀ d, 2 ≤ d < clusters (geo s) → fat_get (fat_cache s) d ≠ 0) → Q s 0) →
  (∀ s' c, 2 ≤ c < clusters (geo s) → fat_get (fat_cache s) c = 0 →
     effect s s' (fat_put c 0xFFF (fat_cache s)) (sec s) → vol_ok s' → Q s' c) →
  wp alloc_cluster Q s.
Proof.
  intros Hv H0 Hc. unfold wp, alloc_cluster.
  destruct (alloc_in (cluster_count (geo s)) (fat_cache s)) as [f c] eqn:E. simpl.
  pose proof (vo_table _ Hv) as Ht. apply alloc_in_spec in E; [|done|by destruct (vo_geom _ Hv)].
  destruct E as [(-> & -> & Hall)|(Hr & Hz & -> & _)].
  - assert (with_fat (fat_cache s) s = s) as -> by (by destruct s). by apply H0.
  - assert (effect s (with_fat (fat_put c 0xFFF (fat_cache s)) s) (fat_put c 0xFFF (fat_cache s)) (sec s)) as He.
    { split_and!; [by split|apply Hv|done|done]. }
    apply Hc; [done|done|done|]. eapply effect_vol_ok; [done|done| |by rewrite length_fat_put].
    apply table_ok_put; [done|lia].
Qed.

Lemma wp_fatPut c v (Q : fs D → unit → Prop) s :
  vol_ok s → 0 ≤ v < 4096 →
  (∀ s', effect s s' (fat_put c v (fat_cache s)) (sec s) → vol_ok s' → Q s' tt) →
  wp (fatPut c v) Q s.
Proof.
  intros Hv Hr HQ. apply wp_upd.
  assert (effect s (with_fat (fat_put c v (fat_cache s)) s) (fat_put c v (fat_cache s)) (sec s)) as He.
  { split_and!; [by split|apply Hv|done|done]. }
  apply HQ; [done|]. eapply effect_vol_ok; [done|done| |by rewrite length_fat_put].
  apply table_ok_put; [apply Hv|lia].
Qed.

Lemma zero_sector_cells : is_sector (replicate 512 0).
Proof. apply zero_sector_ok. Qed.

(** The cluster that a full subdirectory grows by. *)
Definition grown (g : geom) (nc : Z) (entry : list Z) (old : Z → list Z) (l : Z) : list Z :=
  if l =? cluster_lba g nc then splice (replicate 512 0) 0 entry
  else if (cluster_lba g nc <=? l) && (l <? cluster_lba g nc + sectors_per_cluster g)
  then replicate 512 0 else old l.

(** What [dir_add] did: the entry is in the first free slot, or the directory
    was full and has grown, or the directory was full and could not grow. *)
Inductive added (s s' : fs D) (dir : Z) (dcl : list Z) (entry : list Z) : Z → Prop :=
| added_slot l1 lba e old l2 :
    placed_slots s (dir_lbas (geo s) dir dcl) = l1 ++ (lba, e, old) :: l2 →
    Forall (λ x, ent_free x = false) (ents l1) → ent_free old = true →
    effect s s' (fat_cache s) (λ l, if l =? lba then splice (sec s lba) (32 * e) entry else sec s l) →
    added s s' dir dcl entry 0
| added_grown nc x :
    Forall (λ x, ent_free x = false) (slots s (dir_lbas (geo s) dir dcl)) → dir ≠ 0 →
    2 ≤ nc < clusters (geo s) → fat_get (fat_cache s) nc = 0 → last dcl = Some x →
    same_vol s s' → vol_ok s' → fat_cache s' = fat_put x nc (fat_put nc 0xFFF (fat_cache s)) →
    (∀ l, root_start (geo s) ≤ l → sec s' l = grown (geo s) nc entry (sec s) l) →
    added s s' dir dcl entry 0
| added_full :
    Forall (λ x, ent_free x = false) (slots s (dir_lbas (geo s) dir dcl)) → quiet s s' →
    (dir ≠ 0 → ∀ d, 2 ≤ d < clusters (geo s) → fat_get (fat_cache s) d ≠ 0) →
    added s s' dir dcl entry (-1).

Lemma wp_grow s s0 dir dcl entry :
  vol_ok s → quiet s0 s → dir_at (geo s0) (fat_cache s0) dir dcl → dir ≠ 0 →
  Forall (λ x, ent_free x = false) (slots s0 (dir_lbas (geo s0) dir dcl)) →
  length entry = 32%nat → bytes_ok entry →
  wp (let c := last_cluster free_fuel dir (fat_cache s) in
      bind alloc_cluster (λ nc,
        if nc =? 0 then ret (-1)
        else bind (fatPut c nc) (λ _, bind fat_flush (λ _,
          bind (fill_sectors (Z.to_nat (sectors_per_cluster (geo s))) (cluster_lba (geo s) nc)
              (replicate 512 0)) (λ _,
          bind (write_sector (cluster_lba (geo s) nc) (splice (replicate 512 0) 0 entry)) (λ _, ret 0))))))
    (λ s' r, added s0 s' dir dcl entry r) s.
Proof.
  intros Hv Hq Hd Hne Hfull Hle Hbe. pose proof Hq as [Hsv _ Ef Es].
  pose proof (sv_geo _ _ Hsv) as Eg. rewrite <- Ef, <- Eg in Hd.
  destruct Hd as [[? _]|[Hd Hch]]; [done|]. pose proof (vo_table _ Hv) as Ht.
  pose proof (proj2 (proj1 (proj2 Ht))) as Hn.
  pose proof (last_cluster_spec _ _ _ _ free_fuel Hn Hch Hd (free_fuel_enough _ _ _ _ (proj1 (proj2 Ht)) Hch)) as Hlast.
  cbv zeta. set (x := last_cluster free_fuel dir (fat_cache s)) in *. clearbody x.
  apply wp_bind, wp_alloc_cluster; [done| |].
  { intros Hall. apply wp_ret, added_full; [done|done|]. intros _. by rewrite <- Eg, <- Ef. }
  intros s1 nc Hnc Hz He1 Hv1. rewrite (proj2 (Z.eqb_neq nc 0)) by lia.
  pose proof Hn as Hn'. unfold EOC in Hn'.
  apply wp_bind, wp_fatPut; [done|lia|]. intros s2 He2 Hv2.
  apply wp_bind, wp_fat_flush; [done|]. intros s3 Hsv3 Hh3 Hf3 Hs3.
  destruct He1 as (Hsv1 & _ & Ef1 & Es1). destruct He2 as (Hsv2 & _ & Ef2 & Es2).
  destruct (cluster_lba_val _ _ _ (vo_geom _ Hv) Hnc) as (_ & Hlo & Hhi).
  assert (bd_size (dev s3) = bd_size (dev s)) as Esz by (destruct Hsv1, Hsv2, Hsv3; congruence).
  pose proof (vo_geom _ Hv) as Hg. pose proof Hg as [].
  assert (0 ≤ num_fats (geo s) * sectors_per_fat (geo s)) by nia.
  apply wp_bind, wp_fill_sectors; [done|lia|lia|apply zero_sector_cells|]. intros s4 (Hsv4 & Hh4 & Ef4 & Es4).
  apply wp_bind, wp_write_sector; [done|destruct Hsv4; lia| |].
  { apply splice_sector; [apply zero_sector_cells|lia|lia|done]. }
  intros s5 (Hsv5 & Hh5 & Ef5 & Es5). apply wp_ret.
  assert (same_vol s s5) as Hsv05 by (do 4 (etrans; [eassumption|]); assumption).
  assert (fat_cache s5 = fat_put x nc (fat_put nc 0xFFF (fat_cache s))) as Ef05 by congruence.
  apply added_grown with nc x; try done; rewrite <- ?Eg, <- ?Ef; try done.
  - by etrans.
  - eapply (effect_vol_ok s s5 _ (sec s5)); [done|split_and!; done| |by rewrite !length_fat_put].
    do 2 (apply table_ok_put; [|lia]). done.
  - intros l Hl. rewrite Es5. unfold grown. destruct (l =? cluster_lba (geo s) nc); [done|].
    rewrite Es4. rewrite Z2Nat.id by lia. destruct ((cluster_lba (geo s) nc <=? l) && _); [done|].
    rewrite Hs3 by (rewrite (sv_geo _ _ Hsv2), (sv_geo _ _ Hsv1); lia). by rewrite Es2, Es1, Es.
Qed.

Lemma wp_dir_add_loop fuel idx dir dcl entry s0 s :
  vol_ok s → quiet s0 s → dir_at (geo s0) (fat_cache s0) dir dcl →
  0 ≤ idx ≤ zlen (dir_lbas (geo s0) dir dcl) →
  (length (dir_lbas (geo s0) dir dcl) < Z.to_nat idx + fuel)%nat →
  Forall (λ x, ent_free x = false) (slots s0 (take (Z.to_nat idx) (dir_lbas (geo s0) dir dcl))) →
  length entry = 32%nat → bytes_ok entry → vol_ok s0 →
  wp (dir_add_loop fuel idx dir entry) (λ s' r, added s0 s' dir dcl entry r) s.
Proof.
  set (ls := dir_lbas (geo s0) dir dcl).
  revert idx s. induction fuel as [|fuel IH]; intros idx s Hv Hq Hd Hi Hf Hfull Hle Hbe Hv0.
  { unfold zlen in Hi. lia. }
  cbn [dir_add_loop]. apply wp_bind, wp_get. pose proof Hq as [Hsv _ Ef Es].
  pose proof (sv_geo _ _ Hsv) as Eg. pose proof (sv_size _ _ Hsv) as Ez.
  pose proof (dir_lbas_ok _ _ _ Hv0 Hd) as Hls. fold ls in Hls.
  assert (dir_sector_lba (geo s) (fat_cache s) dir idx = arr_get ls idx) as ->.
  { rewrite Eg, Ef. apply dir_lookup; [done|done|lia]. }
  unfold arr_get. rewrite (proj2 (Z.ltb_ge idx 0)) by lia.
  destruct (ls !! Z.to_nat idx) as [lba|] eqn:El; cbn [default].
  - pose proof (Forall_lookup_1 _ _ _ _ Hls El) as Hlba. simpl in Hlba. cbn [from_option id].
    rewrite (proj2 (Z.eqb_neq lba 0)) by lia.
    apply wp_bind, wp_read_sector; [apply Hv|lia|]. intros s1 Hq1. rewrite Es.
    assert (ls = take (Z.to_nat idx) ls ++ lba :: drop (S (Z.to_nat idx)) ls) as Esplit.
    { by rewrite <- (drop_S _ _ _ El), take_drop. }
    destruct (scan_slot_spec 16 0 (sec s0 lba)) as [(e & He & -> & Hfree & Hbefore)|[-> Hall]]; [lia| |].
    + change (0 + Z.of_nat 16) with 16 in He.
      apply wp_bind, wp_write_sector.
      * by apply Hq1, Hv.
      * rewrite (sv_size _ _ (qu_vol _ _ Hq1)). lia.
      * apply splice_sector; [apply sec_ok; [apply Hv0|lia]|lia|lia|done].
      * intros s2 He2. apply wp_ret.
        apply added_slot with (placed_slots s0 (take (Z.to_nat idx) ls) ++ take (Z.to_nat e) (place_sector s0 lba))
          lba e (entry_at (sec s0 lba) e)
          (drop (S (Z.to_nat e)) (place_sector s0 lba) ++ placed_slots s0 (drop (S (Z.to_nat idx)) ls)); [| |done|].
        -- fold ls. rewrite Esplit at 1. unfold placed_slots. rewrite map_app, concat_app. cbn [map concat].
           rewrite <- !app_assoc. f_equal. rewrite app_comm_cons, app_assoc. f_equal.
           symmetry; apply take_drop_middle. unfold place_sector. rewrite list_lookup_fmap, lookup_seqZ_lt by lia.
           cbn [fmap option_fmap option_map]. repeat f_equal; lia.
        -- unfold ents. rewrite fmap_app, fmap_take. fold (ents (placed_slots s0 (take (Z.to_nat idx) ls))).
           rewrite ents_placed. apply Forall_app. split; [done|].
           change ((place_sector s0 lba).*2) with (slots_of (sec s0 lba)).
           apply Forall_lookup. intros i x Hix. apply lookup_take_Some in Hix as [Hix Hlt].
           rewrite <- (Nat2Z.id i) in Hix. rewrite slots_of_lookup in Hix by lia.
           injection Hix as <-. apply Hbefore. lia.
        -- eapply quiet_effect_trans; [exact Hq|]. eapply quiet_effect_trans; [exact Hq1|].
           destruct He2 as (? & ? & Hf2 & Hu2). split_and!; [done|done|rewrite Hf2, (qu_fat _ _ Hq1); congruence|].
           intros l. rewrite Hu2, (qu_sec _ _ Hq1), Es. done.
    + apply IH; try done.
      * by eapply quiet_vol_ok.
      * by etrans.
      * apply lookup_lt_Some in El. unfold zlen in *. lia.
      * fold ls. lia.
      * fold ls. replace (Z.to_nat (idx + 1)) with (S (Z.to_nat idx)) by lia. rewrite (take_S_r _ _ _ El).
        unfold slots. rewrite map_app, concat_app. apply Forall_app. split; [done|]. cbn [map concat].
        rewrite app_nil_r. apply Forall_lookup. intros i x Hix.
        pose proof (lookup_lt_Some _ _ _ Hix) as Hlt. rewrite length_slots_of in Hlt.
        rewrite <- (Nat2Z.id i) in Hix. rewrite slots_of_lookup in Hix by lia. injection Hix as <-. apply Hall. lia.
  - cbn [from_option id]. change (0 =? 0) with true. cbv iota.
    apply lookup_ge_None in El. rewrite take_ge in Hfull by lia.
    destruct (Z.eqb_spec dir 0) as [->|Hne].
    + apply wp_ret, added_full; [done|done|done].
    + by apply wp_grow.
Qed.

Lemma wp_dir_add dir dcl entry (Q : fs D → Z → Prop) s :
  vol_ok s → dir_at (geo s) (fat_cache s) dir dcl → length entry = 32%nat → bytes_ok entry →
  (∀ s' r, added s s' dir dcl entry r → Q s' r) →
  wp (dir_add dir entry) Q s.
Proof.
  intros Hv Hd Hle Hbe HQ. apply wp_bind, wp_get. eapply wp_mono; [|exact HQ].
  apply wp_dir_add_loop; try done.
  - unfold zlen. lia.
  - simpl. by apply walk_fuel_enough.
Qed.

End Walk.
