(* ===== verification/Fat12Names.v ===== *)
(** Names of [Fat12.v]: the 8.3 form that [to_83] builds, what [make_entry]'s
    bytes say, and the paths of the working directory. *)
From Stdlib Require Import ZArith Lia Bool Ascii String.
From stdpp Require Import base numbers gmap option list.
From S2P Require Import Prelude Console Rtc Block Fat12 Fat12Table Fat12Logic Fat12Dir.

#[local] Open Scope Z_scope.
#[local] Open Scope c_scope.

(** ** 8.3 names *)

(** A C string of plain ASCII characters. *)
Definition plain (name : list Z) : Prop := Forall (λ c, 0 < c < 128) name.

Definition bounded (k : nat) (l : list Z) : Prop := (length l ≤ k)%nat.

Lemma to_upper_plain c : 0 < c < 128 → 0 < to_upper c < 128.
Proof. unfold to_upper. change (chr "a") with 97. change (chr "z") with 122. intros. repeat (zcase; cbn [andb]); lia. Qed.

Lemma to_upper_dot c : to_upper c = chr "." → c = chr ".".
Proof. unfold to_upper. change (chr "a") with 97. change (chr "z") with 122. change (chr ".") with 46. repeat (zcase; cbn [andb]); lia. Qed.

Lemma take_part_spec n stop name :
  plain name →
  plain (take_part n stop name).1 ∧ plain (take_part n stop name).2 ∧
  (length (take_part n stop name).1 ≤ n)%nat.
Proof.
  revert name. induction n as [|n IH]; intros name Hn.
  { destruct name; (split; [constructor|split; [exact Hn|simpl; lia]]). }
  destruct name as [|c name]; simpl; [split_and!; [constructor..|lia]|].
  pose proof Hn as [Hc Hn']%Forall_cons. destruct (stop && (c =? chr ".")).
  - split_and!; [constructor|done|simpl; lia].
  - destruct (IH name Hn') as (H1 & H2 & H3). destruct (take_part n stop name) as [p r]. simpl in *.
    split_and!; [|done|lia]. constructor; [by apply to_upper_plain|done].
Qed.

Lemma skip_to_dot_plain name : plain name → plain (skip_to_dot name).
Proof.
  induction name as [|c name IH]; simpl; [done|]. intros Hn. destruct (c =? chr "."); [done|].
  apply IH. by apply Forall_cons in Hn as [_ Hn].
Qed.

Lemma length_pad n l : (length l ≤ n)%nat → length (pad n l) = n.
Proof. intros. unfold pad. rewrite length_app, length_replicate. lia. Qed.

Lemma plain_pad n l : plain l → plain (pad n l).
Proof. intros Hl. apply Forall_app. split; [done|]. apply Forall_replicate. lia. Qed.

Lemma to_83_length name : plain name → length (to_83 name) = 11%nat.
Proof.
  intros Hn. unfold to_83. destruct (take_part_spec 8 true name Hn) as (H1 & H2 & H3).
  destruct (take_part 8 true name) as [b r]. cbn [fst snd] in *. rewrite length_app, length_pad by done.
  pose proof (skip_to_dot_plain _ H2) as H4. destruct (skip_to_dot r) as [|d ext]; [done|].
  apply Forall_cons in H4 as [_ H4]. rewrite length_pad; [done|]. by apply take_part_spec.
Qed.

Lemma to_83_plain name : plain name → plain (to_83 name).
Proof.
  intros Hn. unfold to_83. destruct (take_part_spec 8 true name Hn) as (H1 & H2 & H3).
  destruct (take_part 8 true name) as [b r]. cbn [fst snd] in *. apply Forall_app. split; [by apply plain_pad|].
  pose proof (skip_to_dot_plain _ H2) as H4. destruct (skip_to_dot r) as [|d ext].
  - apply Forall_replicate. lia.
  - apply Forall_cons in H4 as [_ H4]. apply plain_pad. by apply take_part_spec.
Qed.

Lemma take_part_cons n c name :
  c ≠ chr "." →
  take_part (S n) true (c :: name) = (to_upper c :: (take_part n true name).1, (take_part n true name).2).
Proof.
  intros Hc. cbn [take_part andb]. rewrite (proj2 (Z.eqb_neq _ _)) by done.
  by destruct (take_part n true name).
Qed.

(** The first character is never a dot: such a name has an empty base. *)
Lemma to_83_first name : arr_get (to_83 name) 0 ≠ chr ".".
Proof.
  unfold to_83. destruct name as [|c name]; [done|].
  destruct (Z.eqb_spec c (chr ".")) as [->|Hne].
  - intros E. assert ((take_part 8 true (chr "." :: name)).1 = []) as E1 by done.
    destruct (take_part 8 true (chr "." :: name)) as [b r]. cbn [fst] in E1. by subst b.
  - rewrite take_part_cons by done. cbn [pad]. unfold arr_get. simpl. intros E. by apply Hne, to_upper_dot.
Qed.

Lemma plain_byte l i : plain l → (Z.to_nat i < length l)%nat → 0 ≤ i → 0 < arr_get l i < 128.
Proof.
  intros Hl Hi H0. unfold arr_get. rewrite (proj2 (Z.ltb_ge i 0)) by done.
  destruct (lookup_lt_is_Some_2 l (Z.to_nat i) Hi) as [x Hx]. rewrite Hx. simpl.
  by apply (Forall_lookup_1 _ _ _ _ Hl Hx).
Qed.

(** ** Directory entries *)

Definition name83_ok (n : list Z) : Prop :=
  length n = 11%nat ∧ plain n ∧ arr_get n 0 ≠ chr ".".

Lemma to_83_ok name : plain name → name83_ok (to_83 name).
Proof. intros Hn. split; [by apply to_83_length|]. split; [by apply to_83_plain|apply to_83_first]. Qed.

Lemma u8_land v : u8 (v &&& 255) = v mod 256.
Proof. rewrite (land_mask _ 8) by done. apply u8_small. zlia. Qed.

Lemma u8_byte v k : 0 ≤ k → u8 (v >>> k) = v / 2 ^ k mod 256.
Proof. intros. by rewrite shiftr_div. Qed.

Record entry_says (ent name83 : list Z) (attr c size : Z) : Prop := {
  es_name : ent_name ent = name83;
  es_attr : ent_attr ent = attr;
  es_cluster : ent_cluster ent = c;
  es_size : ent_size ent = size;
  es_first : arr_get ent 0 = arr_get name83 0;
  es_length : length ent = 32%nat;
  es_bytes : bytes_ok ent
}.

Lemma join4_bytes a b c d :
  0 ≤ a < 256 → 0 ≤ b < 256 → 0 ≤ c < 256 → 0 ≤ d < 256 →
  a ||| (b <<< 8) ||| (c <<< 16) ||| (d <<< 24) = a + 256 * b + 65536 * c + 16777216 * d.
Proof.
  intros Ha Hb Hc Hd. rewrite !shiftl_mul by lia.
  rewrite (lor_disjoint_add a _ 8) by zlia. rewrite (lor_disjoint_add _ (c * 2 ^ 16) 16) by zlia.
  rewrite (lor_disjoint_add _ (d * 2 ^ 24) 24) by zlia. zpow. lia.
Qed.

Lemma arr_get_app_r l1 l2 k : 0 ≤ k → arr_get (l1 ++ l2) (zlen l1 + k) = arr_get l2 k.
Proof.
  intros Hk. unfold arr_get, zlen. rewrite !(proj2 (Z.ltb_ge _ 0)) by lia.
  rewrite lookup_app_r by lia. do 2 f_equal. lia.
Qed.

Lemma entry_bytes_says name83 attr c size t :
  name83_ok name83 → 0 ≤ attr < 256 → 0 ≤ c < 65536 → 0 ≤ size < 2 ^ 32 →
  entry_says (entry_bytes name83 attr c size t) name83 attr c size.
Proof.
  intros (Hl & Hp & Hd) Ha Hc Hs. set (ent := entry_bytes name83 attr c size t).
  assert (zlen name83 = 11) as Hz by (unfold zlen; lia).
  assert (∀ k, 0 ≤ k → arr_get ent (11 + k) = arr_get (drop 11 ent) k) as Hget.
  { intros k Hk. rewrite <- Hz. unfold ent at 1, entry_bytes. rewrite (take_ge name83) by lia.
    rewrite arr_get_app_r by done. f_equal. unfold ent, entry_bytes. rewrite (take_ge name83) by lia.
    by rewrite drop_app_length'. }
  assert (drop 11 ent = [u8 attr; 0; 0; u8 (fat_time t &&& 255); u8 (fat_time t >>> 8);
    u8 (fat_date t &&& 255); u8 (fat_date t >>> 8); u8 (fat_date t &&& 255); u8 (fat_date t >>> 8); 0; 0;
    u8 (fat_time t &&& 255); u8 (fat_time t >>> 8); u8 (fat_date t &&& 255); u8 (fat_date t >>> 8);
    u8 (c &&& 255); u8 (c >>> 8); u8 (size &&& 255); u8 (size >>> 8); u8 (size >>> 16); u8 (size >>> 24)]) as Edrop.
  { unfold ent, entry_bytes. rewrite (take_ge name83) by lia. by rewrite drop_app_length'. }
  rewrite Edrop in Hget. split.
  - unfold ent_name, ent, entry_bytes. rewrite (take_ge name83) by lia. by rewrite take_app_length'.
  - unfold ent_attr. change 11 with (11 + 0). rewrite Hget by lia. simpl. by apply u8_small.
  - unfold ent_cluster. change 26 with (11 + 15). change 27 with (11 + 16). rewrite !Hget by lia.
    change (u16 (u8 (c &&& 255) ||| (u8 (c >>> 8) <<< 8)) = c). rewrite u8_land, u8_byte by lia.
    rewrite join_bytes by zlia. rewrite u16_small; zlia.
  - unfold ent_size. change 28 with (11 + 17). change 29 with (11 + 18). change 30 with (11 + 19).
    change 31 with (11 + 20). rewrite !Hget by lia.
    change (u32 (u8 (size &&& 255) ||| (u8 (size >>> 8) <<< 8) ||| (u8 (size >>> 16) <<< 16) |||
      (u8 (size >>> 24) <<< 24)) = size). rewrite u8_land, !u8_byte by lia.
    rewrite join4_bytes by (apply Z.mod_pos_bound; lia). rewrite u32_small; zlia.
  - unfold ent, entry_bytes. rewrite (take_ge name83) by lia. by destruct name83.
  - unfold ent, entry_bytes. rewrite (take_ge name83) by lia. rewrite length_app, Hl. done.
  - rewrite <- (take_drop 11 ent), Edrop. unfold ent, entry_bytes. rewrite (take_ge name83) by lia.
    rewrite take_app_length' by done. apply Forall_app. split.
    + eapply Forall_impl; [exact Hp|]. simpl. intros x. lia.
    + repeat constructor; try lia; apply u8_range.
Qed.

(** A new entry is visible under its name. *)
Lemma entry_says_live ent name83 attr c size :
  name83_ok name83 → entry_says ent name83 attr c size → attr ≠ ATTR_LFN →
  ent_end ent = false ∧ ent_skip ent = false ∧ ent_dot ent = false ∧
  ent_is_dir ent = c_true (attr &&& ATTR_DIR).
Proof.
  intros (Hl & Hp & Hd) [Hn Ha _ _ Hf _ _] Hattr.
  pose proof (plain_byte name83 0 Hp ltac:(lia) ltac:(lia)) as Hb.
  unfold ent_end, ent_skip, ent_dot, ent_is_dir. rewrite Hf, Ha. split_and!; [..|done].
  - apply Z.eqb_neq. lia.
  - apply orb_false_iff. split; apply Z.eqb_neq; [lia|done].
  - by apply Z.eqb_neq.
Qed.

(** ** From the 8.3 form to the displayed name and back *)

Definition upper_fixed (l : list Z) : Prop := Forall (λ c, to_upper c = c) l.

Lemma to_upper_cases c :
  (97 ≤ c ≤ 122 ∧ to_upper c = c - 32) ∨ (¬ 97 ≤ c ≤ 122 ∧ to_upper c = c).
Proof.
  unfold to_upper. change (chr "a") with 97. change (chr "z") with 122.
  destruct (Z.leb_spec 97 c), (Z.leb_spec c 122); cbn [andb]; lia.
Qed.

Lemma to_upper_idem c : to_upper (to_upper c) = to_upper c.
Proof. destruct (to_upper_cases c), (to_upper_cases (to_upper c)); lia. Qed.

Lemma to_upper_space c : c ≠ 32 → to_upper c ≠ 32.
Proof. destruct (to_upper_cases c); lia. Qed.

Definition no_space (l : list Z) : Prop := Forall (λ c, c ≠ 32) l.
Definition no_dot (l : list Z) : Prop := Forall (λ c, c ≠ chr ".") l.

Lemma take_part_shape n stop name :
  no_space name →
  upper_fixed (take_part n stop name).1 ∧ no_space (take_part n stop name).1 ∧
  no_space (take_part n stop name).2 ∧ (stop = true → no_dot (take_part n stop name).1).
Proof.
  revert name. induction n as [|n IH]; intros name Hn.
  { destruct name; (split; [constructor|split; [constructor|split; [exact Hn|constructor]]]). }
  destruct name as [|c name]; [split_and!; constructor|].
  pose proof Hn as [Hc Hn']%Forall_cons. cbn [take_part]. destruct (stop && (c =? chr ".")) eqn:E.
  - split_and!; [constructor|constructor|exact Hn|constructor].
  - destruct (IH name Hn') as (H1 & H2 & H3 & H4). destruct (take_part n stop name) as [p r]. cbn [fst snd] in *.
    split_and!.
    + constructor; [apply to_upper_idem|done].
    + constructor; [by apply to_upper_space|done].
    + done.
    + intros ->. constructor; [|by apply H4]. intros Hd%to_upper_dot. subst c. cbn [andb] in E. by rewrite Z.eqb_refl in E.
Qed.

(** Reading back what [take_part] would leave as it is. *)
Lemma take_part_read n stop p r :
  upper_fixed p → (stop = true → no_dot p) → (length p ≤ n)%nat →
  (r = [] ∨ length p = n ∨ (stop = true ∧ ∃ r', r = chr "." :: r')) →
  take_part n stop (p ++ r) = (p, r).
Proof.
  revert p. induction n as [|n IH]; intros p Hu Hd Hl Hr.
  { destruct p; [|simpl in Hl; lia]. by destruct r. }
  destruct p as [|c p].
  - destruct Hr as [->|[Hl'|(-> & r' & ->)]]; [done|simpl in Hl'; lia|done].
  - apply Forall_cons in Hu as [Hc Hu]. cbn [app take_part].
    assert (stop && (c =? chr ".") = false) as ->.
    { destruct stop; [|done]. specialize (Hd eq_refl). apply Forall_cons in Hd as [Hd _]. by apply Z.eqb_neq. }
    rewrite IH; [by rewrite Hc|done| |simpl in Hl; lia|].
    + intros Hs. specialize (Hd Hs). by apply Forall_cons in Hd as [_ Hd].
    + destruct Hr as [?|[Hl'|?]]; [by left|right; left; simpl in Hl'; lia|by right; right].
Qed.

Lemma until_space_pad n l : no_space l → (length l ≤ n)%nat → until_space (pad n l) = l.
Proof.
  unfold pad. revert n. induction l as [|c l IH]; intros n Hl Hn.
  - cbn [app length]. by destruct (n - 0)%nat.
  - apply Forall_cons in Hl as [Hc Hl]. cbn [app until_space length]. rewrite (proj2 (Z.eqb_neq c 32)) by done.
    f_equal. destruct n as [|n]; [simpl in Hn; lia|]. apply (IH n); [done|simpl in Hn; lia].
Qed.

Lemma skip_to_dot_shape r : skip_to_dot r = [] ∨ ∃ x, skip_to_dot r = chr "." :: x.
Proof.
  induction r as [|c r IH]; [by left|]. cbn [skip_to_dot]. destruct (Z.eqb_spec c (chr ".")) as [->|]; [right; eauto|done].
Qed.

Lemma skip_to_dot_no_space r : no_space r → no_space (skip_to_dot r).
Proof.
  induction r as [|c r IH]; [done|]. intros Hr. cbn [skip_to_dot]. destruct (c =? chr "."); [done|].
  apply IH. by apply Forall_cons in Hr as [_ Hr].
Qed.

(** Base and extension of an 8.3 name. *)
Lemma to_83_parts name :
  plain name → no_space name →
  ∃ b x, to_83 name = pad 8 b ++ pad 3 x ∧ (length b ≤ 8)%nat ∧ (length x ≤ 3)%nat ∧
    upper_fixed b ∧ no_space b ∧ no_dot b ∧ upper_fixed x ∧ no_space x.
Proof.
  intros Hp Hn. unfold to_83. destruct (take_part_spec 8 true name Hp) as (_ & P2 & P3).
  destruct (take_part_shape 8 true name Hn) as (H1 & H2 & H3 & H4).
  destruct (take_part 8 true name) as [b r]. cbn [fst snd] in *. specialize (H4 eq_refl).
  pose proof (skip_to_dot_no_space _ H3) as H5. pose proof (skip_to_dot_plain _ P2) as P5.
  destruct (skip_to_dot_shape r) as [E|[x E]]; rewrite E in *.
  - exists b, []. split_and!; try done; try constructor. simpl. lia.
  - apply Forall_cons in H5 as [_ H5]. apply Forall_cons in P5 as [_ P5].
    destruct (take_part_spec 3 false x P5) as (_ & _ & Q3). destruct (take_part_shape 3 false x H5) as (R1 & R2 & _).
    exists b, (take_part 3 false x).1. split_and!; done.
Qed.

Lemma pad_first n x : (0 < n)%nat → no_space x → (arr_get (pad n x) 0 =? 32) = match x with [] => true | _ => false end.
Proof.
  intros Hn Hx. destruct x as [|c x].
  - destruct n; [lia|done].
  - apply Forall_cons in Hx as [Hc _]. unfold pad, arr_get. simpl. by apply Z.eqb_neq.
Qed.

Lemma format_parts b x :
  (length b ≤ 8)%nat → (length x ≤ 3)%nat → no_space b → no_space x →
  format_name (pad 8 b ++ pad 3 x) = b ++ match x with [] => [] | _ => chr "." :: x end.
Proof.
  intros Hb Hx Nb Nx. unfold format_name. pose proof (length_pad 8 b Hb) as L8. pose proof (length_pad 3 x Hx) as L3.
  rewrite take_app_length' by done. rewrite until_space_pad by done. f_equal.
  assert (zlen (pad 8 b) = 8) as Z8 by (unfold zlen; lia).
  pose proof (arr_get_app_r (pad 8 b) (pad 3 x) 0 ltac:(lia)) as E8. rewrite Z8 in E8. change (8 + 0) with 8 in E8.
  rewrite E8, pad_first by (done || lia). destruct x as [|c x]; [done|]. f_equal.
  rewrite drop_app_length' by done. rewrite take_ge by (rewrite L3; lia). by apply until_space_pad.
Qed.

Lemma to_83_format name :
  plain name → no_space name → to_83 (format_name (to_83 name)) = to_83 name.
Proof.
  intros Hp Hn. destruct (to_83_parts name Hp Hn) as (b & x & E & Lb & Lx & Ub & Nb & Db & Ux & Nx).
  rewrite E, format_parts by done. unfold to_83. destruct x as [|c x].
  - rewrite take_part_read by (auto || lia). done.
  - rewrite take_part_read; [|done|done|lia|right; right; split; [done|by eexists]].
    cbn [skip_to_dot]. rewrite Z.eqb_refl. f_equal.
    pose proof (take_part_read 3 false (c :: x) [] Ux ltac:(done) Lx ltac:(by left)) as Er.
    rewrite app_nil_r in Er. by rewrite Er.
Qed.

(** ** The path of the working directory *)

Definition no_nul (l : list Z) : Prop := Forall (λ c, c ≠ 0) l.

Lemma c_string_app w r : no_nul w → c_string (w ++ 0 :: r) = w.
Proof.
  induction w as [|c w IH]; [done|]. intros [Hc Hw]%Forall_cons. cbn [app c_string].
  rewrite (proj2 (Z.eqb_neq c 0)) by done. by rewrite IH.
Qed.

Lemma arr_set_app w c d r : arr_set (w ++ d :: r) (zlen w) c = w ++ c :: r.
Proof.
  unfold arr_set, zlen. rewrite (proj2 (Z.ltb_ge _ 0)) by lia. rewrite Nat2Z.id.
  rewrite insert_app_r_alt by lia. by rewrite Nat.sub_diag.
Qed.

Lemma push_chars_app name w r :
  zlen w + zlen name ≤ 127 → (length name ≤ length r)%nat →
  push_chars (zlen w) name (w ++ r) = (zlen w + zlen name, w ++ name ++ drop (length name) r).
Proof.
  revert w r. induction name as [|c name IH]; intros w r Hz Hl.
  - cbn [push_chars]. rewrite drop_0. f_equal. unfold zlen. simpl. lia.
  - destruct r as [|d r]; [simpl in Hl; lia|]. cbn [push_chars].
    rewrite (proj2 (Z.ltb_lt _ _)) by (unfold zlen in *; cbn [length] in *; lia).
    rewrite arr_set_app. rewrite (cons_middle c w r), app_assoc.
    replace (zlen w + 1) with (zlen (w ++ [c])) by (unfold zlen; rewrite length_app; simpl; lia).
    rewrite IH; [|unfold zlen in *; rewrite length_app; cbn [length] in *; lia|simpl in Hl; lia].
    f_equal; [unfold zlen; rewrite length_app; cbn [length]; lia|]. by rewrite <- app_assoc.
Qed.

(** The separator a component is pushed behind. *)
Definition sep_of (w : list Z) : list Z := if zlen w =? 1 then [] else [47].

Lemma path_push_app name w r :
  no_nul w → zlen w + zlen (sep_of w) + zlen name ≤ 127 → zlen w + 1 + zlen r = 128 →
  path_push name (w ++ 0 :: r) =
    w ++ sep_of w ++ name ++ 0 :: drop (length (sep_of w) + length name) r.
Proof.
  intros Hw Hz Hl. unfold path_push. rewrite c_string_app by done. unfold sep_of in *.
  destruct (zlen w =? 1) eqn:E; cbn [negb length app Nat.add] in *.
  - apply Z.eqb_eq in E. rewrite push_chars_app by (unfold zlen in *; cbn [length] in *; lia).
    replace (zlen w + zlen name) with (zlen (w ++ name)) by (unfold zlen; rewrite length_app; lia).
    assert (∃ d, drop (length name) (0 :: r) = d :: drop (length name) r) as [d ->].
    { destruct (lookup_lt_is_Some_2 (0 :: r) (length name)) as [d Hd]; [unfold zlen in *; cbn [length] in *; lia|].
      exists d. by rewrite (drop_S _ _ _ Hd). }
    rewrite app_assoc, arr_set_app. by rewrite <- app_assoc.
  - rewrite arr_set_app. rewrite (cons_middle 47 w r), app_assoc.
    replace (zlen w + 1) with (zlen (w ++ [47])) by (unfold zlen; rewrite length_app; simpl; lia).
    rewrite push_chars_app by (unfold zlen in *; rewrite ?length_app; cbn [length] in *; lia).
    replace (zlen (w ++ [47]) + zlen name) with (zlen ((w ++ [47]) ++ name))
      by (unfold zlen; rewrite !length_app; lia).
    assert (∃ d, drop (length name) r = d :: drop (S (length name)) r) as [d ->].
    { destruct (lookup_lt_is_Some_2 r (length name)) as [d Hd]; [unfold zlen in *; cbn [length] in *; lia|].
      exists d. by rewrite (drop_S _ _ _ Hd). }
    rewrite app_assoc, arr_set_app. by rewrite <- !app_assoc.
Qed.

Lemma pop_loop_spec d name r k :
  Forall (λ c, c ≠ 47) name → (length name ≤ k)%nat → (1 < zlen d → last d = Some 47) → 1 ≤ zlen d →
  pop_loop k (zlen d + zlen name) (d ++ name ++ r) = zlen d.
Proof.
  revert name r. induction k as [|k IH]; intros name r Hn Hk Hd H1.
  - destruct name; [|simpl in Hk; lia]. unfold zlen. simpl. lia.
  - cbn [pop_loop]. destruct (last name) as [c|] eqn:El.
    + apply last_Some in El as [n' ->]. apply Forall_app in Hn as [Hn Hc]. apply Forall_cons in Hc as [Hc _].
      assert (zlen (n' ++ [c]) = zlen n' + 1) as Ez by (unfold zlen; rewrite length_app; simpl; lia).
      rewrite Ez. assert (0 ≤ zlen n') by (unfold zlen; lia).
      rewrite (proj2 (Z.ltb_lt 1 _)) by lia.
      replace (zlen d + (zlen n' + 1) - 1) with (zlen (d ++ n') + 0) by (unfold zlen; rewrite length_app; lia).
      rewrite <- app_assoc, (app_assoc d n'), arr_get_app_r by lia.
      assert (∀ l, arr_get ([c] ++ l) 0 = c) as -> by done.
      rewrite (proj2 (Z.eqb_neq c 47)) by done. cbn [negb andb].
      replace (zlen (d ++ n') + 0) with (zlen d + zlen n') by (unfold zlen; rewrite length_app; lia).
      rewrite <- app_assoc. apply IH; [done| |done|done]. rewrite length_app in Hk. simpl in Hk. lia.
    + apply last_None in El as ->. assert (zlen d + zlen (@nil Z) = zlen d) as -> by (unfold zlen; simpl; lia).
      destruct (Z.ltb_spec 1 (zlen d)) as [Hlt|]; [|done]. specialize (Hd Hlt).
      apply last_Some in Hd as [d' ->].
      replace (zlen (d' ++ [47]) - 1) with (zlen d' + 0) by (unfold zlen; rewrite length_app; simpl; lia).
      rewrite <- app_assoc, arr_get_app_r by lia. done.
Qed.

(** Popping what was pushed. *)
Lemma path_pop_app w name r :
  no_nul w → no_nul name → Forall (λ c, c ≠ 47) name → head w = Some 47 →
  c_string (path_pop (w ++ sep_of w ++ name ++ 0 :: r)) = w.
Proof.
  intros Hw Hn Hs Hhd. destruct w as [|c w]; [done|]. injection Hhd as ->. set (W := 47 :: w) in *.
  assert (1 ≤ zlen W) as H1 by (unfold zlen; simpl; lia).
  assert (no_nul (sep_of W)) as Hsep by (unfold sep_of; destruct (zlen W =? 1); repeat constructor; lia).
  unfold path_pop.
  assert (c_string (W ++ sep_of W ++ name ++ 0 :: r) = (W ++ sep_of W) ++ name) as Ec.
  { rewrite !app_assoc. apply c_string_app. repeat (apply Forall_app; split); done. }
  rewrite Ec. replace (zlen ((W ++ sep_of W) ++ name)) with (zlen (W ++ sep_of W) + zlen name)
    by (unfold zlen; rewrite !length_app; lia).
  rewrite (app_assoc W (sep_of W)). rewrite pop_loop_spec; [|done|unfold zlen; lia| |unfold zlen in *; rewrite length_app; lia].
  2:{ intros Hlt. unfold sep_of in *. destruct (zlen W =? 1) eqn:E1; [|by rewrite last_snoc].
      apply Z.eqb_eq in E1. rewrite app_nil_r in Hlt. lia. }
  assert (∃ d t, (W ++ sep_of W) ++ name ++ 0 :: r = W ++ d :: t) as (d & t & Et).
  { destruct (sep_of W ++ name ++ 0 :: r) as [|d t] eqn:E2.
    - destruct (sep_of W); [|done]. by destruct name.
    - exists d, t. by rewrite <- app_assoc, E2. }
  rewrite Et.
  assert ((if 1 <? zlen (W ++ sep_of W) then zlen (W ++ sep_of W) - 1 else zlen (W ++ sep_of W)) = zlen W) as ->.
  { unfold sep_of. destruct (Z.eqb_spec (zlen W) 1) as [E1|E1].
    - rewrite app_nil_r, E1. done.
    - unfold zlen in *. rewrite length_app. simpl. rewrite (proj2 (Z.ltb_lt 1 _)) by lia. lia. }
  rewrite (proj2 (Z.eqb_neq (zlen W) 0)) by lia. rewrite arr_set_app. unfold W at 1. cbn [app].
  change (arr_set (47 :: w ++ 0 :: t) 0 47) with (W ++ 0 :: t). by apply c_string_app.
Qed.

(** ** Properties *)

(** The 8.3 form of a name is stable: the name that a listing displays for a
    stored entry leads back to that entry. *)
Theorem display_name_roundtrip name :
  plain name → no_space name → to_83 (format_name (to_83 name)) = to_83 name.
Proof. apply to_83_format. Qed.

Lemma display_name_roundtrip_witness :
  to_83 (format_name (to_83 (str "readme.markdown"))) = str "README  MAR".
Proof.
  assert (plain (str "readme.markdown")) as H1 by (apply (bool_decide_unpack _); vm_compute; exact I).
  assert (no_space (str "readme.markdown")) as H2 by (apply (bool_decide_unpack _); vm_compute; exact I).
  exact (eq_trans (display_name_roundtrip _ H1 H2) eq_refl).
Defined.

(** As long as the path stays below 127 characters, entering a subdirectory
    appends its name to the path and going back to the parent restores it. *)
Theorem path_push_pop name w r :
  no_nul w → head w = Some 47 → no_nul name → Forall (λ c, c ≠ 47) name →
  zlen w + zlen (sep_of w) + zlen name ≤ 126 → zlen w + 1 + zlen r = 128 →
  c_string (path_push name (w ++ 0 :: r)) = w ++ sep_of w ++ name ∧
  length (path_push name (w ++ 0 :: r)) = 128%nat ∧
  c_string (path_pop (path_push name (w ++ 0 :: r))) = w.
Proof.
  intros Hw Hhd Hn Hs Hz Hl. rewrite path_push_app by (done || lia). split_and!.
  - rewrite !app_assoc. rewrite c_string_app; [by rewrite <- !app_assoc|].
    repeat (apply Forall_app; split); try done. unfold sep_of. destruct (zlen w =? 1); repeat constructor; lia.
  - rewrite !length_app. cbn [length]. rewrite length_drop. unfold zlen in *. lia.
  - by apply path_pop_app.
Qed.

Lemma path_push_pop_witness :
  c_string (path_push (str "DOCS") root_path) = str "/DOCS" ∧
  c_string (path_pop (path_push (str "DOCS") root_path)) = str "/".
Proof.
  assert (no_nul [47]) as H1 by (repeat constructor; lia).
  assert (no_nul (str "DOCS")) as H2 by (apply (bool_decide_unpack _); vm_compute; exact I).
  assert (Forall (λ c, c ≠ 47) (str "DOCS")) as H3 by (apply (bool_decide_unpack _); vm_compute; exact I).
  assert (zlen [47] + zlen (sep_of [47]) + zlen (str "DOCS") ≤ 126) as H4 by (vm_compute; discriminate).
  destruct (path_push_pop (str "DOCS") [47] (replicate 126 0) H1 eq_refl H2 H3 H4 eq_refl) as (R1 & _ & R3).
  split; [exact R1|exact R3].
Defined.

(** A path of 127 characters is full: the next push stores the separator over
    the terminator and its own terminator behind the array. *)
Lemma path_push_overflow :
  let p := 47 :: replicate 126 65 ++ [0] in
  length p = 128%nat ∧ zlen (c_string p) = 127 ∧ no_nul (path_push (str "B") p).
Proof. cbv zeta. split_and!; [done|done|]. apply (bool_decide_unpack _). vm_compute. exact I. Qed.
