(* ===== verification/Fat12Store.v ===== *)
(** File contents on the volume: what [fs_read]'s cluster loop reads, and what
    the cluster loop of [fs_create] writes. *)
From Stdlib Require Import ZArith Lia Bool Ascii String.
From stdpp Require Import base numbers gmap option list.
From S2P Require Import Prelude Console Rtc Block Fat12 Fat12Table Fat12Logic Fat12Dir.

#[local] Open Scope Z_scope.

(** The chain as a list, computed. *)
Fixpoint chain_list (fuel : nat) (fat : list Z) (c : Z) : list Z :=
  match fuel with
  | O => []
  | S fuel => if in_chain c then c :: chain_list fuel fat (fat_get fat c) else []
  end.

Definition chain_of (fat : list Z) (c : Z) : list Z := chain_list free_fuel fat c.

Lemma chain_list_spec n fat c cl fuel :
  n ≤ EOC → chain n fat c cl → (length cl ≤ fuel)%nat → chain_list fuel fat c = cl.
Proof.
  intros Hn. revert c fuel. induction cl as [|x cl IH]; intros c fuel; simpl.
  - intros E _. destruct fuel; [done|]. simpl. by rewrite E.
  - intros (-> & Hc & _ & Hch) Hf. destruct fuel as [|fuel]; [lia|]. simpl.
    rewrite (in_chain_true n) by lia. f_equal. apply IH; [done|lia].
Qed.

Lemma chain_of_spec n fat c cl :
  2 ≤ n ≤ EOC → chain n fat c cl → chain_of fat c = cl.
Proof.
  intros Hn Hch. eapply chain_list_spec; [apply Hn|done|]. by eapply free_fuel_enough.
Qed.

(** Its fuel is not to be unfolded by conversion. *)
#[global] Opaque chain_of.

(** ** Chunks *)

(** The 512 bytes that go into the [i]-th sector of a file with this data. *)
Definition chunk (data : list Z) (i : nat) : list Z :=
  splice (replicate 512 0) 0 (take 512 (drop (512 * i) data)).

Lemma chunk_val data i :
  chunk data i = take 512 (drop (512 * i) data) ++ replicate (512 - (length data - 512 * i)) 0.
Proof.
  unfold chunk, splice. change (Z.to_nat 0) with 0%nat. rewrite take_0, Nat.add_0_l, app_nil_l. f_equal.
  rewrite drop_replicate, length_take, length_drop. f_equal. lia.
Qed.

Lemma chunk_sector data i : bytes_ok data → is_sector (chunk data i).
Proof.
  intros Hb. unfold chunk. apply splice_sector; [apply zero_sector_ok|lia| |].
  - rewrite length_take. lia.
  - by apply Forall_take, Forall_drop.
Qed.

Lemma chunks_concat data m :
  concat (map (chunk data) (seq 0 m)) = take (512 * m) data ++ replicate (512 * m - length data) 0.
Proof.
  induction m as [|m IH]; [done|].
  rewrite seq_S, map_app, concat_app, IH. cbn [map concat]. rewrite app_nil_r, Nat.add_0_l, chunk_val.
  destruct (decide (length data ≤ 512 * m)%nat) as [Hle|Hgt].
  - rewrite (drop_ge data), take_nil by lia. rewrite !(take_ge data) by lia. cbn [app].
    rewrite <- app_assoc, <- replicate_add. do 2 f_equal. lia.
  - replace (512 * m - length data)%nat with 0%nat by lia. cbn [replicate]. rewrite app_nil_r, app_assoc.
    f_equal; [|f_equal; lia].
    rewrite <- (take_drop (512 * m) (take (512 * S m) data)). f_equal.
    + rewrite take_take. f_equal. lia.
    + rewrite take_drop_commute. f_equal. f_equal. lia.
Qed.

Section Store.
Context {D : Type} `{BlockDevice D}.
Implicit Types s : fs D.

Definition cluster_bytes (s : fs D) (c : Z) : list Z := concat (map (sec s) (cluster_sectors (geo s) c)).
Definition chain_bytes (s : fs D) (cl : list Z) : list Z := concat (map (cluster_bytes s) cl).

(** The bytes of a file: its chain's, up to the size in its entry. *)
Definition file_bytes (s : fs D) (ent : list Z) : list Z :=
  take (Z.to_nat (ent_size ent)) (chain_bytes s (chain_of (fat_cache s) (ent_cluster ent))).

Lemma cluster_bytes_ext s s' c :
  geo s' = geo s → (∀ l, l ∈ cluster_sectors (geo s) c → sec s' l = sec s l) →
  cluster_bytes s' c = cluster_bytes s c.
Proof.
  intros Hg Hs. unfold cluster_bytes. rewrite Hg. f_equal. apply list_fmap_ext.
  intros i l Hl. apply Hs. by eapply list_elem_of_lookup_2.
Qed.

Lemma chain_bytes_ext s s' cl :
  geo s' = geo s → (∀ c l, c ∈ cl → l ∈ cluster_sectors (geo s) c → sec s' l = sec s l) →
  chain_bytes s' cl = chain_bytes s cl.
Proof.
  intros Hg Hs. unfold chain_bytes. f_equal. apply list_fmap_ext. intros i c Hc.
  apply cluster_bytes_ext; [done|]. intros l. apply Hs. by eapply list_elem_of_lookup_2.
Qed.

Lemma length_sectors s l n :
  bd_healthy (dev s) → 0 ≤ l → l + Z.of_nat n ≤ bd_size (dev s) →
  length (concat (map (sec s) (seqZ l (Z.of_nat n)))) = (512 * n)%nat.
Proof.
  intros Hh. revert l. induction n as [|n IH]; intros l H0 Hs; [done|].
  rewrite seqZ_cons by lia. cbn [map concat]. rewrite length_app.
  destruct (sec_ok s l Hh) as [-> _]; [lia|].
  replace (Z.pred (Z.of_nat (S n))) with (Z.of_nat n) by lia.
  replace (Z.succ l) with (l + 1) by lia. rewrite IH by lia. lia.
Qed.

Lemma length_cluster_bytes s c :
  vol_ok s → 2 ≤ c < clusters (geo s) →
  length (cluster_bytes s c) = (512 * Z.to_nat (sectors_per_cluster (geo s)))%nat.
Proof.
  intros Hv Hc. pose proof (vo_geom _ Hv) as Hg. destruct (cluster_lba_val _ _ _ Hg Hc) as (_ & H1 & H2).
  pose proof Hg as []. assert (0 ≤ num_fats (geo s) * sectors_per_fat (geo s)) by nia.
  unfold cluster_bytes, cluster_sectors.
  replace (sectors_per_cluster (geo s)) with (Z.of_nat (Z.to_nat (sectors_per_cluster (geo s)))) at 1 by lia.
  apply length_sectors; [apply Hv|lia|lia].
Qed.

Lemma length_chain_bytes s cl :
  vol_ok s → (∀ c, c ∈ cl → 2 ≤ c < clusters (geo s)) →
  length (chain_bytes s cl) = (512 * Z.to_nat (sectors_per_cluster (geo s)) * length cl)%nat.
Proof.
  intros Hv. induction cl as [|c cl IH]; intros Hc; [simpl; lia|].
  unfold chain_bytes. cbn [map concat length]. rewrite length_app.
  rewrite length_cluster_bytes by (done || (apply Hc; left)).
  change (concat (map (cluster_bytes s) cl)) with (chain_bytes s cl). rewrite IH; [lia|].
  intros d Hd. apply Hc. by right.
Qed.

(** ** Reading *)

Lemma wp_read_cluster n lba rem acc s0 s :
  bd_healthy (dev s) → quiet s0 s → 0 ≤ lba → lba + Z.of_nat n ≤ bd_size (dev s) → 0 ≤ rem →
  wp (read_cluster n lba rem acc)
    (λ s' r, quiet s0 s' ∧ bd_healthy (dev s') ∧
       r = (true, acc ++ take (Z.to_nat rem) (concat (map (sec s0) (seqZ lba (Z.of_nat n)))),
            Z.max 0 (rem - 512 * Z.of_nat n))) s.
Proof.
  revert lba rem acc s. induction n as [|n IH]; intros lba rem acc s Hh Hq H0 Hs Hr.
  - apply wp_ret. split_and!; [done|done|]. simpl. rewrite take_nil, app_nil_r. f_equal. lia.
  - cbn [read_cluster]. destruct (Z.leb_spec rem 0).
    { assert (rem = 0) as -> by lia. apply wp_ret. split_and!; [done|done|].
      change (Z.to_nat 0) with 0%nat. by rewrite take_0, app_nil_r. }
    apply wp_bind, wp_read_sector; [done|lia|]. intros s1 Hq1. rewrite (qu_sec _ _ Hq).
    destruct (sec_ok s lba Hh) as [Hlen _]; [lia|]. rewrite (qu_sec _ _ Hq) in Hlen.
    eapply wp_mono; [apply IH|].
    + by apply Hq1.
    + by etrans.
    + lia.
    + rewrite (sv_size _ _ (qu_vol _ _ Hq1)). lia.
    + destruct (Z.ltb_spec rem 512); lia.
    + cbv beta. intros s' r (Hq2 & Hh2 & ->). split_and!; [done|done|].
      rewrite (seqZ_cons lba) by lia. cbn [map concat].
      replace (Z.pred (Z.of_nat (S n))) with (Z.of_nat n) by lia. replace (Z.succ lba) with (lba + 1) by lia.
      rewrite <- app_assoc. destruct (Z.ltb_spec rem 512).
      * replace (rem - rem) with 0 by lia. change (Z.to_nat 0) with 0%nat. rewrite take_0, app_nil_r.
        rewrite take_app_le by lia. f_equal. lia.
      * rewrite take_app_ge by lia. rewrite Hlen, (take_ge (sec s0 lba)) by lia. f_equal; [|lia].
        do 4 f_equal. lia.
Qed.

Lemma take_chain_nil s k : take k (chain_bytes s []) = [].
Proof. apply take_nil. Qed.

Lemma wp_read_chain guard c rem acc cl s0 s :
  vol_ok s0 → quiet s0 s → chain (clusters (geo s0)) (fat_cache s0) c cl → (length cl ≤ guard)%nat → 0 ≤ rem →
  wp (read_chain guard c rem acc)
    (λ s' r, quiet s0 s' ∧ r = (true, acc ++ take (Z.to_nat rem) (chain_bytes s0 cl))) s.
Proof.
  intros Hv0. revert c rem acc cl s. induction guard as [|guard IH]; intros c rem acc cl s Hq Hch Hg Hr.
  - destruct cl; [|simpl in Hg; lia]. apply wp_ret. split; [done|]. by rewrite take_chain_nil, app_nil_r.
  - cbn [read_chain]. destruct cl as [|x cl].
    { simpl in Hch. rewrite Hch. apply wp_ret. split; [done|]. by rewrite take_chain_nil, app_nil_r. }
    destruct Hch as (-> & Hc & Hz & Hch). pose proof (vo_geom _ Hv0) as Hgeo.
    pose proof (proj2 (proj1 (proj2 (vo_table _ Hv0)))) as Hn.
    pose proof (quiet_vol_ok _ _ Hq Hv0) as Hv. pose proof (sv_geo _ _ (qu_vol _ _ Hq)) as Eg.
    pose proof (sv_size _ _ (qu_vol _ _ Hq)) as Ez.
    rewrite (in_chain_true (clusters (geo s0))) by done. destruct (Z.ltb_spec 0 rem); cbn [andb].
    2:{ assert (rem = 0) as -> by lia. apply wp_ret. split; [done|]. by rewrite take_0, app_nil_r. }
    destruct (cluster_lba_val _ _ _ Hgeo Hc) as (_ & H1 & H2). pose proof Hgeo as [].
    assert (0 ≤ num_fats (geo s0) * sectors_per_fat (geo s0)) by nia.
    apply wp_bind, wp_get, wp_bind. rewrite Eg. eapply wp_mono; [apply (wp_read_cluster _ _ _ _ s0)|].
    + apply Hv.
    + done.
    + lia.
    + rewrite Ez. lia.
    + lia.
    + cbv beta. intros s1 r (Hq1 & Hh1 & ->). cbn [negb]. apply wp_bind, wp_get.
      rewrite (qu_fat _ _ Hq1). eapply wp_mono; [apply (IH _ _ _ cl); [done|done|simpl in Hg; lia|lia]|].
      cbv beta. intros s2 r (Hq2 & ->). split; [done|]. f_equal. rewrite <- app_assoc. f_equal.
      unfold chain_bytes. cbn [map concat]. fold (chain_bytes s0 cl).
      pose proof (length_cluster_bytes s0 c Hv0 Hc) as Hl.
      change (concat (map (sec s0) (seqZ (cluster_lba (geo s0) c) (sectors_per_cluster (geo s0))))) with (cluster_bytes s0 c).
      rewrite Z2Nat.id by lia.
      change (concat (map (sec s0) (seqZ (cluster_lba (geo s0) c) (sectors_per_cluster (geo s0))))) with (cluster_bytes s0 c).
      destruct (Z.leb_spec rem (512 * sectors_per_cluster (geo s0))).
      * rewrite Z.max_l by lia. change (Z.to_nat 0) with 0%nat. rewrite take_0, app_nil_r.
        rewrite take_app_le by lia. done.
      * rewrite Z.max_r by lia. rewrite take_app_ge by lia. rewrite (take_ge (cluster_bytes s0 c)) by lia.
        f_equal. f_equal. rewrite Hl. lia.
Qed.

(** ** Writing *)

Lemma wp_write_cluster n lba data (Q : fs D → list Z → Prop) s :
  bd_healthy (dev s) → 0 ≤ lba → lba + Z.of_nat n ≤ bd_size (dev s) → bytes_ok data →
  (∀ s', effect s s' (fat_cache s)
     (λ l, if (lba <=? l) && (l <? lba + Z.of_nat n) then chunk data (Z.to_nat (l - lba)) else sec s l) →
     Q s' (drop (512 * n) data)) →
  wp (write_cluster n lba data) Q s.
Proof.
  revert lba data s Q. induction n as [|n IH]; intros lba data s Q Hh H0 Hn Hb HQ.
  - apply wp_ret. replace (drop (512 * 0) data) with data in HQ by done. apply HQ. split_and!; try done.
    intros l. destruct (Z.leb_spec lba l), (Z.ltb_spec l (lba + Z.of_nat 0)); simpl; done || lia.
  - cbn [write_cluster]. apply wp_bind, wp_write_sector; [done|lia| |].
    { apply (chunk_sector data 0 Hb). }
    intros s1 (Hv & Hh1 & Hf & Hu). apply IH; [done|lia|rewrite (sv_size _ _ Hv); lia|by apply Forall_drop|].
    intros s2 (Hv2 & Hh2 & Hf2 & Hu2). rewrite drop_drop.
    replace (512 + 512 * n)%nat with (512 * S n)%nat by lia. apply HQ.
    split_and!; [by etrans|done|congruence|].
    intros l. rewrite Hu2, Hu. destruct (Z.eqb_spec l lba) as [->|].
    + rewrite (proj2 (Z.leb_gt (lba + 1) lba)), (proj2 (Z.leb_le lba lba)) by lia.
      rewrite (proj2 (Z.ltb_lt lba (lba + Z.of_nat (S n)))) by lia. cbn [andb].
      by rewrite Z.sub_diag.
    + destruct (Z.leb_spec (lba + 1) l), (Z.ltb_spec l (lba + 1 + Z.of_nat n)),
        (Z.leb_spec lba l), (Z.ltb_spec l (lba + Z.of_nat (S n))); cbn [andb]; try done; try lia.
      unfold chunk. rewrite drop_drop. do 3 f_equal. lia.
Qed.

Lemma wp_free_chain c cl (Q : fs D → unit → Prop) s :
  vol_ok s → chain (clusters (geo s)) (fat_cache s) c cl →
  (∀ s' f, effect s s' f (sec s) → vol_ok s' →
     (∀ d, fat_get f d = if decide (d ∈ cl) then 0 else fat_get (fat_cache s) d) → Q s' tt) →
  wp (free_chain c) Q s.
Proof.
  intros Hv Hch HQ. pose proof (vo_table _ Hv) as Ht.
  destruct (free_loop_spec _ _ _ _ free_fuel Ht Hch (free_fuel_enough _ _ _ _ (proj1 (proj2 Ht)) Hch))
    as (f & Ef & Ht' & Hl & Hg).
  apply wp_upd. rewrite Ef. cbn [default].
  assert (effect s (with_fat f s) f (sec s)) as He.
  { split_and!; [by split|apply Hv|done|done]. }
  apply (HQ _ f); [done| |done]. by eapply effect_vol_ok.
Qed.

(** The data of a file spread over the clusters [cl]. *)
Lemma cluster_bytes_chunks s s' c data :
  geo s' = geo s → 1 ≤ sectors_per_cluster (geo s) →
  (∀ l, l ∈ cluster_sectors (geo s) c → sec s' l = chunk data (Z.to_nat (l - cluster_lba (geo s) c))) →
  cluster_bytes s' c = take (512 * Z.to_nat (sectors_per_cluster (geo s))) data ++
    replicate (512 * Z.to_nat (sectors_per_cluster (geo s)) - length data) 0.
Proof.
  intros Hg Hspc Hs. rewrite <- chunks_concat. unfold cluster_bytes. rewrite Hg. f_equal.
  apply list_eq. intros i. rewrite !list_lookup_fmap. unfold cluster_sectors.
  destruct (decide (i < Z.to_nat (sectors_per_cluster (geo s)))%nat) as [Hi|Hi].
  - rewrite lookup_seqZ_lt by lia. rewrite lookup_seq_lt by lia. cbn [fmap option_fmap option_map]. f_equal.
    rewrite Hs by (apply elem_cluster_sectors; lia). f_equal. lia.
  - rewrite lookup_seqZ_ge by lia. rewrite lookup_seq_ge by lia. done.
Qed.

Lemma take_data_step m data (rest : list Z) :
  take (length (drop m data)) rest = drop m data →
  take (length data) ((take m data ++ replicate (m - length data) 0) ++ rest) = data.
Proof.
  intros Hr. destruct (decide (length data ≤ m)%nat) as [Hle|Hgt].
  - rewrite (take_ge data) by lia. rewrite <- app_assoc. by rewrite take_app_length.
  - replace (m - length data)%nat with 0%nat by lia. cbn [replicate]. rewrite app_nil_r.
    rewrite take_app_ge by (rewrite length_take; lia). rewrite length_take, Nat.min_l by lia.
    rewrite length_drop in Hr. rewrite Hr. by rewrite take_drop.
Qed.

(** What the cluster loop of [fs_create] did, starting behind the clusters [pcl]
    of the new file: the rest of the data is in the clusters [cl], taken from
    the free ones, or the disk is full and everything is free again. *)
Definition cluster_room (s : fs D) : Z := 512 * sectors_per_cluster (geo s).

(** The free clusters of the volume, among [cl], have no room for [n] bytes. *)
Definition scarce (s : fs D) (n : Z) : Prop :=
  ∃ cl, (∀ c, 2 ≤ c < clusters (geo s) → fat_get (fat_cache s) c = 0 → c ∈ cl) ∧ cluster_room s * zlen cl < n.

Inductive stored (s s' : fs D) (pcl : list Z) (data : list Z) : option Z → Prop :=
| stored_all first cl :
    same_vol s s' → vol_ok s' →
    chain (clusters (geo s)) (fat_cache s') first (pcl ++ cl) →
    (pcl ++ cl = [] → first = 0) →
    (∀ c, c ∈ cl → 2 ≤ c < clusters (geo s) ∧ fat_get (fat_cache s) c = 0) →
    (∀ d, d ∉ pcl ++ cl → fat_get (fat_cache s') d = fat_get (fat_cache s) d) →
    (∀ l, root_start (geo s) ≤ l → (∀ c, c ∈ cl → l ∉ cluster_sectors (geo s) c) → sec s' l = sec s l) →
    take (length data) (chain_bytes s' cl) = data →
    zlen data ≤ cluster_room s * zlen cl < zlen data + cluster_room s →
    stored s s' pcl data (Some first)
| stored_none :
    same_vol s s' → vol_ok s' →
    (∀ d, fat_get (fat_cache s') d = if decide (d ∈ pcl) then 0 else fat_get (fat_cache s) d) →
    (∀ l, root_start (geo s) ≤ l →
       (∀ c, 2 ≤ c < clusters (geo s) → fat_get (fat_cache s) c = 0 → l ∉ cluster_sectors (geo s) c) →
       sec s' l = sec s l) →
    scarce s (zlen data) →
    stored s s' pcl data None.

(** The clusters linked so far, with the first and the last of them. *)
Definition linked (s : fs D) (first prev : Z) (pcl : list Z) : Prop :=
  (pcl = [] ∧ first = 0 ∧ prev = 0) ∨
  (2 ≤ first < clusters (geo s) ∧ last pcl = Some prev ∧ chain (clusters (geo s)) (fat_cache s) first pcl).

Lemma linked_chain s first prev pcl :
  vol_ok s → linked s first prev pcl → chain (clusters (geo s)) (fat_cache s) first pcl.
Proof. intros Hv [(-> & -> & ->)|(_ & _ & H1)]; done. Qed.

(** Linking a fresh cluster. *)
Lemma linked_step s s' first prev pcl c f :
  vol_ok s → linked s first prev pcl → 2 ≤ c < clusters (geo s) → fat_get (fat_cache s) c = 0 →
  geo s' = geo s → f = fat_put c 0xFFF (fat_cache s) →
  fat_cache s' = (if negb (prev =? 0) then fat_put prev c f else f) →
  linked s' (if first =? 0 then c else first) c (pcl ++ [c]) ∧
  ∀ d, d ∉ pcl ++ [c] → fat_get (fat_cache s') d = fat_get (fat_cache s) d.
Proof.
  intros Hv Hl Hc Hz Hg -> Ef. pose proof (vo_table _ Hv) as Ht. pose proof (proj1 (proj2 Ht)) as Hn.
  pose proof (table_ok_put _ c 0xFFF _ Ht ltac:(lia)) as Ht1. unfold EOC in Hn.
  assert (∀ d, fat_get (fat_put c 0xFFF (fat_cache s)) d = if d =? c then 0xFFF else fat_get (fat_cache s) d) as G1.
  { intros d. apply (fat_get_put (clusters (geo s))); [done|lia..]. }
  destruct Hl as [(-> & -> & ->)|(Hf & Hlast & Hch)].
  - simpl in Ef. rewrite Z.eqb_refl. split.
    + right. rewrite Hg, Ef. cbn [app]. split; [done|]. split; [done|]. cbn [chain]. rewrite G1, Z.eqb_refl.
      split; [done|]. split; [done|]. split; [done|]. done.
    + intros d Hd. rewrite Ef, G1. destruct (Z.eqb_spec d c) as [->|]; [|done]. exfalso. apply Hd. left.
  - assert (prev ∈ pcl) as Hp by (by apply last_Some_elem_of).
    destruct (chain_in _ _ _ _ _ Hch Hp) as [Hpr Hpz].
    assert (prev ≠ c) as Hne by (by intros ->).
    rewrite (proj2 (Z.eqb_neq prev 0)) in Ef by lia. cbn [negb] in Ef.
    assert (∀ d, fat_get (fat_cache s') d = if d =? prev then c else if d =? c then 0xFFF else fat_get (fat_cache s) d) as G2.
    { intros d. rewrite Ef. rewrite (fat_get_put (clusters (geo s))) by (done || lia). by rewrite G1. }
    assert (c ∉ pcl) as Hcn by (intros Hin; by destruct (chain_in _ _ _ _ _ Hch Hin)).
    rewrite (proj2 (Z.eqb_neq first 0)) by lia. split.
    + right. rewrite Hg. split; [done|]. split; [by rewrite last_snoc|].
      eapply (chain_snoc _ (fat_cache s)); [done|done|done| | | | |].
      * intros d Hd Hdp. rewrite G2, (proj2 (Z.eqb_neq d prev)) by done.
        rewrite (proj2 (Z.eqb_neq d c)); [done|]. by intros ->.
      * eapply chain_NoDup; [|done]. unfold EOC. lia.
      * by rewrite G2, Z.eqb_refl.
      * by rewrite G2, (proj2 (Z.eqb_neq c prev)), Z.eqb_refl by done.
      * by rewrite G2, (proj2 (Z.eqb_neq c prev)), Z.eqb_refl by done.
    + intros d Hd. rewrite G2. rewrite (proj2 (Z.eqb_neq d prev)).
      2:{ intros ->. apply Hd, elem_of_app. by left. }
      rewrite (proj2 (Z.eqb_neq d c)); [done|]. intros ->. apply Hd, elem_of_app. right. left.
Qed.

Lemma stored_nothing s first prev pcl :
  vol_ok s → linked s first prev pcl → stored s s pcl [] (Some first).
Proof.
  intros Hv Hl. pose proof (linked_chain _ _ _ _ Hv Hl) as Hch. apply stored_all with (cl := []); try done.
  - by rewrite app_nil_r.
  - rewrite app_nil_r. by destruct Hl as [(_ & -> & _)|(Hf & Hlast & _)]; [|intros ->].
  - by intros c Hc%elem_of_nil.
  - unfold cluster_room. pose proof (go_spc _ _ (vo_geom _ Hv)). unfold zlen. simpl. lia.
Qed.

(** One more cluster, and the rest behind it. *)
Lemma stored_step s s3 s' first prev pcl c data r :
  vol_ok s → linked s first prev pcl → 2 ≤ c < clusters (geo s) → fat_get (fat_cache s) c = 0 →
  vol_ok s3 → same_vol s s3 → linked s3 (if first =? 0 then c else first) c (pcl ++ [c]) →
  (∀ d, d ∉ pcl ++ [c] → fat_get (fat_cache s3) d = fat_get (fat_cache s) d) →
  (∀ l, l ∈ cluster_sectors (geo s) c → sec s3 l = chunk data (Z.to_nat (l - cluster_lba (geo s) c))) →
  (∀ l, l ∉ cluster_sectors (geo s) c → sec s3 l = sec s l) →
  data ≠ [] → stored s3 s' (pcl ++ [c]) (drop (512 * Z.to_nat (sectors_per_cluster (geo s))) data) r →
  stored s s' pcl data r.
Proof.
  intros Hv Hl Hc Hz Hv3 Hsv3 Hl3 Hf3 Hw Hnw Hne Hst.
  assert (0 < zlen data) as Hpos by (destruct data; [done|unfold zlen; simpl; lia]). pose proof (sv_geo _ _ Hsv3) as Eg.
  pose proof (linked_chain _ _ _ _ Hv3 Hl3) as Hch3. rewrite Eg in Hch3.
  pose proof (go_spc _ _ (vo_geom _ Hv)) as Hspc.
  assert (∀ x, fat_get (fat_cache s3) x = 0 → (x ∉ pcl ++ [c]) ∧ fat_get (fat_cache s) x = 0) as Hfree.
  { intros x Hx. assert (x ∉ pcl ++ [c]) as Hni; [|split; [done|by rewrite <- Hf3]].
    intros Hin. by destruct (chain_in _ _ _ _ _ Hch3 Hin) as [_ ?]. }
  destruct Hst as [first' cl Hsv' Hv' Hch Hfirst Hcl Huntouched Hsec Hdata Hroom|Hsv' Hv' Hfat Hsec Hscarce];
    rewrite Eg in *.
  - assert (c ∉ cl) as Hcn.
    { intros Hin. destruct (Hcl _ Hin) as [_ H1]. destruct (Hfree _ H1) as [H2 _].
      apply H2, elem_of_app. right. left. }
    apply stored_all with (cl := c :: cl).
    + by etrans.
    + done.
    + by rewrite cons_middle, app_assoc.
    + intros E. by destruct pcl.
    + intros x [->|Hx]%elem_of_cons; [done|]. destruct (Hcl _ Hx) as [H1 H2]. split; [done|]. by apply Hfree.
    + intros d Hd. rewrite cons_middle, app_assoc in Hd. rewrite Huntouched by done. apply Hf3.
      intros Hin. apply Hd, elem_of_app. by left.
    + intros l Hl' Hlc. rewrite Hsec; [|done|intros x Hx; apply Hlc; by right]. apply Hnw, Hlc. left.
    + unfold chain_bytes. cbn [map concat]. fold (chain_bytes s' cl).
      rewrite (cluster_bytes_chunks s s' c data); [by apply take_data_step|by rewrite (sv_geo _ _ Hsv')|done|].
      intros l Hl'. rewrite Hsec, Hw; [done|done| |].
      * apply elem_cluster_sectors in Hl'. destruct (cluster_lba_val _ _ _ (vo_geom _ Hv) Hc) as (_ & ? & _).
        destruct (vo_geom _ Hv). lia.
      * intros x Hx Hlx. apply Hcn. destruct (Hcl _ Hx) as [Hxr _].
        by rewrite (cluster_sectors_disjoint _ _ c x l (vo_geom _ Hv) Hc Hxr Hl' Hlx).
    + unfold cluster_room in *. rewrite Eg in Hroom. unfold zlen in *. rewrite length_drop in Hroom.
      cbn [length]. set (k := 512 * sectors_per_cluster (geo s)) in *.
      replace (512 * Z.to_nat (sectors_per_cluster (geo s)))%nat with (Z.to_nat k) in Hroom by lia.
      assert (0 < k) by lia. destruct (Z.le_gt_cases k (Z.of_nat (length data))); [lia|].
      replace (length data - Z.to_nat k)%nat with 0%nat in Hroom by lia.
      assert (length cl = 0%nat) as -> by nia. lia.
  - apply stored_none.
    + by etrans.
    + done.
    + intros d. rewrite Hfat. destruct (decide (d ∈ pcl ++ [c])) as [Hd|Hd].
      * destruct (decide (d ∈ pcl)); [done|]. apply elem_of_app in Hd as [|Hd]; [done|].
        by apply list_elem_of_singleton in Hd as ->.
      * rewrite decide_False; [by apply Hf3|]. intros Hin. apply Hd, elem_of_app. by left.
    + intros l Hl' Hlc. rewrite Hsec; [|done|].
      * apply Hnw. by apply Hlc.
      * intros x Hx Hxz. apply Hlc; [done|]. by apply Hfree.
    + destruct Hscarce as (cl & Hcl & Hn). rewrite Eg in Hcl. exists (c :: cl). split.
      * intros x Hx Hxz. destruct (decide (x ∈ pcl ++ [c])) as [Hin|Hni].
        -- apply elem_of_app in Hin as [Hin|Hin]; [|apply list_elem_of_singleton in Hin as ->; left].
           destruct (chain_in _ _ _ _ _ (linked_chain _ _ _ _ Hv Hl) Hin) as [_ Hno]. by destruct Hno.
        -- right. apply Hcl; [done|]. by rewrite Hf3.
      * unfold cluster_room in *. rewrite Eg in Hn. unfold zlen in *. rewrite length_drop in Hn. cbn [length].
        set (k := 512 * sectors_per_cluster (geo s)) in *.
        replace (512 * Z.to_nat (sectors_per_cluster (geo s)))%nat with (Z.to_nat k) in Hn by lia.
        assert (0 < k) by lia. nia.
Qed.

Lemma wp_create_full s first pcl data :
  vol_ok s → chain (clusters (geo s)) (fat_cache s) first pcl → scarce s (zlen data) →
  wp (bind (free_chain first) (λ _, bind fat_flush (λ _, bind floppy_motor_off (λ _,
        bind (say (str "create: disk full" ++ nl)) (λ _, ret (None : option Z))))))
     (λ s' r, stored s s' pcl data r) s.
Proof.
  intros Hv Hch Hscarce. eapply wp_bind, wp_free_chain; [done|done|]. intros s1 f (Hsv1 & Hh1 & Ef1 & Es1) Hv1 Hf1.
  apply wp_bind, wp_fat_flush; [done|]. intros s2 Hsv2 Hh2 Ef2 Es2.
  apply wp_bind, wp_motor_off; [done|]. intros s3 Hq3. apply wp_bind, wp_say. intros s4 Hq4. apply wp_ret.
  assert (quiet s2 s4) as Hq by (by etrans).
  apply stored_none.
  - etrans; [exact Hsv1|]. etrans; [exact Hsv2|]. apply Hq.
  - apply (quiet_vol_ok s2); [done|]. destruct Hv1 as [H1 H2 H3 H4]. destruct Hsv2.
    split; [done|congruence..].
  - intros d. rewrite (qu_fat _ _ Hq), Ef2, Ef1. apply Hf1.
  - intros l Hl _. rewrite (qu_sec _ _ Hq), Es2, Es1; [done|]. by rewrite (sv_geo _ _ Hsv1).
  - done.
Qed.

(** The cluster loop stores the data or reports the disk full; it always ends. *)
Lemma wp_create_loop fuel first prev pcl data s :
  vol_ok s → linked s first prev pcl → bytes_ok data → (length data ≤ fuel)%nat →
  wp (create_loop fuel first prev data) (λ s' r, stored s s' pcl data r) s.
Proof.
  revert first prev pcl data s. induction fuel as [|fuel IH]; intros first prev pcl data s Hv Hl Hb Hf.
  { destruct data; [|simpl in Hf; lia]. apply wp_ret, (stored_nothing _ _ prev); [done|exact Hl]. }
  destruct data as [|b data']; cbn [create_loop].
  { apply wp_ret, (stored_nothing _ _ prev); [done|exact Hl]. }
  set (data := b :: data') in *. assert (length data ≠ 0%nat) as Hne by done. clearbody data.
  apply wp_bind, wp_alloc_cluster; [done| |].
  { intros Hall. apply wp_create_full; [done|by eapply linked_chain|]. exists []. split.
    - intros x Hx Hxz. by destruct (Hall x Hx).
    - unfold zlen. cbn [length]. lia. }
  intros s1 c Hc Hz He1 Hv1. rewrite (proj2 (Z.eqb_neq c 0)) by lia.
  destruct He1 as (Hsv1 & _ & Ef1 & Es1). pose proof (proj2 (proj1 (proj2 (vo_table _ Hv)))) as Hn. unfold EOC in Hn.
  apply wp_bind.
  assert (wp (if negb (prev =? 0) then fatPut prev c else ret tt) (λ s2 _, vol_ok s2 ∧ same_vol s s2 ∧
    (∀ l, sec s2 l = sec s l) ∧ fat_cache s2 = (if negb (prev =? 0) then fat_put prev c (fat_cache s1) else fat_cache s1)) s1) as Hput.
  { destruct (negb (prev =? 0)).
    - apply wp_fatPut; [done|lia|]. intros s2 (Hsv2 & _ & Ef2 & Es2) Hv2. split; [done|]. split; [by etrans|].
      split; [|done]. intros l. by rewrite Es2, Es1.
    - by apply wp_ret. }
  eapply wp_mono; [exact Hput|]. clear Hput. intros s2 _ (Hv2 & Hsv2 & Es2 & Ef2). cbv beta.
  apply wp_bind, wp_get, wp_bind. pose proof (sv_geo _ _ Hsv2) as Eg2. rewrite Eg2.
  pose proof (vo_geom _ Hv) as Hg. destruct (cluster_lba_val _ _ _ Hg Hc) as (_ & Hlo & Hhi). pose proof Hg as [].
  assert (0 ≤ num_fats (geo s) * sectors_per_fat (geo s)) by nia.
  apply wp_write_cluster; [apply Hv2|lia|rewrite (sv_size _ _ Hsv2); lia|done|].
  intros s3 He3. pose proof (effect_vol_ok _ _ _ _ Hv2 He3 (vo_table _ Hv2) eq_refl) as Hv3.
  destruct He3 as (Hsv3 & Hh3 & Ef3 & Es3). rewrite Z2Nat.id in Es3 by lia.
  assert (same_vol s s3) as Hsv03 by (by etrans).
  destruct (linked_step s s3 first prev pcl c (fat_cache s1) Hv Hl Hc Hz) as [Hl3 Hf3].
  { apply Hsv03. } { done. } { by rewrite Ef3. }
  eapply wp_mono; [apply IH; [done|exact Hl3|by apply Forall_drop|rewrite length_drop; lia]|].
  cbv beta. intros s' r Hst. eapply (stored_step s s3); try done; [| |by intros ->].
  - intros l Hl'. apply elem_cluster_sectors in Hl'. rewrite Es3.
    by rewrite (proj2 (Z.leb_le _ _)), (proj2 (Z.ltb_lt _ _)) by lia.
  - intros l Hl'. rewrite elem_cluster_sectors in Hl'. rewrite Es3, Es2.
    destruct (Z.leb_spec (cluster_lba (geo s) c) l), (Z.ltb_spec l (cluster_lba (geo s) c + sectors_per_cluster (geo s)));
      cbn [andb]; done || lia.
Qed.

End Store.
