(* ===== verification/Fat12Files.v ===== *)
(** The file system of [Fat12.v] as its users see it: the files of the working
    directory as a map from names to contents, the invariant of a sound volume,
    and what reading, creating and removing a file do to that map. *)
From Stdlib Require Import ZArith Lia Bool Ascii String.
From stdpp Require Import base numbers gmap option list.
From S2P Require Import Prelude Console Rtc Block Fat12 Fat12Table Fat12Logic Fat12Dir Fat12Names Fat12Store.

#[local] Open Scope Z_scope.

(** ** Entries by name *)

Definition names (L : list (list Z)) : list (list Z) := map ent_name L.

Definition dir_map (L : list (list Z)) : gmap (list Z) (list Z) :=
  list_to_map (map (λ e, (ent_name e, e)) L).

Lemma names_fst L : (map (λ e, (ent_name e, e)) L).*1 = names L.
Proof. unfold names. induction L as [|e L IH]; [done|]. cbn. f_equal. exact IH. Qed.

Lemma dir_map_lookup L name e :
  NoDup (names L) → (dir_map L !! name = Some e ↔ e ∈ L ∧ ent_name e = name).
Proof.
  intros Hnd. unfold dir_map. rewrite <- names_fst in Hnd.
  rewrite <- (elem_of_list_to_map _ _ _ Hnd). rewrite list_elem_of_fmap. split.
  - intros (x & [= -> ->] & Hx). done.
  - intros [He <-]. by exists e.
Qed.

Lemma dir_map_cons e L : dir_map (e :: L) = <[ent_name e := e]> (dir_map L).
Proof. done. Qed.

#[export] Instance names_proper : Proper ((≡ₚ) ==> (≡ₚ)) names.
Proof. intros L L' HL. by apply Permutation_map. Qed.

Lemma dir_map_perm L L' : NoDup (names L) → L ≡ₚ L' → dir_map L = dir_map L'.
Proof.
  intros Hnd HL. apply list_to_map_proper; [by rewrite names_fst|]. by apply Permutation_map.
Qed.

Lemma dir_map_None L name : name ∉ names L → dir_map L !! name = None.
Proof. intros Hn. apply not_elem_of_list_to_map_1. by rewrite names_fst. Qed.

Lemma find_dir_map name l lba off ent :
  NoDup (names (live (ents l))) → find_ent name l = Some (lba, off, ent) →
  dir_map (live (ents l)) !! name = Some ent.
Proof.
  intros Hnd Hf. apply dir_map_lookup; [done|]. split; [by eapply find_ent_live|].
  by apply find_ent_Some in Hf as (? & ? & ? & _ & _ & <- & _).
Qed.

Lemma find_dir_map_None name l :
  find_ent name l = None → name ∉ names (live (ents l)).
Proof.
  rewrite find_ent_None. intros Hf Hin. apply list_elem_of_fmap in Hin as (e & -> & He). by apply (Hf e).
Qed.

(** ** Who owns which clusters *)

(** Every entry but '.' and '..' owns the clusters of a chain, long enough for
    the size it gives; no two entries share a cluster, nor any with the directory
    itself; '.' and '..' are directories. *)
Record owned (n room : Z) (fat dcl : list Z) (L : list (list Z)) : Prop := {
  ow_chain e : e ∈ L → ent_dot e = false →
    ∃ cl, chain n fat (ent_cluster e) cl ∧ (∀ c, c ∈ cl → c ∉ dcl) ∧
      (ent_is_dir e = false → ent_size e ≤ room * zlen cl);
  ow_disjoint e1 e2 cl1 cl2 c : e1 ∈ L → e2 ∈ L → ent_dot e1 = false → ent_dot e2 = false →
    chain n fat (ent_cluster e1) cl1 → chain n fat (ent_cluster e2) cl2 →
    c ∈ cl1 → c ∈ cl2 → e1 = e2;
  ow_dot e : e ∈ L → ent_dot e = true → ent_is_dir e = true
}.

Lemma owned_incl n room fat dcl L L' :
  (∀ e, e ∈ L' → e ∈ L) → owned n room fat dcl L → owned n room fat dcl L'.
Proof.
  intros Hsub [H1 H2 H3]. split.
  - intros e He. apply H1. by apply Hsub.
  - intros e1 e2 cl1 cl2 c He1 He2. apply H2; by apply Hsub.
  - intros e He. apply H3. by apply Hsub.
Qed.

Lemma owned_frame n room fat fat' dcl dcl' L :
  n ≤ EOC →
  (∀ e cl d, e ∈ L → ent_dot e = false → chain n fat (ent_cluster e) cl → d ∈ cl →
     fat_get fat' d = fat_get fat d ∧ d ∉ dcl') →
  owned n room fat dcl L → owned n room fat' dcl' L.
Proof.
  intros Hn Hsame [H1 H2 H3].
  assert (∀ e cl, e ∈ L → ent_dot e = false → chain n fat' (ent_cluster e) cl → chain n fat (ent_cluster e) cl) as Hback.
  { intros e cl He Hd Hch. destruct (H1 e He Hd) as (cl' & Hch' & _).
    assert (chain n fat' (ent_cluster e) cl') as Hch2.
    { eapply chain_ext; [|exact Hch']. intros d Hdd. by eapply Hsame. }
    by rewrite (chain_det _ _ _ _ _ Hn Hch Hch2). }
  split.
  - intros e He Hd. destruct (H1 e He Hd) as (cl & Hch & _ & Hsz). exists cl. split_and!; [|..|done].
    + eapply chain_ext; [|exact Hch]. intros d Hdd. by eapply Hsame.
    + intros d Hdd. by eapply Hsame.
  - intros e1 e2 cl1 cl2 c He1 He2 Hd1 Hd2 Hc1 Hc2. apply H2; try done; by apply Hback.
  - done.
Qed.

Lemma owned_cons n room fat dcl L e ecl :
  n ≤ EOC → owned n room fat dcl L → ent_dot e = false → chain n fat (ent_cluster e) ecl →
  (∀ c, c ∈ ecl → c ∉ dcl) → (ent_is_dir e = false → ent_size e ≤ room * zlen ecl) →
  (∀ x cl c, x ∈ L → ent_dot x = false → chain n fat (ent_cluster x) cl → c ∈ cl → c ∉ ecl) →
  owned n room fat dcl (e :: L).
Proof.
  intros Hn [H1 H2 H3] Hd Hch Hdcl Hsz Hdisj. split.
  - intros x [->|Hx]%elem_of_cons Hxd; [by exists ecl|]. by apply H1.
  - intros e1 e2 cl1 cl2 c [->|He1]%elem_of_cons [->|He2]%elem_of_cons Hd1 Hd2 Hc1 Hc2 Hin1 Hin2; [done| | |].
    + rewrite (chain_det _ _ _ _ _ Hn Hc1 Hch) in Hin1. by destruct (Hdisj e2 cl2 c He2 Hd2 Hc2 Hin2).
    + rewrite (chain_det _ _ _ _ _ Hn Hc2 Hch) in Hin2. by destruct (Hdisj e1 cl1 c He1 Hd1 Hc1 Hin1).
    + by apply (H2 e1 e2 cl1 cl2 c).
  - intros x [->|Hx]%elem_of_cons; [by rewrite Hd|]. by apply H3.
Qed.

Section Files.
Context {D : Type} `{BlockDevice D}.
Variable junk : list Z.
Implicit Types s : fs D.

(** The clusters of the working directory; none for the root. *)
Definition cwd_chain (s : fs D) : list Z :=
  if cwd_cluster s =? 0 then [] else chain_of (fat_cache s) (cwd_cluster s).

Definition cwd_lbas (s : fs D) : list Z := dir_lbas (geo s) (cwd_cluster s) (cwd_chain s).

(** The live entries of the working directory. *)
Definition entries (s : fs D) : list (list Z) := live (slots s (cwd_lbas s)).

(** A sound volume, mounted: the working directory is one, its names are
    distinct, and its entries own disjoint chains. *)
Record fs_ok (s : fs D) : Prop := {
  fo_vol : vol_ok s;
  fo_mounted : mounted s = true;
  fo_dir : dir_at (geo s) (fat_cache s) (cwd_cluster s) (cwd_chain s);
  fo_tail : tail_ok (slots s (cwd_lbas s));
  fo_names : NoDup (names (entries s));
  fo_owned : owned (clusters (geo s)) (cluster_room s) (fat_cache s) (cwd_chain s) (entries s)
}.

Definition file_of (s : fs D) (e : list Z) : option (list Z) :=
  if ent_is_dir e then None else Some (file_bytes s e).

(** The files of the working directory by their names in 8.3 form, and the
    subdirectories with their first clusters. *)
Definition files (s : fs D) : gmap (list Z) (list Z) := omap (file_of s) (dir_map (entries s)).
Definition dirs (s : fs D) : gmap (list Z) Z :=
  omap (λ e, if ent_is_dir e then Some (ent_cluster e) else None) (dir_map (entries s)).

Lemma eoc_bound s : vol_ok s → 2 ≤ clusters (geo s) ≤ EOC.
Proof. intros Hv. apply (vo_table _ Hv). Qed.

(** ** The chain of the directory, computed or given *)

Lemma cwd_chain_eq s dcl :
  vol_ok s → dir_at (geo s) (fat_cache s) (cwd_cluster s) dcl → cwd_chain s = dcl.
Proof.
  intros Hv Hd. unfold cwd_chain. destruct Hd as [[-> ->]|[Hd Hch]]; [done|].
  rewrite (proj2 (Z.eqb_neq _ 0)) by lia. by apply (chain_of_spec _ _ _ _ (eoc_bound s Hv)).
Qed.

(** The sectors of the directory are those of no cluster outside its chain, and
    lie behind the tables. *)
Lemma dir_sectors_apart s dcl dir l c :
  vol_ok s → dir_at (geo s) (fat_cache s) dir dcl → l ∈ dir_lbas (geo s) dir dcl →
  root_start (geo s) ≤ l ∧ (2 ≤ c < clusters (geo s) → c ∉ dcl → l ∉ cluster_sectors (geo s) c).
Proof.
  intros Hv Hd Hl. pose proof (vo_geom _ Hv) as Hg. pose proof Hg as [].
  apply elem_dir_lbas in Hl. destruct Hd as [[-> ->]|[Hd Hch]].
  - simpl in Hl. split; [lia|]. intros Hc _. rewrite elem_cluster_sectors.
    destruct (cluster_lba_val _ _ _ Hg Hc). lia.
  - rewrite (proj2 (Z.eqb_neq _ 0)) in Hl by lia. destruct Hl as (x & Hx & Hl).
    destruct (chain_in _ _ _ _ _ Hch Hx) as [Hxr _]. split.
    + apply elem_cluster_sectors in Hl. destruct (cluster_lba_val _ _ _ Hg Hxr). lia.
    + intros Hc Hni Hlc. apply Hni. by rewrite (cluster_sectors_disjoint _ _ c x l Hg Hc Hxr Hlc Hl).
Qed.

Lemma slots_ext s s' ls : (∀ l, l ∈ ls → sec s' l = sec s l) → slots s' ls = slots s ls.
Proof.
  intros Hs. unfold slots. f_equal. apply list_fmap_ext. intros i l Hl.
  rewrite Hs; [done|]. by eapply list_elem_of_lookup_2.
Qed.

Lemma fs_ok_quiet s s' : quiet s s' → fs_ok s → fs_ok s' ∧ files s' = files s ∧ dirs s' = dirs s.
Proof.
  intros Hq [Hv Hm Hd Ht Hn Ho]. pose proof Hq as [[Hz Hg Hm' Hc Hp] Hh Hf Hs].
  assert (cwd_chain s' = cwd_chain s) as Ec by (unfold cwd_chain; by rewrite Hc, Hf).
  assert (cwd_lbas s' = cwd_lbas s) as El by (unfold cwd_lbas; by rewrite Hg, Hc, Ec).
  assert (slots s' (cwd_lbas s') = slots s (cwd_lbas s)) as Es by (rewrite El; by apply slots_ext).
  assert (entries s' = entries s) as Ee by (unfold entries; by rewrite Es).
  assert (∀ e, file_of s' e = file_of s e) as Ef.
  { intros e. unfold file_of, file_bytes. rewrite Hf, (chain_bytes_ext s s'); [done|done|]. intros; apply Hs. }
  split_and!.
  - split.
    + by eapply quiet_vol_ok.
    + congruence.
    + by rewrite Hg, Hf, Hc, Ec.
    + by rewrite Es.
    + by rewrite Ee.
    + unfold cluster_room. by rewrite Hg, Hf, Ee, Ec.
  - unfold files. rewrite Ee. apply map_eq. intros i. rewrite !lookup_omap.
    destruct (dir_map (entries s) !! i); simpl; [apply Ef|done].
  - unfold dirs. by rewrite Ee.
Qed.

(** The chain of a live entry's file. *)
Lemma file_bytes_chain s e cl :
  vol_ok s → chain (clusters (geo s)) (fat_cache s) (ent_cluster e) cl →
  file_bytes s e = take (Z.to_nat (ent_size e)) (chain_bytes s cl).
Proof.
  intros Hv Hch. unfold file_bytes. by rewrite (chain_of_spec _ _ _ _ (eoc_bound s Hv) Hch).
Qed.

(** ** Reading *)

Lemma files_find s name :
  fs_ok s →
  match find_ent name (placed_slots s (cwd_lbas s)) with
  | Some (_, _, ent) => files s !! name = file_of s ent ∧ ent ∈ entries s ∧ ent_name ent = name
  | None => files s !! name = None ∧ name ∉ names (entries s)
  end.
Proof.
  intros Hok. pose proof (fo_names _ Hok) as Hnd. unfold entries in *. rewrite <- ents_placed in *.
  destruct (find_ent name (placed_slots s (cwd_lbas s))) as [[[lba off] ent]|] eqn:E.
  - pose proof (find_dir_map _ _ _ _ _ Hnd E) as Hl. split.
    + unfold files, entries. by rewrite <- ents_placed, lookup_omap, Hl.
    + by apply dir_map_lookup.
  - apply find_dir_map_None in E. split; [|done].
    unfold files, entries. by rewrite <- ents_placed, lookup_omap, dir_map_None.
Qed.

Lemma ent_size_range e : bytes_ok e → 0 ≤ ent_size e < 2 ^ 32.
Proof. intros _. apply u32_range. Qed.

Lemma file_length s e :
  fs_ok s → e ∈ entries s → ent_is_dir e = false → zlen (file_bytes s e) = ent_size e.
Proof.
  intros Hok He Hd. pose proof (fo_vol _ Hok) as Hv. destruct (fo_owned _ Hok) as [H1 _ H3].
  destruct (ent_dot e) eqn:Edot; [by rewrite (H3 e He Edot) in Hd|].
  destruct (H1 e He Edot) as (cl & Hch & _ & Hsz). specialize (Hsz Hd).
  rewrite (file_bytes_chain _ _ _ Hv Hch). unfold zlen. rewrite length_take.
  rewrite length_chain_bytes; [|done|intros c Hc; by destruct (chain_in _ _ _ _ _ Hch Hc)].
  unfold cluster_room, zlen in Hsz. pose proof (go_spc _ _ (vo_geom _ Hv)).
  assert (0 ≤ ent_size e) by apply u32_range. lia.
Qed.

Lemma wp_fs_read name maxlen s :
  fs_ok s →
  wp (fs_read name maxlen) (λ s' r, quiet s s' ∧
    r = match files s !! to_83 name with
        | Some d => if maxlen <? zlen d then (-1, []) else (zlen d, d)
        | None => (-1, [])
        end) s.
Proof.
  intros Hok. pose proof (fo_vol _ Hok) as Hv. apply wp_bind, wp_get. rewrite (fo_mounted _ Hok). cbn [negb].
  apply wp_bind. apply (wp_dir_find _ (cwd_chain s)); [done|apply Hok|].
  intros s1 Hq1. fold (cwd_lbas s). pose proof (files_find s (to_83 name) Hok) as Hfind.
  assert (bd_healthy (dev s1)) as Hh1 by (by apply Hq1, Hv).
  destruct (find_ent _ _) as [[[lba off] ent]|].
  2:{ destruct Hfind as [-> _]. apply wp_bind, wp_motor_off; [done|]. intros s2 Hq2. apply wp_ret. split; [by etrans|done]. }
  destruct Hfind as (-> & Hin & _). unfold file_of. destruct (ent_is_dir ent) eqn:Ed.
  { apply wp_bind, wp_motor_off; [done|]. intros s2 Hq2. apply wp_ret. split; [by etrans|done]. }
  rewrite (file_length s ent Hok Hin Ed). destruct (Z.ltb_spec maxlen (ent_size ent)).
  { apply wp_bind, wp_motor_off; [done|]. intros s2 Hq2. apply wp_ret. split; [by etrans|done]. }
  destruct (fo_owned _ Hok) as [H1 _ H3].
  destruct (ent_dot ent) eqn:Edot; [by rewrite (H3 ent Hin Edot) in Ed|].
  destruct (H1 ent Hin Edot) as (cl & Hch & _).
  apply wp_bind. eapply wp_mono; [apply (wp_read_chain _ _ _ _ cl s); [done|done|done| |apply u32_range]|].
  { pose proof (chain_length _ _ _ _ (eoc_bound s Hv) Hch). pose proof (eoc_bound s Hv). unfold EOC, READ_GUARD in *. lia. }
  cbv beta. intros s2 r (Hq2 & ->). cbn [fst snd app]. rewrite <- (file_bytes_chain s ent cl Hv Hch).
  apply wp_bind, wp_motor_off; [by apply Hq2, Hv|]. intros s3 Hq3. apply wp_ret.
  split; [by etrans|]. by rewrite (file_length s ent Hok Hin Ed).
Qed.

(** ** Keeping the invariant *)

(** The clusters in use outside the directory and outside [ocl] keep their links
    and their contents, and stay outside the directory. *)
Definition kept (s s' : fs D) (ocl dcl' : list Z) : Prop :=
  ∀ d, 2 ≤ d < clusters (geo s) → fat_get (fat_cache s) d ≠ 0 → d ∉ cwd_chain s → d ∉ ocl →
    fat_get (fat_cache s') d = fat_get (fat_cache s) d ∧ (d ∉ dcl') ∧
    ∀ l, l ∈ cluster_sectors (geo s) d → sec s' l = sec s l.

(** [rest] are entries that own none of the clusters [ocl]. *)
Definition others (s : fs D) (ocl : list Z) (rest : list (list Z)) : Prop :=
  ∀ e, e ∈ rest → e ∈ entries s ∧
    ∀ cl c, ent_dot e = false → chain (clusters (geo s)) (fat_cache s) (ent_cluster e) cl → c ∈ cl → c ∉ ocl.

Lemma kept_chain s s' ocl dcl' rest e cl d :
  fs_ok s → kept s s' ocl dcl' → others s ocl rest → e ∈ rest → ent_dot e = false →
  chain (clusters (geo s)) (fat_cache s) (ent_cluster e) cl → d ∈ cl →
  fat_get (fat_cache s') d = fat_get (fat_cache s) d ∧ (d ∉ dcl') ∧
  ∀ l, l ∈ cluster_sectors (geo s) d → sec s' l = sec s l.
Proof.
  intros Hok Hk Ho He Hd Hch Hdc. destruct (Ho e He) as [Hin Hocl].
  destruct (chain_in _ _ _ _ _ Hch Hdc) as [Hr Hz]. apply Hk; [done|done| |by apply (Hocl cl)].
  destruct (ow_chain _ _ _ _ _ (fo_owned _ Hok) e Hin Hd) as (cl' & Hch' & Hdcl & _).
  pose proof (proj2 (eoc_bound _ (fo_vol _ Hok))) as Hn.
  rewrite (chain_det _ _ _ _ _ Hn Hch Hch') in Hdc. by apply Hdcl.
Qed.

Lemma rest_kept s s' ocl dcl' rest :
  fs_ok s → vol_ok s' → same_vol s s' → kept s s' ocl dcl' → others s ocl rest →
  owned (clusters (geo s)) (cluster_room s) (fat_cache s') dcl' rest ∧
  ∀ e, e ∈ rest → file_of s' e = file_of s e.
Proof.
  intros Hok Hv' Hsv Hk Ho. pose proof (fo_vol _ Hok) as Hv. pose proof (eoc_bound _ Hv) as Hn. split.
  - apply owned_frame with (fat := fat_cache s) (dcl := cwd_chain s); [exact (proj2 Hn)| |].
    + intros e cl d He Hd Hch Hdc. destruct (kept_chain s s' ocl dcl' rest e cl d) as (H1 & H2 & _); done.
    + apply owned_incl with (entries s); [|apply Hok]. intros e He. by apply Ho.
  - intros e He. unfold file_of. destruct (ent_is_dir e) eqn:Ed; [done|]. apply (f_equal Some).
    destruct (Ho e He) as [Hin Hocl]. destruct (fo_owned _ Hok) as [H1 _ H3].
    destruct (ent_dot e) eqn:Edot; [exfalso; rewrite (H3 e Hin Edot) in Ed; discriminate|].
    destruct (H1 e Hin Edot) as (cl & Hch & _).
    assert (chain (clusters (geo s')) (fat_cache s') (ent_cluster e) cl) as Hch'.
    { rewrite (sv_geo _ _ Hsv). eapply chain_ext; [|exact Hch]. intros d Hd.
      by destruct (kept_chain s s' ocl dcl' rest e cl d). }
    rewrite (file_bytes_chain _ _ _ Hv Hch), (file_bytes_chain _ _ _ Hv' Hch'). f_equal.
    apply chain_bytes_ext; [apply Hsv|]. intros c l Hc Hl.
    destruct (kept_chain s s' ocl dcl' rest e cl c) as (_ & _ & Hs); try done. by apply Hs.
Qed.

Lemma omap_ext_in {A B} (f g : A → option B) (m : gmap (list Z) A) :
  (∀ i x, m !! i = Some x → f x = g x) → omap f m = omap g m.
Proof.
  intros Hfg. apply map_eq. intros i. rewrite !lookup_omap. destruct (m !! i) eqn:E; simpl; [|done]. by eapply Hfg.
Qed.

Lemma fs_ok_intro s s' dcl' L0 :
  fs_ok s → same_vol s s' → vol_ok s' →
  dir_at (geo s) (fat_cache s') (cwd_cluster s) dcl' →
  tail_ok (slots s' (dir_lbas (geo s) (cwd_cluster s) dcl')) →
  live (slots s' (dir_lbas (geo s) (cwd_cluster s) dcl')) ≡ₚ L0 → NoDup (names L0) →
  owned (clusters (geo s)) (cluster_room s) (fat_cache s') dcl' L0 →
  fs_ok s' ∧ files s' = omap (file_of s') (dir_map L0) ∧
  dirs s' = omap (λ e, if ent_is_dir e then Some (ent_cluster e) else None) (dir_map L0).
Proof.
  intros Hok Hsv Hv' Hd Ht HL Hnd Ho. pose proof Hsv as [Hz Hg Hm Hc Hp].
  assert (cwd_chain s' = dcl') as Ec by (apply cwd_chain_eq; [done|by rewrite Hg, Hc]).
  assert (cwd_lbas s' = dir_lbas (geo s) (cwd_cluster s) dcl') as El by (unfold cwd_lbas; by rewrite Hg, Hc, Ec).
  assert (NoDup (names (entries s'))) as Hnd'.
  { unfold entries. rewrite El. by rewrite HL. }
  assert (dir_map (entries s') = dir_map L0) as Em.
  { apply dir_map_perm; [done|]. unfold entries. by rewrite El. }
  split_and!.
  - split.
    + done.
    + rewrite Hm. apply Hok.
    + by rewrite Hg, Hc, Ec.
    + by rewrite El.
    + done.
    + unfold cluster_room. rewrite Hg, Ec. eapply owned_incl; [|exact Ho]. intros e He.
      unfold entries in He. rewrite El in He. by rewrite <- HL.
  - unfold files. by rewrite Em.
  - unfold dirs. by rewrite Em.
Qed.

Lemma rest_files s s' rest :
  NoDup (names rest) → (∀ e, e ∈ rest → file_of s' e = file_of s e) →
  omap (file_of s') (dir_map rest) = omap (file_of s) (dir_map rest).
Proof.
  intros Hnd Hf. apply omap_ext_in. intros i e He. apply Hf. by apply dir_map_lookup in He as [? _].
Qed.

(** ** The state once the data is on the disk *)

(** From a sound [s], with the clusters [ocl] given up, to [s']: the chain [cl]
    from [first] holds the data, and nothing else has changed. *)
Record data_on_disk (s s' : fs D) (ocl : list Z) (first : Z) (cl data : list Z) : Prop := {
  dd_same : same_vol s s';
  dd_vol : vol_ok s';
  dd_chain : chain (clusters (geo s)) (fat_cache s') first cl;
  dd_first : cl = [] → first = 0;
  dd_fresh c : c ∈ cl → 2 ≤ c < clusters (geo s) ∧ (fat_get (fat_cache s) c = 0 ∨ c ∈ ocl);
  dd_fat d : d ∉ cl → fat_get (fat_cache s') d = if decide (d ∈ ocl) then 0 else fat_get (fat_cache s) d;
  dd_sec l : root_start (geo s) ≤ l → (∀ c, c ∈ cl → l ∉ cluster_sectors (geo s) c) → sec s' l = sec s l;
  dd_data : take (length data) (chain_bytes s' cl) = data;
  dd_room : zlen data ≤ cluster_room s * zlen cl < zlen data + cluster_room s
}.

(** The chains of the directory and of the old file are apart. *)
Definition given_up (s : fs D) (ocl : list Z) : Prop :=
  ∀ c, c ∈ ocl → 2 ≤ c < clusters (geo s) ∧ c ∉ cwd_chain s.

Lemma data_apart s s' ocl first cl data d :
  data_on_disk s s' ocl first cl data → fat_get (fat_cache s) d ≠ 0 → d ∉ ocl →
  (d ∉ cl) ∧ fat_get (fat_cache s') d = fat_get (fat_cache s) d.
Proof.
  intros Hdd Hz Ho. assert (d ∉ cl) as Hni.
  { intros Hd. by destruct (dd_fresh _ _ _ _ _ _ Hdd d Hd) as [_ [?|?]]. }
  split; [done|]. rewrite (dd_fat _ _ _ _ _ _ Hdd) by done. by rewrite decide_False.
Qed.

Lemma data_dir s s' ocl first cl data :
  fs_ok s → given_up s ocl → data_on_disk s s' ocl first cl data →
  dir_at (geo s) (fat_cache s') (cwd_cluster s) (cwd_chain s) ∧
  (∀ l, l ∈ cwd_lbas s → sec s' l = sec s l) ∧ (∀ c, c ∈ cl → c ∉ cwd_chain s).
Proof.
  intros Hok Hgu Hdd. pose proof (fo_dir _ Hok) as Hd. pose proof (fo_vol _ Hok) as Hv.
  assert (∀ c, c ∈ cwd_chain s → fat_get (fat_cache s) c ≠ 0 ∧ c ∉ ocl) as Hdcl.
  { intros c Hc. split.
    - destruct Hd as [[_ E]|[_ Hch]]; [by rewrite E, elem_of_nil in Hc|]. by destruct (chain_in _ _ _ _ _ Hch Hc).
    - intros Ho. by destruct (Hgu c Ho). }
  assert (∀ c, c ∈ cl → c ∉ cwd_chain s) as Hcl.
  { intros c Hc Hdc. destruct (Hdcl c Hdc) as [Hz Ho]. by destruct (data_apart _ _ _ _ _ _ c Hdd Hz Ho). }
  split_and!; [| |done].
  - destruct Hd as [Hd|[Hd Hch]]; [by left|right]. split; [done|]. eapply chain_ext; [|exact Hch].
    intros c Hc. destruct (Hdcl c Hc) as [Hz Ho]. by destruct (data_apart _ _ _ _ _ _ c Hdd Hz Ho).
  - intros l Hl. apply (dd_sec _ _ _ _ _ _ Hdd).
    + by destruct (dir_sectors_apart s (cwd_chain s) (cwd_cluster s) l 0 Hv Hd Hl).
    + intros c Hc. destruct (dir_sectors_apart s (cwd_chain s) (cwd_cluster s) l c Hv Hd Hl) as [_ Hap].
      apply Hap; [by apply (dd_fresh _ _ _ _ _ _ Hdd)|by apply Hcl].
Qed.

(** The state [s'] after the data was stored differs from it, in the sectors of
    clusters outside the directory, not at all. *)
Lemma data_kept s s1 s' ocl first cl data dcl' :
  fs_ok s → data_on_disk s s1 ocl first cl data →
  (∀ d, 2 ≤ d < clusters (geo s) → fat_get (fat_cache s1) d ≠ 0 → d ∉ cwd_chain s →
     fat_get (fat_cache s') d = fat_get (fat_cache s1) d ∧ (d ∉ dcl') ∧
     ∀ l, l ∈ cluster_sectors (geo s) d → sec s' l = sec s1 l) →
  kept s s' ocl dcl' ∧
  ((∀ c, c ∈ cl → c ∉ cwd_chain s) → geo s1 = geo s → geo s' = geo s →
    chain (clusters (geo s)) (fat_cache s') first cl ∧ (∀ c, c ∈ cl → c ∉ dcl') ∧
    take (length data) (chain_bytes s' cl) = data).
Proof.
  intros Hok Hdd Hsame. split.
  - intros d Hd Hz Hdcl Ho. destruct (data_apart _ _ _ _ _ _ d Hdd Hz Ho) as [Hcl E].
    destruct (Hsame d Hd) as (H1 & H2 & H3); [by rewrite E|done|]. split_and!; [congruence|done|].
    intros l Hl. rewrite H3 by done. apply (dd_sec _ _ _ _ _ _ Hdd).
    + apply elem_cluster_sectors in Hl. pose proof (vo_geom _ (fo_vol _ Hok)) as Hg.
      destruct (cluster_lba_val _ _ _ Hg Hd). destruct Hg. lia.
    + intros c Hc Hlc. apply Hcl. destruct (dd_fresh _ _ _ _ _ _ Hdd c Hc) as [Hcr _].
      by rewrite (cluster_sectors_disjoint _ _ d c l (vo_geom _ (fo_vol _ Hok)) Hd Hcr Hl Hlc).
  - intros Hcl Hg1 Hg'. pose proof (dd_chain _ _ _ _ _ _ Hdd) as Hch.
    assert (∀ c, c ∈ cl → fat_get (fat_cache s') c = fat_get (fat_cache s1) c ∧ (c ∉ dcl') ∧
      ∀ l, l ∈ cluster_sectors (geo s) c → sec s' l = sec s1 l) as Hall.
    { intros c Hc. destruct (chain_in _ _ _ _ _ Hch Hc). apply Hsame; [done|done|by apply Hcl]. }
    split_and!.
    + eapply chain_ext; [|exact Hch]. intros d Hd. by apply Hall.
    + intros c Hc. by apply Hall.
    + rewrite (chain_bytes_ext s1 s'); [apply (dd_data _ _ _ _ _ _ Hdd)|congruence|].
      intros c l Hc Hl. rewrite Hg1 in Hl. by apply (Hall c Hc).
Qed.

(** ** Finishing: a new entry, an entry gone, nothing at all *)

Definition sub_of (e : list Z) : option Z := if ent_is_dir e then Some (ent_cluster e) else None.

(** The directory lists the old entries [rest] and one of the new file. *)
Lemma new_entry_done s s' ocl rest ent name83 first cl data dcl' :
  fs_ok s → others s ocl rest → kept s s' ocl dcl' → vol_ok s' → same_vol s s' →
  dir_at (geo s) (fat_cache s') (cwd_cluster s) dcl' →
  tail_ok (slots s' (dir_lbas (geo s) (cwd_cluster s) dcl')) →
  live (slots s' (dir_lbas (geo s) (cwd_cluster s) dcl')) ≡ₚ ent :: rest →
  NoDup (names (ent :: rest)) → name83_ok name83 → entry_says ent name83 ATTR_FILE first (zlen data) →
  chain (clusters (geo s)) (fat_cache s') first cl → (∀ c, c ∈ cl → c ∉ dcl') →
  (∀ c, c ∈ cl → fat_get (fat_cache s) c = 0 ∨ c ∈ ocl) →
  take (length data) (chain_bytes s' cl) = data → zlen data ≤ cluster_room s * zlen cl →
  fs_ok s' ∧ files s' = <[name83 := data]> (omap (file_of s) (dir_map rest)) ∧
  dirs s' = omap sub_of (dir_map rest).
Proof.
  intros Hok Hoth Hk Hv' Hsv Hd Ht HL Hnd H83 Hsays Hch Hcd Hfresh Hdata Hroom.
  destruct (rest_kept s s' ocl dcl' rest Hok Hv' Hsv Hk Hoth) as [Hown Hfiles].
  pose proof (eoc_bound _ (fo_vol _ Hok)) as [Hn1 Hn2].
  destruct (entry_says_live _ _ _ _ _ H83 Hsays) as (He1 & He2 & He3 & He4); [done|].
  change (c_true (ATTR_FILE &&& ATTR_DIR)%c) with false in He4.
  pose proof Hsays as [Ename _ Eclus Esize _ _ _].
  assert (owned (clusters (geo s)) (cluster_room s) (fat_cache s') dcl' (ent :: rest)) as Hown'.
  { apply owned_cons with (ecl := cl); [exact Hn2|done|done|by rewrite Eclus|done|by rewrite Esize|].
    intros x cl' c Hx Hxd Hxch Hc Hcl. destruct (Hoth x Hx) as [Hxin Hxo].
    destruct (ow_chain _ _ _ _ _ (fo_owned _ Hok) x Hxin Hxd) as (cl2 & Hch2 & _).
    assert (chain (clusters (geo s)) (fat_cache s') (ent_cluster x) cl2) as Hch3.
    { eapply chain_ext; [|exact Hch2]. intros d Hdd. by destruct (kept_chain s s' ocl dcl' rest x cl2 d). }
    rewrite (chain_det _ _ _ _ _ Hn2 Hxch Hch3) in Hc.
    destruct (chain_in _ _ _ _ _ Hch2 Hc) as [_ Hz]. destruct (Hfresh c Hcl) as [|Ho]; [done|].
    by apply (Hxo cl2 c). }
  destruct (fs_ok_intro s s' dcl' (ent :: rest) Hok Hsv Hv' Hd Ht HL Hnd Hown') as (Hok' & Ef & Edirs).
  apply NoDup_cons in Hnd as [Hni Hnd].
  split; [done|]. split.
  - rewrite Ef, dir_map_cons, Ename.
    assert (file_of s' ent = Some data) as Efile.
    { unfold file_of. rewrite He4. apply (f_equal Some).
      rewrite (file_bytes_chain s' ent cl Hv'); [|by rewrite (sv_geo _ _ Hsv), Eclus].
      rewrite Esize. unfold zlen. by rewrite Nat2Z.id. }
    rewrite (omap_insert_Some _ _ _ _ data) by done. by rewrite (rest_files s s').
  - rewrite Edirs, dir_map_cons. rewrite omap_insert_None by (by rewrite He4).
    apply delete_id. rewrite lookup_omap. rewrite dir_map_None; [done|]. exact Hni.
Qed.

Lemma old_entry_files s old rest name83 :
  fs_ok s → entries s ≡ₚ old :: rest → ent_name old = name83 → ent_is_dir old = false →
  omap (file_of s) (dir_map rest) = delete name83 (files s) ∧ omap sub_of (dir_map rest) = dirs s.
Proof.
  intros Hok HL Hn Hd. pose proof (fo_names _ Hok) as Hnd.
  unfold files, dirs. rewrite (dir_map_perm _ _ Hnd HL). rewrite HL in Hnd.
  apply NoDup_cons in Hnd as [Hni Hnd]. fold (names rest) in Hni, Hnd.
  rewrite dir_map_cons, Hn. rewrite Hn in Hni. pose proof (dir_map_None _ _ Hni) as Hno. split.
  - rewrite (omap_insert_Some _ _ _ _ (file_bytes s old)) by (unfold file_of; by rewrite Hd).
    rewrite delete_insert_id; [done|]. by rewrite lookup_omap, Hno.
  - rewrite omap_insert_None by (by rewrite Hd). rewrite delete_id; [done|]. by rewrite lookup_omap, Hno.
Qed.

Lemma same_entries_done s s' :
  fs_ok s → vol_ok s' → same_vol s s' → (∀ d, fat_get (fat_cache s') d = fat_get (fat_cache s) d) →
  (∀ l, root_start (geo s) ≤ l →
     (∀ c, 2 ≤ c < clusters (geo s) → fat_get (fat_cache s) c = 0 → l ∉ cluster_sectors (geo s) c) →
     sec s' l = sec s l) →
  fs_ok s' ∧ files s' = files s ∧ dirs s' = dirs s.
Proof.
  intros Hok Hv' Hsv Hf Hs. pose proof (fo_vol _ Hok) as Hv. pose proof (fo_dir _ Hok) as Hd.
  assert (∀ d l, 2 ≤ d < clusters (geo s) → fat_get (fat_cache s) d ≠ 0 → l ∈ cluster_sectors (geo s) d → sec s' l = sec s l) as Hused.
  { intros d l Hdr Hz Hl. pose proof (vo_geom _ Hv) as Hg. apply Hs.
    - apply elem_cluster_sectors in Hl. destruct (cluster_lba_val _ _ _ Hg Hdr). destruct Hg. lia.
    - intros c Hc Hcz Hlc. rewrite (cluster_sectors_disjoint _ _ d c l Hg Hdr Hc Hl Hlc) in Hz. done. }
  assert (slots s' (cwd_lbas s) = slots s (cwd_lbas s)) as Es.
  { apply slots_ext. intros l Hl. apply Hs.
    - by destruct (dir_sectors_apart s (cwd_chain s) (cwd_cluster s) l 0 Hv Hd Hl).
    - intros c Hc Hcz. destruct (dir_sectors_apart s (cwd_chain s) (cwd_cluster s) l c Hv Hd Hl) as [_ Hap].
      apply Hap; [done|]. intros Hin. destruct Hd as [[_ E]|[_ Hch]]; [by rewrite E, elem_of_nil in Hin|].
      by destruct (chain_in _ _ _ _ _ Hch Hin). }
  assert (kept s s' [] (cwd_chain s)) as Hk.
  { intros d Hdr Hz Hdd _. split; [done|]. split; [done|]. intros l. by apply Hused. }
  assert (others s [] (entries s)) as Ho.
  { intros e He. split; [done|]. intros cl c _ _ _ Hc. by apply elem_of_nil in Hc. }
  destruct (rest_kept s s' [] (cwd_chain s) (entries s) Hok Hv' Hsv Hk Ho) as [Hown Hfiles].
  assert (dir_at (geo s) (fat_cache s') (cwd_cluster s) (cwd_chain s)) as Hd'.
  { destruct Hd as [Hd|[Hd Hch]]; [by left|right]. split; [done|]. eapply chain_ext; [|exact Hch]. done. }
  assert (tail_ok (slots s' (dir_lbas (geo s) (cwd_cluster s) (cwd_chain s)))) as Ht.
  { fold (cwd_lbas s). rewrite Es. apply Hok. }
  assert (live (slots s' (dir_lbas (geo s) (cwd_cluster s) (cwd_chain s))) ≡ₚ entries s) as HL.
  { fold (cwd_lbas s). by rewrite Es. }
  destruct (fs_ok_intro s s' (cwd_chain s) (entries s) Hok Hsv Hv' Hd' Ht HL (fo_names _ Hok) Hown) as (H1 & H2 & H3).
  split; [exact H1|]. split; [|exact H3]. rewrite H2. apply rest_files; [apply Hok|exact Hfiles].
Qed.

(** ** Creating *)

Lemma cwd_root_start s l : fs_ok s → l ∈ cwd_lbas s → root_start (geo s) ≤ l.
Proof. intros Hok Hl. by destruct (dir_sectors_apart s _ _ l 0 (fo_vol _ Hok) (fo_dir _ Hok) Hl). Qed.

Lemma file_new_slot s s1 s2 first cl data ent name83 l1 lba e old l2 :
  fs_ok s → name83_ok name83 → name83 ∉ names (entries s) →
  data_on_disk s s1 [] first cl data → entry_says ent name83 ATTR_FILE first (zlen data) →
  placed_slots s1 (cwd_lbas s) = l1 ++ (lba, e, old) :: l2 →
  Forall (λ x, ent_free x = false) (ents l1) → ent_free old = true →
  effect s1 s2 (fat_cache s1) (λ l, if l =? lba then splice (sec s1 lba) (32 * e) ent else sec s1 l) →
  fs_ok s2 ∧ files s2 = <[name83 := data]> (files s) ∧ dirs s2 = dirs s.
Proof.
  intros Hok H83 Hni Hdd Hsays Hpl Hl1 Hold (Hsv2 & Hh2 & Ef2 & Es2).
  pose proof (fo_vol _ Hok) as Hv. pose proof Hdd as [Hsv1 Hv1 _ _ Hfresh _ _ _ [Hroom _]].
  assert (given_up s []) as Hgu by (intros c Hc; by apply elem_of_nil in Hc).
  destruct (data_dir _ _ _ _ _ _ Hok Hgu Hdd) as (Hdir1 & Hsec1 & Hclapart).
  destruct (entry_says_live _ _ _ _ _ H83 Hsays) as (He1 & He2 & _ & _); [done|].
  pose proof (slots_ext s s1 (cwd_lbas s) Hsec1) as Eslots. rewrite <- ents_placed, Hpl in Eslots.
  unfold ents in Eslots. rewrite fmap_app, fmap_cons in Eslots. cbn [snd] in Eslots.
  fold (ents l1) (ents l2) in Eslots.
  pose proof (fo_tail _ Hok) as Htail. rewrite <- Eslots in Htail.
  destruct (live_add (ents l1) old (ents l2) ent Hl1 Hold He1 He2 Htail) as (EL & EL' & Htail').
  assert (slots s2 (cwd_lbas s) = ents l1 ++ ent :: ents l2) as Eslots2.
  { apply (slots_write s1 s2 _ _ lba e old); [apply Hv1| | |apply Hsays|exact Hpl|intros; apply Es2].
    - pose proof (dir_lbas_ok s _ _ Hv (fo_dir _ Hok)) as Hls. unfold lbas_ok in *. by rewrite (sv_size _ _ Hsv1).
    - apply (NoDup_dir_lbas s); [done|apply Hok]. }
  assert (entries s = live (ents l1) ++ live (ents l2)) as Een by (unfold entries; by rewrite <- Eslots, EL).
  destruct (placed_split _ _ _ _ _ _ _ Hpl) as (ls1 & ls2 & Els & _).
  assert (lba ∈ cwd_lbas s) as Hlba by (rewrite Els; apply elem_of_app; right; left).
  destruct (data_kept s s1 s2 [] first cl data (cwd_chain s) Hok Hdd) as [Hk Hrest].
  { intros d Hd Hz Hdd'. split; [by rewrite Ef2|]. split; [done|]. intros l Hl. rewrite Es2.
    destruct (Z.eqb_spec l lba) as [->|]; [|done]. exfalso.
    destruct (dir_sectors_apart s _ _ lba d Hv (fo_dir _ Hok) Hlba) as [_ Hap]. by apply Hap in Hd. }
  assert (geo s2 = geo s) as Eg2 by (rewrite (sv_geo _ _ Hsv2); apply Hsv1).
  destruct (Hrest Hclapart (sv_geo _ _ Hsv1) Eg2) as (Hch2 & Hcd & Hdata).
  apply (new_entry_done s s2 [] (entries s) ent name83 first cl data (cwd_chain s)); try done.
  - intros x Hx. split; [done|]. intros cl' c _ _ _ Hc. by apply elem_of_nil in Hc.
  - eapply effect_vol_ok; [exact Hv1|split_and!; done|apply Hv1|done].
  - by etrans.
  - by rewrite Ef2.
  - fold (cwd_lbas s). by rewrite Eslots2.
  - fold (cwd_lbas s). rewrite Eslots2, EL', Een. by rewrite <- Permutation_middle.
  - unfold names. cbn [map]. fold (names (entries s)). apply NoDup_cons. rewrite (es_name _ _ _ _ _ Hsays). split; [done|apply Hok].
  - intros c Hc. by apply Hfresh.
Qed.

(** The directory had no slot left and grew by the cluster [nc]. *)
Lemma slots_grown s1 s2 ls nc ent :
  1 ≤ sectors_per_cluster (geo s1) → length ent = 32%nat →
  (∀ l, l ∈ ls → sec s2 l = sec s1 l) →
  (∀ l, l ∈ cluster_sectors (geo s1) nc → sec s2 l = grown (geo s1) nc ent (sec s1) l) →
  ∃ k, slots s2 (ls ++ cluster_sectors (geo s1) nc) = slots s1 ls ++ ent :: replicate k (replicate 32 0).
Proof.
  intros Hspc Hl Hls Hnc. unfold slots. rewrite map_app, concat_app.
  fold (slots s2 ls) (slots s2 (cluster_sectors (geo s1) nc)). rewrite (slots_ext s1 s2 ls Hls).
  set (m := sectors_per_cluster (geo s1)) in *.
  assert (cluster_sectors (geo s1) nc = cluster_lba (geo s1) nc :: seqZ (cluster_lba (geo s1) nc + 1) (m - 1)) as E.
  { unfold cluster_sectors. fold m. rewrite seqZ_cons by lia. f_equal. }
  assert (∀ l, l ∈ seqZ (cluster_lba (geo s1) nc + 1) (m - 1) → sec s2 l = replicate 512 0) as Hz.
  { intros l Hl'. rewrite Hnc by (rewrite E; by right). apply elem_of_seqZ in Hl'. unfold grown.
    rewrite (proj2 (Z.eqb_neq l _)) by lia. fold m. by rewrite (proj2 (Z.leb_le _ _)), (proj2 (Z.ltb_lt _ _)) by lia. }
  assert (slots s2 (cluster_sectors (geo s1) nc) =
    slots_of (splice (replicate 512 0) (32 * 0) ent) ++ slots s2 (seqZ (cluster_lba (geo s1) nc + 1) (m - 1))) as Es.
  { unfold slots. rewrite E at 1. cbn [map concat]. rewrite Hnc by (rewrite E; left). unfold grown. by rewrite Z.eqb_refl. }
  exists (15 + 16 * Z.to_nat (m - 1))%nat. rewrite Es. f_equal. rewrite slots_of_splice by (done || lia).
  assert (slots s2 (seqZ (cluster_lba (geo s1) nc + 1) (m - 1)) = replicate (16 * Z.to_nat (m - 1)) (replicate 32 0)) as ->.
  { unfold slots. revert Hz. generalize (cluster_lba (geo s1) nc + 1). intros a Hz.
    assert (∀ k b, (∀ l, b ≤ l < b + Z.of_nat k → sec s2 l = replicate 512 0) →
      concat (map (λ l, slots_of (sec s2 l)) (seqZ b (Z.of_nat k))) = replicate (16 * k) (replicate 32 0)) as Hk.
    { induction k as [|k IH]; intros b Hb; [done|]. rewrite seqZ_cons by lia. cbn [map concat].
      rewrite Hb by lia. replace (Z.pred (Z.of_nat (S k))) with (Z.of_nat k) by lia. rewrite IH by (intros; apply Hb; lia).
      replace (16 * S k)%nat with (16 + 16 * k)%nat by lia. rewrite replicate_add. f_equal. }
    replace (m - 1) with (Z.of_nat (Z.to_nat (m - 1))) at 1 by lia. apply Hk.
    intros l Hl'. apply Hz, elem_of_seqZ. lia. }
  rewrite replicate_add. reflexivity.
Qed.

Lemma live_all_used l : Forall (λ x, ent_free x = false) l → Forall (λ x, ent_end x = false) l.
Proof.
  intros Hl. eapply Forall_impl; [exact Hl|]. intros x Hx. unfold ent_free in Hx. by apply orb_false_iff in Hx as [? _].
Qed.

Lemma tail_ok_zeros l k : Forall (λ x, ent_end x = false) l → tail_ok (l ++ replicate k (replicate 32 0)).
Proof.
  intros Hl. apply tail_ok_app; [done|]. apply ends_tail_ok. by apply Forall_replicate.
Qed.

Lemma live_zeros k : live (replicate k (replicate 32 0)) = [].
Proof. apply live_ends. by apply Forall_replicate. Qed.

Lemma dir_lbas_snoc g dir cl nc :
  dir ≠ 0 → dir_lbas g dir (cl ++ [nc]) = dir_lbas g dir cl ++ cluster_sectors g nc.
Proof.
  intros Hd. unfold dir_lbas. rewrite (proj2 (Z.eqb_neq dir 0)) by done.
  rewrite map_app, concat_app. cbn [map concat]. by rewrite app_nil_r.
Qed.

(** The table after the directory's last cluster [x] was linked to [nc]. *)
Lemma grown_table s f f' x nc :
  vol_ok s → table_ok (clusters (geo s)) f → 2 ≤ nc < clusters (geo s) → 2 ≤ x < clusters (geo s) → x ≠ nc →
  f' = fat_put x nc (fat_put nc 0xFFF f) →
  ∀ d, fat_get f' d = if d =? x then nc else if d =? nc then 0xFFF else fat_get f d.
Proof.
  intros Hv Ht Hnc Hx Hne -> d. pose proof (proj2 (eoc_bound _ Hv)) as Hn. unfold EOC in Hn.
  pose proof (table_ok_put _ nc 0xFFF _ Ht ltac:(lia)) as Ht1.
  rewrite (fat_get_put (clusters (geo s))) by (done || lia).
  by rewrite (fat_get_put (clusters (geo s))) by (done || lia).
Qed.

Lemma file_new_grown s s1 s2 first cl data ent name83 nc x :
  fs_ok s → name83_ok name83 → name83 ∉ names (entries s) →
  data_on_disk s s1 [] first cl data → entry_says ent name83 ATTR_FILE first (zlen data) →
  Forall (λ y, ent_free y = false) (slots s1 (cwd_lbas s)) → cwd_cluster s ≠ 0 →
  2 ≤ nc < clusters (geo s) → fat_get (fat_cache s1) nc = 0 → last (cwd_chain s) = Some x →
  same_vol s1 s2 → vol_ok s2 → fat_cache s2 = fat_put x nc (fat_put nc 0xFFF (fat_cache s1)) →
  (∀ l, root_start (geo s) ≤ l → sec s2 l = grown (geo s) nc ent (sec s1) l) →
  fs_ok s2 ∧ files s2 = <[name83 := data]> (files s) ∧ dirs s2 = dirs s.
Proof.
  intros Hok H83 Hni Hdd Hsays Hfull Hcwd Hnc Hncz Hlast Hsv2 Hv2 Ef2 Es2.
  pose proof (fo_vol _ Hok) as Hv. pose proof Hdd as [Hsv1 Hv1 _ _ Hfresh _ _ _ [Hroom _]].
  assert (given_up s []) as Hgu by (intros c Hc; by apply elem_of_nil in Hc).
  destruct (data_dir _ _ _ _ _ _ Hok Hgu Hdd) as (Hdir1 & Hsec1 & Hclapart).
  destruct (entry_says_live _ _ _ _ _ H83 Hsays) as (He1 & He2 & _ & _); [done|].
  pose proof (sv_geo _ _ Hsv1) as Eg1. pose proof (proj2 (eoc_bound _ Hv)) as Hn.
  destruct Hdir1 as [[? _]|[Hcr Hch1]]; [done|].
  assert (x ∈ cwd_chain s) as Hx by (by apply last_Some_elem_of).
  destruct (chain_in _ _ _ _ _ Hch1 Hx) as [Hxr Hxz].
  assert (x ≠ nc) as Hxn by (by intros ->).
  assert (nc ∉ cwd_chain s) as Hncd.
  { intros Hin. by destruct (chain_in _ _ _ _ _ Hch1 Hin). }
  assert (table_ok (clusters (geo s)) (fat_cache s1)) as Ht1 by (rewrite <- Eg1; apply Hv1).
  pose proof (grown_table s _ _ x nc Hv Ht1 Hnc Hxr Hxn Ef2) as G.
  set (dcl' := cwd_chain s ++ [nc]).
  assert (∀ l d, 2 ≤ d < clusters (geo s) → d ≠ nc → l ∈ cluster_sectors (geo s) d → sec s2 l = sec s1 l) as Hother.
  { intros l d Hd Hdn Hl. pose proof (vo_geom _ Hv) as Hg. rewrite Es2.
    2:{ apply elem_cluster_sectors in Hl. destruct (cluster_lba_val _ _ _ Hg Hd). destruct Hg. lia. }
    assert (l ∉ cluster_sectors (geo s) nc) as Hln.
    { intros Hln. by rewrite (cluster_sectors_disjoint _ _ d nc l Hg Hd Hnc Hl Hln) in Hdn. }
    rewrite elem_cluster_sectors in Hln. pose proof (go_spc _ _ Hg). unfold grown. rewrite (proj2 (Z.eqb_neq l _)) by lia.
    destruct (Z.leb_spec (cluster_lba (geo s) nc) l), (Z.ltb_spec l (cluster_lba (geo s) nc + sectors_per_cluster (geo s)));
      cbn [andb]; done || lia. }
  destruct (data_kept s s1 s2 [] first cl data dcl' Hok Hdd) as [Hk Hrest].
  { intros d Hd Hz Hdd'. assert (d ≠ nc) as Hdn by (by intros ->).
    split_and!.
    - rewrite G, (proj2 (Z.eqb_neq d x)) by (by intros ->). by rewrite (proj2 (Z.eqb_neq d nc)).
    - unfold dcl'. intros [?|Hd']%elem_of_app; [done|]. by apply list_elem_of_singleton in Hd'.
    - intros l. by apply Hother. }
  assert (geo s2 = geo s) as Eg2 by (rewrite (sv_geo _ _ Hsv2); apply Hsv1).
  destruct (Hrest Hclapart Eg1 Eg2) as (Hch2 & Hcd & Hdata).
  assert (dir_at (geo s) (fat_cache s2) (cwd_cluster s) dcl') as Hdir2.
  { right. split; [done|]. eapply (chain_snoc _ (fat_cache s1)); [exact Hch1|exact Hlast|exact Hnc| | | | |].
    - intros d Hd Hdx. rewrite G, (proj2 (Z.eqb_neq d x)) by done. rewrite (proj2 (Z.eqb_neq d nc)); [done|]. by intros ->.
    - by eapply chain_NoDup.
    - by rewrite G, Z.eqb_refl.
    - by rewrite G, (proj2 (Z.eqb_neq nc x)), Z.eqb_refl by congruence.
    - by rewrite G, (proj2 (Z.eqb_neq nc x)), Z.eqb_refl by congruence. }
  destruct (slots_grown s1 s2 (cwd_lbas s) nc ent) as (k & Ek).
  { rewrite Eg1. apply (vo_geom _ Hv). } { apply Hsays. }
  { intros l Hl. apply elem_dir_lbas in Hl as Hl'. rewrite (proj2 (Z.eqb_neq _ 0)) in Hl' by done.
    destruct Hl' as (c & Hc & Hlc). apply (Hother l c); [by destruct (chain_in _ _ _ _ _ Hch1 Hc)|by intros ->|done]. }
  { rewrite Eg1. intros l Hl. apply Es2. apply elem_cluster_sectors in Hl. pose proof (vo_geom _ Hv) as Hg.
    destruct (cluster_lba_val _ _ _ Hg Hnc). destruct Hg. lia. }
  rewrite Eg1 in Ek. unfold cwd_lbas at 1 in Ek. rewrite <- dir_lbas_snoc in Ek by done. fold dcl' in Ek.
  pose proof (slots_ext s s1 (cwd_lbas s) Hsec1) as Eslots.
  pose proof (live_all_used _ Hfull) as Hends.
  apply (new_entry_done s s2 [] (entries s) ent name83 first cl data dcl'); try assumption.
  - intros y Hy. split; [done|]. intros cl' c _ _ _ Hc. by apply elem_of_nil in Hc.
  - by etrans.
  - rewrite Ek. apply tail_ok_app; [done|]. cbn [tail_ok]. rewrite He1. apply (tail_ok_zeros []). constructor.
  - rewrite Ek. rewrite live_entries_app by done. cbn [live]. rewrite He1, He2, live_zeros.
    unfold entries. rewrite <- Eslots. by rewrite Permutation_app_comm.
  - unfold names. cbn [map]. fold (names (entries s)). apply NoDup_cons. rewrite (es_name _ _ _ _ _ Hsays). split; [done|apply Hok].
  - intros c Hc. by apply Hfresh.
Qed.

(** ** Replacing and removing an entry *)

(** The live entries around a slot that the lookup found. *)
Lemma found_split s name83 lba off old :
  fs_ok s → find_ent name83 (placed_slots s (cwd_lbas s)) = Some (lba, off, old) →
  ∃ l1 e l2, placed_slots s (cwd_lbas s) = l1 ++ (lba, e, old) :: l2 ∧ off = e * 32 ∧ 0 ≤ e < 16 ∧
    old = entry_at (sec s lba) e ∧ lba ∈ cwd_lbas s ∧
    slots s (cwd_lbas s) = ents l1 ++ old :: ents l2 ∧
    Forall (λ x, ent_end x = false) (ents l1) ∧ ent_end old = false ∧ ent_skip old = false ∧ ent_name old = name83 ∧
    entries s ≡ₚ old :: live (ents l1) ++ live (ents l2).
Proof.
  intros Hok Hf. apply find_ent_Some in Hf as (l1 & e & l2 & Hpl & -> & Hn & He & Hs & Hl1).
  destruct (placed_split _ _ _ _ _ _ _ Hpl) as (ls1 & ls2 & Els & He16 & Hold & _).
  assert (slots s (cwd_lbas s) = ents l1 ++ old :: ents l2) as Es.
  { rewrite <- ents_placed, Hpl. unfold ents. by rewrite fmap_app. }
  exists l1, e, l2. split_and!; try assumption; try reflexivity; try lia.
  - rewrite Els. apply elem_of_app. right. left.
  - unfold entries. rewrite Es, live_entries_app by done. cbn [live]. rewrite He, Hs. by rewrite <- Permutation_middle.
Qed.

Lemma others_of s old rest ocl :
  fs_ok s → entries s ≡ₚ old :: rest → ent_dot old = false →
  chain (clusters (geo s)) (fat_cache s) (ent_cluster old) ocl → others s ocl rest.
Proof.
  intros Hok HL Hd Hch e He. assert (e ∈ entries s) as Hin by (rewrite HL; by right). split; [done|].
  intros cl c Hed Hech Hc Ho. assert (old ∈ entries s) as Hold by (rewrite HL; left).
  pose proof (ow_disjoint _ _ _ _ _ (fo_owned _ Hok) e old cl ocl c Hin Hold Hed Hd Hech Hch Hc Ho) as ->.
  pose proof (fo_names _ Hok) as Hnd. rewrite HL in Hnd. apply NoDup_cons in Hnd as [Hni _].
  apply Hni. by apply list_elem_of_fmap_2.
Qed.

Lemma given_up_chain s old ocl :
  fs_ok s → old ∈ entries s → ent_dot old = false →
  chain (clusters (geo s)) (fat_cache s) (ent_cluster old) ocl → given_up s ocl.
Proof.
  intros Hok Hin Hd Hch c Hc. destruct (chain_in _ _ _ _ _ Hch Hc) as [Hr _]. split; [done|].
  destruct (ow_chain _ _ _ _ _ (fo_owned _ Hok) old Hin Hd) as (cl & Hch' & Hdcl & _).
  rewrite (chain_det _ _ _ _ _ (proj2 (eoc_bound _ (fo_vol _ Hok))) Hch Hch') in Hc. by apply Hdcl.
Qed.

Lemma nondir_nondot s e : fs_ok s → e ∈ entries s → ent_is_dir e = false → ent_dot e = false.
Proof.
  intros Hok He Hd. destruct (ent_dot e) eqn:E; [|done].
  rewrite (ow_dot _ _ _ _ _ (fo_owned _ Hok) e He E) in Hd. discriminate.
Qed.

(** The directory after its slot was overwritten with [new]. *)
Lemma slot_overwritten s s1 s2 l1 lba e old l2 new :
  fs_ok s → same_vol s s1 → vol_ok s1 → (∀ l, l ∈ cwd_lbas s → sec s1 l = sec s l) →
  placed_slots s (cwd_lbas s) = l1 ++ (lba, e, old) :: l2 → length new = 32%nat →
  (∀ l, sec s2 l = if l =? lba then splice (sec s1 lba) (32 * e) new else sec s1 l) →
  slots s2 (cwd_lbas s) = ents l1 ++ new :: ents l2.
Proof.
  intros Hok Hsv1 Hv1 Hsec1 Hpl Hl Es2. pose proof (fo_vol _ Hok) as Hv.
  apply (slots_write s1 s2 _ _ lba e old); [apply Hv1| | |exact Hl| |intros; apply Es2].
  - pose proof (dir_lbas_ok s _ _ Hv (fo_dir _ Hok)) as Hls. unfold lbas_ok in *. by rewrite (sv_size _ _ Hsv1).
  - apply (NoDup_dir_lbas s); [done|apply Hok].
  - rewrite <- Hpl. unfold placed_slots. f_equal. apply list_fmap_ext. intros i l Hi.
    unfold place_sector. rewrite Hsec1; [reflexivity|]. by eapply list_elem_of_lookup_2.
Qed.

Lemma file_replaced s s1 s2 first cl ocl data ent old name83 lba off :
  fs_ok s → name83_ok name83 →
  find_ent name83 (placed_slots s (cwd_lbas s)) = Some (lba, off, old) → ent_is_dir old = false →
  chain (clusters (geo s)) (fat_cache s) (ent_cluster old) ocl →
  data_on_disk s s1 ocl first cl data → entry_says ent name83 ATTR_FILE first (zlen data) →
  effect s1 s2 (fat_cache s1) (λ l, if l =? lba then splice (sec s1 lba) off ent else sec s1 l) →
  fs_ok s2 ∧ files s2 = <[name83 := data]> (files s) ∧ dirs s2 = dirs s.
Proof.
  intros Hok H83 Hfind Hnd Hoch Hdd Hsays Heff2. pose proof Heff2 as (Hsv2 & Hh2 & Ef2 & Es2).
  pose proof (fo_vol _ Hok) as Hv. pose proof Hdd as [Hsv1 Hv1 _ _ Hfresh _ _ _ [Hroom _]].
  destruct (found_split s name83 lba off old Hok Hfind)
    as (l1 & e & l2 & Hpl & -> & He & Hold & Hlba & Eslots & Hl1 & Ho1 & Ho2 & Hon & HL).
  assert (old ∈ entries s) as Hin by (rewrite HL; left).
  pose proof (nondir_nondot s old Hok Hin Hnd) as Hdot.
  pose proof (given_up_chain s old ocl Hok Hin Hdot Hoch) as Hgu.
  destruct (data_dir _ _ _ _ _ _ Hok Hgu Hdd) as (Hdir1 & Hsec1 & Hclapart).
  destruct (entry_says_live _ _ _ _ _ H83 Hsays) as (He1 & He2 & _ & _); [done|].
  pose proof (fo_tail _ Hok) as Htail. rewrite Eslots in Htail.
  destruct (live_replace (ents l1) old (ents l2) ent Hl1 Ho1 Ho2 He1 Htail) as (_ & EL' & Htail').
  rewrite He2 in EL'. cbn [app] in EL'. replace (e * 32) with (32 * e) in Es2 by lia.
  pose proof (slot_overwritten s s1 s2 l1 lba e old l2 ent Hok Hsv1 Hv1 Hsec1 Hpl (es_length _ _ _ _ _ Hsays) Es2) as Eslots2.
  set (rest := live (ents l1) ++ live (ents l2)) in *.
  pose proof (others_of s old rest ocl Hok HL Hdot Hoch) as Hoth.
  destruct (data_kept s s1 s2 ocl first cl data (cwd_chain s) Hok Hdd) as [Hk Hrest].
  { intros d Hd Hz Hdd'. split; [by rewrite Ef2|]. split; [done|]. intros l Hl. rewrite Es2.
    destruct (Z.eqb_spec l lba) as [->|]; [|done]. exfalso.
    destruct (dir_sectors_apart s _ _ lba d Hv (fo_dir _ Hok) Hlba) as [_ Hap]. by apply Hap in Hd. }
  assert (geo s2 = geo s) as Eg2 by (rewrite (sv_geo _ _ Hsv2); apply Hsv1).
  destruct (Hrest Hclapart (sv_geo _ _ Hsv1) Eg2) as (Hch2 & Hcd & Hdata).
  destruct (old_entry_files s old rest name83 Hok HL Hon Hnd) as [Efs Eds].
  assert (NoDup (names (ent :: rest))) as Hnames.
  { pose proof (fo_names _ Hok) as Hnn. rewrite HL in Hnn. unfold names in *. cbn [map] in *.
    by rewrite (es_name _ _ _ _ _ Hsays), <- Hon. }
  destruct (new_entry_done s s2 ocl rest ent name83 first cl data (cwd_chain s)) as (R1 & R2 & R3); try assumption.
  - eapply effect_vol_ok; [exact Hv1|exact Heff2|apply Hv1|done].
  - by etrans.
  - by rewrite Ef2.
  - fold (cwd_lbas s). by rewrite Eslots2.
  - fold (cwd_lbas s). rewrite Eslots2, EL'. unfold rest. by rewrite <- Permutation_middle.
  - intros c Hc. by apply Hfresh.
  - split; [exact R1|]. rewrite R2, R3, Efs, Eds. split; [|reflexivity]. apply insert_delete_eq.
Qed.

(** The old file's clusters are free, and its entry is marked deleted. *)
Lemma file_gone s s1 s2 ocl old name83 lba off :
  fs_ok s → find_ent name83 (placed_slots s (cwd_lbas s)) = Some (lba, off, old) → ent_is_dir old = false →
  chain (clusters (geo s)) (fat_cache s) (ent_cluster old) ocl →
  same_vol s s1 → vol_ok s1 →
  (∀ d, fat_get (fat_cache s1) d = if decide (d ∈ ocl) then 0 else fat_get (fat_cache s) d) →
  (∀ l, root_start (geo s) ≤ l → sec s1 l = sec s l) →
  effect s1 s2 (fat_cache s1) (λ l, if l =? lba then arr_set (sec s1 lba) off 0xE5 else sec s1 l) →
  fs_ok s2 ∧ files s2 = delete name83 (files s) ∧ dirs s2 = dirs s.
Proof.
  intros Hok Hfind Hnd Hoch Hsv1 Hv1 Hfat Hsec Heff2. pose proof Heff2 as (Hsv2 & Hh2 & Ef2 & Es2).
  pose proof (fo_vol _ Hok) as Hv. pose proof (fo_dir _ Hok) as Hdir.
  destruct (found_split s name83 lba off old Hok Hfind)
    as (l1 & e & l2 & Hpl & -> & He & Hold & Hlba & Eslots & Hl1 & Ho1 & Ho2 & Hon & HL).
  assert (old ∈ entries s) as Hin by (rewrite HL; left).
  pose proof (nondir_nondot s old Hok Hin Hnd) as Hdot.
  pose proof (given_up_chain s old ocl Hok Hin Hdot Hoch) as Hgu.
  assert (∀ l, l ∈ cwd_lbas s → sec s1 l = sec s l) as Hsec1.
  { intros l Hl. apply Hsec. by apply cwd_root_start. }
  pose proof (proj1 (Forall_forall _ _) (dir_lbas_ok s _ _ Hv Hdir) lba Hlba) as Hlbar. simpl in Hlbar.
  destruct (sec_ok s lba (vo_healthy _ Hv)) as [Hlen _]; [lia|].
  set (gone := arr_set old 0 0xE5).
  assert (length old = 32%nat) as Hol by (rewrite Hold; by apply length_entry_at).
  assert (arr_get gone 0 = 0xE5) as Hg0 by (apply arr_get_set_eq; unfold zlen; lia).
  assert (∀ l, sec s2 l = if l =? lba then splice (sec s1 lba) (32 * e) gone else sec s1 l) as Es2'.
  { intros l. rewrite Es2. destruct (l =? lba); [|done]. rewrite Hsec1 by done.
    rewrite arr_set_splice by done. unfold gone. by rewrite <- Hold. }
  assert (ent_end gone = false) as Hg1 by (unfold ent_end; by rewrite Hg0).
  assert (ent_skip gone = true) as Hg2 by (unfold ent_skip; by rewrite Hg0).
  pose proof (fo_tail _ Hok) as Htail. rewrite Eslots in Htail.
  destruct (live_replace (ents l1) old (ents l2) gone Hl1 Ho1 Ho2 Hg1 Htail) as (_ & EL' & Htail').
  rewrite Hg2 in EL'. cbn [app] in EL'.
  assert (length gone = 32%nat) as Hgl by (unfold gone; by rewrite length_arr_set).
  pose proof (slot_overwritten s s1 s2 l1 lba e old l2 gone Hok Hsv1 Hv1 Hsec1 Hpl Hgl Es2') as Eslots2.
  set (rest := live (ents l1) ++ live (ents l2)) in *.
  pose proof (others_of s old rest ocl Hok HL Hdot Hoch) as Hoth.
  assert (kept s s2 ocl (cwd_chain s)) as Hk.
  { intros d Hd Hz Hdc Hdo. rewrite Ef2, Hfat, decide_False by done. split; [done|]. split; [done|].
    intros l Hl. rewrite Es2. destruct (Z.eqb_spec l lba) as [->|].
    - exfalso. destruct (dir_sectors_apart s _ _ lba d Hv Hdir Hlba) as [_ Hap]. by apply Hap in Hd.
    - apply Hsec. apply elem_cluster_sectors in Hl. pose proof (vo_geom _ Hv) as Hg.
      destruct (cluster_lba_val _ _ _ Hg Hd). destruct Hg. lia. }
  assert (vol_ok s2) as Hv2 by (eapply effect_vol_ok; [exact Hv1|exact Heff2|apply Hv1|done]).
  assert (same_vol s s2) as Hsv02 by (by etrans).
  destruct (rest_kept s s2 ocl (cwd_chain s) rest Hok Hv2 Hsv02 Hk Hoth) as [Hown Hfiles].
  assert (dir_at (geo s) (fat_cache s2) (cwd_cluster s) (cwd_chain s)) as Hdir2.
  { destruct Hdir as [Hd|[Hd Hch]]; [by left|right]. split; [done|]. eapply chain_ext; [|exact Hch].
    intros d Hdd. rewrite Ef2, Hfat, decide_False; [done|]. intros Ho. by destruct (Hgu d Ho). }
  pose proof (fo_names _ Hok) as Hnn. rewrite HL in Hnn. apply NoDup_cons in Hnn as [_ Hnn]. fold (names rest) in Hnn.
  destruct (fs_ok_intro s s2 (cwd_chain s) rest Hok Hsv02 Hv2 Hdir2) as (R1 & R2 & R3).
  - fold (cwd_lbas s). by rewrite Eslots2.
  - fold (cwd_lbas s). by rewrite Eslots2, EL'.
  - exact Hnn.
  - exact Hown.
  - destruct (old_entry_files s old rest name83 Hok HL Hon Hnd) as [Efs Eds].
    split; [exact R1|]. split; [|rewrite R3; exact Eds].
    rewrite R2, (rest_files s s2 rest Hnn Hfiles). exact Efs.
Qed.

(** ** The operations *)

Lemma wp_rewrite_sector lba (f : list Z → list Z) (Q : fs D → unit → Prop) s :
  bd_healthy (dev s) → 0 ≤ lba < bd_size (dev s) → is_sector (f (sec s lba)) →
  (∀ s', effect s s' (fat_cache s) (λ l, if l =? lba then f (sec s lba) else sec s l) → Q s' tt) →
  wp (rewrite_sector junk lba f) Q s.
Proof.
  intros Hh Hl Hf HQ. apply wp_bind, wp_read_sector; [done|done|]. intros s1 Hq.
  apply wp_bind, wp_write_sector; [by apply Hq|by rewrite (sv_size _ _ (qu_vol _ _ Hq))|done|].
  intros s2 (Hsv & Hh2 & Ef & Es). apply wp_ret, HQ. split_and!.
  - etrans; [apply Hq|exact Hsv].
  - done.
  - by rewrite Ef, (qu_fat _ _ Hq).
  - intros l. by rewrite Es, (qu_sec _ _ Hq).
Qed.

(** Giving up the clusters of the entry found, if any. *)
Definition freed (s s1 : fs D) (ocl : list Z) : Prop :=
  same_vol s s1 ∧ vol_ok s1 ∧ (∀ l, sec s1 l = sec s l) ∧
  ∀ d, fat_get (fat_cache s1) d = if decide (d ∈ ocl) then 0 else fat_get (fat_cache s) d.

Lemma freed_nothing s : vol_ok s → freed s s [].
Proof.
  intros Hv. split_and!; [reflexivity|done|done|]. intros d. rewrite decide_False; [done|]. by intros ?%elem_of_nil.
Qed.

Lemma stored_on_disk s s1 s2 s3 s4 ocl first data :
  vol_ok s → freed s s1 ocl → given_up s ocl → stored s1 s2 [] data (Some first) →
  same_vol s2 s3 → bd_healthy (dev s3) → fat_cache s3 = fat_cache s2 →
  (∀ l, root_start (geo s2) ≤ l → sec s3 l = sec s2 l) → quiet s3 s4 →
  ∃ cl, data_on_disk s s4 ocl first cl data.
Proof.
  intros Hv (Hsv1 & Hv1 & Es1 & Ef1) Hgu Hst Hsv3 Hh3 Ef3 Es3 Hq4.
  inversion Hst as [first' cl Hsv2 Hv2 Hch Hfirst Hcl Hun Hsec Hdata Hroom|]; subst. cbn [app] in *.
  pose proof (sv_geo _ _ Hsv1) as Eg1. pose proof (sv_geo _ _ Hsv2) as Eg2. rewrite Eg1 in *.
  pose proof (sv_geo _ _ Hsv3) as Eg3. rewrite Eg2 in *.
  assert (vol_ok s4) as Hv4.
  { apply (quiet_vol_ok s3); [done|]. destruct Hv2. destruct Hsv3. split; [done|congruence..]. }
  assert (fat_cache s4 = fat_cache s2) as Ef4 by (rewrite (qu_fat _ _ Hq4); done).
  assert (∀ c, c ∈ cl → 2 ≤ c < clusters (geo s)) as Hclr by (intros c Hc; by apply Hcl).
  exists cl. split.
  - etrans; [exact Hsv1|]. etrans; [exact Hsv2|]. etrans; [exact Hsv3|apply Hq4].
  - done.
  - by rewrite Ef4.
  - done.
  - intros c Hc. destruct (Hcl c Hc) as [Hr Hz]. split; [done|]. rewrite Ef1 in Hz.
    destruct (decide (c ∈ ocl)); [by right|by left].
  - intros d Hd. by rewrite Ef4, Hun, Ef1.
  - intros l Hl Hlc. by rewrite (qu_sec _ _ Hq4), Es3, Hsec, Es1.
  - rewrite (chain_bytes_ext s2 s4); [done| |].
    + by rewrite (sv_geo _ _ (qu_vol _ _ Hq4)), Eg3.
    + rewrite Eg2. intros c l Hc Hl. rewrite (qu_sec _ _ Hq4). apply Es3.
      apply elem_cluster_sectors in Hl. pose proof (vo_geom _ Hv) as Hg.
      destruct (cluster_lba_val _ _ _ Hg (Hclr c Hc)). destruct Hg. lia.
  - unfold cluster_room in *. by rewrite Eg1 in Hroom.
Qed.

(** Why a file of [n] bytes may not be created: the name is a directory's; the free
    clusters do not hold it; or every slot of the directory is taken, and the directory
    is the root, which does not grow, or no cluster would be left for it to grow. *)
Definition refused (s : fs D) (name83 : list Z) (n : Z) : Prop :=
  is_Some (dirs s !! name83) ∨ scarce s n ∨
  Forall (λ x, ent_free x = false) (slots s (cwd_lbas s)) ∧ (cwd_cluster s = 0 ∨ scarce s (n + cluster_room s)).

Lemma scarce_same s1 s2 n :
  geo s2 = geo s1 → (∀ d, fat_get (fat_cache s2) d = 0 → fat_get (fat_cache s1) d = 0) → scarce s1 n → scarce s2 n.
Proof.
  intros Eg Hf (cl & Hcl & Hn). exists cl. unfold cluster_room in *. rewrite Eg. split; [|done].
  intros c Hc Hz. by apply Hcl, Hf.
Qed.

Lemma refused_quiet s s1 name83 n : fs_ok s → quiet s s1 → refused s1 name83 n → refused s name83 n.
Proof.
  intros Hok Hq. pose proof Hq as [[_ Hg _ Hc _] _ Hf Hs]. destruct (fs_ok_quiet _ _ Hq Hok) as (_ & _ & Ed).
  assert (∀ k, scarce s1 k → scarce s k) as Hsc by (intros k; apply scarce_same; [done|by rewrite Hf]).
  assert (slots s1 (cwd_lbas s1) = slots s (cwd_lbas s)) as Es.
  { unfold cwd_lbas, cwd_chain. rewrite Hg, Hc, Hf. by apply slots_ext. }
  unfold refused. rewrite Ed, Es, Hc. unfold cluster_room. rewrite Hg. intros [?|[?|[? [?|?]]]]; [by left|right; left; by apply Hsc|..];
    right; right; (split; [done|]); [by left|right; by apply Hsc].
Qed.

(** The outcome of [fs_create]: the file holds the data, or it was refused, and then,
    for a name that had no file, nothing has changed. *)
Definition created (s : fs D) (name83 data : list Z) (s' : fs D) (r : Z) : Prop :=
  (r = 0 ∧ fs_ok s' ∧ files s' = <[name83 := data]> (files s) ∧ dirs s' = dirs s) ∨
  (r = -1 ∧ (files s !! name83 = None → fs_ok s' ∧ files s' = files s ∧ dirs s' = dirs s) ∧ refused s name83 (zlen data)).

Lemma created_quiet s name83 data s1 s2 r :
  quiet s1 s2 → created s name83 data s1 r → created s name83 data s2 r.
Proof.
  intros Hq [(Hr & Hok & Hf & Hd)|(Hr & Hsame & Href)].
  - left. destruct (fs_ok_quiet _ _ Hq Hok) as (H1 & H2 & H3). split_and!; [done|done|congruence|congruence].
  - right. split; [done|]. split; [|done]. intros Hn. destruct (Hsame Hn) as (Hok & Hf & Hd).
    destruct (fs_ok_quiet _ _ Hq Hok) as (H1 & H2 & H3). split_and!; [done|congruence|congruence].
Qed.

Lemma file_attr_says name83 first (data : list Z) t :
  name83_ok name83 → 0 ≤ first < 4096 → zlen data < 2 ^ 32 →
  entry_says (entry_bytes name83 ATTR_FILE first (zlen data) t) name83 ATTR_FILE first (zlen data).
Proof.
  intros Hn Hf Hd. assert (0 ≤ zlen data) by (unfold zlen; lia).
  apply entry_bytes_says; [done|unfold ATTR_FILE; lia|lia|lia].
Qed.

(** The new file's entry goes into a directory that has none of that name. *)
Lemma wp_create_entry s s4 first cl data ent name83 :
  fs_ok s → name83_ok name83 → name83 ∉ names (entries s) →
  data_on_disk s s4 [] first cl data → entry_says ent name83 ATTR_FILE first (zlen data) →
  wp (bind get (λ s, bind (dir_add (cwd_cluster s) ent) (λ r,
        if negb (r =? 0) then
          bind (free_chain first) (λ _, bind fat_flush (λ _, bind floppy_motor_off (λ _,
            bind (say (str "create: directory full" ++ nl)) (λ _, ret (-1)))))
        else bind floppy_motor_off (λ _, ret 0))))
     (created s name83 data) s4.
Proof.
  intros Hok H83 Hni Hdd Hsays. pose proof Hdd as [Hsv Hv4 Hch _ Hfresh Hfat Hsec _ _].
  pose proof (sv_geo _ _ Hsv) as Eg. pose proof (fo_vol _ Hok) as Hv.
  assert (given_up s []) as Hgu by (intros c Hc; by apply elem_of_nil in Hc).
  destruct (data_dir _ _ _ _ _ _ Hok Hgu Hdd) as (Hdir & Hsec1 & Hclapart).
  apply wp_bind, wp_get, wp_bind. rewrite (sv_cwd _ _ Hsv).
  apply (wp_dir_add _ (cwd_chain s)); [done|by rewrite Eg|apply Hsays|apply Hsays|].
  intros s5 r Hadd. destruct Hadd as [l1 lba e old l2 Hpl Hl1 Hold Heff|nc x Hfull Hcwd Hnc Hncz Hlast Hsv5 Hv5 Ef5 Es5|Hfull Hq Hno];
    rewrite Eg in *; cbn [negb Z.eqb].
  - apply wp_bind, wp_motor_off; [apply Heff|]. intros s6 Hq6. apply wp_ret.
    apply (created_quiet _ _ _ s5); [done|]. left. split; [done|].
    by apply (file_new_slot s s4 s5 first cl data ent name83 l1 lba e old l2).
  - apply wp_bind, wp_motor_off; [apply Hv5|]. intros s6 Hq6. apply wp_ret.
    apply (created_quiet _ _ _ s5); [done|]. left. split; [done|].
    by apply (file_new_grown s s4 s5 first cl data ent name83 nc x).
  - pose proof (quiet_vol_ok _ _ Hq Hv4) as Hv5. pose proof (qu_vol _ _ Hq) as Hsv5.
    apply wp_bind, (wp_free_chain _ cl); [done|by rewrite (sv_geo _ _ Hsv5), (qu_fat _ _ Hq), Eg|].
    intros s6 f (Hsv6 & _ & Ef6 & Es6) Hv6 Hf6. apply wp_bind, wp_fat_flush; [done|]. intros s7 Hsv7 Hh7 Ef7 Es7.
    apply wp_bind, wp_motor_off; [done|]. intros s8 Hq8. apply wp_bind, wp_say. intros s9 Hq9. apply wp_ret.
    apply (created_quiet _ _ _ s7); [by etrans|]. right. split; [done|].
    assert (refused s name83 (zlen data)) as Href.
    { right. right. split; [by rewrite <- (slots_ext s s4 (cwd_lbas s) Hsec1)|]. destruct (decide (cwd_cluster s = 0)) as [?|Hne]; [by left|right].
      exists cl. split; [|rewrite Z.add_comm; pose proof (dd_room _ _ _ _ _ _ Hdd); lia].
      intros c Hc Hz. destruct (decide (c ∈ cl)) as [|Hcc]; [done|]. exfalso. apply (Hno Hne c Hc).
      rewrite Hfat by done. by destruct (decide (c ∈ [])). }
    split; [intros _|exact Href].
    assert (same_vol s s7) as Hsv07.
    { etrans; [exact Hsv|]. etrans; [exact Hsv5|]. etrans; [exact Hsv6|exact Hsv7]. }
    apply same_entries_done; [done| |done| |].
    + destruct Hv6. destruct Hsv7. split; [done|congruence..].
    + intros d. rewrite Ef7, Ef6, Hf6, (qu_fat _ _ Hq). destruct (decide (d ∈ cl)) as [Hd|Hd].
      * destruct (Hfresh d Hd) as [_ [E|Hno2]]; [done|by apply elem_of_nil in Hno2].
      * rewrite Hfat by done. rewrite decide_False; [done|]. by intros ?%elem_of_nil.
    + intros l Hl Hlc. rewrite Es7, Es6, (qu_sec _ _ Hq), Hsec; [done|done| |].
      * intros c Hc. destruct (Hfresh c Hc) as [Hr [E|Hno2]]; [by apply Hlc|by apply elem_of_nil in Hno2].
      * rewrite (sv_geo _ _ Hsv6), (sv_geo _ _ Hsv5), Eg. done.
Qed.

Lemma data_first s s' ocl first cl data :
  data_on_disk s s' ocl first cl data → vol_ok s → 0 ≤ first < 4096.
Proof.
  intros Hdd Hv. destruct cl as [|x cl].
  - rewrite (dd_first _ _ _ _ _ _ Hdd) by done. lia.
  - destruct (dd_chain _ _ _ _ _ _ Hdd) as (_ & Hr & _). pose proof (eoc_bound _ Hv). unfold EOC in *. lia.
Qed.

(** Storing the data, the table and the entry, once the old clusters are free. *)
Lemma wp_create_rest s s1 ocl name83 existing data :
  fs_ok s → name83_ok name83 → bytes_ok data → zlen data < 2 ^ 32 →
  existing = find_ent name83 (placed_slots s (cwd_lbas s)) →
  match existing with
  | Some (_, _, ent) => ent_is_dir ent = false ∧ chain (clusters (geo s)) (fat_cache s) (ent_cluster ent) ocl
  | None => ocl = []
  end → given_up s ocl → freed s s1 ocl →
  wp (bind (create_loop (length data) 0 0 data) (λ first,
      match first with
      | None => ret (-1)
      | Some first =>
          bind fat_flush (λ _, bind (make_entry name83 ATTR_FILE first (zlen data)) (λ entry,
          match existing with
          | Some (lba, off, _) =>
              bind (rewrite_sector junk lba (λ sec, splice sec off entry)) (λ _,
              bind floppy_motor_off (λ _, ret 0))
          | None =>
              bind get (λ s, bind (dir_add (cwd_cluster s) entry) (λ r,
              if negb (r =? 0) then
                bind (free_chain first) (λ _, bind fat_flush (λ _, bind floppy_motor_off (λ _,
                  bind (say (str "create: directory full" ++ nl)) (λ _, ret (-1)))))
              else bind floppy_motor_off (λ _, ret 0)))
          end))
      end)) (created s name83 data) s1.
Proof.
  intros Hok H83 Hb Hlen Hex Hocl Hgu Hfr. pose proof (fo_vol _ Hok) as Hv.
  pose proof Hfr as (Hsv1 & Hv1 & Es1 & Ef1). pose proof (files_find s name83 Hok) as Hfiles.
  apply wp_bind. eapply wp_mono; [apply (wp_create_loop _ _ _ []); [done|by left|done|lia]|].
  cbv beta. intros s2 r Hst. destruct r as [first|].
  2:{ apply wp_ret. right. split; [done|]. inversion Hst as [|Hsv2 Hv2 Hf2 Hs2 Hsc]. split.
      2: { right. left. revert Hsc. apply scarce_same; [by rewrite (sv_geo _ _ Hsv1)|]. intros d Hd. rewrite Ef1.
        by destruct (decide (d ∈ ocl)). }
      intros Hnone.
      assert (ocl = []) as ->.
      { subst existing. destruct (find_ent _ _) as [[[lba off] ent]|]; [|done].
        destruct Hocl as [Hd _]. destruct Hfiles as (E & _). rewrite Hnone in E. unfold file_of in E.
        by rewrite Hd in E. }
      assert (∀ d, fat_get (fat_cache s1) d = fat_get (fat_cache s) d) as Ef.
      { intros d. rewrite Ef1, decide_False; [done|]. by intros ?%elem_of_nil. }
      pose proof (sv_geo _ _ Hsv1) as Eg1. rewrite Eg1 in *.
      apply same_entries_done; [done|done|by etrans| |].
      - intros d. rewrite Hf2, decide_False; [apply Ef|]. by intros ?%elem_of_nil.
      - intros l Hl Hlc. rewrite Hs2, Es1; [done|done|]. intros c Hc Hz. apply Hlc; [done|]. by rewrite <- Ef. }
  assert (vol_ok s2 ∧ same_vol s1 s2) as [Hv2 Hsv2] by (by inversion Hst).
  apply wp_bind, wp_fat_flush; [done|]. intros s3 Hsv3 Hh3 Ef3 Es3.
  apply wp_bind, wp_make_entry. intros s4 t Hq4.
  destruct (stored_on_disk s s1 s2 s3 s4 ocl first data Hv Hfr Hgu Hst Hsv3 Hh3 Ef3 Es3 Hq4) as [cl Hdd].
  pose proof (data_first _ _ _ _ _ _ Hdd Hv) as Hfr4.
  pose proof (file_attr_says name83 first data t H83 Hfr4 Hlen) as Hsays.
  set (ent := entry_bytes name83 ATTR_FILE first (zlen data) t) in *. clearbody ent.
  destruct existing as [[[lba off] old]|]; symmetry in Hex; rewrite Hex in Hfiles.
  - destruct Hocl as [Hnd Hoch].
    destruct (found_split s name83 lba off old Hok Hex) as (l1 & e & l2 & _ & Eoff & He & _ & Hlba & _).
    destruct (data_dir _ _ _ _ _ _ Hok Hgu Hdd) as (_ & Hsec4 & _).
    pose proof (proj1 (Forall_forall _ _) (dir_lbas_ok s _ _ Hv (fo_dir _ Hok)) lba Hlba) as Hr. simpl in Hr.
    pose proof (sv_size _ _ (dd_same _ _ _ _ _ _ Hdd)) as Ez. pose proof (vo_healthy _ (dd_vol _ _ _ _ _ _ Hdd)) as Hh4.
    apply wp_bind, wp_rewrite_sector; [done|lia| |].
    { apply splice_sector; [apply sec_ok; [done|lia]|lia|rewrite (es_length _ _ _ _ _ Hsays); lia|apply Hsays]. }
    intros s5 Heff. apply wp_bind, wp_motor_off; [apply Heff|]. intros s6 Hq6. apply wp_ret.
    apply (created_quiet _ _ _ s5); [done|]. left. split; [done|].
    by apply (file_replaced s s4 s5 first cl ocl data ent old name83 lba off).
  - subst ocl. destruct Hfiles as [_ Hni]. by apply (wp_create_entry s s4 first cl data ent name83).
Qed.

Lemma wp_create_file s name83 existing data :
  fs_ok s → name83_ok name83 → bytes_ok data → zlen data < 2 ^ 32 →
  existing = find_ent name83 (placed_slots s (cwd_lbas s)) →
  match existing with Some (_, _, ent) => ent_is_dir ent = false | None => True end →
  wp (create_file junk name83 existing data) (created s name83 data) s.
Proof.
  intros Hok H83 Hb Hlen Hex Hnd. pose proof (fo_vol _ Hok) as Hv. unfold create_file. apply wp_bind.
  destruct existing as [[[lba off] ent]|].
  - destruct (found_split s name83 lba off ent Hok (eq_sym Hex)) as (l1 & e & l2 & _ & _ & _ & _ & _ & _ & _ & _ & _ & _ & HL).
    assert (ent ∈ entries s) as Hin by (rewrite HL; left).
    pose proof (nondir_nondot s ent Hok Hin Hnd) as Hdot.
    destruct (ow_chain _ _ _ _ _ (fo_owned _ Hok) ent Hin Hdot) as (ocl & Hoch & _).
    apply (wp_free_chain _ ocl); [done|done|]. intros s1 f (Hsv1 & _ & Ef1 & Es1) Hv1 Hf1.
    apply (wp_create_rest s s1 ocl name83 (Some (lba, off, ent)) data); try assumption.
    + done.
    + by eapply given_up_chain.
    + split_and!; [done|done|done|]. intros d. by rewrite Ef1, Hf1.
  - apply wp_ret. apply (wp_create_rest s s [] name83 None data); try assumption.
    + done.
    + intros c Hc. by apply elem_of_nil in Hc.
    + by apply freed_nothing.
Qed.

Lemma wp_fs_create name data s :
  fs_ok s → plain name → bytes_ok data → zlen data < 2 ^ 32 →
  wp (fs_create junk name data) (created s (to_83 name) data) s.
Proof.
  intros Hok Hn Hb Hlen. pose proof (fo_vol _ Hok) as Hv. pose proof (to_83_ok name Hn) as H83.
  apply wp_bind, wp_get. rewrite (fo_mounted _ Hok). cbn [negb].
  apply wp_bind. apply (wp_dir_find _ (cwd_chain s)); [done|apply Hok|]. intros s1 Hq1. fold (cwd_lbas s).
  destruct (fs_ok_quiet _ _ Hq1 Hok) as (Hok1 & Ef1 & Ed1).
  assert (cwd_lbas s1 = cwd_lbas s) as El.
  { destruct Hq1 as [[_ Hg _ Hc _] _ Hf _]. unfold cwd_lbas, cwd_chain. by rewrite Hg, Hc, Hf. }
  assert (∀ r s', created s1 (to_83 name) data s' r → created s (to_83 name) data s' r) as Hback.
  { intros r s' [?|(? & ? & Href)]; [left|right; split_and!; [done| |by eapply refused_quiet]]; by rewrite <- Ef1, <- Ed1. }
  assert (find_ent (to_83 name) (placed_slots s (cwd_lbas s)) = find_ent (to_83 name) (placed_slots s1 (cwd_lbas s1))) as ->.
  { by rewrite El, (placed_quiet s s1). }
  pose proof (files_find s1 (to_83 name) Hok1) as Hfiles.
  destruct (find_ent (to_83 name) (placed_slots s1 (cwd_lbas s1))) as [[[lba off] ent]|] eqn:E.
  - destruct (ent_is_dir ent) eqn:Ed.
    + apply wp_bind, wp_say. intros s2 Hq2. apply wp_bind, wp_motor_off; [by apply Hq2, Hok1|].
      intros s3 Hq3. apply wp_ret, Hback, (created_quiet _ _ _ s1); [by etrans|]. right. split; [done|]. split; [done|].
      left. destruct Hfiles as (_ & Hin & Hname). unfold dirs. rewrite lookup_omap.
      rewrite (proj2 (dir_map_lookup _ _ ent (fo_names _ Hok1)) (conj Hin Hname)). cbn. rewrite Ed. by eexists.
    + eapply wp_mono; [apply wp_create_file; done|]. intros s' r. apply Hback.
  - eapply wp_mono; [apply wp_create_file; done|]. intros s' r. apply Hback.
Qed.

(** The outcome of [fs_remove]: the file is gone, or there was none. *)
Definition removed (s : fs D) (name83 : list Z) (s' : fs D) (r : Z) : Prop :=
  fs_ok s' ∧ files s' = delete name83 (files s) ∧ dirs s' = dirs s ∧
  (r = if decide (name83 ∈ names (entries s)) then 0 else -1).

Lemma removed_quiet s name83 s1 s2 r : quiet s1 s2 → removed s name83 s1 r → removed s name83 s2 r.
Proof.
  intros Hq (Hok & Hf & Hd & Hr). destruct (fs_ok_quiet _ _ Hq Hok) as (H1 & H2 & H3).
  split_and!; [done|congruence|congruence|done].
Qed.

Lemma wp_fs_remove name s :
  fs_ok s → wp (fs_remove junk name) (removed s (to_83 name)) s.
Proof.
  intros Hok. pose proof (fo_vol _ Hok) as Hv.
  apply wp_bind, wp_get. rewrite (fo_mounted _ Hok). cbn [negb].
  apply wp_bind. apply (wp_dir_find _ (cwd_chain s)); [done|apply Hok|]. intros s1 Hq1. fold (cwd_lbas s).
  pose proof (files_find s (to_83 name) Hok) as Hfiles.
  destruct (find_ent (to_83 name) (placed_slots s (cwd_lbas s))) as [[[lba off] ent]|] eqn:E.
  2:{ destruct Hfiles as [Hno Hni]. apply wp_bind, wp_motor_off; [by apply Hq1, Hv|]. intros s2 Hq2. apply wp_ret.
      apply (removed_quiet _ _ s); [by etrans|]. split_and!; [done| |done|by rewrite decide_False].
      by rewrite delete_id. }
  destruct Hfiles as (Efile & Hin & Hname).
  assert (to_83 name ∈ names (entries s)) as Hinn by (rewrite <- Hname; by apply list_elem_of_fmap_2).
  destruct (ent_is_dir ent) eqn:Ed.
  { apply wp_bind, wp_say. intros s2 Hq2. assert (quiet s s2) as Hq12 by (by etrans).
    apply wp_bind, wp_motor_off; [by apply Hq12, Hv|]. intros s3 Hq3. apply wp_ret.
    apply (removed_quiet _ _ s); [by etrans|]. split_and!; [done| |done|by rewrite decide_True].
    rewrite delete_id; [done|]. rewrite Efile. unfold file_of. by rewrite Ed. }
  pose proof (nondir_nondot s ent Hok Hin Ed) as Hdot.
  destruct (ow_chain _ _ _ _ _ (fo_owned _ Hok) ent Hin Hdot) as (ocl & Hoch & _).
  pose proof (quiet_vol_ok _ _ Hq1 Hv) as Hv1. pose proof Hq1 as [Hsv1 _ Ef1 Es1].
  pose proof (sv_geo _ _ Hsv1) as Eg1.
  apply wp_bind, (wp_free_chain _ ocl); [done|by rewrite Eg1, Ef1|].
  intros s2 f (Hsv2 & _ & Ef2 & Es2) Hv2 Hf2. apply wp_bind, wp_fat_flush; [done|]. intros s3 Hsv3 Hh3 Ef3 Es3.
  assert (same_vol s s3) as Hsv03 by (etrans; [exact Hsv1|]; etrans; [exact Hsv2|exact Hsv3]).
  assert (vol_ok s3) as Hv3 by (destruct Hv2, Hsv3; split; [done|congruence..]).
  destruct (found_split s (to_83 name) lba off ent Hok E) as (l1 & e & l2 & _ & Eoff & He & _ & Hlba & _).
  pose proof (proj1 (Forall_forall _ _) (dir_lbas_ok s _ _ Hv (fo_dir _ Hok)) lba Hlba) as Hr. simpl in Hr.
  apply wp_bind, wp_rewrite_sector; [done|rewrite (sv_size _ _ Hsv03); lia| |].
  { destruct (sec_ok s3 lba Hh3) as [Hl3 Hb3]; [rewrite (sv_size _ _ Hsv03); lia|].
    split; [by rewrite length_arr_set|]. apply bytes_ok_set; [done|lia]. }
  intros s4 Heff. apply wp_bind, wp_motor_off; [apply Heff|]. intros s5 Hq5. apply wp_ret.
  apply (removed_quiet _ _ s4); [done|].
  destruct (file_gone s s3 s4 ocl ent (to_83 name) lba off) as (R1 & R2 & R3); try assumption.
  - intros d. by rewrite Ef3, Ef2, Hf2, Ef1.
  - intros l Hl. rewrite Es3, Es2, Es1; [done|]. rewrite (sv_geo _ _ Hsv2), Eg1. done.
  - split_and!; [done|done|done|by rewrite decide_True].
Qed.

(** ** Listing *)

(** The entries a listing shows. *)
Definition shown (ent : list Z) : bool := negb (ent_hidden ent) && negb (ent_dot ent).

Definition listing (L : list (list Z)) : list fs_dirent :=
  map to_dirent (List.filter shown L).

Lemma take_listing_nil k : take k (listing []) = [].
Proof. apply take_nil. Qed.

Lemma scan_readdir max l out :
  zlen out ≤ max → 
  value (scan (readdir_body max) l out) =
  out ++ take (Z.to_nat (max - zlen out)) (listing (live (ents l))).
Proof.
  revert out. induction l as [|[[lba e] ent] l IH]; intros out Hle.
  { simpl. by rewrite take_listing_nil, app_nil_r. }
  cbn [scan]. unfold readdir_body at 1. destruct (Z.leb_spec max (zlen out)).
  { replace (Z.to_nat (max - zlen out)) with 0%nat by lia. simpl. by rewrite app_nil_r. }
  unfold ents. rewrite fmap_cons. cbn [snd]. fold (ents l). cbn [live]. unfold ent_end.
  destruct (arr_get ent 0 =? 0); [simpl; by rewrite take_listing_nil, app_nil_r|].
  destruct (ent_skip ent) eqn:Es.
  { unfold ent_hidden. rewrite Es. cbn [orb]. by apply IH. }
  unfold listing. cbn [List.filter]. unfold shown at 1. destruct (ent_hidden ent) eqn:Eh; cbn [negb andb].
  { by apply IH. }
  destruct (ent_dot ent) eqn:Ed; cbn [negb map].
  { by apply IH. }
  rewrite IH by (unfold zlen in *; rewrite length_app; simpl; lia).
  replace (Z.to_nat (max - zlen out)) with (S (Z.to_nat (max - zlen (out ++ [to_dirent ent]))))
    by (unfold zlen in *; rewrite length_app; simpl; lia).
  cbn [take]. rewrite <- app_assoc. reflexivity.
Qed.

Lemma wp_fs_readdir c dcl max s :
  vol_ok s → mounted s = true → dir_at (geo s) (fat_cache s) c dcl → 0 < max →
  wp (fs_readdir c max) (λ s' r, quiet s s' ∧
    r = take (Z.to_nat max) (listing (live (slots s (dir_lbas (geo s) c dcl))))) s.
Proof.
  intros Hv Hm Hd Hmax. apply wp_bind, wp_get. rewrite Hm, (proj2 (Z.leb_gt max 0)) by done. cbn [negb orb].
  apply wp_bind. apply (wp_walk _ dcl); [done|done| |].
  { intros a lba e ent Ha. unfold readdir_body. by rewrite (proj2 (Z.leb_le _ _)) by (apply Z.ltb_ge in Ha; lia). }
  intros s1 e Hq1 _. apply wp_bind, wp_motor_off; [by apply Hq1, Hv|]. intros s2 Hq2. apply wp_ret.
  split; [by etrans|]. cbn [snd]. rewrite scan_readdir by (unfold zlen; simpl; lia).
  rewrite ents_placed. cbn [app]. f_equal. unfold zlen. simpl. lia.
Qed.

(** ** Mounting *)

Definition count_shown (L : list (list Z)) : Z := zlen (List.filter (λ e, negb (ent_hidden e)) L).

Lemma scan_count l n :
  value (scan count_body l n) = n + count_shown (live (ents l)).
Proof.
  revert n. induction l as [|[[lba e] ent] l IH]; intros n; [unfold count_shown, zlen; simpl; lia|].
  cbn [scan]. unfold count_body at 1. unfold ents. rewrite fmap_cons. cbn [snd]. fold (ents l). cbn [live].
  unfold ent_end. destruct (arr_get ent 0 =? 0); [unfold count_shown, zlen; simpl; lia|].
  destruct (ent_skip ent) eqn:Es.
  { unfold ent_hidden. rewrite Es. cbn [orb]. by apply IH. }
  unfold count_shown. cbn [List.filter]. destruct (ent_hidden ent) eqn:Eh; cbn [negb].
  - apply IH.
  - rewrite IH. unfold count_shown, zlen. cbn [length]. lia.
Qed.

(** The table as the disk holds it. *)
Definition disk_fat (s : fs D) (g : geom) : list Z :=
  concat (map (sec s) (seqZ (fat_start g) (sectors_per_fat g))).

(** What [fs_init] makes of the state [s]. *)
Definition mounted_fs (s : fs D) : fs D :=
  let g := parse_bpb (sec s 0) (geo s) in
  MkFs (dev s) g (disk_fat s g) true 0 (set_root_path (cwd_path s)) (clock s) (printed s).

Lemma wp_read_fs n lba (Q : fs D → option (list Z) → Prop) s :
  bd_healthy (dev s) → 0 ≤ lba → lba + Z.of_nat n ≤ bd_size (dev s) →
  (∀ s', quiet s s' → Q s' (Some (concat (map (sec s) (seqZ lba (Z.of_nat n)))))) →
  wp (read_fs lba n) Q s.
Proof.
  intros Hh. assert (∀ n lba s1, quiet s s1 → 0 ≤ lba → lba + Z.of_nat n ≤ bd_size (dev s) →
    wp (read_fs lba n) (λ s' r, quiet s s' ∧ r = Some (concat (map (sec s) (seqZ lba (Z.of_nat n))))) s1) as Hgen.
  2:{ intros H0 Hn HQ. eapply wp_mono; [apply Hgen; [reflexivity|done|done]|]. cbv beta. by intros s' r [Hq ->]; apply HQ. }
  clear n lba Q. induction n as [|n IH]; intros lba s1 Hq H0 Hn; [by apply wp_ret|].
  apply wp_bind, wp_read_sector; [by apply Hq|rewrite (sv_size _ _ (qu_vol _ _ Hq)); lia|].
  intros s2 Hq2. apply wp_bind. eapply wp_mono; [apply IH; [by etrans|lia|lia]|].
  cbv beta. intros s3 r [Hq3 ->]. apply wp_ret. split; [done|].
  rewrite (seqZ_cons lba) by lia. cbn [map concat]. rewrite (qu_sec _ _ Hq).
  replace (Z.pred (Z.of_nat (S n))) with (Z.of_nat n) by lia. by replace (Z.succ lba) with (lba + 1) by lia.
Qed.

Lemma wp_fs_init_fails (Q : fs D → Z → Prop) s :
  bd_healthy (dev s) → mounted s = false →
  (∀ s', mounted s' = false → Q s' (-1)) → wp (bind floppy_motor_off (λ _, ret (-1))) Q s.
Proof.
  intros Hh Hm HQ. apply wp_bind, wp_motor_off; [done|]. intros s' Hq. apply wp_ret, HQ.
  by rewrite (sv_mounted _ _ (qu_vol _ _ Hq)).
Qed.

Lemma wp_fs_init ok s :
  bd_healthy (dev s) → 0 < bd_size (dev s) →
  (bpb_ok (parse_bpb (sec s 0) (geo s)) && ok = true → fs_ok (mounted_fs s)) →
  wp (fs_init ok) (λ s' r,
    if bpb_ok (parse_bpb (sec s 0) (geo s)) && ok
    then quiet (mounted_fs s) s' ∧ r = count_shown (entries (mounted_fs s))
    else r = -1 ∧ mounted s' = false) s.
Proof.
  intros Hh H0 Hsound. apply wp_bind, wp_upd. set (s0 := with_mounted false s).
  apply wp_bind, wp_read_sector; [done|done|]. intros s1 Hq1.
  apply wp_bind, wp_upd. change (sec s0 0) with (sec s 0).
  assert (geo s1 = geo s) as Eg1 by apply Hq1. rewrite Eg1.
  set (g := parse_bpb (sec s 0) (geo s)). apply wp_bind, wp_get.
  change (geo (with_geo g s1)) with g.
  assert (bd_healthy (dev s1)) as Hh1 by (by apply Hq1).
  assert (mounted s1 = false) as Hm1 by apply Hq1.
  destruct (bpb_ok g) eqn:Eb; cbn [negb andb].
  2:{ apply wp_fs_init_fails; [done|done|]. done. }
  destruct ok; cbn [negb].
  2:{ apply wp_fs_init_fails; [done|done|]. done. }
  assert (∀ l, sec s1 l = sec s l) as Es1 by (intros l; by rewrite (qu_sec _ _ Hq1)).
  assert (bd_size (dev s1) = bd_size (dev s)) as Ez1 by apply Hq1.
  fold g in Hsound. rewrite Eb in Hsound. specialize (Hsound eq_refl). rename Hsound into Hok.
  assert (0 ≤ fat_start g ∧ 0 ≤ sectors_per_fat g ∧ fat_start g + sectors_per_fat g ≤ bd_size (dev s)) as (Hf0 & Hf1 & Hf2).
  { pose proof (vo_geom _ (fo_vol _ Hok)) as Hg. change (geom_ok g (bd_size (dev s))) in Hg. destruct Hg.
    assert (sectors_per_fat g ≤ num_fats g * sectors_per_fat g) by nia.
    assert (0 ≤ cluster_count g * sectors_per_cluster g) by nia. lia. }
  apply wp_bind, wp_read_fs; [done|done|cbn; lia|]. intros s3 Hq3.
  rewrite Z2Nat.id by done.
  assert (concat (map (sec (with_geo g s1)) (seqZ (fat_start g) (sectors_per_fat g))) = disk_fat s g) as ->.
  { unfold disk_fat. f_equal. apply map_ext. intros l. apply Es1. }
  apply wp_bind, wp_upd. apply wp_bind, wp_motor_off; [by apply Hq3|]. intros s4 Hq4.
  apply wp_bind, wp_upd. apply wp_bind, wp_upd.
  set (s5 := with_cwd 0 _ _).
  assert (quiet (mounted_fs s) s5) as Hq5.
  { destruct Hq1 as [[Z1 G1 M1 C1 P1] B1 F1 S1], Hq3 as [[Z3 G3 M3 C3 P3] B3 F3 S3], Hq4 as [[Z4 G4 M4 C4 P4] B4 F4 S4].
    unfold s5, s0 in *. split.
    - split; [exact (eq_trans Z4 (eq_trans Z3 Z1))|exact (eq_trans G4 G3)|reflexivity|reflexivity|].
      exact (f_equal set_root_path (eq_trans P4 (eq_trans P3 P1))).
    - exact (λ h, B4 (B3 (B1 h))).
    - exact F4.
    - intros l. change (sec s4 l = sec s l). rewrite S4. change (sec s3 l = sec s l). rewrite S3. apply Es1. }
  clearbody s5. destruct (fs_ok_quiet _ _ Hq5 Hok) as (Hok5 & _ & _). apply wp_bind.
  assert (cwd_cluster s5 = 0) as Ec5 by apply Hq5.
  apply (wp_walk 0 []); [apply Hok5|by left|done|]. intros s6 e Hq6 _.
  apply wp_bind, wp_motor_off; [by apply Hq6, Hok5|]. intros s7 Hq7. apply wp_ret.
  assert (quiet (mounted_fs s) s7) as Hq by (etrans; [exact Hq5|]; by etrans). split; [exact Hq|]. cbn [snd].
  rewrite scan_count, ents_placed. rewrite (sv_geo _ _ (qu_vol _ _ Hq5)).
  rewrite (slots_ext (mounted_fs s) s5); [reflexivity|]. intros l _. apply Hq5.
Qed.

End Files.
