(* ===== verification/Fat12Volume.v ===== *)
(** The properties of the file system of [Fat12.v], with a small formatted RAM
    disk on which they are tried. *)
From Stdlib Require Import ZArith Lia Bool Ascii String.
From stdpp Require Import base numbers gmap option list.
From S2P Require Import Prelude Console Rtc Block Fat12 Fat12Table Fat12Logic Fat12Dir Fat12Names Fat12Store Fat12Files.

#[local] Open Scope Z_scope.

(** ** A volume of eight one-sector clusters, empty *)

Definition demo_geom : geom := Geom 512 1 1 1 16 1 11 1 2 1 3 8.
Definition demo_disk : ramdisk := RamDisk 11 (<[1 := demo_fat]> ∅) false.
Definition demo_fs : fs ramdisk := MkFs demo_disk demo_geom demo_fat true 0 root_path [] [].

(** A disk of eleven sectors whose root directory is blank. *)
Lemma blank_fs_ok (d : ramdisk) p k :
  rd_size d = 11 → rd_healthy d → rd_get d 2 = replicate 512 0 →
  fs_ok (MkFs d demo_geom demo_fat true 0 p k []).
Proof.
  intros Hsz Hh H2. set (s := MkFs _ _ _ _ _ _ _ _).
  assert (vol_ok s) as Hv.
  { split.
    - exact Hh.
    - change (bd_size (dev s)) with (rd_size d). rewrite Hsz. split; cbn; lia.
    - destruct demo_fat_ok as (Hb & _ & Hz). split; [exact Hb|]. change (clusters (geo s)) with 10.
      change (fat_cache s) with demo_fat. unfold EOC. lia.
    - reflexivity. }
  assert (slots s (cwd_lbas s) = replicate 16 (replicate 32 0)) as Es.
  { change (cwd_lbas s) with [2]. unfold slots. cbn [map concat]. change (sec s 2) with (rd_get d 2). by rewrite H2. }
  assert (entries s = []) as E by (unfold entries; rewrite Es; apply live_zeros).
  split.
  - exact Hv.
  - done.
  - by left.
  - rewrite Es. apply (tail_ok_zeros [] 16). constructor.
  - rewrite E. constructor.
  - rewrite E. split; [intros e He|intros e1 e2 ? ? ? He|intros e He]; by apply elem_of_nil in He.
Qed.

Lemma demo_fs_ok : fs_ok demo_fs.
Proof.
  apply blank_fs_ok; [done| |done].
  apply map_Forall_insert_2; [|apply map_Forall_empty]. split; [done|]. apply demo_fat_ok.
Qed.

Definition hello : list Z := str "HELLO.TXT".
Definition hello_data : list Z := str "hello, world" ++ replicate 600 33.

Lemma hello_plain : plain hello.
Proof. apply (bool_decide_unpack _). vm_compute. exact I. Qed.
Lemma hello_bytes : bytes_ok hello_data.
Proof. apply (bool_decide_unpack _). vm_compute. exact I. Qed.

Definition demo_created : fs ramdisk := (fs_create [] hello hello_data demo_fs).1.

Section Properties.
Context {D : Type} `{BlockDevice D}.
Implicit Types s : fs D.

(** C1: [fs_create] stores a file: when it returns 0 the name holds exactly the
    data, every other file and subdirectory of the directory is as before and the
    volume is still sound; the only other answer is -1, which it gives only when the
    name is a directory's, when the free clusters do not hold the data, or when the
    directory is full and cannot grow; and then, unless the name had a file already,
    nothing has changed. *)
Theorem fs_create_correct junk name data s s' r :
  fs_ok s → plain name → bytes_ok data → zlen data < 2 ^ 32 →
  fs_create junk name data s = (s', r) →
  (r = 0 ∧ fs_ok s' ∧ files s' = <[to_83 name := data]> (files s) ∧ dirs s' = dirs s) ∨
  (r = -1 ∧ (files s !! to_83 name = None → fs_ok s' ∧ files s' = files s ∧ dirs s' = dirs s) ∧
     refused s (to_83 name) (zlen data)).
Proof.
  intros Hok Hn Hb Hl Hr. exact (wp_elim _ _ _ _ _ (wp_fs_create junk name data s Hok Hn Hb Hl) Hr).
Qed.

(** [fs_read] returns the size and the bytes of the file of that name, -1
    when there is none or it does not fit the buffer, and changes nothing. *)
Theorem fs_read_correct name maxlen s s' r :
  fs_ok s → fs_read name maxlen s = (s', r) →
  fs_ok s' ∧ files s' = files s ∧
  r = match files s !! to_83 name with
      | Some d => if maxlen <? zlen d then (-1, []) else (zlen d, d)
      | None => (-1, [])
      end.
Proof.
  intros Hok Hr. destruct (wp_elim _ _ _ _ _ (wp_fs_read name maxlen s Hok) Hr) as [Hq E].
  destruct (fs_ok_quiet _ _ Hq Hok) as (H1 & H2 & _). by split_and!.
Qed.

(** C10: a file just created reads back: the round trip through directory entry,
    cluster chain and sectors, for data of any length that the disk takes. *)
Theorem create_read_roundtrip junk name data maxlen s s1 s2 r :
  fs_ok s → plain name → bytes_ok data → zlen data < 2 ^ 32 → zlen data ≤ maxlen →
  fs_create junk name data s = (s1, 0) → fs_read name maxlen s1 = (s2, r) → r = (zlen data, data).
Proof.
  intros Hok Hn Hb Hl Hm Hc Hr.
  destruct (wp_elim _ _ _ _ _ (wp_fs_create junk name data s Hok Hn Hb Hl) Hc) as [(_ & Hok1 & Hf & _)|(Hr1 & _)]; [|done].
  destruct (wp_elim _ _ _ _ _ (wp_fs_read name maxlen s1 Hok1) Hr) as [_ ->].
  rewrite Hf, lookup_insert_eq. by rewrite (proj2 (Z.ltb_ge _ _)).
Qed.

(** C15: [fs_remove] removes the file of that name and no other, and keeps the volume
    sound; it returns -1 exactly when the
    directory has no entry of the name, and leaves a subdirectory alone. *)
Theorem fs_remove_correct junk name s s' r :
  fs_ok s → fs_remove junk name s = (s', r) →
  fs_ok s' ∧ files s' = delete (to_83 name) (files s) ∧ dirs s' = dirs s ∧
  r = (if decide (to_83 name ∈ names (entries s)) then 0 else -1).
Proof. intros Hok Hr. exact (wp_elim _ _ _ _ _ (wp_fs_remove junk name s Hok) Hr). Qed.

(** [fs_readdir] comes to its end on any directory of a sound volume and
    lists the live entries in order, without the volume label and the dot
    entries, at most [max] of them. *)
Theorem fs_readdir_lists c dcl max s s' r :
  vol_ok s → mounted s = true → dir_at (geo s) (fat_cache s) c dcl → 0 < max →
  fs_readdir c max s = (s', r) →
  quiet s s' ∧ r = take (Z.to_nat max) (listing (live (slots s (dir_lbas (geo s) c dcl)))).
Proof.
  intros Hv Hm Hd Hmax Hr. exact (wp_elim _ _ _ _ _ (wp_fs_readdir c dcl max s Hv Hm Hd Hmax) Hr).
Qed.

(** The parameter block in the first sector, as FAT lays it out, and what makes it that
    of a floppy: sectors of 512 bytes (at 11), clusters of at least one sector (at 13),
    one or two tables (at 16). *)
Definition field16 (b : list Z) (i : Z) : Z := arr_get b i + 256 * arr_get b (i + 1).
Definition fat_floppy (b : list Z) : Prop := field16 b 11 = 512 ∧ arr_get b 13 ≠ 0 ∧ 1 ≤ arr_get b 16 ≤ 2.

(** Where it says that things are: the reserved sectors (at 14), the tables, the root
    with its entries of 32 bytes (their number at 17), then the clusters. *)
Definition layout (b : list Z) : geom :=
  let root := field16 b 14 + arr_get b 16 * field16 b 22 in
  let root_size := (field16 b 17 * 32 + 511) / 512 in
  let data := root + root_size in
  Geom 512 (arr_get b 13) (field16 b 14) (arr_get b 16) (field16 b 17) (field16 b 22) (field16 b 19)
    (field16 b 14) root root_size data ((field16 b 19 - data) / arr_get b 13).

(** The volume on the disk, with its root as the current directory. *)
Definition volume (s : fs D) : fs D :=
  let g := layout (sec s 0) in
  MkFs (dev s) g (concat (map (sec s) (seqZ (fat_start g) (sectors_per_fat g)))) true 0 (set_root_path (cwd_path s)) (clock s) (printed s).

Lemma word_field b i : Forall (λ x, 0 ≤ x < 256) b → word_at b i = field16 b i ∧ 0 ≤ field16 b i < 65536.
Proof.
  intros Hb. assert (∀ j, 0 ≤ arr_get b j < 256) as Hj by (intros j; apply (arr_get_Forall (λ x, 0 ≤ x < 256)); [lia|done]).
  pose proof (Hj i). pose proof (Hj (i + 1)). unfold word_at, field16. rewrite lor_bytes by done. rewrite u16_small by (zpow; lia). lia.
Qed.

Lemma floppy_bpb_ok b old : Forall (λ x, 0 ≤ x < 256) b → bpb_ok (parse_bpb b old) = true ↔ fat_floppy b.
Proof.
  intros Hb. unfold fat_floppy. rewrite <- (proj1 (word_field b 11 Hb)).
  assert (0 ≤ arr_get b 16) by (apply (arr_get_Forall (λ x, 0 ≤ x)); [lia|eapply Forall_impl; [exact Hb|]; cbn; lia]).
  assert (bpb_ok (parse_bpb b old) =
    negb (negb (word_at b 11 =? 512) || (arr_get b 13 =? 0) || (arr_get b 16 =? 0) || (2 <? arr_get b 16))) as ->.
  { assert (bytes_per_sector (parse_bpb b old) = word_at b 11 ∧ sectors_per_cluster (parse_bpb b old) = arr_get b 13 ∧
      num_fats (parse_bpb b old) = arr_get b 16) as (E1 & E2 & E3) by (unfold parse_bpb; cbv zeta; by destruct (_ || _ || _ || _)).
    unfold bpb_ok. by rewrite E1, E2, E3. }
  rewrite !negb_orb, negb_involutive, !andb_true_iff, !negb_true_iff, Z.eqb_eq, !Z.eqb_neq, Z.ltb_ge. lia.
Qed.

Lemma parse_bpb_layout b old :
  Forall (λ x, 0 ≤ x < 256) b → fat_floppy b → data_start (layout b) ≤ total_secs (layout b) → parse_bpb b old = layout b.
Proof.
  intros Hb Hf. pose proof Hf as (E11 & E13 & E16). unfold layout. cbn [data_start total_secs]. intros Hd. unfold parse_bpb.
  destruct (word_field b 11 Hb) as [-> _], (word_field b 14 Hb) as [-> R14], (word_field b 17 Hb) as [-> R17],
    (word_field b 19 Hb) as [-> R19], (word_field b 22 Hb) as [-> R22].
  rewrite E11, (proj2 (Z.eqb_neq (arr_get b 13) 0)), (proj2 (Z.eqb_neq (arr_get b 16) 0)), (proj2 (Z.ltb_ge 2 _)) by lia.
  cbn [negb orb Z.eqb Pos.eqb].
  assert (0 ≤ arr_get b 16 * field16 b 22 ≤ 2 * 65536) by nia.
  rewrite (u32_small (field16 b 14 + _)), (u32_small (field16 b 17 * 32 + 511)) by (zpow; lia).
  assert (0 ≤ (field16 b 17 * 32 + 511) / 512 < 65536) by (clear -R17; zlia).
  rewrite (u32_small (_ + (field16 b 17 * 32 + 511) / 512)), u32_small by (zpow; lia). done.
Qed.

(** C24: [fs_init] on a disk whose first sector is the parameter block of a floppy
    (judged by its bytes), and which holds a sound volume with the layout that the
    block describes, mounts it: the file system is sound, has the disk's files, and the
    result counts the root's entries.  On a disk with any other first sector, or
    without memory for the table, it returns -1 and stays unmounted. *)
Theorem fs_init_mounts ok s s' r :
  bd_healthy (dev s) → 0 < bd_size (dev s) →
  (fat_floppy (sec s 0) → ok = true → data_start (layout (sec s 0)) ≤ total_secs (layout (sec s 0)) ∧ fs_ok (volume s)) →
  fs_init ok s = (s', r) →
  (fat_floppy (sec s 0) → ok = true → fs_ok s' ∧ files s' = files (volume s) ∧ r = count_shown (entries (volume s))) ∧
  (¬ fat_floppy (sec s 0) ∨ ok = false → r = -1 ∧ mounted s' = false).
Proof.
  intros Hh H0 Hs Hr. assert (Forall (λ x, 0 ≤ x < 256) (sec s 0)) as Hb by (by apply bd_sector_ok).
  pose proof (floppy_bpb_ok (sec s 0) (geo s) Hb) as Hok.
  assert (fat_floppy (sec s 0) → ok = true → mounted_fs s = volume s) as Ev.
  { intros Hf Ho. unfold mounted_fs, volume. destruct (Hs Hf Ho) as [Hd _]. by rewrite parse_bpb_layout. }
  assert (bpb_ok (parse_bpb (sec s 0) (geo s)) && ok = true → fs_ok (mounted_fs s)) as Hsound.
  { intros [H1%Hok H2]%andb_true_iff. rewrite Ev by done. by apply Hs. }
  pose proof (wp_elim _ _ _ _ _ (wp_fs_init ok s Hh H0 Hsound) Hr) as Hp. split.
  - intros Hf Ho. rewrite (proj2 Hok Hf), Ho in Hp. destruct Hp as [Hq ->]. rewrite Ev in * by done.
    destruct (Hs Hf Ho) as [_ Hvol]. destruct (fs_ok_quiet _ _ Hq Hvol) as (H1 & H2 & _). split_and!; [exact H1|exact H2|reflexivity].
  - intros Hn. assert (bpb_ok (parse_bpb (sec s 0) (geo s)) && ok = false) as E; [|by rewrite E in Hp].
    destruct Hn as [Hn| ->]; [|apply andb_false_r]. apply andb_false_iff. left. apply not_true_is_false. by intros ?%Hok.
Qed.

End Properties.

(** ** The properties on the demonstration volume *)

Lemma demo_create_runs : (fs_create [] hello hello_data demo_fs).2 = 0.
Proof. vm_compute. reflexivity. Qed.

Lemma demo_create_pair : fs_create [] hello hello_data demo_fs = (demo_created, 0).
Proof. unfold demo_created. rewrite <- demo_create_runs. apply surjective_pairing. Qed.

Lemma hello_short : zlen hello_data < 2 ^ 32.
Proof. vm_compute. reflexivity. Qed.

Lemma demo_created_ok :
  fs_ok demo_created ∧ files demo_created = <[to_83 hello := hello_data]> (files demo_fs).
Proof.
  destruct (wp_elim _ _ _ _ _ (wp_fs_create [] hello hello_data demo_fs demo_fs_ok hello_plain hello_bytes hello_short)
    demo_create_pair) as [(_ & H1 & H2 & _)|[H1 _]]; [|discriminate H1]. split; [exact H1|exact H2].
Qed.

Lemma fs_create_correct_witness :
  (0 = 0 ∧ fs_ok demo_created ∧ files demo_created = <[to_83 hello := hello_data]> (files demo_fs) ∧
     dirs demo_created = dirs demo_fs) ∨
  (0 = -1 ∧ (files demo_fs !! to_83 hello = None →
     fs_ok demo_created ∧ files demo_created = files demo_fs ∧ dirs demo_created = dirs demo_fs) ∧
   refused demo_fs (to_83 hello) (zlen hello_data)).
Proof.
  exact (fs_create_correct [] hello hello_data demo_fs demo_created 0 demo_fs_ok hello_plain hello_bytes
    hello_short demo_create_pair).
Defined.

Definition demo_read : fs ramdisk := (fs_read hello 4096 demo_created).1.

Lemma demo_read_pair : fs_read hello 4096 demo_created = (demo_read, (612, hello_data)).
Proof.
  assert ((fs_read hello 4096 demo_created).2 = (612, hello_data)) as E by (vm_compute; reflexivity).
  unfold demo_read. rewrite <- E. apply surjective_pairing.
Qed.

Lemma fs_read_correct_witness :
  fs_ok demo_read ∧ files demo_read = files demo_created ∧
  (612, hello_data) = match files demo_created !! to_83 hello with
                      | Some d => if 4096 <? zlen d then (-1, []) else (zlen d, d)
                      | None => (-1, [])
                      end.
Proof. exact (fs_read_correct hello 4096 demo_created demo_read (612, hello_data) (proj1 demo_created_ok) demo_read_pair). Defined.

Lemma create_read_roundtrip_witness : (612, hello_data) = (zlen hello_data, hello_data).
Proof.
  assert (zlen hello_data ≤ 4096) as Hm by (vm_compute; discriminate).
  exact (create_read_roundtrip [] hello hello_data 4096 demo_fs demo_created demo_read (612, hello_data)
    demo_fs_ok hello_plain hello_bytes hello_short Hm demo_create_pair demo_read_pair).
Defined.

Definition demo_removed : fs ramdisk := (fs_remove [] hello demo_created).1.

Lemma demo_remove_pair : fs_remove [] hello demo_created = (demo_removed, 0).
Proof.
  assert ((fs_remove [] hello demo_created).2 = 0) as E by (vm_compute; reflexivity).
  unfold demo_removed. rewrite <- E. apply surjective_pairing.
Qed.

Lemma fs_remove_correct_witness :
  fs_ok demo_removed ∧ files demo_removed = delete (to_83 hello) (files demo_created) ∧
  dirs demo_removed = dirs demo_created ∧
  0 = (if decide (to_83 hello ∈ names (entries demo_created)) then 0 else -1).
Proof. exact (fs_remove_correct [] hello demo_created demo_removed 0 (proj1 demo_created_ok) demo_remove_pair). Defined.

Lemma demo_dir_at : dir_at (geo demo_created) (fat_cache demo_created) 0 [].
Proof. by left. Qed.

Lemma fs_readdir_lists_witness :
  (fs_readdir 0 10 demo_created).2 = [Dirent hello false 612 2].
Proof.
  assert (0 < 10) as Hm by lia. assert (mounted demo_created = true) as Hmt by (vm_compute; reflexivity).
  destruct (fs_readdir_lists 0 [] 10 demo_created _ _ (fo_vol _ (proj1 demo_created_ok)) Hmt demo_dir_at Hm
    (surjective_pairing _)) as [_ E].
  rewrite E. vm_compute. reflexivity.
Defined.

(** The same volume on a disk with its parameter block, before it is mounted. *)
Definition demo_bpb : list Z :=
  replicate 11 0 ++ [0; 2; 1; 1; 0; 1; 16; 0; 11; 0; 0; 1; 0] ++ replicate 488 0.
Definition raw_disk : ramdisk := RamDisk 11 (<[0 := demo_bpb]> (<[1 := demo_fat]> ∅)) false.
Definition unmounted : fs ramdisk := MkFs raw_disk (Geom 0 0 0 0 0 0 0 0 0 0 0 0) [] false 7 root_path [] [].

Lemma raw_healthy : rd_healthy raw_disk.
Proof.
  apply map_Forall_insert_2; [|apply map_Forall_insert_2; [|apply map_Forall_empty]].
  - split; [done|]. apply (bool_decide_unpack _). vm_compute. exact I.
  - split; [done|]. apply demo_fat_ok.
Qed.

Lemma volume_ok : fs_ok (volume unmounted).
Proof.
  assert (volume unmounted = MkFs raw_disk demo_geom demo_fat true 0 root_path [] []) as ->
    by (vm_compute; reflexivity).
  apply blank_fs_ok; [done|apply raw_healthy|done].
Qed.

(** The same disk with sectors of 1024 bytes, and one with three tables. *)
Definition foreign (i v : Z) : fs ramdisk :=
  MkFs (RamDisk 11 (<[0 := arr_set demo_bpb i v]> (<[1 := demo_fat]> ∅)) false) (geo unmounted) [] false 7 root_path [] [].

Lemma foreign_healthy i v : 0 ≤ v < 256 → bd_healthy (dev (foreign i v)).
Proof.
  intros Hv. apply map_Forall_insert_2; [|apply map_Forall_insert_2; [|apply map_Forall_empty]].
  - split; [rewrite length_arr_set; done|]. apply arr_set_Forall; [done|]. apply (bool_decide_unpack _). vm_compute. exact I.
  - split; [done|]. apply demo_fat_ok.
Qed.

Lemma fs_init_mounts_witness :
  fs_ok (fs_init true unmounted).1 ∧ (fs_init true unmounted).2 = 0 ∧
  (fs_init false unmounted).2 = -1 ∧ mounted (fs_init false unmounted).1 = false ∧
  (fs_init true (foreign 12 4)).2 = -1 ∧ (fs_init true (foreign 16 3)).2 = -1.
Proof.
  assert (0 < bd_size (dev unmounted)) as H0 by (cbn; lia).
  assert (fat_floppy (sec unmounted 0)) as Hb by (vm_compute; intuition discriminate).
  assert (data_start (layout (sec unmounted 0)) ≤ total_secs (layout (sec unmounted 0))) as Hd by (vm_compute; discriminate).
  assert (bd_healthy (dev unmounted)) as Hraw by exact raw_healthy.
  destruct (fs_init_mounts true unmounted _ _ Hraw H0 (λ _ _, conj Hd volume_ok) (surjective_pairing _)) as [H1 _].
  destruct (fs_init_mounts false unmounted _ _ Hraw H0 (λ _ _, conj Hd volume_ok) (surjective_pairing _)) as [_ H2].
  destruct (H1 Hb eq_refl) as (R1 & _ & R2). destruct (H2 (or_intror eq_refl)) as [R3 R4].
  assert (¬ fat_floppy (sec (foreign 12 4) 0)) as F1 by (vm_compute; intuition discriminate).
  assert (¬ fat_floppy (sec (foreign 16 3) 0)) as F2 by (vm_compute; intuition discriminate).
  destruct (fs_init_mounts true (foreign 12 4) _ _ (foreign_healthy 12 4 ltac:(lia)) H0 (λ h _, False_ind _ (F1 h)) (surjective_pairing _)) as [_ H3].
  destruct (fs_init_mounts true (foreign 16 3) _ _ (foreign_healthy 16 3 ltac:(lia)) H0 (λ h _, False_ind _ (F2 h)) (surjective_pairing _)) as [_ H4].
  destruct (H3 (or_introl F1)) as [R5 _]. destruct (H4 (or_introl F2)) as [R6 _].
  split; [exact R1|]. split; [|split; [exact R3|split; [exact R4|split; [exact R5|exact R6]]]].
  rewrite R2. vm_compute. reflexivity.
Defined.

(** ** Overwriting on a full disk

    [fs_create] frees the old chain before it allocates the new one; when the
    disk is full it returns -1 and leaves the entry pointing at free clusters,
    which the next file is given: the two then share their data. *)
Definition full_1 : fs ramdisk := (fs_create [] (str "A") (replicate 512 65) demo_fs).1.
Definition full_2 : fs ramdisk * Z := fs_create [] (str "A") (replicate 5000 65) full_1.
Definition full_3 : fs ramdisk := (fs_create [] (str "B") (replicate 512 66) full_2.1).1.

Lemma create_overwrite_loses_file :
  full_2.2 = -1 ∧ (fs_read (str "A") 4096 full_3).2 = (512, replicate 512 66).
Proof. vm_compute. split; reflexivity. Qed.
