(* ===== verification/Io.v ===== *)
(** Effects of the drivers and the network stack: state passing in which a wait
    may fail to end ([None]), its program logic, and the machine's I/O ports,
    which are hardware and a parameter of the models. *)
From Stdlib Require Import ZArith Lia.
From stdpp Require Import base numbers gmap option list.
From S2P Require Import Prelude.

#[local] Open Scope Z_scope.

(** ** State passing *)

(** [None]: the C code has not come back within the fuel of its waits. *)
Definition IO (S A : Type) : Type := S → option (S * A).

Definition io_ret {S A} (x : A) : IO S A := λ s, Some (s, x).
Definition io_bind {S A B} (m : IO S A) (k : A → IO S B) : IO S B :=
  λ s, match m s with Some (s, x) => k x s | None => None end.
Definition io_get {S} : IO S S := λ s, Some (s, s).
Definition io_put {S} (f : S → S) : IO S unit := λ s, Some (f s, tt).
(** Out of fuel. *)
Definition io_stuck {S A} : IO S A := λ _, None.

Declare Scope io_scope.
Delimit Scope io_scope with io.
Notation "'let!' x := m 'in' k" := (io_bind m (λ x, k)) (at level 10, x pattern, k at level 200) : io_scope.
Notation "m ;! k" := (io_bind m (λ _, k)) (at level 100, right associativity) : io_scope.

(** [for (i = 0; i < n; i++) m(i)] *)
Fixpoint io_for {S} (n : nat) (i : Z) (m : Z → IO S unit) : IO S unit :=
  match n with
  | O => io_ret tt
  | Datatypes.S n => io_bind (m i) (λ _, io_for n (i + 1) m)
  end.

(** ** Total correctness *)

Definition iwp {S A} (m : IO S A) (Q : S → A → Prop) (s : S) : Prop :=
  ∃ s' x, m s = Some (s', x) ∧ Q s' x.

Lemma iwp_ret {S A} (x : A) (Q : S → A → Prop) s : Q s x → iwp (io_ret x) Q s.
Proof. intros. by exists s, x. Qed.
Lemma iwp_get {S} (Q : S → S → Prop) s : Q s s → iwp io_get Q s.
Proof. intros. by exists s, s. Qed.
Lemma iwp_put {S} f (Q : S → unit → Prop) s : Q (f s) tt → iwp (io_put f) Q s.
Proof. intros. by exists (f s), tt. Qed.
Lemma iwp_bind {S A B} (m : IO S A) (k : A → IO S B) Q s :
  iwp m (λ s' x, iwp (k x) Q s') s → iwp (io_bind m k) Q s.
Proof. intros (s1 & x & E & s2 & y & E2 & HQ). exists s2, y. unfold io_bind. by rewrite E. Qed.
Lemma iwp_mono {S A} (m : IO S A) (P Q : S → A → Prop) s :
  iwp m P s → (∀ s' x, P s' x → Q s' x) → iwp m Q s.
Proof. intros (s1 & x & E & HP) HQ. exists s1, x. split; [done|by apply HQ]. Qed.
Lemma iwp_elim {S A} (m : IO S A) Q s s' x : iwp m Q s → m s = Some (s', x) → Q s' x.
Proof. intros (s1 & y & E & HQ) E2. rewrite E in E2. by injection E2 as <- <-. Qed.

(** Partial correctness: what holds if the code comes back. *)
Definition ilp {S A} (m : IO S A) (Q : S → A → Prop) (s : S) : Prop :=
  ∀ s' x, m s = Some (s', x) → Q s' x.

Lemma ilp_ret {S A} (x : A) (Q : S → A → Prop) s : Q s x → ilp (io_ret x) Q s.
Proof. intros HQ s' y [= <- <-]. done. Qed.
Lemma ilp_get {S} (Q : S → S → Prop) s : Q s s → ilp io_get Q s.
Proof. intros HQ s' y [= <- <-]. done. Qed.
Lemma ilp_put {S} f (Q : S → unit → Prop) s : Q (f s) tt → ilp (io_put f) Q s.
Proof. intros HQ s' y [= <- <-]. done. Qed.
Lemma ilp_stuck {S A} (Q : S → A → Prop) s : ilp io_stuck Q s.
Proof. by intros s' y. Qed.
Lemma ilp_bind {S A B} (m : IO S A) (k : A → IO S B) Q s :
  ilp m (λ s' x, ilp (k x) Q s') s → ilp (io_bind m k) Q s.
Proof.
  intros Hm s' y. unfold io_bind. destruct (m s) as [[s1 x]|] eqn:E; [|done]. by apply (Hm s1 x).
Qed.
Lemma ilp_mono {S A} (m : IO S A) (P Q : S → A → Prop) s :
  ilp m P s → (∀ s' x, P s' x → Q s' x) → ilp m Q s.
Proof. intros Hm HQ s' x E. by apply HQ, Hm. Qed.

(** ** Ports *)

(** The instructions of cpu/io.h, by width in bytes, and [sti; hlt], which
    sleeps until interrupts have been handled: their IRQ numbers in order. *)
Class Ports (H : Type) := {
  p_out : Z → Z → Z → H → H;
  p_in : Z → Z → H → H * Z;
  p_hlt : H → H * list Z
}.

(** Memory that a device reads and writes by physical address. *)
Class Dma (H : Type) := {
  dma_get : Z → H → Z;
  dma_put : Z → list Z → H → H
}.

(** A driver's state with the machine in it. *)
Class HasHw (S H : Type) := {
  get_hw : S → H;
  set_hw : H → S → S;
  get_set_hw h s : get_hw (set_hw h s) = h
}.

Section Port.
Context {S H : Type} `{Ports H} `{HasHw S H}.

Definition out_port (width port v : Z) : IO S unit :=
  io_put (λ s, set_hw (p_out width (u16 port) v (get_hw s)) s).
Definition in_port (width port : Z) : IO S Z :=
  λ s, let '(h, v) := p_in width (u16 port) (get_hw s) in Some (set_hw h s, v).

Definition outb (port v : Z) : IO S unit := out_port 1 port (u8 v).
Definition outw (port v : Z) : IO S unit := out_port 2 port (u16 v).
Definition outl (port v : Z) : IO S unit := out_port 4 port (u32 v).
Definition inb (port : Z) : IO S Z := in_port 1 port.
Definition inw (port : Z) : IO S Z := in_port 2 port.
Definition inl (port : Z) : IO S Z := in_port 4 port.
Definition io_wait : IO S unit := outb 0x80 0.
End Port.

(** A machine that records what it is told and answers reads from a script: for
    the witnesses. *)
Record script := Script { sc_out : list (Z * Z * Z); sc_in : list Z; sc_irqs : list (list Z) }.

#[export] Instance script_ports : Ports script := {|
  p_out w p v h := Script (sc_out h ++ [(w, p, v)]) (sc_in h) (sc_irqs h);
  p_in w p h := match sc_in h with
                | v :: r => (Script (sc_out h) r (sc_irqs h), v)
                | [] => (h, 0)
                end;
  p_hlt h := match sc_irqs h with
             | v :: r => (Script (sc_out h) (sc_in h) r, v)
             | [] => (h, [])
             end
|}.
