(* ===== verification/Serial.v ===== *)
(** The serial mirror of the console: drivers/console.c with the wait for the
    transmitter that [Console.serial_putc] leaves out.  The other components see the
    console as [Console] has it; this file shows that with the waits in it it does
    the same, comes back, and loses nothing on the wire. *)
From Stdlib Require Import ZArith Lia Bool.
From stdpp Require Import base numbers gmap option list.
From S2P Require Import Prelude Console Io.

#[local] Open Scope Z_scope.
#[local] Open Scope c_scope.
#[local] Open Scope io_scope.

(** The console and the machine. *)
Record term (H : Type) := Term { tm_hw : H; tm_con : console }.
Arguments Term {H}. Arguments tm_hw {H}. Arguments tm_con {H}.

#[export] Instance term_has_hw {H} : HasHw (term H) H.
Proof. refine {| get_hw := tm_hw; set_hw h s := Term h (tm_con s) |}. done. Defined.

Section Mirror.
Context {H : Type} `{Ports H}.
Abbreviation M := (IO (term H)).

(** [while ((inb(COM1 + 5) & 0x20) == 0) ;] *)
Fixpoint wait_transmit (fuel : nat) : M unit :=
  let! v := inb (COM1 + 5) in
  if v &&& 0x20 =? 0 then match fuel with O => io_stuck | S fuel => wait_transmit fuel end else io_ret tt.

(** [serial_putc], noting the byte in the console's log as [Console] does. *)
Definition serial_putc (fuel : nat) (c : Z) : M unit :=
  wait_transmit fuel ;!
  outb COM1 c ;!
  io_put (λ s, Term (tm_hw s) (Console.serial_putc c (tm_con s))).

Definition console_putc (fuel : nat) (c : Z) : M unit :=
  (if c =? 10 then serial_putc fuel 13 else io_ret tt) ;!
  (if c =? 8 then serial_putc fuel 8 ;! serial_putc fuel 32 ;! serial_putc fuel 8 else serial_putc fuel c) ;!
  io_put (λ s, Term (tm_hw s) (vga_move_cursor (vga_putc c (tm_con s)))).

Fixpoint console_write (fuel : nat) (t : list Z) : M unit :=
  match t with [] => io_ret tt | c :: t => console_putc fuel c ;! console_write fuel t end.
End Mirror.

(** The first serial port, a 16550: bit 5 of its line status says that the
    transmitter takes a byte, which it does again within [ua_slow] reads of the
    status after the last one. *)
Class Uart (H : Type) `{Ports H} := {
  ua_ok : H → Prop;
  ua_wait : H → nat;
  ua_wire : H → list Z;
  ua_slow : nat;
  ua_bound h : ua_ok h → (ua_wait h ≤ ua_slow)%nat;
  ua_status h : ua_ok h →
    let '(h', v) := p_in 1 0x3FD h in
    ua_ok h' ∧ ua_wire h' = ua_wire h ∧
    match ua_wait h with
    | O => Z.testbit v 5 = true ∧ ua_wait h' = O
    | S n => Z.testbit v 5 = false ∧ ua_wait h' = n
    end;
  ua_send h v : ua_ok h → ua_wait h = O → 0 ≤ v < 256 →
    ua_ok (p_out 1 0x3F8 v h) ∧ ua_wire (p_out 1 0x3F8 v h) = ua_wire h ++ [v]
}.

(** What a character is on the wire: a line feed has a carriage return before it, a
    backspace blanks what it steps over. *)
Definition wire_bytes (c : Z) : list Z :=
  if c =? 10 then [13; 10] else if c =? 8 then [8; 32; 8] else [c].

Section Proofs.
Context {H : Type} `{Ports H} `{!Uart H}.
Implicit Types s : term H.

(** The bytes [t] have gone out, and the console is [con]. *)
Definition sent (t : list Z) (con : console) s s' : Prop :=
  ua_ok (tm_hw s') ∧ ua_wire (tm_hw s') = ua_wire (tm_hw s) ++ t ∧ tm_con s' = con.

Lemma status_bit v : (v &&& 0x20 =? 0) = negb (Z.testbit v 5).
Proof.
  apply eq_true_iff_eq. rewrite Z.eqb_eq, negb_true_iff. change 0x20 with (2 ^ 5). split.
  - intros E. apply (f_equal (λ x, Z.testbit x 5)) in E. rewrite Z.land_spec, Z.pow2_bits_true, Z.bits_0, andb_true_r in E by lia. exact E.
  - intros E. apply Z.bits_inj'. intros n Hn. rewrite Z.land_spec, Z.bits_0. destruct (decide (n = 5)) as [->|Hne]; [by rewrite E|].
    by rewrite Z.pow2_bits_false, andb_false_r by lia.
Qed.

Lemma wait_ends fuel s :
  ua_ok (tm_hw s) → (ua_wait (tm_hw s) ≤ fuel)%nat →
  iwp (wait_transmit fuel) (λ s' _, sent [] (tm_con s) s s' ∧ ua_wait (tm_hw s') = O) s.
Proof.
  revert s. induction fuel as [|fuel IH]; intros s Hok Hf; cbn [wait_transmit]; apply iwp_bind;
    pose proof (ua_status (tm_hw s) Hok) as Hs;
    destruct (p_in 1 0x3FD (tm_hw s)) as [h v] eqn:E; destruct Hs as (Hok' & Hw & Hc); exists (set_hw h s), v;
    (split; [unfold inb, in_port; change (u16 (COM1 + 5)) with 0x3FD; change (get_hw s) with (tm_hw s); by rewrite E|]); rewrite status_bit; destruct (ua_wait (tm_hw s)) as [|n] eqn:En; try lia; destruct Hc as [-> Hn]; cbn [negb].
  - apply iwp_ret. split; [|done]. split_and!; [done|by rewrite app_nil_r|done].
  - apply iwp_ret. split; [|done]. split_and!; [done|by rewrite app_nil_r|done].
  - eapply iwp_mono; [apply (IH (set_hw h s)); [done|change (ua_wait h ≤ fuel)%nat; lia]|]. cbv beta. intros s' _ [(K1 & K2 & K3) K4].
    split; [|done]. split_and!; [done|rewrite K2; change (tm_hw (set_hw h s)) with h; by rewrite Hw|done].
Qed.

Section Fuel.
Variable fuel : nat.
Hypothesis fuel_enough : (ua_slow (H := H) ≤ fuel)%nat.

Lemma serial_putc_ok c s :
  ua_ok (tm_hw s) → iwp (serial_putc fuel c) (λ s' _, sent [u8 c] (Console.serial_putc c (tm_con s)) s s') s.
Proof using fuel_enough.
  intros Hok. unfold serial_putc. apply iwp_bind. pose proof (ua_bound _ Hok).
  eapply iwp_mono; [apply wait_ends; [done|lia]|]. cbv beta. intros s1 _ [(K1 & K2 & K3) K4].
  apply iwp_bind. unfold outb, out_port. apply iwp_put, iwp_put. change (u16 COM1) with 0x3F8.
  destruct (ua_send (tm_hw s1) (u8 c) K1 K4 (u8_range c)) as [L1 L2].
  split_and!; [exact L1|cbn [tm_hw set_hw term_has_hw get_hw]; by rewrite L2, K2, app_nil_r|].
  cbn [tm_con set_hw term_has_hw]. by rewrite K3.
Qed.

Lemma sent_trans t1 t2 con1 con2 s1 s2 s3 : sent t1 con1 s1 s2 → sent t2 con2 s2 s3 → sent (t1 ++ t2) con2 s1 s3.
Proof. intros (K1 & K2 & K3) (L1 & L2 & L3). split_and!; [done|by rewrite L2, K2, app_assoc|done]. Qed.

Lemma console_putc_ok c s :
  0 ≤ c < 256 → ua_ok (tm_hw s) → iwp (console_putc fuel c) (λ s' _, sent (wire_bytes c) (Console.console_putc c (tm_con s)) s s') s.
Proof using fuel_enough.
  intros Hc Hok. unfold console_putc, Console.console_putc, wire_bytes. apply iwp_bind.
  destruct (Z.eqb_spec c 10) as [->|Hn].
  - eapply iwp_mono; [by apply serial_putc_ok|]. cbv beta. intros s1 _ K1. change (10 =? 8) with false. cbv iota.
    apply iwp_bind. eapply iwp_mono; [apply serial_putc_ok; apply K1|]. cbv beta. intros s2 _ K2. apply iwp_put.
    pose proof (sent_trans _ _ _ _ _ _ _ K1 K2) as (L1 & L2 & L3). destruct K1 as (_ & _ & K1). split_and!; [exact L1|exact L2|].
    cbn [tm_con]. by rewrite L3, K1.
  - apply iwp_ret, iwp_bind. destruct (Z.eqb_spec c 8) as [->|Hn8].
    + apply iwp_bind. eapply iwp_mono; [by apply serial_putc_ok|]. cbv beta. intros s1 _ K1.
      apply iwp_bind. eapply iwp_mono; [apply serial_putc_ok; apply K1|]. cbv beta. intros s2 _ K2.
      eapply iwp_mono; [apply serial_putc_ok; apply K2|]. cbv beta. intros s3 _ K3. apply iwp_put.
      pose proof (sent_trans _ _ _ _ _ _ _ K1 (sent_trans _ _ _ _ _ _ _ K2 K3)) as (L1 & L2 & L3).
      destruct K1 as (_ & _ & K1), K2 as (_ & _ & K2). split_and!; [exact L1|exact L2|]. cbn [tm_con]. by rewrite L3, K2, K1.
    + eapply iwp_mono; [by apply serial_putc_ok|]. cbv beta. intros s1 _ (L1 & L2 & L3). apply iwp_put.
      split_and!; [exact L1|cbn [tm_hw]; rewrite L2, u8_small by lia; done|]. cbn [tm_con]. by rewrite L3.
Qed.
End Fuel.

(** Writing text to the console comes back however slow the line is, has done to
    the screen and the cursor what [Console.console_write] does, and every byte
    has gone out on the serial line, in order and none lost. *)
Theorem serial_mirrors fuel t s :
  (ua_slow (H := H) ≤ fuel)%nat → ua_ok (tm_hw s) → Forall (λ c, 0 ≤ c < 256) t →
  iwp (console_write fuel t) (λ s' _, ua_ok (tm_hw s') ∧ tm_con s' = Console.console_write t (tm_con s) ∧
    ua_wire (tm_hw s') = ua_wire (tm_hw s) ++ flat_map wire_bytes t) s.
Proof.
  intros Hf Hok Ht. revert s Hok. induction Ht as [|c t Hc _ IH]; intros s Hok; cbn [console_write flat_map].
  - apply iwp_ret. split_and!; [done|done|by rewrite app_nil_r].
  - apply iwp_bind. eapply iwp_mono; [by apply console_putc_ok|]. cbv beta. intros s1 _ (K1 & K2 & K3).
    eapply iwp_mono; [by apply IH|]. cbv beta. intros s2 _ (L1 & L2 & L3). split_and!; [done|by rewrite L2, K3|by rewrite L3, K2, app_assoc].
Qed.
End Proofs.

(** A line that takes 86 reads of the status for a byte. *)
Record slow_line := SlowLine { sl_wait : nat; sl_wire : list Z }.
#[export] Instance slow_ports : Ports slow_line := {|
  p_out w p v h := if p =? 0x3F8 then SlowLine 86 (sl_wire h ++ [v]) else h;
  p_in w p h := if p =? 0x3FD then match sl_wait h with O => (h, 0x60) | S n => (SlowLine n (sl_wire h), 0x00) end else (h, 0);
  p_hlt h := (h, [])
|}.
#[export] Instance slow_uart : Uart slow_line.
Proof.
  refine {| ua_ok h := (sl_wait h ≤ 86)%nat; ua_wait := sl_wait; ua_wire := sl_wire; ua_slow := 86%nat |}; [done|..].
  - intros h Hh. cbn. destruct h as [[|n] t]; cbn [sl_wait sl_wire] in *; split_and!; try done; lia.
  - intros h v Hh _ _. cbn. by split.
Defined.

Lemma serial_mirrors_witness :
  iwp (console_write 86 [72; 105; 8; 10]) (λ s' _, sl_wire (tm_hw s') = [72; 105; 8; 32; 8; 13; 10])
    (Term (SlowLine 0 []) (MkConsole (replicate (Z.to_nat (VGA_COLS * VGA_ROWS)) 0) 0 0 7 [])).
Proof.
  eapply iwp_mono; [apply (serial_mirrors 86 [72; 105; 8; 10] (Term (SlowLine 0 []) (MkConsole (replicate (Z.to_nat (VGA_COLS * VGA_ROWS)) 0) 0 0 7 [])))|].
  - done.
  - cbn. lia.
  - by repeat constructor.
  - cbv beta. intros s' _ (_ & _ & E). exact E.
Defined.
