(* ===== verification/Returns.v ===== *)
(** Code that comes back whatever the hardware answers, having changed nothing but
    the machine. *)
From Stdlib Require Import ZArith Lia.
From stdpp Require Import base numbers gmap option list.
From S2P Require Import Prelude Io.

#[local] Open Scope Z_scope.
#[local] Open Scope io_scope.

(** The machine in a state is a field of it. *)
Class HwField (S H : Type) `{HasHw S H} := {
  set_get_hw s : set_hw (get_hw s) s = s;
  set_set_hw h1 h2 s : set_hw h1 (set_hw h2 s) = set_hw h1 s
}.

Section Ends.
Context {S H : Type} `{Ports H} `{HwField S H}.
Implicit Types s : S.

(** Only the machine has changed. *)
Definition only_hw s s' : Prop := s' = set_hw (get_hw s') s.

Lemma only_hw_refl s : only_hw s s.
Proof. unfold only_hw. by rewrite set_get_hw. Qed.
Lemma only_hw_set h s : only_hw s (set_hw h s).
Proof. unfold only_hw. by rewrite get_set_hw. Qed.
Lemma only_hw_trans s1 s2 s3 : only_hw s1 s2 → only_hw s2 s3 → only_hw s1 s3.
Proof. unfold only_hw. intros E1 E2. rewrite E2 at 1. rewrite E1, set_set_hw. done. Qed.

(** [m] comes back and changes nothing but the machine. *)
Definition ends {X} (m : IO S X) : Prop := ∀ s, iwp m (λ s' _, only_hw s s') s.

Lemma ends_ret {X} (x : X) : ends (io_ret x).
Proof. intros s. apply iwp_ret, only_hw_refl. Qed.
Lemma ends_bind {X Y} (m : IO S X) (k : X → IO S Y) : ends m → (∀ x, ends (k x)) → ends (io_bind m k).
Proof.
  intros Hm Hk s. apply iwp_bind. eapply iwp_mono; [apply Hm|]. cbv beta. intros s1 x E1. eapply iwp_mono; [apply Hk|].
  cbv beta. intros s2 y E2. by eapply only_hw_trans.
Qed.
Lemma ends_get {X} (k : S → IO S X) : (∀ s, ends (k s)) → ends (io_bind io_get k).
Proof. intros Hk s. apply iwp_bind, iwp_get, Hk. Qed.
Lemma ends_out w p v : ends (out_port w p v).
Proof. intros s. apply iwp_put, only_hw_set. Qed.
Lemma ends_in w p : ends (in_port w p).
Proof.
  intros s. unfold in_port. destruct (p_in w (u16 p) (get_hw s)) as [h v] eqn:E. exists (set_hw h s), v. rewrite E. split; [done|apply only_hw_set].
Qed.
Lemma ends_for n i (m : Z → IO S unit) : (∀ i, ends (m i)) → ends (io_for n i m).
Proof. intros Hm. revert i. induction n as [|n IH]; intros i; cbn [io_for]; [apply ends_ret|]. apply ends_bind; [apply Hm|intros _; apply IH]. Qed.
Lemma ends_put (f : H → H) : ends (io_put (λ s, set_hw (f (get_hw s)) s)).
Proof. intros s. apply iwp_put, only_hw_set. Qed.

(** After code that only concerns the machine. *)
Lemma ends_then {X Y} (m : IO S X) (k : X → IO S Y) (Q : S → Y → Prop) s :
  ends m → (∀ s1 x, only_hw s s1 → iwp (k x) Q s1) → iwp (io_bind m k) Q s.
Proof. intros Hm Hk. apply iwp_bind. eapply iwp_mono; [apply Hm|]. cbv beta. intros s1 x E. by apply Hk. Qed.
End Ends.

(** One step through a program; what is left of it are its calls. *)
Ltac ends_step := match goal with
  | |- ends (io_ret _) => apply ends_ret
  | |- ends (outb _ _) => apply ends_out
  | |- ends (outw _ _) => apply ends_out
  | |- ends (outl _ _) => apply ends_out
  | |- ends io_wait => apply ends_out
  | |- ends (inb _) => apply ends_in
  | |- ends (inw _) => apply ends_in
  | |- ends (inl _) => apply ends_in
  | |- ends (io_bind io_get _) => apply ends_get; intros ?
  | |- ends (io_bind _ _) => apply ends_bind; [|intros ?]
  | |- ends (io_for _ _ _) => apply ends_for; intros ?
  | |- ends (match ?x with _ => _ end) => destruct x
  end.

(** Several such calls, one after the other. *)
Ltac hw_chain := repeat (eapply only_hw_trans; [eassumption|]); apply only_hw_refl.
