(* ===== verification/Elf.v ===== *)
(** The ELF32 program loader: kernel/elf.c, with the memory accesses of
    lib/string.c it makes, which go through the page tables: an access to a page
    that is not mapped is a page fault, after which the machine is halted. *)
From Stdlib Require Import ZArith Lia Bool Ascii String.
From stdpp Require Import base numbers gmap option list.
From S2P Require Import Prelude Console Block Frames Pmm Paging Kheap Heaps Sched Fat12 Io.

#[local] Open Scope Z_scope.
#[local] Open Scope c_scope.
#[local] Open Scope io_scope.

Definition MAX_ELF : Z := 128 * 1024.
Definition USTACK_TOP : Z := 0x50000000.
Definition E_TYPE : Z := 16.
Definition E_MACHINE : Z := 18.
Definition E_ENTRY : Z := 24.
Definition E_PHOFF : Z := 28.
Definition E_PHENTSIZE : Z := 42.
Definition E_PHNUM : Z := 44.
Definition P_TYPE : Z := 0.
Definition P_OFFSET : Z := 4.
Definition P_VADDR : Z := 8.
Definition P_FILESZ : Z := 16.
Definition P_MEMSZ : Z := 20.
(** [sizeof(struct elf_job)]: a pointer and a length. *)
Definition SIZEOF_JOB : Z := 8.

(** What the loader works on: the scheduler with the heap and the page tables
    below it, the file system, the bytes of RAM by physical address, and what
    the console was told. *)
Record kernel (A D : Type) := Kernel {
  k_sched : sched (kheap A);
  k_fs : fs D;
  k_ram : gmap Z Z;
  k_out : list con_call
}.
Arguments Kernel {A D}. Arguments k_sched {A D}. Arguments k_fs {A D}.
Arguments k_ram {A D}. Arguments k_out {A D}.

(** How [elf_task] ends: it returns to [task_bootstrap], or drops to ring 3 at
    an address with a stack. *)
Inductive launch := Returns | UserMode (entry user_esp : Z).

(** The low bytes of a word, as the processor stores them. *)
Definition word_bytes (v : Z) : list Z := [u8 v; u8 (v >>> 8); u8 (v >>> 16); u8 (v >>> 24)].

Section Elf.
Context {A D : Type} `{FrameAllocator A} `{BlockDevice D}.
Abbreviation kern := (kernel A D).
Abbreviation K := (IO kern).

Definition heap_of (s : kern) : kheap A := sched_heap (k_sched s).
Definition paging_of (s : kern) : paging A := kh_paging (heap_of s).

Definition with_sched (x : sched (kheap A)) (s : kern) : kern := Kernel x (k_fs s) (k_ram s) (k_out s).
Definition with_ram (x : gmap Z Z) (s : kern) : kern := Kernel (k_sched s) (k_fs s) x (k_out s).
Definition with_fs (x : fs D) (s : kern) : kern := Kernel (k_sched s) x (k_ram s) (k_out s).
Definition with_out (x : list con_call) (s : kern) : kern := Kernel (k_sched s) (k_fs s) (k_ram s) (k_out s ++ x).
Definition with_heap (h : kheap A) (s : kern) : kern :=
  let x := k_sched s in
  with_sched (MkSched (tasks x) (current x) (next_id x) (ntasks x) (tss_esp0 x) (regs x) (words x) h) s.
Definition with_paging (p : paging A) (s : kern) : kern :=
  let h := heap_of s in with_heap (MkKheap p (kh_mem h) (heap_base h) (heap_end h) (head h)) s.

(** Calls into the components. *)
Definition on_heap {X} (f : kheap A → kheap A * X) : K X :=
  λ s, let '(h, x) := f (heap_of s) in Some (with_heap h s, x).
Definition on_paging {X} (f : paging A → paging A * X) : K X :=
  λ s, let '(p, x) := f (paging_of s) in Some (with_paging p s, x).
Definition on_fs {X} (f : fs D → fs D * X) : K X :=
  λ s, let '(x, r) := f (k_fs s) in Some (with_fs x s, r).
Definition alloc_frame (p : paging A) : paging A * Z :=
  let '(a, f) := fa_alloc (pg_frames p) in (with_frames a p, f).
Definition free_frame (f : Z) (p : paging A) : paging A * unit :=
  (with_frames (fa_free f (pg_frames p)) p, tt).
Definition kmalloc_k (size : Z) : K Z := on_heap (kmalloc size).
Definition kfree_k (ptr : Z) : K unit := on_heap (λ h, (kfree ptr h, tt)).
Definition console_write (t : list Z) : K unit := io_put (with_out (con_write t)).

(** ** Memory through the page tables *)

(** The physical address the processor finds for a virtual one. *)
Definition mmu (p : paging A) (va : Z) : option Z :=
  e ← pte p va; Some (page_of e + va mod 4096).

Definition vload (va : Z) : K Z :=
  λ s, match mmu (paging_of s) (u32 va) with
       | Some a => Some (s, ld (k_ram s) a)
       | None => None
       end.
Definition vstore (va b : Z) : K unit :=
  λ s, match mmu (paging_of s) (u32 va) with
       | Some a => Some (with_ram (st (k_ram s) a b) s, tt)
       | None => None
       end.

(** [memset] and [memcpy] *)
Fixpoint vmemset (n : nat) (d c : Z) : K unit :=
  match n with O => io_ret tt | S n => vstore d (u8 c) ;! vmemset n (d + 1) c end.
Fixpoint vmemcpy (n : nat) (d a : Z) : K unit :=
  match n with
  | O => io_ret tt
  | S n => let! b := vload a in vstore d b ;! vmemcpy n (d + 1) (a + 1)
  end.
(** Bytes a callee leaves in its caller's buffer. *)
Fixpoint vput (d : Z) (l : list Z) : K unit :=
  match l with [] => io_ret tt | b :: l => vstore d b ;! vput (d + 1) l end.

Definition rd16 (p : Z) : K Z :=
  let! a := vload p in let! b := vload (p + 1) in io_ret (u16 (a ||| (b <<< 8))).
Definition rd32 (p : Z) : K Z :=
  let! a := vload p in let! b := vload (p + 1) in
  let! c := vload (p + 2) in let! d := vload (p + 3) in
  io_ret (a ||| u32 (b <<< 8) ||| u32 (c <<< 16) ||| u32 (d <<< 24)).

(** ** The loader *)

Definition ensure_page (va : Z) : K Z :=
  let page := va &&& u32_not (PAGE_SIZE - 1) in
  let! s := io_get in
  if negb (paging_get_phys page (paging_of s) =? 0xFFFFFFFF) then io_ret 0
  else
    let! frame := on_paging alloc_frame in
    if frame =? 0 then io_ret (-1)
    else
      let! r := on_paging (paging_map page frame (PAGE_PRESENT ||| PAGE_WRITE ||| PAGE_USER)) in
      if negb (r =? 0) then on_paging (free_frame frame) ;! io_ret (-1)
      else vmemset 4096 page 0 ;! io_ret 0.

(** [for (a = vaddr; a < vaddr + memsz; a += PAGE_SIZE)] *)
Fixpoint pages_loop (fuel : nat) (a end_ : Z) : K Z :=
  match fuel with
  | O => io_stuck
  | S fuel =>
      if a <? end_ then
        let! r := ensure_page a in
        if negb (r =? 0) then io_ret (-1) else pages_loop fuel (u32 (a + PAGE_SIZE)) end_
      else io_ret 0
  end.

(** More steps than a segment has pages. *)
Definition pages_fuel (memsz : Z) : nat := Z.to_nat (memsz / PAGE_SIZE + 2).

Definition load_segment (elf vaddr off filesz memsz : Z) : K Z :=
  let! r := pages_loop (pages_fuel memsz) vaddr (u32 (vaddr + memsz)) in
  if negb (r =? 0) then io_ret (-1)
  else
    let! r := (if 0 <? memsz then ensure_page (u32 (vaddr + memsz - 1)) else io_ret 0) in
    if negb (r =? 0) then io_ret (-1)
    else vmemcpy (Z.to_nat filesz) vaddr (elf + off) ;! io_ret 0.

(** The loop over the [n] program headers that are left; [false] when one could
    not be loaded. *)
Fixpoint headers_loop (n : nat) (i elf phoff phentsz : Z) : K bool :=
  match n with
  | O => io_ret true
  | S n =>
      let ph := u32 (elf + phoff + i * phentsz) in
      let! t := rd32 (ph + P_TYPE) in
      if negb (t =? 1) then headers_loop n (i + 1) elf phoff phentsz
      else
        let! vaddr := rd32 (ph + P_VADDR) in
        let! off := rd32 (ph + P_OFFSET) in
        let! filesz := rd32 (ph + P_FILESZ) in
        let! memsz := rd32 (ph + P_MEMSZ) in
        let! r := load_segment elf vaddr off filesz memsz in
        if negb (r =? 0) then io_ret false else headers_loop n (i + 1) elf phoff phentsz
  end.

Definition tss_set_esp0 (esp0 : Z) (s : kern) : kern :=
  let x := k_sched s in
  with_sched (MkSched (tasks x) (current x) (next_id x) (ntasks x) esp0 (regs x) (words x) (sched_heap x)) s.

Definition nl : list Z := [10].

(** [kfree(job->buf); kfree(job);] *)
Definition free_job (job : Z) : K unit :=
  let! buf := rd32 job in kfree_k buf ;! kfree_k job.

Definition elf_task (job : Z) : K launch :=
  let! elf := rd32 job in
  let! entry := rd32 (elf + E_ENTRY) in
  let! phoff := rd32 (elf + E_PHOFF) in
  let! phentsz := rd16 (elf + E_PHENTSIZE) in
  let! phnum := rd16 (elf + E_PHNUM) in
  let! ok := headers_loop (Z.to_nat phnum) 0 elf phoff phentsz in
  if negb ok then
    console_write (str "elf: out of memory loading segment" ++ nl) ;! free_job job ;! io_ret Returns
  else
    free_job job ;!
    let! r := ensure_page (USTACK_TOP - PAGE_SIZE) in
    if negb (r =? 0) then
      console_write (str "elf: out of memory for user stack" ++ nl) ;! io_ret Returns
    else
      io_put (λ s, tss_set_esp0 (t_kstack_top (task_at (tasks (k_sched s)) (sched_current (k_sched s)))) s) ;!
      io_ret (UserMode entry USTACK_TOP).

(** The checks of the header, in the order and with the loads of the code. *)
Definition magic_ok (buf : Z) : K bool :=
  let! b0 := vload buf in let! b1 := vload (buf + 1) in let! b2 := vload (buf + 2) in
  let! b3 := vload (buf + 3) in let! b4 := vload (buf + 4) in let! b5 := vload (buf + 5) in
  io_ret ((b0 =? 0x7F) && (b1 =? chr "E") && (b2 =? chr "L") && (b3 =? chr "F") && (b4 =? 1) && (b5 =? 1)).
Definition type_ok (buf : Z) : K bool :=
  let! t := rd16 (buf + E_TYPE) in let! m := rd16 (buf + E_MACHINE) in
  io_ret ((t =? 2) && (m =? 3)).

(** [elf_task_at] is the address of [elf_task], [name] of its task's name, and
    [bootstrap] of [task_bootstrap]. *)
Definition elf_exec (bootstrap elf_task_at name : Z) (path : list Z) : K Z :=
  let! buf := kmalloc_k MAX_ELF in
  if buf =? 0 then io_ret (-1)
  else
    let! r := on_fs (fs_read path MAX_ELF) in
    vput buf r.2 ;!
    let len := r.1 in
    if len <? 52 then kfree_k buf ;! io_ret (-1)
    else
      let! m := magic_ok buf in
      if negb m then kfree_k buf ;! io_ret (-1)
      else
        let! t := type_ok buf in
        if negb t then kfree_k buf ;! io_ret (-1)
        else
          let! job := kmalloc_k SIZEOF_JOB in
          if job =? 0 then kfree_k buf ;! io_ret (-1)
          else
            vput job (word_bytes buf) ;!
            vput (job + 4) (word_bytes len) ;!
            io_put (λ s, with_sched (task_spawn bootstrap elf_task_at job name (k_sched s)).1 s) ;!
            io_ret 0.

End Elf.
