(* ===== verification/ElfThm.v ===== *)
(** Properties of [Elf.v]: a program whose segments lie in its own part of the
    address space is laid out in memory as its headers say, or the loader runs
    out of memory; and what [elf_exec] accepts. *)
From Stdlib Require Import ZArith Lia Bool Ascii String.
From stdpp Require Import base numbers gmap option list.
From S2P Require Import Prelude CString Console Block Fat12 Fat12Table Fat12Logic Fat12Dir Fat12Names Fat12Store Fat12Files Fat12Volume.
From S2P Require Import Frames Pmm Paging Kheap Heaps Sched Io Elf.

#[local] Open Scope Z_scope.
#[local] Open Scope c_scope.
#[local] Open Scope io_scope.

Section Thm.
Context {A D : Type} `{FrameAllocator A} `{BlockDevice D}.
Abbreviation kern := (kernel A D).

(** The pages of [lo, hi) that are mapped lie on frames of their own, which the
    allocator will not hand out and which hold no page table. *)
Record private (p : paging A) (lo hi : Z) : Prop := {
  pv_frame va e : lo ≤ va < hi → pte p va = Some e → ¬ owned_frame p (page_of e);
  pv_inj va wa e e' : lo ≤ va < hi → lo ≤ wa < hi → pte p va = Some e → pte p wa = Some e' →
    page_of e = page_of e' → va / 4096 = wa / 4096
}.

(** The byte at a virtual address, if it is mapped. *)
Definition view (s : kern) (va : Z) : option Z := a ← mmu (paging_of s) va; Some (ld (k_ram s) a).

(** [s'] is [s] with other page tables and other bytes in RAM. *)
Definition moved (s s' : kern) : Prop := ∃ p m, s' = with_ram m (with_paging p s).

Lemma moved_trans s1 s2 s3 : moved s1 s2 → moved s2 s3 → moved s1 s3.
Proof. intros (p & m & ->) (p' & m' & ->). by exists p', m'. Qed.
Lemma moved_refl s : moved s s.
Proof. exists (paging_of s), (k_ram s). by destruct s as [[? ? ? ? ? ? ? []] ? ? ?]. Qed.

(** [x] is one of the [n] addresses from [d] on. *)
Definition inside (d n x : Z) : bool := (d <=? x) && (x <? d + n).

Lemma insideP d n x : reflect (d ≤ x < d + n) (inside d n x).
Proof. apply iff_reflect. unfold inside. rewrite andb_true_iff, Z.leb_le, Z.ltb_lt. done. Qed.

(** ** Loads and stores *)

Section Region.
Context (lo hi : Z) (Hlo : 0 ≤ lo) (Hhi : hi ≤ 2 ^ 32).

Lemma mmu_inj p va wa a :
  private p lo hi → lo ≤ va < hi → lo ≤ wa < hi → mmu p va = Some a → mmu p wa = Some a → va = wa.
Proof.
  intros Hp Hv Hw. unfold mmu.
  destruct (pte p va) as [e|] eqn:E; [|done]. destruct (pte p wa) as [e'|] eqn:E'; [|done].
  cbn [mbind option_bind]. intros [= <-] [= Ha].
  assert (page_of e = page_of e') as Hpg by (unfold page_of in *; clear -Ha; zlia).
  pose proof (pv_inj _ _ _ Hp va wa e e' Hv Hw E E' Hpg).
  assert (va mod 4096 = wa mod 4096) by lia. clear -H1 H2. zlia.
Qed.

Lemma vstore_view s va b a :
  private (paging_of s) lo hi → lo ≤ va < hi → mmu (paging_of s) va = Some a →
  vstore va b s = Some (with_ram (st (k_ram s) a b) s, tt) ∧
  ∀ wa, lo ≤ wa < hi → view (with_ram (st (k_ram s) a b) s) wa = if wa =? va then Some b else view s wa.
Proof.
  intros Hp Hv Ha. unfold vstore. rewrite u32_small by lia. rewrite Ha. split; [done|].
  intros wa Hw. unfold view. change (paging_of (with_ram _ s)) with (paging_of s). cbn [with_ram k_ram].
  destruct (Z.eqb_spec wa va) as [->|Hne].
  - rewrite Ha. cbn [mbind option_bind]. by rewrite ld_st_eq.
  - destruct (mmu (paging_of s) wa) as [a'|] eqn:E; [|done]. cbn [mbind option_bind].
    rewrite ld_st_ne; [done|]. intros <-. apply Hne. by apply (mmu_inj (paging_of s) wa va a).
Qed.

(** Bytes stored in mapped, private memory. *)
Lemma vput_view l d s :
  private (paging_of s) lo hi → lo ≤ d → d + zlen l ≤ hi →
  (∀ wa, d ≤ wa < d + zlen l → is_Some (mmu (paging_of s) wa)) →
  ∃ m, vput d l s = Some (with_ram m s, tt) ∧
  ∀ wa, lo ≤ wa < hi → view (with_ram m s) wa =
    if inside d (zlen l) wa then Some (arr_get l (wa - d)) else view s wa.
Proof.
  revert d s. induction l as [|b l IH]; intros d s Hp Hd Hl Hm.
  - exists (k_ram s). split; [by destruct s|]. intros wa Hw. change (zlen (@nil Z)) with 0.
    destruct (insideP d 0 wa); [lia|by destruct s].
  - assert (zlen (b :: l) = zlen l + 1) as E by (unfold zlen; simpl; lia). rewrite E in *.
    assert (0 ≤ zlen l) by (unfold zlen; lia).
    destruct (Hm d ltac:(lia)) as [a Ha].
    destruct (vstore_view s d b a Hp ltac:(lia) Ha) as [Hs Hv].
    set (s1 := with_ram (st (k_ram s) a b) s) in *.
    destruct (IH (d + 1) s1) as (m & Hput & Hview); [done|lia|lia| |].
    { intros wa Hw. apply Hm. lia. }
    exists m. split. { cbn [vput]. unfold io_bind. rewrite Hs. exact Hput. }
    intros wa Hw. change (with_ram m s) with (with_ram m s1). rewrite Hview, Hv by done.
    destruct (insideP (d + 1) (zlen l) wa), (insideP d (zlen l + 1) wa), (Z.eqb_spec wa d) as [->|Hne];
      try lia; [|by rewrite Z.sub_diag|done].
    replace (wa - d) with (wa - (d + 1) + 1) by lia. by rewrite arr_get_cons_S by lia.
Qed.

(** [memset] stores copies of the byte. *)
Lemma vmemset_put n d c s : vmemset n d c s = vput (A:=A) (D:=D) d (replicate n (u8 c)) s.
Proof.
  revert d s. induction n as [|n IH]; intros d s; [done|]. cbn [vmemset vput replicate]. unfold io_bind.
  destruct (vstore d (u8 c) s) as [[s' x]|]; [apply IH|done].
Qed.

(** [memcpy] stores the bytes of the source when it lies elsewhere. *)
Lemma vmemcpy_put l d src s :
  private (paging_of s) lo hi → lo ≤ d → d + zlen l ≤ hi → lo ≤ src → src + zlen l ≤ hi →
  d + zlen l ≤ src ∨ src + zlen l ≤ d →
  (∀ wa, d ≤ wa < d + zlen l → is_Some (mmu (paging_of s) wa)) →
  (∀ i, 0 ≤ i < zlen l → view s (src + i) = Some (arr_get l i)) →
  vmemcpy (length l) d src s = vput d l s.
Proof.
  revert d src s. induction l as [|b l IH]; intros d src s Hp Hd Hl Hs Hsl Hdis Hm Hv; [done|].
  assert (zlen (b :: l) = zlen l + 1) as E by (unfold zlen; simpl; lia). rewrite E in *.
  assert (0 ≤ zlen l) by (unfold zlen; lia).
  pose proof (Hv 0 ltac:(lia)) as Hz. rewrite Z.add_0_r in Hz. change (arr_get (b :: l) 0) with b in Hz.
  cbn [vmemcpy vput length]. unfold io_bind, vload at 1. rewrite u32_small by lia.
  unfold view in Hz. destruct (mmu (paging_of s) src) as [a|] eqn:Ea; [|done].
  cbn [mbind option_bind] in Hz. injection Hz as Hz. rewrite Hz.
  destruct (Hm d ltac:(lia)) as [a' Ha'].
  destruct (vstore_view s d b a' Hp ltac:(lia) Ha') as [Hst Hview]. rewrite Hst.
  apply IH; [done|lia|lia|lia|lia|lia| |].
  - intros wa Hw. apply Hm. lia.
  - intros i Hi. rewrite Hview by lia. destruct (Z.eqb_spec (src + 1 + i) d); [lia|].
    replace (src + 1 + i) with (src + (i + 1)) by lia. rewrite Hv by lia. by rewrite arr_get_cons_S by lia.
Qed.

End Region.

Lemma vput_app l l' d (s : kern) : vput d (l ++ l') s = (vput d l ;! vput (d + zlen l) l') s.
Proof.
  revert d s. induction l as [|b l IH]; intros d s; cbn [app vput]; [unfold io_bind, io_ret; by rewrite Z.add_0_r|].
  unfold io_bind at 1 2 3. destruct (vstore d b s) as [[s' []]|]; [|done]. rewrite IH. unfold io_bind.
  replace (d + zlen (b :: l)) with (d + 1 + zlen l) by (unfold zlen; simpl; lia). done.
Qed.

(** ** New pages

    The program's part of the address space is [lo, mid); what the kernel keeps
    above it, [mid, hi), stays as it is. *)

Section Loading.
Context (lo mid hi : Z) (Hlo : 0 ≤ lo) (Hlom : lo mod 4096 = 0) (Hmid : mid mod 4096 = 0)
  (Hle : lo ≤ mid ≤ hi) (Hhi : hi ≤ 2 ^ 32).

Definition user_flags : Z := PAGE_PRESENT ||| PAGE_WRITE ||| PAGE_USER.

Record kept (s s' : kern) : Prop := {
  ke_moved : moved s s';
  ke_wf : paging_wf (paging_of s');
  ke_private : private (paging_of s') lo hi;
  ke_count : fa_count (pg_frames (paging_of s')) ≤ fa_count (pg_frames (paging_of s));
  ke_view x : mid ≤ x < hi → view s' x = view s x;
  ke_mapped x : lo ≤ x < hi → is_Some (view s x) → is_Some (view s' x);
  ke_pte x : 0 ≤ x < 2 ^ 32 →
    pte (paging_of s') x = pte (paging_of s) x ∨
    lo ≤ x < mid ∧ pte (paging_of s) x = None ∧ ∃ f, pte (paging_of s') x = Some (pte_value f user_flags)
}.

Lemma kept_refl (s : kern) : paging_wf (paging_of s) → private (paging_of s) lo hi → kept s s.
Proof. intros Hw Hp. split; [apply moved_refl|done|done|lia|done|done|by left]. Qed.

Lemma kept_trans s1 s2 s3 : kept s1 s2 → kept s2 s3 → kept s1 s3.
Proof.
  intros [M1 W1 P1 C1 V1 D1 T1] [M2 W2 P2 C2 V2 D2 T2]. split; [by eapply moved_trans|done|done|lia| | |].
  - intros x Hx. rewrite V2, V1; done.
  - intros x Hx Hs. by apply D2, D1.
  - intros x Hx. destruct (T1 x Hx) as [E1|(Hr & E1 & f & E1')], (T2 x Hx) as [E2|(Hr2 & E2 & g & E2')].
    + left. congruence.
    + right. rewrite <- E1. eauto.
    + right. rewrite E2. eauto.
    + congruence.
Qed.

(** What a view becomes when the pages of [P] are mapped: those that were not
    read as zeros. *)
Definition mapped_zero (P : Z → bool) (V : Z → option Z) (x : Z) : option Z :=
  match V x with Some b => Some b | None => if P x then Some 0 else None end.

Lemma mapped_zero_or P Q V x : mapped_zero P (mapped_zero Q V) x = mapped_zero (λ x, P x || Q x) V x.
Proof. unfold mapped_zero. destruct (V x); [done|]. by destruct (Q x), (P x). Qed.

Lemma view_none (s : kern) x : view s x = None ↔ pte (paging_of s) x = None.
Proof. unfold view, mmu. by destruct (pte (paging_of s) x). Qed.

Definition same_page (a x : Z) : bool := x / 4096 =? a / 4096.

Lemma page_base va : 0 ≤ va < 2 ^ 32 → va &&& u32_not (PAGE_SIZE - 1) = page_of va.
Proof. intros Hva. unfold page_of. change (PAGE_SIZE - 1) with (Z.ones 12). by rewrite land_align by lia. Qed.

(** The state when a frame has just been mapped at the page of [va]. *)
Lemma new_page_private (s : kern) p2 va f :
  paging_wf (paging_of s) → private (paging_of s) lo hi → lo ≤ va < mid → pte (paging_of s) va = None →
  paging_wf p2 → ¬ owned_frame p2 f → f mod 4096 = 0 → 0 < f < 2 ^ 32 →
  fa_is_free (pg_frames (paging_of s)) f →
  (∀ q, owned_frame p2 q → owned_frame (paging_of s) q) →
  fa_count (pg_frames p2) ≤ fa_count (pg_frames (paging_of s)) - 1 →
  (∀ w, 0 ≤ w < 2 ^ 32 → pte p2 w = if w / 4096 =? va / 4096 then Some (pte_value f user_flags)
                                     else pte (paging_of s) w) →
  private p2 lo hi.
Proof.
  intros Hw Hp Hva Hnone Hw2 Hn Hf0 Hfr Hfree Ho Hc Hpte.
  assert (page_of (pte_value f user_flags) = f) as Hpf.
  { destruct (pte_value_spec f user_flags ltac:(lia)) as (Hr & Hm & _). rewrite addr_mask in Hm by done.
    unfold page_of in *. lia. }
  assert (∀ w e, lo ≤ w < hi → pte (paging_of s) w = Some e → page_of e ≠ f) as Hdis.
  { intros w e Hwr E <-. apply (pv_frame _ _ _ Hp w e Hwr E). by right; left. }
  split.
  - intros w e Hwr. rewrite Hpte by lia. destruct (_ =? _).
    + intros [= <-]. by rewrite Hpf.
    + intros E Hq%Ho. by apply (pv_frame _ _ _ Hp w e).
  - intros v w e e' Hv Hwr. rewrite !Hpte by lia.
    destruct (Z.eqb_spec (v / 4096) (va / 4096)), (Z.eqb_spec (w / 4096) (va / 4096)).
    + intros; congruence.
    + intros [= <-] E Heq. rewrite Hpf in Heq. by destruct (Hdis w e').
    + intros E [= <-] Heq. rewrite Hpf in Heq. by destruct (Hdis v e).
    + intros E E' Heq. by apply (pv_inj _ _ _ Hp v w e e').
Qed.

Lemma pte_page (p : paging A) v w : v / 4096 = w / 4096 → pte p v = pte p w.
Proof. intros E. destruct (page_indices _ _ E) as [E1 E2]. unfold pte. by rewrite E1, E2. Qed.

Lemma private_sub (p p' : paging A) :
  private p lo hi → (∀ q, owned_frame p' q → owned_frame p q) → (∀ w, pte p' w = pte p w) → private p' lo hi.
Proof.
  intros Hp Ho Hpte. split.
  - intros va e Hva. rewrite Hpte. intros E Hq%Ho. by apply (pv_frame _ _ _ Hp va e).
  - intros va wa e e' Hv Hw. rewrite !Hpte. by apply (pv_inj _ _ _ Hp).
Qed.

Lemma kept_paging (s : kern) p' :
  private (paging_of s) lo hi → paging_wf p' → (∀ q, owned_frame p' q → owned_frame (paging_of s) q) →
  fa_count (pg_frames p') ≤ fa_count (pg_frames (paging_of s)) → (∀ w, pte p' w = pte (paging_of s) w) →
  kept s (with_paging p' s).
Proof.
  intros Hp Hw Ho Hc Hpte.
  assert (∀ x, view (with_paging p' s) x = view s x) as Hv.
  { intros x. unfold view, mmu. change (paging_of (with_paging p' s)) with p'. by rewrite Hpte. }
  split; [by exists p', (k_ram s)|done|by apply (private_sub (paging_of s))|done|by intros x _| |].
  - intros x _. by rewrite Hv.
  - intros x _. left. apply Hpte.
Qed.

Lemma arr_get_zeros n i : arr_get (replicate n (u8 0)) i = 0.
Proof.
  unfold arr_get. zcase; [done|]. destruct (replicate n (u8 0) !! Z.to_nat i) eqn:E; [|done].
  by apply lookup_replicate in E as [-> _].
Qed.

(** Zeroing the page just mapped. *)
Lemma zero_page_view (s1 : kern) va :
  private (paging_of s1) lo hi → lo ≤ va < mid → is_Some (pte (paging_of s1) va) →
  ∃ m, vmemset 4096 (page_of va) 0 s1 = Some (with_ram m s1, tt) ∧
  ∀ x, lo ≤ x < hi → view (with_ram m s1) x = if same_page va x then Some 0 else view s1 x.
Proof.
  intros Hp Hva [e He].
  assert (zlen (replicate 4096 (u8 0)) = 4096) as Hz by (unfold zlen; rewrite length_replicate; done).
  assert (lo ≤ page_of va ∧ page_of va + 4096 ≤ mid) as [H1 H2] by (unfold page_of; clear -Hlom Hmid Hva; zlia).
  destruct (vput_view lo hi Hlo Hhi (replicate 4096 (u8 0)) (page_of va) s1) as (m & Hm & Hview);
    [done|done|rewrite Hz; lia| |].
  { rewrite Hz. intros x Hx. unfold mmu. rewrite (pte_page _ x va), He; [done|].
    unfold page_of in Hx. clear -Hx. zlia. }
  exists m. split; [by rewrite vmemset_put|]. intros x Hx. rewrite Hview, Hz by done. unfold same_page.
  destruct (insideP (page_of va) 4096 x) as [Hin|Hout], (Z.eqb_spec (x / 4096) (va / 4096)) as [E|E]; try done.
  - f_equal. apply arr_get_zeros.
  - exfalso. apply E. unfold page_of in Hin. clear -Hin. zlia.
  - exfalso. apply Hout. unfold page_of. clear -E. zlia.
Qed.

Lemma ensure_page_spec (s : kern) va :
  paging_wf (paging_of s) → private (paging_of s) lo hi → lo ≤ va < mid →
  ∃ s' r, ensure_page va s = Some (s', r) ∧ kept s s' ∧
  (r = 0 ∧ (∀ x, lo ≤ x < hi → view s' x = mapped_zero (same_page va) (view s) x) ∨
   r = -1 ∧ fa_count (pg_frames (paging_of s')) ≤ 1).
Proof.
  intros Hw Hp Hva. pose proof (pw_frames _ Hw) as Hi.
  unfold ensure_page, io_bind at 1, io_get. rewrite page_base, get_phys_pte by (done || lia).
  rewrite (pte_page _ (page_of va) va) by (unfold page_of; clear; zlia).
  destruct (pte (paging_of s) va) as [e|] eqn:He.
  - replace (page_of e + page_of va mod 4096 =? 0xFFFFFFFF) with false
      by (symmetry; apply Z.eqb_neq; unfold page_of; clear; zlia).
    exists s, 0. split; [done|]. split; [by apply kept_refl|]. left. split; [done|]. intros x Hx.
    unfold mapped_zero, same_page. destruct (view s x) eqn:Ev; [done|]. apply view_none in Ev.
    destruct (Z.eqb_spec (x / 4096) (va / 4096)) as [E|]; [|done].
    rewrite (pte_page _ x va) in Ev by done. congruence.
  - change (0xFFFFFFFF =? 0xFFFFFFFF) with true. cbn [negb].
    unfold io_bind at 1, on_paging at 1, alloc_frame.
    destruct (fa_alloc (pg_frames (paging_of s))) as [a f] eqn:Hall. destruct (Z.eqb_spec f 0) as [->|Hf].
    + destruct (fa_alloc_full _ _ Hi Hall) as [-> Hno]. eexists _, _. split; [done|].
      assert (with_frames (pg_frames (paging_of s)) (paging_of s) = paging_of s) as -> by by destruct (paging_of s).
      split; [by apply kept_paging|]. right. split; [done|]. change (paging_of (with_paging _ s)) with (paging_of s).
      by rewrite (fa_full_count _ Hi Hno).
    + pose proof (map_fresh (paging_of s) a f (page_of va) user_flags Hw Hall Hf
        ltac:(unfold page_of; clear -Hva Hlo Hle Hhi; zlia)) as Hm.
      unfold io_bind at 1, on_paging at 1. change (paging_of (with_paging _ s)) with (with_frames a (paging_of s)).
      change (PAGE_PRESENT ||| PAGE_WRITE ||| PAGE_USER) with user_flags.
      destruct (paging_map (page_of va) f user_flags _) as [p2 r].
      destruct Hm as [(-> & Hw2 & Hfree & Hn & Hf0 & Hfr & Ho2 & Hc2 & Hpte)|(-> & Hw3 & Ho3 & Hc3 & Hone & Hpte)].
      * assert (page_of va / 4096 = va / 4096) as Epg by (unfold page_of; clear; zlia). rewrite Epg in Hpte.
        change (negb (0 =? 0)) with false. cbv iota. set (s1 := with_paging p2 (with_paging _ s)).
        assert (private (paging_of s1) lo hi) as Hp1 by (by eapply (new_page_private s p2 va f)).
        destruct (zero_page_view s1 va Hp1 Hva) as (m & Hm & Hview).
        { change (paging_of s1) with p2. rewrite Hpte by lia. rewrite Z.eqb_refl. done. }
        assert (∀ x, lo ≤ x < hi → view (with_ram m s1) x = mapped_zero (same_page va) (view s) x) as Hv.
        { intros x Hx. rewrite Hview by done. unfold mapped_zero, same_page.
          destruct (Z.eqb_spec (x / 4096) (va / 4096)) as [E|E].
          - by rewrite (proj2 (view_none s x)) by (rewrite (pte_page _ x va); done).
          - unfold view, mmu. change (paging_of s1) with p2. change (k_ram s1) with (k_ram s).
            rewrite Hpte by lia. rewrite (proj2 (Z.eqb_neq _ _) E). by destruct (pte (paging_of s) x). }
        exists (with_ram m s1), 0. split; [unfold io_bind; by rewrite Hm|]. split; [|by left].
        split; [by exists p2, m|done|done|change (paging_of (with_ram m s1)) with p2; lia| | |].
        -- intros x Hx. rewrite Hv by lia. unfold mapped_zero, same_page. destruct (view s x); [done|].
           destruct (Z.eqb_spec (x / 4096) (va / 4096)) as [E|]; [|done]. exfalso. clear -E Hva Hx Hmid. zlia.
        -- intros x Hx [b Hb]. rewrite Hv by done. unfold mapped_zero. by rewrite Hb.
        -- intros x Hx. change (paging_of (with_ram m s1)) with p2. rewrite Hpte by done.
           destruct (Z.eqb_spec (x / 4096) (va / 4096)) as [E|]; [|by left]. right.
           split; [clear -E Hva Hmid Hlom; zlia|]. split; [by rewrite (pte_page _ x va)|by exists f].
      * eexists _, _. split; [done|]. split; [|right; split; [done|]].
        -- change (with_paging _ (with_paging p2 _)) with
             (with_paging (with_frames (fa_free f (pg_frames p2)) p2) s). apply kept_paging; auto; lia.
        -- change (paging_of _) with (with_frames (fa_free f (pg_frames p2)) p2). lia.
Qed.

(** ** Segments *)

Context (Hroom : mid + 4096 ≤ 2 ^ 32).

Lemma mapped_zero_ext P Q V x : P x = Q x → mapped_zero P V x = mapped_zero Q V x.
Proof. unfold mapped_zero. by intros ->. Qed.

(** The pages [pages_loop] maps. *)
Definition steps (a end_ x : Z) : bool :=
  (a <? end_) && (a / 4096 <=? x / 4096) && (x / 4096 <=? a / 4096 + (end_ - 1 - a) / 4096).

Lemma pages_loop_spec fuel (s : kern) a end_ :
  paging_wf (paging_of s) → private (paging_of s) lo hi → lo ≤ a → end_ ≤ mid →
  (a < end_ → (end_ - 1 - a) / 4096 + 1 < Z.of_nat fuel) → (0 < fuel)%nat →
  ∃ s' r, pages_loop fuel a end_ s = Some (s', r) ∧ kept s s' ∧
  (r = 0 ∧ (∀ x, lo ≤ x < hi → view s' x = mapped_zero (steps a end_) (view s) x) ∨
   r = -1 ∧ fa_count (pg_frames (paging_of s')) ≤ 1).
Proof.
  revert s a. induction fuel as [|fuel IH]; intros s a Hw Hp Ha He Hf H1; [lia|]. cbn [pages_loop].
  destruct (Z.ltb_spec a end_) as [Hlt|Hge].
  2: { exists s, 0. split; [done|]. split; [by apply kept_refl|]. left. split; [done|]. intros x _.
       unfold mapped_zero, steps. rewrite (proj2 (Z.ltb_ge _ _)) by lia. by destruct (view s x). }
  specialize (Hf Hlt).
  destruct (ensure_page_spec s a Hw Hp ltac:(lia)) as (s1 & r & E1 & K1 & Hr). unfold io_bind. rewrite E1.
  destruct Hr as [(-> & Hv1)|(-> & Hc)]; cbn [Z.eqb negb].
  2: { exists s1, (-1). split; [done|]. split; [done|]. by right. }
  rewrite u32_small by (unfold PAGE_SIZE; lia).
  destruct (IH s1 (a + PAGE_SIZE) (ke_wf _ _ K1) (ke_private _ _ K1)) as (s2 & r & E2 & K2 & Hr);
    unfold PAGE_SIZE in *; [lia|done|intros _; clear -Hf; zlia|clear -Hf Hlt; zlia|].
  exists s2, r. split; [exact E2|]. split; [by eapply kept_trans|].
  destruct Hr as [(-> & Hv2)|?]; [left|by right]. split; [done|]. intros x Hx.
  rewrite Hv2 by done. unfold mapped_zero at 1. rewrite Hv1 by done.
  change (mapped_zero (steps (a + 4096) end_) (mapped_zero (same_page a) (view s)) x =
          mapped_zero (steps a end_) (view s) x).
  rewrite mapped_zero_or. apply mapped_zero_ext. unfold steps, same_page.
  rewrite (proj2 (Z.ltb_lt a end_) Hlt). cbn [andb].
  apply eq_true_iff_eq. rewrite orb_true_iff, !andb_true_iff, !Z.leb_le, Z.ltb_lt, Z.eqb_eq.
  clear -Hlt. zlia.
Qed.

(** A loadable segment of a program, as its header gives it. *)
Record segment := Segment { sg_vaddr : Z; sg_off : Z; sg_filesz : Z; sg_memsz : Z }.

(** The pages of [n] bytes from [a] on. *)
Definition span (a n x : Z) : bool :=
  (0 <? n) && (a / 4096 <=? x / 4096) && (x / 4096 <=? (a + n - 1) / 4096).

(** Memory after a segment of the file [f] was loaded: its bytes where they
    belong, zeros in the rest of the pages that were not mapped before. *)
Definition place (f : list Z) (g : segment) (V : Z → option Z) (x : Z) : option Z :=
  if inside (sg_vaddr g) (sg_filesz g) x then Some (arr_get f (sg_off g + (x - sg_vaddr g)))
  else mapped_zero (span (sg_vaddr g) (sg_memsz g)) V x.

Definition seg_ok (f : list Z) (g : segment) : Prop :=
  lo ≤ sg_vaddr g ∧ sg_vaddr g + sg_memsz g ≤ mid ∧ 0 ≤ sg_filesz g ≤ sg_memsz g ∧
  0 ≤ sg_off g ∧ sg_off g + sg_filesz g ≤ zlen f.

(** The bytes [f] are in the kernel's part of memory at [a]. *)
Definition resident (s : kern) (a : Z) (f : list Z) : Prop :=
  mid ≤ a ∧ a + zlen f ≤ hi ∧ ∀ i, 0 ≤ i < zlen f → view s (a + i) = Some (arr_get f i).

Lemma resident_kept (s s' : kern) a f : kept s s' → resident s a f → resident s' a f.
Proof.
  intros K (H1 & H2 & H3). split_and!; [done|done|]. intros i Hi. rewrite (ke_view _ _ K) by lia. by apply H3.
Qed.

Lemma kept_ram (s : kern) m :
  paging_wf (paging_of s) → private (paging_of s) lo hi →
  (∀ x, mid ≤ x < hi → view (with_ram m s) x = view s x) → kept s (with_ram m s).
Proof.
  intros Hw Hp Hv. split; [|done|done|done|done| |by left].
  - exists (paging_of s), m. by destruct s as [[? ? ? ? ? ? ? []] ? ? ?].
  - intros x _. unfold view. change (paging_of (with_ram m s)) with (paging_of s). by destruct (mmu (paging_of s) x).
Qed.

(** The copy that ends [load_segment]. *)
Lemma copy_spec (s : kern) elf f g :
  paging_wf (paging_of s) → private (paging_of s) lo hi → seg_ok f g → resident s elf f →
  (∀ x, sg_vaddr g ≤ x < sg_vaddr g + sg_filesz g → is_Some (view s x)) →
  ∃ m, vmemcpy (Z.to_nat (sg_filesz g)) (sg_vaddr g) (elf + sg_off g) s = Some (with_ram m s, tt) ∧
  kept s (with_ram m s) ∧
  ∀ x, lo ≤ x < hi → view (with_ram m s) x =
    if inside (sg_vaddr g) (sg_filesz g) x then Some (arr_get f (sg_off g + (x - sg_vaddr g))) else view s x.
Proof.
  intros Hw Hp (Hg1 & Hg2 & Hg3 & Hg4 & Hg5) (Hr1 & Hr2 & Hr3) Hm.
  set (l := take (Z.to_nat (sg_filesz g)) (drop (Z.to_nat (sg_off g)) f)).
  assert (length l = Z.to_nat (sg_filesz g)) as Hll.
  { unfold l. rewrite length_take, length_drop. unfold zlen in *. lia. }
  assert (zlen l = sg_filesz g) as Hl by (unfold zlen; rewrite Hll; lia).
  assert (∀ i, 0 ≤ i < sg_filesz g → arr_get l i = arr_get f (sg_off g + i)) as Hget.
  { intros i Hi. unfold arr_get, l. do 2 (rewrite (proj2 (Z.ltb_ge _ 0)) by lia).
    rewrite lookup_take_lt by lia. rewrite lookup_drop. do 2 f_equal. lia. }
  assert (∀ wa, sg_vaddr g ≤ wa < sg_vaddr g + zlen l → is_Some (mmu (paging_of s) wa)) as Hmm.
  { intros wa Hwa. rewrite Hl in Hwa. destruct (Hm wa Hwa) as [b Hb]. unfold view in Hb.
    by destruct (mmu (paging_of s) wa). }
  destruct (vput_view lo hi Hlo Hhi l (sg_vaddr g) s Hp ltac:(lia) ltac:(lia) Hmm) as (m & E & Hv).
  exists m. rewrite Hl in Hv.
  assert (∀ x, lo ≤ x < hi → view (with_ram m s) x =
    if inside (sg_vaddr g) (sg_filesz g) x then Some (arr_get f (sg_off g + (x - sg_vaddr g))) else view s x) as Hv'.
  { intros x Hx. rewrite Hv by done. destruct (insideP (sg_vaddr g) (sg_filesz g) x); [|done]. rewrite Hget by lia. done. }
  split_and!; [| |exact Hv'].
  - rewrite <- Hll, <- E. apply (vmemcpy_put lo hi Hlo Hhi); [done|lia|lia|lia|lia|lia|done|].
    intros i Hi. rewrite Hget by lia. rewrite <- Z.add_assoc. apply Hr3. lia.
  - apply kept_ram; [done|done|]. intros x Hx. rewrite Hv' by lia.
    destruct (insideP (sg_vaddr g) (sg_filesz g) x); [lia|done].
Qed.

Lemma span_steps a n x :
  0 ≤ a → 0 ≤ n → (steps a (a + n) x || ((0 <? n) && same_page (a + n - 1) x)) = span a n x.
Proof.
  intros Ha Hn. unfold steps, same_page, span. apply eq_true_iff_eq.
  rewrite orb_true_iff, !andb_true_iff, !Z.leb_le, !Z.ltb_lt, Z.eqb_eq. clear -Ha Hn. zlia.
Qed.

Lemma load_segment_spec (s : kern) elf f g :
  paging_wf (paging_of s) → private (paging_of s) lo hi → seg_ok f g → resident s elf f →
  ∃ s' r, load_segment elf (sg_vaddr g) (sg_off g) (sg_filesz g) (sg_memsz g) s = Some (s', r) ∧ kept s s' ∧
  (r = 0 ∧ (∀ x, lo ≤ x < hi → view s' x = place f g (view s) x) ∨
   r = -1 ∧ fa_count (pg_frames (paging_of s')) ≤ 1).
Proof.
  intros Hw Hp Hg Hr. pose proof Hg as (Hg1 & Hg2 & Hg3 & Hg4 & Hg5). unfold load_segment.
  rewrite u32_small by lia.
  destruct (pages_loop_spec (pages_fuel (sg_memsz g)) s (sg_vaddr g) (sg_vaddr g + sg_memsz g) Hw Hp Hg1 Hg2)
    as (s1 & r & E1 & K1 & Hc1).
  { unfold pages_fuel, PAGE_SIZE. intros _. clear -Hg3. zlia. }
  { unfold pages_fuel, PAGE_SIZE. clear -Hg3. zlia. }
  unfold io_bind at 1. rewrite E1. destruct Hc1 as [(-> & Hv1)|(-> & Hc)]; cbn [Z.eqb negb].
  2: { exists s1, (-1). split; [done|]. split; [done|]. by right. }
  assert (∃ s2 r, (if 0 <? sg_memsz g then ensure_page (u32 (sg_vaddr g + sg_memsz g - 1)) else io_ret 0) s1 = Some (s2, r) ∧
    kept s1 s2 ∧ (r = 0 ∧ (∀ x, lo ≤ x < hi → view s2 x = mapped_zero (λ x, (0 <? sg_memsz g) && same_page (sg_vaddr g + sg_memsz g - 1) x) (view s1) x) ∨
    r = -1 ∧ fa_count (pg_frames (paging_of s2)) ≤ 1)) as (s2 & r & E2 & K2 & Hc2).
  { destruct (Z.ltb_spec 0 (sg_memsz g)).
    - rewrite u32_small by lia. apply ensure_page_spec; [apply K1|apply K1|lia].
    - exists s1, 0. split; [done|]. split; [apply kept_refl; apply K1|]. left. split; [done|].
      intros x _. unfold mapped_zero. by destruct (view s1 x). }
  unfold io_bind at 1. rewrite E2. destruct Hc2 as [(-> & Hv2)|(-> & Hc)]; cbn [Z.eqb negb].
  2: { exists s2, (-1). split; [done|]. split; [by eapply kept_trans|]. by right. }
  assert (∀ x, lo ≤ x < hi → view s2 x = mapped_zero (span (sg_vaddr g) (sg_memsz g)) (view s) x) as Hv.
  { intros x Hx. rewrite Hv2 by done. unfold mapped_zero at 1. rewrite Hv1 by done.
    change (mapped_zero (λ x, (0 <? sg_memsz g) && same_page (sg_vaddr g + sg_memsz g - 1) x)
      (mapped_zero (steps (sg_vaddr g) (sg_vaddr g + sg_memsz g)) (view s)) x = mapped_zero (span (sg_vaddr g) (sg_memsz g)) (view s) x).
    rewrite mapped_zero_or. apply mapped_zero_ext. rewrite orb_comm. apply span_steps; lia. }
  assert (kept s s2) as K by (by eapply kept_trans).
  destruct (copy_spec s2 elf f g (ke_wf _ _ K) (ke_private _ _ K) Hg (resident_kept _ _ _ _ K Hr)) as (m & E3 & K3 & Hv3).
  { intros x Hx. rewrite Hv by lia. unfold mapped_zero, span. destruct (view s x); [done|].
    replace ((0 <? sg_memsz g) && _ && _) with true; [done|]. symmetry.
    rewrite !andb_true_iff, !Z.leb_le, !Z.ltb_lt. clear -Hx Hg3. zlia. }
  exists (with_ram m s2), 0. split; [unfold io_bind; by rewrite E3|]. split; [by eapply kept_trans|].
  left. split; [done|]. intros x Hx. rewrite Hv3 by done. unfold place.
  destruct (insideP (sg_vaddr g) (sg_filesz g) x); [done|by apply Hv].
Qed.

(** ** The program headers *)

Definition file_u16 (f : list Z) (o : Z) : Z := u16 (arr_get f o ||| (arr_get f (o + 1) <<< 8)).
Definition file_u32 (f : list Z) (o : Z) : Z :=
  arr_get f o ||| u32 (arr_get f (o + 1) <<< 8) ||| u32 (arr_get f (o + 2) <<< 16) ||| u32 (arr_get f (o + 3) <<< 24).

Lemma vload_resident (s : kern) a f o :
  resident s a f → 0 ≤ o < zlen f → vload (a + o) s = Some (s, arr_get f o).
Proof.
  intros (H1 & H2 & H3) Ho. unfold vload. rewrite u32_small by lia. specialize (H3 o Ho). unfold view in H3.
  destruct (mmu (paging_of s) (a + o)); [|done]. cbn [mbind option_bind] in H3. by injection H3 as ->.
Qed.

Lemma rd32_resident (s : kern) a f o :
  resident s a f → 0 ≤ o → o + 4 ≤ zlen f → rd32 (a + o) s = Some (s, file_u32 f o).
Proof.
  intros Hr H1 H2. unfold rd32, io_bind. rewrite <- !Z.add_assoc, !(vload_resident _ _ _ _ Hr) by lia. done.
Qed.

Lemma rd16_resident (s : kern) a f o :
  resident s a f → 0 ≤ o → o + 2 ≤ zlen f → rd16 (a + o) s = Some (s, file_u16 f o).
Proof.
  intros Hr H1 H2. unfold rd16, io_bind. rewrite <- !Z.add_assoc, !(vload_resident _ _ _ _ Hr) by lia. done.
Qed.

(** The segment the [i]th program header of [f] asks for, if it is [PT_LOAD]. *)
Definition header_off (f : list Z) (i : Z) : Z := file_u32 f E_PHOFF + i * file_u16 f E_PHENTSIZE.
Definition segment_at (f : list Z) (i : Z) : option segment :=
  let ph := header_off f i in
  if file_u32 f (ph + P_TYPE) =? 1 then
    Some (Segment (file_u32 f (ph + P_VADDR)) (file_u32 f (ph + P_OFFSET)) (file_u32 f (ph + P_FILESZ)) (file_u32 f (ph + P_MEMSZ)))
  else None.

Definition headers (f : list Z) : list Z := seqZ 0 (file_u16 f E_PHNUM).
Definition segments (f : list Z) : list segment := omap (segment_at f) (headers f).

(** The memory image of a program: its segments in order. *)
Definition image (f : list Z) (gs : list segment) (V : Z → option Z) : Z → option Z :=
  fold_left (λ V g, place f g V) gs V.

Lemma place_ext f g V V' x : V x = V' x → place f g V x = place f g V' x.
Proof. intros E. unfold place, mapped_zero. by rewrite E. Qed.

Lemma image_ext f gs V V' x : V x = V' x → image f gs V x = image f gs V' x.
Proof.
  revert V V'. induction gs as [|g gs IH]; intros V V' E; [done|]. unfold image. cbn [fold_left].
  apply IH. by apply place_ext.
Qed.

(** Every program header lies in the file, and every segment in the program's
    part of the address space, with its bytes in the file. *)
Definition program_ok (f : list Z) : Prop :=
  52 ≤ zlen f ∧ 0 ≤ file_u32 f E_PHOFF ∧
  ∀ i, 0 ≤ i < file_u16 f E_PHNUM →
    0 ≤ header_off f i ∧ header_off f i + 24 ≤ zlen f ∧ ∀ g, segment_at f i = Some g → seg_ok f g.

Lemma headers_loop_spec n i (s : kern) elf f :
  paging_wf (paging_of s) → private (paging_of s) lo hi → program_ok f → resident s elf f →
  0 ≤ i → i + Z.of_nat n ≤ file_u16 f E_PHNUM →
  ∃ s' ok, headers_loop n i elf (file_u32 f E_PHOFF) (file_u16 f E_PHENTSIZE) s = Some (s', ok) ∧ kept s s' ∧
  (ok = true ∧ (∀ x, lo ≤ x < hi → view s' x = image f (omap (segment_at f) (seqZ i (Z.of_nat n))) (view s) x) ∨
   ok = false ∧ fa_count (pg_frames (paging_of s')) ≤ 1).
Proof.
  intros Hw Hp Hok Hr. revert i s Hw Hp Hr. induction n as [|n IH]; intros i s Hw Hp Hr Hi Hn.
  { exists s, true. split; [done|]. split; [by apply kept_refl|]. by left. }
  destruct Hok as (H52 & Hph & Hhd). destruct (Hhd i ltac:(lia)) as (Ho & Ho' & Hseg). pose proof Hr as (Hr1 & Hr2 & _).
  cbn [headers_loop].
  replace (u32 (elf + file_u32 f E_PHOFF + i * file_u16 f E_PHENTSIZE)) with (elf + header_off f i)
    by (unfold header_off in *; rewrite u32_small by lia; lia).
  rewrite seqZ_cons by lia. replace (Z.pred (Z.of_nat (S n))) with (Z.of_nat n) by lia.
  unfold io_bind at 1. rewrite <- Z.add_assoc, (rd32_resident _ _ _ _ Hr) by (unfold P_TYPE; lia).
  cbn [omap list_omap]. rewrite (eq_refl : segment_at f i = if file_u32 f (header_off f i + P_TYPE) =? 1 then _ else None) in Hseg |- *.
  destruct (Z.eqb_spec (file_u32 f (header_off f i + P_TYPE)) 1) as [E|E].
  2: { cbn [negb]. rewrite <- Z.add_1_r. apply IH; [done|done|done|lia|lia]. }
  cbn [negb]. set (g := Segment _ _ _ _) in *. specialize (Hseg g eq_refl).
  do 4 (unfold io_bind at 1; rewrite <- Z.add_assoc, (rd32_resident _ _ _ _ Hr) by (unfold P_VADDR, P_OFFSET, P_FILESZ, P_MEMSZ; lia)).
  destruct (load_segment_spec s elf f g Hw Hp Hseg Hr) as (s1 & r & E1 & K1 & Hc1).
  unfold io_bind at 1. unfold g in E1. cbn [sg_vaddr sg_off sg_filesz sg_memsz] in E1. rewrite E1.
  destruct Hc1 as [(-> & Hv1)|(-> & Hc)]; cbn [Z.eqb negb].
  2: { exists s1, false. split; [done|]. split; [done|]. by right. }
  destruct (IH (i + 1) s1 (ke_wf _ _ K1) (ke_private _ _ K1) (resident_kept _ _ _ _ K1 Hr)) as (s2 & ok & E2 & K2 & Hc2);
    [lia|lia|].
  exists s2, ok. split; [exact E2|]. split; [by eapply kept_trans|]. destruct Hc2 as [(-> & Hv2)|?]; [left|by right].
  split; [done|]. intros x Hx. rewrite Hv2 by done. rewrite <- Z.add_1_r. unfold image at 2. cbn [fold_left].
  apply image_ext. by apply Hv1.
Qed.

(** ** The launcher *)

Lemma word_value v l : 0 ≤ v < 2 ^ 32 → file_u32 (word_bytes v ++ l) 0 = v.
Proof.
  intros Hv. unfold file_u32, word_bytes.
  change (u8 v ||| u32 (u8 (v >>> 8) <<< 8) ||| u32 (u8 (v >>> 16) <<< 16) ||| u32 (u8 (v >>> 24) <<< 24) = v).
  pose proof (u8_range v). pose proof (u8_range (v >>> 8)). pose proof (u8_range (v >>> 16)). pose proof (u8_range (v >>> 24)).
  rewrite !u32_small by (rewrite shiftl_mul by lia; zpow; lia).
  rewrite (Z.lor_comm _ (_ <<< 24)), (Z.lor_comm (_ ||| _) (_ <<< 16)), (Z.lor_comm _ (_ <<< 8)), !Z.lor_assoc.
  rewrite lor4_bytes by done. rewrite !shiftr_div by lia. clear -Hv. zlia.
Qed.

Lemma rd32_word (s : kern) a v l :
  resident s a (word_bytes v ++ l) → 0 ≤ v < 2 ^ 32 → rd32 a s = Some (s, v).
Proof.
  intros Hr Hv. assert (4 ≤ zlen (word_bytes v ++ l)) by (unfold zlen; rewrite length_app; simpl; lia).
  pose proof (rd32_resident s a _ 0 Hr ltac:(lia) ltac:(lia)) as E. rewrite Z.add_0_r in E.
  by rewrite word_value in E.
Qed.

(** The blocks of a heap, apart from the page tables below it. *)
Definition blocks (h : kheap A) : gmap Z block_t * Z * Z * Z := (kh_mem h, heap_base h, heap_end h, head h).

Lemma kfree_paging p (h : kheap A) : kh_paging (kfree p h) = kh_paging h.
Proof. unfold kfree. by destruct (p =? 0). Qed.

Lemma kfree_blocks p (h h' : kheap A) : blocks h = blocks h' → blocks (kfree p h) = blocks (kfree p h').
Proof.
  destruct h, h'. unfold blocks. cbn. intros [= -> -> -> ->]. unfold kfree. by destruct (p =? 0).
Qed.

Lemma moved_blocks (s s' : kern) : moved s s' → blocks (heap_of s') = blocks (heap_of s).
Proof. intros (p & m & ->). done. Qed.

Lemma view_with_heap (s : kern) h x : kh_paging h = paging_of s → view (with_heap h s) x = view s x.
Proof. intros E. unfold view. change (paging_of (with_heap h s)) with (kh_paging h). by rewrite E. Qed.

Lemma free_job_spec (s : kern) job elf l :
  resident s job (word_bytes elf ++ l) → 0 ≤ elf < 2 ^ 32 →
  ∃ h, free_job job s = Some (with_heap h s, tt) ∧ kh_paging h = paging_of s ∧
    blocks h = blocks (kfree job (kfree elf (heap_of s))).
Proof.
  intros Hr He.
  exists (kfree job (kfree elf (heap_of s))). split_and!; [|by rewrite !kfree_paging|done].
  unfold free_job, io_bind. by rewrite (rd32_word _ _ _ _ Hr He).
Qed.

(** What stays of the kernel whichever way a launch ends. *)
Record launched (s s' : kern) : Prop := {
  la_wf : paging_wf (paging_of s');
  la_private : private (paging_of s') lo hi;
  la_sched : tasks (k_sched s') = tasks (k_sched s) ∧ current (k_sched s') = current (k_sched s);
  la_fs : k_fs s' = k_fs s;
  la_view x : mid ≤ x < hi → view s' x = view s x;
  la_pte x : 0 ≤ x < 2 ^ 32 →
    pte (paging_of s') x = pte (paging_of s) x ∨
    lo ≤ x < mid ∧ pte (paging_of s) x = None ∧ ∃ f, pte (paging_of s') x = Some (pte_value f user_flags)
}.

Lemma kept_launched (s s' : kern) : kept s s' → launched s s'.
Proof. intros [(p & m & ->) W P C V M T]. by split. Qed.

Lemma elf_task_spec (s : kern) job elf f l :
  lo ≤ USTACK_TOP - 4096 → USTACK_TOP ≤ mid →
  paging_wf (paging_of s) → private (paging_of s) lo hi → program_ok f → 0 ≤ elf < 2 ^ 32 →
  resident s elf f → resident s job (word_bytes elf ++ l) →
  ∃ s' r, elf_task job s = Some (s', r) ∧ launched s s' ∧
  blocks (heap_of s') = blocks (kfree job (kfree elf (heap_of s))) ∧
  (r = UserMode (file_u32 f E_ENTRY) USTACK_TOP ∧
     tss_esp0 (k_sched s') = t_kstack_top (task_at (tasks (k_sched s)) (current (k_sched s))) ∧ k_out s' = k_out s ∧
     (∀ x, lo ≤ x < hi → view s' x =
        mapped_zero (same_page (USTACK_TOP - 4096)) (image f (segments f) (view s)) x) ∨
   r = Returns ∧ fa_count (pg_frames (paging_of s')) ≤ 1 ∧ k_out s' ≠ k_out s).
Proof.
  intros Hst1 Hst2 Hw Hp Hok He Hr Hj. pose proof Hok as (H52 & _).
  unfold elf_task, io_bind at 1. rewrite (rd32_word _ _ _ _ Hj He).
  do 2 (unfold io_bind at 1; rewrite (rd32_resident _ _ _ _ Hr) by (unfold E_ENTRY, E_PHOFF; lia)).
  do 2 (unfold io_bind at 1; rewrite (rd16_resident _ _ _ _ Hr) by (unfold E_PHENTSIZE, E_PHNUM; lia)).
  assert (0 ≤ file_u16 f E_PHNUM) by (pose proof (u16_range (arr_get f E_PHNUM ||| (arr_get f (E_PHNUM + 1) <<< 8))); unfold file_u16; lia).
  destruct (headers_loop_spec (Z.to_nat (file_u16 f E_PHNUM)) 0 s elf f Hw Hp Hok Hr) as (s1 & ok & E1 & K1 & Hc1); [lia|lia|].
  unfold io_bind at 1. rewrite E1. rewrite Z2Nat.id in Hc1 by done.
  pose proof (moved_blocks _ _ (ke_moved _ _ K1)) as Hb1.
  destruct Hc1 as [(-> & Hv1)|(-> & Hc)]; cbn [negb].
  - destruct (free_job_spec s1 job elf l (resident_kept _ _ _ _ K1 Hj) He) as (h & Ef & Hhp & Hhb).
    unfold io_bind at 1. rewrite Ef. set (s2 := with_heap h s1) in *.
    assert (paging_of s2 = paging_of s1) as Epg by exact Hhp.
    assert (∀ x, view s2 x = view s1 x) as Hv2 by (intros x; by apply view_with_heap).
    destruct (ensure_page_spec s2 (USTACK_TOP - PAGE_SIZE)) as (s3 & r & E3 & K3 & Hc3);
      [rewrite Epg; apply K1|rewrite Epg; apply K1|unfold PAGE_SIZE, USTACK_TOP in *; lia|].
    unfold io_bind at 1. rewrite E3. pose proof (moved_blocks _ _ (ke_moved _ _ K3)) as Hb3.
    assert (blocks (heap_of s3) = blocks (kfree job (kfree elf (heap_of s)))) as Hb.
    { rewrite Hb3. change (heap_of s2) with h. rewrite Hhb. by apply kfree_blocks, kfree_blocks. }
    assert (launched s s3) as La.
    { pose proof (ke_moved _ _ K1) as (p1 & m1 & ->). pose proof (ke_moved _ _ K3) as (p3 & m3 & ->).
      split; [apply K3|apply K3|done|done| |].
      - intros x Hx. rewrite (ke_view _ _ K3), Hv2 by done. by apply (ke_view _ _ K1).
      - intros x Hx. pose proof (ke_pte _ _ K3 x Hx) as T2. rewrite Epg in T2. pose proof (ke_pte _ _ K1 x Hx) as T1.
        destruct T1 as [T1|(? & T1 & g & T1')], T2 as [T2|(? & T2 & g2 & T2')].
        + left. congruence.
        + right. rewrite <- T1. eauto.
        + right. rewrite T2. eauto.
        + congruence. }
    destruct Hc3 as [(-> & Hv3)|(-> & Hc)]; cbn [Z.eqb negb].
    + eexists _, _. split; [done|]. split; [by destruct La; split|]. split; [exact Hb|]. left.
      split; [done|]. pose proof (ke_moved _ _ K1) as (p1 & m1 & ->). pose proof (ke_moved _ _ K3) as (p3 & m3 & ->).
      split_and!; [done|done|]. intros x Hx. change (view (tss_set_esp0 _ ?s) x) with (view s x). rewrite Hv3 by done.
      unfold mapped_zero, PAGE_SIZE. rewrite Hv2, Hv1 by done. done.
    + eexists _, _. split; [done|]. split; [by destruct La; split|]. split; [exact Hb|]. right.
      split; [done|]. split; [exact Hc|].
      pose proof (ke_moved _ _ K1) as (p1 & m1 & ->). pose proof (ke_moved _ _ K3) as (p3 & m3 & ->).
      change (k_out s ++ con_write (str "elf: out of memory for user stack" ++ nl) ≠ k_out s).
      intros Eo%(f_equal length). rewrite length_app in Eo. change (length (con_write _)) with 34%nat in Eo. lia.
  - set (s2 := with_out (con_write (str "elf: out of memory loading segment" ++ nl)) s1).
    destruct (free_job_spec s2 job elf l (resident_kept _ _ _ _ K1 Hj) He) as (h & Ef & Hhp & Hhb).
    change (io_bind (console_write _) ?k s1) with (k tt s2). unfold io_bind. rewrite Ef.
    eexists _, _. split; [done|]. split_and!.
    + pose proof (kept_launched _ _ K1) as [W P S F V T].
      assert (paging_of (with_heap h s2) = paging_of s1) as Epg by exact Hhp.
      split; [by rewrite Epg|by rewrite Epg|done|done| |by rewrite Epg].
      intros x Hx. rewrite view_with_heap by done. by apply V.
    + change (heap_of (with_heap h s2)) with h. rewrite Hhb. by apply kfree_blocks, kfree_blocks.
    + right. split; [done|]. split; [change (paging_of (with_heap h s2)) with (kh_paging h); by rewrite Hhp|].
      pose proof (ke_moved _ _ K1) as (p1 & m1 & ->).
      change (k_out s ++ con_write (str "elf: out of memory loading segment" ++ nl) ≠ k_out s).
      intros Eo%(f_equal length). rewrite length_app in Eo. change (length (con_write _)) with 35%nat in Eo. lia.
Qed.

End Loading.

(** ** The heap as memory *)

Lemma backed_private (p : paging A) end_ :
  paging_wf p → backed p KHEAP_BASE end_ → end_ ≤ 2 ^ 32 → private p KHEAP_BASE end_.
Proof.
  intros Hw [Hm Hinj] He.
  assert (∀ va e, KHEAP_BASE ≤ va < end_ → pte p va = Some e →
    KHEAP_BASE ≤ page_of va < end_ ∧ page_of va mod 4096 = 0 ∧ page_of e = paging_get_phys (page_of va) p) as Hpg.
  { intros va e Hva E. unfold KHEAP_BASE in *.
    assert (0xC0000000 ≤ page_of va < end_ ∧ page_of va mod 4096 = 0) as [H1 H2] by (unfold page_of; clear -Hva; zlia).
    split; [done|]. split; [done|]. rewrite get_phys_pte by done.
    rewrite (pte_page _ (page_of va) va), E by (unfold page_of; clear; zlia). lia. }
  split.
  - intros va e Hva E. destruct (Hpg va e Hva E) as (H1 & H2 & ->). by destruct (Hm _ H1 H2) as (_ & _ & ? & _).
  - intros va wa e e' Hva Hwa E E'. destruct (Hpg va e Hva E) as (H1 & H2 & ->), (Hpg wa e' Hwa E') as (H3 & H4 & ->).
    intros Eq%Hinj; [|done..]. unfold page_of in Eq. clear -Eq. zlia.
Qed.

Lemma backed_mapped (p : paging A) end_ va :
  backed p KHEAP_BASE end_ → KHEAP_BASE ≤ va < end_ → is_Some (mmu p va).
Proof.
  intros [Hm _] Hva. unfold KHEAP_BASE in *.
  destruct (Hm (page_of va)) as (_ & _ & _ & E); [unfold page_of; clear -Hva; zlia|unfold page_of; clear; zlia|].
  unfold mmu. rewrite (pte_page _ va (page_of va)), E by (unfold page_of; clear; zlia). done.
Qed.

Lemma block_in (h : kheap A) p n :
  kheap_wf h → (p, n) ∈ allocated h → KHEAP_BASE < p ∧ 0 ≤ n ∧ p + n ≤ heap_end h ∧ heap_end h < 2 ^ 32.
Proof.
  intros [Hr _] Hin. rewrite (rep_allocated _ _ Hr) in Hin.
  destruct (live_in _ _ _ _ (kr_sizes _ _ Hr) Hin) as (H1 & H2 & H3 & H4).
  destruct (rep_bounds _ _ Hr) as (Hend & Hlt & _). unfold KHEAP_BASE, HEADER_SIZE in *. lia.
Qed.

(** Storing bytes in a block of the heap. *)
Lemma heap_put (s : kern) p n l :
  kheap_wf (heap_of s) → (p, n) ∈ allocated (heap_of s) → zlen l ≤ n →
  ∃ m, vput p l s = Some (with_ram m s, tt) ∧
  ∀ x, KHEAP_BASE ≤ x < heap_end (heap_of s) → view (with_ram m s) x =
    if inside p (zlen l) x then Some (arr_get l (x - p)) else view s x.
Proof.
  intros Hwf Hin Hl. destruct (block_in _ _ _ Hwf Hin) as (H1 & H2 & H3 & H4). destruct Hwf as [Hr _].
  apply (vput_view KHEAP_BASE (heap_end (heap_of s))); [done|lia| |lia|lia|].
  - apply backed_private; [apply (kr_paging _ _ Hr)|apply (kr_backed _ _ Hr)|lia].
  - intros wa Hwa. apply (backed_mapped _ (heap_end (heap_of s))); [apply (kr_backed _ _ Hr)|lia].
Qed.

(** One call of [kmalloc]: what it hands out, and that memory stays as it is. *)
Lemma kmalloc_spec_k (s : kern) size :
  kheap_wf (heap_of s) → 0 < size ≤ 0xFFFFFFF8 →
  ∃ h p, kmalloc size (heap_of s) = (h, p) ∧ kmalloc_k size s = Some (with_heap h s, p) ∧ kheap_wf h ∧
  heap_end (heap_of s) ≤ heap_end h ∧
  (∀ x, 0 ≤ x < heap_end (heap_of s) → view (with_heap h s) x = view s x) ∧
  (p = 0 ∧ allocated h = allocated (heap_of s) ∨
   p ≠ 0 ∧ ∃ n, size ≤ n ∧ allocated h ≡ₚ (p, n) :: allocated (heap_of s) ∧ ∀ k, (p, k) ∉ allocated (heap_of s)).
Proof.
  intros Hwf Hs. destruct (kmalloc size (heap_of s)) as [h p] eqn:E. exists h, p. split; [done|].
  split; [unfold kmalloc_k, on_heap; by rewrite E|].
  destruct (kmalloc_need_spec size ltac:(lia)) as (Hn & Hn8 & Hge).
  pose proof (attempts_post 2 (kmalloc_need size) (heap_of s) Hwf ltac:(lia) Hn8) as Hp.
  pose proof (hp_alloc_fresh (heap_of s) h size p Hwf ltac:(lia) E) as Hfresh.
  unfold kmalloc in E. rewrite (proj2 (Z.eqb_neq _ _)) in E by lia. rewrite E in Hp.
  destruct Hp as (Hw & [Hend Hpte] & Hc). split; [done|]. split; [done|]. split.
  - intros x Hx. unfold view, mmu. change (paging_of (with_heap h s)) with (kh_paging h).
    assert (heap_end (heap_of s) < 2 ^ 32) by (destruct Hwf as [Hr _]; apply (rep_bounds _ _ Hr)).
    rewrite Hpte by lia. done.
  - destruct Hc as [?|(n & Hn' & _ & Hp0 & Hperm)]; [by left|right]. split; [done|]. exists n.
    split; [lia|]. split; [done|]. by destruct (Hfresh Hp0) as (_ & _ & _ & _ & _ & Hk).
Qed.

(** ** Accepting a program *)

(** The header [elf_exec] asks for. *)
Definition executable (f : list Z) : bool :=
  (52 <=? zlen f) &&
  ((arr_get f 0 =? 0x7F) && (arr_get f 1 =? chr "E") && (arr_get f 2 =? chr "L") && (arr_get f 3 =? chr "F") &&
   (arr_get f 4 =? 1) && (arr_get f 5 =? 1)) &&
  ((file_u16 f E_TYPE =? 2) && (file_u16 f E_MACHINE =? 3)).

(** The bytes [f] are in the heap at [a]. *)
Definition in_heap (s : kern) (a : Z) (f : list Z) : Prop := resident KHEAP_BASE (heap_end (heap_of s)) s a f.

(** One of the two allocations of [elf_exec] fails. *)
Definition out_of_memory (h : kheap A) : Prop :=
  let '(h', buf) := kmalloc MAX_ELF h in buf = 0 ∨ (kmalloc SIZEOF_JOB h').2 = 0.

Definition sched_with (h : kheap A) (x : sched (kheap A)) : sched (kheap A) :=
  MkSched (tasks x) (current x) (next_id x) (ntasks x) (tss_esp0 x) (regs x) (words x) h.

Lemma heap_bounds (h : kheap A) : kheap_wf h → KHEAP_BASE ≤ heap_end h < 2 ^ 32.
Proof. intros [Hr _]. destruct (rep_bounds _ _ Hr) as (_ & ? & _). split; [apply (kr_end _ _ Hr)|done]. Qed.

Lemma header_spec (s : kern) buf f :
  kheap_wf (heap_of s) → in_heap s buf f → 52 ≤ zlen f →
  ∃ m t, magic_ok buf s = Some (s, m) ∧ type_ok buf s = Some (s, t) ∧ executable f = m && t.
Proof.
  intros Hwf Hr Hf. pose proof (heap_bounds _ Hwf) as Hb. pose proof Hr as (Hr1 & _).
  assert (∀ o, 0 ≤ o < zlen f → vload (buf + o) s = Some (s, arr_get f o)) as Hl.
  { intros o Ho. eapply (vload_resident 0 KHEAP_BASE); try exact Hr; unfold KHEAP_BASE in *; lia. }
  eexists _, _. split; [|split].
  - unfold magic_ok, io_bind. pose proof (Hl 0 ltac:(lia)) as E0. rewrite Z.add_0_r in E0.
    rewrite E0. do 5 (cbv beta iota; rewrite Hl by lia). done.
  - assert (∀ o, 0 ≤ o → o + 2 ≤ zlen f → rd16 (buf + o) s = Some (s, file_u16 f o)) as Hh.
    { intros o Ho Ho2. unfold rd16, io_bind. by rewrite <- Z.add_assoc, !Hl by lia. }
    unfold type_ok, io_bind. rewrite Hh by (unfold E_TYPE; lia). cbv beta iota.
    rewrite Hh by (unfold E_MACHINE; lia). done.
  - unfold executable. rewrite (proj2 (Z.leb_le 52 (zlen f)) Hf). done.
Qed.

Lemma spawn_heap bootstrap entry arg name (x : sched (kheap A)) :
  kheap_wf (sched_heap x) →
  kheap_wf (sched_heap (task_spawn bootstrap entry arg name x).1) ∧
  same_below (sched_heap x) (sched_heap (task_spawn bootstrap entry arg name x).1).
Proof.
  intros Hwf. unfold task_spawn. cbn [hp_alloc kheap_allocator].
  assert (∀ size (h h' : kheap A) p, 0 < size ≤ 0xFFFFFFF8 → kheap_wf h → kmalloc size h = (h', p) →
    kheap_wf h' ∧ same_below h h') as Hk.
  { intros size h h' p Hs Hw E. destruct (kmalloc_need_spec size ltac:(lia)) as (Hn & Hn8 & Hge).
    pose proof (attempts_post 2 (kmalloc_need size) h Hw ltac:(lia) Hn8) as Hp.
    unfold kmalloc in E. rewrite (proj2 (Z.eqb_neq _ _)) in E by lia. rewrite E in Hp. by destruct Hp as (? & ? & _). }
  destruct (kmalloc SIZEOF_TASK (sched_heap x)) as [h1 t] eqn:E1.
  destruct (kmalloc STACK_SIZE h1) as [h2 st] eqn:E2.
  destruct (Hk SIZEOF_TASK _ _ _ ltac:(unfold SIZEOF_TASK; lia) Hwf E1) as [Hw1 Hb1]. destruct (Hk STACK_SIZE _ _ _ ltac:(unfold STACK_SIZE; lia) Hw1 E2) as [Hw2 Hb2].
  destruct (craft_stack _ _ _) as [w sp]. destruct (irq_save _) as [c fl].
  cbn [fst sched_heap]. split; [done|]. by eapply same_below_trans.
Qed.

(** [kfree] of a block just handed out. *)
Lemma kfree_spec_k (s : kern) p n :
  kheap_wf (heap_of s) → (p, n) ∈ allocated (heap_of s) →
  ∃ h, kfree_k p s = Some (with_heap h s, tt) ∧ kheap_wf h ∧ (p, n) :: allocated h ≡ₚ allocated (heap_of s).
Proof. intros Hwf Hin. destruct (kfree_post _ _ _ Hwf Hin) as (H1 & H2 & _). by exists (kfree p (heap_of s)). Qed.

Lemma in_heap_step (s s' : kern) a f :
  in_heap s a f → heap_end (heap_of s) ≤ heap_end (heap_of s') →
  (∀ x, a ≤ x < a + zlen f → view s' x = view s x) → in_heap s' a f.
Proof.
  intros (H1 & H2 & H3) He Hv. split; [done|]. split; [lia|]. intros i Hi. rewrite Hv by lia. by apply H3.
Qed.

Lemma heap_put_in (s : kern) p n l :
  kheap_wf (heap_of s) → (p, n) ∈ allocated (heap_of s) → zlen l ≤ n →
  ∃ m, vput p l s = Some (with_ram m s, tt) ∧ in_heap (with_ram m s) p l ∧
  ∀ x, KHEAP_BASE ≤ x < heap_end (heap_of s) → x < p ∨ p + n ≤ x → view (with_ram m s) x = view s x.
Proof.
  intros Hwf Hin Hl. destruct (heap_put s p n l Hwf Hin Hl) as (m & E & Hv).
  destruct (block_in _ _ _ Hwf Hin) as (H1 & H2 & H3 & H4). assert (0 ≤ zlen l) by (unfold zlen; lia).
  exists m. split; [done|]. split.
  - split; [lia|]. split; [change (heap_of (with_ram m s)) with (heap_of s); lia|]. intros i Hi. rewrite Hv by lia.
    destruct (insideP p (zlen l) (p + i)); [|lia]. f_equal. f_equal. lia.
  - intros x Hx Hout. rewrite Hv by done. destruct (insideP p (zlen l) x); [lia|done].
Qed.

(** The end of [elf_exec]: the job's description and its task. *)
Lemma exec_spawn bootstrap at_ name (s : kern) buf n f :
  kheap_wf (heap_of s) → (buf, n) ∈ allocated (heap_of s) → zlen f ≤ n → in_heap s buf f → 0 ≤ buf < 2 ^ 32 →
  ∃ s' r,
    (let! job := kmalloc_k SIZEOF_JOB in
     if job =? 0 then kfree_k buf ;! io_ret (-1)
     else vput job (word_bytes buf) ;! vput (job + 4) (word_bytes (zlen f)) ;!
          io_put (λ s, with_sched (task_spawn bootstrap at_ job name (k_sched s)).1 s) ;! io_ret 0) s = Some (s', r) ∧
  k_fs s' = k_fs s ∧ kheap_wf (heap_of s') ∧
  (r = -1 ∧ (buf, n) :: allocated (heap_of s') ≡ₚ allocated (heap_of s) ∧ (kmalloc SIZEOF_JOB (heap_of s)).2 = 0 ∧
     k_sched s' = sched_with (heap_of s') (k_sched s) ∨
   r = 0 ∧ ∃ job k h, allocated h ≡ₚ (job, k) :: allocated (heap_of s) ∧
     k_sched s' = (task_spawn bootstrap at_ job name (sched_with h (k_sched s))).1 ∧
     in_heap s' buf f ∧ in_heap s' job (word_bytes buf ++ word_bytes (zlen f))).
Proof.
  intros Hwf Hin Hn Hr Hbuf. destruct (block_in _ _ _ Hwf Hin) as (B1 & B2 & B3 & B4).
  destruct (kmalloc_spec_k s SIZEOF_JOB Hwf ltac:(unfold SIZEOF_JOB; lia)) as (h & job & Ek & Es & Hwh & Hend & Hv & Hc).
  unfold io_bind at 1. rewrite Es. set (s1 := with_heap h s) in *.
  destruct Hc as [(-> & Hal)|(Hj & k & Hk & Hperm & Hfresh)].
  { change (0 =? 0) with true. cbv iota. destruct (kfree_spec_k s1 buf n) as (h2 & Ef & Hw2 & Hp2);
      [done|change (heap_of s1) with h; by rewrite Hal|].
    eexists _, _. split; [unfold io_bind; rewrite Ef; done|]. split; [done|]. split; [done|]. left.
    split; [done|]. split_and!; [|by rewrite Ek|done].
    change (heap_of (with_heap h2 s1)) with h2. rewrite Hp2. change (heap_of s1) with h. by rewrite Hal. }
  rewrite (proj2 (Z.eqb_neq _ _)) by done.
  assert ((job, k) ∈ allocated h) as Hjin by (rewrite Hperm; left).
  assert ((buf, n) ∈ allocated h) as Hbin by (rewrite Hperm; by right).
  assert (job ≠ buf) as Hne by (intros ->; by apply (Hfresh n)).
  pose proof (hp_disjoint h job k buf n Hwh Hjin Hbin Hne) as Hdis.
  set (l := word_bytes buf ++ word_bytes (zlen f)).
  destruct (heap_put_in s1 job k l Hwh Hjin) as (m & Ep & Hil & Hvl).
  { change (zlen l) with 8. exact Hk. }
  set (s2 := with_ram m s1) in *.
  assert (∀ kk : unit → IO kern Z, (vput job (word_bytes buf) ;! vput (job + 4) (word_bytes (zlen f)) ;! kk tt) s1 = kk tt s2) as Eput.
  { intros kk. revert Ep. unfold l, s2. generalize (word_bytes (zlen f)); intros l2.
    change (vput job (word_bytes buf ++ l2) s1 = Some (with_ram m s1, tt) →
      (vput job (word_bytes buf) ;! vput (job + 4) l2 ;! kk tt) s1 = kk tt (with_ram m s1)).
    intros Ep. rewrite vput_app in Ep. unfold io_bind in Ep |- *. change (zlen (word_bytes buf)) with 4 in Ep.
    destruct (vput job (word_bytes buf) s1) as [[s3 []]|]; [|done]. by rewrite Ep. }
  rewrite (Eput (λ _, io_put _ ;! io_ret 0)).
  destruct (spawn_heap bootstrap at_ job name (k_sched s2) Hwh) as [Hws [Hse Hsp]].
  assert (KHEAP_BASE ≤ heap_end h < 2 ^ 32) as Hhb by (by apply heap_bounds).
  assert (∀ x, 0 ≤ x < heap_end h → view (with_sched (task_spawn bootstrap at_ job name (k_sched s2)).1 s2) x = view s2 x) as Hvs.
  { intros x Hx. unfold view, mmu.
    assert (pte (paging_of (with_sched (task_spawn bootstrap at_ job name (k_sched s2)).1 s2)) x = pte (paging_of s2) x) as ->; [|done].
    apply Hsp; [lia|]. left. change (heap_end (sched_heap (k_sched s2))) with (heap_end h). lia. }
  destruct (block_in _ _ _ Hwh Hjin) as (J1 & J2 & J3 & J4).
  eexists _, _. split; [done|]. split; [done|]. split; [exact Hws|]. right. split; [done|].
  exists job, k, h. split; [done|]. split; [done|]. pose proof Hr as (R1 & R2 & R3). unfold KHEAP_BASE in *. split.
  - apply (in_heap_step s); [done|change (heap_end h) with (heap_end (sched_heap (k_sched s2))) in Hend; exact (Z.le_trans _ _ _ Hend Hse)|].
    intros x Hx. rewrite Hvs, Hvl, Hv by (change (heap_of s1) with h; unfold KHEAP_BASE; lia). done.
  - apply (in_heap_step s2); [done|exact Hse|]. intros x Hx. apply Hvs. change (zlen l) with 8 in *. unfold SIZEOF_JOB in *. lia.
Qed.

(** What is left when [elf_exec] fails: nothing allocated, nothing started. *)
Definition gave_back (s s' : kern) : Prop :=
  allocated (heap_of s') ≡ₚ allocated (heap_of s) ∧ k_sched s' = sched_with (heap_of s') (k_sched s).

(** And when it succeeds: the launcher's task, with its job and the file. *)
Definition spawned (bootstrap launcher name : Z) (s s' : kern) (f : list Z) : Prop :=
  ∃ buf n job k h, allocated h ≡ₚ (job, k) :: (buf, n) :: allocated (heap_of s) ∧
    k_sched s' = (task_spawn bootstrap launcher job name (sched_with h (k_sched s))).1 ∧
    in_heap s' buf f ∧ in_heap s' job (word_bytes buf ++ word_bytes (zlen f)).

Lemma exec_refuse (s s3 : kern) buf n :
  kheap_wf (heap_of s3) → allocated (heap_of s3) ≡ₚ (buf, n) :: allocated (heap_of s) →
  k_sched s3 = sched_with (heap_of s3) (k_sched s) →
  ∃ s', (kfree_k buf ;! io_ret (-1)) s3 = Some (s', -1) ∧ k_fs s' = k_fs s3 ∧ kheap_wf (heap_of s') ∧ gave_back s s'.
Proof.
  intros Hwf Hperm Hs. destruct (kfree_spec_k s3 buf n Hwf) as (h4 & Ef & Hw4 & Hp4); [rewrite Hperm; left|].
  exists (with_heap h4 s3). split; [unfold io_bind; by rewrite Ef|]. split; [done|]. split; [done|]. split.
  - change (heap_of (with_heap h4 s3)) with h4. rewrite Hperm in Hp4. by apply Permutation_cons_inv in Hp4.
  - unfold with_heap. cbn [with_sched k_sched]. by rewrite Hs.
Qed.

Lemma exec_checked bootstrap launcher name (s s3 : kern) buf n f :
  kheap_wf (heap_of s3) → allocated (heap_of s3) ≡ₚ (buf, n) :: allocated (heap_of s) →
  k_sched s3 = sched_with (heap_of s3) (k_sched s) → zlen f ≤ n → in_heap s3 buf f →
  ∃ s' r,
    (if zlen f <? 52 then kfree_k buf ;! io_ret (-1)
     else
       let! m := magic_ok buf in
       if negb m then kfree_k buf ;! io_ret (-1)
       else
         let! t := type_ok buf in
         if negb t then kfree_k buf ;! io_ret (-1)
         else
           let! job := kmalloc_k SIZEOF_JOB in
           if job =? 0 then kfree_k buf ;! io_ret (-1)
           else vput job (word_bytes buf) ;! vput (job + 4) (word_bytes (zlen f)) ;!
                io_put (λ s, with_sched (task_spawn bootstrap launcher job name (k_sched s)).1 s) ;! io_ret 0) s3 = Some (s', r) ∧
  k_fs s' = k_fs s3 ∧ kheap_wf (heap_of s') ∧
  (r = -1 ∧ gave_back s s' ∧ (executable f = false ∨ (kmalloc SIZEOF_JOB (heap_of s3)).2 = 0) ∨
   r = 0 ∧ executable f = true ∧ spawned bootstrap launcher name s s' f).
Proof.
  intros Hwf Hperm Hs Hn Hi. assert ((buf, n) ∈ allocated (heap_of s3)) as Hin by (rewrite Hperm; left).
  assert (executable f = false → ∃ s' r, (kfree_k buf ;! io_ret (-1)) s3 = Some (s', r) ∧ k_fs s' = k_fs s3 ∧
    kheap_wf (heap_of s') ∧
    (r = -1 ∧ gave_back s s' ∧ (executable f = false ∨ (kmalloc SIZEOF_JOB (heap_of s3)).2 = 0) ∨
     r = 0 ∧ executable f = true ∧ spawned bootstrap launcher name s s' f)) as Hbad.
  { intros Hx. destruct (exec_refuse s s3 buf n Hwf Hperm Hs) as (s' & E & H1 & H2 & H3). exists s', (-1). eauto 10. }
  destruct (Z.ltb_spec (zlen f) 52) as [Hshort|Hlong].
  { apply Hbad. unfold executable. by rewrite (proj2 (Z.leb_gt 52 (zlen f)) Hshort). }
  destruct (header_spec s3 buf f Hwf Hi Hlong) as (mg & ty & Em & Et & Ex).
  unfold io_bind at 1. rewrite Em. destruct mg; cbn [negb]; [|by apply Hbad].
  unfold io_bind at 1. rewrite Et. destruct ty; cbn [negb]; [|by apply Hbad].
  destruct (block_in _ _ _ Hwf Hin) as (B1 & B2 & B3 & B4).
  destruct (exec_spawn bootstrap launcher name s3 buf n f Hwf Hin Hn Hi) as (s' & r & E & Efs & Hw' & Hcase);
    [unfold KHEAP_BASE in *; lia|].
  exists s', r. split; [exact E|]. split; [done|]. split; [done|].
  destruct Hcase as [(-> & Hp & Hoom & Hs')|(-> & job & k & h' & Hp & Hs' & Hib & Hij)]; [left|right].
  - split; [done|]. split; [|by right]. split; [|by rewrite Hs', Hs].
    rewrite Hperm in Hp. by apply Permutation_cons_inv in Hp.
  - split; [done|]. split; [done|]. exists buf, n, job, k, h'. split; [by rewrite Hp, Hperm|].
    split; [by rewrite Hs', Hs|done].
Qed.

Lemma read_cases path maxlen (s s' : fs D) rd :
  fs_ok s → fs_read path maxlen s = (s', rd) → 0 ≤ maxlen →
  fs_ok s' ∧ files s' = files s ∧ zlen rd.2 ≤ maxlen ∧
  ((∀ f, files s !! to_83 path = Some f → maxlen < zlen f) ∧ rd.1 = -1 ∨
   ∃ f, files s !! to_83 path = Some f ∧ zlen f ≤ maxlen ∧ rd = (zlen f, f)).
Proof.
  intros Hfs Er Hm. destruct (wp_elim _ _ _ _ _ (wp_fs_read path maxlen s Hfs) Er) as [Hq Erd].
  destruct (fs_ok_quiet _ _ Hq Hfs) as (H1 & H2 & _). split; [done|]. split; [done|].
  destruct (files s !! to_83 path) as [f|]; [destruct (Z.ltb_spec maxlen (zlen f))|]; subst rd;
    (split; [cbn [snd]; try change (zlen []) with 0; lia|]).
  - left. split; [|done]. by intros f' [= <-].
  - right. by exists f.
  - by left.
Qed.

End Thm.

(** ** The properties *)

(** Programs are linked above the kernel's identity map and below its heap. *)
Definition USER_BASE : Z := IDENTITY_CAP.

(** C20: the loader builds the program it was given: for an executable whose
    segments lie in the user part of the address space and whose buffer and job
    lie in the kernel heap, the launcher always comes back, gives the buffer and
    the job back, leaves the kernel's memory and translations as they are, maps
    only user pages on frames of their own, and either enters ring 3 at the
    entry point with a memory in which every segment's bytes are at its address
    and the rest of its new pages is zero, or reports that memory ran out. *)
Theorem elf_task_loads `{FrameAllocator A} `{BlockDevice D} (s : kernel A D) hi job elf f l :
  KHEAP_BASE ≤ hi ≤ 2 ^ 32 → paging_wf (paging_of s) → private (paging_of s) USER_BASE hi →
  program_ok USER_BASE KHEAP_BASE f → 0 ≤ elf < 2 ^ 32 →
  resident KHEAP_BASE hi s elf f → resident KHEAP_BASE hi s job (word_bytes elf ++ l) →
  ∃ s' r, elf_task job s = Some (s', r) ∧ launched USER_BASE KHEAP_BASE hi s s' ∧
  blocks (heap_of s') = blocks (kfree job (kfree elf (heap_of s))) ∧
  (r = UserMode (file_u32 f E_ENTRY) USTACK_TOP ∧
     tss_esp0 (k_sched s') = t_kstack_top (task_at (tasks (k_sched s)) (current (k_sched s))) ∧ k_out s' = k_out s ∧
     (∀ x, USER_BASE ≤ x < hi → view s' x =
        mapped_zero (same_page (USTACK_TOP - 4096)) (image f (segments f) (view s)) x) ∨
   r = Returns ∧ fa_count (pg_frames (paging_of s')) ≤ 1 ∧ k_out s' ≠ k_out s).
Proof.
  intros Hhi Hw Hp Hok He Hr Hj. unfold USER_BASE, IDENTITY_CAP, KHEAP_BASE in *.
  eapply elf_task_spec; try eassumption; unfold USTACK_TOP; try lia; reflexivity.
Qed.

(** C21: [elf_exec] accepts exactly the executables: whatever the path, it comes
    back with the file system and the heap sound; it fails only when there is no
    such file, the file is too big or not a 32-bit x86 executable, or memory ran
    out, and then it has given back everything it allocated and started nothing;
    otherwise it has spawned the launcher with a job that names a buffer with the
    file's bytes, both in blocks of their own. *)
Theorem elf_exec_correct `{FrameAllocator A} `{BlockDevice D} bootstrap launcher name path (s : kernel A D) :
  kheap_wf (heap_of s) → fs_ok (k_fs s) →
  ∃ s' r, elf_exec bootstrap launcher name path s = Some (s', r) ∧
  fs_ok (k_fs s') ∧ files (k_fs s') = files (k_fs s) ∧ kheap_wf (heap_of s') ∧
  (r = -1 ∧ gave_back s s' ∧
     ((∀ f, files (k_fs s) !! to_83 path = Some f → MAX_ELF < zlen f ∨ executable f = false) ∨
      out_of_memory (heap_of s)) ∨
   r = 0 ∧ ∃ f, files (k_fs s) !! to_83 path = Some f ∧ zlen f ≤ MAX_ELF ∧ executable f = true ∧
     spawned bootstrap launcher name s s' f).
Proof.
  intros Hwf Hfs. unfold elf_exec.
  destruct (kmalloc_spec_k s MAX_ELF Hwf ltac:(unfold MAX_ELF; lia)) as (h & buf & Ek & Es & Hwh & Hend & Hv & Hc).
  unfold io_bind at 1. rewrite Es. set (s1 := with_heap h s) in *.
  destruct Hc as [(-> & Hal)|(Hb0 & n & Hn & Hperm & Hfresh)].
  { exists s1, (-1). split; [done|]. split; [done|]. split; [done|]. split; [done|]. left. split; [done|].
    split; [split; [change (heap_of s1) with h; by rewrite Hal|done]|]. right. unfold out_of_memory. rewrite Ek. by left. }
  rewrite (proj2 (Z.eqb_neq _ _)) by done.
  assert ((buf, n) ∈ allocated (heap_of s1)) as Hin by (change (heap_of s1) with h; rewrite Hperm; left).
  destruct (fs_read path MAX_ELF (k_fs s)) as [fs' rd] eqn:Er.
  destruct (read_cases path MAX_ELF (k_fs s) fs' rd Hfs Er ltac:(done)) as (Hfs' & Hfiles & Hrn & Hrd).
  unfold io_bind at 1, on_fs. change (k_fs s1) with (k_fs s). rewrite Er. set (s2 := with_fs fs' s1).
  destruct (heap_put_in s2 buf n rd.2 Hwh Hin ltac:(lia)) as (m & Ep & Hi3 & Hv3).
  unfold io_bind at 1. rewrite Ep. set (s3 := with_ram m s2) in *.
  destruct Hrd as [[Hbig Hlen]|(f & Hf & Hsz & ->)].
  - rewrite Hlen. change (-1 <? 52) with true. cbv iota.
    destruct (exec_refuse s s3 buf n Hwh Hperm eq_refl) as (s' & E & Hf' & Hw' & Hg). exists s', (-1).
    split; [exact E|]. rewrite Hf'. split; [done|]. split; [done|]. split; [done|]. left. split; [done|].
    split; [done|]. left. intros f Hf. left. by apply Hbig.
  - destruct (exec_checked bootstrap launcher name s s3 buf n f Hwh Hperm eq_refl ltac:(lia) Hi3) as (s' & r & E & Hf' & Hw' & Hcase).
    exists s', r. split; [exact E|]. rewrite Hf'. split; [done|]. split; [done|]. split; [done|].
    destruct Hcase as [(-> & Hg & Hc)|(-> & Hx & Hsp)]; [left|right; eauto 10]. split; [done|]. split; [done|].
    destruct Hc as [Hx|Hoom]; [left; intros g Hg'; right; congruence|right]. unfold out_of_memory. rewrite Ek. by right.
Qed.

(** ** A program of one segment *)

(** An executable whose segment puts four bytes of code at 0x40000010 and clears
    the bytes behind them. *)
Definition demo_elf : list Z :=
  [0x7F; 0x45; 0x4C; 0x46; 1; 1; 1; 0] ++ replicate 8 0 ++ [2; 0; 3; 0; 1; 0; 0; 0] ++
  word_bytes 0x40000010 ++ word_bytes 52 ++ replicate 8 0 ++ [52; 0; 32; 0; 1; 0] ++ replicate 6 0 ++
  word_bytes 1 ++ word_bytes 84 ++ word_bytes 0x40000010 ++ word_bytes 0 ++ word_bytes 4 ++ word_bytes 100 ++
  replicate 8 0 ++ [0xB8; 0x01; 0xCD; 0x80].

Definition demo_file : fs ramdisk := (fs_create [] hello demo_elf demo_fs).1.

Lemma demo_file_runs : (fs_create [] hello demo_elf demo_fs).2 = 0.
Proof. vm_compute. reflexivity. Qed.

Lemma demo_file_ok : fs_ok demo_file ∧ files demo_file !! to_83 hello = Some demo_elf.
Proof.
  assert (fs_create [] hello demo_elf demo_fs = (demo_file, 0)) as E
    by (unfold demo_file; rewrite <- demo_file_runs; apply surjective_pairing).
  destruct (wp_elim _ _ _ _ _ (wp_fs_create [] hello demo_elf demo_fs demo_fs_ok hello_plain
    ltac:(repeat (split || constructor); discriminate) ltac:(reflexivity)) E) as [(_ & Hok & Hf & _)|[? _]]; [|done].
  split; [exact Hok|]. rewrite Hf. apply lookup_insert_eq.
Qed.

Definition demo_kernel : kernel pmm ramdisk := Kernel demo_sched demo_file ∅ [].

Lemma demo_kernel_heap : kheap_wf (heap_of demo_kernel).
Proof. exact (si_heap _ _ _ (proj1 demo_sched_inv)). Qed.

Lemma elf_exec_correct_witness :
  kheap_wf (heap_of demo_kernel) ∧ fs_ok (k_fs demo_kernel) ∧
  ∃ s' r, elf_exec 0x10100 0x10200 7 hello demo_kernel = Some (s', r) ∧ (r = 0 → ∃ f, spawned 0x10100 0x10200 7 demo_kernel s' f).
Proof.
  split; [exact demo_kernel_heap|]. split; [exact (proj1 demo_file_ok)|].
  destruct (elf_exec_correct 0x10100 0x10200 7 hello demo_kernel demo_kernel_heap (proj1 demo_file_ok))
    as (s' & r & E & _ & _ & _ & Hc).
  exists s', r. split; [exact E|]. intros ->. destruct Hc as [(Hr & _)|(_ & f & _ & _ & _ & Hs)]; [discriminate Hr|].
  exists f. exact Hs.
Defined.

(** The same executable in the heap, with its job. *)
Definition demo_prepare : IO (kernel pmm ramdisk) (Z * Z) :=
  let! buf := kmalloc_k 4096 in vput buf demo_elf ;!
  let! job := kmalloc_k SIZEOF_JOB in vput job (word_bytes buf ++ word_bytes (zlen demo_elf)) ;!
  io_ret (buf, job).
Definition demo_loaded : kernel pmm ramdisk :=
  match demo_prepare demo_kernel with Some (s, _) => s | None => demo_kernel end.

Definition byte_at (s : kernel pmm ramdisk) (a v : Z) : bool :=
  match view s a with Some b => b =? v | None => false end.

Lemma resident_check mid hi (s : kernel pmm ramdisk) a f :
  mid ≤ a → a + zlen f ≤ hi → forallb (λ i, byte_at s (a + i) (arr_get f i)) (seqZ 0 (zlen f)) = true →
  resident mid hi s a f.
Proof.
  intros H1 H2 H3. split; [done|]. split; [done|]. intros i Hi. rewrite forallb_forall in H3.
  specialize (H3 i ltac:(apply list_elem_of_In, elem_of_seqZ; lia)). unfold byte_at in H3.
  destruct (view s (a + i)); [|done]. apply Z.eqb_eq in H3. by subst.
Qed.

Lemma no_user_pages (p : paging pmm) va :
  forallb (λ i, negb (present (pde p i))) (seqZ 256 512) = true → 0x40000000 ≤ va < 0xC0000000 → pte p va = None.
Proof.
  intros Hp Hva. rewrite forallb_forall in Hp. unfold pte.
  specialize (Hp (pdi_of va)). destruct (present (pde p (pdi_of va))); [|done].
  discriminate Hp. apply list_elem_of_In, elem_of_seqZ. unfold pdi_of. rewrite shiftr_div by lia. clear -Hva. zlia.
Qed.

Lemma private_above (p : paging pmm) end_ :
  (∀ va, 0x40000000 ≤ va < 0xC0000000 → pte p va = None) → private p KHEAP_BASE end_ → private p USER_BASE end_.
Proof.
  intros Hn [Hf Hi]. unfold USER_BASE, IDENTITY_CAP, KHEAP_BASE in *. split.
  - intros va e Hva E. destruct (Z.lt_ge_cases va 0xC0000000); [by rewrite Hn in E by lia|]. by apply (Hf va); [lia|].
  - intros va wa e e' Hva Hwa E E'. destruct (Z.lt_ge_cases va 0xC0000000); [by rewrite Hn in E by lia|].
    destruct (Z.lt_ge_cases wa 0xC0000000); [by rewrite Hn in E' by lia|]. by apply Hi; [lia|lia|..].
Qed.

Lemma vput_heap d l (s s' : kernel pmm ramdisk) x : vput d l s = Some (s', x) → heap_of s' = heap_of s.
Proof.
  revert d s. induction l as [|b l IH]; intros d s; [by intros [= <- _]|]. cbn [vput]. unfold io_bind, vstore.
  destruct (mmu (paging_of s) (u32 d)); [|done]. intros E. by rewrite (IH _ _ E).
Qed.

Lemma demo_loaded_heap : kheap_wf (heap_of demo_loaded).
Proof.
  destruct (kmalloc_spec_k demo_kernel 4096 demo_kernel_heap ltac:(lia)) as (h & buf & _ & E1 & Hw1 & _).
  unfold demo_loaded, demo_prepare, io_bind at 1. rewrite E1. unfold io_bind at 1.
  destruct (vput buf demo_elf _) as [[s2 []]|] eqn:E2; [|exact demo_kernel_heap].
  assert (kheap_wf (heap_of s2)) as Hw2 by (rewrite (vput_heap _ _ _ _ _ E2); exact Hw1).
  destruct (kmalloc_spec_k s2 SIZEOF_JOB Hw2 ltac:(unfold SIZEOF_JOB; lia)) as (h3 & job & _ & E3 & Hw3 & _).
  unfold io_bind at 1. rewrite E3. unfold io_bind.
  destruct (vput job _ _) as [[s4 []]|] eqn:E4; [|exact demo_kernel_heap].
  cbn [io_ret]. change (kheap_wf (heap_of s4)). rewrite (vput_heap _ _ _ _ _ E4). exact Hw3.
Qed.

Lemma demo_program_ok : program_ok USER_BASE KHEAP_BASE demo_elf.
Proof.
  split; [vm_compute; discriminate|]. split; [vm_compute; discriminate|]. intros i Hi.
  change (file_u16 demo_elf E_PHNUM) with 1 in Hi. assert (i = 0) as -> by lia.
  split; [vm_compute; discriminate|]. split; [vm_compute; discriminate|]. intros g Hg.
  assert (g = Segment 0x40000010 84 4 100) as -> by (assert (Some g = Some (Segment 0x40000010 84 4 100)) as E
    by (rewrite <- Hg; vm_compute; reflexivity); by injection E).
  unfold seg_ok. split_and!; vm_compute; discriminate.
Qed.

Lemma demo_launch : snd <$> elf_task 0xC0001058 demo_loaded = Some (UserMode 0x40000010 USTACK_TOP).
Proof. vm_compute. reflexivity. Qed.

Lemma elf_task_loads_witness :
  snd <$> demo_prepare demo_kernel = Some (0xC0000048, 0xC0001058) ∧
  ∃ s' r, elf_task 0xC0001058 demo_loaded = Some (s', r) ∧
    blocks (heap_of s') = blocks (kfree 0xC0001058 (kfree 0xC0000048 (heap_of demo_loaded))).
Proof.
  split; [vm_compute; reflexivity|].
  pose proof (heap_bounds _ demo_loaded_heap) as Hb. pose proof demo_loaded_heap as [Hr _].
  assert (private (paging_of demo_loaded) USER_BASE (heap_end (heap_of demo_loaded))) as Hp.
  { apply private_above; [intros va Hva; apply no_user_pages; [vm_compute; reflexivity|exact Hva]|].
    apply backed_private; [exact (kr_paging _ _ Hr)|exact (kr_backed _ _ Hr)|lia]. }
  destruct (elf_task_loads demo_loaded (heap_end (heap_of demo_loaded)) 0xC0001058 0xC0000048 demo_elf (word_bytes 88)
    ltac:(lia) (kr_paging _ _ Hr) Hp demo_program_ok ltac:(lia)) as (s' & r & E & _ & Hbl & _).
  - apply resident_check; vm_compute; try discriminate; reflexivity.
  - apply resident_check; vm_compute; try discriminate; reflexivity.
  - exists s', r. split; [exact E|exact Hbl].
Defined.
