(* ===== verification/Gfx.v ===== *)
(** The graphics primitives: drivers/gfx.c, which draws in a palette-indexed back
    buffer and converts it for the framebuffer.  The display's geometry, address
    and font are arguments, [video]: [Vga.v] provides them. *)
From Stdlib Require Import ZArith Lia Bool.
From stdpp Require Import base numbers gmap option list.
From S2P Require Import Prelude Frames Kheap Heaps.

#[local] Open Scope Z_scope.
#[local] Open Scope c_scope.

Definition FONT_W : Z := 8.
Definition FONT_H : Z := 16.

(** What [vga_width], [vga_height], [vga_bpp], [vga_pitch], [vga_framebuffer] and
    [vga_font] return. *)
Record video := Video {
  vga_width : Z; vga_height : Z; vga_bpp : Z; vga_pitch : Z; vga_framebuffer : Z; vga_font : list Z
}.

(** The module's statics, the bytes of memory and the bytes the palette registers
    were sent.  [int] coordinates are integers: their overflow is undefined. *)
Record gfx := Gfx {
  g_buf : Z; gw : Z; gh : Z; lut : list Z; g_mem : gmap Z Z; g_ports : list (Z * Z)
}.

Definition with_mem (m : gmap Z Z) (s : gfx) : gfx := Gfx (g_buf s) (gw s) (gh s) (lut s) m (g_ports s).

Section Init.
Context {B : Type} `{HeapAllocator B}.

Definition gfx_init (v : video) (h : B) (s : gfx) : B * gfx * Z :=
  let '(h, buf) := hp_alloc (u32 (vga_width v * vga_height v)) h in
  (h, Gfx buf (vga_width v) (vga_height v) (lut s) (g_mem s) (g_ports s), if buf =? 0 then -1 else 0).

Definition gfx_shutdown (h : B) (s : gfx) : B * gfx :=
  if g_buf s =? 0 then (h, s)
  else (hp_free (g_buf s) h, Gfx 0 (gw s) (gh s) (lut s) (g_mem s) (g_ports s)).
End Init.

Definition gfx_width (s : gfx) : Z := gw s.
Definition gfx_height (s : gfx) : Z := gh s.

(** [vga_set_palette]: the DAC's index and its three components. *)
Definition DAC_WRITE : Z := 0x3C8.
Definition DAC_DATA : Z := 0x3C9.
Definition vga_set_palette (index r g b : Z) : list (Z * Z) :=
  [(DAC_WRITE, index); (DAC_DATA, r); (DAC_DATA, g); (DAC_DATA, b)].

Definition gfx_set_palette (v : video) (index r g b : Z) (s : gfx) : gfx :=
  let r8 := u8 ((r <<< 2) ||| (r >>> 4)) in
  let g8 := u8 ((g <<< 2) ||| (g >>> 4)) in
  let b8 := u8 ((b <<< 2) ||| (b >>> 4)) in
  let c := (r8 <<< 16) ||| (g8 <<< 8) ||| b8 in
  Gfx (g_buf s) (gw s) (gh s) (arr_set (lut s) index c) (g_mem s)
    (g_ports s ++ if vga_bpp v =? 8 then vga_set_palette index r g b else []).

(** ** Drawing in the back buffer *)

Definition gfx_clear (color : Z) (s : gfx) : gfx :=
  with_mem (for_range 0 (u32 (gw s * gh s)) (λ i m, st m (g_buf s + i) (u8 color)) (g_mem s)) s.

Definition off_screen (x y : Z) (s : gfx) : bool := (x <? 0) || (gw s <=? x) || (y <? 0) || (gh s <=? y).

Definition gfx_pixel (x y color : Z) (s : gfx) : gfx :=
  if off_screen x y s then s else with_mem (st (g_mem s) (g_buf s + (y * gw s + x)) color) s.

(** The clipping both [gfx_fill_rect] and [gfx_present_rect] begin with. *)
Definition clip (x y w h : Z) (s : gfx) : Z * Z * Z * Z :=
  let '(x, w) := if x <? 0 then (0, w + x) else (x, w) in
  let '(y, h) := if y <? 0 then (0, h + y) else (y, h) in
  let w := if gw s <? x + w then gw s - x else w in
  let h := if gh s <? y + h then gh s - y else h in
  (x, y, w, h).

Definition gfx_fill_rect (x y w h color : Z) (s : gfx) : gfx :=
  let '(x, y, w, h) := clip x y w h s in
  with_mem (for_range 0 h (λ yy m,
    let row := g_buf s + ((y + yy) * gw s + x) in
    for_range 0 w (λ xx m, st m (row + xx) color) m) (g_mem s)) s.

Definition gfx_hline (x y w color : Z) : gfx → gfx := gfx_fill_rect x y w 1 color.
Definition gfx_vline (x y h color : Z) : gfx → gfx := gfx_fill_rect x y 1 h color.

Definition gfx_rect (x y w h color : Z) (s : gfx) : gfx :=
  let s := gfx_hline x y w color s in
  let s := gfx_hline x (y + h - 1) w color s in
  let s := gfx_vline x y h color s in
  gfx_vline (x + w - 1) y h color s.

(** [bits & (0x80 >> col)] *)
Definition lit (bits col : Z) : bool := c_true (bits &&& (0x80 >>> col)).

Definition gfx_char (v : video) (x y c fg bg : Z) (s : gfx) : gfx :=
  for_range 0 FONT_H (λ row s,
    let bits := arr_get (vga_font v) (u8 c * 32 + row) in
    for_range 0 FONT_W (λ col s,
      if lit bits col then gfx_pixel (x + col) (y + row) fg s
      else if 0 <=? bg then gfx_pixel (x + col) (y + row) (u8 bg) s
      else s) s) s.

(** The string's characters, without its terminator. *)
Fixpoint gfx_text (v : video) (x y : Z) (t : list Z) (fg bg : Z) (s : gfx) : gfx :=
  match t with
  | [] => s
  | c :: t => gfx_text v (x + FONT_W) y t fg bg (gfx_char v x y c fg bg s)
  end.

Definition gfx_text_width (t : list Z) : Z := zlen t * FONT_W.

(** ** Conversion to the framebuffer's format *)

Fixpoint store_bytes (a : Z) (l : list Z) (m : gmap Z Z) : gmap Z Z :=
  match l with [] => m | b :: l => store_bytes (a + 1) l (st m a b) end.

Definition le32 (c : Z) : list Z := [u8 c; u8 (c >>> 8); u8 (c >>> 16); u8 (c >>> 24)].
Definition le24 (c : Z) : list Z := [u8 c; u8 (c >>> 8); u8 (c >>> 16)].
Definition rgb565 (c : Z) : Z :=
  let r := u8 (c >>> 16) in let g := u8 (c >>> 8) in let b := u8 c in
  u16 (((r >>> 3) <<< 11) ||| ((g >>> 2) <<< 5) ||| (b >>> 3)).
Definition le16 (c : Z) : list Z := [u8 c; u8 (c >>> 8)].

(** One row of [w] pixels from [src] to the row of the framebuffer at [row]. *)
Definition present_row (v : video) (lut : list Z) (row x src w : Z) (m : gmap Z Z) : gmap Z Z :=
  if vga_bpp v =? 8 then for_range 0 w (λ xx m, st m (row + x + xx) (ld m (src + xx))) m
  else if vga_bpp v =? 32 then
    for_range 0 w (λ xx m, store_bytes (row + 4 * (x + xx)) (le32 (arr_get lut (ld m (src + xx)))) m) m
  else if vga_bpp v =? 24 then
    for_range 0 w (λ xx m, store_bytes (row + x * 3 + 3 * xx) (le24 (arr_get lut (ld m (src + xx)))) m) m
  else
    for_range 0 w (λ xx m, store_bytes (row + 2 * (x + xx)) (le16 (rgb565 (arr_get lut (ld m (src + xx))))) m) m.

Definition gfx_present_rect (v : video) (x y w h : Z) (s : gfx) : gfx :=
  let '(x, y, w, h) := clip x y w h s in
  if (w <=? 0) || (h <=? 0) then s
  else with_mem (for_range 0 h (λ yy m,
    let src := g_buf s + (y + yy) * gw s + x in
    let row := vga_framebuffer v + u32 ((y + yy) * vga_pitch v) in
    present_row v (lut s) row x src w m) (g_mem s)) s.

Definition gfx_present (v : video) (s : gfx) : gfx := gfx_present_rect v 0 0 (gw s) (gh s) s.

Definition gfx_fb_pixel (v : video) (x y color : Z) (s : gfx) : gfx :=
  if off_screen x y s then s
  else
    let row := vga_framebuffer v + u32 (y * vga_pitch v) in
    let c := arr_get (lut s) color in
    with_mem
      (if vga_bpp v =? 8 then st (g_mem s) (row + x) color
       else if vga_bpp v =? 32 then store_bytes (row + 4 * x) (le32 c) (g_mem s)
       else if vga_bpp v =? 24 then store_bytes (row + x * 3) (le24 c) (g_mem s)
       else store_bytes (row + 2 * x) (le16 (rgb565 c)) (g_mem s)) s.

(** ** Loops over rows and pixels *)

(** Loops that store [n] bytes at [base r] for each row [r]: the rows get their
    values, nothing else changes, provided the rows do not overlap and the bytes
    the values are computed from, [S], lie elsewhere. *)
Lemma rows_stored (S : Z → Prop) h n (base : Z → Z) (val : Z → Z → Z) g m0 :
  (∀ r m, 0 ≤ r < h → (∀ a, S a → ld m a = ld m0 a) →
     (∀ i, 0 ≤ i < n → ld (g r m) (base r + i) = val r i) ∧
     (∀ a, (∀ i, 0 ≤ i < n → a ≠ base r + i) → ld (g r m) a = ld m a)) →
  (∀ r i, 0 ≤ r < h → 0 ≤ i < n → ¬ S (base r + i)) →
  (∀ r r' i i', 0 ≤ r < r' → r' < h → 0 ≤ i < n → 0 ≤ i' < n → base r + i ≠ base r' + i') →
  let m' := for_range 0 h g m0 in
  (∀ r i, 0 ≤ r < h → 0 ≤ i < n → ld m' (base r + i) = val r i) ∧
  (∀ a, (∀ r i, 0 ≤ r < h → 0 ≤ i < n → a ≠ base r + i) → ld m' a = ld m0 a).
Proof.
  intros Hg HS Hd. cbv zeta. destruct (Z.le_gt_cases 0 h) as [Hh|Hh].
  2: { rewrite for_range_nil by lia. split; [intros; lia|done]. }
  apply (for_range_ind (λ k m, (∀ r i, 0 ≤ r < k → 0 ≤ i < n → ld m (base r + i) = val r i) ∧
    (∀ a, (∀ r i, 0 ≤ r < k → 0 ≤ i < n → a ≠ base r + i) → ld m a = ld m0 a))); [done|split; [intros; lia|done]|].
  intros k m Hk [H1 H2]. destruct (Hg k m Hk) as [Hv Ho].
  { intros a Ha. apply H2. intros r i Hr Hi ->. by apply (HS r i); [lia|..]. }
  split.
  - intros r i Hr Hi. destruct (Z.eq_dec r k) as [->|Hne]; [by apply Hv|].
    rewrite Ho; [apply H1; [lia|done]|]. intros i' Hi'. apply Hd; [lia|lia|done|done].
  - intros a Ha. rewrite Ho; [apply H2|].
    + intros r i Hr Hi. apply Ha; [lia|done].
    + intros i Hi. apply Ha; [lia|done].
Qed.

Lemma store_bytes_spec a l m :
  (∀ i, 0 ≤ i < zlen l → ld (store_bytes a l m) (a + i) = arr_get l i) ∧
  (∀ b, (∀ i, 0 ≤ i < zlen l → b ≠ a + i) → ld (store_bytes a l m) b = ld m b).
Proof.
  revert a m. induction l as [|x l IH]; intros a m; [split; [unfold zlen; simpl; lia|done]|].
  assert (zlen (x :: l) = zlen l + 1) as E by (unfold zlen; simpl; lia). rewrite E. cbn [store_bytes].
  assert (0 ≤ zlen l) by (unfold zlen; lia).
  destruct (IH (a + 1) (st m a x)) as [H1 H2]. split.
  - intros i Hi. destruct (Z.eq_dec i 0) as [->|Hne].
    + rewrite H2 by lia. rewrite Z.add_0_r. apply ld_st_eq.
    + replace (a + i) with (a + 1 + (i - 1)) by lia. rewrite H1 by lia. unfold arr_get.
      rewrite (proj2 (Z.ltb_ge i 0)), (proj2 (Z.ltb_ge (i - 1) 0)) by lia.
      by replace (Z.to_nat i) with (Datatypes.S (Z.to_nat (i - 1))) by lia.
  - intros b Hb. rewrite H2 by (intros i Hi; specialize (Hb (i + 1)); lia). apply ld_st_ne.
    specialize (Hb 0). lia.
Qed.

(** A row of [w] pixels of [k] bytes each, converted one by one. *)
Lemma pixels_spec (S : Z → Prop) w k base src (enc : Z → list Z) m0 :
  0 < k → (∀ c, zlen (enc c) = k) →
  (∀ i, 0 ≤ i < w → S (src + i)) → (∀ i, 0 ≤ i < k * w → ¬ S (base + i)) →
  let m' := for_range 0 w (λ xx m, store_bytes (base + k * xx) (enc (ld m (src + xx))) m) m0 in
  (∀ xx j, 0 ≤ xx < w → 0 ≤ j < k → ld m' (base + k * xx + j) = arr_get (enc (ld m0 (src + xx))) j) ∧
  (∀ a, (∀ i, 0 ≤ i < k * w → a ≠ base + i) → ld m' a = ld m0 a).
Proof.
  intros Hk He Hsrc HS.
  destruct (rows_stored S w k (λ xx, base + k * xx) (λ xx j, arr_get (enc (ld m0 (src + xx))) j)
    (λ xx m, store_bytes (base + k * xx) (enc (ld m (src + xx))) m) m0) as [H1 H2].
  - intros r m Hr Hm. rewrite (Hm (src + r)) by (by apply Hsrc).
    destruct (store_bytes_spec (base + k * r) (enc (ld m0 (src + r))) m) as [H1 H2]. by rewrite He in H1, H2.
  - intros r i Hr Hi. rewrite <- Z.add_assoc. apply HS. nia.
  - intros r r' i i' Hr Hr' Hi Hi'. nia.
  - split; [exact H1|]. intros a Ha. apply H2. intros r i Hr Hi. rewrite <- Z.add_assoc. apply Ha. nia.
Qed.

(** ** What drawing paints *)

Definition pixel_at (s : gfx) (px py : Z) : Z := g_buf s + (py * gw s + px).

(** [s'] is [s] with the pixels of [P] painted: nothing else has changed, on the
    screen or in memory. *)
Record paints (s s' : gfx) (P : Z → Z → option Z) : Prop := {
  pa_same : g_buf s' = g_buf s ∧ gw s' = gw s ∧ gh s' = gh s ∧ lut s' = lut s ∧ g_ports s' = g_ports s;
  pa_pixel px py : 0 ≤ px < gw s → 0 ≤ py < gh s →
    ld (g_mem s') (pixel_at s px py) = default (ld (g_mem s) (pixel_at s px py)) (P px py);
  pa_rest a : a < g_buf s ∨ g_buf s + gh s * gw s ≤ a → ld (g_mem s') a = ld (g_mem s) a
}.

Definition over (P Q : Z → Z → option Z) (px py : Z) : option Z :=
  match Q px py with Some c => Some c | None => P px py end.

Lemma paints_nothing s : paints s s (λ _ _, None).
Proof. by split. Qed.

Lemma paints_trans s1 s2 s3 P Q : paints s1 s2 P → paints s2 s3 Q → paints s1 s3 (over P Q).
Proof.
  intros [(E1 & E2 & E3 & E4 & E5) P1 R1] [(F1 & F2 & F3 & F4 & F5) P2 R2]. split.
  - split_and!; congruence.
  - intros px py Hx Hy. unfold pixel_at in *. rewrite E1, E2 in P2. rewrite P2 by (rewrite ?E3; done).
    rewrite P1 by done. unfold over. by destruct (Q px py).
  - intros a Ha. rewrite R2 by (by rewrite E1, E2, E3). by apply R1.
Qed.

Lemma paints_ext s s' P Q :
  paints s s' P → (∀ px py, 0 ≤ px < gw s → 0 ≤ py < gh s → P px py = Q px py) → paints s s' Q.
Proof. intros [E HP HR] HPQ. split; [done| |done]. intros px py Hx Hy. by rewrite <- HPQ, HP. Qed.

(** A loop paints what its steps paint. *)
Lemma paints_loop n (f : Z → gfx → gfx) (P : Z → Z → Z → option Z) s :
  0 ≤ n →
  (∀ i s, 0 ≤ i < n → paints s (f i s) (P i)) →
  ∃ Q, paints s (for_range 0 n f s) Q ∧
    ∀ px py, (∀ i j c d, P i px py = Some c → P j px py = Some d → i = j) →
      (∀ i c, 0 ≤ i < n → P i px py = Some c → Q px py = Some c) ∧
      ((∀ i, 0 ≤ i < n → P i px py = None) → Q px py = None).
Proof.
  intros Hn Hf.
  apply (for_range_ind (λ k s', ∃ Q, paints s s' Q ∧ ∀ px py, (∀ i j c d, P i px py = Some c → P j px py = Some d → i = j) →
      (∀ i c, 0 ≤ i < k → P i px py = Some c → Q px py = Some c) ∧ ((∀ i, 0 ≤ i < k → P i px py = None) → Q px py = None)));
    [done| |].
  - exists (λ _ _, None). split; [apply paints_nothing|]. intros px py _. split; [lia|done].
  - intros i s' Hi (Q & HQ & Hspec). exists (over Q (P i)). split; [by eapply paints_trans, Hf|].
    intros px py Huniq. destruct (Hspec px py Huniq) as [H1 H2]. unfold over. split.
    + intros j c Hj Ej. destruct (P i px py) as [d|] eqn:Ei.
      * assert (j = i) as -> by (by eapply Huniq). congruence.
      * apply (H1 j); [|done]. assert (j ≠ i) by (intros ->; congruence). lia.
    + intros Hall. rewrite (Hall i) by lia. apply H2. intros j Hj. apply Hall. lia.
Qed.

Definition in_rect (x y w h px py : Z) : bool :=
  (x <=? px) && (px <? x + w) && (y <=? py) && (py <? y + h).

Lemma in_rect_true x y w h px py : in_rect x y w h px py = true ↔ x ≤ px < x + w ∧ y ≤ py < y + h.
Proof. unfold in_rect. rewrite !andb_true_iff, !Z.leb_le, !Z.ltb_lt. lia. Qed.

Definition filled (b : bool) (c : Z) : option Z := if b then Some c else None.

Lemma clip_spec x y w h s :
  let '(x', y', w', h') := clip x y w h s in
  0 ≤ x' ∧ 0 ≤ y' ∧ x' + w' ≤ gw s ∧ y' + h' ≤ gh s ∧
  ∀ px py, 0 ≤ px < gw s → 0 ≤ py < gh s → in_rect x' y' w' h' px py = in_rect x y w h px py.
Proof.
  unfold clip. cbv zeta. destruct (Z.ltb_spec x 0), (Z.ltb_spec y 0); cbv beta iota; repeat zcase;
    (split_and!; [lia|lia|lia|lia|]; intros px py Hx Hy; apply eq_true_iff_eq; rewrite !in_rect_true; lia).
Qed.

Lemma pixel_range gw gh px py : 0 ≤ px < gw → 0 ≤ py < gh → 0 ≤ py * gw + px < gh * gw.
Proof. nia. Qed.

Lemma pixel_inj gw px py qx qy : 0 ≤ px < gw → 0 ≤ qx < gw → py * gw + px = qy * gw + qx → px = qx ∧ py = qy.
Proof. intros Hp Hq E. assert (py = qy) as -> by nia. lia. Qed.

Lemma pixel_paints x y c s : paints s (gfx_pixel x y c s) (λ px py, filled ((px =? x) && (py =? y)) c).
Proof.
  unfold gfx_pixel. destruct (off_screen x y s) eqn:Eo; unfold off_screen in Eo.
  - eapply paints_ext; [apply paints_nothing|]. intros px py Hx Hy. unfold filled.
    destruct (Z.eqb_spec px x) as [->|], (Z.eqb_spec py y) as [->|]; try done. exfalso.
    rewrite !orb_true_iff, !Z.ltb_lt, !Z.leb_le in Eo. lia.
  - rewrite !orb_false_iff, !Z.ltb_ge, !Z.leb_gt in Eo. destruct Eo as [[[H1 H2] H3] H4].
    pose proof (pixel_range (gw s) (gh s) x y ltac:(lia) ltac:(lia)). split; [done| |].
    + intros px py Hx Hy. unfold pixel_at, filled. cbn [with_mem g_mem].
      destruct (Z.eqb_spec px x) as [Ex|Ex], (Z.eqb_spec py y) as [Ey|Ey]; cbn [andb default];
        [subst; apply ld_st_eq|..]; (rewrite ld_st_ne; [done|]; intros E;
        destruct (pixel_inj (gw s) px py x y Hx ltac:(lia) ltac:(lia)); congruence).
    + intros a Ha. cbn [with_mem g_mem]. apply ld_st_ne. lia.
Qed.

Lemma fill_paints x y w h c s : paints s (gfx_fill_rect x y w h c s) (λ px py, filled (in_rect x y w h px py) c).
Proof.
  unfold gfx_fill_rect. pose proof (clip_spec x y w h s) as Hc. destruct (clip x y w h s) as [[[x' y'] w'] h'].
  destruct Hc as (Hx & Hy & Hw & Hh & Hin).
  destruct (rows_stored (λ _, False) h' w' (λ yy, g_buf s + ((y' + yy) * gw s + x')) (λ _ _, c)
    (λ yy m, for_range 0 w' (λ xx m, st m (g_buf s + ((y' + yy) * gw s + x') + xx) c) m) (g_mem s)) as [H1 H2].
  - intros r m Hr _. destruct (Z.le_gt_cases 0 w'); [|rewrite for_range_nil by lia; split; [lia|done]].
    apply (for_range_ind (λ k m', (∀ i, 0 ≤ i < k → ld m' (g_buf s + ((y' + r) * gw s + x') + i) = c) ∧
      (∀ a, (∀ i, 0 ≤ i < k → a ≠ g_buf s + ((y' + r) * gw s + x') + i) → ld m' a = ld m a))); [done|split; [lia|done]|].
    intros k m' Hk [P1 P2]. split.
    + intros i Hi. destruct (Z.eq_dec i k) as [->|]; [apply ld_st_eq|]. rewrite ld_st_ne by lia. apply P1. lia.
    + intros a Ha. rewrite ld_st_ne; [apply P2; intros i Hi; apply Ha; lia|]. intros E. apply (Ha k); lia.
  - intros r i Hr Hi [].
  - intros r r' i i' Hr Hr' Hi Hi'. nia.
  - cbv zeta in H1, H2. split; [done| |].
    + intros px py Hpx Hpy. unfold pixel_at. cbn [with_mem g_mem]. rewrite <- (Hin px py) by done. unfold filled.
      destruct (in_rect x' y' w' h' px py) eqn:Er.
      * apply in_rect_true in Er. replace (g_buf s + (py * gw s + px)) with (g_buf s + ((y' + (py - y')) * gw s + x') + (px - x')) by lia.
        rewrite H1 by lia. done.
      * rewrite H2; [done|]. intros r i Hr Hi E.
        destruct (pixel_inj (gw s) px py (x' + i) (y' + r) Hpx ltac:(lia) ltac:(lia)) as [-> ->].
        assert (in_rect x' y' w' h' (x' + i) (y' + r) = true) by (apply in_rect_true; lia). congruence.
    + intros a Ha. cbn [with_mem g_mem]. apply H2. intros r i Hr Hi ->.
      pose proof (pixel_range (gw s) (gh s) (x' + i) (y' + r) ltac:(lia) ltac:(lia)). lia.
Qed.

(** A pixel of a character is set when the bit of its row of the font is, the leftmost
    pixel being bit 7. *)
Lemma lit_bit bits col : 0 ≤ col < 8 → lit bits col = Z.testbit bits (7 - col).
Proof.
  intros Hc. unfold lit. rewrite <- testbit_land_pow2 by lia. f_equal. f_equal.
  assert (col = 0 ∨ col = 1 ∨ col = 2 ∨ col = 3 ∨ col = 4 ∨ col = 5 ∨ col = 6 ∨ col = 7) as Hcases by lia.
  by repeat destruct Hcases as [->|Hcases]; [..|subst col].
Qed.

(** The colour a glyph gives a pixel of its box. *)
Definition glyph (v : video) (x y c fg bg px py : Z) : option Z :=
  if in_rect x y FONT_W FONT_H px py then
    if Z.testbit (arr_get (vga_font v) (u8 c * 32 + (py - y))) (7 - (px - x)) then Some fg
    else if 0 <=? bg then Some (u8 bg) else None
  else None.

Lemma cell_paints s x y (b : bool) fg bg :
  paints s (if b then gfx_pixel x y fg s else if 0 <=? bg then gfx_pixel x y (u8 bg) s else s)
    (λ px py, if (px =? x) && (py =? y) then if b then Some fg else if 0 <=? bg then Some (u8 bg) else None else None).
Proof.
  destruct b; [apply pixel_paints|]. destruct (0 <=? bg); [apply pixel_paints|].
  eapply paints_ext; [apply paints_nothing|]. intros px py _ _. by destruct (_ && _).
Qed.

Lemma char_paints v x y c fg bg s : paints s (gfx_char v x y c fg bg s) (glyph v x y c fg bg).
Proof.
  unfold gfx_char. set (bits row := arr_get (vga_font v) (u8 c * 32 + row)).
  set (cell row col := if lit (bits row) col then Some fg else if 0 <=? bg then Some (u8 bg) else None).
  assert (∀ row s, paints s (for_range 0 FONT_W (λ col s,
      if lit (bits row) col then gfx_pixel (x + col) (y + row) fg s
      else if 0 <=? bg then gfx_pixel (x + col) (y + row) (u8 bg) s else s) s)
    (λ px py, if (py =? y + row) && (x <=? px) && (px <? x + FONT_W) then cell row (px - x) else None)) as Hrow.
  { intros row s'.
    destruct (paints_loop FONT_W (λ col s, if lit (bits row) col then gfx_pixel (x + col) (y + row) fg s
      else if 0 <=? bg then gfx_pixel (x + col) (y + row) (u8 bg) s else s)
      (λ col px py, if (px =? x + col) && (py =? y + row) then cell row col else None) s' ltac:(done)) as (Q & HQ & Hspec).
    { intros col s2 _. apply cell_paints. }
    eapply paints_ext; [exact HQ|]. intros px py _ _. destruct (Hspec px py) as [H1 H2].
    { intros i j d e. destruct (Z.eqb_spec px (x + i)), (Z.eqb_spec px (x + j)); cbn [andb]; try done. lia. }
    destruct ((py =? y + row) && (x <=? px) && (px <? x + FONT_W)) eqn:E.
    - rewrite !andb_true_iff, Z.eqb_eq, Z.leb_le, Z.ltb_lt in E. destruct E as [[-> ?] ?].
      destruct (cell row (px - x)) as [d|] eqn:Ec.
      + apply (H1 (px - x)); [lia|]. replace (x + (px - x)) with px by lia. by rewrite !Z.eqb_refl.
      + apply H2. intros i Hi. destruct (Z.eqb_spec px (x + i)) as [->|]; [|done]. rewrite Z.eqb_refl. cbn [andb].
        by replace (x + i - x) with i in Ec by lia.
    - apply H2. intros i Hi. destruct (Z.eqb_spec px (x + i)) as [->|]; [|done]. destruct (Z.eqb_spec py (y + row)) as [->|]; [|done].
      exfalso. apply not_true_iff_false in E. apply E. rewrite !andb_true_iff, Z.leb_le, Z.ltb_lt.
      split_and!; [done|lia|lia]. }
  destruct (paints_loop FONT_H (λ row s, for_range 0 FONT_W (λ col s,
      if lit (bits row) col then gfx_pixel (x + col) (y + row) fg s
      else if 0 <=? bg then gfx_pixel (x + col) (y + row) (u8 bg) s else s) s) _ s ltac:(done) (λ row s _, Hrow row s))
    as (Q & HQ & Hspec).
  eapply paints_ext; [exact HQ|]. intros px py _ _. destruct (Hspec px py) as [H1 H2].
  { intros i j d e. destruct (Z.eqb_spec py (y + i)), (Z.eqb_spec py (y + j)); cbn [andb]; try done. lia. }
  unfold glyph. destruct (in_rect x y FONT_W FONT_H px py) eqn:E.
  - apply in_rect_true in E. rewrite <- lit_bit by (unfold FONT_W in *; lia).
    change (if lit _ _ then Some fg else if 0 <=? bg then Some (u8 bg) else None) with (cell (py - y) (px - x)).
    destruct (cell (py - y) (px - x)) as [d|] eqn:Ec.
    + apply (H1 (py - y)); [lia|]. replace (y + (py - y)) with py by lia.
      rewrite Z.eqb_refl, (proj2 (Z.leb_le _ _)), (proj2 (Z.ltb_lt _ _)) by lia. done.
    + apply H2. intros i Hi. destruct (Z.eqb_spec py (y + i)) as [->|]; [|done].
      replace (y + i - y) with i in Ec by lia. by destruct (_ && _).
  - apply H2. intros i Hi. destruct (Z.eqb_spec py (y + i)) as [->|]; [|done].
    destruct (Z.leb_spec x px), (Z.ltb_spec px (x + FONT_W)); cbn [andb]; try done. exfalso.
    assert (in_rect x y FONT_W FONT_H px (y + i) = true) by (apply in_rect_true; lia). congruence.
Qed.

Fixpoint text_colour (v : video) (x y : Z) (t : list Z) (fg bg : Z) : Z → Z → option Z :=
  match t with
  | [] => λ _ _, None
  | c :: t => over (glyph v x y c fg bg) (text_colour v (x + FONT_W) y t fg bg)
  end.

Lemma text_paints v x y t fg bg s : paints s (gfx_text v x y t fg bg s) (text_colour v x y t fg bg).
Proof.
  revert x s. induction t as [|c t IH]; intros x s; [apply paints_nothing|].
  cbn [gfx_text text_colour]. eapply paints_trans; [apply char_paints|apply IH].
Qed.

Lemma rect_paints x y w h c s :
  paints s (gfx_rect x y w h c s) (λ px py, filled
    (in_rect x y w 1 px py || in_rect x (y + h - 1) w 1 px py || in_rect x y 1 h px py || in_rect (x + w - 1) y 1 h px py) c).
Proof.
  unfold gfx_rect, gfx_hline, gfx_vline.
  pose proof (fill_paints x y w 1 c s) as P1. set (s1 := gfx_fill_rect x y w 1 c s) in *.
  pose proof (fill_paints x (y + h - 1) w 1 c s1) as P2. set (s2 := gfx_fill_rect _ _ _ _ _ s1) in *.
  pose proof (fill_paints x y 1 h c s2) as P3. set (s3 := gfx_fill_rect _ _ _ _ _ s2) in *.
  pose proof (fill_paints (x + w - 1) y 1 h c s3) as P4.
  eapply paints_ext; [exact (paints_trans _ _ _ _ _ (paints_trans _ _ _ _ _ (paints_trans _ _ _ _ _ P1 P2) P3) P4)|].
  intros px py _ _. unfold over, filled.
  destruct (in_rect x y w 1 px py), (in_rect x (y + h - 1) w 1 px py), (in_rect x y 1 h px py), (in_rect (x + w - 1) y 1 h px py); done.
Qed.

Lemma clear_paints c s : 0 ≤ gw s → 0 ≤ gh s → gw s * gh s < 2 ^ 32 → paints s (gfx_clear c s) (λ _ _, Some (u8 c)).
Proof.
  intros Hw Hh Hs. unfold gfx_clear. rewrite u32_small by nia.
  assert (∀ m, (∀ i, 0 ≤ i < gw s * gh s → ld (for_range 0 (gw s * gh s) (λ i m, st m (g_buf s + i) (u8 c)) m) (g_buf s + i) = u8 c) ∧
    (∀ a, (∀ i, 0 ≤ i < gw s * gh s → a ≠ g_buf s + i) → ld (for_range 0 (gw s * gh s) (λ i m, st m (g_buf s + i) (u8 c)) m) a = ld m a)) as Hc.
  { intros m. apply (for_range_ind (λ k m', (∀ i, 0 ≤ i < k → ld m' (g_buf s + i) = u8 c) ∧
      (∀ a, (∀ i, 0 ≤ i < k → a ≠ g_buf s + i) → ld m' a = ld m a))); [nia|split; [lia|done]|].
    intros k m' Hk [P1 P2]. split.
    + intros i Hi. destruct (Z.eq_dec i k) as [->|]; [apply ld_st_eq|]. rewrite ld_st_ne by lia. apply P1. lia.
    + intros a Ha. rewrite ld_st_ne; [apply P2; intros i Hi; apply Ha; lia|]. intros E. apply (Ha k); lia. }
  destruct (Hc (g_mem s)) as [H1 H2]. split; [done| |].
  - intros px py Hx Hy. unfold pixel_at. cbn [with_mem g_mem]. apply H1. nia.
  - intros a Ha. cbn [with_mem g_mem]. apply H2. intros i Hi. nia.
Qed.

(** ** Drawing commands *)

Inductive draw :=
  | Clear (c : Z) | Pixel (x y c : Z) | Fill (x y w h c : Z) | Rect (x y w h c : Z)
  | Char (x y c fg bg : Z) | Text (x y : Z) (t : list Z) (fg bg : Z).

Definition run_draw (v : video) (d : draw) (s : gfx) : gfx :=
  match d with
  | Clear c => gfx_clear c s
  | Pixel x y c => gfx_pixel x y c s
  | Fill x y w h c => gfx_fill_rect x y w h c s
  | Rect x y w h c => gfx_rect x y w h c s
  | Char x y c fg bg => gfx_char v x y c fg bg s
  | Text x y t fg bg => gfx_text v x y t fg bg s
  end.

(** The colour a command gives a pixel, on a canvas without borders. *)
Definition colour (v : video) (d : draw) (px py : Z) : option Z :=
  match d with
  | Clear c => Some (u8 c)
  | Pixel x y c => filled ((px =? x) && (py =? y)) c
  | Fill x y w h c => filled (in_rect x y w h px py) c
  | Rect x y w h c => filled (in_rect x y w 1 px py || in_rect x (y + h - 1) w 1 px py ||
                              in_rect x y 1 h px py || in_rect (x + w - 1) y 1 h px py) c
  | Char x y c fg bg => glyph v x y c fg bg px py
  | Text x y t fg bg => text_colour v x y t fg bg px py
  end.

Definition run_draws (v : video) (ds : list draw) (s : gfx) : gfx := fold_left (λ s d, run_draw v d s) ds s.
Definition colours (v : video) (ds : list draw) : Z → Z → option Z := fold_left (λ P d, over P (colour v d)) ds (λ _ _, None).

Lemma draw_paints v d s : 0 ≤ gw s → 0 ≤ gh s → gw s * gh s < 2 ^ 32 → paints s (run_draw v d s) (colour v d).
Proof.
  intros Hw Hh Hs. destruct d; cbn [run_draw colour].
  - by apply clear_paints.
  - apply pixel_paints.
  - apply fill_paints.
  - apply rect_paints.
  - apply char_paints.
  - apply text_paints.
Qed.

(** ** Presenting *)

(** The bytes that a pixel of colour [c] consists of in the framebuffer, by its
    components: the palette has the colour as 0x00RRGGBB.  With eight bits it is the
    index itself; with 32 and 24 its blue, green and red, in this order; with 16 a
    little-endian word of five bits of red, six of green and five of blue. *)
Definition red (rgb : Z) : Z := rgb / 65536 mod 256.
Definition green (rgb : Z) : Z := rgb / 256 mod 256.
Definition blue (rgb : Z) : Z := rgb mod 256.
Definition word565 (rgb : Z) : Z := red rgb / 8 * 2048 + green rgb / 4 * 32 + blue rgb / 8.

Definition pixel_bytes (v : video) (lut : list Z) (c : Z) : list Z :=
  let rgb := arr_get lut c in
  if vga_bpp v =? 8 then [c]
  else if vga_bpp v =? 32 then [blue rgb; green rgb; red rgb; rgb / 16777216 mod 256]
  else if vga_bpp v =? 24 then [blue rgb; green rgb; red rgb]
  else [word565 rgb mod 256; word565 rgb / 256].

Lemma rgb565_word rgb : rgb565 rgb = word565 rgb ∧ 0 ≤ word565 rgb < 2 ^ 16.
Proof.
  unfold rgb565, word565, u16, u8. rewrite !shiftr_div by lia.
  change (rgb / 2 ^ 16 mod 2 ^ 8) with (red rgb). change (rgb / 2 ^ 8 mod 2 ^ 8) with (green rgb).
  change (rgb mod 2 ^ 8) with (blue rgb).
  assert (0 ≤ red rgb < 256 ∧ 0 ≤ green rgb < 256 ∧ 0 ≤ blue rgb < 256) as (Hr & Hg & Hb)
    by (unfold red, green, blue; zlia).
  generalize dependent (red rgb). generalize dependent (green rgb). generalize dependent (blue rgb).
  intros b Hb g Hg r Hr. change (2 ^ 3) with 8. change (2 ^ 2) with 4. rewrite !shiftl_mul by lia.
  change (2 ^ 11) with 2048. change (2 ^ 5) with 32.
  rewrite (Z.lor_comm (r / 8 * 2048)), (lor_disjoint_add (g / 4 * 32) _ 11), Z.lor_comm, (lor_disjoint_add (b / 8) _ 5) by zlia.
  rewrite Z.mod_small by zlia. zlia.
Qed.

(** Bytes per pixel of the framebuffer, and the bytes that show a colour. *)
Definition bpp_bytes (v : video) : Z :=
  if vga_bpp v =? 8 then 1 else if vga_bpp v =? 32 then 4 else if vga_bpp v =? 24 then 3 else 2.
Definition shown (v : video) (lut : list Z) (c : Z) : list Z :=
  if vga_bpp v =? 8 then [c]
  else if vga_bpp v =? 32 then le32 (arr_get lut c)
  else if vga_bpp v =? 24 then le24 (arr_get lut c)
  else le16 (rgb565 (arr_get lut c)).

(** The framebuffer has room for the screen and is not the back buffer. *)
Record display_ok (v : video) (s : gfx) : Prop := {
  do_size : 0 ≤ gw s ∧ 0 ≤ gh s;
  do_pitch : bpp_bytes v * gw s ≤ vga_pitch v ∧ gh s * vga_pitch v ≤ 2 ^ 32;
  do_apart : g_buf s + gh s * gw s ≤ vga_framebuffer v ∨ vga_framebuffer v + gh s * vga_pitch v ≤ g_buf s
}.

Definition fb_at (v : video) (px py : Z) : Z := vga_framebuffer v + py * vga_pitch v + bpp_bytes v * px.

Lemma for_range_ext {S} lo hi (f g : Z → S → S) s : (∀ i s, f i s = g i s) → for_range lo hi f s = for_range lo hi g s.
Proof.
  intros E. unfold for_range. generalize (Z.to_nat (hi - lo)). intros n. revert lo s.
  induction n as [|n IH]; intros lo s; [done|]. cbn [for_loop]. by rewrite E.
Qed.

Lemma shown_bytes v lut c : shown v lut c = pixel_bytes v lut c.
Proof.
  unfold shown, pixel_bytes, le32, le24, le16, blue, green, red.
  destruct (rgb565_word (arr_get lut c)) as [-> Hw].
  rewrite !shiftr_div by lia. unfold u8.
  rewrite (Z.mod_small (word565 _ / 2 ^ 8)) by (change (2 ^ 8) with 256; zlia).
  done.
Qed.

Lemma shown_length v lut c : zlen (shown v lut c) = bpp_bytes v.
Proof. unfold shown, bpp_bytes. by repeat destruct (_ =? _). Qed.

Lemma present_row_pixels v lut row x src w m :
  present_row v lut row x src w m =
  for_range 0 w (λ xx m, store_bytes (row + bpp_bytes v * x + bpp_bytes v * xx) (shown v lut (ld m (src + xx))) m) m.
Proof.
  unfold present_row, bpp_bytes, shown. repeat destruct (_ =? _); apply for_range_ext; intros i m'.
  - cbn [store_bytes]. f_equal. lia.
  - f_equal. lia.
  - f_equal. lia.
  - f_equal. lia.
Qed.

Lemma present_row_spec (S : Z → Prop) v lut row x src w m0 :
  let k := bpp_bytes v in
  (∀ i, 0 ≤ i < w → S (src + i)) → (∀ i, 0 ≤ i < k * w → ¬ S (row + k * x + i)) →
  (∀ i, 0 ≤ i < k * w → ld (present_row v lut row x src w m0) (row + k * x + i) =
     arr_get (shown v lut (ld m0 (src + i / k))) (i mod k)) ∧
  (∀ a, (∀ i, 0 ≤ i < k * w → a ≠ row + k * x + i) → ld (present_row v lut row x src w m0) a = ld m0 a).
Proof.
  intros k Hs Hd. assert (0 < k) as Hk by (unfold k, bpp_bytes; repeat destruct (_ =? _); lia).
  destruct (pixels_spec S w k (row + k * x) src (shown v lut) m0 Hk (shown_length v lut) Hs Hd) as [H1 H2].
  rewrite present_row_pixels. split; [|exact H2]. intros i Hi.
  pose proof (Z.div_mod i k ltac:(lia)). pose proof (Z.mod_pos_bound i k Hk).
  replace (row + k * x + i) with (row + k * x + k * (i / k) + i mod k) by lia. apply H1; [|done].
  split; [apply Z.div_pos; lia|apply Z.div_lt_upper_bound; lia].
Qed.

Lemma rows_apart k x w gw pitch r r' i i' :
  0 ≤ r < r' → 0 ≤ x → x + w ≤ gw → 0 < k → k * gw ≤ pitch → 0 ≤ i < k * w → 0 ≤ i' < k * w →
  r * pitch + k * x + i < r' * pitch + k * x + i'.
Proof. intros. assert (k * (x + w) ≤ pitch) by nia. nia. Qed.

(** One row of the clipped rectangle. *)
Definition row_at (v : video) (x y r : Z) : Z := vga_framebuffer v + (y + r) * vga_pitch v + bpp_bytes v * x.
Definition in_back (s : gfx) (a : Z) : Prop := g_buf s ≤ a < g_buf s + gh s * gw s.

Lemma bpp_pos v : 0 < bpp_bytes v.
Proof. unfold bpp_bytes. repeat destruct (_ =? _); lia. Qed.

Lemma row_not_back v s x y w h r i :
  display_ok v s → 0 ≤ x → 0 ≤ y → x + w ≤ gw s → y + h ≤ gh s → 0 ≤ r < h → 0 ≤ i < bpp_bytes v * w →
  ¬ in_back s (row_at v x y r + i).
Proof.
  intros [[Hgw Hgh] [Hpitch Hfb] Hap] Hx Hy Hw Hh Hr Hi. unfold in_back, row_at. pose proof (bpp_pos v).
  assert (bpp_bytes v * (x + w) ≤ vga_pitch v) by nia.
  assert ((y + r + 1) * vga_pitch v ≤ gh s * vga_pitch v) by nia. nia.
Qed.

Lemma present_step v s x y w h r m :
  display_ok v s → 0 ≤ x → 0 ≤ y → x + w ≤ gw s → y + h ≤ gh s → 0 < w → 0 ≤ r < h →
  (∀ a, in_back s a → ld m a = ld (g_mem s) a) →
  let m' := present_row v (lut s) (vga_framebuffer v + u32 ((y + r) * vga_pitch v)) x (g_buf s + (y + r) * gw s + x) w m in
  (∀ i, 0 ≤ i < bpp_bytes v * w → ld m' (row_at v x y r + i) =
     arr_get (shown v (lut s) (ld (g_mem s) (pixel_at s (x + i / bpp_bytes v) (y + r)))) (i mod bpp_bytes v)) ∧
  (∀ a, (∀ i, 0 ≤ i < bpp_bytes v * w → a ≠ row_at v x y r + i) → ld m' a = ld m a).
Proof.
  intros Hd Hx Hy Hw Hh Hw0 Hr Hm. pose proof Hd as [[Hgw Hgh] [Hpitch Hfb] Hap]. pose proof (bpp_pos v) as Hk.
  assert (0 < vga_pitch v) by nia.
  assert ((y + r + 1) * vga_pitch v ≤ gh s * vga_pitch v) by nia.
  assert (∀ i, 0 ≤ i < w → in_back s (g_buf s + (y + r) * gw s + x + i)) as Hsrc.
  { intros i Hi. unfold in_back. pose proof (pixel_range (gw s) (gh s) (x + i) (y + r) ltac:(lia) ltac:(lia)). lia. }
  rewrite u32_small by nia.
  destruct (present_row_spec (in_back s) v (lut s) (vga_framebuffer v + (y + r) * vga_pitch v) x (g_buf s + (y + r) * gw s + x) w m)
    as [P1 P2]; [exact Hsrc|intros i Hi; by apply (row_not_back v s x y w h)|].
  split; [|exact P2]. intros i Hi. etransitivity; [exact (P1 i Hi)|].
  assert (0 ≤ i / bpp_bytes v < w) by (split; [apply Z.div_pos; lia|apply Z.div_lt_upper_bound; lia]).
  rewrite Hm by (by apply Hsrc). unfold pixel_at. do 3 f_equal. lia.
Qed.

Lemma draws_paint v ds s :
  0 ≤ gw s → 0 ≤ gh s → gw s * gh s < 2 ^ 32 → paints s (run_draws v ds s) (colours v ds).
Proof.
  intros Hw Hh Hs. unfold run_draws, colours.
  assert (∀ s' P, paints s s' P → paints s (fold_left (λ s d, run_draw v d s) ds s') (fold_left (λ P d, over P (colour v d)) ds P)) as Hf;
    [|apply Hf, paints_nothing].
  induction ds as [|d ds IH]; intros s' P HP; [exact HP|]. cbn [fold_left]. apply IH.
  eapply paints_trans; [exact HP|]. pose proof (pa_same _ _ _ HP) as (_ & E2 & E3 & _). apply draw_paints; by rewrite ?E2, ?E3.
Qed.

(** C35: drawing is exact: after any sequence of drawing commands, with any
    coordinates, every pixel of the back buffer has the colour of the last
    command that covers it (text by the font's bits), the pixels no command
    covers are as before, and no other byte of memory has changed. *)
Theorem drawing_exact v ds s :
  0 ≤ gw s → 0 ≤ gh s → gw s * gh s < 2 ^ 32 → paints s (run_draws v ds s) (colours v ds).
Proof. exact (draws_paint v ds s). Qed.

Lemma present_pixels v x y w h s :
  display_ok v s →
  let s' := gfx_present_rect v x y w h s in
  (∀ px py j, 0 ≤ px < gw s → 0 ≤ py < gh s → in_rect x y w h px py = true → 0 ≤ j < bpp_bytes v →
     ld (g_mem s') (fb_at v px py + j) = arr_get (shown v (lut s) (ld (g_mem s) (pixel_at s px py))) j) ∧
  (∀ a, (∀ px py j, 0 ≤ px < gw s → 0 ≤ py < gh s → in_rect x y w h px py = true → 0 ≤ j < bpp_bytes v →
     a ≠ fb_at v px py + j) → ld (g_mem s') a = ld (g_mem s) a).
Proof.
  intros Hd. unfold gfx_present_rect. pose proof (clip_spec x y w h s) as Hc.
  destruct (clip x y w h s) as [[[x' y'] w'] h']. destruct Hc as (Hx & Hy & Hw & Hh & Hin).
  set (k := bpp_bytes v). pose proof (bpp_pos v) as Hk. fold k in Hk.
  destruct (Z.leb_spec w' 0), (Z.leb_spec h' 0); cbn [orb].
  1-3: (split; [|done]; intros px py j Hpx Hpy Hr; rewrite <- Hin in Hr by done; apply in_rect_true in Hr; lia).
  destruct (rows_stored (in_back s) h' (k * w') (row_at v x' y') _ _ (g_mem s) (λ r m Hr Hm, present_step v s x' y' w' h' r m Hd Hx Hy Hw Hh ltac:(lia) Hr Hm)
    (λ r i Hr Hi, row_not_back v s x' y' w' h' r i Hd Hx Hy Hw Hh Hr Hi)) as [P1 P2].
  { intros r r' i i' Hr Hr' Hi Hi'. unfold row_at. fold k.
    pose proof (rows_apart k x' w' (gw s) (vga_pitch v) (y' + r) (y' + r') i i' ltac:(lia) Hx Hw Hk (proj1 (do_pitch _ _ Hd)) Hi Hi'). lia. }
  split.
  - intros px py j Hpx Hpy Hr Hj. rewrite <- Hin in Hr by done. apply in_rect_true in Hr. cbn [with_mem g_mem].
    replace (fb_at v px py + j) with (row_at v x' y' (py - y') + (k * (px - x') + j)) by (unfold fb_at, row_at; fold k; lia).
    etransitivity; [apply P1; [lia|nia]|]. fold k.
    replace ((k * (px - x') + j) / k) with (px - x') by (apply Z.div_unique_pos with j; lia).
    replace ((k * (px - x') + j) mod k) with j by (apply Z.mod_unique_pos with (px - x'); lia).
    by replace (x' + (px - x')) with px by lia; replace (y' + (py - y')) with py by lia.
  - intros a Ha. cbn [with_mem g_mem]. apply P2. intros r i Hr Hi E.
    pose proof (Z.div_mod i k ltac:(lia)). pose proof (Z.mod_pos_bound i k Hk).
    assert (0 ≤ i / k < w') by (split; [apply Z.div_pos; lia|apply Z.div_lt_upper_bound; lia]).
    apply (Ha (x' + i / k) (y' + r) (i mod k)); [lia|lia| |lia|].
    + rewrite <- Hin by lia. apply in_rect_true. lia.
    + rewrite E. unfold fb_at, row_at. fold k. lia.
Qed.

(** C37: presenting a rectangle shows it: in each of the four framebuffer formats
    every pixel on the screen and in the rectangle gets the bytes of its palette
    colour (its components in the format's order and widths), and no other byte of
    memory changes, whatever the rectangle. *)
Theorem present_shows v x y w h s :
  display_ok v s →
  let s' := gfx_present_rect v x y w h s in
  (∀ px py j, 0 ≤ px < gw s → 0 ≤ py < gh s → in_rect x y w h px py = true → 0 ≤ j < bpp_bytes v →
     ld (g_mem s') (fb_at v px py + j) = arr_get (pixel_bytes v (lut s) (ld (g_mem s) (pixel_at s px py))) j) ∧
  (∀ a, (∀ px py j, 0 ≤ px < gw s → 0 ≤ py < gh s → in_rect x y w h px py = true → 0 ≤ j < bpp_bytes v →
     a ≠ fb_at v px py + j) → ld (g_mem s') a = ld (g_mem s) a).
Proof.
  intros Hd s'. destruct (present_pixels v x y w h s Hd) as [P Q]. split; [|exact Q].
  intros px py j Hx Hy Hr Hj. rewrite <- shown_bytes. by apply P.
Qed.

(** ** A small display *)

Definition demo_video : video := Video 12 20 32 48 0xE0000000 (replicate (66 * 32) 0 ++ [0x18; 0x3C; 0x66; 0x7E; 0x66]).
Definition demo_gfx : gfx := Gfx 0xC0001000 12 20 [0; 0x00FF8000] ∅ [].
Definition demo_draws : list draw := [Clear 0; Fill (-3) 2 8 100 1; Text 2 1 [66; 67] 1 (-1); Pixel 50 3 1].

Lemma drawing_exact_witness :
  ld (g_mem (run_draws demo_video demo_draws demo_gfx)) (pixel_at demo_gfx 4 2) = 1 ∧
  paints demo_gfx (run_draws demo_video demo_draws demo_gfx) (colours demo_video demo_draws).
Proof.
  split; [vm_compute; reflexivity|]. apply (drawing_exact demo_video demo_draws demo_gfx); vm_compute; first [discriminate|reflexivity].
Defined.

Lemma present_shows_witness :
  let s := run_draws demo_video demo_draws demo_gfx in
  ld (g_mem (gfx_present_rect demo_video 3 (-2) 100 10 s)) (fb_at demo_video 4 2 + 1) = 0x80.
Proof.
  intros s. assert (display_ok demo_video s) as Hd by (split; vm_compute; intuition discriminate).
  destruct (present_shows demo_video 3 (-2) 100 10 s Hd) as [P _].
  etransitivity; [apply (P 4 2 1); vm_compute; intuition (discriminate || reflexivity)|]. vm_compute. reflexivity.
Defined.
