(* ===== verification/Compositor.v ===== *)
(** What the graphics primitives do to the two images they keep, the back buffer
    and the screen: each is a colour index per pixel, the screen's bytes encoding
    its own ([shows]).  Drawing changes the back buffer only, presenting copies a
    rectangle of it to the screen, [gfx_fb_pixel] changes the screen only. *)
From Stdlib Require Import ZArith Lia Bool.
From stdpp Require Import base numbers gmap option list.
From S2P Require Import Prelude Frames Kheap Heaps Gfx.

#[local] Open Scope Z_scope.

(** An image, and one with some pixels repainted. *)
Abbreviation image := (Z → Z → Z).
Definition repaint (f : image) (P : Z → Z → option Z) : image := λ px py, default (f px py) (P px py).

Definition on_screen (s : gfx) (px py : Z) : Prop := 0 ≤ px < gw s ∧ 0 ≤ py < gh s.

Record shows (v : video) (s : gfx) (back scr : image) : Prop := {
  sh_back px py : on_screen s px py → ld (g_mem s) (pixel_at s px py) = back px py;
  sh_screen px py j : on_screen s px py → 0 ≤ j < bpp_bytes v →
    ld (g_mem s) (fb_at v px py + j) = arr_get (shown v (lut s) (scr px py)) j
}.

(** The same buffer, size and palette. *)
Definition same_display (s s' : gfx) : Prop := g_buf s' = g_buf s ∧ gw s' = gw s ∧ gh s' = gh s ∧ lut s' = lut s.

Lemma same_display_trans s1 s2 s3 : same_display s1 s2 → same_display s2 s3 → same_display s1 s3.
Proof. intros (? & ? & ? & ?) (? & ? & ? & ?). split_and!; congruence. Qed.

Lemma same_display_ok v s s' : same_display s s' → display_ok v s → display_ok v s'.
Proof. intros (E1 & E2 & E3 & E4) [H1 H2 H3]. split; by rewrite ?E1, ?E2, ?E3. Qed.

Lemma same_display_on s s' px py : same_display s s' → on_screen s' px py ↔ on_screen s px py.
Proof. intros (E1 & E2 & E3 & E4). unfold on_screen. by rewrite E2, E3. Qed.

Lemma shows_ext v s b b' f f' :
  shows v s b f → (∀ px py, on_screen s px py → b px py = b' px py) → (∀ px py, on_screen s px py → f px py = f' px py) →
  shows v s b' f'.
Proof.
  intros [H1 H2] Hb Hf. split.
  - intros px py Hs. by rewrite H1, Hb.
  - intros px py j Hs Hj. by rewrite H2, Hf.
Qed.

Lemma fb_outside_back v s px py j :
  display_ok v s → on_screen s px py → 0 ≤ j < bpp_bytes v →
  fb_at v px py + j < g_buf s ∨ g_buf s + gh s * gw s ≤ fb_at v px py + j.
Proof.
  intros Hd [Hx Hy] Hj. pose proof (row_not_back v s px py 1 1 0 j Hd) as Hn. unfold in_back, row_at, fb_at in *.
  rewrite Z.add_0_r in Hn. replace (vga_framebuffer v + py * vga_pitch v + bpp_bytes v * px + j)
    with (vga_framebuffer v + py * vga_pitch v + bpp_bytes v * px + j) by lia.
  pose proof (Hn ltac:(lia) ltac:(lia) ltac:(lia) ltac:(lia) ltac:(lia) ltac:(lia)). lia.
Qed.

Lemma back_not_fb v s px py qx qy j :
  display_ok v s → on_screen s px py → on_screen s qx qy → 0 ≤ j < bpp_bytes v → pixel_at s qx qy ≠ fb_at v px py + j.
Proof.
  intros Hd Hp [Hqx Hqy] Hj E. pose proof (fb_outside_back v s px py j Hd Hp Hj). rewrite <- E in *. unfold pixel_at in *.
  pose proof (pixel_range (gw s) (gh s) qx qy Hqx Hqy). lia.
Qed.

(** Pixels of the screen have bytes of their own. *)
Lemma fb_inj v s px py qx qy j k :
  display_ok v s → on_screen s px py → on_screen s qx qy → 0 ≤ j < bpp_bytes v → 0 ≤ k < bpp_bytes v →
  fb_at v px py + j = fb_at v qx qy + k → px = qx ∧ py = qy ∧ j = k.
Proof.
  intros [[Hw Hh] [Hp _] _] [Hx Hy] [Hqx Hqy] Hj Hk. unfold fb_at. intros E. pose proof (bpp_pos v).
  assert (bpp_bytes v * px + j < vga_pitch v) by nia. assert (bpp_bytes v * qx + k < vga_pitch v) by nia.
  assert (py = qy) as -> by nia. assert (px = qx) as -> by nia. lia.
Qed.

Lemma shows_draws v ds s b f :
  display_ok v s → gw s * gh s < 2 ^ 32 → shows v s b f →
  same_display s (run_draws v ds s) ∧ shows v (run_draws v ds s) (repaint b (colours v ds)) f.
Proof.
  intros Hd Hsz [H1 H2]. pose proof (do_size _ _ Hd) as [Hw Hh].
  destruct (draws_paint v ds s Hw Hh Hsz) as [(E1 & E2 & E3 & E4 & _) HP HR].
  set (s' := run_draws v ds s) in *. clearbody s'. split; [done|]. split.
  - intros px py [Hx Hy]. rewrite E2 in Hx. rewrite E3 in Hy. unfold pixel_at. rewrite E1, E2. fold (pixel_at s px py).
    rewrite HP by done. unfold repaint. by rewrite H1.
  - intros px py j [Hx Hy] Hj. rewrite E2 in Hx. rewrite E3 in Hy. rewrite E4.
    rewrite HR by (by apply fb_outside_back). by apply H2.
Qed.

Lemma shows_present v x y w h s b f :
  display_ok v s → shows v s b f →
  same_display s (gfx_present_rect v x y w h s) ∧
  shows v (gfx_present_rect v x y w h s) b (λ px py, if in_rect x y w h px py then b px py else f px py).
Proof.
  intros Hd [H1 H2]. assert (same_display s (gfx_present_rect v x y w h s)) as Hsame.
  { unfold gfx_present_rect. destruct (clip x y w h s) as [[[? ?] ?] ?]. by destruct (_ || _). }
  split; [done|]. destruct (present_pixels v x y w h s Hd) as [P1 P2]. destruct Hsame as (E1 & E2 & E3 & E4).
  set (s' := gfx_present_rect v x y w h s) in *. clearbody s'. split.
  - intros px py [Hx Hy]. rewrite E2 in Hx. rewrite E3 in Hy. unfold pixel_at. rewrite E1, E2. fold (pixel_at s px py).
    rewrite P2; [by apply H1|]. intros qx qy j Hqx Hqy _ Hj. by apply back_not_fb.
  - intros px py j [Hx Hy] Hj. rewrite E2 in Hx. rewrite E3 in Hy. rewrite E4. destruct (in_rect x y w h px py) eqn:Er.
    + rewrite P1 by done. by rewrite H1.
    + rewrite P2; [by apply H2|]. intros qx qy k Hqx Hqy Hr Hk E.
      destruct (fb_inj v s px py qx qy j k Hd) as (-> & -> & ->); [done..|]. congruence.
Qed.

(** ** Drawing on the screen *)

(** [f] changes the screen's pixels as [P] says and nothing else. *)
Definition fb_paints (v : video) (f : gfx → gfx) (P : Z → Z → option Z) : Prop :=
  ∀ s b scr, display_ok v s → shows v s b scr → same_display s (f s) ∧ shows v (f s) b (repaint scr P).

Lemma fb_paints_id v : fb_paints v (λ s, s) (λ _ _, None).
Proof. intros s b scr _ Hs. done. Qed.

Lemma fb_paints_comp v f g P Q : fb_paints v f P → fb_paints v g Q → fb_paints v (λ s, g (f s)) (over P Q).
Proof.
  intros Hf Hg s b scr Hd Hs. destruct (Hf s b scr Hd Hs) as [Hd1 Hs1].
  destruct (Hg (f s) b _ (same_display_ok _ _ _ Hd1 Hd) Hs1) as [Hd2 Hs2]. split; [by eapply same_display_trans|].
  eapply shows_ext; [exact Hs2|done|]. intros px py _. unfold repaint, over. by destruct (Q px py).
Qed.

Lemma fb_paints_ext v f P Q : fb_paints v f P → (∀ px py, P px py = Q px py) → fb_paints v f Q.
Proof.
  intros Hf E s b scr Hd Hs. destruct (Hf s b scr Hd Hs) as [H1 H2]. split; [done|]. eapply shows_ext; [exact H2|done|].
  intros px py _. unfold repaint. by rewrite E.
Qed.

Lemma fb_pixel_bytes v x y c s :
  display_ok v s → off_screen x y s = false →
  gfx_fb_pixel v x y c s = with_mem (store_bytes (fb_at v x y) (shown v (lut s) c) (g_mem s)) s.
Proof.
  intros Hd Ho. unfold gfx_fb_pixel. rewrite Ho. unfold off_screen in Ho.
  rewrite !orb_false_iff, !Z.ltb_ge, !Z.leb_gt in Ho. destruct Ho as [[[H1 H2] H3] H4].
  pose proof (do_pitch _ _ Hd) as [Hp Hf]. pose proof (bpp_pos v).
  assert (0 ≤ vga_pitch v) by nia. assert ((y + 1) * vga_pitch v ≤ gh s * vga_pitch v) by (apply Z.mul_le_mono_nonneg_r; lia).
  rewrite u32_small by nia. f_equal. unfold shown, fb_at, bpp_bytes.
  destruct (vga_bpp v =? 8); [|destruct (vga_bpp v =? 32); [|destruct (vga_bpp v =? 24)]]; cbn [store_bytes]; f_equal; lia.
Qed.

Lemma fb_paints_pixel v x y c : fb_paints v (gfx_fb_pixel v x y c) (λ px py, Gfx.filled ((px =? x) && (py =? y)) c).
Proof.
  intros s b scr Hd Hs. destruct (off_screen x y s) eqn:Eo.
  - unfold gfx_fb_pixel. rewrite Eo. split; [done|]. eapply shows_ext; [exact Hs|done|]. intros px py [Hx Hy].
    unfold repaint, filled, off_screen in *. destruct (Z.eqb_spec px x) as [->|]; [|done]. destruct (Z.eqb_spec py y) as [->|]; [|done].
    exfalso. rewrite !orb_true_iff, !Z.ltb_lt, !Z.leb_le in Eo. lia.
  - rewrite fb_pixel_bytes by done. split; [done|]. destruct Hs as [H1 H2].
    assert (on_screen s x y) as Hxy.
    { unfold off_screen in Eo. rewrite !orb_false_iff, !Z.ltb_ge, !Z.leb_gt in Eo. unfold on_screen. lia. }
    destruct (store_bytes_spec (fb_at v x y) (shown v (lut s) c) (g_mem s)) as [P1 P2]. rewrite shown_length in P1, P2. split.
    + intros px py Hp. change (on_screen s px py) in Hp. unfold pixel_at. cbn [with_mem g_buf gw g_mem]. fold (pixel_at s px py).
      rewrite P2; [by apply H1|]. intros i Hi. by apply back_not_fb.
    + intros px py j Hp Hj. change (on_screen s px py) in Hp. cbn [with_mem lut g_mem]. unfold repaint, filled.
      destruct (Z.eqb_spec px x) as [Ex|Ex], (Z.eqb_spec py y) as [Ey|Ey]; cbn [andb default]; [subst; by apply P1|..];
        (rewrite P2; [by apply H2|]; intros i Hi E; destruct (fb_inj v s px py x y j i Hd) as (? & ? & _); done).
Qed.

(** A loop whose steps fill adjacent rectangles. *)
Lemma fb_paints_loop v n (f : Z → gfx → gfx) (P : Z → Z → Z → option Z) :
  0 ≤ n → (∀ px py, P 0 px py = None) →
  (∀ k, 0 ≤ k < n → ∃ Q, fb_paints v (f k) Q ∧ ∀ px py, over (P k) Q px py = P (k + 1) px py) →
  fb_paints v (for_range 0 n f) (P n).
Proof.
  intros Hn H0 Hstep s b scr Hd Hs.
  apply (for_range_ind (λ k s', same_display s s' ∧ shows v s' b (repaint scr (P k)))); [done| |].
  - split; [done|]. eapply shows_ext; [exact Hs|done|]. intros px py _. unfold repaint. by rewrite H0.
  - intros k s' Hk [Hs1 Hs2]. destruct (Hstep k Hk) as (Q & HQ & E).
    destruct (HQ s' b _ (same_display_ok _ _ _ Hs1 Hd) Hs2) as [H1 H2]. split; [by eapply same_display_trans|].
    eapply shows_ext; [exact H2|done|]. intros px py _. unfold repaint. rewrite <- E. unfold over. by destruct (Q px py).
Qed.
