(* ===== verification/Desktop.v ===== *)
(** The graphical desktop: kernel/desktop.c.  Drawing code produces the drawing
    commands it makes ([Gfx.draw], which [Gfx.run_draw] performs; [gfx_hline] is a
    [Fill] one pixel high); what the desktop calls of the keyboard, the mouse, the
    clock, the file system, the editor, the display and the sound driver is the
    interface [Seat].  [int] coordinates are integers; the quotients the source
    takes are of numbers that are not negative. *)
From Stdlib Require Import ZArith Lia Bool Ascii String.
From stdpp Require Import base numbers gmap option list.
From S2P Require Import Prelude Console Rtc Frames Kheap Heaps Block Fat12 Io Gfx.

#[local] Open Scope Z_scope.
#[local] Open Scope c_scope.
#[local] Open Scope io_scope.

(** ** Palette *)

Definition COL_BLACK : Z := 0.
Definition COL_DESKTOP : Z := 1.
Definition COL_FACE : Z := 2.
Definition COL_TEXT : Z := 3.
Definition COL_TITLE : Z := 4.
Definition COL_TITLE_TEXT : Z := 5.
Definition COL_BORDER : Z := 6.
Definition COL_TASKBAR : Z := 7.
Definition COL_TASK_TEXT : Z := 8.
Definition COL_CLOSE : Z := 9.
Definition COL_SHADOW : Z := 10.
Definition COL_ACCENT : Z := 11.
Definition COL_INACTIVE : Z := 12.
Definition COL_WHITE : Z := 15.
Definition COL_FOLDER : Z := 16.
Definition COL_FOLDER_D : Z := 17.
Definition COL_PAGE : Z := 18.
Definition COL_PAGE_LINE : Z := 19.
Definition COL_LABEL : Z := 20.
Definition COL_SELECT : Z := 21.
Definition COL_MENU : Z := 22.
Definition COL_MENU_HI : Z := 23.
Definition COL_MENU_TEXT : Z := 24.
Definition COL_START : Z := 25.
Definition COL_START_HI : Z := 26.

Definition palette : list (Z * (Z * Z * Z)) :=
  [(COL_BLACK, (0, 0, 0)); (COL_DESKTOP, (8, 26, 34)); (COL_FACE, (50, 50, 55)); (COL_TEXT, (4, 4, 6));
   (COL_TITLE, (12, 22, 55)); (COL_TITLE_TEXT, (62, 62, 63)); (COL_BORDER, (5, 5, 9)); (COL_TASKBAR, (18, 18, 27));
   (COL_TASK_TEXT, (56, 56, 61)); (COL_CLOSE, (54, 22, 22)); (COL_SHADOW, (3, 11, 15)); (COL_ACCENT, (32, 44, 63));
   (COL_INACTIVE, (30, 30, 38)); (COL_WHITE, (63, 63, 63)); (COL_FOLDER, (60, 50, 22)); (COL_FOLDER_D, (40, 32, 10));
   (COL_PAGE, (60, 60, 62)); (COL_PAGE_LINE, (34, 34, 42)); (COL_LABEL, (58, 58, 62)); (COL_SELECT, (26, 40, 62));
   (COL_MENU, (28, 28, 40)); (COL_MENU_HI, (38, 50, 63)); (COL_MENU_TEXT, (60, 60, 63)); (COL_START, (22, 40, 52));
   (COL_START_HI, (36, 54, 63))].
Definition load_palette (v : video) (s : gfx) : gfx :=
  fold_left (λ s '(i, (r, g, b)), gfx_set_palette v i r g b s) palette s.

(** ** State *)

Definition TITLE_H : Z := 18.
Definition TB_H : Z := 22.
Definition MAX_ICONS : Z := 32.
Definition MAX_DEPTH : Z := 12.
Definition MAX_WIN : Z := 2.
Definition WIN_WELCOME : Z := 0.
Definition WIN_INFO : Z := 1.
Definition BODY_MAX : Z := 5.
Definition LINE_C : Z := 40.
Definition CUR_COLS : Z := 8.
Definition CUR_ROWS : Z := 12.

(** The screen's size and what depends on it: [W], [H], [big], [cur_scale], the
    icon grid, the Start button and the menu. *)
Record metrics := Metrics {
  scr_w : Z; scr_h : Z; big : bool; cur_scale : Z;
  cellw : Z; cellh : Z; icon_pad : Z; icon_cols : Z; glyph_w : Z; glyph_h : Z;
  sb_x : Z; sb_y : Z; sb_w : Z; sb_h : Z;
  mnu_x : Z; mnu_y : Z; mnu_w : Z; mnu_h : Z; mnu_ih : Z
}.

(** The directory shown ([entries] up to [nentries]) and the way to it.  Strings
    are their characters, without the terminator.  [overran] is no variable of
    the program: it records that [build_path] has written past the end of
    [cur_path], whose size it does not look at.  What such a write destroys
    (the static that follows) is not modelled, so no claim is made of a
    desktop whose flag is set. *)
Record folder := Folder {
  entries : list fs_dirent; sel_slot : Z;
  dir_stack : list Z; name_stack : list (list Z); dir_depth : Z; cur_path : list Z;
  overran : bool
}.
Definition nentries (f : folder) : Z := zlen (entries f).

Record window := Window {
  win_x : Z; win_y : Z; win_w : Z; win_h : Z; win_open : bool;
  win_title : list Z; win_body : list (list Z); nbody : Z
}.

Record desktop := Desktop {
  dk_metrics : metrics; dk_folder : folder;
  wins : list window; zorder : list Z;
  start_open : bool; start_hover : Z;
  edit_name : list Z;
  dragging : Z; grab_dx : Z; grab_dy : Z
}.

Definition with_metrics (m : metrics) (d : desktop) : desktop :=
  Desktop m (dk_folder d) (wins d) (zorder d) (start_open d) (start_hover d) (edit_name d) (dragging d) (grab_dx d) (grab_dy d).
Definition with_folder (f : folder) (d : desktop) : desktop :=
  Desktop (dk_metrics d) f (wins d) (zorder d) (start_open d) (start_hover d) (edit_name d) (dragging d) (grab_dx d) (grab_dy d).
Definition with_windows (w : list window) (z : list Z) (d : desktop) : desktop :=
  Desktop (dk_metrics d) (dk_folder d) w z (start_open d) (start_hover d) (edit_name d) (dragging d) (grab_dx d) (grab_dy d).
Definition with_start (o : bool) (hv : Z) (d : desktop) : desktop :=
  Desktop (dk_metrics d) (dk_folder d) (wins d) (zorder d) o hv (edit_name d) (dragging d) (grab_dx d) (grab_dy d).
Definition with_edit (n : list Z) (d : desktop) : desktop :=
  Desktop (dk_metrics d) (dk_folder d) (wins d) (zorder d) (start_open d) (start_hover d) n (dragging d) (grab_dx d) (grab_dy d).
Definition with_grab (w dx dy : Z) (d : desktop) : desktop :=
  Desktop (dk_metrics d) (dk_folder d) (wins d) (zorder d) (start_open d) (start_hover d) (edit_name d) w dx dy.

(** ** String helpers *)

Definition set_str (s : list Z) (cap : Z) : list Z := take (Z.to_nat (cap - 1)) s.

(** The digits of [append_uint], least significant first: ten hold 32 bits. *)
Fixpoint uint_digits (n : nat) (v : Z) : list Z :=
  match n with
  | O => []
  | S n => (48 + v mod 10) :: if v / 10 =? 0 then [] else uint_digits n (v / 10)
  end.
Definition append_uint (p : list Z) (v : Z) : list Z := p ++ rev (uint_digits 10 v).

(** ** Directories and icons *)

Definition base_slot (f : folder) : Z := if 1 <? dir_depth f then 1 else 0.

Definition name_at (f : folder) (i : Z) : list Z := nth (Z.to_nat i) (name_stack f) [].

Definition build_path (f : folder) : list Z :=
  for_range 1 (dir_depth f) (λ i p, p ++ name_at f i ++ if i <? dir_depth f - 1 then [47] else []) [47].

(** [cur_path] is an array of 80 bytes, one of them the terminator's. *)
Definition CUR_PATH_SIZE : Z := 80.

Definition set_dir (l : list fs_dirent) (f : folder) : folder :=
  Folder l (-1) (dir_stack f) (name_stack f) (dir_depth f) (build_path f)
    (overran f || (CUR_PATH_SIZE <? zlen (build_path f) + 1)).

(** The entry at an index below [nentries]. *)
Definition no_entry : fs_dirent := Dirent [] false 0 0.
Definition entry (f : folder) (i : Z) : fs_dirent := nth (Z.to_nat i) (entries f) no_entry.

(** [enter_dir] up to [reload_dir]. *)
Definition descend (ei : Z) (f : folder) : folder :=
  let n := Z.to_nat (dir_depth f) in
  Folder (entries f) (sel_slot f) (<[n := d_cluster (entry f ei)]> (dir_stack f))
    (<[n := set_str (d_name (entry f ei)) 13]> (name_stack f)) (dir_depth f + 1) (cur_path f) (overran f).
Definition ascend (f : folder) : folder :=
  Folder (entries f) (sel_slot f) (dir_stack f) (name_stack f) (dir_depth f - 1) (cur_path f) (overran f).
Definition select (slot : Z) (f : folder) : folder :=
  Folder (entries f) slot (dir_stack f) (name_stack f) (dir_depth f) (cur_path f) (overran f).

Definition set_size (w h : Z) (m : metrics) : metrics :=
  let b := 640 <=? w in
  Metrics w h b (if b then 2 else 1) (cellw m) (cellh m) (icon_pad m) (icon_cols m) (glyph_w m) (glyph_h m)
    (sb_x m) (sb_y m) (sb_w m) (sb_h m) (mnu_x m) (mnu_y m) (mnu_w m) (mnu_h m) (mnu_ih m).

Definition layout_icons (m : metrics) : metrics :=
  let cw := if big m then 88 else 52 in
  let pad := if big m then 16 else 6 in
  let cols := (scr_w m - pad * 2) / cw in
  Metrics (scr_w m) (scr_h m) (big m) (cur_scale m) cw (if big m then 56 else 42) pad (if cols <? 1 then 1 else cols)
    (if big m then 34 else 20) (if big m then 26 else 16)
    (sb_x m) (sb_y m) (sb_w m) (sb_h m) (mnu_x m) (mnu_y m) (mnu_w m) (mnu_h m) (mnu_ih m).

Definition icon_pos (m : metrics) (slot : Z) : Z * Z :=
  (icon_pad m + slot mod icon_cols m * cellw m, icon_pad m + slot / icon_cols m * cellh m).

Definition draw_slot (m : metrics) (sel slot : Z) (name : list Z) (is_dir is_up : bool) : list draw :=
  let '(ix, iy) := icon_pos m slot in
  (if slot =? sel then [Fill (ix + 2) iy (cellw m - 4) (cellh m - 2) COL_SELECT] else []) ++
  let gx := ix + (cellw m - glyph_w m) / 2 in
  let gy := iy + 3 in
  (if is_dir || is_up then
     let tab := glyph_h m / 3 in
     [Fill gx gy (glyph_w m / 2) tab COL_FOLDER_D;
      Fill gx (gy + tab / 2) (glyph_w m) (glyph_h m - tab / 2) COL_FOLDER;
      Rect gx (gy + tab / 2) (glyph_w m) (glyph_h m - tab / 2) COL_FOLDER_D] ++
     if is_up then
       let ax := gx + glyph_w m / 2 in let ay := gy + glyph_h m / 2 in
       map (λ r, Fill (ax - r) (ay - 2 + r) (2 * r + 1) 1 COL_TEXT) [0; 1; 2; 3; 4] ++
       [Fill (ax - 1) (ay + 1) 3 5 COL_TEXT]
     else []
   else
     [Fill gx gy (glyph_w m) (glyph_h m) COL_PAGE; Rect gx gy (glyph_w m) (glyph_h m) COL_PAGE_LINE] ++
     map (λ i, Fill (gx + 3) (gy + i * (glyph_h m / 4)) (glyph_w m - 6) 1 COL_PAGE_LINE) [1; 2; 3]) ++
  let label := set_str name 13 in
  let maxc := (cellw m - 2) / FONT_W in
  let maxc := if maxc <? 1 then 1 else maxc in
  let label := if maxc <? zlen label then take (Z.to_nat maxc) label else label in
  let tw := gfx_text_width label in
  [Text (ix + (cellw m - tw) / 2) (iy + glyph_h m + 6) label COL_LABEL (-1)].

Definition draw_icons (m : metrics) (f : folder) : list draw :=
  let base := base_slot f in
  (if base =? 0 then [] else draw_slot m (sel_slot f) 0 (str "..") false true) ++
  mjoin (imap (λ i e, draw_slot m (sel_slot f) (Z.of_nat i + base) (d_name e) (d_is_dir e) false) (entries f)).

(** [for (s = 0; s < total; s++) if (inside the cell) return s;] *)
Definition in_cell (m : metrics) (px py s : Z) : bool :=
  let '(ix, iy) := icon_pos m s in (ix <=? px) && (px <? ix + cellw m) && (iy <=? py) && (py <? iy + cellh m).
Definition slot_at (m : metrics) (f : folder) (px py : Z) : Z :=
  default (-1) (find_range 0 (base_slot f + nentries f) (λ s, if in_cell m px py s then Some s else None)).

(** ** Windows *)

Definition no_window : window := Window 0 0 0 0 false [] [] 0.
Definition win (d : desktop) (i : Z) : window := nth (Z.to_nat i) (wins d) no_window.
Definition set_win (i : Z) (w : window) (d : desktop) : desktop := with_windows (<[Z.to_nat i := w]> (wins d)) (zorder d) d.
Definition close_win (w : window) : window :=
  Window (win_x w) (win_y w) (win_w w) (win_h w) false (win_title w) (win_body w) (nbody w).
Definition move_win (x y : Z) (w : window) : window :=
  Window x y (win_w w) (win_h w) (win_open w) (win_title w) (win_body w) (nbody w).

Definition welcome_lines : list (list Z) :=
  map (λ s, set_str s LINE_C)
    [str "Files in / show as icons."; str "Click a .txt to edit it."; str "Click Start: shell / power.";
     str "Drag title bars; [x] closes."; str "Esc returns to the shell."].
Definition windows_init (d : desktop) : desktop :=
  let m := dk_metrics d in
  let w := if big m then 300 else 188 in
  let h := if big m then 128 else 96 in
  let info := win d WIN_INFO in
  with_windows
    [Window (scr_w m / 2 - w / 2) (if big m then 40 else 18) w h true (set_str (str "Welcome to PumpkinOS") 28) welcome_lines 5;
     close_win info]
    [WIN_WELCOME; WIN_INFO] d.

(** [body] lines that are not written keep what they held. *)
Definition put_line (i : nat) (s : list Z) (b : list (list Z)) : list (list Z) := <[i := set_str s LINE_C]> b.

Definition open_info (idx : Z) (d : desktop) : desktop :=
  let e := entry (dk_folder d) idx in
  let m := dk_metrics d in
  let b := put_line 0 (if d_is_dir e then str "Type:  directory" else str "Type:  file") (win_body (win d WIN_INFO)) in
  let w := if big m then 220 else 160 in
  let '(b, n) := if d_is_dir e then (b, 1) else (put_line 1 (append_uint (str "Size:  ") (d_size e) ++ str " bytes") b, 2) in
  set_win WIN_INFO (Window (scr_w m / 2 - w / 2) (scr_h m / 3) w (if big m then 84 else 68) true (set_str (d_name e) 28) b n) d.

(** [while (at < MAX_WIN && zorder[at] != idx) at++], then the shift down and the
    store at the end. *)
Fixpoint zorder_at (n : nat) (at_ idx : Z) (z : list Z) : Z :=
  match n with
  | O => at_
  | S n => if (at_ <? MAX_WIN) && negb (arr_get z at_ =? idx) then zorder_at n (at_ + 1) idx z else at_
  end.
Definition raise (idx : Z) (z : list Z) : list Z :=
  let at_ := zorder_at (Z.to_nat MAX_WIN) 0 idx z in
  arr_set (for_range at_ (MAX_WIN - 1) (λ i z, arr_set z i (arr_get z (i + 1))) z) (MAX_WIN - 1) idx.
Definition raise_window (idx : Z) (d : desktop) : desktop := with_windows (wins d) (raise idx (zorder d)) d.

Definition close_box_x (w : window) : Z := win_x w + win_w w - TITLE_H - 1.

Definition draw_window (w : window) (active : bool) : list draw :=
  let x := win_x w in let y := win_y w in
  [Fill (x + 4) (y + 4) (win_w w) (win_h w) COL_SHADOW;
   Fill x y (win_w w) (win_h w) COL_FACE;
   Rect x y (win_w w) (win_h w) COL_BORDER;
   Fill (x + 1) (y + 1) (win_w w - 2) TITLE_H (if active then COL_TITLE else COL_INACTIVE);
   Text (x + 6) (y + 2) (win_title w) COL_TITLE_TEXT (-1);
   Fill (close_box_x w) (y + 2) (TITLE_H - 3) (TITLE_H - 3) COL_CLOSE;
   Char (close_box_x w + 2) (y + 1) (chr "x") COL_TITLE_TEXT (-1)] ++
  map (λ i, Text (x + 10) (y + TITLE_H + 8 + i * (FONT_H + 2)) (nth (Z.to_nat i) (win_body w) []) COL_TEXT (-1))
    (seqZ 0 (nbody w)).

(** ** Taskbar and Start menu *)

Definition menu_items : list (list Z) := Eval vm_compute in map str ["Enter shell"; "Reboot"; "Power Off"]%string.

Definition layout_taskbar (m : metrics) : metrics :=
  let ih := FONT_H + 6 in
  let h := 3 * ih + 4 in
  Metrics (scr_w m) (scr_h m) (big m) (cur_scale m) (cellw m) (cellh m) (icon_pad m) (icon_cols m) (glyph_w m) (glyph_h m)
    4 (scr_h m - TB_H + 2) (if big m then 66 else 48) (TB_H - 4)
    4 (scr_h m - TB_H - h) (if big m then 150 else 118) h ih.

Definition menu_item_at (d : desktop) (px py : Z) : Z :=
  let m := dk_metrics d in
  if negb (start_open d) then -1
  else if (px <? mnu_x m) || (mnu_x m + mnu_w m <=? px) then -1
  else if (py <? mnu_y m + 2) || (mnu_y m + 2 + 3 * mnu_ih m <=? py) then -1
  else (py - (mnu_y m + 2)) / mnu_ih m.

Definition two (v : Z) : list Z := [48 + (v / 10) mod 10; 48 + v mod 10].

(** [t] is what [rtc_read] gives when the taskbar is drawn. *)
Definition draw_taskbar (d : desktop) (t : rtc_time) : list draw :=
  let m := dk_metrics d in
  let y := scr_h m - TB_H in
  let pad := (TB_H - FONT_H) / 2 in
  let clock := two (hour t) ++ [chr ":"] ++ two (minute t) ++ [chr ":"] ++ two (second t) in
  [Fill 0 y (scr_w m) TB_H COL_TASKBAR;
   Fill 0 y (scr_w m) 1 COL_ACCENT;
   Fill (sb_x m) (sb_y m) (sb_w m) (sb_h m) (if start_open d then COL_START_HI else COL_START);
   Rect (sb_x m) (sb_y m) (sb_w m) (sb_h m) COL_BORDER;
   Text (sb_x m + (if big m then 12 else 6)) (y + pad) (str "Start") COL_TITLE_TEXT (-1)] ++
  (if big m then [Text (sb_x m + sb_w m + 12) (y + pad) (cur_path (dk_folder d)) COL_TASK_TEXT (-1)] else []) ++
  [Text (scr_w m - gfx_text_width clock - 8) (y + pad) clock COL_TASK_TEXT (-1)].

Definition draw_item (m : metrics) (hover i : Z) : list draw :=
  let iy := mnu_y m + 2 + i * mnu_ih m in
  (if i =? hover then [Fill (mnu_x m + 2) iy (mnu_w m - 4) (mnu_ih m) COL_MENU_HI] else []) ++
  [Text (mnu_x m + 10) (iy + 3) (nth (Z.to_nat i) menu_items []) (if i =? hover then COL_TITLE else COL_MENU_TEXT) (-1)].

Definition draw_start_menu (d : desktop) : list draw :=
  let m := dk_metrics d in
  if negb (start_open d) then []
  else
    [Fill (mnu_x m + 3) (mnu_y m + 3) (mnu_w m) (mnu_h m) COL_SHADOW;
     Fill (mnu_x m) (mnu_y m) (mnu_w m) (mnu_h m) COL_MENU;
     Rect (mnu_x m) (mnu_y m) (mnu_w m) (mnu_h m) COL_BORDER] ++
    mjoin (map (draw_item m (start_hover d)) [0; 1; 2]).

(** ** The mouse cursor *)

Definition cursor_bmp : list (list Z) := Eval vm_compute in
  map str ["#"; "##"; "#.#"; "#..#"; "#...#"; "#....#"; "#.....#"; "#......#"; "#...####"; "#..#"; "#.# #"; "## ##"]%string.

Definition cursor_color (c : Z) : option Z :=
  if c =? chr "#" then Some COL_BLACK else if c =? chr "." then Some COL_WHITE else None.

(** One character of the bitmap, magnified. *)
Definition draw_cell_fb (v : video) (s x y c : Z) (g : gfx) : gfx :=
  for_range 0 s (λ sy g, for_range 0 s (λ sx g, gfx_fb_pixel v (x + sx) (y + sy) c g) g) g.
Fixpoint draw_line_fb (v : video) (s x y : Z) (line : list Z) (g : gfx) : gfx :=
  match line with
  | [] => g
  | ch :: line =>
      let g := match cursor_color ch with Some c => draw_cell_fb v s x y c g | None => g end in
      draw_line_fb v s (x + s) y line g
  end.
Fixpoint draw_rows_fb (v : video) (s x y : Z) (rows : list (list Z)) (g : gfx) : gfx :=
  match rows with
  | [] => g
  | line :: rows => draw_rows_fb v s x (y + s) rows (draw_line_fb v s x y line g)
  end.
Definition draw_cursor_fb (v : video) (m : metrics) (mx my : Z) (g : gfx) : gfx :=
  draw_rows_fb v (cur_scale m) mx my cursor_bmp g.

(** ** Compositor *)

Definition draw_windows (d : desktop) : list draw :=
  mjoin (map (λ i, let idx := arr_get (zorder d) i in
    if win_open (win d idx) then draw_window (win d idx) (i =? MAX_WIN - 1) else []) (seqZ 0 MAX_WIN)).

(** What [render_scene] draws, [t] being the time it reads. *)
Definition scene (d : desktop) (t : rtc_time) : list draw :=
  [Clear COL_DESKTOP] ++ draw_icons (dk_metrics d) (dk_folder d) ++ draw_windows d ++ draw_taskbar d t ++ draw_start_menu d.

Definition in_rect (px py x y w h : Z) : bool := (x <=? px) && (px <? x + w) && (y <=? py) && (py <? y + h).

(** ** What the desktop is used with *)

(** The operations the desktop calls; between any two of them interrupts may have
    moved the mouse or filled the keyboard's buffer. *)
Class Seat (W : Type) := {
  st_haschar : W → W * bool;
  st_getchar : W → option (W * Z);
  st_mouse_seq : W → W * Z;
  st_mouse_x : W → W * Z;
  st_mouse_y : W → W * Z;
  st_mouse_buttons : W → W * Z;
  st_mouse_set_bounds : Z → Z → W → W;
  st_rtc_read : W → W * rtc_time;
  (** [fs_readdir] into a buffer of the given number of entries; [fs_cwd], [fs_cd] *)
  st_readdir : Z → Z → W → W * list fs_dirent;
  st_cwd : W → W * list Z;
  st_cd : list Z → W → W * Z;
  st_editor_run : list Z → W → W;
  (** [vga_enter_graphics] with the mode it has set *)
  st_enter_graphics : W → W * video;
  st_leave_graphics : W → W;
  st_ac97_play : Z → Z → W → W;
  (** [acpi_poweroff] when it returns *)
  st_poweroff : W → W;
  (** [sti; hlt] *)
  st_wait : W → W;

  (** A character that is there is returned; a listing fits its buffer. *)
  st_getchar_ready w : (st_haschar w).2 = true → is_Some (st_getchar (st_haschar w).1);
  st_readdir_max c n w : 0 ≤ n → zlen (st_readdir c n w).2 ≤ n
}.

Definition AC97_STARTUP : Z := 0.
Definition AC97_SHUTDOWN : Z := 1.
Definition MOUSE_LEFT : Z := 1.

Record session (W B : Type) := Session {
  ss_world : W; ss_heap : B; ss_video : video; ss_gfx : gfx; ss_desk : desktop
}.
Arguments Session {W B}. Arguments ss_world {W B}. Arguments ss_heap {W B}. Arguments ss_video {W B}.
Arguments ss_gfx {W B}. Arguments ss_desk {W B}.

#[export] Instance session_hw {W B} : HasHw (session W B) W.
Proof. refine {| get_hw := ss_world; set_hw w s := Session w (ss_heap s) (ss_video s) (ss_gfx s) (ss_desk s) |}. done. Defined.

Inductive action := ACT_NONE | ACT_SCENE | ACT_EXIT | ACT_REBOOT | ACT_POWEROFF | ACT_EDIT.

(** How an iteration of the event loop ends: with the loop's variables, or by
    leaving [desktop_run] through [done], by its [return], or in a halt. *)
Record locals := Locals { mx : Z; my : Z; cx : Z; cy : Z; prev_buttons : Z; last_seq : Z; last_clock : rtc_time }.
Inductive next := Continue (l : locals) | Done | Return | Halted.

Section Session.
Context {W B : Type} `{Seat W} `{HeapAllocator B} `{Ports W}.
Abbreviation ses := (session W B).
Abbreviation M := (IO ses).

Definition with_gfx (g : gfx) (s : ses) : ses := Session (ss_world s) (ss_heap s) (ss_video s) g (ss_desk s).
Definition with_desk (d : desktop) (s : ses) : ses := Session (ss_world s) (ss_heap s) (ss_video s) (ss_gfx s) d.
Definition with_video (v : video) (s : ses) : ses := Session (ss_world s) (ss_heap s) v (ss_gfx s) (ss_desk s).

Definition ask {X} (f : W → W * X) : M X := λ s, let '(w, x) := f (ss_world s) in Some (set_hw w s, x).
Definition tell (f : W → W) : M unit := io_put (λ s, set_hw (f (ss_world s)) s).
Definition on_desk (f : desktop → desktop) : M unit := io_put (λ s, with_desk (f (ss_desk s)) s).
Definition on_gfx (f : video → gfx → gfx) : M unit := io_put (λ s, with_gfx (f (ss_video s) (ss_gfx s)) s).
Definition get_desk : M desktop := λ s, Some (s, ss_desk s).

Definition reload_dir : M unit :=
  let! d := get_desk in
  let f := dk_folder d in
  let! l := ask (st_readdir (arr_get (dir_stack f) (dir_depth f - 1)) MAX_ICONS) in
  on_desk (λ d, with_folder (set_dir l (dk_folder d)) d).

Definition enter_dir (ei : Z) : M unit :=
  let! d := get_desk in
  if MAX_DEPTH <=? dir_depth (dk_folder d) then io_ret tt
  else on_desk (λ d, with_folder (descend ei (dk_folder d)) d) ;! reload_dir.

Definition go_up : M unit :=
  let! d := get_desk in
  if 1 <? dir_depth (dk_folder d) then on_desk (λ d, with_folder (ascend (dk_folder d)) d) ;! reload_dir else io_ret tt.

(** [n >= 4] and the last four characters are ".TXT". *)
Definition is_text_file (name : list Z) : bool :=
  let n := zlen name in
  (4 <=? n) && (arr_get name (n - 4) =? chr ".") && (arr_get name (n - 3) =? chr "T") &&
  (arr_get name (n - 2) =? chr "X") && (arr_get name (n - 1) =? chr "T").

(** The topmost window under the pointer: [for (i = MAX_WIN - 1; i >= 0; i--)]. *)
Definition window_at (d : desktop) (px py : Z) : option Z :=
  find_range 0 MAX_WIN (λ k, let idx := arr_get (zorder d) (MAX_WIN - 1 - k) in
    let w := win d idx in
    if negb (win_open w) || negb (in_rect px py (win_x w) (win_y w) (win_w w) (win_h w)) then None else Some idx).

(** What a press on window [idx] does. *)
Definition press_window (idx px py : Z) (d : desktop) : desktop :=
  let w := win d idx in
  let d := raise_window idx d in
  if in_rect px py (close_box_x w) (win_y w + 2) (TITLE_H - 3) (TITLE_H - 3) then set_win idx (close_win w) d
  else if in_rect px py (win_x w) (win_y w) (win_w w) (TITLE_H + 1) then with_grab idx (px - win_x w) (py - win_y w) d
  else d.

Definition close_info (d : desktop) : desktop := set_win WIN_INFO (close_win (win d WIN_INFO)) d.

Definition handle_press (px py : Z) : M action :=
  let! d := get_desk in
  let m := dk_metrics d in
  if start_open d then
    let mi := menu_item_at d px py in
    on_desk (with_start false (-1)) ;!
    io_ret (if mi =? 0 then ACT_EXIT else if mi =? 1 then ACT_REBOOT else if mi =? 2 then ACT_POWEROFF else ACT_SCENE)
  else if in_rect px py (sb_x m) (sb_y m) (sb_w m) (sb_h m) then
    on_desk (λ d, with_start true (start_hover d) d) ;! io_ret ACT_SCENE
  else
    match window_at d px py with
    | Some idx => on_desk (press_window idx px py) ;! io_ret ACT_SCENE
    | None =>
        let f := dk_folder d in
        let slot := slot_at m f px py in
        let base := base_slot f in
        let ei := slot - base in
        if (0 <=? slot) && negb (base =? 0) && (slot =? 0) then on_desk close_info ;! go_up ;! io_ret ACT_SCENE
        else if (0 <=? slot) && (0 <=? ei) && (ei <? nentries f) then
          if d_is_dir (entry f ei) then on_desk close_info ;! enter_dir ei ;! io_ret ACT_SCENE
          else if is_text_file (d_name (entry f ei)) then
            on_desk (λ d, with_edit (set_str (d_name (entry f ei)) 13) (with_folder (select slot f) d)) ;! io_ret ACT_EDIT
          else
            on_desk (λ d, raise_window WIN_INFO (open_info ei (with_folder (select slot f) d))) ;! io_ret ACT_SCENE
        else if negb (sel_slot f =? -1) then on_desk (λ d, with_folder (select (-1) f) d) ;! io_ret ACT_SCENE
        else io_ret ACT_NONE
    end.

(** ** Terminal actions *)

Definition leave_graphics : M unit :=
  io_put (λ s, let '(h, g) := gfx_shutdown (ss_heap s) (ss_gfx s) in
    Session (ss_world s) h (ss_video s) g (ss_desk s)) ;!
  tell st_leave_graphics.

(** [vga_enter_graphics(); gfx_init()] *)
Definition enter_graphics : M Z :=
  let! v := ask st_enter_graphics in
  io_put (with_video v) ;!
  λ s, let '(h, g, r) := gfx_init (ss_video s) (ss_heap s) (ss_gfx s) in
    Some (Session (ss_world s) h (ss_video s) g (ss_desk s), r).

(** [W = gfx_width(); H = gfx_height(); big = ...; cur_scale = ...] *)
Definition measure : M unit :=
  io_put (λ s, with_desk (with_metrics (set_size (gfx_width (ss_gfx s)) (gfx_height (ss_gfx s)) (dk_metrics (ss_desk s))) (ss_desk s)) s).
Definition lay_out : M unit :=
  on_gfx load_palette ;! on_desk (λ d, with_metrics (layout_taskbar (layout_icons (dk_metrics d))) d).
Definition set_bounds : M unit :=
  io_put (λ s, let m := dk_metrics (ss_desk s) in set_hw (st_mouse_set_bounds (scr_w m) (scr_h m) (ss_world s)) s).

Definition open_in_editor : M Z :=
  leave_graphics ;!
  let! cwd := ask st_cwd in
  let saved := set_str cwd 96 in
  let! d := get_desk in
  ask (st_cd (cur_path (dk_folder d))) ;!
  tell (st_editor_run (edit_name d)) ;!
  ask (st_cd saved) ;!
  let! r := enter_graphics in
  if negb (r =? 0) then tell st_leave_graphics ;! io_ret (-1)
  else measure ;! lay_out ;! set_bounds ;! reload_dir ;! io_ret 0.

(** [while (good & 0x02) good = inb(0x64);] *)
Fixpoint wait_8042 (fuel : nat) (good : Z) : M unit :=
  if negb (c_true (good &&& 0x02)) then io_ret tt
  else match fuel with
       | O => io_stuck
       | S fuel => let! good := inb 0x64 in wait_8042 fuel good
       end.
Definition do_reboot (fuel : nat) : M next :=
  leave_graphics ;! wait_8042 fuel 0x02 ;! outb 0x64 0xFE ;! io_ret Halted.

Definition shutdown_panel (m : metrics) : list draw :=
  let bw := if big m then 280 else 190 in let bh := if big m then 64 else 50 in
  let bx := scr_w m / 2 - bw / 2 in let by_ := scr_h m / 2 - bh / 2 in
  let msg := str "Shutting down..." in
  [Fill (bx + 4) (by_ + 4) bw bh COL_SHADOW; Fill bx by_ bw bh COL_FACE; Rect bx by_ bw bh COL_BORDER;
   Fill (bx + 1) (by_ + 1) (bw - 2) TITLE_H COL_TITLE; Text (bx + 6) (by_ + 2) (str "PumpkinOS") COL_TITLE_TEXT (-1);
   Text (bx + (bw - gfx_text_width msg) / 2) (by_ + TITLE_H + 12) msg COL_TEXT (-1)].

Definition do_poweroff : M next :=
  let! d := get_desk in
  on_gfx (λ v, run_draws v (shutdown_panel (dk_metrics d))) ;!
  on_gfx gfx_present ;!
  tell (st_ac97_play AC97_SHUTDOWN 1) ;!
  leave_graphics ;!
  tell st_poweroff ;!
  io_ret Halted.

(** ** The event loop *)

Definition render_scene : M unit :=
  let! t := ask st_rtc_read in
  let! d := get_desk in
  on_gfx (λ v, run_draws v (scene d t)).
Definition draw_cursor (px py : Z) : M unit :=
  let! d := get_desk in on_gfx (λ v, draw_cursor_fb v (dk_metrics d) px py).

(** What is to be drawn again: everything, a rectangle (x, y, width, height), the
    taskbar, the menu. *)
Record redraw := Redraw { scene_full : bool; dirty : option (Z * Z * Z * Z); scene_taskbar : bool; scene_menu : bool }.
Definition no_redraw : redraw := Redraw false None false false.

(** Where a drag takes the window, and the rectangle it leaves and enters. *)
Definition drag_to (m : metrics) (w : window) (px py dx dy : Z) : Z * Z :=
  let nx := px - dx in let ny := py - dy in
  let nx := if nx <? - (win_w w - 48) then - (win_w w - 48) else nx in
  let nx := if scr_w m - 48 <? nx then scr_w m - 48 else nx in
  let ny := if ny <? 0 then 0 else ny in
  let ny := if scr_h m - TB_H - TITLE_H <? ny then scr_h m - TB_H - TITLE_H else ny in
  (nx, ny).
Definition drag_rect (w : window) (nx ny : Z) : Z * Z * Z * Z :=
  let ox := win_x w in let oy := win_y w in
  let lo_x := (if ox <? nx then ox else nx) - 1 in
  let lo_y := (if oy <? ny then oy else ny) - 1 in
  let hi_x := (if nx <? ox then ox else nx) + win_w w + 6 in
  let hi_y := (if ny <? oy then oy else ny) + win_h w + 6 in
  (lo_x, lo_y, hi_x - lo_x, hi_y - lo_y).

Definition drag (px py : Z) (left : bool) (d : desktop) : desktop * option (Z * Z * Z * Z) :=
  if (0 <=? dragging d) && left then
    let w := win d (dragging d) in
    let '(nx, ny) := drag_to (dk_metrics d) w px py (grab_dx d) (grab_dy d) in
    if negb (nx =? win_x w) || negb (ny =? win_y w)
    then (set_win (dragging d) (move_win nx ny w) d, Some (drag_rect w nx ny))
    else (d, None)
  else (d, None).

Definition hover (px py : Z) (d : desktop) : desktop * bool :=
  if start_open d then
    let hv := menu_item_at d px py in
    if negb (hv =? start_hover d) then (with_start (start_open d) hv d, true) else (d, false)
  else (d, false).

(** What follows a press: the loop's variables and whether to redraw everything,
    or the end of the loop. *)
Definition after_press (fuel : nat) (l : locals) (a : action) : M (next * bool) :=
  match a with
  | ACT_EXIT => io_ret (Done, false)
  | ACT_REBOOT => let! n := do_reboot fuel in io_ret (n, false)
  | ACT_POWEROFF => let! n := do_poweroff in io_ret (n, false)
  | ACT_EDIT =>
      let! r := open_in_editor in
      if negb (r =? 0) then io_ret (Return, false)
      else
        let! x := ask st_mouse_x in
        let! y := ask st_mouse_y in
        let! seq := ask st_mouse_seq in
        io_ret (Continue (Locals x y (cx l) (cy l) 0 seq (last_clock l)), true)
  | ACT_SCENE => io_ret (Continue l, true)
  | ACT_NONE => io_ret (Continue l, false)
  end.

(** The press or release of an event. *)
Definition buttons_changed (fuel : nat) (l : locals) (left was_left : bool) : M (next * bool) :=
  if left && negb was_left then let! a := handle_press (mx l) (my l) in after_press fuel l a
  else if negb left && was_left then on_desk (λ d, with_grab (-1) (grab_dx d) (grab_dy d) d) ;! io_ret (Continue l, false)
  else io_ret (Continue l, false).

(** [if (seq != last_seq) { ... }] *)
Definition mouse_event (fuel : nat) (l : locals) : M (next * redraw) :=
  let! seq := ask st_mouse_seq in
  if seq =? last_seq l then io_ret (Continue l, no_redraw)
  else
    let! x := ask st_mouse_x in
    let! y := ask st_mouse_y in
    let! buttons := ask st_mouse_buttons in
    let left := c_true (buttons &&& MOUSE_LEFT) in
    let was_left := c_true (prev_buttons l &&& MOUSE_LEFT) in
    let! r := buttons_changed fuel (Locals x y (cx l) (cy l) (prev_buttons l) seq (last_clock l)) left was_left in
    match r with
    | (Continue l, full) =>
        let! d := get_desk in
        let '(d, dirty) := drag (mx l) (my l) left d in
        let '(d, menu) := hover (mx l) (my l) d in
        on_desk (λ _, d) ;!
        io_ret (Continue (Locals (mx l) (my l) (cx l) (cy l) buttons (last_seq l) (last_clock l)), Redraw full dirty false menu)
    | (n, _) => io_ret (n, no_redraw)
    end.

Definition present_rect (r : Z * Z * Z * Z) : M unit :=
  let '(x, y, w, h) := r in on_gfx (λ v, gfx_present_rect v x y w h).

(** The redrawing at the end of an iteration; [cw] and [ch] are the cursor's size,
    which [desktop_run] computes before its loop. *)
Definition update_screen (cw ch : Z) (l : locals) (r : redraw) : M locals :=
  let! d := get_desk in
  let m := dk_metrics d in
  let at_mouse := Locals (mx l) (my l) (mx l) (my l) (prev_buttons l) (last_seq l) (last_clock l) in
  if scene_full r then
    render_scene ;! on_gfx gfx_present ;! draw_cursor (mx l) (my l) ;! io_ret at_mouse
  else
    match dirty r with
    | Some rect => render_scene ;! present_rect rect
    | None =>
        if scene_taskbar r || scene_menu r then
          render_scene ;!
          (if scene_taskbar r then
             present_rect (0, scr_h m - TB_H, scr_w m, TB_H) ;!
             if scr_h m - TB_H <? cy l + ch then draw_cursor (cx l) (cy l) else io_ret tt
           else io_ret tt) ;!
          (if scene_menu r then present_rect (mnu_x m, mnu_y m, mnu_w m + 3, mnu_h m + 3) else io_ret tt)
        else io_ret tt
    end ;!
    if bool_decide (is_Some (dirty r)) || negb (mx l =? cx l) || negb (my l =? cy l) then
      present_rect (cx l, cy l, cw, ch) ;! draw_cursor (mx l) (my l) ;! io_ret at_mouse
    else io_ret l.

(** From [keyboard_haschar] to [hlt]. *)
Definition iteration (fuel : nat) (cw ch : Z) (l : locals) : M next :=
  let! has := ask st_haschar in
  let! key := (if has then λ s, match st_getchar (ss_world s) with Some (w, c) => Some (set_hw w s, c) | None => None end
               else io_ret 0) in
  if has && (key =? 27) then io_ret Done
  else
    let! r := mouse_event fuel l in
    match r with
    | (Continue l, rd) =>
        let! now := ask st_rtc_read in
        let tick := negb (second now =? second (last_clock l)) in
        let l := if tick then Locals (mx l) (my l) (cx l) (cy l) (prev_buttons l) (last_seq l) now else l in
        let! l := update_screen cw ch l (Redraw (scene_full rd) (dirty rd) (scene_taskbar rd || tick) (scene_menu rd)) in
        tell st_wait ;! io_ret (Continue l)
    | (n, _) => io_ret n
    end.

(** [n] iterations, or fewer if the loop ends. *)
Fixpoint event_loop (n fuel : nat) (cw ch : Z) (l : locals) : M next :=
  match n with
  | O => io_ret (Continue l)
  | S n =>
      let! r := iteration fuel cw ch l in
      match r with Continue l => event_loop n fuel cw ch l | r => io_ret r end
  end.

(** [desktop_run] up to the loop: the cursor's size and the loop's variables;
    [None]: no memory for the back buffer. *)
Definition desktop_start : M (option (Z * Z * locals)) :=
  let! r := enter_graphics in
  if negb (r =? 0) then tell st_leave_graphics ;! io_ret None
  else
    measure ;!
    on_desk (λ d, with_folder (Folder (entries (dk_folder d)) (sel_slot (dk_folder d))
      (arr_set (dir_stack (dk_folder d)) 0 fs_root_cluster) (<[0%nat := set_str [47] 13]> (name_stack (dk_folder d))) 1 (cur_path (dk_folder d)) (overran (dk_folder d))) d) ;!
    reload_dir ;!
    on_desk (λ d, with_grab (-1) (grab_dx d) (grab_dy d) (with_start false (start_hover d) d)) ;!
    lay_out ;!
    on_desk windows_init ;!
    set_bounds ;!
    let! d := get_desk in
    let cw := CUR_COLS * cur_scale (dk_metrics d) in let ch := CUR_ROWS * cur_scale (dk_metrics d) in
    let! x := ask st_mouse_x in
    let! y := ask st_mouse_y in
    let! seq := ask st_mouse_seq in
    let! now := ask st_rtc_read in
    render_scene ;! on_gfx gfx_present ;! draw_cursor x y ;!
    tell (st_ac97_play AC97_STARTUP 0) ;!
    io_ret (Some (cw, ch, Locals x y x y 0 (u32 (seq - 1)) now)).

(** [desktop_run], [n] iterations of its loop at most: whether it has come back,
    or has halted the machine. *)
Definition desktop_run (n fuel : nat) : M next :=
  let! l := desktop_start in
  match l with
  | None => io_ret Return
  | Some (cw, ch, l) =>
      let! r := event_loop n fuel cw ch l in
      match r with Done => leave_graphics ;! io_ret Done | r => io_ret r end
  end.
End Session.
