(* ===== verification/DesktopThm.v ===== *)
(** What the desktop shows and does: the screen always shows the current scene
    with the cursor on it, although the event loop redraws only parts of it; the
    state stays inside its arrays; presses act on what is under the pointer. *)
From Stdlib Require Import ZArith Lia Bool Ascii String.
From stdpp Require Import base numbers gmap option list.
From S2P Require Import Prelude Console Rtc Frames Kheap Heaps Block Fat12 Io Gfx Compositor Desktop.

#[local] Open Scope Z_scope.
#[local] Open Scope c_scope.
#[local] Open Scope io_scope.

(** ** Where drawing commands draw *)

Section Footprints.
Context (v : video).

(** A rectangle: x, y, width, height. *)
Abbreviation rect := (Z * Z * Z * Z)%type.
Definition inside (r : rect) (px py : Z) : bool := let '(x, y, w, h) := r in Gfx.in_rect x y w h px py.

Lemma inside_true x y w h px py : inside (x, y, w, h) px py = true ↔ x ≤ px < x + w ∧ y ≤ py < y + h.
Proof. apply in_rect_true. Qed.
Lemma inside_false x y w h px py : inside (x, y, w, h) px py = false ↔ ¬ (x ≤ px < x + w ∧ y ≤ py < y + h).
Proof. rewrite <- not_true_iff_false. by rewrite inside_true. Qed.

Lemma colours_cons d ds px py : colours v (d :: ds) px py = over (colour v d) (colours v ds) px py.
Proof.
  unfold colours. cbn [fold_left].
  assert (∀ P, fold_left (λ P d, over P (colour v d)) ds P px py = over P (fold_left (λ P d, over P (colour v d)) ds (λ _ _, None)) px py) as Hf.
  { induction ds as [|e ds IH]; intros P; cbn [fold_left]; [unfold over; done|].
    pose proof (IH (over P (colour v e))) as E1. pose proof (IH (over (λ _ _, None) (colour v e))) as E2.
    unfold over in *. rewrite E1, E2. repeat case_match; congruence. }
  rewrite Hf. unfold over. repeat case_match; congruence.
Qed.

Lemma colours_app ds es px py : colours v (ds ++ es) px py = over (colours v ds) (colours v es) px py.
Proof.
  induction ds as [|d ds IH]; [unfold over; cbn [app]; by destruct (colours v es px py)|].
  cbn [app]. rewrite !colours_cons. unfold over in *. rewrite colours_cons. unfold over. rewrite IH.
  by destruct (colours v es px py), (colours v ds px py).
Qed.

(** The commands draw inside [r] only. *)
Definition within (r : rect) (ds : list draw) : Prop := ∀ px py, inside r px py = false → colours v ds px py = None.

Lemma within_nil r : within r [].
Proof. done. Qed.
Lemma within_app r ds es : within r ds → within r es → within r (ds ++ es).
Proof. intros Hd He px py Hr. rewrite colours_app. unfold over. by rewrite He, Hd. Qed.
Lemma within_cons r d ds : within r [d] → within r ds → within r (d :: ds).
Proof. apply (within_app r [d] ds). Qed.
Lemma within_map {X} r (f : X → draw) l : (∀ x, x ∈ l → within r [f x]) → within r (map f l).
Proof.
  induction l as [|x l IH]; intros Hl; [apply within_nil|]. cbn [map]. apply within_cons.
  - apply Hl. apply list_elem_of_here.
  - apply IH. intros y Hy. apply Hl. by apply list_elem_of_further.
Qed.
Lemma within_join {X} r (f : X → list draw) l : (∀ x, x ∈ l → within r (f x)) → within r (mjoin (map f l)).
Proof.
  induction l as [|x l IH]; intros Hl; [apply within_nil|]. cbn [map mjoin list_join]. apply within_app.
  - apply Hl. apply list_elem_of_here.
  - apply IH. intros y Hy. apply Hl. by apply list_elem_of_further.
Qed.

(** A rectangle inside another, unless it is empty. *)
Definition sub_rect (a b : rect) : Prop :=
  let '(x, y, w, h) := a in let '(x', y', w', h') := b in
  w ≤ 0 ∨ h ≤ 0 ∨ (x' ≤ x ∧ y' ≤ y ∧ x + w ≤ x' + w' ∧ y + h ≤ y' + h').

Lemma sub_rect_false a b px py : sub_rect a b → inside b px py = false → inside a px py = false.
Proof. destruct a as [[[x y] w] h], b as [[[x' y'] w'] h']. intros Hs. rewrite !inside_false. unfold sub_rect in Hs. lia. Qed.

Lemma within_fill r x y w h c : sub_rect (x, y, w, h) r → within r [Fill x y w h c].
Proof.
  intros Hs px py Hr. rewrite colours_cons. unfold over. cbn [colours fold_left colour].
  pose proof (sub_rect_false _ _ _ _ Hs Hr) as E. unfold inside in E. by rewrite E.
Qed.

Lemma within_rect r x y w h c : 1 ≤ w → 1 ≤ h → sub_rect (x, y, w, h) r → within r [Rect x y w h c].
Proof.
  intros Hw Hh Hs px py Hr. rewrite colours_cons. unfold over. cbn [colours fold_left colour].
  assert (∀ a, sub_rect a (x, y, w, h) → inside a px py = false) as E.
  { intros a Ha. eapply sub_rect_false; [exact Ha|]. by eapply sub_rect_false. }
  pose proof (E (x, y, w, 1) ltac:(unfold sub_rect; lia)) as E1. pose proof (E (x, y + h - 1, w, 1) ltac:(unfold sub_rect; lia)) as E2.
  pose proof (E (x, y, 1, h) ltac:(unfold sub_rect; lia)) as E3. pose proof (E (x + w - 1, y, 1, h) ltac:(unfold sub_rect; lia)) as E4.
  unfold inside in *. by rewrite E1, E2, E3, E4.
Qed.

Lemma within_char r x y c fg bg : sub_rect (x, y, FONT_W, FONT_H) r → within r [Char x y c fg bg].
Proof.
  intros Hs px py Hr. rewrite colours_cons. unfold over. cbn [colours fold_left colour]. unfold glyph.
  pose proof (sub_rect_false _ _ _ _ Hs Hr) as E. unfold inside in E. by rewrite E.
Qed.

Lemma within_text r x y t fg bg : sub_rect (x, y, gfx_text_width t, FONT_H) r → within r [Text x y t fg bg].
Proof.
  intros Hs px py Hr. rewrite colours_cons. unfold over. cbn [colours fold_left colour].
  assert (text_colour v x y t fg bg px py = None) as ->; [|done].
  revert x Hs. induction t as [|c t IH]; intros x Hs; [done|]. cbn [text_colour]. unfold over.
  assert (gfx_text_width (c :: t) = gfx_text_width t + FONT_W) as E by (unfold gfx_text_width, zlen, FONT_W; simpl; lia).
  assert (0 ≤ gfx_text_width t) by (unfold gfx_text_width, zlen, FONT_W; lia).
  rewrite E in Hs. rewrite IH.
  - unfold glyph. assert (sub_rect (x, y, FONT_W, FONT_H) r) as Hs'.
    { destruct r as [[[x' y'] w'] h']. unfold sub_rect, FONT_W, FONT_H in *. lia. }
    pose proof (sub_rect_false _ _ _ _ Hs' Hr) as E'. unfold inside in E'. by rewrite E'.
  - destruct r as [[[x' y'] w'] h']. unfold sub_rect, FONT_W, FONT_H in *. lia.
Qed.

(** Two drawings that differ inside [r] only. *)
Definition agree_off (r : rect) (ds es : list draw) : Prop :=
  ∀ px py, inside r px py = false → colours v ds px py = colours v es px py.

Lemma agree_refl r ds : agree_off r ds ds.
Proof. done. Qed.
Lemma agree_within r ds es : within r ds → within r es → agree_off r ds es.
Proof. intros Hd He px py Hr. by rewrite Hd, He. Qed.
Lemma agree_app r ds es ds' es' : agree_off r ds es → agree_off r ds' es' → agree_off r (ds ++ ds') (es ++ es').
Proof. intros Hd He px py Hr. rewrite !colours_app. unfold over. by rewrite Hd, He. Qed.
Lemma agree_join {X} r (f g : X → list draw) l : (∀ x, x ∈ l → agree_off r (f x) (g x)) → agree_off r (mjoin (map f l)) (mjoin (map g l)).
Proof.
  induction l as [|x l IH]; intros Hl; [apply agree_refl|]. cbn [map mjoin list_join]. apply agree_app.
  - apply Hl. apply list_elem_of_here.
  - apply IH. intros y Hy. apply Hl. by apply list_elem_of_further.
Qed.

(** ** The cursor *)

Fixpoint line_colour (s x y : Z) (line : list Z) : Z → Z → option Z :=
  match line with
  | [] => λ _ _, None
  | ch :: line =>
      over (λ px py, match cursor_color ch with Some c => filled (Gfx.in_rect x y s s px py) c | None => None end)
           (line_colour s (x + s) y line)
  end.
Fixpoint rows_colour (s x y : Z) (rows : list (list Z)) : Z → Z → option Z :=
  match rows with [] => λ _ _, None | line :: rows => over (line_colour s x y line) (rows_colour s x (y + s) rows) end.
Definition cursor_colour (m : metrics) (x y : Z) : Z → Z → option Z := rows_colour (cur_scale m) x y cursor_bmp.

Lemma cell_fb_paints s x y c : 0 ≤ s → fb_paints v (draw_cell_fb v s x y c) (λ px py, filled (Gfx.in_rect x y s s px py) c).
Proof.
  intros Hs. unfold draw_cell_fb.
  assert (∀ k px py, Gfx.in_rect x y s k px py = bool_decide (x ≤ px < x + s ∧ y ≤ py < y + k)) as Er.
  { intros. apply eq_true_iff_eq. by rewrite in_rect_true, bool_decide_eq_true. }
  eapply fb_paints_ext; [apply (fb_paints_loop v s _ (λ k px py, filled (bool_decide (x ≤ px < x + s ∧ y ≤ py < y + k)) c)); [done| |]|].
  - intros px py. rewrite bool_decide_false by lia. done.
  - intros k Hk. exists (λ px py, filled (bool_decide (x ≤ px < x + s ∧ py = y + k)) c). split.
    + apply (fb_paints_loop v s _ (λ j px py, filled (bool_decide (x ≤ px < x + j ∧ py = y + k)) c)); [done| |].
      * intros px py. rewrite bool_decide_false by lia. done.
      * intros j Hj. eexists. split; [apply fb_paints_pixel|]. intros px py. unfold over, filled.
        destruct (Z.eqb_spec px (x + j)), (Z.eqb_spec py (y + k)); cbn [andb]; repeat case_bool_decide; try done; exfalso; lia.
    + intros px py. unfold over, filled. repeat case_bool_decide; try done; exfalso; lia.
  - intros px py. by rewrite Er.
Qed.

Lemma line_fb_paints s x y line : 0 ≤ s → fb_paints v (draw_line_fb v s x y line) (line_colour s x y line).
Proof.
  intros Hs. revert x. induction line as [|ch line IH]; intros x; [apply fb_paints_id|]. cbn [draw_line_fb line_colour].
  apply (fb_paints_comp v (λ g, match cursor_color ch with Some c => draw_cell_fb v s x y c g | None => g end)); [|apply IH].
  destruct (cursor_color ch); [by apply cell_fb_paints|apply fb_paints_id].
Qed.

Lemma rows_fb_paints s x y rows : 0 ≤ s → fb_paints v (draw_rows_fb v s x y rows) (rows_colour s x y rows).
Proof.
  intros Hs. revert y. induction rows as [|line rows IH]; intros y; [apply fb_paints_id|]. cbn [draw_rows_fb rows_colour].
  apply (fb_paints_comp v (draw_line_fb v s x y line)); [by apply line_fb_paints|apply IH].
Qed.

Lemma cursor_fb_paints m x y : 0 ≤ cur_scale m → fb_paints v (draw_cursor_fb v m x y) (cursor_colour m x y).
Proof. apply rows_fb_paints. Qed.

Lemma line_colour_inside s x y line px py :
  0 ≤ s → inside (x, y, s * zlen line, s) px py = false → line_colour s x y line px py = None.
Proof.
  intros Hs. revert x. induction line as [|ch line IH]; intros x Hr; [done|]. cbn [line_colour]. unfold over.
  assert (zlen (ch :: line) = zlen line + 1) as E by (unfold zlen; simpl; lia). rewrite E in Hr. apply inside_false in Hr.
  assert (0 ≤ zlen line) by (unfold zlen; lia).
  rewrite IH by (apply inside_false; nia). destruct (cursor_color ch); [|done].
  assert (Gfx.in_rect x y s s px py = false) as -> by (apply (inside_false x y s s px py); nia). done.
Qed.

Lemma cursor_inside m x y px py :
  0 ≤ cur_scale m → inside (x, y, CUR_COLS * cur_scale m, CUR_ROWS * cur_scale m) px py = false → cursor_colour m x y px py = None.
Proof.
  intros Hs Hr. unfold cursor_colour. set (s := cur_scale m) in *. clearbody s.
  assert (∀ rows y, Forall (λ line, zlen line ≤ 8) rows → inside (x, y, 8 * s, zlen rows * s) px py = false → rows_colour s x y rows px py = None) as Hg.
  { clear y Hr. intros rows. induction rows as [|line rows IH]; intros y Hf Hr; [done|].
    apply Forall_cons in Hf as [Hl Hf]. cbn [rows_colour]. unfold over.
    assert (zlen (line :: rows) = zlen rows + 1) as E by (unfold zlen; simpl; lia). rewrite E in Hr. apply inside_false in Hr.
    assert (0 ≤ zlen rows) by (unfold zlen; lia). assert (0 ≤ zlen line) by (unfold zlen; lia).
    rewrite IH; [|done|apply inside_false; nia]. apply line_colour_inside; [done|]. apply inside_false. nia. }
  apply Hg; [apply (bool_decide_unpack _); vm_compute; exact I|]. change (zlen cursor_bmp) with CUR_ROWS. exact Hr.
Qed.
End Footprints.

(** Splits a drawing into its commands, each in its rectangle. *)
Ltac within_parts :=
  repeat lazymatch goal with
  | |- within _ _ [] => apply within_nil
  | |- within _ _ (_ ++ _) => apply within_app
  | |- within _ _ [Fill _ _ _ _ _] => apply within_fill
  | |- within _ _ [Rect _ _ _ _ _] => apply within_rect
  | |- within _ _ [Text _ _ _ _ _] => apply within_text
  | |- within _ _ [Char _ _ _ _ _] => apply within_char
  | |- within _ _ (_ :: _) => apply within_cons
  end.

(** ** The scene *)

(** The colour a pixel of the scene has. *)
Definition scene_px (v : video) (d : desktop) (t : rtc_time) (px py : Z) : Z := default 0 (colours v (scene d t) px py).

Lemma scene_some v d t px py : is_Some (colours v (scene d t) px py).
Proof.
  unfold scene. rewrite colours_app. unfold over. destruct (colours v (_ ++ _) px py); [done|].
  rewrite colours_cons. unfold over. cbn [colours fold_left colour]. done.
Qed.

(** The layout of a screen at least 640 pixels wide. *)
Record wide (g : gfx) (m : metrics) : Prop := {
  wd_width : 640 ≤ gw g;
  wd_size : scr_w m = gw g ∧ scr_h m = gh g ∧ big m = true ∧ cur_scale m = 2;
  wd_button : sb_y m = gh g - 20 ∧ sb_w m = 66 ∧ sb_h m = 18;
  wd_menu : mnu_w m = 150 ∧ mnu_h m = 70 ∧ mnu_ih m = 22
}.

Lemma wide_layout g m : 640 ≤ gw g → wide g (layout_taskbar (layout_icons (set_size (gw g) (gh g) m))).
Proof.
  intros Hw. unfold set_size, layout_icons, layout_taskbar, TB_H, FONT_H. rewrite (proj2 (Z.leb_le _ _) Hw). split; cbn [scr_w scr_h big cur_scale sb_y sb_w sb_h mnu_w mnu_h mnu_ih]; split_and?; try done; lia.
Qed.

Lemma taskbar_rows v g d t px py :
  wide g (dk_metrics d) → py < gh g - TB_H → colours v (draw_taskbar d t) px py = None.
Proof.
  intros [Hw (E1 & E2 & E3 & _) (F1 & F2 & F3) _] Hy. set (k := gh g - TB_H). unfold draw_taskbar. rewrite E1, E2, E3.
  set (clock := two (hour t) ++ _). set (path := cur_path _).
  assert (0 ≤ gfx_text_width clock ∧ 0 ≤ gfx_text_width path) as [Hc Hp] by (unfold gfx_text_width, zlen, FONT_W; lia).
  set (far := Z.abs (sb_x (dk_metrics d)) + gfx_text_width clock + gfx_text_width path + gw g + 1000).
  assert (within v (- far, k, 2 * far, TB_H) (draw_taskbar d t)) as Hin.
  { unfold draw_taskbar. rewrite E1, E2, E3. fold clock path. rewrite F1, F2, F3. change ((TB_H - FONT_H) / 2) with 3.
    unfold TB_H, FONT_H in *.
    within_parts; try lia; unfold sub_rect, FONT_H; right; right; unfold far, k;
      try change (gfx_text_width (str "Start")) with 40; lia. }
  specialize (Hin px py). unfold draw_taskbar in Hin. rewrite E1, E2, E3 in Hin. apply Hin. apply inside_false. unfold k. lia.
Qed.

Lemma scene_time v g d t t' px py :
  wide g (dk_metrics d) → py < gh g - TB_H → scene_px v d t px py = scene_px v d t' px py.
Proof.
  intros Hw Hy. unfold scene_px, scene. rewrite !colours_app. unfold over. rewrite !colours_app. unfold over. rewrite !colours_app. unfold over.
  rewrite !colours_app. unfold over. by rewrite !(taskbar_rows v g d) by done.
Qed.

(** The text of an open window stays inside its frame, but for four pixels. *)
Record fits (w : window) : Prop := {
  ft_size : 30 ≤ win_w w ∧ 30 ≤ win_h w;
  ft_title : gfx_text_width (win_title w) + 6 ≤ win_w w + 4;
  ft_body i : 0 ≤ i < nbody w →
    gfx_text_width (nth (Z.to_nat i) (win_body w) []) + 10 ≤ win_w w + 4 ∧ 18 * i + 42 ≤ win_h w + 4
}.

(** A window with its shadow. *)
Definition frame (w : window) : Z * Z * Z * Z := (win_x w, win_y w, win_w w + 4, win_h w + 4).

Lemma window_within v w a r : fits w → sub_rect (frame w) r → within v r (draw_window w a).
Proof.
  intros [[Hw Hh] Ht Hb] Hs.
  assert (∀ a, sub_rect a (frame w) → sub_rect a r) as Htr.
  { intros [[[? ?] ?] ?] Ha. destruct r as [[[? ?] ?] ?]. unfold frame, sub_rect in *. lia. }
  unfold draw_window, close_box_x. unfold TITLE_H, FONT_H, FONT_W in *.
  within_parts; try apply Htr; unfold frame, sub_rect, FONT_W, FONT_H; try lia.
  apply within_map. intros i Hi. apply elem_of_seqZ in Hi. destruct (Hb i) as [H1 H2]; [lia|].
  apply within_text, Htr. unfold frame, sub_rect, FONT_H. lia.
Qed.

(** ** What moving a window and hovering change *)

Lemma nth_insert_2 {X} (l : list X) (i j : Z) x d :
  length l = 2%nat → 0 ≤ i ≤ 1 → 0 ≤ j ≤ 1 → nth (Z.to_nat j) (<[Z.to_nat i := x]> l) d = if j =? i then x else nth (Z.to_nat j) l d.
Proof.
  intros Hl Hi Hj. destruct l as [|a [|b [|]]]; try done.
  assert (i = 0 ∨ i = 1) as [-> | ->] by lia; assert (j = 0 ∨ j = 1) as [-> | ->] by lia; done.
Qed.

Definition order_ok (z : list Z) : Prop := z = [0; 1] ∨ z = [1; 0].

Lemma order_in z i : order_ok z → 0 ≤ i < 2 → 0 ≤ arr_get z i ≤ 1.
Proof. intros [-> | ->] Hi; assert (i = 0 ∨ i = 1) as [-> | ->] by lia; done. Qed.

Lemma scene_drag v d t i nx ny :
  let w := win d i in
  let d' := set_win i (move_win nx ny w) d in
  length (wins d) = 2%nat → order_ok (zorder d) → 0 ≤ i ≤ 1 → (win_open w = true → fits w) →
  agree_off v (drag_rect w nx ny) (scene d t) (scene d' t).
Proof.
  intros w d' Hl Ho Hi Hf. unfold scene. change (dk_metrics d') with (dk_metrics d). change (dk_folder d') with (dk_folder d).
  apply agree_app; [apply agree_refl|]. apply agree_app; [apply agree_refl|]. apply agree_app; [|apply agree_refl].
  unfold draw_windows. apply agree_join. intros k Hk. apply elem_of_seqZ in Hk. change (zorder d') with (zorder d).
  pose proof (order_in _ k Ho ltac:(unfold MAX_WIN in Hk; lia)) as Hz. set (j := arr_get (zorder d) k) in *. clearbody j.
  assert (win d' j = if j =? i then move_win nx ny w else win d j) as -> by (apply nth_insert_2; done).
  destruct (Z.eqb_spec j i) as [->|]; [|apply agree_refl]. fold w. change (win_open (move_win nx ny w)) with (win_open w).
  destruct (win_open w); [specialize (Hf eq_refl)|apply agree_refl].
  assert (fits (move_win nx ny w)) as Hf' by (by destruct Hf).
  pose proof (ft_size _ Hf) as [Hw Hh].
  apply agree_within; apply window_within; try done; unfold frame, drag_rect, sub_rect; cbn [move_win win_x win_y win_w win_h];
    repeat zcase; lia.
Qed.

Definition menu_rect (m : metrics) : Z * Z * Z * Z := (mnu_x m, mnu_y m, mnu_w m + 3, mnu_h m + 3).

Lemma menu_within v g d : wide g (dk_metrics d) → within v (menu_rect (dk_metrics d)) (draw_start_menu d).
Proof.
  intros [_ _ _ (E1 & E2 & E3)]. unfold draw_start_menu, menu_rect. destruct (negb (start_open d)); [apply within_nil|].
  rewrite E1, E2. unfold draw_item. rewrite E1, E3.
  assert (∀ i, i ∈ [0; 1; 2] → 0 ≤ i ≤ 2 ∧ gfx_text_width (nth (Z.to_nat i) menu_items []) ≤ 88) as Hi.
  { intros i Hi. apply elem_of_cons in Hi as [->|Hi]; [done|]. apply elem_of_cons in Hi as [->|Hi]; [done|].
    apply elem_of_cons in Hi as [->|Hi]; [done|]. by apply elem_of_nil in Hi. }
  apply within_app.
  - within_parts; unfold sub_rect; lia.
  - apply within_join. intros i Hin. destruct (Hi i Hin) as [H1 H2]. set (t := nth _ menu_items []) in *. clearbody t.
    apply within_app; [destruct (i =? start_hover d); [apply within_fill|apply within_nil]|apply within_text]; unfold sub_rect, FONT_H; lia.
Qed.

Lemma scene_hover v g d t hv :
  wide g (dk_metrics d) → agree_off v (menu_rect (dk_metrics d)) (scene d t) (scene (with_start (start_open d) hv d) t).
Proof.
  intros Hw. unfold scene. do 3 (apply agree_app; [apply agree_refl|]).
  apply agree_app; [apply agree_refl|]. apply agree_within; [by apply menu_within with g|].
  exact (menu_within v g (with_start (start_open d) hv d) Hw).
Qed.

(** ** The state stays in its arrays *)

Record win_wf (w : window) : Prop := {
  ww_body : length (win_body w) = 5%nat;
  ww_text : Forall (λ l, zlen l < LINE_C) (win_body w) ∧ zlen (win_title w) < 28;
  ww_lines : 0 ≤ nbody w ≤ BODY_MAX
}.

Record folder_wf (f : folder) : Prop := {
  fw_depth : 1 ≤ dir_depth f ≤ MAX_DEPTH;
  fw_stacks : zlen (dir_stack f) = MAX_DEPTH ∧ zlen (name_stack f) = MAX_DEPTH;
  fw_names : Forall (λ l, zlen l < 13) (name_stack f);
  fw_entries : nentries f ≤ MAX_ICONS;
  fw_sel : -1 ≤ sel_slot f < base_slot f + nentries f;
  fw_path : overran f = false → zlen (cur_path f) < CUR_PATH_SIZE
}.

Record desktop_wf (d : desktop) : Prop := {
  dw_wins : length (wins d) = 2%nat;
  dw_win : Forall win_wf (wins d);
  dw_order : order_ok (zorder d);
  dw_folder : folder_wf (dk_folder d);
  dw_drag : -1 ≤ dragging d < MAX_WIN;
  dw_hover : -1 ≤ start_hover d ≤ 2;
  dw_edit : zlen (edit_name d) < 13;
  dw_menu : 0 < mnu_ih (dk_metrics d)
}.

Lemma set_str_len l cap : 1 ≤ cap → zlen (set_str l cap) < cap.
Proof. intros Hc. unfold set_str, zlen. rewrite length_take. lia. Qed.

Lemma zlen_insert {X} (l : list X) i x : zlen (<[i := x]> l) = zlen l.
Proof. unfold zlen. by rewrite length_insert. Qed.

Lemma win_in d i : desktop_wf d → 0 ≤ i < MAX_WIN → win_wf (win d i).
Proof.
  intros [Hl Hw _ _ _ _ _ _] Hi. unfold win. apply (proj1 (Forall_nth _ _ _) Hw). unfold MAX_WIN in Hi. lia.
Qed.

Lemma set_win_wf i w d : desktop_wf d → win_wf w → desktop_wf (set_win i w d).
Proof.
  intros [Hl Hw Ho Hf Hd Hh He Hm] Hn. split; try done; unfold set_win, with_windows; cbn [wins].
  - by rewrite length_insert.
  - by apply Forall_insert.
Qed.

Lemma close_win_wf w : win_wf w → win_wf (close_win w).
Proof. by intros []. Qed.
Lemma move_win_wf x y w : win_wf w → win_wf (move_win x y w).
Proof. by intros []. Qed.

Lemma raise_order z i : order_ok z → 0 ≤ i < 2 → order_ok (raise i z) ∧ arr_get (raise i z) 1 = i.
Proof. intros [-> | ->] Hi; assert (i = 0 ∨ i = 1) as [-> | ->] by lia; (split; [|done]); first [by left | by right]. Qed.

Lemma raise_wf i d : desktop_wf d → 0 ≤ i < 2 → desktop_wf (raise_window i d).
Proof. intros [Hl Hw Ho Hf Hd Hh He Hm] Hi. split; try done. by apply raise_order. Qed.

Lemma uint_digits_len n v : zlen (uint_digits n v) ≤ Z.of_nat n.
Proof.
  revert v. induction n as [|n IH]; intros v; [done|]. cbn [uint_digits]. unfold zlen in *. cbn [length].
  destruct (v / 10 =? 0); cbn [length]; [lia|]. specialize (IH (v / 10)). lia.
Qed.

Lemma put_line_wf i s (b : list (list Z)) :
  length b = 5%nat ∧ Forall (λ l, zlen l < LINE_C) b → length (put_line i s b) = 5%nat ∧ Forall (λ l, zlen l < LINE_C) (put_line i s b).
Proof.
  intros [Hl Hf]. unfold put_line. rewrite length_insert. split; [done|]. apply Forall_insert; [done|]. by apply set_str_len.
Qed.

Lemma open_info_same ei d :
  dk_metrics (open_info ei d) = dk_metrics d ∧ start_open (open_info ei d) = start_open d ∧ dragging (open_info ei d) = dragging d.
Proof. unfold open_info. by destruct (d_is_dir _). Qed.

Lemma open_info_wf ei d : desktop_wf d → desktop_wf (open_info ei d).
Proof.
  intros Hd. pose proof (win_in d WIN_INFO Hd ltac:(done)) as [Hb [Ht _] _]. unfold open_info.
  set (e := entry _ ei). clearbody e.
  destruct (d_is_dir e); (apply set_win_wf; [done|]; split; cbn [win_body win_title nbody]; [..|unfold BODY_MAX; lia]);
    try (split; [|by apply set_str_len]); repeat apply put_line_wf; done.
Qed.

Lemma slots_nonneg f : 0 ≤ base_slot f + nentries f.
Proof. unfold base_slot, nentries, zlen. destruct (1 <? dir_depth f); lia. Qed.

Lemma folder_select f slot : folder_wf f → -1 ≤ slot < base_slot f + nentries f → folder_wf (select slot f).
Proof. by intros [] Hs. Qed.

Lemma set_dir_path l f : overran (set_dir l f) = false → zlen (cur_path (set_dir l f)) < CUR_PATH_SIZE.
Proof. cbn [set_dir overran cur_path]. intros [_ E]%orb_false_iff. apply Z.ltb_ge in E. lia. Qed.

Lemma set_dir_wf l f : folder_wf f → zlen l ≤ MAX_ICONS → folder_wf (set_dir l f).
Proof.
  intros [] Hl. split; try done; [|apply set_dir_path]. pose proof (slots_nonneg (set_dir l f)). cbn [set_dir sel_slot]. lia.
Qed.

Lemma zlen_app_le {X} (l k : list X) : zlen (l ++ k) = zlen l + zlen k.
Proof. unfold zlen. rewrite length_app. lia. Qed.

(** At most twelve characters and a slash for each directory below the root. *)
Lemma build_path_len f : folder_wf f → zlen (build_path f) ≤ 13 * dir_depth f - 12.
Proof.
  intros [[Hd _] _ Hn _ _ _]. unfold build_path. replace (13 * dir_depth f - 12) with (13 * (dir_depth f - 1) + 1) by lia.
  apply (for_range_ind (λ i p, zlen p ≤ 13 * (i - 1) + 1)); [done|done|]. intros i p Hi Hp. rewrite !zlen_app_le.
  assert (zlen (name_at f i) < 13) as Hni.
  { unfold name_at. destruct (nth_in_or_default (Z.to_nat i) (name_stack f) []) as [Hin| ->]; [|done].
    apply list_elem_of_In in Hin. by apply (proj1 (Forall_forall _ _) Hn). }
  assert (zlen (if i <? dir_depth f - 1 then [47] else []) ≤ 1) by (by destruct (i <? _)). lia.
Qed.

(** The directories whose path fits [cur_path], however long the names: up to
    six below the root. *)
Definition SHALLOW : Z := 7.

Lemma build_path_shallow f : folder_wf f → dir_depth f ≤ SHALLOW → zlen (build_path f) < CUR_PATH_SIZE.
Proof. intros Hf Hd. pose proof (build_path_len f Hf). unfold SHALLOW, CUR_PATH_SIZE in *. lia. Qed.

(** From [f] to [f']: the path stays inside its buffer if [f'] is shallow. *)
Definition path_kept (f f' : folder) : Prop := overran f = false → dir_depth f' ≤ SHALLOW → overran f' = false.

Lemma path_kept_refl f : path_kept f f.
Proof. by intros H _. Qed.
#[local] Hint Resolve path_kept_refl : core.

Lemma set_dir_kept l f f' :
  folder_wf f' → overran f' = overran f → path_kept f (set_dir l f').
Proof.
  intros Hw E Hf Hd. cbn [set_dir overran]. rewrite E, Hf. cbn [orb]. apply Z.ltb_ge. pose proof (build_path_shallow f' Hw Hd). lia.
Qed.

Lemma descend_wf ei f : folder_wf f → dir_depth f < MAX_DEPTH → folder_wf (select (-1) (descend ei f)).
Proof.
  intros [Hd [Hs1 Hs2] Hn He Hsel] Hlt. pose proof (slots_nonneg (descend ei f)).
  split; cbn [select descend dir_depth dir_stack name_stack sel_slot]; try done.
  - lia.
  - by rewrite !zlen_insert.
  - apply Forall_insert; [done|]. by apply set_str_len.
  - change (-1 ≤ -1 < base_slot (descend ei f) + nentries (descend ei f)). lia.
Qed.

Lemma slot_at_range m f px py : -1 ≤ slot_at m f px py < base_slot f + nentries f.
Proof.
  unfold slot_at. destruct (find_range _ _ _) as [s|] eqn:E; [|pose proof (slots_nonneg f); simpl; lia]. apply find_range_Some in E as (i & Hi & Ei & _).
  destruct (in_cell m px py i); [|done]. injection Ei as ->. simpl. lia.
Qed.

Lemma menu_item_range d px py : 0 < mnu_ih (dk_metrics d) → -1 ≤ menu_item_at d px py ≤ 2.
Proof.
  intros Hm. unfold menu_item_at. destruct (negb (start_open d)); [lia|]. destruct (_ || _); [lia|].
  destruct (Z.ltb_spec py (mnu_y (dk_metrics d) + 2)) as [|H1]; [cbn [orb]; lia|].
  destruct (Z.leb_spec (mnu_y (dk_metrics d) + 2 + 3 * mnu_ih (dk_metrics d)) py) as [|H2]; [cbn [orb]; lia|]. cbn [orb].
  assert ((py - (mnu_y (dk_metrics d) + 2)) / mnu_ih (dk_metrics d) < 3) by (apply Z.div_lt_upper_bound; lia).
  assert (0 ≤ (py - (mnu_y (dk_metrics d) + 2)) / mnu_ih (dk_metrics d)) by (apply Z.div_pos; lia). lia.
Qed.

(** The text of the open windows fits, on a wide screen. *)
Definition texts_fit (d : desktop) : Prop := ∀ i, 0 ≤ i < MAX_WIN → win_open (win d i) = true → fits (win d i).

Lemma win_set_win i j w d : length (wins d) = 2%nat → 0 ≤ i < MAX_WIN → 0 ≤ j < MAX_WIN → win (set_win i w d) j = if j =? i then w else win d j.
Proof. intros Hl Hi Hj. unfold MAX_WIN in *. apply nth_insert_2; [done|lia|lia]. Qed.

Lemma set_win_fit i w d : length (wins d) = 2%nat → 0 ≤ i < MAX_WIN → (win_open w = true → fits w) → texts_fit d → texts_fit (set_win i w d).
Proof. intros Hl Hi Hw Hf j Hj. rewrite win_set_win by done. destruct (j =? i); [done|by apply Hf]. Qed.

Lemma text_width_cap l cap : 1 ≤ cap → gfx_text_width (set_str l cap) ≤ 8 * (cap - 1).
Proof. intros Hc. pose proof (set_str_len l cap Hc). unfold gfx_text_width, FONT_W. lia. Qed.

Lemma open_info_fit ei d : big (dk_metrics d) = true → length (wins d) = 2%nat → length (win_body (win d WIN_INFO)) = 5%nat → texts_fit d → texts_fit (open_info ei d).
Proof.
  intros Hb Hl Hl5 Hf. unfold open_info. rewrite Hb. set (e := entry _ ei). clearbody e.
  destruct (win_body (win d WIN_INFO)) as [|b0 [|b1 b]]; try done. pose proof (text_width_cap (d_name e) 28 ltac:(done)) as Ht.
  assert (gfx_text_width (set_str (append_uint (str "Size:  ") (d_size e) ++ str " bytes") LINE_C) ≤ 184) as Hs.
  { unfold append_uint. pose proof (uint_digits_len 10 (d_size e)) as Hd. set (u := uint_digits 10 (d_size e)) in *. clearbody u.
    unfold set_str, gfx_text_width, zlen, FONT_W, LINE_C in *. rewrite length_take, !length_app, length_rev.
    change (length (str "Size:  ")) with 7%nat. change (length (str " bytes")) with 6%nat. lia. }
  destruct (d_is_dir e); (apply set_win_fit; [done|done| |done]; intros _; split; cbn [win_w win_h win_title win_body nbody]; [lia|lia|]).
  - intros i Hi. assert (i = 0) as -> by lia. change (gfx_text_width _) with 128. lia.
  - intros i Hi. assert (i = 0 ∨ i = 1) as [-> | ->] by lia.
    + change (gfx_text_width _) with 88. lia.
    + change (nth (Z.to_nat 1) _ []) with (set_str (append_uint (str "Size:  ") (d_size e) ++ str " bytes") LINE_C). lia.
Qed.

Lemma windows_init_fit d : big (dk_metrics d) = true → texts_fit (windows_init d).
Proof.
  intros Hb i Hi Ho. unfold windows_init in *. rewrite Hb in *. unfold MAX_WIN in Hi. assert (i = 0 ∨ i = 1) as [-> | ->] by lia; [|done].
  split; [vm_compute; intuition discriminate|vm_compute; discriminate|].
  intros j Hj. change (nbody _) with 5 in Hj. assert (j = 0 ∨ j = 1 ∨ j = 2 ∨ j = 3 ∨ j = 4) as [-> | [-> | [-> | [-> | ->]]]] by lia; vm_compute; intuition discriminate.
Qed.

(** ** Running the desktop *)

(** What the screen needs of the machine: the mode the display driver sets is at
    least 640 pixels wide, and a heap that is [roomy] ends below the framebuffer. *)
Class Display (W B : Type) `{Seat W} `{HeapAllocator B} := {
  roomy : B → Prop;
  roomy_inv h : roomy h → hp_inv h;
  roomy_alloc n h : roomy h → roomy (hp_alloc n h).1;
  roomy_free p n h : roomy h → (p, n) ∈ hp_live h → roomy (hp_free p h);
  mode_wide w w' v : st_enter_graphics w = (w', v) →
    640 ≤ vga_width v ∧ 0 ≤ vga_height v ∧ vga_width v * vga_height v < 0xFFFFFFF8 ∧
    bpp_bytes v * vga_width v ≤ vga_pitch v ∧ vga_height v * vga_pitch v ≤ 2 ^ 32;
  mode_apart w w' v h p n : st_enter_graphics w = (w', v) → roomy h → (p, n) ∈ hp_live h → p + n ≤ vga_framebuffer v
}.

Section Session.
Context {W B : Type} `{ST : Seat W} `{HA : HeapAllocator B} `{DW : !Display W B} `{PW : Ports W}.
Abbreviation ses := (session W B).
Implicit Types s : ses.

Lemma iwp_desk (Q : ses → desktop → Prop) s : Q s (ss_desk s) → iwp get_desk Q s.
Proof. intros HQ. by exists s, (ss_desk s). Qed.
Lemma iwp_ask {X} (f : W → W * X) (Q : ses → X → Prop) s :
  (∀ w x, f (ss_world s) = (w, x) → Q (set_hw w s) x) → iwp (ask f) Q s.
Proof. intros HQ. unfold iwp, ask. destruct (f (ss_world s)) as [w x] eqn:E. by exists (set_hw w s), x; auto. Qed.

(** The world may have moved on, the desktop's state is [d], and the display is
    as it was. *)
Definition moved_on (s : ses) (d : desktop) (s' : ses) : Prop :=
  ∃ w, s' = Session w (ss_heap s) (ss_video s) (ss_gfx s) d.

Lemma world_moved w s : moved_on s (ss_desk s) (set_hw w s).
Proof. by exists w. Qed.
Lemma world_moved_trans s d s' d' s'' : moved_on s d s' → moved_on s' d' s'' → moved_on s d' s''.
Proof. intros [w ->] [w' ->]. by exists w'. Qed.

Lemma reload_spec s (Q : ses → unit → Prop) :
  (∀ l s', zlen l ≤ MAX_ICONS → moved_on s (with_folder (set_dir l (dk_folder (ss_desk s))) (ss_desk s)) s' → Q s' tt) →
  iwp reload_dir Q s.
Proof.
  intros HQ. apply iwp_bind, iwp_desk. apply iwp_bind, iwp_ask. intros w l El. apply iwp_put. apply (HQ l).
  - by pose proof (st_readdir_max (arr_get (dir_stack (dk_folder (ss_desk s))) (dir_depth (dk_folder (ss_desk s)) - 1)) MAX_ICONS (ss_world s) ltac:(done)) as Hm; rewrite El in Hm.
  - by exists w.
Qed.

(** A directory change leaves everything but the folder alone. *)
Definition refoldered (d d' : desktop) : Prop := ∃ f, folder_wf f ∧ path_kept (dk_folder d) f ∧ d' = with_folder f d.

Lemma refoldered_ok d d' : desktop_wf d → refoldered d d' → desktop_wf d' ∧ (texts_fit d → texts_fit d').
Proof. intros [] (f & Hf & _ & ->). by split. Qed.

Lemma reload_ok s (Q : ses → unit → Prop) :
  folder_wf (dk_folder (ss_desk s)) →
  (∀ d' s', refoldered (ss_desk s) d' → moved_on s d' s' → Q s' tt) → iwp reload_dir Q s.
Proof.
  intros Hf HQ. apply reload_spec. intros l s' Hl Hs. eapply HQ; [|exact Hs].
  exists (set_dir l (dk_folder (ss_desk s))). split; [by apply set_dir_wf|]. split; [by apply set_dir_kept|done].
Qed.

Lemma refoldered_refl d : folder_wf (dk_folder d) → refoldered d d.
Proof. intros Hf. exists (dk_folder d). split; [done|]. split; [apply path_kept_refl|]. by destruct d. Qed.

Lemma enter_dir_ok ei s (Q : ses → unit → Prop) :
  folder_wf (dk_folder (ss_desk s)) →
  (∀ d' s', refoldered (ss_desk s) d' → moved_on s d' s' → Q s' tt) → iwp (enter_dir ei) Q s.
Proof.
  intros Hf HQ. apply iwp_bind, iwp_desk. destruct (Z.leb_spec MAX_DEPTH (dir_depth (dk_folder (ss_desk s)))) as [Hd|Hd].
  - apply iwp_ret. eapply HQ; [by apply refoldered_refl|]. exists (ss_world s). by destruct s.
  - apply iwp_bind, iwp_put, reload_spec. intros l s' Hl Hs. eapply HQ; [|exact Hs]. eexists. split; [|split; [|reflexivity]].
    + pose proof (descend_wf ei _ Hf Hd) as Hw. by apply (set_dir_wf l) in Hw.
    + change (set_dir l _) with (set_dir l (select (-1) (descend ei (dk_folder (ss_desk s))))). by apply set_dir_kept; [apply descend_wf|].
Qed.

Lemma go_up_ok s (Q : ses → unit → Prop) :
  folder_wf (dk_folder (ss_desk s)) →
  (∀ d' s', refoldered (ss_desk s) d' → moved_on s d' s' → Q s' tt) → iwp go_up Q s.
Proof.
  intros Hf HQ. assert (1 < dir_depth (dk_folder (ss_desk s)) → folder_wf (select (-1) (ascend (dk_folder (ss_desk s))))) as Ha.
  { intros Hd. destruct Hf as [Hdep Hst Hn He Hsel]. pose proof (slots_nonneg (select (-1) (ascend (dk_folder (ss_desk s))))).
    split; cbn [select ascend dir_depth dir_stack name_stack sel_slot]; try done; lia. }
  apply iwp_bind, iwp_desk. destruct (Z.ltb_spec 1 (dir_depth (dk_folder (ss_desk s)))) as [Hd|Hd]; [specialize (Ha Hd)|].
  - apply iwp_bind, iwp_put, reload_spec. intros l s' Hl Hs. eapply HQ; [|exact Hs]. eexists. split; [|split; [|reflexivity]].
    + by apply (set_dir_wf l) in Ha.
    + change (set_dir l _) with (set_dir l (select (-1) (ascend (dk_folder (ss_desk s))))). by apply set_dir_kept.
  - apply iwp_ret. eapply HQ; [by apply refoldered_refl|]. exists (ss_world s). by destruct s.
Qed.

(** What a press leaves behind. *)
Record press_ok (d d' : desktop) (a : action) : Prop := {
  pk_metrics : dk_metrics d' = dk_metrics d;
  pk_wf : desktop_wf d';
  pk_fit : big (dk_metrics d) = true → texts_fit d → texts_fit d';
  pk_none : a = ACT_NONE → d' = d;
  pk_drag : dragging d < 0 → 0 ≤ dragging d' → start_open d' = false;
  pk_path : path_kept (dk_folder d) (dk_folder d')
}.

Lemma window_at_some d px py i :
  order_ok (zorder d) → window_at d px py = Some i →
  0 ≤ i < MAX_WIN ∧ win_open (win d i) = true ∧
  in_rect px py (win_x (win d i)) (win_y (win d i)) (win_w (win d i)) (win_h (win d i)) = true ∧
  (i = arr_get (zorder d) 1 ∨ i = arr_get (zorder d) 0 ∧ (win_open (win d (arr_get (zorder d) 1)) = true →
    in_rect px py (win_x (win d (arr_get (zorder d) 1))) (win_y (win d (arr_get (zorder d) 1)))
      (win_w (win d (arr_get (zorder d) 1))) (win_h (win d (arr_get (zorder d) 1))) = false)).
Proof.
  intros Ho Hw. unfold window_at in Hw. apply find_range_Some in Hw as (k & Hk & Ek & Hmin).
  set (j := arr_get (zorder d) (MAX_WIN - 1 - k)) in *. unfold MAX_WIN in Hk.
  destruct (win_open (win d j)) eqn:Eo; [|done]. destruct (in_rect _ _ _ _ _ _) eqn:Er; [|done]. injection Ek as Ej.
  rewrite Ej in Eo, Er. assert (0 ≤ i < MAX_WIN) as Hi.
  { rewrite <- Ej. pose proof (order_in (zorder d) (MAX_WIN - 1 - k) Ho ltac:(unfold MAX_WIN; lia)). unfold MAX_WIN, j. lia. }
  split; [done|]. split; [done|]. split; [done|]. assert (k = 0 ∨ k = 1) as [-> | ->] by lia; [by left|]. right. split; [done|].
  intros Eo1. specialize (Hmin 0 ltac:(lia)). cbv beta zeta in Hmin. change (MAX_WIN - 1 - 0) with 1 in Hmin. rewrite Eo1 in Hmin.
  cbn [negb orb] in Hmin. match type of Hmin with context [negb ?b] => destruct b eqn:E end; [discriminate|reflexivity].
Qed.

(** The folder is the same one, as a projection of the changed desktop. *)
Ltac same_folder := first [done | let H := fresh in intros H _; exact H].

Lemma press_window_ok i px py d : desktop_wf d → start_open d = false → 0 ≤ i < MAX_WIN → press_ok d (press_window i px py d) ACT_SCENE.
Proof.
  intros Hd Hs Hi. unfold press_window. pose proof (raise_wf i d Hd Hi) as Hr. pose proof (win_in d i Hd Hi) as Hw.
  assert (win (raise_window i d) = win d) as Ew by done.
  destruct (in_rect px py (close_box_x _) _ _ _); [|destruct (in_rect px py _ _ _ _)].
  - split; try same_folder; [by apply set_win_wf, close_win_wf|]. intros _ Hf. apply set_win_fit; [apply dw_wins, Hr|done|done|exact Hf].
  - split; try same_folder. destruct Hr. split; try same_folder. unfold MAX_WIN in *. cbn [with_grab dragging]. lia.
  - by split.
Qed.

Lemma close_info_ok d : desktop_wf d → desktop_wf (close_info d) ∧ (texts_fit d → texts_fit (close_info d)).
Proof.
  intros Hd. split; [by apply set_win_wf, close_win_wf, win_in|]. intros Hf. by apply set_win_fit; [apply dw_wins, Hd|..].
Qed.

Lemma handle_press_ok px py s :
  desktop_wf (ss_desk s) →
  iwp (handle_press px py) (λ s' a, ∃ d', moved_on s d' s' ∧ press_ok (ss_desk s) d' a) s.
Proof.
  intros Hd. pose proof (dw_folder _ Hd) as Hf. apply iwp_bind, iwp_desk. cbv beta zeta. set (d := ss_desk s) in *.
  assert (∀ d, moved_on s d (with_desk d s)) as Hm by (intros d'; by exists (ss_world s)).
  assert (∀ s' d', moved_on s d' s' → ss_desk s' = d') as Hdesk by (by intros s' d' [w ->]).
  destruct (start_open d) eqn:Eo.
  { apply iwp_bind, iwp_put, iwp_ret. exists (with_start false (-1) d). split; [apply Hm|].
    destruct Hd. split; try same_folder. by repeat case_match. }
  destruct (in_rect px py (sb_x _) _ _ _).
  { apply iwp_bind, iwp_put, iwp_ret. exists (with_start true (start_hover d) d). split; [apply Hm|].
    destruct Hd. split; try same_folder. intros H1 H2. change (dragging (with_start _ _ d)) with (dragging d) in H2. lia. }
  destruct (window_at d px py) as [i|] eqn:Ew.
  { apply iwp_bind, iwp_put, iwp_ret. exists (press_window i px py d). split; [apply Hm|].
    apply press_window_ok; [done|done|]. by eapply window_at_some; [apply dw_order|]. }
  set (f := dk_folder d) in *. cbv zeta. set (slot := slot_at _ f px py). pose proof (slot_at_range (dk_metrics d) f px py) as Hslot. fold slot in Hslot.
  destruct (close_info_ok d Hd) as [Hc Hcf].
  assert (∀ d', refoldered (close_info d) d' → press_ok d d' ACT_SCENE) as Href.
  { intros d' Hr. pose proof (refoldered_ok _ _ Hc Hr) as [H1 H2]. destruct Hr as (f' & _ & Hk & ->). by split; auto. }
  destruct ((0 <=? slot) && negb (base_slot f =? 0) && (slot =? 0)).
  { apply iwp_bind, iwp_put, iwp_bind. apply go_up_ok; [exact Hf|]. intros d' s' Hr [w ->]. apply iwp_ret.
    exists d'. split; [by exists w|]. by apply Href. }
  destruct ((0 <=? slot) && (0 <=? slot - base_slot f) && (slot - base_slot f <? nentries f)).
  { set (ei := slot - base_slot f). destruct (d_is_dir (entry f ei)); [|destruct (is_text_file _)].
    - apply iwp_bind, iwp_put, iwp_bind. apply enter_dir_ok; [exact Hf|]. intros d' s' Hr [w ->]. apply iwp_ret.
      exists d'. split; [by exists w|]. by apply Href.
    - apply iwp_bind, iwp_put, iwp_ret. eexists. split; [apply Hm|]. cbv beta.
      split; try same_folder. destruct Hd. split; try same_folder; [by apply folder_select|by apply set_str_len].
    - apply iwp_bind, iwp_put, iwp_ret. eexists. split; [apply Hm|]. cbv beta.
      assert (desktop_wf (with_folder (select slot f) d)) as Hd' by (destruct Hd; split; try same_folder; by apply folder_select).
      destruct (open_info_same ei (with_folder (select slot f) d)) as (E1 & E2 & E3).
      split; [exact E1| | |done|intros _ _; exact (eq_trans E2 Eo)|unfold open_info; by case_match; intros Hk _].
      + apply raise_wf; [by apply open_info_wf|done].
      + intros Hb Hfit. pose proof (win_in d WIN_INFO Hd ltac:(done)) as [Hb5 _ _].
        apply (open_info_fit ei (with_folder (select slot f) d) Hb (dw_wins _ Hd) Hb5 Hfit). }
  destruct (negb (sel_slot f =? -1)).
  - apply iwp_bind, iwp_put, iwp_ret. eexists. split; [apply Hm|]. cbv beta.
    split; try same_folder. destruct Hd. split; try same_folder. apply folder_select; [done|]. pose proof (slots_nonneg f). lia.
  - apply iwp_ret. exists d. split; [exists (ss_world s); by destruct s|]. by split.
Qed.

(** ** The screen and the scene *)

(** The display is large enough, and the back buffer is heap memory of its own. *)
Record on_display (s : ses) : Prop := {
  od_heap : roomy (ss_heap s);
  od_buf : g_buf (ss_gfx s) ≠ 0 ∧ ∃ n, (g_buf (ss_gfx s), n) ∈ hp_live (ss_heap s);
  od_ok : display_ok (ss_video s) (ss_gfx s);
  od_size : gw (ss_gfx s) * gh (ss_gfx s) < 2 ^ 32
}.

(** The images have changed, and the world. *)
Definition redrawn (s s' : ses) : Prop :=
  ∃ w g, s' = Session w (ss_heap s) (ss_video s) g (ss_desk s) ∧ same_display (ss_gfx s) g.

Lemma redrawn_refl s : redrawn s s.
Proof. exists (ss_world s), (ss_gfx s). by destruct s. Qed.
Lemma redrawn_trans s1 s2 s3 : redrawn s1 s2 → redrawn s2 s3 → redrawn s1 s3.
Proof. intros (w & g & -> & H1) (w' & g' & -> & H2). exists w', g'. split; [done|]. by eapply same_display_trans. Qed.

Lemma redrawn_display s s' : redrawn s s' → on_display s → on_display s'.
Proof.
  intros (w & g & -> & Hs) [H1 (H2 & n & H3) H4 H5]. pose proof (same_display_ok _ _ _ Hs H4) as H6. destruct Hs as (E1 & E2 & E3 & _).
  split; cbn [ss_heap ss_gfx ss_video]; try done.
  - rewrite E1. split; [done|]. by exists n.
  - by rewrite E2, E3.
Qed.

Definition images (s : ses) (b scr : image) : Prop := shows (ss_video s) (ss_gfx s) b scr.
Definition scene_of (s : ses) : rtc_time → image := scene_px (ss_video s) (ss_desk s).
Definition on_scr (s : ses) : Z → Z → Prop := on_screen (ss_gfx s).

Lemma redrawn_scene s s' : redrawn s s' → scene_of s' = scene_of s ∧ ss_desk s' = ss_desk s ∧ ∀ px py, on_scr s' px py ↔ on_scr s px py.
Proof. intros (w & g & -> & Hs). split; [done|]. split; [done|]. intros px py. by apply same_display_on. Qed.

(** The clock as it is read next, and the reading after that. *)
Definition reading (s : ses) : rtc_time := (st_rtc_read (ss_world s)).2.

Lemma render_ok s b scr (Q : ses → unit → Prop) :
  on_display s → images s b scr →
  (∀ s' t, t = reading s → redrawn s s' → images s' (scene_of s t) scr → Q s' tt) → iwp render_scene Q s.
Proof.
  intros Hd Hi HQ. apply iwp_bind, iwp_ask. intros w t Et. apply iwp_bind, iwp_desk, iwp_put.
  destruct (shows_draws (ss_video s) (scene (ss_desk s) t) (ss_gfx s) b scr (od_ok _ Hd) (od_size _ Hd) Hi) as [Hs Hsh].
  apply (HQ _ t); [unfold reading; by rewrite Et|exists w; eexists; by split|]. eapply shows_ext; [exact Hsh| |done]. intros px py _.
  unfold repaint, scene_of, scene_px. destruct (scene_some (ss_video s) (ss_desk s) t px py) as [c Ec]. by rewrite Ec.
Qed.

Lemma present_ok s r b scr (Q : ses → unit → Prop) :
  on_display s → images s b scr →
  (∀ s', redrawn s s' → images s' b (λ px py, if inside r px py then b px py else scr px py) → Q s' tt) → iwp (present_rect r) Q s.
Proof.
  intros Hd Hi HQ. destruct r as [[[x y] w] h]. apply iwp_put. destruct (shows_present (ss_video s) x y w h (ss_gfx s) b scr (od_ok _ Hd) Hi) as [Hs Hsh].
  apply HQ; [|exact Hsh]. exists (ss_world s). eexists. by split.
Qed.

Lemma cursor_ok s px0 py0 b scr (Q : ses → unit → Prop) :
  on_display s → 0 ≤ cur_scale (dk_metrics (ss_desk s)) → images s b scr →
  (∀ s', redrawn s s' → images s' b (repaint scr (cursor_colour (dk_metrics (ss_desk s)) px0 py0)) → Q s' tt) → iwp (draw_cursor px0 py0) Q s.
Proof.
  intros Hd Hc Hi HQ. apply iwp_bind, iwp_desk, iwp_put.
  destruct (cursor_fb_paints (ss_video s) (dk_metrics (ss_desk s)) px0 py0 Hc (ss_gfx s) b scr (od_ok _ Hd) Hi) as [Hs Hsh].
  apply HQ; [|exact Hsh]. exists (ss_world s). eexists. by split.
Qed.

(** Every pixel shows the scene [d], as of some time, with the cursor at
    [(x, y)]; or shows it except in the rectangle [r]. *)
Definition shown_as (s : ses) (d : desktop) (x y : Z) (scr : image) : Prop :=
  ∀ px py, on_scr s px py → ∃ t, scr px py = default (scene_px (ss_video s) d t px py) (cursor_colour (dk_metrics d) x y px py).
Definition fresh (s : ses) (r : Z * Z * Z * Z) (scr : image) : Prop :=
  ∀ px py, on_scr s px py → inside r px py = false → ∃ t, scr px py = scene_of s t px py.

Definition cursor_box (s : ses) (x y : Z) : Z * Z * Z * Z :=
  (x, y, CUR_COLS * cur_scale (dk_metrics (ss_desk s)), CUR_ROWS * cur_scale (dk_metrics (ss_desk s))).

(** A scene that differs from the shown one inside [r] only is fresh once [r] is
    presented. *)
Lemma fresh_change s d r x y scr b t :
  0 ≤ cur_scale (dk_metrics d) → dk_metrics (ss_desk s) = dk_metrics d →
  (∀ t, agree_off (ss_video s) r (scene d t) (scene (ss_desk s) t)) → shown_as s d x y scr →
  (∀ px py, b px py = scene_of s t px py) →
  fresh s (cursor_box s x y) (λ px py, if inside r px py then b px py else scr px py).
Proof.
  intros Hc Em Ha Hs Hb px py Hp Hin. destruct (inside r px py) eqn:Er; [by exists t|].
  destruct (Hs px py Hp) as [t' E]. unfold cursor_box in Hin. rewrite Em in Hin. rewrite (cursor_inside _ _ _ _ _ Hc Hin) in E.
  exists t'. rewrite E. cbn [default]. unfold scene_of, scene_px. simpl. by rewrite (Ha t' px py Er).
Qed.

Lemma fresh_present s r q scr b t :
  fresh s r scr → (∀ px py, b px py = scene_of s t px py) → fresh s r (λ px py, if inside q px py then b px py else scr px py).
Proof. intros Hf Hb px py Hp Hin. destruct (inside q px py); [by exists t|by apply Hf]. Qed.

Lemma fresh_cursor s x y scr : 0 ≤ cur_scale (dk_metrics (ss_desk s)) → fresh s (cursor_box s x y) scr →
  fresh s (cursor_box s x y) (repaint scr (cursor_colour (dk_metrics (ss_desk s)) x y)).
Proof.
  intros Hc Hf px py Hp Hin. destruct (Hf px py Hp Hin) as [t E]. exists t. unfold repaint. by rewrite (cursor_inside _ _ _ _ _ Hc Hin).
Qed.

(** With what was under the old cursor restored, the cursor may be drawn anew. *)
Lemma fresh_restored s r x y scr b t :
  fresh s r scr → (∀ px py, b px py = scene_of s t px py) →
  shown_as s (ss_desk s) x y (repaint (λ px py, if inside r px py then b px py else scr px py) (cursor_colour (dk_metrics (ss_desk s)) x y)).
Proof.
  intros Hf Hb px py Hp. unfold repaint. destruct (inside r px py) eqn:Er.
  - exists t. by rewrite Hb.
  - destruct (Hf px py Hp Er) as [t' E]. exists t'. by rewrite E.
Qed.

(** Only the back buffer. *)
Definition backs (s : ses) (b : image) : Prop := ∀ px py, on_scr s px py → ld (g_mem (ss_gfx s)) (pixel_at (ss_gfx s) px py) = b px py.

Lemma render_back s (Q : ses → unit → Prop) :
  on_display s → (∀ s' t, t = reading s → redrawn s s' → backs s' (scene_of s t) → Q s' tt) → iwp render_scene Q s.
Proof.
  intros Hd HQ. apply iwp_bind, iwp_ask. intros w t Et. apply iwp_bind, iwp_desk, iwp_put. pose proof (do_size _ _ (od_ok _ Hd)) as [Hw Hh].
  destruct (draws_paint (ss_video s) (scene (ss_desk s) t) (ss_gfx s) Hw Hh (od_size _ Hd)) as [(E1 & E2 & E3 & E4 & _) HP _].
  set (g := run_draws (ss_video s) (scene (ss_desk s) t) (ss_gfx s)) in *.
  apply (HQ _ t); [unfold reading; by rewrite Et|exists w, g; by split|]. intros px py [Hx Hy].
  change (ss_gfx (with_gfx _ _)) with g in *. unfold pixel_at. rewrite E1, E2. rewrite E2 in Hx. rewrite E3 in Hy.
  fold (pixel_at (ss_gfx s) px py). rewrite HP by done. unfold scene_of, scene_px.
  destruct (scene_some (ss_video s) (ss_desk s) t px py) as [c Ec]. by rewrite Ec.
Qed.

Lemma present_full s b (Q : ses → unit → Prop) :
  on_display s → backs s b → (∀ s', redrawn s s' → images s' b b → Q s' tt) → iwp (on_gfx gfx_present) Q s.
Proof.
  intros Hd Hb HQ. apply iwp_put. unfold gfx_present. set (g := ss_gfx s).
  assert (same_display g (gfx_present_rect (ss_video s) 0 0 (gw g) (gh g) g)) as Hsame.
  { unfold gfx_present_rect. destruct (clip _ _ _ _ g) as [[[? ?] ?] ?]. by destruct (_ || _). }
  destruct (present_pixels (ss_video s) 0 0 (gw g) (gh g) g (od_ok _ Hd)) as [P1 P2].
  apply HQ; [exists (ss_world s); eexists; by split|]. pose proof Hsame as (E1 & E2 & E3 & E4).
  set (g' := gfx_present_rect _ _ _ _ _ g) in *. split.
  - intros px py Hp. change (on_screen g' px py) in Hp. rewrite (same_display_on _ _ _ _ Hsame) in Hp.
    change (ss_gfx (with_gfx g' s)) with g'. unfold pixel_at. rewrite E1, E2. fold (pixel_at g px py).
    rewrite P2; [by apply Hb|]. intros qx qy j Hqx Hqy _ Hj. by apply back_not_fb; [apply Hd|..].
  - intros px py j Hp Hj. change (on_screen g' px py) in Hp. rewrite (same_display_on _ _ _ _ Hsame) in Hp.
    change (ss_gfx (with_gfx g' s)) with g'. rewrite E4. destruct Hp as [Hx Hy].
    etransitivity; [apply P1; [done|done| |done]|]; [apply in_rect_true; lia|]. by rewrite <- (Hb px py (conj Hx Hy)).
Qed.

Definition at_mouse (l : locals) : locals := Locals (mx l) (my l) (mx l) (my l) (prev_buttons l) (last_seq l) (last_clock l).

(** What an iteration has to redraw: what it redraws of the change from the
    desktop [d0] that is on the screen covers it. *)
Definition covered (s : ses) (d0 : desktop) (l : locals) (r : redraw) : Prop :=
  let d := ss_desk s in
  match dirty r with
  | Some q => ∀ t, agree_off (ss_video s) q (scene d0 t) (scene d t)
  | None =>
      if scene_menu r
      then (∀ t, agree_off (ss_video s) (menu_rect (dk_metrics d)) (scene d0 t) (scene d t)) ∧ ¬ (mx l = cx l ∧ my l = cy l)
      else ∀ t, scene d0 t = scene d t
  end.

Definition scene_shown (s : ses) (d : desktop) (x y : Z) : Prop :=
  ∃ tb scr, images s (scene_px (ss_video s) d tb) scr ∧ shown_as s d x y scr.

(** Restoring what was under the old cursor and drawing the new one. *)
Lemma recursor_ok s l b scr t (Q : ses → locals → Prop) :
  on_display s → 0 ≤ cur_scale (dk_metrics (ss_desk s)) → images s b scr → (∀ px py, b px py = scene_of s t px py) →
  fresh s (cursor_box s (cx l) (cy l)) scr →
  (∀ s', redrawn s s' → scene_shown s' (ss_desk s') (mx l) (my l) → Q s' (at_mouse l)) →
  iwp (present_rect (cursor_box s (cx l) (cy l)) ;! draw_cursor (mx l) (my l) ;! io_ret (at_mouse l)) Q s.
Proof.
  intros Hd Hc Hi Hb Hf HQ. apply iwp_bind. eapply present_ok; [done|exact Hi|]. intros s1 K1 Hi1.
  pose proof (redrawn_display _ _ K1 Hd) as Hd1. destruct (redrawn_scene _ _ K1) as (Es1 & Ed1 & On1).
  apply iwp_bind. eapply cursor_ok; [done|by rewrite Ed1|exact Hi1|]. intros s2 K2 Hi2. apply iwp_ret. apply HQ; [by eapply redrawn_trans|].
  destruct (redrawn_scene _ _ K2) as (Es2 & Ed2 & On2).
  assert (ss_video s2 = ss_video s ∧ ss_desk s2 = ss_desk s) as [Ev2 Ed].
  { destruct K1 as (? & ? & -> & _), K2 as (? & ? & -> & _). done. }
  exists t. eexists. split.
  - eapply shows_ext; [exact Hi2| |done]. intros px py _. rewrite Hb. unfold scene_of. by rewrite Ev2, Ed.
  - intros px py Hp. rewrite Ed1. rewrite On2, On1 in Hp. rewrite Ev2, Ed.
    exact (fresh_restored s _ (mx l) (my l) scr b t Hf Hb px py Hp).
Qed.

Lemma scene_shown_redrawn s s' b scr d x y t :
  redrawn s s' → images s' b scr → (∀ px py, b px py = scene_px (ss_video s) d t px py) → shown_as s d x y scr → scene_shown s' d x y.
Proof.
  intros K Hi Hb Hs. destruct (redrawn_scene _ _ K) as (_ & _ & On). destruct K as (w & g & -> & Hg). exists t, scr. split.
  - eapply shows_ext; [exact Hi| |done]. intros px py _. by rewrite Hb.
  - intros px py Hp. apply Hs. by apply On.
Qed.

(** The taskbar's part: its rows are presented and the cursor drawn again if it
    reaches into them. *)
Lemma taskbar_ok s (l : locals) ch b scr t d0 (Q : ses → unit → Prop) :
  on_display s → wide (ss_gfx s) (dk_metrics (ss_desk s)) → ch = CUR_ROWS * cur_scale (dk_metrics (ss_desk s)) →
  images s b scr → (∀ px py, b px py = scene_of s t px py) →
  shown_as s d0 (cx l) (cy l) scr → dk_metrics d0 = dk_metrics (ss_desk s) →
  (∀ s' scr', redrawn s s' → images s' b scr' →
    ((∀ t, scene d0 t = scene (ss_desk s) t) → shown_as s (ss_desk s) (cx l) (cy l) scr') →
    (∀ r, (∀ t, agree_off (ss_video s) r (scene d0 t) (scene (ss_desk s) t)) →
       fresh s (cursor_box s (cx l) (cy l)) (λ px py, if inside r px py then b px py else scr' px py)) → Q s' tt) →
  iwp (let m := dk_metrics (ss_desk s) in
       present_rect (0, scr_h m - TB_H, scr_w m, TB_H) ;!
       if scr_h m - TB_H <? cy l + ch then draw_cursor (cx l) (cy l) else io_ret tt) Q s.
Proof.
  intros Hd Hw Ech Hi Hb Hs Em HQ. cbv zeta. pose proof Hw as [_ (W1 & W2 & W3 & W4) _ _]. set (m := dk_metrics (ss_desk s)) in *.
  assert (0 ≤ cur_scale m) as Hc by lia.
  apply iwp_bind. eapply present_ok; [done|exact Hi|]. intros s1 K1 Hi1. pose proof (redrawn_display _ _ K1 Hd) as Hd1.
  destruct (redrawn_scene _ _ K1) as (Es1 & Ed1 & On1). set (bar := (0, scr_h m - TB_H, scr_w m, TB_H)) in *.
  set (scr1 := λ px py : Z, if inside bar px py then b px py else scr px py) in *.
  assert (∀ r, (∀ t, agree_off (ss_video s) r (scene d0 t) (scene (ss_desk s) t)) →
    fresh s (cursor_box s (cx l) (cy l)) (λ px py, if inside r px py then b px py else scr1 px py)) as Hf1.
  { intros r Hr. assert (0 ≤ cur_scale (dk_metrics d0)) as Hc0 by (by rewrite Em).
    pose proof (fresh_change s d0 r (cx l) (cy l) scr b t Hc0 (eq_sym Em) Hr Hs Hb) as Hf.
    pose proof (fresh_present s _ bar _ b t Hf Hb) as Hf'. intros px py Hp Hin. specialize (Hf' px py Hp Hin).
    unfold scr1. cbv beta in Hf' |- *. by destruct (inside r px py), (inside bar px py). }
  assert (∀ px py, on_scr s px py → inside bar px py = false → py < gh (ss_gfx s) - TB_H) as Hbar.
  { intros px py [Hx Hy] Hin. apply inside_false in Hin. unfold TB_H in *. lia. }
  assert (∀ px py, on_scr s px py → inside bar px py = true → gh (ss_gfx s) - TB_H ≤ py) as Hbar'.
  { intros px py _ Hin. apply inside_true in Hin. lia. }
  destruct (Z.ltb_spec (scr_h m - TB_H) (cy l + ch)) as [Hlt|Hge].
  - eapply cursor_ok; [done|by rewrite Ed1|exact Hi1|]. intros s2 K2 Hi2. rewrite Ed1 in Hi2. fold m in Hi2.
    eapply HQ; [by eapply redrawn_trans|exact Hi2| |].
    + intros Esc px py Hp. fold m. unfold repaint, scr1. destruct (inside bar px py) eqn:Er; [exists t; by rewrite Hb|].
      destruct (Hs px py Hp) as [t' E]. rewrite Em in E. exists t'. rewrite E. unfold scene_px. rewrite Esc.
      by destruct (cursor_colour m _ _ _ _).
    + intros r Hr px py Hp Hin. destruct (Hf1 r Hr px py Hp Hin) as [t' E]. exists t'. rewrite <- E. unfold repaint.
      destruct (inside r px py); [done|]. unfold cursor_box in Hin. fold m in Hin. by rewrite (cursor_inside _ _ _ _ _ Hc Hin).
  - apply iwp_ret. eapply HQ; [done|exact Hi1| |exact Hf1].
    intros Esc px py Hp. fold m. unfold scr1. destruct (inside bar px py) eqn:Er.
    + assert (inside (cx l, cy l, CUR_COLS * cur_scale m, CUR_ROWS * cur_scale m) px py = false) as Hin.
      { apply inside_false. pose proof (Hbar' px py Hp Er). rewrite <- Ech. lia. }
      exists t. rewrite (cursor_inside _ _ _ _ _ Hc Hin). apply Hb.
    + destruct (Hs px py Hp) as [t' E]. rewrite Em in E. exists t'. rewrite E. unfold scene_px. by rewrite Esc.
Qed.

Lemma at_mouse_same l : mx l = cx l → my l = cy l → at_mouse l = l.
Proof. destruct l. simpl. by intros -> ->. Qed.

(** The end of a partial redraw. *)
Lemma finish_ok s l (dirty : bool) b scr t (Q : ses → locals → Prop) :
  on_display s → 0 ≤ cur_scale (dk_metrics (ss_desk s)) → images s b scr → (∀ px py, b px py = scene_of s t px py) →
  (dirty = true ∨ ¬ (mx l = cx l ∧ my l = cy l) → fresh s (cursor_box s (cx l) (cy l)) scr) →
  (dirty = false → mx l = cx l → my l = cy l → shown_as s (ss_desk s) (cx l) (cy l) scr) →
  (∀ s', redrawn s s' → scene_shown s' (ss_desk s') (mx l) (my l) → Q s' (at_mouse l)) →
  iwp (if dirty || negb (mx l =? cx l) || negb (my l =? cy l)
       then present_rect (cursor_box s (cx l) (cy l)) ;! draw_cursor (mx l) (my l) ;! io_ret (at_mouse l)
       else io_ret l) Q s.
Proof.
  intros Hd Hc Hi Hb Hf Hs HQ. destruct (dirty || negb (mx l =? cx l) || negb (my l =? cy l)) eqn:E.
  - eapply recursor_ok; [done|done|exact Hi|exact Hb| |exact HQ]. apply Hf.
    rewrite !orb_true_iff, !negb_true_iff, !Z.eqb_neq in E. destruct E as [[E|E]|E]; [by left|right; lia|right; lia].
  - rewrite !orb_false_iff, !negb_false_iff, !Z.eqb_eq in E. destruct E as [[E1 E2] E3]. apply iwp_ret.
    rewrite <- (at_mouse_same l E2 E3). apply HQ; [apply redrawn_refl|]. rewrite E2, E3.
    exists t, scr. split; [eapply shows_ext; [exact Hi| |done]; intros px py _; apply Hb|by apply Hs].
Qed.

(** What holds of the screen before the menu is presented. *)
Definition half_shown s d0 (l : locals) (b scr : image) : Prop :=
  ((∀ t, scene d0 t = scene (ss_desk s) t) → shown_as s (ss_desk s) (cx l) (cy l) scr) ∧
  (∀ r, (∀ t, agree_off (ss_video s) r (scene d0 t) (scene (ss_desk s) t)) →
     fresh s (cursor_box s (cx l) (cy l)) (λ px py, if inside r px py then b px py else scr px py)).

Lemma half_redrawn s s' d0 l b scr : redrawn s s' → half_shown s d0 l b scr → half_shown s' d0 l b scr.
Proof.
  intros K [H1 H2]. destruct (redrawn_scene _ _ K) as (Es & Ed & On).
  assert (ss_video s' = ss_video s) as Ev by (by destruct K as (? & ? & -> & _)).
  unfold half_shown, shown_as, fresh, cursor_box in *. rewrite Es, Ed, Ev. split.
  - intros E px py Hp. apply On in Hp. by apply H1.
  - intros r Hr px py Hp. apply On in Hp. by apply H2.
Qed.

Lemma half_start s d0 l b scr t :
  0 ≤ cur_scale (dk_metrics d0) → dk_metrics d0 = dk_metrics (ss_desk s) → (∀ px py, b px py = scene_of s t px py) →
  shown_as s d0 (cx l) (cy l) scr → half_shown s d0 l b scr.
Proof.
  intros Hc Em Hb Hs. split.
  - intros Esc px py Hp. destruct (Hs px py Hp) as [t' E]. exists t'. rewrite E, Em. unfold scene_px. by rewrite Esc.
  - intros r Hr. by apply (fresh_change s d0 r (cx l) (cy l) scr b t).
Qed.

Lemma bar_menu_ok s l rd ch d0 scr t (Q : ses → unit → Prop) :
  on_display s → wide (ss_gfx s) (dk_metrics (ss_desk s)) → ch = CUR_ROWS * cur_scale (dk_metrics (ss_desk s)) →
  images s (scene_of s t) scr → shown_as s d0 (cx l) (cy l) scr → dk_metrics d0 = dk_metrics (ss_desk s) →
  dirty rd = None → covered s d0 l rd →
  (∀ s' scr', redrawn s s' → images s' (scene_of s' t) scr' →
    (¬ (mx l = cx l ∧ my l = cy l) → fresh s' (cursor_box s' (cx l) (cy l)) scr') →
    (mx l = cx l → my l = cy l → shown_as s' (ss_desk s') (cx l) (cy l) scr') → Q s' tt) →
  iwp ((if scene_taskbar rd then
          present_rect (0, scr_h (dk_metrics (ss_desk s)) - TB_H, scr_w (dk_metrics (ss_desk s)), TB_H) ;!
          if scr_h (dk_metrics (ss_desk s)) - TB_H <? cy l + ch then draw_cursor (cx l) (cy l) else io_ret tt
        else io_ret tt) ;!
       if scene_menu rd then present_rect (menu_rect (dk_metrics (ss_desk s))) else io_ret tt) Q s.
Proof.
  intros Hd Hw Ech Hi Hs Em Edirty Hcov HQ. pose proof Hw as [_ (W1 & W2 & W3 & W4) _ _].
  assert (0 ≤ cur_scale (dk_metrics d0)) as Hc0 by (rewrite Em; lia).
  assert (∀ s1 scr1, redrawn s s1 → images s1 (scene_of s t) scr1 → half_shown s d0 l (scene_of s t) scr1 →
    iwp (if scene_menu rd then present_rect (menu_rect (dk_metrics (ss_desk s))) else io_ret tt) Q s1) as Hmenu.
  { intros s1 scr1 K1 Hi1 Hh. pose proof (redrawn_display _ _ K1 Hd) as Hd1. pose proof (half_redrawn _ _ _ _ _ _ K1 Hh) as [H1 H2].
    destruct (redrawn_scene _ _ K1) as (Es1 & Ed1 & On1). assert (ss_video s1 = ss_video s) as Ev by (by destruct K1 as (? & ? & -> & _)).
    unfold covered in Hcov. rewrite Edirty in Hcov. cbv zeta in Hcov. destruct (scene_menu rd).
    - destruct Hcov as [Ha Hne]. eapply present_ok; [done|exact Hi1|]. intros s2 K2 Hi2. destruct (redrawn_scene _ _ K2) as (Es2 & Ed2 & On2).
      eapply HQ; [by eapply redrawn_trans|by rewrite Es2, Es1; exact Hi2| |tauto].
      intros _ px py Hp Hin. apply On2 in Hp. unfold cursor_box in Hin. rewrite Ed2 in Hin. rewrite Es2.
      exact (H2 (menu_rect (dk_metrics (ss_desk s))) ltac:(by rewrite Ev, Ed1) px py Hp Hin).
    - apply iwp_ret. eapply HQ; [done|by rewrite Es1; exact Hi1| |].
      + intros _. specialize (H2 (0, 0, 0, 0)). intros px py Hp Hin. destruct (H2 ltac:(intros t'; rewrite Ed1, Hcov; apply agree_refl) px py Hp Hin) as [t' E].
        assert (inside (0, 0, 0, 0) px py = false) as En by (apply inside_false; lia). rewrite En in E. by exists t'.
      + intros _ _. apply H1. by rewrite Ed1. }
  apply iwp_bind. destruct (scene_taskbar rd).
  - eapply (taskbar_ok s l ch (scene_of s t) scr t d0); try done. intros s1 scr1 K1 Hi1 H1 H2. by apply (Hmenu s1 scr1).
  - apply iwp_ret. apply (Hmenu s scr); [apply redrawn_refl|done|]. by apply half_start with t.
Qed.

Lemma update_ok s l rd d0 cw ch (Q : ses → locals → Prop) :
  on_display s → wide (ss_gfx s) (dk_metrics (ss_desk s)) →
  cw = CUR_COLS * cur_scale (dk_metrics (ss_desk s)) → ch = CUR_ROWS * cur_scale (dk_metrics (ss_desk s)) →
  (scene_full rd = true ∨
   dk_metrics d0 = dk_metrics (ss_desk s) ∧ scene_shown s d0 (cx l) (cy l) ∧ covered s d0 l rd) →
  (∀ s', redrawn s s' → scene_shown s' (ss_desk s') (mx l) (my l) → Q s' (at_mouse l)) →
  iwp (update_screen cw ch l rd) Q s.
Proof.
  intros Hd Hw Ecw Ech Hcase HQ. pose proof Hw as [_ (W1 & W2 & W3 & W4) _ _]. set (m := dk_metrics (ss_desk s)) in *.
  assert (0 ≤ cur_scale m) as Hc by lia. apply iwp_bind, iwp_desk. cbv zeta. fold m. fold (at_mouse l).
  destruct (scene_full rd) eqn:Ef.
  { apply iwp_bind, render_back; [done|]. intros s1 t _ K1 Hb1. pose proof (redrawn_display _ _ K1 Hd) as Hd1.
    destruct (redrawn_scene _ _ K1) as (Es1 & Ed1 & On1).
    apply iwp_bind. eapply present_full; [done|exact Hb1|]. intros s2 K2 Hi2. pose proof (redrawn_display _ _ K2 Hd1) as Hd2.
    destruct (redrawn_scene _ _ K2) as (Es2 & Ed2 & On2).
    apply iwp_bind. eapply cursor_ok; [done|rewrite Ed2, Ed1; exact Hc|exact Hi2|]. intros s3 K3 Hi3. apply iwp_ret.
    destruct (redrawn_scene _ _ K3) as (Es3 & Ed3 & On3).
    assert (redrawn s s3) as K by (eapply redrawn_trans; [exact K1|by eapply redrawn_trans]). apply HQ; [exact K|].
    destruct (redrawn_scene _ _ K) as (Es & Ed & On). rewrite Ed2, Ed1 in Hi3. unfold scene_shown, shown_as.
    change (scene_px (ss_video s3) (ss_desk s3)) with (scene_of s3). rewrite Es, Ed. exists t. eexists.
    split; [exact Hi3|]. intros px py _. by exists t. }
  destruct Hcase as [?|(Em & (tb & scr & Hi & Hs) & Hcov)]; [done|]. rewrite Ecw, Ech.
  change (cx l, cy l, CUR_COLS * cur_scale m, CUR_ROWS * cur_scale m) with (cursor_box s (cx l) (cy l)).
  unfold covered in Hcov. cbv zeta in Hcov. fold m in Hcov. unfold images in Hi.
  destruct (dirty rd) as [q|] eqn:Edirty.
  { (* a window moved *)
    apply iwp_bind, iwp_bind. eapply render_ok; [done|exact Hi|]. intros s1 t _ K1 Hi1. pose proof (redrawn_display _ _ K1 Hd) as Hd1.
    destruct (redrawn_scene _ _ K1) as (Es1 & Ed1 & On1).
    eapply present_ok; [done|exact Hi1|]. intros s2 K2 Hi2. pose proof (redrawn_display _ _ K2 Hd1) as Hd2.
    assert (redrawn s s2) as K by (by eapply redrawn_trans). destruct (redrawn_scene _ _ K) as (Es & Ed & On).
    assert (cursor_box s (cx l) (cy l) = cursor_box s2 (cx l) (cy l)) as -> by (unfold cursor_box; by rewrite Ed).
    change (bool_decide (is_Some (Some q))) with true.
    eapply finish_ok; [done|by rewrite Ed|exact Hi2|by intros; rewrite Es| |done|].
    - intros _ px py Hp Hin. apply On in Hp. unfold cursor_box in Hin. rewrite Ed in Hin. rewrite Es.
      assert (0 ≤ cur_scale (dk_metrics d0)) as Hc0 by (rewrite Em; exact Hc).
      exact (fresh_change s d0 q (cx l) (cy l) scr (scene_of s t) t Hc0 (eq_sym Em) Hcov Hs (λ _ _, eq_refl) px py Hp Hin).
    - intros s3 K3. apply HQ. by eapply redrawn_trans. }
  change (bool_decide (is_Some None)) with false.
  destruct (scene_taskbar rd || scene_menu rd) eqn:Etm.
  2: { (* nothing but the cursor *)
    apply orb_false_iff in Etm as [_ Emenu]. rewrite Emenu in Hcov. apply iwp_bind, iwp_ret.
    assert (shown_as s (ss_desk s) (cx l) (cy l) scr) as Hs'.
    { intros px py Hp. destruct (Hs px py Hp) as [t' E]. exists t'. rewrite E, Em. fold m. unfold scene_px. by rewrite Hcov. }
    eapply finish_ok; [done|exact Hc|exact Hi| | |done|exact HQ].
    - intros px py. unfold scene_of, scene_px. by rewrite <- Hcov.
    - intros _ px py Hp Hin. destruct (Hs' px py Hp) as [t' E]. exists t'. rewrite E. unfold cursor_box in Hin.
      fold m in E, Hin |- *. by rewrite (cursor_inside m _ _ _ _ Hc Hin). }
  (* the taskbar or the menu *)
  apply iwp_bind, iwp_bind. eapply render_ok; [done|exact Hi|]. intros s1 t _ K1 Hi1. pose proof (redrawn_display _ _ K1 Hd) as Hd1.
  destruct (redrawn_scene _ _ K1) as (Es1 & Ed1 & On1).
  assert (ss_video s1 = ss_video s ∧ wide (ss_gfx s1) m) as [Ev1 Hw1].
  { destruct K1 as (w & g & -> & (_ & G1 & G2 & _)). split; [done|]. cbn [ss_gfx]. destruct Hw as [V1 V2 V3 V4]. split; by rewrite ?G1, ?G2. }
  assert (m = dk_metrics (ss_desk s1)) as Em1 by (by rewrite Ed1). rewrite Em1. change (mnu_x _, mnu_y _, mnu_w _ + 3, mnu_h _ + 3) with (menu_rect (dk_metrics (ss_desk s1))).
  eapply (bar_menu_ok s1 l rd _ d0 scr t); try done; [by rewrite <- Em1|by rewrite Es1| |congruence|by unfold covered; rewrite Edirty, Ev1, Ed1|].
  - intros px py Hp. rewrite Ev1. apply Hs. by apply On1.
  - intros s2 scr2 K2 Hi2 Hf2 Hs2. destruct (redrawn_scene _ _ K2) as (Es2 & Ed2 & On2). pose proof (redrawn_display _ _ K2 Hd1) as Hd2.
    assert (cursor_box s (cx l) (cy l) = cursor_box s2 (cx l) (cy l)) as -> by (unfold cursor_box; by rewrite Ed2, Ed1).
    eapply finish_ok; [done|rewrite Ed2, <- Em1; exact Hc|exact Hi2|done| |by intros _; apply Hs2|].
    + intros [?|Hne]; [done|by apply Hf2].
    + intros s3 K3. apply HQ. eapply redrawn_trans; [exact K1|by eapply redrawn_trans].
Qed.

(** *** The clock *)

(** The rows of the taskbar show the scene as of [t], with the cursor at [(x, y)]. *)
Definition bar_shown (s : ses) (x y : Z) (t : rtc_time) : Prop :=
  ∃ b scr, images s b scr ∧ ∀ px py, on_scr s px py → gh (ss_gfx s) - TB_H ≤ py →
    scr px py = repaint (scene_of s t) (cursor_colour (dk_metrics (ss_desk s)) x y) px py.

(** The image [scr] of a display [g] has in the taskbar what [b] has. *)
Definition bar_has (g : gfx) (b scr : image) : Prop :=
  ∀ px py, on_screen g px py → gh g - TB_H ≤ py → scr px py = b px py.
(** Outside the rectangle [r]. *)
Definition bar_off (g : gfx) (r : Z * Z * Z * Z) (b scr : image) : Prop :=
  ∀ px py, on_screen g px py → gh g - TB_H ≤ py → inside r px py = false → scr px py = b px py.

Lemma bar_same g g' b scr : same_display g g' → bar_has g b scr → bar_has g' b scr.
Proof.
  intros Hs Hb px py Hp Hy. pose proof Hs as (_ & _ & E & _). apply (same_display_on _ _ px py Hs) in Hp.
  apply Hb; [done|]. by rewrite <- E.
Qed.

Lemma bar_present g r b scr : bar_off g r b scr → bar_has g b (λ px py, if inside r px py then b px py else scr px py).
Proof. intros Hb px py Hp Hy. destruct (inside r px py) eqn:Er; [done|by apply Hb]. Qed.

Lemma bar_off_present g r q b scr : bar_off g r b scr → bar_off g r b (λ px py, if inside q px py then b px py else scr px py).
Proof. intros Hb px py Hp Hy Hr. destruct (inside q px py); [done|by apply Hb]. Qed.

Lemma bar_repaint g b scr f : bar_has g b scr → bar_has g (repaint b f) (repaint scr f).
Proof. intros Hb px py Hp Hy. unfold repaint. by rewrite Hb. Qed.

Lemma bar_cursor_off g m x y b scr :
  0 ≤ cur_scale m → bar_has g (repaint b (cursor_colour m x y)) scr →
  bar_off g (x, y, CUR_COLS * cur_scale m, CUR_ROWS * cur_scale m) b scr.
Proof. intros Hc Hb px py Hp Hy Hin. rewrite Hb by done. unfold repaint. by rewrite (cursor_inside _ _ _ _ _ Hc Hin). Qed.

(** The taskbar presented, and the cursor over it. *)
Lemma bar_ok s (l : locals) b scr (Q : ses → unit → Prop) :
  on_display s → wide (ss_gfx s) (dk_metrics (ss_desk s)) → images s b scr →
  (∀ s' scr', redrawn s s' → images s' b scr' →
    bar_has (ss_gfx s) (repaint b (cursor_colour (dk_metrics (ss_desk s)) (cx l) (cy l))) scr' → Q s' tt) →
  iwp (present_rect (0, scr_h (dk_metrics (ss_desk s)) - TB_H, scr_w (dk_metrics (ss_desk s)), TB_H) ;!
       if scr_h (dk_metrics (ss_desk s)) - TB_H <? cy l + CUR_ROWS * cur_scale (dk_metrics (ss_desk s))
       then draw_cursor (cx l) (cy l) else io_ret tt) Q s.
Proof.
  intros Hd [_ (W1 & W2 & _ & W4) _ _] Hi HQ. set (m := dk_metrics (ss_desk s)) in *. assert (0 ≤ cur_scale m) as Hc by lia.
  apply iwp_bind. eapply present_ok; [done|exact Hi|]. intros s1 K1 Hi1. pose proof (redrawn_display _ _ K1 Hd) as Hd1.
  destruct (redrawn_scene _ _ K1) as (_ & Ed1 & _). set (bar := (0, scr_h m - TB_H, scr_w m, TB_H)) in *.
  assert (bar_has (ss_gfx s) b (λ px py, if inside bar px py then b px py else scr px py)) as Hb.
  { intros px py [Hx Hy] Hge. assert (inside bar px py = true) as -> by (apply inside_true; unfold TB_H in *; lia). done. }
  destruct (Z.ltb_spec (scr_h m - TB_H) (cy l + CUR_ROWS * cur_scale m)) as [Hlt|Hge].
  - eapply cursor_ok; [done|by rewrite Ed1|exact Hi1|]. intros s2 K2 Hi2. rewrite Ed1 in Hi2. fold m in Hi2.
    eapply HQ; [by eapply redrawn_trans|exact Hi2|by apply bar_repaint].
  - apply iwp_ret. eapply HQ; [done|exact Hi1|]. intros px py Hp Hy. rewrite Hb by done. unfold repaint.
    rewrite (cursor_inside m (cx l) (cy l)); [done|exact Hc|]. apply inside_false. lia.
Qed.

(** The menu and the cursor leave the taskbar as it is. *)
Lemma bar_kept s (l : locals) (menu : bool) b scr (Q : ses → locals → Prop) :
  on_display s → 0 ≤ cur_scale (dk_metrics (ss_desk s)) → images s b scr →
  bar_has (ss_gfx s) (repaint b (cursor_colour (dk_metrics (ss_desk s)) (cx l) (cy l))) scr →
  (menu = true → ¬ (mx l = cx l ∧ my l = cy l)) →
  (∀ s' l' scr', redrawn s s' → images s' b scr' →
    bar_has (ss_gfx s) (repaint b (cursor_colour (dk_metrics (ss_desk s)) (mx l) (my l))) scr' → Q s' l') →
  iwp (if menu then present_rect (menu_rect (dk_metrics (ss_desk s))) else io_ret tt)
    (λ s' _, iwp
      (if false || negb (mx l =? cx l) || negb (my l =? cy l)
       then present_rect (cursor_box s (cx l) (cy l)) ;! draw_cursor (mx l) (my l) ;! io_ret (at_mouse l)
       else io_ret l) Q s') s.
Proof.
  intros Hd Hc Hi Hb Hm HQ. set (m := dk_metrics (ss_desk s)) in *.
  assert (∀ s1 scr1, redrawn s s1 → images s1 b scr1 → bar_off (ss_gfx s) (cursor_box s (cx l) (cy l)) b scr1 →
    iwp (present_rect (cursor_box s (cx l) (cy l)) ;! draw_cursor (mx l) (my l) ;! io_ret (at_mouse l)) Q s1) as Hmoved.
  { intros s1 scr1 K1 Hi1 Ho. pose proof (redrawn_display _ _ K1 Hd) as Hd1. apply iwp_bind. eapply present_ok; [done|exact Hi1|].
    intros s2 K2 Hi2. assert (redrawn s s2) as K by (by eapply redrawn_trans). destruct (redrawn_scene _ _ K) as (_ & Ed & _).
    apply iwp_bind. eapply cursor_ok; [by eapply redrawn_display|by rewrite Ed|exact Hi2|]. intros s3 K3 Hi3.
    apply iwp_ret. eapply HQ; [by eapply redrawn_trans|exact Hi3|]. rewrite Ed. by apply bar_repaint, bar_present. }
  pose proof (bar_cursor_off _ m _ _ _ _ Hc Hb) as Ho. destruct menu.
  - eapply present_ok; [done|exact Hi|]. intros s1 K1 Hi1. specialize (Hm eq_refl).
    assert (false || negb (mx l =? cx l) || negb (my l =? cy l) = true) as -> by (destruct (Z.eqb_spec (mx l) (cx l)), (Z.eqb_spec (my l) (cy l)); tauto).
    eapply Hmoved; [done|exact Hi1|by apply bar_off_present].
  - apply iwp_ret. destruct (_ || _) eqn:E; [by eapply Hmoved; [apply redrawn_refl|..]|]. apply iwp_ret.
    rewrite !orb_false_iff, !negb_false_iff, !Z.eqb_eq in E. destruct E as [[_ E1] E2].
    eapply HQ; [apply redrawn_refl|exact Hi|]. by rewrite E1, E2.
Qed.

(** An update in which the clock is due, and no window has moved. *)
Lemma update_tick s l rd cw ch (Q : ses → locals → Prop) :
  on_display s → wide (ss_gfx s) (dk_metrics (ss_desk s)) →
  cw = CUR_COLS * cur_scale (dk_metrics (ss_desk s)) → ch = CUR_ROWS * cur_scale (dk_metrics (ss_desk s)) →
  (scene_full rd = true ∨
   scene_taskbar rd = true ∧ dirty rd = None ∧ (∃ b scr, images s b scr) ∧ (scene_menu rd = true → ¬ (mx l = cx l ∧ my l = cy l))) →
  (∀ s' l', bar_shown s' (mx l) (my l) (reading s) → Q s' l') →
  iwp (update_screen cw ch l rd) Q s.
Proof.
  intros Hd Hw -> -> Hcase HQ. set (m := dk_metrics (ss_desk s)) in *. assert (0 ≤ cur_scale m) as Hc by (pose proof (wd_size _ _ Hw); lia).
  assert (∀ s' l' scr', redrawn s s' → images s' (scene_of s (reading s)) scr' →
    bar_has (ss_gfx s) (repaint (scene_of s (reading s)) (cursor_colour m (mx l) (my l))) scr' → Q s' l') as Hend.
  { intros s' l' scr' K Hi Hb. apply HQ. destruct (redrawn_scene _ _ K) as (Es & Ed & _). exists (scene_of s (reading s)), scr'.
    split; [exact Hi|]. rewrite Es, Ed. destruct K as (w & g & -> & Hg). intros px py Hp Hy. by apply (bar_same _ _ _ _ Hg Hb). }
  apply iwp_bind, iwp_desk. cbv zeta. fold m. fold (at_mouse l). destruct (scene_full rd).
  { apply iwp_bind, render_back; [done|]. intros s1 t -> K1 Hb1. pose proof (redrawn_display _ _ K1 Hd) as Hd1.
    apply iwp_bind. eapply present_full; [done|exact Hb1|]. intros s2 K2 Hi2. pose proof (redrawn_display _ _ K2 Hd1) as Hd2.
    assert (redrawn s s2) as K by (by eapply redrawn_trans). destruct (redrawn_scene _ _ K) as (_ & Ed & _).
    apply iwp_bind. eapply cursor_ok; [done|rewrite Ed; exact Hc|exact Hi2|]. intros s3 K3 Hi3. apply iwp_ret.
    eapply Hend; [by eapply redrawn_trans|exact Hi3|]. rewrite Ed. by apply bar_repaint. }
  destruct Hcase as [?|(Et & Edirty & (b & scr & Hi) & Hm)]; [done|]. rewrite Et, Edirty. cbn [orb].
  change (bool_decide (is_Some None)) with false. apply iwp_bind, iwp_bind. eapply render_ok; [done|exact Hi|]. intros s1 t -> K1 Hi1.
  pose proof (redrawn_display _ _ K1 Hd) as Hd1. destruct (redrawn_scene _ _ K1) as (_ & Ed1 & _).
  assert (wide (ss_gfx s1) m) as Hw1.
  { destruct K1 as (w & g & -> & (_ & G1 & G2 & _)). cbn [ss_gfx]. destruct Hw as [V1 V2 V3 V4]. split; by rewrite ?G1, ?G2. }
  subst m. rewrite <- Ed1 in *. change (mnu_x _, mnu_y _, mnu_w _ + 3, mnu_h _ + 3) with (menu_rect (dk_metrics (ss_desk s1))).
  apply iwp_bind. eapply bar_ok; [done|done|exact Hi1|]. intros s2 scr2 K2 Hi2 Hb2. pose proof (redrawn_display _ _ K2 Hd1) as Hd2.
  destruct (redrawn_scene _ _ K2) as (_ & Ed2 & _).
  assert (bar_has (ss_gfx s2) (repaint (scene_of s (reading s)) (cursor_colour (dk_metrics (ss_desk s1)) (cx l) (cy l))) scr2) as Hb2'
    by (destruct K2 as (w & g & -> & Hg); by apply (bar_same _ _ _ _ Hg)).
  rewrite <- Ed2 in *. eapply bar_kept; [done|done|exact Hi2|exact Hb2'|exact Hm|]. intros s3 l' scr3 K3 Hi3 Hb3.
  eapply Hend; [by eapply redrawn_trans; [exact K1|by eapply redrawn_trans]|exact Hi3|].
  intros px py Hp Hy. apply Hb3; [|]; destruct K1 as (w1 & g1 & -> & Hg1), K2 as (w2 & g2 & -> & Hg2); cbn [ss_gfx] in *;
    pose proof (same_display_trans _ _ _ Hg1 Hg2) as Hg; [by apply (same_display_on _ _ _ _ Hg)|]. destruct Hg as (_ & _ & -> & _). done.
Qed.

(** ** The events *)

Lemma drag_ok px py left d :
  desktop_wf d → texts_fit d →
  let '(d', q) := drag px py left d in
  desktop_wf d' ∧ texts_fit d' ∧
  (dk_metrics d' = dk_metrics d ∧ start_open d' = start_open d ∧ start_hover d' = start_hover d ∧ dragging d' = dragging d) ∧
  match q with
  | None => d' = d
  | Some r => 0 ≤ dragging d ∧ ∀ v t, agree_off v r (scene d t) (scene d' t)
  end.
Proof.
  intros Hd Hf. unfold drag. destruct (Z.leb_spec 0 (dragging d)) as [H0|]; [|done]. destruct left; [|done]. cbn [andb].
  destruct (drag_to (dk_metrics d) (win d (dragging d)) px py (grab_dx d) (grab_dy d)) as [nx ny].
  destruct (_ || _); [|done]. pose proof (dw_drag _ Hd) as Hi. assert (0 ≤ dragging d < MAX_WIN) as Hi' by lia.
  split; [by apply set_win_wf, move_win_wf, win_in|]. split; [|split; [done|split; [done|]]].
  - apply set_win_fit; [apply Hd|done| |done]. intros Ho. destruct (Hf _ Hi' Ho). by split.
  - intros v t. apply scene_drag; [apply Hd|apply Hd|unfold MAX_WIN in Hi'; lia|by apply Hf].
Qed.

Lemma hover_ok px py d g :
  desktop_wf d → texts_fit d → wide g (dk_metrics d) →
  let '(d', menu) := hover px py d in
  desktop_wf d' ∧ texts_fit d' ∧
  (dk_metrics d' = dk_metrics d ∧ start_open d' = start_open d ∧ dragging d' = dragging d) ∧
  (start_open d' = true → start_hover d' = menu_item_at d' px py) ∧
  if menu : bool then start_open d = true ∧ start_hover d ≠ menu_item_at d px py ∧ ∀ v t, agree_off v (menu_rect (dk_metrics d)) (scene d t) (scene d' t)
  else d' = d.
Proof.
  intros Hd Hf Hw. unfold hover. destruct (start_open d) eqn:Eo; [|split_and!; try done; by rewrite Eo].
  destruct (Z.eqb_spec (menu_item_at d px py) (start_hover d)) as [E|Hne]; cbn [negb].
  - by split_and!.
  - assert (menu_item_at (with_start true (menu_item_at d px py) d) px py = menu_item_at d px py) as Em.
    { unfold menu_item_at. cbn [with_start start_open dk_metrics]. by rewrite Eo. }
    split_and!; try done.
    + pose proof (menu_item_range d px py (dw_menu _ Hd)). destruct Hd. by split.
    + intros v t. rewrite <- Eo. by apply scene_hover with g.
Qed.

(** [gfx_init] after [gfx_shutdown]: a display again. *)
Lemma palette_display v g : g_buf (load_palette v g) = g_buf g ∧ gw (load_palette v g) = gw g ∧ gh (load_palette v g) = gh g.
Proof. done. Qed.

Lemma enter_ok s (Q : ses → Z → Prop) :
  roomy (ss_heap s) →
  (∀ w v h g r, roomy h → (r = 0 → on_display (Session w h v g (ss_desk s)) ∧ 640 ≤ gw g) → Q (Session w h v g (ss_desk s)) r) →
  iwp enter_graphics Q s.
Proof.
  intros Hh HQ. apply iwp_bind, iwp_ask. intros w v Ev. apply iwp_bind, iwp_put. unfold iwp, gfx_init. cbv beta.
  cbn [ss_video with_video ss_heap ss_gfx set_hw ss_world ss_desk session_hw].
  destruct (mode_wide _ _ _ Ev) as (M1 & M2 & M3 & M4 & M5). rewrite u32_small by nia.
  pose proof (roomy_alloc (vga_width v * vga_height v) (ss_heap s) Hh) as Hr.
  pose proof (hp_alloc_ok (ss_heap s) (hp_alloc (vga_width v * vga_height v) (ss_heap s)).1 (vga_width v * vga_height v)
    (hp_alloc (vga_width v * vga_height v) (ss_heap s)).2 (roomy_inv _ Hh) ltac:(nia) (surjective_pairing _)) as [_ Ha].
  destruct (hp_alloc (vga_width v * vga_height v) (ss_heap s)) as [h p]. cbn [fst snd] in Hr, Ha.
  do 2 eexists. split; [reflexivity|]. apply HQ; [done|]. destruct (Z.eqb_spec p 0) as [->|Hp]; [done|]. intros _.
  destruct Ha as [[? _]|(_ & n & Hn & Hl)]; [done|].
  assert ((p, n) ∈ hp_live h) as Hin by (rewrite Hl; apply list_elem_of_here).
  pose proof (mode_apart _ _ _ h p n Ev Hr Hin) as Hap. split; [|done]. split; cbn [ss_heap ss_gfx ss_video g_buf gw gh].
  - done.
  - split; [done|]. by exists n.
  - split; cbn [gw gh g_buf]; [lia|done|left; nia].
  - lia.
Qed.

Lemma leave_ok s (Q : ses → unit → Prop) :
  on_display s → (∀ w h g, roomy h → Q (Session w h (ss_video s) g (ss_desk s)) tt) → iwp leave_graphics Q s.
Proof.
  intros [Hh (Hb & n & Hn) _ _] HQ. apply iwp_bind, iwp_put, iwp_put. unfold gfx_shutdown. rewrite (proj2 (Z.eqb_neq _ _) Hb).
  apply HQ. by apply roomy_free with n.
Qed.

Lemma iwp_tell f (Q : ses → unit → Prop) s : Q (set_hw (f (ss_world s)) s) tt → iwp (tell f) Q s.
Proof. apply (iwp_put (λ s, set_hw (f (ss_world s)) s)). Qed.

(** [measure; lay_out; set_bounds] on a display. *)
Lemma relaid s :
  on_display s → 640 ≤ gw (ss_gfx s) →
  ∃ w g m, (measure ;! lay_out ;! set_bounds) s = Some (Session w (ss_heap s) (ss_video s) g (with_metrics m (ss_desk s)), tt) ∧
    on_display (Session w (ss_heap s) (ss_video s) g (with_metrics m (ss_desk s))) ∧ wide g m ∧ 0 < mnu_ih m.
Proof.
  intros [H1 H2 H3 H4] Hw. destruct s as [w0 h v g d]. cbn [ss_heap ss_video ss_gfx ss_desk] in *.
  pose proof (palette_display v g) as (E1 & E2 & E3). pose proof (wide_layout g (dk_metrics d) Hw) as Hl.
  set (m := layout_taskbar (layout_icons (set_size (gw g) (gh g) (dk_metrics d)))) in *.
  set (g' := load_palette v g) in *. exists (st_mouse_set_bounds (scr_w m) (scr_h m) w0), g', m.
  split; [reflexivity|]. clearbody g'. split; [|split; [|pose proof (wd_menu _ _ Hl); lia]].
  - split; cbn [ss_heap ss_video ss_gfx]; [done|by rewrite E1| |by rewrite E2, E3].
    destruct H3 as [D1 D2 D3]. split; by rewrite ?E1, ?E2, ?E3.
  - destruct Hl as [L1 L2 L3 L4]. split; by rewrite ?E2, ?E3.
Qed.

Lemma metrics_wf m d : desktop_wf d → 0 < mnu_ih m → desktop_wf (with_metrics m d).
Proof. by intros [] Hm. Qed.

(** The desktop's part of the invariant. *)
Record desk_ok (s : ses) : Prop := {
  dk_disp : on_display s;
  dk_wide : wide (ss_gfx s) (dk_metrics (ss_desk s));
  dk_wf : desktop_wf (ss_desk s);
  dk_fit : texts_fit (ss_desk s)
}.

Lemma refoldered_desk_ok s d s' : desk_ok s → refoldered (ss_desk s) d → moved_on s d s' → desk_ok s' ∧ ss_desk s' = d.
Proof.
  intros [H1 H2 H3 H4] Hr [w ->]. destruct (refoldered_ok _ _ H3 Hr) as [H5 H6]. split; [|done]. destruct Hr as (f & _ & _ & ->).
  split; [by destruct H1|exact H2|done|by apply H6].
Qed.

Lemma editor_ok s (Q : ses → Z → Prop) :
  desk_ok s → (∀ s' r, (r = 0 → desk_ok s' ∧ start_open (ss_desk s') = start_open (ss_desk s) ∧ dragging (ss_desk s') = dragging (ss_desk s)) → Q s' r) →
  iwp open_in_editor Q s.
Proof.
  intros [Hd Hw Hwf Hf] HQ. apply iwp_bind, leave_ok; [done|]. intros w0 h0 g0 Hr.
  apply iwp_bind, iwp_ask. intros w1 cwd _. cbv zeta. apply iwp_bind, iwp_desk. apply iwp_bind, iwp_ask. intros w2 r2 _.
  apply iwp_bind, iwp_tell. apply iwp_bind, iwp_ask. intros w3 r3 _. apply iwp_bind, enter_ok; [exact Hr|].
  intros w4 v4 h4 g4 r Hr4 Hok. destruct (Z.eqb_spec r 0) as [->|Hne]; cbn [negb].
  2: { apply iwp_bind, iwp_tell, iwp_ret. by apply HQ. }
  destruct (Hok eq_refl) as [Hd4 Hg4]. cbn [ss_desk set_hw session_hw] in *.
  destruct (relaid _ Hd4 Hg4) as (w5 & g5 & m5 & E5 & Hd5 & Hw5 & Hm5). cbn [ss_heap ss_video ss_desk ss_gfx] in *.
  set (s4 := Session w4 h4 v4 g4 (ss_desk s)) in *. set (s5 := Session w5 h4 v4 g5 (with_metrics m5 (ss_desk s))) in *.
  assert (iwp (reload_dir ;! io_ret 0) Q s5) as Hq.
  { assert (desk_ok s5) as Hs5 by (split; [done|exact Hw5|by apply metrics_wf|exact Hf]).
    apply iwp_bind. apply (reload_ok s5); [apply (dk_wf _ Hs5)|].
    intros d' s6 Hr6 Hm6. apply iwp_ret, HQ. intros _. destruct (refoldered_desk_ok s5 d' s6 Hs5 Hr6 Hm6) as [H1 H2].
    split; [done|]. rewrite H2. destruct Hr6 as (f6 & _ & _ & ->). done. }
  destruct Hq as (s' & x & Ex & HQx). exists s', x. split; [|done].
  rewrite <- Ex. unfold io_bind in E5 |- *. revert E5. destruct (measure s4) as [[s6 []]|]; [|done].
  destruct (lay_out s6) as [[s7 []]|]; [|done]. intros E5. by rewrite E5.
Qed.

(** What an event leaves: the loop's variables before the screen is updated. *)
Record pending (s : ses) (l : locals) (rd : redraw) : Prop := {
  pd_desk : desk_ok s;
  pd_drag : 0 ≤ dragging (ss_desk s) → c_true (prev_buttons l &&& MOUSE_LEFT) = true ∧ start_open (ss_desk s) = false;
  pd_hover : start_open (ss_desk s) = true → start_hover (ss_desk s) = menu_item_at (ss_desk s) (mx l) (my l);
  pd_cover : scene_full rd = true ∨ ∃ d0, dk_metrics d0 = dk_metrics (ss_desk s) ∧ scene_shown s d0 (cx l) (cy l) ∧ covered s d0 l rd;
  pd_held : dragging (ss_desk s) < 0 → dirty rd = None
}.

(** Between two iterations. *)
Record at_rest (s : ses) (l : locals) : Prop := {
  ar_desk : desk_ok s;
  ar_drag : 0 ≤ dragging (ss_desk s) → c_true (prev_buttons l &&& MOUSE_LEFT) = true ∧ start_open (ss_desk s) = false;
  ar_hover : start_open (ss_desk s) = true → start_hover (ss_desk s) = menu_item_at (ss_desk s) (mx l) (my l);
  ar_cursor : cx l = mx l ∧ cy l = my l;
  ar_shown : scene_shown s (ss_desk s) (mx l) (my l)
}.

(** The fuel of [do_reboot] outlasts the keyboard controller. *)
Definition patient (fuel : nat) : Prop := ∀ s : ses, is_Some (wait_8042 fuel 0x02 s).

Lemma reboot_ends fuel s (Q : ses → next → Prop) :
  patient fuel → on_display s → (∀ s', Q s' Halted) → iwp (do_reboot fuel) Q s.
Proof.
  intros Hp Hd HQ. apply iwp_bind, leave_ok; [done|]. intros w h g _. destruct (Hp (Session w h (ss_video s) g (ss_desk s))) as [[s1 []] E].
  apply iwp_bind. exists s1, tt. split; [done|]. apply iwp_bind. apply (iwp_put (λ s, set_hw _ s)), iwp_ret, HQ.
Qed.

Lemma poweroff_ends s (Q : ses → next → Prop) : on_display s → (∀ s', Q s' Halted) → iwp do_poweroff Q s.
Proof.
  intros Hd HQ. apply iwp_bind, iwp_desk. apply iwp_bind, iwp_put. apply iwp_bind, iwp_put. apply iwp_bind, iwp_tell.
  apply iwp_bind. destruct Hd as [Hh (Hb & n & Hn) Hok Hsz].
  pose proof (draws_paint (ss_video s) (shutdown_panel (dk_metrics (ss_desk s))) (ss_gfx s) (proj1 (do_size _ _ Hok)) (proj2 (do_size _ _ Hok)) Hsz) as [(E1 & _) _ _].
  unfold leave_graphics. apply iwp_bind, iwp_put, iwp_tell, iwp_bind, iwp_tell, iwp_ret, HQ.
Qed.

Lemma buttons_ok fuel s l left was (Q : ses → next * bool → Prop) :
  patient fuel → desk_ok s → (was = false → dragging (ss_desk s) < 0) →
  (0 ≤ dragging (ss_desk s) → start_open (ss_desk s) = false) →
  (∀ s' n full, match n with
     | Continue l' =>
         last_clock l' = last_clock l ∧
         desk_ok s' ∧ (0 ≤ dragging (ss_desk s') → start_open (ss_desk s') = false ∧ left = true) ∧
         (full = true ∨
           l' = l ∧ ss_video s' = ss_video s ∧ ss_gfx s' = ss_gfx s ∧ (∀ t, scene (ss_desk s') t = scene (ss_desk s) t) ∧
           dk_metrics (ss_desk s') = dk_metrics (ss_desk s) ∧ start_open (ss_desk s') = start_open (ss_desk s) ∧
           start_hover (ss_desk s') = start_hover (ss_desk s))
     | _ => True
     end → Q s' (n, full)) →
  iwp (buttons_changed fuel l left was) Q s.
Proof.
  intros Hp Hs Hdrag Hstart HQ. unfold buttons_changed.
  destruct left, was; cbn [andb negb].
  - apply iwp_ret, HQ. split; [done|]. split; [done|]. split; [auto|]. by right.
  - apply iwp_bind. specialize (Hdrag eq_refl).
    destruct (handle_press_ok (mx l) (my l) s (dk_wf _ Hs)) as (s1 & a & E & d1 & [w1 ->] & [P1 P2 P3 P4 P5 _]). do 2 eexists. split; [exact E|].
    assert (desk_ok (Session w1 (ss_heap s) (ss_video s) (ss_gfx s) d1)) as Hs1.
    { destruct Hs as [[D1 D2 D3 D4] H2 H3 H4]. split; [by split|cbn [ss_gfx ss_desk]; by rewrite P1|done|].
      apply P3; [by destruct H2 as [_ (_ & _ & ? & _) _ _]|done]. }
    assert (0 ≤ dragging d1 → start_open d1 = false ∧ true = true) as Hd1 by (split; [by apply P5|done]).
    destruct a; cbn [after_press].
    + apply iwp_ret, HQ. split; [done|]. split; [done|]. split; [exact Hd1|]. right. cbn [ss_desk ss_video ss_gfx]. by rewrite P4.
    + apply iwp_ret, HQ. split; [done|]. split; [done|]. split; [exact Hd1|by left].
    + by apply iwp_ret, HQ.
    + apply iwp_bind, reboot_ends; [done|apply Hs1|]. intros s'. by apply iwp_ret, HQ.
    + apply iwp_bind, poweroff_ends; [apply Hs1|]. intros s'. by apply iwp_ret, HQ.
    + apply iwp_bind, editor_ok; [done|]. intros s2 r Hok. destruct (Z.eqb_spec r 0) as [->|Hne]; cbn [negb]; [|by apply iwp_ret, HQ].
      destruct (Hok eq_refl) as (H1 & H2 & H3). cbn [ss_desk] in H2, H3.
      apply iwp_bind, iwp_ask. intros w3 x _. apply iwp_bind, iwp_ask. intros w4 y _. apply iwp_bind, iwp_ask. intros w5 q _.
      apply iwp_ret, HQ. split; [done|]. split; [|split; [|by left]].
      * destruct H1 as [[D1 D2 D3 D4] ? ? ?]. split; [by split|done..].
      * cbn [ss_desk set_hw session_hw]. by rewrite H2, H3.
  - apply iwp_bind, iwp_put, iwp_ret, HQ. split; [done|]. split.
    + destruct Hs as [[D1 D2 D3 D4] ? [] ?]. split; [by split|done|by split|done].
    + split; [|by right]. cbn [with_desk ss_desk with_grab dragging]. lia.
  - apply iwp_ret, HQ. split; [done|]. split; [done|]. specialize (Hdrag eq_refl). split; [lia|]. by right.
Qed.

Lemma scene_shown_same s s' d d' x y :
  ss_video s' = ss_video s → ss_gfx s' = ss_gfx s → (∀ t, scene d' t = scene d t) → dk_metrics d' = dk_metrics d →
  scene_shown s d x y → scene_shown s' d' x y.
Proof.
  intros Ev Eg Esc Em (tb & scr & Hi & Hs). exists tb, scr. unfold images, shown_as, on_scr, scene_px in *. rewrite Ev, Eg, Em.
  split; [by rewrite Esc|]. intros px py Hp. destruct (Hs px py Hp) as [t E]. exists t. by rewrite Esc.
Qed.

Lemma desk_ok_same s s' :
  ss_heap s' = ss_heap s → ss_video s' = ss_video s → ss_gfx s' = ss_gfx s → dk_metrics (ss_desk s') = dk_metrics (ss_desk s) →
  desktop_wf (ss_desk s') → texts_fit (ss_desk s') → desk_ok s → desk_ok s'.
Proof.
  intros Eh Ev Eg Em Hwf Hf [[D1 D2 D3 D4] Hw _ _]. split; [split; by rewrite ?Eh, ?Ev, ?Eg|by rewrite Eg, Em|done|done].
Qed.

(** Dragging and hovering, after the buttons. *)
Lemma pointer_moved s0 s l buttons full d0 :
  let d := ss_desk s in
  let left := c_true (buttons &&& MOUSE_LEFT) in
  let '(d1, q) := drag (mx l) (my l) left d in
  let '(d2, menu) := hover (mx l) (my l) d1 in
  desk_ok s → (0 ≤ dragging d → start_open d = false ∧ left = true) →
  (full = true ∨ scene_shown s0 d0 (cx l) (cy l) ∧ ss_video s = ss_video s0 ∧ ss_gfx s = ss_gfx s0 ∧ (∀ t, scene d t = scene d0 t) ∧
    dk_metrics d = dk_metrics d0 ∧ (start_open d = true → start_hover d = menu_item_at d (cx l) (cy l))) →
  pending (with_desk d2 s) (Locals (mx l) (my l) (cx l) (cy l) buttons (last_seq l) (last_clock l)) (Redraw full q false menu).
Proof.
  intros d left. pose proof (drag_ok (mx l) (my l) left d) as Hdr. destruct (drag (mx l) (my l) left d) as [d1 q].
  pose proof (hover_ok (mx l) (my l) d1 (ss_gfx s)) as Hho. destruct (hover (mx l) (my l) d1) as [d2 menu].
  intros Hs Hdrag Hcov. destruct (Hdr (dk_wf _ Hs) (dk_fit _ Hs)) as (A1 & A2 & (A3 & A4 & A5 & A6) & A7).
  assert (wide (ss_gfx s) (dk_metrics d1)) as Hw1 by (rewrite A3; apply (dk_wide _ Hs)).
  destruct (Hho A1 A2 Hw1) as (B1 & B2 & (B3 & B4 & B5) & B6 & B7). clear Hdr Hho.
  split; cbn [with_desk ss_desk mx my cx cy prev_buttons scene_full].
  - apply (desk_ok_same s); try done. cbn [with_desk ss_desk]. by rewrite B3, A3.
  - rewrite B5, B4, A6, A4. intros Hd. destruct (Hdrag Hd) as [H1 H2]. by split.
  - exact B6.
  - destruct Hcov as [->|(Hsh & Ev & Eg & Esc & Em & Hhv)]; [by left|]. right. exists d0. rewrite B3, A3. split; [by rewrite <- Em|].
    split; [by apply (scene_shown_same s0 _ d0)|]. unfold covered. cbn [dirty scene_menu with_desk ss_desk ss_video mx my cx cy].
    destruct q as [r|].
    + destruct A7 as [Hd A7]. destruct (Hdrag Hd) as [Ho _]. rewrite Ho in A4. unfold hover in *.
      assert (d2 = d1) as ->. { destruct menu; [|exact B7]. destruct B7 as [B7 _]. congruence. }
      intros t px py Hin. rewrite <- Esc. by apply A7.
    + subst d1. destruct menu.
      * destruct B7 as (Bo & Bn & Ba). rewrite B3. split.
        -- intros t px py Hin. rewrite <- Esc. by apply Ba.
        -- intros [E1 E2]. apply Bn. rewrite E1, E2. by apply Hhv.
      * intros t. by rewrite B7, Esc.
  - cbn [dirty]. rewrite B5, A6. intros Hd. destruct q; [|done]. destruct A7. lia.
Qed.

Lemma event_ok fuel s l (Q : ses → next * redraw → Prop) :
  patient fuel → at_rest s l →
  (∀ s' n rd, match n with Continue l' => pending s' l' rd ∧ last_clock l' = last_clock l | _ => True end → Q s' (n, rd)) →
  iwp (mouse_event fuel l) Q s.
Proof.
  intros Hp [Hs Hdrag Hhov [Ecx Ecy] Hsh] HQ. apply iwp_bind, iwp_ask. intros w seq _.
  assert (∀ w', desk_ok (set_hw w' s)) as Hw by (intros w'; by apply (desk_ok_same s); try done; apply Hs).
  destruct (seq =? last_seq l).
  - apply iwp_ret, HQ. split; [|done]. split; [apply Hw|exact Hdrag|exact Hhov| |done]. right. exists (ss_desk s). split; [done|].
    split; [|done]. rewrite Ecx, Ecy. by apply (scene_shown_same s _ (ss_desk s)).
  - apply iwp_bind, iwp_ask. intros w1 x _. apply iwp_bind, iwp_ask. intros w2 y _. apply iwp_bind, iwp_ask. intros w3 buttons _.
    cbv zeta. set (left := c_true (buttons &&& MOUSE_LEFT)). apply iwp_bind.
    set (s3 := set_hw w3 _). change s3 with (set_hw w3 s). clear s3.
    apply buttons_ok; [done|apply Hw| |intros H; by apply Hdrag|].
    { intros Hwas. change (ss_desk (set_hw w3 s)) with (ss_desk s). destruct (Z.lt_ge_cases (dragging (ss_desk s)) 0) as [?|Hge]; [done|].
      destruct (Hdrag Hge) as [E _]. congruence. }
    intros s4 n full Hn. destruct n as [l4| | |]; [|by apply iwp_ret, HQ..]. destruct Hn as (El4 & Hs4 & Hd4 & Hc4).
    apply iwp_bind, iwp_desk.
    pose proof (pointer_moved s s4 l4 buttons full (ss_desk s)) as Hpm. cbv zeta in Hpm.
    destruct (drag (mx l4) (my l4) left (ss_desk s4)) as [d5 q] eqn:Edrag. fold left in Hpm. rewrite Edrag in Hpm.
    destruct (hover (mx l4) (my l4) d5) as [d6 menu]. apply iwp_bind, iwp_put, iwp_ret, HQ. split; [|exact El4]. apply Hpm; [done|exact Hd4|].
    destruct Hc4 as [->|(-> & Ev & Eg & Esc & Em & Eo & Eh)]; [by left|]. right. cbn [cx cy]. rewrite Ecx, Ecy.
    split_and!; try done. intros Ho. rewrite Eh. change (ss_desk (set_hw w3 s)) with (ss_desk s). rewrite Eo in Ho.
    rewrite (Hhov Ho). unfold menu_item_at. rewrite Em, Eo. done.
Qed.

(** An iteration that has seen the clock change, with no window held at its end:
    the taskbar shows the reading that follows the one noted in [last_clock]. *)
Definition ticked (s' : ses) (l l' : locals) : Prop :=
  last_clock l' ≠ last_clock l → dragging (ss_desk s') < 0 →
  ∃ w, last_clock l' = (st_rtc_read w).2 ∧ bar_shown s' (mx l') (my l') (st_rtc_read (st_rtc_read w).1).2.

Lemma iwp_and {X} (m : IO ses X) (s : ses) (P Q : ses → X → Prop) : iwp m P s → iwp m Q s → iwp m (λ s' x, P s' x ∧ Q s' x) s.
Proof. intros (s1 & x & E & HP) (s2 & y & E' & HQ). rewrite E in E'. injection E' as <- <-. by exists s1, x. Qed.

(** The update after a reading of the clock. *)
Lemma update_ticked s w2 now l1 l2 rd cw ch tick :
  pending s l1 rd → st_rtc_read (ss_world s) = (w2, now) → (tick = true → last_clock l2 = now) →
  mx l2 = mx l1 → my l2 = my l1 → cx l2 = cx l1 → cy l2 = cy l1 →
  cw = CUR_COLS * cur_scale (dk_metrics (ss_desk s)) → ch = CUR_ROWS * cur_scale (dk_metrics (ss_desk s)) →
  tick = true → dragging (ss_desk s) < 0 →
  iwp (update_screen cw ch l2 (Redraw (scene_full rd) (dirty rd) (scene_taskbar rd || tick) (scene_menu rd)))
    (λ s' _, ∃ w, last_clock l2 = (st_rtc_read w).2 ∧ bar_shown s' (mx l2) (my l2) (st_rtc_read (st_rtc_read w).1).2) (set_hw w2 s).
Proof.
  intros [Hs _ _ Hc Hq] Ew El E1 E2 E3 E4 Ecw Ech -> Hd. specialize (El eq_refl). specialize (Hq Hd).
  assert (desk_ok (set_hw w2 s)) as Hs2 by (by apply (desk_ok_same s); try done; apply Hs).
  eapply update_tick; [apply Hs2|apply Hs2|exact Ecw|exact Ech| |].
  - cbn [scene_full scene_taskbar dirty scene_menu]. destruct Hc as [Hf|(d0 & _ & (tb & scr & Hi & _) & Hcov)]; [by left|].
    right. rewrite orb_true_r. split; [done|]. split; [done|]. split; [by eexists _, scr|]. intros Hm.
    unfold covered in Hcov. rewrite Hq, Hm in Hcov. rewrite E1, E2, E3, E4. apply Hcov.
  - intros s' l' Hb. exists (ss_world s). rewrite Ew. by split.
Qed.

Lemma iteration_ok fuel cw ch s l (Q : ses → next → Prop) :
  patient fuel → at_rest s l → cw = CUR_COLS * 2 → ch = CUR_ROWS * 2 →
  (∀ s' n, match n with Continue l' => at_rest s' l' ∧ ticked s' l l' | _ => True end → Q s' n) →
  iwp (iteration fuel cw ch l) Q s.
Proof.
  intros Hp Hr Ecw Ech HQ. apply iwp_bind, iwp_ask. intros w has Ehas.
  assert (∀ w', at_rest (set_hw w' s) l) as Hw.
  { intros w'. destruct Hr as [H1 H2 H3 H4 H5].
    split; [by apply (desk_ok_same s); try done; apply H1|done|done|done|by apply (scene_shown_same s _ (ss_desk s))]. }
  assert (∀ (key : Z) w', iwp (if has && (key =? 27) then io_ret Done
      else let! r := mouse_event fuel l in
        match r with
        | (Continue l, rd) =>
            let! now := ask st_rtc_read in
            let tick := negb (second now =? second (last_clock l)) in
            let l := if tick then Locals (mx l) (my l) (cx l) (cy l) (prev_buttons l) (last_seq l) now else l in
            let! l := update_screen cw ch l (Redraw (scene_full rd) (dirty rd) (scene_taskbar rd || tick) (scene_menu rd)) in
            tell st_wait ;! io_ret (Continue l)
        | (n, _) => io_ret n
        end) Q (set_hw w' s)) as Hrest.
  { intros key w'. destruct (has && (key =? 27)); [by apply iwp_ret, HQ|]. apply iwp_bind. eapply event_ok; [done|apply Hw|].
    intros s1 n rd Hn. destruct n as [l1| | |]; [|by apply iwp_ret, HQ..]. destruct Hn as [Hpd El1]. pose proof Hpd as [Hs1 Hd1 Hh1 Hc1 _].
    apply iwp_bind, iwp_ask. intros w2 now Enow. cbv zeta. set (tick := negb _). clearbody tick.
    set (l2 := if tick then _ else l1).
    assert (mx l2 = mx l1 ∧ my l2 = my l1 ∧ cx l2 = cx l1 ∧ cy l2 = cy l1 ∧ prev_buttons l2 = prev_buttons l1) as (E1 & E2 & E3 & E4 & E5)
      by (unfold l2; by destruct tick).
    pose proof (wd_size _ _ (dk_wide _ Hs1)) as (_ & _ & _ & Esc).
    assert (desk_ok (set_hw w2 s1)) as Hs2 by (by apply (desk_ok_same s1); try done; apply Hs1).
    assert (∃ d0, scene_full rd = true ∨ dk_metrics d0 = dk_metrics (ss_desk s1) ∧
      scene_shown (set_hw w2 s1) d0 (cx l2) (cy l2) ∧
      covered (set_hw w2 s1) d0 l2 (Redraw (scene_full rd) (dirty rd) (scene_taskbar rd || tick) (scene_menu rd))) as [d0 Hc].
    { destruct Hc1 as [Hfull|(d0 & Em & Hsh & Hcov)]; [exists (ss_desk s1); by left|]. exists d0. right. split; [done|].
      rewrite E3, E4. split; [by apply (scene_shown_same s1 _ d0)|]. unfold covered in *. cbn [dirty scene_menu]. by rewrite E1, E2, E3, E4. }
    assert (iwp (update_screen cw ch l2 (Redraw (scene_full rd) (dirty rd) (scene_taskbar rd || tick) (scene_menu rd)))
      (λ s3 l3, redrawn (set_hw w2 s1) s3 ∧ scene_shown s3 (ss_desk s3) (mx l2) (my l2) ∧ l3 = at_mouse l2) (set_hw w2 s1)) as Hu.
    { eapply (update_ok _ _ _ d0); [apply Hs2|apply Hs2|cbn [set_hw session_hw ss_desk]; by rewrite Esc|cbn [set_hw session_hw ss_desk]; by rewrite Esc|exact Hc|done]. }
    assert (tick = true → dragging (ss_desk s1) < 0 →
      iwp (update_screen cw ch l2 (Redraw (scene_full rd) (dirty rd) (scene_taskbar rd || tick) (scene_menu rd)))
        (λ s' _, ∃ w, last_clock l2 = (st_rtc_read w).2 ∧ bar_shown s' (mx l2) (my l2) (st_rtc_read (st_rtc_read w).1).2) (set_hw w2 s1)) as Ht.
    { apply (update_ticked s1 w2 now l1); try done; [unfold l2; by intros ->|by rewrite Esc..]. }
    assert (last_clock l2 ≠ last_clock l → tick = true) as Htick by (unfold l2; destruct tick; [done|congruence]).
    apply iwp_bind. destruct Hu as (s3 & l3 & Eu & K & Hsh3 & ->). do 2 eexists. split; [exact Eu|].
    apply iwp_bind, iwp_tell, iwp_ret, HQ. split; [|intros Hne Hnd; specialize (Ht (Htick Hne))]. 2: {
      destruct (redrawn_scene _ _ K) as (_ & Ed3 & _). change (dragging (ss_desk s3) < 0) in Hnd. rewrite Ed3 in Hnd. destruct (Ht Hnd) as (s4 & l4 & E4' & wr & H1 & H2).
      rewrite Eu in E4'. injection E4' as <- <-. exists wr. split; [exact H1|exact H2]. }
    pose proof (redrawn_display _ _ K (dk_disp _ Hs2)) as Hd3.
    destruct K as (w3 & g3 & -> & Hg3). unfold at_mouse. split; cbn [set_hw session_hw ss_desk mx my cx cy prev_buttons].
    - split; cbn [ss_desk ss_gfx]; [by destruct Hd3| |apply Hs1|apply Hs1].
      destruct Hg3 as (_ & G1 & G2 & _). cbn [ss_gfx set_hw session_hw] in G1, G2. destruct (dk_wide _ Hs1) as [V1 V2 V3 V4]. split; by rewrite ?G1, ?G2.
    - rewrite E5. exact Hd1.
    - rewrite E1, E2. exact Hh1.
    - done.
    - exact Hsh3. }
  destruct has.
  - destruct (st_getchar_ready (ss_world s) ltac:(by rewrite Ehas)) as [[w1 c] Eg]. rewrite Ehas in Eg. cbn [fst] in Eg.
    apply iwp_bind. exists (set_hw w1 s), c. split; [|exact (Hrest c w1)].
    change (ss_world (set_hw w s)) with w. by rewrite Eg.
  - apply iwp_bind, iwp_ret. exact (Hrest 0 w).
Qed.

(** ** Starting *)

(** The statics as the program's start, or an earlier run, leaves them. *)
Record statics_ok (d : desktop) : Prop := {
  so_info : win_wf (win d WIN_INFO);
  so_stacks : zlen (dir_stack (dk_folder d)) = MAX_DEPTH ∧ zlen (name_stack (dk_folder d)) = MAX_DEPTH;
  so_names : Forall (λ l, zlen l < 13) (name_stack (dk_folder d));
  so_hover : -1 ≤ start_hover d ≤ 2;
  so_edit : zlen (edit_name d) < 13
}.

(** The root directory, listed. *)
Definition at_root (l : list fs_dirent) (f : folder) : folder :=
  set_dir l (Folder (entries f) (sel_slot f) (arr_set (dir_stack f) 0 fs_root_cluster) (<[0%nat := set_str [47] 13]> (name_stack f)) 1 (cur_path f) (overran f)).

Lemma at_root_wf l d : statics_ok d → zlen l ≤ MAX_ICONS → folder_wf (at_root l (dk_folder d)).
Proof.
  intros [_ [H1 H2] H3 _ _] Hl. split; cbn [at_root set_dir dir_depth dir_stack name_stack].
  - by unfold MAX_DEPTH.
  - rewrite zlen_insert. split; [|done]. by rewrite zlen_arr_set.
  - by apply Forall_insert.
  - done.
  - pose proof (slots_nonneg (at_root l (dk_folder d))). change (-1 ≤ -1 < base_slot (at_root l (dk_folder d)) + nentries (at_root l (dk_folder d))). lia.
  - apply set_dir_path.
Qed.

(** The desktop [desktop_start] builds. *)
Definition fresh_desk (l : list fs_dirent) (m : metrics) (d : desktop) : desktop :=
  windows_init (with_metrics m (with_grab (-1) (grab_dx d) (grab_dy d)
    (with_start false (start_hover d) (with_folder (at_root l (dk_folder d)) d)))).

Lemma windows_init_wf d :
  win_wf (win d WIN_INFO) → folder_wf (dk_folder d) → -1 ≤ dragging d < MAX_WIN → -1 ≤ start_hover d ≤ 2 → zlen (edit_name d) < 13 →
  0 < mnu_ih (dk_metrics d) → desktop_wf (windows_init d).
Proof.
  intros Hi Hf Hd Hh He Hm. split; [reflexivity| |by left|exact Hf|exact Hd|exact Hh|exact He|exact Hm].
  unfold windows_init, with_windows. cbn [wins].
  constructor; [|constructor; [by apply close_win_wf|constructor]]. split; cbn [win_body win_title nbody].
  - reflexivity.
  - split; [|reflexivity]. apply (bool_decide_unpack _). vm_compute. exact I.
  - unfold BODY_MAX. lia.
Qed.

Lemma start_ok s (Q : ses → option (Z * Z * locals) → Prop) :
  roomy (ss_heap s) → statics_ok (ss_desk s) →
  (∀ s' r, match r with
     | Some (cw, ch, l) => at_rest s' l ∧ cw = CUR_COLS * 2 ∧ ch = CUR_ROWS * 2
     | None => True
     end → Q s' r) →
  iwp desktop_start Q s.
Proof.
  intros Hr Hst HQ. apply iwp_bind, enter_ok; [exact Hr|]. intros w v h g r Hh Hok. destruct (Z.eqb_spec r 0) as [->|Hne]; cbn [negb].
  2: { apply iwp_bind, iwp_tell, iwp_ret. by apply HQ. }
  destruct (Hok eq_refl) as [Hd Hg]. clear Hok. set (d := ss_desk s) in *. clearbody d. clear Hr s.
  apply iwp_bind, iwp_put. apply iwp_bind, iwp_put. apply iwp_bind, reload_spec. intros l s1 Hl [w1 ->].
  apply iwp_bind, iwp_put. apply iwp_bind, iwp_bind, iwp_put, iwp_put. apply iwp_bind, iwp_put. apply iwp_bind, iwp_put.
  cbn [ss_heap ss_video ss_gfx ss_desk with_gfx with_desk set_hw session_hw ss_world].
  pose proof (palette_display v g) as (E1 & E2 & E3). pose proof (wide_layout g (dk_metrics d) Hg) as Hl1.
  match goal with |- context [Session ?w _ _ ?g' ?d'] => set (s2 := Session w h v g' d') end.
  set (m := layout_taskbar (layout_icons (set_size (gw g) (gh g) (dk_metrics d)))) in *.
  assert (ss_desk s2 = fresh_desk l m d) as Ed by done. assert (ss_gfx s2 = load_palette v g) as Eg by done.
  assert (desk_ok s2) as Hs2.
  { split.
    - destruct Hd as [H1 H2 H3 H4]. cbn [ss_heap ss_gfx ss_video] in *. split; [done| | |].
      + by rewrite Eg, E1.
      + rewrite Eg. destruct H3 as [D1 D2 D3]. split; by rewrite ?E1, ?E2, ?E3.
      + by rewrite Eg, E2, E3.
    - rewrite Eg, Ed. change (dk_metrics (fresh_desk l m d)) with m. destruct Hl1 as [L1 L2 L3 L4]. split; by rewrite ?E2, ?E3.
    - rewrite Ed. destruct Hst as [S1 S2 S3 S4 S5]. apply windows_init_wf; try done. by apply at_root_wf.
    - rewrite Ed. apply windows_init_fit. change (big m = true). apply (wd_size _ _ Hl1). }
  clearbody s2. apply iwp_bind, iwp_desk. cbv zeta.
  apply iwp_bind, iwp_ask. intros w2 x _. apply iwp_bind, iwp_ask. intros w3 y _. apply iwp_bind, iwp_ask. intros w4 q _. apply iwp_bind, iwp_ask. intros w5 now _.
  set (s3 := set_hw w5 _). assert (desk_ok s3 ∧ ss_desk s3 = ss_desk s2) as [Hs3 Ed3] by (split; [by apply (desk_ok_same s2); try done; apply Hs2|done]).
  clearbody s3. rewrite <- Ed3. pose proof (wd_size _ _ (dk_wide _ Hs3)) as (_ & _ & _ & Esc). rewrite Esc.
  apply iwp_bind, render_back; [apply Hs3|]. intros s4 t _ K4 Hb4. pose proof (redrawn_display _ _ K4 (dk_disp _ Hs3)) as Hd4.
  apply iwp_bind. eapply present_full; [done|exact Hb4|]. intros s5 K5 Hi5. pose proof (redrawn_display _ _ K5 Hd4) as Hd5.
  assert (redrawn s3 s5) as K by (by eapply redrawn_trans). destruct (redrawn_scene _ _ K) as (Es5 & Ed5 & On5).
  apply iwp_bind. eapply cursor_ok; [done|rewrite Ed5, Esc; done|exact Hi5|]. intros s6 K6 Hi6.
  assert (redrawn s3 s6) as K' by (by eapply redrawn_trans). pose proof (redrawn_display _ _ K6 Hd5) as Hd6. clear K K4 K5 K6.
  destruct (redrawn_scene _ _ K') as (Es6 & Ed6 & On6).
  apply iwp_bind, iwp_tell, iwp_ret, HQ. split; [|done].
  assert (scene_shown s6 (ss_desk s6) x y) as Hsh.
  { exists t. eexists. split; [change (scene_px (ss_video s6) (ss_desk s6)) with (scene_of s6); rewrite Es6; exact Hi6|].
    intros px py _. exists t. change (scene_px (ss_video s6) (ss_desk s6)) with (scene_of s6). by rewrite Ed6, Es6, Ed5. }
  assert (start_open (ss_desk s3) = false ∧ dragging (ss_desk s3) = -1) as [Eo Edr] by (by rewrite Ed3, Ed).
  destruct K' as (w6 & g6 & -> & Hg6). cbn [ss_desk ss_gfx set_hw session_hw] in *.
  split; cbn [ss_desk mx my cx cy]; [|by rewrite Edr|by rewrite Eo|done|by apply (scene_shown_same (Session w6 (ss_heap s3) (ss_video s3) g6 (ss_desk s3)) _ (ss_desk s3))].
  destruct Hg6 as (_ & G1 & G2 & _). split; [by destruct Hd6| |apply Hs3|apply Hs3]. cbn [ss_gfx ss_desk].
  destruct (dk_wide _ Hs3) as [V1 V2 V3 V4]. split; by rewrite ?G1, ?G2.
Qed.

Lemma loop_ok n fuel cw ch s l (Q : ses → next → Prop) :
  patient fuel → at_rest s l → cw = CUR_COLS * 2 → ch = CUR_ROWS * 2 →
  (∀ s' r, match r with Continue l' => at_rest s' l' | _ => True end → Q s' r) →
  iwp (event_loop n fuel cw ch l) Q s.
Proof.
  intros Hp Hr Ecw Ech HQ. revert s l Hr. induction n as [|n IH]; intros s l Hr; [by apply iwp_ret, HQ|].
  cbn [event_loop]. apply iwp_bind, iteration_ok; [done..|]. intros s' r Hr'.
  destruct r as [l'| | |]; [by apply IH, Hr'|by apply iwp_ret, HQ..].
Qed.
End Session.

(** The pixel [(px, py)] of the screen has the bytes of the colour that drawing the
    desktop from scratch gives it, the clock reading [t] and the cursor, at
    [(x, y)], on top. *)
Definition pixel_drawn {W B} (s : session W B) (x y : Z) (t : rtc_time) (px py : Z) : Prop :=
  let v := ss_video s in let g := ss_gfx s in let d := ss_desk s in
  ∀ j, 0 ≤ j < bpp_bytes v →
    ld (g_mem g) (fb_at v px py + j) =
    arr_get (pixel_bytes v (lut g) (default (scene_px v d t px py) (cursor_colour (dk_metrics d) x y px py))) j.

(** C6: the screen shows the desktop. From its start, through any number of
    iterations of the event loop, whatever the mouse, the keyboard, the clock and
    the file system do, [desktop_run]'s code comes back; and as long as no path has
    overrun its buffer, whenever the loop goes on every pixel on the screen has the
    bytes that drawing the current scene from scratch would give it, with the
    cursor over it where the mouse is. So the partial redraws (the rectangle a
    window leaves and enters, the taskbar, the menu, the cursor's box) lose
    nothing. The clock's digits may be those of some earlier time; but after an
    iteration that sees the clock change and ends with no window held, the whole
    taskbar shows the reading taken for it, the one after that which the loop notes
    in [last_clock]. All of this on a display at least 640 pixels wide, which
    [Display] promises: on the 320 by 200 mode a drag leaves parts of a window
    behind. *)
Theorem desktop_screen {W B} `{Seat W} `{HeapAllocator B} `{!Display W B} `{Ports W} n fuel (s : session W B) :
  patient (W := W) (B := B) fuel → roomy (ss_heap s) → statics_ok (ss_desk s) →
  iwp desktop_start (λ s1 r,
    match r with
    | None => True
    | Some (cw, ch, l) =>
        iwp (event_loop n fuel cw ch l) (λ s2 r2, ∀ l', r2 = Continue l' → overran (dk_folder (ss_desk s2)) = false →
          desktop_wf (ss_desk s2) ∧
          (∀ px py, 0 ≤ px < gw (ss_gfx s2) → 0 ≤ py < gh (ss_gfx s2) → ∃ t, pixel_drawn s2 (mx l') (my l') t px py) ∧
          iwp (iteration fuel cw ch l') (λ s3 r3, ∀ l'', r3 = Continue l'' → overran (dk_folder (ss_desk s3)) = false →
            last_clock l'' ≠ last_clock l' → dragging (ss_desk s3) < 0 →
            ∃ w, last_clock l'' = (st_rtc_read w).2 ∧
              ∀ px py, 0 ≤ px < gw (ss_gfx s3) → gh (ss_gfx s3) - TB_H ≤ py < gh (ss_gfx s3) → 0 ≤ py →
                pixel_drawn s3 (mx l'') (my l'') (st_rtc_read (st_rtc_read w).1).2 px py) s2) s1
    end) s.
Proof.
  intros Hp Hr Hst. apply start_ok; [done|done|]. intros s1 r Hs1. destruct r as [[[cw ch] l]|]; [|done]. destruct Hs1 as (Hr1 & -> & ->).
  apply loop_ok; [done|done|done|done|]. intros s2 r2 Hr2 l' -> _. pose proof Hr2 as [Hs2 _ _ _ (tb & scr & [_ Hscr] & Hsh)].
  split; [apply Hs2|]. split.
  - intros px py Hx Hy. destruct (Hsh px py (conj Hx Hy)) as [t E]. exists t. unfold pixel_drawn. cbv zeta. intros j Hj. rewrite <- shown_bytes. rewrite <- E.
    by apply (Hscr px py j (conj Hx Hy)).
  - apply iteration_ok; [done..|]. intros s3 r3 Hr3 l'' -> _ Hne Hnd. destruct Hr3 as [_ Ht].
    destruct (Ht Hne Hnd) as (w & Ew & b & scr3 & [_ Hscr3] & Hbar). exists w. split; [exact Ew|].
    intros px py Hx [Hlo Hhi] Hy. unfold pixel_drawn. cbv zeta. intros j Hj. rewrite <- shown_bytes. specialize (Hbar px py (conj Hx (conj Hy Hhi)) Hlo). unfold repaint, scene_of in Hbar.
    rewrite (Hscr3 px py j (conj Hx (conj Hy Hhi)) Hj). by rewrite Hbar.
Qed.

Lemma drag_wf px py left d : desktop_wf d → desktop_wf (drag px py left d).1.
Proof.
  intros Hd. unfold drag. destruct (Z.leb_spec 0 (dragging d)) as [H0|]; [|done]. destruct left; [|done]. cbn [andb].
  destruct (drag_to _ _ _ _ _ _) as [nx ny]. destruct (_ || _); [|done]. pose proof (dw_drag _ Hd).
  apply set_win_wf, move_win_wf, win_in; [done..|lia].
Qed.

Lemma hover_wf px py d : desktop_wf d → desktop_wf (hover px py d).1.
Proof.
  intros Hd. unfold hover. destruct (start_open d); [|done]. destruct (negb _); [|done].
  pose proof (menu_item_range d px py (dw_menu _ Hd)). destruct Hd. by split.
Qed.

(** From the desktop [d] to [d']: as long as no path has been written past the end
    of [cur_path], and none is up to [SHALLOW] directories deep, [d'] is typed. *)
Definition typed_step (d d' : desktop) : Prop :=
  (overran (dk_folder d') = false → desktop_wf d') ∧ path_kept (dk_folder d) (dk_folder d').

(** C40: the desktop's state keeps its type, on a screen of any size: through
    presses anywhere, drags, hovering and directory changes every index stays
    inside its array (the selected icon, the window dragged, the menu's item, the
    depth of the directory stack), the z-order stays a permutation of the windows,
    and every string fits its buffer. The path's buffer is too small for the
    deepest directories, so all of this is claimed of a state whose flag [overran]
    is clear, as it stays in directories up to six below the root, however long
    their names. *)
Theorem desktop_typed {W B} `{Seat W} (s : session W B) px py left ei :
  desktop_wf (ss_desk s) →
  iwp (handle_press px py) (λ s' _, typed_step (ss_desk s) (ss_desk s')) s ∧
  iwp (enter_dir ei) (λ s' _, typed_step (ss_desk s) (ss_desk s')) s ∧
  iwp go_up (λ s' _, typed_step (ss_desk s) (ss_desk s')) s ∧
  iwp reload_dir (λ s' _, typed_step (ss_desk s) (ss_desk s')) s ∧
  desktop_wf (drag px py left (ss_desk s)).1 ∧ desktop_wf (hover px py (ss_desk s)).1.
Proof.
  intros Hd. pose proof (dw_folder _ Hd) as Hf.
  assert (∀ d' s', refoldered (ss_desk s) d' → moved_on s d' s' → typed_step (ss_desk s) (ss_desk s')) as Hr.
  { intros d' s' Hr [w ->]. split; [intros _; by apply (refoldered_ok (ss_desk s))|]. by destruct Hr as (f & _ & Hk & ->). }
  split_and!.
  - eapply iwp_mono; [by apply handle_press_ok|]. intros s' a (d' & [w ->] & Hk). split; [intros _|]; apply Hk.
  - apply enter_dir_ok; [done|]. intros d' s' H1 H2. by eapply Hr.
  - apply go_up_ok; [done|]. intros d' s' H1 H2. by eapply Hr.
  - apply reload_ok; [done|]. intros d' s' H1 H2. by eapply Hr.
  - by apply drag_wf.
  - by apply hover_wf.
Qed.

(** ** Windows under the pointer *)

Lemma window_covers v w a px py : inside (win_x w, win_y w, win_w w, win_h w) px py = true → is_Some (colours v (draw_window w a) px py).
Proof.
  intros Hin. unfold draw_window. cbn [app]. rewrite colours_cons. unfold over. rewrite colours_cons. unfold over.
  destruct (colours v (Rect _ _ _ _ _ :: _) px py); [done|]. cbn [colour]. unfold inside in Hin. by rewrite Hin.
Qed.

Lemma top_window v g d t px py :
  let i := arr_get (zorder d) 1 in
  wide g (dk_metrics d) → start_open d = false → py < gh g - TB_H → win_open (win d i) = true →
  inside (win_x (win d i), win_y (win d i), win_w (win d i), win_h (win d i)) px py = true →
  colours v (scene d t) px py = colours v (draw_window (win d i) true) px py.
Proof.
  intros i Hw Hs Hy Ho Hin. unfold scene. rewrite !colours_app. unfold over. rewrite !colours_app. unfold over. rewrite !colours_app. unfold over.
  rewrite !colours_app. unfold over. rewrite (taskbar_rows v g d) by done. unfold draw_start_menu. rewrite Hs. cbn [negb].
  change (colours v [] px py) with (@None Z). unfold draw_windows. change (seqZ 0 MAX_WIN) with [0; 1]. cbn [map mjoin list_join].
  rewrite !colours_app. unfold over. fold i. rewrite Ho. change (1 =? MAX_WIN - 1) with true.
  change (colours v [] px py) with (@None Z). destruct (window_covers v (win d i) true px py Hin) as [c Ec].
  by rewrite app_nil_r, Ec.
Qed.

Definition follow (lo hi n : Z) : Z := Z.min hi (Z.max lo n).

Lemma follow_code lo hi n : (let n1 := if n <? lo then lo else n in if hi <? n1 then hi else n1) = follow lo hi n.
Proof. unfold follow. cbv zeta. destruct (Z.ltb_spec n lo); destruct (Z.ltb_spec hi lo); destruct (Z.ltb_spec hi n); lia. Qed.

Lemma drag_to_follows m w qx qy px py :
  drag_to m w qx qy (px - win_x w) (py - win_y w) =
  (follow (- (win_w w - 48)) (scr_w m - 48) (win_x w + (qx - px)), follow 0 (scr_h m - TB_H - TITLE_H) (win_y w + (qy - py))).
Proof.
  unfold drag_to. cbv zeta. rewrite <- !follow_code. cbv zeta.
  replace (win_x w + (qx - px)) with (qx - (px - win_x w)) by lia. by replace (win_y w + (qy - py)) with (qy - (py - win_y w)) by lia.
Qed.

Lemma dragged qx qy d i px py :
  desktop_wf d → 0 ≤ i < MAX_WIN → dragging d = i → grab_dx d = px - win_x (win d i) → grab_dy d = py - win_y (win d i) →
  let w' := win (drag qx qy true d).1 i in
  win_x w' = follow (- (win_w (win d i) - 48)) (scr_w (dk_metrics d) - 48) (win_x (win d i) + (qx - px)) ∧
  win_y w' = follow 0 (scr_h (dk_metrics d) - TB_H - TITLE_H) (win_y (win d i) + (qy - py)).
Proof.
  intros Hd Hi E Ex Ey. unfold drag. rewrite E, Ex, Ey, (proj2 (Z.leb_le 0 i)) by lia. cbn [andb].
  pose proof (drag_to_follows (dk_metrics d) (win d i) qx qy px py) as Hf. rewrite Hf.
  destruct (_ || _) eqn:Em; cbn [fst].
  - rewrite win_set_win by (try done; apply Hd). by rewrite Z.eqb_refl.
  - rewrite orb_false_iff, !negb_false_iff, !Z.eqb_eq in Em. by destruct Em.
Qed.

(** Windows go with the pointer. A press on a window, above the taskbar and
    with the menu closed, brings it to the front of the stack, where every pixel
    of its frame shows its own drawing whatever lies below; on the close box it
    closes the window; on the title bar it takes hold of it, and while the button
    is down the window follows every motion of the mouse exactly, but for keeping
    48 pixels of its title bar on the screen and off the taskbar. Other windows
    stay where they are. *)
Theorem windows_follow {W B} `{Seat W} (s : session W B) px py i :
  let d := ss_desk s in
  desktop_wf d → wide (ss_gfx s) (dk_metrics d) → start_open d = false →
  in_rect px py (sb_x (dk_metrics d)) (sb_y (dk_metrics d)) (sb_w (dk_metrics d)) (sb_h (dk_metrics d)) = false →
  window_at d px py = Some i →
  iwp (handle_press px py) (λ s' a,
    let d' := ss_desk s' in let w := win d i in
    a = ACT_SCENE ∧ arr_get (zorder d') 1 = i ∧ (∀ j, 0 ≤ j < MAX_WIN → j ≠ i → win d' j = win d j) ∧
    if in_rect px py (close_box_x w) (win_y w + 2) (TITLE_H - 3) (TITLE_H - 3) then win_open (win d' i) = false
    else
      (∀ v t qx qy, qy < gh (ss_gfx s) - TB_H → in_rect qx qy (win_x w) (win_y w) (win_w w) (win_h w) = true →
        scene_px v d' t qx qy = default 0 (colours v (draw_window w true) qx qy)) ∧
      (in_rect px py (win_x w) (win_y w) (win_w w) (TITLE_H + 1) = true → ∀ qx qy,
        let w' := win (drag qx qy true d').1 i in
        win_x w' = follow (- (win_w w - 48)) (gw (ss_gfx s) - 48) (win_x w + (qx - px)) ∧
        win_y w' = follow 0 (gh (ss_gfx s) - TB_H - TITLE_H) (win_y w + (qy - py)))) s.
Proof.
  intros d Hd Hw Ho Hsb Hat. apply iwp_bind, iwp_desk. cbv beta zeta. fold d. rewrite Ho, Hsb, Hat. apply iwp_bind, iwp_put, iwp_ret.
  destruct (window_at_some d px py i (dw_order _ Hd) Hat) as (Hi & Hop & _). cbn [with_desk ss_desk]. fold d.
  destruct (raise_order (zorder d) i (dw_order _ Hd) Hi) as [_ Hz]. pose proof (raise_wf i d Hd Hi) as Hr.
  destruct (wd_size _ _ Hw) as (W1 & W2 & _). unfold press_window. set (w := win d i).
  destruct (in_rect px py (close_box_x w) _ _ _).
  - split; [done|]. split; [exact Hz|]. split.
    + intros j Hj Hne. rewrite win_set_win by (try done; apply Hr). rewrite (proj2 (Z.eqb_neq j i)) by done. done.
    + rewrite win_set_win by (try done; apply Hr). by rewrite Z.eqb_refl.
  - assert (∀ b dx dy, let d' := if b : bool then with_grab i dx dy (raise_window i d) else raise_window i d in
      arr_get (zorder d') 1 = i ∧ wins d' = wins d ∧ dk_metrics d' = dk_metrics d ∧ start_open d' = false ∧ desktop_wf d') as Hg.
    { intros b dx dy. destruct b; cbv zeta; split_and!; try done. destruct Hr. split; try done. unfold MAX_WIN in *. cbn [with_grab dragging]. lia. }
    specialize (Hg (in_rect px py (win_x w) (win_y w) (win_w w) (TITLE_H + 1)) (px - win_x w) (py - win_y w)). cbv zeta in Hg.
    set (d' := if in_rect px py (win_x w) _ _ _ then _ else _) in *. destruct Hg as (G1 & G2 & G3 & G4 & G5).
    assert (∀ j, win d' j = win d j) as Ew by (intros j; unfold win; by rewrite G2).
    split; [done|]. split; [exact G1|]. split; [intros j _ _; apply Ew|]. split.
    + intros v t qx qy Hy Hin. unfold scene_px. rewrite (top_window v (ss_gfx s) d' t); rewrite ?G1, ?Ew; try done. by rewrite G3.
    + intros Et qx qy. pose proof (dragged qx qy d' i px py G5 Hi) as Hdr. rewrite !Ew, G3, W1, W2 in Hdr. unfold d' in Hdr. rewrite Et in Hdr.
      unfold d'. rewrite Et. by apply Hdr.
Qed.

(** ** A concrete seat

    A mouse that jumps along a list of positions, a keyboard nobody touches, one
    file in every directory, a 640 by 480 display at 0xE0000000 and a heap that
    hands out consecutive addresses: for the witnesses. *)

Record arena := Arena { ar_next : Z; ar_live : list (Z * Z) }.
Definition AR_BASE : Z := 0xC0000100.
Definition AR_END : Z := 0xD0000000.

Inductive packed : Z → list (Z * Z) → Z → Prop :=
| packed_nil a b : a ≤ b → packed a [] b
| packed_cons a p n l b : a ≤ p → p mod 8 = 0 → 0 ≤ n → packed (p + n + 1) l b → packed a ((p, n) :: l) b.

Lemma packed_le a l b : packed a l b → a ≤ b.
Proof. induction 1; lia. Qed.
Lemma packed_in a l b p n : packed a l b → (p, n) ∈ l → a ≤ p ∧ p mod 8 = 0 ∧ 0 ≤ n ∧ p + n < b.
Proof.
  induction 1 as [|a q k l b Ha Hm Hk Hp IH]; intros Hin; [by apply elem_of_nil in Hin|].
  apply packed_le in Hp as Hle. apply elem_of_cons in Hin as [[= <- <-]|Hin]; [lia|]. specialize (IH Hin). lia.
Qed.
Lemma packed_snoc a l b p n c : packed a l b → b ≤ p → p mod 8 = 0 → 0 ≤ n → p + n < c → packed a (l ++ [(p, n)]) c.
Proof.
  induction 1; intros; cbn [app]; constructor; try done; try lia; [constructor; lia|auto].
Qed.
Lemma packed_weaken a a' l b : a' ≤ a → packed a l b → packed a' l b.
Proof. intros Ha Hp. revert a' Ha. induction Hp; intros; constructor; try done; lia. Qed.
Lemma packed_remove a l b p : packed a l b → packed a (filter (λ y, y.1 ≠ p) l) b.
Proof.
  induction 1 as [|a q k l b Ha Hm Hk Hp IH]; [by constructor|]. rewrite filter_cons. case_decide; [by constructor|].
  apply (packed_weaken (q + k + 1)); [lia|done].
Qed.
Lemma packed_remove_perm a l b p n : packed a l b → (p, n) ∈ l → (p, n) :: filter (λ y, y.1 ≠ p) l ≡ₚ l.
Proof.
  induction 1 as [|a q k l b Ha Hm Hk Hp IH]; intros Hin; [by apply elem_of_nil in Hin|]. rewrite filter_cons. cbn [fst].
  apply elem_of_cons in Hin as [[= -> ->]|Hin].
  - rewrite decide_False by (intros Hn; by apply Hn). f_equiv. clear IH. induction l as [|[r m] l IH]; [done|]. inversion Hp; subst. rewrite filter_cons. cbn [fst].
    rewrite decide_True by lia. f_equiv. apply IH. apply (packed_weaken (r + m + 1)); [lia|done].
  - rewrite decide_True by (pose proof (packed_in _ _ _ _ _ Hp Hin); lia).
    rewrite (Permutation_swap (q, k) (p, n)). f_equiv. by apply IH.
Qed.
Lemma packed_sorted a l b i j p n q k :
  packed a l b → l !! i = Some (p, n) → l !! j = Some (q, k) → (i < j)%nat → p + n < q.
Proof.
  intros Hp. revert i j. induction Hp as [|a r m l b Ha Hm Hk Hp IH]; intros i j Hi Hj Hij; [done|].
  destruct j as [|j]; [lia|]. destruct i as [|i].
  - injection Hi as -> ->. change (l !! j = Some (q, k)) in Hj. apply list_elem_of_lookup_2 in Hj. pose proof (packed_in _ _ _ _ _ Hp Hj). lia.
  - apply (IH i j); [done..|lia].
Qed.

Definition arena_alloc (n : Z) (a : arena) : arena * Z :=
  if (0 <=? n) && (n <? AR_END - ar_next a - 16)
  then (Arena (ar_next a + (n + 8) / 8 * 8) (ar_live a ++ [(ar_next a, n)]), ar_next a) else (a, 0).
Definition arena_ok (a : arena) : Prop :=
  packed AR_BASE (ar_live a) (ar_next a) ∧ ar_next a mod 8 = 0 ∧ AR_BASE ≤ ar_next a < AR_END.

Lemma arena_alloc_ok n a : arena_ok a → arena_ok (arena_alloc n a).1.
Proof.
  intros (Hp & Hm & Hb). unfold arena_alloc. destruct (_ && _) eqn:E; [|done]. unfold arena_ok, AR_BASE, AR_END in *. apply andb_true_iff in E as [E1%Z.leb_le E2%Z.ltb_lt].
  assert (ar_next a + n < ar_next a + (n + 8) / 8 * 8 ≤ ar_next a + n + 8) as Hn by (pose proof (Z_div_mod_eq_full (n + 8) 8); pose proof (Z.mod_pos_bound (n + 8) 8); lia).
  split_and!; cbn [fst ar_live ar_next]; [|rewrite Z.add_mod, Z_mod_mult, Hm by done; done|lia..].
  eapply packed_snoc; [done|lia..].
Qed.

#[export] Program Instance arena_heap : HeapAllocator arena := {|
  hp_alloc := arena_alloc;
  hp_free p a := Arena (ar_next a) (filter (λ y, y.1 ≠ p) (ar_live a));
  hp_inv := arena_ok;
  hp_live := ar_live
|}.
Next Obligation.
  intros a a' n p Ha Hn E. pose proof (arena_alloc_ok n a Ha) as Hok. rewrite E in Hok. split; [done|].
  unfold arena_alloc in E. destruct (_ && _); injection E as <- <-; [right|by left]. unfold arena_ok, AR_BASE in Ha. split; [lia|].
  exists n. split; [done|]. apply Permutation_app_comm.
Qed.
Next Obligation.
  intros a p n (Hp & Hm & Hb) Hin. split; [|by eapply packed_remove_perm]. split; [by apply packed_remove|done].
Qed.
Next Obligation. intros a p n (Hp & Hm & Hb) Hin. pose proof (packed_in _ _ _ _ _ Hp Hin). unfold AR_BASE, AR_END in *. lia. Qed.
Next Obligation. intros a i j p n q k (Hp & _) Hi Hj Hij. by eapply packed_sorted. Qed.

Record seat := MkSeat { mice : list (Z * Z * Z); seat_files : list fs_dirent }.
Definition mouse_now (w : seat) : Z * Z * Z := match mice w with p :: _ => p | [] => (0, 0, 0) end.

#[export] Program Instance demo_seat : Seat seat := {|
  st_haschar w := (w, false);
  st_getchar w := Some (w, 0);
  st_mouse_seq w := (w, zlen (mice w));
  st_mouse_x w := (w, (mouse_now w).1.1);
  st_mouse_y w := (w, (mouse_now w).1.2);
  st_mouse_buttons w := (w, (mouse_now w).2);
  st_mouse_set_bounds _ _ w := w;
  st_rtc_read w := (w, RtcTime 24 1 1 12 30 0);
  st_readdir _ n w := (w, take (Z.to_nat n) (seat_files w));
  st_cwd w := (w, [chr "/"]);
  st_cd _ w := (w, 0);
  st_editor_run _ w := w;
  st_enter_graphics w := (w, Video 640 480 32 2560 0xE0000000 []);
  st_leave_graphics w := w;
  st_ac97_play _ _ w := w;
  st_poweroff w := w;
  st_wait w := MkSeat (tail (mice w)) (seat_files w)
|}.
Next Obligation. done. Qed.
Next Obligation. intros c n w Hn. cbn [snd]. unfold zlen. rewrite length_take. lia. Qed.

#[export] Instance demo_ports : Ports seat := {| p_out _ _ _ w := w; p_in _ _ w := (w, 0); p_hlt w := (w, []) |}.

#[export] Program Instance demo_display : Display seat arena := {| roomy := arena_ok |}.
Next Obligation. done. Qed.
Next Obligation. intros n h Hh. by apply arena_alloc_ok. Qed.
Next Obligation. intros p n h Hh Hin. by destruct (@hp_free_ok arena arena_heap h p n Hh Hin). Qed.
Next Obligation. by intros w w' v [= <- <-]. Qed.
Next Obligation.
  intros w w' v h p n [= <- <-] (Hp & _ & Hb) Hin. pose proof (packed_in _ _ _ _ _ Hp Hin). cbn [vga_framebuffer]. unfold AR_END in Hb. lia.
Qed.

Definition demo_metrics : metrics := layout_taskbar (layout_icons (set_size 640 480 (Metrics 0 0 false 0 0 0 0 0 0 0 0 0 0 0 0 0 0 0 0))).
Definition demo_folder : folder :=
  Folder [Dirent (str "A.TXT") false 3 5] (-1) (replicate 12 0) (replicate 12 []) 1 [47] false.
Definition demo_desktop : desktop :=
  windows_init (Desktop demo_metrics demo_folder
    (replicate 2 (Window 0 0 0 0 false [] (replicate 5 []) 0)) [0; 1] false (-1) [] (-1) 0 0).
Definition demo_session : session seat arena :=
  Session (MkSeat [(200, 50, 1); (300, 90, 1)] [Dirent (str "A.TXT") false 3 5]) (Arena AR_BASE []) (Video 640 480 32 2560 0xE0000000 [])
    (Gfx 0 640 480 (replicate 256 0) ∅ []) demo_desktop.

Lemma demo_desktop_wf : desktop_wf demo_desktop.
Proof.
  split; [done| |by left| |done..].
  - apply Forall_cons. split; [|apply Forall_cons; split; [|by apply Forall_nil]]; split; try done; split; try done; vm_compute; by repeat constructor.
  - split; try done. vm_compute; by repeat constructor.
Qed.

Lemma demo_patient : patient (W := seat) (B := arena) 1.
Proof. intros s. by eexists. Qed.

Lemma desktop_screen_witness : roomy (ss_heap demo_session) ∧ statics_ok (ss_desk demo_session) ∧
  iwp desktop_start (λ s1 r,
    match r with
    | Some (cw, ch, l) => iwp (event_loop 2 1 cw ch l) (λ s2 r2, ∀ l', r2 = Continue l' → overran (dk_folder (ss_desk s2)) = false →
        desktop_wf (ss_desk s2) ∧
        ∀ px py, 0 ≤ px < gw (ss_gfx s2) → 0 ≤ py < gh (ss_gfx s2) → ∃ t, pixel_drawn s2 (mx l') (my l') t px py) s1
    | None => True
    end) demo_session.
Proof.
  assert (roomy (ss_heap demo_session)) as Hr by (split; [by constructor|by vm_compute]).
  assert (statics_ok (ss_desk demo_session)) as Hs.
  { split; [exact (Forall_inv (Forall_inv_tail (dw_win _ demo_desktop_wf)))|done|vm_compute; by repeat constructor|done|done]. }
  split; [exact Hr|]. split; [exact Hs|].
  eapply iwp_mono; [exact (desktop_screen 2 1 demo_session demo_patient Hr Hs)|].
  intros s1 [[[cw ch] l]|] H1; [|exact I]. eapply iwp_mono; [exact H1|]. intros s2 r2 H2 l' E Eo. destruct (H2 l' E Eo) as (Hw & Hp & _). exact (conj Hw Hp).
Defined.

Lemma desktop_typed_witness : desktop_wf (ss_desk demo_session) ∧
  iwp (handle_press 200 50) (λ s' _, typed_step (ss_desk demo_session) (ss_desk s')) demo_session.
Proof.
  split; [exact demo_desktop_wf|]. exact (proj1 (desktop_typed demo_session 200 50 true 0 demo_desktop_wf)).
Defined.

(** A press on the welcome window's title bar, and a motion to (300, 90). *)
Lemma windows_follow_witness : window_at demo_desktop 200 50 = Some 0 ∧
  iwp (handle_press 200 50) (λ s' a, win_x (win (drag 300 90 true (ss_desk s')).1 0) = 270) demo_session.
Proof.
  assert (window_at demo_desktop 200 50 = Some 0) as Hat by (vm_compute; reflexivity).
  split; [exact Hat|].
  eapply iwp_mono; [exact (windows_follow demo_session 200 50 0 demo_desktop_wf (wide_layout (ss_gfx demo_session) _ ltac:(cbn; lia)) eq_refl eq_refl Hat)|].
  intros s' a (_ & _ & _ & H). 
  match type of H with if ?b then _ else _ => change b with false in H end. cbv iota in H.
  destruct H as [_ H]. exact (proj1 (H eq_refl 300 90)).
Defined.

(** The path of twelve directories with long names does not fit [cur_path], 80
    bytes: [build_path] checks nothing. *)
Lemma path_overflows : ∃ f, folder_wf f ∧ overran f = false ∧ zlen (build_path f) = 143 ∧ overran (set_dir [] f) = true.
Proof.
  exists (Folder [] (-1) (replicate 12 0) (replicate 12 (str "ABCDEFGH.IJK")) 12 [] false). split; [|by vm_compute].
  split; try done. vm_compute; by repeat constructor.
Qed.
