(* ===== verification/Rtl8139.v ===== *)
(** The RTL8139 driver: drivers/rtl8139.c with cpu/pci.h.  The card is hardware
    and a parameter: its ports, and the memory it shares with the driver, with
    the documented behaviour the driver relies on as the laws of a class. *)
From Stdlib Require Import ZArith Lia Bool.
From stdpp Require Import base numbers gmap option list.
From S2P Require Import Prelude Io.

#[local] Open Scope Z_scope.
#[local] Open Scope c_scope.
#[local] Open Scope io_scope.

(** ** PCI configuration space *)

Definition PCI_CONFIG_ADDR : Z := 0xCF8.
Definition PCI_CONFIG_DATA : Z := 0xCFC.

Section Pci.
Context {S H : Type} `{Ports H} `{!HasHw S H}.

Definition pci_addr (bus dev fn off : Z) : Z :=
  0x80000000 ||| (bus <<< 16) ||| (dev <<< 11) ||| (fn <<< 8) ||| (off &&& 0xFC).
Definition pci_cfg_read32 (bus dev fn off : Z) : IO S Z :=
  outl PCI_CONFIG_ADDR (pci_addr bus dev fn off) ;! inl PCI_CONFIG_DATA.
Definition pci_cfg_write32 (bus dev fn off v : Z) : IO S unit :=
  outl PCI_CONFIG_ADDR (pci_addr bus dev fn off) ;! outl PCI_CONFIG_DATA v.
Definition pci_cfg_read16 (bus dev fn off : Z) : IO S Z :=
  let! v := pci_cfg_read32 bus dev fn off in io_ret (u16 (v >>> ((off &&& 2) * 8))).
End Pci.

(** ** The driver *)

Definition REG_IDR0 : Z := 0x00.
Definition REG_TSD0 : Z := 0x10.
Definition REG_TSAD0 : Z := 0x20.
Definition REG_RBSTART : Z := 0x30.
Definition REG_CMD : Z := 0x37.
Definition REG_CAPR : Z := 0x38.
Definition REG_IMR : Z := 0x3C.
Definition REG_ISR : Z := 0x3E.
Definition REG_TCR : Z := 0x40.
Definition REG_RCR : Z := 0x44.
Definition REG_CONFIG1 : Z := 0x52.
Definition CMD_RST : Z := 0x10.
Definition CMD_RE : Z := 0x08.
Definition CMD_TE : Z := 0x04.
Definition CMD_BUFE : Z := 0x01.
Definition RCR_CONFIG : Z := 0x0E ||| (1 <<< 7) ||| (7 <<< 8) ||| (7 <<< 13).
Definition RX_BUF_SIZE : Z := 8192.

(** The module's statics with the machine; the buffers are memory the card
    shares, at the addresses [phys_of] gives. *)
Record rtl (H : Type) := Rtl {
  rt_hw : H;
  rx_buffer : Z; tx_buffer : Z;
  io_base : Z;
  mac : list Z;
  rtl_present : bool;
  tx_cur : Z;
  rx_offset : Z
}.
Arguments Rtl {H}. Arguments rt_hw {H}. Arguments rx_buffer {H}. Arguments tx_buffer {H}. Arguments io_base {H}.
Arguments mac {H}. Arguments rtl_present {H}. Arguments tx_cur {H}. Arguments rx_offset {H}.

#[export] Instance rtl_hw {H} : HasHw (rtl H) H.
Proof.
  refine {| get_hw := rt_hw;
    set_hw h s := Rtl h (rx_buffer s) (tx_buffer s) (io_base s) (mac s) (rtl_present s) (tx_cur s) (rx_offset s) |}.
  done.
Defined.

Section Driver.
Context {H : Type} `{Ports H} `{Dma H}.
Abbreviation R := (IO (rtl H)).

Definition with_present (b : bool) (s : rtl H) : rtl H :=
  Rtl (rt_hw s) (rx_buffer s) (tx_buffer s) (io_base s) (mac s) b (tx_cur s) (rx_offset s).
Definition with_base (b : Z) (s : rtl H) : rtl H :=
  Rtl (rt_hw s) (rx_buffer s) (tx_buffer s) b (mac s) (rtl_present s) (tx_cur s) (rx_offset s).
Definition with_mac (m : list Z) (s : rtl H) : rtl H :=
  Rtl (rt_hw s) (rx_buffer s) (tx_buffer s) (io_base s) m (rtl_present s) (tx_cur s) (rx_offset s).
Definition with_tx (n : Z) (s : rtl H) : rtl H :=
  Rtl (rt_hw s) (rx_buffer s) (tx_buffer s) (io_base s) (mac s) (rtl_present s) n (rx_offset s).
Definition with_rx (o : Z) (s : rtl H) : rtl H :=
  Rtl (rt_hw s) (rx_buffer s) (tx_buffer s) (io_base s) (mac s) (rtl_present s) (tx_cur s) o.

(** Accesses to the card's registers, to the shared memory. *)
Definition reg_outb (r v : Z) : R unit := λ s, outb (io_base s + r) v s.
Definition reg_outw (r v : Z) : R unit := λ s, outw (io_base s + r) v s.
Definition reg_outl (r v : Z) : R unit := λ s, outl (io_base s + r) v s.
Definition reg_inb (r : Z) : R Z := λ s, inb (io_base s + r) s.
Definition reg_inw (r : Z) : R Z := λ s, inw (io_base s + r) s.
Definition reg_inl (r : Z) : R Z := λ s, inl (io_base s + r) s.
Definition put (a : Z) (l : list Z) : R unit := io_put (λ s, set_hw (dma_put a l (rt_hw s)) s).
Definition rx_bytes (o n : Z) (s : rtl H) : list Z :=
  map (λ i, dma_get (rx_buffer s + o + i) (rt_hw s)) (seqZ 0 n).

Fixpoint find_card (n : nat) (dev : Z) : R (option Z) :=
  match n with
  | O => io_ret None
  | S n =>
      let! id := pci_cfg_read32 0 dev 0 0x00 in
      if (id &&& 0xFFFF) =? 0xFFFF then find_card n (dev + 1)
      else if id =? 0x813910EC then io_ret (Some dev)
      else find_card n (dev + 1)
  end.

(** [for (i = 0; i < n && (inb(cmd) & CMD_RST); i++) io_wait();] *)
Fixpoint reset_wait (n : nat) : R unit :=
  match n with
  | O => io_ret tt
  | S n => let! c := reg_inb REG_CMD in
           if c_true (c &&& CMD_RST) then io_wait ;! reset_wait n else io_ret tt
  end.

Fixpoint read_mac (n : nat) (i : Z) : R (list Z) :=
  match n with
  | O => io_ret []
  | S n => let! b := reg_inb (REG_IDR0 + i) in let! r := read_mac n (i + 1) in io_ret (b :: r)
  end.

Definition rtl8139_init : R unit :=
  io_put (with_present false) ;!
  let! card := find_card 32 0 in
  match card with
  | None => io_ret tt
  | Some dev =>
      let! cmd := pci_cfg_read32 0 dev 0 0x04 in
      pci_cfg_write32 0 dev 0 0x04 (cmd ||| 0x05) ;!
      let! bar := pci_cfg_read32 0 dev 0 0x10 in
      io_put (with_base (u16 (bar &&& 0xFFFC))) ;!
      reg_outb REG_CONFIG1 0x00 ;!
      reg_outb REG_CMD CMD_RST ;!
      reset_wait (Z.to_nat 1000000) ;!
      let! s := io_get in
      reg_outl REG_RBSTART (rx_buffer s) ;!
      reg_outw REG_CAPR 0xFFF0 ;!
      reg_outw REG_ISR 0xFFFF ;!
      reg_outw REG_IMR 0x0000 ;!
      io_for 8 0 (λ i, reg_outb (0x08 + i) 0xFF) ;!
      reg_outl REG_RCR RCR_CONFIG ;!
      reg_outl REG_TCR 0x03000700 ;!
      reg_outb REG_CMD (CMD_RE ||| CMD_TE) ;!
      reg_outl REG_RCR RCR_CONFIG ;!
      reg_outl REG_TCR 0x03000700 ;!
      let! m := read_mac 6 0 in
      io_put (with_mac m) ;!
      io_put (with_rx 0) ;!
      io_put (with_tx 0) ;!
      io_put (with_present true)
  end.

Fixpoint tx_wait (n : nat) (d : Z) : R unit :=
  match n with
  | O => io_ret tt
  | S n =>
      let! st := reg_inl (REG_TSD0 + d * 4) in
      if c_true (st &&& 0x8000) then io_ret tt
      else if c_true (st &&& ((1 <<< 30) ||| (1 <<< 14))) then io_ret tt
      else io_wait ;! tx_wait n d
  end.

Definition rtl8139_send (frame : list Z) : R Z :=
  let len := zlen frame in
  let! s := io_get in
  if negb (rtl_present s) || (len <=? 0) || (1792 <? len) then io_ret (-1)
  else
    let n := tx_cur s in
    let padded := if len <? 60 then 60 else len in
    let a := tx_buffer s + n * 2048 in
    put a frame ;!
    (if len <? padded then put (a + len) (replicate (Z.to_nat (padded - len)) 0) else io_ret tt) ;!
    reg_outl (REG_TSAD0 + n * 4) a ;!
    reg_outl (REG_TSD0 + n * 4) (padded ||| (0x38 <<< 16)) ;!
    tx_wait (Z.to_nat 400000) n ;!
    io_put (with_tx ((n + 1) &&& 3)) ;!
    io_ret 0.

Definition rtl8139_reset_rx : R unit :=
  let! s := io_get in
  if negb (rtl_present s) then io_ret tt
  else
    reg_outb REG_CMD CMD_TE ;!
    io_put (with_rx 0) ;!
    reg_outl REG_RBSTART (rx_buffer s) ;!
    reg_outl REG_RCR RCR_CONFIG ;!
    reg_outw REG_CAPR 0xFFF0 ;!
    reg_outw REG_ISR 0xFFFF ;!
    reg_outb REG_CMD (CMD_RE ||| CMD_TE) ;!
    reg_outl REG_RCR RCR_CONFIG.

(** [(rx_offset + length + 4 + 3) & ~3], then [% RX_BUF_SIZE] *)
Definition next_offset (o length : Z) : Z := ((o + length + 4 + 3) &&& Z.lnot 3) mod RX_BUF_SIZE.

(** The bytes copied to the caller's buffer; their number is the result. *)
Definition rtl8139_poll (maxlen : Z) : R (list Z) :=
  let! s := io_get in
  if negb (rtl_present s) then io_ret []
  else
    let! isr := reg_inw REG_ISR in
    if c_true (isr &&& 0x0050) then rtl8139_reset_rx ;! io_ret []
    else
      let! cmd := reg_inb REG_CMD in
      if c_true (cmd &&& CMD_BUFE) then io_ret []
      else
        let! s := io_get in
        let p i := dma_get (rx_buffer s + rx_offset s + i) (rt_hw s) in
        let status := u16 (p 0 ||| (p 1 <<< 8)) in
        let length := u16 (p 2 ||| (p 3 <<< 8)) in
        let pktlen := if c_true (status &&& 0x01) && (4 <=? length) then
                        (if maxlen <? length - 4 then 0 else length - 4) else 0 in
        let out := rx_bytes (rx_offset s + 4) pktlen s in
        io_put (with_rx (next_offset (rx_offset s) length)) ;!
        reg_outw REG_CAPR (u16 (next_offset (rx_offset s) length - 16)) ;!
        reg_outw REG_ISR 0x0001 ;!
        io_ret out.

Definition rtl8139_mac (s : rtl H) : list Z := mac s.

Definition rtl8139_link_up : R bool :=
  let! s := io_get in
  if rtl_present s then let! v := reg_inb 0x58 in io_ret ((v &&& 0x04) =? 0) else io_ret false.
End Driver.

(** ** What the driver relies on of the card

    Programmed with its registers at [b], its ring at [r] and its transmit
    buffers at [t], a running card has frames on the wire, a queue of received
    frames in the ring, of which the first one starts at an offset, and four
    transmit addresses.  Frames may arrive whenever the driver talks to it. *)
Record card_view := View { cv_wire : list (list Z); cv_queue : list (list Z); cv_at : Z; cv_tsad : list Z }.

Definition in_tx (t a : Z) : Prop := t ≤ a < t + 8192.

(** Nothing has happened but, perhaps, arrivals. *)
Definition arrived (v v' : card_view) : Prop :=
  cv_wire v' = cv_wire v ∧ cv_at v' = cv_at v ∧ cv_tsad v' = cv_tsad v ∧ ∃ more, cv_queue v' = cv_queue v ++ more.

(** Where the card puts the frame after [f] in its ring of 8 KB: [f] has a header of
    four bytes and is followed by its checksum, four more, and the next one starts at
    a multiple of four. *)
Definition ring_next (o : Z) (f : list Z) : Z := ((o + 4 + zlen f + 4 + 3) / 4 * 4) mod 8192.

Lemma next_offset_ring o f : next_offset o (zlen f + 4) = ring_next o f.
Proof.
  unfold next_offset, ring_next, RX_BUF_SIZE. f_equal. rewrite <- Z.ldiff_land.
  change 3 with (Z.ones 2) at 2. rewrite Z.ldiff_ones_r, shiftr_div, shiftl_mul by lia.
  change (2 ^ 2) with 4. do 2 f_equal. lia.
Qed.

Class Card8139 (H : Type) `{Ports H} `{Dma H} (b r t : Z) := {
  cd_ok : H → Prop;
  cd_view : H → card_view;

  (** Reading the interrupt status, the command and the transmit status. *)
  cd_in w p h : cd_ok h → (w, p) ∈ [(2, 0x3E); (1, 0x37); (4, 0x10); (4, 0x10 + 4); (4, 0x10 + 8); (4, 0x10 + 12)] →
    let h' := (p_in w (u16 (b + p)) h).1 in
    cd_ok h' ∧ arrived (cd_view h) (cd_view h') ∧ ∀ a, in_tx t a → dma_get a h' = dma_get a h;
  cd_isr h : cd_ok h → (p_in 2 (u16 (b + 0x3E)) h).2 &&& 0x0050 = 0;
  cd_bufe h : cd_ok h →
    (c_true ((p_in 1 (u16 (b + 0x37)) h).2 &&& 0x01) = true ↔ cv_queue (cd_view h) = []);
  (** Acknowledging, and the delay port. *)
  cd_ack h : cd_ok h → let h' := p_out 2 (u16 (b + 0x3E)) 1 h in cd_ok h' ∧ arrived (cd_view h) (cd_view h');
  cd_wait h : cd_ok h → let h' := p_out 1 0x80 0 h in cd_ok h' ∧ arrived (cd_view h) (cd_view h') ∧
    ∀ a, in_tx t a → dma_get a h' = dma_get a h;
  (** The ring: a header of status (bit 0: received well) and length with the
      four bytes of the checksum, then the frame, without a break. *)
  cd_ring h f q : cd_ok h → cv_queue (cd_view h) = f :: q →
    let o := cv_at (cd_view h) in
    0 ≤ o < 8192 ∧ 0 < zlen f < 2048 ∧
    Z.odd (dma_get (r + o) h) = true ∧ 0 ≤ dma_get (r + o) h < 256 ∧ 0 ≤ dma_get (r + o + 1) h < 256 ∧
    dma_get (r + o + 2) h = (zlen f + 4) mod 256 ∧ dma_get (r + o + 3) h = (zlen f + 4) / 256 ∧
    ∀ i, 0 ≤ i < zlen f → dma_get (r + o + 4 + i) h = arr_get f i;
  (** Moving the read pointer past the first frame frees it. *)
  cd_capr h f q : cd_ok h → cv_queue (cd_view h) = f :: q →
    let o := ring_next (cv_at (cd_view h)) f in
    let h' := p_out 2 (u16 (b + 0x38)) (u16 (o - 16)) h in
    cd_ok h' ∧ cv_wire (cd_view h') = cv_wire (cd_view h) ∧ cv_at (cd_view h') = o ∧
    cv_tsad (cd_view h') = cv_tsad (cd_view h) ∧ ∃ more, cv_queue (cd_view h') = q ++ more;
  (** The transmit buffers are memory; the status register starts a descriptor. *)
  cd_put a l h : cd_ok h → t ≤ a → a + zlen l ≤ t + 8192 →
    cd_ok (dma_put a l h) ∧ arrived (cd_view h) (cd_view (dma_put a l h)) ∧
    ∀ x, in_tx t x → dma_get x (dma_put a l h) = if (a <=? x) && (x <? a + zlen l) then arr_get l (x - a) else dma_get x h;
  cd_tsad n v h : cd_ok h → 0 ≤ n < 4 → in_tx t v →
    let h' := p_out 4 (u16 (b + (0x20 + n * 4))) (u32 v) h in
    cd_ok h' ∧ arrived (View (cv_wire (cd_view h)) (cv_queue (cd_view h)) (cv_at (cd_view h)) (arr_set (cv_tsad (cd_view h)) n v)) (cd_view h') ∧
    ∀ a, in_tx t a → dma_get a h' = dma_get a h;
  cd_tsd n size h : cd_ok h → 0 ≤ n < 4 → 0 < size ≤ 1792 →
    let h' := p_out 4 (u16 (b + (0x10 + n * 4))) (u32 (size ||| (0x38 <<< 16))) h in
    let a := arr_get (cv_tsad (cd_view h)) n in
    cd_ok h' ∧ arrived (View (cv_wire (cd_view h) ++ [map (λ i, dma_get (a + i) h) (seqZ 0 size)]) (cv_queue (cd_view h))
                          (cv_at (cd_view h)) (cv_tsad (cd_view h))) (cd_view h') ∧
    ∀ a, in_tx t a → dma_get a h' = dma_get a h
  ; cd_tsads h : cd_ok h → length (cv_tsad (cd_view h)) = 4%nat
}.

Lemma arrived_refl v : arrived v v.
Proof. split_and!; [done..|]. exists []. by rewrite app_nil_r. Qed.

Lemma arrived_trans v1 v2 v3 : arrived v1 v2 → arrived v2 v3 → arrived v1 v3.
Proof.
  intros (A1 & A2 & A3 & m & A4) (B1 & B2 & B3 & m' & B4). split_and!; [congruence..|].
  exists (m ++ m'). by rewrite B4, A4, app_assoc.
Qed.

Section Laws.
Context {H : Type} `{Ports H} `{Dma H} (b r t : Z) `{!Card8139 H b r t}.
Implicit Types s : rtl H.

Definition view s : card_view := cd_view (rt_hw s).

(** The driver and a running card in step. *)
Record in_step s : Prop := {
  is_present : rtl_present s = true;
  is_base : io_base s = b ∧ rx_buffer s = r ∧ tx_buffer s = t;
  is_ok : cd_ok (rt_hw s);
  is_offset : rx_offset s = cv_at (view s);
  is_tx : 0 ≤ tx_cur s < 4
}.

Lemma in_step_hw s h : in_step s → cd_ok h → arrived (view s) (cd_view h) → in_step (set_hw h s).
Proof.
  intros [P B O F T] Hok (_ & Ha & _). split; [done|done|done| |done]. cbn. unfold view. cbn. by rewrite Ha.
Qed.

(** A read of a register. *)
Lemma reg_in_spec s w p :
  in_step s → (w, p) ∈ [(2, REG_ISR); (1, REG_CMD); (4, REG_TSD0); (4, REG_TSD0 + 4); (4, REG_TSD0 + 8); (4, REG_TSD0 + 12)] →
  ∃ h, in_port w (io_base s + p) s = Some (set_hw h s, (p_in w (u16 (b + p)) (rt_hw s)).2) ∧
  in_step (set_hw h s) ∧ arrived (view s) (cd_view h) ∧ ∀ a, in_tx t a → dma_get a h = dma_get a (rt_hw s).
Proof.
  intros Hs Hp. destruct (cd_in w p (rt_hw s) (is_ok _ Hs) Hp) as (L1 & L2 & L3).
  exists (p_in w (u16 (b + p)) (rt_hw s)).1. split.
  - unfold in_port. rewrite (proj1 (is_base _ Hs)). change (get_hw s) with (rt_hw s). by destruct (p_in _ _ _).
  - split; [by apply in_step_hw|done].
Qed.

Lemma reg_outw_eq s p v :
  io_base s = b → reg_outw p v s = Some (set_hw (p_out 2 (u16 (b + p)) (u16 v) (rt_hw s)) s, tt).
Proof. intros E. unfold reg_outw, outw, out_port, io_put. by rewrite E. Qed.

Lemma map_bytes (g : Z → Z) k f :
  (∀ i, 0 ≤ i < zlen f → g (k + i) = arr_get f i) → map g (seqZ k (zlen f)) = f.
Proof.
  revert k. induction f as [|x f IH]; intros k Hg; [done|].
  assert (zlen (x :: f) = zlen f + 1) as E by (unfold zlen; simpl; lia). assert (0 ≤ zlen f) by (unfold zlen; lia).
  rewrite E, seqZ_cons by lia. replace (Z.pred (zlen f + 1)) with (zlen f) by lia. cbn [map].
  pose proof (Hg 0 ltac:(lia)) as E0. rewrite Z.add_0_r in E0. rewrite E0. f_equal. apply IH. intros i Hi.
  replace (Z.succ k + i) with (k + (i + 1)) by lia. rewrite Hg by lia. unfold arr_get.
  rewrite (proj2 (Z.ltb_ge (i + 1) 0)), (proj2 (Z.ltb_ge i 0)) by lia.
  by replace (Z.to_nat (i + 1)) with (S (Z.to_nat i)) by lia.
Qed.

(** What the driver finds at the head of the ring. *)
Lemma ring_header s f q :
  in_step s → cv_queue (view s) = f :: q →
  let p i := dma_get (rx_buffer s + rx_offset s + i) (rt_hw s) in
  c_true (u16 (p 0 ||| (p 1 <<< 8)) &&& 0x01) = true ∧ u16 (p 2 ||| (p 3 <<< 8)) = zlen f + 4 ∧
  rx_bytes (rx_offset s + 4) (zlen f) s = f ∧ 0 < zlen f.
Proof.
  intros Hs Hq p. destruct (cd_ring (rt_hw s) f q (is_ok _ Hs) Hq) as (Ho & Hl & Hodd & B0 & B1 & B2 & B3 & Hb).
  change (cd_view (rt_hw s)) with (view s) in *. rewrite <- (is_offset _ Hs) in *.
  destruct (is_base _ Hs) as (_ & Er & _).
  assert (p 0 = dma_get (r + rx_offset s) (rt_hw s)) as P0 by (unfold p; by rewrite Er, Z.add_0_r).
  assert (∀ i, p i = dma_get (r + rx_offset s + i) (rt_hw s)) as Pi by (intros i; unfold p; by rewrite Er).
  split_and!.
  - rewrite P0, Pi, lor_bytes by done. rewrite u16_small by lia.
    change 0x01 with (1 <<< 0). rewrite testbit_land_pow2, Z.bit0_odd by done.
    rewrite Z.odd_add, Z.odd_mul. rewrite Hodd. done.
  - rewrite !Pi, B2, B3, lor_bytes by (clear -Hl; zlia). rewrite u16_small by (clear -Hl; zlia). clear -Hl. zlia.
  - unfold rx_bytes. apply (map_bytes _ 0). intros i Hi. rewrite Er. rewrite <- (Hb i Hi). f_equal. lia.
  - lia.
Qed.

(** Taking the frame at the head of the ring. *)
Lemma advance_spec s f q :
  in_step s → cv_queue (view s) = f :: q →
  let o := next_offset (rx_offset s) (zlen f + 4) in
  ∃ s', (reg_outw REG_CAPR (u16 (o - 16)) ;! reg_outw REG_ISR 0x0001) (with_rx o s) = Some (s', tt) ∧
  in_step s' ∧ cv_wire (view s') = cv_wire (view s) ∧ ∃ more, cv_queue (view s') = q ++ more.
Proof.
  intros Hs Hq o. pose proof (is_offset _ Hs) as Eo.
  destruct (cd_capr (rt_hw s) f q (is_ok _ Hs) Hq) as (Ok1 & W1 & A1 & T1 & m1 & Q1).
  change (cd_view (rt_hw s)) with (view s) in *. rewrite <- Eo, <- next_offset_ring in *.
  change 0x38 with REG_CAPR in *. fold o in Ok1, W1, A1, T1, Q1.
  set (h1 := p_out 2 (u16 (b + REG_CAPR)) (u16 (o - 16)) (rt_hw s)) in *.
  destruct (cd_ack h1 Ok1) as (Ok2 & W2 & A2 & T2 & m2 & Q2). set (h2 := p_out 2 (u16 (b + 0x3E)) 1 h1) in *.
  destruct (is_base _ Hs) as (Eb & Er & Et). exists (set_hw h2 (with_rx o s)). split.
  - unfold io_bind. rewrite reg_outw_eq, (u16_small (u16 (o - 16))) by (exact Eb || apply u16_range).
    rewrite reg_outw_eq by exact Eb. done.
  - split; [split|split].
    + exact (is_present _ Hs).
    + done.
    + exact Ok2.
    + change (o = cv_at (cd_view h2)). by rewrite A2, A1.
    + exact (is_tx _ Hs).
    + change (cv_wire (cd_view h2) = cv_wire (view s)). by rewrite W2, W1.
    + exists (m1 ++ m2). change (cv_queue (cd_view h2) = q ++ m1 ++ m2). by rewrite Q2, Q1, app_assoc.
Qed.

Lemma poll_spec maxlen s :
  in_step s →
  ∃ s' out, rtl8139_poll maxlen s = Some (s', out) ∧ in_step s' ∧ cv_wire (view s') = cv_wire (view s) ∧
  (cv_queue (view s) = [] ∧ out = [] ∨
   ∃ f more, cv_queue (view s) ++ more = f :: cv_queue (view s') ∧ out = if maxlen <? zlen f then [] else f).
Proof.
  intros Hs. unfold rtl8139_poll, io_bind at 1, io_get. rewrite (is_present _ Hs). cbn [negb].
  destruct (reg_in_spec s 2 REG_ISR Hs ltac:(left)) as (h1 & E1 & S1 & (W1 & _ & _ & m1 & Q1) & _).
  unfold io_bind at 1, reg_inw, inw. rewrite E1. pose proof (cd_isr (rt_hw s) (is_ok _ Hs)) as Ei. change 0x3E with REG_ISR in Ei. rewrite Ei. change (c_true 0) with false. cbv iota.
  set (s1 := set_hw h1 s) in *. change (cd_view h1) with (view s1) in *.
  destruct (reg_in_spec s1 1 REG_CMD S1 ltac:(right; left)) as (h2 & E2 & S2 & (W2 & _ & _ & m2 & Q2) & _).
  unfold io_bind at 1, reg_inb, inb. rewrite E2. pose proof (cd_bufe (rt_hw s1) (is_ok _ S1)) as Hbufe.
  change 0x37 with REG_CMD in Hbufe. change (_ &&& 0x01) with ((p_in 1 (u16 (b + REG_CMD)) (rt_hw s1)).2 &&& CMD_BUFE) in Hbufe.
  set (s2 := set_hw h2 s1) in *. change (cd_view h2) with (view s2) in *. change (cd_view (rt_hw s1)) with (view s1) in *.
  destruct (c_true (_ &&& CMD_BUFE)).
  { exists s2, []. split; [done|]. split; [done|]. split; [congruence|]. left. split; [|done].
    pose proof (proj1 Hbufe eq_refl) as Ee. rewrite Q1 in Ee. by apply app_eq_nil in Ee as [? _]. }
  destruct (cv_queue (view s1)) as [|f q] eqn:Eq; [discriminate (proj2 Hbufe eq_refl)|]. cbn [app] in Q2.
  unfold io_bind at 1, io_get.
  destruct (ring_header s2 f (q ++ m2) S2 Q2) as (Hst & Hlen & Hf & Hpos). rewrite Hst, Hlen.
  rewrite (proj2 (Z.leb_le 4 (zlen f + 4))) by lia. cbn [andb]. replace (zlen f + 4 - 4) with (zlen f) by lia.
  destruct (advance_spec s2 f (q ++ m2) S2 Q2) as (s3 & E3 & S3 & W3 & m3 & Q3). cbv zeta in E3.
  exists s3, (if maxlen <? zlen f then [] else f). split; [|split; [done|split; [congruence|]]].
  - unfold io_bind at 1, io_put. revert E3. unfold io_bind.
    destruct (reg_outw REG_CAPR _ (with_rx _ s2)) as [[s4 []]|]; [|done]. intros E3. rewrite E3. unfold io_ret.
    f_equal. f_equal. destruct (maxlen <? zlen f); [done|exact Hf].
  - right. exists f, (m1 ++ m2 ++ m3). split; [|done]. by rewrite Q3, !app_assoc, <- Q1.
Qed.
(** ** Sending *)

(** [s'] is [s] after something that is not a transmission. *)
Record quiet s s' : Prop := {
  qt_step : in_step s';
  qt_view : arrived (view s) (view s');
  qt_cur : tx_cur s' = tx_cur s;
  qt_mem a : in_tx t a → dma_get a (rt_hw s') = dma_get a (rt_hw s)
}.

Lemma quiet_trans s1 s2 s3 : quiet s1 s2 → quiet s2 s3 → quiet s1 s3.
Proof.
  intros [A1 A2 A3 A4] [B1 B2 B3 B4]. split; [done|by eapply arrived_trans|congruence|].
  intros a Ha. by rewrite B4, A4.
Qed.

Lemma tx_wait_spec n d s : in_step s → 0 ≤ d < 4 → ∃ s', tx_wait n d s = Some (s', tt) ∧ quiet s s'.
Proof.
  intros Hs Hd. revert s Hs. induction n as [|n IH]; intros s Hs.
  { exists s. split; [done|]. split; [done|apply arrived_refl|done|done]. }
  cbn [tx_wait]. destruct (reg_in_spec s 4 (REG_TSD0 + d * 4) Hs) as (h & E & S1 & A & M).
  { assert (d = 0 ∨ d = 1 ∨ d = 2 ∨ d = 3) as [-> |[-> |[-> | ->]]] by lia;
      repeat first [apply list_elem_of_here | apply list_elem_of_further]. }
  assert (quiet s (set_hw h s)) as Q1 by (split; [done|done|done|exact M]).
  unfold io_bind at 1, reg_inl, inl. rewrite E. set (s1 := set_hw h s) in *. cbv beta iota.
  destruct (c_true _); [by exists s1|]. destruct (c_true _); [by exists s1|].
  destruct (cd_wait (rt_hw s1) (is_ok _ S1)) as (Ok2 & A2 & M2). set (h2 := p_out 1 0x80 0 (rt_hw s1)) in *.
  assert (quiet s1 (set_hw h2 s1)) as Q2 by (split; [by apply in_step_hw|done|done|exact M2]).
  destruct (IH (set_hw h2 s1) (qt_step _ _ Q2)) as (s' & E' & Q3). exists s'. split; [exact E'|].
  by eapply quiet_trans, quiet_trans.
Qed.

Lemma put_spec s a l :
  in_step s → t ≤ a → a + zlen l ≤ t + 8192 →
  ∃ s', put a l s = Some (s', tt) ∧ in_step s' ∧ arrived (view s) (view s') ∧ tx_cur s' = tx_cur s ∧
  ∀ x, in_tx t x → dma_get x (rt_hw s') = if (a <=? x) && (x <? a + zlen l) then arr_get l (x - a) else dma_get x (rt_hw s).
Proof.
  intros Hs Ha Hl. destruct (cd_put a l (rt_hw s) (is_ok _ Hs) Ha Hl) as (Ok & A & M).
  exists (set_hw (dma_put a l (rt_hw s)) s). split; [done|]. split; [by apply in_step_hw|done].
Qed.

(** The frame as it goes out: at least 60 bytes. *)
Definition padded_frame (f : list Z) : list Z := f ++ replicate (Z.to_nat (60 - zlen f)) 0.

(** Staging a frame in its transmit buffer. *)
Lemma stage_spec s a f :
  in_step s → t ≤ a → a + 2048 ≤ t + 8192 → 0 < zlen f ≤ 1792 →
  ∃ s', (put a f ;! (if zlen f <? (if zlen f <? 60 then 60 else zlen f)
                     then put (a + zlen f) (replicate (Z.to_nat ((if zlen f <? 60 then 60 else zlen f) - zlen f)) 0)
                     else io_ret tt)) s = Some (s', tt) ∧
  in_step s' ∧ arrived (view s) (view s') ∧ tx_cur s' = tx_cur s ∧
  map (λ i, dma_get (a + i) (rt_hw s')) (seqZ 0 (if zlen f <? 60 then 60 else zlen f)) = padded_frame f.
Proof.
  intros Hs Ha Hr Hf. destruct (put_spec s a f Hs Ha ltac:(lia)) as (s1 & E1 & S1 & A1 & T1 & M1).
  unfold io_bind. rewrite E1. cbv beta iota. unfold padded_frame. destruct (Z.ltb_spec (zlen f) 60) as [Hlt|Hge].
  - rewrite (proj2 (Z.ltb_lt (zlen f) 60)) by done. set (z := replicate (Z.to_nat (60 - zlen f)) 0).
    assert (zlen z = 60 - zlen f) as Hz by (unfold z; unfold zlen at 1; rewrite length_replicate; lia).
    destruct (put_spec s1 (a + zlen f) z S1 ltac:(lia) ltac:(lia)) as (s2 & E2 & S2 & A2 & T2 & M2).
    exists s2. split; [done|]. split; [done|]. split; [by eapply arrived_trans|]. split; [congruence|].
    assert (zlen (f ++ z) = 60) as H60 by (revert Hz; clear; unfold zlen; rewrite length_app; lia).
    rewrite <- H60 at 1. apply (map_bytes _ 0). intros i Hi. rewrite Z.add_0_l.
    rewrite M2, M1 by (unfold in_tx; lia). rewrite Hz. unfold arr_get. rewrite !(proj2 (Z.ltb_ge i 0)) by lia.
    destruct (Z.lt_ge_cases i (zlen f)) as [Hin|Hout].
    + rewrite (proj2 (Z.leb_gt (a + zlen f) (a + i))), (proj2 (Z.leb_le a (a + i))), (proj2 (Z.ltb_lt (a + i) (a + zlen f))) by lia.
      cbn [andb]. rewrite (proj2 (Z.ltb_ge _ 0)) by lia. rewrite lookup_app_l by (unfold zlen in *; lia).
      do 2 f_equal. lia.
    + rewrite (proj2 (Z.leb_le (a + zlen f) (a + i))), (proj2 (Z.ltb_lt (a + i) _)) by lia. cbn [andb].
      rewrite (proj2 (Z.ltb_ge _ 0)) by lia. rewrite lookup_app_r by (unfold zlen in *; lia).
      do 2 f_equal. unfold zlen. lia.
  - rewrite (proj2 (Z.ltb_ge (zlen f) (zlen f))) by lia. exists s1. split; [done|]. split; [done|]. split; [done|]. split; [done|].
    replace (Z.to_nat (60 - zlen f)) with 0%nat by lia. cbn [replicate]. rewrite app_nil_r.
    apply (map_bytes _ 0). intros i Hi. rewrite Z.add_0_l, M1 by (unfold in_tx; lia).
    rewrite (proj2 (Z.leb_le a (a + i))), (proj2 (Z.ltb_lt (a + i) (a + zlen f))) by lia. cbn [andb]. f_equal. lia.
Qed.
Lemma reg_outl_eq s p v :
  io_base s = b → reg_outl p v s = Some (set_hw (p_out 4 (u16 (b + p)) (u32 v) (rt_hw s)) s, tt).
Proof. intros E. unfold reg_outl, outl, out_port, io_put. by rewrite E. Qed.

(** Starting a descriptor whose buffer is staged. *)
Lemma start_spec s n a size :
  in_step s → 0 ≤ n < 4 → in_tx t a → 0 < size ≤ 1792 → a + size ≤ t + 8192 →
  ∃ s', (reg_outl (REG_TSAD0 + n * 4) a ;! reg_outl (REG_TSD0 + n * 4) (size ||| (0x38 <<< 16))) s = Some (s', tt) ∧
  in_step s' ∧ tx_cur s' = tx_cur s ∧
  cv_wire (view s') = cv_wire (view s) ++ [map (λ i, dma_get (a + i) (rt_hw s)) (seqZ 0 size)] ∧
  ∃ more, cv_queue (view s') = cv_queue (view s) ++ more.
Proof.
  intros Hs Hn Ha Hsz Hend. pose proof (proj1 (is_base _ Hs)) as Eb.
  destruct (cd_tsad n a (rt_hw s) (is_ok _ Hs) Hn Ha) as (Ok1 & (W1 & A1 & T1 & m1 & Q1) & M1).
  change 0x20 with REG_TSAD0 in *. set (h1 := p_out 4 (u16 (b + (REG_TSAD0 + n * 4))) (u32 a) (rt_hw s)) in *.
  destruct (cd_tsd n size h1 Ok1 Hn Hsz) as (Ok2 & (W2 & A2 & T2 & m2 & Q2) & _).
  set (h2 := p_out 4 (u16 (b + (0x10 + n * 4))) (u32 (size ||| (0x38 <<< 16))) h1) in *.
  cbn [cv_wire cv_queue cv_at cv_tsad] in *.
  assert (arr_get (cv_tsad (cd_view h1)) n = a) as Ea.
  { rewrite T1. apply arr_get_set_eq. unfold zlen. rewrite (cd_tsads (rt_hw s) (is_ok _ Hs)). lia. }
  rewrite Ea in W2. exists (set_hw h2 s). split; [|split; [|split; [done|split]]].
  - unfold io_bind. rewrite reg_outl_eq by exact Eb. by rewrite reg_outl_eq by exact Eb.
  - split; [exact (is_present _ Hs)|exact (is_base _ Hs)|exact Ok2| |exact (is_tx _ Hs)].
    change (rx_offset s = cv_at (cd_view h2)). rewrite A2, A1. exact (is_offset _ Hs).
  - change (cv_wire (cd_view h2) = cv_wire (view s) ++ [map (λ i, dma_get (a + i) (rt_hw s)) (seqZ 0 size)]).
    rewrite W2, W1. do 2 f_equal. apply map_ext_in. intros i Hi. apply list_elem_of_In, elem_of_seqZ in Hi.
    apply M1. unfold in_tx in *. lia.
  - exists (m1 ++ m2). change (cv_queue (cd_view h2) = cv_queue (view s) ++ m1 ++ m2). by rewrite Q2, Q1, app_assoc.
Qed.

Lemma send_spec f s :
  in_step s → 0 < zlen f ≤ 1792 →
  ∃ s', rtl8139_send f s = Some (s', 0) ∧ in_step s' ∧
  cv_wire (view s') = cv_wire (view s) ++ [padded_frame f] ∧ ∃ more, cv_queue (view s') = cv_queue (view s) ++ more.
Proof.
  intros Hs Hf. pose proof (is_tx _ Hs) as Ht. destruct (is_base _ Hs) as (_ & _ & Et).
  unfold rtl8139_send, io_bind at 1, io_get. rewrite (is_present _ Hs), (proj2 (Z.leb_gt _ 0)), (proj2 (Z.ltb_ge 1792 _)) by lia.
  cbn [negb orb]. rewrite Et. set (a := t + tx_cur s * 2048). set (padded := if zlen f <? 60 then 60 else zlen f).
  destruct (stage_spec s a f Hs ltac:(lia) ltac:(lia) Hf) as (s1 & E1 & S1 & A1 & T1 & B1). fold padded in E1, B1.
  assert (0 < padded ≤ 1792) as Hp by (unfold padded; zcase; lia).
  destruct (start_spec s1 (tx_cur s) a padded S1 Ht ltac:(unfold in_tx; lia) Hp ltac:(lia)) as (s2 & E2 & S2 & T2 & W2 & m2 & Q2).
  destruct (tx_wait_spec (Z.to_nat 400000) (tx_cur s) s2 S2 Ht) as (s3 & E3 & [S3 (W3 & _ & _ & m3 & Q3) T3 _]).
  destruct A1 as (W1 & _ & _ & m1 & Q1).
  exists (with_tx ((tx_cur s + 1) &&& 3) s3). split; [|split; [|split]].
  - revert E1 E2. unfold io_bind. destruct (put a f s) as [[x1 []]|]; [|done]. intros ->. cbv beta iota.
    destruct (reg_outl (REG_TSAD0 + tx_cur s * 4) a s1) as [[x2 []]|]; [|done]. intros ->. cbv beta iota. by rewrite E3.
  - destruct S3 as [P B O F _]. split; [done|done|done|done|]. cbn [tx_cur with_tx].
    rewrite Z.land_comm. apply (land_range 3 (tx_cur s + 1) 2); lia.
  - change (cv_wire (view s3) = cv_wire (view s) ++ [padded_frame f]). by rewrite W3, W2, W1, B1.
  - exists (m1 ++ m2 ++ m3). change (cv_queue (view s3) = cv_queue (view s) ++ m1 ++ m2 ++ m3).
    by rewrite Q3, Q2, Q1, !app_assoc.
Qed.
End Laws.

(** C27: the driver carries frames both ways: from a state in step with a running
    card, sending a frame of up to 1792 bytes comes back with success and puts
    exactly that frame, zero-padded to 60 bytes, on the wire; polling takes the
    first frame waiting, if there is one, and hands over exactly its bytes (or
    drops it when the buffer is too small), wherever it lies in the ring; and
    neither loses or reorders a frame that waits or arrives meanwhile. *)
Theorem rtl8139_carries_frames `{Ports H} `{!Dma H} b r t `{!Card8139 H b r t} (s : rtl H) :
  in_step b r t s →
  (∀ f, 0 < zlen f ≤ 1792 → ∃ s', rtl8139_send f s = Some (s', 0) ∧ in_step b r t s' ∧
     cv_wire (view b r t s') = cv_wire (view b r t s) ++ [padded_frame f] ∧
     ∃ more, cv_queue (view b r t s') = cv_queue (view b r t s) ++ more) ∧
  (∀ maxlen, ∃ s' out, rtl8139_poll maxlen s = Some (s', out) ∧ in_step b r t s' ∧
     cv_wire (view b r t s') = cv_wire (view b r t s) ∧
     (cv_queue (view b r t s) = [] ∧ out = [] ∨
      ∃ f more, cv_queue (view b r t s) ++ more = f :: cv_queue (view b r t s') ∧
        out = if maxlen <? zlen f then [] else f)).
Proof. intros Hs. split; [intros f Hf; by apply send_spec|intros maxlen; by apply poll_spec]. Qed.

(** ** A card that keeps to its documentation *)

Record ring_card := RingCard { rc_view : card_view; rc_tx : gmap Z Z }.

Definition RC_BASE : Z := 0xC000.
Definition RC_RX : Z := 0x20000.
Definition RC_TX : Z := 0x30000.

(** The ring, as far as the driver looks: the header and the bytes of the first
    frame. *)
Definition ring_byte (v : card_view) (i : Z) : Z :=
  match cv_queue v with
  | [] => 0
  | f :: _ =>
      if i =? 0 then 1 else if i =? 1 then 0
      else if i =? 2 then (zlen f + 4) mod 256 else if i =? 3 then (zlen f + 4) / 256
      else arr_get f (i - 4)
  end.

#[export] Instance ring_dma : Dma ring_card := {|
  dma_get a c := if (RC_TX <=? a) && (a <? RC_TX + 8192) then ld (rc_tx c) a
                 else ring_byte (rc_view c) (a - (RC_RX + cv_at (rc_view c)));
  dma_put a l c := RingCard (rc_view c) (for_range 0 (zlen l) (λ i m, st m (a + i) (arr_get l i)) (rc_tx c))
|}.

Definition rc_out (p v : Z) (c : ring_card) : ring_card :=
  let w := rc_view c in
  let n := (p - (RC_BASE + 0x20)) / 4 in
  let k := (p - (RC_BASE + 0x10)) / 4 in
  if p =? RC_BASE + 0x38 then
    match cv_queue w with
    | [] => c
    | f :: q => RingCard (View (cv_wire w) q (ring_next (cv_at w) f) (cv_tsad w)) (rc_tx c)
    end
  else if (RC_BASE + 0x20 <=? p) && (p <? RC_BASE + 0x30) then
    RingCard (View (cv_wire w) (cv_queue w) (cv_at w) (arr_set (cv_tsad w) n v)) (rc_tx c)
  else if (RC_BASE + 0x10 <=? p) && (p <? RC_BASE + 0x20) then
    let a := arr_get (cv_tsad w) k in
    RingCard (View (cv_wire w ++ [map (λ i, dma_get (a + i) c) (seqZ 0 (v &&& 0x1FFF))]) (cv_queue w) (cv_at w) (cv_tsad w)) (rc_tx c)
  else c.

#[export] Instance ring_ports : Ports ring_card := {|
  p_out w p v c := rc_out p v c;
  p_in w p c := (c, if p =? RC_BASE + 0x3E then 1
                    else if p =? RC_BASE + 0x37 then (match cv_queue (rc_view c) with [] => 0x0D | _ => 0x0C end)
                    else 0x8000);
  p_hlt c := (c, [])
|}.

Definition rc_ok (c : ring_card) : Prop :=
  Forall (λ f, 0 < zlen f < 2048) (cv_queue (rc_view c)) ∧ 0 ≤ cv_at (rc_view c) < 8192 ∧
  length (cv_tsad (rc_view c)) = 4%nat.

Lemma ring_next_range o f : 0 ≤ ring_next o f < 8192.
Proof. unfold ring_next. by apply Z.mod_pos_bound. Qed.

Lemma tx_size size : 0 < size ≤ 1792 → u32 (size ||| (0x38 <<< 16)) &&& 0x1FFF = size.
Proof.
  intros Hs. rewrite shiftl_mul by lia. rewrite (lor_disjoint_add size (0x38 * 2 ^ 16) 16) by (zpow; lia || done).
  rewrite u32_small by (zpow; lia). rewrite (land_mask _ 13) by done. clear -Hs. zlia.
Qed.

Lemma same_card c : rc_ok c → rc_ok c ∧ arrived (rc_view c) (rc_view c).
Proof. intros. split; [done|apply arrived_refl]. Qed.

#[export] Program Instance ring_card_laws : Card8139 ring_card RC_BASE RC_RX RC_TX := {|
  cd_ok := rc_ok; cd_view := rc_view
|}.
Next Obligation. intros w p c Hc _. split; [done|]. split; [apply arrived_refl|done]. Qed.
Next Obligation. done. Qed.
Next Obligation.
  intros c _. cbn. change (u16 (RC_BASE + 0x37) =? RC_BASE + 0x3E) with false.
  change (u16 (RC_BASE + 0x37) =? RC_BASE + 0x37) with true. cbv iota. by destruct (cv_queue (rc_view c)).
Qed.
Next Obligation. intros c Hc. apply (same_card c Hc). Qed.
Next Obligation. intros c Hc. split; [done|]. split; [apply arrived_refl|done]. Qed.
Next Obligation.
  intros c f q (Hf & Ha & Hl) Hq. rewrite Hq in Hf. apply Forall_cons in Hf as [Hf _].
  assert (∀ i, 0 ≤ i < 2052 → dma_get (RC_RX + cv_at (rc_view c) + i) c = ring_byte (rc_view c) i) as Hb.
  { intros i Hi. cbn [dma_get ring_dma]. unfold RC_RX, RC_TX, RX_BUF_SIZE in *.
    rewrite (proj2 (Z.leb_gt 0x30000 _)) by lia. cbn [andb]. f_equal. lia. }
  pose proof (Hb 0 ltac:(lia)) as B0. rewrite Z.add_0_r in B0. unfold ring_byte in *. rewrite Hq in *.
  rewrite B0, !Hb by lia. split_and!; try done; try lia.
  intros i Hi. rewrite <- Z.add_assoc, Hb by lia.
  rewrite !(proj2 (Z.eqb_neq (4 + i) _)) by lia. f_equal. lia.
Qed.
Next Obligation.
  intros c f q (Hf & Ha & Hl) Hq. cbn [p_out ring_ports]. unfold rc_out.
  change (u16 (RC_BASE + 0x38) =? RC_BASE + 0x38) with true. cbv iota. rewrite Hq.
  rewrite Hq in Hf. apply Forall_cons in Hf as [_ Hf]. cbn [rc_view cv_wire cv_queue cv_at cv_tsad].
  split; [split; [done|]; split; [apply ring_next_range|done]|]. split_and!; [done..|]. exists []. by rewrite app_nil_r.
Qed.
Next Obligation.
  intros a l c Hc Hal Hle. split; [done|]. split; [apply arrived_refl|]. intros x Hx.
  assert (0 ≤ zlen l) by (unfold zlen; lia). unfold in_tx in Hx. cbn [dma_get dma_put ring_dma rc_tx].
  rewrite (proj2 (Z.leb_le RC_TX x)), (proj2 (Z.ltb_lt x (RC_TX + 8192))) by lia. cbn [andb].
  apply (for_range_ind (λ k m, ld m x = if (a <=? x) && (x <? a + k) then arr_get l (x - a) else ld (rc_tx c) x)); [done| |].
  - rewrite Z.add_0_r. destruct (Z.leb_spec a x), (Z.ltb_spec x a); cbn [andb]; done || lia.
  - intros k m Hk IH. destruct (Z.eq_dec (a + k) x) as [<-|Hne].
    + rewrite ld_st_eq, (proj2 (Z.leb_le a (a + k))), (proj2 (Z.ltb_lt (a + k) _)) by lia. cbn [andb]. f_equal. lia.
    + rewrite ld_st_ne, IH by done. destruct (Z.leb_spec a x), (Z.ltb_spec x (a + k)), (Z.ltb_spec x (a + (k + 1))); cbn [andb]; done || lia.
Qed.
Next Obligation.
  intros n v c (Hf & Ha & Hl) Hn Hv.
  assert (u16 (RC_BASE + (0x20 + n * 4)) = RC_BASE + (0x20 + n * 4)) as E by (apply u16_small; unfold RC_BASE; lia).
  assert (p_out 4 (u16 (RC_BASE + (0x20 + n * 4))) (u32 v) c =
    RingCard (View (cv_wire (rc_view c)) (cv_queue (rc_view c)) (cv_at (rc_view c)) (arr_set (cv_tsad (rc_view c)) n v)) (rc_tx c)) as ->.
  { cbn [p_out ring_ports]. rewrite E. unfold rc_out, RC_BASE.
    rewrite (proj2 (Z.eqb_neq _ _)), (proj2 (Z.leb_le _ _)), (proj2 (Z.ltb_lt _ _)) by lia. cbn [andb].
    unfold in_tx, RC_TX in Hv. rewrite u32_small by (zpow; lia). do 3 f_equal.
    replace (0xC000 + (0x20 + n * 4) - (0xC000 + 0x20)) with (n * 4) by lia. by rewrite Z.div_mul. }
  split; [split; [done|split; [done|]]|].
  - cbn. unfold arr_set. rewrite (proj2 (Z.ltb_ge n 0)) by lia. by rewrite length_insert.
  - split; [apply arrived_refl|done].
Qed.
Next Obligation.
  intros n size c (Hf & Ha & Hl) Hn Hs.
  assert (u16 (RC_BASE + (0x10 + n * 4)) = RC_BASE + (0x10 + n * 4)) as E by (apply u16_small; unfold RC_BASE; lia).
  assert (p_out 4 (u16 (RC_BASE + (0x10 + n * 4))) (u32 (size ||| (0x38 <<< 16))) c =
    RingCard (View (cv_wire (rc_view c) ++ [map (λ i, dma_get (arr_get (cv_tsad (rc_view c)) n + i) c) (seqZ 0 size)])
      (cv_queue (rc_view c)) (cv_at (rc_view c)) (cv_tsad (rc_view c))) (rc_tx c)) as ->.
  { cbn [p_out ring_ports]. rewrite E. unfold rc_out. rewrite tx_size by done.
    unfold RC_BASE.
    rewrite (proj2 (Z.eqb_neq _ _)), (proj2 (Z.leb_gt (0xC000 + 0x20) _)), (proj2 (Z.leb_le (0xC000 + 0x10) _)), (proj2 (Z.ltb_lt _ (0xC000 + 0x20))) by lia.
    cbn [andb]. replace (0xC000 + (0x10 + n * 4) - (0xC000 + 0x10)) with (n * 4) by lia. by rewrite Z.div_mul. }
  split; [done|]. split; [apply arrived_refl|done].
Qed.
Next Obligation. by intros c (_ & _ & ?). Qed.

Definition demo_card : ring_card := RingCard (View [] [[1; 2; 3]; replicate 70 9] 8188 [0; 0; 0; 0]) ∅.
Definition demo_rtl : rtl ring_card := Rtl demo_card RC_RX RC_TX RC_BASE [] true 3 8188.

Lemma rtl8139_carries_frames_witness :
  in_step RC_BASE RC_RX RC_TX demo_rtl ∧
  (snd <$> rtl8139_poll 1600 demo_rtl = Some [1; 2; 3]) ∧
  ∃ s', rtl8139_send [7; 8] demo_rtl = Some (s', 0) ∧
    cv_wire (view RC_BASE RC_RX RC_TX s') = [[7; 8] ++ replicate 58 0].
Proof.
  assert (in_step RC_BASE RC_RX RC_TX demo_rtl) as Hs.
  { split; [done|done| |done|vm_compute; intuition discriminate]. split; [|split; [vm_compute; intuition discriminate|done]].
    repeat constructor. }
  split; [exact Hs|]. destruct (rtl8139_carries_frames RC_BASE RC_RX RC_TX demo_rtl Hs) as [Hsend Hpoll].
  split; [vm_compute; reflexivity|]. destruct (Hsend [7; 8] ltac:(split; [reflexivity|discriminate])) as (s' & E & _ & W & _).
  exists s'. split; [exact E|]. rewrite W. reflexivity.
Defined.
