(* ===== verification/Net.v ===== *)
(** Ethernet, ARP, IPv4 and UDP: net/net.c with the types of net/net.h, and
    net/icmp.c.  The network card and the clock are a parameter. *)
From Stdlib Require Import ZArith Lia Bool.
From stdpp Require Import base numbers gmap option list.
From S2P Require Import Prelude Io.

#[local] Open Scope Z_scope.
#[local] Open Scope c_scope.
#[local] Open Scope io_scope.

(** ** The card and the clock *)

(** [rtl8139_send]: its result; [rtl8139_poll(buf, max)]: the bytes it stored,
    as many as its result says; [timer_ticks] may find the clock advanced. *)
Class Nic (N : Type) := {
  nic_send : list Z → N → N * Z;
  nic_poll : Z → N → N * list Z;
  nic_init : N → N;
  nic_present : N → bool;
  nic_mac : N → list Z;
  nic_reset_rx : N → N;
  nic_ticks : N → N * Z;
  nic_hz : N → Z;
  (** [io_wait], a write to port 0x80 *)
  nic_wait : N → N
}.

(** ** Byte order and words in memory *)

Definition htons (x : Z) : Z := u16 ((x >>> 8) ||| (x <<< 8)).
Definition ntohs : Z → Z := htons.
Definition htonl (x : Z) : Z :=
  u32 ((x &&& 0xFF) <<< 24) ||| u32 ((x &&& 0xFF00) <<< 8) ||| ((x >>> 8) &&& 0xFF00) ||| ((x >>> 24) &&& 0xFF).
Definition ntohl : Z → Z := htonl.

Definition ip_to_bytes (ip : Z) : list Z := [u8 (ip >>> 24); u8 (ip >>> 16); u8 (ip >>> 8); u8 ip].
Definition bytes_to_ip (b : list Z) : Z :=
  u32 (arr_get b 0 <<< 24) ||| u32 (arr_get b 1 <<< 16) ||| u32 (arr_get b 2 <<< 8) ||| arr_get b 3.

(** A [uint16_t] or [uint32_t] field of a packed header, as the little-endian
    processor stores and loads it. *)
Definition le16 (v : Z) : list Z := [u8 v; u8 (v >>> 8)].
Definition le32 (v : Z) : list Z := [u8 v; u8 (v >>> 8); u8 (v >>> 16); u8 (v >>> 24)].
Definition ld16 (l : list Z) (i : Z) : Z := arr_get l i ||| (arr_get l (i + 1) <<< 8).
Definition ld32 (l : list Z) (i : Z) : Z :=
  arr_get l i ||| (arr_get l (i + 1) <<< 8) ||| (arr_get l (i + 2) <<< 16) ||| (arr_get l (i + 3) <<< 24).

(** [n] bytes from [p + off]. *)
Definition slice (l : list Z) (off n : Z) : list Z := take (Z.to_nat n) (drop (Z.to_nat off) l).

Definition IP_BROADCAST : Z := 0xFFFFFFFF.
Definition ETH_ARP : Z := 0x0806.
Definition ETH_IPV4 : Z := 0x0800.
Definition IP_PROTO_ICMP : Z := 1.
Definition IP_PROTO_TCP : Z := 6.
Definition IP_PROTO_UDP : Z := 17.

Definition bcast_mac : list Z := replicate 6 0xFF.

(** ** The checksum *)

(** [while (len > 1) { sum += *p++; len -= 2; } if (len) sum += last;] *)
Fixpoint sum_words (data : list Z) (sum : Z) : Z :=
  match data with
  | a :: b :: rest => sum_words rest (u32 (sum + (a ||| (b <<< 8))))
  | [a] => u32 (sum + a)
  | [] => sum
  end.

(** [while (sum >> 16)]: a 32-bit sum is folded at most twice. *)
Fixpoint fold_sum (fuel : nat) (sum : Z) : Z :=
  match fuel with
  | O => sum
  | S fuel => if c_true (sum >>> 16) then fold_sum fuel ((sum &&& 0xFFFF) + (sum >>> 16)) else sum
  end.

Definition ip_checksum (data : list Z) : Z := u16 (Z.lnot (fold_sum 3 (sum_words data 0))).

(** ** Packets *)

Definition arp_packet (oper : Z) (sha spa tha tpa : list Z) : list Z :=
  le16 (htons 1) ++ le16 (htons ETH_IPV4) ++ [6; 4] ++ le16 (htons oper) ++ sha ++ spa ++ tha ++ tpa.

(** The header with the checksum field given, 20 bytes. *)
Definition ip_header (iplen id proto csum src dst : Z) : list Z :=
  [0x45; 0] ++ le16 (htons (u16 iplen)) ++ le16 (htons id) ++ [0; 0; 64; proto] ++ le16 csum ++
  ip_to_bytes src ++ ip_to_bytes dst.

Definition ip_packet (id proto src dst : Z) (l4 : list Z) : list Z :=
  let iplen := 20 + zlen l4 in
  ip_header iplen id proto (ip_checksum (ip_header iplen id proto 0 src dst)) src dst ++ l4.

Definition eth_frame (dst src : list Z) (ethertype : Z) (payload : list Z) : list Z :=
  dst ++ src ++ le16 (htons ethertype) ++ payload.

Definition udp_segment (sport dport : Z) (data : list Z) : list Z :=
  le16 (htons sport) ++ le16 (htons dport) ++ le16 (htons (u16 (8 + zlen data))) ++ le16 0 ++ data.

(** [struct net_rx]: [l4] points into the receive buffer and is read before the
    next poll, so the bytes stand for it. *)
Record net_rx := NetRx { r_src_ip : Z; r_proto : Z; r_l4 : list Z }.

(** What [net_poll] makes of the [n] bytes at the start of the receive buffer
    when they are no ARP packet: the datagram, if it is one. *)
Definition parse_ip (rx : list Z) (n : Z) : option net_rx :=
  let ip := drop 14 rx in
  if negb (arr_get ip 0 >>> 4 =? 4) then None
  else
    let ihl := (arr_get ip 0 &&& 0x0F) * 4 in
    let total := ntohs (ld16 ip 2) in
    if (ihl <? 20) || (total <? ihl) then None
    else
      let l4len := total - ihl in
      let l4len := if n <? 14 + ihl + l4len then n - 14 - ihl else l4len in
      if l4len <? 0 then None
      else Some (NetRx (bytes_to_ip (slice ip 12 4)) (arr_get ip 9) (slice rx (14 + ihl) l4len)).

(** ** The stack *)

Record net (N : Type) := MkNet {
  nic : N;
  net_mac : list Z;
  net_ip : Z;
  net_gateway : Z;
  net_dns : Z;
  net_mask : Z;
  net_up : bool;
  arp_ip : Z;
  arp_mac : list Z;
  arp_valid : bool;
  ip_id : Z;
  rxframe : list Z;
  (** the static reply buffer of [icmp_echo_reply] *)
  icmp_msg : list Z;
  ping_seq : Z
}.
Arguments MkNet {N}. Arguments nic {N}. Arguments net_mac {N}. Arguments net_ip {N}.
Arguments net_gateway {N}. Arguments net_dns {N}. Arguments net_mask {N}. Arguments net_up {N}.
Arguments arp_ip {N}. Arguments arp_mac {N}. Arguments arp_valid {N}. Arguments ip_id {N}.
Arguments rxframe {N}. Arguments icmp_msg {N}. Arguments ping_seq {N}.

Section Stack.
Context {N : Type} `{Nic N}.
Implicit Types s : net N.

Definition with_nic (n : N) (s : net N) : net N :=
  MkNet n (net_mac s) (net_ip s) (net_gateway s) (net_dns s) (net_mask s) (net_up s)
    (arp_ip s) (arp_mac s) (arp_valid s) (ip_id s) (rxframe s) (icmp_msg s) (ping_seq s).
Definition with_arp (ip : Z) (mac : list Z) (v : bool) (s : net N) : net N :=
  MkNet (nic s) (net_mac s) (net_ip s) (net_gateway s) (net_dns s) (net_mask s) (net_up s)
    ip mac v (ip_id s) (rxframe s) (icmp_msg s) (ping_seq s).
Definition with_id (id : Z) (s : net N) : net N :=
  MkNet (nic s) (net_mac s) (net_ip s) (net_gateway s) (net_dns s) (net_mask s) (net_up s)
    (arp_ip s) (arp_mac s) (arp_valid s) id (rxframe s) (icmp_msg s) (ping_seq s).
Definition with_rx (rx : list Z) (s : net N) : net N :=
  MkNet (nic s) (net_mac s) (net_ip s) (net_gateway s) (net_dns s) (net_mask s) (net_up s)
    (arp_ip s) (arp_mac s) (arp_valid s) (ip_id s) rx (icmp_msg s) (ping_seq s).
Definition with_msg (m : list Z) (s : net N) : net N :=
  MkNet (nic s) (net_mac s) (net_ip s) (net_gateway s) (net_dns s) (net_mask s) (net_up s)
    (arp_ip s) (arp_mac s) (arp_valid s) (ip_id s) (rxframe s) m (ping_seq s).
Definition with_config (mac : list Z) (ip gw dns mask : Z) (up : bool) (s : net N) : net N :=
  MkNet (nic s) mac ip gw dns mask up
    (arp_ip s) (arp_mac s) (arp_valid s) (ip_id s) (rxframe s) (icmp_msg s) (ping_seq s).
Definition with_seq (q : Z) (s : net N) : net N :=
  MkNet (nic s) (net_mac s) (net_ip s) (net_gateway s) (net_dns s) (net_mask s) (net_up s)
    (arp_ip s) (arp_mac s) (arp_valid s) (ip_id s) (rxframe s) (icmp_msg s) q.

Definition M (A : Type) : Type := IO (net N) A.

Definition timer_ticks : M Z := λ s, let '(n, t) := nic_ticks (nic s) in Some (with_nic n s, t).
(** [hz = timer_hz(); if (!hz) hz = 100;] *)
Definition get_hz : M Z := λ s, Some (s, if nic_hz (nic s) =? 0 then 100 else nic_hz (nic s)).

Definition net_wait : M unit := io_put (λ s, with_nic (nic_wait (nic s)) s).

Definition net_init : M Z :=
  io_put (λ s, with_nic (nic_init (nic s)) s) ;!
  let! s := io_get in
  if negb (nic_present (nic s)) then io_ret 0
  else
    io_put (λ s, with_config (take 6 (nic_mac (nic s))) (net_ip s) (net_gateway s) (net_dns s) (net_mask s) (net_up s) s) ;!
    io_ret 1.

Definition eth_send (dst : list Z) (ethertype : Z) (payload : list Z) : M Z :=
  λ s, let '(n, r) := nic_send (eth_frame dst (net_mac s) ethertype payload) (nic s) in
       Some (with_nic n s, r).

Definition arp_request (tip : Z) : M unit :=
  let! s := io_get in
  eth_send bcast_mac ETH_ARP
    (arp_packet 1 (net_mac s) (ip_to_bytes (net_ip s)) (replicate 6 0) (ip_to_bytes tip)) ;!
  io_ret tt.

(** [net_poll], [resolve], [net_send_ip] and [icmp_echo_reply] call each other:
    the first three of these take the poll they call, and [fuel] bounds the
    rounds of a wait. *)
Section Calls.
Variable poll : M (option net_rx).
Variable fuel : nat.

(** [arp_valid && arp_ip == ip] *)
Definition arp_hit (ip : Z) (s : net N) : bool := arp_valid s && (arp_ip s =? ip).

(** [while (timer_ticks() - start < hz / 2)] *)
Fixpoint resolve_wait (fuel : nat) (ip start hz : Z) : M (option (list Z)) :=
  match fuel with
  | O => io_stuck
  | S fuel =>
      let! t := timer_ticks in
      if u32 (t - start) <? hz / 2 then
        poll ;!
        let! s := io_get in
        if arp_hit ip s then io_ret (Some (arp_mac s)) else net_wait ;! resolve_wait fuel ip start hz
      else io_ret None
  end.

Fixpoint resolve_tries (attempts : nat) (ip hz : Z) : M (option (list Z)) :=
  match attempts with
  | O => io_ret None
  | S attempts =>
      io_put (λ s, with_arp (arp_ip s) (arp_mac s) false s) ;!
      arp_request ip ;!
      let! start := timer_ticks in
      let! r := resolve_wait fuel ip start hz in
      match r with
      | Some mac => io_ret (Some mac)
      | None => resolve_tries attempts ip hz
      end
  end.

Definition resolve (ip : Z) : M (option (list Z)) :=
  let! s := io_get in
  if arp_hit ip s then io_ret (Some (arp_mac s))
  else let! hz := get_hz in resolve_tries 4 ip hz.

(** The next hop: the gateway for what is off the link. *)
Definition next_hop (dst : Z) (s : net N) : Z :=
  if negb (net_mask s =? 0) && negb ((dst &&& net_mask s) =? (net_ip s &&& net_mask s))
  then net_gateway s else dst.

(** [l4] is read when the packet is built, which is after [resolve]. *)
Definition net_send_ip (dst_ip proto : Z) (l4 : net N → list Z) : M Z :=
  let! s := io_get in
  let! dmac := (if dst_ip =? IP_BROADCAST then io_ret (Some bcast_mac) else resolve (next_hop dst_ip s)) in
  match dmac with
  | None => io_ret (-1)
  | Some dmac =>
      let! s := io_get in
      if 1500 <? 20 + zlen (l4 s) then io_ret (-1)
      else
        io_put (λ s, with_id (u16 (ip_id s + 1)) s) ;!
        eth_send dmac ETH_IPV4 (ip_packet (ip_id s) (u8 proto) (net_ip s) dst_ip (l4 s))
  end.

Definition icmp_echo_reply (dst : Z) (req : list Z) : M unit :=
  if 1500 <? zlen req then io_ret tt
  else
    io_put (λ s,
      let msg := req ++ drop (length req) (icmp_msg s) in
      let msg := arr_set (arr_set (arr_set (arr_set msg 0 0) 1 0) 2 0) 3 0 in
      let c := ip_checksum (take (length req) msg) in
      with_msg (arr_set (arr_set msg 2 (u8 c)) 3 (u8 (c >>> 8))) s) ;!
    net_send_ip dst IP_PROTO_ICMP (λ s, take (length req) (icmp_msg s)) ;!
    io_ret tt.

(** ARP, on the bytes behind the Ethernet header. *)
Definition arp_input (a : list Z) : M unit :=
  let oper := ntohs (ld16 a 6) in
  let! s := io_get in
  if oper =? 2 then io_put (with_arp (bytes_to_ip (slice a 14 4)) (slice a 8 6) true)
  else if (oper =? 1) && negb (net_ip s =? 0) && (bytes_to_ip (slice a 24 4) =? net_ip s) then
    eth_send (slice a 8 6) ETH_ARP
      (arp_packet 2 (net_mac s) (ip_to_bytes (net_ip s)) (slice a 8 6) (slice a 14 4)) ;!
    io_ret tt
  else io_ret tt.

Definition poll_body : M (option net_rx) :=
  let! n := (λ s, let '(h, f) := nic_poll 1600 (nic s) in
                  Some (with_rx (f ++ drop (length f) (rxframe s)) (with_nic h s), zlen f)) in
  if n <? 14 then io_ret None
  else
    let! s := io_get in
    let type := ntohs (ld16 (rxframe s) 12) in
    if type =? ETH_ARP then arp_input (drop 14 (rxframe s)) ;! io_ret None
    else if negb (type =? ETH_IPV4) then io_ret None
    else
      match parse_ip (rxframe s) n with
      | None => io_ret None
      | Some r =>
          if (r_proto r =? IP_PROTO_ICMP) && (8 <=? zlen (r_l4 r)) && (arr_get (r_l4 r) 0 =? 8) then
            icmp_echo_reply (r_src_ip r) (r_l4 r) ;! io_ret None
          else io_ret (Some r)
      end.
End Calls.

(** [depth] bounds how deep a reply waits for an address while others come in. *)
Fixpoint net_poll (depth fuel : nat) : M (option net_rx) :=
  match depth with
  | O => io_stuck
  | S depth => poll_body (net_poll depth fuel) fuel
  end.

Definition send_ip (fuel : nat) (dst_ip proto : Z) (l4 : list Z) : M Z :=
  net_send_ip (net_poll fuel fuel) fuel dst_ip proto (λ _, l4).

(** ** UDP *)

Definition net_send_udp (fuel : nat) (dst_ip sport dport : Z) (data : list Z) : M Z :=
  if 1500 <? 8 + zlen data then io_ret (-1)
  else send_ip fuel dst_ip IP_PROTO_UDP (udp_segment sport dport data).

(** The datagram of a received segment, if it is for [my_port]: source port and
    as much of the payload as there is and fits. *)
Definition udp_input (my_port maxlen : Z) (r : net_rx) : option (Z * list Z) :=
  if (r_proto r =? IP_PROTO_UDP) && (8 <=? zlen (r_l4 r)) && (ntohs (ld16 (r_l4 r) 2) =? my_port) then
    let payload := ntohs (ld16 (r_l4 r) 4) - 8 in
    let payload := if payload <? 0 then 0 else payload in
    let payload := if zlen (r_l4 r) - 8 <? payload then zlen (r_l4 r) - 8 else payload in
    let payload := if maxlen <? payload then maxlen else payload in
    Some (ntohs (ld16 (r_l4 r) 0), slice (r_l4 r) 8 payload)
  else None.

(** [uint32_t] arithmetic of a timeout in ticks. *)
Definition tick_limit (timeout_ms hz : Z) : Z := u32 (timeout_ms * hz) / 1000.

Fixpoint recv_udp_wait (fuel n : nat) (my_port maxlen start limit : Z) : M (option (Z * Z * list Z)) :=
  match n with
  | O => io_stuck
  | S n =>
      let! t := timer_ticks in
      if u32 (t - start) <=? limit then
        let! r := net_poll fuel fuel in
        match r with
        | Some r =>
            match udp_input my_port maxlen r with
            | Some (sport, data) => io_ret (Some (r_src_ip r, sport, data))
            | None => net_wait ;! recv_udp_wait fuel n my_port maxlen start limit
            end
        | None => net_wait ;! recv_udp_wait fuel n my_port maxlen start limit
        end
      else io_ret None
  end.

(** Source address, source port and payload; [None] is the result 0. *)
Definition net_recv_udp (fuel : nat) (my_port maxlen timeout_ms : Z) : M (option (Z * Z * list Z)) :=
  let! hz := get_hz in
  let! start := timer_ticks in
  recv_udp_wait fuel fuel my_port maxlen start (tick_limit timeout_ms hz).

(** ** icmp.c *)

Definition PING_ID : Z := 0x504B.
Definition PING_DATA : Z := 32.

Definition ping_message (seq : Z) : list Z :=
  let data := map (λ i, u8 (97 + (i &&& 15))) (seqZ 0 PING_DATA) in
  let msg c := [8; 0] ++ le16 c ++ le16 (htons PING_ID) ++ le16 (htons seq) ++ data in
  msg (ip_checksum (msg 0)).

(** The reply to the ping [seq] sent to [ip]. *)
Definition is_pong (ip seq : Z) (r : net_rx) : bool :=
  (r_proto r =? IP_PROTO_ICMP) && (r_src_ip r =? ip) && (8 <=? zlen (r_l4 r)) &&
  (arr_get (r_l4 r) 0 =? 0) && (ntohs (ld16 (r_l4 r) 4) =? PING_ID) && (ntohs (ld16 (r_l4 r) 6) =? seq).

Fixpoint ping_wait (fuel n : nat) (ip seq start limit hz : Z) : M (option Z) :=
  match n with
  | O => io_stuck
  | S n =>
      let! t := timer_ticks in
      if u32 (t - start) <=? limit then
        let! r := net_poll fuel fuel in
        match r with
        | Some r =>
            if is_pong ip seq r
            then let! t := timer_ticks in io_ret (Some (u32 (u32 (t - start) * 1000) / hz))
            else ping_wait fuel n ip seq start limit hz
        | None => ping_wait fuel n ip seq start limit hz
        end
      else io_ret None
  end.

(** The round-trip time; [None] is the result 0. *)
Definition icmp_ping (fuel : nat) (ip timeout_ms : Z) : M (option Z) :=
  io_put (λ s, with_seq (u16 (ping_seq s + 1)) s) ;!
  let! s := io_get in
  let seq := ping_seq s in
  let! hz := get_hz in
  let! start := timer_ticks in
  let! r := send_ip fuel ip IP_PROTO_ICMP (ping_message seq) in
  if negb (r =? 0) then io_ret None
  else ping_wait fuel fuel ip seq start (tick_limit timeout_ms hz) hz.

End Stack.
