(* ===== verification/NetThm.v ===== *)
(** Properties of [Net.v]: the Internet checksum verifies, words survive the
    change of byte order, and a datagram sent by one stack is the one the other
    stack receives. *)
From Stdlib Require Import ZArith Lia Bool.
From stdpp Require Import base numbers gmap option list.
From S2P Require Import Prelude Io Net.

#[local] Open Scope Z_scope.
#[local] Open Scope c_scope.

Definition octets (l : list Z) : Prop := Forall (λ b, 0 ≤ b < 256) l.

(** ** Words *)

Lemma le16_val v : 0 ≤ v < 65536 → u8 v ||| (u8 (v >>> 8) <<< 8) = v.
Proof.
  intros Hv. rewrite shiftr_div by lia. rewrite lor_bytes; zlia.
Qed.

Lemma htons_val a b : 0 ≤ a < 256 → 0 ≤ b < 256 → htons (a + 256 * b) = b + 256 * a.
Proof.
  intros Ha Hb. unfold htons. rewrite shiftr_div, shiftl_mul by lia.
  replace ((a + 256 * b) / 2 ^ 8) with b by zlia.
  rewrite (lor_disjoint_add _ _ 8) by zlia. zlia.
Qed.

Lemma split16 v : 0 ≤ v < 65536 → ∃ a b, v = a + 256 * b ∧ 0 ≤ a < 256 ∧ 0 ≤ b < 256.
Proof. intros. exists (v mod 256), (v / 256). zlia. Qed.

Lemma htons_range v : 0 ≤ htons v < 65536.
Proof. unfold htons. pose proof (u16_range ((v >>> 8) ||| (v <<< 8))). zpow. lia. Qed.

Lemma htons_invol v : 0 ≤ v < 65536 → htons (htons v) = v.
Proof. intros Hv. destruct (split16 v Hv) as (a & b & -> & Ha & Hb). rewrite !htons_val by done. done. Qed.

Lemma bytes_to_ip_val a b c d l :
  0 ≤ a < 256 → 0 ≤ b < 256 → 0 ≤ c < 256 → 0 ≤ d < 256 →
  bytes_to_ip (a :: b :: c :: d :: l) = 16777216 * a + 65536 * b + 256 * c + d.
Proof.
  intros Ha Hb Hc Hd. unfold bytes_to_ip.
  change (u32 (a <<< 24) ||| u32 (b <<< 16) ||| u32 (c <<< 8) ||| d = 16777216 * a + 65536 * b + 256 * c + d).
  rewrite !u32_small by (rewrite shiftl_mul by lia; zpow; lia). by apply lor4_bytes.
Qed.

Lemma ip_bytes_roundtrip ip : 0 ≤ ip < 2 ^ 32 → bytes_to_ip (ip_to_bytes ip) = ip.
Proof.
  intros Hip. unfold ip_to_bytes. rewrite bytes_to_ip_val by (apply u8_range).
  rewrite !shiftr_div by lia. zlia.
Qed.

Lemma lor4_rev a b c d : a ||| b ||| c ||| d = d ||| c ||| b ||| a.
Proof. rewrite (Z.lor_comm _ d), (Z.lor_comm _ c), (Z.lor_comm a b), !Z.lor_assoc. done. Qed.

Lemma le32_val v : 0 ≤ v < 2 ^ 32 → ld32 (le32 v) 0 = v.
Proof.
  intros Hv. change (ld32 (le32 v) 0) with
    (u8 v ||| (u8 (v >>> 8) <<< 8) ||| (u8 (v >>> 16) <<< 16) ||| (u8 (v >>> 24) <<< 24)).
  rewrite lor4_rev, lor4_bytes by apply u8_range. rewrite !shiftr_div by lia. zlia.
Qed.

Lemma land_ff00 x : x &&& 0xFF00 = 256 * (x / 256 mod 256).
Proof.
  transitivity (((x >>> 8) &&& Z.ones 8) <<< 8).
  - apply Z.bits_inj'. intros n Hn. change 0xFF00 with (Z.ones 8 <<< 8).
    rewrite Z.land_spec, !Z.shiftl_spec, Z.land_spec by done.
    destruct (Z.ltb_spec n 8) as [Hlt|Hge].
    + rewrite !(Z.testbit_neg_r _ (n - 8)) by lia. by rewrite andb_false_r.
    + rewrite Z.shiftr_spec by lia. do 2 f_equal. lia.
  - rewrite Z.land_ones, shiftr_div, shiftl_mul by lia. zpow. lia.
Qed.

Lemma htonl_val a b c d :
  0 ≤ a < 256 → 0 ≤ b < 256 → 0 ≤ c < 256 → 0 ≤ d < 256 →
  htonl (a + 256 * b + 65536 * c + 16777216 * d) = d + 256 * c + 65536 * b + 16777216 * a.
Proof.
  intros Ha Hb Hc Hd. set (x := a + 256 * b + 65536 * c + 16777216 * d). unfold htonl.
  rewrite (land_mask x 8) by done. rewrite (land_mask (x >>> 24) 8) by done. rewrite !land_ff00, !shiftr_div by lia.
  assert (x mod 2 ^ 8 = a) as -> by (unfold x; zlia).
  assert (x / 2 ^ 24 mod 2 ^ 8 = d) as -> by (unfold x; zlia).
  assert (x / 256 mod 256 = b) as -> by (unfold x; zlia).
  assert (x / 2 ^ 8 / 256 mod 256 = c) as -> by (unfold x; zlia).
  rewrite !u32_small by (rewrite shiftl_mul by lia; zpow; lia).
  replace ((256 * b) <<< 8) with (b <<< 16) by (rewrite !shiftl_mul by lia; zpow; lia).
  replace (256 * c) with (c <<< 8) by (rewrite !shiftl_mul by lia; zpow; lia).
  rewrite lor4_bytes by done. rewrite shiftl_mul by lia. zpow. lia.
Qed.

Lemma split32 v : 0 ≤ v < 2 ^ 32 → ∃ a b c d, v = a + 256 * b + 65536 * c + 16777216 * d ∧
  0 ≤ a < 256 ∧ 0 ≤ b < 256 ∧ 0 ≤ c < 256 ∧ 0 ≤ d < 256.
Proof. intros. exists (v mod 256), (v / 256 mod 256), (v / 65536 mod 256), (v / 16777216). zlia. Qed.

Lemma htonl_invol v : 0 ≤ v < 2 ^ 32 → htonl (htonl v) = v.
Proof.
  intros Hv. destruct (split32 v Hv) as (a & b & c & d & -> & Ha & Hb & Hc & Hd).
  rewrite htonl_val by done. rewrite (htonl_val d c b a) by done. done.
Qed.

Lemma htonl_range v : 0 ≤ v < 2 ^ 32 → 0 ≤ htonl v < 2 ^ 32.
Proof.
  intros Hv. destruct (split32 v Hv) as (a & b & c & d & -> & Ha & Hb & Hc & Hd).
  rewrite htonl_val by done. zpow. lia.
Qed.

Lemma octets_ip ip : octets (ip_to_bytes ip).
Proof. repeat constructor; apply u8_range. Qed.
Lemma octets_le16 v : octets (le16 v).
Proof. repeat constructor; apply u8_range. Qed.

(** ** The checksum *)

(** The plain sum of the 16-bit words. *)
Fixpoint word_sum (l : list Z) : Z :=
  match l with
  | a :: b :: rest => a + 256 * b + word_sum rest
  | [a] => a
  | [] => 0
  end.

Lemma list_pairs (P : list Z → Prop) :
  P [] → (∀ a, P [a]) → (∀ a b l, P l → P (a :: b :: l)) → ∀ l, P l.
Proof.
  intros H0 H1 H2. assert (∀ l, P l ∧ ∀ a, P (a :: l)) as H; [|intros l; apply H].
  induction l as [|b l [IH1 IH2]]; [split; [done|apply H1]|]. split; [apply IH2|]. intros a. by apply H2.
Qed.

Lemma word_sum_bound l : octets l → 0 ≤ word_sum l ≤ 65535 * zlen l.
Proof.
  induction l as [|a|a b l IH] using list_pairs; intros Hl.
  - done.
  - apply Forall_cons in Hl as [Ha _]. unfold zlen. simpl. lia.
  - apply Forall_cons in Hl as [Ha Hl]. apply Forall_cons in Hl as [Hb Hl].
    specialize (IH Hl). cbn [word_sum]. unfold zlen in *. cbn [length]. lia.
Qed.

Lemma sum_words_spec l s :
  octets l → 0 ≤ s → s + word_sum l < 2 ^ 32 → sum_words l s = s + word_sum l.
Proof.
  revert s. induction l as [|a|a b l IH] using list_pairs; intros s Hl Hs Hlt.
  - simpl. lia.
  - apply Forall_cons in Hl as [Ha _]. simpl in *. rewrite u32_small; lia.
  - apply Forall_cons in Hl as [Ha Hl]. apply Forall_cons in Hl as [Hb Hl]. cbn [sum_words word_sum] in *.
    pose proof (word_sum_bound l Hl). rewrite lor_bytes by done. rewrite u32_small by lia.
    rewrite IH by (done || lia). lia.
Qed.

Lemma word_sum_app l1 l2 :
  Nat.even (length l1) = true → word_sum (l1 ++ l2) = word_sum l1 + word_sum l2.
Proof.
  induction l1 as [|a|a b l1 IH] using list_pairs; intros He; [done|done|].
  cbn [app word_sum]. rewrite IH by done. lia.
Qed.

(** One fold: the value modulo 65535 stays, and it is 0 only for 0. *)
Lemma fold_once x :
  0 ≤ x → x / 65536 ≠ 0 →
  0 < x mod 65536 + x / 65536 ≤ 65535 + x / 65536 ∧ (x mod 65536 + x / 65536) mod 65535 = x mod 65535.
Proof.
  intros Hx Hq. pose proof (Z.div_mod x 65536). pose proof (Z.mod_pos_bound x 65536).
  split; [lia|]. rewrite <- (Z_mod_plus_full (x mod 65536 + x / 65536) (x / 65536) 65535). f_equal. lia.
Qed.

(** Folding keeps the value modulo 65535, and gives 0 only for 0. *)
Lemma fold_sum_spec x :
  0 ≤ x < 2 ^ 32 →
  0 ≤ fold_sum 3 x < 65536 ∧ fold_sum 3 x mod 65535 = x mod 65535 ∧ (fold_sum 3 x = 0 ↔ x = 0).
Proof.
  intros Hx.
  assert (∀ n y, fold_sum (S n) y = if y / 65536 =? 0 then y else fold_sum n (y mod 65536 + y / 65536)) as Hstep.
  { intros n y. cbn [fold_sum]. unfold c_true. rewrite shiftr_div, (land_mask _ 16) by done.
    change (2 ^ 16) with 65536. by destruct (y / 65536 =? 0). }
  rewrite !Hstep. cbn [fold_sum].
  destruct (Z.eqb_spec (x / 65536) 0) as [E1|E1].
  { clear Hstep. zlia. }
  assert (x ≠ 0) as Hx0 by (intros ->; done).
  destruct (fold_once x) as [Hy Hym]; [lia|done|].
  assert (x / 65536 ≤ 65535) as Hq by (clear -Hx; zlia).
  set (y := x mod 65536 + x / 65536) in *. clearbody y.
  assert (y ≤ 131070) as Hyb by lia.
  destruct (Z.eqb_spec (y / 65536) 0) as [E2|E2].
  { assert (y < 65536) by (clear -E2 Hyb Hy; zlia). clear E1 E2. split; [lia|split; [done|lia]]. }
  destruct (fold_once y) as [Hz Hzm]; [lia|done|].
  assert (y mod 65536 + y / 65536 ≤ 65535) as Hle by (clear -Hyb Hy E2; assert (y / 65536 = 1) by zlia; zlia).
  set (z := y mod 65536 + y / 65536) in *. clearbody z.
  replace (z / 65536) with 0 by (clear -Hz Hle; zlia). cbn.
  clear E1 E2. split; [lia|split; [congruence|lia]].
Qed.

Lemma lnot16 x : 0 ≤ x < 65536 → u16 (Z.lnot x) = 65535 - x.
Proof. intros. rewrite Z.lnot_eq_pred_opp. zlia. Qed.

Lemma ip_checksum_spec l :
  octets l → zlen l ≤ 65536 →
  ip_checksum l = 65535 - fold_sum 3 (word_sum l).
Proof.
  intros Hl Hlen. pose proof (word_sum_bound l Hl). unfold ip_checksum.
  rewrite sum_words_spec by (done || zlia). rewrite Z.add_0_l. apply lnot16. apply fold_sum_spec. zlia.
Qed.

Lemma ip_checksum_range l : 0 ≤ ip_checksum l < 65536.
Proof. apply u16_range. Qed.

Lemma checksum_verifies l1 l2 :
  octets l1 → octets l2 → Nat.even (length l1) = true → zlen (l1 ++ l2) ≤ 65534 →
  ip_checksum (l1 ++ le16 (ip_checksum (l1 ++ le16 0 ++ l2)) ++ l2) = 0.
Proof.
  intros H1 H2 He Hlen.
  assert (zlen (l1 ++ l2) = zlen l1 + zlen l2) as Ez by (unfold zlen; rewrite length_app; lia).
  assert (∀ v, octets (l1 ++ le16 v ++ l2) ∧ zlen (l1 ++ le16 v ++ l2) ≤ 65536) as Hok.
  { intros v. split.
    - apply Forall_app. split; [done|]. apply Forall_app. split; [apply octets_le16|done].
    - unfold zlen in *. rewrite !length_app in *. simpl. lia. }
  set (c := ip_checksum (l1 ++ le16 0 ++ l2)).
  assert (∀ v, 0 ≤ v < 65536 → word_sum (l1 ++ le16 v ++ l2) = word_sum l1 + v + word_sum l2) as Hws.
  { intros v Hv. rewrite word_sum_app by done. unfold le16. cbn [app word_sum].
    rewrite shiftr_div by lia. zlia. }
  pose proof (word_sum_bound l1 H1). pose proof (word_sum_bound l2 H2).
  destruct (Hok 0) as [Hok0 Hl0]. destruct (Hok c) as [Hokc Hlc].
  pose proof (ip_checksum_spec _ Hok0 Hl0) as Ec. fold c in Ec. rewrite Hws in Ec by lia. rewrite Z.add_0_r in Ec.
  set (S := word_sum l1 + word_sum l2) in *.
  assert (0 ≤ S < 2 ^ 32 - 65536) as HS by zlia.
  destruct (fold_sum_spec S) as (Hf1 & Hf2 & Hf3); [zlia|].
  rewrite ip_checksum_spec by done. rewrite Hws by lia.
  replace (word_sum l1 + c + word_sum l2) with (S + c) by lia.
  destruct (fold_sum_spec (S + c)) as (Hg1 & Hg2 & Hg3); [zlia|].
  set (f := fold_sum 3 S) in *. set (g := fold_sum 3 (S + c)) in *. clearbody f g c S. clear -Ec HS Hf1 Hf2 Hf3 Hg1 Hg2 Hg3.
  assert ((S + c) mod 65535 = 0) as E0 by zlia.
  assert (S + c ≠ 0) by lia. assert (g ≠ 0) by tauto. rewrite E0 in Hg2. zlia.
Qed.

(** ** Building and parsing *)

Lemma len6 (m : list Z) : length m = 6%nat → ∃ a b c d e f, m = [a; b; c; d; e; f].
Proof.
  intros Hm. do 6 (destruct m as [|? m]; [discriminate|]). destruct m; [|discriminate].
  repeat eexists.
Qed.

Lemma parse_ip_frame dst src_mac id proto src dip l4 :
  length dst = 6%nat → length src_mac = 6%nat → 0 ≤ src < 2 ^ 32 → zlen l4 ≤ 1480 →
  let f := eth_frame dst src_mac ETH_IPV4 (ip_packet id proto src dip l4) in
  ∀ rest n, zlen f ≤ n →
  parse_ip (f ++ rest) n = Some (NetRx src proto l4) ∧ ntohs (ld16 (f ++ rest) 12) = ETH_IPV4.
Proof.
  intros Hd Hs Hsrc Hl4 f rest n Hn.
  destruct (len6 _ Hd) as (d0 & d1 & d2 & d3 & d4 & d5 & ->).
  destruct (len6 _ Hs) as (s0 & s1 & s2 & s3 & s4 & s5 & ->).
  set (c := ip_checksum (ip_header (20 + zlen l4) id proto 0 src dip)) in *.
  assert (0 ≤ zlen l4) as Hz0 by (unfold zlen; lia).
  assert (u16 (20 + zlen l4) = 20 + zlen l4) as Eu by (apply u16_small; zpow; lia).
  assert (f = [d0; d1; d2; d3; d4; d5; s0; s1; s2; s3; s4; s5] ++ le16 (htons ETH_IPV4) ++
    ip_header (20 + zlen l4) id proto c src dip ++ l4) as Ef by reflexivity.
  assert (zlen f = 34 + zlen l4) as Ez by (rewrite Ef; unfold zlen; rewrite !length_app; simpl; lia).
  rewrite Ez in Hn. rewrite Ef. clearbody c. clear f Ef Ez.
  split; [|reflexivity].
  unfold parse_ip. rewrite <- !app_assoc. change (drop 14 _) with (ip_header (20 + zlen l4) id proto c src dip ++ l4 ++ rest).
  set (ip := ip_header (20 + zlen l4) id proto c src dip ++ l4 ++ rest) in *.
  assert (arr_get ip 0 = 0x45) as -> by reflexivity. change (negb (0x45 >>> 4 =? 4)) with false. cbv iota.
  change ((0x45 &&& 0x0F) * 4) with 20.
  assert (ntohs (ld16 ip 2) = 20 + zlen l4) as Etot.
  { change (ld16 ip 2) with (u8 (htons (u16 (20 + zlen l4))) ||| (u8 (htons (u16 (20 + zlen l4)) >>> 8) <<< 8)).
    rewrite le16_val by apply htons_range. unfold ntohs. rewrite htons_invol, Eu; [done|]. rewrite Eu. lia. }
  rewrite Etot. change (20 <? 20) with false. rewrite (proj2 (Z.ltb_ge (20 + zlen l4) 20)) by lia. cbn [orb].
  rewrite (proj2 (Z.ltb_ge n _)) by lia. rewrite (proj2 (Z.ltb_ge (20 + zlen l4 - 20) 0)) by lia.
  f_equal. f_equal.
  - change (slice ip 12 4) with (ip_to_bytes src). by apply ip_bytes_roundtrip.
  - unfold slice. change (Z.to_nat (14 + 20)) with 34%nat.
    change (drop 34 _) with (l4 ++ rest). replace (Z.to_nat (20 + zlen l4 - 20)) with (length l4) by (unfold zlen; lia).
    by rewrite take_app_length.
Qed.

Lemma zlen_frame dst src_mac id proto src dip l4 :
  length dst = 6%nat → length src_mac = 6%nat →
  zlen (eth_frame dst src_mac ETH_IPV4 (ip_packet id proto src dip l4)) = 34 + zlen l4.
Proof.
  intros Hd Hs. unfold eth_frame, ip_packet, ip_header, ip_to_bytes, le16, zlen.
  rewrite !length_app, Hd, Hs. cbn [length]. lia.
Qed.

Section Delivery.
Context {N : Type} `{Nic N}.
Implicit Types s r : net N.

(** The hardware address a datagram to [dst] goes to when no ARP exchange is
    needed. *)
Definition known_mac (dst : Z) s : option (list Z) :=
  if dst =? IP_BROADCAST then Some bcast_mac
  else if arp_hit (next_hop dst s) s then Some (arp_mac s) else None.

(** The frame that carries [l4]. *)
Definition frame_of (dmac : list Z) (dst proto : Z) (l4 : list Z) s : list Z :=
  eth_frame dmac (net_mac s) ETH_IPV4 (ip_packet (ip_id s) (u8 proto) (net_ip s) dst l4).

(** The card after it was given [f], and the next identification. *)
Definition after_send (f : list Z) s : net N :=
  with_nic (nic_send f (nic s)).1 (with_id (u16 (ip_id s + 1)) s).

Lemma net_send_ip_known poll fuel dst proto l4 dmac s :
  known_mac dst s = Some dmac → zlen (l4 s) ≤ 1480 →
  net_send_ip poll fuel dst proto l4 s =
    Some (after_send (frame_of dmac dst proto (l4 s) s) s,
          (nic_send (frame_of dmac dst proto (l4 s) s) (nic s)).2).
Proof.
  intros Hm Hl. unfold net_send_ip, known_mac, resolve in *.
  assert ((1500 <? 20 + zlen (l4 s)) = false) as E by (apply Z.ltb_ge; lia).
  unfold io_bind at 1. cbn [io_get].
  destruct (dst =? IP_BROADCAST).
  - injection Hm as <-. unfold io_bind, io_ret, io_get, io_put, eth_send. rewrite E.
    unfold after_send, frame_of. simpl. by destruct (nic_send _ _).
  - destruct (arp_hit (next_hop dst s) s) eqn:Eh; [|done]. injection Hm as <-.
    unfold io_bind, io_get. rewrite Eh. unfold io_ret, io_put, eth_send. rewrite E.
    unfold after_send, frame_of. simpl. by destruct (nic_send _ _).
Qed.

(** The stack after the card delivered [f]. *)
Definition after_recv (h : N) (f : list Z) r : net N := with_rx (f ++ drop (length f) (rxframe r)) (with_nic h r).

Definition is_echo (proto : Z) (l4 : list Z) : bool :=
  (proto =? IP_PROTO_ICMP) && (8 <=? zlen l4) && (arr_get l4 0 =? 8).

Lemma poll_frame poll fuel dmac smac id proto src dst l4 pad h r :
  length dmac = 6%nat → length smac = 6%nat → 0 ≤ src < 2 ^ 32 → zlen l4 ≤ 1480 →
  let f := eth_frame dmac smac ETH_IPV4 (ip_packet id proto src dst l4) ++ pad in
  nic_poll 1600 (nic r) = (h, f) →
  poll_body poll fuel r =
    if is_echo proto l4
    then io_bind (icmp_echo_reply poll fuel src l4) (λ _, io_ret None) (after_recv h f r)
    else Some (after_recv h f r, Some (NetRx src proto l4)).
Proof.
  intros Hd Hs Hsrc Hl4 f Hp.
  assert (zlen f = 34 + zlen l4 + zlen pad) as Ez.
  { unfold f, zlen. rewrite length_app. pose proof (zlen_frame dmac smac id proto src dst l4 Hd Hs) as E.
    unfold zlen in E. lia. }
  destruct (parse_ip_frame dmac smac id proto src dst l4 Hd Hs Hsrc Hl4 (pad ++ drop (length f) (rxframe r)) (zlen f))
    as [Ep Et].
  { rewrite zlen_frame by done. unfold zlen in *. lia. }
  rewrite app_assoc in Ep, Et. fold f in Ep, Et.
  unfold poll_body, io_bind at 1. rewrite Hp.
  fold (after_recv h f r). assert (0 ≤ zlen l4 ∧ 0 ≤ zlen pad) as [] by (unfold zlen; lia).
  rewrite (proj2 (Z.ltb_ge (zlen f) 14)) by lia. unfold io_bind at 1. cbn [io_get].
  change (rxframe (after_recv h f r)) with (f ++ drop (length f) (rxframe r)). rewrite Et.
  change (ETH_IPV4 =? ETH_ARP) with false. change (negb (ETH_IPV4 =? ETH_IPV4)) with false. cbv iota.
  rewrite Ep. cbn [r_proto r_l4 r_src_ip]. unfold is_echo. by destruct (_ && _ && _).
Qed.

(** *** UDP *)

Lemma udp_input_segment src sport dport maxlen data :
  0 ≤ sport < 65536 → 0 ≤ dport < 65536 → zlen data ≤ 1472 → 0 ≤ maxlen →
  udp_input dport maxlen (NetRx src IP_PROTO_UDP (udp_segment sport dport data)) =
    Some (sport, take (Z.to_nat maxlen) data).
Proof.
  intros Hs Hd Hl Hm. unfold udp_input. cbn [r_proto r_l4].
  assert (0 ≤ zlen data) as Hz by (unfold zlen; lia).
  assert (zlen (udp_segment sport dport data) = 8 + zlen data) as Ez by (unfold zlen, udp_segment; simpl length; lia).
  assert (ntohs (ld16 (udp_segment sport dport data) 2) = dport) as Ed.
  { change (ld16 _ 2) with (u8 (htons dport) ||| (u8 (htons dport >>> 8) <<< 8)).
    rewrite le16_val by apply htons_range. by apply htons_invol. }
  assert (ntohs (ld16 (udp_segment sport dport data) 0) = sport) as Es.
  { change (ld16 _ 0) with (u8 (htons sport) ||| (u8 (htons sport >>> 8) <<< 8)).
    rewrite le16_val by apply htons_range. by apply htons_invol. }
  assert (ntohs (ld16 (udp_segment sport dport data) 4) = 8 + zlen data) as El.
  { change (ld16 _ 4) with (u8 (htons (u16 (8 + zlen data))) ||| (u8 (htons (u16 (8 + zlen data)) >>> 8) <<< 8)).
    rewrite le16_val by apply htons_range. rewrite (u16_small (8 + zlen data)) by (zpow; lia). apply htons_invol. lia. }
  rewrite Ez, Ed, Es, El, Z.eqb_refl. change (IP_PROTO_UDP =? IP_PROTO_UDP) with true.
  rewrite (proj2 (Z.leb_le 8 _)) by lia. cbn [andb]. replace (8 + zlen data - 8) with (zlen data) by lia.
  rewrite (proj2 (Z.ltb_ge (zlen data) 0)) by lia. rewrite (proj2 (Z.ltb_ge (zlen data) (zlen data))) by lia.
  unfold slice. change (drop (Z.to_nat 8) (udp_segment sport dport data)) with data.
  rewrite Z.eqb_refl. do 2 f_equal. destruct (Z.ltb_spec maxlen (zlen data)) as [Hlt|Hge]; [done|].
  unfold zlen in *. rewrite !take_ge; [done|lia|lia].
Qed.

Lemma octets_app l1 l2 : octets l1 → octets l2 → octets (l1 ++ l2).
Proof. intros. by apply Forall_app. Qed.

(** C13: what [net_send_udp] hands to the card is one frame, and when that frame,
    padded or not, reaches the card of a stack waiting in [net_recv_udp] on the
    destination port, that call returns the sender's address, its port and the
    bytes sent, as many as fit the caller's buffer. *)
Theorem udp_delivered s fuel dst sport dport data dmac :
  known_mac dst s = Some dmac → length dmac = 6%nat → length (net_mac s) = 6%nat →
  0 ≤ net_ip s < 2 ^ 32 → 0 ≤ sport < 65536 → 0 ≤ dport < 65536 → zlen data ≤ 1472 →
  ∃ f, net_send_udp (S fuel) dst sport dport data s = Some (after_send f s, (nic_send f (nic s)).2) ∧
  ∀ r maxlen timeout n1 t1 n2 t2 h pad,
    let hz := if nic_hz (nic r) =? 0 then 100 else nic_hz (nic r) in
    0 ≤ maxlen → nic_ticks (nic r) = (n1, t1) → nic_ticks n1 = (n2, t2) →
    u32 (t2 - t1) ≤ tick_limit timeout hz →
    nic_poll 1600 n2 = (h, f ++ pad) →
    net_recv_udp (S fuel) dport maxlen timeout r =
      Some (after_recv h (f ++ pad) (with_nic n2 r), Some (net_ip s, sport, take (Z.to_nat maxlen) data)).
Proof.
  intros Hm Hd Hs Hip Hsp Hdp Hl. exists (frame_of dmac dst IP_PROTO_UDP (udp_segment sport dport data) s).
  assert (zlen (udp_segment sport dport data) ≤ 1480) as Hseg by (unfold zlen, udp_segment in *; simpl length; lia).
  split.
  - unfold net_send_udp, send_ip. rewrite (proj2 (Z.ltb_ge 1500 _)) by lia. by apply net_send_ip_known.
  - intros r maxlen timeout n1 t1 n2 t2 h pad hz Hmax E1 E2 Ht Hp.
    unfold net_recv_udp, get_hz, io_bind at 1, io_bind at 1, timer_ticks at 1. rewrite E1.
    cbn [recv_udp_wait]. unfold io_bind at 1, timer_ticks at 1. cbn [with_nic nic]. rewrite E2.
    rewrite (proj2 (Z.leb_le _ _)) by exact Ht. unfold io_bind. cbn [net_poll].
    rewrite (poll_frame _ _ dmac (net_mac s) (ip_id s) (u8 IP_PROTO_UDP) (net_ip s) dst
      (udp_segment sport dport data) pad h (with_nic n2 (with_nic n1 r)) Hd Hs Hip Hseg Hp).
    change (is_echo (u8 IP_PROTO_UDP) _) with false. cbv iota.
    change (u8 IP_PROTO_UDP) with IP_PROTO_UDP. rewrite udp_input_segment by done. done.
Qed.

(** *** Echo *)

(** The reply to the echo request [req]. *)
Definition echo_of (req : list Z) : list Z :=
  [0; 0] ++ le16 (ip_checksum ([0; 0] ++ le16 0 ++ drop 4 req)) ++ drop 4 req.

Lemma echo_of_verifies req : octets req → zlen req ≤ 1480 → ip_checksum (echo_of req) = 0.
Proof.
  intros Ho Hl. apply checksum_verifies; [repeat constructor; lia|by apply Forall_drop|done|].
  unfold zlen in *. rewrite length_app, length_drop. simpl. lia.
Qed.

(** The static buffer of [icmp_echo_reply] once it holds the reply. *)
Definition after_echo (req : list Z) s : net N := with_msg (echo_of req ++ drop (length req) (icmp_msg s)) s.

Lemma echo_reply_known poll fuel dst req dmac s :
  known_mac dst s = Some dmac → 8 ≤ zlen req ≤ 1480 →
  icmp_echo_reply poll fuel dst req s =
    Some (after_send (frame_of dmac dst IP_PROTO_ICMP (echo_of req) s) (after_echo req s), tt).
Proof.
  intros Hm Hl. unfold icmp_echo_reply. rewrite (proj2 (Z.ltb_ge 1500 _)) by lia.
  destruct req as [|a [|b [|c [|d rest]]]]; [unfold zlen in Hl; simpl in Hl; lia..|].
  set (req := a :: b :: c :: d :: rest) in *. set (old := drop (length req) (icmp_msg s)).
  assert (length (echo_of req) = length req) as Elen by done.
  assert (take (length req) (0 :: 0 :: 0 :: 0 :: rest ++ old) = [0; 0] ++ le16 0 ++ rest) as Et.
  { exact (take_app_length (0 :: 0 :: 0 :: 0 :: rest) old). }
  set (put := λ s0 : net N, _). assert (put s = after_echo req s) as Eput.
  { unfold put, after_echo. fold old. change (req ++ old) with (a :: b :: c :: d :: rest ++ old).
    change (arr_set (arr_set (arr_set (arr_set (a :: b :: c :: d :: rest ++ old) 0 0) 1 0) 2 0) 3 0)
      with (0 :: 0 :: 0 :: 0 :: rest ++ old). rewrite Et. done. }
  assert (take (length req) (icmp_msg (after_echo req s)) = echo_of req) as El.
  { unfold after_echo. fold old. cbn [with_msg icmp_msg]. rewrite <- Elen. apply take_app_length. }
  unfold io_bind at 1, io_put. rewrite Eput. unfold io_bind.
  rewrite (net_send_ip_known _ _ dst IP_PROTO_ICMP _ dmac) by (done || (rewrite El; unfold zlen in *; lia)).
  rewrite El. done.
Qed.

(** When an echo request reaches the card, the poll hands the card exactly
    one frame, to the requester, carrying the request with type and code zero
    and a checksum that verifies, and returns no packet to the caller; what it
    sent answers the ping if the request was one. *)
Theorem ping_answered r poll fuel dmac smac id src dst req pad h hop :
  length dmac = 6%nat → length smac = 6%nat → 0 ≤ src < 2 ^ 32 → octets req → 8 ≤ zlen req ≤ 1480 →
  arr_get req 0 = 8 →
  let f := eth_frame dmac smac ETH_IPV4 (ip_packet id IP_PROTO_ICMP src dst req) ++ pad in
  nic_poll 1600 (nic r) = (h, f) → known_mac src (after_recv h f r) = Some hop →
  let s := after_recv h f r in
  poll_body poll fuel r =
    Some (after_send (frame_of hop src IP_PROTO_ICMP (echo_of req) s) (after_echo req s), None) ∧
  ip_checksum (echo_of req) = 0 ∧
  ∀ seq, 0 ≤ seq < 65536 → req = ping_message seq → is_pong (net_ip r) seq (NetRx (net_ip r) IP_PROTO_ICMP (echo_of req)) = true.
Proof.
  intros Hd Hs Hsrc Ho Hl H8 f Hp Hk s. split; [|split].
  - unfold f in *. rewrite (poll_frame poll fuel dmac smac id IP_PROTO_ICMP src dst req pad h r) by (done || lia).
    unfold is_echo. rewrite H8, (proj2 (Z.leb_le 8 _)) by lia. cbn [Z.eqb andb]. cbv iota.
    unfold io_bind. by rewrite (echo_reply_known _ _ _ _ hop) by (done || lia).
  - apply echo_of_verifies; [done|lia].
  - intros seq Hq ->. unfold is_pong. cbn [r_proto r_src_ip r_l4]. rewrite !Z.eqb_refl.
    change (8 <=? zlen (echo_of (ping_message seq))) with true.
    change (ld16 (echo_of (ping_message seq)) 6) with (u8 (htons seq) ||| (u8 (htons seq >>> 8) <<< 8)).
    rewrite le16_val by apply htons_range. change (ntohs (htons seq)) with (htons (htons seq)).
    rewrite htons_invol, Z.eqb_refl by done. done.
Qed.

End Delivery.

(** The header of every IP packet the stack builds carries a checksum that
    verifies: the sum over the 20 bytes, its own field included, is zero. *)
Theorem ip_packet_verifies id proto src dst l4 :
  0 ≤ proto < 256 → ip_checksum (take 20 (ip_packet id proto src dst l4)) = 0.
Proof.
  intros Hp. set (len := 20 + zlen l4).
  set (l1 := [0x45; 0] ++ le16 (htons (u16 len)) ++ le16 (htons id) ++ [0; 0; 64; proto]).
  set (l2 := ip_to_bytes src ++ ip_to_bytes dst).
  change (take 20 (ip_packet id proto src dst l4)) with (l1 ++ le16 (ip_checksum (l1 ++ le16 0 ++ l2)) ++ l2).
  apply checksum_verifies; [|apply octets_app; apply octets_ip|done|done].
  repeat (apply octets_app); try apply octets_le16; repeat constructor; lia.
Qed.

(** ** Invariants of the stack *)

(** A condition on the stack that its own operations keep: whatever it sends,
    receives, caches or waits for. *)
Class Stable {N} `{Nic N} (I : net N → Prop) := {
  st_send f s : I s → I (with_nic (nic_send f (nic s)).1 s);
  st_poll k rx s : I s → I (with_rx rx (with_nic (nic_poll k (nic s)).1 s));
  st_ticks s : I s → I (with_nic (nic_ticks (nic s)).1 s);
  st_wait s : I s → I (with_nic (nic_wait (nic s)) s);
  st_arp ip mac v s : I s → I (with_arp ip mac v s);
  st_id i s : I s → I (with_id i s);
  st_msg m s : I s → I (with_msg m s)
}.

Section Keeps.
Context {N : Type} `{Nic N} (I : net N → Prop) `{!Stable I}.

(** A datagram the stack makes of a frame the card delivers in such a state. *)
Definition arrives (x : net_rx) : Prop :=
  ∃ s old, I s ∧ 14 ≤ zlen (nic_poll 1600 (nic s)).2 ∧
    parse_ip ((nic_poll 1600 (nic s)).2 ++ old) (zlen (nic_poll 1600 (nic s)).2) = Some x.

(** [m] keeps [I], and its result satisfies [Q]. *)
Definition keeps {A} (Q : A → Prop) (m : IO (net N) A) : Prop :=
  ∀ s, I s → ilp m (λ s' x, I s' ∧ Q x) s.

Definition any {A} : A → Prop := λ _, True.

Lemma keeps_ret {A} (Q : A → Prop) x : Q x → keeps Q (io_ret x).
Proof. intros HQ s Hs. by apply ilp_ret. Qed.
Lemma keeps_stuck {A} (Q : A → Prop) : keeps Q io_stuck.
Proof. intros s Hs. apply ilp_stuck. Qed.
Lemma keeps_bind {A B} (R : A → Prop) (Q : B → Prop) m k :
  keeps R m → (∀ x, R x → keeps Q (k x)) → keeps Q (io_bind m k).
Proof.
  intros Hm Hk s Hs. apply ilp_bind. eapply ilp_mono; [by apply Hm|]. intros s' x [Hs' Hx]. by apply Hk.
Qed.
Lemma keeps_get {B} (Q : B → Prop) (k : net N → IO (net N) B) :
  (∀ x, I x → keeps Q (k x)) → keeps Q (io_bind io_get k).
Proof. intros Hk s Hs. apply ilp_bind, ilp_get. by apply Hk. Qed.
Lemma keeps_put f : (∀ s, I s → I (f s)) → keeps any (io_put f).
Proof. intros Hf s Hs. apply ilp_put. split; [by apply Hf|done]. Qed.
Lemma keeps_weaken {A} (Q R : A → Prop) m : keeps Q m → (∀ x, Q x → R x) → keeps R m.
Proof. intros Hm HQ s Hs. eapply ilp_mono; [by apply Hm|]. intros s' x []. auto. Qed.
Lemma keeps_if {A} (Q : A → Prop) (b : bool) m1 m2 : keeps Q m1 → keeps Q m2 → keeps Q (if b then m1 else m2).
Proof. by destruct b. Qed.

Lemma keeps_ticks : keeps any timer_ticks.
Proof.
  intros s Hs. unfold ilp, timer_ticks. pose proof (st_ticks s Hs) as Hl.
  destruct (nic_ticks (nic s)) as [n t]. by intros s' x [= <- <-].
Qed.
Lemma keeps_hz : keeps any get_hz.
Proof. intros s Hs s' x E. unfold get_hz in E. by injection E as <- <-. Qed.
Lemma keeps_wait : keeps any net_wait.
Proof. apply keeps_put. intros s Hs. by apply st_wait. Qed.
Lemma keeps_eth_send d t p : keeps any (eth_send d t p).
Proof.
  intros s Hs. unfold ilp, eth_send. pose proof (st_send (eth_frame d (net_mac s) t p) s Hs) as Hl.
  destruct (nic_send _ (nic s)) as [n r]. by intros s' x [= <- <-].
Qed.

#[local] Ltac keep :=
  lazymatch goal with
  | |- keeps _ (io_bind io_get _) => apply keeps_get; intros ? ?; keep
  | |- keeps _ (io_bind _ _) => eapply (keeps_bind any); [keep|intros ? _; keep]
  | |- keeps _ (if _ then _ else _) => apply keeps_if; keep
  | |- keeps _ (match ?x with _ => _ end) => destruct x; keep
  | |- keeps _ (io_ret _) => first [apply keeps_ret; done | apply keeps_ret]
  | |- keeps _ io_stuck => apply keeps_stuck
  | |- keeps _ (io_put _) => apply keeps_put; intros ? ?; first [assumption | by apply st_arp | by apply st_id | by apply st_msg | idtac]
  | |- keeps _ (let _ := _ in _) => cbv zeta; keep
  | |- _ => first [apply keeps_ticks | apply keeps_hz | apply keeps_wait | apply keeps_eth_send | assumption | idtac]
  end.

Section Calls.
Context (poll : IO (net N) (option net_rx)) (fuel : nat) (Hpoll : keeps any poll).

Lemma keeps_resolve_wait n ip start hz : keeps any (resolve_wait poll n ip start hz).
Proof using All. induction n as [|n IH]; cbn [resolve_wait]; keep. Qed.
Lemma keeps_resolve_tries n ip hz : keeps any (resolve_tries poll fuel n ip hz).
Proof using All.
  induction n as [|n IH]; cbn [resolve_tries]; unfold arp_request; keep. apply keeps_resolve_wait.
Qed.
Lemma keeps_send_ip dst proto l4 : keeps any (net_send_ip poll fuel dst proto l4).
Proof using All. unfold net_send_ip, resolve; keep. apply keeps_resolve_tries. Qed.

Lemma keeps_poll_body : keeps (λ r, ∀ x, r = Some x → arrives x) (poll_body poll fuel).
Proof using All.
  intros s Hs. unfold poll_body. apply ilp_bind. unfold ilp at 1. pose proof (λ rx, st_poll 1600 rx s Hs) as Hl.
  assert (∀ old x, 14 ≤ zlen (nic_poll 1600 (nic s)).2 →
    parse_ip ((nic_poll 1600 (nic s)).2 ++ old) (zlen (nic_poll 1600 (nic s)).2) = Some x → arrives x) as Ha.
  { intros old x Hn E. by exists s, old. }
  destruct (nic_poll 1600 (nic s)) as [h f]. cbn [fst snd] in *. intros s' n [= <- <-].
  destruct (Z.ltb_spec (zlen f) 14) as [Hlt|Hge]; [by apply ilp_ret; split; [apply Hl|]|]. apply ilp_bind, ilp_get. cbn [with_rx rxframe].
  destruct (_ =? ETH_ARP).
  { apply (keeps_bind any); [unfold arp_input; keep|intros; by apply keeps_ret|apply Hl]. }
  destruct (negb _); [by apply ilp_ret; split; [apply Hl|]|].
  destruct (parse_ip _ _) as [x|] eqn:Ex; [|by apply ilp_ret; split; [apply Hl|]].
  apply Ha in Ex; [|done]. destruct (_ && _).
  - apply (keeps_bind any); [|intros; by apply keeps_ret|apply Hl].
    unfold icmp_echo_reply; keep. apply keeps_send_ip.
  - apply ilp_ret. split; [apply Hl|]. by intros y [= <-].
Qed.
End Calls.

Lemma keeps_poll depth fuel : keeps (λ r, ∀ x, r = Some x → arrives x) (net_poll depth fuel).
Proof using All.
  induction depth as [|d IH]; cbn [net_poll]; [apply keeps_stuck|].
  apply keeps_poll_body. by eapply keeps_weaken.
Qed.

Lemma keeps_send_udp fuel dst sport dport data : keeps any (net_send_udp fuel dst sport dport data).
Proof using All.
  unfold net_send_udp, send_ip. keep. apply keeps_send_ip. eapply keeps_weaken; [apply keeps_poll|done].
Qed.

Lemma keeps_recv_udp fuel port maxlen timeout : keeps any (net_recv_udp fuel port maxlen timeout).
Proof using All.
  unfold net_recv_udp. keep. generalize fuel at 2. intros n. induction n as [|n IH]; cbn [recv_udp_wait]; keep.
  - eapply keeps_weaken; [apply keeps_poll|done].
Qed.

End Keeps.

(** ** Concrete hosts *)

(** A card that keeps what it was given, delivers what is queued on it and
    whose clock advances when it is read. *)
Record card := Card { c_sent : list (list Z); c_queue : list (list Z); c_clock : Z }.

#[export] Instance card_nic : Nic card := {|
  nic_send f c := (Card (c_sent c ++ [f]) (c_queue c) (c_clock c), 0);
  nic_poll max c := match c_queue c with
                    | f :: q => (Card (c_sent c) q (c_clock c), take (Z.to_nat max) f)
                    | [] => (c, [])
                    end;
  nic_init c := c;
  nic_present c := true;
  nic_mac c := [0x52; 0x54; 0; 0x12; 0x34; 0x56];
  nic_reset_rx c := c;
  nic_ticks c := (Card (c_sent c) (c_queue c) (c_clock c + 1), c_clock c);
  nic_hz c := 100;
  nic_wait c := c
|}.

Definition host (ip : Z) (queue : list (list Z)) : net card :=
  MkNet (Card [] queue 0) [0x52; 0x54; 0; 0x12; 0x34; 0x56] ip 0x0A000202 0x0A000203 0xFFFFFF00 true
    0x0A000202 [2; 3; 4; 5; 6; 7] true 0 (replicate 1600 0) (replicate 1500 0) 0.

Lemma udp_delivered_witness :
  ∃ f, net_send_udp 1 0x08080808 4000 53 [104; 105] (host 0x0A00020F []) = Some (after_send f (host 0x0A00020F []), 0) ∧
       ∃ s', net_recv_udp 1 53 512 1000 (host 0x08080808 [f ++ replicate 16 0]) =
         Some (s', Some (0x0A00020F, 4000, [104; 105])).
Proof.
  destruct (udp_delivered (host 0x0A00020F []) 0 0x08080808 4000 53 [104; 105] [2; 3; 4; 5; 6; 7])
    as (f & E & Hr); [done|done|done|done|done|done|done|].
  exists f. split; [exact E|]. eexists.
  assert (zlen f = 44) as Ef.
  { vm_compute in E. injection E as E. subst f. done. }
  eapply (Hr (host 0x08080808 [f ++ replicate 16 0]) 512 1000); [done|reflexivity|reflexivity|done|].
  unfold host. cbn [nic with_nic]. cbn. rewrite take_ge; [reflexivity|].
  rewrite length_app. cbn [length]. unfold zlen in Ef. lia.
Defined.

Lemma ping_answered_witness :
  let req := ping_message 1 in
  let f := eth_frame bcast_mac bcast_mac ETH_IPV4 (ip_packet 0 IP_PROTO_ICMP 0x0A000202 0x0A00020F req) ++ [] in
  let h := (host 0x0A00020F [f]) in
  let s := after_recv (Card [] [] 0) f h in
  poll_body io_stuck 0 h =
    Some (after_send (frame_of [2; 3; 4; 5; 6; 7] 0x0A000202 IP_PROTO_ICMP (echo_of req) s) (after_echo req s), None) ∧
  ip_checksum (echo_of req) = 0.
Proof.
  intros req f h s.
  destruct (ping_answered h io_stuck 0 bcast_mac bcast_mac 0 0x0A000202 0x0A00020F req [] (Card [] [] 0) [2; 3; 4; 5; 6; 7])
    as (E & Ec & _); [done|done|done| |done|done|vm_compute; reflexivity|vm_compute; reflexivity|].
  - apply (bool_decide_unpack _). vm_compute. exact I.
  - split; [exact E|exact Ec].
Defined.

Lemma ip_packet_verifies_witness : ip_checksum (take 20 (ip_packet 7 17 0x0A00020F 0x08080808 [1; 2; 3])) = 0.
Proof. apply ip_packet_verifies. lia. Defined.
