(* ===== verification/Tcp.v ===== *)
(** The TCP client: net/tcp.c with the types of net/tcp.h, over [Net.v]. *)
From Stdlib Require Import ZArith Lia Bool.
From stdpp Require Import base numbers gmap option list.
From S2P Require Import Prelude Io Net.

#[local] Open Scope Z_scope.
#[local] Open Scope c_scope.
#[local] Open Scope io_scope.

Definition TCP_FIN : Z := 0x01.
Definition TCP_SYN : Z := 0x02.
Definition TCP_RST : Z := 0x04.
Definition TCP_PSH : Z := 0x08.
Definition TCP_ACK : Z := 0x10.

(** [fl & TCP_...] *)
Definition has (fl flag : Z) : bool := c_true (fl &&& flag).

(** [(int32_t)(a - b) >= 0] *)
Definition seq_geq (a b : Z) : bool := 0 <=? i32 (a - b).

Record tcp_conn := TcpConn {
  dst_ip : Z;
  dst_port : Z;
  sport : Z;
  snd_nxt : Z;
  rcv_nxt : Z;
  established : bool;
  peer_fin : bool
}.

Definition with_snd (q : Z) (c : tcp_conn) : tcp_conn :=
  TcpConn (dst_ip c) (dst_port c) (sport c) q (rcv_nxt c) (established c) (peer_fin c).
Definition with_rcv (q : Z) (c : tcp_conn) : tcp_conn :=
  TcpConn (dst_ip c) (dst_port c) (sport c) (snd_nxt c) q (established c) (peer_fin c).
Definition with_est (b : bool) (c : tcp_conn) : tcp_conn :=
  TcpConn (dst_ip c) (dst_port c) (sport c) (snd_nxt c) (rcv_nxt c) b (peer_fin c).
Definition with_fin (b : bool) (c : tcp_conn) : tcp_conn :=
  TcpConn (dst_ip c) (dst_port c) (sport c) (snd_nxt c) (rcv_nxt c) (established c) b.

(** ** Segments *)

(** The pseudo-header and the segment, when it is no longer than the buffer. *)
Definition tcp_checksum (src dst : Z) (seg : list Z) : Z :=
  if 1500 <? zlen seg then 0
  else ip_checksum (ip_to_bytes src ++ ip_to_bytes dst ++
         [0; IP_PROTO_TCP; u8 (zlen seg >>> 8); u8 (zlen seg)] ++ seg).

(** [struct tcp_hdr] without options, and the data. *)
Definition tcp_bytes (c : tcp_conn) (flags csum : Z) (data : list Z) : list Z :=
  le16 (htons (sport c)) ++ le16 (htons (dst_port c)) ++ le32 (htonl (snd_nxt c)) ++ le32 (htonl (rcv_nxt c)) ++
  [0x50; flags] ++ le16 (htons 8192) ++ le16 csum ++ le16 0 ++ data.

Definition tcp_segment (src : Z) (c : tcp_conn) (flags : Z) (data : list Z) : list Z :=
  tcp_bytes c flags (tcp_checksum src (dst_ip c) (tcp_bytes c flags 0 data)) data.

(** What [tcp_next] fills in. *)
Record tcp_seg := TcpSeg { g_seq : Z; g_ack : Z; g_flags : Z; g_data : list Z }.

(** The segment in a datagram, if it is one of this connection. *)
Definition tcp_input (c : tcp_conn) (r : net_rx) : option tcp_seg :=
  let t := r_l4 r in
  if (r_proto r =? IP_PROTO_TCP) && (r_src_ip r =? dst_ip c) && (20 <=? zlen t) then
    if negb (ntohs (ld16 t 0) =? dst_port c) || negb (ntohs (ld16 t 2) =? sport c) then None
    else
      let thl := (arr_get t 12 >>> 4) * 4 in
      if (thl <? 20) || (zlen t <? thl) then None
      else Some (TcpSeg (ntohl (ld32 t 4)) (ntohl (ld32 t 8)) (arr_get t 13) (drop (Z.to_nat thl) t))
  else None.

(** ** The client *)

Section Tcp.
Context {N : Type} `{Nic N}.

(** The stack and the connection. *)
Definition T (A : Type) : Type := IO (net N * tcp_conn) A.

Definition on_net {A} (m : IO (net N) A) : T A :=
  λ s, match m s.1 with Some (n, x) => Some ((n, s.2), x) | None => None end.
Definition on_conn (f : tcp_conn → tcp_conn) : T unit := io_put (λ s, (s.1, f s.2)).
Definition conn : T tcp_conn := λ s, Some (s, s.2).

(** Bounds the rounds of every wait. *)
Variable fuel : nat.

Definition tcp_xmit (flags : Z) (data : list Z) : T Z :=
  if 1500 <? 20 + zlen data then io_ret (-1)
  else
    let! s := io_get in
    on_net (send_ip fuel (dst_ip s.2) IP_PROTO_TCP (tcp_segment (net_ip s.1) s.2 flags data)).

Fixpoint tcp_next_wait (n : nat) (deadline : Z) : T (option tcp_seg) :=
  match n with
  | O => io_stuck
  | S n =>
      let! t := on_net timer_ticks in
      if 0 <=? i32 (deadline - t) then
        let! r := on_net (net_poll fuel fuel) in
        let! c := conn in
        match r ≫= tcp_input c with
        | Some seg => io_ret (Some seg)
        | None => on_net net_wait ;! tcp_next_wait n deadline
        end
      else io_ret None
  end.

Definition tcp_next : Z → T (option tcp_seg) := tcp_next_wait fuel.

(** The deadline [hz] ticks from now: one second. *)
Definition one_second (hz : Z) : T Z :=
  let! t := on_net timer_ticks in
  io_ret (u32 (t + hz)).

(** *** tcp_connect *)

(** [Some ok] is a return from [tcp_connect], [None] the next attempt. *)
Fixpoint connect_wait (n : nat) (isn deadline : Z) : T (option Z) :=
  match n with
  | O => io_stuck
  | S n =>
      let! g := tcp_next deadline in
      match g with
      | None => io_ret None
      | Some g =>
          if has (g_flags g) TCP_RST then io_ret (Some 0)
          else if has (g_flags g) TCP_SYN && has (g_flags g) TCP_ACK && (g_ack g =? u32 (isn + 1)) then
            on_conn (with_rcv (u32 (g_seq g + 1))) ;!
            on_conn (with_snd (u32 (isn + 1))) ;!
            tcp_xmit TCP_ACK [] ;!
            on_conn (with_est true) ;!
            io_ret (Some 1)
          else connect_wait n isn deadline
      end
  end.

Fixpoint connect_attempts (attempts : nat) (isn hz : Z) : T Z :=
  match attempts with
  | O => io_ret 0
  | S attempts =>
      on_conn (with_snd isn) ;!
      on_conn (with_rcv 0) ;!
      tcp_xmit TCP_SYN [] ;!
      let! deadline := one_second hz in
      let! r := connect_wait fuel isn deadline in
      match r with
      | Some r => io_ret r
      | None => connect_attempts attempts isn hz
      end
  end.

Definition tcp_connect (ip port : Z) : T Z :=
  let! t := on_net timer_ticks in
  on_conn (λ _, TcpConn ip port (u16 (40000 + (t &&& 0x3FFF))) 0 0 false false) ;!
  let! t := on_net timer_ticks in
  let isn := u32 (t * 2654435761 + 0xC0DE1234) in
  let! hz := on_net get_hz in
  connect_attempts 5 isn hz.

(** *** tcp_send *)

(** [Some true]: acknowledged; [Some false]: reset; [None]: timeout. *)
Fixpoint ack_wait (n : nat) (want deadline : Z) : T (option bool) :=
  match n with
  | O => io_stuck
  | S n =>
      let! g := tcp_next deadline in
      match g with
      | None => io_ret None
      | Some g =>
          if has (g_flags g) TCP_RST then io_ret (Some false)
          else if has (g_flags g) TCP_ACK && seq_geq (g_ack g) want then io_ret (Some true)
          else ack_wait n want deadline
      end
  end.

Fixpoint send_attempts (attempts : nat) (seg_seq hz : Z) (chunk : list Z) : T (option bool) :=
  match attempts with
  | O => io_ret None
  | S attempts =>
      on_conn (with_snd seg_seq) ;!
      tcp_xmit (TCP_PSH ||| TCP_ACK) chunk ;!
      let! deadline := one_second hz in
      let! r := ack_wait fuel (u32 (seg_seq + zlen chunk)) deadline in
      match r with
      | Some b => io_ret (Some b)
      | None => send_attempts attempts seg_seq hz chunk
      end
  end.

(** [sent] bytes of the buffer are acknowledged, [rest] are left. *)
Fixpoint send_chunks (n : nat) (hz sent : Z) (rest : list Z) : T Z :=
  match n with
  | O => io_stuck
  | S n =>
      match rest with
      | [] => io_ret sent
      | _ =>
          let chunk := take 512 rest in
          let! c := conn in
          let! r := send_attempts 6 (snd_nxt c) hz chunk in
          match r with
          | Some true =>
              on_conn (with_snd (u32 (snd_nxt c + zlen chunk))) ;!
              send_chunks n hz (sent + zlen chunk) (drop 512 rest)
          | _ => io_ret (-1)
          end
      end
  end.

Definition tcp_send (data : list Z) : T Z :=
  let! c := conn in
  if negb (established c) then io_ret (-1)
  else let! hz := on_net get_hz in send_chunks (S (length data)) hz 0 data.

(** *** tcp_recv *)

(** One turn of the receive loop: the result and the bytes stored, if it ends. *)
Definition recv_segment (maxlen : Z) (g : tcp_seg) : T (option (Z * list Z)) :=
  if has (g_flags g) TCP_RST then on_conn (with_fin true) ;! io_ret (Some (-1, []))
  else
    let! c := conn in
    if g_seq g =? rcv_nxt c then
      let n := if maxlen <? zlen (g_data g) then maxlen else zlen (g_data g) in
      on_conn (λ c, with_rcv (u32 (rcv_nxt c + zlen (g_data g))) c) ;!
      (if has (g_flags g) TCP_FIN
       then on_conn (λ c, with_fin true (with_rcv (u32 (rcv_nxt c + 1)) c))
       else io_ret tt) ;!
      tcp_xmit TCP_ACK [] ;!
      let! c := conn in
      if 0 <? n then io_ret (Some (n, take (Z.to_nat n) (g_data g)))
      else if peer_fin c then io_ret (Some (0, []))
      else io_ret None
    else tcp_xmit TCP_ACK [] ;! io_ret None.

Fixpoint recv_wait (n : nat) (maxlen deadline : Z) : T (Z * list Z) :=
  match n with
  | O => io_stuck
  | S n =>
      let! g := tcp_next deadline in
      match g with
      | None => io_ret (-1, [])
      | Some g =>
          let! r := recv_segment maxlen g in
          match r with
          | Some r => io_ret r
          | None => recv_wait n maxlen deadline
          end
      end
  end.

Definition tcp_recv (maxlen timeout_ms : Z) : T (Z * list Z) :=
  let! c := conn in
  if peer_fin c then io_ret (0, [])
  else
    let! hz := on_net get_hz in
    let! t := on_net timer_ticks in
    recv_wait fuel maxlen (u32 (t + tick_limit timeout_ms hz)).

(** *** tcp_close *)

Fixpoint close_wait (n : nat) (deadline : Z) : T unit :=
  match n with
  | O => io_stuck
  | S n =>
      let! g := tcp_next deadline in
      match g with
      | None => io_ret tt
      | Some g =>
          if has (g_flags g) TCP_RST then io_ret tt
          else
            let! c := conn in
            (if g_seq g =? rcv_nxt c then
               on_conn (λ c, with_rcv (u32 (rcv_nxt c + zlen (g_data g))) c) ;!
               (if has (g_flags g) TCP_FIN
                then on_conn (λ c, with_fin true (with_rcv (u32 (rcv_nxt c + 1)) c))
                else io_ret tt) ;!
               tcp_xmit TCP_ACK [] ;! io_ret tt
             else io_ret tt) ;!
            let! c := conn in
            if peer_fin c && seq_geq (g_ack g) (snd_nxt c) then io_ret tt
            else close_wait n deadline
      end
  end.

Definition tcp_close : T unit :=
  let! c := conn in
  if negb (established c) then io_ret tt
  else
    tcp_xmit (TCP_FIN ||| TCP_ACK) [] ;!
    on_conn (λ c, with_snd (u32 (snd_nxt c + 1)) c) ;!
    let! hz := on_net get_hz in
    let! deadline := one_second hz in
    close_wait fuel deadline ;!
    on_conn (with_est false).

End Tcp.
