(* ===== verification/TcpThm.v ===== *)
(** Properties of [Tcp.v]: what a peer sends is received in order, without gap
    or repetition, whatever arrives late, twice or not at all; and a segment
    sent by one end is delivered and acknowledged by the other. *)
From Stdlib Require Import ZArith Lia Bool.
From stdpp Require Import base numbers gmap option list.
From S2P Require Import Prelude Io Net NetThm Tcp.

#[local] Open Scope Z_scope.
#[local] Open Scope c_scope.
#[local] Open Scope io_scope.

(** ** What the card can deliver *)

(** A condition on the card's state that nothing the stack does to it breaks. *)
Class Link {N} `{Nic N} (P : N → Prop) := {
  link_send f n : P n → P (nic_send f n).1;
  link_poll k n : P n → P (nic_poll k n).1;
  link_ticks n : P n → P (nic_ticks n).1;
  link_wait n : P n → P (nic_wait n)
}.

Definition on_card {N} (P : N → Prop) (s : net N) : Prop := P (nic s).

#[export] Instance link_stable {N} `{Nic N} (P : N → Prop) `{!Link P} : Stable (on_card P).
Proof.
  split; try done; unfold on_card; cbn; intros.
  - by apply link_send.
  - by apply link_poll.
  - by apply link_ticks.
  - by apply link_wait.
Qed.

(** ** The peer's stream *)

Section Stream.
Context {N : Type} `{Nic N} (P : N → Prop) `{!Link P}.

(** A segment of the connection [c] that a frame brings. *)
Definition heard (c : tcp_conn) (g : tcp_seg) : Prop := ∃ x, arrives (on_card P) x ∧ tcp_input c x = Some g.

(** A segment of a peer whose initial sequence number is [irs] and that sends
    [stream]: any part of it, at any time, any number of times. *)
Definition honest (irs : Z) (stream : list Z) (mss : Z) (g : tcp_seg) : Prop :=
  has (g_flags g) TCP_RST = false ∧ zlen (g_data g) ≤ mss ∧
  if has (g_flags g) TCP_SYN then g_seq g = u32 irs ∧ g_data g = []
  else ∃ k, 0 ≤ k ≤ zlen stream + 1 ∧ g_seq g = u32 (irs + 1 + k) ∧
            g_data g = slice stream k (zlen (g_data g)) ∧
            (has (g_flags g) TCP_FIN = true → k + zlen (g_data g) = zlen stream).

Context (ip port irs : Z) (stream : list Z) (mss : Z) (fuel : nat).

Definition talks_to (c : tcp_conn) : Prop := dst_ip c = ip ∧ dst_port c = port.

Hypothesis Hpeer : ∀ c g, talks_to c → heard c g → honest irs stream mss g.
Hypothesis Hlen : zlen stream < 2 ^ 32 - 2.

(** The connection has taken the first [off] bytes. *)
Definition at_off (off : Z) (c : tcp_conn) : Prop :=
  talks_to c ∧ 0 ≤ off ≤ zlen stream ∧ rcv_nxt c = u32 (irs + 1 + off + Z.b2z (peer_fin c)) ∧
  (peer_fin c = true → off = zlen stream).

(** [m] leaves the card in [P]; [R] relates the connection before, the result
    and the connection after. *)
Definition does {A} (R : tcp_conn → A → tcp_conn → Prop) (m : T A) : Prop :=
  ∀ s, P (nic s.1) → ilp m (λ s' x, P (nic s'.1) ∧ R s.2 x s'.2) s.

Lemma does_bind {A B} (R1 : tcp_conn → A → tcp_conn → Prop) m (k : A → T B) Q s :
  P (nic s.1) → does R1 m →
  (∀ x s', P (nic s'.1) → R1 s.2 x s'.2 → ilp (k x) Q s') → ilp (io_bind m k) Q s.
Proof using.
  intros Hs Hm Hk. apply ilp_bind. eapply ilp_mono; [by apply Hm|]. intros s' x [Hs' Hx]. by apply Hk.
Qed.

(** Steps that leave the connection alone. *)
Definition same {A} (Q : A → Prop) : tcp_conn → A → tcp_conn → Prop := λ c x c', c' = c ∧ Q x.

Lemma does_on_net {A} (Q : A → Prop) (m : IO (net N) A) : keeps (on_card P) Q m → does (same Q) (on_net m).
Proof using.
  intros Hm s Hs s' x. unfold on_net. destruct (m s.1) as [[n y]|] eqn:E; [|done].
  intros [= <- <-]. apply (Hm s.1 Hs) in E as []. done.
Qed.

Lemma does_xmit fl data : does (same any) (tcp_xmit fuel fl data).
Proof using All - (Hpeer Hlen ip port irs stream mss).
  intros s Hs. unfold tcp_xmit. destruct (1500 <? _); [by apply ilp_ret|].
  apply ilp_bind, ilp_get. apply does_on_net; [|exact Hs].
  apply keeps_send_ip; [typeclasses eauto|]. eapply keeps_weaken; [apply keeps_poll; typeclasses eauto|done].
Qed.

Lemma does_next_wait n dl : does (λ c g c', c' = c ∧ ∀ x, g = Some x → heard c x) (tcp_next_wait fuel n dl).
Proof using All - (Hpeer Hlen ip port irs stream mss).
  induction n as [|n IH]; intros s Hs; cbn [tcp_next_wait]; [apply ilp_stuck|].
  eapply does_bind; [done|apply does_on_net, keeps_ticks; typeclasses eauto|]. intros t s1 Hs1 [E1 _].
  destruct (0 <=? _); [|by apply ilp_ret]. rewrite <- E1.
  eapply does_bind; [done|apply does_on_net, keeps_poll; typeclasses eauto|]. intros r s2 Hs2 [E2 Hr]. rewrite <- E2.
  apply ilp_bind. intros s3 c [= <- <-].
  destruct (r ≫= tcp_input s2.2) as [g|] eqn:Eg.
  - apply ilp_ret. split; [done|]. split; [done|]. intros x [= <-].
    destruct r as [r|]; [|done]. exists r. split; [by apply Hr|done].
  - eapply does_bind; [done|apply does_on_net, keeps_wait; typeclasses eauto|]. intros [] s4 Hs4 [E4 _]. rewrite <- E4. by apply IH.
Qed.

Lemma does_next dl : does (λ c g c', c' = c ∧ ∀ x, g = Some x → heard c x) (tcp_next fuel dl).
Proof using All - (Hpeer Hlen ip port irs stream mss). apply does_next_wait. Qed.

(** *** Receiving *)

Lemma u32_cancel a b c : u32 (a + b) = u32 (a + c) → 0 ≤ b < 2 ^ 32 → 0 ≤ c < 2 ^ 32 → b = c.
Proof using. intros Heq Hb Hc. zlia. Qed.

Lemma u32_add_l a b : u32 (u32 a + b) = u32 (a + b).
Proof using. unfold u32. apply Zplus_mod_idemp_l. Qed.

(** What a call has taken from [off] on. *)
Definition took (off : Z) (r : Z * list Z) (c : tcp_conn) : Prop :=
  at_off (off + zlen r.2) c ∧ r.2 = slice stream off (zlen r.2) ∧ (r.1 = 0 → peer_fin c = true).

Lemma does_recv_segment off maxlen g s :
  mss ≤ maxlen → P (nic s.1) → at_off off s.2 → peer_fin s.2 = false → honest irs stream mss g →
  ilp (recv_segment fuel maxlen g)
    (λ s' r, P (nic s'.1) ∧ match r with Some r => took off r s'.2 | None => at_off off s'.2 ∧ peer_fin s'.2 = false end) s.
Proof using All.
  intros Hmax Hs Hc Hfin (Hrst & Hmss & Hseg). unfold recv_segment. rewrite Hrst.
  apply ilp_bind. intros ? ? [= <- <-]. destruct Hc as (Hto & Hoff & Hrcv & _). rewrite Hfin, Z.add_0_r in Hrcv.
  destruct (Z.eqb_spec (g_seq g) (rcv_nxt s.2)) as [Eq|Ne].
  2: { eapply ilp_bind, ilp_mono; [by apply does_xmit|]. intros s' x [Hs' [Ec _]]. apply ilp_ret. rewrite Ec.
       split; [done|]. split; [|done]. split; [done|]. rewrite Hfin. split_and!; [lia|lia|by rewrite Z.add_0_r|done]. }
  rewrite Hrcv in Eq. destruct (has (g_flags g) TCP_SYN).
  { destruct Hseg as [Es _]. exfalso. rewrite Es, <- (Z.add_0_r irs), <- !Z.add_assoc in Eq. apply u32_cancel in Eq; lia. }
  destruct Hseg as (k & Hk & Es & Hdata & Hf). rewrite Es in Eq. apply u32_cancel in Eq as ->; [|lia|lia].
  set (n := zlen (g_data g)) in *. assert (0 ≤ n) as Hn by (unfold n, zlen; lia).
  assert (n ≤ zlen stream - off) as Hle.
  { pose proof (f_equal length Hdata) as El. unfold slice in El. rewrite length_take, length_drop in El.
    unfold n, zlen in *. lia. }
  replace (if maxlen <? n then maxlen else n) with n by (destruct (Z.ltb_spec maxlen n); lia).
  apply ilp_bind, ilp_put, ilp_bind. cbn [with_rcv fst snd].
  assert (∀ b, (b = true → off + n = zlen stream) →
    at_off (off + n) (TcpConn (dst_ip s.2) (dst_port s.2) (sport s.2) (snd_nxt s.2) (u32 (irs + 1 + off + n + Z.b2z b)) (established s.2) b)) as Hat.
  { intros b Hb. split; [done|]. cbn. split_and!; [lia|lia| |done]. f_equal. lia. }
  assert (∀ (s' : net N * tcp_conn) b, P (nic s'.1) → s'.2 = TcpConn (dst_ip s.2) (dst_port s.2) (sport s.2) (snd_nxt s.2)
      (u32 (irs + 1 + off + n + Z.b2z b)) (established s.2) b → (b = true → off + n = zlen stream) →
    ilp (io_bind (tcp_xmit fuel TCP_ACK []) (λ _, io_bind conn (λ c,
        if 0 <? n then io_ret (Some (n, take (Z.to_nat n) (g_data g)))
        else if peer_fin c then io_ret (Some (0, [])) else io_ret None)))
      (λ s' r, P (nic s'.1) ∧ match r with Some r => took off r s'.2 | None => at_off off s'.2 ∧ peer_fin s'.2 = false end) s') as Hend.
  { intros s1 b Hs1 E1 Hb. eapply ilp_bind, ilp_mono; [by apply does_xmit|]. intros s2 x [Hs2 [E2 _]].
    rewrite E1 in E2. apply ilp_bind. intros ? ? [= <- <-]. rewrite E2. cbn [peer_fin].
    assert (take (Z.to_nat n) (g_data g) = g_data g) as Et by (apply take_ge; unfold n, zlen; lia).
    destruct (Z.ltb_spec 0 n) as [Hpos|Hz].
    - apply ilp_ret. split; [done|]. rewrite Et, E2. unfold took. cbn [fst snd]. fold n. split; [by apply Hat|]. split; [done|lia].
    - assert (n = 0) as En by lia. specialize (Hat b Hb). rewrite En in Hat. rewrite Z.add_0_r in Hat.
      destruct b; apply ilp_ret; (split; [done|]); rewrite E2, En; [|done].
      unfold took. cbn [fst snd]. change (zlen []) with 0. rewrite Z.add_0_r. done. }
  destruct (has (g_flags g) TCP_FIN).
  - apply ilp_put. apply (Hend _ true); [done| |by intros _; apply Hf].
    cbn. rewrite Hrcv, u32_add_l, <- Z.add_assoc, u32_add_l, Z.add_assoc. done.
  - apply ilp_ret. apply (Hend _ false); [done| |done].
    cbn. rewrite Hrcv, u32_add_l. unfold with_rcv. by rewrite Hfin, Z.add_0_r.
Qed.

Lemma does_recv_wait n off maxlen dl s :
  mss ≤ maxlen → P (nic s.1) → at_off off s.2 → peer_fin s.2 = false →
  ilp (recv_wait fuel n maxlen dl) (λ s' r, P (nic s'.1) ∧ took off r s'.2) s.
Proof using All.
  intros Hmax. revert s. induction n as [|n IH]; intros s Hs Hc Hfin; cbn [recv_wait]; [apply ilp_stuck|].
  eapply does_bind; [done|by apply does_next|]. intros g s1 Hs1 [E1 Hg]. rewrite <- E1 in Hc, Hfin.
  destruct g as [g|].
  - assert (honest irs stream mss g) as Hh. { apply (Hpeer s1.2); [apply Hc|]. rewrite E1. by apply Hg. }
    eapply ilp_bind, ilp_mono; [by apply does_recv_segment|]. intros s2 r [Hs2 Hr].
    destruct r as [r|]; [by apply ilp_ret|]. destruct Hr. by apply IH.
  - apply ilp_ret. split; [done|]. unfold took. cbn [fst snd]. rewrite Z.add_0_r. done.
Qed.

Lemma does_recv off maxlen timeout s :
  mss ≤ maxlen → P (nic s.1) → at_off off s.2 →
  ilp (tcp_recv fuel maxlen timeout) (λ s' r, P (nic s'.1) ∧ took off r s'.2) s.
Proof using All.
  intros Hmax Hs Hc. unfold tcp_recv. apply ilp_bind. intros ? ? [= <- <-].
  destruct (peer_fin s.2) eqn:Hfin.
  - apply ilp_ret. split; [done|]. unfold took. cbn [fst snd]. rewrite Z.add_0_r. done.
  - eapply does_bind; [done|apply does_on_net, keeps_hz; typeclasses eauto|]. intros hz s1 Hs1 [E1 _]. rewrite <- E1 in Hc, Hfin.
    eapply does_bind; [done|apply does_on_net, keeps_ticks; typeclasses eauto|]. intros t s2 Hs2 [E2 _]. rewrite <- E2 in Hc, Hfin.
    by apply does_recv_wait.
Qed.

(** [k] calls of [tcp_recv], or fewer if one reports the end of the stream:
    the bytes they return, and whether the end was reported. *)
Fixpoint recv_calls (k : nat) (maxlen timeout : Z) : T (list Z * bool) :=
  match k with
  | O => io_ret ([], false)
  | S k =>
      let! r := tcp_recv fuel maxlen timeout in
      if r.1 =? 0 then io_ret (r.2, true)
      else let! q := recv_calls k maxlen timeout in io_ret (r.2 ++ q.1, q.2)
  end.

Lemma slice_app (l : list Z) a m n : 0 ≤ a → 0 ≤ m → 0 ≤ n → slice l a m ++ slice l (a + m) n = slice l a (m + n).
Proof using.
  intros. unfold slice. rewrite !Z2Nat.inj_add by lia. rewrite <- drop_drop, <- (take_drop (Z.to_nat m) (take (_ + _) _)).
  rewrite take_take, Nat.min_l by lia. f_equal. rewrite skipn_firstn_comm. f_equal. lia.
Qed.

Lemma does_recv_calls k off maxlen timeout s :
  mss ≤ maxlen → P (nic s.1) → at_off off s.2 →
  ilp (recv_calls k maxlen timeout) (λ s' q, q.1 = slice stream off (zlen q.1) ∧
    (q.2 = true → off + zlen q.1 = zlen stream)) s.
Proof using All.
  intros Hmax. revert off s. induction k as [|k IH]; intros off s Hs Hc; cbn [recv_calls]; [by apply ilp_ret|].
  eapply ilp_bind, ilp_mono; [by apply does_recv|]. intros s1 r (Hs1 & Hat & Hd & H0).
  destruct (Z.eqb_spec r.1 0) as [Ez|Ez].
  - apply ilp_ret. cbn [fst snd]. split; [done|]. intros _. destruct Hat as (_ & _ & _ & Hend). by apply Hend, H0.
  - eapply ilp_bind, ilp_mono; [by eapply IH|]. intros s2 q [Hq He]. apply ilp_ret. cbn [fst snd].
    assert (zlen (r.2 ++ q.1) = zlen r.2 + zlen q.1) as El by (unfold zlen; rewrite length_app; lia).
    assert (0 ≤ zlen r.2 ∧ 0 ≤ zlen q.1) as [] by (unfold zlen; lia). destruct Hc as (_ & Hoff & _).
    rewrite El. split; [|intros Hb; specialize (He Hb); lia].
    rewrite <- slice_app by lia. congruence.
Qed.

(** *** Connecting and sending *)

Lemma does_connect_wait n isn dl s :
  P (nic s.1) → talks_to s.2 → peer_fin s.2 = false →
  ilp (connect_wait fuel n isn dl) (λ s' r, P (nic s'.1) ∧ talks_to s'.2 ∧ peer_fin s'.2 = false ∧ (r = Some 1 → at_off 0 s'.2)) s.
Proof using All.
  revert s. induction n as [|n IH]; intros s Hs Hc Hfin; cbn [connect_wait]; [apply ilp_stuck|].
  eapply does_bind; [done|by apply does_next|]. intros g s1 Hs1 [E1 Hg]. rewrite <- E1 in Hc, Hfin.
  destruct g as [g|]; [|by apply ilp_ret].
  assert (honest irs stream mss g) as (Hrst & _ & Hseg). { apply (Hpeer s1.2); [done|]. rewrite E1. by apply Hg. }
  rewrite Hrst. destruct (has (g_flags g) TCP_SYN) eqn:Hsyn; [|by apply IH]. cbn [andb].
  destruct (has (g_flags g) TCP_ACK && _); [|by apply IH]. destruct Hseg as [Eseq _].
  apply ilp_bind, ilp_put, ilp_bind, ilp_put. eapply ilp_bind, ilp_mono; [by apply does_xmit|].
  intros s2 x [Hs2 [E2 _]]. apply ilp_bind, ilp_put, ilp_ret. cbn [fst snd]. rewrite E2. cbn.
  split; [done|]. split; [done|]. split; [done|]. intros _. split; [done|]. cbn.
  rewrite Hfin, Eseq, u32_add_l. split_and!; [lia|unfold zlen; lia|f_equal; cbn; lia|done].
Qed.

Lemma does_connect_attempts n isn hz s :
  P (nic s.1) → talks_to s.2 → peer_fin s.2 = false →
  ilp (connect_attempts fuel n isn hz) (λ s' r, P (nic s'.1) ∧ (r = 1 → at_off 0 s'.2)) s.
Proof using All.
  revert s. induction n as [|n IH]; intros s Hs Hc Hfin; cbn [connect_attempts]; [by apply ilp_ret|].
  apply ilp_bind, ilp_put, ilp_bind, ilp_put. eapply ilp_bind, ilp_mono; [by apply does_xmit|].
  intros s1 x [Hs1 [E1 _]]. unfold one_second. apply ilp_bind.
  eapply does_bind; [done|apply does_on_net, keeps_ticks; typeclasses eauto|]. intros t s2 Hs2 [E2 _]. apply ilp_ret.
  rewrite E1 in E2. cbn in E2. eapply ilp_bind, ilp_mono.
  { apply does_connect_wait; [done|by rewrite E2|by rewrite E2]. }
  intros s3 r (Hs3 & Hc3 & Hf3 & Hr). destruct r as [r|]; [|by apply IH].
  apply ilp_ret. split; [done|]. intros ->. by apply Hr.
Qed.

Lemma does_connect s :
  P (nic s.1) → ilp (tcp_connect fuel ip port) (λ s' r, P (nic s'.1) ∧ (r = 1 → at_off 0 s'.2)) s.
Proof using All.
  intros Hs. unfold tcp_connect.
  eapply does_bind; [done|apply does_on_net, keeps_ticks; typeclasses eauto|]. intros t s1 Hs1 _.
  apply ilp_bind, ilp_put. eapply does_bind; [done|apply does_on_net, keeps_ticks; typeclasses eauto|]. intros t2 s2 Hs2 [E2 _].
  eapply does_bind; [done|apply does_on_net, keeps_hz; typeclasses eauto|]. intros hz s3 Hs3 [E3 _].
  cbn in E2. rewrite E2 in E3. apply does_connect_attempts; [done|by rewrite E3|by rewrite E3].
Qed.

(** Nothing but the send sequence number changes. *)
Definition only_snd {A} : tcp_conn → A → tcp_conn → Prop := λ c _ c', c' = with_snd (snd_nxt c') c.

Lemma only_snd_refl {A} c (x : A) : only_snd c x c.
Proof using. by destruct c. Qed.

Lemma does_ack_wait n want dl : does (same any) (ack_wait fuel n want dl).
Proof using All - (Hpeer Hlen ip port irs stream mss).
  induction n as [|n IH]; intros s Hs; cbn [ack_wait]; [apply ilp_stuck|].
  eapply does_bind; [done|by apply does_next|]. intros g s1 Hs1 [E1 _]. rewrite <- E1.
  destruct g as [g|]; [|by apply ilp_ret]. destruct (has _ TCP_RST); [by apply ilp_ret|].
  destruct (_ && _); [by apply ilp_ret|by apply IH].
Qed.

Lemma does_send_attempts n q hz chunk : does only_snd (send_attempts fuel n q hz chunk).
Proof using All - (Hpeer Hlen ip port irs stream mss).
  induction n as [|n IH]; intros s Hs; cbn [send_attempts]; [apply ilp_ret; split; [done|apply only_snd_refl]|].
  apply ilp_bind, ilp_put. eapply ilp_bind, ilp_mono; [by apply does_xmit|].
  intros s1 x [Hs1 [E1 _]]. unfold one_second. apply ilp_bind.
  eapply does_bind; [done|apply does_on_net, keeps_ticks; typeclasses eauto|]. intros t s2 Hs2 [E2 _]. apply ilp_ret.
  eapply ilp_bind, ilp_mono; [by apply does_ack_wait|]. intros s3 r [Hs3 [E3 _]].
  assert (s3.2 = with_snd q s.2) as E by (rewrite E3, E2, E1; done).
  destruct r as [r|].
  - apply ilp_ret. split; [done|]. unfold only_snd. by rewrite E.
  - eapply ilp_mono; [by apply IH|]. intros s4 y [Hs4 E4]. split; [done|]. unfold only_snd in *. rewrite E4, E. done.
Qed.

Lemma does_send_chunks n hz sent rest : does only_snd (send_chunks fuel n hz sent rest).
Proof using All - (Hpeer Hlen ip port irs stream mss).
  revert sent rest. induction n as [|n IH]; intros sent rest s Hs; cbn [send_chunks]; [apply ilp_stuck|].
  destruct rest as [|b rest]; [apply ilp_ret; split; [done|apply only_snd_refl]|].
  apply ilp_bind. intros ? ? [= <- <-]. eapply ilp_bind, ilp_mono; [by apply does_send_attempts|].
  intros s1 r [Hs1 E1]. destruct r as [[|]|]; [|by apply ilp_ret|by apply ilp_ret].
  apply ilp_bind, ilp_put. eapply ilp_mono; [by apply IH|]. intros s2 y [Hs2 E2]. split; [done|].
  unfold only_snd in *. rewrite E2. cbn [snd]. rewrite E1. done.
Qed.

Lemma does_send data : does only_snd (tcp_send fuel data).
Proof using All - (Hpeer Hlen ip port irs stream mss).
  intros s Hs. unfold tcp_send. apply ilp_bind. intros ? ? [= <- <-].
  destruct (negb _); [apply ilp_ret; split; [done|apply only_snd_refl]|].
  eapply does_bind; [done|apply does_on_net, keeps_hz; typeclasses eauto|]. intros hz s1 Hs1 [E1 _]. rewrite <- E1.
  by apply does_send_chunks.
Qed.

End Stream.

(** ** A session *)

(** C2: a session with a peer that sends [stream], in segments of any size, in
    any order, repeatedly, or not at all.  Once [tcp_connect] has succeeded and
    the request was sent, the bytes [tcp_recv] returns call after call are the
    beginning of the stream, without gap, repetition or reordering, and the
    whole stream when a call reports its end. *)
Theorem tcp_stream_in_order {N} `{Nic N} (P : N → Prop) `{!Link P} ip port irs stream mss :
  (∀ c g, talks_to ip port c → heard P c g → honest irs stream mss g) →
  zlen stream < 2 ^ 32 - 2 →
  ∀ fuel k maxlen timeout req n s0 s1 s2 s3 q,
    P (nic s0.1) → mss ≤ maxlen →
    tcp_connect fuel ip port s0 = Some (s1, 1) →
    tcp_send fuel req s1 = Some (s2, n) →
    recv_calls fuel k maxlen timeout s2 = Some (s3, q) →
    q.1 = take (length q.1) stream ∧ (q.2 = true → q.1 = stream).
Proof.
  intros Hpeer Hlen fuel k maxlen timeout req n s0 s1 s2 s3 q Hs0 Hmax Ec Es Er.
  destruct (does_connect P ip port irs stream mss fuel Hpeer Hlen s0 Hs0 _ _ Ec) as [Hs1 Hc]. specialize (Hc eq_refl).
  destruct (does_send P fuel req s1 Hs1 _ _ Es) as [Hs2 E2]. unfold only_snd in E2.
  assert (at_off ip port irs stream 0 s2.2) as Hc2 by (rewrite E2; exact Hc).
  destruct (does_recv_calls P ip port irs stream mss fuel Hpeer Hlen k 0 maxlen timeout s2 Hmax Hs2 Hc2 _ _ Er) as [Hq He].
  assert (q.1 = take (length q.1) stream) as Hpre.
  { unfold slice, zlen in Hq. rewrite drop_0, Nat2Z.id in Hq. exact Hq. }
  split; [done|]. intros Hb. rewrite Hpre. apply take_ge. specialize (He Hb). unfold zlen in He. lia.
Qed.

(** ** One segment, both ends *)

Definition conn_wf (c : tcp_conn) : Prop :=
  0 ≤ sport c < 65536 ∧ 0 ≤ dst_port c < 65536 ∧ 0 ≤ snd_nxt c < 2 ^ 32 ∧ 0 ≤ rcv_nxt c < 2 ^ 32.

(** [b] is the other end of [a]'s connection, at the address [src_a] seen from
    [b]. *)
Definition other_end (src_a : Z) (a b : tcp_conn) : Prop :=
  dst_ip b = src_a ∧ dst_port b = sport a ∧ sport b = dst_port a.

Lemma zlen_segment src c flags data : zlen (tcp_segment src c flags data) = 20 + zlen data.
Proof. unfold tcp_segment, tcp_bytes, zlen. rewrite !length_app. cbn [length le16 le32]. lia. Qed.

(** What one end builds is what the other end reads. *)
Lemma tcp_input_segment me a b flags data src :
  conn_wf a → other_end src a b →
  tcp_input b (NetRx src IP_PROTO_TCP (tcp_segment me a flags data)) =
    Some (TcpSeg (snd_nxt a) (rcv_nxt a) flags data).
Proof.
  intros (Hs & Hd & Hq & Hr) (E1 & E2 & E3). unfold tcp_input. cbn [r_l4 r_proto r_src_ip].
  pose proof (zlen_segment me a flags data) as Ez. assert (0 ≤ zlen data) as Hz by (unfold zlen; lia).
  set (t := tcp_segment me a flags data) in *.
  assert (ntohs (ld16 t 0) = sport a) as ->.
  { change (ld16 t 0) with (u8 (htons (sport a)) ||| (u8 (htons (sport a) >>> 8) <<< 8)).
    rewrite le16_val by apply htons_range. by apply htons_invol. }
  assert (ntohs (ld16 t 2) = dst_port a) as ->.
  { change (ld16 t 2) with (u8 (htons (dst_port a)) ||| (u8 (htons (dst_port a) >>> 8) <<< 8)).
    rewrite le16_val by apply htons_range. by apply htons_invol. }
  assert (ntohl (ld32 t 4) = snd_nxt a) as ->.
  { change (ld32 t 4) with (ld32 (le32 (htonl (snd_nxt a))) 0). rewrite le32_val by (by apply htonl_range). by apply htonl_invol. }
  assert (ntohl (ld32 t 8) = rcv_nxt a) as ->.
  { change (ld32 t 8) with (ld32 (le32 (htonl (rcv_nxt a))) 0). rewrite le32_val by (by apply htonl_range). by apply htonl_invol. }
  rewrite <- E1, <- E2, <- E3, !Z.eqb_refl, Ez, (proj2 (Z.leb_le 20 _)) by lia.
  change ((arr_get t 12 >>> 4) * 4) with 20. cbn [negb orb andb]. change (20 <? 20) with false.
  rewrite (proj2 (Z.ltb_ge (20 + zlen data) 20)) by lia. reflexivity.
Qed.

Section Deliver.
Context {N : Type} `{Nic N}.
Implicit Types s r : net N.

Lemma xmit_known fuel flags data dmac s c :
  known_mac (dst_ip c) s = Some dmac → zlen data ≤ 1460 →
  let f := frame_of dmac (dst_ip c) IP_PROTO_TCP (tcp_segment (net_ip s) c flags data) s in
  tcp_xmit fuel flags data (s, c) = Some ((after_send f s, c), (nic_send f (nic s)).2).
Proof.
  intros Hk Hl f. unfold tcp_xmit. rewrite (proj2 (Z.ltb_ge 1500 _)) by lia.
  unfold io_bind, io_get, on_net, send_ip. cbn [fst snd].
  rewrite (net_send_ip_known _ _ _ _ _ dmac); [done|done|]. rewrite zlen_segment. lia.
Qed.

(** C18: a data segment handed to the card by [tcp_xmit] at one end and received,
    padded or not, at the other, where it is the next in sequence, is returned
    by [tcp_recv] byte for byte; the receiver moves past it and hands its card
    one acknowledgement, which the sender reads as covering the segment. *)
Theorem tcp_segment_delivered fuel s a dmac data :
  conn_wf a → known_mac (dst_ip a) s = Some dmac → length dmac = 6%nat → length (net_mac s) = 6%nat →
  0 ≤ net_ip s < 2 ^ 32 → 0 < zlen data ≤ 1460 →
  ∃ f, tcp_xmit fuel (TCP_PSH ||| TCP_ACK) data (s, a) = Some ((after_send f s, a), (nic_send f (nic s)).2) ∧
  ∀ r b maxlen timeout n1 t1 n2 t2 h pad hop,
    let hz := if nic_hz (nic r) =? 0 then 100 else nic_hz (nic r) in
    let r' := after_recv h (f ++ pad) (with_nic n2 r) in
    let b' := with_rcv (u32 (rcv_nxt b + zlen data)) b in
    other_end (net_ip s) a b → conn_wf b → rcv_nxt b = snd_nxt a → peer_fin b = false → zlen data ≤ maxlen →
    nic_ticks (nic r) = (n1, t1) → nic_ticks n1 = (n2, t2) →
    0 ≤ i32 (u32 (t1 + tick_limit timeout hz) - t2) → nic_poll 1600 n2 = (h, f ++ pad) →
    known_mac (dst_ip b) r' = Some hop →
    let ack := tcp_segment (net_ip r) b' TCP_ACK [] in
    tcp_recv (S fuel) maxlen timeout (r, b) =
      Some ((after_send (frame_of hop (dst_ip b) IP_PROTO_TCP ack r') r', b'), (zlen data, data)) ∧
    tcp_input a (NetRx (dst_ip a) IP_PROTO_TCP ack) =
      Some (TcpSeg (snd_nxt b) (u32 (snd_nxt a + zlen data)) TCP_ACK []).
Proof.
  intros Hwa Hk Hd Hm Hip Hl. set (seg := tcp_segment (net_ip s) a (TCP_PSH ||| TCP_ACK) data).
  exists (frame_of dmac (dst_ip a) IP_PROTO_TCP seg s). split; [apply xmit_known; [done|lia]|].
  intros r b maxlen timeout n1 t1 n2 t2 h pad hop hz r' b' Hoe Hwb Hseq Hfin Hmax Et1 Et2 Ht Hp Hhop ack.
  assert (zlen seg ≤ 1480) as Hseg by (unfold seg; rewrite zlen_segment; lia).
  split.
  - unfold tcp_recv, io_bind at 1, conn. cbn [snd]. rewrite Hfin.
    unfold io_bind at 1, on_net at 1, get_hz. cbn [fst snd]. fold hz.
    unfold io_bind at 1, on_net at 1, timer_ticks. cbn [fst snd]. rewrite Et1.
    cbn [recv_wait]. unfold tcp_next. cbn [tcp_next_wait]. unfold io_bind at 1, io_bind at 1, on_net at 1, timer_ticks.
    cbn [fst snd with_nic nic]. rewrite Et2, (proj2 (Z.leb_le 0 _)) by exact Ht.
    unfold io_bind at 1, on_net at 1. cbn [fst snd net_poll].
    rewrite (poll_frame _ _ dmac (net_mac s) (ip_id s) (u8 IP_PROTO_TCP) (net_ip s) (dst_ip a) seg pad h
      (with_nic n2 (with_nic n1 r)) Hd Hm Hip Hseg Hp).
    change (is_echo (u8 IP_PROTO_TCP) seg) with false. cbv iota. change (u8 IP_PROTO_TCP) with IP_PROTO_TCP.
    unfold io_bind at 1, conn at 1. cbn [snd mbind option_bind].
    rewrite (tcp_input_segment (net_ip s) a b _ _ (net_ip s) Hwa Hoe : tcp_input b (NetRx (net_ip s) IP_PROTO_TCP seg) = _).
    unfold io_ret at 1.
    change (after_recv h _ (with_nic n2 (with_nic n1 r))) with r'.
    unfold recv_segment, io_bind at 1. cbn [g_flags g_seq g_data].
    change (has (TCP_PSH ||| TCP_ACK) TCP_RST) with false. cbv iota. unfold io_bind at 1, conn at 1. cbn [snd].
    rewrite Hseq, Z.eqb_refl. unfold on_conn, io_bind at 1, io_put. cbn [fst snd].
    change (has (TCP_PSH ||| TCP_ACK) TCP_FIN) with false. cbv iota. unfold io_bind at 1, io_ret at 1.
    unfold io_bind at 1. fold b'. rewrite (xmit_known _ _ _ hop); [|exact Hhop|done].
    unfold io_bind at 1, conn at 1. cbn [snd].
    replace (if maxlen <? zlen data then maxlen else zlen data) with (zlen data) by (destruct (Z.ltb_spec maxlen (zlen data)); lia).
    rewrite (proj2 (Z.ltb_lt 0 _)) by lia. unfold io_ret.
    rewrite take_ge by (unfold zlen; lia). done.
  - assert (conn_wf b') as Hwb'.
    { pose proof (u32_range (rcv_nxt b + zlen data)) as Hu. unfold conn_wf, b' in *. cbn. tauto. }
    unfold ack. rewrite (tcp_input_segment _ b' a); [|done|].
    + unfold b'. cbn. by rewrite Hseq.
    + destruct Hoe as (? & ? & ?). split_and!; [done|by cbn|by cbn].
Qed.

End Deliver.

(** ** Concrete sessions *)

Lemma tcp_input_seg c x g :
  tcp_input c x = Some g →
  g = TcpSeg (ntohl (ld32 (r_l4 x) 4)) (ntohl (ld32 (r_l4 x) 8)) (arr_get (r_l4 x) 13)
        (drop (Z.to_nat ((arr_get (r_l4 x) 12 >>> 4) * 4)) (r_l4 x)).
Proof.
  unfold tcp_input. destruct (_ && _); [|done]. destruct (_ || _); [done|]. destruct (_ || _); [done|].
  by intros [= <-].
Qed.

Definition demo_client : Z := 0x0A00020F.
Definition demo_server : Z := 0x08080808.
Definition demo_isn : Z := u32 (2654435761 + 0xC0DE1234).
Definition demo_stream : list Z := [72; 69; 76; 76; 79].

(** The frame of the server's segment [k] bytes into its stream; its sequence
    numbers wrap. *)
Definition demo_frame (flags k ack : Z) (data : list Z) : list Z :=
  eth_frame bcast_mac bcast_mac ETH_IPV4 (ip_packet 0 IP_PROTO_TCP demo_server demo_client
    (tcp_segment demo_server (TcpConn demo_client 40000 80 (u32 (0xFFFFFFFE + k)) ack true false) flags data)).

(** The end of the stream overtakes its beginning, which comes twice. *)
Definition demo_frames : list (list Z) :=
  let ack := u32 (demo_isn + 3) in
  [demo_frame (TCP_SYN ||| TCP_ACK) 0 (u32 (demo_isn + 1)) [];
   demo_frame TCP_ACK 1 ack [];
   demo_frame (TCP_FIN ||| TCP_ACK) 3 ack [76; 76; 79];
   demo_frame TCP_ACK 1 ack [72; 69];
   demo_frame TCP_ACK 1 ack [72; 69];
   demo_frame (TCP_FIN ||| TCP_ACK) 3 ack [76; 76; 79]].

Definition demo_link (c : card) : Prop := c_queue c `suffix_of` demo_frames.

#[local] Instance demo_link_ok : Link demo_link.
Proof.
  split; try done. intros k [sent q clk] Hq. cbn. destruct q as [|f q]; [done|]. cbn.
  unfold demo_link in *. cbn in *. destruct Hq as [l Hl]. exists (l ++ [f]). by rewrite <- app_assoc.
Qed.

Lemma suffix_tail {A} (l m : list A) x : l `suffix_of` x :: m → l = x :: m ∨ l `suffix_of` m.
Proof. intros [[|y t] Hl]; [by left|right]. injection Hl as -> ->. by exists t. Qed.

Lemma demo_honest c g :
  talks_to demo_server 80 c → heard demo_link c g → honest 0xFFFFFFFE demo_stream 1460 g.
Proof.
  intros _ (x & (n & old & Hn & H14 & Ex) & Hg). apply tcp_input_seg in Hg. subst g.
  destruct n as [[sent q clk]]. unfold on_card, demo_link in Hn. cbn [nic c_queue] in Hn.
  assert (∀ f, (∀ old x, parse_ip (take (Z.to_nat 1600) f ++ old) (zlen (take (Z.to_nat 1600) f)) = Some x → 
    honest 0xFFFFFFFE demo_stream 1460 (TcpSeg (ntohl (ld32 (r_l4 x) 4)) (ntohl (ld32 (r_l4 x) 8)) (arr_get (r_l4 x) 13)
        (drop (Z.to_nat ((arr_get (r_l4 x) 12 >>> 4) * 4)) (r_l4 x)))) →
    ∀ q', q = f :: q' → honest 0xFFFFFFFE demo_stream 1460 (TcpSeg (ntohl (ld32 (r_l4 x) 4)) (ntohl (ld32 (r_l4 x) 8)) (arr_get (r_l4 x) 13)
        (drop (Z.to_nat ((arr_get (r_l4 x) 12 >>> 4) * 4)) (r_l4 x)))) as Hf.
  { intros f Hf q' ->. by apply (Hf old). }
  unfold demo_frames in Hn.
  repeat (apply suffix_tail in Hn as [Hn|Hn]; [eapply Hf; [|exact Hn]; clear|]).
  7: { destruct Hn as [[|] Hn]; [|done]. cbn in Hn. subst q. done. }
  all: intros old x Ex; vm_compute in Ex; injection Ex as <-; (split; [done|]); (split; [done|]).
  1: done.
  - exists 0. done.
  - exists 2. done.
  - exists 0. done.
  - exists 0. done.
  - exists 2. done.
Qed.

Definition demo_start : net card * tcp_conn := (host demo_client demo_frames, TcpConn 0 0 0 0 0 false false).

Lemma tcp_stream_in_order_witness :
  ∃ s1 s2 s3 q,
    tcp_connect 20 demo_server 80 demo_start = Some (s1, 1) ∧
    tcp_send 20 [71; 69] s1 = Some (s2, 2) ∧ recv_calls 20 5 1460 1000 s2 = Some (s3, q) ∧
    q = (demo_stream, true) ∧ q.1 = take (length q.1) demo_stream.
Proof.
  destruct (tcp_connect 20 demo_server 80 demo_start) as [[s1 r1]|] eqn:E1; [|vm_compute in E1; discriminate].
  assert (r1 = 1) as ->. { vm_compute in E1. by injection E1 as _ <-. }
  destruct (tcp_send 20 [71; 69] s1) as [[s2 r2]|] eqn:E2;
    [|vm_compute in E1; injection E1 as <-; vm_compute in E2; discriminate].
  destruct (recv_calls 20 5 1460 1000 s2) as [[s3 q]|] eqn:E3;
    [|vm_compute in E1; injection E1 as <-; vm_compute in E2; injection E2 as <- _; vm_compute in E3; discriminate].
  assert (r2 = 2 ∧ q = (demo_stream, true)) as [-> Eq].
  { vm_compute in E1. injection E1 as <-. vm_compute in E2. injection E2 as <- <-. vm_compute in E3. injection E3 as _ <-. done. }
  exists s1, s2, s3, q. split; [done|]. split; [done|]. split; [done|]. split; [done|].
  refine (proj1 (tcp_stream_in_order demo_link demo_server 80 0xFFFFFFFE demo_stream 1460
    demo_honest _ 20 5 1460 1000 [71; 69] 2 demo_start s1 s2 s3 q _ _ E1 E2 E3)); [done| |lia].
  by exists [].
Defined.

Lemma tcp_segment_delivered_witness :
  let a := TcpConn demo_server 80 40000 7 9 true false in
  let b := TcpConn demo_client 40000 80 9 7 true false in
  ∃ f, tcp_xmit 1 (TCP_PSH ||| TCP_ACK) [1; 2; 3] (host demo_client [], a) = Some ((after_send f (host demo_client []), a), 0) ∧
  ∃ s', tcp_recv 2 1460 1000 (host demo_server [f], b) = Some ((s', with_rcv 10 b), (3, [1; 2; 3])).
Proof.
  intros a b.
  destruct (tcp_segment_delivered 1 (host demo_client []) a [2; 3; 4; 5; 6; 7] [1; 2; 3]) as (f & E & Hr);
    [by vm_compute|done|done|done|done|done|].
  exists f. split; [exact E|]. vm_compute in E. injection E as E. 
  eexists. eapply (proj1 (Hr (host demo_server [f]) b 1460 1000 (Card [] [f] 1) 0 (Card [] [f] 2) 1 (Card [] [] 2) []
    [2; 3; 4; 5; 6; 7] _ _ _ _ _ _ _ _ _ _)).
  Unshelve.
  all: subst f; first [reflexivity | by vm_compute | idtac].
Defined.
