(* ===== verification/Dns.v ===== *)
(** The DNS resolver: net/dns.c, over [Net.v].  Names travel as they were given,
    answers are parsed inside the bytes received, and the first address record
    is the result. *)
From Stdlib Require Import ZArith Lia Bool.
From stdpp Require Import base numbers gmap option list.
From S2P Require Import Prelude Io Net NetThm.

#[local] Open Scope Z_scope.
#[local] Open Scope c_scope.
#[local] Open Scope io_scope.

(** ** Names *)

Definition DOT : Z := 46.

(** The inner loop of [encode_name]: the bytes up to a dot or the end, and what
    is left. *)
Fixpoint take_label (p : list Z) : list Z * list Z :=
  match p with
  | [] => ([], [])
  | c :: p' => if c =? DOT then ([], p) else let '(l, r) := take_label p' in (c :: l, r)
  end.

(** The loop of [encode_name], over the bytes of the C string. *)
Fixpoint encode_labels (fuel : nat) (p : list Z) : option (list Z) :=
  match p with
  | [] => Some []
  | _ =>
      match fuel with
      | O => None
      | S fuel =>
          let '(l, dot) := take_label p in
          if (zlen l =? 0) || (63 <? zlen l) then None
          else
            rest ← encode_labels fuel (match dot with _ :: r => r | [] => [] end);
            Some (u8 (zlen l) :: l ++ rest)
      end
  end.

(** [None] is the result -1. *)
Definition encode_name (name : list Z) : option (list Z) :=
  labels ← encode_labels (length name) name; Some (labels ++ [0]).

(** ** The response *)

(** A read at [r + i]; [None]: behind the bytes received. *)
Definition rd (r : list Z) (i : Z) : option Z := if i <? 0 then None else r !! Z.to_nat i.

Fixpoint skip_loop (fuel : nat) (r : list Z) (p : Z) : option Z :=
  if p <? zlen r then
    match fuel with
    | O => None
    | S fuel =>
        c ← rd r p;
        if c =? 0 then Some (p + 1)
        else if (c &&& 0xC0) =? 0xC0 then Some (p + 2)
        else skip_loop fuel r (p + (1 + c))
    end
  else Some (zlen r).

Definition skip_name (r : list Z) (p : Z) : option Z := skip_loop (length r) r p.

(** [(uint16_t)((p[0] << 8) | p[1])] *)
Definition rd16 (r : list Z) (p : Z) : option Z :=
  a ← rd r p; b ← rd r (p + 1); Some (u16 ((a <<< 8) ||| b)).

(** The answers: [Some (Some ip)] is a return with the address. *)
Fixpoint answers_loop (answers : nat) (r : list Z) (p : Z) : option (option Z) :=
  match answers with
  | O => Some None
  | S answers =>
      if p + 10 <=? zlen r then
        p ← skip_name r p;
        if zlen r <? p + 10 then Some None
        else
          type ← rd16 r p;
          rdlen ← rd16 r (p + 8);
          let rdata := p + 10 in
          if (type =? 1) && (rdlen =? 4) && (rdata + 4 <=? zlen r) then
            a ← rd r rdata; b ← rd r (rdata + 1); c ← rd r (rdata + 2); d ← rd r (rdata + 3);
            Some (Some (bytes_to_ip [a; b; c; d]))
          else answers_loop answers r (rdata + rdlen)
      else Some None
  end.

(** The [n] bytes of the response to the query [id]; [None]: a read outside
    them. *)
Definition dns_parse (id : Z) (r : list Z) : option (option Z) :=
  if zlen r <? 12 then Some None
  else if negb (ntohs (ld16 r 0) =? id) then Some None
  else
    let answers := ntohs (ld16 r 6) in
    if answers <=? 0 then Some None
    else
      p ← skip_name r 12;
      answers_loop (Z.to_nat answers) r (p + 4).

Definition dns_query (id : Z) (qname : list Z) : list Z :=
  le16 (htons id) ++ le16 (htons 0x0100) ++ le16 (htons 1) ++ le16 0 ++ le16 0 ++ le16 0 ++ qname ++ [0; 1; 0; 1].

Section Dns.
Context {N : Type} `{Nic N}.

(** [None] is the result 0. *)
Definition dns_resolve (fuel : nat) (hostname : list Z) : M (N := N) (option Z) :=
  let! s := io_get in
  if negb (net_up s) || (net_dns s =? 0) then io_ret None
  else
    let! t := timer_ticks in
    let id := u16 (t * 40503 + 0x1234) in
    let! t := timer_ticks in
    let sport := u16 (0xC000 ||| (t &&& 0x0FFF)) in
    match encode_name hostname with
    | None => io_ret None
    | Some qname =>
        let! s := io_get in
        let! e := net_send_udp fuel (net_dns s) sport 53 (dns_query id qname) in
        if negb (e =? 0) then io_ret None
        else
          let! r := net_recv_udp fuel sport 512 4000 in
          match r with
          | None => io_ret None
          | Some (_, _, r) =>
              match dns_parse id r with
              | Some res => io_ret res
              | None => io_stuck
              end
          end
    end.
End Dns.

(** ** Names: what is sent, and what skips it *)

(** The labels of a name and their encoding. *)
Definition label_ok (l : list Z) : Prop := 0 < zlen l ≤ 63 ∧ Forall (λ c, 0 < c < 256 ∧ c ≠ DOT) l.

Fixpoint join (labels : list (list Z)) : list Z :=
  match labels with
  | [] => []
  | [l] => l
  | l :: labels => l ++ DOT :: join labels
  end.

Definition wire_labels (labels : list (list Z)) : list Z := concat (map (λ l, zlen l :: l) labels).
Definition wire_name (labels : list (list Z)) : list Z := wire_labels labels ++ [0].

Lemma take_label_app l rest :
  Forall (λ c, c ≠ DOT) l → (rest = [] ∨ ∃ r, rest = DOT :: r) → take_label (l ++ rest) = (l, rest).
Proof.
  intros Hl Hr. induction Hl as [|c l Hc Hl IH]; cbn [app take_label].
  - destruct Hr as [->|[r ->]]; [done|]. cbn. done.
  - destruct (Z.eqb_spec c DOT); [done|]. by rewrite IH.
Qed.

Lemma encode_labels_join labels fuel :
  Forall label_ok labels → (length (join labels) ≤ fuel)%nat → encode_labels fuel (join labels) = Some (wire_labels labels).
Proof.
  revert fuel. induction labels as [|l labels IH]; intros fuel Hok Hf; [by destruct fuel|].
  apply Forall_cons in Hok as [[Hl Hc] Hok].
  assert (Forall (λ c, c ≠ DOT) l) as Hd by (eapply Forall_impl; [exact Hc|]; by intros c []).
  assert (∃ rest, join (l :: labels) = l ++ rest ∧ (rest = [] ∧ labels = [] ∨ rest = DOT :: join labels)) as (rest & E & Hrest).
  { destruct labels as [|l' labels]; [exists []; rewrite app_nil_r; auto|]. eexists. split; [done|auto]. }
  rewrite E in *. destruct l as [|c l]; [unfold zlen in Hl; simpl in Hl; lia|].
  destruct fuel as [|fuel]; [rewrite length_app in Hf; simpl in Hf; lia|].
  cbn [app encode_labels]. change (c :: l ++ rest) with ((c :: l) ++ rest).
  rewrite take_label_app by (try done; destruct Hrest as [[-> _]| ->]; eauto).
  rewrite (proj2 (Z.eqb_neq _ _)), (proj2 (Z.ltb_ge _ _)) by lia. cbn [orb].
  assert (u8 (zlen (c :: l)) = zlen (c :: l)) as Eu by (apply u8_small; zpow; lia).
  assert (encode_labels fuel (match rest with _ :: r => r | [] => [] end) = Some (wire_labels labels)) as ->.
  { destruct Hrest as [[-> ->]| ->]; [by destruct fuel|]. apply IH; [done|].
    rewrite length_app in Hf. simpl in Hf. lia. }
  cbn. rewrite Eu. done.
Qed.

Lemma encode_name_join labels : Forall label_ok labels → encode_name (join labels) = Some (wire_name labels).
Proof. intros Hok. unfold encode_name. by rewrite encode_labels_join. Qed.

(** *** Skipping *)

Lemma rd_lookup r i : 0 ≤ i < zlen r → ∃ c, rd r i = Some c.
Proof.
  intros Hi. unfold rd. rewrite (proj2 (Z.ltb_ge i 0)) by lia.
  apply lookup_lt_is_Some_2. unfold zlen in Hi. lia.
Qed.

Lemma rd_octet r i c : octets r → rd r i = Some c → 0 ≤ c < 256.
Proof.
  intros Ho. unfold rd. destruct (i <? 0); [done|]. intros E. by eapply (Forall_lookup_1 _ _ _ _ Ho).
Qed.

Lemma rd_app_r l1 l2 i : zlen l1 ≤ i → rd (l1 ++ l2) i = rd l2 (i - zlen l1).
Proof.
  intros Hi. unfold rd, zlen in *. rewrite !(proj2 (Z.ltb_ge _ 0)) by lia.
  rewrite lookup_app_r by lia. f_equal. lia.
Qed.

(** With fuel for the bytes left the loop ends, on a position behind where it
    began or the end. *)
Lemma skip_loop_total fuel r p :
  octets r → 0 ≤ p → (Z.to_nat (zlen r - p) ≤ fuel)%nat →
  ∃ q, skip_loop fuel r p = Some q ∧ (p < q ∨ q = zlen r) ∧ 0 ≤ q.
Proof.
  intros Ho. revert p. induction fuel as [|fuel IH]; intros p Hp Hf; cbn [skip_loop].
  - rewrite (proj2 (Z.ltb_ge p (zlen r))) by lia. exists (zlen r). unfold zlen. split_and!; [done|by right|lia].
  - destruct (Z.ltb_spec p (zlen r)); [|exists (zlen r); unfold zlen; split_and!; [done|by right|lia]].
    destruct (rd_lookup r p) as [c Ec]; [lia|]. rewrite Ec. cbn [mbind option_bind].
    pose proof (rd_octet _ _ _ Ho Ec).
    destruct (c =? 0); [exists (p + 1); split_and!; [done|lia|lia]|].
    destruct (_ =? 0xC0); [exists (p + 2); split_and!; [done|lia|lia]|].
    destruct (IH (p + (1 + c))) as (q & Eq & Hq & Hq0); [lia|lia|]. exists q. split_and!; [done|lia|done].
Qed.

Lemma skip_name_total r p :
  octets r → 0 ≤ p → ∃ q, skip_name r p = Some q ∧ (p < q ∨ q = zlen r) ∧ 0 ≤ q.
Proof. intros Ho Hp. apply skip_loop_total; [done|done|]. unfold zlen. lia. Qed.

(** What ends a name on the wire: the empty label, or a pointer to the rest of it. *)
Definition name_end (nm : list Z) : Prop := nm = [0] ∨ ∃ a b, 192 ≤ a < 256 ∧ nm = [a; b].
Definition wire_label (l : list Z) : Prop := 0 < zlen l ≤ 63.

Lemma skip_name_end fuel pre nm rest :
  name_end nm → skip_loop (S fuel) (pre ++ nm ++ rest) (zlen pre) = Some (zlen pre + zlen nm).
Proof.
  intros Hnm. cbn [skip_loop]. assert (0 < zlen nm) by (destruct Hnm as [->|(a & b & _ & ->)]; done).
  rewrite (proj2 (Z.ltb_lt _ _)) by (unfold zlen in *; rewrite !length_app; lia).
  rewrite rd_app_r, Z.sub_diag by lia. destruct Hnm as [->|(a & b & Ha & ->)]; [done|].
  change (rd _ 0) with (Some a). cbn [mbind option_bind]. rewrite (proj2 (Z.eqb_neq a 0)) by lia.
  assert (((a &&& 0xC0) =? 0xC0) = true) as ->; [|done].
  assert (∃ k, a = 192 + k ∧ 0 ≤ k < 64) as (k & -> & Hk) by (exists (a - 192); lia).
  apply Z.eqb_eq. apply (Z.bits_inj_iff (_ &&& _)). intros n'. rewrite Z.land_spec.
  assert (192 + k = 192 ||| k) as ->.
  { rewrite Z.lor_comm. change 192 with (3 * 2 ^ 6). rewrite (lor_disjoint_add k _ 6); [lia|lia|zpow; lia|done]. }
  rewrite Z.lor_spec. destruct (Z.testbit 192 n'); [done|]. apply andb_false_r.
Qed.

Lemma skip_labels labels nm pre rest fuel :
  Forall wire_label labels → name_end nm → (length labels < fuel)%nat →
  skip_loop fuel (pre ++ (wire_labels labels ++ nm) ++ rest) (zlen pre) = Some (zlen pre + zlen (wire_labels labels ++ nm)).
Proof.
  intros Hok Hnm. revert pre fuel. induction labels as [|l labels IH]; intros pre fuel Hf; destruct fuel as [|fuel]; try lia.
  - by apply skip_name_end.
  - apply Forall_cons in Hok as [Hl Hok]. unfold wire_label in Hl.
    change (wire_labels (l :: labels)) with ((zlen l :: l) ++ wire_labels labels).
    rewrite <- !(app_assoc (zlen l :: l)). cbn [skip_loop].
    rewrite (proj2 (Z.ltb_lt _ _)) by (unfold zlen; rewrite !length_app; simpl; lia).
    rewrite rd_app_r, Z.sub_diag by lia. change (rd _ 0) with (Some (zlen l)). cbn [mbind option_bind].
    rewrite (proj2 (Z.eqb_neq (zlen l) 0)) by lia.
    assert (((zlen l &&& 0xC0) =? 0xC0) = false) as ->.
    { assert (Z.testbit (zlen l) 7 = false) as Hb.
      { apply Z.testbit_false; [lia|]. rewrite Z.div_small; [done|]. zpow. lia. }
      apply Z.eqb_neq. intros Heq. apply (f_equal (λ z, Z.testbit z 7)) in Heq.
      rewrite Z.land_spec, Hb in Heq. done. }
    rewrite app_assoc. replace (zlen pre + (1 + zlen l)) with (zlen (pre ++ zlen l :: l)) by (unfold zlen; rewrite length_app; cbn [length]; lia).
    rewrite IH by (done || (cbn in Hf; lia)). f_equal. unfold zlen. rewrite !length_app. cbn [length]. lia.
Qed.

(** ** Responses as servers build them *)

(** A name on the wire: labels of any characters, then the empty label or a
    compression pointer. *)
Definition name_ok (nm : list Z) : Prop :=
  ∃ labels tail, Forall wire_label labels ∧ name_end tail ∧ nm = wire_labels labels ++ tail.

Record rr := RR { rr_name : list Z; rr_type : Z; rr_class_ttl : list Z; rr_data : list Z }.

Definition be16 (v : Z) : list Z := [v / 256; v mod 256].

Definition rr_bytes (x : rr) : list Z :=
  rr_name x ++ be16 (rr_type x) ++ rr_class_ttl x ++ be16 (zlen (rr_data x)) ++ rr_data x.

Definition rr_ok (x : rr) : Prop :=
  name_ok (rr_name x) ∧ 0 ≤ rr_type x < 65536 ∧ length (rr_class_ttl x) = 6%nat ∧ zlen (rr_data x) < 65536 ∧ octets (rr_data x).

(** An address in network order, and that of the first address record. *)
Definition address (l : list Z) : Z := match l with [a; b; c; d] => 16777216 * a + 65536 * b + 256 * c + d | _ => 0 end.

Fixpoint first_a (l : list rr) : option Z :=
  match l with
  | [] => None
  | x :: l => if (rr_type x =? 1) && (zlen (rr_data x) =? 4) then Some (address (rr_data x)) else first_a l
  end.

(** Header, question, answers, and whatever the server adds behind them. *)
Definition dns_response (id : Z) (flags qcount others qname qtail : list Z) (answers : list rr) (more : list Z) : list Z :=
  be16 id ++ flags ++ qcount ++ be16 (zlen answers) ++ others ++ qname ++ qtail ++
  concat (map rr_bytes answers) ++ more.

Lemma length_wire labels : (length labels ≤ length (wire_labels labels))%nat.
Proof.
  induction labels as [|l labels IH]; [done|].
  unfold wire_labels in *. cbn [map concat length]. rewrite length_app. cbn [length]. lia.
Qed.

Lemma skip_name_ok pre nm rest :
  name_ok nm → skip_name (pre ++ nm ++ rest) (zlen pre) = Some (zlen pre + zlen nm).
Proof.
  intros (labels & tail & Hl & Ht & ->). unfold skip_name. apply skip_labels; [done|done|].
  assert (1 ≤ length tail)%nat by (destruct Ht as [->|(a & b & _ & ->)]; simpl; lia).
  rewrite !length_app. pose proof (length_wire labels). lia.
Qed.

(** A header's field in network order is read as it was meant. *)
Lemma ld16_be16 v : 0 ≤ v < 65536 → ntohs ((v / 256) ||| ((v mod 256) <<< 8)) = v.
Proof.
  intros Hv. assert (0 ≤ v / 256 < 256 ∧ 0 ≤ v mod 256 < 256) as [Ha Hb] by zlia.
  rewrite lor_bytes by done. unfold ntohs. rewrite htons_val by done. zlia.
Qed.

Lemma rd_at pre l rest i c : rd l i = Some c → rd (pre ++ l ++ rest) (zlen pre + i) = Some c.
Proof.
  intros E. assert (0 ≤ i) as Hi. { unfold rd in E. destruct (Z.ltb_spec i 0); [done|lia]. }
  rewrite rd_app_r by lia. replace (zlen pre + i - zlen pre) with i by lia.
  unfold rd in *. rewrite (proj2 (Z.ltb_ge i 0)) in * by lia. by apply lookup_app_l_Some.
Qed.

Lemma rd16_at pre v rest : 0 ≤ v < 65536 → rd16 (pre ++ be16 v ++ rest) (zlen pre) = Some v.
Proof.
  intros Hv. unfold rd16. rewrite <- (Z.add_0_r (zlen pre)) at 1.
  rewrite (rd_at pre (be16 v) rest 0 (v / 256)) by done. rewrite (rd_at pre (be16 v) rest 1 (v mod 256)) by done.
  cbn [mbind option_bind]. f_equal. rewrite Z.lor_comm, shiftl_mul by lia.
  rewrite (lor_disjoint_add _ _ 8); [|lia|zlia|zlia]. zlia.
Qed.

Lemma answers_correct answers pre more :
  Forall rr_ok answers →
  answers_loop (length answers) (pre ++ concat (map rr_bytes answers) ++ more) (zlen pre) = Some (first_a answers).
Proof.
  revert pre. induction answers as [|x answers IH]; intros pre Hok; [done|].
  apply Forall_cons in Hok as [(Hn & Ht & Hc & Hd & Hoct) Hok]. cbn [length answers_loop map concat first_a].
  set (rest := concat (map rr_bytes answers) ++ more) in *.
  assert ((rr_bytes x ++ concat (map rr_bytes answers)) ++ more =
    rr_name x ++ be16 (rr_type x) ++ rr_class_ttl x ++ be16 (zlen (rr_data x)) ++ rr_data x ++ rest) as ->.
  { unfold rr_bytes, rest. by rewrite <- !app_assoc. }
  set (data := rr_data x) in *. assert (0 ≤ zlen data) as Hz by (unfold zlen; lia).
  set (all := pre ++ _). set (q := zlen pre + zlen (rr_name x)).
  assert (zlen all = q + 10 + zlen data + zlen rest) as Eall.
  { unfold all, q, zlen. rewrite !length_app, Hc. simpl. lia. }
  assert (0 ≤ zlen rest) by (unfold zlen; lia).
  assert (zlen pre ≤ q) by (unfold q, zlen; lia).
  assert (skip_name all (zlen pre) = Some q) as -> by (by apply skip_name_ok).
  rewrite (proj2 (Z.leb_le (zlen pre + 10) _)) by lia. cbn [mbind option_bind].
  rewrite (proj2 (Z.ltb_ge _ (q + 10))) by lia.
  assert (zlen (pre ++ rr_name x) = q) as Eq by (unfold q, zlen; rewrite length_app; lia).
  assert (rd16 all q = Some (rr_type x)) as ->.
  { unfold all. rewrite app_assoc, <- Eq. by apply rd16_at. }
  assert (rd16 all (q + 8) = Some (zlen data)) as ->.
  { unfold all. replace (q + 8) with (zlen ((pre ++ rr_name x) ++ be16 (rr_type x) ++ rr_class_ttl x))
      by (rewrite <- Eq; unfold zlen; rewrite !length_app, Hc; simpl; lia).
    rewrite app_assoc, (app_assoc (be16 (rr_type x))), (app_assoc (pre ++ rr_name x)). apply rd16_at. lia. }
  cbn [mbind option_bind].
  set (hd := pre ++ rr_name x ++ be16 (rr_type x) ++ rr_class_ttl x ++ be16 (zlen data)).
  assert (all = hd ++ data ++ rest) as Ehd by (unfold all, hd; by rewrite <- !app_assoc).
  assert (zlen hd = q + 10) as Ezhd by (unfold hd, q, zlen; rewrite !length_app, Hc; simpl; lia).
  destruct ((rr_type x =? 1) && (zlen data =? 4)) eqn:Ea.
  - apply andb_prop in Ea as [_ E4]. apply Z.eqb_eq in E4. rewrite (proj2 (Z.leb_le _ _)) by lia.
    destruct data as [|a [|b [|c [|d [|]]]]]; try (unfold zlen in E4; simpl in E4; lia).
    rewrite Ehd, <- Ezhd. rewrite (rd_at hd [a; b; c; d] rest 1 b), (rd_at hd [a; b; c; d] rest 2 c), (rd_at hd [a; b; c; d] rest 3 d) by done.
    rewrite <- (Z.add_0_r (zlen hd)) at 1. rewrite (rd_at hd [a; b; c; d] rest 0 a) by done.
    repeat (apply Forall_cons in Hoct as [? Hoct]). cbn [mbind option_bind address]. by rewrite bytes_to_ip_val.
  - cbn [andb]. rewrite Ehd, app_assoc. replace (q + 10 + zlen data) with (zlen (hd ++ data)) by (unfold zlen in *; rewrite length_app; lia).
    by apply IH.
Qed.

(** C25: the resolver's parser on a response: question and answers with names that
    are spelled out, compressed or both (labels and then a pointer), records of any
    type and length, and anything behind them.  The result is the first address
    record's address, if there is one. *)
Theorem dns_parse_correct id flags qcount others qname qtail answers more :
  0 ≤ id < 65536 → length flags = 2%nat → length qcount = 2%nat → length others = 4%nat →
  name_ok qname → length qtail = 4%nat → Forall rr_ok answers → zlen answers < 65536 →
  dns_parse id (dns_response id flags qcount others qname qtail answers more) = Some (first_a answers).
Proof.
  intros Hid Hf Hq Ho Hn Ht Hok Hl.
  destruct flags as [|f1 [|f2 [|]]]; try discriminate. destruct qcount as [|q1 [|q2 [|]]]; try discriminate.
  destruct others as [|o1 [|o2 [|o3 [|o4 [|]]]]]; try discriminate.
  set (tail := qtail ++ concat (map rr_bytes answers) ++ more).
  set (hdr := be16 id ++ [f1; f2; q1; q2] ++ be16 (zlen answers) ++ [o1; o2; o3; o4]).
  assert (dns_response id [f1; f2] [q1; q2] [o1; o2; o3; o4] qname qtail answers more = hdr ++ qname ++ tail) as -> by done.
  set (r := hdr ++ qname ++ tail). unfold dns_parse.
  assert (12 ≤ zlen r) by (unfold r, zlen; rewrite length_app; simpl; lia).
  rewrite (proj2 (Z.ltb_ge (zlen r) 12)) by lia.
  change (ld16 r 0) with ((id / 256) ||| ((id mod 256) <<< 8)).
  change (ld16 r 6) with ((zlen answers / 256) ||| ((zlen answers mod 256) <<< 8)).
  rewrite !ld16_be16 by (unfold zlen in *; lia).
  rewrite Z.eqb_refl. cbn [negb].
  destruct (Z.leb_spec (zlen answers) 0) as [Hz|Hz].
  { destruct answers; [done|]. unfold zlen in Hz. simpl in Hz. lia. }
  assert (skip_name r 12 = Some (12 + zlen qname)) as -> by (by apply (skip_name_ok hdr)).
  cbn [mbind option_bind]. unfold r, tail.
  replace (12 + zlen qname + 4) with (zlen (hdr ++ qname ++ qtail)) by (unfold zlen; rewrite !length_app, Ht; simpl; lia).
  rewrite (app_assoc qname), (app_assoc hdr). unfold zlen at 1. rewrite Nat2Z.id. by apply answers_correct.
Qed.

(** ** Any response *)

Lemma rd16_total r p : 0 ≤ p → p + 1 < zlen r → ∃ v, rd16 r p = Some v ∧ 0 ≤ v.
Proof.
  intros Hp Hl. destruct (rd_lookup r p) as [a Ea]; [lia|]. destruct (rd_lookup r (p + 1)) as [b Eb]; [lia|].
  unfold rd16. rewrite Ea, Eb. cbn. eexists. split; [done|]. apply u16_range.
Qed.

Lemma answers_total n r p : octets r → 0 ≤ p → ∃ res, answers_loop n r p = Some res.
Proof.
  intros Ho. revert p. induction n as [|n IH]; intros p Hp; cbn [answers_loop]; [by eexists|].
  destruct (p + 10 <=? zlen r); [|by eexists].
  destruct (skip_name_total r p Ho Hp) as (q & -> & _ & Hq). cbn [mbind option_bind].
  destruct (Z.ltb_spec (zlen r) (q + 10)); [by eexists|].
  destruct (rd16_total r q) as (ty & -> & _); [lia|lia|]. destruct (rd16_total r (q + 8)) as (ln & -> & Hln); [lia|lia|].
  cbn [mbind option_bind]. destruct (Z.leb_spec (q + 10 + 4) (zlen r)) as [Hle|Hgt].
  - destruct (_ && _ && _); [|apply IH; lia].
    destruct (rd_lookup r (q + 10)) as [a ->]; [lia|]. destruct (rd_lookup r (q + 10 + 1)) as [b ->]; [lia|].
    destruct (rd_lookup r (q + 10 + 2)) as [c ->]; [lia|]. destruct (rd_lookup r (q + 10 + 3)) as [d ->]; [lia|].
    by eexists.
  - rewrite andb_false_r. apply IH. lia.
Qed.

(** Whatever bytes a response consists of, the parser ends and reads none
    behind those received. *)
Theorem dns_parse_safe id r : octets r → ∃ res, dns_parse id r = Some res.
Proof.
  intros Ho. unfold dns_parse. destruct (zlen r <? 12); [by eexists|]. destruct (negb _); [by eexists|].
  destruct (_ <=? 0); [by eexists|]. destruct (skip_name_total r 12 Ho) as (p & -> & _ & Hp); [lia|].
  cbn. apply answers_total; [done|lia].
Qed.

(** The query carries the name asked for: a host name of labels of one to
    63 characters is encoded as those labels, and skipping the encoded name in
    a message ends right behind it. *)
Theorem dns_name_roundtrip labels pre rest :
  Forall label_ok labels →
  ∃ e, encode_name (join labels) = Some e ∧ e = wire_name labels ∧ skip_name (pre ++ e ++ rest) (zlen pre) = Some (zlen pre + zlen e).
Proof.
  intros Hok. exists (wire_name labels). split; [by apply encode_name_join|]. split; [done|].
  apply skip_name_ok. exists labels, [0]. split; [|by split; [left|]]. eapply Forall_impl; [exact Hok|]. by intros l [? _].
Qed.

(** ** On concrete messages *)

Definition demo_labels : list (list Z) := [[119; 119; 119]; [97; 46 + 1; 98]; [99]].
Definition demo_answers : list rr :=
  [RR [0xC0; 12] 5 [0; 1; 0; 0; 0; 60] [1; 97; 0xC0; 16];
   RR ([2; 97; 46] ++ [0xC0; 12]) 1 [0; 1; 0; 0; 0; 60] [93; 184; 216; 34];
   RR [0xC0; 12] 1 [0; 1; 0; 0; 0; 60] [1; 2; 3; 4]].

Lemma demo_labels_ok : Forall label_ok demo_labels.
Proof. apply (bool_decide_unpack _). vm_compute. exact I. Qed.

Lemma dns_parse_correct_witness :
  dns_parse 0x1234 (dns_response 0x1234 [0x81; 0x80] [0; 1] [0; 0; 0; 0] (wire_name demo_labels) [0; 1; 0; 1] demo_answers [9])
    = Some (Some 0x5DB8D822).
Proof.
  assert (∀ labels, Forall label_ok labels → name_ok (wire_name labels)) as Hn.
  { intros labels Hl. exists labels, [0]. split; [|by split; [left|]]. eapply Forall_impl; [exact Hl|]. by intros l [? _]. }
  rewrite dns_parse_correct; [done|lia|done|done|done|apply Hn, demo_labels_ok|done| |done].
  assert (∀ labels a, Forall wire_label labels → 192 ≤ a < 256 → name_ok (wire_labels labels ++ [a; 12])) as Hp
    by (intros labels a Hl Ha; exists labels, [a; 12]; split; [done|]; split; [right; by exists a, 12|done]).
  assert (∀ nm ty ttl data, name_ok nm → 0 ≤ ty < 65536 → length ttl = 6%nat → zlen data < 65536 → octets data → rr_ok (RR nm ty ttl data)) as Hrr by done.
  apply Forall_cons; split; [|apply Forall_cons; split; [|apply Forall_cons; split; [|by apply Forall_nil]]].
  - apply Hrr; [by apply (Hp [] 192)|lia|done|done|]. apply (bool_decide_unpack _). vm_compute. exact I.
  - apply Hrr; [apply (Hp [[97; 46]] 192); [|done]|lia|done|done|]; apply (bool_decide_unpack _); vm_compute; exact I.
  - apply Hrr; [by apply (Hp [] 192)|lia|done|done|]. apply (bool_decide_unpack _). vm_compute. exact I.
Defined.

Lemma dns_parse_safe_witness : ∃ res, dns_parse 0x1234 (replicate 600 0xFF) = Some res.
Proof. apply dns_parse_safe. apply (bool_decide_unpack _). vm_compute. exact I. Defined.

Lemma dns_name_roundtrip_witness :
  ∃ e, encode_name (join demo_labels) = Some e ∧ skip_name ([7; 7] ++ e ++ [8]) 2 = Some (2 + zlen e).
Proof. destruct (dns_name_roundtrip demo_labels [7; 7] [8] demo_labels_ok) as (e & E & _ & Es). by exists e. Defined.
