(* ===== verification/Dhcp.v ===== *)
(** The DHCP client: net/dhcp.c, over [Net.v].  Options are found as they were
    written, and a lease is applied only from a matching acknowledgement. *)
From Stdlib Require Import ZArith Lia Bool.
From stdpp Require Import base numbers gmap option list.
From S2P Require Import Prelude Io Net NetThm.

#[local] Open Scope Z_scope.
#[local] Open Scope c_scope.
#[local] Open Scope io_scope.

(** ** Messages *)

(** [sizeof(struct dhcp_msg)] and the offsets of its fields. *)
Definition SIZEOF_DHCP_MSG : Z := 548.
Definition OPTIONS : Z := 236.
Definition DHCP_MSG_LEN : Z := 300.
Definition magic : list Z := [0x63; 0x82; 0x53; 0x63].

Definition m_op (m : list Z) : Z := arr_get m 0.
Definition m_xid (m : list Z) : list Z := slice m 4 4.
Definition m_yiaddr (m : list Z) : list Z := slice m 16 4.
Definition m_options (m : list Z) : list Z := drop (Z.to_nat OPTIONS) m.

(** The loop of [find_opt] from index [i]: where the value is, and its length.
    Every turn moves on, so the length is fuel enough. *)
Fixpoint find_loop (fuel : nat) (opt : list Z) (len want i : Z) : option (Z * Z) :=
  match fuel with
  | O => None
  | S fuel =>
      if i + 1 <? len then
        let t := arr_get opt i in
        if t =? 0 then find_loop fuel opt len want (i + 1)
        else if t =? 255 then None
        else
          let l := arr_get opt (i + 1) in
          if t =? want then Some (i + 2, l)
          else find_loop fuel opt len want (i + (2 + l))
      else None
  end.

Definition find_opt (opt : list Z) (len want : Z) : option (Z * Z) :=
  find_loop (Z.to_nat len) opt len want 4.

(** [fill_common] and the options put behind the magic, [DHCP_MSG_LEN] bytes. *)
Definition dhcp_message (xid mac opts : list Z) : list Z :=
  let m := [1; 1; 6; 0] ++ xid ++ le16 0 ++ le16 (htons 0x8000) ++ replicate 16 0 ++
           take 6 mac ++ replicate 10 0 ++ replicate 192 0 ++ magic ++ opts in
  take (Z.to_nat DHCP_MSG_LEN) (m ++ replicate (Z.to_nat DHCP_MSG_LEN) 0).

Definition discover_opts : list Z := [53; 1; 1; 55; 3; 1; 3; 6; 255].
Definition request_opts (offered : Z) (server_id : option (list Z)) : list Z :=
  [53; 1; 3; 50; 4] ++ ip_to_bytes offered ++
  (match server_id with Some id => [54; 4] ++ id | None => [] end) ++ [55; 3; 1; 3; 6; 255].

(** The test of [wait_reply] on the first [n] bytes of the buffer. *)
Definition is_reply (xid : list Z) (want_type : Z) (out : list Z) (n : Z) : bool :=
  if n <? 240 then false
  else if negb (m_op out =? 2) || negb (bool_decide (m_xid out = xid)) then false
  else match find_opt (m_options out) (n - 236) 53 with
       | Some (i, vl) => (1 <=? vl) && (arr_get (m_options out) i =? want_type)
       | None => false
       end.

(** The address in option [want] of the reply, when it has the length asked. *)
Definition opt_ip (reply : list Z) (want : Z) (exact : bool) : option Z :=
  match find_opt (m_options reply) 312 want with
  | Some (i, vl) =>
      if (if exact then vl =? 4 else 4 <=? vl) then Some (bytes_to_ip (slice (m_options reply) i 4)) else None
  | None => None
  end.

(** ** The exchange *)

Section Dhcp.
Context {N : Type} `{Nic N}.
Variable fuel : nat.

(** [net_recv_udp] into the static buffer. *)
Fixpoint reply_wait (n : nat) (xid : list Z) (want_type start limit : Z) (out : list Z) : M (N := N) (bool * list Z) :=
  match n with
  | O => io_stuck
  | S n =>
      let! t := timer_ticks in
      if u32 (t - start) <=? limit then
        let! r := net_recv_udp fuel 68 SIZEOF_DHCP_MSG 500 in
        let data := match r with Some (_, _, d) => d | None => [] end in
        let out := data ++ drop (length data) out in
        if is_reply xid want_type out (zlen data) then io_ret (true, out)
        else reply_wait n xid want_type start limit out
      else io_ret (false, out)
  end.

Definition wait_reply (xid : list Z) (want_type timeout_ms : Z) (out : list Z) : M (N := N) (bool * list Z) :=
  let! hz := get_hz in
  let! start := timer_ticks in
  reply_wait fuel xid want_type start (tick_limit timeout_ms hz) out.

(** Send and wait, until a reply comes or the attempts are used up. *)
Fixpoint exchange (attempts : nat) (xid opts : list Z) (want_type : Z) (out : list Z) : M (N := N) (bool * list Z) :=
  match attempts with
  | O => io_ret (false, out)
  | S attempts =>
      let! s := io_get in
      net_send_udp fuel IP_BROADCAST 68 67 (dhcp_message xid (net_mac s) opts) ;!
      let! r := wait_reply xid want_type 1000 out in
      if r.1 then io_ret r else exchange attempts xid opts want_type r.2
  end.

(** [net_ip = ...; if (...) net_mask = ...; ...; net_up = 1] *)
Definition apply_lease (reply : list Z) (s : net N) : net N :=
  with_config (net_mac s) (bytes_to_ip (m_yiaddr reply))
    (default (net_gateway s) (opt_ip reply 3 false))
    (default (net_dns s) (opt_ip reply 6 false))
    (default (net_mask s) (opt_ip reply 1 true)) true s.

Definition xid_of (x : Z) : list Z := [u8 x; u8 (x >>> 8); u8 (x >>> 16); u8 (x >>> 24)].

(** [reply] is the static buffer's contents before the call; the result and its
    contents after. *)
Definition dhcp_configure (reply : list Z) : M (N := N) (Z * list Z) :=
  let! s := io_get in
  if negb (nic_present (nic s)) then io_ret (0, reply)
  else
    io_put (λ s, with_nic (nic_reset_rx (nic s)) s) ;!
    io_put (λ s, with_config (net_mac s) 0 0 0 0 false s) ;!
    let! t := timer_ticks in
    let xid := xid_of (u32 (t * 2654435761 + 0x9139)) in
    let! r := exchange 8 xid discover_opts 2 reply in
    if negb r.1 then io_ret (0, r.2)
    else
      let offered := bytes_to_ip (m_yiaddr r.2) in
      let server_id := match find_opt (m_options r.2) 312 54 with
                       | Some (i, vl) => if vl =? 4 then Some (slice (m_options r.2) i 4) else None
                       | None => None
                       end in
      let! r := exchange 8 xid (request_opts offered server_id) 5 r.2 in
      if negb r.1 then io_ret (0, r.2)
      else io_put (apply_lease r.2) ;! io_ret (1, r.2).
End Dhcp.

(** ** Options *)

(** An options area: the magic, pads and options, and what ends it. *)
Inductive item := Pad | Opt (tag : Z) (value : list Z).

Definition item_bytes (x : item) : list Z :=
  match x with Pad => [0] | Opt t v => t :: zlen v :: v end.

Definition item_ok (x : item) : Prop :=
  match x with Pad => True | Opt t v => 0 < t < 255 ∧ zlen v < 256 end.

(** Where the first option [want] has its value, from index [i]. *)
Fixpoint first_opt (want i : Z) (l : list item) : option (Z * Z) :=
  match l with
  | [] => None
  | Pad :: l => first_opt want (i + 1) l
  | Opt t v :: l => if t =? want then Some (i + 2, zlen v) else first_opt want (i + (2 + zlen v)) l
  end.

Definition options_area (l : list item) (rest : list Z) : list Z :=
  magic ++ concat (map item_bytes l) ++ 255 :: rest.

Lemma arr_get_app_at pre l : arr_get (pre ++ l) (zlen pre) = arr_get l 0.
Proof.
  unfold arr_get, zlen. rewrite (proj2 (Z.ltb_ge _ 0)) by lia. rewrite Nat2Z.id, lookup_app_r by lia.
  by rewrite Nat.sub_diag.
Qed.

Lemma find_loop_items fuel want l pre rest :
  Forall item_ok l → 0 < want < 255 → (length l < fuel)%nat → rest ≠ [] →
  find_loop fuel (pre ++ concat (map item_bytes l) ++ 255 :: rest) (zlen (pre ++ concat (map item_bytes l) ++ 255 :: rest)) want (zlen pre)
    = first_opt want (zlen pre) l.
Proof.
  intros Hok Hw. revert fuel pre. induction l as [|x l IH]; intros fuel pre Hf Hr; destruct fuel as [|fuel]; try (simpl in Hf; lia); cbn [find_loop].
  - cbn [map concat app first_opt]. rewrite arr_get_app_at. change (arr_get (255 :: rest) 0) with 255.
    by destruct (_ <? _).
  - apply Forall_cons in Hok as [Hx Hok]. specialize (IH Hok). cbn [map concat first_opt]. rewrite <- (app_assoc (item_bytes x)).
    assert (0 < zlen rest) as Hr0 by (destruct rest; [done|unfold zlen; simpl; lia]).
    rewrite (proj2 (Z.ltb_lt _ _)) by (unfold zlen in *; rewrite !length_app; destruct x; simpl; lia).
    rewrite arr_get_app_at. rewrite (app_assoc pre (item_bytes x)). destruct x as [|t v].
    + change (arr_get (item_bytes Pad ++ _) 0) with 0. cbn [Z.eqb].
      replace (zlen pre + 1) with (zlen (pre ++ item_bytes Pad)) by (unfold zlen; rewrite length_app; simpl; lia).
      apply IH; [simpl in Hf; lia|done].
    + destruct Hx as [Ht Hv]. change (arr_get (item_bytes (Opt t v) ++ _) 0) with t.
      rewrite (proj2 (Z.eqb_neq t 0)), (proj2 (Z.eqb_neq t 255)) by lia.
      set (tl := concat _ ++ _). assert (arr_get ((pre ++ item_bytes (Opt t v)) ++ tl) (zlen pre + 1) = zlen v) as ->.
      { cbn [item_bytes]. replace ((pre ++ t :: zlen v :: v) ++ tl) with ((pre ++ [t]) ++ zlen v :: v ++ tl) by (rewrite <- !app_assoc; done).
        replace (zlen pre + 1) with (zlen (pre ++ [t])) by (unfold zlen; rewrite length_app; simpl; lia).
        by rewrite arr_get_app_at. }
      destruct (t =? want); [done|].
      replace (zlen pre + (2 + zlen v)) with (zlen (pre ++ item_bytes (Opt t v))) by (unfold zlen; rewrite length_app; simpl; lia).
      apply IH; [simpl in Hf; lia|done].
Qed.

Lemma items_length l : (length l ≤ length (concat (map item_bytes l)))%nat.
Proof. induction l as [|[|] l IH]; cbn [map concat length]; rewrite ?length_app; cbn [item_bytes length]; lia. Qed.

(** The value found is the option's value. *)
Lemma first_opt_value want pre l rest i n :
  Forall item_ok l → first_opt want (zlen pre) l = Some (i, n) →
  ∃ v, Opt want v ∈ l ∧ n = zlen v ∧ slice (pre ++ concat (map item_bytes l) ++ rest) i n = v.
Proof.
  revert pre. induction l as [|x l IH]; intros pre Hok E; [done|].
  apply Forall_cons in Hok as [Hx Hok]. cbn [map concat]. rewrite <- (app_assoc (item_bytes x)), (app_assoc pre).
  destruct x as [|t v]; cbn [first_opt] in E.
  - replace (zlen pre + 1) with (zlen (pre ++ item_bytes Pad)) in E by (unfold zlen; rewrite length_app; simpl; lia).
    destruct (IH _ Hok E) as (w & Hin & Hn & Hs). exists w. split; [by apply list_elem_of_further|done].
  - destruct (Z.eqb_spec t want) as [->|Ht].
    + injection E as <- <-. exists v. split; [by apply list_elem_of_here|]. split; [done|].
      unfold slice. replace ((pre ++ item_bytes (Opt want v)) ++ concat (map item_bytes l) ++ rest)
        with ((pre ++ [want; zlen v]) ++ v ++ concat (map item_bytes l) ++ rest) by (rewrite <- !app_assoc; done).
      rewrite drop_app_length' by (unfold zlen; rewrite length_app; simpl; lia).
      by rewrite take_app_length' by (unfold zlen; lia).
    + replace (zlen pre + (2 + zlen v)) with (zlen (pre ++ item_bytes (Opt t v))) in E by (unfold zlen; rewrite length_app; simpl; lia).
      destruct (IH _ Hok E) as (w & Hin & Hn & Hs). exists w. split; [by apply list_elem_of_further|done].
Qed.

(** The value of the first option [want]. *)
Fixpoint first_value (want : Z) (l : list item) : option (list Z) :=
  match l with
  | [] => None
  | Pad :: l => first_value want l
  | Opt t v :: l => if t =? want then Some v else first_value want l
  end.

Lemma first_opt_none want i l : first_value want l = None ↔ first_opt want i l = None.
Proof.
  revert i. induction l as [|[|t v] l IH]; intros i; cbn; [done|apply IH|]. destruct (t =? want); [done|apply IH].
Qed.

Lemma first_opt_some want pre l rest v :
  first_value want l = Some v →
  ∃ i, first_opt want (zlen pre) l = Some (i, zlen v) ∧
    slice (pre ++ concat (map item_bytes l) ++ rest) i (zlen v) = v.
Proof.
  revert pre. induction l as [|x l IH]; intros pre E; [done|]. cbn [map concat].
  rewrite <- (app_assoc (item_bytes x)), (app_assoc pre). destruct x as [|t w]; cbn [first_opt first_value] in *.
  - replace (zlen pre + 1) with (zlen (pre ++ item_bytes Pad)) by (unfold zlen; rewrite length_app; simpl; lia). by apply IH.
  - destruct (Z.eqb_spec t want) as [->|Ht].
    + injection E as ->. eexists. split; [done|]. unfold slice.
      replace ((pre ++ item_bytes (Opt want v)) ++ concat (map item_bytes l) ++ rest)
        with ((pre ++ [want; zlen v]) ++ v ++ concat (map item_bytes l) ++ rest) by (rewrite <- !app_assoc; done).
      rewrite drop_app_length' by (unfold zlen; rewrite length_app; simpl; lia).
      by rewrite take_app_length' by (unfold zlen; lia).
    + replace (zlen pre + (2 + zlen w)) with (zlen (pre ++ item_bytes (Opt t w))) by (unfold zlen; rewrite length_app; simpl; lia).
      by apply IH.
Qed.

(** [find_opt] on an options area as servers write it, padding included,
    finds exactly the first option asked for: it returns no pointer when there
    is none, and otherwise the option's length and a pointer to its value. *)
Theorem find_opt_correct want l rest :
  Forall item_ok l → 0 < want < 255 → rest ≠ [] →
  let area := options_area l rest in
  match first_value want l with
  | None => find_opt area (zlen area) want = None
  | Some v => ∃ i, find_opt area (zlen area) want = Some (i, zlen v) ∧ slice area i (zlen v) = v
  end.
Proof.
  intros Hok Hw Hr area.
  assert (find_opt area (zlen area) want = first_opt want 4 l) as ->.
  { apply (find_loop_items _ want l magic rest Hok Hw); [|done].
    unfold area, options_area, zlen. rewrite Nat2Z.id, !length_app. pose proof (items_length l). simpl. lia. }
  destruct (first_value want l) as [v|] eqn:E.
  - by apply (first_opt_some want magic).
  - by apply first_opt_none.
Qed.

(** ** What a reply says

    The reading of a message that RFC 2131 and 2132 give: the options follow the
    236 bytes of the fixed part and the four of the cookie; 0 pads, 255 ends, any
    other tag is followed by the length of its value and the value. *)
Definition byte (x : Z) : Prop := 0 ≤ x < 256.

(** The length of the first option [want] and the bytes from its value on. *)
Fixpoint option_in (n : nat) (area : list Z) (want : Z) : option (Z * list Z) :=
  match n, area with
  | S n, tag :: len :: rest =>
      if tag =? 0 then option_in n (len :: rest) want
      else if tag =? 255 then None
      else if tag =? want then Some (len, rest)
      else option_in n (drop (Z.to_nat len) rest) want
  | _, _ => None
  end.
Definition option_value (reply : list Z) (want : Z) : option (Z * list Z) := option_in 308 (drop 240 reply) want.

(** An address in network order. *)
Definition address (l : list Z) : Z :=
  16777216 * arr_get l 0 + 65536 * arr_get l 1 + 256 * arr_get l 2 + arr_get l 3.

(** A server's acknowledgement (message type 5) in the transaction [xid]. *)
Definition acknowledges (xid reply : list Z) : Prop :=
  arr_get reply 0 = 2 ∧ slice reply 4 4 = xid ∧ ∃ len rest, option_value reply 53 = Some (len, 5 :: rest) ∧ 1 ≤ len.

(** The address an option of an acceptable length grants, or none. *)
Definition granted (reply : list Z) (want : Z) (fits : Z → bool) : Z :=
  match option_value reply want with Some (len, rest) => if fits len then address rest else 0 | None => 0 end.

Lemma find_loop_more fuel fuel' opt len len' want i x :
  (fuel ≤ fuel')%nat → len ≤ len' → find_loop fuel opt len want i = Some x → find_loop fuel' opt len' want i = Some x.
Proof.
  revert fuel' i. induction fuel as [|fuel IH]; intros fuel' i Hf Hl E; [done|]. destruct fuel' as [|fuel']; [lia|].
  cbn [find_loop] in *. destruct (Z.ltb_spec (i + 1) len); [|done]. rewrite (proj2 (Z.ltb_lt _ _)) by lia.
  destruct (_ =? 0); [apply IH; lia || done|]. destruct (_ =? 255); [done|]. destruct (_ =? want); [done|apply IH; lia || done].
Qed.

Lemma drop_cons (l : list Z) i : 0 ≤ i < zlen l → drop (Z.to_nat i) l = arr_get l i :: drop (Z.to_nat (i + 1)) l.
Proof.
  intros Hi. unfold zlen in Hi. destruct (lookup_lt_is_Some_2 l (Z.to_nat i)) as [x E]; [lia|].
  rewrite (arr_get_lookup l i x) by (lia || done). rewrite (drop_S _ x) by done. do 2 f_equal. lia.
Qed.

(** The driver's search by index reads the same options. *)
Lemma find_loop_option fuel k opt want i :
  Forall byte opt → 0 ≤ i → zlen opt - i ≤ Z.of_nat fuel → zlen opt - i ≤ Z.of_nat k →
  option_in k (drop (Z.to_nat i) opt) want =
  (λ '(j, l), (l, drop (Z.to_nat j) opt)) <$> find_loop fuel opt (zlen opt) want i.
Proof.
  intros Hb. revert k i. induction fuel as [|fuel IH]; intros k i Hi Hf Hk.
  - rewrite drop_ge by (unfold zlen in *; lia). by destruct k.
  - cbn [find_loop]. destruct (Z.ltb_spec (i + 1) (zlen opt)).
    2: { destruct (Z.eq_dec (i + 1) (zlen opt)).
      - rewrite drop_cons by lia. rewrite drop_ge by (unfold zlen in *; lia). by destruct k.
      - rewrite drop_ge by (unfold zlen in *; lia). by destruct k. }
    assert (byte (arr_get opt (i + 1))) as Hl by (apply arr_get_Forall; [unfold byte; lia|done]). unfold byte in Hl.
    destruct k as [|k]; [lia|]. pose proof (drop_cons opt (i + 1) ltac:(lia)) as E1. replace (i + 1 + 1) with (i + 2) in E1 by lia.
    rewrite (drop_cons opt i), E1 by lia. cbn [option_in].
    destruct (_ =? 0); [rewrite <- E1; apply IH; lia|]. destruct (_ =? 255); [done|]. destruct (_ =? want); [done|].
    rewrite drop_drop. replace (Z.to_nat (i + 2) + Z.to_nat (arr_get opt (i + 1)))%nat with (Z.to_nat (i + (2 + arr_get opt (i + 1)))) by lia.
    apply IH; lia.
Qed.

Lemma address_slice i (l : list Z) : Forall byte l → bytes_to_ip (slice l i 4) = address (drop (Z.to_nat i) l).
Proof.
  intros Hb. unfold slice. apply (Forall_drop _ (Z.to_nat i)) in Hb. revert Hb. generalize (drop (Z.to_nat i) l). intros k Hb.
  assert (∀ j, 0 ≤ j < 4 → arr_get (take (Z.to_nat 4) k) j = arr_get k j) as E.
  { intros j Hj. unfold arr_get. rewrite (proj2 (Z.ltb_ge j 0)) by lia. by rewrite lookup_take_lt by lia. }
  assert (∀ j, byte (arr_get k j)) as Hj by (intros j; apply arr_get_Forall; [unfold byte; lia|done]). unfold byte in Hj.
  unfold bytes_to_ip, address. rewrite !E by lia. pose proof (Hj 0). pose proof (Hj 1). pose proof (Hj 2). pose proof (Hj 3).
  rewrite !u32_small by (rewrite shiftl_mul by lia; zpow; lia). by rewrite lor4_bytes.
Qed.

Section Replies.
Context (reply : list Z) (Hlen : length reply = 548%nat) (Hbytes : Forall byte reply).

Lemma options_zlen : zlen (m_options reply) = 312.
Proof using All. unfold m_options, zlen. rewrite length_drop, Hlen. done. Qed.

Lemma find_opt_value want :
  option_value reply want = (λ '(j, l), (l, drop (Z.to_nat j) (m_options reply))) <$> find_opt (m_options reply) 312 want.
Proof using All.
  unfold option_value, find_opt. pose proof options_zlen as Ez.
  replace (drop 240 reply) with (drop (Z.to_nat 4) (m_options reply)) by (unfold m_options; by rewrite drop_drop).
  rewrite <- Ez at 2. apply find_loop_option; [by apply Forall_drop|lia|lia|]. rewrite Ez. lia.
Qed.

Lemma opt_ip_granted want (exact : bool) :
  default 0 (opt_ip reply want exact) = granted reply want (if exact then Z.eqb 4 else Z.leb 4).
Proof using All.
  unfold granted, opt_ip. rewrite find_opt_value. destruct (find_opt _ 312 want) as [[j l]|]; cbn; [|done].
  rewrite <- address_slice by (by apply Forall_drop). destruct exact; [rewrite Z.eqb_sym|]; by destruct (_ : bool).
Qed.

Lemma yiaddr_address : bytes_to_ip (m_yiaddr reply) = address (drop 16 reply).
Proof using All. by apply address_slice. Qed.

Lemma reply_acknowledges xid n : n ≤ 548 → is_reply xid 5 reply n = true → acknowledges xid reply.
Proof using All.
  intros Hn. unfold is_reply, acknowledges, m_op, m_xid. destruct (n <? 240); [done|].
  destruct (Z.eqb_spec (arr_get reply 0) 2); [|done]. cbn [negb orb]. case_bool_decide; [|done]. cbn [negb].
  destruct (find_opt _ (n - 236) 53) as [[j l]|] eqn:E; [|done]. rewrite andb_true_iff, Z.leb_le, Z.eqb_eq. intros [Hl Ht].
  split; [done|]. split; [done|]. rewrite find_opt_value. unfold find_opt in *.
  apply (find_loop_more _ (Z.to_nat 312) _ _ 312) in E; [|lia..]. rewrite E. cbn [fmap option_fmap option_map].
  assert (0 ≤ j < zlen (m_options reply)) as Hj.
  { unfold arr_get, zlen in *. destruct (Z.ltb_spec j 0); [done|]. destruct (m_options reply !! Z.to_nat j) eqn:Ej; [|done].
    apply lookup_lt_Some in Ej. lia. }
  rewrite (drop_cons _ j Hj), Ht. by eexists _, _.
Qed.
End Replies.

(** ** Leases *)

Section Lease.
Context {N : Type} `{Nic N}.

Definition config (s : net N) : list Z * Z * Z * Z * Z * bool :=
  (net_mac s, net_ip s, net_gateway s, net_dns s, net_mask s, net_up s).
Definition configured (c : list Z * Z * Z * Z * Z * bool) (s : net N) : Prop := config s = c.

#[local] Instance configured_stable c : Stable (configured c).
Proof. split; done. Qed.

Context (fuel : nat).

(** A reply the client takes, in the static buffer. *)
Definition taken (xid : list Z) (want_type : Z) (r : bool * list Z) : Prop :=
  length r.2 = 548%nat ∧ (r.1 = true → ∃ n, n ≤ 548 ∧ is_reply xid want_type r.2 n = true).

Lemma ticks_read c s : configured c s → ilp timer_ticks (λ s' t, configured c s' ∧ t = (nic_ticks (nic s)).2) s.
Proof using Type.
  intros Hs s' t E. unfold timer_ticks in E. destruct (nic_ticks (nic s)) as [n x]. by injection E as <- <-.
Qed.

Lemma udp_input_fits port maxlen r sport data : 0 ≤ maxlen → udp_input port maxlen r = Some (sport, data) → zlen data ≤ maxlen.
Proof using Type.
  intros Hm. unfold udp_input. destruct (_ && _); [|done].
  match goal with |- context [ if maxlen <? ?x then _ else _ ] => generalize x end. intros x [= _ <-].
  unfold slice, zlen. rewrite length_take. destruct (Z.ltb_spec maxlen x); lia.
Qed.

Lemma recv_udp_fits c port maxlen timeout :
  0 ≤ maxlen → keeps (configured c) (λ r, ∀ a p d, r = Some (a, p, d) → zlen d ≤ maxlen) (net_recv_udp fuel port maxlen timeout).
Proof using All.
  intros Hm. unfold net_recv_udp. eapply (keeps_bind _ any); [apply keeps_hz; typeclasses eauto|]. intros hz _.
  eapply (keeps_bind _ any); [apply keeps_ticks; typeclasses eauto|]. intros start _. generalize fuel at 2. intros k.
  induction k as [|k IH]; cbn [recv_udp_wait]; [apply keeps_stuck|].
  eapply (keeps_bind _ any); [apply keeps_ticks; typeclasses eauto|]. intros t _. apply keeps_if; [|by apply keeps_ret].
  eapply (keeps_bind _ any); [eapply keeps_weaken; [apply keeps_poll; typeclasses eauto|done]|]. intros r _.
  assert (keeps (configured c) (λ r, ∀ a p d, r = Some (a, p, d) → zlen d ≤ maxlen)
    (net_wait;! recv_udp_wait fuel k port maxlen start (tick_limit timeout hz))) as Hw.
  { eapply (keeps_bind _ any); [apply keeps_wait; typeclasses eauto|]. by intros ? _. }
  destruct r as [r|]; [|exact Hw]. destruct (udp_input port maxlen r) as [[sport data]|] eqn:E; [|exact Hw].
  apply keeps_ret. intros a p d [= _ _ <-]. by eapply udp_input_fits.
Qed.

Lemma exchange_keeps attempts xid opts want_type out c :
  length out = 548%nat → keeps (configured c) (taken xid want_type) (exchange fuel attempts xid opts want_type out).
Proof using All.
  revert out. induction attempts as [|n IH]; intros out Ho; cbn [exchange]; [by apply keeps_ret|].
  apply keeps_get. intros x Hx. eapply (keeps_bind _ any); [apply keeps_send_udp; typeclasses eauto|]. intros r0 _.
  eapply (keeps_bind _ (taken xid want_type)).
  - unfold wait_reply. eapply (keeps_bind _ any); [apply keeps_hz; typeclasses eauto|]. intros hz _.
    eapply (keeps_bind _ any); [apply keeps_ticks; typeclasses eauto|]. intros start _. generalize fuel at 2. intros k. revert out Ho.
    induction k as [|k IHk]; intros out Ho; cbn [reply_wait]; [apply keeps_stuck|].
    eapply (keeps_bind _ any); [apply keeps_ticks; typeclasses eauto|]. intros t _. apply keeps_if; [|by apply keeps_ret].
    eapply keeps_bind; [by apply (recv_udp_fits c 68 SIZEOF_DHCP_MSG 500)|]. intros r Hr. cbv zeta. cbv beta in Hr.
    set (data := match r with Some (_, _, d) => d | None => [] end).
    assert (zlen data ≤ 548) as Hd by (destruct r as [[[? ?] d]|]; [by eapply Hr|done]). clearbody data. clear Hr.
    assert (length (data ++ drop (length data) out) = 548%nat) as Hl by (unfold zlen in Hd; rewrite length_app, length_drop; lia).
    destruct (is_reply _ _ _ _) eqn:E; [|by apply IHk]. apply keeps_ret. split; [done|]. intros _. by eexists.
  - intros r [Hl Hr]. destruct r.1 eqn:E; [apply keeps_ret; split; [done|by rewrite E]|by apply IH].
Qed.

(** The identifier of a transaction: four bytes that the call draws from the clock at
    its beginning, after it has restarted the receiver. *)
Definition transaction (s : net N) : list Z :=
  let x := ((nic_ticks (nic_reset_rx (nic s))).2 * 2654435761 + 37177) mod 2 ^ 32 in
  [x mod 256; x / 256 mod 256; x / 65536 mod 256; x / 16777216].

Definition lease_post (s : net N) (r : Z) (reply' : list Z) (s' : net N) : Prop :=
  (r = 1 ∧ net_up s' = true ∧ length reply' = 548%nat ∧
     (Forall byte reply' → acknowledges (transaction s) reply' ∧
        net_ip s' = address (drop 16 reply') ∧ net_mask s' = granted reply' 1 (Z.eqb 4) ∧
        net_gateway s' = granted reply' 3 (Z.leb 4) ∧ net_dns s' = granted reply' 6 (Z.leb 4))) ∨
  (r = 0 ∧ nic_present (nic s) = true ∧ net_up s' = false ∧ net_ip s' = 0 ∧ net_dns s' = 0) ∨
  (r = 0 ∧ nic_present (nic s) = false ∧ s' = s).

Lemma xid_transaction s : xid_of (u32 ((nic_ticks (nic_reset_rx (nic s))).2 * 2654435761 + 0x9139)) = transaction s.
Proof using Type.
  unfold transaction, xid_of. change (u32 ?x) with (x mod 2 ^ 32). set (x := _ mod 2 ^ 32).
  assert (0 ≤ x < 2 ^ 32) as Hx by (apply Z.mod_pos_bound; lia). clearbody x. rewrite !shiftr_div by lia.
  rewrite (u8_small (x / 2 ^ 24)) by zlia. done.
Qed.

(** Every message of the exchange carries the identifier it is given. *)
Lemma message_xid xid mac opts : length xid = 4%nat → slice (dhcp_message xid mac opts) 4 4 = xid.
Proof using Type. intros Hx. do 5 (destruct xid as [|? xid]; try done). Qed.

End Lease.

(** ** A server's answers *)

Definition demo_items (type : Z) : list item :=
  [Opt 53 [type]; Opt 54 [10; 0; 2; 2]; Pad; Opt 1 [255; 255; 255; 0]; Opt 3 [10; 0; 2; 2]; Opt 6 [10; 0; 2; 3]].

Definition demo_reply (type : Z) : list Z :=
  [2; 1; 6; 0] ++ xid_of (u32 (2654435761 * 0 + 0x9139)) ++ replicate 8 0 ++ [10; 0; 2; 15] ++ replicate 216 0 ++
  options_area (demo_items type) (replicate 20 0).

Definition demo_frame (type : Z) : list Z :=
  eth_frame bcast_mac bcast_mac ETH_IPV4 (ip_packet 0 IP_PROTO_UDP 0x0A000202 IP_BROADCAST (udp_segment 67 68 (demo_reply type))).

Lemma find_opt_correct_witness :
  ∃ i, find_opt (options_area (demo_items 2) [0]) (zlen (options_area (demo_items 2) [0])) 3 = Some (i, 4) ∧
       slice (options_area (demo_items 2) [0]) i 4 = [10; 0; 2; 2].
Proof.
  apply (find_opt_correct 3 (demo_items 2) [0]); [|lia|done].
  repeat (apply Forall_cons; split; [done|]). by apply Forall_nil.
Defined.

