(* ===== verification/Pic.v ===== *)
(** The interrupt controller: cpu/pic.c, over the machine's ports. *)
From Stdlib Require Import ZArith Lia Bool.
From stdpp Require Import base numbers gmap option list.
From S2P Require Import Prelude Io.

#[local] Open Scope Z_scope.
#[local] Open Scope c_scope.
#[local] Open Scope io_scope.

Definition PIC1_CMD : Z := 0x20.
Definition PIC1_DATA : Z := 0x21.
Definition PIC2_CMD : Z := 0xA0.
Definition PIC2_DATA : Z := 0xA1.
Definition PIC_EOI : Z := 0x20.
Definition ICW1_INIT : Z := 0x11.
Definition ICW4_8086 : Z := 0x01.
Definition PIC1_VECTOR : Z := 0x20.
Definition PIC2_VECTOR : Z := 0x28.

Section Pic.
Context {S H : Type} `{Ports H} `{!HasHw S H}.

(** [outb(port, v); io_wait();] *)
Definition outb_wait (port v : Z) : IO S unit := outb port v ;! io_wait.

Definition pic_remap : IO S unit :=
  let! mask1 := inb PIC1_DATA in
  let! mask2 := inb PIC2_DATA in
  outb_wait PIC1_CMD ICW1_INIT ;!
  outb_wait PIC2_CMD ICW1_INIT ;!
  outb_wait PIC1_DATA PIC1_VECTOR ;!
  outb_wait PIC2_DATA PIC2_VECTOR ;!
  outb_wait PIC1_DATA 0x04 ;!
  outb_wait PIC2_DATA 0x02 ;!
  outb_wait PIC1_DATA ICW4_8086 ;!
  outb_wait PIC2_DATA ICW4_8086 ;!
  outb PIC1_DATA mask1 ;!
  outb PIC2_DATA mask2.

Definition pic_send_eoi (irq : Z) : IO S unit :=
  (if 8 <=? irq then outb PIC2_CMD PIC_EOI else io_ret tt) ;!
  outb PIC1_CMD PIC_EOI.

Definition pic_port (irq : Z) : Z := if irq <? 8 then PIC1_DATA else PIC2_DATA.
Definition pic_bit (irq : Z) : Z := u8 (if irq <? 8 then irq else irq - 8).

Definition pic_unmask (irq : Z) : IO S unit :=
  let! v := inb (pic_port irq) in
  outb (pic_port irq) (v &&& Z.lnot (1 <<< pic_bit irq)).

Definition pic_mask (irq : Z) : IO S unit :=
  let! v := inb (pic_port irq) in
  outb (pic_port irq) (v ||| (1 <<< pic_bit irq)).
End Pic.
