(* ===== verification/Keyboard.v ===== *)
(** The PS/2 keyboard: drivers/keyboard.c.  Scancodes become characters in a ring
    buffer that behaves as a queue of 127. *)
From Stdlib Require Import ZArith Lia Bool Ascii String.
From stdpp Require Import base numbers gmap option list.
From S2P Require Import Prelude Io Pic.

#[local] Open Scope Z_scope.
#[local] Open Scope c_scope.
#[local] Open Scope io_scope.

(** ** drivers/keyboard.c *)

Definition PS2_DATA : Z := 0x60.
Definition PS2_STATUS : Z := 0x64.

Definition KEY_UP : Z := 0x11.
Definition KEY_DOWN : Z := 0x12.
Definition KEY_LEFT : Z := 0x13.
Definition KEY_RIGHT : Z := 0x14.
Definition KEY_HOME : Z := 0x15.
Definition KEY_END : Z := 0x16.
Definition KEY_PGUP : Z := 0x17.
Definition KEY_PGDN : Z := 0x18.
Definition KEY_DEL : Z := 0x19.

(** An array of 128 characters from its designated initialisers, a run of
    consecutive codes at a time. *)
Definition codes (runs : list (Z * list Z)) : list Z :=
  foldl (λ a '(i, cs), foldl (λ a '(j, c), arr_set a (i + j) c) a (zip (seqZ 0 (zlen cs)) cs)) (replicate 128 0) runs.

Definition keymap : list Z := Eval vm_compute in codes
  [(0x01, [27]); (0x02, str "1234567890-="); (0x0E, [8; 9]);
   (0x10, str "qwertyuiop[]"); (0x1C, [10]); (0x1E, str "asdfghjkl;'`"); (0x2B, [92]);
   (0x2C, str "zxcvbnm,./"); (0x37, str "*"); (0x39, str " ");
   (0x47, str "789-456+1230.")].

Definition keymap_shift : list Z := Eval vm_compute in codes
  [(0x01, [27]); (0x02, str "!@#$%^&*()_+"); (0x0E, [8; 9]);
   (0x10, str "QWERTYUIOP{}"); (0x1C, [10]); (0x1E, str "ASDFGHJKL:"); (0x28, [34; 126]); (0x2B, str "|");
   (0x2C, str "ZXCVBNM<>?"); (0x37, str "*"); (0x39, str " ")].

Definition KBD_BUF_SIZE : Z := 128.

Record keyboard (H : Type) := MkKeyboard {
  kb_hw : H;
  shift_down : bool;
  caps_lock : bool;
  extended : bool;
  kbd_buf : list Z;
  kbd_head : Z;
  kbd_tail : Z
}.
Arguments MkKeyboard {H}. Arguments kb_hw {H}. Arguments shift_down {H}. Arguments caps_lock {H}.
Arguments extended {H}. Arguments kbd_buf {H}. Arguments kbd_head {H}. Arguments kbd_tail {H}.

#[export] Instance keyboard_hw {H} : HasHw (keyboard H) H.
Proof.
  refine {| get_hw := kb_hw;
    set_hw h k := MkKeyboard h (shift_down k) (caps_lock k) (extended k) (kbd_buf k) (kbd_head k) (kbd_tail k) |}.
  done.
Defined.

Definition with_mods {H} (sh caps ext : bool) (k : keyboard H) : keyboard H :=
  MkKeyboard (kb_hw k) sh caps ext (kbd_buf k) (kbd_head k) (kbd_tail k).
Definition with_ring {H} (buf : list Z) (head tail : Z) (k : keyboard H) : keyboard H :=
  MkKeyboard (kb_hw k) (shift_down k) (caps_lock k) (extended k) buf head tail.

Definition kbd_enqueue {H} (c : Z) (k : keyboard H) : keyboard H :=
  let next := (kbd_head k + 1) mod KBD_BUF_SIZE in
  if negb (next =? kbd_tail k) then with_ring (arr_set (kbd_buf k) (kbd_head k) c) next (kbd_tail k) k else k.

(** The codes delivered for keys behind the prefix byte. *)
Definition extended_key (sc : Z) : option Z :=
  if sc =? 0x48 then Some KEY_UP
  else if sc =? 0x50 then Some KEY_DOWN
  else if sc =? 0x4B then Some KEY_LEFT
  else if sc =? 0x4D then Some KEY_RIGHT
  else if sc =? 0x47 then Some KEY_HOME
  else if sc =? 0x4F then Some KEY_END
  else if sc =? 0x49 then Some KEY_PGUP
  else if sc =? 0x51 then Some KEY_PGDN
  else if sc =? 0x53 then Some KEY_DEL
  else None.

(** Caps lock on a character. *)
Definition flip_case (c : Z) : Z :=
  if (97 <=? c) && (c <=? 122) then c - 32
  else if (65 <=? c) && (c <=? 90) then c + 32
  else c.

(** [keyboard_irq] once it has read the scancode. *)
Definition scancode {H} (sc : Z) (k : keyboard H) : keyboard H :=
  if sc =? 0xE0 then with_mods (shift_down k) (caps_lock k) true k
  else if extended k then
    let k := with_mods (shift_down k) (caps_lock k) false k in
    if negb (c_true (sc &&& 0x80)) then
      match extended_key sc with Some c => kbd_enqueue c k | None => k end
    else k
  else if c_true (sc &&& 0x80) then
    let make := sc &&& 0x7F in
    if (make =? 0x2A) || (make =? 0x36) then with_mods false (caps_lock k) (extended k) k else k
  else if (sc =? 0x2A) || (sc =? 0x36) then with_mods true (caps_lock k) (extended k) k
  else if sc =? 0x3A then with_mods (shift_down k) (negb (caps_lock k)) (extended k) k
  else
    let c := if shift_down k then arr_get keymap_shift sc else arr_get keymap sc in
    if c =? 0 then k
    else kbd_enqueue (if caps_lock k then flip_case c else c) k.

Definition keyboard_haschar {H} (k : keyboard H) : bool := negb (kbd_head k =? kbd_tail k).

(** [c = kbd_buf[kbd_tail]; kbd_tail = (kbd_tail + 1) % KBD_BUF_SIZE;] *)
Definition dequeue {H} (k : keyboard H) : keyboard H * Z :=
  (with_ring (kbd_buf k) (kbd_head k) ((kbd_tail k + 1) mod KBD_BUF_SIZE) k, arr_get (kbd_buf k) (kbd_tail k)).

Section Driver.
Context {H : Type} `{Ports H}.

Fixpoint drain (fuel : nat) : IO (keyboard H) unit :=
  match fuel with
  | O => io_stuck
  | S fuel =>
      let! st := inb PS2_STATUS in
      if c_true (st &&& 0x01) then inb PS2_DATA ;! drain fuel else io_ret tt
  end.

Definition keyboard_init (fuel : nat) : IO (keyboard H) unit :=
  drain fuel ;! pic_unmask 1.

Definition keyboard_irq : IO (keyboard H) unit :=
  let! sc := inb PS2_DATA in
  io_put (scancode sc).

(** The interrupts handled while the processor sleeps: the keyboard's is IRQ1,
    the others do not touch its state. *)
Fixpoint serve (irqs : list Z) : IO (keyboard H) unit :=
  match irqs with
  | [] => io_ret tt
  | irq :: irqs => (if irq =? 1 then keyboard_irq else io_ret tt) ;! serve irqs
  end.

(** [sti; hlt; cli] *)
Definition sleep : IO (keyboard H) unit :=
  λ k, let '(h, irqs) := p_hlt (kb_hw k) in serve irqs (set_hw h k).

Fixpoint getchar_wait (fuel : nat) : IO (keyboard H) unit :=
  λ k, if kbd_head k =? kbd_tail k
       then match fuel with O => None | S fuel => (sleep ;! getchar_wait fuel) k end
       else Some (k, tt).

Definition keyboard_getchar (fuel : nat) : IO (keyboard H) Z :=
  getchar_wait fuel ;!
  λ k, Some (dequeue k).
End Driver.

(** ** The ring as a queue *)

Section Queue.
Context {H : Type}.
Implicit Types k : keyboard H.

Definition kbd_wf k : Prop :=
  length (kbd_buf k) = 128%nat ∧ 0 ≤ kbd_head k < 128 ∧ 0 ≤ kbd_tail k < 128.

(** Its length, and what it holds, oldest first. *)
Definition pending k : Z := (kbd_head k - kbd_tail k) mod 128.
Definition queue k : list Z := map (λ i, arr_get (kbd_buf k) ((kbd_tail k + i) mod 128)) (seqZ 0 (pending k)).

(** The abstract keyboard: a queue of at most 127 that drops what does not fit. *)
Definition offer (c : Z) (q : list Z) : list Z := if zlen q <? 127 then q ++ [c] else q.

Lemma zlen_queue k : zlen (queue k) = pending k.
Proof.
  unfold queue, zlen. rewrite length_map, length_seqZ. unfold pending.
  pose proof (Z.mod_pos_bound (kbd_head k - kbd_tail k) 128). lia.
Qed.

Lemma seqZ_snoc n : 0 ≤ n → seqZ 0 (n + 1) = seqZ 0 n ++ [n].
Proof. intros Hn. rewrite seqZ_app by lia. f_equal. Qed.

Lemma enqueue_queue c k : kbd_wf k → kbd_wf (kbd_enqueue c k) ∧ queue (kbd_enqueue c k) = offer c (queue k).
Proof.
  intros (Hl & Hh & Ht). unfold kbd_enqueue, offer, KBD_BUF_SIZE. rewrite zlen_queue.
  destruct (Z.eqb_spec ((kbd_head k + 1) mod 128) (kbd_tail k)) as [E|E]; cbn [negb].
  - split; [done|]. rewrite (proj2 (Z.ltb_ge _ 127)); [done|]. unfold pending. zlia.
  - rewrite (proj2 (Z.ltb_lt _ 127)) by (unfold pending; zlia). split.
    + split; [by cbn; rewrite length_arr_set|]. cbn. split; [zlia|done].
    + unfold queue, pending. cbn [with_ring kbd_head kbd_tail kbd_buf].
      replace (((kbd_head k + 1) mod 128 - kbd_tail k) mod 128) with ((kbd_head k - kbd_tail k) mod 128 + 1) by zlia.
      pose proof (Z.mod_pos_bound (kbd_head k - kbd_tail k) 128).
      rewrite seqZ_snoc, map_app by lia. cbn [map]. f_equal.
      * apply map_ext_in. intros i Hi. apply list_elem_of_In, elem_of_seqZ in Hi. apply arr_get_set_ne. zlia.
      * f_equal. replace ((kbd_tail k + (kbd_head k - kbd_tail k) mod 128) mod 128) with (kbd_head k) by zlia.
        apply arr_get_set_eq. unfold zlen. lia.
Qed.

Lemma dequeue_queue k :
  kbd_wf k → kbd_head k ≠ kbd_tail k → kbd_wf (dequeue k).1 ∧ queue k = (dequeue k).2 :: queue (dequeue k).1.
Proof.
  intros (Hl & Hh & Ht) Hne. unfold dequeue, KBD_BUF_SIZE. cbn [fst snd]. split.
  - split; [done|]. cbn. split; [done|zlia].
  - unfold queue, pending. cbn [with_ring kbd_head kbd_tail kbd_buf].
    replace ((kbd_head k - (kbd_tail k + 1) mod 128) mod 128) with ((kbd_head k - kbd_tail k) mod 128 - 1) by zlia.
    assert (0 < (kbd_head k - kbd_tail k) mod 128) as Hpos by zlia.
    rewrite (seqZ_cons 0) by lia. cbn [map]. f_equal; [f_equal; zlia|].
    replace (Z.succ 0) with (1 + 0) by lia. rewrite <- (fmap_add_seqZ 1 0). replace (Z.pred ((kbd_head k - kbd_tail k) mod 128)) with ((kbd_head k - kbd_tail k) mod 128 - 1) by lia.
    rewrite map_map. apply map_ext_in. intros i Hi. f_equal. zlia.
Qed.
End Queue.

(** ** The keyboard as a queue of typed characters *)

(** What a scancode does to the modifiers (shift, caps lock, prefix), and the
    character it types, if any. *)
Definition decode (m : bool * bool * bool) (sc : Z) : (bool * bool * bool) * option Z :=
  let '(sh, caps, ext) := m in
  if sc =? 0xE0 then ((sh, caps, true), None)
  else if ext then ((sh, caps, false), if sc <? 0x80 then extended_key sc else None)
  else if 0x80 <=? sc then ((sh && negb ((sc =? 0xAA) || (sc =? 0xB6)), caps, false), None)
  else if (sc =? 0x2A) || (sc =? 0x36) then ((true, caps, false), None)
  else if sc =? 0x3A then ((sh, negb caps, false), None)
  else
    let c := arr_get (if sh then keymap_shift else keymap) sc in
    ((sh, caps, false), if c =? 0 then None else Some (if caps then flip_case c else c)).

Definition mods {H} (k : keyboard H) : bool * bool * bool := (shift_down k, caps_lock k, extended k).

Lemma enqueue_mods {H} c (k : keyboard H) : mods (kbd_enqueue c k) = mods k.
Proof. unfold kbd_enqueue. by destruct (negb _). Qed.

Lemma with_mods_ring {H} sh caps ext (k : keyboard H) :
  kbd_wf k → kbd_wf (with_mods sh caps ext k) ∧ queue (with_mods sh caps ext k) = queue k.
Proof. done. Qed.

(** Scancodes are bytes: the tests of the driver as comparisons. *)
Lemma break_bit sc : 0 ≤ sc < 256 → c_true (sc &&& 0x80) = (0x80 <=? sc) ∧ (0x80 ≤ sc → sc &&& 0x7F = sc - 0x80).
Proof.
  intros Hsc. assert (∀ n, (n < 256)%nat → c_true (Z.of_nat n &&& 0x80) = (0x80 <=? Z.of_nat n) ∧
    (0x80 ≤ Z.of_nat n → Z.of_nat n &&& 0x7F = Z.of_nat n - 0x80)) as Hall.
  { intros n Hn. assert (forallb (λ n, eqb (c_true (Z.of_nat n &&& 0x80)) (0x80 <=? Z.of_nat n) &&
      (negb (0x80 <=? Z.of_nat n) || (Z.of_nat n &&& 0x7F =? Z.of_nat n - 0x80))) (seq 0 256) = true) as Hf by (vm_compute; reflexivity).
    rewrite forallb_forall in Hf. specialize (Hf n). rewrite in_seq in Hf. specialize (Hf ltac:(lia)).
    apply andb_prop in Hf as [H1 H2]. split; [by apply eqb_prop|]. intros Hge.
    rewrite (proj2 (Z.leb_le _ _)) in H2 by lia. by apply Z.eqb_eq in H2. }
  specialize (Hall (Z.to_nat sc)). rewrite Z2Nat.id in Hall by lia. apply Hall. lia.
Qed.

Lemma scancode_decodes {H} sc (k : keyboard H) :
  kbd_wf k → 0 ≤ sc < 256 →
  kbd_wf (scancode sc k) ∧ mods (scancode sc k) = (decode (mods k) sc).1 ∧
  queue (scancode sc k) = match (decode (mods k) sc).2 with Some c => offer c (queue k) | None => queue k end.
Proof.
  intros Hk Hsc. destruct (break_bit sc Hsc) as [Hb Hm]. unfold scancode, decode, mods.
  destruct (sc =? 0xE0); [done|]. rewrite Hb.
  destruct (extended k) eqn:Ext.
  - set (k' := with_mods _ _ false k). assert (kbd_wf k' ∧ queue k' = queue k) as [Hk' Hq] by done.
    replace (sc <? 0x80) with (negb (0x80 <=? sc)) by (destruct (Z.leb_spec 0x80 sc), (Z.ltb_spec sc 0x80); (done || lia)).
    destruct (negb (0x80 <=? sc)); [|done]. destruct (extended_key sc) as [c|]; [|done].
    destruct (enqueue_queue c k' Hk') as [Hw Eq]. split; [done|]. split; [|by rewrite Eq, Hq].
    pose proof (enqueue_mods c k') as E. unfold mods in E. by rewrite E.
  - destruct (Z.leb_spec 0x80 sc) as [Hge|Hlt].
    + rewrite Hm by done.
      replace (sc - 0x80 =? 0x2A) with (sc =? 0xAA) by (destruct (Z.eqb_spec sc 0xAA), (Z.eqb_spec (sc - 0x80) 0x2A); (done || lia)).
      replace (sc - 0x80 =? 0x36) with (sc =? 0xB6) by (destruct (Z.eqb_spec sc 0xB6), (Z.eqb_spec (sc - 0x80) 0x36); (done || lia)).
      destruct (_ || _); cbn [negb]; rewrite ?andb_false_r, ?andb_true_r; rewrite ?Ext; done.
    + destruct (_ || _); [rewrite ?Ext; done|]. destruct (sc =? 0x3A); [rewrite ?Ext; done|]. rewrite <- ?Ext.
      replace (if shift_down k then arr_get keymap_shift sc else arr_get keymap sc)
        with (arr_get (if shift_down k then keymap_shift else keymap) sc) by (by destruct (shift_down k)).
      destruct (_ =? 0); [done|]. set (c := if caps_lock k then _ else _).
      destruct (enqueue_queue c k Hk) as [Hw Eq]. split; [done|]. split; [|done]. apply (enqueue_mods c k).
Qed.

(** *** Interleavings of typing and reading *)

(** The interrupt for a scancode, and a [keyboard_getchar] that finds the buffer
    not empty. *)
Inductive event := Press (sc : Z) | Get.

Fixpoint kbd_run {H} (es : list event) (k : keyboard H) : keyboard H * list Z :=
  match es with
  | [] => (k, [])
  | Press sc :: es => kbd_run es (scancode sc k)
  | Get :: es =>
      if keyboard_haschar k then
        let '(k, c) := dequeue k in
        let '(k, cs) := kbd_run es k in (k, c :: cs)
      else kbd_run es k
  end.

(** The same on modifiers and queue. *)
Fixpoint spec_run (es : list event) (m : bool * bool * bool) (q : list Z) : list Z * list Z :=
  match es with
  | [] => (q, [])
  | Press sc :: es =>
      let '(m, c) := decode m sc in
      spec_run es m (match c with Some c => offer c q | None => q end)
  | Get :: es =>
      match q with
      | [] => spec_run es m q
      | c :: q => let '(q, cs) := spec_run es m q in (q, c :: cs)
      end
  end.

Definition event_ok (e : event) : Prop := match e with Press sc => 0 ≤ sc < 256 | Get => True end.

Lemma queue_nil {H} (k : keyboard H) : kbd_wf k → keyboard_haschar k = negb (bool_decide (queue k = [])).
Proof.
  intros (Hl & Hh & Ht). unfold keyboard_haschar. f_equal. pose proof (zlen_queue k) as Hz. unfold pending in Hz.
  destruct (Z.eqb_spec (kbd_head k) (kbd_tail k)) as [E|E]; symmetry.
  - apply bool_decide_eq_true. rewrite E, Z.sub_diag in Hz. change (0 mod 128) with 0 in Hz.
    apply nil_length_inv. unfold zlen in Hz. lia.
  - apply bool_decide_eq_false. intros Eq. rewrite Eq in Hz. change (zlen []) with 0 in Hz. zlia.
Qed.

(** C14: in every interleaving of keyboard interrupts with reads, the ring buffer
    behaves as a queue of 127 characters: reads get the typed characters in the
    order typed, each once, and a character is lost only when 127 are waiting. *)
Theorem keyboard_fifo {H} es (k : keyboard H) :
  kbd_wf k → Forall event_ok es →
  kbd_wf (kbd_run es k).1 ∧ (queue (kbd_run es k).1, (kbd_run es k).2) = spec_run es (mods k) (queue k).
Proof.
  intros Hk Hes. revert k Hk. induction Hes as [|[sc|] es He Hes IH]; intros k Hk; cbn [kbd_run spec_run]; [done| |].
  - destruct (scancode_decodes sc k Hk He) as (Hw & Hm & Hq). destruct (IH _ Hw) as [Hw' E]. split; [done|].
    rewrite E, Hm, Hq. by destruct (decode (mods k) sc).
  - rewrite queue_nil by done. destruct (queue k) as [|c q] eqn:Eq.
    + rewrite bool_decide_eq_true_2 by done. cbn [negb]. destruct (IH k Hk) as [Hw E]. by rewrite E, Eq.
    + rewrite bool_decide_eq_false_2 by done. cbn [negb].
      assert (kbd_head k ≠ kbd_tail k) as Hne.
      { intros E. pose proof (zlen_queue k) as Hz. unfold pending in Hz. rewrite E, Z.sub_diag, Eq in Hz. done. }
      destruct (dequeue_queue k Hk Hne) as [Hw E]. rewrite Eq in E.
      destruct (dequeue k) as [k' c'] eqn:Ed. cbn [fst snd] in Hw, E. injection E as -> ->.
      destruct (IH k' Hw) as [Hw' E']. assert (mods k' = mods k) as Em by (unfold dequeue in Ed; by injection Ed as <- _).
      rewrite Em in E'. rewrite <- E'. by destruct (kbd_run es k').
Qed.

(** Every printable character has a key: from a keyboard with no modifier
    held and room in the buffer, pressing one key, or holding shift, pressing it
    and letting go of shift, types exactly that character and leaves the
    modifiers as they were; with caps lock on, letters come in the other case. *)
Theorem printable_typable {H} c (k : keyboard H) :
  32 ≤ c < 127 → kbd_wf k → shift_down k = false → extended k = false → pending k < 127 →
  ∃ scs, Forall (λ sc, 0 ≤ sc < 256) scs ∧
    let k' := foldl (λ k sc, scancode sc k) k scs in
    kbd_wf k' ∧ mods k' = mods k ∧ queue k' = queue k ++ [if caps_lock k then flip_case c else c].
Proof.
  intros Hc Hk Hsh Hext Hroom.
  assert (offer (if caps_lock k then flip_case c else c) (queue k) = queue k ++ [if caps_lock k then flip_case c else c]) as Ho.
  { unfold offer. rewrite zlen_queue, (proj2 (Z.ltb_lt _ _)) by lia. done. }
  set (plain := λ sc, (arr_get keymap sc =? c) && negb ((sc =? 0x2A) || (sc =? 0x36) || (sc =? 0x3A))).
  set (shifted := λ sc, (arr_get keymap_shift sc =? c) && negb ((sc =? 0x2A) || (sc =? 0x36) || (sc =? 0x3A))).
  assert (∃ sc, 0 ≤ sc < 128 ∧ (plain sc = true ∨ shifted sc = true)) as (sc & Hsc & Hkey).
  { assert (forallb (λ n, existsb (λ s, (λ sc c, (((arr_get keymap sc =? c) || (arr_get keymap_shift sc =? c)) &&
       negb ((sc =? 0x2A) || (sc =? 0x36) || (sc =? 0x3A)))%bool) (Z.of_nat s) (Z.of_nat n)) (seq 0 128)) (seq 32 95) = true) as Hf by (vm_compute; reflexivity).
    rewrite forallb_forall in Hf. specialize (Hf (Z.to_nat c)). rewrite in_seq in Hf. specialize (Hf ltac:(lia)).
    apply existsb_exists in Hf as (s & Hs & Hf). rewrite in_seq in Hs. rewrite Z2Nat.id in Hf by lia.
    exists (Z.of_nat s). split; [lia|]. unfold plain, shifted. apply andb_prop in Hf as [Ho' Hn]. rewrite Hn, !andb_true_r.
    by apply orb_prop in Ho'. }
  assert (∀ sh : bool, arr_get (if sh then keymap_shift else keymap) sc = c → negb ((sc =? 0x2A) || (sc =? 0x36) || (sc =? 0x3A)) = true →
    decode (sh, caps_lock k, false) sc = ((sh, caps_lock k, false), Some (if caps_lock k then flip_case c else c))) as Hdec.
  { intros sh E Hn. unfold decode. rewrite (proj2 (Z.eqb_neq sc 0xE0)), (proj2 (Z.leb_gt 0x80 sc)) by lia.
    apply negb_true_iff, orb_false_elim in Hn as [Hn1 Hn2]. rewrite Hn1, Hn2, E, (proj2 (Z.eqb_neq c 0)) by lia. done. }
  assert (mods k = (false, caps_lock k, false)) as Hm by (unfold mods; by rewrite Hsh, Hext).
  destruct Hkey as [Hp|Hs].
  - apply andb_prop in Hp as [E Hn]. apply Z.eqb_eq in E. exists [sc]. split; [by repeat constructor; lia|]. cbn [foldl].
    destruct (scancode_decodes sc k Hk) as (Hw & Hm' & Hq); [lia|]. rewrite Hm, (Hdec false E Hn) in Hm', Hq. cbn in Hm', Hq.
    split; [done|]. split; [by rewrite Hm', Hm|]. by rewrite Hq.
  - apply andb_prop in Hs as [E Hn]. apply Z.eqb_eq in E. exists [0x2A; sc; 0xAA]. split; [by repeat constructor; lia|]. cbn [foldl].
    destruct (scancode_decodes 0x2A k Hk) as (Hw1 & Hm1 & Hq1); [lia|]. set (k1 := scancode 0x2A k) in *. clearbody k1. rewrite Hm in Hm1, Hq1. cbn in Hm1, Hq1.
    destruct (scancode_decodes sc _ Hw1) as (Hw2 & Hm2 & Hq2); [lia|]. set (k2 := scancode sc k1) in *. clearbody k2. rewrite Hm1, (Hdec true E Hn) in Hm2, Hq2. cbn in Hm2, Hq2.
    destruct (scancode_decodes 0xAA _ Hw2) as (Hw3 & Hm3 & Hq3); [lia|]. set (k3 := scancode 0xAA k2) in *. clearbody k3. rewrite Hm2 in Hm3, Hq3. cbn in Hm3, Hq3.
    split; [done|]. split; [by rewrite Hm3, Hm|]. by rewrite Hq3, Hq2, Hq1.
Qed.

(** A keyboard just started, whose ring is about to wrap. *)
Definition demo_keyboard : keyboard script :=
  MkKeyboard (Script [] [] []) false false false (replicate 128 0) 126 126.

(** "Hi" and the up key typed while two characters are read. *)
Definition demo_events : list event :=
  [Press 0x2A; Press 0x23; Get; Press 0xAA; Press 0x17; Press 0xE0; Press 0x48; Get; Press 0x3A; Press 0x1E; Get; Get; Get].

Lemma keyboard_fifo_witness :
  (kbd_run demo_events demo_keyboard).2 = [72; 105; KEY_UP; 65] ∧
  (queue (kbd_run demo_events demo_keyboard).1, (kbd_run demo_events demo_keyboard).2) = ([], [72; 105; KEY_UP; 65]).
Proof.
  split; [vm_compute; reflexivity|].
  refine (eq_trans (proj2 (keyboard_fifo demo_events demo_keyboard _ _)) _); [done| |vm_compute; reflexivity].
  repeat (apply Forall_cons; split; [cbn; first [done|lia]|]). by apply Forall_nil.
Defined.

Lemma printable_typable_witness :
  ∃ scs, queue (foldl (λ k sc, scancode sc k) demo_keyboard scs) = [63].
Proof.
  destruct (printable_typable 63 demo_keyboard) as (scs & _ & _ & _ & Eq); [lia|done|done|done|vm_compute; reflexivity|].
  exists scs. exact Eq.
Defined.
