(* ===== verification/Timer.v ===== *)
(** The interval timer: drivers/timer.c, the clock the drivers wait by. *)
From Stdlib Require Import ZArith Lia Bool.
From stdpp Require Import base numbers gmap option list.
From S2P Require Import Prelude Io Pic.

#[local] Open Scope Z_scope.
#[local] Open Scope c_scope.
#[local] Open Scope io_scope.

Definition PIT_CHANNEL0 : Z := 0x40.
Definition PIT_COMMAND : Z := 0x43.
Definition PIT_BASE_FREQ : Z := 1193182.

Record timer := MkTimer { ticks : Z; frequency : Z }.

(** The divisor for a frequency, clamped to the counter. *)
Definition pit_divisor (frequency_hz : Z) : Z :=
  let divisor := PIT_BASE_FREQ / frequency_hz in
  let divisor := if divisor =? 0 then 1 else divisor in
  if 0xFFFF <? divisor then 0xFFFF else divisor.

Definition timer_irq (t : timer) : timer := MkTimer (u32 (ticks t + 1)) (frequency t).
Definition timer_ticks (t : timer) : Z := ticks t.
Definition timer_hz (t : timer) : Z := frequency t.

(** The ticks [timer_sleep] waits for. *)
Definition needed (ms hz : Z) : Z :=
  let n := u32 (ms * hz) / 1000 in if n =? 0 then 1 else n.

(** A state in which code waits for interrupts: it holds the machine and the
    timer, and knows the handlers that run meanwhile, by IRQ.  The timer's is
    IRQ0, and only it counts ticks. *)
Class Waits (S H : Type) `{Ports H} := {
  wt_hw :: HasHw S H;
  get_timer : S → timer;
  set_timer : timer → S → S;
  handle : Z → S → S;
  get_set_timer t s : get_timer (set_timer t s) = t;
  timer_of_hw h s : get_timer (set_hw h s) = get_timer s;
  handle_timer i s : get_timer (handle i s) = if i =? 0 then timer_irq (get_timer s) else get_timer s;
  handle_hw i s : get_hw (handle i s) = get_hw s
}.

Section Timer.
Context {S H : Type} `{Ports H} `{!Waits S H}.
Implicit Types s : S.

Definition timer_init (frequency_hz : Z) : IO S unit :=
  let frequency_hz := if frequency_hz =? 0 then 100 else frequency_hz in
  io_put (λ s, set_timer (MkTimer (ticks (get_timer s)) frequency_hz) s) ;!
  let divisor := pit_divisor frequency_hz in
  outb PIT_COMMAND 0x36 ;!
  outb PIT_CHANNEL0 (u8 (divisor &&& 0xFF)) ;!
  outb PIT_CHANNEL0 (u8 ((divisor >>> 8) &&& 0xFF)) ;!
  pic_unmask 0.

(** [sti; hlt] *)
Definition nap s : S :=
  let '(h, irqs) := p_hlt (get_hw s) in fold_left (λ s i, handle i s) irqs (set_hw h s).
Definition sleep : IO S unit := io_put nap.

(** [while (ticks < target) sti; hlt;] *)
Fixpoint sleep_wait (fuel : nat) (target : Z) : IO S unit :=
  λ s, if ticks (get_timer s) <? target
       then match fuel with O => None | Datatypes.S fuel => (sleep ;! sleep_wait fuel target) s end
       else Some (s, tt).

Definition timer_sleep (fuel : nat) (ms : Z) : IO S unit :=
  λ s, if frequency (get_timer s) =? 0 then Some (s, tt)
       else sleep_wait fuel (u32 (ticks (get_timer s) + needed ms (frequency (get_timer s)))) s.

(** ** Sleeping *)

Fixpoint naps (n : nat) s : S := match n with O => s | Datatypes.S n => naps n (nap s) end.

(** The wait is a number of naps: the first after which the target is reached. *)
Lemma sleep_wait_naps n fuel target s :
  (n ≤ fuel)%nat → target ≤ ticks (get_timer (naps n s)) → (∀ m, (m < n)%nat → ticks (get_timer (naps m s)) < target) →
  sleep_wait fuel target s = Some (naps n s, tt).
Proof.
  revert fuel s. induction n as [|n IH]; intros fuel s Hf Ht Hm.
  - destruct fuel; cbn [sleep_wait naps] in *; by rewrite (proj2 (Z.ltb_ge _ _)).
  - destruct fuel as [|fuel]; [lia|]. cbn [sleep_wait]. rewrite (proj2 (Z.ltb_lt _ _)) by (apply (Hm 0%nat); lia).
    unfold io_bind, sleep, io_put. apply (IH fuel (nap s)); [lia|done|]. intros m Hlt. apply (Hm (Datatypes.S m)). lia.
Qed.

(** How many timer interrupts are among those served. *)
Definition timer_irqs (irqs : list Z) : Z := zlen (filter (λ i, i = 0) irqs).

Lemma timer_irqs_nonneg irqs : 0 ≤ timer_irqs irqs.
Proof. unfold timer_irqs, zlen. lia. Qed.

Lemma served irqs s :
  ticks (get_timer s) + timer_irqs irqs < 2 ^ 32 → 0 ≤ ticks (get_timer s) →
  get_timer (fold_left (λ s i, handle i s) irqs s) =
    MkTimer (ticks (get_timer s) + timer_irqs irqs) (frequency (get_timer s)) ∧
  get_hw (fold_left (λ s i, handle i s) irqs s) = get_hw s.
Proof.
  revert s. induction irqs as [|irq irqs IH]; intros s Hr Hz.
  { change (timer_irqs []) with 0. cbn [fold_left]. rewrite Z.add_0_r. by destruct (get_timer s). }
  cbn [fold_left]. unfold timer_irqs in *. rewrite filter_cons in Hr |- *. pose proof (handle_timer irq s) as Et.
  destruct (Z.eqb_spec irq 0) as [->|Hne].
  - rewrite decide_True in Hr |- * by done. assert (0 ≤ zlen (filter (λ i, i = 0) irqs)) by (unfold zlen; lia).
    assert (zlen (0 :: filter (λ i, i = 0) irqs) = zlen (filter (λ i, i = 0) irqs) + 1) as E by (unfold zlen; simpl; lia).
    rewrite E in Hr |- *. destruct (IH (handle 0 s)) as (E1 & E2); rewrite ?Et; unfold timer_irq; cbn [ticks];
      try (rewrite u32_small by lia; lia).
    rewrite E1, E2, Et, handle_hw. unfold timer_irq. cbn [ticks frequency]. rewrite u32_small by lia. split; [f_equal; lia|done].
  - rewrite decide_False in Hr |- * by done. destruct (IH (handle irq s)) as (E1 & E2); [by rewrite Et..|].
    by rewrite E1, E2, Et, handle_hw.
Qed.

(** The machine after [n] sleeps, and the timer interrupts that came in them. *)
Fixpoint wakes (n : nat) (h : H) : H * Z :=
  match n with
  | O => (h, 0)
  | Datatypes.S n => let '(h, irqs) := p_hlt h in let '(h', k) := wakes n h in (h', timer_irqs irqs + k)
  end.

Lemma wakes_nonneg n h : 0 ≤ (wakes n h).2.
Proof.
  revert h. induction n as [|n IH]; intros h; [done|]. cbn [wakes]. destruct (p_hlt h) as [h1 irqs].
  pose proof (timer_irqs_nonneg irqs). specialize (IH h1). destruct (wakes n h1). cbn [snd] in *. lia.
Qed.

Lemma wakes_mono m n h : (m ≤ n)%nat → (wakes m h).2 ≤ (wakes n h).2.
Proof.
  revert n h. induction m as [|m IH]; intros n h Hle; [apply wakes_nonneg|]. destruct n as [|n]; [lia|].
  cbn [wakes]. destruct (p_hlt h) as [h1 irqs]. specialize (IH n h1 ltac:(lia)).
  destruct (wakes m h1), (wakes n h1). cbn [snd] in *. lia.
Qed.

(** The first wake-up by which enough interrupts have come. *)
Lemma first_wake need fuel h :
  need ≤ (wakes fuel h).2 →
  ∃ n, (n ≤ fuel)%nat ∧ need ≤ (wakes n h).2 ∧ ∀ m, (m < n)%nat → (wakes m h).2 < need.
Proof.
  induction fuel as [|fuel IH]; intros Hw; [exists 0%nat; split_and!; [done|done|lia]|].
  destruct (Z.le_gt_cases need (wakes fuel h).2) as [Hle|Hgt].
  - destruct (IH Hle) as (n & ? & ? & ?). exists n. split_and!; [lia|done|done].
  - exists (Datatypes.S fuel). split_and!; [done|done|]. intros m Hm. pose proof (wakes_mono m fuel h ltac:(lia)). lia.
Qed.

Lemma naps_wakes n s :
  0 ≤ ticks (get_timer s) → ticks (get_timer s) + (wakes n (get_hw s)).2 < 2 ^ 32 →
  get_timer (naps n s) = MkTimer (ticks (get_timer s) + (wakes n (get_hw s)).2) (frequency (get_timer s)) ∧
  get_hw (naps n s) = (wakes n (get_hw s)).1.
Proof.
  revert s. induction n as [|n IH]; intros s Hz Hr.
  { cbn. rewrite Z.add_0_r. by destruct (get_timer s). }
  cbn [naps wakes] in *. unfold nap. destruct (p_hlt (get_hw s)) as [h irqs]. pose proof (wakes_nonneg n h) as Hw.
  pose proof (timer_irqs_nonneg irqs). destruct (served irqs (set_hw h s)) as (E1 & E2);
    rewrite ?timer_of_hw; [destruct (wakes n h); cbn [snd] in *; lia|done|].
  rewrite timer_of_hw in E1. rewrite get_set_hw in E2.
  destruct (IH (fold_left (λ s i, handle i s) irqs (set_hw h s))) as (F1 & F2); rewrite ?E1, ?E2; cbn [ticks].
  { lia. } { destruct (wakes n h); cbn [snd] in *; lia. }
  rewrite F1, F2, E1, E2. cbn [ticks frequency]. destruct (wakes n h). cbn [fst snd]. by rewrite Z.add_assoc.
Qed.

Lemma needed_pos ms hz : 0 < needed ms hz.
Proof.
  unfold needed. destruct (Z.eqb_spec (u32 (ms * hz) / 1000) 0); [done|].
  pose proof (Z.div_pos (u32 (ms * hz)) 1000). pose proof (u32_range (ms * hz)). lia.
Qed.

(** Where every nap keeps [I], counts at most one tick, and counts one at the
    latest when [quiet] has run down from [q], sleeping ends, across a
    wrap-around of the counter too. *)
Lemma timer_sleep_ends (I : S → Prop) (quiet : S → nat) q fuel ms s :
  (∀ s, I s → 0 ≤ ticks (get_timer s) < 2 ^ 32 ∧ (quiet s < q)%nat ∧ I (nap s) ∧
    (ticks (get_timer (nap s)) = u32 (ticks (get_timer s) + 1) ∨
     ticks (get_timer (nap s)) = ticks (get_timer s) ∧ (quiet (nap s) < quiet s)%nat)) →
  I s → (q * Z.to_nat (needed ms (frequency (get_timer s))) ≤ fuel)%nat →
  ∃ n, timer_sleep fuel ms s = Some (naps n s, tt) ∧ I (naps n s).
Proof.
  intros HI Hs Hf. unfold timer_sleep. destruct (Z.eqb_spec (frequency (get_timer s)) 0) as [?|Hfz]; [by exists 0%nat|].
  set (need := needed ms (frequency (get_timer s))) in *. pose proof (needed_pos ms (frequency (get_timer s))) as Hn. fold need in Hn.
  set (target := u32 _). destruct (HI s Hs) as (Hr & _).
  assert (target ≤ ticks (get_timer s) ∨ target = ticks (get_timer s) + need) as [Hle|Et].
  { unfold target. assert (need < 2 ^ 32); [|zlia]. unfold need, needed.
    destruct (Z.eqb_spec (u32 (ms * frequency (get_timer s)) / 1000) 0); [done|]. clear. zlia. }
  { exists 0%nat. split; [|done]. apply (sleep_wait_naps 0); [lia|done|lia]. }
  assert (target < 2 ^ 32) as Htop by apply u32_range. clearbody target.
  (* [d] ticks to go, at most [q * d] naps *)
  assert (∀ m d s, (m = q * d + quiet s)%nat → I s → ticks (get_timer s) + Z.of_nat (Datatypes.S d) = target →
    ∃ n, (n ≤ Datatypes.S m)%nat ∧ I (naps n s) ∧ target ≤ ticks (get_timer (naps n s)) ∧
      ∀ k, (k < n)%nat → ticks (get_timer (naps k s)) < target) as Hgo.
  { intros m. induction m as [m IH] using lt_wf_ind. intros d s1 Hm HIs Hd. destruct (HI s1 HIs) as (Hr1 & Hq1 & HI1 & [E|[E Hlt]]).
    - destruct d as [|d].
      + exists 1%nat. cbn [naps]. rewrite E, u32_small by lia. split_and!; [lia|done|lia|].
        intros k Hk. assert (k = 0)%nat as -> by lia. cbn [naps]. lia.
      + destruct (HI (nap s1) HI1) as (_ & Hq2 & _).
        destruct (IH (q * d + quiet (nap s1))%nat ltac:(nia) d (nap s1) eq_refl HI1) as (n & Hle & HIn & Hge & Hmin);
          [rewrite E, u32_small by lia; lia|].
        exists (Datatypes.S n). cbn [naps]. split_and!; [nia|done|done|]. intros [|k] Hk; [cbn [naps]; lia|]. apply Hmin. lia.
    - destruct (IH (q * d + quiet (nap s1))%nat ltac:(lia) d (nap s1) eq_refl HI1) as (n & Hle & HIn & Hge & Hmin); [by rewrite E|].
      exists (Datatypes.S n). cbn [naps]. split_and!; [lia|done|done|]. intros [|k] Hk; [cbn [naps]; lia|]. apply Hmin. lia. }
  destruct (Hgo _ (Z.to_nat need - 1)%nat s eq_refl Hs) as (n & Hle & HIn & Hge & Hmin); [lia|].
  exists n. split; [|done]. apply sleep_wait_naps; [|done|done].
  destruct (HI s Hs) as (_ & Hq & _). nia.
Qed.
End Timer.

(** The timer alone on a machine. *)
Record clock (H : Type) := Clock { ck_hw : H; ck_timer : timer }.
Arguments Clock {H}. Arguments ck_hw {H}. Arguments ck_timer {H}.

#[export] Instance clock_hw {H} : HasHw (clock H) H.
Proof. refine {| get_hw := ck_hw; set_hw h c := Clock h (ck_timer c) |}. done. Defined.

#[export] Instance clock_waits {H} `{Ports H} : Waits (clock H) H.
Proof.
  refine {| wt_hw := clock_hw; get_timer := ck_timer; set_timer t c := Clock (ck_hw c) t;
    handle i c := if i =? 0 then Clock (ck_hw c) (timer_irq (ck_timer c)) else c |}; [done|done|..].
  - intros i s. by destruct (i =? 0).
  - intros i s. by destruct (i =? 0).
Defined.

(** [timer_sleep] sleeps long enough and no longer: away from the wrap-around
    of the tick counter, if the timer keeps interrupting it returns, after the
    first wake-up by which the ticks for its milliseconds (at least one) have
    come, with every tick counted; whatever other handlers run meanwhile. *)
Theorem timer_sleep_waits {S H} `{Ports H} `{!Waits S H} fuel ms (s : S) :
  let t := get_timer s in
  0 < frequency t → 0 ≤ ticks t → ticks t + needed ms (frequency t) < 2 ^ 32 →
  needed ms (frequency t) ≤ (wakes fuel (get_hw s)).2 → ticks t + (wakes fuel (get_hw s)).2 < 2 ^ 32 →
  ∃ n s', (n ≤ fuel)%nat ∧ timer_sleep fuel ms s = Some (s', tt) ∧
  get_timer s' = MkTimer (ticks t + (wakes n (get_hw s)).2) (frequency t) ∧ get_hw s' = (wakes n (get_hw s)).1 ∧
  needed ms (frequency t) ≤ (wakes n (get_hw s)).2 ∧ ∀ m, (m < n)%nat → (wakes m (get_hw s)).2 < needed ms (frequency t).
Proof.
  cbv zeta. intros Hf Hz Hn Hw Hr. unfold timer_sleep. rewrite (proj2 (Z.eqb_neq _ _)) by lia.
  pose proof (needed_pos ms (frequency (get_timer s))). rewrite u32_small by lia.
  destruct (first_wake (needed ms (frequency (get_timer s))) fuel (get_hw s) Hw) as (n & Hle & Hge & Hmin).
  assert (∀ m, (m ≤ n)%nat → get_timer (naps m s) = MkTimer (ticks (get_timer s) + (wakes m (get_hw s)).2) (frequency (get_timer s)) ∧
    get_hw (naps m s) = (wakes m (get_hw s)).1) as Hm.
  { intros m Hmn. apply naps_wakes; [done|]. pose proof (wakes_mono m fuel (get_hw s) ltac:(lia)). lia. }
  exists n, (naps n s). destruct (Hm n ltac:(lia)) as [E1 E2]. split_and!; [done| |done..].
  apply sleep_wait_naps; [done|rewrite E1; cbn [ticks]; lia|]. intros m Hlt. destruct (Hm m ltac:(lia)) as [-> _].
  specialize (Hmin m Hlt). cbn [ticks]. lia.
Qed.

Definition demo_timer : clock script := Clock (Script [] [] [[1]; [0]; []; [0; 1]; [0]; [0]]) (MkTimer 7 100).

Lemma timer_sleep_waits_witness :
  ∃ n s', timer_sleep 6 29 demo_timer = Some (s', tt) ∧
  get_timer s' = MkTimer (7 + (wakes n (get_hw demo_timer)).2) 100 ∧ 2 ≤ (wakes n (get_hw demo_timer)).2.
Proof.
  destruct (timer_sleep_waits 6 29 demo_timer) as (n & s' & _ & E & Et & _ & Hn & _);
    [reflexivity|vm_compute; discriminate|reflexivity|vm_compute; discriminate|reflexivity|].
  exists n, s'. split; [exact E|]. split; [exact Et|exact Hn].
Defined.

(** The divisor programmed, from the two bytes sent, for any frequency: within
    the counter, and the exact one where it fits. *)
Lemma pit_divisor_bytes f : 0 < f →
  let d := pit_divisor f in
  1 ≤ d ≤ 0xFFFF ∧ u8 (d &&& 0xFF) + 256 * u8 ((d >>> 8) &&& 0xFF) = d ∧
  (19 ≤ f ≤ PIT_BASE_FREQ → d = PIT_BASE_FREQ / f).
Proof.
  intros Hf d. assert (1 ≤ d ≤ 0xFFFF) as Hd.
  { unfold d, pit_divisor. pose proof (Z.div_pos PIT_BASE_FREQ f ltac:(done) Hf).
    cbv zeta. destruct (Z.eqb_spec (PIT_BASE_FREQ / f) 0); zcase; lia. }
  split; [done|]. split.
  - rewrite !(land_mask _ 8) by done. rewrite shiftr_div by lia. clear -Hd. zlia.
  - intros Hr. unfold d, pit_divisor. assert (1 ≤ PIT_BASE_FREQ / f) by (apply Z.div_le_lower_bound; lia).
    assert (PIT_BASE_FREQ / f ≤ 0xFFFF) by (apply Z.div_le_upper_bound; unfold PIT_BASE_FREQ; lia).
    rewrite (proj2 (Z.eqb_neq _ _)) by lia. by rewrite (proj2 (Z.ltb_ge _ _)) by lia.
Qed.
