(* ===== verification/Floppy.v ===== *)
(** The floppy driver: drivers/floppy.c, over the timer.  The controller, the
    drive and the DMA channel are hardware and a parameter: what the driver
    relies on of them is stated as the laws of the class [Fdc], by the abstract
    machine [fdc] of the 82077's and the 8237's data sheets. *)
From Stdlib Require Import ZArith Lia Bool.
From stdpp Require Import base numbers gmap option list.
From S2P Require Import Prelude Io Pic Timer.

#[local] Open Scope Z_scope.
#[local] Open Scope c_scope.
#[local] Open Scope io_scope.

Definition FDC_DOR : Z := 0x3F2.
Definition FDC_MSR : Z := 0x3F4.
Definition FDC_FIFO : Z := 0x3F5.
Definition FDC_CCR : Z := 0x3F7.
Definition CMD_SPECIFY : Z := 0x03.
Definition CMD_RECALIBRATE : Z := 0x07.
Definition CMD_SENSE_INT : Z := 0x08.
Definition CMD_SEEK : Z := 0x0F.
Definition CMD_READ : Z := 0xE6.
Definition CMD_WRITE : Z := 0xC5.
Definition SPT : Z := 18.
Definition HEADS : Z := 2.
Definition DMA_BUFFER : Z := 0x00080000.

(** The module's statics, with the timer and the machine. *)
Record floppy (H : Type) := MkFloppy { fl_hw : H; fl_timer : timer; irq_fired : bool; motor_on : bool }.
Arguments MkFloppy {H}. Arguments fl_hw {H}. Arguments fl_timer {H}. Arguments irq_fired {H}. Arguments motor_on {H}.

Definition with_fired {H} (b : bool) (s : floppy H) : floppy H := MkFloppy (fl_hw s) (fl_timer s) b (motor_on s).
Definition with_motor {H} (b : bool) (s : floppy H) : floppy H := MkFloppy (fl_hw s) (fl_timer s) (irq_fired s) b.

Definition floppy_irq {H} (s : floppy H) : floppy H := with_fired true s.

#[export] Instance floppy_hw {H} : HasHw (floppy H) H.
Proof. refine {| get_hw := fl_hw; set_hw h s := MkFloppy h (fl_timer s) (irq_fired s) (motor_on s) |}. done. Defined.

(** While the driver waits, the timer's handler runs on IRQ0 and its own on IRQ6. *)
#[export] Instance floppy_waits {H} `{Ports H} : Waits (floppy H) H.
Proof.
  refine {| wt_hw := floppy_hw; get_timer := fl_timer;
    set_timer t s := MkFloppy (fl_hw s) t (irq_fired s) (motor_on s);
    handle i s := if i =? 0 then MkFloppy (fl_hw s) (timer_irq (fl_timer s)) (irq_fired s) (motor_on s)
                  else if i =? 6 then floppy_irq s else s |}; [done|done|..].
  - intros i s. destruct (i =? 0); [done|]. by destruct (i =? 6).
  - intros i s. destruct (i =? 0); [done|]. by destruct (i =? 6).
Defined.

Section Driver.
Context {H : Type} `{Ports H} `{!Dma H}.
Abbreviation F := (IO (floppy H)).

(** [for (i = 0; i < n; i++)]: 400 in the source. *)
Fixpoint wait_irq_loop (n : nat) : F Z :=
  match n with
  | O => io_ret (-1)
  | S n =>
      let! s := io_get in
      if irq_fired s then io_put (with_fired false) ;! io_ret 0
      else sleep ;! wait_irq_loop n
  end.
Definition wait_irq : F Z := wait_irq_loop (Z.to_nat 400).

(** [for (i = 0; i < n; i++)]: 10000 in the source. *)
Fixpoint fdc_write_loop (n : nat) (val : Z) : F unit :=
  match n with
  | O => io_ret tt
  | S n =>
      let! msr := inb FDC_MSR in
      if (msr &&& 0xC0) =? 0x80 then outb FDC_FIFO val else io_wait ;! fdc_write_loop n val
  end.
Definition fdc_write : Z → F unit := fdc_write_loop (Z.to_nat 10000).

Fixpoint fdc_read_loop (n : nat) : F Z :=
  match n with
  | O => io_ret 0
  | S n =>
      let! msr := inb FDC_MSR in
      if (msr &&& 0xC0) =? 0xC0 then inb FDC_FIFO else io_wait ;! fdc_read_loop n
  end.
Definition fdc_read : F Z := fdc_read_loop (Z.to_nat 10000).

(** Fuel of [timer_sleep]'s wait: the wake-ups in 300 ms at up to 1000 ticks a
    second and 16 wake-ups a tick. *)
Definition sleep_fuel : nat := Z.to_nat 4800.

Definition ensure_motor : F unit :=
  let! s := io_get in
  if motor_on s then io_ret tt
  else outb FDC_DOR 0x1C ;! timer_sleep sleep_fuel 300 ;! io_put (with_motor true).

Definition floppy_motor_off : F unit :=
  outb FDC_DOR 0x0C ;! io_put (with_motor false).

Definition sense_interrupt : F (Z * Z) :=
  fdc_write CMD_SENSE_INT ;!
  let! st0 := fdc_read in
  let! cyl := fdc_read in
  io_ret (st0, cyl).

Definition recalibrate : F Z :=
  ensure_motor ;!
  fdc_write CMD_RECALIBRATE ;!
  fdc_write 0x00 ;!
  let! r := wait_irq in
  if negb (r =? 0) then io_ret (-1) else sense_interrupt ;! io_ret 0.

Definition seek (cyl head : Z) : F Z :=
  fdc_write CMD_SEEK ;!
  fdc_write (u8 (head <<< 2)) ;!
  fdc_write cyl ;!
  let! r := wait_irq in
  if negb (r =? 0) then io_ret (-1) else sense_interrupt ;! io_ret 0.

Definition floppy_init : F unit :=
  pic_unmask 6 ;!
  io_put (with_fired false) ;!
  outb FDC_DOR 0x00 ;!
  outb FDC_DOR 0x0C ;!
  wait_irq ;!
  io_for 4 0 (λ _, sense_interrupt ;! io_ret tt) ;!
  outb FDC_CCR 0x00 ;!
  fdc_write CMD_SPECIFY ;!
  fdc_write 0xDF ;!
  fdc_write 0x02 ;!
  recalibrate ;!
  floppy_motor_off.

Definition dma_prepare (write : bool) : F unit :=
  let addr := DMA_BUFFER in
  let count := 512 - 1 in
  outb 0x0A 0x06 ;!
  outb 0x0C 0xFF ;!
  outb 0x04 (u8 (addr &&& 0xFF)) ;!
  outb 0x04 (u8 ((addr >>> 8) &&& 0xFF)) ;!
  outb 0x81 (u8 ((addr >>> 16) &&& 0xFF)) ;!
  outb 0x0C 0xFF ;!
  outb 0x05 (u8 (count &&& 0xFF)) ;!
  outb 0x05 (u8 ((count >>> 8) &&& 0xFF)) ;!
  outb 0x0B (if write then 0x4A else 0x46) ;!
  outb 0x0A 0x02.

(** The copies to and from the bounce buffer. *)
Definition buffer_put (l : list Z) : F unit := io_put (λ s, set_hw (dma_put DMA_BUFFER l (fl_hw s)) s).
Definition buffer_get (s : floppy H) : list Z := map (λ i, dma_get (DMA_BUFFER + i) (fl_hw s)) (seqZ 0 512).

(** The command of [floppy_rw] after the seek, down to its result bytes: [None]
    when no interrupt came. *)
Definition transfer (cyl head sector : Z) (buf : list Z) (write : bool) : F (option Z) :=
  (if write then buffer_put buf else io_ret tt) ;!
  dma_prepare write ;!
  io_put (with_fired false) ;!
  fdc_write (if write then CMD_WRITE else CMD_READ) ;!
  fdc_write (u8 (head <<< 2)) ;!
  fdc_write cyl ;!
  fdc_write head ;!
  fdc_write sector ;!
  fdc_write 0x02 ;!
  fdc_write SPT ;!
  fdc_write 0x1B ;!
  fdc_write 0xFF ;!
  let! r := wait_irq in
  if negb (r =? 0) then io_ret None
  else
    let! st0 := fdc_read in
    fdc_read ;! fdc_read ;! fdc_read ;! fdc_read ;! fdc_read ;! fdc_read ;!
    io_ret (Some st0).

(** [buf] before and after: its contents are the sector on a successful read. *)
Fixpoint rw_attempts (n : nat) (cyl head sector : Z) (buf : list Z) (write : bool) : F (Z * list Z) :=
  match n with
  | O => io_ret (-1, buf)
  | S n =>
      let! r := seek cyl head in
      if negb (r =? 0) then rw_attempts n cyl head sector buf write
      else
        let! st0 := transfer cyl head sector buf write in
        match st0 with
        | None => rw_attempts n cyl head sector buf write
        | Some st0 =>
            if (st0 &&& 0xC0) =? 0 then
              let! s := io_get in
              io_ret (0, if write then buf else buffer_get s)
            else recalibrate ;! rw_attempts n cyl head sector buf write
        end
  end.

Definition floppy_rw (lba : Z) (buf : list Z) (write : bool) : F (Z * list Z) :=
  let sector := u8 (u8 (lba mod SPT) + 1) in
  let head := u8 ((lba / SPT) mod HEADS) in
  let cyl := u8 ((lba / SPT) / HEADS) in
  ensure_motor ;!
  rw_attempts 4 cyl head sector buf write.

Definition floppy_read_sector (lba : Z) (buf : list Z) : F (Z * list Z) := floppy_rw lba buf false.
Definition floppy_write_sector (lba : Z) (buf : list Z) : F Z :=
  let! r := floppy_rw lba buf true in io_ret r.1.
End Driver.

(** ** The controller, by its data sheets

    The commands the driver gives, a drive with one disk in it, the DMA channel
    it transfers through, and the 512 bytes at [DMA_BUFFER]. *)
Record channel := Channel {
  dm_masked : bool; dm_high : bool; dm_addr : Z; dm_page : Z; dm_count : Z; dm_mode : Z
}.
Record fdc := MkFdc {
  fc_reset : bool;        (* held in reset *)
  fc_spin : bool;         (* drive 0's motor *)
  fc_cmd : list Z;        (* bytes of a command not complete yet *)
  fc_result : list Z;     (* bytes of a result not read yet *)
  fc_irq : bool;          (* an interrupt that is still to be delivered *)
  fc_pend : list Z;       (* status bytes for SENSE INTERRUPT *)
  fc_cyl : Z;             (* where the head is *)
  fc_dma : channel;
  fc_buf : list Z;
  fc_disk : Z → list Z
}.

Definition with_cmd (l : list Z) (c : fdc) : fdc :=
  MkFdc (fc_reset c) (fc_spin c) l (fc_result c) (fc_irq c) (fc_pend c) (fc_cyl c) (fc_dma c) (fc_buf c) (fc_disk c).
Definition with_result (l : list Z) (c : fdc) : fdc :=
  MkFdc (fc_reset c) (fc_spin c) (fc_cmd c) l (fc_irq c) (fc_pend c) (fc_cyl c) (fc_dma c) (fc_buf c) (fc_disk c).
Definition with_irq (b : bool) (c : fdc) : fdc :=
  MkFdc (fc_reset c) (fc_spin c) (fc_cmd c) (fc_result c) b (fc_pend c) (fc_cyl c) (fc_dma c) (fc_buf c) (fc_disk c).
Definition with_dma (d : channel) (c : fdc) : fdc :=
  MkFdc (fc_reset c) (fc_spin c) (fc_cmd c) (fc_result c) (fc_irq c) (fc_pend c) (fc_cyl c) d (fc_buf c) (fc_disk c).
Definition with_buf (l : list Z) (c : fdc) : fdc :=
  MkFdc (fc_reset c) (fc_spin c) (fc_cmd c) (fc_result c) (fc_irq c) (fc_pend c) (fc_cyl c) (fc_dma c) l (fc_disk c).
Definition with_spin (b : bool) (c : fdc) : fdc :=
  MkFdc (fc_reset c) b (fc_cmd c) (fc_result c) (fc_irq c) (fc_pend c) (fc_cyl c) (fc_dma c) (fc_buf c) (fc_disk c).

(** The head has moved. *)
Definition moved_to (cyl : Z) (c : fdc) : fdc :=
  MkFdc (fc_reset c) (fc_spin c) (fc_cmd c) (fc_result c) true [0x20] cyl (fc_dma c) (fc_buf c) (fc_disk c).
(** A transfer has ended, with its seven result bytes. *)
Definition transferred (st0 cyl head sec : Z) (buf : list Z) (disk : Z → list Z) (c : fdc) : fdc :=
  let d := fc_dma c in
  MkFdc (fc_reset c) (fc_spin c) (fc_cmd c) [st0; 0; 0; cyl; head; sec + 1; 2] true (fc_pend c) (fc_cyl c)
    (Channel true (dm_high d) (dm_addr d) (dm_page d) (dm_count d) (dm_mode d)) buf disk.

Definition command_length (b : Z) : Z :=
  if b =? CMD_SPECIFY then 3 else if b =? CMD_RECALIBRATE then 2 else if b =? CMD_SENSE_INT then 1
  else if b =? CMD_SEEK then 3 else 9.

(** Whether the channel is set up for one sector at [DMA_BUFFER] in a mode. *)
Definition armed (mode : Z) (d : channel) : bool :=
  negb (dm_masked d) && (dm_mode d =? mode) && ((dm_page d <<< 16) + dm_addr d =? DMA_BUFFER) && (dm_count d =? 511).

Definition lba_of (cyl head sec : Z) : Z := (cyl * HEADS + head) * SPT + (sec - 1).

(** A sector that is under the head, and addressed as the drive select byte says. *)
Definition reachable (drive cyl head sec : Z) (c : fdc) : bool :=
  fc_spin c && (cyl =? fc_cyl c) && (0 <=? cyl) && (cyl <? 80) && (0 <=? head) && (head <? 2) && (drive =? (head <<< 2)) && (1 <=? sec) && (sec <=? SPT).

Definition fdc_exec (cmd : list Z) (c : fdc) : fdc :=
  let op := arr_get cmd 0 in
  if op =? CMD_SPECIFY then c
  else if op =? CMD_RECALIBRATE then moved_to 0 c
  else if op =? CMD_SENSE_INT then
    match fc_pend c with
    | st :: pend => with_result [st; fc_cyl c]
        (MkFdc (fc_reset c) (fc_spin c) (fc_cmd c) (fc_result c) (fc_irq c) pend (fc_cyl c) (fc_dma c) (fc_buf c) (fc_disk c))
    | [] => with_result [0x80] c
    end
  else if op =? CMD_SEEK then moved_to (arr_get cmd 2) c
  else
    let drive := arr_get cmd 1 in
    let cyl := arr_get cmd 2 in let head := arr_get cmd 3 in let sec := arr_get cmd 4 in
    if (op =? CMD_READ) && reachable drive cyl head sec c && armed 0x46 (fc_dma c) then
      transferred drive cyl head sec (fc_disk c (lba_of cyl head sec)) (fc_disk c) c
    else if (op =? CMD_WRITE) && reachable drive cyl head sec c && armed 0x4A (fc_dma c) then
      transferred drive cyl head sec (fc_buf c) (λ l, if l =? lba_of cyl head sec then fc_buf c else fc_disk c l) c
    else transferred 0x40 cyl head sec (fc_buf c) (fc_disk c) c.

(** A byte written to the FIFO while no result waits there. *)
Definition fdc_fifo (v : Z) (c : fdc) : fdc :=
  let cmd := fc_cmd c ++ [v] in
  if zlen cmd <? command_length (arr_get cmd 0) then with_cmd cmd c else fdc_exec cmd (with_cmd [] c).

Definition set_half (high : bool) (old v : Z) : Z := if high then old mod 256 + 256 * v else old / 256 * 256 + v.

(** A byte written to a port of the controller or of the DMA channel. *)
Definition fdc_out (port v : Z) (c : fdc) : fdc :=
  let d := fc_dma c in
  if port =? FDC_DOR then
    if negb (Z.testbit v 2) then MkFdc true (Z.testbit v 4) [] [] false [] (fc_cyl c) d (fc_buf c) (fc_disk c)
    else if fc_reset c then MkFdc false (Z.testbit v 4) [] [] true [0xC0; 0xC1; 0xC2; 0xC3] (fc_cyl c) d (fc_buf c) (fc_disk c)
    else with_spin (Z.testbit v 4) c
  else if port =? FDC_FIFO then fdc_fifo v c
  else if port =? 0x0A then
    if (v &&& 3) =? 2 then with_dma (Channel (Z.testbit v 2) (dm_high d) (dm_addr d) (dm_page d) (dm_count d) (dm_mode d)) c else c
  else if port =? 0x0B then
    if (v &&& 3) =? 2 then with_dma (Channel (dm_masked d) (dm_high d) (dm_addr d) (dm_page d) (dm_count d) v) c else c
  else if port =? 0x0C then with_dma (Channel (dm_masked d) false (dm_addr d) (dm_page d) (dm_count d) (dm_mode d)) c
  else if port =? 0x04 then
    with_dma (Channel (dm_masked d) (negb (dm_high d)) (set_half (dm_high d) (dm_addr d) v) (dm_page d) (dm_count d) (dm_mode d)) c
  else if port =? 0x05 then
    with_dma (Channel (dm_masked d) (negb (dm_high d)) (dm_addr d) (dm_page d) (set_half (dm_high d) (dm_count d) v) (dm_mode d)) c
  else if port =? 0x81 then with_dma (Channel (dm_masked d) (dm_high d) (dm_addr d) v (dm_count d) (dm_mode d)) c
  else c.

(** The ports the driver writes: the controller's, the channel's, the interrupt
    controller's mask and the delay port. *)
Definition floppy_ports : list Z := [FDC_DOR; FDC_FIFO; FDC_CCR; 0x0A; 0x0B; 0x0C; 0x04; 0x05; 0x81; 0x21; 0x80].

(** What the driver relies on: a machine that behaves like [fdc] at these ports;
    that asks for patience only so long ([fd_busy] polls of the status register,
    [fd_late] wake-ups for an interrupt); whose processor wakes for a timer
    interrupt at least every sixteenth time, one at a time; and that raises IRQ6
    for nothing else. *)
Class Fdc (H : Type) `{Ports H} `{!Dma H} := {
  fd_ok : H → Prop;
  fd_view : H → fdc;
  fd_busy : H → nat;
  fd_late : H → nat;
  fd_quiet : H → nat;
  fd_bounds h : fd_ok h → Z.of_nat (fd_busy h) < 10000 ∧ (fd_late h < 399)%nat ∧ (fd_quiet h < 16)%nat;
  fd_out h port v : fd_ok h → port ∈ floppy_ports → 0 ≤ v < 256 →
    (port = FDC_FIFO → fd_busy h = 0%nat ∧ fc_result (fd_view h) = []) →
    let h' := p_out 1 port v h in
    fd_ok h' ∧ fd_view h' = fdc_out port v (fd_view h) ∧ (port = 0x80 → (fd_busy h' ≤ fd_busy h)%nat);
  fd_status h : fd_ok h → fc_irq (fd_view h) = false →
    let '(h', v) := p_in 1 FDC_MSR h in
    fd_ok h' ∧ fd_view h' = fd_view h ∧
    if fd_busy h is O
    then (v &&& 0xC0) = (if fc_result (fd_view h) is [] then 0x80 else 0xC0) ∧ fd_busy h' = 0%nat
    else (v &&& 0x80) = 0 ∧ (fd_busy h' < fd_busy h)%nat;
  fd_data h r rs : fd_ok h → fd_busy h = 0%nat → fc_result (fd_view h) = r :: rs →
    let '(h', v) := p_in 1 FDC_FIFO h in
    fd_ok h' ∧ fd_view h' = with_result rs (fd_view h) ∧ v = r;
  fd_mask h : fd_ok h → let '(h', v) := p_in 1 PIC1_DATA h in fd_ok h' ∧ fd_view h' = fd_view h;
  fd_hlt h : fd_ok h →
    let '(h', irqs) := p_hlt h in
    fd_ok h' ∧
    (if fc_irq (fd_view h) && bool_decide (6 ∈ irqs) then (fd_view h' = with_irq false (fd_view h))
     else ((6 ∉ irqs) ∧ fd_view h' = fd_view h ∧ (fc_irq (fd_view h) = true → (fd_late h' < fd_late h)%nat))) ∧
    (length (filter (λ i, i = 0) irqs) = 1%nat ∨ (0 ∉ irqs) ∧ (fd_quiet h' < fd_quiet h)%nat);
  fd_put h l : fd_ok h → length l = 512%nat →
    fd_ok (dma_put DMA_BUFFER l h) ∧ fd_view (dma_put DMA_BUFFER l h) = with_buf l (fd_view h);
  fd_get h i : fd_ok h → 0 ≤ i < 512 → dma_get (DMA_BUFFER + i) h = arr_get (fc_buf (fd_view h)) i
}.
