(* ===== verification/FloppyThm.v ===== *)
(** The floppy driver of [Floppy.v] drives the disk: on a machine with the laws of
    [Floppy.Fdc] it reads, writes and comes up as it should, and so is a block
    device ([Block.BlockDevice]) for the file system. *)
From Stdlib Require Import ZArith Lia Bool.
From stdpp Require Import base numbers gmap option list.
From S2P Require Import Prelude Block Io Pic Timer Floppy.

#[local] Open Scope Z_scope.
#[local] Open Scope c_scope.
#[local] Open Scope io_scope.

(** ** The driver on such a machine *)

Section Proofs.
Context {H : Type} `{Ports H} `{!Dma H} `{!Fdc H}.
Implicit Types s : floppy H.

(** The machine's controller is [c], the timer runs at a sane rate, and the
    driver's flags are [fired] and [motor]. *)
Record holds (c : fdc) (fired motor : bool) s : Prop := {
  ho_ok : fd_ok (fl_hw s);
  ho_view : fd_view (fl_hw s) = c;
  ho_ticks : 0 ≤ ticks (fl_timer s) < 2 ^ 32;
  ho_freq : 0 ≤ frequency (fl_timer s) ≤ 1000;
  ho_fired : irq_fired s = fired;
  ho_motor : motor_on s = motor
}.

Lemma holds_hw c c' f m s h : holds c f m s → fd_ok h → fd_view h = c' → holds c' f m (set_hw h s).
Proof. intros [? ? ? ? ? ?] ? ?. by split. Qed.

Lemma holds_fired c f f' m s : holds c f m s → holds c f' m (with_fired f' s).
Proof. intros [? ? ? ? ? ?]. by split. Qed.

Lemma outb_holds port v c f m s :
  holds c f m s → port ∈ floppy_ports → port ≠ FDC_FIFO → 0 ≤ v < 256 →
  iwp (outb port v) (λ s' _, holds (fdc_out port v c) f m s') s.
Proof.
  intros Hs Hp Hne Hv. unfold outb, out_port. apply iwp_put.
  assert (u16 port = port ∧ u8 v = v) as [-> ->].
  { rewrite (u8_small v) by done. split; [|done]. apply u16_small. revert Hp. unfold floppy_ports.
    rewrite !elem_of_cons, elem_of_nil. unfold FDC_DOR, FDC_FIFO, FDC_CCR. lia. }
  destruct (fd_out (fl_hw s) port v (ho_ok _ _ _ _ Hs) Hp Hv) as (Hok & Hview & _); [done|].
  eapply (holds_hw c); [done|exact Hok|]. rewrite <- (ho_view _ _ _ _ Hs). exact Hview.
Qed.

Lemma io_wait_holds c f m s :
  holds c f m s → ∃ s', io_wait s = Some (s', tt) ∧ holds c f m s' ∧ (fd_busy (fl_hw s') ≤ fd_busy (fl_hw s))%nat.
Proof.
  intros Hs. destruct (fd_out (fl_hw s) 0x80 0 (ho_ok _ _ _ _ Hs)) as (Hok & Hview & Hb); [|done|done|].
  { unfold floppy_ports. rewrite !elem_of_cons. tauto. }
  eexists. split; [done|]. split; [|by apply Hb]. eapply (holds_hw c); [done|exact Hok|].
  rewrite <- (ho_view _ _ _ _ Hs). exact Hview.
Qed.

(** Polling the status register, down to the answer. *)
Lemma status_holds c f m s :
  holds c f m s → fc_irq c = false →
  ∃ s' v, inb FDC_MSR s = Some (s', v) ∧ holds c f m s' ∧
    if fd_busy (fl_hw s) is O
    then v &&& 0xC0 = (if fc_result c is [] then 0x80 else 0xC0) ∧ fd_busy (fl_hw s') = 0%nat
    else v &&& 0x80 = 0 ∧ (fd_busy (fl_hw s') < fd_busy (fl_hw s))%nat.
Proof.
  intros Hs Hi. destruct Hs as [Hok Hv H1 H2 H3 H4] eqn:Es. rewrite <- Hv in Hi.
  pose proof (fd_status (fl_hw s) Hok Hi) as Hst. unfold inb, in_port. change (u16 FDC_MSR) with FDC_MSR. change (get_hw s) with (fl_hw s).
  destruct (p_in 1 FDC_MSR (fl_hw s)) as [h v] eqn:Ep. destruct Hst as (Hok' & Hv' & Hb). exists (set_hw h s), v.
  split; [done|]. split; [eapply (holds_hw c); [by split|done|congruence]|]. rewrite Hv in Hb. exact Hb.
Qed.

Lemma not_ready v x : v &&& 0x80 = 0 → x = 0x80 ∨ x = 0xC0 → (v &&& 0xC0 =? x) = false.
Proof.
  intros Hv Hx. apply Z.eqb_neq. intros E. assert (Z.testbit (v &&& 0xC0) 7 = true) as Ht by (rewrite E; by destruct Hx as [-> | ->]).
  assert (Z.testbit (v &&& 0x80) 7 = false) as Hf by (by rewrite Hv).
  rewrite Z.land_spec in Ht, Hf. change (Z.testbit 0xC0 7) with true in Ht. change (Z.testbit 0x80 7) with true in Hf. congruence.
Qed.

(** A byte sent when no result is waiting. *)
Lemma fdc_write_holds v c f m s :
  holds c f m s → fc_irq c = false → fc_result c = [] → 0 ≤ v < 256 →
  iwp (fdc_write v) (λ s' _, holds (fdc_fifo v c) f m s') s.
Proof.
  intros Hs Hi Hr Hv. unfold fdc_write.
  pose proof (proj1 (fd_bounds _ (ho_ok _ _ _ _ Hs))) as Hbz. assert ((fd_busy (fl_hw s) < Z.to_nat 10000)%nat) as Hb by lia. clear Hbz.
  revert Hb. generalize (Z.to_nat 10000) as n. intros n. revert s Hs. induction n as [|n IH]; intros s Hs Hb; [lia|].
  cbn [fdc_write_loop]. apply iwp_bind. destruct (status_holds c f m s Hs Hi) as (s1 & x & E & Hs1 & Hx).
  exists s1, x. split; [done|]. destruct (fd_busy (fl_hw s)) as [|b] eqn:Eb.
  - rewrite Hr in Hx. destruct Hx as [-> Hb1]. cbn [Z.eqb Pos.eqb]. unfold outb, out_port. apply iwp_put.
    change (u16 FDC_FIFO) with FDC_FIFO. rewrite u8_small by done.
    destruct (fd_out (fl_hw s1) FDC_FIFO v (ho_ok _ _ _ _ Hs1)) as (Hok & Hview & _); [|done| |].
    { unfold floppy_ports. rewrite !elem_of_cons. tauto. } { rewrite (ho_view _ _ _ _ Hs1). done. }
    eapply (holds_hw c); [done|exact Hok|]. rewrite <- (ho_view _ _ _ _ Hs1). exact Hview.
  - destruct Hx as [Hx Hb1]. rewrite (not_ready x 0x80) by auto. apply iwp_bind.
    destruct (io_wait_holds c f m s1 Hs1) as (s2 & E2 & Hs2 & Hb2). exists s2, tt. split; [done|]. apply IH; [done|lia].
Qed.

Lemma fdc_read_holds r rs c f m s :
  holds c f m s → fc_irq c = false → fc_result c = r :: rs →
  iwp fdc_read (λ s' x, x = r ∧ holds (with_result rs c) f m s') s.
Proof.
  intros Hs Hi Hr. unfold fdc_read.
  pose proof (proj1 (fd_bounds _ (ho_ok _ _ _ _ Hs))) as Hbz. assert ((fd_busy (fl_hw s) < Z.to_nat 10000)%nat) as Hb by lia. clear Hbz.
  revert Hb. generalize (Z.to_nat 10000) as n. intros n. revert s Hs. induction n as [|n IH]; intros s Hs Hb; [lia|].
  cbn [fdc_read_loop]. apply iwp_bind. destruct (status_holds c f m s Hs Hi) as (s1 & x & E & Hs1 & Hx).
  exists s1, x. split; [done|]. destruct (fd_busy (fl_hw s)) as [|b] eqn:Eb.
  - rewrite Hr in Hx. destruct Hx as [-> Hb1]. cbn [Z.eqb Pos.eqb]. unfold inb, in_port.
    change (u16 FDC_FIFO) with FDC_FIFO. unfold iwp.
    match goal with |- context [p_in 1 FDC_FIFO ?x] => change x with (fl_hw s1) end.
    pose proof (fd_data (fl_hw s1) r rs (ho_ok _ _ _ _ Hs1) Hb1 ltac:(by rewrite (ho_view _ _ _ _ Hs1))) as Hd.
    destruct (p_in 1 FDC_FIFO (fl_hw s1)) as [h y]. destruct Hd as (Hok & Hview & ->). exists (set_hw h s1), r.
    split; [done|]. split; [done|]. eapply (holds_hw c); [done|done|]. by rewrite <- (ho_view _ _ _ _ Hs1).
  - destruct Hx as [Hx Hb1]. rewrite (not_ready x 0xC0) by auto. apply iwp_bind.
    destruct (io_wait_holds c f m s1 Hs1) as (s2 & E2 & Hs2 & Hb2). exists s2, tt. split; [done|]. apply IH; [done|lia].
Qed.

(** ** Waiting *)

Definition timer_count (irqs : list Z) : nat := length (filter (λ i, i = 0) irqs).

Lemma served_floppy irqs s :
  fold_left (λ s i, handle i s) irqs s =
  MkFloppy (fl_hw s) (Nat.iter (timer_count irqs) timer_irq (fl_timer s)) (irq_fired s || bool_decide (6 ∈ irqs)) (motor_on s).
Proof.
  revert s. induction irqs as [|i irqs IH]; intros s; [cbn; rewrite orb_false_r; by destruct s|].
  cbn [fold_left]. rewrite IH. unfold timer_count. rewrite filter_cons.
  change (handle i s) with (if i =? 0 then MkFloppy (fl_hw s) (timer_irq (fl_timer s)) (irq_fired s) (motor_on s)
    else if i =? 6 then floppy_irq s else s).
  destruct (Z.eqb_spec i 0) as [->|Hne].
  - rewrite decide_True by done. cbn [fl_hw fl_timer irq_fired motor_on length Nat.iter]. f_equal.
    + generalize (length (filter (λ i, i = 0) irqs)) as n. intros n. induction n as [|n IHn]; [done|]. cbn [Nat.iter nat_rect]. by f_equal.
    + f_equal. apply bool_decide_ext. rewrite elem_of_cons. split; [by right|by intros [?|?]].
  - rewrite decide_False by done. destruct (Z.eqb_spec i 6) as [->|Hne6].
    + cbn [floppy_irq with_fired fl_hw fl_timer irq_fired motor_on orb]. f_equal. rewrite (bool_decide_true (6 ∈ 6 :: irqs)) by left.
      by rewrite orb_true_r.
    + do 2 f_equal. apply bool_decide_ext. rewrite elem_of_cons. split; [by right|by intros [?|?]].
Qed.

(** Going to sleep once: an interrupt the controller has raised is taken, or the
    wait for it has become shorter; a tick has been counted, or the wait for
    that has. *)
Lemma nap_spec c f m s :
  holds c f m s →
  (if fc_irq c then holds (with_irq false c) true m (nap s) ∨ holds c f m (nap s) ∧ (fd_late (fl_hw (nap s)) < fd_late (fl_hw s))%nat
   else holds c f m (nap s)) ∧
  (ticks (fl_timer (nap s)) = u32 (ticks (fl_timer s) + 1) ∨
   ticks (fl_timer (nap s)) = ticks (fl_timer s) ∧ (fd_quiet (fl_hw (nap s)) < fd_quiet (fl_hw s))%nat) ∧
  frequency (fl_timer (nap s)) = frequency (fl_timer s).
Proof.
  intros [Hok Hv Ht Hfr Hf Hm]. unfold nap.
  match goal with |- context [p_hlt ?x] => change x with (fl_hw s) end. pose proof (fd_hlt (fl_hw s) Hok) as Hh.
  destruct (p_hlt (fl_hw s)) as [h irqs]. destruct Hh as (Hok' & Hi & Hq). rewrite served_floppy.
  cbn [fl_hw fl_timer irq_fired motor_on]. rewrite Hv in Hi.
  change (fl_hw (set_hw h s)) with h. change (fl_timer (set_hw h s)) with (fl_timer s).
  change (irq_fired (set_hw h s)) with (irq_fired s). change (motor_on (set_hw h s)) with (motor_on s). rewrite Hf, Hm.
  assert (∀ t, 0 ≤ ticks t < 2 ^ 32 ∧ 0 ≤ frequency t ≤ 1000 → ∀ n, 0 ≤ ticks (Nat.iter n timer_irq t) < 2 ^ 32 ∧
    0 ≤ frequency (Nat.iter n timer_irq t) ≤ 1000) as Hiter.
  { intros t Ht' n. induction n as [|n IH]; [done|]. cbn [Nat.iter]. unfold timer_irq at 1 3. cbn [ticks frequency].
    split; [apply u32_range|apply IH]. }
  destruct (Hiter (fl_timer s) (conj Ht Hfr) (timer_count irqs)) as [H1 H2]. split; [|split].
  - destruct (fc_irq c) eqn:Ei; cbn [andb] in Hi.
    + destruct (bool_decide_reflect (6 ∈ irqs)) as [H6|H6].
      * left. split; cbn [fl_hw fl_timer irq_fired motor_on]; try done. by rewrite orb_true_r.
      * right. destruct Hi as (_ & Hv' & Hl). split; [|by apply Hl]. split; cbn [fl_hw fl_timer irq_fired motor_on]; try (done || congruence); by rewrite orb_false_r.
    + destruct Hi as (H6 & Hv' & _). rewrite bool_decide_false by done.
      split; cbn [fl_hw fl_timer irq_fired motor_on]; try (done || congruence); by rewrite orb_false_r.
  - unfold timer_count. destruct Hq as [-> | [H0' Hq]]; [by left|]. right. split; [|done].
    assert (filter (λ i, i = 0) irqs = []) as ->; [|done].
    clear -H0'. induction irqs as [|i irqs IH]; [done|]. rewrite filter_cons_False; [|intros ->; apply H0'; by left].
    apply IH. intros Hin. apply H0'. by right.
  - generalize (timer_count irqs) as n. intros n. induction n as [|n IH]; [done|]. cbn [Nat.iter]. exact IH.
Qed.

Lemma wait_irq_holds c m s :
  holds c false m s → fc_irq c = true → iwp wait_irq (λ s' r, r = 0 ∧ holds (with_irq false c) false m s') s.
Proof.
  intros Hs Hi. unfold wait_irq. pose proof (fd_bounds _ (ho_ok _ _ _ _ Hs)) as (_ & Hl & _).
  assert ((fd_late (fl_hw s) + 1 < Z.to_nat 400)%nat) as Hn by lia. clear Hl.
  revert Hn. generalize (Z.to_nat 400) as n. intros n. revert s Hs. induction n as [|n IH]; intros s Hs Hn; [lia|].
  cbn [wait_irq_loop]. apply iwp_bind, iwp_get. rewrite (ho_fired _ _ _ _ Hs). apply iwp_bind. unfold sleep. apply iwp_put.
  destruct (nap_spec c false m s Hs) as (Hnap & _). rewrite Hi in Hnap. destruct Hnap as [Hd|[Hd Hlt]]; [|apply IH; [done|lia]].
  destruct n as [|n]; [lia|]. cbn [wait_irq_loop]. apply iwp_bind, iwp_get. rewrite (ho_fired _ _ _ _ Hd).
  apply iwp_bind, iwp_put, iwp_ret. split; [done|]. by eapply holds_fired.
Qed.

Lemma timer_sleep_holds c f m s :
  holds c f m s → fc_irq c = false → iwp (timer_sleep sleep_fuel 300) (λ s' _, holds c f m s') s.
Proof.
  intros Hs Hi.
  destruct (timer_sleep_ends (λ s, holds c f m s) (λ s, fd_quiet (fl_hw s)) 16 sleep_fuel 300 s) as (n & E & Hn); [|done| |by exists (naps n s), tt].
  - intros s1 Hs1. destruct (nap_spec c f m s1 Hs1) as (Hnap & Htick & _). rewrite Hi in Hnap.
    split_and!; [apply (ho_ticks _ _ _ _ Hs1)|apply (ho_ticks _ _ _ _ Hs1)|apply fd_bounds, (ho_ok _ _ _ _ Hs1)|done|exact Htick].
  - pose proof (ho_freq _ _ _ _ Hs) as Hfr. change (get_timer s) with (fl_timer s). unfold sleep_fuel.
    assert (needed 300 (frequency (fl_timer s)) ≤ 300); [|lia]. unfold needed. rewrite u32_small by lia.
    destruct (Z.eqb_spec (300 * frequency (fl_timer s) / 1000) 0); [lia|]. apply Z.div_le_upper_bound; lia.
Qed.

Lemma ensure_motor_holds c f m s :
  holds c f m s → fc_irq c = false → fc_reset c = false → fc_spin c = m →
  iwp ensure_motor (λ s' _, holds (with_spin true c) f true s') s.
Proof.
  intros Hs Hi Hr Hsp. unfold ensure_motor. apply iwp_bind, iwp_get. rewrite (ho_motor _ _ _ _ Hs). destruct m.
  - apply iwp_ret. assert (with_spin true c = c) as ->; [|exact Hs]. rewrite <- Hsp. by destruct c.
  - apply iwp_bind. eapply iwp_mono; [apply (outb_holds FDC_DOR 0x1C c f false); [done|unfold floppy_ports; left|done|done]|].
    intros s1 ? H1. assert (fdc_out FDC_DOR 0x1C c = with_spin true c) as E.
    { unfold fdc_out. cbn [Z.eqb FDC_DOR Pos.eqb negb]. change (Z.testbit 28 2) with true. cbn [negb]. by rewrite Hr. }
    rewrite E in H1. apply iwp_bind. eapply iwp_mono; [apply (timer_sleep_holds (with_spin true c) f false); [done|exact Hi]|].
    intros s2 ? H2. apply iwp_put. destruct H2 as [? ? ? ? ? ?]. by split.
Qed.

(** ** Commands *)

(** An idle controller. *)
Abbreviation Idle sp pend cyl d buf disk := (MkFdc false sp [] [] false pend cyl d buf disk).

Lemma write_mid l v c f m s :
  holds (with_cmd l c) f m s → fc_irq c = false → fc_result c = [] → 0 ≤ v < 256 →
  (zlen (l ++ [v]) <? command_length (arr_get (l ++ [v]) 0)) = true →
  iwp (fdc_write v) (λ s' _, holds (with_cmd (l ++ [v]) c) f m s') s.
Proof.
  intros Hs Hi Hr Hv Hl. eapply iwp_mono; [by apply (fdc_write_holds v (with_cmd l c) f m)|]. intros s' ? H'.
  unfold fdc_fifo in H'. cbn [with_cmd fc_cmd] in H'. by rewrite Hl in H'.
Qed.

Lemma write_last l v c f m s :
  holds (with_cmd l c) f m s → fc_irq c = false → fc_result c = [] → 0 ≤ v < 256 →
  (zlen (l ++ [v]) <? command_length (arr_get (l ++ [v]) 0)) = false →
  iwp (fdc_write v) (λ s' _, holds (fdc_exec (l ++ [v]) (with_cmd [] c)) f m s') s.
Proof.
  intros Hs Hi Hr Hv Hl. eapply iwp_mono; [by apply (fdc_write_holds v (with_cmd l c) f m)|]. intros s' ? H'.
  unfold fdc_fifo in H'. cbn [with_cmd fc_cmd] in H'. by rewrite Hl in H'.
Qed.

Lemma sense_holds sp st pend cyl d buf disk f m s :
  holds (Idle sp (st :: pend) cyl d buf disk) f m s →
  iwp sense_interrupt (λ s' _, holds (Idle sp pend cyl d buf disk) f m s') s.
Proof.
  intros Hs. unfold sense_interrupt. apply iwp_bind.
  eapply iwp_mono; [apply (write_last [] _ (Idle sp (st :: pend) cyl d buf disk)); done|]. intros s1 ? H1.
  apply iwp_bind. eapply iwp_mono; [eapply (fdc_read_holds st [cyl]); [exact H1|done|done]|]. intros s2 x2 [_ H2].
  apply iwp_bind. eapply iwp_mono; [eapply (fdc_read_holds cyl []); [exact H2|done|done]|]. intros s3 x3 [_ H3].
  apply iwp_ret. exact H3.
Qed.

(** After a command that has moved the head. *)
Lemma settle_holds sp cyl d buf disk m s :
  holds (MkFdc false sp [] [] true [0x20] cyl d buf disk) false m s →
  iwp (let! r := wait_irq in if negb (r =? 0) then io_ret (-1) else sense_interrupt ;! io_ret 0)
    (λ s' r, r = 0 ∧ holds (Idle sp [] cyl d buf disk) false m s') s.
Proof.
  intros Hs. apply iwp_bind. eapply iwp_mono; [by apply (wait_irq_holds _ m s Hs)|]. intros s1 r [-> H1].
  cbn [Z.eqb negb]. apply iwp_bind. eapply iwp_mono; [eapply sense_holds; exact H1|]. intros s2 ? H2. by apply iwp_ret.
Qed.

Lemma recalibrate_holds pend cyl d buf disk m s :
  holds (Idle m pend cyl d buf disk) false m s →
  iwp recalibrate (λ s' r, r = 0 ∧ holds (Idle true [] 0 d buf disk) false true s') s.
Proof.
  intros Hs. unfold recalibrate. apply iwp_bind.
  eapply iwp_mono; [by apply (ensure_motor_holds _ false m s Hs)|]. intros s1 ? H1. cbn [with_spin fc_reset fc_cmd fc_result fc_irq fc_pend fc_cyl fc_dma fc_buf fc_disk] in H1.
  apply iwp_bind. eapply iwp_mono; [apply (write_mid [] _ (Idle true pend cyl d buf disk)); [exact H1|done..]|]. intros s2 ? H2.
  apply iwp_bind. eapply iwp_mono; [apply (write_last [CMD_RECALIBRATE] _ (Idle true pend cyl d buf disk)); [exact H2|done..]|]. intros s3 ? H3.
  by apply settle_holds.
Qed.

Lemma seek_holds sp pend cyl d buf disk new head m s :
  holds (Idle sp pend cyl d buf disk) false m s → 0 ≤ new < 256 →
  iwp (seek new head) (λ s' r, r = 0 ∧ holds (Idle sp [] new d buf disk) false m s') s.
Proof.
  intros Hs Hn. unfold seek.
  apply iwp_bind. eapply iwp_mono; [apply (write_mid [] _ (Idle sp pend cyl d buf disk)); [exact Hs|done..]|]. intros s1 ? H1.
  apply iwp_bind. eapply iwp_mono; [apply (write_mid [CMD_SEEK] _ (Idle sp pend cyl d buf disk)); [exact H1|done|done|apply u8_range|done]|]. intros s2 ? H2.
  apply iwp_bind. eapply iwp_mono; [apply (write_last [CMD_SEEK; u8 (head <<< 2)] _ (Idle sp pend cyl d buf disk)); [exact H2|done|done|done|done]|]. intros s3 ? H3.
  by apply settle_holds.
Qed.

(** ** Transfers *)

Lemma halves old lo hi : 0 ≤ lo < 256 → set_half true (set_half false old lo) hi = lo + 256 * hi.
Proof. intros Hl. unfold set_half. zlia. Qed.

Definition channel_for (write : bool) : channel := Channel false false 0 8 511 (if write then 0x4A else 0x46).

Ltac out_byte :=
  apply iwp_bind; eapply iwp_mono;
  [eapply outb_holds; [eassumption|apply (bool_decide_unpack _); vm_compute; exact I|by vm_compute|split; [by vm_compute|by vm_compute]]|];
  cbv beta; intros ? ? ?.

Lemma dma_prepare_holds write sp pend cyl d buf disk f m s :
  holds (Idle sp pend cyl d buf disk) f m s →
  iwp (dma_prepare write) (λ s' _, holds (Idle sp pend cyl (channel_for write) buf disk) f m s') s.
Proof.
  intros Hs. unfold dma_prepare. do 8 out_byte. apply iwp_bind.
  eapply iwp_mono; [eapply outb_holds; [eassumption|apply (bool_decide_unpack _); vm_compute; exact I|done|by destruct write]|]. cbv beta. intros s9 ? H9.
  eapply iwp_mono; [eapply outb_holds; [eassumption|apply (bool_decide_unpack _); vm_compute; exact I|done|done]|]. cbv beta. intros s10 ? H10.
  match type of H10 with holds ?c _ _ _ => assert (c = Idle sp pend cyl (channel_for write) buf disk) as <-; [|exact H10] end.
  destruct d as [dm dh da dp dc dmo]. destruct write; cbv -[set_half]; by rewrite !halves.
Qed.

Lemma reachable_here drive cyl head sec c :
  fc_spin c = true → fc_cyl c = cyl → 0 ≤ cyl < 80 → 0 ≤ head < 2 → drive = head <<< 2 → 1 ≤ sec ≤ 18 →
  reachable drive cyl head sec c = true.
Proof.
  intros Esp Ec Hc Hh -> Hs. unfold reachable, SPT. rewrite Esp, Ec, !Z.eqb_refl. cbn [andb].
  rewrite !andb_true_iff, !Z.leb_le, !Z.ltb_lt. lia.
Qed.

Ltac next_byte l c := apply iwp_bind; eapply iwp_mono; [apply (write_mid l _ c); [eassumption|done|done|lia|done]|]; intros ? ? ?.
Ltac next_result r rs := apply iwp_bind; eapply iwp_mono; [eapply (fdc_read_holds r rs); [eassumption|done|done]|]; cbv beta; intros ? ? [? ?].

(** What a transfer does to the buffer and the disk. *)
Definition moved_data (write : bool) (lba : Z) (data : list Z) (disk : Z → list Z) : list Z * (Z → list Z) :=
  if write then (data, λ l, if l =? lba then data else disk l) else (disk lba, disk).

Lemma transfer_holds write data pend cyl head sec d buf disk m s :
  holds (Idle true pend cyl d buf disk) false m s →
  0 ≤ cyl < 80 → 0 ≤ head < 2 → 1 ≤ sec ≤ 18 → (write = true → length data = 512%nat) →
  let '(buf', disk') := moved_data write (lba_of cyl head sec) data disk in
  iwp (transfer cyl head sec data write)
    (λ s' r, r = Some (head <<< 2) ∧ ∃ d', holds (Idle true pend cyl d' buf' disk') false m s') s.
Proof.
  intros Hs Hc Hh Hse Hd. set (buf1 := if write then data else buf).
  assert (u8 (head <<< 2) = head <<< 2) as Eh by (rewrite shiftl_mul by lia; rewrite u8_small by lia; done).
  assert (0 ≤ head <<< 2 < 256) as Hh4 by (rewrite shiftl_mul by lia; lia).
  destruct (moved_data write (lba_of cyl head sec) data disk) as [buf' disk'] eqn:Em.
  unfold transfer. rewrite Eh. apply iwp_bind.
  apply (iwp_mono _ (λ s1 _, holds (Idle true pend cyl d buf1 disk) false m s1)).
  { unfold buf1. destruct write; [|by apply iwp_ret]. unfold buffer_put. apply iwp_put.
    destruct (fd_put (fl_hw s) data (ho_ok _ _ _ _ Hs) (Hd eq_refl)) as [Hok Hv].
    eapply holds_hw; [exact Hs|exact Hok|]. by rewrite Hv, (ho_view _ _ _ _ Hs). }
  intros s1 ? K1. apply iwp_bind. eapply iwp_mono; [by eapply dma_prepare_holds|]. cbv beta. intros s2 ? K2.
  apply iwp_bind, iwp_put. apply (holds_fired _ _ false) in K2.
  set (op := if write then CMD_WRITE else CMD_READ). set (c := Idle true pend cyl (channel_for write) buf1 disk) in *.
  assert (0 ≤ op < 256 ∧ command_length op = 9) as [Hop Hlen] by (unfold op; by destruct write).
  assert (∀ l v, (zlen ((op :: l) ++ [v]) <? command_length (arr_get ((op :: l) ++ [v]) 0)) = (zlen l + 2 <? 9)) as El.
  { intros l v. change (arr_get ((op :: l) ++ [v]) 0) with op. rewrite Hlen. f_equal. unfold zlen. rewrite length_app. simpl. lia. }
  apply iwp_bind. eapply iwp_mono; [apply (write_mid [] _ c); [eassumption|done|done|done|by change (arr_get ([] ++ [op]) 0) with op; rewrite Hlen]|]. cbv beta. intros s3 ? K3.
  do 7 (apply iwp_bind; eapply iwp_mono; [eapply (write_mid (op :: _)); [eassumption|done|done|first [done|lia]|by rewrite El]|]; cbv beta; intros ? ? ?).
  apply iwp_bind. eapply iwp_mono; [eapply (write_last (op :: _) _ c); [eassumption|done|done|done|by rewrite El]|]. cbv beta. intros s4 ? K4.
  assert (fdc_exec [op; head <<< 2; cyl; head; sec; 2; SPT; 0x1B; 0xFF] (with_cmd [] c) =
    MkFdc false true [] [head <<< 2; 0; 0; cyl; head; sec + 1; 2] true pend cyl
      (Channel true false 0 8 511 (if write then 0x4A else 0x46)) buf' disk') as Ex.
  { unfold fdc_exec. change (arr_get (op :: _) 0) with op. change (arr_get [op; head <<< 2; _; _; _; _; _; _; _] 1) with (head <<< 2).
    change (arr_get [op; _; cyl; _; _; _; _; _; _] 2) with cyl. change (arr_get [op; _; _; head; _; _; _; _; _] 3) with head.
    change (arr_get [op; _; _; _; sec; _; _; _; _] 4) with sec. cbv zeta.
    rewrite (reachable_here (head <<< 2) cyl head sec (with_cmd [] c)) by done.
    unfold op, c, channel_for, buf1, moved_data in *. destruct write; injection Em as <- <-; reflexivity. }
  match type of K4 with holds ?x _ _ _ => change x with (fdc_exec [op; head <<< 2; cyl; head; sec; 2; SPT; 0x1B; 0xFF] (with_cmd [] c)) in K4 end.
  rewrite Ex in K4. apply iwp_bind. eapply iwp_mono; [by apply (wait_irq_holds _ m _ K4)|]. cbv beta. intros s5 r [-> K5].
  cbn [Z.eqb negb]. cbn [with_irq fc_reset fc_spin fc_cmd fc_result fc_irq fc_pend fc_cyl fc_dma fc_buf fc_disk] in K5.
  apply iwp_bind. eapply iwp_mono; [eapply (fdc_read_holds (head <<< 2)); [exact K5|done|done]|]. cbv beta. intros s6 y6 [-> K6].
  do 6 (apply iwp_bind; eapply iwp_mono; [eapply fdc_read_holds; [eassumption|done|reflexivity]|]; cbv beta; intros ? ? [? ?]).
  apply iwp_ret. split; [done|]. eexists. eassumption.
Qed.

(** Between operations: the controller idle, the driver's flag telling the motor's
    state, [disk] in the drive. *)
Definition ready (disk : Z → list Z) s : Prop :=
  ∃ m pend cyl d buf, holds (Idle m pend cyl d buf disk) false m s.

Definition SECTORS : Z := 2880.

Lemma chs lba :
  0 ≤ lba < SECTORS →
  let sector := u8 (u8 (lba mod SPT) + 1) in let head := u8 ((lba / SPT) mod HEADS) in let cyl := u8 ((lba / SPT) / HEADS) in
  0 ≤ cyl < 80 ∧ 0 ≤ head < 2 ∧ 1 ≤ sector ≤ 18 ∧ lba_of cyl head sector = lba.
Proof.
  unfold SECTORS, SPT, HEADS, lba_of. intros Hl. cbv zeta.
  assert (0 ≤ lba / 18 / 2 < 80 ∧ 0 ≤ lba / 18 mod 2 < 2 ∧ 0 ≤ lba mod 18 < 18) as (H1 & H2 & H3) by zlia.
  rewrite (u8_small (lba / 18 / 2)), (u8_small (lba / 18 mod 2)), (u8_small (lba mod 18)), (u8_small (lba mod 18 + 1)) by lia.
  split_and!; try lia. clear. unfold SPT, HEADS. zlia.
Qed.

Lemma buffer_get_holds sp pend cyl d buf disk f m s :
  holds (Idle sp pend cyl d buf disk) f m s → length buf = 512%nat → buffer_get s = buf.
Proof.
  intros Hs Hl. unfold buffer_get. apply list_eq_same_length with 512%nat; [done|by rewrite length_map, length_seqZ|].
  intros i x y Hi Hx Hy. apply list_lookup_fmap_Some in Hx as (k & Ex & Hk). apply lookup_seqZ in Hk as [-> Hk].
  rewrite fd_get in Ex; [|apply (ho_ok _ _ _ _ Hs)|lia]. rewrite (ho_view _ _ _ _ Hs) in Ex. cbn [fc_buf] in Ex.
  rewrite <- (arr_get_lookup buf (0 + Z.of_nat i) y) by (try lia; replace (Z.to_nat (0 + Z.of_nat i)) with i by lia; done). done.
Qed.

(** The first attempt at a sector succeeds. *)
Lemma attempt_holds n write data lba cyl head sec pend cyl0 d buf disk s :
  holds (Idle true pend cyl0 d buf disk) false true s →
  0 ≤ cyl < 80 → 0 ≤ head < 2 → 1 ≤ sec ≤ 18 → lba_of cyl head sec = lba → (write = true → length data = 512%nat) →
  (write = false → length (disk lba) = 512%nat) →
  let '(buf', disk') := moved_data write lba data disk in
  iwp (rw_attempts (S n) cyl head sec data write) (λ s' r, r = (0, buf') ∧ ready disk' s') s.
Proof.
  intros Hs Hc Hh Hse <- Hd Hl. destruct (moved_data write (lba_of cyl head sec) data disk) as [buf' disk'] eqn:Em.
  cbn [rw_attempts]. apply iwp_bind. eapply iwp_mono; [eapply (seek_holds _ _ _ _ _ _ cyl); [exact Hs|lia]|].
  cbv beta. intros s1 r [-> K1]. cbn [Z.eqb negb]. apply iwp_bind.
  pose proof (transfer_holds write data [] cyl head sec d buf disk true s1 K1 Hc Hh Hse Hd) as Ht. rewrite Em in Ht.
  eapply iwp_mono; [exact Ht|]. cbv beta. intros s2 r [-> (d' & K2)].
  assert ((head <<< 2) &&& 0xC0 = 0) as -> by (assert (head = 0 ∨ head = 1) as [-> | ->] by lia; done).
  cbn [Z.eqb]. apply iwp_bind, iwp_get, iwp_ret. split; [|by do 5 eexists].
  unfold moved_data in Em. destruct write; injection Em as <- <-; [done|].
  by erewrite buffer_get_holds by eauto.
Qed.

Lemma rw_holds write data lba disk s :
  ready disk s → 0 ≤ lba < SECTORS → (write = true → length data = 512%nat) → (write = false → length (disk lba) = 512%nat) →
  let '(buf', disk') := moved_data write lba data disk in
  iwp (floppy_rw lba data write) (λ s' r, r = (0, buf') ∧ ready disk' s') s.
Proof.
  intros (m & pend & cyl0 & d & buf & Hs) Hlba Hd Hl. destruct (chs lba Hlba) as (Hc & Hh & Hse & El).
  pose proof (λ s1 K, attempt_holds 3 write data lba _ _ _ pend cyl0 d buf disk s1 K Hc Hh Hse El Hd Hl) as Ha.
  destruct (moved_data write lba data disk) as [buf' disk']. unfold floppy_rw. apply iwp_bind.
  eapply iwp_mono; [by apply (ensure_motor_holds _ false m s Hs)|]. cbv beta. intros s1 ? K1. exact (Ha s1 K1).
Qed.

(** Bring-up: whatever state the controller was in. *)
Lemma init_holds c f s :
  holds c f false s → iwp floppy_init (λ s' _, ready (fc_disk c) s') s.
Proof.
  intros Hs. unfold floppy_init, pic_unmask. apply iwp_bind, iwp_bind.
  change (pic_port 6) with PIC1_DATA. unfold inb, in_port.
  pose proof (fd_mask (fl_hw s) (ho_ok _ _ _ _ Hs)) as Hm. unfold iwp at 1. change (u16 PIC1_DATA) with PIC1_DATA.
  match goal with |- context [p_in 1 PIC1_DATA ?x] => change x with (fl_hw s) end.
  destruct (p_in 1 PIC1_DATA (fl_hw s)) as [h v]. destruct Hm as [Hok Hv]. eexists _, _. split; [done|].
  assert (holds c f false (set_hw h s)) as K0.
  { eapply holds_hw; [exact Hs|done|]. by rewrite Hv, (ho_view _ _ _ _ Hs). }
  unfold outb at 1, out_port. apply iwp_put. change (u16 PIC1_DATA) with PIC1_DATA.
  destruct (fd_out h PIC1_DATA (u8 (v &&& Z.lnot (1 <<< pic_bit 6)))) as (Hok2 & Hv2 & _);
    [done|apply (bool_decide_unpack _); vm_compute; exact I|apply u8_range|by vm_compute|].
  match goal with |- iwp _ _ (set_hw ?h2 _) => assert (holds c f false (set_hw h2 (set_hw h s))) as K1 end.
  { eapply holds_hw; [exact K0|exact Hok2|]. etransitivity; [exact Hv2|]. by rewrite Hv, (ho_view _ _ _ _ Hs). }
  apply iwp_bind, iwp_put. apply (holds_fired _ _ false) in K1.
  do 2 out_byte. match goal with K : holds (fdc_out FDC_DOR 0x0C _) _ _ _ |- _ => rename K into K3 end.
  assert (fdc_out FDC_DOR 0x0C (fdc_out FDC_DOR 0 c) = MkFdc false false [] [] true [0xC0; 0xC1; 0xC2; 0xC3] (fc_cyl c) (fc_dma c) (fc_buf c) (fc_disk c))
    as E by done. rewrite E in K3. clear E.
  apply iwp_bind. eapply iwp_mono; [by apply (wait_irq_holds _ false _ K3)|]. cbv beta. intros s4 ? [_ K4]. cbn [with_irq fc_reset fc_spin fc_cmd fc_result fc_irq fc_pend fc_cyl fc_dma fc_buf fc_disk] in K4.
  apply iwp_bind. cbn [io_for].
  do 4 (apply iwp_bind; apply iwp_bind; eapply iwp_mono; [eapply sense_holds; eassumption|]; cbv beta; intros ? ? ?; apply iwp_ret).
  apply iwp_ret. out_byte. match goal with K : holds (fdc_out FDC_CCR 0 _) _ _ _ |- _ => rename K into K5 end.
  match type of K5 with holds (fdc_out _ _ ?x) _ _ _ => change (fdc_out FDC_CCR 0 x) with x in K5; set (c5 := x) in * end.
  apply iwp_bind. eapply iwp_mono; [apply (write_mid [] _ c5); [exact K5|done..]|]. cbv beta. intros s6 ? K6.
  apply iwp_bind. eapply iwp_mono; [apply (write_mid [CMD_SPECIFY] _ c5); [exact K6|done..]|]. cbv beta. intros s7 ? K7.
  apply iwp_bind. eapply iwp_mono; [apply (write_last [CMD_SPECIFY; 0xDF] _ c5); [exact K7|done..]|]. cbv beta. intros s8 ? K8.
  change (fdc_exec _ _) with c5 in K8. apply iwp_bind. eapply iwp_mono; [eapply recalibrate_holds; exact K8|]. cbv beta. intros s9 ? [_ K9].
  unfold floppy_motor_off. out_byte. apply iwp_put.
  match goal with K : holds (fdc_out FDC_DOR 0x0C _) _ _ _ |- _ => destruct K end. exists false, [], 0, (fc_dma c), (fc_buf c). by split.
Qed.
Lemma motor_off_holds disk s :
  ready disk s → iwp floppy_motor_off (λ s' _, ready disk s') s.
Proof.
  intros (m & pend & cyl & d & buf & Hs). unfold floppy_motor_off. out_byte. apply iwp_put.
  match goal with K : holds (fdc_out FDC_DOR 0x0C _) _ _ _ |- _ => destruct K end. exists false, pend, cyl, d, buf. by split.
Qed.
End Proofs.

(** ** The block device *)

(** The sectors the drive holds, and the driver between operations with them all
    in order. *)
Definition disk_of {H} `{Ports H} `{!Dma H} `{!Fdc H} (s : floppy H) : Z → list Z := fc_disk (fd_view (fl_hw s)).
Definition fit {H} `{Ports H} `{!Dma H} `{!Fdc H} (s : floppy H) : Prop :=
  ready (disk_of s) s ∧ ∀ lba, 0 ≤ lba < SECTORS → is_sector (disk_of s lba).

Lemma ready_disk {H} `{Ports H} `{!Dma H} `{!Fdc H} disk (s : floppy H) : ready disk s → disk_of s = disk.
Proof. intros (m & pend & cyl & d & buf & Hs). unfold disk_of. by rewrite (ho_view _ _ _ _ Hs). Qed.

(** Calls from the file system: [None] would be a wait that does not end, which
    the laws exclude. *)
Definition dev_read {H} `{Ports H} `{!Dma H} (lba : Z) (s : floppy H) : floppy H * option (list Z) :=
  match floppy_read_sector lba (replicate 512 0) s with
  | Some (s', (r, buf)) => (s', if r =? 0 then Some buf else None)
  | None => (s, None)
  end.
Definition dev_write {H} `{Ports H} `{!Dma H} (lba : Z) (data : list Z) (s : floppy H) : floppy H * bool :=
  match floppy_write_sector lba data s with
  | Some (s', r) => (s', r =? 0)
  | None => (s, false)
  end.
Definition dev_motor_off {H} `{Ports H} (s : floppy H) : floppy H :=
  match floppy_motor_off s with Some (s', _) => s' | None => s end.

Lemma read_holds {H} `{Ports H} `{!Dma H} `{!Fdc H} lba buf disk (s : floppy H) :
  ready disk s → 0 ≤ lba < SECTORS → length (disk lba) = 512%nat →
  iwp (floppy_read_sector lba buf) (λ s' r, r = (0, disk lba) ∧ ready disk s') s.
Proof. intros Hs Hl Hlen. exact (rw_holds false buf lba disk s Hs Hl (λ E, ltac:(done)) (λ _, Hlen)). Qed.

Lemma write_holds {H} `{Ports H} `{!Dma H} `{!Fdc H} lba data disk (s : floppy H) :
  ready disk s → 0 ≤ lba < SECTORS → length data = 512%nat →
  iwp (floppy_write_sector lba data) (λ s' r, r = 0 ∧ ready (λ l, if l =? lba then data else disk l) s') s.
Proof.
  intros Hs Hl Hlen. unfold floppy_write_sector. apply iwp_bind.
  eapply iwp_mono; [exact (rw_holds true data lba disk s Hs Hl (λ _, Hlen) (λ E, ltac:(done)))|].
  cbv beta. intros s1 r [-> K]. by apply iwp_ret.
Qed.

#[export] Program Instance floppy_device {H} `{Ports H} `{!Dma H} `{!Fdc H} : BlockDevice (floppy H) := {|
  bd_read := dev_read;
  bd_write := dev_write;
  bd_motor_off := dev_motor_off;
  bd_healthy := fit;
  bd_size _ := SECTORS;
  bd_sector := disk_of
|}.
Next Obligation. intros H ? ? ? d lba [_ Hs]. by apply Hs. Qed.
Next Obligation.
  intros H ? ? ? d lba [Hr Hs] Hl. cbv beta. unfold dev_read.
  destruct (read_holds lba (replicate 512 0) _ d Hr Hl (proj1 (Hs lba Hl))) as (s' & r & -> & -> & Hr').
  pose proof (ready_disk _ _ Hr') as Ed. cbn [fst snd Z.eqb]. split_and!; [done| |done|by intros l; rewrite Ed].
  unfold fit. by rewrite Ed.
Qed.
Next Obligation.
  intros H ? ? ? d lba data [Hr Hs] Hl Hd. cbv beta. unfold dev_write.
  destruct (write_holds lba data _ d Hr Hl (proj1 Hd)) as (s' & r & -> & -> & Hr').
  pose proof (ready_disk _ _ Hr') as Ed. cbn [fst snd Z.eqb]. split_and!; [done| |done|by intros l; rewrite Ed].
  unfold fit. rewrite Ed. split; [done|]. intros l Hl'. destruct (l =? lba); [done|by apply Hs].
Qed.
Next Obligation.
  intros H ? ? ? d [Hr Hs]. cbv beta. unfold dev_motor_off. destruct (motor_off_holds _ d Hr) as (s' & r & -> & Hr').
  pose proof (ready_disk _ _ Hr') as Ed. split_and!; [|done|by intros l; rewrite Ed]. unfold fit. by rewrite Ed.
Qed.

(** C22: the floppy driver is the disk it drives.  On a controller that behaves by
    its data sheet, whatever state it was found in, [floppy_init] brings the
    driver into its idle state; from there every read of one of the 2880 sectors
    returns 0 and the sector, every write returns 0 and stores it, leaving the
    other sectors alone, and both, like stopping the motor, come back to the idle
    state; no wait runs out of patience. *)
Theorem floppy_drives_disk {H} `{Ports H} `{!Dma H} `{!Fdc H} (s : floppy H) :
  (∀ c f, holds c f false s → ∃ s', floppy_init s = Some (s', tt) ∧ ready (fc_disk c) s') ∧
  ∀ disk, ready disk s →
    (∀ lba buf, 0 ≤ lba < SECTORS → length (disk lba) = 512%nat →
      ∃ s', floppy_read_sector lba buf s = Some (s', (0, disk lba)) ∧ ready disk s') ∧
    (∀ lba data, 0 ≤ lba < SECTORS → length data = 512%nat →
      ∃ s', floppy_write_sector lba data s = Some (s', 0) ∧ ready (λ l, if l =? lba then data else disk l) s') ∧
    ∃ s', floppy_motor_off s = Some (s', tt) ∧ ready disk s'.
Proof.
  split; [|intros disk Hs; split; [|split]].
  - intros c f Hs. destruct (init_holds c f s Hs) as (s' & [] & E & Hr). by exists s'.
  - intros lba buf Hl Hlen. destruct (read_holds lba buf disk s Hs Hl Hlen) as (s' & r & E & -> & Hr). by exists s'.
  - intros lba data Hl Hlen. destruct (write_holds lba data disk s Hs Hl Hlen) as (s' & r & E & -> & Hr). by exists s'.
  - destruct (motor_off_holds disk s Hs) as (s' & [] & E & Hr). by exists s'.
Qed.

(** ** A concrete machine

    The controller itself, always in time; the processor wakes for a tick and for
    another interrupt in turn. *)
Record drive := Drive { dv_fdc : fdc; dv_tick : bool }.

#[export] Instance drive_dma : Dma drive := {|
  dma_get a h := arr_get (fc_buf (dv_fdc h)) (a - DMA_BUFFER);
  dma_put a l h := Drive (if a =? DMA_BUFFER then with_buf l (dv_fdc h) else dv_fdc h) (dv_tick h)
|}.

#[export] Instance drive_ports : Ports drive := {|
  p_out w p v h := Drive (fdc_out p v (dv_fdc h)) (dv_tick h);
  p_in w p h :=
    if p =? FDC_MSR then (h, if fc_result (dv_fdc h) is [] then 0x80 else 0xC0)
    else if p =? FDC_FIFO then
      match fc_result (dv_fdc h) with
      | r :: rs => (Drive (with_result rs (dv_fdc h)) (dv_tick h), r)
      | [] => (h, 0)
      end
    else (h, 0);
  p_hlt h :=
    if dv_tick h then (Drive (dv_fdc h) false, [0])
    else if fc_irq (dv_fdc h) then (Drive (with_irq false (dv_fdc h)) true, [6])
    else (Drive (dv_fdc h) true, [7])
|}.

#[export] Program Instance drive_fdc : Fdc drive := {|
  fd_ok h := True;
  fd_view := dv_fdc;
  fd_busy h := 0%nat;
  fd_late h := if dv_tick h then 1%nat else 0%nat;
  fd_quiet h := if dv_tick h then 0%nat else 1%nat
|}.
Next Obligation. intros h _. cbn beta. by destruct (dv_tick h); split_and!; lia. Qed.
Next Obligation. done. Qed.
Next Obligation. intros h _ _. cbn. by destruct (fc_result (dv_fdc h)). Qed.
Next Obligation. intros h r rs _ _ E. cbn. by rewrite E. Qed.
Next Obligation. done. Qed.
Next Obligation.
  intros h _. cbn. destruct (dv_tick h); cbn.
  - rewrite bool_decide_false, andb_false_r by (rewrite elem_of_cons, elem_of_nil; lia).
    split_and!; [done|rewrite elem_of_cons, elem_of_nil; lia|done|by intros _; lia|by left].
  - destruct (fc_irq (dv_fdc h)) eqn:E; cbn.
    + rewrite bool_decide_true by left. split_and!; [done|done|]. right. split; [rewrite elem_of_cons, elem_of_nil; lia|lia].
    + split_and!; [done|rewrite elem_of_cons, elem_of_nil; lia|done|done|]. right. split; [rewrite elem_of_cons, elem_of_nil; lia|lia].
Qed.
Next Obligation. done. Qed.
Next Obligation. intros h i _ Hi. cbn. f_equal. lia. Qed.

Definition demo_disk (lba : Z) : list Z := replicate 512 (lba mod 256).
Definition demo_floppy : floppy drive :=
  MkFloppy (Drive (MkFdc true false [3; 5] [9] true [] 77 (Channel true true 5 6 7 8) [] demo_disk) true) (MkTimer (2 ^ 32 - 5) 100) true false.

Lemma floppy_drives_disk_witness :
  ∃ s s', floppy_init demo_floppy = Some (s, tt) ∧ floppy_read_sector 2879 [] s = Some (s', (0, demo_disk 2879)).
Proof.
  destruct (floppy_drives_disk demo_floppy) as [Hinit _].
  destruct (Hinit (dv_fdc (fl_hw demo_floppy)) true) as (s & E & Hr);
    [split; [exact I|reflexivity|split; [discriminate|reflexivity]|split; discriminate|reflexivity|reflexivity]|].
  destruct (floppy_drives_disk s) as [_ Hops]. destruct (Hops demo_disk Hr) as (Hread & _).
  destruct (Hread 2879 []) as (s' & E' & _); [split; reflexivity || discriminate|reflexivity|].
  exists s, s'. split; [exact E|exact E'].
Defined.
