(* ===== verification/Mouse.v ===== *)
(** The PS/2 mouse: drivers/mouse.c, the packet state machine, the cursor it
    moves, and the controller commands that start it. *)
From Stdlib Require Import ZArith Lia Bool.
From stdpp Require Import base numbers gmap option list.
From S2P Require Import Prelude Io Pic.

#[local] Open Scope Z_scope.
#[local] Open Scope c_scope.
#[local] Open Scope io_scope.

Definition PS2_DATA : Z := 0x60.
Definition PS2_STATUS : Z := 0x64.
Definition PS2_CMD : Z := 0x64.

(** The module's statics with the machine. *)
Record mouse (H : Type) := MkMouse {
  ms_hw : H;
  bound_w : Z; bound_h : Z;
  mx : Z; my : Z;
  buttons : Z;
  seq : Z;
  packet : Z * Z * Z;
  phase : Z
}.
Arguments MkMouse {H}. Arguments ms_hw {H}. Arguments bound_w {H}. Arguments bound_h {H}. Arguments mx {H}.
Arguments my {H}. Arguments buttons {H}. Arguments seq {H}. Arguments packet {H}. Arguments phase {H}.

#[export] Instance mouse_hw {H} : HasHw (mouse H) H.
Proof.
  refine {| get_hw := ms_hw;
    set_hw h s := MkMouse h (bound_w s) (bound_h s) (mx s) (my s) (buttons s) (seq s) (packet s) (phase s) |}.
  done.
Defined.

Section Mouse.
Context {H : Type}.

Definition mouse_set_bounds (w h : Z) (s : mouse H) : mouse H :=
  MkMouse (ms_hw s) w h (Z.quot w 2) (Z.quot h 2) (buttons s) (seq s) (packet s) (phase s).

Definition with_packet (p : Z * Z * Z) (ph : Z) (s : mouse H) : mouse H :=
  MkMouse (ms_hw s) (bound_w s) (bound_h s) (mx s) (my s) (buttons s) (seq s) p ph.

(** [if (n < 0) n = 0; else if (n >= bound) n = bound - 1;] *)
Definition clamp (n bound : Z) : Z := if n <? 0 then 0 else if bound <=? n then bound - 1 else n.

(** A byte of movement with its sign bit, and the acceleration of large screens. *)
Definition signed (b sign : Z) : Z := if c_true sign then b - 256 else b.
Definition accel (bw d : Z) : Z :=
  if 640 <=? bw then (let ad := if d <? 0 then - d else d in d * (if 5 <? ad then 4 else 2)) else d.

(** The end of [feed]: the cursor and the buttons follow a complete packet. *)
Definition move (p : Z * Z * Z) (s : mouse H) : mouse H :=
  let '(b0, b1, b2) := p in
  if c_true (b0 &&& 0xC0) then s
  else
    let dx := accel (bound_w s) (signed b1 (b0 &&& 0x10)) in
    let dy := accel (bound_w s) (signed b2 (b0 &&& 0x20)) in
    MkMouse (ms_hw s) (bound_w s) (bound_h s)
      (clamp (mx s + dx) (bound_w s)) (clamp (my s - dy) (bound_h s))
      (b0 &&& 0x07) (u32 (seq s + 1)) (packet s) (phase s).

Definition feed (data : Z) (s : mouse H) : mouse H :=
  let '(b0, b1, b2) := packet s in
  if phase s =? 0 then
    if c_true (data &&& 0x08) then with_packet (data, b1, b2) 1 s else s
  else if phase s =? 1 then with_packet (b0, data, b2) 2 s
  else if phase s =? 2 then move (b0, b1, data) (with_packet (b0, b1, data) 0 s)
  else s.

Definition mouse_x (s : mouse H) : Z := mx s.
Definition mouse_y (s : mouse H) : Z := my s.
Definition mouse_buttons (s : mouse H) : Z := buttons s.
Definition mouse_seq (s : mouse H) : Z := seq s.

Context `{Ports H}.

(** [for (i = 0; i < n; i++) if (stop(status)) return;] *)
Fixpoint poll_status (n : nat) (stop : Z → bool) : IO (mouse H) unit :=
  match n with
  | O => io_ret tt
  | S n => let! st := inb PS2_STATUS in if stop st then io_ret tt else poll_status n stop
  end.
Definition TRIES : nat := Z.to_nat 100000.
Definition wait_write : IO (mouse H) unit := poll_status TRIES (λ st, st &&& 0x02 =? 0).
Definition wait_read : IO (mouse H) unit := poll_status TRIES (λ st, c_true (st &&& 0x01)).

Definition mouse_command (cmd : Z) : IO (mouse H) unit :=
  wait_write ;! outb PS2_CMD 0xD4 ;!
  wait_write ;! outb PS2_DATA cmd ;!
  wait_read ;! inb PS2_DATA ;! io_ret tt.

Definition mouse_init : IO (mouse H) unit :=
  wait_write ;! outb PS2_CMD 0xA8 ;!
  wait_write ;! outb PS2_CMD 0x20 ;!
  wait_read ;!
  let! status := inb PS2_DATA in
  let status := u8 (status ||| 0x02) in
  let status := u8 (status &&& Z.lnot 0x20) in
  wait_write ;! outb PS2_CMD 0x60 ;!
  wait_write ;! outb PS2_DATA status ;!
  mouse_command 0xF6 ;!
  mouse_command 0xF4 ;!
  pic_unmask 2 ;!
  pic_unmask 12.

Fixpoint mouse_irq (fuel : nat) : IO (mouse H) unit :=
  match fuel with
  | O => io_stuck
  | S fuel =>
      let! st := inb PS2_STATUS in
      if c_true (st &&& 0x01) then
        let! st := inb PS2_STATUS in
        if negb (c_true (st &&& 0x20)) then io_ret tt
        else let! b := inb PS2_DATA in io_put (feed b) ;! mouse_irq fuel
      else io_ret tt
  end.
End Mouse.

(** ** What the cursor does *)

Section Cursor.
Context {H : Type}.
Implicit Types s : mouse H.

(** The complete packets in a stream of bytes: out of step, bytes without bit 3
    are skipped; and what is left of an incomplete one. *)
Fixpoint packets (l : list Z) : list (Z * Z * Z) :=
  match l with
  | [] => []
  | b0 :: l' =>
      if c_true (b0 &&& 0x08) then
        match l' with b1 :: b2 :: r => (b0, b1, b2) :: packets r | _ => [] end
      else packets l'
  end.

Definition feeds (l : list Z) (s : mouse H) : mouse H := fold_left (λ s b, feed b s) l s.
Definition moves (l : list (Z * Z * Z)) (s : mouse H) : mouse H := fold_left (λ s p, move p s) l s.

(** Everything but the packet being collected. *)
Definition cursor (s : mouse H) : H * Z * Z * Z * Z * Z * Z :=
  (ms_hw s, bound_w s, bound_h s, mx s, my s, buttons s, seq s).

Lemma move_cursor p s s' : cursor s = cursor s' → cursor (move p s) = cursor (move p s').
Proof.
  destruct p as [[b0 b1] b2], s, s'. unfold cursor, move. cbn. intros [= -> -> -> -> -> -> ->].
  by destruct (c_true _).
Qed.

Lemma moves_cursor l s s' : cursor s = cursor s' → cursor (moves l s) = cursor (moves l s').
Proof. revert s s'. induction l as [|p l IH]; intros s s' E; [done|]. by apply IH, move_cursor. Qed.

Lemma move_phase p s : phase (move p s) = phase s.
Proof. destruct p as [[b0 b1] b2]. unfold move. by destruct (c_true _). Qed.

Lemma feed_first b s : phase s = 0 → c_true (b &&& 0x08) = true →
  cursor (feed b s) = cursor s ∧ phase (feed b s) = 1 ∧ (packet (feed b s)).1.1 = b.
Proof. destruct s as [h w ht x y bt sq [[b0 b1] b2] ph]. cbn [phase]. intros -> Hb. unfold feed. cbn. by rewrite Hb. Qed.

Lemma feed_second b s : phase s = 1 →
  cursor (feed b s) = cursor s ∧ phase (feed b s) = 2 ∧ (packet (feed b s)).1 = ((packet s).1.1, b).
Proof. destruct s as [h w ht x y bt sq [[b0 b1] b2] ph]. cbn [phase]. intros ->. done. Qed.

Lemma feed_third b s : phase s = 2 →
  cursor (feed b s) = cursor (move ((packet s).1, b) s) ∧ phase (feed b s) = 0.
Proof.
  destruct s as [h w ht x y bt sq [[b0 b1] b2] ph]. cbn [phase]. intros ->. split.
  - by apply move_cursor.
  - change (phase (move (b0, b1, b) (MkMouse h w ht x y bt sq (b0, b1, b) 0)) = 0). by rewrite move_phase.
Qed.

(** Feeding bytes moves the cursor by the complete packets among them. *)
Lemma feeds_packets l s : phase s = 0 → cursor (feeds l s) = cursor (moves (packets l) s).
Proof.
  revert s. induction l as [l IH] using (induction_ltof1 _ (@length Z)). unfold ltof in IH. intros s Hp.
  destruct l as [|b0 l']; [done|]. cbn [packets]. destruct (c_true (b0 &&& 0x08)) eqn:Hb.
  - destruct (feed_first b0 s Hp Hb) as (C1 & P1 & K1).
    change (feeds (b0 :: l') s) with (feeds l' (feed b0 s)). set (s1 := feed b0 s) in *.
    destruct l' as [|b1 l']; [exact C1|]. destruct (feed_second b1 s1 P1) as (C2 & P2 & K2).
    change (feeds (b1 :: l') s1) with (feeds l' (feed b1 s1)). set (s2 := feed b1 s1) in *.
    destruct l' as [|b2 r]; [exact (eq_trans C2 C1)|]. destruct (feed_third b2 s2 P2) as (C3 & P3).
    change (feeds (b2 :: r) s2) with (feeds r (feed b2 s2)). rewrite IH by (simpl; lia || done).
    change (moves ((b0, b1, b2) :: packets r) s) with (moves (packets r) (move (b0, b1, b2) s)).
    apply moves_cursor. rewrite C3, K2, K1. apply move_cursor. congruence.
  - change (feeds (b0 :: l') s) with (feeds l' (feed b0 s)).
    assert (feed b0 s = s) as ->; [|apply IH; [simpl; lia|done]].
    destruct s as [h w ht x y bt sq [[c0 c1] c2] ph]. cbn [phase] in Hp. subst ph. unfold feed. cbn. by rewrite Hb.
Qed.

Definition on_screen s : Prop := 0 ≤ mx s < bound_w s ∧ 0 ≤ my s < bound_h s.

Lemma clamp_range n b : 0 < b → 0 ≤ clamp n b < b.
Proof. unfold clamp. repeat zcase; lia. Qed.

Lemma move_on_screen p s : on_screen s → on_screen (move p s).
Proof.
  destruct p as [[b0 b1] b2]. intros [Hx Hy]. unfold move. destruct (c_true _); [by split|].
  split; cbn; apply clamp_range; lia.
Qed.

Lemma feed_on_screen b s : on_screen s → on_screen (feed b s).
Proof.
  intros Hs. unfold feed. destruct (packet s) as [[b0 b1] b2]. destruct (phase s =? 0); [by destruct (c_true _)|].
  destruct (phase s =? 1); [done|]. destruct (phase s =? 2); [|done]. by apply move_on_screen.
Qed.

Lemma feeds_on_screen l s : on_screen s → on_screen (feeds l s).
Proof. revert s. induction l as [|b l IH]; intros s Hs; [done|]. by apply IH, feed_on_screen. Qed.

Lemma feed_hw b h s : feed b (set_hw h s) = set_hw h (feed b s).
Proof.
  destruct s as [h0 w ht x y bt sq [[b0 b1] b2] ph]. unfold feed. cbn.
  destruct (ph =? 0); [by destruct (c_true _)|]. destruct (ph =? 1); [done|]. destruct (ph =? 2); [|done].
  unfold move. cbn. by destruct (c_true _).
Qed.

Lemma irq_feeds `{Ports H} fuel s :
  ilp (mouse_irq fuel) (λ s' _, ∃ l h, s' = set_hw h (feeds l s)) s.
Proof.
  assert (∀ m, (∃ l h, m = set_hw h (feeds l s)) → ilp (mouse_irq fuel) (λ s' _, ∃ l h, s' = set_hw h (feeds l s)) m) as Hg;
    [|apply Hg; exists [], (ms_hw s); by destruct s].
  induction fuel as [|fuel IH]; intros m (l & h & ->); [apply ilp_stuck|]. cbn [mouse_irq].
  assert (∀ w p (Q : mouse H → Z → Prop) s', (∀ h' v, Q (set_hw h' s') v) → ilp (in_port w p) Q s') as Hin.
  { intros w p Q s' HQ s1 x. unfold in_port. destruct (p_in w (u16 p) (get_hw s')) as [h' v]. intros [= <- <-]. apply HQ. }
  apply ilp_bind, Hin. intros h1 st. destruct (c_true _); [|apply ilp_ret; by exists l, h1].
  apply ilp_bind, Hin. intros h2 st2. destruct (negb _); [apply ilp_ret; by exists l, h2|].
  apply ilp_bind, Hin. intros h3 b. apply ilp_bind, ilp_put. apply IH. exists (l ++ [b]), h3.
  change (set_hw h3 (set_hw h2 (set_hw h1 (set_hw h (feeds l s))))) with (set_hw h3 (feeds l s)).
  rewrite feed_hw. unfold feeds. by rewrite fold_left_app.
Qed.
End Cursor.

(** The cursor follows the mouse and stays on the screen: whatever bytes
    arrive, and whatever the controller answers during an interrupt, an
    interrupt feeds a sequence of bytes to the packet machine, the cursor and
    the buttons move by exactly the complete packets among them (bytes out of
    step and overflowed packets dropped), and the position stays inside the
    bounds set for it. *)
Theorem mouse_follows `{Ports H} fuel (s : mouse H) :
  phase s = 0 → on_screen s →
  (∀ l, cursor (feeds l s) = cursor (moves (packets l) s) ∧ on_screen (feeds l s)) ∧
  ilp (mouse_irq fuel) (λ s' _, on_screen s' ∧ ∃ l h, s' = set_hw h (feeds l s)) s.
Proof.
  intros Hp Hs. split; [intros l; split; [by apply feeds_packets|by apply feeds_on_screen]|].
  eapply ilp_mono; [apply irq_feeds|]. intros s' _ (l & h & ->). split; [|by exists l, h].
  by apply (feeds_on_screen l s) in Hs.
Qed.

Definition demo_mouse : mouse script :=
  mouse_set_bounds 640 480 (MkMouse (Script [] [0x21; 0x21; 0x08; 0x21; 0x21; 10; 0x21; 0x21; 3; 0] []) 320 200 160 100 0 0 (0, 0, 0) 0).

Lemma mouse_follows_witness :
  on_screen demo_mouse ∧ cursor (feeds [0; 0x38; 0xFF; 0x03; 0x09; 7; 0] demo_mouse) =
    cursor (moves [(0x38, 0xFF, 0x03); (0x09, 7, 0)] demo_mouse) ∧
  ∃ s' x, mouse_irq 5 demo_mouse = Some (s', x) ∧ on_screen s'.
Proof.
  assert (on_screen demo_mouse) as Hs by (split; vm_compute; intuition discriminate).
  destruct (mouse_follows 5 demo_mouse eq_refl Hs) as [Hf Hi]. split; [exact Hs|]. split; [exact (proj1 (Hf _))|].
  destruct (mouse_irq 5 demo_mouse) as [[s' x]|] eqn:E; [|exfalso; revert E; vm_compute; discriminate].
  exists s', x. split; [reflexivity|exact (proj1 (Hi s' x E))].
Defined.
