(* ===== verification/Cpu.v ===== *)
(** Segments and interrupt entry: cpu/gdt.c, the tables of cpu/idt.c, and the
    stubs of cpu/isr.asm, with what the processor does between them: decoding
    descriptors, delivering an interrupt through a gate, and [iret].  The
    dispatcher behind the stubs is in [Isr.v]. *)
From Stdlib Require Import ZArith Lia Bool.
From stdpp Require Import base numbers gmap option list.
From S2P Require Import Prelude.

#[local] Open Scope Z_scope.
#[local] Open Scope c_scope.

(** ** The descriptor tables *)

Definition KERNEL_CODE_SEL : Z := 0x08.
Definition KERNEL_DATA_SEL : Z := 0x10.
Definition USER_CODE_SEL : Z := 0x18.
Definition USER_DATA_SEL : Z := 0x20.
Definition TSS_SEL : Z := 0x28.

Record gdt_entry := GdtEntry {
  limit_low : Z; base_low : Z; base_mid : Z; access : Z; gran : Z; base_high : Z
}.

(** The twenty-five 32-bit fields in the order of the struct (esp0 is the second,
    ss0 the third), then the two 16-bit ones. *)
Record tss_entry := Tss { tss_words : list Z; trap : Z; iomap_base : Z }.
Definition SIZEOF_TSS : Z := 104.
Definition TSS_ESP0 : Z := 1.
Definition TSS_SS0 : Z := 2.

Record idt_entry := IdtEntry {
  offset_low : Z; selector : Z; zero : Z; type_attr : Z; offset_high : Z
}.

(** The statics of gdt.c and idt.c, and the registers that [lgdt], [ltr] and
    [lidt] load: limit and base, the task selector. *)
Record tables := Tables {
  gdt : list gdt_entry; tss : tss_entry; idt : list idt_entry;
  gdtr : Z * Z; tr : Z; idtr : Z * Z
}.

Definition with_gdt (g : list gdt_entry) (t : tables) : tables :=
  Tables g (tss t) (idt t) (gdtr t) (tr t) (idtr t).
Definition with_tss (x : tss_entry) (t : tables) : tables :=
  Tables (gdt t) x (idt t) (gdtr t) (tr t) (idtr t).
Definition with_idt (x : list idt_entry) (t : tables) : tables :=
  Tables (gdt t) (tss t) x (gdtr t) (tr t) (idtr t).

(** The entry [set_gdt] fills in. *)
Definition descriptor (base limit acc gr : Z) : gdt_entry :=
  GdtEntry (limit &&& 0xFFFF) (base &&& 0xFFFF) ((base >>> 16) &&& 0xFF) acc
    (((limit >>> 16) &&& 0x0F) ||| (gr &&& 0xF0)) ((base >>> 24) &&& 0xFF).
Definition set_gdt (i base limit acc gr : Z) (t : tables) : tables :=
  with_gdt (<[Z.to_nat i := descriptor base limit acc gr]> (gdt t)) t.

Definition tss_put (i v : Z) (x : tss_entry) : tss_entry := Tss (arr_set (tss_words x) i v) (trap x) (iomap_base x).
Definition tss_set_esp0 (esp0 : Z) (t : tables) : tables := with_tss (tss_put TSS_ESP0 esp0 (tss t)) t.

(** The processor's registers, and memory as the words pushed on stacks. *)
Record proc := Proc {
  eax : Z; ecx : Z; edx : Z; ebx : Z; esp : Z; ebp : Z; esi : Z; edi : Z;
  eip : Z; eflags : Z;
  cs : Z; ss : Z; ds : Z; es : Z; fs : Z; gs : Z;
  stack : gmap Z Z
}.

Definition with_stack (sp : Z) (m : gmap Z Z) (p : proc) : proc :=
  Proc (eax p) (ecx p) (edx p) (ebx p) sp (ebp p) (esi p) (edi p) (eip p) (eflags p)
       (cs p) (ss p) (ds p) (es p) (fs p) (gs p) m.
(** [mov ds, ax; mov es, ax; mov fs, ax; mov gs, ax] *)
Definition with_data_segs (sel : Z) (p : proc) : proc :=
  Proc (eax p) (ecx p) (edx p) (ebx p) (esp p) (ebp p) (esi p) (edi p) (eip p) (eflags p)
       (cs p) (ss p) sel sel sel sel (stack p).
Definition with_code (ip fl c : Z) (p : proc) : proc :=
  Proc (eax p) (ecx p) (edx p) (ebx p) (esp p) (ebp p) (esi p) (edi p) ip fl
       c (ss p) (ds p) (es p) (fs p) (gs p) (stack p).
Definition with_ss (sel : Z) (p : proc) : proc :=
  Proc (eax p) (ecx p) (edx p) (ebx p) (esp p) (ebp p) (esi p) (edi p) (eip p) (eflags p)
       (cs p) sel (ds p) (es p) (fs p) (gs p) (stack p).

(** [gdt_addr] and [tss_addr] are where the linker put the statics. *)
Definition gdt_init (gdt_addr tss_addr : Z) (t : tables) (p : proc) : tables * proc :=
  let gdtp := (8 * 8 - 1, gdt_addr) in
  let t := set_gdt 0 0 0 0 0 t in
  let t := set_gdt 1 0 0xFFFFF 0x9A 0xC0 t in
  let t := set_gdt 2 0 0xFFFFF 0x92 0xC0 t in
  let t := set_gdt 3 0 0xFFFFF 0xFA 0xC0 t in
  let t := set_gdt 4 0 0xFFFFF 0xF2 0xC0 t in
  let x := Tss (replicate 25 0) 0 0 in
  let x := tss_put TSS_SS0 KERNEL_DATA_SEL x in
  let x := tss_put TSS_ESP0 0x90000 x in
  let x := Tss (tss_words x) (trap x) SIZEOF_TSS in
  let t := with_tss x t in
  let t := set_gdt 5 tss_addr (SIZEOF_TSS - 1) 0x89 0x00 t in
  let t := set_gdt 6 0 0xFFFF 0x9A 0x00 t in
  let t := set_gdt 7 0 0xFFFF 0x92 0x00 t in
  (Tables (gdt t) (tss t) (idt t) gdtp TSS_SEL (idtr t),
   with_code (eip p) (eflags p) 0x08 (with_ss 0x10 (with_data_segs 0x10 p))).

Definition KERNEL_CS : Z := 0x08.
Definition GATE_INT32 : Z := 0x8E.
Definition GATE_SYS32 : Z := 0xEE.

Definition idt_set_gate (n handler sel flags : Z) (t : tables) : tables :=
  with_idt (<[Z.to_nat n := IdtEntry (handler &&& 0xFFFF) sel 0 flags ((handler >>> 16) &&& 0xFFFF)]> (idt t)) t.

(** [isr_stubs], [irq_stubs] and [isr128] hold the addresses of the stubs. *)
Definition idt_init (idt_addr : Z) (isr_stubs irq_stubs : Z → Z) (isr128 : Z) (t : tables) : tables :=
  let idtp := (256 * 8 - 1, idt_addr) in
  let t := for_range 0 256 (λ i, idt_set_gate i 0 0 0) t in
  let t := for_range 0 32 (λ i, idt_set_gate i (isr_stubs i) KERNEL_CS GATE_INT32) t in
  let t := for_range 0 16 (λ i, idt_set_gate (32 + i) (irq_stubs i) KERNEL_CS GATE_INT32) t in
  let t := idt_set_gate 128 isr128 KERNEL_CS GATE_SYS32 t in
  Tables (gdt t) (tss t) (idt t) (gdtr t) (tr t) idtp.

(** ** The processor's reading of a descriptor

    A descriptor is eight bytes, the packed struct in little-endian order. *)
Definition gdt_bits (e : gdt_entry) : Z :=
  limit_low e + base_low e * 2 ^ 16 + base_mid e * 2 ^ 32 + access e * 2 ^ 40 + gran e * 2 ^ 48 + base_high e * 2 ^ 56.
Definition idt_bits (e : idt_entry) : Z :=
  offset_low e + selector e * 2 ^ 16 + zero e * 2 ^ 32 + type_attr e * 2 ^ 40 + offset_high e * 2 ^ 48.

Record segment := Segment {
  sg_base : Z; sg_limit : Z; sg_type : Z; sg_code_data : bool; sg_dpl : Z; sg_present : bool; sg_32bit : bool; sg_pages : bool
}.
Definition read_segment (d : Z) : segment :=
  Segment (((d >>> 16) &&& 0xFFFFFF) ||| (((d >>> 56) &&& 0xFF) <<< 24)) ((d &&& 0xFFFF) ||| (((d >>> 48) &&& 0xF) <<< 16))
    ((d >>> 40) &&& 0xF) (Z.testbit d 44) ((d >>> 45) &&& 3) (Z.testbit d 47) (Z.testbit d 54) (Z.testbit d 55).

Record gate := Gate { gt_offset : Z; gt_selector : Z; gt_type : Z; gt_dpl : Z; gt_present : bool }.
Definition read_gate (d : Z) : gate :=
  Gate ((d &&& 0xFFFF) ||| (((d >>> 48) &&& 0xFFFF) <<< 16)) ((d >>> 16) &&& 0xFFFF) ((d >>> 40) &&& 0x1F) ((d >>> 45) &&& 3)
    (Z.testbit d 47).

Definition no_gdt : gdt_entry := GdtEntry 0 0 0 0 0 0.
Definition no_idt : idt_entry := IdtEntry 0 0 0 0 0.
Definition segment_of (t : tables) (sel : Z) : segment := read_segment (gdt_bits (nth (Z.to_nat (sel / 8)) (gdt t) no_gdt)).
Definition gate_of (t : tables) (n : Z) : gate := read_gate (idt_bits (nth (Z.to_nat n) (idt t) no_idt)).

(** ** Interrupts *)

Definition pushw (v : Z) (p : proc) : proc :=
  let sp := u32 (esp p - 4) in with_stack sp (st (stack p) sp v) p.
Definition pushes (l : list Z) (p : proc) : proc := fold_left (λ p v, pushw v p) l p.

(** Interrupt gates clear the interrupt and trap flags. *)
Definition INT_FLAGS : Z := 0x300.
Definition cpl (p : proc) : Z := cs p &&& 3.

(** What comes of an interrupt: the processor enters the handler's code, or
    raises a fault with its vector and error code.  [soft] says that it is an
    [int] instruction; [err] is the error code the processor pushes. *)
Inductive delivery := Entered (p : proc) | Raised (vector err : Z).

Definition has_err_code (v : Z) : bool := (v =? 8) || ((10 <=? v) && (v <=? 14)) || (v =? 17).

Definition deliver (t : tables) (soft : bool) (vector err : Z) (p : proc) : delivery :=
  let g := gate_of t vector in
  if soft && (gt_dpl g <? cpl p) then Raised 13 (vector * 8 + 2)
  else if negb (gt_present g) then Raised 11 (vector * 8 + 2)
  else
    let old_ss := ss p in let old_esp := esp p in
    let outer := sg_dpl (segment_of t (gt_selector g)) <? cpl p in
    let p1 := if outer
              then pushes [old_ss; old_esp]
                     (with_ss (arr_get (tss_words (tss t)) TSS_SS0) (with_stack (arr_get (tss_words (tss t)) TSS_ESP0) (stack p) p))
              else p in
    let p2 := pushes [eflags p; cs p; eip p] p1 in
    let p3 := if negb soft && has_err_code vector then pushw err p2 else p2 in
    Entered (with_code (gt_offset g) (eflags p &&& u32_not INT_FLAGS) (gt_selector g) p3).

(** The stub of a vector, down to [push esp]: [push 0] unless the processor has
    pushed an error code, [push n], [pusha], the data segment. *)
Definition isr_stub (vector : Z) (p : proc) : proc :=
  let p := if has_err_code vector then p else pushw 0 p in
  let p := pushw vector p in
  let p := pushes [eax p; ecx p; edx p; ebx p; esp p; ebp p; esi p; edi p] p in
  let p := pushw (u16 (ds p)) p in
  with_data_segs 0x10 p.

(** The stub from the return of [isr_handler] on, [r] being what it pushed as the
    argument: [pop eax], the segments, [popa], [add esp, 8], [iret], which also
    takes [esp] and [ss] when it lowers the privilege. *)
Definition isr_return (r : Z) (m : gmap Z Z) (p : proc) : proc :=
  let w k := ld m (u32 (r + 4 * k)) in
  let seg := u16 (w 0) in
  let lowers := cpl p <? w 12 &&& 3 in
  Proc (w 8) (w 7) (w 6) (w 5) (if lowers then w 14 else u32 (r + 56)) (w 3) (w 2) (w 1) (w 11) (w 13)
       (w 12) (if lowers then w 15 else ss p) seg seg seg seg m.

(** [struct registers] at [r]. *)
Record registers := Registers {
  r_ds : Z; r_edi : Z; r_esi : Z; r_ebp : Z; r_esp : Z; r_ebx : Z; r_edx : Z; r_ecx : Z; r_eax : Z;
  int_no : Z; err_code : Z; r_eip : Z; r_cs : Z; r_eflags : Z
}.
Definition frame_at (m : gmap Z Z) (r : Z) : registers :=
  let w k := ld m (u32 (r + 4 * k)) in
  Registers (w 0) (w 1) (w 2) (w 3) (w 4) (w 5) (w 6) (w 7) (w 8) (w 9) (w 10) (w 11) (w 12) (w 13).
(** [r->eax = v] *)
Definition set_eax (v : Z) (f : registers) : registers :=
  Registers (r_ds f) (r_edi f) (r_esi f) (r_ebp f) (r_esp f) (r_ebx f) (r_edx f) (r_ecx f) v
    (int_no f) (err_code f) (r_eip f) (r_cs f) (r_eflags f).

(** An interrupt or fault that the processor gets into the kernel: the vector
    that is served and the registers at the first instruction of its stub. *)
Definition interrupt (t : tables) (soft : bool) (vector err : Z) (p : proc) : option (Z * proc) :=
  match deliver t soft vector err p with
  | Entered p' => Some (vector, p')
  | Raised v e => match deliver t false v e p with Entered p' => Some (v, p') | Raised _ _ => None end
  end.

(** ** Descriptors are read as they were written *)

Lemma bits_at a k n : 0 ≤ k → 0 ≤ n → (a >>> k) &&& Z.ones n = a / 2 ^ k mod 2 ^ n.
Proof. intros Hk Hn. by rewrite (land_mask _ n), shiftr_div. Qed.

(** Bits of a field inside a word. *)
Lemma testbit_field d f k n i : 0 ≤ k → 0 ≤ i < n → d / 2 ^ k mod 2 ^ n = f → Z.testbit d (k + i) = Z.testbit f i.
Proof.
  intros Hk Hi <-. rewrite Z.mod_pow2_bits_low by lia. rewrite <- shiftr_div by lia. rewrite Z.shiftr_spec by lia. f_equal. lia.
Qed.

Lemma sub_field d f k n j m :
  0 ≤ k → 0 ≤ j → 0 ≤ m → j + m ≤ n → d / 2 ^ k mod 2 ^ n = f →
  (d >>> (k + j)) &&& Z.ones m = (f >>> j) &&& Z.ones m.
Proof.
  intros Hk Hj Hm Hn Hf. apply Z.bits_inj_iff'. intros i Hi. rewrite !Z.land_spec.
  destruct (Z.lt_ge_cases i m) as [H|H].
  - rewrite !Z.shiftr_spec by lia. f_equal. rewrite <- (testbit_field d f k n) by (try done; lia). f_equal. lia.
  - rewrite Z.ones_spec_high by lia. by rewrite !andb_false_r.
Qed.

(** A word of two fields. *)
Lemma field_join lo hi k : 0 ≤ k → 0 ≤ lo < 2 ^ k → 0 ≤ hi → lo ||| (hi <<< k) = lo + 2 ^ k * hi.
Proof.
  intros Hk Hl Hh. rewrite shiftl_mul by done. rewrite (lor_disjoint_add _ _ k); [lia|done|done|]. apply Z.mod_mul. lia.
Qed.

(** The six fields of eight bytes, as the processor takes them apart. *)
Lemma read_fields ll bl bm ac gr bh :
  0 ≤ ll < 2 ^ 16 → 0 ≤ bl < 2 ^ 16 → 0 ≤ bm < 2 ^ 8 → 0 ≤ ac < 2 ^ 8 → 0 ≤ gr < 2 ^ 8 → 0 ≤ bh < 2 ^ 8 →
  let d := gdt_bits (GdtEntry ll bl bm ac gr bh) in
  (d &&& 0xFFFF = ll ∧ (d >>> 16) &&& 0xFFFFFF = bl + 2 ^ 16 * bm ∧ (d >>> 56) &&& 0xFF = bh) ∧
  ((d >>> 48) &&& 0xF = gr mod 16 ∧ (d >>> 16) &&& 0xFFFF = bl ∧ (d >>> 48) &&& 0xFFFF = gr + 2 ^ 8 * bh) ∧
  d / 2 ^ 40 mod 2 ^ 8 = ac ∧ d / 2 ^ 48 mod 2 ^ 8 = gr.
Proof.
  intros H1 H2 H3 H4 H5 H6. cbv zeta. unfold gdt_bits. cbn [limit_low base_low base_mid access gran base_high].
  set (d := _ + _).
  change 0xFFFF with (Z.ones 16). change 0xFFFFFF with (Z.ones 24). change 0xFF with (Z.ones 8). change 0xF with (Z.ones 4).
  rewrite !bits_at by lia. rewrite Z.land_ones by lia.
  assert (d = ll + 2 ^ 16 * (bl + 2 ^ 16 * (bm + 2 ^ 8 * (ac + 2 ^ 8 * (gr + 2 ^ 8 * bh))))) as -> by (unfold d; lia).
  zpow. split_and!; zlia.
Qed.

(** The third byte of the access rights, as [set_gdt] computes it. *)
Lemma gran_bits limit gr :
  0 ≤ limit < 2 ^ 20 → 0 ≤ gr < 2 ^ 8 →
  let g := ((limit >>> 16) &&& 0x0F) ||| (gr &&& 0xF0) in
  0 ≤ g < 2 ^ 8 ∧ g mod 16 = limit / 2 ^ 16 ∧ ∀ i, 4 ≤ i < 8 → Z.testbit g i = Z.testbit gr i.
Proof.
  intros Hl Hg. cbv zeta. change 0x0F with (Z.ones 4). rewrite bits_at by lia. split_and!.
  - apply (lor_range _ _ 8); [lia|zlia|]. by apply (land_range gr _ 8).
  - apply (lor_range _ _ 8); [lia|zlia|]. by apply (land_range gr _ 8).
  - change 16 with (2 ^ 4) at 2. rewrite <- Z.land_ones by lia. rewrite Z.land_lor_distr_l, <- Z.land_assoc.
    change (0xF0 &&& Z.ones 4) with 0. rewrite Z.land_0_r, Z.lor_0_r, Z.land_ones by lia. zlia.
  - intros i Hi. rewrite Z.lor_spec, Z.land_spec, (testbit_above _ 4) by zlia. cbn [orb].
    assert (i = 4 ∨ i = 5 ∨ i = 6 ∨ i = 7) as [-> | [-> | [-> | ->]]] by lia; apply andb_true_r.
Qed.

Lemma gdt_roundtrip base limit acc gr :
  0 ≤ base < 2 ^ 32 → 0 ≤ limit < 2 ^ 20 → 0 ≤ acc < 2 ^ 8 → 0 ≤ gr < 2 ^ 8 →
  read_segment (gdt_bits (descriptor base limit acc gr)) =
  Segment base limit (acc &&& 0xF) (Z.testbit acc 4) ((acc >>> 5) &&& 3) (Z.testbit acc 7) (Z.testbit gr 6) (Z.testbit gr 7).
Proof.
  intros Hb Hl Ha Hg. unfold descriptor. destruct (gran_bits limit gr Hl Hg) as (Hr & Hm & Hbits).
  pose proof (read_fields (limit &&& 0xFFFF) (base &&& 0xFFFF) ((base >>> 16) &&& 0xFF) acc _ ((base >>> 24) &&& 0xFF)
    ltac:(rewrite (land_mask _ 16) by done; zlia) ltac:(rewrite (land_mask _ 16) by done; zlia)
    ltac:(rewrite (land_mask _ 8) by done; zlia) Ha Hr ltac:(rewrite (land_mask _ 8) by done; zlia)) as H.
  cbv zeta in H. set (d := gdt_bits _) in H |- *. set (g := _ ||| (gr &&& 0xF0)) in *.
  destruct H as ((E1 & E2 & E3) & (E4 & _) & Eac & Egr). unfold read_segment. rewrite E1, E2, E3, E4, Hm.
  rewrite (testbit_field d acc 40 8 4 ltac:(lia) ltac:(lia) Eac : Z.testbit d 44 = _).
  rewrite (testbit_field d acc 40 8 7 ltac:(lia) ltac:(lia) Eac : Z.testbit d 47 = _).
  rewrite (testbit_field d g 48 8 6 ltac:(lia) ltac:(lia) Egr : Z.testbit d 54 = _).
  rewrite (testbit_field d g 48 8 7 ltac:(lia) ltac:(lia) Egr : Z.testbit d 55 = _).
  rewrite !Hbits by lia.
  rewrite (sub_field d acc 40 8 5 2 ltac:(lia) ltac:(lia) ltac:(lia) ltac:(lia) Eac : (d >>> 45) &&& 3 = _).
  rewrite (sub_field d acc 40 8 0 4 ltac:(lia) ltac:(lia) ltac:(lia) ltac:(lia) Eac : (d >>> 40) &&& 0xF = _).
  rewrite Z.shiftr_0_r. f_equal.
  - change 0xFFFF with (Z.ones 16). change 0xFF with (Z.ones 8). rewrite !bits_at, Z.land_ones by lia.
    rewrite field_join by zlia. zlia.
  - change 0xFFFF with (Z.ones 16). rewrite Z.land_ones by lia. rewrite field_join by zlia. zlia.
Qed.

Lemma gate_roundtrip n handler sel flags t :
  0 ≤ handler < 2 ^ 32 → 0 ≤ sel < 2 ^ 16 → 0 ≤ flags < 2 ^ 8 → (Z.to_nat n < length (idt t))%nat →
  gate_of (idt_set_gate n handler sel flags t) n =
  Gate handler sel (flags &&& 0x1F) ((flags >>> 5) &&& 3) (Z.testbit flags 7).
Proof.
  intros Hh Hs Hf Hi. unfold gate_of, idt_set_gate, with_idt. cbn [idt].
  rewrite (nth_lookup_Some _ _ _ _ (list_lookup_insert_eq _ _ _ Hi)).
  set (lo := handler &&& 0xFFFF). set (hi := (handler >>> 16) &&& 0xFFFF).
  assert (0 ≤ lo < 2 ^ 16 ∧ 0 ≤ hi < 2 ^ 16 ∧ handler = lo + 2 ^ 16 * hi) as (Hlo & Hhi & He).
  { unfold lo, hi. change 0xFFFF with (Z.ones 16). rewrite bits_at, Z.land_ones by lia. split_and!; zlia. }
  clearbody lo hi. subst handler. clear Hh.
  pose proof (read_fields lo sel 0 flags (hi mod 2 ^ 8) (hi / 2 ^ 8) Hlo Hs ltac:(lia) Hf ltac:(zlia) ltac:(zlia)) as H.
  cbv zeta in H. unfold gdt_bits in H. cbn [limit_low base_low base_mid access gran base_high] in H.
  assert (idt_bits (IdtEntry lo sel 0 flags hi) = lo + sel * 2 ^ 16 + 0 * 2 ^ 32 + flags * 2 ^ 40 + hi mod 2 ^ 8 * 2 ^ 48 + hi / 2 ^ 8 * 2 ^ 56) as ->
    by (unfold idt_bits; cbn [offset_low selector zero type_attr offset_high]; clear H; zlia).
  set (d := _ + _ + _) in *. destruct H as ((E1 & _ & _) & (_ & E5 & E6) & Eac & _). unfold read_gate. rewrite E1, E5, E6.
  rewrite (testbit_field d flags 40 8 7 ltac:(lia) ltac:(lia) Eac : Z.testbit d 47 = _).
  rewrite (sub_field d flags 40 8 5 2 ltac:(lia) ltac:(lia) ltac:(lia) ltac:(lia) Eac : (d >>> 45) &&& 3 = _).
  rewrite (sub_field d flags 40 8 0 5 ltac:(lia) ltac:(lia) ltac:(lia) ltac:(lia) Eac : (d >>> 40) &&& 0x1F = _).
  rewrite Z.shiftr_0_r. f_equal. rewrite field_join by (clear E1 E5 E6 Eac; subst d; zlia). clear - Hlo Hhi. zlia.
Qed.

Definition int_gate (handler dpl : Z) : gate := Gate handler KERNEL_CS 14 dpl true.
Definition no_gate : gate := Gate 0 0 0 0 false.

Lemma gate_set n handler sel flags t v :
  0 ≤ handler < 2 ^ 32 → 0 ≤ sel < 2 ^ 16 → 0 ≤ flags < 2 ^ 8 → 0 ≤ n < zlen (idt t) → 0 ≤ v →
  zlen (idt (idt_set_gate n handler sel flags t)) = zlen (idt t) ∧
  gate_of (idt_set_gate n handler sel flags t) v =
  if v =? n then Gate handler sel (flags &&& 0x1F) ((flags >>> 5) &&& 3) (Z.testbit flags 7) else gate_of t v.
Proof.
  intros Hh Hs Hf Hn Hv. split.
  - unfold idt_set_gate, with_idt, zlen. cbn [idt]. by rewrite length_insert.
  - destruct (Z.eqb_spec v n) as [->|Hne]; [apply gate_roundtrip; [done..|unfold zlen in Hn; lia]|].
    unfold gate_of, idt_set_gate, with_idt. cbn [idt]. do 2 f_equal. rewrite !nth_lookup. by rewrite list_lookup_insert_ne by lia.
Qed.

(** A loop that fills the gates from [base] on. *)
Lemma gates_loop base n (h : Z → Z) sel flags t :
  0 ≤ base → 0 ≤ n → base + n ≤ zlen (idt t) → (∀ i, 0 ≤ i < n → 0 ≤ h i < 2 ^ 32) → 0 ≤ sel < 2 ^ 16 → 0 ≤ flags < 2 ^ 8 →
  let t' := for_range 0 n (λ i, idt_set_gate (base + i) (h i) sel flags) t in
  (gdt t' = gdt t ∧ tss t' = tss t) ∧ zlen (idt t') = zlen (idt t) ∧
  ∀ v, 0 ≤ v → gate_of t' v = if (base <=? v) && (v <? base + n)
    then Gate (h (v - base)) sel (flags &&& 0x1F) ((flags >>> 5) &&& 3) (Z.testbit flags 7) else gate_of t v.
Proof.
  intros Hb Hn Hl Hh Hs Hf. cbv zeta.
  apply (for_range_ind (λ k t', (gdt t' = gdt t ∧ tss t' = tss t) ∧ zlen (idt t') = zlen (idt t) ∧ ∀ v, 0 ≤ v → gate_of t' v =
    if (base <=? v) && (v <? base + k)
    then Gate (h (v - base)) sel (flags &&& 0x1F) ((flags >>> 5) &&& 3) (Z.testbit flags 7) else gate_of t v)); [done| |].
  - split_and!; [done..|]. intros v Hv. rewrite Z.add_0_r. by destruct (Z.leb_spec base v), (Z.ltb_spec v base); try lia.
  - intros k t' Hk (Hg & Hz & Hv).
    destruct (gate_set (base + k) (h k) sel flags t' 0) as [Hz' _]; [by apply Hh|done|done|lia|lia|].
    split_and!; [apply Hg|apply Hg|congruence|]. intros v Hv0. destruct (gate_set (base + k) (h k) sel flags t' v) as [_ ->]; [by apply Hh|done|done|lia|done|].
    rewrite Hv by done. destruct (Z.eqb_spec v (base + k)) as [->|Hne].
    + rewrite (proj2 (Z.leb_le _ _)), (proj2 (Z.ltb_lt _ _)) by lia. cbn [andb]. by rewrite Z.add_simpl_l.
    + destruct (Z.leb_spec base v); cbn [andb]; [|done]. destruct (Z.ltb_spec v (base + k)), (Z.ltb_spec v (base + (k + 1))); try done; lia.
Qed.

Definition gate_table (isr_stubs irq_stubs : Z → Z) (isr128 v : Z) : gate :=
  if v <? 32 then int_gate (isr_stubs v) 0
  else if v <? 48 then int_gate (irq_stubs (v - 32)) 0
  else if v =? 128 then int_gate isr128 3
  else no_gate.

Lemma idt_init_gates idt_addr isr_stubs irq_stubs isr128 t :
  zlen (idt t) = 256 → (∀ i, 0 ≤ i < 32 → 0 ≤ isr_stubs i < 2 ^ 32) → (∀ i, 0 ≤ i < 16 → 0 ≤ irq_stubs i < 2 ^ 32) →
  0 ≤ isr128 < 2 ^ 32 →
  let t' := idt_init idt_addr isr_stubs irq_stubs isr128 t in
  gdt t' = gdt t ∧ tss t' = tss t ∧ idtr t' = (2047, idt_addr) ∧
  ∀ v, 0 ≤ v < 256 → gate_of t' v = gate_table isr_stubs irq_stubs isr128 v.
Proof.
  intros Hl H1 H2 H3. cbv zeta. unfold idt_init.
  destruct (gates_loop 0 256 (λ _, 0) 0 0 t) as ((Ga & Sa) & Za & Va); [lia|lia|lia|lia|lia|lia|].
  change (for_range 0 256 (λ i, idt_set_gate (0 + i) 0 0 0) t) with (for_range 0 256 (λ i, idt_set_gate i 0 0 0) t) in *.
  set (ta := for_range 0 256 _ t) in *. clearbody ta.
  destruct (gates_loop 0 32 isr_stubs KERNEL_CS GATE_INT32 ta) as ((Gb & Sb) & Zb & Vb); [lia|lia|lia|done|by vm_compute|by vm_compute|].
  change (for_range 0 32 (λ i, idt_set_gate (0 + i) (isr_stubs i) KERNEL_CS GATE_INT32) ta)
    with (for_range 0 32 (λ i, idt_set_gate i (isr_stubs i) KERNEL_CS GATE_INT32) ta) in *.
  set (tb := for_range 0 32 _ ta) in *. clearbody tb.
  destruct (gates_loop 32 16 irq_stubs KERNEL_CS GATE_INT32 tb) as ((Gc & Sc) & Zc & Vc); [lia|lia|lia|done|by vm_compute|by vm_compute|].
  set (tc := for_range 0 16 _ tb) in *. clearbody tc. cbv zeta. cbn [gdt tss idtr].
  change (gdt (idt_set_gate 128 isr128 KERNEL_CS GATE_SYS32 tc)) with (gdt tc).
  change (tss (idt_set_gate 128 isr128 KERNEL_CS GATE_SYS32 tc)) with (tss tc).
  split_and!; [congruence|congruence|done|]. intros v Hv.
  change (gate_of (Tables _ _ (idt ?x) _ _ _) v) with (gate_of x v).
  destruct (gate_set 128 isr128 KERNEL_CS GATE_SYS32 tc v) as [_ E]; [done|by vm_compute|by vm_compute|lia|lia|].
  etransitivity; [exact E|]. rewrite Vc, Vb, Va by lia. unfold gate_table.
  destruct (Z.eqb_spec v 128) as [->|Hne]; [done|].
  destruct (Z.ltb_spec v 32), (Z.ltb_spec v 48); try lia.
  - rewrite (proj2 (Z.leb_gt 32 v)) by lia. cbn [andb]. rewrite (proj2 (Z.leb_le 0 v)), (proj2 (Z.ltb_lt v (0 + 32))) by lia.
    cbn [andb]. by rewrite Z.sub_0_r.
  - rewrite (proj2 (Z.leb_le 32 v)), (proj2 (Z.ltb_lt v (32 + 16))) by lia. done.
  - rewrite (proj2 (Z.ltb_ge v (32 + 16))), andb_false_r by lia. rewrite (proj2 (Z.ltb_ge v (0 + 32))), andb_false_r by lia.
    rewrite (proj2 (Z.leb_le 0 v)), (proj2 (Z.ltb_lt v (0 + 256))) by lia. done.
Qed.

(** Flat 4 GiB segments, the 16-bit ones, the task-state segment. *)
Definition flat (type dpl : Z) : segment := Segment 0 0xFFFFF type true dpl true true true.
Definition real16 (type : Z) : segment := Segment 0 0xFFFF type true 0 true false false.
Definition segment_table (tss_addr : Z) : list segment :=
  [Segment 0 0 0 false 0 false false false; flat 10 0; flat 2 0; flat 10 3; flat 2 3;
   Segment tss_addr 103 9 false 0 true false false; real16 10; real16 2].

Lemma gdt_init_segments gdt_addr tss_addr t p :
  length (gdt t) = 8%nat → 0 ≤ tss_addr < 2 ^ 32 →
  let t' := (gdt_init gdt_addr tss_addr t p).1 in
  map (segment_of t') [0; KERNEL_CODE_SEL; KERNEL_DATA_SEL; USER_CODE_SEL; USER_DATA_SEL; TSS_SEL; 0x30; 0x38] = segment_table tss_addr ∧
  tss t' = Tss ([0; 0x90000; KERNEL_DATA_SEL] ++ replicate 22 0) 0 SIZEOF_TSS ∧ gdtr t' = (63, gdt_addr) ∧ tr t' = TSS_SEL ∧ idt t' = idt t.
Proof.
  intros Hl Ht. cbv zeta. split; [|done].
  destruct t as [g x i a b c]. cbn [gdt] in Hl. do 8 (destruct g as [|? g]; [done|]). destruct g; [clear Hl|done].
  cbn [map]. unfold segment_of, gdt_init. cbv zeta. cbn [fst gdt].
  assert (∀ j base limit acc gr t, gdt (set_gdt j base limit acc gr t) = <[Z.to_nat j := descriptor base limit acc gr]> (gdt t)) as E by done.
  assert (∀ x t, gdt (with_tss x t) = gdt t) as E' by done. rewrite !E, E', !E. clear E E'. cbn [gdt].
  set (l := [g0; g1; g2; g3; g4; g5; g6; g7]). cbv in l. subst l.
  repeat match goal with |- context [nth (Z.to_nat ?a) ?l ?d] =>
    let n := eval vm_compute in (Z.to_nat a) in change (Z.to_nat a) with n end.
  repeat match goal with |- context [<[Z.to_nat ?a := _]> _] =>
    let n := eval vm_compute in (Z.to_nat a) in change (Z.to_nat a) with n end.
  cbn [insert list_insert nth].
  rewrite !gdt_roundtrip by (unfold SIZEOF_TSS; lia). reflexivity.
Qed.

(** ** Stacks *)

(** The words [l] at [a] and above. *)
Definition words_at (m : gmap Z Z) (a : Z) (l : list Z) : Prop := ∀ i, 0 ≤ i < zlen l → ld m (a + 4 * i) = arr_get l i.

Lemma words_at_cons m a x l : words_at m a (x :: l) ↔ ld m a = x ∧ words_at m (a + 4) l.
Proof.
  assert (∀ i, 0 ≤ i → arr_get (x :: l) (i + 1) = arr_get l i) as E.
  { intros i Hi. unfold arr_get. rewrite (proj2 (Z.ltb_ge _ _)), (proj2 (Z.ltb_ge i 0)) by lia.
    by replace (Z.to_nat (i + 1)) with (S (Z.to_nat i)) by lia. }
  assert (zlen (x :: l) = zlen l + 1) as El by (unfold zlen; simpl; lia). assert (0 ≤ zlen l) by (unfold zlen; lia). split.
  - intros H'. split; [specialize (H' 0 ltac:(lia)); by rewrite Z.add_0_r in H'|]. intros i Hi. rewrite <- E by lia.
    rewrite <- H' by lia. f_equal. lia.
  - intros [H1 H2] i Hi. destruct (Z.eq_dec i 0) as [->|Hne]; [by rewrite Z.add_0_r|].
    replace i with (i - 1 + 1) at 2 by lia. rewrite E by lia. rewrite <- H2 by lia. f_equal. lia.
Qed.

Lemma words_at_ext m m' a l : (∀ b, a ≤ b < a + 4 * zlen l → ld m' b = ld m b) → words_at m a l → words_at m' a l.
Proof. intros Hm Hw i Hi. rewrite Hm by lia. by apply Hw. Qed.

(** Pushing leaves the words on the stack, the last one lowest. *)
Lemma pushes_spec vs p l :
  4 * zlen vs ≤ esp p < 2 ^ 32 → words_at (stack p) (esp p) l →
  ∃ m, pushes vs p = with_stack (esp p - 4 * zlen vs) m p ∧ words_at m (esp p - 4 * zlen vs) (rev vs ++ l) ∧
    ∀ a, a < esp p - 4 * zlen vs ∨ esp p ≤ a → ld m a = ld (stack p) a.
Proof.
  revert p l. induction vs as [|v vs IH]; intros p l Hr Hw.
  - exists (stack p). change (zlen []) with 0. rewrite Z.mul_0_r, Z.sub_0_r. split_and!; [by destruct p|done|done].
  - assert (zlen (v :: vs) = zlen vs + 1) as E by (unfold zlen; simpl; lia). rewrite E in Hr |- *.
    assert (0 ≤ zlen vs) by (unfold zlen; lia).
    set (p1 := pushw v p). assert (p1 = with_stack (esp p - 4) (st (stack p) (esp p - 4) v) p) as E1.
    { unfold p1, pushw. by rewrite u32_small by lia. }
    destruct (IH p1 (v :: l)) as (m & Em & Hm & Ho).
    { rewrite E1. cbn [with_stack esp]. lia. }
    { rewrite E1. cbn [with_stack esp stack]. apply words_at_cons. split; [apply ld_st_eq|].
      replace (esp p - 4 + 4) with (esp p) by lia. eapply words_at_ext; [|exact Hw]. intros b Hb. apply ld_st_ne. lia. }
    exists m. change (pushes (v :: vs) p) with (pushes vs p1). rewrite Em. rewrite E1 in Hm, Ho |- *. cbn [with_stack esp stack] in *.
    replace (esp p - 4 * (zlen vs + 1)) with (esp p - 4 - 4 * zlen vs) by lia. split; [done|]. split.
    + cbn [rev]. by rewrite <- app_assoc.
    + intros a Ha. rewrite Ho by lia. apply ld_st_ne. lia.
Qed.

(** ** Entering and leaving the kernel *)

(** The tables as [gdt_init] and [idt_init] leave them, whatever ring-0 stack is
    set; [stub v] is the address of the stub of vector [v]. *)
Record installed (stub : Z → Z) (t : tables) : Prop := {
  in_gate v : 0 ≤ v < 256 → gate_of t v = gate_table stub (λ i, stub (32 + i)) (stub 128) v;
  in_code : sg_dpl (segment_of t KERNEL_CS) = 0;
  in_ss0 : arr_get (tss_words (tss t)) TSS_SS0 = KERNEL_DATA_SEL
}.

(** The stack an interrupt of [p] is served on, from the top. *)
Definition kernel_top (t : tables) (p : proc) : Z := if cpl p =? 0 then esp p else arr_get (tss_words (tss t)) TSS_ESP0.

(** [struct registers] as the processor and the stub build it, and what the
    processor saves above it on a change of stacks. *)
Definition saved (vector err at_pusha : Z) (p : proc) : list Z :=
  [u16 (ds p); edi p; esi p; ebp p; at_pusha; ebx p; edx p; ecx p; eax p; vector; err; eip p; cs p; eflags p].
Definition outer_stack (p : proc) : list Z := if cpl p =? 0 then [] else [esp p; ss p].

Lemma outer_len p : 0 ≤ zlen (outer_stack p) ≤ 2.
Proof. unfold outer_stack. destruct (cpl p =? 0); [change (zlen []) with 0|change (zlen [esp p; ss p]) with 2]; lia. Qed.

Record in_kernel (t : tables) (vector err : Z) (p q : proc) : Prop := {
  ik_esp : esp q = kernel_top t p - 4 * zlen (outer_stack p) - 56;
  ik_frame : words_at (stack q) (esp q) (saved vector err (esp q + 36) p ++ outer_stack p);
  ik_rest a : a < esp q ∨ kernel_top t p ≤ a → ld (stack q) a = ld (stack p) a;
  ik_cs : cs q = KERNEL_CODE_SEL;
  ik_ss : ss q = if cpl p =? 0 then ss p else KERNEL_DATA_SEL;
  ik_segs : ds q = KERNEL_DATA_SEL ∧ es q = KERNEL_DATA_SEL ∧ fs q = KERNEL_DATA_SEL ∧ gs q = KERNEL_DATA_SEL;
  ik_masked : Z.testbit (eflags q) 9 = false
}.

Lemma gate_table_cases stub v a d :
  gate_table stub (λ i, stub (32 + i)) (stub 128) v = int_gate a d → a = stub v ∧ d = (if v =? 128 then 3 else 0).
Proof.
  unfold gate_table, int_gate, no_gate. destruct (Z.eqb_spec v 128) as [->|Hne]; [by intros [= <- <-]|].
  destruct (Z.ltb_spec v 32); [by intros [= <- <-]|]. destruct (Z.ltb_spec v 48); [|done].
  replace (32 + (v - 32)) with v by lia. by intros [= <- <-].
Qed.

Lemma masked fl : Z.testbit (fl &&& u32_not INT_FLAGS) 9 = false.
Proof. by rewrite Z.land_spec, andb_false_r. Qed.

Lemma pushw_code v ip fl c p : pushw v (with_code ip fl c p) = with_code ip fl c (pushw v p).
Proof. done. Qed.

Lemma pushes_snoc l v p : pushw v (pushes l p) = pushes (l ++ [v]) p.
Proof. unfold pushes. by rewrite fold_left_app. Qed.

Lemma ds_pushes l p : ds (pushes l p) = ds p.
Proof. revert p. induction l as [|v l IH]; intros p; [done|]. exact (IH (pushw v p)). Qed.

Lemma stub_spec stub t soft v err p d :
  installed stub t → 0 ≤ v < 256 → gate_of t v = int_gate (stub v) d → (soft = true → cpl p ≤ d ∧ has_err_code v = false) →
  cpl p = 0 ∨ cpl p = 3 → 64 ≤ kernel_top t p < 2 ^ 32 →
  ∃ q, deliver t soft v err p = Entered q ∧ eip q = stub v ∧
    in_kernel t v (if has_err_code v then err else 0) p (isr_stub v q).
Proof.
  intros [Hg Hc Hs] Hv Ev Hsoft Hcpl Htop. unfold deliver. rewrite Ev. cbn [int_gate gt_dpl gt_present gt_selector gt_offset].
  assert (soft && (d <? cpl p) = false) as ->.
  { destruct soft; [|done]. destruct (Hsoft eq_refl). by apply Z.ltb_ge. }
  cbn [negb]. rewrite Hc, Hs. eexists. split; [done|]. split; [done|].
  set (e := if has_err_code v then err else 0).
  (* the stack the words go to *)
  set (p1 := if 0 <? cpl p then _ else p).
  assert (∃ m1 s1, p1 = with_ss s1 (with_stack (kernel_top t p - 4 * zlen (outer_stack p)) m1 p) ∧
    words_at m1 (kernel_top t p - 4 * zlen (outer_stack p)) (outer_stack p) ∧
    (∀ a, a < kernel_top t p - 4 * zlen (outer_stack p) ∨ kernel_top t p ≤ a → ld m1 a = ld (stack p) a) ∧
    s1 = if cpl p =? 0 then ss p else KERNEL_DATA_SEL) as (m1 & s1 & E1 & W1 & O1 & S1).
  { unfold p1, kernel_top, outer_stack. unfold kernel_top in Htop. destruct Hcpl as [E|E]; rewrite E in Htop |- *.
    - exists (stack p), (ss p). change (0 =? 0) with true. change (0 <? 0) with false. change (4 * zlen []) with 0.
      rewrite !Z.sub_0_r. split_and!; [by destruct p|by intros i; change (zlen []) with 0; lia|done|done].
    - change (3 =? 0) with false in *. change (0 <? 3) with true. cbv iota in *.
      destruct (pushes_spec [ss p; esp p] (with_ss KERNEL_DATA_SEL (with_stack (arr_get (tss_words (tss t)) TSS_ESP0) (stack p) p)) [])
        as (m & Em & Wm & Om); [change (zlen [ss p; esp p]) with 2; cbn [with_ss with_stack esp]; lia|intros i; change (zlen []) with 0; lia|].
      cbn [with_ss with_stack esp stack] in Em, Wm, Om. exists m, KERNEL_DATA_SEL. split_and!; [exact Em|exact Wm|exact Om|done]. }
  assert (64 ≤ kernel_top t p - 4 * zlen (outer_stack p) + 8 ∧ kernel_top t p - 4 * zlen (outer_stack p) < 2 ^ 32) as Hr.
  { unfold outer_stack. destruct (cpl p =? 0); [change (zlen []) with 0|change (zlen [esp p; ss p]) with 2]; lia. }
  set (top1 := kernel_top t p - 4 * zlen (outer_stack p)) in *. rewrite E1. clearbody p1. clear E1.
  (* up to the vector number *)
  assert (∃ m2, pushw v (if has_err_code v then with_code (stub v) (eflags p &&& u32_not INT_FLAGS) KERNEL_CS
      (if negb soft && has_err_code v then pushw err (pushes [eflags p; cs p; eip p] (with_ss s1 (with_stack top1 m1 p)))
       else pushes [eflags p; cs p; eip p] (with_ss s1 (with_stack top1 m1 p)))
    else pushw 0 (with_code (stub v) (eflags p &&& u32_not INT_FLAGS) KERNEL_CS
      (if negb soft && has_err_code v then pushw err (pushes [eflags p; cs p; eip p] (with_ss s1 (with_stack top1 m1 p)))
       else pushes [eflags p; cs p; eip p] (with_ss s1 (with_stack top1 m1 p))))) =
    with_code (stub v) (eflags p &&& u32_not INT_FLAGS) KERNEL_CS (with_ss s1 (with_stack (top1 - 20) m2 p)) ∧
    words_at m2 (top1 - 20) ([v; e; eip p; cs p; eflags p] ++ outer_stack p) ∧
    (∀ a, a < top1 - 20 ∨ top1 ≤ a → ld m2 a = ld m1 a)) as (m2 & E2 & W2 & O2).
  { destruct (pushes_spec [eflags p; cs p; eip p; e; v] (with_ss s1 (with_stack top1 m1 p)) (outer_stack p)) as (m2 & Em & Wm & Om);
      [change (zlen [eflags p; cs p; eip p; e; v]) with 5; cbn [with_ss with_stack esp]; lia|exact W1|].
    change (zlen [eflags p; cs p; eip p; e; v]) with 5 in Em, Wm, Om. cbn [with_ss with_stack esp stack] in Wm, Om.
    exists m2. split; [|split; [exact Wm|exact Om]].
    change (pushes [eflags p; cs p; eip p; e; v] ?x) with (pushw v (pushw e (pushes [eflags p; cs p; eip p] x))) in Em.
    unfold e in Em. destruct (has_err_code v) eqn:Eh.
    - destruct soft; [destruct (Hsoft eq_refl); congruence|]. cbn [negb andb]. by rewrite !pushw_code, Em.
    - rewrite andb_false_r. by rewrite !pushw_code, Em. }
  (* [pusha] and the data segment *)
  unfold isr_stub. rewrite E2. clear E2. set (q := with_code _ _ _ _). rewrite ds_pushes, pushes_snoc.
  destruct (pushes_spec ([eax q; ecx q; edx q; ebx q; esp q; ebp q; esi q; edi q] ++ [u16 (ds q)]) q
    ([v; e; eip p; cs p; eflags p] ++ outer_stack p)) as (m3 & E3 & W3 & O3).
  { change (zlen _) with 9. unfold q. cbn [with_code with_ss with_stack esp]. lia. }
  { exact W2. }
  change (zlen _) with 9 in E3, W3, O3. rewrite E3. clear E3. change (esp q) with (top1 - 20) in W3, O3 |- *. change (stack q) with m2 in O3.
  replace (top1 - 20 - 4 * 9) with (top1 - 56) in * by lia.
  split; unfold q; cbn [with_data_segs with_code with_ss with_stack esp stack cs ss ds es fs gs eflags].
  - done.
  - replace (top1 - 56 + 36) with (top1 - 20) by lia. exact W3.
  - intros a Ha. unfold top1 in *. pose proof (outer_len p).
    rewrite O3, O2, O1 by lia. done.
  - done.
  - exact S1.
  - done.
  - apply masked.
Qed.

(** The interrupted registers, resumed with [eax] and memory as the handler leaves
    them. *)
Definition resumed (a : Z) (m : gmap Z Z) (p : proc) : proc :=
  Proc a (ecx p) (edx p) (ebx p) (esp p) (ebp p) (esi p) (edi p) (eip p) (eflags p)
       (cs p) (ss p) (ds p) (es p) (fs p) (gs p) m.

(** The kernel keeps one selector in all data segments; there are two rings. *)
Record proc_ok (p : proc) : Prop := {
  po_ring : cpl p = 0 ∨ cpl p = 3;
  po_segs : es p = ds p ∧ fs p = ds p ∧ gs p = ds p;
  po_ds : 0 ≤ ds p < 2 ^ 16
}.

Lemma frame_word t v err p q i :
  in_kernel t v err p q → 64 ≤ kernel_top t p < 2 ^ 32 → 0 ≤ i < 14 + zlen (outer_stack p) →
  ld (stack q) (u32 (esp q + 4 * i)) = arr_get (saved v err (esp q + 36) p ++ outer_stack p) i.
Proof.
  intros Hk Ht Hi. pose proof (outer_len p).
  pose proof (ik_esp _ _ _ _ _ Hk). rewrite u32_small by lia. apply (ik_frame _ _ _ _ _ Hk).
  unfold zlen in *. rewrite length_app. change (length (saved v err (esp q + 36) p)) with 14%nat. lia.
Qed.

Lemma entry_frame t v err p q :
  in_kernel t v err p q → 64 ≤ kernel_top t p < 2 ^ 32 →
  frame_at (stack q) (esp q) =
  Registers (u16 (ds p)) (edi p) (esi p) (ebp p) (esp q + 36) (ebx p) (edx p) (ecx p) (eax p) v err (eip p) (cs p) (eflags p).
Proof.
  intros Hk Ht. pose proof (outer_len p).
  unfold frame_at. rewrite !(frame_word t v err p q) by (done || lia). done.
Qed.

(** A handler that obeys the calling convention leaves memory with its frame as it
    wants it and what lies above it untouched. *)
Lemma return_spec t v err p q q' m a :
  in_kernel t v err p q → proc_ok p → 64 ≤ kernel_top t p < 2 ^ 32 → cs q' = cs q → ss q' = ss q →
  frame_at m (esp q) = set_eax a (frame_at (stack q) (esp q)) →
  (∀ b, esp q + 56 ≤ b < kernel_top t p → ld m b = ld (stack q) b) →
  isr_return (esp q) m q' = resumed a m p.
Proof.
  intros Hk [Hring (Hes & Hfs & Hgs) Hds] Ht Ecs Ess Hf Hm.
  rewrite (entry_frame t v err p q Hk Ht) in Hf. injection Hf as E0 E1 E2 E3 _ E5 E6 E7 E8 _ _ E11 E12 E13.
  assert (∀ i, 14 ≤ i < 14 + zlen (outer_stack p) →
    ld m (u32 (esp q + 4 * i)) = arr_get (saved v err (esp q + 36) p ++ outer_stack p) i) as Hw.
  { intros i Hi. rewrite <- (frame_word t v err p q) by (done || lia). pose proof (ik_esp _ _ _ _ _ Hk).
    pose proof (outer_len p). rewrite u32_small by lia. apply Hm; lia. }
  pose proof (outer_len p). unfold isr_return. rewrite E0, E1, E2, E3, E5, E6, E7, E8, E11, E12, E13.
  unfold cpl at 1 2. rewrite Ecs, (ik_cs _ _ _ _ _ Hk). change (KERNEL_CODE_SEL &&& 3) with 0.
  rewrite (u16_small (u16 (ds p))) by apply u16_range. rewrite (u16_small (ds p)) by done. fold (cpl p).
  pose proof (ik_esp _ _ _ _ _ Hk) as Ee. clear E0 E1 E2 E3 E5 E6 E7 E8 E11 E12 E13.
  unfold resumed. rewrite Hes, Hfs, Hgs, Ess, (ik_ss _ _ _ _ _ Hk).
  unfold outer_stack, kernel_top in Hw, Ee, Ht |- *. destruct Hring as [E|E]; rewrite E in Hw, Ee, Ht |- *; cbn [Z.ltb Z.eqb Z.compare] in *.
  - change (zlen []) with 0 in Ee. rewrite u32_small by lia. replace (esp q + 56) with (esp p) by lia. done.
  - change (zlen [esp p; ss p]) with 2 in Hw. rewrite (Hw 14), (Hw 15) by lia. done.
Qed.

(** The tables that the kernel boots with. *)
Lemma boot_installed gdt_addr tss_addr idt_addr stub t p :
  length (gdt t) = 8%nat → zlen (idt t) = 256 → 0 ≤ tss_addr < 2 ^ 32 → (∀ v, 0 ≤ v < 256 → 0 ≤ stub v < 2 ^ 32) →
  installed stub (idt_init idt_addr stub (λ i, stub (32 + i)) (stub 128) (gdt_init gdt_addr tss_addr t p).1).
Proof.
  intros Hg Hi Ha Hs. destruct (gdt_init_segments gdt_addr tss_addr t p Hg Ha) as (Es & Et & _ & _ & Ei).
  set (t1 := (gdt_init gdt_addr tss_addr t p).1) in *. clearbody t1.
  destruct (idt_init_gates idt_addr stub (λ i, stub (32 + i)) (stub 128) t1) as (G & T & _ & V); [congruence|intros; apply Hs; lia..|].
  set (t2 := idt_init _ _ _ _ _) in *. clearbody t2. split; [exact V| |by rewrite T, Et].
  unfold segment_of. rewrite G. exact (f_equal (λ l, sg_dpl (nth 1 l (read_segment 0))) Es).
Qed.

(** [tss_set_esp0] keeps them. *)
Lemma esp0_installed stub e t :
  (2 < length (tss_words (tss t)))%nat → installed stub t →
  installed stub (tss_set_esp0 e t) ∧ arr_get (tss_words (tss (tss_set_esp0 e t))) TSS_ESP0 = e.
Proof.
  intros Hl [Hg Hc Hs]. destruct t as [g [w x y] i a b c]. cbn [tss tss_words] in *.
  destruct w as [|w0 [|w1 [|w2 w]]]; cbn [length] in Hl; try lia. by split; [split|].
Qed.

(** The processor reads the descriptor tables as the kernel means them: an
    entry [set_gdt] packs has the base, the limit, the type, the ring and the
    flags it was given, and a gate [idt_set_gate] packs the handler, the selector
    and the ring, for every argument in range; so [gdt_init] gives flat ring-0 and
    ring-3 code and data segments, the two 16-bit ones and a task-state segment
    with the ring-0 stack at 0x90000, and [idt_init] a ring-0 interrupt gate to
    the stub of each of the 32 exceptions and 16 IRQs, a ring-3 gate for vector
    128, and no gate for any other vector. *)
Theorem tables_decode gdt_addr tss_addr idt_addr stub t p :
  length (gdt t) = 8%nat → zlen (idt t) = 256 → 0 ≤ tss_addr < 2 ^ 32 → (∀ v, 0 ≤ v < 256 → 0 ≤ stub v < 2 ^ 32) →
  (∀ base limit acc gr, 0 ≤ base < 2 ^ 32 → 0 ≤ limit < 2 ^ 20 → 0 ≤ acc < 2 ^ 8 → 0 ≤ gr < 2 ^ 8 →
    read_segment (gdt_bits (descriptor base limit acc gr)) =
    Segment base limit (acc &&& 0xF) (Z.testbit acc 4) ((acc >>> 5) &&& 3) (Z.testbit acc 7) (Z.testbit gr 6) (Z.testbit gr 7)) ∧
  (∀ n handler sel flags, 0 ≤ n < 256 → 0 ≤ handler < 2 ^ 32 → 0 ≤ sel < 2 ^ 16 → 0 ≤ flags < 2 ^ 8 →
    gate_of (idt_set_gate n handler sel flags t) n = Gate handler sel (flags &&& 0x1F) ((flags >>> 5) &&& 3) (Z.testbit flags 7)) ∧
  let t1 := (gdt_init gdt_addr tss_addr t p).1 in
  let t2 := idt_init idt_addr stub (λ i, stub (32 + i)) (stub 128) t1 in
  map (segment_of t1) [0; KERNEL_CODE_SEL; KERNEL_DATA_SEL; USER_CODE_SEL; USER_DATA_SEL; TSS_SEL; 0x30; 0x38] = segment_table tss_addr ∧
  tss t2 = Tss ([0; 0x90000; KERNEL_DATA_SEL] ++ replicate 22 0) 0 SIZEOF_TSS ∧
  gdtr t1 = (63, gdt_addr) ∧ tr t1 = TSS_SEL ∧ idtr t2 = (2047, idt_addr) ∧
  ∀ v, 0 ≤ v < 256 → gate_of t2 v = gate_table stub (λ i, stub (32 + i)) (stub 128) v.
Proof.
  intros Hg Hi Ha Hs. split; [intros; by apply gdt_roundtrip|]. split; [intros; apply gate_roundtrip; unfold zlen in Hi; lia|].
  destruct (gdt_init_segments gdt_addr tss_addr t p Hg Ha) as (Es & Et & Er & Ek & Ei). cbv zeta.
  set (t1 := (gdt_init gdt_addr tss_addr t p).1) in *. clearbody t1.
  destruct (idt_init_gates idt_addr stub (λ i, stub (32 + i)) (stub 128) t1) as (_ & T & L & V); [congruence|intros; apply Hs; lia..|].
  split_and!; first [done | congruence].
Qed.

Definition demo_tables : tables := Tables (replicate 8 no_gdt) (Tss [] 0 0) (replicate 256 no_idt) (0, 0) 0 (0, 0).
Definition demo_stub (v : Z) : Z := 0x10000 + 16 * v.
(** A user program at the top of its stack page. *)
Definition demo_user : proc :=
  Proc 0 1 2 3 0x90001000 5 6 7 0x90000010 0x202 0x1B 0x23 0x23 0x23 0x23 0x23 ∅.

Lemma tables_decode_witness :
  let t1 := (gdt_init 0x8000 0x9000 demo_tables demo_user).1 in
  let t2 := idt_init 0xA000 demo_stub (λ i, demo_stub (32 + i)) (demo_stub 128) t1 in
  segment_of t1 0x1B = flat 10 3 ∧ gate_of t2 128 = Gate 0x10800 0x08 14 3 true ∧ gate_of t2 33 = Gate 0x10210 0x08 14 0 true ∧
  gate_of t2 200 = no_gate.
Proof.
  assert (∀ v, 0 ≤ v < 256 → 0 ≤ demo_stub v < 2 ^ 32) as Hs by (unfold demo_stub; lia).
  destruct (tables_decode 0x8000 0x9000 0xA000 demo_stub demo_tables demo_user eq_refl eq_refl ltac:(lia) Hs)
    as (_ & _ & H1 & _ & _ & _ & _ & H2).
  cbv zeta. split; [exact (f_equal (λ l, nth 3 l (flat 0 0)) H1)|]. split_and!; apply H2; lia.
Defined.
