(* ===== verification/Isr.v ===== *)
(** Interrupt dispatch: [isr_handler] of cpu/idt.c and cpu/syscall.c, over the
    drivers, the scheduler, the console and the page tables.  Through the entry
    and exit of [Cpu.v] an interrupt is invisible to the code it interrupts, and
    ring 3 gets into the kernel by system calls only. *)
From Stdlib Require Import ZArith Lia Bool Ascii String.
From stdpp Require Import base numbers gmap option list.
From S2P Require Import Prelude Console Block Frames Pmm Paging Kheap Heaps Sched Fat12 Fat12Volume Io Elf Pic Keyboard Timer Floppy Mouse Cpu.

#[local] Open Scope Z_scope.
#[local] Open Scope c_scope.
#[local] Open Scope io_scope.

(** The statics of the parts that handle interrupts, with the machine they share
    and the kernel proper. *)
Record machine (A D H : Type) := Machine {
  mc_hw : H;
  mc_timer : timer;
  mc_keyboard : keyboard H;
  mc_mouse : mouse H;
  mc_floppy : floppy H;
  mc_kernel : kernel A D
}.
Arguments Machine {A D H}. Arguments mc_hw {A D H}. Arguments mc_timer {A D H}. Arguments mc_keyboard {A D H}.
Arguments mc_mouse {A D H}. Arguments mc_floppy {A D H}. Arguments mc_kernel {A D H}.

#[export] Instance machine_hw {A D H} : HasHw (machine A D H) H.
Proof.
  refine {| get_hw := mc_hw;
    set_hw h s := Machine h (mc_timer s) (mc_keyboard s) (mc_mouse s) (mc_floppy s) (mc_kernel s) |}.
  done.
Defined.

(** How the dispatcher ends: back to the interrupted code with its frame, in the
    halt loop of a fatal exception, or in another task for good. *)
Inductive outcome := Resumes (r : registers) | Halts | Exits.

Definition SYS_EXIT : Z := 0.
Definition SYS_PUTC : Z := 1.
Definition SYS_WRITE : Z := 2.
Definition SYS_GETCPL : Z := 3.

Definition exception_names : list (list Z) := Eval vm_compute in
  map str ["Divide-by-zero"; "Debug"; "Non-maskable interrupt"; "Breakpoint"; "Overflow"; "Bound range exceeded";
    "Invalid opcode"; "Device not available"; "Double fault"; "Coprocessor segment overrun"; "Invalid TSS";
    "Segment not present"; "Stack-segment fault"; "General protection fault"; "Page fault"; "Reserved";
    "x87 floating-point"; "Alignment check"; "Machine check"; "SIMD floating-point"; "Virtualization"; "Control protection";
    "Reserved"; "Reserved"; "Reserved"; "Reserved"; "Reserved"; "Reserved"; "Reserved"; "Reserved"; "Reserved"; "Reserved"]%string.

(** What an unhandled exception prints. *)
Definition exception_report (r : registers) : list con_call :=
  [CColor VGA_WHITE VGA_RED] ++
  con_write (nl ++ nl ++ str " *** CPU EXCEPTION *** ") ++
  con_write (nth (Z.to_nat (int_no r)) exception_names []) ++
  con_write (str " (vector ") ++ con_dec (int_no r) ++
  con_write (str ", error code ") ++ con_hex (err_code r) ++
  con_write (str ")" ++ nl ++ str " at eip=") ++ con_hex (r_eip r) ++
  con_write (nl ++ str " PumpkinOS halted." ++ nl).

Section Isr.
Context {A D H : Type} `{FrameAllocator A} `{BlockDevice D} `{Ports H}.
Abbreviation mach := (machine A D H).
Abbreviation M := (IO mach).
Implicit Types s : mach.

Definition with_timer (t : timer) s : mach :=
  Machine (mc_hw s) t (mc_keyboard s) (mc_mouse s) (mc_floppy s) (mc_kernel s).
Definition with_keyboard (k : keyboard H) s : mach :=
  Machine (mc_hw s) (mc_timer s) k (mc_mouse s) (mc_floppy s) (mc_kernel s).
Definition with_mouse (m : mouse H) s : mach :=
  Machine (mc_hw s) (mc_timer s) (mc_keyboard s) m (mc_floppy s) (mc_kernel s).
Definition with_floppy (f : floppy H) s : mach :=
  Machine (mc_hw s) (mc_timer s) (mc_keyboard s) (mc_mouse s) f (mc_kernel s).
Definition with_kernel (k : kernel A D) s : mach :=
  Machine (mc_hw s) (mc_timer s) (mc_keyboard s) (mc_mouse s) (mc_floppy s) k.

(** A driver's code runs on the one machine. *)
Definition on_driver {S X} `{!HasHw S H} (get : mach → S) (put : S → mach → mach) (m : IO S X) : M X :=
  λ s, match m (set_hw (mc_hw s) (get s)) with
       | Some (t, x) => Some (set_hw (get_hw t) (put t s), x)
       | None => None
       end.
Definition on_kernel {X} (m : IO (kernel A D) X) : M X :=
  λ s, match m (mc_kernel s) with Some (k, x) => Some (with_kernel k s, x) | None => None end.
Definition prints (l : list con_call) : M unit := on_kernel (io_put (with_out l)).
Definition on_sched (f : sched (kheap A) → sched (kheap A)) : M unit :=
  on_kernel (io_put (λ k, with_sched (f (k_sched k)) k)).

(** [for (i = 0; i < r->ecx; i++) console_putc(p[i]);] *)
Fixpoint write_loop (n : nat) (p : Z) : M unit :=
  match n with
  | O => io_ret tt
  | S n => let! c := on_kernel (vload p) in prints [CPutc c] ;! write_loop n (u32 (p + 1))
  end.

(** [ret] is the address [task_exit] would resume at, which it never does. *)
Definition syscall_dispatch (ret : Z) (r : registers) : M outcome :=
  if r_eax r =? SYS_EXIT then on_sched (task_exit ret) ;! io_ret Exits
  else if r_eax r =? SYS_PUTC then prints [CPutc (r_ebx r &&& 0xFF)] ;! io_ret (Resumes (set_eax 0 r))
  else if r_eax r =? SYS_WRITE then
    write_loop (Z.to_nat (r_ecx r)) (r_ebx r) ;! io_ret (Resumes (set_eax (r_ecx r) r))
  else if r_eax r =? SYS_GETCPL then io_ret (Resumes (set_eax (r_cs r &&& 3) r))
  else io_ret (Resumes (set_eax 0xFFFFFFFF r)).

(** [cr2] is what the processor left in CR2, [fuel] bounds the bytes a mouse
    interrupt drains. *)
Definition isr_handler (fuel : nat) (ret cr2 : Z) (r : registers) : M outcome :=
  if int_no r =? 128 then syscall_dispatch ret r
  else if int_no r =? 14 then prints (paging_fault cr2 (err_code r) (r_eip r)) ;! io_ret Halts
  else if int_no r <? 32 then prints (exception_report r) ;! io_ret Halts
  else
    let irq := int_no r - 32 in
    if irq =? 0 then
      io_put (λ s, with_timer (timer_irq (mc_timer s)) s) ;!
      pic_send_eoi irq ;!
      on_sched (sched_tick ret) ;!
      io_ret (Resumes r)
    else
      (if irq =? 1 then on_driver mc_keyboard with_keyboard keyboard_irq
       else if irq =? 6 then io_put (λ s, with_floppy (floppy_irq (mc_floppy s)) s)
       else if irq =? 12 then on_driver mc_mouse with_mouse (mouse_irq fuel)
       else io_ret tt) ;!
      pic_send_eoi irq ;!
      io_ret (Resumes r).
End Isr.

(** ** What the dispatcher does *)

Section Facts.
Context {A D H : Type} `{FA : FrameAllocator A} `{BD : BlockDevice D} `{PH : Ports H}.
Abbreviation mach := (machine A D H).
Implicit Types s : mach.

(** The end-of-interrupt commands that IRQ [i] needs: the second controller's
    first, for the lines that come through it. *)
Definition eoi_sent (i : Z) (h : H) : H :=
  let h := if 8 <=? i then p_out 1 0xA0 0x20 h else h in p_out 1 0x20 0x20 h.

Lemma eoi_spec i s : pic_send_eoi i s = Some (set_hw (eoi_sent i (mc_hw s)) s, tt).
Proof. unfold pic_send_eoi, eoi_sent. by destruct (8 <=? i). Qed.

(** What serving IRQ [i] is: its own driver's handler once, no other driver
    touched, the interrupt acknowledged; for the timer the scheduler's tick comes
    after the acknowledgement. *)
Record served (ret i : Z) s s' : Prop := {
  sv_timer : mc_timer s' = if i =? 0 then timer_irq (mc_timer s) else mc_timer s;
  sv_floppy : irq_fired (mc_floppy s') = (if i =? 6 then true else irq_fired (mc_floppy s)) ∧
    motor_on (mc_floppy s') = motor_on (mc_floppy s);
  sv_keyboard : if i =? 1
    then ∃ sc h, p_in 1 0x60 (mc_hw s) = (h, sc) ∧ mc_hw s' = eoi_sent i h ∧
      mc_keyboard s' = scancode sc (set_hw h (mc_keyboard s))
    else mc_keyboard s' = mc_keyboard s;
  sv_mouse : if i =? 12
    then ∃ l h, mc_hw s' = eoi_sent i h ∧ mc_mouse s' = set_hw h (feeds l (set_hw (mc_hw s) (mc_mouse s)))
    else mc_mouse s' = mc_mouse s;
  sv_hw : i ≠ 1 → i ≠ 12 → mc_hw s' = eoi_sent i (mc_hw s);
  sv_kernel : mc_kernel s' = if i =? 0 then with_sched (sched_tick ret (k_sched (mc_kernel s))) (mc_kernel s) else mc_kernel s
}.

Lemma scancode_hw h sc (k : keyboard H) : get_hw (scancode sc (set_hw h k)) = h.
Proof. unfold scancode, kbd_enqueue, with_mods, with_ring. destruct k. cbn. by repeat case_match. Qed.

Lemma ran_inj {X Y} (a b : X) (x y : Y) : Some (a, x) = Some (b, y) → a = b ∧ x = y.
Proof. by intros [= -> ->]. Qed.

Lemma ack_ends i r s (Q : mach → outcome → Prop) :
  Q (set_hw (eoi_sent i (mc_hw s)) s) (Resumes r) → ilp (pic_send_eoi i ;! io_ret (Resumes r)) Q s.
Proof. intros HQ s' o. unfold io_bind. rewrite eoi_spec. by intros [= <- <-]. Qed.

Lemma keyboard_served s (Q : mach → unit → Prop) :
  (∀ h sc, p_in 1 0x60 (mc_hw s) = (h, sc) → Q (set_hw h (with_keyboard (scancode sc (set_hw h (mc_keyboard s))) s)) tt) →
  ilp (on_driver mc_keyboard with_keyboard keyboard_irq) Q s.
Proof.
  intros HQ s' []. unfold on_driver, keyboard_irq, io_bind, inb, in_port, io_put.
  change (get_hw (set_hw (mc_hw s) (mc_keyboard s))) with (mc_hw s). change (u16 Keyboard.PS2_DATA) with 0x60.
  destruct (p_in 1 0x60 (mc_hw s)) as [h sc] eqn:Ep.
  change (set_hw h (set_hw (mc_hw s) (mc_keyboard s))) with (set_hw h (mc_keyboard s)).
  pose proof (scancode_hw h sc (mc_keyboard s)) as Eh.
  cbv beta iota. rewrite Eh. intros [<- _]%ran_inj. by apply HQ.
Qed.

Lemma mouse_served fuel s (Q : mach → unit → Prop) :
  (∀ l h, Q (set_hw h (with_mouse (set_hw h (feeds l (set_hw (mc_hw s) (mc_mouse s)))) s)) tt) →
  ilp (on_driver mc_mouse with_mouse (mouse_irq fuel)) Q s.
Proof.
  intros HQ s' []. unfold on_driver. destruct (mouse_irq _ _) as [[m []]|] eqn:E; [|done].
  destruct (irq_feeds fuel _ _ _ E) as (l & h & ->). intros [<- _]%ran_inj. apply HQ.
Qed.

Lemma irq_served fuel ret cr2 i r s :
  0 ≤ i < 16 → int_no r = 32 + i → ilp (isr_handler fuel ret cr2 r) (λ s' o, o = Resumes r ∧ served ret i s s') s.
Proof.
  intros Hi Ei. unfold isr_handler. rewrite Ei, (proj2 (Z.eqb_neq _ _)), (proj2 (Z.eqb_neq _ _)), (proj2 (Z.ltb_ge _ _)) by lia.
  replace (32 + i - 32) with i by lia. destruct (Z.eqb_spec i 0) as [->|H0]; [|apply ilp_bind; destruct (Z.eqb_spec i 1) as [->|H1]].
  - intros s' o. unfold io_bind, io_put. rewrite eoi_spec. intros [= <- <-]. by split.
  - apply keyboard_served. intros h sc Ep. apply ack_ends. split; [done|]. split; try done. by exists sc, h.
  - destruct (Z.eqb_spec i 6) as [->|H6]; [apply ilp_put, ack_ends; by split|].
    destruct (Z.eqb_spec i 12) as [->|H12]; [apply mouse_served; intros l h|apply ilp_ret]; apply ack_ends; split; try done; split; try done.
    + by exists l, h.
    + by rewrite (proj2 (Z.eqb_neq _ _) H0).
    + by rewrite (proj2 (Z.eqb_neq _ _) H6).
    + by rewrite (proj2 (Z.eqb_neq _ _) H1).
    + by rewrite (proj2 (Z.eqb_neq _ _) H12).
    + by rewrite (proj2 (Z.eqb_neq _ _) H0).
Qed.

(** ** System calls *)

(** The bytes [l] can be read at the user address [p]. *)
Definition readable (k : kernel A D) (p : Z) (l : list Z) : Prop :=
  ∀ i, 0 ≤ i < zlen l → ∃ a, mmu (paging_of k) (u32 (p + i)) = Some a ∧ ld (k_ram k) a = arr_get l i.

Lemma write_loop_spec l p s :
  0 ≤ p → readable (mc_kernel s) p l →
  write_loop (length l) (u32 p) s = Some (with_kernel (with_out (con_write l) (mc_kernel s)) s, tt).
Proof.
  revert p s. induction l as [|b l IH]; intros p s Hp Hr.
  { destruct s as [? ? ? ? ? [? ? ? o]]. cbn. unfold with_kernel, with_out. cbn. by rewrite app_nil_r. }
  assert (zlen (b :: l) = zlen l + 1) as El by (unfold zlen; simpl; lia). assert (0 ≤ zlen l) by (unfold zlen; lia).
  cbn [length write_loop]. unfold io_bind, on_kernel at 1, vload.
  destruct (Hr 0 ltac:(lia)) as (a & Ea & Eb). rewrite Z.add_0_r in Ea. rewrite (u32_small (u32 p)) by apply u32_range.
  rewrite Ea. change (arr_get (b :: l) 0) with b in Eb. rewrite Eb. unfold prints, on_kernel, io_put.
  replace (u32 (u32 p + 1)) with (u32 (p + 1)) by (unfold u32; by rewrite Zplus_mod_idemp_l).
  etransitivity; [apply IH; [lia|]|].
  - intros i Hi. destruct (Hr (i + 1) ltac:(lia)) as (a' & Ea' & Eb'). exists a'. cbn [mc_kernel with_kernel].
    split; [etransitivity; [|exact Ea']; f_equal; f_equal; lia|]. etransitivity; [exact Eb'|].
    unfold arr_get. rewrite (proj2 (Z.ltb_ge _ _)), (proj2 (Z.ltb_ge i 0)) by lia. by replace (Z.to_nat (i + 1)) with (S (Z.to_nat i)) by lia.
  - destruct s as [? ? ? ? ? [? ? ? o]]. unfold with_kernel, with_out, con_write. cbn. by rewrite <- !app_assoc.
Qed.

(** What a system call prints and returns, [SYS_EXIT] apart. *)
Definition call_result (a b c sel : Z) (l : list Z) : list con_call * Z :=
  if a =? 1 then ([CPutc (b &&& 0xFF)], 0)
  else if a =? 2 then (con_write l, c)
  else if a =? 3 then ([], sel &&& 3)
  else ([], 0xFFFFFFFF).

Lemma syscall_spec fuel ret cr2 r l s :
  int_no r = 128 → r_eax r ≠ 0 → (r_eax r = 2 → 0 ≤ r_ebx r < 2 ^ 32 ∧ zlen l = r_ecx r ∧ readable (mc_kernel s) (r_ebx r) l) →
  let '(out, v) := call_result (r_eax r) (r_ebx r) (r_ecx r) (r_cs r) l in
  isr_handler fuel ret cr2 r s = Some (with_kernel (with_out out (mc_kernel s)) s, Resumes (set_eax v r)).
Proof.
  intros Ei H0 Hw. unfold call_result, isr_handler, syscall_dispatch. rewrite Ei. change (128 =? 128) with true. cbv iota.
  rewrite (proj2 (Z.eqb_neq _ _) H0 : (r_eax r =? SYS_EXIT) = false).
  assert (with_kernel (with_out [] (mc_kernel s)) s = s) as Es.
  { destruct s as [? ? ? ? ? [? ? ? o]]. unfold with_kernel, with_out. cbn. by rewrite app_nil_r. }
  unfold SYS_PUTC, SYS_WRITE, SYS_GETCPL. destruct (r_eax r =? 1); [done|].
  destruct (Z.eqb_spec (r_eax r) 2) as [E2|_]; [|by destruct (r_eax r =? 3); rewrite Es].
  destruct (Hw E2) as (Hb & Hl & Hr). unfold io_bind. rewrite <- Hl. unfold zlen at 1. rewrite Nat2Z.id.
  rewrite <- (u32_small (r_ebx r)) at 1 by done. by rewrite write_loop_spec by (done || lia).
Qed.
End Facts.

Lemma gate_installed stub t v :
  installed stub t → 0 ≤ v < 48 ∨ v = 128 → gate_of t v = int_gate (stub v) (if v =? 128 then 3 else 0).
Proof.
  intros Hin Hv. rewrite (in_gate _ _ Hin) by lia. unfold gate_table.
  destruct (Z.ltb_spec v 32); [by rewrite (proj2 (Z.eqb_neq _ _)) by lia|].
  destruct (Z.ltb_spec v 48); [rewrite (proj2 (Z.eqb_neq v 128)) by lia; by replace (32 + (v - 32)) with v by lia|].
  assert (v = 128) as -> by lia. done.
Qed.

(** Only vector 128 may be raised by an instruction in ring 3. *)
Lemma user_int_faults stub t v err p :
  installed stub t → cpl p = 3 → 0 ≤ v < 256 → v ≠ 128 → deliver t true v err p = Raised 13 (v * 8 + 2).
Proof.
  intros Hin Hc Hv Hne. unfold deliver. rewrite (in_gate _ _ Hin) by done. rewrite Hc. unfold gate_table.
  by destruct (v <? 32), (v <? 48), (Z.eqb_spec v 128).
Qed.

(** C7: a hardware interrupt is invisible to what it interrupts: whatever code
    runs, in ring 0 or ring 3, an IRQ reaches [isr_handler] through its gate and
    stub with the interrupted registers as its frame; if the handler comes back it
    has run that line's driver once and no other, acknowledged the right
    controllers (the timer before the scheduler may switch), and left the frame
    alone; and the stub's return from such a frame resumes the interrupted
    registers, flags, stack and segments exactly. *)
Theorem interrupt_transparent {A D H} `{FrameAllocator A} `{BlockDevice D} `{Ports H} stub t p i :
  installed stub t → proc_ok p → 64 ≤ kernel_top t p < 2 ^ 32 → 0 ≤ i < 16 →
  ∃ q, interrupt t false (32 + i) 0 p = Some (32 + i, q) ∧ eip q = stub (32 + i) ∧
    let k := isr_stub (32 + i) q in
    let r := frame_at (stack k) (esp k) in
    (∀ fuel ret cr2 (s : machine A D H), ilp (isr_handler fuel ret cr2 r) (λ s' o, o = Resumes r ∧ served ret i s s') s) ∧
    ∀ m k', cs k' = cs k → ss k' = ss k → frame_at m (esp k) = r →
      (∀ b, esp k + 56 ≤ b < kernel_top t p → ld m b = ld (stack k) b) →
      isr_return (esp k) m k' = resumed (eax p) m p.
Proof.
  intros Hin Hp Ht Hi. pose proof (gate_installed stub t (32 + i) Hin ltac:(lia)) as Hg.
  destruct (stub_spec stub t false (32 + i) 0 p _ Hin ltac:(lia) Hg ltac:(done) (po_ring _ Hp) Ht) as (q & Eq & Eip & Hk).
  exists q. unfold interrupt. rewrite Eq. split; [done|]. split; [done|]. cbv zeta. set (k := isr_stub (32 + i) q) in *. clearbody k.
  pose proof (entry_frame _ _ _ _ _ Hk Ht) as Ef. split.
  - intros fuel ret cr2 s. apply irq_served; [done|]. by rewrite Ef.
  - intros m k' Ec Es Em Hm.
    assert (frame_at m (esp k) = set_eax (eax p) (frame_at (stack k) (esp k))) as Ef'.
    { rewrite Em. rewrite Ef. unfold set_eax. cbn [r_ds r_edi r_esi r_ebp r_esp r_ebx r_edx r_ecx r_eax int_no err_code r_eip r_cs r_eflags]. reflexivity. }
    exact (return_spec t _ _ p k k' m (eax p) Hk Hp Ht Ec Es Ef' Hm).
Qed.

(** C23: ring 3 enters the kernel by system calls only. From a user program
    [int n] with any other vector is a general protection fault with that vector's
    error code, which is reported and stops the machine, and [int 0x80] is a call:
    it prints, returns its result in [eax] (the caller's ring for [SYS_GETCPL], all
    ones for an unknown number) and resumes the program with every other register
    as it was; [SYS_EXIT] takes the task out of the scheduler. *)
Theorem user_enters_kernel {A D H} `{FrameAllocator A} `{BlockDevice D} `{Ports H} stub t p fuel ret cr2 (s : machine A D H) l :
  installed stub t → proc_ok p → cpl p = 3 → 64 ≤ kernel_top t p < 2 ^ 32 →
  (eax p = 2 → 0 ≤ ebx p < 2 ^ 32 ∧ zlen l = ecx p ∧ readable (mc_kernel s) (ebx p) l) →
  (∀ v, 0 ≤ v < 256 → v ≠ 128 → ∃ q, interrupt t true v 0 p = Some (13, q) ∧ eip q = stub 13 ∧
    let k := isr_stub 13 q in
    let r := frame_at (stack k) (esp k) in
    int_no r = 13 ∧ err_code r = v * 8 + 2 ∧ r_eip r = eip p ∧
    isr_handler fuel ret cr2 r s = Some (with_kernel (with_out (exception_report r) (mc_kernel s)) s, Halts)) ∧
  ∃ q, interrupt t true 128 0 p = Some (128, q) ∧ eip q = stub 128 ∧
    let k := isr_stub 128 q in
    let r := frame_at (stack k) (esp k) in
    if eax p =? 0 then isr_handler fuel ret cr2 r s =
      Some (with_kernel (with_sched (task_exit ret (k_sched (mc_kernel s))) (mc_kernel s)) s, Exits)
    else
      let '(out, v) := call_result (eax p) (ebx p) (ecx p) (cs p) l in
      isr_handler fuel ret cr2 r s = Some (with_kernel (with_out out (mc_kernel s)) s, Resumes (set_eax v r)) ∧
      (eax p = 3 → v = 3) ∧
      ∀ m k', cs k' = cs k → ss k' = ss k → frame_at m (esp k) = set_eax v r →
        (∀ b, esp k + 56 ≤ b < kernel_top t p → ld m b = ld (stack k) b) →
        isr_return (esp k) m k' = resumed v m p.
Proof.
  intros Hin Hp Hc Ht Hw. split.
  - intros v Hv Hne. pose proof (gate_installed stub t 13 Hin ltac:(lia)) as Hg.
    destruct (stub_spec stub t false 13 (v * 8 + 2) p _ Hin ltac:(lia) Hg ltac:(done) (po_ring _ Hp) Ht) as (q & Eq & Eip & Hk).
    exists q. unfold interrupt. rewrite (user_int_faults stub) by done. rewrite Eq. split; [done|]. split; [done|].
    cbv zeta. rewrite (entry_frame _ _ _ _ _ Hk Ht). by repeat split.
  - pose proof (gate_installed stub t 128 Hin ltac:(lia)) as Hg.
    destruct (stub_spec stub t true 128 0 p _ Hin ltac:(lia) Hg ltac:(intros _; rewrite Hc; done) (po_ring _ Hp) Ht) as (q & Eq & Eip & Hk).
    exists q. unfold interrupt. rewrite Eq. split; [done|]. split; [done|]. cbv zeta. set (k := isr_stub 128 q) in *. clearbody k.
    pose proof (entry_frame _ _ _ _ _ Hk Ht) as Ef. destruct (Z.eqb_spec (eax p) 0) as [E0|Hn0].
    { rewrite Ef. unfold isr_handler, syscall_dispatch. cbn [int_no r_eax]. rewrite E0. done. }
    destruct (call_result _ _ _ _ _) as [out v] eqn:Ec. split; [|split].
    + pose proof (syscall_spec fuel ret cr2 (frame_at (stack k) (esp k)) l s) as Hs. rewrite Ef in Hs |- *. cbn [r_eax r_ebx r_ecx r_cs] in Hs. rewrite Ec in Hs. by apply Hs.
    + intros E3. revert Ec. unfold call_result. rewrite E3. intros [= <- <-]. exact Hc.
    + intros m k' Ek Es Em Hm. exact (return_spec t _ _ p k k' m _ Hk Hp Ht Ek Es Em Hm).
Qed.

(** ** A machine with a task in ring 3 *)

Definition demo_installed : tables :=
  idt_init 0xA000 demo_stub (λ i, demo_stub (32 + i)) (demo_stub 128) (gdt_init 0x8000 0x9000 demo_tables demo_user).1.

Lemma demo_installed_ok : installed demo_stub demo_installed.
Proof. apply boot_installed; [reflexivity|reflexivity|lia|unfold demo_stub; lia]. Qed.

Lemma demo_user_ok : proc_ok demo_user ∧ cpl demo_user = 3 ∧ kernel_top demo_installed demo_user = 0x90000.
Proof. split; [split; [by right|done|cbn [ds demo_user]; lia]|]. split; [reflexivity|]. vm_compute. reflexivity. Qed.

Definition demo_machine : machine pmm ramdisk script :=
  Machine (Script [] [0x1E] []) (MkTimer 41 100) demo_keyboard
    (MkMouse (Script [] [] []) 320 200 160 100 0 0 (0, 0, 0) 0) (MkFloppy (Script [] [] []) (MkTimer 0 100) false false)
    (Kernel demo_spawned demo_fs (<[0x6000 := 72]> (<[0x6001 := 105]> ∅)) []).

(** [SYS_WRITE] of two bytes at 0x6000. *)
Definition demo_writer : proc :=
  Proc 2 2 7 0x6000 0x90001000 5 6 7 0x90000010 0x202 0x1B 0x23 0x23 0x23 0x23 0x23 ∅.

Lemma interrupt_transparent_witness :
  ∃ q, interrupt demo_installed false 33 0 demo_user = Some (33, q) ∧
    let k := isr_stub 33 q in
    (∀ s' o, isr_handler 8 0x1234 0 (frame_at (stack k) (esp k)) demo_machine = Some (s', o) →
      o = Resumes (frame_at (stack k) (esp k)) ∧ served 0x1234 1 demo_machine s') ∧
    isr_return (esp k) (stack k) k = resumed 0 (stack k) demo_user.
Proof.
  destruct demo_user_ok as (Hp & _ & Ht).
  destruct (interrupt_transparent (A := pmm) (D := ramdisk) (H := script) demo_stub demo_installed demo_user 1 demo_installed_ok Hp ltac:(rewrite Ht; lia) ltac:(lia))
    as (q & Eq & _ & Hh & Hr).
  exists q. split; [exact Eq|]. cbv zeta. split; [apply Hh|]. by apply Hr.
Defined.

Lemma demo_readable : readable (mc_kernel demo_machine) 0x6000 [72; 105].
Proof.
  intros i Hi. change (zlen [72; 105]) with 2 in Hi. assert (i = 0 ∨ i = 1) as [-> | ->] by lia.
  - exists 0x6000. vm_compute. done.
  - exists 0x6001. vm_compute. done.
Qed.

Lemma user_enters_kernel_witness :
  (∃ q, interrupt demo_installed true 14 0 demo_writer = Some (13, q)) ∧
  ∃ q, interrupt demo_installed true 128 0 demo_writer = Some (128, q) ∧
    let k := isr_stub 128 q in
    let r := frame_at (stack k) (esp k) in
    isr_handler 8 0x1234 0 r demo_machine =
      Some (with_kernel (with_out [CPutc 72; CPutc 105] (mc_kernel demo_machine)) demo_machine, Resumes (set_eax 2 r)).
Proof.
  destruct demo_user_ok as (Hp & _ & Ht).
  assert (proc_ok demo_writer) as Hw by (split; [by right|done|cbn [ds demo_writer]; lia]).
  destruct (user_enters_kernel demo_stub demo_installed demo_writer 8 0x1234 0 demo_machine [72; 105] demo_installed_ok Hw eq_refl
    ltac:(change (kernel_top demo_installed demo_writer) with (kernel_top demo_installed demo_user); rewrite Ht; lia)
    ltac:(intros _; split; [cbn [ebx demo_writer]; lia|split; [reflexivity|exact demo_readable]])) as [Hf (q & Eq & _ & Hc)].
  split; [destruct (Hf 14) as (q' & E & _); [lia|lia|by exists q']|].
  exists q. split; [exact Eq|]. exact (proj1 Hc).
Defined.
