(* ===== verification/Editor.v ===== *)
(** The text editor: shell/editor.c.  The text is a flat buffer of bytes with an
    insertion point; the screen is the console's memory ([Console.v]); key
    presses and files come through the interface [Desk], which the keyboard
    driver and the file system implement. *)
From Stdlib Require Import ZArith Lia Bool Ascii String.
From stdpp Require Import base numbers gmap option list.
From S2P Require Import Prelude Io Console Keyboard.

#[local] Open Scope Z_scope.
#[local] Open Scope c_scope.
#[local] Open Scope io_scope.

Definition COLS : Z := 80.
Definition ROWS : Z := 25.
Definition TEXT_TOP : Z := 1.
Definition TEXT_ROWS : Z := ROWS - 2.
Definition EDIT_MAX : Z := 64 * 1024.
Definition ATTR_TEXT : Z := 0x07.
Definition ATTR_TITLE : Z := 0x1F.
Definition ATTR_STATUS : Z := 0x70.
Definition NL : Z := 10.

(** What the editor calls: [keyboard_getchar] ([None]: no key ever comes),
    [fs_read] into a buffer of the given size (the data, or -1) and
    [fs_create]. *)
Class Desk (E : Type) := {
  d_getchar : E → option (E * Z);
  d_fs_read : list Z → Z → E → E * option (list Z);
  d_fs_create : list Z → list Z → E → E * Z
}.

Record editor (E : Type) := MkEditor {
  env : E;
  con : console;
  buf : list Z;
  len : Z;
  cursor : Z;
  top_line : Z;
  goal_col : Z;
  modified : bool;
  fname : list Z
}.
Arguments MkEditor {E}. Arguments env {E}. Arguments con {E}. Arguments buf {E}. Arguments len {E}.
Arguments cursor {E}. Arguments top_line {E}. Arguments goal_col {E}. Arguments modified {E}. Arguments fname {E}.

Section Editor.
Context {E : Type}.
Implicit Types s : editor E.

Definition with_env (e : E) s : editor E :=
  MkEditor e (con s) (buf s) (len s) (cursor s) (top_line s) (goal_col s) (modified s) (fname s).
Definition with_con (c : console) s : editor E :=
  MkEditor (env s) c (buf s) (len s) (cursor s) (top_line s) (goal_col s) (modified s) (fname s).
Definition with_text (b : list Z) (n cur : Z) (m : bool) s : editor E :=
  MkEditor (env s) (con s) b n cur (top_line s) (goal_col s) m (fname s).
Definition with_cursor (c : Z) s : editor E := with_text (buf s) (len s) c (modified s) s.
Definition with_modified (m : bool) s : editor E := with_text (buf s) (len s) (cursor s) m s.
Definition with_top (t : Z) s : editor E :=
  MkEditor (env s) (con s) (buf s) (len s) (cursor s) t (goal_col s) (modified s) (fname s).
Definition with_goal (g : Z) s : editor E :=
  MkEditor (env s) (con s) (buf s) (len s) (cursor s) (top_line s) g (modified s) (fname s).
Definition with_fname (f : list Z) s : editor E :=
  MkEditor (env s) (con s) (buf s) (len s) (cursor s) (top_line s) (goal_col s) (modified s) f.

(** ** The screen *)

Definition put_cell (row col ch attr : Z) (c : console) : console :=
  set_cell (row * COLS + col) (u8 ch ||| (attr <<< 8)) c.

Fixpoint put_str (row col : Z) (s : list Z) (attr : Z) (c : console) : console :=
  match s with
  | ch :: s => if col <? COLS then put_str row (col + 1) s attr (put_cell row col ch attr c) else c
  | [] => c
  end.

Definition fill_row (row ch attr : Z) (c : console) : console :=
  for_range 0 COLS (λ i c, put_cell row i ch attr c) c.

Definition set_hw_cursor (row col : Z) (c : console) : console :=
  let pos := u16 (row * COLS + col) in
  Console.outb 0x3D5 (u8 (pos >>> 8)) (Console.outb 0x3D4 0x0E (Console.outb 0x3D5 (u8 pos) (Console.outb 0x3D4 0x0F c))).

(** ** The geometry of the buffer *)

Definition total_lines s : Z :=
  for_range 0 (len s) (λ i n, if arr_get (buf s) i =? NL then n + 1 else n) 1.

(** [for (; i < len; i++) if (buf[i] == '\n' && ++l == line) return i + 1;] *)
Fixpoint line_start_loop (n : nat) (i l line : Z) (b : list Z) (len : Z) : Z :=
  match n with
  | O => len
  | S n =>
      if arr_get b i =? NL then
        if l + 1 =? line then i + 1 else line_start_loop n (i + 1) (l + 1) line b len
      else line_start_loop n (i + 1) l line b len
  end.

Definition line_start (line : Z) s : Z :=
  if line <=? 0 then 0 else line_start_loop (Z.to_nat (len s)) 0 0 line (buf s) (len s).

(** [while (e < len && buf[e] != '\n') e++], with fuel for the bytes left. *)
Fixpoint to_eol (n : nat) (e : Z) (b : list Z) (len : Z) : Z :=
  match n with
  | O => e
  | S n => if (e <? len) && negb (arr_get b e =? NL) then to_eol n (e + 1) b len else e
  end.

Definition line_len (line : Z) s : Z :=
  let st := line_start line s in
  to_eol (Z.to_nat (len s - st)) st (buf s) (len s) - st.

(** Line and column of the cursor. *)
Definition cursor_rc s : Z * Z :=
  let '(l, ls) := for_range 0 (cursor s) (λ i '(l, ls), if arr_get (buf s) i =? NL then (l + 1, i + 1) else (l, ls)) (0, 0) in
  (l, cursor s - ls).

(** ** Rendering *)

Definition draw_status (msg : list Z) (c : console) : console :=
  put_str (ROWS - 1) 1 msg ATTR_STATUS (fill_row (ROWS - 1) 32 ATTR_STATUS c).

(** [while (idx < len && buf[idx] != '\n' && col < COLS) put_cell(..., col++, buf[idx++], ...)] *)
Fixpoint put_line (n : nat) (row idx col : Z) (b : list Z) (len : Z) (c : console) : Z * Z * console :=
  match n with
  | O => (idx, col, c)
  | S n =>
      if (idx <? len) && negb (arr_get b idx =? NL) && (col <? COLS)
      then put_line n row (idx + 1) (col + 1) b len (put_cell row col (arr_get b idx) ATTR_TEXT c)
      else (idx, col, c)
  end.

(** One row of text: the line, blanks, and the rest of the line skipped. *)
Definition render_row (b : list Z) (len r : Z) (ic : Z * console) : Z * console :=
  let '(idx, c) := ic in
  let '(idx, col, c) := put_line (Z.to_nat COLS) (TEXT_TOP + r) idx 0 b len c in
  let c := for_range col COLS (λ i c, put_cell (TEXT_TOP + r) i 32 ATTR_TEXT c) c in
  let idx := to_eol (Z.to_nat (len - idx)) idx b len in
  (if (idx <? len) && (arr_get b idx =? NL) then idx + 1 else idx, c).

(** The digits of a line or column number, the last first:
    [do { tmp[t++] = '0' + n % 10; n /= 10; } while (n)].  Twelve are enough for
    an [int]. *)
Fixpoint num_digits (fuel : nat) (n : Z) : list Z :=
  match fuel with
  | O => []
  | S fuel => (48 + n mod 10) :: (if n / 10 =? 0 then [] else num_digits fuel (n / 10))
  end.

Definition pos_text (ln co : Z) : list Z :=
  str "  Ln " ++ rev (num_digits 12 ln) ++ str ", " ++ rev (num_digits 12 co).

Definition HELP : list Z := str "Arrows move   Enter/Bksp/Del edit   Esc = save & quit".
Definition ASK_SAVE : list Z := str "Save changes?   Y = save & quit    N = discard    Esc = cancel".

(** The first line shown, so that the cursor's line is. *)
Definition scroll (cl top : Z) : Z :=
  let top := if cl <? top then cl else top in
  if top + TEXT_ROWS <=? cl then cl - TEXT_ROWS + 1 else top.

Definition draw_title s (c : console) : console :=
  let c := put_str 0 20 (fname s) ATTR_TITLE
    (put_str 0 1 (str "PumpkinOS edit  -  ") ATTR_TITLE (fill_row 0 32 ATTR_TITLE c)) in
  if modified s then put_str 0 (20 + zlen (fname s) + 1) (str "[modified]") ATTR_TITLE c else c.

Definition render s : editor E :=
  let '(cl, cc) := cursor_rc s in
  let s := with_top (scroll cl (top_line s)) s in
  let c := draw_title s (con s) in
  let '(_, c) := for_range 0 TEXT_ROWS (λ r ic, render_row (buf s) (len s) r ic) (line_start (top_line s) s, c) in
  let c := put_str (ROWS - 1) 56 (pos_text (cl + 1) (cc + 1)) ATTR_STATUS (draw_status HELP c) in
  let scr_col := if cc <? COLS then cc else COLS - 1 in
  with_con (set_hw_cursor (TEXT_TOP + (cl - top_line s)) scr_col c) s.

(** ** Editing *)

(** [for (i = hi; n times; i--) buf[i] = buf[i - 1]] *)
Fixpoint shift_up (n : nat) (i : Z) (b : list Z) : list Z :=
  match n with
  | O => b
  | S n => shift_up n (i - 1) (arr_set b i (arr_get b (i - 1)))
  end.

Definition shift_down (lo hi : Z) (b : list Z) : list Z :=
  for_range lo hi (λ i b, arr_set b i (arr_get b (i + 1))) b.

Definition insert_ch (c : Z) s : editor E :=
  if EDIT_MAX - 1 <=? len s then s
  else
    let b := shift_up (Z.to_nat (len s - cursor s)) (len s) (buf s) in
    with_text (arr_set b (cursor s) c) (len s + 1) (cursor s + 1) true s.

Definition backspace s : editor E :=
  if cursor s <=? 0 then s
  else with_text (shift_down (cursor s - 1) (len s - 1) (buf s)) (len s - 1) (cursor s - 1) true s.

Definition delete_ch s : editor E :=
  if len s <=? cursor s then s
  else with_text (shift_down (cursor s) (len s - 1) (buf s)) (len s - 1) (cursor s) true s.

Definition goto_line (line : Z) s : editor E :=
  let nlines := total_lines s in
  let line := if line <? 0 then 0 else line in
  let line := if nlines - 1 <? line then nlines - 1 else line in
  let ll := line_len line s in
  let col := if goal_col s <? ll then goal_col s else ll in
  with_cursor (line_start line s + col) s.

(** [cursor_rc(&cl, &cc); goal_col = cc;] *)
Definition set_goal s : editor E := with_goal (cursor_rc s).2 s.

(** The keys of the main loop, Esc apart. *)
Definition edit_key (c : Z) s : editor E :=
  let cl := (cursor_rc s).1 in
  if c =? KEY_LEFT then set_goal (if 0 <? cursor s then with_cursor (cursor s - 1) s else s)
  else if c =? KEY_RIGHT then set_goal (if cursor s <? len s then with_cursor (cursor s + 1) s else s)
  else if c =? KEY_UP then goto_line (cl - 1) s
  else if c =? KEY_DOWN then goto_line (cl + 1) s
  else if c =? KEY_HOME then with_goal 0 (with_cursor (line_start cl s) s)
  else if c =? KEY_END then set_goal (with_cursor (line_start cl s + line_len cl s) s)
  else if c =? KEY_PGUP then goto_line (cl - TEXT_ROWS) s
  else if c =? KEY_PGDN then goto_line (cl + TEXT_ROWS) s
  else if c =? KEY_DEL then delete_ch s
  else if c =? NL then set_goal (insert_ch NL s)
  else if c =? 8 then set_goal (backspace s)
  else if c =? 9 then set_goal (for_range 0 4 (λ _ s, insert_ch 32 s) s)
  else if (32 <=? c) && (c <? 127) then set_goal (insert_ch c s)
  else s.

(** ** The editor *)

(** The file name, at most 12 characters and in upper case. *)
Definition fname_of (name : list Z) : list Z :=
  map (λ c, if (97 <=? c) && (c <=? 122) then c - 32 else c) (take 12 name).

Context `{!Desk E}.

Definition getchar : IO (editor E) Z :=
  λ s, match d_getchar (env s) with Some (e, c) => Some (with_env e s, u8 c) | None => None end.

Definition save : IO (editor E) unit :=
  λ s, let '(e, r) := d_fs_create (fname s) (take (Z.to_nat (len s)) (buf s)) (env s) in
       Some (if r =? 0 then with_modified false (with_env e s) else with_env e s, tt).

Definition clear_screen : IO (editor E) unit := io_put (λ s, with_con (console_clear (con s)) s).

Fixpoint editor_loop (fuel : nat) : IO (editor E) unit :=
  match fuel with
  | O => io_stuck
  | S fuel =>
      io_put render ;!
      let! c := getchar in
      if c =? 27 then
        let! s := io_get in
        if negb (modified s) then clear_screen
        else
          io_put (λ s, with_con (draw_status ASK_SAVE (con s)) s) ;!
          let! k := getchar in
          if (k =? 121) || (k =? 89) then save ;! clear_screen
          else if (k =? 110) || (k =? 78) then clear_screen
          else editor_loop fuel
      else io_put (edit_key c) ;! editor_loop fuel
  end.

(** [fuel] bounds the number of keys. *)
Definition editor_run (fuel : nat) (name : list Z) : IO (editor E) unit :=
  io_put (with_fname (fname_of name)) ;!
  (λ s, let '(e, r) := d_fs_read (fname s) EDIT_MAX (env s) in
        let data := default [] r in
        Some (MkEditor e (con s) (data ++ drop (length data) (buf s)) (zlen data) 0 0 0 false (fname s), tt)) ;!
  editor_loop fuel.

End Editor.
