(* ===== verification/EditorThm.v ===== *)
(** Properties of [Editor.v]: editing is editing at a cursor, movement goes by
    lines, the screen shows the lines around the cursor, and what is saved is
    the text. *)
From Stdlib Require Import ZArith Lia Bool Ascii String.
From stdpp Require Import base numbers gmap option list.
From S2P Require Import Prelude Io Console Keyboard Editor.

#[local] Open Scope Z_scope.
#[local] Open Scope c_scope.

(** ** Lines of a text *)

Fixpoint nl (t : list Z) : Z :=
  match t with
  | [] => 0
  | x :: t => if x =? NL then nl t + 1 else nl t
  end.

(** The text up to the end of its first line. *)
Fixpoint first_line (t : list Z) : list Z :=
  match t with
  | [] => []
  | x :: t => if x =? NL then [] else x :: first_line t
  end.

(** The text from line [k] on; empty behind the last line. *)
Fixpoint from_line (k : nat) (t : list Z) : list Z :=
  match t with
  | [] => []
  | x :: t' => match k with
               | O => t
               | S k' => if x =? NL then from_line k' t' else from_line k t'
               end
  end.

Definition line (k : Z) (t : list Z) : list Z := first_line (from_line (Z.to_nat k) t).

Lemma from_line_0 t : from_line 0 t = t.
Proof. by destruct t. Qed.

Lemma nl_app a b : nl (a ++ b) = nl a + nl b.
Proof. induction a as [|x a IH]; cbn [app nl]; [done|]. destruct (x =? NL); lia. Qed.

Lemma nl_nonneg t : 0 ≤ nl t.
Proof. induction t as [|x t IH]; cbn [nl]; [done|]. destruct (x =? NL); lia. Qed.

Lemma first_line_no_nl t : nl (first_line t) = 0.
Proof. induction t as [|x t IH]; cbn [first_line]; [done|]. destruct (x =? NL) eqn:Ex; cbn [nl]; [done|]. by rewrite Ex. Qed.

Lemma nl_take_0 n t : nl t = 0 → nl (take n t) = 0.
Proof. intros Ht. rewrite <- (take_drop n t), nl_app in Ht. pose proof (nl_nonneg (take n t)). pose proof (nl_nonneg (drop n t)). lia. Qed.

Lemma first_line_prefix t : ∃ rest, t = first_line t ++ rest ∧ (rest = [] ∨ ∃ r, rest = NL :: r).
Proof.
  induction t as [|x t (rest & E & Hr)]; cbn [first_line]; [exists []; auto|].
  destruct (Z.eqb_spec x NL) as [->|]; [exists (NL :: t); eauto|]. exists rest. cbn. split; [by f_equal|done].
Qed.

Lemma from_line_step k t : from_line (S k) t = from_line k (from_line 1 t).
Proof.
  revert k. induction t as [|x t IH]; intros k; [by destruct k|]. cbn [from_line].
  destruct (x =? NL); [by rewrite from_line_0|]. rewrite IH. done.
Qed.

Lemma from_line_succ k t : from_line 1 (from_line k t) = from_line (S k) t.
Proof.
  revert t. induction k as [|k IH]; intros t; [by rewrite from_line_0|].
  rewrite (from_line_step k t), IH. by rewrite (from_line_step (S k) t).
Qed.

(** Behind the first line: its end, if any, skipped. *)
Lemma from_line_1 t rest : t = first_line t ++ rest → from_line 1 t = match rest with [] => [] | _ :: r => r end.
Proof.
  revert rest. induction t as [|x t IH]; intros rest E; [cbn in E; subst; done|]. cbn [first_line from_line] in *.
  destruct (x =? NL); [cbn in E; subst; by rewrite from_line_0|]. cbn in E. injection E as E. by apply IH.
Qed.

(** The text before line [k]: it ends where the line begins. *)
Definition col_of (t : list Z) : Z := foldl (λ n x, if x =? NL then 0 else n + 1) 0 t.

Lemma before_line k t :
  Z.of_nat k ≤ nl t → ∃ pre, t = pre ++ from_line k t ∧ nl pre = Z.of_nat k ∧ col_of pre = 0.
Proof.
  revert t. induction k as [|k IH]; intros t Hk.
  - exists []. rewrite from_line_0. done.
  - induction t as [|x t IHt]; [cbn in Hk; lia|]. cbn [nl from_line] in *.
    destruct (Z.eqb_spec x NL) as [->|Hx].
    + destruct (IH t) as (pre & E & En & Ec); [lia|]. exists (NL :: pre). cbn [app nl]. rewrite Z.eqb_refl.
      split; [by f_equal|]. split; [lia|done].
    + destruct (IHt Hk) as (pre & E & En & Ec). exists (x :: pre). cbn [app nl]. rewrite (proj2 (Z.eqb_neq x NL)) by done.
      split; [by f_equal|]. split; [done|]. unfold col_of in *. cbn [foldl]. rewrite (proj2 (Z.eqb_neq x NL)) by done.
      assert (∀ p n, nl p = Z.of_nat (S k) → foldl (λ n x, if x =? NL then 0 else n + 1) 0 p = 0 →
        foldl (λ n x, if x =? NL then 0 else n + 1) n p = 0) as Hind.
      { clear. intros p. induction p as [|y p IHp]; intros n En Ec; [cbn in En; lia|]. cbn [foldl nl] in *.
        destruct (y =? NL); [done|]. revert Ec. 
        assert (∀ p a b, 0 < nl p → foldl (λ n x, if x =? NL then 0 else n + 1) a p = foldl (λ n x, if x =? NL then 0 else n + 1) b p) as Hany.
        { clear. intros p. induction p as [|y p IHp]; intros a b Hp; [cbn in Hp; lia|]. cbn [foldl nl] in *. destruct (y =? NL); [done|]. by apply IHp. }
        intros Ec. rewrite (Hany _ _ (0 + 1)) by lia. done. }
      by apply Hind.
Qed.

Lemma col_of_app p q : nl q = 0 → col_of (p ++ q) = col_of p + zlen q.
Proof.
  intros Hq. unfold col_of. rewrite foldl_app. generalize (foldl (λ n x, if x =? NL then 0 else n + 1) 0 p) as n.
  induction q as [|x q IH]; intros n; [unfold zlen; simpl; lia|]. cbn [nl foldl] in *.
  pose proof (nl_nonneg q). destruct (x =? NL); [lia|]. rewrite IH by done. unfold zlen. cbn [length]. lia.
Qed.

(** ** The buffer holds a text *)

(** From index [i] on, [b] holds [t]. *)
Definition holds_at (b : list Z) (i : Z) (t : list Z) : Prop :=
  0 ≤ i ∧ ∃ rest, drop (Z.to_nat i) b = t ++ rest.

Lemma holds_at_cons b i x t : holds_at b i (x :: t) → arr_get b i = x ∧ holds_at b (i + 1) t.
Proof.
  intros [Hi [rest E]]. split.
  - unfold arr_get. rewrite (proj2 (Z.ltb_ge i 0)) by lia. rewrite <- (Nat.add_0_r (Z.to_nat i)), <- lookup_drop, E. done.
  - split; [lia|]. exists rest. replace (Z.to_nat (i + 1)) with (Z.to_nat i + 1)%nat by lia. by rewrite <- drop_drop, E.
Qed.

Lemma holds_app b i p t : holds_at b i (p ++ t) → holds_at b (i + zlen p) t.
Proof.
  intros [Hi [rest E]]. unfold zlen. split; [lia|]. exists rest.
  replace (Z.to_nat (i + Z.of_nat (length p))) with (Z.to_nat i + length p)%nat by lia.
  by rewrite <- drop_drop, E, <- app_assoc, drop_app_length.
Qed.

Lemma line_start_holds t b i l k len :
  holds_at b i t → len = i + zlen t → l < k →
  line_start_loop (length t) i l k b len = len - zlen (from_line (Z.to_nat (k - l)) t).
Proof.
  revert i l. induction t as [|x t IH]; intros i l Hb Hlen Hk; cbn [length line_start_loop].
  - destruct (Z.to_nat (k - l)); unfold zlen; simpl; lia.
  - apply holds_at_cons in Hb as [-> Hb]. destruct (Z.to_nat (k - l)) as [|m] eqn:Em; [lia|]. cbn [from_line].
    assert (len = i + 1 + zlen t) as Hlen' by (unfold zlen in *; simpl in Hlen; lia).
    destruct (x =? NL).
    + destruct (Z.eqb_spec (l + 1) k) as [<-|Hne].
      * replace m with 0%nat by lia. rewrite from_line_0. lia.
      * rewrite IH by (done || lia). do 3 f_equal. lia.
    + rewrite IH by done. by rewrite Em.
Qed.

Lemma to_eol_holds t b i len n :
  holds_at b i t → len = i + zlen t → (length t ≤ n)%nat → to_eol n i b len = i + zlen (first_line t).
Proof.
  revert i n. induction t as [|x t IH]; intros i n Hb Hlen Hn.
  - destruct n; cbn [to_eol]; [unfold zlen; simpl; lia|]. rewrite (proj2 (Z.ltb_ge i len)) by (unfold zlen in Hlen; simpl in Hlen; lia).
    unfold zlen; simpl; lia.
  - destruct n as [|n]; [simpl in Hn; lia|]. cbn [to_eol first_line]. pose proof (holds_at_cons _ _ _ _ Hb) as [-> Hb'].
    rewrite (proj2 (Z.ltb_lt i len)) by (unfold zlen in Hlen; simpl in Hlen; lia). cbn [andb].
    destruct (x =? NL); cbn [negb]; [unfold zlen; simpl; lia|].
    rewrite IH; [unfold zlen; simpl; lia|done|unfold zlen in *; simpl in Hlen; lia|simpl in Hn; lia].
Qed.

(** ** The editor's text and cursor *)

Section Editor.
Context {E : Type}.
Implicit Types s : editor E.

Definition text s : list Z := take (Z.to_nat (len s)) (buf s).
Definition before s : list Z := take (Z.to_nat (cursor s)) (text s).
Definition after s : list Z := drop (Z.to_nat (cursor s)) (text s).

Definition editor_wf s : Prop :=
  zlen (buf s) = EDIT_MAX ∧ 0 ≤ len s ≤ EDIT_MAX ∧ 0 ≤ cursor s ≤ len s ∧ 0 ≤ top_line s.

Lemma zlen_text s : editor_wf s → zlen (text s) = len s.
Proof. intros (Hb & Hl & _). unfold text, zlen in *. rewrite length_take. lia. Qed.

Lemma before_after s : before s ++ after s = text s.
Proof. apply take_drop. Qed.

Lemma zlen_before s : editor_wf s → zlen (before s) = cursor s.
Proof. intros Hw. pose proof (zlen_text s Hw). destruct Hw as (_ & _ & Hc & _). unfold before, zlen in *. rewrite length_take. lia. Qed.

Lemma holds_text s : editor_wf s → holds_at (buf s) 0 (text s).
Proof. intros _. split; [lia|]. exists (drop (Z.to_nat (len s)) (buf s)). unfold text. by rewrite take_drop. Qed.

Lemma text_get s i : editor_wf s → 0 ≤ i < len s → text s !! Z.to_nat i = Some (arr_get (buf s) i).
Proof.
  intros (Hb & Hl & _) Hi. unfold text. rewrite lookup_take_lt by lia. unfold arr_get.
  rewrite (proj2 (Z.ltb_ge i 0)) by lia. destruct (lookup_lt_is_Some_2 (buf s) (Z.to_nat i)) as [x Ex]; [unfold zlen in Hb; lia|].
  by rewrite Ex.
Qed.

(** Two buffers hold the same text when their bytes agree. *)
Lemma take_eq b t n :
  zlen t = n → n ≤ zlen b → (∀ i, 0 ≤ i < n → t !! Z.to_nat i = Some (arr_get b i)) → take (Z.to_nat n) b = t.
Proof.
  intros Ht Hb Hi. apply list_eq. intros j. unfold zlen in *. destruct (decide (j < length t)%nat) as [Hj|Hj].
  - rewrite lookup_take_lt by lia. specialize (Hi (Z.of_nat j)). rewrite Nat2Z.id in Hi. rewrite Hi by lia.
    unfold arr_get. rewrite (proj2 (Z.ltb_ge _ 0)), Nat2Z.id by lia.
    destruct (lookup_lt_is_Some_2 b j) as [x Ex]; [lia|]. by rewrite Ex.
  - rewrite !lookup_ge_None_2; [done| |]; [lia|]. rewrite length_take. lia.
Qed.

(** *** Geometry *)

Lemma for_range_text {S} (f : Z → S → S) b t i (x : S) :
  holds_at b i t → ∀ g, (∀ j y, f j y = g (arr_get b j) j y) →
  for_range i (i + zlen t) f x = (fix go t j x := match t with [] => x | c :: t => go t (j + 1) (g c j x) end) t i x.
Proof.
  intros Hb g Hg. revert i x Hb. induction t as [|c t IH]; intros i x Hb.
  - by rewrite for_range_nil by (unfold zlen; simpl; lia).
  - pose proof (holds_at_cons _ _ _ _ Hb) as [Ec Hb']. rewrite for_range_step by (unfold zlen; simpl; lia).
    replace (i + zlen (c :: t)) with (i + 1 + zlen t) by (unfold zlen; cbn [length]; lia).
    rewrite IH by done. by rewrite Hg, Ec.
Qed.

Lemma total_lines_spec s : editor_wf s → total_lines s = nl (text s) + 1.
Proof.
  intros Hw. unfold total_lines. rewrite <- (zlen_text s Hw), <- (Z.add_0_l (zlen _)).
  rewrite (for_range_text _ (buf s) (text s) 0 1 (holds_text s Hw) (λ c _ n, if c =? NL then n + 1 else n)) by done.
  assert (∀ t n i, (fix go (t : list Z) (j x : Z) {struct t} : Z := match t with [] => x | c :: t0 => go t0 (j + 1) (if c =? NL then x + 1 else x) end) t i n = nl t + n) as Hgo.
  { clear. induction t as [|c t IH]; intros n i; [cbn; lia|]. cbn [nl]. rewrite IH. destruct (c =? NL); lia. }
  rewrite Hgo. lia.
Qed.

Lemma cursor_rc_spec s : editor_wf s → cursor_rc s = (nl (before s), col_of (before s)).
Proof.
  intros Hw. unfold cursor_rc.
  assert (holds_at (buf s) 0 (before s)) as Hb.
  { split; [lia|]. exists (drop (Z.to_nat (cursor s)) (buf s)). destruct Hw as (_ & _ & Hc & _).
    unfold before, text. rewrite take_take, Nat.min_l by lia. by rewrite take_drop. }
  pose proof (zlen_before s Hw) as Hz.
  replace (for_range 0 (cursor s)) with (@for_range (Z * Z) 0 (0 + zlen (before s))) by (f_equal; lia).
  rewrite (for_range_text _ (buf s) (before s) 0 (0, 0) Hb (λ c i '(l, ls), if c =? NL then (l + 1, i + 1) else (l, ls))) by (by intros j []).
  assert (∀ t l ls i, let r := (fix go (t : list Z) (j : Z) (x : Z * Z) {struct t} : Z * Z := match t with [] => x
      | c :: t0 => go t0 (j + 1) (let '(l, ls) := x in if c =? NL then (l + 1, j + 1) else (l, ls)) end) t i (l, ls) in
      r = (l + nl t, i + zlen t - foldl (λ n x, if x =? NL then 0 else n + 1) (i - ls) t)) as Hgo.
  { clear. induction t as [|c t IH]; intros l ls i; cbn zeta; [cbn; unfold zlen; simpl; f_equal; lia|].
    cbn [nl foldl]. specialize (IH (if c =? NL then l + 1 else l) (if c =? NL then i + 1 else ls) (i + 1)).
    assert (zlen (c :: t) = zlen t + 1) as El by (unfold zlen; cbn [length]; lia). cbv zeta in IH.
    destruct (c =? NL); rewrite IH, El; f_equal; try lia; f_equal; try lia; f_equal; lia. }
  rewrite Hgo. change (0 - 0) with 0. unfold col_of. f_equal; lia.
Qed.

Lemma line_start_spec k s :
  editor_wf s → 0 ≤ k → line_start k s = len s - zlen (from_line (Z.to_nat k) (text s)).
Proof.
  intros Hw Hk. unfold line_start. destruct (Z.leb_spec k 0).
  - replace (Z.to_nat k) with 0%nat by lia. rewrite from_line_0, zlen_text by done. lia.
  - pose proof (zlen_text s Hw) as Hz. replace (Z.to_nat (len s)) with (length (text s)) by (unfold zlen in Hz; lia).
    rewrite (line_start_holds (text s)); [do 3 f_equal; lia|by apply holds_text|lia|lia].
Qed.

Lemma from_line_suffix k t : ∃ p, t = p ++ from_line k t.
Proof.
  revert k. induction t as [|x t IH]; intros k; [by exists []|]. destruct k; cbn [from_line]; [by exists []|].
  destruct (x =? NL).
  - destruct (IH k) as [p E1]. exists (x :: p). cbn. by f_equal.
  - destruct (IH (S k)) as [p E1]. exists (x :: p). cbn. by f_equal.
Qed.

Lemma holds_line k s : editor_wf s → 0 ≤ k → holds_at (buf s) (line_start k s) (from_line (Z.to_nat k) (text s)).
Proof.
  intros Hw Hk. rewrite line_start_spec by done. destruct (from_line_suffix (Z.to_nat k) (text s)) as [p Ep].
  pose proof (holds_text s Hw) as Hb. rewrite Ep in Hb. apply holds_app in Hb. pose proof (zlen_text s Hw) as Hz.
  replace (len s - zlen (from_line (Z.to_nat k) (text s))) with (0 + zlen p); [done|].
  rewrite <- Hz. rewrite Ep at 1. unfold zlen. rewrite length_app. lia.
Qed.

Lemma line_len_spec k s : editor_wf s → 0 ≤ k → line_len k s = zlen (line k (text s)).
Proof.
  intros Hw Hk. unfold line_len. pose proof (holds_line k s Hw Hk) as Hb. pose proof (line_start_spec k s Hw Hk) as Es.
  rewrite (to_eol_holds (from_line (Z.to_nat k) (text s))); [unfold line; lia|done|lia|]. unfold zlen in Es. lia.
Qed.

(** *** Moving by lines *)

Definition clamp (k : Z) (t : list Z) : Z := Z.min (Z.max k 0) (nl t).

Lemma nl_0_col q : nl q = 0 → col_of q = zlen q.
Proof. intros Hq. rewrite <- (app_nil_l q) at 1. by rewrite col_of_app. Qed.

(** The cursor put into column [c] of line [k]. *)
Lemma at_line s k c :
  editor_wf s → 0 ≤ k ≤ nl (text s) → 0 ≤ c ≤ zlen (line k (text s)) →
  let s' := with_cursor (line_start k s + c) s in editor_wf s' ∧ text s' = text s ∧ cursor_rc s' = (k, c).
Proof.
  intros Hw Hk Hc s'. destruct (before_line (Z.to_nat k) (text s)) as (pre & Ep & En & Ec); [lia|].
  rewrite Z2Nat.id in En by lia. set (t := from_line (Z.to_nat k) (text s)) in *.
  pose proof (zlen_text s Hw) as Hz. assert (len s = zlen pre + zlen t) as El by (rewrite <- Hz, Ep; unfold zlen; rewrite length_app; lia).
  assert (line_start k s = zlen pre) as Es by (rewrite line_start_spec by (done || lia); fold t; lia).
  unfold line in Hc. fold t in Hc. destruct (first_line_prefix t) as (rest & Et & _).
  assert (zlen t = zlen (first_line t) + zlen rest) as Elt by (rewrite Et at 1; unfold zlen; rewrite length_app; lia).
  assert (0 ≤ zlen rest ∧ 0 ≤ zlen pre) as [] by (unfold zlen; lia).
  assert (editor_wf s') as Hw'.
  { destruct Hw as (Hb & Hl & _ & Ht). unfold s', with_cursor, with_text. split; [done|]. split; [done|]. cbn [cursor len top_line]. split; [lia|done]. }
  split; [done|]. split; [done|]. rewrite cursor_rc_spec by done.
  assert (before s' = pre ++ take (Z.to_nat c) (first_line t)) as ->.
  { unfold before, s'. change (text (with_cursor _ s)) with (text s). cbn [with_cursor with_text cursor]. rewrite Es, Ep.
    unfold zlen in *. replace (Z.to_nat (Z.of_nat (length pre) + c)) with (length pre + Z.to_nat c)%nat by lia.
    rewrite take_app_add. f_equal. rewrite Et at 1. rewrite take_app_le; [done|lia]. }
  rewrite nl_app, col_of_app, Ec, En by (apply nl_take_0, first_line_no_nl).
  rewrite (nl_take_0 _ _ (first_line_no_nl t)). f_equal; [lia|]. unfold zlen in *. rewrite length_take. lia.
Qed.

Lemma goto_line_spec s k :
  editor_wf s → 0 ≤ goal_col s →
  let s' := goto_line k s in let k' := clamp k (text s) in
  editor_wf s' ∧ text s' = text s ∧ cursor_rc s' = (k', Z.min (goal_col s) (zlen (line k' (text s)))).
Proof.
  intros Hw Hg s' k'. unfold s', goto_line. rewrite total_lines_spec by done. pose proof (nl_nonneg (text s)) as Hn.
  replace (nl (text s) + 1 - 1) with (nl (text s)) by lia.
  assert ((if nl (text s) <? (if k <? 0 then 0 else k) then nl (text s) else (if k <? 0 then 0 else k)) = k') as ->.
  { unfold k', clamp. destruct (Z.ltb_spec k 0);
      [destruct (Z.ltb_spec (nl (text s)) 0)|destruct (Z.ltb_spec (nl (text s)) k)]; lia. }
  assert (0 ≤ k' ≤ nl (text s)) as Hk by (unfold k', clamp; lia).
  rewrite line_len_spec by (done || lia). set (ll := zlen (line k' (text s))).
  assert (0 ≤ ll) by (unfold ll, zlen; lia).
  replace (if goal_col s <? ll then goal_col s else ll) with (Z.min (goal_col s) ll) by (destruct (Z.ltb_spec (goal_col s) ll); lia).
  apply at_line; [done|done|]. fold ll. lia.
Qed.
End Editor.

(** ** Editing at a cursor *)

(** The text before and behind the cursor. *)
Definition doc : Type := list Z * list Z.

Definition doc_insert (x : Z) (d : doc) : doc :=
  if zlen d.1 + zlen d.2 <? EDIT_MAX - 1 then (d.1 ++ [x], d.2) else d.

(** What the keys that are no line movements do to it. *)
Definition doc_key (c : Z) (d : doc) : doc :=
  let '(b, a) := d in
  let k := (length b - 1)%nat in
  if c =? KEY_LEFT then (take k b, drop k b ++ a)
  else if c =? KEY_RIGHT then (b ++ take 1 a, drop 1 a)
  else if c =? KEY_DEL then (b, drop 1 a)
  else if c =? NL then doc_insert NL d
  else if c =? 8 then (take k b, a)
  else if c =? 9 then doc_insert 32 (doc_insert 32 (doc_insert 32 (doc_insert 32 d)))
  else if (32 <=? c) && (c <? 127) then doc_insert c d
  else d.

(** Where the line movements go, from line and column [rc] of the text [t]. *)
Definition move_key (c : Z) (t : list Z) (rc : Z * Z) (goal : Z) : option (Z * Z) :=
  let to k := Some (clamp k t, Z.min goal (zlen (line (clamp k t) t))) in
  if c =? KEY_UP then to (rc.1 - 1)
  else if c =? KEY_DOWN then to (rc.1 + 1)
  else if c =? KEY_PGUP then to (rc.1 - TEXT_ROWS)
  else if c =? KEY_PGDN then to (rc.1 + TEXT_ROWS)
  else if c =? KEY_HOME then Some (rc.1, 0)
  else if c =? KEY_END then Some (rc.1, zlen (line rc.1 t))
  else None.

Section Edits.
Context {E : Type}.
Implicit Types s : editor E.

Lemma doc_of s s' b a :
  zlen (buf s') = EDIT_MAX → 0 ≤ top_line s' → text s' = b ++ a → zlen (b ++ a) = len s' → cursor s' = zlen b →
  editor_wf s' ∧ (before s', after s') = (b, a).
Proof.
  intros Hb Ht Et El Ec. assert (len s' ≤ EDIT_MAX) as Hle.
  { rewrite <- El, <- Et, <- Hb. unfold text, zlen. rewrite length_take. lia. }
  unfold zlen in El, Ec. rewrite length_app in El. split.
  - unfold editor_wf. lia.
  - unfold before, after. rewrite Et, Ec, Nat2Z.id. by rewrite take_app_length, drop_app_length.
Qed.

Lemma shift_up_get n i b j :
  0 ≤ i - Z.of_nat n → i < zlen b → 0 ≤ j →
  arr_get (shift_up n i b) j = if (i - Z.of_nat n <? j) && (j <=? i) then arr_get b (j - 1) else arr_get b j.
Proof.
  revert i b. induction n as [|n IH]; intros i b Hn Hi Hj; cbn [shift_up].
  - destruct (Z.ltb_spec (i - Z.of_nat 0) j), (Z.leb_spec j i); cbn [andb]; (done || lia).
  - rewrite IH by (rewrite ?zlen_arr_set; lia). destruct (Z.eq_dec j i) as [->|Hne].
    + rewrite (proj2 (Z.leb_gt i (i - 1))), andb_false_r by lia.
      rewrite (proj2 (Z.ltb_lt _ _)), (proj2 (Z.leb_le i i)) by lia. cbn [andb]. apply arr_get_set_eq. lia.
    + rewrite (arr_get_set_ne b i j) by lia.
      replace (i - Z.of_nat (S n) <? j) with (i - 1 - Z.of_nat n <? j) by (f_equal; lia).
      replace (j <=? i) with (j <=? i - 1) by (destruct (Z.leb_spec j i), (Z.leb_spec j (i - 1)); (done || lia)).
      destruct (_ && _) eqn:Ec; [|done]. rewrite arr_get_set_ne; [done|]. lia.
Qed.

Lemma zlen_shift_up n i b : zlen (shift_up n i b) = zlen b.
Proof. revert i b. induction n as [|n IH]; intros i b; cbn [shift_up]; [done|]. by rewrite IH, zlen_arr_set. Qed.

Lemma shift_down_get lo hi b j :
  0 ≤ lo → hi ≤ zlen b → 0 ≤ j →
  zlen (shift_down lo hi b) = zlen b ∧
  arr_get (shift_down lo hi b) j = if (lo <=? j) && (j <? hi) then arr_get b (j + 1) else arr_get b j.
Proof.
  intros Hlo Hhi Hj. unfold shift_down. destruct (Z.le_gt_cases hi lo) as [Hle|Hlt].
  - rewrite for_range_nil by lia. split; [done|]. destruct (Z.leb_spec lo j), (Z.ltb_spec j hi); cbn [andb]; (done || lia).
  - set (P := λ k b', zlen b' = zlen b ∧ ∀ j, 0 ≤ j → arr_get b' j = if (lo <=? j) && (j <? k) then arr_get b (j + 1) else arr_get b j).
    assert (P hi (for_range lo hi (λ i b, arr_set b i (arr_get b (i + 1))) b)) as Hx; [|exact (conj (proj1 Hx) (proj2 Hx j Hj))].
    apply (for_range_ind P); [lia| |]; unfold P; clear P.
    + split; [done|]. intros i Hi. destruct (Z.leb_spec lo i), (Z.ltb_spec i lo); cbn [andb]; (done || lia).
    + intros k b' Hk [Hz IH]. split; [by rewrite zlen_arr_set|]. intros i Hi. destruct (Z.eq_dec i k) as [->|Hne].
      * rewrite arr_get_set_eq by lia. rewrite IH by lia.
        destruct (Z.leb_spec lo k), (Z.leb_spec lo (k + 1)), (Z.ltb_spec (k + 1) k), (Z.ltb_spec k (k + 1)); cbn [andb]; (done || lia).
      * rewrite arr_get_set_ne by lia. rewrite IH by done.
        destruct (Z.leb_spec lo i), (Z.ltb_spec i k), (Z.ltb_spec i (k + 1)); cbn [andb]; (done || lia).
Qed.

Lemma insert_ch_spec x s :
  editor_wf s → editor_wf (insert_ch x s) ∧ (before (insert_ch x s), after (insert_ch x s)) = doc_insert x (before s, after s).
Proof.
  intros Hw. pose proof (zlen_text s Hw) as Hz. pose proof (zlen_before s Hw) as Hzb. pose proof Hw as (Hb & Hl & Hc & Ht).
  assert (zlen (before s) + zlen (after s) = len s) as Hba.
  { rewrite <- Hz, <- before_after. unfold zlen. rewrite length_app. lia. }
  unfold insert_ch, doc_insert. cbn [fst snd]. rewrite Hba.
  destruct (Z.leb_spec (EDIT_MAX - 1) (len s)) as [Hfull|Hroom].
  { rewrite (proj2 (Z.ltb_ge _ _)) by lia. done. }
  rewrite (proj2 (Z.ltb_lt _ _)) by lia. set (b1 := shift_up _ _ _).
  assert (zlen b1 = EDIT_MAX) as Hb1 by (unfold b1; by rewrite zlen_shift_up).
  apply (doc_of s); cbn [with_text buf top_line len cursor].
  - by rewrite zlen_arr_set.
  - done.
  - unfold text. cbn [with_text buf len]. apply take_eq.
    + unfold zlen in *. rewrite !length_app. cbn [length]. lia.
    + rewrite zlen_arr_set. lia.
    + intros i Hi. rewrite <- app_assoc. destruct (Z.lt_trichotomy i (cursor s)) as [Hlt|[->|Hgt]].
      * rewrite lookup_app_l by (unfold zlen in Hzb; lia). unfold before. rewrite lookup_take_lt by lia.
        rewrite text_get by (done || lia). rewrite arr_get_set_ne by lia. unfold b1. rewrite shift_up_get by lia.
        rewrite (proj2 (Z.ltb_ge _ _)) by lia. done.
      * rewrite lookup_app_r by (unfold zlen in Hzb; lia). rewrite arr_get_set_eq by lia.
        replace (Z.to_nat (cursor s) - length (before s))%nat with 0%nat by (unfold zlen in Hzb; lia). done.
      * rewrite lookup_app_r by (unfold zlen in Hzb; lia).
        replace (Z.to_nat i - length (before s))%nat with (S (Z.to_nat (i - 1 - cursor s))) by (unfold zlen in Hzb; lia).
        change (([x] ++ after s) !! S (Z.to_nat (i - 1 - cursor s))) with (after s !! Z.to_nat (i - 1 - cursor s)).
        unfold after. rewrite lookup_drop.
        replace (Z.to_nat (cursor s) + Z.to_nat (i - 1 - cursor s))%nat with (Z.to_nat (i - 1)) by lia.
        rewrite text_get by (done || lia). rewrite arr_get_set_ne by lia. unfold b1. rewrite shift_up_get by lia.
        rewrite (proj2 (Z.ltb_lt _ _)), (proj2 (Z.leb_le _ _)) by lia. done.
  - unfold zlen in *. rewrite !length_app. cbn [length]. lia.
  - unfold zlen in *. rewrite length_app. cbn [length]. lia.
Qed.

(** Taking out the byte at [p]. *)
Lemma take_out s p cur :
  editor_wf s → 0 ≤ p < len s → cur = p →
  let s' := with_text (Editor.shift_down p (len s - 1) (buf s)) (len s - 1) cur true s in
  editor_wf s' ∧ (before s', after s') = (take (Z.to_nat p) (text s), drop (Z.to_nat (p + 1)) (text s)).
Proof.
  intros Hw Hp -> s'. pose proof (zlen_text s Hw) as Hz. pose proof Hw as (Hb & Hl & Hc & Ht).
  destruct (shift_down_get p (len s - 1) (buf s) 0) as [Hzb _]; [lia..|].
  apply (doc_of s); unfold s'; cbn [with_text buf top_line len cursor].
  - by rewrite Hzb.
  - done.
  - unfold text at 1. cbn [with_text buf len]. apply take_eq.
    + unfold zlen in *. rewrite length_app, length_take, length_drop. lia.
    + lia.
    + intros i Hi. destruct (shift_down_get p (len s - 1) (buf s) i) as [_ ->]; [lia..|].
      assert (length (take (Z.to_nat p) (text s)) = Z.to_nat p) as Elt by (unfold zlen in Hz; rewrite length_take; lia).
      destruct (Z.leb_spec p i) as [Hge|Hlt].
      * rewrite (proj2 (Z.ltb_lt _ _)) by lia. cbn [andb]. rewrite lookup_app_r by lia. rewrite Elt, lookup_drop.
        replace (Z.to_nat (p + 1) + (Z.to_nat i - Z.to_nat p))%nat with (Z.to_nat (i + 1)) by lia. apply text_get; [done|lia].
      * cbn [andb]. rewrite lookup_app_l by lia. rewrite lookup_take_lt by lia. apply text_get; [done|lia].
  - unfold zlen in *. rewrite length_app, length_take, length_drop. lia.
  - unfold zlen in *. rewrite length_take. lia.
Qed.
End Edits.

Section Keys.
Context {E : Type}.
Implicit Types s : editor E.

(** Keys that keep the preferred column. *)
Definition keeps_goal (c : Z) : bool :=
  (c =? KEY_UP) || (c =? KEY_DOWN) || (c =? KEY_PGUP) || (c =? KEY_PGDN) || (c =? KEY_DEL) ||
  negb ((c =? KEY_LEFT) || (c =? KEY_RIGHT) || (c =? KEY_HOME) || (c =? KEY_END) || (c =? NL) || (c =? 8) || (c =? 9) ||
        ((32 <=? c) && (c <? 127))).

Lemma set_goal_same s : editor_wf s → editor_wf (set_goal s) ∧ (before (set_goal s), after (set_goal s)) = (before s, after s).
Proof. done. Qed.

Lemma before_cursor s n : editor_wf s → 0 ≤ n ≤ len s →
  editor_wf (with_cursor n s) ∧ before (with_cursor n s) = take (Z.to_nat n) (text s) ∧ after (with_cursor n s) = drop (Z.to_nat n) (text s).
Proof. intros (Hb & Hl & Hc & Ht) Hn. split; [|done]. unfold editor_wf. cbn. done. Qed.

Lemma left_spec s :
  editor_wf s → let s' := if 0 <? cursor s then with_cursor (cursor s - 1) s else s in
  editor_wf s' ∧ (before s', after s') = doc_key KEY_LEFT (before s, after s).
Proof.
  intros Hw s'. pose proof (zlen_before s Hw) as Hz. pose proof (zlen_text s Hw) as Hzt. pose proof Hw as (_ & _ & Hc & _).
  unfold doc_key. rewrite Z.eqb_refl. unfold s'. destruct (Z.ltb_spec 0 (cursor s)) as [Hpos|Hneg].
  - destruct (before_cursor s (cursor s - 1) Hw) as (Hw' & Eb & Ea); [lia|]. split; [done|]. rewrite Eb, Ea. f_equal.
    + unfold before. rewrite length_take, take_take. f_equal. unfold zlen in Hzt. lia.
    + rewrite <- (take_drop (Z.to_nat (cursor s)) (text s)) at 1. fold (before s) (after s). rewrite drop_app_le; [f_equal; f_equal|];
      unfold zlen in Hz; lia.
  - split; [done|]. assert (before s = []) as -> by (apply nil_length_inv; unfold zlen in Hz; lia). done.
Qed.

Lemma right_spec s :
  editor_wf s → let s' := if cursor s <? len s then with_cursor (cursor s + 1) s else s in
  editor_wf s' ∧ (before s', after s') = doc_key KEY_RIGHT (before s, after s).
Proof.
  intros Hw s'. pose proof (zlen_before s Hw) as Hz. pose proof (zlen_text s Hw) as Hzt. pose proof Hw as (_ & _ & Hc & _).
  change (doc_key KEY_RIGHT (before s, after s)) with (before s ++ take 1 (after s), drop 1 (after s)).
  unfold s'. destruct (Z.ltb_spec (cursor s) (len s)) as [Hlt|Hge].
  - destruct (before_cursor s (cursor s + 1) Hw) as (Hw' & Eb & Ea); [lia|]. split; [done|]. rewrite Eb, Ea.
    replace (Z.to_nat (cursor s + 1)) with (Z.to_nat (cursor s) + 1)%nat by lia. f_equal.
    + rewrite <- (take_drop (Z.to_nat (cursor s)) (text s)) at 1. fold (before s) (after s).
      replace (Z.to_nat (cursor s) + 1)%nat with (length (before s) + 1)%nat by (unfold zlen in Hz; lia). apply take_app_add.
    + unfold after. by rewrite drop_drop.
  - split; [done|]. assert (after s = []) as -> by (unfold after; apply drop_ge; unfold zlen in Hzt; lia). by rewrite app_nil_r.
Qed.

Lemma delete_spec s : editor_wf s → editor_wf (delete_ch s) ∧ (before (delete_ch s), after (delete_ch s)) = doc_key KEY_DEL (before s, after s).
Proof.
  intros Hw. pose proof (zlen_text s Hw) as Hzt. pose proof Hw as (_ & _ & Hc & _).
  change (doc_key KEY_DEL (before s, after s)) with (before s, drop 1 (after s)).
  unfold delete_ch. destruct (Z.leb_spec (len s) (cursor s)).
  - split; [done|]. assert (after s = []) as -> by (unfold after; apply drop_ge; unfold zlen in Hzt; lia). done.
  - destruct (take_out s (cursor s) (cursor s) Hw) as [Hw' ->]; [lia|done|]. split; [done|]. f_equal.
    unfold after. rewrite drop_drop. f_equal. lia.
Qed.

Lemma backspace_spec s : editor_wf s → editor_wf (backspace s) ∧ (before (backspace s), after (backspace s)) = doc_key 8 (before s, after s).
Proof.
  intros Hw. pose proof (zlen_text s Hw) as Hzt. pose proof (zlen_before s Hw) as Hz. pose proof Hw as (_ & _ & Hc & _).
  change (doc_key 8 (before s, after s)) with (take (length (before s) - 1) (before s), after s).
  unfold backspace. destruct (Z.leb_spec (cursor s) 0).
  - split; [done|]. assert (before s = []) as -> by (apply nil_length_inv; unfold zlen in Hz; lia). done.
  - destruct (take_out s (cursor s - 1) (cursor s - 1) Hw) as [Hw' ->]; [lia|done|]. split; [done|]. f_equal.
    + unfold before. rewrite length_take, take_take. f_equal. unfold zlen in Hzt. lia.
    + unfold after. f_equal. lia.
Qed.

Lemma tab_spec s :
  editor_wf s → let s' := for_range 0 4 (λ _ s, insert_ch 32 s) s in
  editor_wf s' ∧ (before s', after s') = doc_insert 32 (doc_insert 32 (doc_insert 32 (doc_insert 32 (before s, after s)))).
Proof.
  intros Hw. change (for_range 0 4 (λ _ s, insert_ch 32 s) s) with (insert_ch 32 (insert_ch 32 (insert_ch 32 (insert_ch 32 s)))).
  destruct (insert_ch_spec 32 s Hw) as [Hw1 <-]. set (s1 := insert_ch 32 s) in *. clearbody s1.
  destruct (insert_ch_spec 32 s1 Hw1) as [Hw2 <-]. set (s2 := insert_ch 32 s1) in *. clearbody s2.
  destruct (insert_ch_spec 32 s2 Hw2) as [Hw3 <-]. set (s3 := insert_ch 32 s2) in *. clearbody s3.
  destruct (insert_ch_spec 32 s3 Hw3) as [Hw4 <-]. done.
Qed.

(** The line of the cursor exists. *)
Lemma cursor_line s : editor_wf s → 0 ≤ nl (before s) ≤ nl (text s).
Proof. intros Hw. rewrite <- (before_after s), nl_app. pose proof (nl_nonneg (before s)). pose proof (nl_nonneg (after s)). lia. Qed.

(** C9: every key does to the text and the cursor what it says.  Characters,
    newline and tab go in at the cursor as far as the buffer has room, backspace
    and delete take out the byte before and behind it, left and right step over
    one byte, and none of them touches any other byte.  Up, down, and the page
    keys go to the nearest line there is, in the preferred column or at the end
    of a shorter line; home and end go to the ends of the line; these leave the
    text alone.  The preferred column follows every other movement. *)
Theorem editor_keys c s :
  editor_wf s → 0 ≤ goal_col s →
  let s' := edit_key c s in
  editor_wf s' ∧ 0 ≤ goal_col s' ∧
  goal_col s' = (if keeps_goal c then goal_col s else (cursor_rc s').2) ∧
  match move_key c (text s) (cursor_rc s) (goal_col s) with
  | Some rc => text s' = text s ∧ cursor_rc s' = rc
  | None => (before s', after s') = doc_key c (before s, after s)
  end.
Proof.
  intros Hw Hg. pose proof (cursor_line s Hw) as Hr. pose proof (cursor_rc_spec s Hw) as Erc.
  set (r := (cursor_rc s).1). assert (r = nl (before s)) as Er by (unfold r; by rewrite Erc). rewrite <- Er in Hr. clear Er Erc.
  assert (∀ t : editor E, editor_wf t → 0 ≤ (cursor_rc t).2) as Hcol.
  { intros t Ht. rewrite cursor_rc_spec by done. cbn. unfold col_of.
    assert (∀ l n, 0 ≤ n → 0 ≤ foldl (λ n x, if x =? NL then 0 else n + 1) n l) as Hf; [|by apply Hf].
    induction l as [|x l IH]; intros n Hn; [done|]. cbn. apply IH. destruct (x =? NL); lia. }
  assert (∀ (t : editor E) d, editor_wf t ∧ (before t, after t) = d →
    editor_wf (set_goal t) ∧ 0 ≤ goal_col (set_goal t) ∧ goal_col (set_goal t) = (cursor_rc (set_goal t)).2 ∧
    (before (set_goal t), after (set_goal t)) = d) as Hset.
  { intros t d [Ht Ed]. split; [done|]. split; [by apply Hcol|]. done. }
  assert (∀ k, let t := goto_line k s in editor_wf t ∧ 0 ≤ goal_col t ∧ goal_col t = goal_col s ∧ text t = text s ∧
    cursor_rc t = (clamp k (text s), Z.min (goal_col s) (zlen (line (clamp k (text s)) (text s))))) as Hgo.
  { intros k. destruct (goto_line_spec s k Hw Hg) as (H1 & H2 & H3). done. }
  destruct (decide (c = KEY_UP)) as [->|N1]; [exact (Hgo (r - 1))|].
  destruct (decide (c = KEY_DOWN)) as [->|N2]; [exact (Hgo (r + 1))|].
  destruct (decide (c = KEY_PGUP)) as [->|N3]; [exact (Hgo (r - TEXT_ROWS))|].
  destruct (decide (c = KEY_PGDN)) as [->|N4]; [exact (Hgo (r + TEXT_ROWS))|].
  destruct (decide (c = KEY_HOME)) as [->|N5].
  { destruct (at_line s r 0 Hw Hr) as (Hw' & Et & Ec); [unfold zlen; lia|]. rewrite Z.add_0_r in *.
    change (edit_key KEY_HOME s) with (with_goal 0 (with_cursor (line_start r s) s)).
    split; [done|]. split; [done|]. split; [|done]. change (0 = (cursor_rc (with_cursor (line_start r s) s)).2). by rewrite Ec. }
  destruct (decide (c = KEY_END)) as [->|N6].
  { destruct (at_line s r (zlen (line r (text s))) Hw Hr) as (Hw' & Et & Ec); [unfold zlen; lia|].
    rewrite <- (line_len_spec r s) in * by (done || lia).
    change (edit_key KEY_END s) with (set_goal (with_cursor (line_start r s + line_len r s) s)).
    split; [done|]. split; [by apply Hcol|]. split; [done|].
    change (text s = text s ∧ cursor_rc (with_cursor (line_start r s + line_len r s) s) = (r, zlen (line r (text s)))).
    split; [done|]. rewrite Ec. by rewrite line_len_spec by (done || lia). }
  destruct (decide (c = KEY_LEFT)) as [->|N7]; [exact (Hset _ _ (left_spec s Hw))|].
  destruct (decide (c = KEY_RIGHT)) as [->|N8]; [exact (Hset _ _ (right_spec s Hw))|].
  destruct (decide (c = KEY_DEL)) as [->|N9].
  { destruct (delete_spec s Hw) as [Hw' Ed]. assert (goal_col (delete_ch s) = goal_col s) as Eg by (unfold delete_ch; by destruct (_ <=? _)).
    split; [exact Hw'|]. split; [change (0 ≤ goal_col (delete_ch s)); by rewrite Eg|]. split; [exact Eg|exact Ed]. }
  destruct (decide (c = NL)) as [->|N10]; [exact (Hset _ _ (insert_ch_spec NL s Hw))|].
  destruct (decide (c = 8)) as [->|N11]; [exact (Hset _ _ (backspace_spec s Hw))|].
  destruct (decide (c = 9)) as [->|N12]; [exact (Hset _ _ (tab_spec s Hw))|].
  unfold edit_key, move_key, keeps_goal, doc_key. rewrite !(proj2 (Z.eqb_neq c _)) by done. cbn [orb].
  destruct (_ && _); cbn [negb]; [exact (Hset _ _ (insert_ch_spec c s Hw))|done].
Qed.
End Keys.

(** ** The screen *)

Definition cell (c : console) (row col : Z) : Z := arr_get (cells c) (row * COLS + col).
Definition screen_ok (c : console) : Prop := zlen (cells c) = COLS * ROWS.
Definition on_screen (row col : Z) : Prop := 0 ≤ row < ROWS ∧ 0 ≤ col < COLS.

(** Only cells of [row] differ. *)
Definition row_only (row : Z) (c c' : console) : Prop :=
  screen_ok c' ∧ ∀ r k, on_screen r k → r ≠ row → cell c' r k = cell c r k.

Lemma row_only_refl row c : screen_ok c → row_only row c c.
Proof. done. Qed.
Lemma row_only_trans row c1 c2 c3 : row_only row c1 c2 → row_only row c2 c3 → row_only row c1 c3.
Proof. intros [_ H1] [Hz H2]. split; [done|]. intros r k Hr Hne. rewrite H2 by done. by apply H1. Qed.

Lemma put_cell_get row col ch attr c r k :
  screen_ok c → on_screen row col → on_screen r k →
  cell (put_cell row col ch attr c) r k = if (r =? row) && (k =? col) then u8 ch ||| (attr <<< 8) else cell c r k.
Proof.
  unfold screen_ok, on_screen, cell, put_cell, COLS, ROWS. intros Hz Hrc Hrk. cbn [set_cell cells].
  destruct (Z.eqb_spec r row) as [->|Hr]; cbn [andb].
  - destruct (Z.eqb_spec k col) as [->|Hk]; [apply arr_get_set_eq; lia|apply arr_get_set_ne; lia].
  - apply arr_get_set_ne. lia.
Qed.

Lemma put_cell_row row col ch attr c : screen_ok c → on_screen row col → row_only row c (put_cell row col ch attr c).
Proof.
  intros Hz Hrc. split; [unfold screen_ok, put_cell; cbn; by rewrite zlen_arr_set|].
  intros r k Hrk Hne. rewrite put_cell_get by done. by rewrite (proj2 (Z.eqb_neq r row)).
Qed.

Lemma put_str_row row col s attr c :
  screen_ok c → 0 ≤ row < ROWS → 0 ≤ col → row_only row c (put_str row col s attr c).
Proof.
  intros Hz Hr. revert col c Hz. induction s as [|ch s IH]; intros col c Hz Hc; cbn [put_str]; [done|].
  destruct (Z.ltb_spec col COLS) as [Hlt|]; [|done].
  assert (row_only row c (put_cell row col ch attr c)) as Hrow by (by apply put_cell_row).
  eapply row_only_trans; [exact Hrow|]. apply IH; [apply Hrow|lia].
Qed.

(** Filling columns [lo .. COLS) of a row with one character. *)
Lemma fill_cells row lo ch attr c :
  screen_ok c → 0 ≤ row < ROWS → 0 ≤ lo ≤ COLS →
  let c' := for_range lo COLS (λ i c, put_cell row i ch attr c) c in
  row_only row c c' ∧ ∀ k, 0 ≤ k < COLS → cell c' row k = if lo <=? k then u8 ch ||| (attr <<< 8) else cell c row k.
Proof.
  intros Hz Hr Hlo c'.
  set (P := λ i c', row_only row c c' ∧ ∀ k, 0 ≤ k < COLS →
    cell c' row k = if (lo <=? k) && (k <? i) then u8 ch ||| (attr <<< 8) else cell c row k).
  assert (P COLS c') as [Hrow Hc].
  { unfold c'. apply (for_range_ind P); [lia| |]; unfold P.
    - split; [done|]. intros k Hk. destruct (Z.leb_spec lo k), (Z.ltb_spec k lo); cbn [andb]; (done || lia).
    - intros i c1 Hi [Hrow Hc]. assert (on_screen row i) as Hon by (unfold on_screen; lia). split.
      + eapply row_only_trans; [exact Hrow|]. apply put_cell_row; [apply Hrow|done].
      + intros k Hk. rewrite put_cell_get; [|apply Hrow|done|unfold on_screen; lia]. rewrite Z.eqb_refl, Hc by done.
        destruct (Z.eqb_spec k i), (Z.leb_spec lo k), (Z.ltb_spec k i), (Z.ltb_spec k (i + 1)); cbn [andb]; (done || lia). }
  split; [done|]. intros k Hk. rewrite Hc by done. rewrite (proj2 (Z.ltb_lt k COLS)), andb_true_r by lia. done.
Qed.

Lemma fill_row_row row ch attr c : screen_ok c → 0 ≤ row < ROWS → row_only row c (fill_row row ch attr c).
Proof. intros Hz Hr. apply (fill_cells row 0 ch attr c Hz Hr). unfold COLS. lia. Qed.

(** A line of text on the screen, blanks behind it. *)
Definition glyph (l : list Z) (col : Z) : Z := u8 (default 32 (l !! Z.to_nat col)) ||| (ATTR_TEXT <<< 8).

Lemma put_line_spec n row t idx col b len c :
  holds_at b idx t → len = idx + zlen t → screen_ok c → 0 ≤ row < ROWS → 0 ≤ col → col + Z.of_nat n = COLS →
  ∃ k c', put_line n row idx col b len c = (idx + k, col + k, c') ∧ k = Z.min (Z.of_nat n) (zlen (first_line t)) ∧
    row_only row c c' ∧ ∀ j, 0 ≤ j < COLS →
      cell c' row j = if (col <=? j) && (j <? col + k) then glyph (first_line t) (j - col) else cell c row j.
Proof.
  revert t idx col c. induction n as [|n IH]; intros t idx col c Hb Hlen Hz Hr Hc Hn; cbn [put_line].
  - exists 0, c. rewrite !Z.add_0_r. split; [done|]. split; [unfold zlen; lia|]. split; [done|].
    intros j Hj. destruct (Z.leb_spec col j), (Z.ltb_spec j col); cbn [andb]; (done || lia).
  - destruct t as [|x t].
    { rewrite (proj2 (Z.ltb_ge idx len)) by (unfold zlen in Hlen; simpl in Hlen; lia). cbn [andb].
      exists 0, c. rewrite !Z.add_0_r. split; [done|]. split; [unfold zlen; cbn [first_line length]; lia|]. split; [done|].
      intros j Hj. destruct (Z.leb_spec col j), (Z.ltb_spec j col); cbn [andb]; (done || lia). }
    pose proof (holds_at_cons _ _ _ _ Hb) as [-> Hb']. assert (len = idx + 1 + zlen t) as Hlen' by (unfold zlen in *; cbn [length] in Hlen; lia).
    rewrite (proj2 (Z.ltb_lt idx len)), (proj2 (Z.ltb_lt col COLS)) by (unfold zlen in *; lia). cbn [andb first_line]. rewrite andb_true_r.
    destruct (x =? NL) eqn:Ex; cbn [negb].
    { exists 0, c. rewrite !Z.add_0_r. split; [done|]. split; [unfold zlen; cbn [length]; lia|]. split; [done|].
      intros j Hj. destruct (Z.leb_spec col j), (Z.ltb_spec j col); cbn [andb]; (done || lia). }
    assert (on_screen row col) as Hon by (unfold on_screen; lia).
    assert (row_only row c (put_cell row col x ATTR_TEXT c)) as Hrow by (by apply put_cell_row).
    destruct (IH t (idx + 1) (col + 1) (put_cell row col x ATTR_TEXT c)) as (k & c' & Ek & Hk & Hrow' & Hc');
      [done|done|apply Hrow|done|lia|lia|].
    exists (k + 1), c'. rewrite Ek. split; [replace (idx + (k + 1)) with (idx + 1 + k) by lia; by replace (col + (k + 1)) with (col + 1 + k) by lia|].
    split; [unfold zlen in *; cbn [length]; lia|]. split; [by eapply row_only_trans|].
    intros j Hj. rewrite Hc' by done. rewrite put_cell_get by (done || (unfold on_screen; lia)). rewrite Z.eqb_refl. cbn [andb].
    destruct (Z.eqb_spec j col) as [->|Hne].
    + rewrite (proj2 (Z.leb_gt (col + 1) col)), (proj2 (Z.leb_le col col)) by lia. cbn [andb].
      rewrite (proj2 (Z.ltb_lt _ _)) by (unfold zlen in *; lia). unfold glyph. by rewrite Z.sub_diag.
    + replace (col <=? j) with (col + 1 <=? j) by (destruct (Z.leb_spec col j), (Z.leb_spec (col + 1) j); (done || lia)).
      replace (j <? col + (k + 1)) with (j <? col + 1 + k) by (f_equal; lia).
      destruct (Z.leb_spec (col + 1) j); cbn [andb]; [|done]. destruct (j <? _); [|done].
      unfold glyph. replace (Z.to_nat (j - col)) with (S (Z.to_nat (j - (col + 1)))) by lia. done.
Qed.

Lemma first_line_drop t k : (k ≤ length (first_line t))%nat → first_line (drop k t) = drop k (first_line t).
Proof.
  revert k. induction t as [|x t IH]; intros k Hk; [by destruct k|]. destruct k; [done|]. cbn [first_line] in *.
  destruct (x =? NL); [simpl in Hk; lia|]. cbn [drop]. apply IH. simpl in Hk. lia.
Qed.

Lemma render_row_spec b len r t idx c :
  holds_at b idx t → len = idx + zlen t → screen_ok c → 0 ≤ r < TEXT_ROWS →
  ∃ idx' c', render_row b len r (idx, c) = (idx', c') ∧
    holds_at b idx' (from_line 1 t) ∧ len = idx' + zlen (from_line 1 t) ∧ row_only (TEXT_TOP + r) c c' ∧
    ∀ j, 0 ≤ j < COLS → cell c' (TEXT_TOP + r) j = glyph (first_line t) j.
Proof.
  intros Hb Hlen Hz Hr. unfold render_row, TEXT_TOP, TEXT_ROWS, ROWS in *.
  destruct (put_line_spec (Z.to_nat COLS) (1 + r) t idx 0 b len c Hb Hlen Hz) as (k & c1 & -> & Hk & Hrow1 & Hc1);
    [unfold ROWS; lia|lia|done|]. rewrite Z.add_0_l. set (fl := first_line t) in *.
  assert (0 ≤ k ≤ COLS ∧ k ≤ zlen fl) as Hk' by (unfold zlen in *; change (Z.of_nat (Z.to_nat COLS)) with COLS in Hk; unfold COLS in *; lia).
  destruct (fill_cells (1 + r) k 32 ATTR_TEXT c1) as [Hrow2 Hc2]; [apply Hrow1|unfold ROWS; lia|lia|].
  set (c2 := for_range k COLS _ c1) in *.
  destruct (first_line_prefix t) as (rest & Et & Hrest). fold fl in Et.
  assert (holds_at b (idx + k) (drop (Z.to_nat k) t)) as Hbk.
  { replace k with (zlen (take (Z.to_nat k) t)) at 1; [apply holds_app; by rewrite take_drop|].
    unfold zlen in *. rewrite length_take, Et, length_app. lia. }
  assert (zlen (drop (Z.to_nat k) t) = zlen t - k) as Ezk.
  { unfold zlen in *. rewrite length_drop, Et, length_app. lia. }
  rewrite (to_eol_holds (drop (Z.to_nat k) t)); [|done|lia|unfold zlen in *; lia].
  rewrite first_line_drop by (fold fl; unfold zlen in *; lia). fold fl.
  assert (idx + k + zlen (drop (Z.to_nat k) fl) = idx + zlen fl) as -> by (unfold zlen in *; rewrite length_drop; lia).
  assert (holds_at b (idx + zlen fl) rest) as Hbr by (apply holds_app; by rewrite <- Et).
  assert (zlen t = zlen fl + zlen rest) as Ezt by (rewrite Et at 1; unfold zlen; rewrite length_app; lia).
  assert (∀ j, 0 ≤ j < COLS → cell c2 (1 + r) j = glyph fl j) as Hcells.
  { intros j Hj. rewrite Hc2 by done. destruct (Z.leb_spec k j) as [Hge|Hlt].
    - unfold glyph. rewrite lookup_ge_None_2; [done|]. unfold zlen in *. change (Z.of_nat (Z.to_nat COLS)) with COLS in Hk. lia.
    - rewrite Hc1 by done. rewrite (proj2 (Z.leb_le 0 j)), (proj2 (Z.ltb_lt _ _)) by lia. cbn [andb]. by rewrite Z.sub_0_r. }
  assert (row_only (1 + r) c c2) as Hrow by (by eapply row_only_trans).
  pose proof (from_line_1 t rest Et) as Ef. destruct Hrest as [->|[rs ->]].
  - rewrite (proj2 (Z.ltb_ge _ len)) by (unfold zlen in *; simpl in *; lia). cbn [andb].
    exists (idx + zlen fl), c2. rewrite Ef. split; [done|]. split; [done|]. split; [lia|done].
  - pose proof (holds_at_cons _ _ _ _ Hbr) as [-> Hbr']. rewrite (proj2 (Z.ltb_lt _ len)) by (unfold zlen in *; simpl in *; lia).
    rewrite Z.eqb_refl. cbn [andb]. exists (idx + zlen fl + 1), c2. rewrite Ef. split; [done|]. split; [done|]. split; [|done].
    unfold zlen in *. cbn [length] in Ezt. lia.
Qed.

Lemma from_line_add a b t : from_line a (from_line b t) = from_line (a + b) t.
Proof.
  revert b t. induction a as [|a IH]; intros b t; [by rewrite from_line_0|].
  rewrite from_line_step, from_line_succ, IH. f_equal. lia.
Qed.

Section Render.
Context {E : Type}.
Implicit Types s : editor E.

Lemma draw_title_row s c : screen_ok c → row_only 0 c (draw_title s c).
Proof.
  intros Hz. assert (0 ≤ 0 < ROWS) as H0 by done. unfold draw_title. cbv zeta.
  pose proof (fill_row_row 0 32 ATTR_TITLE c Hz H0) as H1.
  pose proof (put_str_row 0 1 (str "PumpkinOS edit  -  ") ATTR_TITLE _ (proj1 H1) H0 ltac:(lia)) as H2.
  pose proof (put_str_row 0 20 (fname s) ATTR_TITLE _ (proj1 H2) H0 ltac:(lia)) as H3.
  pose proof (row_only_trans _ _ _ _ (row_only_trans _ _ _ _ H1 H2) H3) as H4.
  destruct (modified s); [|exact H4]. eapply row_only_trans; [exact H4|].
  apply put_str_row; [apply H4|done|unfold zlen; lia].
Qed.

Lemma draw_status_row msg c : screen_ok c → row_only (ROWS - 1) c (draw_status msg c).
Proof.
  intros Hz. assert (0 ≤ ROWS - 1 < ROWS) as H0 by done. unfold draw_status.
  pose proof (fill_row_row (ROWS - 1) 32 ATTR_STATUS c Hz H0) as H1.
  eapply row_only_trans; [exact H1|]. apply put_str_row; [apply H1|done|lia].
Qed.

Lemma scroll_shows cl top : 0 ≤ cl → 0 ≤ top → 0 ≤ scroll cl top ≤ cl ∧ cl < scroll cl top + TEXT_ROWS.
Proof.
  intros Hc Ht. unfold scroll, TEXT_ROWS, ROWS. destruct (Z.ltb_spec cl top).
  - rewrite (proj2 (Z.leb_gt _ _)); lia.
  - destruct (Z.leb_spec (top + (25 - 2)) cl); lia.
Qed.

(** The rows of text, from line [top] on. *)
Lemma rows_spec b t len idx c :
  holds_at b idx t → len = idx + zlen t → screen_ok c →
  let c' := (for_range 0 TEXT_ROWS (λ r ic, render_row b len r ic) (idx, c)).2 in
  screen_ok c' ∧ ∀ r j, 0 ≤ r < TEXT_ROWS → 0 ≤ j < COLS → cell c' (TEXT_TOP + r) j = glyph (first_line (from_line (Z.to_nat r) t)) j.
Proof.
  intros Hb Hlen Hz.
  set (P := λ (r : Z) (ic : Z * console), holds_at b ic.1 (from_line (Z.to_nat r) t) ∧ len = ic.1 + zlen (from_line (Z.to_nat r) t) ∧
    screen_ok ic.2 ∧ ∀ r' j, 0 ≤ r' < r → 0 ≤ j < COLS → cell ic.2 (TEXT_TOP + r') j = glyph (first_line (from_line (Z.to_nat r') t)) j).
  assert (P TEXT_ROWS (for_range 0 TEXT_ROWS (λ r ic, render_row b len r ic) (idx, c))) as (_ & _ & Hok & Hall); [|done].
  apply (for_range_ind P); [done| |]; unfold P.
  - cbn [fst snd]. rewrite from_line_0. split; [done|]. split; [done|]. split; [done|]. lia.
  - intros r [i c1] Hr (Hb1 & Hl1 & Hz1 & Hall). cbn [fst snd] in *.
    destruct (render_row_spec b len r _ i c1 Hb1 Hl1 Hz1 Hr) as (i' & c2 & -> & Hb2 & Hl2 & Hrow & Hcells). cbn [fst snd].
    rewrite from_line_succ in Hb2, Hl2. replace (Z.to_nat (r + 1)) with (S (Z.to_nat r)) by lia.
    split; [done|]. split; [done|]. split; [apply Hrow|]. intros r' j Hr' Hj.
    destruct (Z.eq_dec r' r) as [->|Hne]; [by apply Hcells|].
    rewrite (proj2 Hrow); [apply Hall; lia| |unfold TEXT_TOP; lia]. unfold on_screen, TEXT_TOP, TEXT_ROWS, ROWS in *. lia.
Qed.

(** C36: after a redraw the cursor's line is on the screen with the hardware
    cursor on it, and each of the 23 text rows shows its line of the text from
    the first line shown on: the line's first 80 bytes, blanks behind them, and
    nothing on rows behind the last line.  The text is not touched. *)
Theorem editor_renders s :
  editor_wf s → screen_ok (con s) →
  let s' := render s in let '(cl, cc) := cursor_rc s in
  editor_wf s' ∧ text s' = text s ∧ cursor s' = cursor s ∧ screen_ok (con s') ∧
  0 ≤ top_line s' ≤ cl ∧ cl < top_line s' + TEXT_ROWS ∧
  hw_cursor (con s') = Some ((TEXT_TOP + (cl - top_line s')) * COLS + Z.min cc (COLS - 1)) ∧
  ∀ r col, 0 ≤ r < TEXT_ROWS → 0 ≤ col < COLS →
    cell (con s') (TEXT_TOP + r) col = glyph (line (top_line s' + r) (text s)) col.
Proof.
  intros Hw Hz s'. unfold s', render. pose proof (cursor_rc_spec s Hw) as Erc. destruct (cursor_rc s) as [cl cc] eqn:Ec.
  assert (0 ≤ cl) as Hcl by (injection Erc as -> _; apply nl_nonneg).
  assert (0 ≤ cc) as Hcc.
  { injection Erc as _ ->. unfold col_of. assert (∀ l n, 0 ≤ n → 0 ≤ foldl (λ n x, if x =? NL then 0 else n + 1) n l) as Hf; [|by apply Hf].
    induction l as [|x l IH]; intros n Hn; [done|]. cbn. apply IH. destruct (x =? NL); lia. }
  destruct (scroll_shows cl (top_line s) Hcl) as [Htop Hshow]; [apply Hw|].
  set (top := scroll cl (top_line s)) in *. set (s1 := with_top top s).
  assert (editor_wf s1) as Hw1 by (destruct Hw as (H1 & H2 & H3 & _); exact (conj H1 (conj H2 (conj H3 (proj1 Htop))))).
  pose proof (draw_title_row s1 (con s) Hz) as Htitle.
  change (buf s1) with (buf s). change (len s1) with (len s). change (top_line s1) with top. change (con s1) with (con s).
  destruct (rows_spec (buf s) (from_line (Z.to_nat top) (text s)) (len s) (line_start top s1) (draw_title s1 (con s))) as [Hok Hrows].
  { apply (holds_line top s1 Hw1). lia. }
  { rewrite (line_start_spec top s1 Hw1) by lia. change (text s1) with (text s). change (len s1) with (len s). lia. }
  { apply Htitle. }
  destruct (for_range 0 TEXT_ROWS _ _) as [i c1]. cbn [snd] in Hok, Hrows.
  pose proof (draw_status_row HELP c1 Hok) as Hst.
  pose proof (put_str_row (ROWS - 1) 56 (pos_text (cl + 1) (cc + 1)) ATTR_STATUS _ (proj1 Hst) ltac:(done) ltac:(lia)) as Hpos.
  pose proof (row_only_trans _ _ _ _ Hst Hpos) as Hall. set (c2 := put_str _ _ _ _ _) in *.
  split; [exact Hw1|]. split; [done|]. split; [done|]. split; [apply Hall|]. split; [exact Htop|]. split; [exact Hshow|]. split.
  - replace (if cc <? COLS then cc else COLS - 1) with (Z.min cc (COLS - 1)) by (destruct (Z.ltb_spec cc COLS); lia).
    unfold hw_cursor, set_hw_cursor. cbn [with_con con top_line port_log Console.outb]. change (top_line s1) with top.
    set (p := (TEXT_TOP + (cl - top)) * COLS + Z.min cc (COLS - 1)).
    assert (0 ≤ p < 65536) as Hp by (unfold p, TEXT_TOP, TEXT_ROWS, ROWS, COLS in *; lia).
    rewrite u16_small by (zpow; lia). f_equal. rewrite shiftr_div by lia. zlia.
  - intros r col Hr Hcol. change (cell c2 (TEXT_TOP + r) col = glyph (line (top + r) (text s)) col).
    rewrite (proj2 Hall); [|unfold on_screen, TEXT_TOP, TEXT_ROWS, ROWS in *; lia|unfold TEXT_TOP, TEXT_ROWS, ROWS in *; lia].
    rewrite Hrows by done. rewrite from_line_add. unfold line.
    replace (Z.to_nat r + Z.to_nat top)%nat with (Z.to_nat (top + r)) by lia. done.
Qed.
End Render.

(** ** A session *)

Section Session.
Context {E : Type} `{!Desk E}.
Implicit Types s : editor E.

(** The keyboard delivers [ks] next. *)
Fixpoint types (e : E) (ks : list Z) (e' : E) : Prop :=
  match ks with
  | [] => e = e'
  | k :: ks => ∃ e1 c, d_getchar e = Some (e1, c) ∧ u8 c = k ∧ types e1 ks e'
  end.

(** The editor after some keys, each handled on a fresh screen. *)
Definition typed (ks : list Z) s : editor E := foldl (λ s k, edit_key k (render s)) s ks.

Lemma render_eq s :
  ∃ c, render s = with_con c (with_top (scroll (cursor_rc s).1 (top_line s)) s) ∧ ∀ e, render (with_env e s) = with_env e (render s).
Proof.
  exists (con (render s)). unfold render. change (cursor_rc (with_env _ s)) with (cursor_rc s). destruct (cursor_rc s) as [cl cc]. cbn [fst].
  split.
  - destruct (for_range _ _ _ _). reflexivity.
  - intros e. set (s1 := with_top _ s). change (with_top _ (with_env e s)) with (with_env e s1).
    change (draw_title (with_env e s1) (con (with_env e s1))) with (draw_title s1 (con s1)).
    change (line_start (top_line (with_env e s1)) (with_env e s1)) with (line_start (top_line s1) s1).
    change (buf (with_env e s1)) with (buf s1). change (len (with_env e s1)) with (len s1).
    by destruct (for_range _ _ _ _).
Qed.

Lemma insert_ch_env c s :
  (∀ e, insert_ch c (with_env e s) = with_env e (insert_ch c s)) ∧ env (insert_ch c s) = env s ∧ fname (insert_ch c s) = fname s.
Proof. unfold insert_ch. cbn [with_env len]. by destruct (_ <=? _). Qed.

(** A key does the same whatever keys are still to come. *)
Lemma edit_key_env k s :
  (∀ e, edit_key k (with_env e s) = with_env e (edit_key k s)) ∧ env (edit_key k s) = env s ∧ fname (edit_key k s) = fname s.
Proof.
  unfold edit_key. change (cursor_rc (with_env _ s)) with (cursor_rc s).
  assert (∀ l, (∀ e, goto_line l (with_env e s) = with_env e (goto_line l s)) ∧ env (goto_line l s) = env s ∧ fname (goto_line l s) = fname s) as Hg by done.
  destruct (k =? KEY_LEFT); [cbn [cursor with_env]; by destruct (0 <? cursor s)|].
  destruct (k =? KEY_RIGHT); [cbn [cursor len with_env]; by destruct (cursor s <? len s)|].
  destruct (k =? KEY_UP); [done|]. destruct (k =? KEY_DOWN); [done|]. destruct (k =? KEY_HOME); [done|].
  destruct (k =? KEY_END); [done|]. destruct (k =? KEY_PGUP); [done|]. destruct (k =? KEY_PGDN); [done|].
  destruct (k =? KEY_DEL); [unfold delete_ch; cbn [cursor len with_env]; by destruct (_ <=? _)|].
  destruct (k =? NL); [destruct (insert_ch_env NL s) as (H1 & H2 & H3); split; [intros e; by rewrite H1|done]|].
  destruct (k =? 8); [unfold backspace; cbn [cursor with_env]; by destruct (_ <=? _)|].
  destruct (k =? 9).
  { assert (∀ t : editor E, for_range 0 4 (λ _ s, insert_ch 32 s) t = insert_ch 32 (insert_ch 32 (insert_ch 32 (insert_ch 32 t)))) as H4 by done.
    rewrite H4. destruct (insert_ch_env 32 s) as (Ha & <- & <-). set (s1 := insert_ch 32 s) in *.
    destruct (insert_ch_env 32 s1) as (Hb & <- & <-). set (s2 := insert_ch 32 s1) in *.
    destruct (insert_ch_env 32 s2) as (Hc & <- & <-). set (s3 := insert_ch 32 s2) in *.
    destruct (insert_ch_env 32 s3) as (Hd & <- & <-). split; [|done]. intros e. by rewrite H4, Ha, Hb, Hc, Hd. }
  destruct (_ && _); [destruct (insert_ch_env k s) as (H1 & H2 & H3); split; [intros e; by rewrite H1|done]|done].
Qed.

Lemma typed_env ks s :
  (∀ e, typed ks (with_env e s) = with_env e (typed ks s)) ∧ env (typed ks s) = env s ∧ fname (typed ks s) = fname s.
Proof.
  revert s. induction ks as [|k ks IH]; intros s; [done|]. unfold typed in *. cbn [foldl].
  destruct (render_eq s) as (c & Er & Hr). destruct (edit_key_env k (render s)) as (He & Hn & Hf).
  destruct (IH (edit_key k (render s))) as (H1 & -> & ->). rewrite Hn, Hf. split; [|by rewrite Er].
  intros e. by rewrite Hr, He, H1.
Qed.

Lemma loop_step fuel s k e1 c :
  d_getchar (env s) = Some (e1, c) → u8 c = k → k ≠ 27 →
  editor_loop (S fuel) s = editor_loop fuel (with_env e1 (edit_key k (render s))).
Proof.
  intros Hg Hc Hk. cbn [editor_loop]. unfold io_bind at 1, io_put at 1. unfold io_bind at 1, getchar at 1.
  destruct (render_eq s) as (c' & Er & _). assert (env (render s) = env s) as -> by (by rewrite Er).
  rewrite Hg, Hc, (proj2 (Z.eqb_neq k 27)) by done. unfold io_bind, io_put.
  by rewrite (proj1 (edit_key_env k (render s)) e1).
Qed.

Lemma loop_typed ks e s fuel :
  types (env s) ks e → Forall (λ k, k ≠ 27) ks →
  editor_loop (length ks + fuel) s = editor_loop fuel (with_env e (typed ks s)).
Proof.
  revert s. induction ks as [|k ks IH]; intros s Ht Hk.
  - cbn in Ht. subst e. by destruct s.
  - destruct Ht as (e1 & c & Hg & Hc & Ht). apply Forall_cons in Hk as [Hk Hks]. cbn [length Nat.add].
    rewrite (loop_step _ s k e1 c) by done. rewrite IH by done. unfold typed. cbn [foldl].
    f_equal. fold (typed ks (edit_key k (render s))). fold (typed ks (with_env e1 (edit_key k (render s)))).
    rewrite (proj1 (typed_env ks _)). reflexivity.
Qed.

(** The keys leave a well-formed editor. *)
Lemma typed_wf ks s : editor_wf s → 0 ≤ goal_col s → editor_wf (typed ks s) ∧ 0 ≤ goal_col (typed ks s).
Proof.
  revert s. induction ks as [|k ks IH]; intros s Hw Hg; [done|]. unfold typed in *. cbn [foldl].
  destruct (render_eq s) as (c & Er & _).
  assert (editor_wf (render s)) as Hwr.
  { rewrite Er. pose proof (cursor_rc_spec s Hw) as Ec. pose proof Hw as (H1 & H2 & H3 & H4).
    refine (conj H1 (conj H2 (conj H3 _))). cbn. apply scroll_shows; [rewrite Ec; apply nl_nonneg|done]. }
  destruct (editor_keys k (render s) Hwr) as (Hw' & Hg' & _); [by rewrite Er|]. by apply IH.
Qed.

(** The editor as [editor_run] opens a file that holds [data]. *)
Definition opened (name data : list Z) (e : E) s : editor E :=
  MkEditor e (con s) (data ++ drop (length data) (buf s)) (zlen data) 0 0 0 false (fname_of name).

(** A whole session.  The editor opens the file, handles every key that is
    typed, and on Esc and Y hands the file system exactly the text as edited
    under the file's name, clears the screen and returns; the text it started
    from is the file's contents. *)
Theorem editor_session name data ks e1 e2 e3 r s :
  zlen (buf s) = EDIT_MAX → zlen data ≤ EDIT_MAX → Forall (λ k, k ≠ 27) ks →
  d_fs_read (fname_of name) EDIT_MAX (env s) = (e1, Some data) → types e1 (ks ++ [27; 121]) e2 →
  let s0 := opened name data e1 s in let s1 := typed ks s0 in
  modified s1 = true → d_fs_create (fname_of name) (text s1) e2 = (e3, r) →
  editor_wf s0 ∧ text s0 = data ∧ editor_wf s1 ∧
  ∃ s', editor_run (S (length ks)) name s = Some (s', tt) ∧ env s' = e3 ∧ ∃ c, con s' = console_clear c.
Proof.
  intros Hb Hd Hk Hr Ht s0 s1 Hm Hc.
  assert (editor_wf s0) as Hw0.
  { unfold editor_wf, s0, opened. cbn. unfold zlen in *. rewrite length_app, length_drop. lia. }
  split; [done|]. split.
  { unfold text, s0, opened. cbn. unfold zlen. by rewrite Nat2Z.id, take_app_length. }
  destruct (typed_wf ks s0 Hw0) as [Hw1 _]; [done|]. split; [exact Hw1|].
  assert (∀ l e, types e (l ++ [27; 121]) e2 → ∃ em, types e l em ∧ types em [27; 121] e2) as Hsplit.
  { clear. induction l as [|k l IH]; intros e He; [by exists e|]. destruct He as (e' & c & H1 & H2 & H3).
    destruct (IH e' H3) as (em & H4 & H5). exists em. split; [by exists e', c|done]. }
  destruct (Hsplit ks e1 Ht) as (em & Ht1 & Ht2). clear Hsplit.
  destruct Ht2 as (ea & ca & Ga & Ca & eb & cb & Gb & Cb & Eb). cbn in Eb. subst eb.
  assert (editor_run (S (length ks)) name s = editor_loop (length ks + 1) s0) as ->.
  { unfold editor_run, io_bind at 1, io_put. unfold io_bind. cbn [with_fname fname env]. rewrite Hr. cbn [default from_option id].
    by rewrite Nat.add_1_r. }
  rewrite (loop_typed ks em s0 1) by done. fold s1. cbn [editor_loop]. unfold io_bind at 1, io_put at 1.
  destruct (render_eq (with_env em s1)) as (c1 & Er & _). rewrite Er. unfold io_bind at 1, getchar at 1. cbn [with_con with_top with_env env].
  rewrite Ga, Ca. change (27 =? 27) with true. cbv iota. unfold io_bind at 1, io_get. cbn [with_con with_top with_env modified]. rewrite Hm. cbn [negb].
  unfold io_bind at 1, io_put at 1. unfold io_bind at 1, getchar. cbn [with_con with_top with_env env]. rewrite Gb, Cb.
  change ((121 =? 121) || (121 =? 89)) with true. cbv iota. unfold io_bind, save.
  destruct (typed_env ks s0) as (_ & _ & Ef). fold s1 in Ef.
  cbn [with_con with_top with_env fname len buf env]. rewrite Ef. change (fname s0) with (fname_of name). fold (text s1). rewrite Hc.
  eexists. split; [reflexivity|]. destruct (r =? 0); (split; [done|]); by eexists.
Qed.
End Session.

(** ** A desk with a script of keys and a drawer of files *)

Record desk := MkDesk { keys : list Z; files : list (list Z * list Z) }.

#[export] Instance demo_desk : Desk desk := {|
  d_getchar d := match keys d with k :: ks => Some (MkDesk ks (files d), k) | [] => None end;
  d_fs_read n _ d := (d, match list_find (λ f, f.1 = n) (files d) with Some (_, f) => Some f.2 | None => None end);
  d_fs_create n data d := (MkDesk (keys d) ((n, data) :: files d), 0)
|}.

Definition blank_console : console := MkConsole (replicate 2000 0) 0 0 7 [].

Definition demo_editor (ks : list Z) (t : list Z) (cur : Z) : editor desk :=
  MkEditor (MkDesk ks [(str "A.TXT", str "one")]) blank_console (t ++ replicate (Z.to_nat (EDIT_MAX - zlen t)) 0) (zlen t) cur 0 2 false [].

Lemma demo_editor_wf ks t cur : zlen t ≤ EDIT_MAX → 0 ≤ cur ≤ zlen t → editor_wf (demo_editor ks t cur).
Proof.
  intros Ht Hc. unfold editor_wf, demo_editor. cbn. unfold zlen in *. rewrite length_app, length_replicate. lia.
Qed.

(** Up from the end of "three" goes to the end of "x", a line too short for the
    preferred column. *)
Lemma editor_keys_witness :
  let s := demo_editor [] (str "one" ++ [NL] ++ str "x" ++ [NL] ++ str "three") 11 in
  let s' := edit_key KEY_UP s in
  text s' = text s ∧ cursor_rc s' = (1, 1) ∧ move_key KEY_UP (text s) (cursor_rc s) (goal_col s) = Some (1, 1).
Proof.
  intros s s'. assert (move_key KEY_UP (text s) (cursor_rc s) (goal_col s) = Some (1, 1)) as Em by (vm_compute; reflexivity).
  destruct (editor_keys KEY_UP s) as (_ & _ & _ & Hm); [apply demo_editor_wf; vm_compute; intuition discriminate|done|].
  rewrite Em in Hm. destruct Hm as [Ht Hc]. split; [exact Ht|]. split; [exact Hc|exact Em].
Defined.

Lemma editor_renders_witness :
  let s := demo_editor [] (str "one" ++ [NL] ++ str "two") 5 in
  cell (con (render s)) (TEXT_TOP + 1) 1 = 0x0777 ∧ hw_cursor (con (render s)) = Some 161.
Proof.
  assert (0 ≤ 1 < TEXT_ROWS) as H1 by done. assert (0 ≤ 1 < COLS) as H2 by done.
  intros s. assert (cursor_rc s = (1, 1)) as Ec by (vm_compute; reflexivity).
  pose proof (editor_renders s) as H. rewrite Ec in H.
  destruct H as (_ & _ & _ & _ & _ & _ & Hcur & Hcells); [apply demo_editor_wf; vm_compute; intuition discriminate|vm_compute; reflexivity|].
  assert (glyph (line (top_line (render s) + 1) (text s)) 1 = 0x0777) as Eg by (vm_compute; reflexivity).
  assert ((TEXT_TOP + (1 - top_line (render s))) * COLS + Z.min 1 (COLS - 1) = 161) as Ep by (vm_compute; reflexivity).
  exact (conj (eq_trans (Hcells 1 1 H1 H2) Eg) (eq_trans Hcur (f_equal Some Ep))).
Defined.

(** The file A.TXT gets a "1" in front; the file system is handed "1one". *)
Lemma editor_session_witness :
  ∃ s', editor_run 2 (str "a.txt") (demo_editor [49; 27; 121] [] 0) = Some (s', tt) ∧
    files (env s') = [(str "A.TXT", str "1one"); (str "A.TXT", str "one")].
Proof.
  set (s := demo_editor [49; 27; 121] [] 0). set (e1 := MkDesk [49; 27; 121] [(str "A.TXT", str "one")]).
  set (e2 := MkDesk [] [(str "A.TXT", str "one")]).
  destruct (editor_session (str "a.txt") (str "one") [49] e1 e2
    (MkDesk [] [(str "A.TXT", str "1one"); (str "A.TXT", str "one")]) 0 s) as (_ & _ & _ & s' & E & Ee & _).
  - vm_compute. reflexivity.
  - vm_compute. discriminate.
  - apply Forall_cons. split; [done|]. by apply Forall_nil.
  - vm_compute. reflexivity.
  - eexists _, _. split; [reflexivity|]. split; [reflexivity|]. eexists _, _. split; [reflexivity|]. split; [reflexivity|].
    eexists _, _. split; [reflexivity|]. split; reflexivity.
  - vm_compute. reflexivity.
  - vm_compute. reflexivity.
  - exists s'. split; [exact E|]. by rewrite Ee.
Defined.
