(* ===== verification/Ata.v ===== *)
(** The hard disk driver: drivers/ata.c.  The channels and the drives are hardware
    and a parameter: what the driver relies on of them is stated as the laws of
    the class [Ide], by the abstract task file [chan] of the ATA standard. *)
From Stdlib Require Import ZArith Lia Bool.
From stdpp Require Import base numbers gmap option list.
From S2P Require Import Prelude Block Io.

#[local] Open Scope Z_scope.
#[local] Open Scope c_scope.
#[local] Open Scope io_scope.

Definition ATA_MAX_DRIVES : Z := 4.
Definition ATA_SECTOR_SIZE : Z := 512.
Definition PRI_BASE : Z := 0x1F0.
Definition PRI_CTRL : Z := 0x3F6.
Definition SEC_BASE : Z := 0x170.
Definition SEC_CTRL : Z := 0x376.
Definition REG_DATA : Z := 0.
Definition REG_FEATURES : Z := 1.
Definition REG_SECCOUNT : Z := 2.
Definition REG_LBA0 : Z := 3.
Definition REG_LBA1 : Z := 4.
Definition REG_LBA2 : Z := 5.
Definition REG_HDDEVSEL : Z := 6.
Definition REG_STATUS : Z := 7.
Definition REG_COMMAND : Z := 7.
Definition ST_ERR : Z := 0x01.
Definition ST_DRQ : Z := 0x08.
Definition ST_DF : Z := 0x20.
Definition ST_BSY : Z := 0x80.
Definition CMD_READ_PIO : Z := 0x20.
Definition CMD_WRITE_PIO : Z := 0x30.
Definition CMD_CACHE_FLUSH : Z := 0xE7.
Definition CMD_IDENTIFY : Z := 0xEC.

(** [d_model] has 41 bytes. *)
Record ata_drive := AtaDrive { d_present : Z; d_channel : Z; d_slave : Z; d_sectors : Z; d_model : list Z }.
Definition no_drive : ata_drive := AtaDrive 0 0 0 0 (replicate 41 0).

(** The module's statics and the machine. *)
Record ata (H : Type) := MkAta { at_hw : H; drives : list ata_drive; drive_count : Z }.
Arguments MkAta {H}. Arguments at_hw {H}. Arguments drives {H}. Arguments drive_count {H}.

#[export] Instance ata_has_hw {H} : HasHw (ata H) H.
Proof. refine {| get_hw := at_hw; set_hw h s := MkAta h (drives s) (drive_count s) |}. done. Defined.

Section Driver.
Context {H : Type} `{Ports H}.
Abbreviation M := (IO (ata H)).

Definition channel_base (channel : Z) : Z := if c_true channel then SEC_BASE else PRI_BASE.
Definition channel_ctrl (channel : Z) : Z := if c_true channel then SEC_CTRL else PRI_CTRL.

Definition ata_delay (channel : Z) : M unit :=
  let ctrl := channel_ctrl channel in
  io_for 4 0 (λ _, inb ctrl ;! io_ret tt).

(** [for (i = 0; i < n; i++)]: 4000000 in the source. *)
Fixpoint wait_not_busy_loop (n : nat) (base status : Z) : M Z :=
  match n with
  | O => io_ret status
  | S n =>
      let! status := inb (base + REG_STATUS) in
      if negb (c_true (status &&& ST_BSY)) then io_ret status else wait_not_busy_loop n base status
  end.
Definition wait_not_busy (base : Z) : M Z := wait_not_busy_loop (Z.to_nat 4000000) base 0.

Fixpoint wait_drq_loop (n : nat) (base : Z) : M Z :=
  match n with
  | O => io_ret (-1)
  | S n =>
      let! status := inb (base + REG_STATUS) in
      if c_true (status &&& (ST_ERR ||| ST_DF)) then io_ret (-1)
      else if negb (c_true (status &&& ST_BSY)) && c_true (status &&& ST_DRQ) then io_ret 0
      else wait_drq_loop n base
  end.
Definition wait_drq : Z → M Z := wait_drq_loop (Z.to_nat 4000000).

Definition select_drive (channel slave : Z) : M unit :=
  let base := channel_base channel in
  outb (base + REG_HDDEVSEL) (if c_true slave then 0xB0 else 0xA0) ;!
  ata_delay channel.

(** [n] words from the data register. *)
Fixpoint read_words (n : nat) (base : Z) : M (list Z) :=
  match n with
  | O => io_ret []
  | S n => let! w := inw (base + REG_DATA) in let! ws := read_words n base in io_ret (w :: ws)
  end.

(** The model string: each word has its high byte first. *)
Definition model_bytes (id : list Z) : list Z :=
  flat_map (λ i, [u8 (arr_get id (27 + i) >>> 8); u8 (arr_get id (27 + i) &&& 0xFF)]) (seqZ 0 20) ++ [0].

(** [for (i = n - 1; i >= 0 && model[i] == ' '; i--) model[i] = 0;] *)
Fixpoint trim (n : nat) (model : list Z) : list Z :=
  match n with
  | O => model
  | S n => if arr_get model (Z.of_nat n) =? 32 then trim n (arr_set model (Z.of_nat n) 0) else model
  end.

(** From the first look at the status on: the result, and [*d] afterwards. *)
Definition identify_answer (channel slave : Z) (d : ata_drive) : M (Z * ata_drive) :=
  let base := channel_base channel in
  let! status := inb (base + REG_STATUS) in
  if (status =? 0) || (status =? 0xFF) then io_ret (0, d)
  else
    let! status := wait_not_busy base in
    if c_true (status &&& ST_BSY) then io_ret (0, d)
    else
      let! mid := inb (base + REG_LBA1) in
      let! bad := (if negb (mid =? 0) then io_ret true else let! high := inb (base + REG_LBA2) in io_ret (negb (high =? 0))) in
      if (bad : bool) then io_ret (0, d)
      else
        let! r := wait_drq base in
        if negb (r =? 0) then io_ret (0, d)
        else
          let! id := read_words 256 base in
          io_ret (1, AtaDrive 1 channel slave (arr_get id 60 ||| u32 (arr_get id 61 <<< 16)) (trim 40 (model_bytes id))).

Definition identify (channel slave : Z) (d : ata_drive) : M (Z * ata_drive) :=
  let base := channel_base channel in
  select_drive channel slave ;!
  outb (base + REG_SECCOUNT) 0 ;!
  outb (base + REG_LBA0) 0 ;!
  outb (base + REG_LBA1) 0 ;!
  outb (base + REG_LBA2) 0 ;!
  outb (base + REG_COMMAND) CMD_IDENTIFY ;!
  ata_delay channel ;!
  identify_answer channel slave d.

(** The body of the loops. *)
Definition probe (channel slave : Z) : M unit :=
  let! r := identify channel slave no_drive in
  if c_true r.1 then io_put (λ s, MkAta (at_hw s) (<[Z.to_nat (drive_count s) := r.2]> (drives s)) (drive_count s + 1))
  else io_ret tt.
Definition ata_init : M unit :=
  io_put (λ s, MkAta (at_hw s) (replicate (Z.to_nat ATA_MAX_DRIVES) no_drive) 0) ;!
  io_for 2 0 (λ channel, io_for 2 0 (probe channel)).

Definition ata_drive_count (s : ata H) : Z := drive_count s.

(** [None]: NULL *)
Definition ata_get_drive (index : Z) (s : ata H) : option ata_drive :=
  if (index <? 0) || (drive_count s <=? index) then None else Some (nth (Z.to_nat index) (drives s) no_drive).

(** The channel's base, or 0. *)
Definition setup_transfer (index lba count : Z) : M Z :=
  let! s := io_get in
  match ata_get_drive index s with
  | None => io_ret 0
  | Some d =>
      if (d_sectors d <? u32 (lba + count)) || (u32 (lba + count) <? lba) then io_ret 0
      else
        let base := channel_base (d_channel d) in
        let! status := wait_not_busy base in
        if c_true (status &&& ST_BSY) then io_ret 0
        else
          outb (base + REG_HDDEVSEL) (u8 ((if c_true (d_slave d) then 0xF0 else 0xE0) ||| ((lba >>> 24) &&& 0x0F))) ;!
          ata_delay (d_channel d) ;!
          outb (base + REG_FEATURES) 0 ;!
          outb (base + REG_SECCOUNT) count ;!
          outb (base + REG_LBA0) (u8 (lba &&& 0xFF)) ;!
          outb (base + REG_LBA1) (u8 ((lba >>> 8) &&& 0xFF)) ;!
          outb (base + REG_LBA2) (u8 ((lba >>> 16) &&& 0xFF)) ;!
          io_ret base
  end.

(** The channel of [drives[index]]. *)
Definition channel_at (index : Z) (s : ata H) : Z := d_channel (nth (Z.to_nat index) (drives s) no_drive).

Definition word_bytes (w : Z) : list Z := [u8 w; u8 (w >>> 8)].

(** [n] sectors more; the result and the bytes stored. *)
Fixpoint read_loop (n : nat) (index base : Z) : M (Z * list Z) :=
  match n with
  | O => io_ret (0, [])
  | S n =>
      let! r := wait_drq base in
      if negb (r =? 0) then io_ret (-1, [])
      else
        let! ws := read_words (Z.to_nat (ATA_SECTOR_SIZE / 2)) base in
        let! s := io_get in
        ata_delay (if 0 <=? index then channel_at index s else 0) ;!
        let! rest := read_loop n index base in
        io_ret (rest.1, flat_map word_bytes ws ++ rest.2)
  end.

(** The result, and what has been stored from [buf] on. *)
Definition ata_read_sectors (index lba count : Z) : M (Z * list Z) :=
  let! base := setup_transfer index lba count in
  if base =? 0 then io_ret (-1, [])
  else outb (base + REG_COMMAND) CMD_READ_PIO ;! read_loop (Z.to_nat count) index base.

(** [outw] of the words at [buf], from word [i] on, [n] of them. *)
Definition write_words (n : nat) (base i : Z) (buf : list Z) : M unit :=
  io_for n i (λ k, outw (base + REG_DATA) (arr_get buf (2 * k) ||| (arr_get buf (2 * k + 1) <<< 8))).

Fixpoint write_loop (n : nat) (index base i : Z) (buf : list Z) : M Z :=
  match n with
  | O => io_ret 0
  | S n =>
      let! r := wait_drq base in
      if negb (r =? 0) then io_ret (-1)
      else
        write_words (Z.to_nat (ATA_SECTOR_SIZE / 2)) base i buf ;!
        let! s := io_get in
        ata_delay (channel_at index s) ;!
        write_loop n index base (i + ATA_SECTOR_SIZE / 2) buf
  end.

(** [ata_write_sectors] up to the flush: [None] for the returns of -1, or the base. *)
Definition send_sectors (index lba count : Z) (buf : list Z) : M (option Z) :=
  let! base := setup_transfer index lba count in
  if base =? 0 then io_ret None
  else
    outb (base + REG_COMMAND) CMD_WRITE_PIO ;!
    let! r := write_loop (Z.to_nat count) index base 0 buf in
    if negb (r =? 0) then io_ret None else io_ret (Some base).
(** "Flush the drive's write cache". *)
Definition flush_cache (base : Z) : M Z :=
  outb (base + REG_COMMAND) CMD_CACHE_FLUSH ;!
  let! status := wait_not_busy base in
  if c_true (status &&& ST_BSY) then io_ret (-1) else io_ret 0.
Definition ata_write_sectors (index lba count : Z) (buf : list Z) : M Z :=
  let! sent := send_sectors index lba count buf in
  match sent with None => io_ret (-1) | Some base => flush_cache base end.
End Driver.

(** ** The channels and the drives

    The task file of one channel, with a device at each place: nothing, a packet
    device, or a disk with its identification words and its sectors.  A disk that
    has given up on a command is in the phase [Failed] until the next one. *)
Inductive device := Absent | Packet | Disk (id : list Z) (sector : Z → list Z).
Inductive phase :=
  | Idle
  | DataIn (ws : list Z) (next : list (list Z))
  | DataOut (lba : Z) (left : nat) (got : list Z)
  | Failed.
Record chan := Chan { ch_dev : Z; ch_count : Z; ch_lba0 : Z; ch_lba1 : Z; ch_lba2 : Z; ch_phase : phase; ch_at : bool → device }.

Definition with_phase (p : phase) (c : chan) : chan := Chan (ch_dev c) (ch_count c) (ch_lba0 c) (ch_lba1 c) (ch_lba2 c) p (ch_at c).
Definition slave_sel (c : chan) : bool := Z.testbit (ch_dev c) 4.
Definition selected (c : chan) : device := ch_at c (slave_sel c).
Definition lba_regs (c : chan) : Z := ch_lba0 c + 256 * ch_lba1 c + 65536 * ch_lba2 c + 16777216 * (ch_dev c mod 16).
Definition sectors_for (count : Z) : nat := Z.to_nat (if count =? 0 then 256 else count).
(** Ready for a command. *)
Definition resting (c : chan) : Prop := ch_phase c = Idle ∨ ch_phase c = Failed.

Fixpoint words (l : list Z) : list Z :=
  match l with a :: b :: l => a + 256 * b :: words l | _ => [] end.
Definition sector_bytes (w : Z) : list Z := [w mod 256; w / 256 mod 256].
Definition blocks (sector : Z → list Z) (lba : Z) (n : nat) : list (list Z) := map (λ i, words (sector (lba + Z.of_nat i))) (seq 0 n).
Definition start_in (l : list (list Z)) : phase := match l with [] => Idle | b :: l => DataIn b l end.

(** A byte written to register [r] of an idle task file; commands are executed: 0xEC
    identifies the device, 0x20 reads sectors and 0x30 writes them. *)
Definition task_out (r v : Z) (c : chan) : chan :=
  match r with
  | 2 => Chan (ch_dev c) v (ch_lba0 c) (ch_lba1 c) (ch_lba2 c) (ch_phase c) (ch_at c)
  | 3 => Chan (ch_dev c) (ch_count c) v (ch_lba1 c) (ch_lba2 c) (ch_phase c) (ch_at c)
  | 4 => Chan (ch_dev c) (ch_count c) (ch_lba0 c) v (ch_lba2 c) (ch_phase c) (ch_at c)
  | 5 => Chan (ch_dev c) (ch_count c) (ch_lba0 c) (ch_lba1 c) v (ch_phase c) (ch_at c)
  | 6 => Chan v (ch_count c) (ch_lba0 c) (ch_lba1 c) (ch_lba2 c) (ch_phase c) (ch_at c)
  | 7 =>
      match selected c with
      | Absent => c
      | Packet => if v =? 0xEC then Chan (ch_dev c) (ch_count c) (ch_lba0 c) 0x14 0xEB Idle (ch_at c) else c
      | Disk id sector =>
          if v =? 0xEC then with_phase (DataIn id []) c
          else if v =? 0x20 then with_phase (start_in (blocks sector (lba_regs c) (sectors_for (ch_count c)))) c
          else if v =? 0x30 then with_phase (DataOut (lba_regs c) (sectors_for (ch_count c)) []) c
          else with_phase Idle c
      end
  | _ => c
  end.

(** A word taken from the data register, or put into it: a sector is on the disk
    when its last word has come. *)
Definition data_in (ws : list Z) (next : list (list Z)) (c : chan) : chan :=
  with_phase (match ws with [] => start_in next | _ => DataIn ws next end) c.
Definition store (lba : Z) (data : list Z) (c : chan) : chan :=
  Chan (ch_dev c) (ch_count c) (ch_lba0 c) (ch_lba1 c) (ch_lba2 c) (ch_phase c)
    (λ b, if Bool.eqb b (slave_sel c) then match ch_at c b with Disk id f => Disk id (λ l, if l =? lba then data else f l) | d => d end else ch_at c b).
Definition data_out (lba : Z) (left : nat) (got : list Z) (w : Z) (c : chan) : chan :=
  let got := got ++ sector_bytes w in
  if (length got <? 512)%nat then with_phase (DataOut lba left got) c
  else with_phase (match left with S (S n) => DataOut (lba + 1) (S n) [] | _ => Idle end) (store lba got c).

(** What the status register tells when the device is not busy (bit 7): whether it
    has or wants data (bit 3), and whether it has failed (bit 0, or bit 5).  A bus
    without a device reads as 0 or, floating, as 0xFF. *)
Definition status_ok (c : chan) (v : Z) : Prop :=
  match selected c with
  | Absent => v = 0 ∨ v = 0xFF ∧ ch_at c false = Absent
  | Packet => v &&& 0x80 = 0
  | Disk _ _ =>
      match ch_phase c with
      | Idle => v &&& 0x80 = 0
      | DataIn _ _ | DataOut _ _ _ => v &&& 0xA9 = 0x08
      | Failed => v &&& 0x80 = 0 ∧ v &&& 0x21 ≠ 0
      end
  end.

(** The first port of a channel's task file, and its control port. *)
Definition base_of (b : bool) : Z := if b then 0x170 else 0x1F0.
Definition ctrl_of (b : bool) : Z := if b then 0x376 else 0x3F6.

(** The task file protocol.  [ide_busy] counts the status reads until a channel is
    done with a command or a sector, which is within the driver's patience
    ([ide_bound]).  While it is busy no bit of the status but bit 7 means anything;
    nothing is promised of registers that are written then, nor of the data
    register outside a transfer.  Any read or write may fail, at any of its sectors,
    and a sector whose writing fails may hold anything afterwards; only
    identification always succeeds. *)
Class Ide (H : Type) `{Ports H} := {
  ide_ok : H → Prop;
  ide_view : H → bool → chan;
  ide_busy : H → bool → nat;
  ide_bound h b : ide_ok h → Z.of_nat (ide_busy h b) < 3999990;

  ide_out h b r v : ide_ok h → ide_busy h b = 0%nat → resting (ide_view h b) → 1 ≤ r ≤ 7 → 0 ≤ v < 256 →
    let h' := p_out 1 (base_of b + r) v h in
    ide_ok h' ∧
    (ide_view h' b = task_out r v (ide_view h b) ∨
     r = 7 ∧ v ≠ 0xEC ∧ (∃ id f, selected (ide_view h b) = Disk id f) ∧ ide_view h' b = with_phase Failed (ide_view h b)) ∧
    ide_view h' (negb b) = ide_view h (negb b) ∧
    ide_busy h' (negb b) = ide_busy h (negb b) ∧ (r ≠ 7 ∨ selected (ide_view h b) = Absent → ide_busy h' b = 0%nat);
  ide_status h b : ide_ok h →
    let '(h', v) := p_in 1 (base_of b + 7) h in
    ide_ok h' ∧ (∀ c, ide_view h' c = ide_view h c) ∧ ide_busy h' (negb b) = ide_busy h (negb b) ∧
    match ide_busy h b with
    | O => ide_busy h' b = 0%nat ∧ status_ok (ide_view h b) v
    | S n => ide_busy h' b = n ∧ v &&& 0x80 = 0x80 ∧ v ≠ 0xFF
    end;
  ide_delay h b : ide_ok h →
    let '(h', _) := p_in 1 (ctrl_of b) h in
    ide_ok h' ∧ (∀ c, ide_view h' c = ide_view h c) ∧ ide_busy h' (negb b) = ide_busy h (negb b) ∧
    ide_busy h' b = pred (ide_busy h b);
  ide_signature h b r : ide_ok h → ide_busy h b = 0%nat → r = 4 ∨ r = 5 →
    let '(h', v) := p_in 1 (base_of b + r) h in
    ide_ok h' ∧ (∀ c, ide_view h' c = ide_view h c) ∧ (∀ c, ide_busy h' c = ide_busy h c) ∧
    (selected (ide_view h b) ≠ Absent → v = if r =? 4 then ch_lba1 (ide_view h b) else ch_lba2 (ide_view h b));
  ide_in h b w ws next : ide_ok h → ide_busy h b = 0%nat → ch_phase (ide_view h b) = DataIn (w :: ws) next →
    let '(h', v) := p_in 2 (base_of b) h in
    ide_ok h' ∧ v = w ∧
    (ide_view h' b = data_in ws next (ide_view h b) ∨ ws = [] ∧ next ≠ [] ∧ ide_view h' b = with_phase Failed (ide_view h b)) ∧
    ide_view h' (negb b) = ide_view h (negb b) ∧
    ide_busy h' (negb b) = ide_busy h (negb b) ∧ (ws ≠ [] ∨ next = [] → ide_busy h' b = 0%nat);
  ide_out_data h b lba left got w : ide_ok h → ide_busy h b = 0%nat → ch_phase (ide_view h b) = DataOut lba left got → 0 ≤ w < 65536 →
    let h' := p_out 2 (base_of b) w h in
    ide_ok h' ∧
    (ide_view h' b = data_out lba left got w (ide_view h b) ∨
     length (got ++ sector_bytes w) = 512%nat ∧ ∃ data, is_sector data ∧ ide_view h' b = with_phase Failed (store lba data (ide_view h b))) ∧
    ide_view h' (negb b) = ide_view h (negb b) ∧
    ide_busy h' (negb b) = ide_busy h (negb b) ∧
    ((length (got ++ sector_bytes w) < 512)%nat → ide_busy h' b = 0%nat)
}.
