(* ===== verification/AtaThm.v ===== *)
(** The hard disk driver of [Ata.v] on a machine with the laws of [Ata.Ide]: it
    finds exactly the disks that are there, reads and writes their sectors, and
    refuses what is out of range. *)
From Stdlib Require Import ZArith Lia Bool.
From stdpp Require Import base numbers gmap option list.
From S2P Require Import Prelude Block Io Ata.

#[local] Open Scope Z_scope.
#[local] Open Scope c_scope.
#[local] Open Scope io_scope.

Section Proofs.
Context {H : Type} `{Ports H} `{!Ide H}.
Implicit Types s : ata H.

(** Channel [b] is [c] and busy for [n] reads, the other is [o] and idle. *)
Record holds (b : bool) (c o : chan) (n : nat) (ds : list ata_drive) (k : Z) s : Prop := {
  ho_ok : ide_ok (at_hw s);
  ho_view : ide_view (at_hw s) b = c;
  ho_other : ide_view (at_hw s) (negb b) = o;
  ho_busy : ide_busy (at_hw s) b = n;
  ho_quiet : ide_busy (at_hw s) (negb b) = 0%nat;
  ho_drives : drives s = ds;
  ho_count : drive_count s = k
}.

Lemma task_hw b c o n ds k s c' n' h :
  holds b c o n ds k s → ide_ok h → ide_view h b = c' → ide_view h (negb b) = ide_view (at_hw s) (negb b) → ide_busy h b = n' →
  ide_busy h (negb b) = ide_busy (at_hw s) (negb b) → holds b c' o n' ds k (set_hw h s).
Proof. intros [Ok Hv Ho Hb Hq Hd Hk] K1 K2 K3 K4 K5. split; try done; cbn; congruence. Qed.

Lemma holds_swap b c o ds k s : holds b c o 0 ds k s → holds (negb b) o c 0 ds k s.
Proof. intros []. split; rewrite ?negb_involutive; done. Qed.

Lemma base_small b r : 0 ≤ r ≤ 7 → u16 (base_of b + r) = base_of b + r.
Proof. intros Hr. apply u16_small. destruct b; unfold base_of; lia. Qed.

Lemma out_holds b r v c o ds k s :
  holds b c o 0 ds k s → resting c → 1 ≤ r ≤ 7 → 0 ≤ v < 256 →
  iwp (outb (base_of b + r) v) (λ s' _, ∃ c' n, holds b c' o n ds k s' ∧ (r ≠ 7 ∨ selected c = Absent → n = 0%nat) ∧
    (c' = task_out r v c ∨ r = 7 ∧ v ≠ 0xEC ∧ (∃ id f, selected c = Disk id f) ∧ c' = with_phase Failed c)) s.
Proof.
  intros Hs Hi Hr Hv8. pose proof Hs as [Ok Hv Ho Hb Hq Hd Hk]. unfold outb, out_port. rewrite base_small, u8_small by lia. apply iwp_put.
  rewrite <- Hv in Hi. destruct (ide_out (at_hw s) b r v Ok Hb Hi Hr Hv8) as (K1 & K2 & K3 & K4 & K5).
  do 2 eexists. split; [eapply task_hw; [exact Hs|exact K1|reflexivity|exact K3|reflexivity|exact K4]|]. rewrite <- Hv. by split.
Qed.

Lemma reg_holds b r v c o ds k s :
  holds b c o 0 ds k s → resting c → 1 ≤ r ≤ 6 → 0 ≤ v < 256 →
  iwp (outb (base_of b + r) v) (λ s' _, holds b (task_out r v c) o 0 ds k s') s.
Proof.
  intros Hs Hi Hr Hv. eapply iwp_mono; [apply (out_holds b r v); [exact Hs|done|lia|done]|]. intros s' _ (c' & n & Hn & E & Hc).
  rewrite E in Hn by lia. destruct Hc as [->|(? & _)]; [done|lia].
Qed.

Lemma resting_reg r v c : 1 ≤ r ≤ 6 → resting c → resting (task_out r v c).
Proof.
  intros Hr Hc. assert (r = 1 ∨ r = 2 ∨ r = 3 ∨ r = 4 ∨ r = 5 ∨ r = 6) as [->|[->|[->|[->|[->| ->]]]]] by lia; exact Hc.
Qed.

Lemma delay_holds b ch c o n ds k s : c_true ch = b → holds b c o n ds k s → iwp (ata_delay ch) (λ s' _, holds b c o (n - 4) ds k s') s.
Proof.
  intros Ech Hs. unfold ata_delay. assert (channel_ctrl ch = ctrl_of b) as -> by (unfold channel_ctrl; by rewrite Ech).
  assert (∀ i m s n, holds b c o n ds k s → iwp (io_for m i (λ _, inb (ctrl_of b);! io_ret ())) (λ s' _, holds b c o (n - m) ds k s') s) as Hfor; [|by apply Hfor].
  clear. intros i m. revert i. induction m as [|m IH]; intros i s n Hs; [apply iwp_ret; by rewrite Nat.sub_0_r|].
  cbn [io_for]. apply iwp_bind, iwp_bind. pose proof Hs as [Ok Hv Ho Hb Hq Hd Hk]. pose proof (ide_delay (at_hw s) b Ok) as Hi.
  destruct (p_in 1 (ctrl_of b) (at_hw s)) as [h v] eqn:Ei. destruct Hi as (K1 & K2 & K3 & K4). exists (set_hw h s), v. split.
  { unfold inb, in_port. rewrite u16_small by (destruct b; unfold ctrl_of; lia). change (get_hw s) with (at_hw s). by rewrite Ei. }
  apply iwp_ret.
  replace (n - S m)%nat with (pred n - m)%nat by lia. apply IH. eapply task_hw; [exact Hs|done|by rewrite K2|apply K2|congruence|done].
Qed.

(** A status read. *)
Lemma task_status b c o n ds k s :
  holds b c o n ds k s →
  ∃ s' v, inb (base_of b + 7) s = Some (s', v) ∧
    match n with O => holds b c o 0 ds k s' ∧ status_ok c v | S n => holds b c o n ds k s' ∧ v &&& 0x80 = 0x80 ∧ v ≠ 0xFF end.
Proof.
  intros Hs. pose proof Hs as [Ok Hv Ho Hb Hq Hd Hk]. pose proof (ide_status (at_hw s) b Ok) as Hi. unfold inb, in_port. change (get_hw s) with (at_hw s). rewrite base_small by lia.
  destruct (p_in 1 (base_of b + 7) (at_hw s)) as [h v]. destruct Hi as (K1 & K2 & K3 & K4). exists (set_hw h s), v. split; [done|].
  rewrite Hb in K4. destruct n; destruct K4 as [K4 K5]; (split; [eapply task_hw; [exact Hs|done|by rewrite K2|apply K2|congruence|done]|]); [by rewrite <- Hv|done].
Qed.

Lemma masked_bits v m x : v &&& m = x → (∀ y, m &&& y = y → v &&& y = x &&& y).
Proof. intros <- y E. by rewrite <- Z.land_assoc, E. Qed.

Lemma busy_bits v : v &&& 0x80 = 0x80 → c_true (v &&& ST_BSY) = true ∧ v ≠ 0.
Proof. intros E. unfold ST_BSY. rewrite E. split; [done|]. intros ->. done. Qed.

Lemma data_bits v : v &&& 0xA9 = 0x08 →
  c_true (v &&& ST_BSY) = false ∧ c_true (v &&& (ST_ERR ||| ST_DF)) = false ∧ c_true (v &&& ST_DRQ) = true ∧ v ≠ 0 ∧ v ≠ 0xFF.
Proof.
  intros E. rewrite (masked_bits _ _ _ E ST_BSY), (masked_bits _ _ _ E (ST_ERR ||| ST_DF)), (masked_bits _ _ _ E ST_DRQ) by done.
  split_and!; try done; intros ->; done.
Qed.

(** The selected device does not look busy when it is not. *)
Definition answers (c : chan) : Prop := selected c = Absent → ch_at c false ≠ Absent.

Lemma status_quiet c v : answers c → status_ok c v → c_true (v &&& ST_BSY) = false.
Proof.
  unfold answers, status_ok. intros Ha Hs. destruct (selected c) as [| |id f].
  - destruct Hs as [-> | [_ E]]; [done|by destruct (Ha eq_refl)].
  - unfold ST_BSY. by rewrite Hs.
  - unfold ST_BSY. destruct (ch_phase c); [by rewrite Hs|by destruct (data_bits v Hs)..|by rewrite (proj1 Hs)].
Qed.

Lemma wait_not_busy_holds b c o n ds k s :
  holds b c o n ds k s → answers c → iwp (wait_not_busy (base_of b)) (λ s' v, holds b c o 0 ds k s' ∧ status_ok c v ∧ c_true (v &&& ST_BSY) = false) s.
Proof.
  intros Hs Ha. unfold wait_not_busy. assert ((n < Z.to_nat 4000000)%nat) as Hn.
  { pose proof (ide_bound _ b (ho_ok _ _ _ _ _ _ _ Hs)) as Hb. rewrite (ho_busy _ _ _ _ _ _ _ Hs) in Hb. lia. }
  revert Hn. generalize (Z.to_nat 4000000) 0. intros m. revert n s Hs. induction m as [|m IH]; intros n s Hs x Hn; [lia|].
  cbn [wait_not_busy_loop]. apply iwp_bind. destruct (task_status b c o n ds k s Hs) as (s1 & v & E & Hv). exists s1, v. split; [exact E|].
  destruct n as [|n]; destruct Hv as [H1 H2].
  - rewrite (status_quiet c v Ha H2). cbn [negb]. apply iwp_ret. split_and!; [done|done|by eapply status_quiet].
  - rewrite (proj1 (busy_bits v (proj1 H2))). cbn [negb]. apply (IH n); [done|lia].
Qed.

(** A wait for data: it is there, or the result is -1 and nothing is known of what
    the channel is doing. *)
Lemma wait_drq_holds b c o n ds k s id f :
  holds b c o n ds k s → selected c = Disk id f → ch_phase c ≠ Idle →
  iwp (wait_drq (base_of b)) (λ s' v, v = 0 ∧ ch_phase c ≠ Failed ∧ holds b c o 0 ds k s' ∨ v = -1 ∧ ∃ n', holds b c o n' ds k s') s.
Proof.
  intros Hs Hd Hp. unfold wait_drq. generalize (Z.to_nat 4000000). intros m. revert n s Hs. induction m as [|m IH]; intros n s Hs.
  { apply iwp_ret. right. split; [done|]. by exists n. }
  cbn [wait_drq_loop]. apply iwp_bind. destruct (task_status b c o n ds k s Hs) as (s1 & v & E & Hv). exists s1, v. split; [exact E|].
  destruct (c_true (v &&& (ST_ERR ||| ST_DF))) eqn:Eerr.
  { apply iwp_ret. right. split; [done|]. destruct n; destruct Hv; eauto. }
  destruct n as [|n]; destruct Hv as [H1 H2].
  - unfold status_ok in H2. rewrite Hd in H2. destruct (ch_phase c) eqn:Ep; [done| | |].
    1,2: destruct (data_bits v H2) as (B1 & _ & B3 & _); rewrite B1, B3; apply iwp_ret; by left.
    exfalso. destruct H2 as [_ H2]. change (ST_ERR ||| ST_DF) with 0x21 in Eerr. unfold c_true in Eerr. by apply negb_false_iff, Z.eqb_eq in Eerr.
  - destruct H2 as [H2 _]. rewrite (proj1 (busy_bits v H2)). cbn [negb andb]. by apply (IH n).
Qed.

(** An idle channel with data to give. *)
Lemma wait_drq_ready b c o ds k s id f ws next :
  holds b c o 0 ds k s → selected c = Disk id f → ch_phase c = DataIn ws next → iwp (wait_drq (base_of b)) (λ s' v, v = 0 ∧ holds b c o 0 ds k s') s.
Proof.
  intros Hs Hd Hp. unfold wait_drq. assert (∃ m, Z.to_nat 4000000 = S m) as [m ->] by (exists (Z.to_nat 3999999); lia). cbn [wait_drq_loop].
  apply iwp_bind. destruct (task_status b c o 0 ds k s Hs) as (s1 & v & E & H1 & H2). exists s1, v. split; [exact E|].
  unfold status_ok in H2. rewrite Hd, Hp in H2. destruct (data_bits v H2) as (B1 & B2 & B3 & _). rewrite B1, B2, B3. apply iwp_ret. by split.
Qed.

(** ** Identification *)

Lemma read_words_holds b c o ds k w ws next s :
  holds b c o 0 ds k s → ch_phase c = DataIn (w :: ws) next →
  iwp (read_words (length (w :: ws)) (base_of b)) (λ s' r, r = w :: ws ∧
    ∃ c' n, holds b c' o n ds k s' ∧ (next = [] → n = 0%nat) ∧
      (c' = with_phase (start_in next) c ∨ next ≠ [] ∧ c' = with_phase Failed c)) s.
Proof.
  revert w c s. induction ws as [|w2 ws IH]; intros w c s Hs Hp; cbn [length read_words]; apply iwp_bind;
    pose proof Hs as [Ok Hv Ho Hb Hq Hd Hk]; pose proof (ide_in (at_hw s) b w _ next Ok Hb ltac:(by rewrite Hv)) as Hi;
    destruct (p_in 2 (base_of b) (at_hw s)) as [h v] eqn:Ei; destruct Hi as (K1 & -> & K3 & K4 & K5 & K6);
    exists (set_hw h s), w; (split; [unfold inw, in_port, REG_DATA; rewrite base_small, Z.add_0_r by lia; change (get_hw s) with (at_hw s); by rewrite Ei|]);
    assert (holds b (ide_view h b) o (ide_busy h b) ds k (set_hw h s)) as H1 by (eapply task_hw; [exact Hs|done|done|done|done|done]);
    rewrite Hv in K3; apply iwp_bind.
  - do 2 apply iwp_ret. split; [done|]. do 2 eexists. split; [exact H1|]. split; [intros E; apply K6; by right|].
    destruct K3 as [K3|(_ & Hn & K3)]; [by left|by right].
  - destruct K3 as [K3|[? _]]; [|done]. rewrite K3, K6 in H1 by (by left). eapply iwp_mono; [apply (IH w2 _ _ H1); done|].
    intros s2 r (-> & c' & n & H2 & En & Hc). apply iwp_ret. split; [done|]. by exists c', n.
Qed.

(** What the identification words say of a disk: in words 60 and 61 its sectors, low
    word first, and in words 27 to 46 its model, two characters a word, the first in
    the high byte, padded with spaces. *)
Definition capacity (id : list Z) : Z := arr_get id 60 + 65536 * arr_get id 61.
Definition model_char (id : list Z) (k : Z) : Z :=
  if Z.even k then arr_get id (27 + k / 2) / 256 else arr_get id (27 + k / 2) mod 256.
(** The padding of the field gone, as a string in 41 bytes. *)
Fixpoint unpadded (l : list Z) : list Z :=
  match l with
  | [] => []
  | x :: l => match unpadded l with [] => if x =? 32 then [] else [x] | l => x :: l end
  end.
Definition model_name (id : list Z) : list Z :=
  let name := unpadded (map (model_char id) (seqZ 0 40)) in name ++ replicate (41 - length name) 0.

(** What there is to be known of a device in this place. *)
Definition drive_of (channel slave : Z) (d : device) : option ata_drive :=
  match d with
  | Disk id _ => Some (AtaDrive 1 channel slave (capacity id) (model_name id))
  | _ => None
  end.
Definition device_ok (d : device) : Prop :=
  match d with Disk id f => (length id = 256%nat ∧ Forall (λ w, 0 ≤ w < 65536) id) ∧ ∀ l, 0 ≤ l → is_sector (f l) | _ => True end.

(** An idle channel with the devices [at_]. *)
Definition idle (at_ : bool → device) (c : chan) : Prop := resting c ∧ (∀ b, ch_at c b = at_ b) ∧ ∀ b, device_ok (at_ b).

Lemma id_word id i : length id = 256%nat → Forall (λ w, 0 ≤ w < 65536) id → 0 ≤ i < 256 → 0 ≤ arr_get id i < 65536.
Proof.
  intros Hl Hf Hi. destruct (lookup_lt_is_Some_2 id (Z.to_nat i)) as [w Hw]; [lia|]. rewrite (arr_get_lookup id i w) by (done || lia).
  by apply (Forall_lookup_1 _ _ _ _ Hf Hw).
Qed.

Lemma capacity_ok id : length id = 256%nat → Forall (λ w, 0 ≤ w < 65536) id → arr_get id 60 ||| u32 (arr_get id 61 <<< 16) = capacity id.
Proof.
  intros Hl Hf. pose proof (id_word id 60 Hl Hf ltac:(lia)). pose proof (id_word id 61 Hl Hf ltac:(lia)). unfold capacity.
  rewrite Z.shiftl_mul_pow2, u32_small by (change (2 ^ 16) with 65536; lia). rewrite (lor_disjoint_add _ _ 16); [|lia|change (2 ^ 16) with 65536; lia|].
  - change (2 ^ 16) with 65536. lia.
  - change (2 ^ 16) with 65536. by rewrite Z_mod_mult.
Qed.

(** The driver's loop from the end is the dropping of the padding. *)
Lemma unpadded_snoc l x : unpadded (l ++ [x]) = if x =? 32 then unpadded l else l ++ [x].
Proof.
  induction l as [|y l IH]; cbn [app unpadded]; [done|]. rewrite IH. destruct (x =? 32); [done|]. by destruct l.
Qed.
Lemma unpadded_len l : (length (unpadded l) <= length l)%nat.
Proof.
  induction l as [|x l IH]; [done|]. cbn [unpadded]. destruct (unpadded l) eqn:El; [destruct (x =? 32)|]; cbn [length] in *; lia.
Qed.

Lemma trim_unpadded l k :
  trim (length l) (l ++ replicate k 0) = unpadded l ++ replicate (length l - length (unpadded l) + k) 0.
Proof.
  revert k. induction l as [|x l IH] using rev_ind; intros k; [done|]. rewrite length_app, unpadded_snoc, <- app_assoc. cbn [length app].
  replace (length l + 1)%nat with (S (length l)) by lia. cbn [trim].
  rewrite (arr_get_lookup _ (Z.of_nat (length l)) x) by (rewrite ?Nat2Z.id; first [lia | by rewrite lookup_app_r, Nat.sub_diag by done]).
  destruct (Z.eqb_spec x 32) as [->|Hne].
  - assert (arr_set (l ++ 32 :: replicate k 0) (Z.of_nat (length l)) 0 = l ++ replicate (S k) 0) as ->.
    { unfold arr_set. rewrite (proj2 (Z.ltb_ge _ 0)) by lia. rewrite Nat2Z.id. rewrite <- (Nat.add_0_r (length l)) at 1. by rewrite insert_app_r. }
    rewrite IH. do 2 f_equal. pose proof (unpadded_len l). lia.
  - rewrite <- app_assoc. cbn [app]. do 3 f_equal. rewrite length_app. cbn [length]. lia.
Qed.

Lemma model_ok id : length id = 256%nat → Forall (λ w, 0 ≤ w < 65536) id → trim 40 (model_bytes id) = model_name id.
Proof.
  intros Hl Hf. assert (model_bytes id = map (model_char id) (seqZ 0 40) ++ replicate 1 0) as ->.
  { unfold model_bytes. cbn [replicate]. f_equal. change (seqZ 0 40) with (flat_map (λ i, [2 * i; 2 * i + 1]) (seqZ 0 20)).
    assert (∀ i, 0 ≤ i < 20 → map (model_char id) [2 * i; 2 * i + 1] = [u8 (arr_get id (27 + i) >>> 8); u8 (arr_get id (27 + i) &&& 0xFF)]) as E.
    { intros i Hi. pose proof (id_word id (27 + i) Hl Hf ltac:(lia)) as Hw. cbn [map]. unfold model_char.
      rewrite Z.even_mul, Z.even_add, Z.even_mul. cbn [Z.even orb eqb Bool.eqb]. replace (2 * i / 2) with i by (clear; zlia).
      replace ((2 * i + 1) / 2) with i by (clear; zlia). rewrite shiftr_div by lia. change (2 ^ 8) with 256. unfold u8.
      change 0xFF with (Z.ones 8). rewrite Z.land_ones by lia. change (2 ^ 8) with 256. do 2 f_equal; clear -Hw; zlia. }
    assert (∀ l, Forall (λ i, 0 ≤ i < 20) l → flat_map (λ i, [u8 (arr_get id (27 + i) >>> 8); u8 (arr_get id (27 + i) &&& 0xFF)]) l =
      map (model_char id) (flat_map (λ i, [2 * i; 2 * i + 1]) l)) as Hm.
    { induction 1 as [|i l Hi _ IH]; [done|]. cbn [flat_map]. by rewrite map_app, <- E, IH. }
    apply Hm, Forall_forall. intros i Hi. apply elem_of_seqZ in Hi. lia. }
  assert (length (map (model_char id) (seqZ 0 40)) = 40%nat) as E by (by rewrite length_map, length_seqZ).
  set (cs := map (model_char id) (seqZ 0 40)) in *. unfold model_name. fold cs. rewrite <- E at 1. rewrite trim_unpadded, E. do 2 f_equal.
  pose proof (unpadded_len cs). lia.
Qed.

Lemma signature_holds b r c o ds k s :
  holds b c o 0 ds k s → r = 4 ∨ r = 5 → selected c ≠ Absent →
  iwp (inb (base_of b + r)) (λ s' v, v = (if r =? 4 then ch_lba1 c else ch_lba2 c) ∧ holds b c o 0 ds k s') s.
Proof.
  intros Hs Hr Hsel. pose proof Hs as [Ok Hv Ho Hb Hq Hd Hk]. pose proof (ide_signature (at_hw s) b r Ok Hb Hr) as Hi.
  destruct (p_in 1 (base_of b + r) (at_hw s)) as [h v] eqn:Ei. destruct Hi as (K1 & K2 & K3 & K4). rewrite Hv in K4.
  exists (set_hw h s), v. split; [unfold inb, in_port; rewrite base_small by lia; change (get_hw s) with (at_hw s); by rewrite Ei|].
  split; [by apply K4|]. eapply task_hw; [exact Hs|done|by rewrite K2|apply K2|by rewrite K3|apply K3].
Qed.

(** After the command: the rest of [identify]. *)
Lemma some_status v : v ≠ 0 → v ≠ 0xFF → (v =? 0) || (v =? 0xFF) = false.
Proof. intros E1 E2. by rewrite (proj2 (Z.eqb_neq _ _) E1), (proj2 (Z.eqb_neq _ _) E2). Qed.

(** The answer of a device that has got the command: nothing there, a packet
    device, a disk. *)
Lemma answer_absent b c o ch sl ds k s :
  holds b c o 0 ds k s → channel_base ch = base_of b → selected c = Absent →
  iwp (identify_answer ch sl no_drive) (λ s' r, r = (0, no_drive) ∧ holds b c o 0 ds k s') s.
Proof.
  intros Hs Eb Esel. unfold identify_answer. rewrite Eb. apply iwp_bind.
  destruct (task_status b c _ _ _ _ _ Hs) as (s9 & v & E & H9 & Hv). exists s9, v. split; [exact E|]. unfold status_ok in Hv. rewrite Esel in Hv.
  assert ((v =? 0) || (v =? 0xFF) = true) as -> by (destruct Hv as [-> | [-> _]]; done). apply iwp_ret. by split.
Qed.

Lemma answer_packet b c o n ch sl ds k s :
  holds b c o n ds k s → channel_base ch = base_of b → selected c = Packet → ch_lba1 c = 0x14 →
  iwp (identify_answer ch sl no_drive) (λ s' r, r = (0, no_drive) ∧ holds b c o 0 ds k s') s.
Proof.
  intros Hs Eb Esel Esig. unfold identify_answer. rewrite Eb. apply iwp_bind.
  destruct (task_status b c _ _ _ _ _ Hs) as (s9 & v & E & Hv). exists s9, v. split; [exact E|].
  destruct ((v =? 0) || (v =? 0xFF)) eqn:Ev.
  { destruct n as [|n]; destruct Hv as [H9 Hv]; [by apply iwp_ret|]. destruct Hv as [Hb Hf]. destruct (busy_bits v Hb). by rewrite some_status in Ev. }
  assert (∃ m, holds b c o m ds k s9) as [m H9] by (destruct n; destruct Hv; eauto).
  apply iwp_bind. eapply iwp_mono; [apply (wait_not_busy_holds _ _ _ _ _ _ _ H9); intros E0; congruence|].
  cbv beta. intros s10 v2 (H10 & _ & ->). apply iwp_bind.
  eapply iwp_mono; [apply (signature_holds b REG_LBA1 _ _ _ _ _ H10); [by left|congruence]|]. cbv beta. intros s11 mid [-> H11].
  change (REG_LBA1 =? 4) with true. cbv iota. rewrite Esig. cbn [Z.eqb negb]. apply iwp_bind, iwp_ret, iwp_ret. by split.
Qed.

Lemma answer_disk b c o n ch sl id f ds k s :
  holds b c o n ds k s → channel_base ch = base_of b → selected c = Disk id f → ch_phase c = DataIn id [] → ch_lba1 c = 0 → ch_lba2 c = 0 →
  length id = 256%nat → Forall (λ w, 0 ≤ w < 65536) id →
  iwp (identify_answer ch sl no_drive) (λ s' r, r = (1, default no_drive (drive_of ch sl (Disk id f))) ∧ holds b (with_phase Idle c) o 0 ds k s') s.
Proof.
  intros Hs Eb Esel Ep E4 E5 Hid Hw. unfold identify_answer. rewrite Eb. apply iwp_bind.
  destruct (task_status b c _ _ _ _ _ Hs) as (s9 & v & E & Hv). exists s9, v. split; [exact E|].
  assert (v ≠ 0 ∧ v ≠ 0xFF) as [Hv0 Hvf].
  { destruct n; destruct Hv as [_ Hv]; [|destruct Hv as [Hb Hf]; by destruct (busy_bits v Hb)].
    unfold status_ok in Hv. rewrite Esel, Ep in Hv. by destruct (data_bits v Hv) as (_ & _ & _ & ?). }
  rewrite some_status by done.
  assert (∃ m, holds b c o m ds k s9) as [m H9] by (destruct n; destruct Hv; eauto).
  apply iwp_bind. eapply iwp_mono; [apply (wait_not_busy_holds _ _ _ _ _ _ _ H9); intros E0; congruence|].
  cbv beta. intros s10 v2 (H10 & _ & ->). apply iwp_bind.
  eapply iwp_mono; [apply (signature_holds b REG_LBA1 _ _ _ _ _ H10); [by left|congruence]|]. cbv beta. intros s11 mid [-> H11].
  change (REG_LBA1 =? 4) with true. cbv iota. rewrite E4. cbn [Z.eqb negb]. apply iwp_bind, iwp_bind.
  eapply iwp_mono; [apply (signature_holds b REG_LBA2 _ _ _ _ _ H11); [by right|congruence]|]. cbv beta. intros s12 high [-> H12].
  change (REG_LBA2 =? 4) with false. cbv iota. rewrite E5. cbn [Z.eqb negb]. apply iwp_ret. apply iwp_bind.
  eapply iwp_mono; [by eapply (wait_drq_ready _ _ _ _ _ _ id f _ _ H12)|]. cbv beta. intros s13 r [-> H13].
  cbn [Z.eqb negb]. apply iwp_bind. rewrite <- Hid. destruct id as [|w ws]; [done|]. set (id := w :: ws) in *.
  eapply iwp_mono; [eapply (read_words_holds _ _ _ _ _ w ws [] _ H13); by rewrite Ep|]. cbv beta. intros s14 id' (-> & c' & n' & H14 & En & Hc).
  rewrite En in H14 by done. destruct Hc as [->|[? _]]; [|done]. apply iwp_ret. fold id. rewrite (capacity_ok id), (model_ok id) by done. by split.
Qed.

Lemma identify_holds b c o at_ ch sl ds k s :
  holds b c o 0 ds k s → idle at_ c → c_true ch = b →
  iwp (identify ch sl no_drive) (λ s' r, r = match drive_of ch sl (at_ (c_true sl)) with Some d => (1, d) | None => (0, no_drive) end ∧
    ∃ c', holds b c' o 0 ds k s' ∧ idle at_ c' ∧ slave_sel c' = c_true sl) s.
Proof.
  intros Hs (Hph & Hat & Hdev) Hch. unfold identify, select_drive. assert (channel_base ch = base_of b) as Eb by (unfold channel_base; by rewrite Hch).
  rewrite Eb. apply iwp_bind, iwp_bind.
  eapply iwp_mono; [apply (reg_holds b 6 (if c_true sl then 0xB0 else 0xA0) c o ds k s Hs); [done|lia|by destruct (c_true sl)]|].
  cbv beta. intros s1 _ H1. eapply iwp_mono; [apply (delay_holds b ch _ _ _ _ _ _ Hch H1)|]. cbv beta. intros s2 _ H2.
  do 4 (apply iwp_bind; eapply iwp_mono; [eapply reg_holds; [eassumption|by repeat apply resting_reg|by split|by split]|]; cbv beta; intros ? ? ?).
  match goal with H : holds b (task_out REG_LBA2 0 ?x) _ _ _ _ _ |- _ => set (c1 := task_out REG_LBA2 0 x) in H; rename H into H6 end.
  assert (slave_sel c1 = c_true sl ∧ resting c1 ∧ (∀ x, ch_at c1 x = at_ x) ∧ ch_lba1 c1 = 0 ∧ ch_lba2 c1 = 0) as (E1 & E2 & E3 & E4 & E5).
  { unfold slave_sel, c1. cbn. split; [by destruct (c_true sl)|]. by split_and!. }
  clearbody c1. apply iwp_bind. eapply iwp_mono; [apply (out_holds b 7 CMD_IDENTIFY); [exact H6|done|by split|by split]|].
  cbv beta. intros s7 _ (c7 & n & H7 & Hn & Hc7). destruct Hc7 as [->|(_ & ? & _)]; [|done]. apply iwp_bind. eapply iwp_mono; [apply (delay_holds b ch _ _ _ _ _ _ Hch H7)|]. cbv beta. intros s8 _ H8.
  assert (selected c1 = at_ (c_true sl)) as Esel by (unfold selected; by rewrite E3, E1).
  pose proof (Hdev (c_true sl)) as Hdi. cbn [task_out] in H8. rewrite Esel in H8. destruct (at_ (c_true sl)) as [| |id f] eqn:Ed.
  - rewrite (Hn (or_intror Esel)) in H8. eapply iwp_mono; [by apply (answer_absent _ _ _ _ _ _ _ _ H8)|].
    cbv beta. intros s9 r [-> H9]. split; [done|]. by exists c1.
  - eapply iwp_mono; [apply (answer_packet _ _ _ _ _ _ _ _ _ H8); [done| |done]; exact Esel|].
    cbv beta. intros s9 r [-> H9]. split; [done|]. eexists. split; [exact H9|]. split; [|done]. split; [by left|by split].
  - eapply iwp_mono; [apply (answer_disk _ _ _ _ _ _ id f _ _ _ H8); [done|exact Esel|done|done|done|apply Hdi..]|].
    cbv beta. intros s9 r [-> H9]. split; [done|]. eexists. split; [exact H9|]. split; [|done]. split; [by left|by split].
Qed.

(** ** Detection *)

Definition padded (l : list ata_drive) : list ata_drive := l ++ replicate (4 - length l) no_drive.
Definition at_place (channel slave : Z) (at_ : bool → device) : list ata_drive :=
  match drive_of channel slave (at_ (c_true slave)) with Some d => [d] | None => [] end.

Lemma insert_padded l d : (length l < 4)%nat → <[length l := d]> (padded l) = padded (l ++ [d]).
Proof.
  intros Hl. unfold padded. rewrite length_app. cbn [length]. replace (4 - length l)%nat with (S (4 - (length l + 1)))%nat by lia.
  cbn [replicate]. rewrite <- (Nat.add_0_r (length l)) at 1. rewrite insert_app_r. cbn. by rewrite <- app_assoc.
Qed.

Lemma probe_holds b c o at_ ch sl l s :
  holds b c o 0 (padded l) (zlen l) s → idle at_ c → c_true ch = b → (length l < 4)%nat →
  iwp (probe ch sl) (λ s' _, ∃ c', holds b c' o 0 (padded (l ++ at_place ch sl at_)) (zlen (l ++ at_place ch sl at_)) s' ∧
    idle at_ c' ∧ slave_sel c' = c_true sl) s.
Proof.
  intros Hs Hi Hch Hl. unfold probe. apply iwp_bind. eapply iwp_mono; [by eapply identify_holds|].
  cbv beta. intros s1 r (-> & c' & H1 & Hi' & Hsl). unfold at_place. destruct (drive_of ch sl (at_ (c_true sl))) as [d|]; cbn [fst snd].
  - change (c_true 1) with true. cbv iota. apply iwp_put. exists c'. split; [|done]. destruct H1 as [K1 K2 K3 K4 K5 K6 K7]. split; try done.
    + cbn [drives]. rewrite K6, K7. unfold zlen. rewrite Nat2Z.id. by apply insert_padded.
    + cbn [drive_count]. rewrite K7. unfold zlen. rewrite length_app. cbn [length]. lia.
  - change (c_true 0) with false. cbv iota. apply iwp_ret. exists c'. rewrite app_nil_r. done.
Qed.

(** One channel, both places. *)
Lemma channel_holds b c o at_ ch l s :
  holds b c o 0 (padded l) (zlen l) s → idle at_ c → c_true ch = b → (length l <= 2)%nat →
  iwp (io_for 2 0 (probe ch)) (λ s' _, ∃ c', let l' := l ++ at_place ch 0 at_ ++ at_place ch 1 at_ in
    holds b c' o 0 (padded l') (zlen l') s' ∧ idle at_ c' ∧ slave_sel c' = true) s.
Proof.
  intros Hs Hi Hch Hl. cbn [io_for]. assert (∀ sl, (length (at_place ch sl at_) ≤ 1)%nat) as Hp by (intros sl; unfold at_place; destruct (drive_of _ _ _); cbn; lia).
  apply iwp_bind. eapply iwp_mono; [eapply (probe_holds _ _ _ _ ch 0 l); [exact Hs|done|done|lia]|]. cbv beta. intros s1 _ (c1 & H1 & I1 & _).
  apply iwp_bind. eapply iwp_mono; [eapply (probe_holds _ _ _ _ ch (0 + 1)); [exact H1|done|done|]|].
  { rewrite length_app. specialize (Hp 0). lia. }
  cbv beta. intros s2 _ (c2 & H2 & I2 & E2). apply iwp_ret. exists c2. cbv zeta. rewrite app_assoc. by split_and!.
Qed.

(** What there is to be found. *)
Definition found (at0 at1 : bool → device) : list ata_drive :=
  (at_place 0 0 at0 ++ at_place 0 1 at0) ++ at_place 1 0 at1 ++ at_place 1 1 at1.

Lemma ata_init_holds c0 c1 at0 at1 ds k s :
  holds false c0 c1 0 ds k s → idle at0 c0 → idle at1 c1 →
  iwp ata_init (λ s' _, ∃ c0' c1', holds false c0' c1' 0 (padded (found at0 at1)) (zlen (found at0 at1)) s' ∧
    idle at0 c0' ∧ idle at1 c1' ∧ slave_sel c0' = true ∧ slave_sel c1' = true) s.
Proof.
  intros Hs I0 I1. unfold ata_init. apply iwp_bind, iwp_put. cbn [io_for].
  assert (holds false c0 c1 0 (padded []) (zlen (@nil ata_drive)) (MkAta (at_hw s) (replicate (Z.to_nat ATA_MAX_DRIVES) no_drive) 0)) as H0'.
  { destruct Hs. by split. }
  apply iwp_bind. eapply iwp_mono; [eapply (channel_holds false _ _ at0 0); [exact H0'|done|done|cbn; lia]|].
  cbv beta zeta. intros s1 _ (c0' & H1 & I0' & S0). apply holds_swap in H1. apply iwp_bind.
  eapply iwp_mono; [eapply (channel_holds true _ _ at1 (0 + 1)); [exact H1|done|done|]|].
  { unfold at_place. cbn [app]. rewrite length_app. destruct (drive_of 0 0 _), (drive_of 0 1 _); cbn; lia. }
  cbv beta zeta. intros s2 _ (c1' & H2 & I1' & S1). apply iwp_ret. exists c0', c1'. apply holds_swap in H2. by split_and!.
Qed.

(** ** Transfers *)

(** The devices by channel and place, and the driver's list of them. *)
Definition disks (m : bool → bool → device) : list ata_drive := found (m false) (m true).
Definition steady (c : chan) : Prop := ch_at c false = Absent → slave_sel c = true.

(** Between operations: the channels idle, the devices [m], found. *)
Definition up (m : bool → bool → device) s : Prop :=
  ∃ c o, holds false c o 0 (padded (disks m)) (zlen (disks m)) s ∧ idle (m false) c ∧ idle (m true) o ∧ steady c ∧ steady o.

Lemma up_at m b s : up m s →
  ∃ c o, holds b c o 0 (padded (disks m)) (zlen (disks m)) s ∧ idle (m b) c ∧ idle (m (negb b)) o ∧ steady c ∧ steady o.
Proof. intros (c & o & Hs & Hi & Ho & Sc & So). destruct b; [|by exists c, o]. exists o, c. apply holds_swap in Hs. by split_and!. Qed.

Lemma up_intro m b c o s :
  holds b c o 0 (padded (disks m)) (zlen (disks m)) s → idle (m b) c → idle (m (negb b)) o → steady c → steady o → up m s.
Proof. intros Hs Hi Ho Sc So. destruct b; [|by exists c, o]. exists o, c. apply holds_swap in Hs. by split_and!. Qed.

(** The disk behind an entry of the list. *)
Definition disk_at (m : bool → bool → device) (d : ata_drive) (id : list Z) (f : Z → list Z) : Prop :=
  m (c_true (d_channel d)) (c_true (d_slave d)) = Disk id f ∧ d_sectors d = capacity id ∧ d_model d = model_name id.

Lemma found_disk m d : d ∈ disks m → ∃ id f, disk_at m d id f.
Proof.
  unfold disks, found. rewrite !elem_of_app. unfold at_place, drive_of, disk_at.
  intros [[Hd|Hd]|[Hd|Hd]]; match type of Hd with context [match ?x with _ => _ end] => destruct x as [| |id f] eqn:E end;
    first [by apply elem_of_nil in Hd | apply list_elem_of_singleton in Hd as ->; by exists id, f].
Qed.

Lemma get_drive_ok m b c o index s :
  holds b c o 0 (padded (disks m)) (zlen (disks m)) s →
  ata_get_drive index s = if index <? 0 then None else disks m !! Z.to_nat index.
Proof.
  intros Hs. unfold ata_get_drive. rewrite (ho_count _ _ _ _ _ _ _ Hs), (ho_drives _ _ _ _ _ _ _ Hs).
  destruct (Z.ltb_spec index 0) as [|Hi]; [done|]. cbn [orb]. unfold zlen. destruct (Z.leb_spec (Z.of_nat (length (disks m))) index) as [Hl|Hl].
  - rewrite lookup_ge_None_2; [done|lia].
  - destruct (lookup_lt_is_Some_2 (disks m) (Z.to_nat index)) as [d Hd]; [lia|]. rewrite Hd. f_equal. unfold padded.
    rewrite app_nth1 by lia. by apply nth_lookup_Some.
Qed.

Lemma lba_byte x k : 0 ≤ x → 0 ≤ k → u8 ((x >>> k) &&& 0xFF) = x / 2 ^ k mod 256.
Proof.
  intros Hx Hk. change 0xFF with (Z.ones 8). rewrite Z.land_ones, shiftr_div by lia. unfold u8. change (2 ^ 8) with 256. by rewrite Z.mod_mod by lia.
Qed.

Lemma devsel sl lba : 0 ≤ lba →
  let v := u8 ((if sl : bool then 0xF0 else 0xE0) ||| ((lba >>> 24) &&& 0x0F)) in
  0 ≤ v < 256 ∧ Z.testbit v 4 = sl ∧ v mod 16 = lba / 2 ^ 24 mod 16.
Proof.
  intros Hl v. split; [apply u8_range|]. set (x := (lba >>> 24) &&& 0x0F) in *.
  assert (x = lba / 2 ^ 24 mod 16) as Ex by (unfold x; change 0x0F with (Z.ones 4); rewrite Z.land_ones, shiftr_div by lia; done).
  unfold v, u8. change 256 with (2 ^ 8). change 16 with (2 ^ 4). split.
  - rewrite Z.mod_pow2_bits_low, Z.lor_spec by lia. unfold x. rewrite Z.land_spec, andb_false_r by done. by destruct sl.
  - rewrite <- !Z.land_ones, <- Z.land_assoc, Z.land_lor_distr_l by lia. change (Z.ones 8 &&& Z.ones 4) with (Z.ones 4).
    change (2 ^ 24) with 16777216 in *. change 16 with (2 ^ 4) in Ex. rewrite <- Z.land_ones in Ex by lia. rewrite <- Ex.
    assert (x &&& Z.ones 4 = x) as -> by (rewrite Ex, <- Z.land_assoc; done). by destruct sl.
Qed.

(** A request in range, of at most 255 sectors. *)
Record request (d : ata_drive) (lba count : Z) : Prop := {
  rq_lba : 0 ≤ lba;
  rq_count : 1 ≤ count ≤ 255;
  rq_end : lba + count ≤ d_sectors d ≤ 2 ^ 28
}.

Lemma steady_answers c b id f : steady c → ch_at c b = Disk id f → answers c.
Proof.
  intros Hst Hd Hsel Ha. unfold selected in Hsel. rewrite (Hst Ha) in Hsel. destruct b; congruence.
Qed.

(** The task file for a transfer of [count] sectors at [lba]. *)
Record set_up (sl : bool) (lba count : Z) (at_ : bool → device) (c : chan) : Prop := {
  su_idle : idle at_ c;
  su_slave : slave_sel c = sl;
  su_lba : lba_regs c = lba;
  su_count : sectors_for (ch_count c) = Z.to_nat count
}.

Lemma setup_holds m b c o d id f index lba count s :
  holds b c o 0 (padded (disks m)) (zlen (disks m)) s → idle (m b) c → steady c →
  0 ≤ index → disks m !! Z.to_nat index = Some d → disk_at m d id f → c_true (d_channel d) = b → request d lba count →
  iwp (setup_transfer index lba count) (λ s' r, r = base_of b ∧
    ∃ c', holds b c' o 0 (padded (disks m)) (zlen (disks m)) s' ∧ set_up (c_true (d_slave d)) lba count (m b) c') s.
Proof.
  intros Hs (Hph & Hat & Hok) Hst Hix Hd [Hdisk Hsec] Hb [Hl Hc [He Hcap]]. unfold setup_transfer. apply iwp_bind, iwp_get.
  rewrite (get_drive_ok _ _ _ _ _ _ Hs). rewrite (proj2 (Z.ltb_ge index 0)) by done. rewrite Hd. rewrite !u32_small by lia.
  rewrite (proj2 (Z.ltb_ge (d_sectors d) _)), (proj2 (Z.ltb_ge (lba + count) lba)) by lia. cbn [orb].
  assert (channel_base (d_channel d) = base_of b) as -> by (unfold channel_base; by rewrite Hb). apply iwp_bind.
  assert (ch_at c (c_true (d_slave d)) = Disk id f) as Hdc by (rewrite Hat, <- Hb; exact Hdisk).
  eapply iwp_mono; [apply (wait_not_busy_holds _ _ _ _ _ _ _ Hs); by eapply steady_answers|]. cbv beta. intros s1 v (H1 & _ & ->).
  destruct (devsel (c_true (d_slave d)) lba Hl) as (Dv & Dsl & Dlo).
  apply iwp_bind. eapply iwp_mono; [apply (reg_holds b 6 _ _ _ _ _ _ H1); [done|lia|exact Dv]|]. cbv beta. intros s2 _ H2.
  apply iwp_bind. eapply iwp_mono; [apply (delay_holds b _ _ _ _ _ _ _ Hb H2)|]. cbv beta. intros s3 _ H3.
  apply iwp_bind. eapply iwp_mono; [eapply (reg_holds b 1); [exact H3|by repeat apply resting_reg|lia|lia]|]. cbv beta. intros s4 _ H4.
  apply iwp_bind. eapply iwp_mono; [eapply (reg_holds b 2 count); [exact H4|by repeat apply resting_reg|lia|lia]|]. cbv beta. intros s5 _ H5.
  pose proof (lba_byte lba 0 Hl ltac:(lia)) as B0. rewrite Z.shiftr_0_r in B0.
  do 3 (apply iwp_bind; eapply iwp_mono; [eapply reg_holds; [eassumption|by repeat apply resting_reg|by split|apply u8_range]|]; cbv beta; intros ? ? ?).
  apply iwp_ret. split; [done|]. eexists. split; [eassumption|]. cbn [task_out REG_LBA0 REG_LBA1 REG_LBA2]. split; [|exact Dsl| |].
  - split; [exact Hph|]. split; [exact Hat|exact Hok].
  - unfold lba_regs. cbn [ch_lba0 ch_lba1 ch_lba2 ch_dev]. rewrite Dlo, B0, !lba_byte by lia.
    change (2 ^ 0) with 1. change (2 ^ 8) with 256. change (2 ^ 16) with 65536. change (2 ^ 24) with 16777216. clear -Hl Hc He Hcap. zpow. zlia.
  - cbn [ch_count]. unfold sectors_for. by rewrite (proj2 (Z.eqb_neq count 0)) by lia.
Qed.

Lemma drive_channel m index d : disks m !! Z.to_nat index = Some d → d_channel (nth (Z.to_nat index) (padded (disks m)) no_drive) = d_channel d.
Proof. intros Hd. unfold padded. rewrite app_nth1 by (by apply lookup_lt_Some in Hd). by rewrite (nth_lookup_Some _ _ _ _ Hd). Qed.

(** The command of a transfer, once the task file is set up. *)
Lemma command_holds m b c o d id f lba count v s :
  holds b c o 0 (padded (disks m)) (zlen (disks m)) s → set_up (c_true (d_slave d)) lba count (m b) c → disk_at m d id f → c_true (d_channel d) = b →
  0 ≤ v < 256 →
  iwp (outb (base_of b + REG_COMMAND) v) (λ s' _, ∃ c' n, holds b c' o n (padded (disks m)) (zlen (disks m)) s' ∧
    (c' = task_out 7 v c ∨ c' = with_phase Failed c) ∧ selected c = Disk id f ∧ ∀ l, 0 ≤ l → is_sector (f l)) s.
Proof.
  intros Hs [(P1 & A1 & D1) S1 L1 C1] [Hdisk _] Hb Hv.
  eapply iwp_mono; [apply (out_holds b 7 v _ _ _ _ _ Hs); [done|by split|done]|]. cbv beta. intros s2 _ (c' & n & H2 & _ & Hc). exists c', n. split; [done|].
  split; [destruct Hc as [->|(_ & _ & _ & ->)]; [by left|by right]|].
  rewrite Hb in Hdisk. split; [unfold selected; by rewrite A1, S1|]. specialize (D1 (c_true (d_slave d))). rewrite Hdisk in D1. apply D1.
Qed.

(** ** Reading *)

Lemma words_ok n l : length l = (2 * n)%nat → Forall (λ x, 0 ≤ x < 256) l → length (words l) = n ∧ flat_map word_bytes (words l) = l.
Proof.
  revert l. induction n as [|n IH]; intros l Hl Hf; [by destruct l|]. destruct l as [|x [|y l]]; cbn [length] in Hl; try lia.
  apply Forall_cons in Hf as [Hx Hf]. apply Forall_cons in Hf as [Hy Hf]. destruct (IH l) as [E1 E2]; [lia|done|].
  cbn [words length flat_map]. split; [by f_equal|]. rewrite E2. unfold word_bytes. rewrite shiftr_div by lia. unfold u8. change (2 ^ 8) with 256.
  cbn [app]. repeat f_equal; clear -Hx Hy; zlia.
Qed.

Lemma blocks_S f lba n : blocks f lba (S n) = words (f lba) :: blocks f (lba + 1) n.
Proof.
  unfold blocks. cbn [seq map]. rewrite Z.add_0_r. f_equal. rewrite <- seq_shift, map_map. apply map_ext. intros i. do 2 f_equal. lia.
Qed.

Definition sectors_from (f : Z → list Z) (lba : Z) (n : nat) : list Z := concat (map (λ i, f (lba + Z.of_nat i)) (seq 0 n)).
Lemma sectors_from_S f lba n : sectors_from f lba (S n) = f lba ++ sectors_from f (lba + 1) n.
Proof.
  unfold sectors_from. cbn [seq map concat]. rewrite Z.add_0_r. f_equal. rewrite <- seq_shift, map_map. f_equal. apply map_ext. intros i. f_equal. lia.
Qed.

(** After a failure: the devices are as they were, the rest is anybody's guess. *)
Definition given_up (b : bool) (c o : chan) (ds : list ata_drive) (k : Z) s : Prop :=
  ∃ c' n, holds b c' o n ds k s ∧ ch_at c' = ch_at c.

Lemma read_loop_holds b c o n lba cnt index ds k s id f :
  holds b c o n ds k s → ch_phase c = start_in (blocks f lba cnt) ∨ cnt ≠ 0%nat ∧ ch_phase c = Failed → (cnt = 0%nat → n = 0%nat) → selected c = Disk id f →
  (∀ l, lba ≤ l < lba + Z.of_nat cnt → is_sector (f l)) → 0 ≤ index → c_true (d_channel (nth (Z.to_nat index) ds no_drive)) = b →
  iwp (read_loop cnt index (base_of b)) (λ s' r,
    r = (0, sectors_from f lba cnt) ∧ holds b (with_phase Idle c) o 0 ds k s' ∨ r.1 = -1 ∧ given_up b c o ds k s') s.
Proof.
  revert c n lba s. induction cnt as [|cnt IH]; intros c n lba s Hs Hp H0' Hsel Hsec Hix Hch; cbn [read_loop].
  - destruct Hp as [Hp|[? _]]; [|done]. apply iwp_ret. left. split; [done|]. rewrite H0' in Hs by done.
    assert (with_phase Idle c = c) as ->; [|exact Hs]. change (start_in (blocks f lba 0)) with Idle in Hp. destruct c. cbn in *. by rewrite Hp.
  - rewrite blocks_S in Hp. destruct (Hsec lba ltac:(lia)) as [Hlen Hby]. destruct (words_ok 256 (f lba) Hlen Hby) as [Wl Wb].
    apply iwp_bind. eapply iwp_mono; [eapply (wait_drq_holds _ _ _ _ _ _ _ id f Hs Hsel); destruct Hp as [Hp|[_ Hp]]; by rewrite Hp|].
    cbv beta. intros s1 r [(-> & Hnf & H1)|(-> & n' & H1)]; cbn [Z.eqb negb]; [|apply iwp_ret; right; split; [done|by exists c, n']].
    destruct Hp as [Hp|[_ Hp]]; [|done].
    apply iwp_bind. change (Z.to_nat (ATA_SECTOR_SIZE / 2)) with 256%nat. destruct (words (f lba)) as [|w ws] eqn:Ew; [done|]. rewrite <- Wl.
    eapply iwp_mono; [eapply (read_words_holds _ _ _ _ _ w ws _ _ H1 Hp)|]. cbv beta. intros s2 r (-> & c2 & n2 & H2 & E2 & Hc2).
    assert (ch_at c2 = ch_at c ∧ selected c2 = selected c ∧ with_phase Idle c2 = with_phase Idle c) as (A2 & S2 & W2) by (by destruct Hc2 as [->|[_ ->]]).
    apply iwp_bind, iwp_get. apply iwp_bind. rewrite (proj2 (Z.leb_le 0 index)) by done.
    eapply iwp_mono; [eapply (delay_holds b _ _ _ _ _ _ _ _ H2)|].
    Unshelve. 2:{ unfold channel_at. by rewrite (ho_drives _ _ _ _ _ _ _ H2). }
    cbv beta. intros s3 _ H3. apply iwp_bind. eapply iwp_mono; [eapply (IH _ _ (lba + 1) s3 H3); try done|].
    + destruct Hc2 as [->|[Hne ->]]; [by left|right]. split; [|done]. intros ->. by apply Hne.
    + intros ->. rewrite E2; done.
    + by rewrite S2.
    + intros l Hl. apply Hsec. lia.
    + cbv beta. intros s4 r Hr. apply iwp_ret. cbn [fst snd]. destruct Hr as [[-> H4]|(Er & c5 & n5 & H5 & A5)].
      * left. rewrite W2 in H4. split; [|exact H4]. cbn [fst snd]. by rewrite sectors_from_S, Wb.
      * right. split; [exact Er|]. exists c5, n5. split; [done|]. by rewrite A5, A2.
Qed.

(** ** Writing *)

Definition after_sector (lba : Z) (left : nat) : phase := match left with S (S n) => DataOut (lba + 1) (S n) [] | _ => Idle end.
(** [2 * n] bytes of the buffer from word [i] on. *)
Definition part (buf : list Z) (i : Z) (n : nat) : list Z := take (2 * n) (drop (Z.to_nat (2 * i)) buf).

Lemma part_S buf i n :
  0 ≤ i → (Z.to_nat (2 * i) + 2 * S n ≤ length buf)%nat → Forall (λ x, 0 ≤ x < 256) buf →
  let w := arr_get buf (2 * i) ||| (arr_get buf (2 * i + 1) <<< 8) in
  0 ≤ w < 65536 ∧ part buf i (S n) = word_bytes w ++ part buf (i + 1) n.
Proof.
  intros Hi Hl Hf w. assert (∃ x y l, drop (Z.to_nat (2 * i)) buf = x :: y :: l) as (x & y & l & E).
  { destruct (drop (Z.to_nat (2 * i)) buf) as [|x [|y l]] eqn:E; [..|by exists x, y, l]; apply (f_equal length) in E; rewrite length_drop in E; cbn in E; lia. }
  assert (buf !! Z.to_nat (2 * i) = Some x) as Ex by (rewrite <- (Nat.add_0_r (Z.to_nat (2 * i))), <- lookup_drop, E; done).
  assert (buf !! Z.to_nat (2 * i + 1) = Some y) as Ey by (replace (Z.to_nat (2 * i + 1)) with (Z.to_nat (2 * i) + 1)%nat by lia; rewrite <- lookup_drop, E; done).
  pose proof (Forall_lookup_1 _ _ _ _ Hf Ex) as Hx. pose proof (Forall_lookup_1 _ _ _ _ Hf Ey) as Hy. cbv beta in Hx, Hy.
  assert (w = x + 256 * y) as ->.
  { unfold w. rewrite (arr_get_lookup buf (2 * i) x), (arr_get_lookup buf (2 * i + 1) y) by (done || lia).
    rewrite Z.shiftl_mul_pow2, (lor_disjoint_add _ _ 8) by (change (2 ^ 8) with 256; lia || zlia). change (2 ^ 8) with 256. lia. }
  split; [lia|]. unfold part. replace (2 * S n)%nat with (S (S (2 * n))) by lia. rewrite E. cbn [take]. unfold word_bytes. rewrite shiftr_div by lia.
  change (2 ^ 8) with 256. replace (drop (Z.to_nat (2 * (i + 1))) buf) with l.
  - cbn [app]. unfold u8. repeat f_equal; clear -Hx Hy; zlia.
  - replace (Z.to_nat (2 * (i + 1))) with (Z.to_nat (2 * i) + 2)%nat by lia. by rewrite <- drop_drop, E.
Qed.

Lemma word_bytes_sector w : 0 ≤ w → word_bytes w = sector_bytes w.
Proof. intros Hw. unfold word_bytes, sector_bytes, u8. by rewrite shiftr_div by lia. Qed.

(** A sector has gone to the drive: it is there, or its writing has failed. *)
Definition sector_taken (lba : Z) (left : nat) (data : list Z) (c c' : chan) : Prop :=
  c' = with_phase (after_sector lba left) (store lba data c) ∨ ∃ junk, is_sector junk ∧ c' = with_phase Failed (store lba junk c).

Lemma write_words_holds b c o n i lba left got buf ds k s :
  holds b c o 0 ds k s → ch_phase c = DataOut lba left got → length got = (512 - 2 * S n)%nat → (S n <= 256)%nat → 0 ≤ i →
  (Z.to_nat (2 * i) + 2 * S n ≤ length buf)%nat → Forall (λ x, 0 ≤ x < 256) buf →
  iwp (write_words (S n) (base_of b) i buf) (λ s' _, ∃ c' m, sector_taken lba left (got ++ part buf i (S n)) c c' ∧ holds b c' o m ds k s') s.
Proof.
  assert (u16 (base_of b + REG_DATA) = base_of b) as Eb by (unfold REG_DATA; rewrite base_small by lia; lia).
  unfold write_words. revert c i got s. induction n as [|n IH]; intros c i got s Hs Hp Hg Hn Hi Hb Hf;
    destruct (part_S buf i _ Hi Hb Hf) as [Hw Epart]; cbn [io_for]; apply iwp_bind; unfold outw at 1, out_port at 1; apply iwp_put;
    set (w := arr_get buf (2 * i) ||| (arr_get buf (2 * i + 1) <<< 8)) in *; pose proof Hs as [Ok Hv Ho Hbz Hq Hd Hk];
    rewrite (u16_small w), Eb by (exact Hw);
    pose proof (ide_out_data (at_hw s) b lba left got w Ok Hbz ltac:(by rewrite Hv) Hw) as Hi'; cbv zeta in Hi'; destruct Hi' as (K1 & K2 & K3 & K4 & K5); rewrite Hv in K2;
    assert (length (got ++ sector_bytes w) = length got + 2)%nat as El by (rewrite length_app; done); rewrite El in K2, K5;
    rewrite word_bytes_sector in Epart by (apply Hw).
  - apply iwp_ret. do 2 eexists. split; [|eapply task_hw; [exact Hs|exact K1|reflexivity|exact K3|reflexivity|exact K4]].
    change (get_hw s) with (at_hw s). destruct K2 as [K2|(_ & junk & Hj & K2)]; [left|right; by exists junk]. rewrite K2. unfold data_out.
    rewrite (proj2 (Nat.ltb_ge _ 512)) by lia. rewrite Epart. unfold part. rewrite Nat.mul_0_r. change (take 0 _) with (@nil Z). by rewrite app_nil_r.
  - destruct K2 as [K2|[? _]]; [|lia].
    assert (holds b (with_phase (DataOut lba left (got ++ sector_bytes w)) c) o 0 ds k (set_hw (p_out 2 (base_of b) w (get_hw s)) s)) as H1.
    { eapply task_hw; [exact Hs|exact K1| |exact K3|apply K5; lia|exact K4]. change (get_hw s) with (at_hw s). rewrite K2. unfold data_out.
      by rewrite (proj2 (Nat.ltb_lt _ 512)) by lia. }
    eapply iwp_mono; [apply (IH _ (i + 1) (got ++ sector_bytes w) _ H1); try done; lia|]. cbv beta.
    intros s2 _ (c' & m & Hm & H2). exists c', m. split; [|exact H2]. rewrite Epart, app_assoc. exact Hm.
Qed.

(** The disk after [n] sectors of the buffer have gone to [lba] and on. *)
Definition overwritten (f : Z → list Z) (lba : Z) (n : nat) (buf : list Z) (l : Z) : list Z :=
  if (lba <=? l) && (l <? lba + Z.of_nat n) then take 512 (drop (Z.to_nat (512 * (l - lba))) buf) else f l.

Lemma overwritten_0 f lba buf l : overwritten f lba 0 buf l = f l.
Proof. unfold overwritten. destruct (Z.leb_spec lba l); [|done]. cbn [andb]. by rewrite (proj2 (Z.ltb_ge l _)) by lia. Qed.

Lemma overwritten_S f lba n buf i l :
  0 ≤ i → overwritten (λ l, if l =? lba then part buf i 256 else f l) (lba + 1) n (drop (Z.to_nat (2 * (i + 256))) buf) l =
  overwritten f lba (S n) (drop (Z.to_nat (2 * i)) buf) l.
Proof.
  intros Hi. unfold overwritten. rewrite !drop_drop. cbv beta. destruct (Z.eqb_spec l lba) as [->|Hne].
  - rewrite (proj2 (Z.leb_gt (lba + 1) lba)), (proj2 (Z.leb_le lba lba)) by lia. cbn [andb].
    rewrite (proj2 (Z.ltb_lt lba (lba + Z.of_nat (S n)))) by lia. unfold part. change (2 * 256)%nat with 512%nat. do 2 f_equal. lia.
  - replace (lba + 1 <=? l) with (lba <=? l) by (destruct (Z.leb_spec lba l), (Z.leb_spec (lba + 1) l); lia || done).
    replace (lba + 1 + Z.of_nat n) with (lba + Z.of_nat (S n)) by lia. destruct (Z.leb_spec lba l); [|done]. destruct (l <? _); [|done]. cbn [andb].
    do 2 f_equal. lia.
Qed.

Lemma is_sector_part buf i : 0 ≤ i → (Z.to_nat (2 * i) + 512 ≤ length buf)%nat → Forall (λ x, 0 ≤ x < 256) buf → is_sector (part buf i 256).
Proof.
  intros Hi Hl Hf. unfold part. split; [rewrite length_take, length_drop; lia|]. by apply Forall_take, Forall_drop.
Qed.

(** What [n] sectors of [buf] written at [lba] have made of the disk [f]: other
    sectors keep their contents, and if the loop has found no fault, so do the
    sectors written, but perhaps for the last one, after which it looks at nothing. *)
Record wrote (b : bool) (c o : chan) (ds : list ata_drive) (k : Z) (id : list Z) (f f' : Z → list Z) (lba : Z) (n : nat) (buf : list Z) (c' : chan) (s' : ata H) (r : Z) : Prop := {
  wr_holds : ∃ m, holds b c' o m ds k s';
  wr_slave : slave_sel c' = slave_sel c;
  wr_other : ch_at c' (negb (slave_sel c)) = ch_at c (negb (slave_sel c));
  wr_disk : selected c' = Disk id f';
  wr_sectors : (∀ l, 0 ≤ l → is_sector (f l)) → ∀ l, 0 ≤ l → is_sector (f' l);
  wr_outside : ∀ l, l < lba ∨ lba + Z.of_nat n ≤ l → f' l = f l;
  wr_result : r = -1 ∨ r = 0 ∧ resting c' ∧ (ch_phase c = Failed → n = 0%nat ∧ ch_phase c' = Failed) ∧
    ∀ l, l ≠ lba + Z.of_nat n - 1 ∨ ch_phase c' = Idle → f' l = overwritten f lba n buf l
}.

Lemma store_selected c lba data id f :
  selected c = Disk id f → selected (store lba data c) = Disk id (λ l, if l =? lba then data else f l) ∧
  ch_at (store lba data c) (negb (slave_sel c)) = ch_at c (negb (slave_sel c)).
Proof.
  intros Hsel. unfold selected in *. cbn [store ch_at]. change (slave_sel (store lba data c)) with (slave_sel c). rewrite Bool.eqb_reflx, Hsel.
  split; [done|]. by destruct (slave_sel c).
Qed.

(** One more sector in front. *)
Lemma wrote_more b c c2 o ds k id f f' lba n buf i junk c' s r :
  wrote b c2 o ds k id (λ l, if l =? lba then junk else f l) f' (lba + 1) n (drop (Z.to_nat (2 * (i + 256))) buf) c' s r →
  slave_sel c2 = slave_sel c → ch_at c2 (negb (slave_sel c)) = ch_at c (negb (slave_sel c)) → is_sector junk → ch_phase c ≠ Failed →
  junk = part buf i 256 ∨ ch_phase c2 = Failed → 0 ≤ i →
  wrote b c o ds k id f f' lba (S n) (drop (Z.to_nat (2 * i)) buf) c' s r.
Proof.
  intros [W1 W2 W3 W4 W5 W6 W7] Es Eo Hj Hnf Hjunk Hi. split; try done.
  - by rewrite W2.
  - rewrite <- Es, W3, Es. done.
  - intros Hf. apply W5. intros l Hl. destruct (l =? lba); [done|by apply Hf].
  - intros l Hl. rewrite W6 by lia. by rewrite (proj2 (Z.eqb_neq l lba)) by lia.
  - destruct W7 as [W7|(-> & Hr & Hfail & Hl)]; [by left|right]. split; [done|]. split; [done|]. split; [done|].
    intros l Hor. destruct Hjunk as [->|Hc2].
    + rewrite <- overwritten_S by done. apply Hl. destruct Hor; [left; lia|by right].
    + destruct (Hfail Hc2) as [-> Hf']. destruct Hor as [Hne|?]; [|congruence]. rewrite Hl by (left; lia). rewrite overwritten_0.
      change (Z.of_nat 1) with 1 in Hne. rewrite (proj2 (Z.eqb_neq l lba)) by lia. unfold overwritten.
      destruct (Z.leb_spec lba l); [|done]. cbn [andb]. by rewrite (proj2 (Z.ltb_ge l _)) by lia.
Qed.

Lemma write_loop_holds b c o n lba cnt i index buf ds k s id f :
  holds b c o n ds k s → ch_phase c = match cnt with O => Idle | _ => DataOut lba cnt [] end ∨ ch_phase c = Failed → selected c = Disk id f →
  0 ≤ i → (Z.to_nat (2 * i) + 512 * cnt ≤ length buf)%nat → Forall (λ x, 0 ≤ x < 256) buf →
  c_true (d_channel (nth (Z.to_nat index) ds no_drive)) = b →
  iwp (write_loop cnt index (base_of b) i buf) (λ s' r, ∃ c' f', wrote b c o ds k id f f' lba cnt (drop (Z.to_nat (2 * i)) buf) c' s' r) s.
Proof.
  revert c n lba i s f. induction cnt as [|cnt IH]; intros c n lba i s f Hs Hp Hsel Hi Hb Hf Hch; cbn [write_loop].
  - apply iwp_ret. exists c, f. split; try done; [by exists n|]. right. split; [done|]. split; [exact Hp|]. split; [done|].
    intros l _. by rewrite overwritten_0.
  - apply iwp_bind. eapply iwp_mono; [eapply (wait_drq_holds _ _ _ _ _ _ _ id f Hs Hsel); destruct Hp as [Hp|Hp]; by rewrite Hp|].
    cbv beta. intros s1 r [(-> & Hnf & H1)|(-> & n' & H1)]; cbn [Z.eqb negb].
    2:{ apply iwp_ret. exists c, f. split; try done; [by exists n'|by left]. }
    destruct Hp as [Hp|Hp]; [|done].
    apply iwp_bind. change (Z.to_nat (ATA_SECTOR_SIZE / 2)) with 256%nat. change (ATA_SECTOR_SIZE / 2) with 256.
    eapply iwp_mono; [apply (write_words_holds b c o 255 i lba (S cnt) [] buf ds k s1 H1 Hp); [done|lia|done|lia|done]|].
    cbv beta. intros s2 _ (c2 & m & Hm & H2).
    apply iwp_bind, iwp_get. apply iwp_bind. eapply iwp_mono; [eapply (delay_holds b _ _ _ _ _ _ _ _ H2)|].
    Unshelve. 2:{ unfold channel_at. by rewrite (ho_drives _ _ _ _ _ _ _ H2). }
    cbv beta. intros s3 _ H3. cbn [app] in Hm. pose proof (is_sector_part buf i Hi ltac:(lia) Hf) as Hpart.
    assert (∃ junk, is_sector junk ∧ selected c2 = Disk id (λ l, if l =? lba then junk else f l) ∧ slave_sel c2 = slave_sel c ∧
      ch_at c2 (negb (slave_sel c)) = ch_at c (negb (slave_sel c)) ∧ (junk = part buf i 256 ∨ ch_phase c2 = Failed) ∧
      (ch_phase c2 = match cnt with O => Idle | _ => DataOut (lba + 1) cnt [] end ∨ ch_phase c2 = Failed)) as (junk & J1 & J2 & J3 & J4 & J5 & J6).
    { destruct Hm as [->|(junk & Hj & ->)].
      - exists (part buf i 256). destruct (store_selected c lba (part buf i 256) id f Hsel). split_and!; try done; [by left|left; by destruct cnt].
      - exists junk. destruct (store_selected c lba junk id f Hsel). split_and!; try done; by right. }
    eapply iwp_mono; [apply (IH c2 _ (lba + 1) (i + 256) s3 _ H3 J6 J2); [lia|lia|done|done]|].
    cbv beta. intros s4 r (c' & f' & Hw). exists c', f'. by apply (wrote_more b c c2 o ds k id f f' lba cnt buf i junk c' s4 r Hw).
Qed.

(** ** The driver *)

(** Before [ata_init]: the channels idle, the devices [m]. *)
Definition powered (m : bool → bool → device) s : Prop :=
  ∃ c o, holds false c o 0 (drives s) (drive_count s) s ∧ idle (m false) c ∧ idle (m true) o.
(** [m] with another device in the place of an entry. *)
Definition replaced (m : bool → bool → device) (d : ata_drive) (x : device) (ch sl : bool) : device :=
  if Bool.eqb ch (c_true (d_channel d)) && Bool.eqb sl (c_true (d_slave d)) then x else m ch sl.

Lemma steady_after m b d id f (c : chan) :
  disk_at m d id f → c_true (d_channel d) = b → (∀ x, ch_at c x = m b x) → slave_sel c = c_true (d_slave d) → steady c.
Proof.
  intros [Hd _] Hb Hat Hsl E. rewrite Hsl. destruct (c_true (d_slave d)) eqn:Es; [done|]. rewrite Hat in E. rewrite Hb in Hd. congruence.
Qed.

(** The devices of the machine. *)
Definition devices_are (m : bool → bool → device) s : Prop := ∀ ch sl, ch_at (ide_view (at_hw s) ch) sl = m ch sl.

Lemma devices_intro m b c o n ds k s :
  holds b c o n ds k s → (∀ x, ch_at c x = m b x) → (∀ x, ch_at o x = m (negb b) x) → devices_are m s.
Proof.
  intros [_ Hv Ho _ _ _ _] Hc Hno ch sl. destruct (Bool.eqb ch b) eqn:E; [apply Bool.eqb_prop in E as ->; by rewrite Hv|].
  assert (ch = negb b) as -> by (by destruct ch, b). by rewrite Ho.
Qed.

(** A read gives the sectors, or -1. *)
Lemma ata_read_ok m s index d id f lba count :
  up m s → 0 ≤ index → disks m !! Z.to_nat index = Some d → disk_at m d id f → request d lba count →
  iwp (ata_read_sectors index lba count) (λ s' r,
    r = (0, sectors_from f lba (Z.to_nat count)) ∧ up m s' ∨ r.1 = -1 ∧ devices_are m s') s.
Proof.
  intros Hup Hix Hd Hdisk Hrq. set (b := c_true (d_channel d)). destruct (up_at m b s Hup) as (c & o & Hs & Hi & Ho & Sc & So).
  unfold ata_read_sectors. apply iwp_bind. eapply iwp_mono; [by eapply (setup_holds m b c o d id f)|].
  cbv beta. intros s1 r (-> & c1 & H1 & Hsu). rewrite (proj2 (Z.eqb_neq (base_of b) 0)) by (by destruct b).
  apply iwp_bind. eapply iwp_mono; [by eapply (command_holds m b c1 o d id f lba count CMD_READ_PIO s1 H1)|].
  cbv beta. intros s2 _ (c2 & n & H2 & Hc2 & Hsel & Dok). cbn [task_out] in Hc2. rewrite Hsel in Hc2.
  change (CMD_READ_PIO =? 0xEC) with false in Hc2. change (CMD_READ_PIO =? 0x20) with true in Hc2. cbv iota in Hc2.
  destruct Hsu as [(P1 & A1 & D1) S1 L1 C1]. rewrite L1, C1 in Hc2. destruct Hrq as [Hl Hc _].
  assert (ch_at c2 = ch_at c1 ∧ selected c2 = selected c1 ∧ slave_sel c2 = slave_sel c1) as (A2 & S2 & V2) by (by destruct Hc2 as [->| ->]).
  eapply iwp_mono; [eapply (read_loop_holds _ _ _ _ lba (Z.to_nat count) index _ _ _ id f H2)|].
  - destruct Hc2 as [->| ->]; [by left|right; split; [lia|done]].
  - lia.
  - by rewrite S2.
  - intros l Hlr. apply Dok. lia.
  - done.
  - by rewrite (drive_channel m index d).
  - cbv beta. intros s3 r [[-> H3]|(Er & c3 & n3 & H3 & A3)]; [left|right]; (split; [done|]).
    + eapply (up_intro m b); [exact H3| |exact Ho| |exact So].
      * split; [by left|]. split; [|exact D1]. intros x. change (ch_at (with_phase Idle c2) x) with (ch_at c2 x). by rewrite A2.
      * eapply (steady_after m b d id f); [done|done| |].
        -- intros x. change (ch_at (with_phase Idle c2) x) with (ch_at c2 x). by rewrite A2.
        -- change (slave_sel (with_phase Idle c2)) with (slave_sel c2). by rewrite V2.
    + eapply (devices_intro m b); [exact H3| |apply Ho]. intros x. by rewrite A3, A2.
Qed.

Lemma disks_replaced m d id f f' : disk_at m d id f → disks (replaced m d (Disk id f')) = disks m.
Proof.
  intros [Hd _]. unfold disks, found, at_place. assert (∀ ch sl a b, drive_of a b (replaced m d (Disk id f') ch sl) = drive_of a b (m ch sl)) as E.
  { intros ch sl a b. unfold replaced. destruct (Bool.eqb ch _ && Bool.eqb sl _) eqn:Eb; [|done].
    apply andb_true_iff in Eb as [->%Bool.eqb_prop ->%Bool.eqb_prop]. by rewrite Hd. }
  by rewrite !E.
Qed.

Lemma replaced_at m d id f' b x : c_true (d_channel d) = b →
  replaced m d (Disk id f') b x = if Bool.eqb x (c_true (d_slave d)) then Disk id f' else m b x.
Proof. intros Hb. unfold replaced. by rewrite Hb, Bool.eqb_reflx. Qed.
Lemma replaced_other m d id f' b x : c_true (d_channel d) = b → replaced m d (Disk id f') (negb b) x = m (negb b) x.
Proof. intros Hb. unfold replaced. rewrite Hb. by destruct b. Qed.

(** The channel [c] after a write to its selected disk. *)
Lemma devices_replaced m b (c : chan) d id f' :
  c_true (d_channel d) = b → slave_sel c = c_true (d_slave d) → selected c = Disk id f' →
  ch_at c (negb (slave_sel c)) = m b (negb (slave_sel c)) → ∀ x, ch_at c x = replaced m d (Disk id f') b x.
Proof.
  intros Hb Hsl Hd Hn x. rewrite (replaced_at m d id f' b x Hb), <- Hsl.
  destruct (Bool.eqb x (slave_sel c)) eqn:Eq; [by apply Bool.eqb_prop in Eq as ->|].
  assert (x = negb (slave_sel c)) as -> by (by destruct x, (slave_sel c)). exact Hn.
Qed.

Lemma up_replaced m s b (c o : chan) d id f f' :
  holds b c o 0 (padded (disks m)) (zlen (disks m)) s → disk_at m d id f → c_true (d_channel d) = b →
  resting c → slave_sel c = c_true (d_slave d) → (∀ x, ch_at c x = replaced m d (Disk id f') b x) →
  (∀ sl, device_ok (m b sl)) → (∀ l, 0 ≤ l → is_sector (f' l)) → idle (m (negb b)) o → steady o →
  up (replaced m d (Disk id f')) s.
Proof.
  intros Hs Hdisk Hb Hp Hsl Hat Hok Hsec Ho So. pose proof (disks_replaced m d id f f' Hdisk) as E.
  eapply (up_intro _ b); [by rewrite E|split_and!; [done|exact Hat|]| | |exact So].
  - intros x. rewrite (replaced_at m d id f' b x Hb). destruct (Bool.eqb x _); [|apply Hok]. pose proof (Hok (c_true (d_slave d))) as Hi.
    destruct Hdisk as [Hdisk _]. rewrite Hb in Hdisk. rewrite Hdisk in Hi. split; [apply Hi|exact Hsec].
  - destruct Ho as (O1 & O2 & O3). split_and!; [done|intros x; by rewrite (replaced_other m d id f' b x Hb)|intros x; by rewrite (replaced_other m d id f' b x Hb)].
  - intros Ea. rewrite Hsl. rewrite Hat, (replaced_at m d id f' b _ Hb) in Ea. by destruct (c_true (d_slave d)).
Qed.

(** What a write has done when its last word is out: the other devices, and the
    disk's other sectors, are as they were; if no fault has been seen ([sent]), all
    the sectors are on the disk, the last one unless its writing has just failed; and
    if the drive has finished by then, the flush is carried out and the result 0. *)
Definition write_result (m : bool → bool → device) (d : ata_drive) (id : list Z) (f : Z → list Z) (lba count : Z) (buf : list Z) (s' : ata H) (sent : option Z) : Prop :=
  let b := c_true (d_channel d) in
  ∃ f', devices_are (replaced m d (Disk id f')) s' ∧ (∀ l, l < lba ∨ lba + count ≤ l → f' l = f l) ∧
  match sent with
  | None => True
  | Some base =>
      (∀ l, l ≠ lba + count - 1 ∨ ch_phase (ide_view (at_hw s') b) = Idle → f' l = overwritten f lba (Z.to_nat count) buf l) ∧
      (ide_busy (at_hw s') b = 0%nat → iwp (flush_cache base) (λ s2 r, r = 0 ∧ up (replaced m d (Disk id f')) s2) s')
  end.

Lemma flush_ok m s b (c o : chan) d id f f' :
  holds b c o 0 (padded (disks m)) (zlen (disks m)) s → disk_at m d id f → c_true (d_channel d) = b →
  resting c → slave_sel c = c_true (d_slave d) → selected c = Disk id f' → (∀ x, ch_at c x = replaced m d (Disk id f') b x) →
  (∀ sl, device_ok (m b sl)) → (∀ l, 0 ≤ l → is_sector (f' l)) → idle (m (negb b)) o → steady o →
  iwp (flush_cache (base_of b)) (λ s2 r, r = 0 ∧ up (replaced m d (Disk id f')) s2) s.
Proof.
  intros Hs Hdisk Hb Hp Hsl Hsel Hat Hok Hsec Ho So. unfold flush_cache. apply iwp_bind.
  eapply iwp_mono; [apply (out_holds b 7 CMD_CACHE_FLUSH _ _ _ _ _ Hs); [done|by split|by split]|]. cbv beta. intros s4 _ (c4 & n4 & H4 & _ & Hc4).
  assert (resting c4 ∧ slave_sel c4 = slave_sel c ∧ ch_at c4 = ch_at c) as (R4 & S4 & A4).
  { cbn [task_out] in Hc4. rewrite Hsel in Hc4. change (CMD_CACHE_FLUSH =? 0xEC) with false in Hc4. change (CMD_CACHE_FLUSH =? 0x20) with false in Hc4.
    change (CMD_CACHE_FLUSH =? 0x30) with false in Hc4. cbv iota in Hc4. destruct Hc4 as [->|(_ & _ & _ & ->)]; (split; [first [by left|by right]|done]). }
  apply iwp_bind. eapply iwp_mono; [apply (wait_not_busy_holds _ _ _ _ _ _ _ H4)|].
  - intros E0. unfold selected in *. rewrite A4, S4 in E0. congruence.
  - cbv beta. intros s5 v (H5 & _ & ->). apply iwp_ret. split; [done|].
    eapply (up_replaced m s5 b c4 o d id f f'); try done; [by rewrite S4|intros x; by rewrite A4].
Qed.

Lemma ata_send_ok m s index d id f lba count buf :
  up m s → 0 ≤ index → disks m !! Z.to_nat index = Some d → disk_at m d id f → request d lba count →
  zlen buf = 512 * count → Forall (λ x, 0 ≤ x < 256) buf →
  iwp (send_sectors index lba count buf) (write_result m d id f lba count buf) s.
Proof.
  intros Hup Hix Hd Hdisk Hrq Hlen Hby. set (b := c_true (d_channel d)). destruct (up_at m b s Hup) as (c & o & Hs & Hi & Ho & Sc & So).
  unfold send_sectors. apply iwp_bind. eapply iwp_mono; [by eapply (setup_holds m b c o d id f)|].
  cbv beta. intros s1 r (-> & c1 & H1 & Hsu). rewrite (proj2 (Z.eqb_neq (base_of b) 0)) by (by destruct b).
  apply iwp_bind. eapply iwp_mono; [by eapply (command_holds m b c1 o d id f lba count CMD_WRITE_PIO s1 H1)|].
  cbv beta. intros s2 _ (c2 & n & H2 & Hc2 & Hsel & Dok). cbn [task_out] in Hc2. rewrite Hsel in Hc2.
  change (CMD_WRITE_PIO =? 0xEC) with false in Hc2. change (CMD_WRITE_PIO =? 0x20) with false in Hc2.
  change (CMD_WRITE_PIO =? 0x30) with true in Hc2. cbv iota in Hc2.
  destruct Hsu as [(P1 & A1 & D1) S1 L1 C1]. rewrite L1, C1 in Hc2. destruct Hrq as [Hl Hc _]. unfold zlen in Hlen.
  assert (ch_at c2 = ch_at c1 ∧ selected c2 = selected c1 ∧ slave_sel c2 = slave_sel c1) as (A2 & S2 & V2) by (by destruct Hc2 as [->| ->]).
  apply iwp_bind. eapply iwp_mono; [eapply (write_loop_holds _ _ _ _ lba (Z.to_nat count) 0 index buf _ _ _ id f H2)|].
  { destruct Hc2 as [->| ->]; [left|by right]. cbn [ch_phase with_phase]. destruct (Z.to_nat count) eqn:E0; [lia|done]. }
  1,2,3,4,5: rewrite ?S2; first [done | lia | by rewrite (drive_channel m index d)].
  cbv beta. intros s3 r (c3 & f' & [[m3 W1] W2 W3 W4 W5 W6 W7]). rewrite Z2Nat.id in W6, W7 by lia. specialize (W5 Dok).
  change (drop (Z.to_nat (2 * 0)) buf) with buf in W7. rewrite V2 in W2, W3. rewrite A2, A1 in W3.
  assert (∀ x, ch_at c3 x = replaced m d (Disk id f') b x) as Hat.
  { apply (devices_replaced m b c3 d id f'); [done|by rewrite W2|done|by rewrite W2]. }
  assert (devices_are (replaced m d (Disk id f')) s3) as Hdev.
  { eapply (devices_intro _ b); [exact W1|exact Hat|]. intros x. rewrite (replaced_other m d id f' b x eq_refl). apply Ho. }
  destruct W7 as [->|(-> & Hr & _ & Hw)]; cbn [Z.eqb negb]; apply iwp_ret; exists f'; (split; [done|]); (split; [done|]); [done|].
  fold b. rewrite (ho_view _ _ _ _ _ _ _ W1), (ho_busy _ _ _ _ _ _ _ W1). split; [exact Hw|]. intros ->.
  by eapply (flush_ok m s3 b c3 o d id f f' W1); try done; rewrite W2.
Qed.

Lemma ata_init_up m s : powered m s → iwp ata_init (λ s' _, up m s') s.
Proof.
  intros (c & o & Hs & Hi & Ho). eapply iwp_mono; [eapply (ata_init_holds _ _ _ _ _ _ _ Hs Hi Ho)|].
  cbv beta. intros s' _ (c' & o' & Hs' & Hi' & Ho' & Sc & So). exists c', o'. split_and!; [done..|by intros _|by intros _].
Qed.

(** Refused before any port is touched: no such drive, or past its end. *)
Definition refused (m : bool → bool → device) (index lba count : Z) : Prop :=
  index < 0 ∨ zlen (disks m) ≤ index ∨ ∃ d, disks m !! Z.to_nat index = Some d ∧ d_sectors d < lba + count.

Lemma setup_refused m s index lba count :
  up m s → 0 ≤ lba < 2 ^ 32 → 0 ≤ count < 256 → refused m index lba count → setup_transfer index lba count s = Some (s, 0).
Proof.
  intros (c & o & Hs & _) Hl Hc Hr. unfold setup_transfer, io_bind, io_get. rewrite (get_drive_ok _ _ _ _ _ _ Hs).
  destruct (Z.ltb_spec index 0) as [|Hix]; [done|]. destruct Hr as [Hr|[Hr|(d & Hd & Hr)]]; [lia| |].
  - rewrite lookup_ge_None_2; [done|]. unfold zlen in Hr. lia.
  - rewrite Hd. assert ((d_sectors d <? u32 (lba + count)) || (u32 (lba + count) <? lba) = true) as ->; [|done].
    apply orb_true_iff. rewrite !Z.ltb_lt. destruct (Z_lt_le_dec (lba + count) (2 ^ 32)); [left; by rewrite u32_small by lia|right].
    unfold u32. zpow. clear -Hl Hc l. zlia.
Qed.

End Proofs.

(** ** A machine *)

Record ide_sim := IdeSim { is_chan : bool → chan }.
Definition set_chan (b : bool) (c : chan) (h : ide_sim) : ide_sim := IdeSim (λ x, if Bool.eqb x b then c else is_chan h x).
Definition which_chan (p : Z) : option bool := if (0x1F0 <=? p) && (p <=? 0x1F7) then Some false else if (0x170 <=? p) && (p <=? 0x177) then Some true else None.
Definition status_value (c : chan) : Z :=
  match selected c with Absent => 0 | Packet => 0x41 | Disk _ _ => match ch_phase c with Idle => 0x50 | Failed => 0x51 | _ => 0x58 end end.
Definition sim_out (w p v : Z) (h : ide_sim) : ide_sim :=
  match which_chan p with
  | None => h
  | Some b =>
      let c := is_chan h b in
      if p =? base_of b then match ch_phase c with DataOut lba n got => set_chan b (data_out lba n got v c) h | _ => h end
      else set_chan b (task_out (p - base_of b) v c) h
  end.
Definition sim_in (w p : Z) (h : ide_sim) : ide_sim * Z :=
  match which_chan p with
  | None => (h, 0)
  | Some b =>
      let c := is_chan h b in
      match p - base_of b with
      | 0 => match ch_phase c with DataIn (x :: ws) next => (set_chan b (data_in ws next c) h, x) | _ => (h, 0) end
      | 4 => (h, ch_lba1 c)
      | 5 => (h, ch_lba2 c)
      | 7 => (h, status_value c)
      | _ => (h, 0)
      end
  end.
#[export] Instance sim_ports : Ports ide_sim := {| p_out := sim_out; p_in := sim_in; p_hlt h := (h, []) |}.

Lemma which_chan_ok b r : 0 ≤ r ≤ 7 → which_chan (base_of b + r) = Some b ∧ base_of b + r - base_of b = r ∧ (base_of b + r =? base_of b) = (r =? 0).
Proof.
  intros Hr. assert (r = 0 ∨ r = 1 ∨ r = 2 ∨ r = 3 ∨ r = 4 ∨ r = 5 ∨ r = 6 ∨ r = 7) as Hc by lia.
  by destruct b; repeat destruct Hc as [-> | Hc]; rewrite ?Hc.
Qed.

Lemma set_chan_same b c h : is_chan (set_chan b c h) b = c ∧ is_chan (set_chan b c h) (negb b) = is_chan h (negb b).
Proof. by destruct b. Qed.

Lemma status_value_ok c : status_ok c (status_value c).
Proof. unfold status_ok, status_value. destruct (selected c); [by left|done|by destruct (ch_phase c)]. Qed.

#[export] Instance sim_ide : Ide ide_sim.
Proof.
  refine {| ide_ok h := True; ide_view := is_chan; ide_busy h b := 0%nat |}; [done|..].
  - intros h b r v _ _ _ Hr _. cbn [p_out sim_ports]. unfold sim_out. destruct (which_chan_ok b r) as (E1 & E2 & E3); [lia|].
    rewrite E1, E2, E3, (proj2 (Z.eqb_neq r 0)) by lia. destruct (set_chan_same b (task_out r v (is_chan h b)) h). split_and!; try done. by left.
  - intros h b _. cbn [p_in sim_ports]. unfold sim_in. destruct (which_chan_ok b 7) as (E1 & E2 & E3); [lia|]. rewrite E1, E2.
    split_and!; [done..|]. apply status_value_ok.
  - intros h b _. cbn [p_in sim_ports]. unfold sim_in. assert (which_chan (ctrl_of b) = None) as -> by (by destruct b). by split_and!.
  - intros h b r _ _ Hr. cbn [p_in sim_ports]. unfold sim_in. destruct (which_chan_ok b r) as (E1 & E2 & E3); [lia|]. rewrite E1, E2.
    destruct Hr as [-> | ->]; by split_and!.
  - intros h b w ws next _ _ Hp. cbn [p_in sim_ports]. unfold sim_in. destruct (which_chan_ok b 0) as (E1 & E2 & E3); [lia|].
    rewrite Z.add_0_r in E1, E2. rewrite E1, E2, Hp. destruct (set_chan_same b (data_in ws next (is_chan h b)) h). split_and!; try done. by left.
  - intros h b lba left got w _ _ Hp _. cbn [p_out sim_ports]. unfold sim_out. destruct (which_chan_ok b 0) as (E1 & E2 & E3); [lia|].
    rewrite Z.add_0_r in E1, E3. rewrite E1, E3, Z.eqb_refl, Hp. destruct (set_chan_same b (data_out lba left got w (is_chan h b)) h).
    split_and!; try done. by left.
Defined.

(** A packet device and a disk of 1000 sectors, the slave of the first channel. *)
Definition demo_id : list Z := replicate 27 0 ++ [0x5155; 0x454D] ++ replicate 18 0x2020 ++ replicate 13 0 ++ [1000] ++ replicate 195 0.
Definition demo_devices (ch sl : bool) : device :=
  if ch then Absent else if sl then Disk demo_id (λ l, replicate 512 (l mod 256)) else Packet.
Definition demo_ata : ata ide_sim := MkAta (IdeSim (λ b, Chan 0 0 0 0 0 Idle (demo_devices b))) [] 0.

Lemma demo_powered : powered demo_devices demo_ata.
Proof.
  assert (Forall (λ w, 0 ≤ w < 65536) demo_id) as Hid by (apply (bool_decide_unpack _); vm_compute; exact I).
  assert (∀ ch sl, device_ok (demo_devices ch sl)) as Hok.
  { intros [] []; try exact I. split; [by split|]. intros l Hl. split; [apply length_replicate|]. apply Forall_replicate. apply Z.mod_pos_bound. lia. }
  exists (Chan 0 0 0 0 0 Idle (demo_devices false)), (Chan 0 0 0 0 0 Idle (demo_devices true)).
  split; [by split|]. split; (split; [by left|by split]).
Qed.

Definition demo_drive : ata_drive := AtaDrive 1 0 1 1000 ([0x51; 0x55; 0x45; 0x4D] ++ replicate 37 0).

