(* ===== verification/Shell.v ===== *)
(** The shell: shell/shell.c.  The file system and the network stack are the
    components themselves; the rest of what the commands call is the interface
    [Office].  Console output goes to the transcript the file system keeps of its
    own ([Fat12.printed]), so that the order of all output is one list.  A string is
    its characters; the terminators the shell stores into its line buffer to cut
    off words are behind what it reads from the buffer afterwards. *)
From Stdlib Require Import ZArith Lia Bool Ascii String.
From stdpp Require Import base numbers gmap option list.
From S2P Require Import Ata Prelude Console Rtc Block Fat12 Io Net Tcp Dns Dhcp Keyboard Rtl8139.

#[local] Open Scope Z_scope.
#[local] Open Scope c_scope.
#[local] Open Scope io_scope.

(** ** Strings *)

Definition is_blank (c : Z) : bool := (c =? chr " ") || (c =? 9).
Definition is_digit (c : Z) : bool := (chr "0" <=? c) && (c <=? chr "9").

(** The longest prefix whose characters satisfy [p], and the rest: the loops
    over a string up to a character. *)
Fixpoint span (p : Z → bool) (s : list Z) : list Z * list Z :=
  match s with
  | [] => ([], [])
  | c :: r => if p c then let '(a, b) := span p r in (c :: a, b) else ([], s)
  end.

Definition skip_spaces (s : list Z) : list Z := (span is_blank s).2.

(** The word at the start, and the string behind its separator. *)
Definition cut_word (blank : Z → bool) (s : list Z) : list Z * list Z :=
  let '(w, r) := span (λ c, negb (blank c)) s in (w, tail r).

(** [v = v * 10 + digit] for the digits at the start. *)
Definition digits_value (width : Z → Z) (ds : list Z) : Z :=
  fold_left (λ v c, width (v * 10 + (c - 48))) ds 0.
Definition parse_uint (s : list Z) : Z := digits_value u32 (span is_digit s).1.

(** One part of an address, and what follows it.  [int v] of more than nine digits
    may overflow, which is undefined; more than three digits are refused whatever
    its value. *)
Definition parse_part (ip : Z) (s : list Z) : option (Z * list Z) :=
  let '(ds, r) := span is_digit s in
  if bool_decide (ds = []) then None
  else
    let v := digits_value (λ v, v) ds in
    if (255 <? v) || (3 <? zlen ds) then None else Some (u32 (ip <<< 8) ||| v, r).
(** The part now and [parts] more. *)
Fixpoint parse_parts (parts : nat) (ip : Z) (s : list Z) : option Z :=
  match parse_part ip s with
  | None => None
  | Some (ip, r) =>
      match parts, r with
      | O, [] => Some ip
      | S parts, c :: r => if c =? chr "." then parse_parts parts ip r else None
      | _, _ => None
      end
  end.
Definition parse_ipv4 (s : list Z) : option Z := parse_parts 3 0 s.

(** ** State *)

Definition LINE_MAX : Z := 128.
Definition HIST_SIZE : Z := 16.

(** What the commands call besides the file system, the network stack and the
    ports.  Programs started from the shell change files and print. *)
Class Office (D W : Type) := {
  (** [keyboard_getchar]; [None]: no key ever comes *)
  of_getchar : W → option (W * Z);
  of_rtc_read : W → W * rtc_time;
  (** [timer_sleep] *)
  of_sleep : Z → W → option W;
  of_pmm_report : W → W * list con_call;
  of_ata_count : W → Z;
  of_ata_drive : Z → W → ata_drive;
  (** drive, sector; [None]: an error *)
  of_ata_read : Z → Z → W → W * option (list Z);
  of_link_up : W → W * bool;
  of_ac97_debug : W → W * list con_call;
  of_elf_exec : list Z → fs D → W → fs D * W * Z;
  of_editor_run : list Z → fs D → W → fs D * W;
  (** [false]: the desktop has halted the machine *)
  of_desktop_run : fs D → W → fs D * W * bool;
  (** [acpi_poweroff] when it returns *)
  of_acpi_poweroff : W → W
}.

Record shell (D N W : Type) := Shell {
  sh_fs : fs D; sh_net : net N;
  (** the static reply buffer of [dhcp_configure] *)
  sh_reply : list Z;
  sh_world : W;
  hist : list (list Z); hist_n : Z; hist_next : Z
}.
Arguments Shell {D N W}. Arguments sh_fs {D N W}. Arguments sh_net {D N W}. Arguments sh_reply {D N W}.
Arguments sh_world {D N W}. Arguments hist {D N W}. Arguments hist_n {D N W}. Arguments hist_next {D N W}.

#[export] Instance shell_hw {D N W} : HasHw (shell D N W) W.
Proof. refine {| get_hw := sh_world; set_hw w s := Shell (sh_fs s) (sh_net s) (sh_reply s) w (hist s) (hist_n s) (hist_next s) |}. done. Defined.

(** Whether a command comes back, or has halted the machine. *)
Inductive outcome := Back | Halts.

Section Shell.
Context {D N W : Type} `{BlockDevice D} `{Nic N} `{Office D W} `{Ports W}.
Abbreviation sh := (shell D N W).
Abbreviation M := (IO sh).
(** Buffers that are read although the call to fill them failed, and [struct
    tcp_conn] before [tcp_connect]. *)
Variables (junk : list Z) (conn0 : tcp_conn).
Variable fuel : nat.

Definition with_fs (f : fs D) (s : sh) : sh := Shell f (sh_net s) (sh_reply s) (sh_world s) (hist s) (hist_n s) (hist_next s).
Definition with_net (n : net N) (s : sh) : sh := Shell (sh_fs s) n (sh_reply s) (sh_world s) (hist s) (hist_n s) (hist_next s).
Definition with_reply (r : list Z) (s : sh) : sh := Shell (sh_fs s) (sh_net s) r (sh_world s) (hist s) (hist_n s) (hist_next s).
Definition with_hist (h : list (list Z)) (n next : Z) (s : sh) : sh := Shell (sh_fs s) (sh_net s) (sh_reply s) (sh_world s) h n next.

Definition on_fs {X} (m : fs D → fs D * X) : M X := λ s, let '(f, x) := m (sh_fs s) in Some (with_fs f s, x).
Definition on_net {X} (m : IO (net N) X) : M X :=
  λ s, match m (sh_net s) with Some (n, x) => Some (with_net n s, x) | None => None end.
Definition on_tcp {X} (c : tcp_conn) (m : T X) : M (tcp_conn * X) :=
  λ s, match m (sh_net s, c) with Some ((n, c), x) => Some (with_net n s, (c, x)) | None => None end.
Definition ask {X} (f : W → W * X) : M X := λ s, let '(w, x) := f (sh_world s) in Some (set_hw w s, x).
Definition get_net : M (net N) := λ s, Some (s, sh_net s).

Definition say (k : list con_call) : M unit := on_fs (λ f, (print k f, tt)).
Definition put (c : Z) : M unit := say [CPutc c].
Definition write (t : list Z) : M unit := say (con_write t).
Definition color (fg : vga_color) : M unit := say [CColor fg VGA_BLACK].
Definition dec (v : Z) : M unit := say (con_dec v).
Definition red (t arg : list Z) : M unit :=
  color VGA_LIGHT_RED ;! write t ;! write arg ;! put 10 ;! color VGA_LIGHT_GREY.

(** ** Built-in commands *)

Definition shell_banner : M unit :=
  color VGA_YELLOW ;!
  write nl ;!
  write (str "   ____                       _    _         ___  ____  " ++ nl) ;!
  write (str "  |  _ \ _   _ _ __ ___  _ __ | | _(_)_ __   / _ \/ ___| " ++ nl) ;!
  write (str "  | |_) | | | | '_ ` _ \| '_ \| |/ / | '_ \ | | | \___ \ " ++ nl) ;!
  write (str "  |  __/| |_| | | | | | | |_) |   <| | | | || |_| |___) |" ++ nl) ;!
  write (str "  |_|    \__,_|_| |_| |_| .__/|_|\_\_|_| |_| \___/|____/ " ++ nl) ;!
  write (str "                        |_|                              " ++ nl) ;!
  color VGA_LIGHT_GREY.

Definition cmd_help : M unit :=
  color VGA_LIGHT_CYAN ;!
  write (str "PumpkinShell (PKSH) commands:" ++ nl) ;!
  color VGA_LIGHT_GREY ;!
  write (str "  General : help  clear  echo <text>  banner  about" ++ nl) ;!
  write (str "  Files   : ls  cd <d>  pwd  cat <f>  edit <f>  write <f> <t>  touch <f>" ++ nl) ;!
  write (str "            mkdir <d>  rm [-r] <f>  rmdir <d>" ++ nl) ;!
  write (str "  System  : disks [read N]  meminfo  pci  audio  date  uptime  sleep <s>" ++ nl) ;!
  write (str "  Network : net  dhcp  dns <host>  ping <host>  http <host>" ++ nl) ;!
  write (str "  Programs: run <file.elf>  desktop" ++ nl) ;!
  write (str "  Power   : reboot  poweroff  halt" ++ nl).

Definition cmd_about : M unit :=
  shell_banner ;!
  write nl ;!
  write (str "  PumpkinOS - a 32-bit, BIOS-only hobby OS." ++ nl) ;!
  write (str "  Protected mode, VGA + serial console, PS/2 keyboard," ++ nl) ;!
  write (str "  and this very shell: PumpkinShell (PKSH)." ++ nl ++ nl).

(** [print_2d] and [print2] *)
Definition print_2d (v : Z) : M unit := (if v <? 10 then put (chr "0") else io_ret tt) ;! dec v.

Definition cmd_uptime : M unit :=
  let! t := on_net timer_ticks in
  let! n := get_net in
  let hz := nic_hz (nic n) in
  if hz =? 0 then write (str "uptime: timer is not running" ++ nl)
  else
    let total := t / hz in
    let days := total / 86400 in
    write (str "up ") ;!
    (if negb (days =? 0) then dec days ;! write (str "d ") else io_ret tt) ;!
    print_2d ((total / 3600) mod 24) ;! put (chr ":") ;!
    print_2d ((total / 60) mod 60) ;! put (chr ":") ;!
    print_2d (total mod 60) ;!
    write (str "   (") ;! dec t ;! write (str " ticks @ ") ;! dec hz ;! write (str " Hz)" ++ nl).

Definition cmd_sleep (args : list Z) : M unit :=
  let secs := parse_uint args in
  if secs =? 0 then write (str "usage: sleep <seconds>" ++ nl)
  else
    let secs := if 3600 <? secs then 3600 else secs in
    write (str "sleeping for ") ;! dec secs ;! write (str "s ..." ++ nl) ;!
    (λ s, match of_sleep (secs * 1000) (sh_world s) with Some w => Some (set_hw w s, tt) | None => None end) ;!
    write (str "awake!" ++ nl).

Definition cmd_meminfo : M unit := let! k := ask of_pmm_report in say k.
Definition cmd_ls : M unit := on_fs fs_list.

Definition cmd_cat (args : list Z) : M unit :=
  if bool_decide (args = []) then write (str "usage: cat <filename>" ++ nl)
  else
    let! r := on_fs (fs_cat args) in
    if negb (r =? 0) then red (str "cat: file not found: ") args else io_ret tt.

Definition cmd_cd (args : list Z) : M unit :=
  on_fs (fs_cd (if bool_decide (args = []) then str "/" else args)) ;! io_ret tt.

Definition cmd_date : M unit :=
  let! t := ask of_rtc_read in
  dec (year t) ;!
  put (chr "-") ;! print_2d (month t) ;! put (chr "-") ;! print_2d (day t) ;!
  put (chr " ") ;! print_2d (hour t) ;! put (chr ":") ;! print_2d (minute t) ;! put (chr ":") ;! print_2d (second t) ;!
  put 10.

Definition print_padded (s : list Z) (width : Z) : M unit :=
  write s ;! write (replicate (Z.to_nat (width - zlen s)) (chr " ")).

Definition disk_line (i : Z) : M unit :=
  let! d := ask (λ w, (w, of_ata_drive i w)) in
  write (str "  ") ;! dec i ;! write (str "  ") ;!
  write (if c_true (d_channel d) then str "secondary/" else str "primary/") ;!
  print_padded (if c_true (d_slave d) then str "slave" else str "master") 6 ;!
  write (str "  ") ;! dec (d_sectors d / 2048) ;! write (str " MiB") ;!
  write (str "  (") ;! dec (d_sectors d) ;! write (str " sec)  ") ;! write (c_string (d_model d)) ;! put 10.

Definition cmd_disks (args : list Z) : M unit :=
  let! n := ask (λ w, (w, of_ata_count w)) in
  if n =? 0 then write (str "no IDE/ATA disks detected" ++ nl)
  else if bool_decide (take 4 args = str "read") then
    let lba := parse_uint (skip_spaces (drop 4 args)) in
    let! r := ask (of_ata_read 0 lba) in
    match r with
    | None => write (str "read failed (out of range or controller error)" ++ nl)
    | Some sec =>
        write (str "disk0 LBA ") ;! dec lba ;! write (str " first 16 bytes:") ;!
        io_for 16 0 (λ i, put (chr " ") ;! say (con_hex (arr_get sec i))) ;!
        put 10
    end
  else
    write (str "  #  pos          size        model" ++ nl) ;!
    io_for (Z.to_nat n) 0 disk_line.

Definition cmd_mkdir (args : list Z) : M unit :=
  if bool_decide (args = []) then write (str "usage: mkdir <name>" ++ nl) else on_fs (fs_mkdir args) ;! io_ret tt.
Definition cmd_touch (args : list Z) : M unit :=
  if bool_decide (args = []) then write (str "usage: touch <name>" ++ nl) else on_fs (fs_create junk args []) ;! io_ret tt.

(** Whether the arguments begin with "-r", and the rest. *)
Definition rm_args (args : list Z) : bool * list Z :=
  match args with
  | a :: b :: r =>
      if (a =? chr "-") && (b =? chr "r") && (match r with [] => true | c :: _ => c =? chr " " end)
      then (true, (span (λ c, c =? chr " ") r).2) else (false, args)
  | _ => (false, args)
  end.
Definition cmd_rm (args : list Z) : M unit :=
  let '(recursive, args) := rm_args args in
  if bool_decide (args = []) then write (str "usage: rm [-r] <file>" ++ nl)
  else
    let! rc := on_fs (if recursive then fs_rmrf junk args else fs_remove junk args) in
    if negb (rc =? 0) then red (str "rm: not found: ") args else io_ret tt.

Definition cmd_rmdir (args : list Z) : M unit :=
  if bool_decide (args = []) then write (str "usage: rmdir <dir>" ++ nl)
  else
    let! rc := on_fs (fs_rmdir junk args) in
    if negb (rc =? 0) then red (str "rmdir: not found: ") args else io_ret tt.

(** The file's name and its contents: what follows the space, as much as the
    buffer takes, and a newline. *)
Definition write_args (args : list Z) : list Z * list Z :=
  let '(name, content) := cut_word (λ c, c =? chr " ") args in
  (name, take (Z.to_nat (LINE_MAX + 2 - 1)) content ++ nl).
Definition cmd_write (args : list Z) : M unit :=
  if bool_decide (args = []) then write (str "usage: write <file> <text>" ++ nl)
  else let '(name, data) := write_args args in on_fs (fs_create junk name data) ;! io_ret tt.

(** *** PCI *)

Definition lower_hex (d : Z) : Z := arr_get (str "0123456789abcdef") d.
(** [for (i = (digits - 1) * 4; i >= 0; i -= 4)] *)
Definition print_hexn (v : Z) (digits : nat) : M unit :=
  write (map (λ i, lower_hex ((v >>> (4 * Z.of_nat i)) &&& 0xF)) (rev (seq 0 digits))).

Definition pci_class_name (cls sub : Z) : list Z :=
  if cls =? 0x01 then str "Storage"
  else if cls =? 0x02 then str "Network"
  else if cls =? 0x03 then str "Display"
  else if cls =? 0x04 then
    if sub =? 0x01 then str "Audio (AC97)" else if sub =? 0x03 then str "Audio (HDA)" else str "Multimedia"
  else if cls =? 0x06 then str "Bridge"
  else if cls =? 0x0C then if sub =? 0x03 then str "USB" else str "Serial bus"
  else [].

Definition pci_function (dev fn : Z) : M unit :=
  let! id := pci_cfg_read32 0 dev fn 0x00 in
  if (id &&& 0xFFFF) =? 0xFFFF then io_ret tt
  else
    let! cc := pci_cfg_read32 0 dev fn 0x08 in
    let cls := u8 (cc >>> 24) in let sub := u8 (cc >>> 16) in
    let audio := cls =? 0x04 in
    write (str "  00:") ;!
    print_hexn dev 2 ;! put (chr ".") ;! print_hexn fn 1 ;!
    write (str "   ") ;!
    print_hexn (id &&& 0xFFFF) 4 ;! put (chr ":") ;! print_hexn (id >>> 16) 4 ;!
    write (str "  ") ;!
    print_hexn cls 2 ;! put (chr ":") ;! print_hexn sub 2 ;!
    write (str "  ") ;!
    (if audio then color VGA_LIGHT_GREEN else io_ret tt) ;!
    write (pci_class_name cls sub) ;!
    (if audio then color VGA_LIGHT_GREY else io_ret tt) ;!
    put 10.

Definition pci_device (dev : Z) : M unit :=
  let! id0 := pci_cfg_read32 0 dev 0 0x00 in
  if (id0 &&& 0xFFFF) =? 0xFFFF then io_ret tt
  else
    let! ht := pci_cfg_read16 0 dev 0 0x0E in
    let htype := u8 ht in
    let nfn := if c_true (htype &&& 0x80) then 8%nat else 1%nat in
    io_for nfn 0 (pci_function dev).

Definition cmd_pci : M unit :=
  write (str "  bus:dev.fn  vend:dev   class  device" ++ nl) ;! io_for 32 0 pci_device.

(** *** Networking *)

Definition ip_octets (ip : Z) : list Z :=
  map (λ i, (ip >>> i) &&& 0xFF) [24; 16; 8] ++ [ip &&& 0xFF].
Definition ip_string (ip : Z) : list Z :=
  match ip_octets ip with
  | [a; b; c; d] => dec_digits a ++ str "." ++ dec_digits b ++ str "." ++ dec_digits c ++ str "." ++ dec_digits d
  | _ => []
  end.
Definition print_ip (ip : Z) : M unit := write (ip_string ip).

Definition mac_string (mac : list Z) : list Z :=
  mjoin (map (λ i, [lower_hex (arr_get mac i >>> 4); lower_hex (arr_get mac i &&& 0xF)] ++ (if i <? 5 then [chr ":"] else []))
    [0; 1; 2; 3; 4; 5]).
Definition print_mac : M unit := let! n := get_net in write (mac_string (net_mac n)).

(** A label, an address and a newline. *)
Definition ip_line (label : list Z) (ip : net N → Z) : M unit :=
  write label ;! (let! n := get_net in print_ip (ip n)) ;! put 10.

Definition no_card : M unit := write (str "no network card detected" ++ nl).

Definition cmd_net : M unit :=
  let! n := get_net in
  if negb (nic_present (nic n)) then no_card
  else
    write (str "  MAC     : ") ;! print_mac ;! put 10 ;!
    write (str "  link    : ") ;!
    (let! up := ask of_link_up in write (if up then str "up" ++ nl else str "down" ++ nl)) ;!
    write (str "  status  : ") ;!
    if negb (net_up n) then write (str "no IP  (run 'dhcp')" ++ nl)
    else
      write (str "up" ++ nl) ;!
      ip_line (str "  IP      : ") net_ip ;! ip_line (str "  netmask : ") net_mask ;!
      ip_line (str "  gateway : ") net_gateway ;! ip_line (str "  DNS     : ") net_dns.

(** [dhcp_configure()] *)
Definition lease : M Z :=
  λ s, match dhcp_configure fuel (sh_reply s) (sh_net s) with
       | Some (n, (r, reply)) => Some (with_reply reply (with_net n s), r)
       | None => None
       end.
Definition cmd_dhcp : M unit :=
  let! n := get_net in
  if negb (nic_present (nic n)) then no_card
  else
    write (str "Requesting a DHCP lease..." ++ nl) ;!
    let! r := lease in
    if c_true r then
      color VGA_LIGHT_GREEN ;! write (str "lease acquired" ++ nl) ;! color VGA_LIGHT_GREY ;!
      ip_line (str "  IP      : ") net_ip ;! ip_line (str "  gateway : ") net_gateway ;! ip_line (str "  DNS     : ") net_dns
    else
      color VGA_LIGHT_RED ;! write (str "DHCP failed (no response)" ++ nl) ;! color VGA_LIGHT_GREY.

Definition usage_or_down (args usage : list Z) (k : M unit) : M unit :=
  if bool_decide (args = []) then write (usage ++ nl)
  else let! n := get_net in if negb (net_up n) then write (str "network is down; run 'dhcp' first" ++ nl) else k.

Definition cmd_dns (args : list Z) : M unit :=
  usage_or_down args (str "usage: dns <hostname>") (
    write (str "Resolving ") ;! write args ;! write (str " ..." ++ nl) ;!
    let! r := on_net (dns_resolve fuel args) in
    match r with
    | Some ip => write (str "  ") ;! write args ;! write (str " -> ") ;! print_ip ip ;! put 10
    | None => color VGA_LIGHT_RED ;! write (str "could not resolve" ++ nl) ;! color VGA_LIGHT_GREY
    end).

Definition resolve_target (name : list Z) : M (option Z) :=
  match parse_ipv4 name with
  | Some ip => io_ret (Some ip)
  | None => on_net (dns_resolve fuel name)
  end.

(** [for (i = 0; i < 4; i++)]: how many replies have come. *)
Fixpoint ping_loop (n : nat) (ip i ok : Z) : M Z :=
  match n with
  | O => io_ret ok
  | S n =>
      let! r := on_net (icmp_ping fuel ip 1000) in
      match r with
      | Some rtt =>
          write (str "  reply ") ;! dec (i + 1) ;! write (str ": time=") ;! dec rtt ;! write (str " ms" ++ nl) ;!
          ping_loop n ip (i + 1) (ok + 1)
      | None => write (str "  reply ") ;! dec (i + 1) ;! write (str ": timeout" ++ nl) ;! ping_loop n ip (i + 1) ok
      end
  end.

Definition cmd_ping (args : list Z) : M unit :=
  usage_or_down args (str "usage: ping <host>") (
    let! r := resolve_target args in
    match r with
    | None => red (str "ping: cannot resolve ") args
    | Some ip =>
        write (str "PING ") ;! print_ip ip ;! write nl ;!
        let! ok := ping_loop 4 ip 0 0 in
        write (str "  ") ;! dec ok ;! write (str "/4 received" ++ nl)
    end).

(** "<host> [path]": at most 127 characters of the host; what is left of it, and
    behind the spaces, is the path. *)
Definition http_args (args : list Z) : list Z * list Z :=
  let host := take 127 (span (λ c, negb (c =? chr " ")) args).1 in
  let path := (span (λ c, c =? chr " ") (drop (length host) args)).2 in
  (host, if bool_decide (path = []) then str "/" else path).
Definition crlf : list Z := [13; 10].
Definition http_request (host path : list Z) : list Z :=
  str "GET " ++ path ++ str " HTTP/1.0" ++ crlf ++ str "Host: " ++ host ++ crlf ++ str "Connection: close" ++ crlf ++ crlf.

(** The response as it comes: [n] rounds at most, [total] bytes so far. *)
Fixpoint http_loop (n : nat) (c : tcp_conn) (total : Z) : M (tcp_conn * Z) :=
  match n with
  | O => io_stuck
  | S n =>
      let! r := on_tcp c (tcp_recv fuel 1499 5000) in
      let '(c, (r, buf)) := r in
      if r <=? 0 then io_ret (c, total)
      else write (c_string buf) ;! http_loop n c (total + r)
  end.

Definition cmd_http (args : list Z) : M unit :=
  usage_or_down args (str "usage: http <host> [path]") (
    let '(host, path) := http_args args in
    let! r := resolve_target host in
    match r with
    | None => red (str "http: cannot resolve ") host
    | Some ip =>
        write (str "Connecting to ") ;! print_ip ip ;! write (str ":80 ..." ++ nl) ;!
        let! r := on_tcp conn0 (tcp_connect fuel ip 80) in
        let '(c, r) := r in
        if negb (c_true r) then color VGA_LIGHT_RED ;! write (str "http: connection failed" ++ nl) ;! color VGA_LIGHT_GREY
        else
          let! r := on_tcp c (tcp_send fuel (http_request host path)) in
          let '(c, r) := r in
          if r <? 0 then
            color VGA_LIGHT_RED ;! write (str "http: send failed" ++ nl) ;! color VGA_LIGHT_GREY ;!
            on_tcp c (tcp_close fuel) ;! io_ret tt
          else
            let! r := http_loop fuel c 0 in
            let '(c, total) := r in
            write (nl ++ str "[") ;! dec total ;! write (str " bytes]" ++ nl) ;!
            on_tcp c (tcp_close fuel) ;! io_ret tt
    end).

(** *** Programs and power *)

Definition elf_exec (path : list Z) : M Z :=
  λ s, let '(f, w, r) := of_elf_exec path (sh_fs s) (sh_world s) in Some (set_hw w (with_fs f s), r).
Definition cmd_run (args : list Z) : M unit :=
  if bool_decide (args = []) then write (str "usage: run <program.elf>" ++ nl)
  else
    let! r := elf_exec args in
    if negb (r =? 0) then red (str "run: not a runnable ELF program: ") args else io_ret tt.

Definition cmd_edit (args : list Z) : M unit :=
  if bool_decide (args = []) then write (str "usage: edit <file>" ++ nl)
  else io_put (λ s, let '(f, w) := of_editor_run args (sh_fs s) (sh_world s) in set_hw w (with_fs f s)).

Definition desktop_run : M outcome :=
  λ s, let '(f, w, back) := of_desktop_run (sh_fs s) (sh_world s) in
       Some (set_hw w (with_fs f s), if back : bool then Back else Halts).

Definition cmd_poweroff : M outcome :=
  color VGA_LIGHT_CYAN ;! write (str "Powering off via ACPI..." ++ nl) ;! color VGA_LIGHT_GREY ;!
  ask (λ w, (of_acpi_poweroff w, tt)) ;!
  color VGA_YELLOW ;! write (str "ACPI power-off unavailable; halting instead." ++ nl) ;! color VGA_LIGHT_GREY ;!
  io_ret Halts.

(** [while (good & 0x02) good = inb(0x64);] *)
Fixpoint wait_8042 (n : nat) (good : Z) : M unit :=
  if negb (c_true (good &&& 0x02)) then io_ret tt
  else match n with
       | O => io_stuck
       | S n => let! good := inb 0x64 in wait_8042 n good
       end.
Definition cmd_reboot : M outcome :=
  write (str "Rebooting..." ++ nl) ;! wait_8042 fuel 0x02 ;! outb 0x64 0xFE ;! io_ret Halts.

Definition cmd_halt : M outcome :=
  color VGA_LIGHT_CYAN ;! write (str "System halted. It is now safe to turn off your computer." ++ nl) ;!
  color VGA_LIGHT_GREY ;! io_ret Halts.

(** ** Command dispatch *)

(** The command word and its argument string. *)
Definition split_line (line : list Z) : list Z * list Z :=
  let '(cmd, r) := cut_word is_blank (skip_spaces line) in (cmd, skip_spaces r).

Definition run (m : M unit) : M outcome := m ;! io_ret Back.
Definition not_found (cmd : list Z) : M unit := red (str "pksh: command not found: ") cmd.

Definition execute (cmd args : list Z) : M outcome :=
  let named name := bool_decide (cmd = str name) in
  if bool_decide (cmd = []) then io_ret Back
  else if named "help"%string then run cmd_help
  else if named "clear"%string || named "cls"%string then run (say [CClear])
  else if named "echo"%string then run (write args ;! put 10)
  else if named "ls"%string || named "dir"%string then run cmd_ls
  else if named "cat"%string || named "type"%string then run (cmd_cat args)
  else if named "cd"%string then run (cmd_cd args)
  else if named "pwd"%string then run (on_fs fs_pwd)
  else if named "date"%string || named "time"%string then run cmd_date
  else if named "mkdir"%string then run (cmd_mkdir args)
  else if named "write"%string then run (cmd_write args)
  else if named "touch"%string then run (cmd_touch args)
  else if named "rm"%string || named "del"%string then run (cmd_rm args)
  else if named "rmdir"%string then run (cmd_rmdir args)
  else if named "disks"%string || named "hdd"%string then run (cmd_disks args)
  else if named "banner"%string then run (shell_banner ;! put 10)
  else if named "about"%string then run cmd_about
  else if named "uptime"%string then run cmd_uptime
  else if named "sleep"%string then run (cmd_sleep args)
  else if named "meminfo"%string then run cmd_meminfo
  else if named "net"%string || named "ipconfig"%string then run cmd_net
  else if named "dhcp"%string then run cmd_dhcp
  else if named "dns"%string || named "nslookup"%string then run (cmd_dns args)
  else if named "pci"%string || named "lspci"%string then run cmd_pci
  else if named "audio"%string then run (let! k := ask of_ac97_debug in say k)
  else if named "ping"%string then run (cmd_ping args)
  else if named "http"%string then run (cmd_http args)
  else if named "edit"%string || named "ed"%string then run (cmd_edit args)
  else if named "run"%string || named "exec"%string then run (cmd_run args)
  else if named "desktop"%string || named "gui"%string then desktop_run
  else if named "poweroff"%string || named "shutdown"%string then cmd_poweroff
  else if named "reboot"%string then cmd_reboot
  else if named "halt"%string then cmd_halt
  else run (not_found cmd).

Definition shell_execute (line : list Z) : M outcome := let '(cmd, args) := split_line line in execute cmd args.

(** [fs_cwd] gives the string in the file system's own buffer. *)
Definition print_prompt : M unit :=
  color VGA_LIGHT_GREEN ;! write (str "pksh:") ;!
  (let! p := on_fs fs_cwd in write (c_string p)) ;!
  write (str "> ") ;! color VGA_LIGHT_GREY.

(** ** History *)

Definition hist_add (cmd : list Z) : M unit :=
  if bool_decide (cmd = []) then io_ret tt
  else io_put (λ s,
    with_hist (<[Z.to_nat (hist_next s) := take (Z.to_nat (LINE_MAX - 1)) cmd]> (hist s))
      (if hist_n s <? HIST_SIZE then hist_n s + 1 else hist_n s) ((hist_next s + 1) mod HIST_SIZE) s).

Definition hist_get (view : Z) (s : sh) : list Z :=
  nth (Z.to_nat ((hist_next s - 1 - view + HIST_SIZE * 2) mod HIST_SIZE)) (hist s) [].

(** ** The read-eval-print loop *)

(** The characters of [line] up to [len], and [view]. *)
Record input := Input { line : list Z; view : Z }.

Definition erase (n : nat) : M unit := write (replicate n 8).

Definition replace_line (i : input) (text : list Z) (v : Z) : M input :=
  let t := take (Z.to_nat (LINE_MAX - 1)) text in
  erase (length (line i)) ;! write t ;! io_ret (Input t v).

(** The word under completion: what follows the last space of the line. *)
Definition last_word (line : list Z) : list Z := rev (span (λ c, negb (c =? chr " ")) (rev line)).1.

Definition complete (i : input) : M input :=
  let word := last_word (line i) in
  let prefix := take 15 word in
  let! r := on_fs (fs_complete prefix 16) in
  let '(n, comp) := r in
  if (1 <=? n) && (zlen prefix <? zlen comp) then
    let kept := take (length (line i) - length word) (line i) in
    let added := take (Z.to_nat (LINE_MAX - 1) - length kept) comp in
    erase (length word) ;! write added ;! io_ret (Input (kept ++ added) (view i))
  else io_ret i.

(** One character; [None]: a command has halted the machine. *)
Definition type_key (c : Z) (i : input) : M (option input) :=
  if c =? 10 then
    put 10 ;! hist_add (line i) ;!
    let! o := shell_execute (line i) in
    match o with
    | Back => print_prompt ;! io_ret (Some (Input [] (-1)))
    | Halts => io_ret None
    end
  else if c =? 8 then
    if 0 <? zlen (line i) then put 8 ;! io_ret (Some (Input (removelast (line i)) (view i)))
    else io_ret (Some i)
  else if c =? KEY_UP then
    let! s := io_get in
    if view i + 1 <? hist_n s then let! i := replace_line i (hist_get (view i + 1) s) (view i + 1) in io_ret (Some i)
    else io_ret (Some i)
  else if c =? KEY_DOWN then
    let! s := io_get in
    if 0 <? view i then let! i := replace_line i (hist_get (view i - 1) s) (view i - 1) in io_ret (Some i)
    else if view i =? 0 then let! i := replace_line i [] (-1) in io_ret (Some i)
    else io_ret (Some i)
  else if c =? 9 then let! i := complete i in io_ret (Some i)
  else if (32 <=? c) && (c <? 127) then
    if zlen (line i) <? LINE_MAX - 1 then put c ;! io_ret (Some (Input (line i ++ [c]) (view i))) else io_ret (Some i)
  else io_ret (Some i).

Definition keyboard_getchar : M Z :=
  λ s, match of_getchar (D := D) (sh_world s) with Some (w, c) => Some (set_hw w s, c) | None => None end.

(** [n] characters, or fewer if the machine is halted. *)
Fixpoint shell_loop (n : nat) (i : input) : M (option input) :=
  match n with
  | O => io_ret (Some i)
  | S n =>
      let! c := keyboard_getchar in
      let! r := type_key (u8 c) i in
      match r with Some i => shell_loop n i | None => io_ret None end
  end.

Definition shell_run (n : nat) : M (option input) := print_prompt ;! shell_loop n (Input [] (-1)).

End Shell.
