(* ===== verification/ShellThm.v ===== *)
(** Properties of [Shell.v]: the line on the screen is the line that is executed,
    the arrows recall the latest commands, [write] and [cat] store and print
    exactly the text, and addresses are read as they are printed. *)
From Stdlib Require Import ZArith Lia Bool Ascii String.
From stdpp Require Import base numbers gmap option list.
From S2P Require Import Ata Prelude Console Rtc Block Fat12 Fat12Table Fat12Logic Fat12Dir Fat12Names Fat12Store Fat12Files Fat12Volume.
From S2P Require Import Io Net NetThm Tcp Dhcp Keyboard Shell.

#[local] Open Scope Z_scope.
#[local] Open Scope c_scope.
#[local] Open Scope io_scope.

(** ** File operations that print nothing of their own *)

Section Mute.
Context {D : Type} `{BlockDevice D}.
Implicit Types s : fs D.

Definition mute {A} (m : Fat12.M A) : Prop := ∀ s, printed (m s).1 = printed s.

Lemma mute_ret {A} (x : A) : mute (ret x).
Proof. done. Qed.
Lemma mute_get : mute get.
Proof. done. Qed.
Lemma mute_bind {A B} (m : Fat12.M A) (k : A → Fat12.M B) : mute m → (∀ x, mute (k x)) → mute (bind m k).
Proof. intros Hm Hk s. unfold bind. specialize (Hm s). destruct (m s) as [s1 x]. by rewrite Hk. Qed.
Lemma mute_motor_off : mute floppy_motor_off.
Proof. done. Qed.
Lemma mute_read_sector lba : mute (read_sector lba).
Proof. intros s. unfold read_sector. by destruct (bd_read lba (dev s)). Qed.
Lemma mute_dir_walk {A} fuel idx dir (more : A → bool) body (a : A) : mute (dir_walk fuel idx dir more body a).
Proof.
  revert idx a. induction fuel as [|fuel IH]; intros idx a; [apply mute_ret|]. cbn [dir_walk].
  destruct (negb (more a)); [apply mute_ret|]. apply mute_bind; [apply mute_get|]. intros s. cbv zeta.
  destruct (_ =? 0); [apply mute_ret|]. apply mute_bind; [apply mute_read_sector|]. intros [sec|]; [|apply mute_ret].
  destruct (scan_sector 16 0 _ sec a); [apply IH|apply mute_ret].
Qed.
Lemma mute_walk {A} dir (more : A → bool) body (a : A) : mute (walk dir more body a).
Proof. apply mute_bind; [apply mute_get|]. intros s. apply mute_dir_walk. Qed.
Lemma mute_dir_find dir name : mute (dir_find dir name).
Proof. apply mute_bind; [apply mute_walk|]. intros r. apply mute_ret. Qed.
Lemma mute_read_cluster n lba rem acc : mute (read_cluster n lba rem acc).
Proof.
  revert lba rem acc. induction n as [|n IH]; intros lba rem acc; [apply mute_ret|]. cbn [read_cluster].
  destruct (rem <=? 0); [apply mute_ret|]. apply mute_bind; [apply mute_read_sector|]. intros [sec|]; [apply IH|apply mute_ret].
Qed.
Lemma mute_read_chain guard c rem acc : mute (read_chain guard c rem acc).
Proof.
  revert c rem acc. induction guard as [|guard IH]; intros c rem acc; [apply mute_ret|]. cbn [read_chain].
  destruct (_ && _); [|apply mute_ret]. apply mute_bind; [apply mute_get|]. intros s.
  apply mute_bind; [apply mute_read_cluster|]. intros [[ok acc'] rem']. destruct (negb ok); [apply mute_ret|].
  apply mute_bind; [apply mute_get|]. intros s'. apply IH.
Qed.

Lemma wp_mute {A} (m : Fat12.M A) Q s : mute m → wp m (λ s' x, printed s' = printed s → Q s' x) s → wp m Q s.
Proof. intros Hm Hw. apply Hw, Hm. Qed.

Lemma mute_complete prefix n : mute (fs_complete prefix n).
Proof.
  apply mute_bind; [apply mute_get|]. intros s. apply mute_bind; [apply mute_walk|]. intros r.
  apply mute_bind; [apply mute_motor_off|]. intros u. apply mute_ret.
Qed.

(** What [fs_cat] prints. *)
Lemma wp_fs_cat name s :
  fs_ok s →
  wp (fs_cat name) (λ s' r, quiet s s' ∧
    match files s !! to_83 name with
    | Some d => r = 0 ∧ printed s' = printed s ++ con_write d
    | None => dirs s !! to_83 name = None → r = -1 ∧ printed s' = printed s
    end) s.
Proof.
  intros Hok. pose proof (fo_vol _ Hok) as Hv. apply wp_bind, wp_get. rewrite (fo_mounted _ Hok). cbn [negb].
  apply wp_bind, wp_mute; [apply mute_dir_find|]. apply (wp_dir_find _ (cwd_chain s)); [done|apply Hok|].
  intros s1 Hq1 Ep1. fold (cwd_lbas s). pose proof (files_find s (to_83 name) Hok) as Hfind.
  assert (bd_healthy (dev s1)) as Hh1 by (by apply Hq1, Hv).
  destruct (find_ent _ _) as [[[lba off] ent]|].
  2:{ destruct Hfind as [-> _]. apply wp_bind, wp_mute; [apply mute_motor_off|]. apply wp_motor_off; [done|].
      intros s2 Hq2 Ep2. apply wp_ret. split; [by etrans|]. intros _. by rewrite Ep2, Ep1. }
  destruct Hfind as (-> & Hin & Hname). unfold file_of. destruct (ent_is_dir ent) eqn:Ed.
  { apply wp_bind, wp_say. intros s2 Hq2. apply wp_bind, wp_motor_off; [by apply Hq2|]. intros s3 Hq3. apply wp_ret.
    split; [by do 2 etrans|]. intros Hn. exfalso. revert Hn. unfold dirs. rewrite lookup_omap.
    rewrite (proj2 (dir_map_lookup _ _ ent (fo_names _ Hok)) (conj Hin Hname)). cbn. by rewrite Ed. }
  destruct (fo_owned _ Hok) as [H1 _ H3].
  destruct (ent_dot ent) eqn:Edot; [by rewrite (H3 ent Hin Edot) in Ed|].
  destruct (H1 ent Hin Edot) as (cl & Hch & _).
  apply wp_bind, wp_mute; [apply mute_read_chain|].
  eapply wp_mono; [apply (wp_read_chain _ _ _ _ cl s); [done|done|done| |apply u32_range]|].
  { pose proof (chain_length _ _ _ _ (eoc_bound s Hv) Hch). pose proof (eoc_bound s Hv). unfold EOC, READ_GUARD in *. lia. }
  cbv beta. intros s2 r (Hq2 & ->) Ep2. cbn [fst snd app]. rewrite <- (file_bytes_chain s ent cl Hv Hch).
  set (d := file_bytes s ent). apply wp_bind. unfold say. apply wp_upd. cbv beta.
  apply wp_bind, wp_mute; [apply mute_motor_off|]. apply wp_motor_off; [by apply Hq2, Hv|]. intros s3 Hq3 Ep3. apply wp_ret.
  split.
  - etrans; [exact Hq2|]. etrans; [|exact Hq3]. split; [by split|done|done|done].
  - split; [done|]. rewrite Ep3. cbn [print printed]. by rewrite Ep2, Ep1.
Qed.

(** *** Completion *)

Lemma common_spec (P : Z → Prop) out name : Forall P out → Forall P (common out name) ∧ zlen (common out name) ≤ zlen out.
Proof.
  intros Ho. revert name. unfold zlen. induction Ho as [|a out Ha Ho IH]; intros [|b name]; cbn [common]; try done.
  destruct (upper a =? upper b); [|done]. destruct (IH name) as [H1 H2]. split; [by constructor|]. cbn [length]. lia.
Qed.

Definition offer (P : Z → Prop) (a : Z * list Z) : Prop := Forall P a.2 ∧ zlen a.2 ≤ 15.

Lemma complete_scan (P : Z → Prop) up l (a : Z * list Z) :
  offer P a → (∀ e, e ∈ live (ents l) → Forall P (entry_name e)) → offer P (value (scan (complete_body up 16) l a)).
Proof.
  revert a. induction l as [|[[lba e] ent] l IH]; intros a [Ha Hl] He; [done|]. cbn [scan]. unfold complete_body at 1.
  unfold ents in He. rewrite fmap_cons in He. cbn [snd] in He. fold (ents l) in He. cbn [live] in He. unfold ent_end in He.
  destruct (arr_get ent 0 =? 0); [done|]. destruct (ent_hidden ent) eqn:Eh.
  { apply IH; [done|]. intros x Hx. apply He. by destruct (ent_skip ent); [|right]. }
  assert (ent_skip ent = false) as Es by (unfold ent_hidden in Eh; by destruct (ent_skip ent)). rewrite Es in He.
  assert (∀ x, x ∈ live (ents l) → Forall P (entry_name x)) as He' by (intros x Hx; apply He; by right).
  pose proof (He ent ltac:(left)) as Hn.
  destruct (ent_dot ent); [by apply IH|]. destruct (negb (has_prefix up (entry_name ent))); [by apply IH|].
  destruct (_ =? 1); apply IH; try done; split; cbn [snd].
  - by apply Forall_take.
  - unfold zlen. rewrite length_take. change (u32 (16 - 1)) with 15. lia.
  - by apply common_spec.
  - etrans; [by apply (common_spec P)|done].
Qed.

(** Completion prints nothing, changes nothing, and offers parts of names. *)
Lemma wp_fs_complete (P : Z → Prop) prefix s :
  fs_ok s → (∀ e, e ∈ entries s → Forall P (entry_name e)) →
  wp (fs_complete prefix 16) (λ s' r, quiet s s' ∧ printed s' = printed s ∧ offer P r) s.
Proof.
  intros Hok He. pose proof (fo_vol _ Hok) as Hv. apply wp_mute; [apply mute_complete|]. apply wp_bind, wp_get.
  apply wp_bind. apply (wp_walk _ (cwd_chain s)); [done|apply Hok|done|]. intros s1 e Hq1 _.
  apply wp_bind, wp_motor_off; [by apply Hq1, Hv|]. intros s2 Hq2. apply wp_ret. intros Ep.
  split; [by etrans|]. split; [done|]. cbn [snd]. apply complete_scan; [by split|]. rewrite ents_placed. exact He.
Qed.

Lemma quiet_entries s s' : quiet s s' → entries s' = entries s.
Proof.
  intros [[Hz Hg Hm' Hc Hp] Hh Hf Hs]. unfold entries, cwd_lbas, cwd_chain. rewrite Hg, Hc, Hf. f_equal. by apply slots_ext.
Qed.
End Mute.

(** ** What echoing does to the screen *)

Definition printable (c : Z) : Prop := 32 ≤ c < 127.

(** Console calls after which the screen has the text [t] from where the cursor
    was: never more than [n] characters of it at a time. *)
Inductive echo (n : Z) : list con_call → list Z → Prop :=
| echo_nil : echo n [] []
| echo_char ks t c : echo n ks t → printable c → zlen t < n → echo n (ks ++ [CPutc c]) (t ++ [c])
| echo_back ks t c : echo n ks (t ++ [c]) → echo n (ks ++ [CPutc 8]) t.

Lemma zlen_snoc {A} (l : list A) x : zlen (l ++ [x]) = zlen l + 1.
Proof. unfold zlen. rewrite length_app. cbn [length]. lia. Qed.

Lemma echo_write n w : Forall printable w →
  ∀ ks t, echo n ks t → zlen (t ++ w) ≤ n → echo n (ks ++ con_write w) (t ++ w).
Proof.
  induction 1 as [|c w Hc Hw IH]; intros ks t Ht Hn; [by rewrite !app_nil_r|].
  replace (t ++ c :: w) with ((t ++ [c]) ++ w) in * by by rewrite <- app_assoc.
  replace (ks ++ con_write (c :: w)) with ((ks ++ [CPutc c]) ++ con_write w) by by rewrite <- app_assoc.
  apply IH; [|done]. apply echo_char; [done..|]. unfold zlen in *. rewrite !length_app in Hn. cbn [length] in Hn. lia.
Qed.

Lemma echo_erase n w : ∀ ks t, echo n ks (t ++ w) → echo n (ks ++ con_write (replicate (length w) 8)) t.
Proof.
  induction w as [|c w IH] using rev_ind; intros ks t Ht; [by rewrite !app_nil_r in *|].
  rewrite length_app, Nat.add_comm. cbn [length Nat.add replicate].
  replace (ks ++ con_write (8 :: replicate (length w) 8)) with ((ks ++ [CPutc 8]) ++ con_write (replicate (length w) 8))
    by by rewrite <- app_assoc.
  apply IH, (echo_back _ _ _ c). by rewrite <- app_assoc.
Qed.

Lemma echo_replace n ks t kept old new :
  echo n ks t → t = kept ++ old → Forall printable new → zlen (kept ++ new) ≤ n →
  echo n (ks ++ con_write (replicate (length old) 8) ++ con_write new) (kept ++ new).
Proof. intros Ht -> Hp Hn. rewrite app_assoc. apply echo_write; [done| |done]. by apply echo_erase. Qed.

Lemma putc_plain c k :
  console_wf k → printable c → cur_col k + 1 < VGA_COLS →
  let k' := console_putc c k in
  cells k' = arr_set (cells k) (cur_row k * VGA_COLS + cur_col k) (vga_cell c (cur_attr k)) ∧
  cur_row k' = cur_row k ∧ cur_col k' = cur_col k + 1 ∧ cur_attr k' = cur_attr k.
Proof.
  intros [Hl Hr Hc Ha] Hp Hcol. unfold printable in Hp. unfold console_putc.
  rewrite (proj2 (Z.eqb_neq c 10)), (proj2 (Z.eqb_neq c 8)) by lia. unfold vga_putc, vga_put.
  rewrite (proj2 (Z.eqb_neq c 10)), (proj2 (Z.eqb_neq c 13)), (proj2 (Z.eqb_neq c 9)), (proj2 (Z.eqb_neq c 8)) by lia.
  cbn [serial_putc Console.outb set_cell set_pos cells cur_row cur_col cur_attr].
  rewrite (proj2 (Z.leb_gt VGA_COLS _)) by lia. cbn [set_cell set_pos cells cur_row cur_col cur_attr].
  rewrite (proj2 (Z.leb_gt VGA_ROWS _)) by lia. done.
Qed.

Lemma putc_back k :
  console_wf k → 0 < cur_col k →
  let k' := console_putc 8 k in
  cells k' = arr_set (cells k) (cur_row k * VGA_COLS + cur_col k - 1) (vga_cell 32 (cur_attr k)) ∧
  cur_row k' = cur_row k ∧ cur_col k' = cur_col k - 1 ∧ cur_attr k' = cur_attr k.
Proof.
  intros [Hl Hr Hc Ha] Hcol. unfold console_putc. cbn [Z.eqb Pos.eqb]. unfold vga_putc, vga_put. cbn [Z.eqb Pos.eqb].
  cbn [serial_putc Console.outb cur_col]. rewrite (proj2 (Z.ltb_lt 0 _)) by done.
  cbn [serial_putc Console.outb set_cell set_pos cells cur_row cur_col cur_attr].
  rewrite (proj2 (Z.leb_gt VGA_COLS _)) by lia. cbn [set_cell set_pos cells cur_row cur_col cur_attr].
  rewrite (proj2 (Z.leb_gt VGA_ROWS _)) by lia. cbn [set_cell set_pos cells cur_row cur_col cur_attr].
  by rewrite Z.add_sub_assoc.
Qed.

(** The text is on the screen, from where the cursor was, in the color set, with the
    cursor behind it.  No other cell has changed, except that cells behind the text
    may be blank: nothing is left of what was typed and erased. *)
Record on_row (k k' : console) (t : list Z) : Prop := {
  or_wf : console_wf k';
  or_row : cur_row k' = cur_row k;
  or_col : cur_col k' = cur_col k + zlen t;
  or_attr : cur_attr k' = cur_attr k;
  or_cells j : 0 ≤ j < zlen t →
    arr_get (cells k') (cur_row k * VGA_COLS + cur_col k + j) = vga_cell (arr_get t j) (cur_attr k);
  or_rest a : let start := cur_row k * VGA_COLS + cur_col k in
    ¬ (start ≤ a < start + zlen t) →
    arr_get (cells k') a = arr_get (cells k) a ∨ start ≤ a ∧ arr_get (cells k') a = vga_cell 32 (cur_attr k)
}.

Lemma arr_get_snoc t c j : 0 ≤ j ≤ zlen t → arr_get (t ++ [c]) j = if j =? zlen t then c else arr_get t j.
Proof.
  unfold zlen, arr_get. intros Hj. rewrite (proj2 (Z.ltb_ge j 0)) by lia. zcase.
  - rewrite lookup_app_r by lia. by replace (Z.to_nat j - length t)%nat with 0%nat by lia.
  - by rewrite lookup_app_l by lia.
Qed.

Lemma echo_on_row n ks t k : echo n ks t → console_wf k → cur_col k + n < VGA_COLS → on_row k (con_run ks k) t.
Proof.
  intros He Hk Hn. induction He as [|ks t c He IH Hc Ht|ks t c He IH].
  - change (zlen (@nil Z)) with 0 in *. split; [done|done|cbn [con_run fold_left]; change (zlen (@nil Z)) with 0; lia|done|..].
    + change (zlen (@nil Z)) with 0. intros j Hj. lia.
    + intros a start _. by left.
  - destruct IH as [Hw Hr Hcl Ha Hcells Hrest]. unfold con_run. rewrite fold_left_app. fold (con_run ks k). cbn [fold_left].
    set (k1 := con_run ks k) in *. destruct (console_putc_spec c k1 Hw) as [Hw' _].
    destruct (putc_plain c k1 Hw Hc ltac:(lia)) as (E1 & E2 & E3 & E4). pose proof (cw_row _ Hw) as Hrow. pose proof (cw_len _ Hw) as Hlen.
    pose proof (cw_col _ Hk). split; [done|lia|rewrite E3, zlen_snoc; lia|by rewrite E4|..].
    + rewrite zlen_snoc. intros j Hj. rewrite E1, arr_get_snoc by lia. rewrite Hr in Hrow. rewrite Hr, Hcl. unfold VGA_ROWS, VGA_COLS in *. zcase.
      * subst j. rewrite <- Ha, Z.add_assoc, arr_get_set_eq by lia. done.
      * rewrite arr_get_set_ne by lia. apply Hcells. lia.
    + rewrite zlen_snoc. intros a start Hout. assert (0 ≤ zlen t) by (unfold zlen; lia).
      rewrite E1, Hr, Hcl, arr_get_set_ne by (unfold start in Hout; lia). apply Hrest. fold start. lia.
  - destruct IH as [Hw Hr Hcl Ha Hcells Hrest]. unfold con_run. rewrite fold_left_app. fold (con_run ks k). cbn [fold_left].
    set (k1 := con_run ks k) in *. destruct (console_putc_spec 8 k1 Hw) as [Hw' _]. pose proof (cw_col _ Hk).
    assert (0 ≤ zlen t) by (unfold zlen; lia). rewrite zlen_snoc in *.
    destruct (putc_back k1 Hw ltac:(lia)) as (E1 & E2 & E3 & E4).
    split; [done|lia|lia|by rewrite E4|..].
    + intros j Hj. rewrite E1, Hr, Hcl. rewrite arr_get_set_ne by lia.
      rewrite Hcells by lia. rewrite arr_get_snoc by lia. by rewrite (proj2 (Z.eqb_neq j (zlen t))) by lia.
    + intros a start Hout. rewrite E1, Hr, Hcl, <- Ha. destruct (Z.eq_dec a (start + zlen t)) as [->|Hne].
      * right. split; [lia|]. pose proof (cw_row _ Hw). pose proof (cw_col _ Hw). pose proof (cw_len _ Hw). unfold VGA_ROWS, VGA_COLS in *.
        unfold start, VGA_COLS. replace (cur_row k * 80 + (cur_col k + (zlen t + 1)) - 1) with (cur_row k * 80 + cur_col k + zlen t) by lia.
        rewrite arr_get_set_eq by lia. by rewrite Ha.
      * rewrite arr_get_set_ne by (unfold start in Hne; lia). rewrite Ha. apply Hrest. fold start. lia.
Qed.

(** ** Typing *)

Section Typing.
Context {D N W : Type} `{BlockDevice D} `{Nic N} `{Office D W} `{Ports W}.
Variables (junk : list Z) (conn0 : tcp_conn) (fuel : nat).
Abbreviation sh := (shell D N W).
Implicit Types s : sh.

Lemma iwp_on_fs {X} (m : fs D → fs D * X) (Q : sh → X → Prop) s :
  wp m (λ f x, Q (with_fs f s) x) (sh_fs s) → iwp (on_fs m) Q s.
Proof. intros Hm. unfold iwp, on_fs, wp in *. destruct (m (sh_fs s)) as [f x]. by exists (with_fs f s), x. Qed.

(** From [s] to [s'] only reading has happened and [ks] was printed. *)
Record said (s s' : sh) (ks : list con_call) : Prop := {
  sd_rest : s' = with_fs (sh_fs s') s;
  sd_quiet : quiet (sh_fs s) (sh_fs s');
  sd_printed : printed (sh_fs s') = printed (sh_fs s) ++ ks
}.

Lemma said_refl s : said s s [].
Proof. split; [by destruct s|done|by rewrite app_nil_r]. Qed.
Lemma said_trans s1 s2 s3 k1 k2 : said s1 s2 k1 → said s2 s3 k2 → said s1 s3 (k1 ++ k2).
Proof.
  intros [E1 Q1 P1] [E2 Q2 P2]. split; [rewrite E2; by rewrite E1|by etrans|]. by rewrite P2, P1, app_assoc.
Qed.
Lemma said_hist s s' ks : said s s' ks → hist s' = hist s ∧ hist_n s' = hist_n s ∧ hist_next s' = hist_next s.
Proof. by intros [-> _ _]. Qed.

Lemma iwp_say ks (Q : sh → unit → Prop) s : (∀ s', said s s' ks → Q s' tt) → iwp (say ks) Q s.
Proof. intros HQ. apply iwp_on_fs, HQ. split; [done|by split; [split|..]|done]. Qed.

(** The prompt: a sound volume whose names are printable, and the history's ring. *)
Record prompt_ok (s : sh) : Prop := {
  po_fs : fs_ok (sh_fs s);
  po_names e : e ∈ entries (sh_fs s) → Forall printable (entry_name e);
  po_hist : zlen (hist s) = HIST_SIZE;
  po_lines l : l ∈ hist s → zlen l < LINE_MAX ∧ Forall printable l;
  po_n : 0 ≤ hist_n s ≤ HIST_SIZE;
  po_next : 0 ≤ hist_next s < HIST_SIZE
}.

Record input_ok (s : sh) (i : input) : Prop := {
  io_len : zlen (line i) < LINE_MAX;
  io_chars : Forall printable (line i);
  io_view : -1 ≤ view i < hist_n s
}.

Lemma said_prompt s s' ks : said s s' ks → prompt_ok s → prompt_ok s'.
Proof.
  intros Hs [P1 P2 P3 P4 P5 P6]. destruct (said_hist _ _ _ Hs) as (E1 & E2 & E3).
  split; rewrite ?E1, ?E2, ?E3; try done.
  - by apply (fs_ok_quiet (sh_fs s)), P1; apply Hs.
  - rewrite (quiet_entries (sh_fs s)) by apply Hs. exact P2.
Qed.

Lemma said_input s s' ks i : said s s' ks → input_ok s i → input_ok s' i.
Proof. intros Hs [I1 I2 I3]. destruct (said_hist _ _ _ Hs) as (_ & E2 & _). by split; rewrite ?E2. Qed.

(** After [ks] the screen's line goes from that of [i] to that of [i']. *)
Definition retyped (i i' : input) (ks : list con_call) : Prop :=
  ∀ n ks0, echo n ks0 (line i) → zlen (line i') ≤ n → echo n (ks0 ++ ks) (line i').

Lemma retyped_refl i : retyped i i [].
Proof. intros n ks0 He _. by rewrite app_nil_r. Qed.

Definition typed_ok (s : sh) (i : input) (s' : sh) (r : option input) : Prop :=
  ∃ i' ks, r = Some i' ∧ said s s' ks ∧ input_ok s' i' ∧ retyped i i' ks.

Lemma cut_ok (t : list Z) : Forall printable t →
  let t' := take (Z.to_nat (LINE_MAX - 1)) t in zlen t' < LINE_MAX ∧ Forall printable t'.
Proof. intros Ht. split; [|by apply Forall_take]. unfold zlen. rewrite length_take. unfold LINE_MAX. lia. Qed.

Lemma replace_ok s i t v :
  Forall printable t → -1 ≤ v < hist_n s →
  iwp (replace_line i t v) (λ s' i', typed_ok s i s' (Some i')) s.
Proof.
  intros Ht Hv. destruct (cut_ok t Ht) as [Hl Hp]. unfold replace_line. apply iwp_bind, iwp_say. intros s1 S1.
  apply iwp_bind, iwp_say. intros s2 S2. apply iwp_ret. pose proof (said_trans _ _ _ _ _ S1 S2) as S.
  destruct (said_hist _ _ _ S) as (_ & E & _).
  eexists _, _. split; [done|]. split; [exact S|]. split; [by split; [..|cbn [view]; rewrite E]|].
  intros n ks0 He Hn. cbn [line] in *. by apply (echo_replace n ks0 (line i) [] (line i)).
Qed.

Lemma last_word_split l : ∃ kept, l = kept ++ last_word l.
Proof.
  unfold last_word. assert (∀ p (t : list Z), t = (span p t).1 ++ (span p t).2) as Hs.
  { intros p t. induction t as [|c t IH]; [done|]. cbn [span]. destruct (p c); [|done].
    destruct (span p t) as [a b]. cbn [fst snd app] in *. by rewrite IH. }
  exists (rev (span (λ c, negb (c =? chr " ")) (rev l)).2). rewrite <- rev_app_distr, <- Hs. by rewrite rev_involutive.
Qed.

Lemma complete_ok s i :
  prompt_ok s → input_ok s i → iwp (complete i) (λ s' i', typed_ok s i s' (Some i')) s.
Proof.
  intros Hp [I1 I2 I3]. unfold complete. apply iwp_bind, iwp_on_fs.
  eapply wp_mono; [apply (wp_fs_complete printable); apply Hp|]. intros f [m comp] (Hq & Ep & Hc & _). cbv beta.
  assert (said s (with_fs f s) []) as S0 by (split; [done|exact Hq|by rewrite app_nil_r]).
  destruct (_ && _).
  2:{ apply iwp_ret. exists i, []. split; [done|]. split; [exact S0|]. split; [by apply (said_input s _ []); [|split]|]. apply retyped_refl. }
  destruct (last_word_split (line i)) as [kept Ek]. set (word := last_word (line i)) in *.
  assert (take (length (line i) - length word) (line i) = kept) as ->.
  { rewrite Ek at 2. apply take_app_length'. rewrite Ek, length_app. lia. }
  set (added := take (Z.to_nat (LINE_MAX - 1) - length kept) comp).
  assert (Forall printable added) as Ha by (by apply Forall_take, Hc).
  assert (Forall printable kept) as Hk by (rewrite Ek in I2; by apply Forall_app in I2 as [? _]).
  assert (zlen (kept ++ added) < LINE_MAX) as Hl.
  { unfold zlen in *. rewrite Ek in I1. rewrite length_app in I1. unfold added. rewrite length_app, length_take. unfold LINE_MAX in *. lia. }
  apply iwp_bind, iwp_say. intros s1 S1. apply iwp_bind, iwp_say. intros s2 S2. apply iwp_ret.
  pose proof (said_trans _ _ _ _ _ S0 (said_trans _ _ _ _ _ S1 S2)) as S. destruct (said_hist _ _ _ S) as (_ & E & _).
  eexists _, _. split; [done|]. split; [exact S|].
  split; [split; cbn [line view]; [done|by apply Forall_app|by rewrite E]|].
  intros n ks0 He Hn. cbn [line] in *. by apply (echo_replace n ks0 (line i)).
Qed.

Lemma removelast_split (l : list Z) : 0 < zlen l → ∃ c, l = removelast l ++ [c].
Proof. intros Hl. exists (List.last l 0). apply app_removelast_last. intros ->. done. Qed.

Lemma hist_get_ok s v : prompt_ok s → Forall printable (hist_get v s).
Proof.
  intros Hp. unfold hist_get. set (k := Z.to_nat _). destruct (nth_in_or_default k (hist s) []) as [Hin| ->]; [|constructor].
  apply list_elem_of_In in Hin. by apply (po_lines _ Hp).
Qed.

Lemma type_key_ok c s i :
  prompt_ok s → input_ok s i → c ≠ 10 → iwp (type_key junk conn0 fuel c i) (typed_ok s i) s.
Proof.
  intros Hp Hi Hc. pose proof Hi as [I1 I2 I3]. unfold type_key. rewrite (proj2 (Z.eqb_neq c 10)) by done.
  assert (typed_ok s i s (Some i)) as Hsame.
  { exists i, []. split; [done|]. split; [apply said_refl|]. split; [done|]. apply retyped_refl. }
  assert (∀ t v, Forall printable t → -1 ≤ v < hist_n s →
    iwp (let! i := replace_line i t v in io_ret (Some i)) (typed_ok s i) s) as Hrep.
  { intros t v Ht Hv. apply iwp_bind. eapply iwp_mono; [by apply replace_ok|]. intros s' i' Hs. by apply iwp_ret. }
  destruct (c =? 8).
  { destruct (Z.ltb_spec 0 (zlen (line i))); [|by apply iwp_ret]. destruct (removelast_split (line i)) as [x Ex]; [done|].
    set (l := removelast (line i)) in *. apply iwp_bind, iwp_say. intros s1 S1. apply iwp_ret.
    eexists _, _. split; [done|]. split; [exact S1|]. destruct (said_hist _ _ _ S1) as (_ & E & _).
    rewrite Ex in I1, I2. rewrite zlen_snoc in I1. apply Forall_app in I2 as [I2 _].
    split; [split; cbn [line view]; [lia|done|by rewrite E]|]. intros n ks0 He _. cbn [line]. apply (echo_back _ _ _ x). by rewrite <- Ex. }
  destruct (c =? KEY_UP).
  { apply iwp_bind, iwp_get. destruct (Z.ltb_spec (view i + 1) (hist_n s)); [|by apply iwp_ret].
    apply Hrep; [by apply hist_get_ok|lia]. }
  destruct (c =? KEY_DOWN).
  { apply iwp_bind, iwp_get. pose proof (po_n _ Hp). destruct (Z.ltb_spec 0 (view i)); [apply Hrep; [by apply hist_get_ok|lia]|].
    destruct (view i =? 0); [|by apply iwp_ret]. apply Hrep; [constructor|lia]. }
  destruct (c =? 9).
  { apply iwp_bind. eapply iwp_mono; [by apply complete_ok|]. intros s' i' Hs. by apply iwp_ret. }
  destruct (_ && _) eqn:Ec; [|by apply iwp_ret]. destruct (Z.ltb_spec (zlen (line i)) (LINE_MAX - 1)); [|by apply iwp_ret].
  apply andb_true_iff in Ec as [Ec1%Z.leb_le Ec2%Z.ltb_lt]. assert (printable c) as Hpc by done.
  apply iwp_bind, iwp_say. intros s1 S1. apply iwp_ret. eexists _, _. split; [done|]. split; [exact S1|].
  destruct (said_hist _ _ _ S1) as (_ & E & _). split.
  - split; cbn [line view]; [rewrite zlen_snoc; lia|apply Forall_app; split; [done|by constructor]|by rewrite E].
  - intros n ks0 He Hn. cbn [line] in *. rewrite zlen_snoc in Hn. apply echo_char; [done..|lia].
Qed.

(** The states and inputs that keys other than Enter lead to from the prompt, with
    lines of at most [n] characters on the way. *)
Inductive types (n : Z) (s0 : sh) : sh → input → Prop :=
| types_start : types n s0 s0 (Input [] (-1))
| types_key s i c s' i' : types n s0 s i → c ≠ 10 → type_key junk conn0 fuel c i s = Some (s', Some i') → zlen (line i') ≤ n → types n s0 s' i'.

Lemma types_ok n s0 s i :
  prompt_ok s0 → types n s0 s i → prompt_ok s ∧ input_ok s i ∧ ∃ ks, said s0 s ks ∧ echo n ks (line i).
Proof.
  intros Hp Ht. induction Ht as [|s i c s' i' Ht IH Hc Hk Hn].
  - split; [done|]. split; [|exists []; split; [apply said_refl|constructor]].
    split; [done|constructor|]. cbn [view]. pose proof (po_n _ Hp). lia.
  - destruct IH as (Hps & Hi & ks & Hs & He). destruct (type_key_ok c s i Hps Hi Hc) as (s2 & r & E & i2 & k2 & -> & Hs2 & Hi2 & Hr).
    rewrite Hk in E. injection E as <- <-. split; [by eapply said_prompt|]. split; [done|].
    exists (ks ++ k2). split; [by eapply said_trans|]. by apply Hr.
Qed.

(** C12: the line on the screen is the line that Enter will execute.  From a prompt,
    whatever keys are pressed, letters, backspace, the arrows that recall commands
    and Tab that completes names, and however the completions turn out: every key
    is handled at once, the line keeps within its buffer, no file is touched, and,
    provided that prompt and line have always fitted into one row of the screen, the
    console shows exactly the line, with the cursor behind it, nothing left of what
    was erased, and the rest of the screen as it was. *)
Theorem line_on_screen n s0 s i k :
  prompt_ok s0 → types n s0 s i → console_wf k → cur_col k + n < VGA_COLS →
  (∀ c, c ≠ 10 → ∃ s' i', type_key junk conn0 fuel c i s = Some (s', Some i')) ∧
  zlen (line i) < LINE_MAX ∧ files (sh_fs s) = files (sh_fs s0) ∧
  ∃ ks, printed (sh_fs s) = printed (sh_fs s0) ++ ks ∧ on_row k (con_run ks k) (line i).
Proof.
  intros Hp Ht Hk Hn. destruct (types_ok n s0 s i Hp Ht) as (Hps & Hi & ks & Hs & He). split.
  - intros c Hc. destruct (type_key_ok c s i Hps Hi Hc) as (s' & r & E & i' & _ & -> & _). by exists s', i'.
  - split; [apply Hi|]. split; [apply (fs_ok_quiet (sh_fs s0)), Hp; apply Hs|].
    exists ks. split; [apply Hs|by eapply echo_on_row].
Qed.

(** ** History *)

Record hist_ok (s : sh) : Prop := {
  ho_len : zlen (hist s) = HIST_SIZE;
  ho_lines l : l ∈ hist s → zlen l < LINE_MAX;
  ho_n : 0 ≤ hist_n s ≤ HIST_SIZE;
  ho_next : 0 ≤ hist_next s < HIST_SIZE
}.

(** The commands that can be recalled, the latest first. *)
Definition recent (s : sh) : list (list Z) := map (λ v, hist_get v s) (seqZ 0 (hist_n s)).
Definition push (l : list Z) (h : list (list Z)) : list (list Z) :=
  if bool_decide (l = []) then h else take (Z.to_nat HIST_SIZE) (take (Z.to_nat (LINE_MAX - 1)) l :: h).

Lemma recent_at s v : 0 ≤ v < hist_n s → recent s !! Z.to_nat v = Some (hist_get v s).
Proof.
  intros Hv. unfold recent. rewrite list_lookup_fmap, lookup_seqZ_lt by lia. cbn. do 2 f_equal. lia.
Qed.
Lemma recent_length s : 0 ≤ hist_n s → zlen (recent s) = hist_n s.
Proof. intros Hn. unfold recent, zlen. rewrite length_map, length_seqZ. lia. Qed.

Lemma hist_add_spec cmd s :
  hist_ok s → iwp (hist_add cmd) (λ s' _, hist_ok s' ∧ recent s' = push cmd (recent s)) s.
Proof.
  intros Hok. unfold hist_add, push. case_bool_decide; [by apply iwp_ret|]. apply iwp_put.
  destruct Hok as [K1 K2 K3 K4]. set (t := take (Z.to_nat (LINE_MAX - 1)) cmd). set (n' := if hist_n s <? HIST_SIZE then _ else _).
  assert (n' = Z.min HIST_SIZE (hist_n s + 1)) as En by (unfold n'; zcase; lia). unfold HIST_SIZE, zlen in *.
  assert (Z.to_nat (hist_next s) < length (hist s))%nat as Hlt by lia. split.
  - split; cbn [with_hist hist hist_n hist_next]; [unfold zlen; by rewrite length_insert| |unfold HIST_SIZE; lia|unfold HIST_SIZE; apply Z.mod_pos_bound; lia].
    intros l [j Hj]%list_elem_of_lookup. apply list_lookup_insert_Some in Hj as [(_ & <- & _)|[_ Hj]];
      [unfold t, zlen; rewrite length_take; unfold LINE_MAX; lia|by eapply K2, list_elem_of_lookup_2].
  - apply list_eq. intros j. assert (0 ≤ n') as Hn' by lia.
    set (s' := with_hist _ _ _ s). assert (hist_n s' = n') as En' by done.
    destruct (decide (Z.of_nat j < n')) as [Hj|Hj].
    2:{ rewrite lookup_ge_None_2; [|pose proof (recent_length s' Hn') as Hl; unfold zlen in Hl; lia].
        symmetry. apply lookup_ge_None_2. rewrite length_take. cbn [length]. pose proof (recent_length s ltac:(lia)) as Hl. unfold zlen in Hl. lia. }
    rewrite <- (Nat2Z.id j) at 1. rewrite recent_at by lia. rewrite lookup_take_lt by lia.
    unfold hist_get, s'. cbn [with_hist hist hist_next]. unfold HIST_SIZE in *. destruct j as [|j]; cbn [lookup list_lookup].
    + replace ((hist_next s + 1) mod 16 - 1 - Z.of_nat 0 + 16 * 2) with ((hist_next s + 1) mod 16 + 31) by lia.
      replace (((hist_next s + 1) mod 16 + 31) mod 16) with (hist_next s) by (clear -K4; zlia). f_equal. apply nth_lookup_Some. by rewrite list_lookup_insert_eq.
    + rewrite <- (Nat2Z.id j) at 2. rewrite recent_at by lia. unfold hist_get, HIST_SIZE.
      set (v := Z.of_nat j) in *. replace (Z.of_nat (S j)) with (v + 1) in * by lia.
      assert (0 ≤ v ≤ 14) as Hv by lia.
      replace (((hist_next s + 1) mod 16 - 1 - (v + 1) + 16 * 2) mod 16) with ((hist_next s - 1 - v + 16 * 2) mod 16) by (clear -K4 Hv; zlia).
      f_equal. rewrite !nth_lookup. by rewrite list_lookup_insert_ne by (clear -K4 Hv; zlia).
Qed.

(** *** Commands leave the history alone *)

Definition same_hist (s s' : sh) : Prop := hist s' = hist s ∧ hist_n s' = hist_n s ∧ hist_next s' = hist_next s.
Definition still {A} (m : IO sh A) : Prop := ∀ s, ilp m (λ s' _, same_hist s s') s.

Lemma still_ret {A} (x : A) : still (io_ret x).
Proof. intros s. by apply ilp_ret. Qed.
Lemma still_stuck {A} : still (io_stuck (A := A)).
Proof. intros s. apply ilp_stuck. Qed.
Lemma still_bind {A B} (m : IO sh A) (k : A → IO sh B) : still m → (∀ x, still (k x)) → still (io_bind m k).
Proof.
  intros Hm Hk s. apply ilp_bind. eapply ilp_mono; [apply Hm|]. intros s1 x (E1 & E2 & E3).
  eapply ilp_mono; [apply Hk|]. intros s2 y (F1 & F2 & F3). split_and!; congruence.
Qed.
Lemma still_on_fs {A} (m : fs D → fs D * A) : still (on_fs m).
Proof. intros s s' x. unfold on_fs. destruct (m (sh_fs s)) as [f y]. by intros [= <- _]. Qed.
Lemma still_on_net {A} (m : IO (net N) A) : still (on_net m).
Proof. intros s s' x. unfold on_net. destruct (m (sh_net s)) as [[n y]|]; [|done]. by intros [= <- _]. Qed.
Lemma still_on_tcp {A} c (m : T A) : still (on_tcp c m).
Proof. intros s s' x. unfold on_tcp. destruct (m (sh_net s, c)) as [[[n c'] y]|]; [|done]. by intros [= <- _]. Qed.
Lemma still_ask {A} (f : W → W * A) : still (ask f).
Proof. intros s s' x. unfold ask. destruct (f (sh_world s)) as [w y]. by intros [= <- _]. Qed.
Lemma still_get_net : still get_net.
Proof. by intros s s' x [= <- _]. Qed.
Lemma still_inl port : still (inl port).
Proof. intros s s' x. unfold inl, in_port. destruct (p_in 4 _ _) as [h v]. by intros [= <- _]. Qed.
Lemma still_inb port : still (inb port).
Proof. intros s s' x. unfold inb, in_port. destruct (p_in 1 _ _) as [h v]. by intros [= <- _]. Qed.
Lemma still_outl port v : still (outl port v).
Proof. by intros s s' x [= <- _]. Qed.
Lemma still_outb port v : still (outb port v).
Proof. by intros s s' x [= <- _]. Qed.
Lemma still_for n i (m : Z → IO sh unit) : (∀ i, still (m i)) → still (io_for n i m).
Proof. intros Hm. revert i. induction n as [|n IH]; intros i; [apply still_ret|]. cbn [io_for]. apply still_bind; [apply Hm|]. intros _. apply IH. Qed.
Lemma still_sleep (f : W → option W) : still (λ s, match f (sh_world s) with Some w => Some (set_hw w s, tt) | None => None end).
Proof. intros s s' x. destruct (f (sh_world s)); [|done]. by intros [= <- _]. Qed.
Lemma still_lease : still (lease fuel).
Proof. intros s s' x. unfold lease. destruct (dhcp_configure fuel _ _) as [[n [r reply]]|]; [|done]. by intros [= <- _]. Qed.
Lemma still_elf path : still (elf_exec path).
Proof. intros s s' x. unfold elf_exec. destruct (of_elf_exec path _ _) as [[f w] r]. by intros [= <- _]. Qed.
Lemma still_desktop : still desktop_run.
Proof. intros s s' x. unfold desktop_run. destruct (of_desktop_run _ _) as [[f w] b]. by intros [= <- _]. Qed.
Lemma still_editor args : still (io_put (λ s : sh, let '(f, w) := of_editor_run args (sh_fs s) (sh_world s) in set_hw w (with_fs f s))).
Proof. intros s. apply ilp_put. by destruct (of_editor_run args _ _). Qed.

Ltac still_step :=
  match goal with
  | |- still (io_bind _ _) => apply still_bind; [|intros ?]
  | |- still (io_ret _) => apply still_ret
  | |- still io_stuck => apply still_stuck
  | |- still (on_fs _) => apply still_on_fs
  | |- still (on_net _) => apply still_on_net
  | |- still (on_tcp _ _) => apply still_on_tcp
  | |- still (ask _) => apply still_ask
  | |- still get_net => apply still_get_net
  | |- still (inl _) => apply still_inl
  | |- still (outl _ _) => apply still_outl
  | |- still (inb _) => apply still_inb
  | |- still (outb _ _) => apply still_outb
  | |- still (io_for _ _ _) => apply still_for; intros ?
  | |- still (λ s, match _ (sh_world s) with _ => _ end) => apply still_sleep
  | |- still (io_put _) => apply still_editor
  | |- still (if ?b then _ else _) => destruct b
  | |- still (match ?x with _ => _ end) => destruct x
  | |- still (let _ := _ in _) => cbv zeta
  end.

Ltac still := repeat first [still_step | progress unfold say, put, write, color, dec, red, run, usage_or_down, ip_line, no_card, print_ip, print_2d].

Lemma still_ping n ip i ok : still (ping_loop fuel n ip i ok).
Proof. revert i ok. induction n as [|n IH]; intros i ok; cbn [ping_loop]; still; apply IH. Qed.
Lemma still_http n c total : still (http_loop fuel n c total).
Proof. revert c total. induction n as [|n IH]; intros c total; cbn [http_loop]; still. apply IH. Qed.
Lemma still_8042 n good : still (wait_8042 n good).
Proof. revert good. induction n as [|n IH]; intros good; cbn [wait_8042]; still. apply IH. Qed.
Lemma still_resolve name : still (resolve_target fuel name).
Proof. unfold resolve_target. still. Qed.
Lemma still_pci dev : still (pci_device dev).
Proof. unfold pci_device, pci_function, Rtl8139.pci_cfg_read16, Rtl8139.pci_cfg_read32, print_hexn. still. Qed.

Lemma still_execute cmd args : still (execute junk conn0 fuel cmd args).
Proof.
  unfold execute. cbv zeta.
  repeat match goal with |- still (if ?b then _ else _) => destruct b end; unfold run.
  all: try by still.
  all: unfold cmd_help, cmd_ls, cmd_cat, cmd_cd, cmd_date, cmd_mkdir, cmd_write, cmd_touch, cmd_rm, cmd_rmdir, cmd_disks, disk_line, print_padded, cmd_about, shell_banner, cmd_uptime, cmd_sleep, cmd_meminfo, cmd_net, print_mac, cmd_dhcp, cmd_dns, cmd_pci, cmd_ping, cmd_http, cmd_edit, cmd_run, cmd_poweroff, cmd_reboot, cmd_halt, not_found.
  all: still; first [apply still_lease|apply still_desktop|apply still_elf|apply still_http|apply still_ping|apply still_8042|apply still_resolve|apply still_pci|idtac].
Qed.

Lemma still_line l : still (shell_execute junk conn0 fuel l).
Proof. unfold shell_execute. destruct (split_line l). apply still_execute. Qed.
Lemma still_prompt : still print_prompt.
Proof. unfold print_prompt. still. Qed.

Lemma same_hist_ok s s' : same_hist s s' → hist_ok s → hist_ok s' ∧ recent s' = recent s ∧ hist_n s' = hist_n s.
Proof.
  intros (E1 & E2 & E3) [K1 K2 K3 K4]. split; [by split; rewrite ?E1, ?E2, ?E3|]. split; [|done].
  unfold recent. rewrite E2. apply map_ext. intros v. unfold hist_get. by rewrite E1, E3.
Qed.

(** The line an arrow shows, and how far back it is. *)
Definition recall (c : Z) (h : list (list Z)) (i : input) : input :=
  if c =? KEY_UP then match h !! Z.to_nat (view i + 1) with Some l => Input l (view i + 1) | None => i end
  else if 0 <? view i then match h !! Z.to_nat (view i - 1) with Some l => Input l (view i - 1) | None => i end
  else if view i =? 0 then Input [] (-1) else i.

Definition recalled (c : Z) (s : sh) (i : input) (s' : sh) (r : option input) : Prop :=
  hist_ok s' ∧ recent s' = (if c =? 10 then push (line i) (recent s) else recent s) ∧
  match r with
  | Some i' => -1 ≤ view i' < hist_n s' ∧ (c = KEY_UP ∨ c = KEY_DOWN → i' = recall c (recent s) i) ∧ (c = 10 → i' = Input [] (-1))
  | None => c = 10
  end.

Lemma recalled_still c s i s' i' :
  hist_ok s → c ≠ 10 → same_hist s s' → -1 ≤ view i' < hist_n s →
  (c = KEY_UP ∨ c = KEY_DOWN → i' = recall c (recent s) i) → recalled c s i s' (Some i').
Proof.
  intros Hok Hc Hs Hv Hr. destruct (same_hist_ok _ _ Hs Hok) as (H1' & E & En). unfold recalled.
  rewrite (proj2 (Z.eqb_neq c 10)), En by done. split_and!; try done; lia.
Qed.

Lemma replace_recalls c s i t v :
  hist_ok s → c ≠ 10 → -1 ≤ v < hist_n s → zlen t < LINE_MAX → (c = KEY_UP ∨ c = KEY_DOWN → Input t v = recall c (recent s) i) →
  ilp (let! i := replace_line i t v in io_ret (Some i)) (recalled c s i) s.
Proof.
  intros Hok Hc Hv Hl Hr. apply ilp_bind.
  assert (take (Z.to_nat (LINE_MAX - 1)) t = t) as Et by (apply take_ge; unfold zlen, LINE_MAX in *; lia).
  eapply ilp_mono; [|intros s' i' HP; apply ilp_ret, HP]. unfold replace_line. rewrite Et.
  assert (still (erase (length (line i)) ;! write t)) as Hst by (unfold erase; still).
  intros s' i' E. unfold io_bind in *. specialize (Hst s). unfold ilp, io_bind in Hst.
  destruct (erase _ s) as [[s1 u]|]; [|done]. destruct (write t s1) as [[s2 u2]|] eqn:E2; [|done]. injection E as <- <-.
  apply recalled_still; [done..| |done|done]. by apply (Hst _ u2).
Qed.

Lemma hist_get_short s v : hist_ok s → zlen (hist_get v s) < LINE_MAX.
Proof.
  intros Hok. unfold hist_get. set (k := Z.to_nat _). destruct (nth_in_or_default k (hist s) []) as [Hin| ->]; [|done].
  apply list_elem_of_In in Hin. by apply (ho_lines _ Hok).
Qed.

Lemma still_complete i : still (complete i).
Proof. unfold complete, erase. still. Qed.

Lemma complete_view i s : ilp (complete i) (λ _ i', view i' = view i) s.
Proof.
  unfold complete. apply ilp_bind. intros s1 [n comp] _. destruct (_ && _); [|by apply ilp_ret].
  apply ilp_bind. intros s2 u _. apply ilp_bind. intros s3 u' _. by apply ilp_ret.
Qed.

(** The history is the list of the latest commands.  Whatever is typed and
    whatever the commands do: Enter puts its line, unless it is empty, in front of
    the list and drops what is older than sixteen, leaving an empty line; no other
    key changes the list; Up and Down walk along it, showing exactly its lines, and
    Down below the latest shows an empty line.  [hist]'s ring of indices implements
    the list. *)
Theorem history_recalls c s i :
  hist_ok s → -1 ≤ view i < hist_n s → ilp (type_key junk conn0 fuel c i) (recalled c s i) s.
Proof.
  intros Hok Hv. unfold type_key. destruct (Z.eqb_spec c 10) as [->|Hc].
  - apply ilp_bind. eapply ilp_mono; [apply still_on_fs|]. intros s1 u S1. destruct (same_hist_ok _ _ S1 Hok) as (Hok1 & E1 & _).
    apply ilp_bind. intros s2 u2 E2. pose proof (iwp_elim _ _ _ _ _ (hist_add_spec (line i) s1 Hok1) E2) as [Hok2 Er2].
    apply ilp_bind. eapply ilp_mono; [apply still_line|]. intros s3 o S3. destruct (same_hist_ok _ _ S3 Hok2) as (Hok3 & E3 & _).
    assert (recent s3 = push (line i) (recent s)) as E by congruence. destruct o.
    2:{ apply ilp_ret. split; [done|]. by split. }
    apply ilp_bind. eapply ilp_mono; [apply still_prompt|]. intros s4 u4 S4. destruct (same_hist_ok _ _ S4 Hok3) as (Hok4 & E4 & _).
    apply ilp_ret. split; [done|]. split; [cbn [Z.eqb Pos.eqb]; congruence|]. cbn [view]. pose proof (ho_n _ Hok4).
    split; [lia|]. split; [|done]. intros [?|?]; discriminate.
  - assert (∀ v, 0 ≤ v < hist_n s → recent s !! Z.to_nat v = Some (hist_get v s)) as Hat by (intros v; apply recent_at).
    assert (∀ s' i', same_hist s s' → view i' = view i → c ≠ KEY_UP → c ≠ KEY_DOWN → recalled c s i s' (Some i')) as Hother.
    { intros s' i' Hs Ev Hu Hd. apply recalled_still; [done..|by rewrite Ev|]. by intros [?|?]. }
    assert (same_hist s s) as Hss by done.
    destruct (Z.eqb_spec c 8) as [->|H8].
    { destruct (0 <? _); [|by apply ilp_ret, Hother]. apply ilp_bind. eapply ilp_mono; [apply still_on_fs|]. intros s1 u S1. by apply ilp_ret, Hother. }
    destruct (Z.eqb_spec c KEY_UP) as [->|Hu].
    { apply ilp_bind, ilp_get. destruct (Z.ltb_spec (view i + 1) (hist_n s)).
      - apply replace_recalls; [done..|lia|by apply hist_get_short|]. intros _. unfold recall. cbn [Z.eqb Pos.eqb KEY_UP]. by rewrite Hat by lia.
      - apply ilp_ret, recalled_still; [done..|]. intros _. unfold recall. cbn [Z.eqb Pos.eqb KEY_UP].
        rewrite lookup_ge_None_2; [done|]. pose proof (recent_length s (proj1 (ho_n _ Hok))) as Hl. unfold zlen in Hl. lia. }
    destruct (Z.eqb_spec c KEY_DOWN) as [->|Hd].
    { apply ilp_bind, ilp_get. pose proof (ho_n _ Hok) as Hn.
      assert (recall KEY_DOWN (recent s) i = if 0 <? view i then match recent s !! Z.to_nat (view i - 1) with Some l => Input l (view i - 1) | None => i end
        else if view i =? 0 then Input [] (-1) else i) as Er by done. destruct (Z.ltb_spec 0 (view i)).
      - apply replace_recalls; [done..|lia|by apply hist_get_short|]. intros _. by rewrite Er, Hat by lia.
      - destruct (view i =? 0); [apply replace_recalls; try done; lia|]. by apply ilp_ret, recalled_still. }
    destruct (c =? 9).
    { apply ilp_bind. intros s1 i1 E1. apply ilp_ret, Hother; try done; [by eapply still_complete|by eapply complete_view]. }
    destruct (_ && _); [|by apply ilp_ret, Hother]. destruct (_ <? _); [|by apply ilp_ret, Hother].
    apply ilp_bind. eapply ilp_mono; [apply still_on_fs|]. intros s1 u S1. by apply ilp_ret, Hother.
Qed.

(** ** Command lines *)

Lemma span_word (p : Z → bool) w r :
  Forall (λ c, p c = true) w → match r with [] => True | c :: _ => p c = false end → span p (w ++ r) = (w, r).
Proof.
  intros Hw Hr. induction Hw as [|c w Hc Hw IH]; cbn [app span].
  - destruct r as [|c r]; [done|]. cbn [span]. by rewrite Hr.
  - by rewrite Hc, IH.
Qed.

Definition solid (c : Z) : Prop := is_blank c = false.

Lemma skip_solid w r : w ≠ [] → Forall solid w → skip_spaces (w ++ r) = w ++ r.
Proof. intros Hne Hw. destruct Hw as [|c w Hc Hw]; [done|]. unfold skip_spaces. cbn [app span]. by rewrite Hc. Qed.

Lemma cut_solid blank w r :
  Forall (λ c, blank c = false) w → match r with [] => True | c :: _ => blank c = true end → cut_word blank (w ++ r) = (w, tail r).
Proof.
  intros Hw Hr. unfold cut_word. rewrite (span_word _ w r).
  - done.
  - eapply Forall_impl; [exact Hw|]. intros c Hc. by rewrite Hc.
  - destruct r as [|c r]; [done|]. by rewrite Hr.
Qed.

(** A line is the command word and the argument string, however it is spaced. *)
Lemma split_words pre w sep args :
  Forall (λ c, is_blank c = true) pre → w ≠ [] → Forall solid w → Forall (λ c, is_blank c = true) sep →
  (sep = [] → args = []) → match args with [] => True | c :: _ => solid c end →
  split_line (pre ++ w ++ sep ++ args) = (w, args).
Proof.
  intros Hpre Hne Hw Hsep Hargs Ha. unfold split_line.
  assert (∀ l, match l with [] => True | c :: _ => solid c end → ∀ b, Forall (λ c, is_blank c = true) b → skip_spaces (b ++ l) = l) as Hskip.
  { intros l Hl b Hb. unfold skip_spaces. rewrite (span_word is_blank b l); [done..|]. by destruct l. }
  rewrite Hskip; [|by destruct w as [|c w]; [|apply Forall_cons in Hw as [? _]]|done]. rewrite cut_solid; [|done|].
  - destruct sep as [|b sep]; cbn [app tail]; [by rewrite Hargs|]. rewrite Hskip; [done..|]. by apply Forall_cons in Hsep as [_ ?].
  - destruct sep as [|b sep]; cbn [app]; [by rewrite Hargs|]. by apply Forall_cons in Hsep as [? _].
Qed.

Lemma execute_write args : execute junk conn0 fuel (str "write") args = run (cmd_write junk args).
Proof. reflexivity. Qed.
Lemma execute_cat args : execute junk conn0 fuel (str "cat") args = run (cmd_cat args).
Proof. reflexivity. Qed.

Lemma write_args_split name text :
  Forall solid name → zlen text ≤ 129 → write_args (name ++ chr " " :: text) = (name, text ++ nl).
Proof.
  intros Hn Ht. unfold write_args. rewrite (cut_solid _ name (chr " " :: text)); [|eapply Forall_impl; [exact Hn|]|done].
  - cbn [tail]. rewrite take_ge; [done|]. unfold zlen, LINE_MAX in *. lia.
  - intros c Hc. unfold solid, is_blank in Hc. cbv beta. by apply orb_false_iff in Hc as [? _].
Qed.

Lemma iwp_run (m : IO sh unit) Q s : iwp m (λ s' _, Q s' Back) s → iwp (run m) Q s.
Proof. intros Hm. apply iwp_bind. eapply iwp_mono; [exact Hm|]. intros s' u HQ. by apply iwp_ret. Qed.

(** What [cat] and [write] do to a sound volume. *)
Lemma cat_ok name s :
  fs_ok (sh_fs s) → name ≠ [] → Forall solid name →
  iwp (shell_execute junk conn0 fuel (str "cat " ++ name)) (λ s' o, o = Back ∧ files (sh_fs s') = files (sh_fs s) ∧
    match files (sh_fs s) !! to_83 name with
    | Some data => printed (sh_fs s') = printed (sh_fs s) ++ con_write data
    | None => True
    end) s.
Proof.
  intros Hok Hne Hn. unfold shell_execute. change (str "cat " ++ name) with ([] ++ str "cat" ++ str " " ++ name).
  rewrite split_words; try done; [|vm_compute; by repeat constructor|by repeat constructor|by destruct Hn].
  rewrite execute_cat. apply iwp_run. unfold cmd_cat. rewrite bool_decide_eq_false_2 by done.
  apply iwp_bind, iwp_on_fs. eapply wp_mono; [by apply wp_fs_cat|]. intros f r (Hq & Hr). cbv beta in *.
  destruct (fs_ok_quiet _ _ Hq Hok) as (_ & Ef & _).
  destruct (files (sh_fs s) !! to_83 name) as [data|].
  - destruct Hr as [-> Hp]. apply iwp_ret. by split_and!.
  - destruct (negb (r =? 0)); [|apply iwp_ret; by split_and!]. unfold red, color, write, put.
    apply iwp_bind, iwp_say. intros s1 S1. apply iwp_bind, iwp_say. intros s2 S2. apply iwp_bind, iwp_say. intros s3 S3.
    apply iwp_bind, iwp_say. intros s4 S4. apply iwp_say. intros s5 S5.
    pose proof (said_trans _ _ _ _ _ S1 (said_trans _ _ _ _ _ S2 (said_trans _ _ _ _ _ S3 (said_trans _ _ _ _ _ S4 S5)))) as S.
    split; [done|]. split; [|done]. rewrite <- Ef. apply (fs_ok_quiet f); [apply S|]. by apply (fs_ok_quiet (sh_fs s)).
Qed.

(** C11: [write] stores its text and [cat] prints it.  At the prompt, "write NAME
    TEXT" always comes back, and makes the file hold exactly the text, spaces
    included, and a newline, with every other file as it was, after which "cat NAME"
    prints exactly that.  It may do otherwise only when the file system has no place
    for the file ([refused]: NAME is a directory, the free clusters do not hold the
    text, or the directory is full and cannot grow), and then nothing has changed if
    NAME had no file.  (A file that NAME had may be lost: [create_overwrite_loses_file]
    in [Fat12Volume].) *)
Theorem write_then_cat s name text :
  fs_ok (sh_fs s) → plain name → name ≠ [] → Forall solid name → bytes_ok text → zlen text ≤ LINE_MAX →
  iwp (shell_execute junk conn0 fuel (str "write " ++ name ++ str " " ++ text)) (λ s1 o, o = Back ∧
    (fs_ok (sh_fs s1) ∧ files (sh_fs s1) = <[to_83 name := text ++ nl]> (files (sh_fs s)) ∧ dirs (sh_fs s1) = dirs (sh_fs s) ∧
     iwp (shell_execute junk conn0 fuel (str "cat " ++ name)) (λ s2 o, o = Back ∧ files (sh_fs s2) = files (sh_fs s1) ∧
       printed (sh_fs s2) = printed (sh_fs s1) ++ con_write (text ++ nl)) s1 ∨
     refused (sh_fs s) (to_83 name) (zlen text + 1) ∧
     (files (sh_fs s) !! to_83 name = None →
       fs_ok (sh_fs s1) ∧ files (sh_fs s1) = files (sh_fs s) ∧ dirs (sh_fs s1) = dirs (sh_fs s)))) s.
Proof.
  intros Hok Hp Hne Hn Hb Hl. unfold shell_execute at 1.
  change (str "write " ++ name ++ str " " ++ text) with ([] ++ str "write" ++ str " " ++ (name ++ chr " " :: text)).
  rewrite split_words; try done; [|vm_compute; by repeat constructor|by repeat constructor|by destruct Hn].
  rewrite execute_write. apply iwp_run. unfold cmd_write. rewrite bool_decide_eq_false_2 by (by destruct name).
  rewrite write_args_split; [|done|unfold LINE_MAX in Hl; lia]. apply iwp_bind, iwp_on_fs. eapply wp_mono.
  - apply wp_fs_create; [done..|apply Forall_app; split; [done|by repeat constructor]|].
    unfold zlen in *. rewrite length_app. unfold LINE_MAX in Hl. zpow. cbn [length nl]. lia.
  - intros f r Hc. cbv beta. apply iwp_ret. split; [done|]. destruct Hc as [(_ & Hok1 & Ef & Ed)|(_ & Hsame & Href)].
    2: { right. split; [|done]. replace (zlen text + 1) with (zlen (text ++ nl)); [done|]. unfold zlen. rewrite length_app. cbn [length nl]. lia. }
    left. split_and!; try done. eapply iwp_mono; [by apply cat_ok|]. intros s2 o (-> & E & Hpr). cbn [with_fs sh_fs] in *.
    split; [done|]. split; [done|]. by rewrite Ef, lookup_insert_eq in Hpr.
Qed.
End Typing.

(** ** Addresses *)

(** The digits of a number up to 255. *)
Definition part (ds : list Z) (v : Z) : Prop :=
  ds ≠ [] ∧ zlen ds ≤ 3 ∧ Forall (λ c, is_digit c = true) ds ∧ digits_value (λ v, v) ds = v ∧ 0 ≤ v ≤ 255.

Lemma span_split p s : ∃ w r, span p s = (w, r) ∧ s = w ++ r ∧ Forall (λ c, p c = true) w ∧ match r with [] => True | c :: _ => p c = false end.
Proof.
  induction s as [|c s IH]; [by exists [], []|]. cbn [span]. destruct (p c) eqn:Ec.
  - destruct IH as (w & r & -> & -> & Hw & Hr). exists (c :: w), r. split_and!; try done. by constructor.
  - by exists [], (c :: s).
Qed.

Lemma digits_nonneg ds : Forall (λ c, is_digit c = true) ds → ∀ v, 0 ≤ v → 0 ≤ fold_left (λ v c, v * 10 + (c - 48)) ds v.
Proof.
  induction 1 as [|c ds Hc Hds IH]; intros v Hv; [done|]. cbn [fold_left]. apply IH.
  unfold is_digit in Hc. change (chr "0") with 48 in Hc. apply andb_true_iff in Hc as [Hc%Z.leb_le _]. lia.
Qed.

Lemma parse_part_spec ip s ip' r :
  match r with [] => True | c :: _ => is_digit c = false end →
  parse_part ip s = Some (ip', r) ↔ ∃ ds v, s = ds ++ r ∧ part ds v ∧ ip' = u32 (ip <<< 8) ||| v.
Proof.
  intros Hr. unfold parse_part. split.
  - destruct (span_split is_digit s) as (w & r0 & -> & -> & Hw & _). case_bool_decide as Hne; [done|].
    destruct (_ || _) eqn:E; [done|]. apply orb_false_iff in E as [E1%Z.ltb_ge E2%Z.ltb_ge]. intros [= <- <-].
    pose proof (digits_nonneg w Hw 0 ltac:(lia)) as H0.
    exists w, (digits_value (λ v, v) w). split; [done|]. split; [|done]. by split_and!.
  - intros (ds & v & -> & (Hne & Hl & Hd & Hv & Hb) & ->). rewrite span_word by done. rewrite bool_decide_eq_false_2 by done.
    rewrite Hv, (proj2 (Z.ltb_ge _ _)), (proj2 (Z.ltb_ge _ _)) by lia. done.
Qed.

Lemma parse_part_digit ip s ip' r : parse_part ip s = Some (ip', r) → match r with [] => True | c :: _ => is_digit c = false end.
Proof.
  unfold parse_part. destruct (span_split is_digit s) as (w & r0 & -> & _ & _ & Hr). case_bool_decide; [done|].
  destruct (_ || _); [done|]. by intros [= _ <-].
Qed.

Lemma parse_last ip s q : parse_parts 0 ip s = Some q ↔ ∃ v, part s v ∧ q = u32 (ip <<< 8) ||| v.
Proof.
  cbn [parse_parts]. split.
  - destruct (parse_part ip s) as [[ip' r]|] eqn:E; [|done]. destruct r; [|done]. intros [= <-].
    apply parse_part_spec in E as (ds & v & -> & Hp & ->); [|done]. rewrite app_nil_r. by exists v.
  - intros (v & Hp & ->). rewrite (proj2 (parse_part_spec ip s (u32 (ip <<< 8) ||| v) [] I)); [done|]. exists s, v. by rewrite app_nil_r.
Qed.

Lemma parse_more n ip s q :
  parse_parts (S n) ip s = Some q ↔ ∃ ds v r, s = ds ++ str "." ++ r ∧ part ds v ∧ parse_parts n (u32 (ip <<< 8) ||| v) r = Some q.
Proof.
  cbn [parse_parts]. split.
  - destruct (parse_part ip s) as [[ip' r]|] eqn:E; [|done]. destruct r as [|c r]; [done|]. destruct (Z.eqb_spec c (chr ".")) as [->|]; [|done].
    apply parse_part_spec in E as (ds & v & -> & Hp & ->); [|done]. intros Hq. by exists ds, v, r.
  - intros (ds & v & r & -> & Hp & Hq). rewrite (proj2 (parse_part_spec ip _ (u32 (ip <<< 8) ||| v) (chr "." :: r) eq_refl)).
    + done.
    + by exists ds, v.
Qed.

Lemma quad_value a b c d :
  0 ≤ a ≤ 255 → 0 ≤ b ≤ 255 → 0 ≤ c ≤ 255 → 0 ≤ d ≤ 255 →
  u32 ((u32 ((u32 ((u32 (0 <<< 8) ||| a) <<< 8) ||| b) <<< 8) ||| c) <<< 8) ||| d = 16777216 * a + 65536 * b + 256 * c + d.
Proof.
  intros Ha Hb Hc Hd. change (u32 (0 <<< 8)) with 0. rewrite Z.lor_0_l.
  assert (∀ x y, 0 ≤ x < 2 ^ 24 → 0 ≤ y ≤ 255 → u32 (x <<< 8) ||| y = 256 * x + y) as Hstep.
  { intros x y Hx Hy. rewrite shiftl_mul by lia. rewrite u32_small by zlia. rewrite Z.lor_comm, (lor_disjoint_add y _ 8) by zlia. zlia. }
  rewrite (Hstep a b), (Hstep _ c), (Hstep _ d) by (zpow; lia). lia.
Qed.

Lemma octet_part v : 0 ≤ v < 256 → part (dec_digits v) v.
Proof.
  intros Hv. assert (Forall (λ v, part (dec_digits v) v) (seqZ 0 256)) as Hall.
  { assert (∀ ds v, bool_decide (ds ≠ []) && (zlen ds <=? 3) && forallb is_digit ds && (digits_value (λ v, v) ds =? v) && (0 <=? v) && (v <=? 255) = true → part ds v) as Hc.
    { intros ds w. rewrite !andb_true_iff, Z.eqb_eq, !Z.leb_le, bool_decide_eq_true, forallb_forall. intros [[[[[K1 K2] K3] K4] K5] K6].
      split_and!; try done. apply Forall_forall. intros x Hx. by apply K3, list_elem_of_In. }
    apply Forall_forall. intros w Hw. apply Hc. revert w Hw. apply Forall_forall. apply (bool_decide_unpack _). vm_compute. exact I. }
  rewrite Forall_forall in Hall. apply Hall, elem_of_seqZ. lia.
Qed.

(** Addresses are read as they are printed.  [parse_ipv4] accepts exactly four
    decimal numbers up to 255, of one to three digits, joined by points, and its
    result has them as its bytes; in particular it reads back every address that
    [print_ip] prints. *)
Theorem parse_ipv4_exact s ip :
  (parse_ipv4 s = Some ip ↔ ∃ a b c d va vb vc vd, part a va ∧ part b vb ∧ part c vc ∧ part d vd ∧
     s = a ++ str "." ++ b ++ str "." ++ c ++ str "." ++ d ∧ ip = 16777216 * va + 65536 * vb + 256 * vc + vd) ∧
  (0 ≤ ip < 2 ^ 32 → parse_ipv4 (ip_string ip) = Some ip).
Proof.
  assert (∀ a b c d va vb vc vd, part a va → part b vb → part c vc → part d vd →
    parse_ipv4 (a ++ str "." ++ b ++ str "." ++ c ++ str "." ++ d) = Some (16777216 * va + 65536 * vb + 256 * vc + vd)) as Hback.
  { intros a b c d va vb vc vd Ha Hb Hc Hd. unfold parse_ipv4.
    apply parse_more. exists a, va, (b ++ str "." ++ c ++ str "." ++ d). split_and!; [done..|].
    apply parse_more. exists b, vb, (c ++ str "." ++ d). split_and!; [done..|].
    apply parse_more. exists c, vc, d. split_and!; [done..|]. apply parse_last. exists vd. split; [done|].
    destruct Ha as (_ & _ & _ & _ & Ha), Hb as (_ & _ & _ & _ & Hb), Hc as (_ & _ & _ & _ & Hc), Hd as (_ & _ & _ & _ & Hd).
    by rewrite quad_value. }
  split; [split|].
  - unfold parse_ipv4. intros (a & va & s1 & -> & Ha & H1)%parse_more. apply parse_more in H1 as (b & vb & s2 & -> & Hb & H2).
    apply parse_more in H2 as (c & vc & s3 & -> & Hc & H3). apply parse_last in H3 as (vd & Hd & ->).
    exists a, b, c, s3, va, vb, vc, vd. split_and!; try done.
    destruct Ha as (_ & _ & _ & _ & Ha), Hb as (_ & _ & _ & _ & Hb), Hc as (_ & _ & _ & _ & Hc), Hd as (_ & _ & _ & _ & Hd). by rewrite quad_value.
  - intros (a & b & c & d & va & vb & vc & vd & Ha & Hb & Hc & Hd & -> & ->). by apply Hback.
  - intros Hip. destruct (split32 ip Hip) as (d & c & b & a & -> & Hd & Hc & Hb & Ha).
    set (q := d + 256 * c + 65536 * b + 16777216 * a) in *.
    assert (ip_octets q = [a; b; c; d]) as Eo.
    { unfold ip_octets. cbn [map app]. change 0xFF with (Z.ones 8). rewrite !Z.land_ones, !shiftr_div by lia. unfold q. repeat f_equal; zlia. }
    unfold ip_string. rewrite Eo. rewrite (Hback _ _ _ _ a b c d) by (by apply octet_part). f_equal. unfold q. lia.
Qed.

(** ** The request *)

Lemma span_length p s : zlen (span p s).1 + zlen (span p s).2 = zlen s.
Proof. destruct (span_split p s) as (w & r & -> & -> & _). unfold zlen. cbn [fst snd]. rewrite length_app. lia. Qed.

(** The request of any line fits its buffer of 384 bytes. *)
Lemma http_request_fits line :
  zlen line < LINE_MAX → let '(host, path) := http_args (split_line line).2 in zlen host < 128 ∧ zlen (http_request host path) ≤ 384.
Proof.
  intros Hl. assert (∀ blank s, zlen (cut_word blank s).2 ≤ zlen s) as Hcut.
  { intros blank s. unfold cut_word. pose proof (span_length (λ c, negb (blank c)) s) as E. destruct (span _ s) as [w r]. cbn [fst snd] in *.
    unfold zlen in *. destruct r; cbn [tail length] in *; lia. }
  assert (∀ s, zlen (skip_spaces s) ≤ zlen s) as Hskip.
  { intros s. unfold skip_spaces. pose proof (span_length is_blank s). unfold zlen in *. lia. }
  assert (zlen (split_line line).2 ≤ zlen line) as Ha.
  { unfold split_line. pose proof (Hcut is_blank (skip_spaces line)) as H1. destruct (cut_word _ _) as [cmd r]. cbn [snd] in *.
    pose proof (Hskip r). pose proof (Hskip line). lia. }
  set (args := (split_line line).2) in *. clearbody args. unfold http_args. cbv zeta.
  set (host := take 127 _). assert (zlen host ≤ 127) as Hh by (unfold host, zlen; rewrite length_take; lia).
  set (p := (span _ (drop (length host) args)).2).
  assert (zlen p ≤ zlen args) as Hp.
  { unfold p. pose proof (span_length (λ c, c =? chr " ") (drop (length host) args)). unfold zlen in *. rewrite length_drop in *. lia. }
  clearbody host p. split; [lia|]. unfold LINE_MAX in *.
  assert (∀ q, zlen q ≤ 127 → zlen (http_request host q) ≤ 384) as Hr.
  { intros q Hq. unfold http_request, zlen in *. rewrite !length_app.
    change (length (str "GET ")) with 4%nat. change (length (str " HTTP/1.0")) with 9%nat. change (length (str "Host: ")) with 6%nat.
    change (length (str "Connection: close")) with 17%nat. change (length crlf) with 2%nat. lia. }
  case_bool_decide; apply Hr; [done|lia].
Qed.

(** ** A concrete shell

    On the RAM disk of [Fat12Volume], with a network card that answers nothing and
    an office where nothing happens: for the witnesses. *)

#[export] Instance idle_office : Office ramdisk unit := {|
  of_getchar _ := None;
  of_rtc_read w := (w, RtcTime 24 1 1 12 30 0);
  of_sleep _ w := Some w;
  of_pmm_report w := (w, []);
  of_ata_count _ := 0;
  of_ata_drive _ _ := no_drive;
  of_ata_read _ _ w := (w, None);
  of_link_up w := (w, false);
  of_ac97_debug w := (w, []);
  of_elf_exec _ f w := (f, w, -1);
  of_editor_run _ f w := (f, w);
  of_desktop_run f w := (f, w, true);
  of_acpi_poweroff w := w
|}.
#[export] Instance idle_ports : Ports unit := {| p_out _ _ _ w := w; p_in _ _ w := (w, 0); p_hlt w := (w, []) |}.

Definition demo_shell : shell ramdisk card unit :=
  Shell demo_created (host 0x0A00020F []) [] tt (replicate 16 []) 0 0.
Definition no_conn : tcp_conn := TcpConn 0 0 0 0 0 false false.

Fixpoint type_all (n : Z) (ks : list Z) (s : shell ramdisk card unit) (i : input) : option (shell ramdisk card unit * input) :=
  match ks with
  | [] => Some (s, i)
  | c :: ks =>
      if c =? 10 then None
      else match type_key [] no_conn 1 c i s with
           | Some (s', Some i') => if zlen (line i') <=? n then type_all n ks s' i' else None
           | _ => None
           end
  end.

Lemma type_all_types n ks s0 s i s' i' :
  types [] no_conn 1 n s0 s i → type_all n ks s i = Some (s', i') → types [] no_conn 1 n s0 s' i'.
Proof.
  revert s i. induction ks as [|c ks IH]; intros s i Ht E; cbn [type_all] in E; [by injection E as <- <-|].
  destruct (Z.eqb_spec c 10); [done|]. destruct (type_key _ _ _ c i s) as [[s1 [i1|]]|] eqn:Ek; [|done..].
  destruct (Z.leb_spec (zlen (line i1)) n); [|done]. eapply IH; [|exact E]. by eapply types_key.
Qed.

Lemma demo_names : entries demo_created = [take 32 (sec demo_created 2)].
Proof. vm_compute. reflexivity. Qed.

Lemma demo_lines l : l ∈ replicate 16 (@nil Z) → zlen l < LINE_MAX ∧ Forall printable l.
Proof. intros [-> _]%elem_of_replicate. by split. Qed.

Lemma demo_prompt_ok : prompt_ok demo_shell.
Proof.
  split.
  - exact (proj1 demo_created_ok).
  - cbn [demo_shell sh_fs]. rewrite demo_names. intros e ->%list_elem_of_singleton. apply (bool_decide_unpack _). vm_compute. exact I.
  - reflexivity.
  - exact demo_lines.
  - split; discriminate.
  - split; [discriminate|reflexivity].
Qed.

(** "cat H", Tab. *)
Definition demo_keys : list Z := str "cat H" ++ [9].

Lemma line_on_screen_witness : ∃ (s : shell ramdisk card unit) i ks, line i = str "cat HELLO.TXT" ∧
  printed (sh_fs s) = printed (sh_fs demo_shell) ++ ks ∧ on_row demo_screen (con_run ks demo_screen) (line i).
Proof.
  assert (match type_all 20 demo_keys demo_shell (Input [] (-1)) with Some (_, i) => line i = str "cat HELLO.TXT" | None => False end) as E
    by (vm_compute; reflexivity).
  destruct (type_all 20 demo_keys demo_shell (Input [] (-1))) as [[s i]|] eqn:Et; [|destruct E].
  destruct (line_on_screen [] no_conn 1 20 demo_shell s i demo_screen demo_prompt_ok) as (_ & _ & _ & ks & Ep & Hr).
  - eapply type_all_types; [constructor|exact Et].
  - exact demo_screen_wf.
  - vm_compute. reflexivity.
  - exists s, i, ks. split; [exact E|]. split; [exact Ep|exact Hr].
Defined.

Lemma demo_hist_ok : hist_ok demo_shell.
Proof. split; [reflexivity|intros l Hl; exact (proj1 (demo_lines l Hl))|split; discriminate|split; [discriminate|reflexivity]]. Qed.

(** "help", Enter. *)
Lemma history_recalls_witness : hist_ok demo_shell ∧
  ilp (type_key [] no_conn 1 10 (Input (str "help") (-1))) (λ s' _, recent s' = [str "help"]) demo_shell.
Proof.
  split; [exact demo_hist_ok|]. intros s' r E.
  destruct (history_recalls [] no_conn 1 10 demo_shell (Input (str "help") (-1)) demo_hist_ok ltac:(cbn; lia) s' r E) as (_ & Hr & _).
  rewrite Hr. vm_compute. reflexivity.
Defined.

Lemma write_then_cat_witness : fs_ok (sh_fs demo_shell) ∧
  iwp (shell_execute [] no_conn 1 (str "write A.TXT  hi ")) (λ s1 o, o = Back) demo_shell.
Proof.
  assert (Forall solid (str "A.TXT")) as Hs by (vm_compute; by repeat constructor).
  assert (plain (str "A.TXT")) as Hp by (apply (bool_decide_unpack _); vm_compute; exact I).
  assert (bytes_ok (str " hi ")) as Hb by (apply (bool_decide_unpack _); vm_compute; exact I).
  split; [exact (proj1 demo_created_ok)|].
  eapply iwp_mono; [exact (write_then_cat [] no_conn 1 demo_shell (str "A.TXT") (str " hi ") (proj1 demo_created_ok) Hp ltac:(done) Hs Hb ltac:(done))|].
  intros s1 o Ho. exact (proj1 Ho).
Defined.

Lemma parse_ipv4_exact_witness : ip_string 0x0A00020F = str "10.0.2.15" ∧ parse_ipv4 (ip_string 0x0A00020F) = Some 0x0A00020F.
Proof.
  split; [vm_compute; reflexivity|]. exact (proj2 (parse_ipv4_exact [] 0x0A00020F) ltac:(split; [discriminate|reflexivity])).
Defined.
