(* ===== verification/IdentityMap.v ===== *)
(** Mapping device memory to itself: the loop that drivers/acpi.c and drivers/vga.c
    share, over the page tables. *)
From Stdlib Require Import ZArith Lia Bool.
From stdpp Require Import base numbers gmap option list.
From S2P Require Import Prelude Frames Pmm Paging Io Elf.

#[local] Open Scope Z_scope.
#[local] Open Scope c_scope.

Section Identity.
Context {A : Type} `{FrameAllocator A}.
Implicit Types p : paging A.

(** A page that is not mapped is mapped to itself. *)
Definition map_page (a : Z) p : paging A :=
  if paging_get_phys a p =? 0xFFFFFFFF then (paging_map a a (PAGE_PRESENT ||| PAGE_WRITE) p).1 else p.

(** [for (a = start; a != stop; a += 0x1000)] *)
Fixpoint map_new (fuel : nat) (a stop : Z) p : option (paging A) :=
  if a =? stop then Some p
  else match fuel with O => None | S fuel => map_new fuel (u32 (a + 0x1000)) stop (map_page a p) end.

(** The range as [map_phys] and [map_range] round it. *)
Definition page_start (base : Z) : Z := base &&& u32_not 0xFFF.
Definition page_stop (base size : Z) : Z := u32 (base + size + 0xFFF) &&& u32_not 0xFFF.

(** ** One page *)

Lemma map_count p virt phys flags :
  paging_wf p → fa_count (pg_frames p) - 1 ≤ fa_count (pg_frames (paging_map virt phys flags p).1).
Proof.
  intros Hw. pose proof (pw_frames _ Hw) as Hi. unfold paging_map, get_table.
  assert (∀ q : paging A, pg_frames (flush_tlb q) = pg_frames q) as Ef by (intros q; unfold flush_tlb; by destruct (enabled q)).
  destruct (negb _); [|cbn [fst]; rewrite Ef; cbn; lia].
  destruct (fa_alloc (pg_frames p)) as [a t] eqn:Ea. destruct (Z.eqb_spec t 0) as [->|Ht]; cbn [fst].
  - destruct (fa_alloc_full _ _ Hi Ea) as [-> _]. cbn. lia.
  - rewrite Ef. cbn [pg_frames Paging.with_mem with_frames]. rewrite (fa_alloc_count _ _ _ Hi Ea Ht). lia.
Qed.

(** Free or its own: what a range must be for the driver to see it. *)
Definition open_at p (a : Z) : Prop := pte p a = None ∨ mmu p a = Some a.

(** What a step keeps: the tables, every address that was mapped, and what is open. *)
Record grown (n : Z) p p' : Prop := {
  gr_wf : paging_wf p';
  gr_enabled : enabled p' = enabled p;
  gr_count : fa_count (pg_frames p) - n ≤ fa_count (pg_frames p') ≤ fa_count (pg_frames p);
  gr_owned q : owned_frame p' q → owned_frame p q;
  gr_keep w : 0 ≤ w < 2 ^ 32 → is_Some (pte p w) → pte p' w = pte p w;
  gr_open w : 0 ≤ w < 2 ^ 32 → open_at p w → open_at p' w
}.

Lemma grown_refl p : paging_wf p → grown 0 p p.
Proof. intros Hw. split; [done|done|lia|done|done|done]. Qed.
Lemma grown_weaken n m p p' : n ≤ m → grown n p p' → grown m p p'.
Proof. intros Hnm [W E C F K O]. split; [done|done|lia|done|done|done]. Qed.
Lemma grown_trans n m p1 p2 p3 : grown n p1 p2 → grown m p2 p3 → grown (n + m) p1 p3.
Proof.
  intros [W1 E1 C1 F1 K1 O1] [W2 E2 C2 F2 K2 O2]. split; [done|congruence|lia|intros q Hq; by apply F1, F2| |intros w Hw Ho; by apply O2, O1].
  intros w Hw Hs. pose proof (K1 w Hw Hs) as E. rewrite K2, E; [done|done|by rewrite E].
Qed.
Lemma grown_mmu n p p' w x : grown n p p' → 0 ≤ w < 2 ^ 32 → mmu p w = Some x → mmu p' w = Some x.
Proof. intros [_ _ _ _ K _] Hw. unfold mmu. intros Hm. rewrite K; [done|done|]. destruct (pte p w); [by eexists|done]. Qed.

Lemma page_pte p v w : v / 4096 = w / 4096 → pte p v = pte p w.
Proof. intros E. destruct (page_indices v w E) as [E1 E2]. unfold pte. by rewrite E1, E2. Qed.

Lemma page_offset a i : a mod 4096 = 0 → 0 ≤ i < 4096 → (a + i) / 4096 = a / 4096.
Proof. intros Ha Hi. zlia. Qed.

Lemma map_page_ok p a :
  paging_wf p → a mod 4096 = 0 → 0 ≤ a < 2 ^ 32 →
  grown 1 p (map_page a p) ∧ (∀ w, 0 ≤ w < 2 ^ 32 → w / 4096 ≠ a / 4096 → pte (map_page a p) w = pte p w) ∧
  (1 ≤ fa_count (pg_frames p) → open_at p a → ∀ i, 0 ≤ i < 4096 → mmu (map_page a p) (a + i) = Some (a + i)).
Proof.
  intros Hw Ha Hr. unfold map_page. rewrite get_phys_pte by done. rewrite Ha.
  destruct (pte p a) as [e|] eqn:Ep.
  - destruct (Z.eqb_spec (page_of e + 0) 0xFFFFFFFF) as [E|_]; [exfalso; unfold page_of in E; clear -E; zlia|].
    split; [by apply (grown_weaken 0); [lia|apply grown_refl]|]. split; [done|]. intros _ [Hn|Hm] i Hi; [congruence|].
    unfold mmu in *. rewrite (page_pte p (a + i) a) by (by apply page_offset). rewrite Ep in *. cbn [mbind option_bind] in *. injection Hm as Hm. f_equal.
    unfold page_of in *. clear -Ha Hi Hm. zlia.
  - rewrite Z.eqb_refl. pose proof (paging_map_spec p a a (PAGE_PRESENT ||| PAGE_WRITE) Hw Hr Hr) as Hs. pose proof (map_count p a a (PAGE_PRESENT ||| PAGE_WRITE) Hw) as Hcount.
    pose proof (surjective_pairing (paging_map a a (PAGE_PRESENT ||| PAGE_WRITE) p)) as Epair. rewrite Epair in Hs. set (p' := (paging_map _ _ _ p).1) in *.
    destruct Hs as (Hw' & Hregs & _ & _ & Hown & Hless & Hcase).
    assert (∀ w, 0 ≤ w < 2 ^ 32 → w / 4096 ≠ a / 4096 → pte p' w = pte p w) as Hout.
    { intros w Hwr Ew. destruct Hcase as [(_ & -> & _)|(_ & _ & Hpte)]; [done|]. rewrite Hpte by done. by rewrite (proj2 (Z.eqb_neq _ _) Ew). }
    assert (p' = p ∧ ¬ 1 ≤ fa_count (pg_frames p) ∨ ∀ i, 0 ≤ i < 4096 → mmu p' (a + i) = Some (a + i)) as Hself.
    { destruct Hcase as [(_ & -> & Hfull)|(_ & _ & Hpte)]; [left; split; [done|]; pose proof (fa_full_count _ (pw_frames _ Hw) Hfull); lia|right; intros i Hi].
      destruct (pte_value_spec a (PAGE_PRESENT ||| PAGE_WRITE) Hr) as (Hv & Hvm & _). rewrite addr_mask in Hvm by exact Hv.
      assert (0 ≤ a + i < 2 ^ 32) as Hai by (zpow; clear -Ha Hi Hr; zlia). unfold mmu. rewrite Hpte by done.
      rewrite (proj2 (Z.eqb_eq _ _) (page_offset a i Ha Hi)). cbn [mbind option_bind]. unfold page_of in *. rewrite Hvm. f_equal. clear -Ha Hi. zlia. }
    split; [split; [done|apply Hregs|lia|exact Hown| |]|split; [exact Hout|]].
    + intros w Hwr [x Hx]. apply Hout; [done|]. intros E. rewrite (page_pte p w a E) in Hx. congruence.
    + intros w Hwr Ho. destruct (Z.eq_dec (w / 4096) (a / 4096)) as [E|E].
      * destruct Hself as [[-> _]|Hself]; [done|]. right. replace w with (a + (w - a)) by lia. apply Hself. clear -E Ha. zlia.
      * unfold open_at, mmu in *. by rewrite Hout.
    + intros Hc _. destruct Hself as [[_ ?]|Hself]; [done|exact Hself].
Qed.

(** ** The range *)

(** The pages from [a] round to [stop]. *)
Definition page_span (a stop : Z) : Z := u32 (stop - a) / 4096.

Lemma page_span_step a stop : 0 ≤ a < 2 ^ 32 → a mod 4096 = 0 → stop mod 4096 = 0 → 0 ≤ stop < 2 ^ 32 → a ≠ stop →
  page_span a stop = page_span (u32 (a + 4096)) stop + 1 ∧ 0 ≤ u32 (a + 4096) < 2 ^ 32 ∧ u32 (a + 4096) mod 4096 = 0.
Proof. unfold page_span, u32. zpow. intros. zlia. Qed.

(** Mapping always ends, and keeps what is mapped; it needs a frame a page at most. *)
Lemma map_new_total fuel a stop p :
  paging_wf p → 0 ≤ a < 2 ^ 32 → a mod 4096 = 0 → 0 ≤ stop < 2 ^ 32 → stop mod 4096 = 0 → page_span a stop ≤ Z.of_nat fuel →
  ∃ p', map_new fuel a stop p = Some p' ∧ grown (page_span a stop) p p'.
Proof.
  intros Hw Ha Hm Hs Hsm. revert a p Hw Ha Hm. induction fuel as [|fuel IH]; intros a p Hw Ha Hm Hf; cbn [map_new]; destruct (Z.eqb_spec a stop) as [->|Hne].
  - exists p. split; [done|]. unfold page_span. rewrite Z.sub_diag. by apply grown_refl.
  - destruct (page_span_step a stop) as (E & _ & _); [done..|]. assert (0 ≤ page_span (u32 (a + 4096)) stop) by (unfold page_span; apply Z.div_pos; [apply u32_range|lia]). lia.
  - exists p. split; [done|]. unfold page_span. rewrite Z.sub_diag. by apply grown_refl.
  - destruct (page_span_step a stop) as (E & Hr & Hrm); [done..|]. destruct (map_page_ok p a) as (G1 & _ & _); [done..|].
    destruct (IH (u32 (a + 4096)) (map_page a p)) as (p' & E' & G2); [apply G1|done|done|lia|]. exists p'. split; [exact E'|].
    rewrite E, Z.add_comm. by eapply grown_trans.
Qed.

Lemma map_new_grown fuel a stop p p' :
  map_new fuel a stop p = Some p' → paging_wf p → 0 ≤ a < 2 ^ 32 → a mod 4096 = 0 → ∃ n, grown n p p'.
Proof.
  revert a p. induction fuel as [|fuel IH]; intros a p E Hw Ha Hm; cbn [map_new] in E; destruct (a =? stop);
    try (injection E as <-; exists 0; by apply grown_refl); [done|].
  destruct (map_page_ok p a) as (G1 & _ & _); [done..|]. destruct (IH _ _ E) as [n G2]; [apply G1|apply u32_range| |].
  - unfold u32. zpow. clear -Hm. zlia.
  - exists (1 + n). by eapply grown_trans.
Qed.

(** A range that does not wrap around, is open, and for which there are frames can
    be seen afterwards. *)
Lemma map_new_sees fuel a stop p p' :
  paging_wf p → 0 ≤ a ≤ stop → a mod 4096 = 0 → stop < 2 ^ 32 → stop mod 4096 = 0 →
  (∀ w, a ≤ w < stop → open_at p w) → (stop - a) / 4096 ≤ fa_count (pg_frames p) → map_new fuel a stop p = Some p' →
  ∀ i, a ≤ i < stop → mmu p' i = Some i.
Proof.
  intros Hw Ha Hm Hs Hsm. revert a p Hw Ha Hm. induction fuel as [|fuel IH]; intros a p Hw Ha Hm Ho Hc; cbn [map_new]; destruct (Z.eqb_spec a stop) as [->|Hne];
    try (intros [= <-] i Hi; lia); intros E.
  assert (a + 4096 ≤ stop) as Hle by (clear -Ha Hm Hsm Hne; zlia). rewrite u32_small in E by lia.
  assert ((stop - a) / 4096 = (stop - (a + 4096)) / 4096 + 1 ∧ 0 ≤ (stop - (a + 4096)) / 4096) as [Ek Hk] by (clear -Hle; zlia).
  destruct (map_page_ok p a) as (G1 & Hout & Hin); [done|done|lia|]. pose proof (gr_count _ _ _ G1) as Hcnt.
  assert ((a + 4096) mod 4096 = 0) as Hm2 by (clear -Hm; zlia).
  pose proof (IH (a + 4096) (map_page a p) (gr_wf _ _ _ G1) ltac:(lia) Hm2) as IH'. intros i Hi. destruct (Z_lt_le_dec i (a + 4096)) as [Hlt|Hge].
  - destruct (map_new_grown _ _ _ _ _ E) as [n G2]; [apply G1|lia|done|]. eapply grown_mmu; [exact G2|lia|].
    replace i with (a + (i - a)) by lia. apply Hin; [lia|apply Ho; lia|lia].
  - apply IH'; [|lia|exact E|lia]. intros w Hw2. apply (gr_open _ _ _ G1); [lia|apply Ho; lia].
Qed.

Lemma range_rounded base size :
  0 ≤ base < 2 ^ 32 →
  0 ≤ page_start base ≤ base ∧ page_start base mod 4096 = 0 ∧ 0 ≤ page_stop base size < 2 ^ 32 ∧ page_stop base size mod 4096 = 0 ∧
  (0 ≤ size → base + size + 0xFFF < 2 ^ 32 →
    base + size ≤ page_stop base size ≤ base + size + 0xFFF ∧ (page_stop base size - page_start base) / 4096 ≤ size / 4096 + 2).
Proof.
  intros Hb. unfold page_start, page_stop. change (u32_not 0xFFF) with ADDR_MASK. rewrite !addr_mask by (done || apply u32_range).
  pose proof (u32_range (base + size + 0xFFF)) as Hu. zpow. split; [clear -Hb; zlia|]. split; [clear; zlia|]. split; [clear -Hu; zlia|]. split; [clear; zlia|].
  intros Hs Ht. rewrite u32_small by (zpow; lia). clear -Hb Hs. zlia.
Qed.

(** The whole call. *)
Lemma map_new_range base size p :
  paging_wf p → 0 ≤ base < 2 ^ 32 →
  ∃ p' n, map_new (Z.to_nat 0x100000) (page_start base) (page_stop base size) p = Some p' ∧ grown n p p' ∧
    (0 < size → base + size + 0xFFF < 2 ^ 32 → (∀ w, page_start base ≤ w < page_stop base size → open_at p w) → size / 4096 + 2 ≤ fa_count (pg_frames p) →
      n ≤ size / 4096 + 2 ∧ ∀ i, 0 ≤ i < size → mmu p' (base + i) = Some (base + i)).
Proof.
  intros Hw Hb. destruct (range_rounded base size Hb) as (R1 & R2 & R3 & R4 & R5).
  assert (page_span (page_start base) (page_stop base size) ≤ Z.of_nat (Z.to_nat 0x100000)) as Hspan.
  { unfold page_span. pose proof (u32_range (page_stop base size - page_start base)) as Hu. zpow. clear -Hu. zlia. }
  destruct (map_new_total (Z.to_nat 0x100000) (page_start base) (page_stop base size) p) as (p' & E & G); [done|lia|done|done|done|done|].
  exists p', (page_span (page_start base) (page_stop base size)). split; [done|]. split; [done|]. intros Hs Ht Ho Hc. destruct (R5 ltac:(lia) Ht) as [R6 R7]. split.
  - unfold page_span. rewrite u32_small by lia. exact R7.
  - intros i Hi. eapply map_new_sees; [exact Hw| | | | | | |exact E|]; try done; lia.
Qed.
End Identity.
