(* ===== verification/Acpi.v ===== *)
(** ACPI soft power-off: drivers/acpi.c.  The firmware's tables are bytes of
    physical memory, read through the page tables once paging is on: an access to
    a page that is not mapped is a page fault, which halts ([None]). *)
From Stdlib Require Import ZArith Lia Bool Ascii String.
From stdpp Require Import base numbers gmap option list.
From S2P Require Import Prelude Console Frames Pmm Paging Io Elf.

#[local] Open Scope Z_scope.
#[local] Open Scope c_scope.
#[local] Open Scope io_scope.

Definition SLP_EN : Z := 1 <<< 13.
Definition SCI_EN : Z := 1.

(** The module's statics, with the page tables, physical memory by bytes and the
    machine. *)
Record acpi (A H : Type) := MkAcpi {
  ac_paging : paging A; ac_mem : gmap Z Z; ac_hw : H;
  available : bool; pm1a_cnt : Z; pm1b_cnt : Z; slp_typa : Z; slp_typb : Z; smi_cmd : Z; acpi_enable : Z
}.
Arguments MkAcpi {A H}. Arguments ac_paging {A H}. Arguments ac_mem {A H}. Arguments ac_hw {A H}. Arguments available {A H}.
Arguments pm1a_cnt {A H}. Arguments pm1b_cnt {A H}. Arguments slp_typa {A H}. Arguments slp_typb {A H}. Arguments smi_cmd {A H}. Arguments acpi_enable {A H}.

#[export] Instance acpi_has_hw {A H} : HasHw (acpi A H) H.
Proof.
  refine {| get_hw := ac_hw; set_hw h s := MkAcpi (ac_paging s) (ac_mem s) h (available s) (pm1a_cnt s) (pm1b_cnt s) (slp_typa s) (slp_typb s) (smi_cmd s) (acpi_enable s) |}.
  done.
Defined.

Section Acpi.
Context {A H : Type} `{FrameAllocator A} `{Ports H}.
Abbreviation ac := (acpi A H).
Abbreviation M := (IO ac).

Definition with_paging (p : paging A) (s : ac) : ac :=
  MkAcpi p (ac_mem s) (ac_hw s) (available s) (pm1a_cnt s) (pm1b_cnt s) (slp_typa s) (slp_typb s) (smi_cmd s) (acpi_enable s).
Definition with_available (b : bool) (s : ac) : ac :=
  MkAcpi (ac_paging s) (ac_mem s) (ac_hw s) b (pm1a_cnt s) (pm1b_cnt s) (slp_typa s) (slp_typb s) (smi_cmd s) (acpi_enable s).
Definition with_slp (a b : Z) (s : ac) : ac :=
  MkAcpi (ac_paging s) (ac_mem s) (ac_hw s) (available s) (pm1a_cnt s) (pm1b_cnt s) a b (smi_cmd s) (acpi_enable s).
Definition with_fadt (smi en a b : Z) (s : ac) : ac :=
  MkAcpi (ac_paging s) (ac_mem s) (ac_hw s) (available s) a b (slp_typa s) (slp_typb s) smi en.

(** The byte behind a pointer. *)
Definition phys_of (p : paging A) (a : Z) : option Z := if enabled p then mmu p a else Some a.
Definition rd8 (a : Z) : M Z :=
  λ s, match phys_of (ac_paging s) (u32 a) with Some p => Some (s, ld (ac_mem s) p) | None => None end.
Definition rd32 (p : Z) : M Z :=
  let! b0 := rd8 p in let! b1 := rd8 (p + 1) in let! b2 := rd8 (p + 2) in let! b3 := rd8 (p + 3) in
  io_ret (b0 ||| u32 (b1 <<< 8) ||| u32 (b2 <<< 16) ||| u32 (b3 <<< 24)).

(** The loop of [map_phys], over at most 2^20 pages. *)
Fixpoint map_loop (fuel : nat) (a stop : Z) : M unit :=
  if a =? stop then io_ret tt
  else match fuel with
       | O => io_stuck
       | S fuel =>
           let! s := io_get in
           (if paging_get_phys a (ac_paging s) =? 0xFFFFFFFF
            then io_put (λ s, with_paging (paging_map a a (PAGE_PRESENT ||| PAGE_WRITE) (ac_paging s)).1 s)
            else io_ret tt) ;!
           map_loop fuel (u32 (a + 0x1000)) stop
       end.
Definition map_fuel : nat := Z.to_nat 0x100000.

Definition map_phys (addr len : Z) : M unit :=
  let! s := io_get in
  if negb (paging_is_enabled (ac_paging s)) then io_ret tt
  else map_loop map_fuel (addr &&& u32_not 0xFFF) (u32 (addr + len + 0xFFF) &&& u32_not 0xFFF).

Definition map_table (phys : Z) : M Z :=
  map_phys phys 64 ;!
  let! len := rd32 (phys + 4) in
  (if (64 <? len) && (len <? 0x100000) then map_phys phys len else io_ret tt) ;!
  io_ret phys.

(** [len] bytes more, [sum] so far. *)
Fixpoint checksum (len : nat) (p sum : Z) : M bool :=
  match len with
  | O => io_ret (sum =? 0)
  | S len => let! b := rd8 p in checksum len (p + 1) (u8 (sum + b))
  end.
Definition checksum_ok (p len : Z) : M bool := checksum (Z.to_nat len) p 0.

(** [p[0] == c0 && p[1] == c1 && ...] *)
Fixpoint signature (p : Z) (cs : list Z) : M bool :=
  match cs with
  | [] => io_ret true
  | c :: cs => let! b := rd8 p in if b =? c then signature (p + 1) cs else io_ret false
  end.

(** [n] steps of 16 bytes; [None]: the source's NULL. *)
Fixpoint scan_loop (n : nat) (a : Z) : M (option Z) :=
  match n with
  | O => io_ret None
  | S n =>
      let! sig := signature a (str "RSD PTR ") in
      let! ok := (if sig then checksum_ok a 20 else io_ret false) in
      if ok then io_ret (Some a) else scan_loop n (a + 16)
  end.
Definition scan_rsdp (start end_ : Z) : M (option Z) := scan_loop (Z.to_nat ((end_ - start + 15) / 16)) start.

Definition find_rsdp : M (option Z) :=
  let! lo := rd8 0x40E in
  let! hi := rd8 0x40F in
  let ebda := u16 (lo ||| (hi <<< 8)) <<< 4 in
  let! p := (if (0x80000 <=? ebda) && (ebda <? 0xA0000) then scan_rsdp ebda (ebda + 1024) else io_ret None) in
  match p with
  | Some p => io_ret (Some p)
  | None => scan_rsdp 0xE0000 0x100000
  end.

(** [while (p < end - 4) { if (signature) break; p++; }] *)
Fixpoint find_s5 (n : nat) (p : Z) : M (option Z) :=
  match n with
  | O => io_ret None
  | S n => let! sig := signature p (str "_S5_") in if sig then io_ret (Some p) else find_s5 n (p + 1)
  end.

(** [if ( *pkg == 0x0A) pkg++;] *)
Definition skip_prefix (pkg : Z) : M Z := let! b := rd8 pkg in io_ret (if b =? 0x0A then pkg + 1 else pkg).

Definition parse_s5 (dsdt : Z) : M Z :=
  let! len := rd32 (dsdt + 4) in
  if (len <? 36) || (0x100000 <? len) then io_ret (-1)
  else
    let! p := find_s5 (Z.to_nat (len - 4 - 36)) (dsdt + 36) in
    match p with
    | None => io_ret (-1)
    | Some p =>
        let! b1 := rd8 (p - 1) in
        let! named := (if b1 =? 0x08 then io_ret true
                       else let! b2 := rd8 (p - 2) in if b2 =? 0x08 then let! b1 := rd8 (p - 1) in io_ret (b1 =? 92) else io_ret false) in
        if negb named then io_ret (-1)
        else
          let! op := rd8 (p + 4) in
          if negb (op =? 0x12) then io_ret (-1)
          else
            let pkg := p + 5 in
            let! lead := rd8 pkg in
            let pkg := pkg + ((lead &&& 0xC0) >>> 6) + 1 in
            let pkg := pkg + 1 in
            let! pkg := skip_prefix pkg in
            let! a := rd8 pkg in
            let! pkg := skip_prefix (pkg + 1) in
            let! b := rd8 pkg in
            io_put (with_slp (a &&& 0x07) (b &&& 0x07)) ;!
            io_ret 0
    end.

(** The tables of the RSDT from entry [i], [n] of them. *)
Fixpoint find_fadt (n : nat) (rsdt i : Z) : M (option Z) :=
  match n with
  | O => io_ret None
  | S n =>
      let! e := rd32 (rsdt + 36 + i * 4) in
      let! t := map_table e in
      let! sig := signature t (str "FACP") in
      if sig then io_ret (Some t) else find_fadt n rsdt (i + 1)
  end.

Definition acpi_init : M unit :=
  io_put (with_available false) ;!
  let! rsdp := find_rsdp in
  match rsdp with
  | None => io_ret tt
  | Some rsdp =>
      let! e := rd32 (rsdp + 16) in
      let! rsdt := map_table e in
      let! sig := signature rsdt (str "RSDT") in
      if negb sig then io_ret tt
      else
        let! rsdt_len := rd32 (rsdt + 4) in
        let! ok := checksum_ok rsdt rsdt_len in
        if negb ok then io_ret tt
        else
          let entries := u32 (rsdt_len - 36) / 4 in
          let! fadt := find_fadt (Z.to_nat entries) rsdt 0 in
          match fadt with
          | None => io_ret tt
          | Some fadt =>
              let! smi := rd32 (fadt + 48) in
              let! en := rd8 (fadt + 52) in
              let! a := rd32 (fadt + 64) in
              let! b := rd32 (fadt + 68) in
              io_put (with_fadt (u16 smi) en (u16 a) (u16 b)) ;!
              let! e := rd32 (fadt + 40) in
              let! dsdt := map_table e in
              let! sig := signature dsdt (str "DSDT") in
              if negb sig then io_ret tt
              else
                let! r := parse_s5 dsdt in
                if negb (r =? 0) then io_ret tt
                else io_put (λ s, with_available (negb (pm1a_cnt s =? 0)) s)
          end
  end.

Definition acpi_available (s : ac) : bool := available s.

(** [for (i = 0; i < 300 && !(inw(pm1a_cnt) & SCI_EN); i++) io_wait();] *)
Fixpoint enable_wait (n : nat) (port : Z) : M unit :=
  match n with
  | O => io_ret tt
  | S n => let! v := inw port in if c_true (v &&& SCI_EN) then io_ret tt else io_wait ;! enable_wait n port
  end.

(** The command that a sleep type gives. *)
Definition slp_cmd (typ : Z) : Z := u16 ((typ <<< 10) ||| SLP_EN).

Definition acpi_poweroff : M Z :=
  let! s := io_get in
  if negb (available s) then io_ret (-1)
  else
    let! v := inw (pm1a_cnt s) in
    (if negb (c_true (v &&& SCI_EN)) && c_true (smi_cmd s) && c_true (acpi_enable s)
     then outb (smi_cmd s) (acpi_enable s) ;! enable_wait 300 (pm1a_cnt s) else io_ret tt) ;!
    outw (pm1a_cnt s) (slp_cmd (slp_typa s)) ;!
    (if c_true (pm1b_cnt s) then outw (pm1b_cnt s) (slp_cmd (slp_typb s)) else io_ret tt) ;!
    io_ret (-1).
End Acpi.
