(* ===== verification/AcpiThm.v ===== *)
(** Properties of [Acpi.v]: on firmware tables as the ACPI specification lays them
    out, the driver finds the sleep type of \_S5_ and power-off sends it to the
    control blocks the tables name; the tables are mapped before they are read. *)
From Stdlib Require Import ZArith Lia Bool Ascii String.
From stdpp Require Import base numbers gmap option list.
From S2P Require Import Prelude CString Console Frames Pmm Paging Io Elf IdentityMap Acpi.

#[local] Open Scope Z_scope.
#[local] Open Scope c_scope.
#[local] Open Scope io_scope.

(** ** Tables as bytes *)

Section Bytes.
Variable mem : gmap Z Z.

Definition w32 (p : Z) : Z := ld mem p ||| u32 (ld mem (p + 1) <<< 8) ||| u32 (ld mem (p + 2) <<< 16) ||| u32 (ld mem (p + 3) <<< 24).
Fixpoint says (p : Z) (cs : list Z) : bool :=
  match cs with [] => true | c :: cs => (ld mem p =? c) && says (p + 1) cs end.
Fixpoint byte_sum (n : nat) (p sum : Z) : Z :=
  match n with O => sum | S n => byte_sum n (p + 1) (u8 (sum + ld mem p)) end.

(** Where the root pointer may be: the start of the extended BIOS data area, if
    there is one, then the BIOS. *)
Definition steps (start : Z) (n : nat) : list Z := map (λ i, start + 16 * Z.of_nat i) (seq 0 n).
Definition ebda : Z := u16 (ld mem 0x40E ||| (ld mem 0x40F <<< 8)) <<< 4.
Definition candidates : list Z :=
  (if (0x80000 <=? ebda) && (ebda <? 0xA0000) then steps ebda 64 else []) ++ steps 0xE0000 (Z.to_nat 8192).
Definition is_rsdp (a : Z) : bool := says a (str "RSD PTR ") && (byte_sum 20 a 0 =? 0).

(** A table below the kernel's heap: its length field is sane. *)
Record table (p : Z) (name : list Z) : Prop := {
  tb_range : 0 ≤ p ∧ p + 0x102000 ≤ 0xC0000000;
  tb_len : 36 ≤ w32 (p + 4) < 0x100000;
  tb_name : says p name = true
}.

(** AML integers, and the name of \_S5_ with its package of sleep types. *)
Definition aml_int (x : Z) : list Z := if x =? 0 then [0] else if x =? 1 then [1] else [0x0A; x].
Definition s5_object (root : bool) (lead : Z) (extra : list Z) (num a b : Z) : list Z :=
  [8] ++ (if root then [92] else []) ++ str "_S5_" ++ [0x12; lead] ++ extra ++ [num] ++ aml_int a ++ aml_int b.

(** The definition block's AML: what is before the object does not say "_S5_". *)
Record s5_block (dsdt a b : Z) : Prop := {
  sb_split : ∃ pre root lead extra num post,
    zlen extra = lead >>> 6 ∧ 0 ≤ lead < 256 ∧ 0 ≤ a < 256 ∧ 0 ≤ b < 256 ∧
    36 + zlen (pre ++ s5_object root lead extra num a b ++ post) = w32 (dsdt + 4) ∧
    says (dsdt + 36) (pre ++ s5_object root lead extra num a b ++ post) = true ∧
    ∀ i, 0 ≤ i < zlen pre + (if root then 2 else 1) → says (dsdt + 36 + i) (str "_S5_") = false
}.

(** The chain from the root pointer to \_S5_: the fixed description table is the
    first of its name, after [k] others. *)
Record firmware (rsdp rsdt fadt dsdt k a b : Z) : Prop := {
  fw_rsdp : List.find is_rsdp candidates = Some rsdp;
  fw_rsdt : w32 (rsdp + 16) = rsdt ∧ table rsdt (str "RSDT") ∧ byte_sum (Z.to_nat (w32 (rsdt + 4))) rsdt 0 = 0;
  fw_entries : 0 ≤ k ∧ 36 + 4 * (k + 1) ≤ w32 (rsdt + 4);
  fw_others i : 0 ≤ i < k → table (w32 (rsdt + 36 + i * 4)) [] ∧ says (w32 (rsdt + 36 + i * 4)) (str "FACP") = false;
  fw_fadt : w32 (rsdt + 36 + k * 4) = fadt ∧ table fadt (str "FACP") ∧ 72 ≤ w32 (fadt + 4);
  fw_dsdt : w32 (fadt + 40) = dsdt ∧ table dsdt (str "DSDT");
  fw_s5 : s5_block dsdt a b
}.
End Bytes.

Section Mapping.
Context {A H : Type} `{FrameAllocator A} `{Ports H}.
Abbreviation ac := (acpi A H).
Implicit Types s : ac.

(** Below the heap a page that is mapped is mapped to itself; [n] frames are left. *)
Definition flat (p : paging A) : Prop := ∀ a, 0 ≤ a < 0xC0000000 → open_at p a.
Definition room (n : Z) s : Prop :=
  enabled (ac_paging s) = false ∨ paging_wf (ac_paging s) ∧ flat (ac_paging s) ∧ n ≤ fa_count (pg_frames (ac_paging s)).
(** The byte at [a] can be read there. *)
Definition sees s (a : Z) : Prop := phys_of (ac_paging s) a = Some a.

(** The page tables have grown, if there are any. *)
Definition more_pages s s' : Prop := enabled (ac_paging s) = true → ∃ m, grown m (ac_paging s) (ac_paging s').

Lemma more_pages_trans s1 s2 s3 : more_pages s1 s2 → more_pages s2 s3 → more_pages s1 s3.
Proof.
  intros G1 G2 He. destruct (G1 He) as [m1 G1']. destruct (G2 ltac:(by rewrite (gr_enabled _ _ _ G1'))) as [m2 G2'].
  eexists. by eapply grown_trans.
Qed.

Record mapped (n : Z) s s' : Prop := {
  mp_rest : s' = with_paging (ac_paging s') s;
  mp_room : room n s';
  mp_pages : more_pages s s';
  mp_sees a : 0 ≤ a < 0xC0000000 → sees s a → sees s' a
}.

Lemma mapped_refl n s : room n s → mapped n s s.
Proof.
  intros Hr. split; [by destruct s|done| |done]. intros He. destruct Hr as [?|(Hw & _)]; [congruence|]. exists 0. by apply grown_refl.
Qed.
Lemma mapped_trans n m s1 s2 s3 : mapped n s1 s2 → mapped m s2 s3 → mapped m s1 s3.
Proof.
  intros [E1 _ G1 S1] [E2 R2 G2 S2]. split; [rewrite E2; by rewrite E1|done|by eapply more_pages_trans|]. intros a Ha Hs. by apply S2, S1.
Qed.
Lemma mapped_mem n s s' : mapped n s s' → ac_mem s' = ac_mem s.
Proof. by intros [-> _ _ _]. Qed.
Lemma room_less n m s : m ≤ n → room n s → room m s.
Proof. intros Hm [?|(? & ? & ?)]; [by left|right]. split_and!; [done..|lia]. Qed.

Lemma map_loop_new fuel a stop s :
  map_loop fuel a stop s = match map_new fuel a stop (ac_paging s) with Some p => Some (with_paging p s, tt) | None => None end.
Proof.
  revert a s. induction fuel as [|fuel IH]; intros a s; cbn [map_loop map_new]; destruct (a =? stop); try done; [by destruct s..|].
  unfold io_bind, io_get. change (map_page a (ac_paging s)) with
    (if paging_get_phys a (ac_paging s) =? 0xFFFFFFFF then (paging_map a a (PAGE_PRESENT ||| PAGE_WRITE) (ac_paging s)).1 else ac_paging s).
  destruct (_ =? _); cbn [io_put io_ret]; by rewrite IH.
Qed.

Lemma map_phys_ok addr len n s :
  0 ≤ n → 0 ≤ addr → 0 < len → addr + len + 0x1000 ≤ 0xC0000000 → len < 0x100000 → room (n + 260) s →
  iwp (map_phys addr len) (λ s' _, mapped n s s' ∧ ∀ i, 0 ≤ i < len → sees s' (addr + i)) s.
Proof.
  intros Hn Ha Hl Htop Hlen Hroom. unfold map_phys. apply iwp_bind, iwp_get. unfold paging_is_enabled.
  destruct (enabled (ac_paging s)) eqn:He; cbn [negb].
  2:{ apply iwp_ret. split; [apply mapped_refl; eapply room_less; [|exact Hroom]; lia|]. intros i Hi. unfold sees, phys_of. by rewrite He. }
  destruct Hroom as [?|(Hw & Hfl & Hc)]; [congruence|].
  destruct (map_new_range addr len (ac_paging s) Hw ltac:(lia)) as (p' & m & E & G & Hsee).
  assert (len / 4096 < 256) as Hlp by (apply Z.div_lt_upper_bound; lia).
  destruct (range_rounded addr len ltac:(lia)) as (R1 & R2 & _ & _ & R5). destruct (R5 ltac:(lia) ltac:(lia)) as [R6 _].
  destruct (Hsee Hl ltac:(lia)) as [Hm Hs]; [intros w Hwr; apply Hfl; lia|lia|].
  change (addr &&& u32_not 0xFFF) with (page_start addr). change (u32 (addr + len + 0xFFF) &&& u32_not 0xFFF) with (page_stop addr len).
  exists (with_paging p' s), tt. split; [unfold map_fuel; by rewrite map_loop_new, E|].
  pose proof (gr_enabled _ _ _ G) as He'. rewrite He in He'. split; [split|].
  - done.
  - right. cbn [with_paging ac_paging]. split; [apply G|]. split; [intros a Hr; apply (gr_open _ _ _ G); [lia|by apply Hfl]|]. pose proof (gr_count _ _ _ G). lia.
  - intros _. by exists m.
  - intros a Hr. unfold sees, phys_of. cbn [with_paging ac_paging]. rewrite He, He'. by apply (grown_mmu _ _ _ _ _ G); lia.
  - intros i Hi. unfold sees, phys_of. cbn [with_paging ac_paging]. rewrite He'. by apply Hs.
Qed.

(** ** Reading *)

Lemma rd8_at a s : 0 ≤ a < 2 ^ 32 → sees s a → rd8 a s = Some (s, ld (ac_mem s) a).
Proof. intros Ha Hs. unfold rd8. by rewrite u32_small, Hs by done. Qed.

Lemma rd32_at p s : 0 ≤ p → p + 4 ≤ 2 ^ 32 → (∀ i, 0 ≤ i < 4 → sees s (p + i)) → rd32 p s = Some (s, w32 (ac_mem s) p).
Proof.
  intros Hp Hp4 Hs. assert (∀ i, 0 ≤ i < 4 → rd8 (p + i) s = Some (s, ld (ac_mem s) (p + i))) as Hb.
  { intros i Hi. apply rd8_at; [lia|by apply Hs]. }
  pose proof (Hb 0 ltac:(lia)) as E0. rewrite Z.add_0_r in E0. unfold rd32, io_bind.
  rewrite E0, (Hb 1), (Hb 2), (Hb 3) by lia. reflexivity.
Qed.

Lemma signature_at p cs s : 0 ≤ p → p + zlen cs ≤ 2 ^ 32 → (∀ i, 0 ≤ i < zlen cs → sees s (p + i)) → signature p cs s = Some (s, says (ac_mem s) p cs).
Proof.
  revert p. induction cs as [|c cs IH]; intros p Hp Hl Hs; [done|]. rewrite zlen_cons in *. assert (0 ≤ zlen cs) by (unfold zlen; lia).
  cbn [signature says]. unfold io_bind. rewrite rd8_at; [|lia|replace p with (p + 0) by lia; apply Hs; lia].
  destruct (_ =? c); [|done]. apply IH; [lia|lia|]. intros i Hi. rewrite <- Z.add_assoc. apply Hs. lia.
Qed.

Lemma checksum_at n p sum s : 0 ≤ p → p + Z.of_nat n ≤ 2 ^ 32 → (∀ i, 0 ≤ i < Z.of_nat n → sees s (p + i)) →
  checksum n p sum s = Some (s, byte_sum (ac_mem s) n p sum =? 0).
Proof.
  revert p sum. induction n as [|n IH]; intros p sum Hp Hl Hs; [done|]. cbn [checksum byte_sum]. unfold io_bind.
  rewrite rd8_at; [|lia|replace p with (p + 0) by lia; apply Hs; lia].
  apply IH; [lia|lia|]. intros i Hi. rewrite <- Z.add_assoc. apply Hs. lia.
Qed.

Lemma scan_at n a s : 0 ≤ a → a + 16 * Z.of_nat n + 20 ≤ 2 ^ 32 → (∀ i, 0 ≤ i < 16 * Z.of_nat n + 20 → sees s (a + i)) →
  scan_loop n a s = Some (s, List.find (is_rsdp (ac_mem s)) (steps a n)).
Proof.
  revert a. induction n as [|n IH]; intros a Ha Hl Hs; [done|]. cbn [scan_loop].
  assert (steps a (S n) = a :: steps (a + 16) n) as ->.
  { unfold steps. cbn [seq map]. f_equal; [lia|]. rewrite <- seq_shift, map_map. apply map_ext. intros i. lia. }
  unfold io_bind. rewrite signature_at; [|lia|change (zlen (str "RSD PTR ")) with 8; lia|intros i Hi; change (zlen (str "RSD PTR ")) with 8 in Hi; apply Hs; lia].
  cbn [List.find]. unfold is_rsdp at 1. destruct (says _ a _); cbn [andb].
  - unfold checksum_ok. rewrite checksum_at; [|lia|lia|intros i Hi; apply Hs; lia]. change (Z.to_nat 20) with 20%nat.
    destruct (_ =? 0); [done|]. apply IH; [lia|lia|]. intros i Hi. rewrite <- Z.add_assoc. apply Hs. lia.
  - cbv beta iota delta [io_ret]. apply IH; [lia|lia|]. intros i Hi. rewrite <- Z.add_assoc. apply Hs. lia.
Qed.

Lemma find_app {X} (f : X → bool) l1 l2 : List.find f (l1 ++ l2) = match List.find f l1 with Some x => Some x | None => List.find f l2 end.
Proof. induction l1 as [|x l1 IH]; [done|]. cbn [app List.find]. by destruct (f x). Qed.

(** The first megabyte can be read, as the identity map of [paging_init] has it. *)
Definition low s : Prop := ∀ a, 0 ≤ a < 0x101000 → sees s a.

Lemma find_rsdp_at s : low s → find_rsdp s = Some (s, List.find (is_rsdp (ac_mem s)) (candidates (ac_mem s))).
Proof.
  intros Hlow. unfold find_rsdp, io_bind. rewrite !rd8_at by (first [split; [lia|reflexivity] | apply Hlow; lia]).
  fold (ebda (ac_mem s)). unfold candidates. rewrite find_app. unfold scan_rsdp.
  change (Z.to_nat ((0x100000 - 0xE0000 + 15) / 16)) with (Z.to_nat 8192).
  assert (scan_loop (Z.to_nat 8192) 0xE0000 s = Some (s, List.find (is_rsdp (ac_mem s)) (steps 0xE0000 (Z.to_nat 8192)))) as E2.
  { apply scan_at; [lia|lia|]. intros i Hi. apply Hlow. lia. }
  destruct ((0x80000 <=? ebda (ac_mem s)) && (ebda (ac_mem s) <? 0xA0000)) eqn:Eb.
  - apply andb_true_iff in Eb as [E1%Z.leb_le E3%Z.ltb_lt]. replace (ebda (ac_mem s) + 1024 - ebda (ac_mem s) + 15) with 1039 by lia.
    change (Z.to_nat (1039 / 16)) with 64%nat. rewrite scan_at; [|lia|lia|intros i Hi; apply Hlow; lia].
    by destruct (List.find _ (steps (ebda _) 64)).
  - exact E2.
Qed.

Lemma iwp_reads {X} (m : IO ac X) (x : X) (Q : ac → X → Prop) s : m s = Some (s, x) → Q s x → iwp m Q s.
Proof. intros E HQ. by exists s, x. Qed.

(** A table that can be read: all of it, and at least its header. *)
Definition open s (p : Z) : Prop := ∀ i, 0 ≤ i < Z.max 64 (w32 (ac_mem s) (p + 4)) → sees s (p + i).

Lemma map_table_ok p name n s :
  0 ≤ n → table (ac_mem s) p name → room (n + 520) s →
  iwp (map_table p) (λ s' r, r = p ∧ mapped n s s' ∧ open s' p) s.
Proof.
  intros Hn [[T1 T2] T3 _] Hroom. unfold map_table. apply iwp_bind.
  eapply iwp_mono; [apply (map_phys_ok p 64 (n + 260)); [lia..|by replace (n + 260 + 260) with (n + 520) by lia]|].
  intros s1 _ [M1 S1]. pose proof (mapped_mem _ _ _ M1) as Em. apply iwp_bind.
  eapply iwp_reads; [apply rd32_at; [lia|lia|intros i Hi; rewrite <- Z.add_assoc; apply S1; lia]|]. rewrite Em.
  assert (mapped n s s1) as M1' by (destruct M1; split; [done|by eapply room_less; [|exact mp_room0]; lia|done|done]).
  set (len := w32 (ac_mem s) (p + 4)) in *. apply iwp_bind. destruct ((64 <? len) && (len <? 0x100000)) eqn:El.
  - apply andb_true_iff in El as [E1%Z.ltb_lt E2%Z.ltb_lt]. eapply iwp_mono; [apply (map_phys_ok p len n); [lia..|apply M1]|].
    intros s2 _ [M2 S2]. apply iwp_ret. split; [done|]. pose proof (mapped_trans _ _ _ _ _ M1 M2) as M. split; [done|].
    unfold open. rewrite (mapped_mem _ _ _ M). fold len. intros i Hi. apply S2. lia.
  - apply iwp_ret, iwp_ret. split; [done|]. split; [done|]. unfold open. rewrite Em. fold len. intros i Hi. apply S1.
    assert (len ≤ 64); [|lia]. apply andb_false_iff in El as [El%Z.ltb_ge|El%Z.ltb_ge]; lia.
Qed.

Lemma open_mapped n s s' p : mapped n s s' → 0 ≤ p ∧ p + 0x102000 ≤ 0xC0000000 → w32 (ac_mem s) (p + 4) < 0x100000 → open s p → open s' p.
Proof.
  intros M Hp Hl Ho i. rewrite (mapped_mem _ _ _ M). intros Hi. apply M; [lia|]. by apply Ho.
Qed.

Lemma open_rd32 s p i : 0 ≤ p → p + 0x102000 ≤ 0xC0000000 → open s p → w32 (ac_mem s) (p + 4) < 0x100000 → 0 ≤ i → i + 4 ≤ Z.max 64 (w32 (ac_mem s) (p + 4)) →
  rd32 (p + i) s = Some (s, w32 (ac_mem s) (p + i)).
Proof.
  intros Hp Ht Ho Hl Hi Hi4. apply rd32_at; [lia|lia|]. intros j Hj. rewrite <- Z.add_assoc. apply Ho. lia.
Qed.

Lemma open_name s p name : 0 ≤ p → p + 0x102000 ≤ 0xC0000000 → open s p → zlen name ≤ 64 → signature p name s = Some (s, says (ac_mem s) p name).
Proof. intros Hp Ht Ho Hl. apply signature_at; [lia|lia|]. intros i Hi. apply Ho. lia. Qed.

Lemma find_fadt_ok mem rsdp rsdt fadt dsdt k a b n m i s :
  firmware mem rsdp rsdt fadt dsdt k a b → ac_mem s = mem → open s rsdt → 0 ≤ n → 0 ≤ i ≤ k → k - i < Z.of_nat m →
  room (n + 520 * (k - i + 1)) s →
  iwp (find_fadt m rsdt i) (λ s' r, r = Some fadt ∧ mapped n s s' ∧ open s' fadt) s.
Proof.
  intros Hfw. destruct Hfw as [_ (_ & Hrsdt & _) [Hk0 Hk] Hothers (Efadt & Htf & _) _ _]. destruct Hrsdt as [[R1 R2] R3 _].
  revert i s. induction m as [|m IH]; intros i s Em Ho Hn Hi Hm Hroom; [lia|]. cbn [find_fadt].
  apply iwp_bind. eapply iwp_reads; [rewrite <- Z.add_assoc; apply open_rd32; [done|done|done|rewrite Em; lia|lia|rewrite Em; lia]|].
  rewrite Em, Z.add_assoc. apply iwp_bind. destruct (Z.eq_dec i k) as [->|Hne].
  - rewrite Efadt. eapply iwp_mono; [apply (map_table_ok fadt (str "FACP") n); [done|by rewrite Em|eapply room_less; [|exact Hroom]; lia]|].
    intros s1 r (-> & M1 & O1). apply iwp_bind. destruct Htf as [[T1 T2] T3 T4].
    eapply iwp_reads; [apply open_name; [done|done|done|done]|]. rewrite (mapped_mem _ _ _ M1), Em, T4. apply iwp_ret. by split_and!.
  - destruct (Hothers i ltac:(lia)) as [Ht Hs]. set (t := w32 mem (rsdt + 36 + i * 4)) in *.
    eapply iwp_mono; [apply (map_table_ok t [] (n + 520 * (k - i))); [lia|by rewrite Em|eapply room_less; [|exact Hroom]; lia]|].
    intros s1 r (-> & M1 & O1). pose proof (mapped_mem _ _ _ M1) as E1. apply iwp_bind. destruct Ht as [[T1 T2] T3 T4].
    eapply iwp_reads; [apply open_name; [done|done|done|done]|]. rewrite E1, Em, Hs.
    eapply iwp_mono; [apply (IH (i + 1)); [by rewrite E1|eapply open_mapped; [exact M1|done|rewrite Em; lia|done]|done|lia|lia|]|].
    { eapply room_less; [|apply M1]. lia. }
    intros s2 r (-> & M2 & O2). split; [done|]. split; [by eapply mapped_trans|done].
Qed.

(** ** The \_S5_ object *)

Lemma zlen_app {X} (l1 l2 : list X) : zlen (l1 ++ l2) = zlen l1 + zlen l2.
Proof. unfold zlen. rewrite length_app. lia. Qed.

Lemma says_app mem p l1 l2 : says mem p (l1 ++ l2) = says mem p l1 && says mem (p + zlen l1) l2.
Proof.
  revert p. induction l1 as [|c l1 IH]; intros p; [cbn; by rewrite Z.add_0_r|]. cbn [app says]. rewrite IH, zlen_cons, <- andb_assoc.
  do 3 f_equal. lia.
Qed.

Lemma says_cons mem p c l : says mem p (c :: l) = true → ld mem p = c ∧ says mem (p + 1) l = true.
Proof. cbn [says]. by intros [E%Z.eqb_eq ?]%andb_true_iff. Qed.

Lemma find_s5_at n p j s :
  0 ≤ p → 0 ≤ j < Z.of_nat n → p + Z.of_nat n + 4 ≤ 2 ^ 32 → (∀ i, 0 ≤ i < Z.of_nat n + 4 → sees s (p + i)) →
  (∀ i, 0 ≤ i < j → says (ac_mem s) (p + i) (str "_S5_") = false) → says (ac_mem s) (p + j) (str "_S5_") = true →
  find_s5 n p s = Some (s, Some (p + j)).
Proof.
  revert p j. induction n as [|n IH]; intros p j Hp Hj Hl Hs Hno Hyes; [lia|]. cbn [find_s5]. unfold io_bind.
  rewrite signature_at; [|done|change (zlen (str "_S5_")) with 4; lia|intros i Hi; change (zlen (str "_S5_")) with 4 in Hi; apply Hs; lia].
  destruct (Z.eq_dec j 0) as [->|Hj0].
  - rewrite Z.add_0_r in *. by rewrite Hyes.
  - pose proof (Hno 0 ltac:(lia)) as E0. rewrite Z.add_0_r in E0. rewrite E0. replace (p + j) with (p + 1 + (j - 1)) in * by lia.
    apply IH; [lia|lia|lia|..|done]; intros i Hi; rewrite <- Z.add_assoc; [apply Hs|apply Hno]; lia.
Qed.

(** Past an optional prefix, the value of an AML integer is its last byte. *)
Lemma skip_prefix_at x v rest s :
  0 ≤ x → x + 2 ≤ 2 ^ 32 → (∀ i, 0 ≤ i < zlen (aml_int v) → sees s (x + i)) → says (ac_mem s) x (aml_int v ++ rest) = true →
  let x' := x + zlen (aml_int v) - 1 in
  skip_prefix x s = Some (s, x') ∧ rd8 x' s = Some (s, v) ∧ says (ac_mem s) (x' + 1) rest = true.
Proof.
  intros Hx Hl Hs Hsay x'. unfold skip_prefix, io_bind. assert (0 < zlen (aml_int v) ≤ 2) as Hz by (unfold aml_int; repeat destruct (_ =? _); by split).
  pose proof (Hs 0 ltac:(lia)) as S0. rewrite Z.add_0_r in S0. rewrite rd8_at by (lia || done).
  rewrite says_app in Hsay. apply andb_true_iff in Hsay as [Hv Hr]. unfold x', aml_int in *.
  destruct (Z.eqb_spec v 0) as [->|]; [|destruct (Z.eqb_spec v 1) as [->|]]; apply says_cons in Hv as [E1 E2].
  - rewrite E1. change (zlen [0]) with 1 in *. replace (x + 1 - 1) with x by lia. rewrite rd8_at, E1 by (lia || done). done.
  - rewrite E1. change (zlen [1]) with 1 in *. replace (x + 1 - 1) with x by lia. rewrite rd8_at, E1 by (lia || done). done.
  - rewrite E1. apply says_cons in E2 as [E2 _]. change (zlen [10; v]) with 2 in *. replace (x + 2 - 1) with (x + 1) by lia.
    pose proof (Hs 1 ltac:(lia)) as S1. rewrite rd8_at, E2 by (lia || done). split_and!; [done..|]. by replace (x + 1 + 1) with (x + 2) by lia.
Qed.

Lemma lead_extra lead : 0 ≤ lead < 256 → (lead &&& 0xC0) >>> 6 = lead >>> 6.
Proof.
  intros Hl. rewrite Z.shiftr_land. change (0xC0 >>> 6) with (Z.ones 2). rewrite Z.land_ones, shiftr_div by lia. clear -Hl. zlia.
Qed.

Lemma parse_s5_ok dsdt a b s :
  table (ac_mem s) dsdt (str "DSDT") → open s dsdt → s5_block (ac_mem s) dsdt a b →
  parse_s5 dsdt s = Some (with_slp (a &&& 7) (b &&& 7) s, 0).
Proof.
  intros [[T1 T2] T3 _] Ho [(pre & root & lead & extra & num & post & Hex & Hlead & Ha & Hb & Hlen & Hsay & Hno)].
  set (len := w32 (ac_mem s) (dsdt + 4)) in *.
  assert (0 ≤ zlen pre ∧ 0 ≤ zlen post ∧ 0 ≤ zlen extra) as (P1 & P2 & P3) by (unfold zlen; lia).
  assert (∀ v, 0 < zlen (aml_int v) ≤ 2) as Hz by (intros v; unfold aml_int; repeat destruct (_ =? _); by split).
  pose proof (Hz a) as Za. pose proof (Hz b) as Zb.
  assert (∀ i, 0 ≤ i < len → sees s (dsdt + i)) as Hsee by (intros i Hi; apply Ho; fold len; lia).
  assert (∀ x, dsdt ≤ x < dsdt + len → rd8 x s = Some (s, ld (ac_mem s) x)) as Hrd.
  { intros x Hx. apply rd8_at; [lia|]. replace x with (dsdt + (x - dsdt)) by lia. apply Hsee. lia. }
  set (j := zlen pre + (if root then 2 else 1)) in *. set (q := dsdt + 36 + j).
  assert (1 ≤ j) as Hj by (unfold j; destruct root; lia).
  assert (∃ b1, ld (ac_mem s) (q - 1) = b1 ∧ (b1 = 8 ∨ b1 = 92 ∧ ld (ac_mem s) (q - 2) = 8) ∧
    says (ac_mem s) q (str "_S5_" ++ [0x12; lead] ++ extra ++ [num] ++ aml_int a ++ aml_int b) = true) as (b1 & Eb1 & Hb1 & Hq).
  { rewrite says_app in Hsay. apply andb_true_iff in Hsay as [_ Hsay]. rewrite says_app in Hsay. apply andb_true_iff in Hsay as [Hsay _].
    unfold s5_object in Hsay. apply says_cons in Hsay as [E8 Hsay]. unfold q, j. destruct root; cbn [app] in Hsay.
    - apply says_cons in Hsay as [E92 Hsay]. exists 92. split_and!; [|right; split; [done|]|].
      + rewrite <- E92. f_equal. lia.
      + rewrite <- E8. f_equal. lia.
      + replace (dsdt + 36 + (zlen pre + 2)) with (dsdt + 36 + zlen pre + 1 + 1) by lia. exact Hsay.
    - exists 8. split_and!; [|by left|].
      + rewrite <- E8. f_equal. lia.
      + replace (dsdt + 36 + (zlen pre + 1)) with (dsdt + 36 + zlen pre + 1) by lia. exact Hsay. }
  assert (36 + j + 4 + 2 + zlen extra + 1 + zlen (aml_int a) + zlen (aml_int b) ≤ len) as Hfit.
  { rewrite <- Hlen. unfold j, s5_object. rewrite !zlen_app. change (zlen (str "_S5_")) with 4. change (zlen [8]) with 1.
    change (zlen [num]) with 1. change (zlen [18; lead]) with 2. destruct root; [change (zlen [92]) with 1|change (zlen (@nil Z)) with 0]; lia. }
  unfold parse_s5, io_bind. rewrite rd32_at; [|lia|lia|intros i Hi; rewrite <- Z.add_assoc; apply Hsee; lia]. fold len.
  rewrite (proj2 (Z.ltb_ge len 36)), (proj2 (Z.ltb_ge 0x100000 len)) by lia. cbn [orb].
  rewrite says_app in Hq. apply andb_true_iff in Hq as [Hname Hq]. change (zlen (str "_S5_")) with 4 in Hq.
  rewrite (find_s5_at _ _ j); [|lia|lia|lia|intros i Hi; rewrite <- Z.add_assoc; apply Hsee; lia|exact Hno|exact Hname]. fold q.
  assert (q = dsdt + 36 + j) as Eq by done. clearbody q.
  rewrite Hrd, Eb1 by lia.
  match goal with |- context [(if b1 =? 0x08 then ?x else ?y) s] => assert ((if b1 =? 0x08 then x else y) s = Some (s, true)) as -> end.
  { destruct Hb1 as [-> | [-> E2]]; [done|]. cbn [Z.eqb Pos.eqb]. rewrite (Hrd (q - 2)), E2 by lia. cbn [Z.eqb Pos.eqb]. by rewrite Hrd, Eb1 by lia. }
  cbn [negb]. cbn [app] in Hq. apply says_cons in Hq as [Eop Hq]. apply says_cons in Hq as [Elead Hq].
  replace (q + 4 + 1) with (q + 5) in * by lia. rewrite Hrd, Eop by lia. cbn [Z.eqb Pos.eqb negb].
  rewrite Hrd, Elead, lead_extra, <- Hex by lia. rewrite says_app in Hq. apply andb_true_iff in Hq as [_ Hq]. apply says_cons in Hq as [_ Hq].
  replace (q + 5 + 1 + zlen extra + 1) with (q + 5 + (zlen extra + 1) + 1) in Hq by lia.
  rewrite (Z.add_assoc (q + 5)) in Hq. set (x := q + 5 + zlen extra + 1 + 1) in *.
  destruct (skip_prefix_at x a (aml_int b) s) as (E1 & E2 & E3); [lia|lia| |exact Hq|].
  { intros i Hi. replace (x + i) with (dsdt + (x + i - dsdt)) by lia. apply Hsee. lia. }
  rewrite E1, E2. rewrite <- (app_nil_r (aml_int b)) in E3.
  destruct (skip_prefix_at (x + zlen (aml_int a) - 1 + 1) b [] s) as (E4 & E5 & _); [lia|lia| |exact E3|].
  { intros i Hi. match goal with |- sees _ ?y => replace y with (dsdt + (y - dsdt)) by lia end. apply Hsee. lia. }
  rewrite E4, E5. reflexivity.
Qed.

(** ** Power-off *)

(** The statics after the tables have been read. *)
Definition found (fadt a b : Z) s : ac :=
  with_available (negb (u16 (w32 (ac_mem s) (fadt + 64)) =? 0))
    (with_slp (a &&& 7) (b &&& 7)
      (with_fadt (u16 (w32 (ac_mem s) (fadt + 48))) (ld (ac_mem s) (fadt + 52)) (u16 (w32 (ac_mem s) (fadt + 64))) (u16 (w32 (ac_mem s) (fadt + 68))) s)).

Lemma open_rd8 s p i : 0 ≤ p → p + 0x102000 ≤ 0xC0000000 → open s p → 0 ≤ i < 64 → rd8 (p + i) s = Some (s, ld (ac_mem s) (p + i)).
Proof. intros Hp Ht Ho Hi. apply rd8_at; [lia|]. apply Ho. lia. Qed.

Lemma candidates_range mem c : In c (candidates mem) → 0 ≤ c ≤ 0xffff0.
Proof.
  unfold candidates. intros [Hc|Hc]%in_app_or.
  - destruct (_ && _) eqn:Eb; [|done]. apply andb_true_iff in Eb as [E1%Z.leb_le E2%Z.ltb_lt].
    apply in_map_iff in Hc as (i & <- & Hi%in_seq). lia.
  - apply in_map_iff in Hc as (i & <- & Hi%in_seq). lia.
Qed.

Lemma acpi_init_ok rsdp rsdt fadt dsdt k a b n s :
  firmware (ac_mem s) rsdp rsdt fadt dsdt k a b → low s → 0 ≤ n → room (n + 520 * (k + 3)) s →
  iwp acpi_init (λ s' _, s' = with_paging (ac_paging s') (found fadt a b s) ∧ more_pages s s') s.
Proof.
  intros Hfw Hlow Hn Hroom. pose proof Hfw as [Frp (Ert & Trt & Frs) [Hk0 Hk] _ (Efadt & Tf & Hf72) (Edsdt & Td) Fs5].
  set (mem := ac_mem s) in *.
  pose proof (candidates_range _ _ (proj1 (find_some _ _ Frp))) as Hrp. unfold acpi_init. apply iwp_bind, iwp_put. set (s0 := with_available false s).
  assert (ac_mem s0 = mem) as E0 by done. apply iwp_bind.
  eapply iwp_reads; [apply (find_rsdp_at s0 Hlow)|]. rewrite E0, Frp. apply iwp_bind.
  eapply iwp_reads; [apply rd32_at; [lia|lia|]; intros i Hi; rewrite <- Z.add_assoc; apply Hlow; lia|]. rewrite E0, Ert. apply iwp_bind.
  eapply iwp_mono; [apply (map_table_ok rsdt (str "RSDT") (n + 520 * (k + 2))); [lia|done|by replace (n + 520 * (k + 2) + 520) with (n + 520 * (k + 3)) by lia]|].
  intros s1 r (-> & M1 & O1). pose proof (mapped_mem _ _ _ M1) as E1. rewrite E0 in E1. pose proof Trt as [[R1 R2] R3 R4]. apply iwp_bind.
  eapply iwp_reads; [by apply open_name|]. rewrite E1, R4. cbn [negb]. apply iwp_bind.
  eapply iwp_reads; [apply open_rd32; [done|done|done|rewrite E1; lia|lia|lia]|]. rewrite E1. set (len := w32 mem (rsdt + 4)) in *. apply iwp_bind.
  eapply iwp_reads; [apply checksum_at; [done|lia|intros i Hi; apply O1; rewrite E1; fold len; lia]|]. rewrite E1, Frs. cbn [Z.eqb negb].
  rewrite u32_small by lia. apply iwp_bind.
  eapply iwp_mono; [eapply (find_fadt_ok mem _ _ _ _ _ _ _ (n + 520)); [exact Hfw|exact E1|exact O1|lia|lia| |eapply room_less; [|apply M1]; lia]|].
  { clear -Hk Hk0. zlia. }
  intros s2 r (-> & M2 & O2). pose proof (mapped_mem _ _ _ M2) as E2. rewrite E1 in E2. pose proof Tf as [[F1 F2] F3 F4].
  assert (∀ i, 0 ≤ i ≤ 68 → rd32 (fadt + i) s2 = Some (s2, w32 mem (fadt + i))) as Hrd.
  { intros i Hi. rewrite <- E2. apply open_rd32; [done|done|done|rewrite E2; lia|lia|rewrite E2; lia]. }
  apply iwp_bind; eapply iwp_reads; [apply Hrd; lia|]. apply iwp_bind; eapply iwp_reads; [apply open_rd8; done || lia|].
  do 2 (apply iwp_bind; eapply iwp_reads; [apply Hrd; lia|]). apply iwp_bind, iwp_put. rewrite E2.
  set (s3 := with_fadt _ _ _ _ s2). assert (ac_mem s3 = mem) as E3 by exact E2.
  apply iwp_bind. eapply iwp_reads; [rewrite <- E3 in Tf, Hf72; destruct Tf; apply open_rd32; done || lia|]. rewrite E3, Edsdt. apply iwp_bind.
  eapply iwp_mono; [apply (map_table_ok dsdt (str "DSDT") n s3); [done|by rewrite E3|apply M2]|].
  intros s4 r (-> & M4 & O4). pose proof (mapped_mem _ _ _ M4) as E4. rewrite E3 in E4. pose proof Td as [[D1 D2] D3 D4]. apply iwp_bind.
  eapply iwp_reads; [by apply open_name|]. rewrite E4, D4. cbn [negb]. apply iwp_bind.
  eexists _, _. split; [apply (parse_s5_ok dsdt a b); by rewrite ?E4|]. cbn [Z.eqb negb]. apply iwp_put.
  split; [|exact (more_pages_trans _ _ _ (mp_pages _ _ _ M1) (more_pages_trans s1 s3 s4 (mp_pages _ _ _ M2) (mp_pages _ _ _ M4)))].
  destruct M1 as [X1 _ _ _], M2 as [X2 _ _ _], M4 as [X4 _ _ _]. rewrite X4. unfold s3. rewrite X2, X1. reflexivity.
Qed.

Lemma acpi_init_none s :
  low s → List.find (is_rsdp (ac_mem s)) (candidates (ac_mem s)) = None → acpi_init s = Some (with_available false s, tt).
Proof.
  intros Hlow E. unfold acpi_init, io_bind, io_put. rewrite (find_rsdp_at (with_available false s) Hlow). cbn [with_available ac_mem]. by rewrite E.
Qed.

(** The word that asks for sleep type [typ], as the specification lays out the control
    block: the type in bits 10 to 12, SLP_EN in bit 13.  It goes to the first block,
    and to the second only if there is one. *)
Definition sleep_word (typ : Z) : Z := 2 ^ 10 * (typ mod 8) + 2 ^ 13.
Definition sleep_writes (pm1a pm1b a b : Z) (h : H) : H :=
  let h := p_out 2 pm1a (sleep_word a) h in
  if pm1b =? 0 then h else p_out 2 pm1b (sleep_word b) h.

(** Waiting for the chipset to say that it is in ACPI mode, bit 0 of the control block:
    at most [n] reads, a short delay (a write to port 80h) after each that says no. *)
Inductive waited (pm1a : Z) : nat → H → H → Prop :=
  | w_acpi n h h' v : p_in 2 pm1a h = (h', v) → Z.odd v = true → waited pm1a (S n) h h'
  | w_again n h h' h'' v : p_in 2 pm1a h = (h', v) → Z.odd v = false → waited pm1a n (p_out 1 0x80 0 h') h'' → waited pm1a (S n) h h''
  | w_gave_up h : waited pm1a 0 h h.

(** What is done to the hardware before: the mode is read, and asked for with the byte
    [en] to the port [smi] if the chipset is not in it and the firmware has given both. *)
Definition acpi_mode (pm1a smi en : Z) (h h' : H) : Prop :=
  let '(h0, v) := p_in 2 pm1a h in
  if Z.odd v || (smi =? 0) || (en =? 0) then h' = h0 else waited pm1a 300 (p_out 1 smi (u8 en) h0) h'.

Lemma sci_en_odd v : c_true (v &&& SCI_EN) = Z.odd v.
Proof. unfold c_true, SCI_EN. change 1 with (Z.ones 1). rewrite Z.land_ones by done. change (2 ^ 1) with 2. rewrite Zmod_odd. by destruct (Z.odd v). Qed.

Lemma enable_wait_ok n port s :
  u16 port = port → ∃ h, enable_wait n port s = Some (set_hw h s, tt) ∧ waited port n (ac_hw s) h.
Proof.
  intros Ep. revert s. induction n as [|n IH]; intros s; [exists (ac_hw s); destruct s; split; [done|constructor]|].
  cbn [enable_wait]. unfold io_bind, inw, in_port. rewrite Ep. change (get_hw s) with (ac_hw s).
  destruct (p_in 2 port (ac_hw s)) as [h v] eqn:E. rewrite sci_en_odd.
  destruct (Z.odd v) eqn:Ev; [exists h; split; [done|by eapply w_acpi]|].
  unfold io_wait, outb, out_port, io_put. edestruct IH as (h' & -> & Hw).
  exists h'. split; [done|]. by eapply w_again.
Qed.

Lemma slp_cmd_u16 t : u16 (slp_cmd t) = slp_cmd t.
Proof. unfold slp_cmd, u16. by rewrite Z.mod_mod. Qed.

Lemma slp_cmd_word t : slp_cmd (t &&& 7) = sleep_word t.
Proof.
  unfold slp_cmd, sleep_word. change SLP_EN with 8192. rewrite (land_mask t 3 7) by done.
  change (2 ^ 3) with 8. pose proof (Z.mod_pos_bound t 8 ltac:(lia)) as Hr. revert Hr.
  generalize (t mod 8). intros r Hr. rewrite shiftl_mul by lia.
  rewrite (lor_disjoint_add (r * 2 ^ 10) _ 13) by (try done; lia). unfold u16. rewrite Z.mod_small; zlia.
Qed.

Lemma acpi_poweroff_ok fadt a b p s s1 :
  s1 = with_paging p (found fadt a b s) →
  let pm1a := u16 (w32 (ac_mem s) (fadt + 64)) in
  pm1a ≠ 0 →
  iwp acpi_poweroff (λ s2 r, r = -1 ∧ ∃ h,
    acpi_mode pm1a (u16 (w32 (ac_mem s) (fadt + 48))) (ld (ac_mem s) (fadt + 52)) (ac_hw s) h ∧
    ac_hw s2 = sleep_writes pm1a (u16 (w32 (ac_mem s) (fadt + 68))) a b h) s1.
Proof.
  intros -> pm1a Hp. unfold acpi_poweroff. apply iwp_bind, iwp_get. cbn [with_paging found with_available available].
  fold pm1a. rewrite (proj2 (Z.eqb_neq pm1a 0) Hp). cbn [negb].
  set (s1 := with_paging p (found fadt a b s)). set (pm1b := u16 (w32 (ac_mem s) (fadt + 68))).
  set (smi := u16 (w32 (ac_mem s) (fadt + 48))). set (en := ld (ac_mem s) (fadt + 52)).
  assert (u16 pm1a = pm1a ∧ u16 pm1b = pm1b ∧ u16 smi = smi) as (Ea & Eb & Es) by (unfold pm1a, pm1b, smi, u16; by rewrite !Z.mod_mod).
  change (pm1a_cnt s1) with pm1a. change (pm1b_cnt s1) with pm1b. change (slp_typa s1) with (a &&& 7). change (slp_typb s1) with (b &&& 7).
  change (smi_cmd s1) with smi. change (Acpi.acpi_enable s1) with en. unfold acpi_mode.
  apply iwp_bind. destruct (p_in 2 pm1a (ac_hw s)) as [h0 v] eqn:Ei.
  exists (set_hw h0 s1), v. split; [unfold inw, in_port; rewrite Ea; change (get_hw s1) with (ac_hw s); by rewrite Ei|]. apply iwp_bind.
  assert (∀ h, iwp (outw pm1a (slp_cmd (a &&& 7));! (if c_true pm1b then outw pm1b (slp_cmd (b &&& 7)) else io_ret ());! io_ret (-1))
    (λ s2 r, r = -1 ∧ ac_hw s2 = sleep_writes pm1a pm1b a b h) (set_hw h s1)) as Hout.
  { intros h. apply iwp_bind. unfold outw, out_port. rewrite !slp_cmd_u16, Ea, Eb, !slp_cmd_word. apply iwp_put. unfold sleep_writes, c_true.
    apply iwp_bind. destruct (pm1b =? 0); cbn [negb]; [|apply iwp_put]; repeat apply iwp_ret; by split. }
  rewrite sci_en_odd. unfold c_true. rewrite <- !negb_orb.
  destruct (Z.odd v || (smi =? 0) || (en =? 0)); cbn [negb].
  - apply iwp_ret. eapply iwp_mono; [apply (Hout h0)|]. intros s2 r [-> E]. split; [done|]. by exists h0.
  - destruct (enable_wait_ok 300 pm1a (set_hw (p_out 1 smi (u8 en) h0) s1) Ea) as (h1 & E1 & Hw).
    eexists _, _. split; [unfold io_bind, outb, out_port, io_put; rewrite Es; exact E1|].
    eapply iwp_mono; [apply (Hout h1)|]. intros s2 r [-> E]. split; [done|]. by exists h1.
Qed.

(** C31: [acpi_init] and [acpi_poweroff] (drivers/acpi.c), paging on or off: where
    the firmware's tables are laid out as ACPI has them, the driver follows the
    chain from the root pointer to the \_S5_ object, mapping every table before it
    reads it (no access faults), finds power-off available, and [acpi_poweroff]
    writes the sleep types of \_S5_ with the enable bit to the control blocks the
    fixed table names, the first and then, if it is there, the second.  Before, it
    asks for ACPI mode if the chipset is not in it and the table says how, and waits
    for it for at most 300 reads.  Where no root pointer is found, power-off is
    unavailable, answers -1 and touches no port. *)
Theorem acpi_powers_off s :
  low s →
  (List.find (is_rsdp (ac_mem s)) (candidates (ac_mem s)) = None →
    acpi_init s = Some (with_available false s, tt) ∧ acpi_poweroff (with_available false s) = Some (with_available false s, -1)) ∧
  (∀ rsdp rsdt fadt dsdt k a b,
    firmware (ac_mem s) rsdp rsdt fadt dsdt k a b → u16 (w32 (ac_mem s) (fadt + 64)) ≠ 0 → room (520 * (k + 3)) s →
    iwp acpi_init (λ s1 _, acpi_available s1 = true ∧ ac_hw s1 = ac_hw s ∧
      iwp acpi_poweroff (λ s2 r, r = -1 ∧
        ∃ h, acpi_mode (u16 (w32 (ac_mem s) (fadt + 64))) (u16 (w32 (ac_mem s) (fadt + 48))) (ld (ac_mem s) (fadt + 52)) (ac_hw s) h ∧
          ac_hw s2 = sleep_writes (u16 (w32 (ac_mem s) (fadt + 64))) (u16 (w32 (ac_mem s) (fadt + 68))) a b h) s1) s).
Proof.
  intros Hlow. split.
  - intros E. split; [by apply acpi_init_none|done].
  - intros rsdp rsdt fadt dsdt k a b Hfw Hp Hr. eapply iwp_mono; [apply (acpi_init_ok _ _ _ _ _ _ _ 0 _ Hfw); [done|lia|done]|].
    intros s1 u [E _]. revert E. generalize (ac_paging s1). intros p ->.
    split; [|split; [done|by eapply acpi_poweroff_ok]]. unfold acpi_available, found, with_paging. cbn [available with_available]. by rewrite (proj2 (Z.eqb_neq _ 0) Hp).
Qed.
End Mapping.

(** ** A machine with tables *)

Fixpoint place (p : Z) (bs : list Z) (m : gmap Z Z) : gmap Z Z :=
  match bs with [] => m | c :: bs => st (place (p + 1) bs m) p c end.
Definition le32 (x : Z) : list Z := map (λ i, (x >>> (8 * i)) &&& 0xFF) [0; 1; 2; 3].
Definition zeros (n : nat) : list Z := repeat 0 n.
Definition demo_firmware : gmap Z Z :=
  place 0xE0010 (str "RSD PTR " ++ [0xE2] ++ zeros 7 ++ le32 0x1FE000)
  (place 0x1FE000 (str "RSDT" ++ le32 44 ++ [0; 0x96] ++ zeros 26 ++ le32 0x1FE100 ++ le32 0x1FE200)
  (place 0x1FE100 (str "APIC" ++ le32 44)
  (place 0x1FE200 (str "FACP" ++ le32 116 ++ zeros 32 ++ le32 0x1FE400 ++ zeros 4 ++ le32 0xB2 ++ [0xF1] ++ zeros 11 ++ le32 0x604 ++ le32 0)
  (place 0x1FE400 (str "DSDT" ++ le32 51 ++ zeros 28 ++ [0x10; 0x05] ++ s5_object true 6 [] 4 5 1 ++ zeros 1) ∅)))).
Definition demo_acpi : acpi pmm script :=
  MkAcpi (MkPaging (pmm_init []) ∅ 0 false 0 false) demo_firmware (Script [] [0; 0; 1] []) false 0 0 0 0 0 0.

Lemma demo_table p name :
  (0 <=? p) && (p + 0x102000 <=? 0xC0000000) && (36 <=? w32 demo_firmware (p + 4)) && (w32 demo_firmware (p + 4) <? 0x100000) && says demo_firmware p name = true →
  table demo_firmware p name.
Proof. intros [[[[E1%Z.leb_le E2%Z.leb_le]%andb_true_iff E3%Z.leb_le]%andb_true_iff E4%Z.ltb_lt]%andb_true_iff E5]%andb_true_iff. by split. Qed.

Lemma demo_firmware_ok : firmware demo_firmware 0xE0010 0x1FE000 0x1FE200 0x1FE400 1 5 1.
Proof.
  split.
  - vm_compute. reflexivity.
  - split; [vm_compute; reflexivity|]. split; [apply demo_table|]; vm_compute; reflexivity.
  - split; [lia|]. apply (bool_decide_unpack _). vm_compute. exact I.
  - intros i Hi. assert (i = 0) as -> by lia. split; [apply demo_table|]; vm_compute; reflexivity.
  - split; [vm_compute; reflexivity|]. split; [apply demo_table; vm_compute; reflexivity|]. apply (bool_decide_unpack _). vm_compute. exact I.
  - split; [vm_compute; reflexivity|]. apply demo_table. vm_compute. reflexivity.
  - split. exists [0x10; 0x05], true, 6, [], 4, [0]. split_and!; [done|lia|lia|lia|lia|lia|lia|vm_compute; reflexivity..|].
    intros i Hi. change (zlen [16; 5]) with 2 in Hi. assert (i = 0 ∨ i = 1 ∨ i = 2 ∨ i = 3) as [-> | [-> | [-> | ->]]] by lia; vm_compute; reflexivity.
Qed.

Lemma acpi_powers_off_witness :
  firmware (ac_mem demo_acpi) 0xE0010 0x1FE000 0x1FE200 0x1FE400 1 5 1 ∧
  iwp acpi_init (λ s1 _, acpi_available s1 = true ∧
    iwp acpi_poweroff (λ s2 r, r = -1 ∧ ∃ h, ac_hw s2 = p_out 2 0x604 0x3400 h) s1) demo_acpi.
Proof.
  split; [exact demo_firmware_ok|].
  destruct (acpi_powers_off demo_acpi) as [_ Hok]; [intros x _; reflexivity|].
  eapply iwp_mono; [apply (Hok _ _ _ _ _ _ _ demo_firmware_ok); [|by left]|].
  - replace (u16 _) with 0x604 by (vm_compute; reflexivity). lia.
  - intros s1 u (Ha & _ & Hp). split; [exact Ha|]. eapply iwp_mono; [exact Hp|].
    intros s2 r (Hr & h & _ & E). split; [exact Hr|]. exists h. rewrite E. vm_compute. reflexivity.
Defined.
