(* ===== verification/Ac97.v ===== *)
(** The audio driver: drivers/ac97.c, over the PCI configuration space, the clock
    and the file system.  Two controllers, each with its bus-master engine; the
    hardware is a parameter.  The clips are memory of the driver. *)
From Stdlib Require Import ZArith Lia Bool Ascii String.
From stdpp Require Import base numbers gmap option list.
From S2P Require Import Prelude Console Block Fat12 Io Rtl8139.

#[local] Open Scope Z_scope.
#[local] Open Scope c_scope.
#[local] Open Scope io_scope.

Definition AC97_RATE : Z := 48000.
Definition AC97_DMA_PHYS : Z := 0x00300000.
Definition AC97_DMA_BYTES : Z := 1024 * 1024.
Definition CODEC_RESET : Z := 0x00.
Definition CODEC_MASTER_VOL : Z := 0x02.
Definition CODEC_PCM_VOL : Z := 0x18.
Definition CODEC_EXT_AUDIO : Z := 0x28.
Definition CODEC_EXT_CTRL : Z := 0x2A.
Definition CODEC_PCM_RATE : Z := 0x2C.
Definition CODEC_VENDOR1 : Z := 0x7C.
Definition ICH_PO_BDBAR : Z := 0x10.
Definition ICH_PO_LVI : Z := 0x15.
Definition ICH_PO_SR : Z := 0x16.
Definition ICH_PO_CR : Z := 0x1B.
Definition ICH_GLOB_CNT : Z := 0x2C.
Definition ICH_GLOB_STA : Z := 0x30.
Definition VIA_SGD_STATUS : Z := 0x00.
Definition VIA_SGD_CONTROL : Z := 0x01.
Definition VIA_SGD_TYPE : Z := 0x02.
Definition VIA_SGD_TABLE : Z := 0x04.
Definition VIA_REG_AC97 : Z := 0x80.
Definition VIA_AC97_BUSY : Z := 1 <<< 24.
Definition VIA_AC97_READ : Z := 1 <<< 23.
Definition VIA_AC97_PVALID : Z := 1 <<< 25.
Definition VIA_ACLINK_STAT : Z := 0x40.
Definition VIA_ACLINK_C00_RDY : Z := 0x01.
Definition VIA_ACLINK_CTRL : Z := 0x41.
Definition VIA_ACLINK_ENABLE : Z := 0x80.
Definition VIA_ACLINK_RESET : Z := 0x40.
Definition VIA_ACLINK_SYNC : Z := 0x20.
Definition VIA_ACLINK_SGD : Z := 0x04.
Definition VIA_ACLINK_INIT : Z := VIA_ACLINK_ENABLE ||| VIA_ACLINK_RESET ||| VIA_ACLINK_SGD.
Definition SLOT0_CAP : Z := 640 * 1024.
Definition SLOT1_CAP : Z := 384 * 1024.
Definition VIA_SPIN : nat := Z.to_nat 4000.

Inductive controller := AC_NONE | AC_ICH | AC_VIA.

(** The module's statics, with the memory of the clips by bytes, the addresses of
    the descriptor tables and the machine. *)
Record ac97 (H : Type) := MkAc97 {
  au_hw : H;
  variant : controller; au_bus : Z; au_dev : Z; au_fn : Z;
  io_mixer : Z; io_bm : Z; present : bool;
  slot_bytes : list Z;
  ich_bdl : list Z; bdl_at : Z; via_sgd : list Z; sgd_at : Z;
  au_ram : gmap Z Z
}.
Arguments MkAc97 {H}. Arguments au_hw {H}. Arguments variant {H}. Arguments au_bus {H}. Arguments au_dev {H}. Arguments au_fn {H}.
Arguments io_mixer {H}. Arguments io_bm {H}. Arguments present {H}. Arguments slot_bytes {H}. Arguments ich_bdl {H}. Arguments bdl_at {H}.
Arguments via_sgd {H}. Arguments sgd_at {H}. Arguments au_ram {H}.

#[export] Instance ac97_has_hw {H} : HasHw (ac97 H) H.
Proof.
  refine {| get_hw := au_hw; set_hw h s := MkAc97 h (variant s) (au_bus s) (au_dev s) (au_fn s) (io_mixer s) (io_bm s) (present s)
    (slot_bytes s) (ich_bdl s) (bdl_at s) (via_sgd s) (sgd_at s) (au_ram s) |}. done.
Defined.

(** The tick counter, read while interrupts are on, and its rate. *)
Class Ticks (H : Type) := { tk_read : H → H * Z; tk_hz : H → Z }.

Definition slot_buf (slot : Z) : Z := if slot =? 0 then AC97_DMA_PHYS else AC97_DMA_PHYS + SLOT0_CAP.
Definition slot_cap (slot : Z) : Z := if slot =? 0 then SLOT0_CAP else SLOT1_CAP.

Section Driver.
Context {H : Type} `{Ports H} `{!Ticks H}.
Abbreviation ac := (ac97 H).
Abbreviation M := (IO ac).

Definition with_card (v : controller) (b d f : Z) (s : ac) : ac :=
  MkAc97 (au_hw s) v b d f (io_mixer s) (io_bm s) (present s) (slot_bytes s) (ich_bdl s) (bdl_at s) (via_sgd s) (sgd_at s) (au_ram s).
Definition with_io (m b : Z) (s : ac) : ac :=
  MkAc97 (au_hw s) (variant s) (au_bus s) (au_dev s) (au_fn s) m b (present s) (slot_bytes s) (ich_bdl s) (bdl_at s) (via_sgd s) (sgd_at s) (au_ram s).
Definition with_present (p : bool) (s : ac) : ac :=
  MkAc97 (au_hw s) (variant s) (au_bus s) (au_dev s) (au_fn s) (io_mixer s) (io_bm s) p (slot_bytes s) (ich_bdl s) (bdl_at s) (via_sgd s) (sgd_at s) (au_ram s).
Definition with_slots (l : list Z) (r : gmap Z Z) (s : ac) : ac :=
  MkAc97 (au_hw s) (variant s) (au_bus s) (au_dev s) (au_fn s) (io_mixer s) (io_bm s) (present s) l (ich_bdl s) (bdl_at s) (via_sgd s) (sgd_at s) r.
Definition with_tables (bdl sgd : list Z) (s : ac) : ac :=
  MkAc97 (au_hw s) (variant s) (au_bus s) (au_dev s) (au_fn s) (io_mixer s) (io_bm s) (present s) (slot_bytes s) bdl (bdl_at s) sgd (sgd_at s) (au_ram s).

Definition timer_ticks : M Z := λ s, let '(h, t) := tk_read (au_hw s) in Some (set_hw h s, t).
Definition timer_hz (s : ac) : Z := tk_hz (au_hw s).

(** ** Waiting *)

(** Fuel of the waits on the clock. *)
Variable fuel : nat.

(** [while (timer_ticks() - start < ticks) io_wait();] *)
Fixpoint delay_loop (fuel : nat) (start ticks : Z) : M unit :=
  let! t := timer_ticks in
  if u32 (t - start) <? ticks
  then match fuel with O => io_stuck | S fuel => io_wait ;! delay_loop fuel start ticks end
  else io_ret tt.

(** At least one. *)
Definition ticks_of (ms hz : Z) : Z := let n := u32 (ms * hz) / 1000 in if n =? 0 then 1 else n.
Definition hz_of (s : ac) : Z := let hz := timer_hz s in if hz =? 0 then 100 else hz.

Definition delay_ms (ms : Z) : M unit :=
  let! s := io_get in
  let! start := timer_ticks in
  delay_loop fuel start (ticks_of ms (hz_of s)).

(** [for (i = 0; i < n && cond; i++) body;] *)
Fixpoint spin (n : nat) (cond : M bool) (body : M unit) : M unit :=
  match n with
  | O => io_ret tt
  | S n => let! c := cond in if (c : bool) then body ;! spin n cond body else io_ret tt
  end.

(** ** Access *)

Definition cfg_read8 (off : Z) : M Z :=
  let! s := io_get in
  let! v := pci_cfg_read32 (au_bus s) (au_dev s) (au_fn s) (off &&& 0xFC) in
  io_ret (u8 (v >>> ((off &&& 3) * 8))).
Definition cfg_write8 (off val : Z) : M unit :=
  let! s := io_get in
  let sh := (off &&& 3) * 8 in
  let! v := pci_cfg_read32 (au_bus s) (au_dev s) (au_fn s) (off &&& 0xFC) in
  pci_cfg_write32 (au_bus s) (au_dev s) (au_fn s) (off &&& 0xFC) ((v &&& u32_not (0xFF <<< sh)) ||| (val <<< sh)).

Definition via_busy : M bool := let! s := io_get in let! v := inl (io_bm s + VIA_REG_AC97) in io_ret (c_true (v &&& VIA_AC97_BUSY)).
Definition codec_write (reg val : Z) : M unit :=
  let! s := io_get in
  match variant s with
  | AC_ICH => outw (io_mixer s + reg) val
  | _ =>
      spin VIA_SPIN via_busy io_wait ;!
      outl (io_bm s + VIA_REG_AC97) ((reg <<< 16) ||| val) ;!
      spin VIA_SPIN via_busy io_wait
  end.

Fixpoint via_read_loop (n : nat) (reg last : Z) : M Z :=
  match n with
  | O => io_ret (u16 last)
  | S n =>
      let! s := io_get in
      let! v := inl (io_bm s + VIA_REG_AC97) in
      if negb (c_true (v &&& VIA_AC97_BUSY)) && c_true (v &&& VIA_AC97_PVALID) then
        if ((v >>> 16) &&& 0x7F) =? reg then io_ret (u16 v) else io_wait ;! via_read_loop n reg v
      else io_wait ;! via_read_loop n reg last
  end.
Definition codec_read (reg : Z) : M Z :=
  let! s := io_get in
  match variant s with
  | AC_ICH => inw (io_mixer s + reg)
  | _ => outl (io_bm s + VIA_REG_AC97) (VIA_AC97_READ ||| (reg <<< 16)) ;! via_read_loop VIA_SPIN reg 0xFFFF
  end.

(** ** Discovery *)

(** Whether function [f] of device [d] is one of the two, which is then taken. *)
Definition check_fn (d f : Z) : M bool :=
  let! id := pci_cfg_read32 0 d f 0x00 in
  let ven := id &&& 0xFFFF in
  let dv := u16 (id >>> 16) in
  if ven =? 0xFFFF then io_ret false
  else if (ven =? 0x8086) && (dv =? 0x2415) then io_put (with_card AC_ICH 0 d f) ;! io_ret true
  else if (ven =? 0x1106) && (dv =? 0x3058) then io_put (with_card AC_VIA 0 d f) ;! io_ret true
  else io_ret false.
Fixpoint fn_loop (n : nat) (d f : Z) : M bool :=
  match n with
  | O => io_ret false
  | S n => let! r := check_fn d f in if (r : bool) then io_ret true else fn_loop n d (f + 1)
  end.
Fixpoint dev_loop (n : nat) (d : Z) : M bool :=
  match n with
  | O => io_ret false
  | S n =>
      let! id0 := pci_cfg_read32 0 d 0 0x00 in
      if (id0 &&& 0xFFFF) =? 0xFFFF then dev_loop n (d + 1)
      else
        let! ht := pci_cfg_read16 0 d 0 0x0E in
        let htype := u8 ht in
        let! r := fn_loop (if c_true (htype &&& 0x80) then 8 else 1) d 0 in
        if (r : bool) then io_ret true else dev_loop n (d + 1)
  end.
Definition find_controller : M bool := dev_loop 32 0.

(** ** Bring-up *)

Definition ich_up : M unit :=
  let! s := io_get in
  let! b0 := pci_cfg_read32 (au_bus s) (au_dev s) (au_fn s) 0x10 in
  let! b1 := pci_cfg_read32 (au_bus s) (au_dev s) (au_fn s) 0x14 in
  let bm := u16 (b1 &&& 0xFFFC) in
  io_put (with_io (u16 (b0 &&& 0xFFFC)) bm) ;!
  outl (bm + ICH_GLOB_CNT) 0x02 ;!
  spin 1000 (let! v := inl (bm + ICH_GLOB_STA) in io_ret (negb (c_true (v &&& 0x100)))) (delay_ms 1) ;!
  outb (bm + ICH_PO_CR) 0x02 ;!
  spin 1000 (let! v := inb (bm + ICH_PO_CR) in io_ret (c_true (v &&& 0x02))) (delay_ms 1).

Definition via_up : M unit :=
  let! s := io_get in
  let! b0 := pci_cfg_read32 (au_bus s) (au_dev s) (au_fn s) 0x10 in
  io_put (with_io (io_mixer s) (u16 (b0 &&& 0xFFFC))) ;!
  let! st := cfg_read8 VIA_ACLINK_STAT in
  if negb (c_true (st &&& VIA_ACLINK_C00_RDY)) then
    cfg_write8 VIA_ACLINK_CTRL (VIA_ACLINK_ENABLE ||| VIA_ACLINK_RESET ||| VIA_ACLINK_SYNC) ;!
    delay_ms 1 ;!
    cfg_write8 VIA_ACLINK_CTRL VIA_ACLINK_INIT ;!
    delay_ms 1 ;!
    spin 250 (let! v := cfg_read8 VIA_ACLINK_STAT in io_ret (negb (c_true (v &&& VIA_ACLINK_C00_RDY)))) (delay_ms 1)
  else
    let! v := cfg_read8 VIA_ACLINK_CTRL in
    cfg_write8 VIA_ACLINK_CTRL (v ||| VIA_ACLINK_SGD).

(** Whether the codec answers, within [n] tries. *)
Fixpoint codec_ready (n : nat) : M bool :=
  match n with
  | O => io_ret false
  | S n => let! v := codec_read CODEC_VENDOR1 in if negb (v =? 0xFFFF) then io_ret true else delay_ms 1 ;! codec_ready n
  end.

Definition ac97_init : M unit :=
  io_put (λ s, with_present false (with_card AC_NONE (au_bus s) (au_dev s) (au_fn s) s)) ;!
  let! r := find_controller in
  if negb r then io_ret tt
  else
    let! s := io_get in
    let! cmd := pci_cfg_read32 (au_bus s) (au_dev s) (au_fn s) 0x04 in
    pci_cfg_write32 (au_bus s) (au_dev s) (au_fn s) 0x04 (cmd ||| 0x05) ;!
    (match variant s with AC_ICH => ich_up | _ => via_up end) ;!
    let! ready := codec_ready 200 in
    if negb ready then io_ret tt
    else
      codec_write CODEC_RESET 0 ;!
      delay_ms 2 ;!
      codec_write CODEC_MASTER_VOL 0x0000 ;!
      codec_write CODEC_PCM_VOL 0x0808 ;!
      codec_write CODEC_EXT_CTRL 0x0000 ;!
      io_put (with_present true).

Definition ac97_present (s : ac) : bool := present s.

(** ** The report *)

Definition shown (label : string) (m : M Z) (tail : string) : M (list con_call) :=
  let! v := m in io_ret (con_write (str label) ++ con_hex v ++ con_write (str tail)).
Definition also (a b : M (list con_call)) : M (list con_call) := let! x := a in let! y := b in io_ret (x ++ y).
Definition line : M (list con_call) := io_ret [CPutc 10].

Definition ac97_debug : M (list con_call) :=
  let! s := io_get in
  match variant s with
  | AC_NONE => io_ret (con_write (str "  no AC'97 controller found on PCI" ++ nl))
  | v =>
      let ich := match v with AC_ICH => true | _ => false end in
      also (io_ret (con_write (str "  controller : " ++ str (if ich then "Intel ICH" else "VIA VT82C686") ++
                               str (if present s then "  (codec ready)" else "  (codec NOT ready)") ++ nl)))
      (also (shown "  io base    : " (io_ret (io_bm s)) EmptyString)
      (also (if ich then shown "  mixer " (io_ret (io_mixer s)) EmptyString else io_ret [])
      (also line
      (also (if ich
             then also (shown "  GLOB_STA   : " (inl (io_bm s + ICH_GLOB_STA)) "  (bit8 = primary codec ready)") line
             else also (also (shown "  ACLINK STAT: " (cfg_read8 VIA_ACLINK_STAT) "  (bit0 = primary codec ready)") line)
                  (also (also (shown "  ACLINK CTRL: " (cfg_read8 VIA_ACLINK_CTRL) "  (want E/N of 0xC4)") line)
                  (also (shown "  AC97 window: " (inl (io_bm s + VIA_REG_AC97)) EmptyString) line)))
      (also (also (shown "  codec vendr: " (codec_read 0x7C) " ") (also (shown EmptyString (codec_read 0x7E) "  (0xFFFF = codec not answering)") line))
      (also (shown "  master(02) : " (codec_read CODEC_MASTER_VOL) EmptyString)
      (also (shown "  extaud(28) : " (codec_read CODEC_EXT_AUDIO) EmptyString)
      (also (shown "  rate(2C)   : " (codec_read CODEC_PCM_RATE) EmptyString) line))))))))
  end.

(** ** Playback *)

(** [while (off < bytes && idx < 32)]: the table, the index and the offset reached. *)
Fixpoint bdl_loop (n : nat) (bdl : list Z) (idx off buf bytes : Z) : list Z * Z :=
  match n with
  | O => (bdl, idx)
  | S n =>
      if off <? bytes then
        let chunk := bytes - off in
        let chunk := if 0xFFFE * 2 <? chunk then 0xFFFE * 2 else chunk in
        bdl_loop n (arr_set (arr_set bdl (idx * 2) (u32 (buf + off))) (idx * 2 + 1) (chunk / 2)) (idx + 1) (off + chunk) buf bytes
      else (bdl, idx)
  end.
Definition bdl_of (bdl : list Z) (buf bytes : Z) : list Z * Z :=
  let '(bdl, idx) := bdl_loop 32 bdl 0 0 buf bytes in
  (arr_set bdl ((idx - 1) * 2 + 1) (arr_get bdl ((idx - 1) * 2 + 1) ||| (1 <<< 31)), idx).

Definition ich_start (buf_phys bytes : Z) : M unit :=
  let! s := io_get in
  let '(bdl, idx) := bdl_of (ich_bdl s) buf_phys bytes in
  io_put (with_tables bdl (via_sgd s)) ;!
  outb (io_bm s + ICH_PO_CR) 0x02 ;!
  spin 1000 (let! v := inb (io_bm s + ICH_PO_CR) in io_ret (c_true (v &&& 0x02))) io_wait ;!
  outl (io_bm s + ICH_PO_BDBAR) (bdl_at s) ;!
  outb (io_bm s + ICH_PO_LVI) (u8 (idx - 1)) ;!
  outw (io_bm s + ICH_PO_SR) 0x1C ;!
  outb (io_bm s + ICH_PO_CR) 0x01.
Definition ich_done : M bool := let! s := io_get in let! v := inw (io_bm s + ICH_PO_SR) in io_ret (c_true (v &&& 0x01)).
Definition ich_stop : M unit := let! s := io_get in outb (io_bm s + ICH_PO_CR) 0x00.

Definition via_start (buf_phys bytes : Z) : M unit :=
  let! s := io_get in
  io_put (with_tables (ich_bdl s) (arr_set (arr_set (via_sgd s) 0 buf_phys) 1 (u32 bytes ||| (1 <<< 31) ||| (1 <<< 30)))) ;!
  outb (io_bm s + VIA_SGD_CONTROL) 0x40 ;!
  io_wait ;!
  outb (io_bm s + VIA_SGD_TYPE) (0x20 ||| 0x10 ||| 0x02) ;!
  outl (io_bm s + VIA_SGD_TABLE) (sgd_at s) ;!
  outb (io_bm s + VIA_SGD_STATUS) 0x03 ;!
  outb (io_bm s + VIA_SGD_CONTROL) 0x80.
Definition via_done : M bool :=
  let! s := io_get in let! v := inb (io_bm s + VIA_SGD_STATUS) in io_ret (c_true (v &&& 0x02) || negb (c_true (v &&& 0x80))).
Definition via_stop : M unit := let! s := io_get in outb (io_bm s + VIA_SGD_CONTROL) 0x40.

(** [while (timer_ticks() - start < limit) { if (done) break; io_wait(); }] *)
Fixpoint play_loop (fuel : nat) (start limit : Z) : M unit :=
  let! t := timer_ticks in
  if u32 (t - start) <? limit
  then match fuel with
       | O => io_stuck
       | S fuel =>
           let! s := io_get in
           let! d := (match variant s with AC_ICH => ich_done | _ => via_done end) in
           if (d : bool) then io_ret tt else io_wait ;! play_loop fuel start limit
       end
  else io_ret tt.

Definition play_ms (bytes : Z) : Z := u32 (u32 (bytes / 4 * 1000) / AC97_RATE + 400).

Definition ac97_play (slot wait : Z) : M unit :=
  let! s := io_get in
  if (slot <? 0) || (1 <? slot) || negb (present s) || (arr_get (slot_bytes s) slot <=? 0) then io_ret tt
  else
    (match variant s with AC_ICH => ich_start | _ => via_start end) (slot_buf slot) (arr_get (slot_bytes s) slot) ;!
    if wait =? 0 then io_ret tt
    else
      let! start := timer_ticks in
      play_loop fuel start (ticks_of (play_ms (arr_get (slot_bytes s) slot)) (hz_of s)) ;!
      match variant s with AC_ICH => ich_stop | _ => via_stop end.
End Driver.

(** ** Preparing a clip *)

Fixpoint put_bytes (a : Z) (l : list Z) (m : gmap Z Z) : gmap Z Z :=
  match l with [] => m | b :: l => put_bytes (a + 1) l (st m a b) end.

(** A little-endian 16-bit store. *)
Definition st16 (m : gmap Z Z) (a v : Z) : gmap Z Z := st (st m a (u8 v)) (a + 1) (u8 (v >>> 8)).

(** [for (i; ...; i++)], [n] samples more. *)
Fixpoint expand (n : nat) (i src dst : Z) (m : gmap Z Z) : gmap Z Z :=
  match n with
  | O => m
  | S n =>
      let s := (ld m (src + i) - 128) <<< 8 in
      expand n (i + 1) src dst (st16 (st16 m (dst + 2 * (2 * i)) s) (dst + 2 * (2 * i + 1)) s)
  end.

Definition ac97_preload {H D} `{!BlockDevice D} (slot : Z) (path : list Z) (s : ac97 H) (f : fs D) : ac97 H * fs D * Z :=
  if (slot <? 0) || (1 <? slot) then (s, f, -1)
  else
    let s := with_slots (arr_set (slot_bytes s) slot 0) (au_ram s) s in
    if negb (present s) then (s, f, -1)
    else
      let buf := slot_buf slot in
      let cap := slot_cap slot in
      let maxsrc := cap / 4 in
      let src := buf + (cap - maxsrc) in
      let '(f, (n, data)) := fs_read_path path maxsrc f in
      let m := put_bytes src data (au_ram s) in
      if n <=? 0 then (with_slots (slot_bytes s) m s, f, -1)
      else (with_slots (arr_set (slot_bytes s) slot (n * 4)) (expand (Z.to_nat n) 0 src buf m) s, f, 0).
