(* ===== verification/Ac97Thm.v ===== *)
(** The audio driver of [Ac97.v]: a clip is expanded in place without losing a
    sample and without touching the other clip, its descriptors tile it, and neither
    bring-up nor playing hangs, whatever the card does, as long as the clock ticks. *)
From Stdlib Require Import ZArith Lia Bool.
From stdpp Require Import base numbers gmap option list.
From S2P Require Import Prelude CString Console Block Fat12 Fat12Logic Fat12Files Fat12Volume Io Rtl8139 Ac97 Returns.

#[local] Open Scope Z_scope.
#[local] Open Scope c_scope.
#[local] Open Scope io_scope.

(** ** A clip in its slot *)

Lemma put_bytes_out a l m b : b < a ∨ a + zlen l ≤ b → ld (put_bytes a l m) b = ld m b.
Proof.
  revert a m. induction l as [|x l IH]; intros a m Hb; [done|]. rewrite zlen_cons in Hb. assert (0 ≤ zlen l) by (unfold zlen; lia).
  cbn [put_bytes]. rewrite IH by lia. apply ld_st_ne. lia.
Qed.

Lemma put_bytes_in a l m i : 0 ≤ i < zlen l → ld (put_bytes a l m) (a + i) = arr_get l i.
Proof.
  revert a m i. induction l as [|x l IH]; intros a m i Hi; [change (zlen (@nil Z)) with 0 in Hi; lia|]. rewrite zlen_cons in Hi. cbn [put_bytes].
  destruct (Z.eq_dec i 0) as [->|Hn].
  - rewrite put_bytes_out by lia. rewrite Z.add_0_r. apply ld_st_eq.
  - replace (a + i) with (a + 1 + (i - 1)) by lia. rewrite IH by lia. replace i with (i - 1 + 1) at 2 by lia. by rewrite arr_get_cons_S by lia.
Qed.

(** The four bytes of an 8-bit sample as 16-bit stereo. *)
Definition frame (b : Z) : list Z := [0; u8 (b - 128); 0; u8 (b - 128)].

Definition store_frame (m : gmap Z Z) (a b : Z) : gmap Z Z := let s := (b - 128) <<< 8 in st16 (st16 m a s) (a + 2) s.

Lemma store_frame_ok m a b :
  (∀ k, 0 ≤ k < 4 → ld (store_frame m a b) (a + k) = arr_get (frame b) k) ∧ ∀ x, x < a ∨ a + 4 ≤ x → ld (store_frame m a b) x = ld m x.
Proof.
  assert (u8 ((b - 128) <<< 8) = 0 ∧ u8 (((b - 128) <<< 8) >>> 8) = u8 (b - 128)) as [E1 E2].
  { rewrite Z.shiftr_shiftl_l by lia. change (8 - 8) with 0. rewrite Z.shiftl_0_r. split; [|done]. rewrite Z.shiftl_mul_pow2 by lia. unfold u8. zpow. apply Z.mod_mul. lia. }
  unfold store_frame, st16. rewrite E1, E2. split.
  - intros k Hk. assert (k = 0 ∨ k = 1 ∨ k = 2 ∨ k = 3) as [-> | [-> | [-> | ->]]] by lia; rewrite ?Z.add_0_r.
    + rewrite !ld_st_ne by lia. by rewrite ld_st_eq.
    + rewrite !(ld_st_ne _ _ (a + 1)) by lia. by rewrite ld_st_eq.
    + rewrite ld_st_ne by lia. by rewrite ld_st_eq.
    + replace (a + 3) with (a + 2 + 1) by lia. by rewrite ld_st_eq.
  - intros x Hx. by rewrite !ld_st_ne by lia.
Qed.

(** Expanding forward, in place: [q] samples fit the top quarter, and a sample is
    read before the stores reach it. *)
Lemma expand_ok n i q src dst m data :
  src = dst + 3 * q → 0 ≤ i → i + Z.of_nat n = zlen data → zlen data ≤ q →
  (∀ j, i ≤ j < zlen data → ld m (src + j) = arr_get data j) →
  let m' := expand n i src dst m in
  (∀ j k, i ≤ j < zlen data → 0 ≤ k < 4 → ld m' (dst + 4 * j + k) = arr_get (frame (arr_get data j)) k) ∧
  (∀ x, x < dst + 4 * i ∨ dst + 4 * zlen data ≤ x → ld m' x = ld m x).
Proof.
  intros Esrc. revert i m. induction n as [|n IH]; intros i m Hi Hn Hq Hsrc; cbn [expand]; [split; [intros j k Hj; lia|done]|].
  set (b := ld m (src + i)). assert (b = arr_get data i) as Eb by (apply Hsrc; lia).
  set (m1 := st16 _ _ _). assert (m1 = store_frame m (dst + 4 * i) b) as Em.
  { unfold m1, store_frame. replace (dst + 2 * (2 * i)) with (dst + 4 * i) by lia. by replace (dst + 2 * (2 * i + 1)) with (dst + 4 * i + 2) by lia. }
  clearbody m1. subst m1. destruct (store_frame_ok m (dst + 4 * i) b) as [K1 K2].
  destruct (IH (i + 1) (store_frame m (dst + 4 * i) b)) as [L1 L2]; [lia|lia|done| |].
  { intros j Hj. rewrite K2 by lia. apply Hsrc. lia. }
  split.
  - intros j k Hj Hk. destruct (Z.eq_dec j i) as [->|Hne]; [|apply L1; lia]. rewrite L2 by lia. rewrite K1 by done. by rewrite Eb.
  - intros x Hx. rewrite L2 by lia. apply K2. lia.
Qed.

(** A slot holds a clip: the frames of its samples from the start. *)
Definition holds_clip (m : gmap Z Z) (slot : Z) (data : list Z) : Prop :=
  ∀ j k, 0 ≤ j < zlen data → 0 ≤ k < 4 → ld m (slot_buf slot + 4 * j + k) = arr_get (frame (arr_get data j)) k.

Lemma slots_apart slot : slot = 0 ∨ slot = 1 →
  AC97_DMA_PHYS ≤ slot_buf slot ∧ slot_buf slot + slot_cap slot ≤ AC97_DMA_PHYS + AC97_DMA_BYTES ∧ slot_cap slot = 4 * (slot_cap slot / 4) ∧
  (slot_buf slot + slot_cap slot ≤ slot_buf (1 - slot) ∨ slot_buf (1 - slot) + slot_cap (1 - slot) ≤ slot_buf slot).
Proof.
  intros [-> | ->]; unfold slot_buf, slot_cap; cbn [Z.eqb Z.sub]; unfold AC97_DMA_PHYS, AC97_DMA_BYTES, SLOT0_CAP, SLOT1_CAP; cbn; split_and!;
    first [done | left; done | right; done].
Qed.

Section Preload.
Context {H D : Type} `{!BlockDevice D}.

(** C29: [ac97_preload] (drivers/ac97.c), over the file system: a missing, empty or
    too long file, or no sound card, leaves the slot empty and gives -1; else the slot's memory holds the
    16-bit stereo frames of the file's 8-bit samples, all of them, though they are
    expanded in place over the samples, and [slot_bytes] their length.  Nothing
    outside the slot's part of the reserved memory changes, so the other clip stays. *)
Theorem clip_prepared slot path (s : ac97 H) (f f' : fs D) n data :
  slot = 0 ∨ slot = 1 → length (slot_bytes s) = 2%nat →
  fs_read_path path (slot_cap slot / 4) f = (f', (n, data)) → (n ≤ 0 ∧ data = [] ∨ n = zlen data ∧ n ≤ slot_cap slot / 4) →
  let '(s', f1, r) := ac97_preload slot path s f in
  arr_get (slot_bytes s') (1 - slot) = arr_get (slot_bytes s) (1 - slot) ∧
  (∀ x, x < slot_buf slot ∨ slot_buf slot + slot_cap slot ≤ x → ld (au_ram s') x = ld (au_ram s) x) ∧
  if present s && (0 <? n)
  then r = 0 ∧ f1 = f' ∧ arr_get (slot_bytes s') slot = 4 * n ∧ holds_clip (au_ram s') slot data
  else r = -1 ∧ arr_get (slot_bytes s') slot = 0.
Proof.
  intros Hslot Hlen Hread Hn. pose proof (slots_apart slot Hslot) as (A1 & A2 & A3 & A4). unfold ac97_preload.
  replace ((slot <? 0) || (1 <? slot)) with false by (by destruct Hslot as [-> | ->]).
  assert (∀ v w, arr_get (arr_set (slot_bytes s) slot v) (1 - slot) = arr_get (slot_bytes s) (1 - slot) ∧
    arr_get (arr_set (slot_bytes s) slot v) slot = v ∧ arr_set (arr_set (slot_bytes s) slot w) slot v = arr_set (slot_bytes s) slot v) as Hset.
  { intros v w. destruct (slot_bytes s) as [|x [|y [|]]]; try done. by destruct Hslot as [-> | ->]. }
  destruct (present s) eqn:Ep; cbn [with_slots present negb]; rewrite Ep; cbn [negb andb].
  2:{ cbn [with_slots slot_bytes au_ram]. split_and!; try done; apply (Hset 0 0). }
  rewrite Hread. destruct (Z.leb_spec n 0) as [Hn0|Hn0].
  - rewrite (proj2 (Z.ltb_ge 0 n)) by done. cbn [with_slots slot_bytes au_ram]. split; [apply (Hset 0 0)|]. split; [|split; [done|apply (Hset 0 0)]].
    intros x Hx. destruct Hn as [(_ & ->)|[-> Hn]]; [done|]. apply put_bytes_out. unfold zlen in *. lia.
  - destruct Hn as [[Hn _]|[-> Hn]]; [lia|]. rewrite (proj2 (Z.ltb_lt 0 _)) by done. cbn [with_slots slot_bytes au_ram].
    rewrite (proj2 (proj2 (Hset (zlen data * 4) 0))). split; [apply (Hset _ 0)|].
    set (src := slot_buf slot + (slot_cap slot - slot_cap slot / 4)).
    destruct (expand_ok (Z.to_nat (zlen data)) 0 (slot_cap slot / 4) src (slot_buf slot) (put_bytes src data (au_ram s)) data) as [K1 K2]; [lia|lia|lia|done| |].
    { intros j Hj. by apply put_bytes_in. }
    split; [|split; [done|split; [done|split; [rewrite (proj1 (proj2 (Hset _ 0))); lia|exact K1]]]].
    intros x Hx. rewrite K2 by lia. apply put_bytes_out. lia.
Qed.
End Preload.

(** What the file system answers for a name in the working directory. *)
Lemma read_path_plain {D} `{!BlockDevice D} path maxlen (f : fs D) :
  fs_ok f → split_last path = None →
  (fs_read_path path maxlen f).2 = match files f !! to_83 path with
    | Some d => if maxlen <? zlen d then (-1, []) else (zlen d, d) | None => (-1, []) end.
Proof.
  intros Hok Hp. unfold fs_read_path, bind, get. rewrite (fo_mounted _ Hok). cbn [negb]. rewrite Hp.
  destruct (wp_fs_read path maxlen f Hok) as [_ E]. exact E.
Qed.

Definition demo_audio : ac97 script := MkAc97 (Script [] [] []) AC_ICH 0 0 0 0 0 true [0; 0] (replicate 64 0) 0x2000 (replicate 4 0) 0x3000 ∅.

Lemma clip_prepared_witness :
  let '(s', _, r) := ac97_preload 1 hello demo_audio demo_created in
  r = 0 ∧ arr_get (slot_bytes s') 1 = 2448 ∧ holds_clip (au_ram s') 1 hello_data.
Proof.
  assert ((fs_read_path hello (slot_cap 1 / 4) demo_created).2 = (612, hello_data)) as E.
  { rewrite read_path_plain; [|apply demo_created_ok|vm_compute; reflexivity].
    assert (files demo_created !! to_83 hello = Some hello_data) as -> by (rewrite (proj2 demo_created_ok); apply lookup_insert_eq).
    vm_compute. reflexivity. }
  pose proof (surjective_pairing (fs_read_path hello (slot_cap 1 / 4) demo_created)) as Er. rewrite E in Er.
  pose proof (clip_prepared 1 hello demo_audio demo_created _ 612 hello_data (or_intror eq_refl) eq_refl Er) as Hc.
  destruct (ac97_preload 1 hello demo_audio demo_created) as [[s' f1] r]. destruct Hc as (_ & _ & Hr & _ & Hs & Hh).
  { right. split; [vm_compute; reflexivity|]. apply (bool_decide_unpack _). vm_compute. exact I. }
  split; [exact Hr|]. split; [exact Hs|exact Hh].
Defined.

(** ** The descriptors of a clip *)

(** The bytes a descriptor covers at most, and how many a clip needs. *)
Definition PIECE : Z := 0xFFFE * 2.
Definition pieces (bytes : Z) : Z := (bytes + PIECE - 1) / PIECE.
Definition piece_bytes (bytes j : Z) : Z := Z.min PIECE (bytes - PIECE * j).

Lemma pieces_spec bytes j : 0 ≤ j → (PIECE * j < bytes ↔ j < pieces bytes).
Proof. unfold pieces, PIECE. intros Hj. cbn. zlia. Qed.

Lemma bdl_loop_ok n bdl idx buf bytes :
  0 ≤ idx ≤ pieces bytes → pieces bytes ≤ 32 → pieces bytes - idx ≤ Z.of_nat n → zlen bdl = 64 →
  let '(bdl', k) := bdl_loop n bdl idx (Z.min (PIECE * idx) bytes) buf bytes in
  k = pieces bytes ∧ zlen bdl' = 64 ∧
  (∀ j, idx ≤ j < pieces bytes → arr_get bdl' (j * 2) = u32 (buf + PIECE * j) ∧ arr_get bdl' (j * 2 + 1) = piece_bytes bytes j / 2) ∧
  ∀ x, 0 ≤ x < idx * 2 → arr_get bdl' x = arr_get bdl x.
Proof.
  revert bdl idx. induction n as [|n IH]; intros bdl idx Hi Hp Hn Hl; cbn [bdl_loop].
  - split_and!; [lia|done|intros j Hj; lia|done].
  - pose proof (pieces_spec bytes idx ltac:(lia)) as Hidx. destruct (Z.ltb_spec (Z.min (PIECE * idx) bytes) bytes) as [Hlt|Hge].
    2:{ split_and!; [lia|done|intros j Hj; lia|done]. }
    assert (PIECE * idx < bytes) as Hlt' by lia. rewrite (Z.min_l (PIECE * idx)) by lia. change (0xFFFE * 2) with PIECE.
    assert ((if PIECE <? bytes - PIECE * idx then PIECE else bytes - PIECE * idx) = piece_bytes bytes idx) as -> by (unfold piece_bytes; destruct (Z.ltb_spec PIECE (bytes - PIECE * idx)); lia).
    replace (PIECE * idx + piece_bytes bytes idx) with (Z.min (PIECE * (idx + 1)) bytes) by (unfold piece_bytes; lia).
    set (bdl1 := arr_set _ _ _). assert (zlen bdl1 = 64) as Hl1 by (unfold bdl1; by rewrite !zlen_arr_set).
    pose proof (IH bdl1 (idx + 1) ltac:(lia) Hp ltac:(lia) Hl1) as Hrec. destruct (bdl_loop n bdl1 _ _ _ _) as [bdl' k].
    destruct Hrec as (K1 & K2 & K3 & K4). split_and!; [done|done| |].
    + intros j Hj. destruct (Z.eq_dec j idx) as [->|Hne]; [|apply K3; lia]. rewrite !K4 by lia. unfold bdl1.
      rewrite arr_get_set_ne, !arr_get_set_eq by (rewrite ?zlen_arr_set; lia). done.
    + intros x Hx. rewrite K4 by lia. unfold bdl1. by rewrite !arr_get_set_ne by lia.
Qed.

(** The table cuts the clip into adjacent pieces, the last marked. *)
Definition tiles (bdl : list Z) (buf bytes : Z) : Prop :=
  ∀ j, 0 ≤ j < pieces bytes →
    arr_get bdl (j * 2) = buf + PIECE * j ∧
    arr_get bdl (j * 2 + 1) = piece_bytes bytes j / 2 + (if j =? pieces bytes - 1 then 2 ^ 31 else 0).

Lemma bdl_of_ok bdl buf bytes :
  0 < bytes ≤ 32 * PIECE → zlen bdl = 64 → 0 ≤ buf → buf + bytes ≤ 2 ^ 32 →
  (bdl_of bdl buf bytes).2 = pieces bytes ∧ tiles (bdl_of bdl buf bytes).1 buf bytes ∧ zlen (bdl_of bdl buf bytes).1 = 64.
Proof.
  intros Hb Hl H0 Ht. assert (1 ≤ pieces bytes ≤ 32) as Hp by (unfold pieces, PIECE in *; cbn in *; clear -Hb; zlia).
  pose proof (bdl_loop_ok 32 bdl 0 buf bytes ltac:(lia) ltac:(lia) ltac:(lia) Hl) as Hloop. unfold bdl_of.
  replace (Z.min (PIECE * 0) bytes) with 0 in Hloop by lia.
  destruct (bdl_loop 32 bdl 0 0 buf bytes) as [bdl' k]. destruct Hloop as (-> & K2 & K3 & _). cbn [fst snd].
  split; [done|]. split; [|by rewrite zlen_arr_set]. intros j Hj. destruct (K3 j Hj) as [E1 E2]. pose proof (proj2 (pieces_spec bytes j ltac:(lia)) ltac:(lia)) as Hlt.
  assert (0 ≤ piece_bytes bytes j / 2 < 65536) as Hpb by (unfold piece_bytes, PIECE in *; cbn in *; clear -Hlt Hj; zlia).
  assert (u32 (buf + PIECE * j) = buf + PIECE * j) as Eu by (apply u32_small; unfold PIECE in *; cbn in *; lia).
  destruct (Z.eqb_spec j (pieces bytes - 1)) as [Ej|Hne].
  - rewrite <- Ej. rewrite arr_get_set_ne, arr_get_set_eq by lia. rewrite E1, E2, Eu. split; [done|].
    rewrite (lor_disjoint_add _ _ 31); [by rewrite Z.shiftl_1_l|lia|change (2 ^ 31) with 2147483648; lia|by rewrite Z.shiftl_1_l].
  - rewrite !arr_get_set_ne by lia. rewrite E1, E2, Eu. by rewrite Z.add_0_r.
Qed.

(** ** Nothing hangs *)

(** All that is asked of the machine: the tick counter goes on, at a rate of at most
    1000 a second, one by one; and however fast the processor is, there is a number
    [ck_reads] of reads of the counter within which it moves ([ck_late]: how many it
    has to go).  With a 100 Hz timer that is thousands, so the number is the
    machine's, not a constant. The card may answer anything. *)
Class Clock (H : Type) `{Ports H} `{!Ticks H} := {
  ck_count : H → Z;
  ck_late : H → nat;
  ck_reads : Z;
  ck_range h : 0 ≤ ck_count h < 2 ^ 32;
  ck_bound h : Z.of_nat (ck_late h) ≤ ck_reads;
  ck_hz h : 0 ≤ tk_hz h ≤ 1000;
  ck_read h : let '(h', t) := tk_read h in
    t = ck_count h' ∧ tk_hz h' = tk_hz h ∧ (ck_count h' = u32 (ck_count h + 1) ∨ ck_count h' = ck_count h ∧ (ck_late h' < ck_late h)%nat);
  ck_out w p v h : tk_hz (p_out w p v h) = tk_hz h ∧
    (ck_count (p_out w p v h) = u32 (ck_count h + 1) ∨ ck_count (p_out w p v h) = ck_count h ∧ (ck_late (p_out w p v h) ≤ ck_late h)%nat);
  ck_in w p h : tk_hz (p_in w p h).1 = tk_hz h ∧
    (ck_count (p_in w p h).1 = u32 (ck_count h + 1) ∨ ck_count (p_in w p h).1 = ck_count h ∧ (ck_late (p_in w p h).1 ≤ ck_late h)%nat)
}.

(** The fuel for the longest wait of the driver, 3.9 seconds of a 1000 Hz counter. *)
Definition ck_fuel (H : Type) `{Clock H} : nat := Z.to_nat ((ck_reads (H := H) + 1) * 3901).

#[export] Instance ac97_hw_field {H} : HwField (ac97 H) H.
Proof. split; [by intros []|done]. Defined.

Section Ends.
Context {H : Type} `{Ports H} `{!Ticks H} `{!Clock H}.
Implicit Types s : ac97 H.

Lemma ends_spin n (cond : IO (ac97 H) bool) body : ends cond → ends body → ends (spin n cond body).
Proof.
  intros Hc Hb. induction n as [|n IH]; [apply ends_ret|]. cbn [spin]. apply ends_bind; [done|]. intros [|]; [by apply ends_bind|apply ends_ret].
Qed.
Lemma ends_ticks : ends (S := ac97 H) timer_ticks.
Proof. intros s. unfold timer_ticks. destruct (tk_read (au_hw s)) as [h t] eqn:E. eexists _, _. rewrite E. by split. Qed.

Ltac ends := repeat first [ ends_step | match goal with
  | |- ends timer_ticks => apply ends_ticks
  | |- ends (pci_cfg_read32 _ _ _ _) => unfold pci_cfg_read32
  | |- ends (pci_cfg_write32 _ _ _ _ _) => unfold pci_cfg_write32
  | |- ends (pci_cfg_read16 _ _ _ _) => unfold pci_cfg_read16
  | |- ends (spin _ _ _) => apply ends_spin
  end ].

(** *** Waits on the clock *)

(** The ticks since [start], and what is left of a wait for [ticks] of them: each
    within [ck_reads + 1] rounds. *)
Definition since (start : Z) (h : H) : Z := u32 (ck_count h - start).
Definition to_go (start ticks : Z) (h : H) : Z := (ck_reads (H := H) + 1) * (ticks - since start h) + Z.of_nat (ck_late h).

Lemma since_tick start h h1 : since start h < 2 ^ 32 - 1 → ck_count h1 = u32 (ck_count h + 1) → since start h1 = since start h + 1.
Proof.
  unfold since, u32. zpow. intros Hlt ->. rewrite Zminus_mod_idemp_l. replace (ck_count h + 1 - start) with (ck_count h - start + 1) by lia.
  rewrite <- Zplus_mod_idemp_l. apply Z.mod_small. pose proof (Z.mod_pos_bound (ck_count h - start) 4294967296). lia.
Qed.

(** What a read of the counter and any other access do to a wait. *)
Lemma read_step start ticks h : since start h < 2 ^ 31 + 9 →
  let '(h1, t) := tk_read h in
  u32 (t - start) = since start h1 ∧ since start h ≤ since start h1 ≤ since start h + 1 ∧ to_go start ticks h1 < to_go start ticks h.
Proof.
  intros Hs. pose proof (ck_read h) as Hr. destruct (tk_read h) as [h1 t]. destruct Hr as (-> & _ & Hr). split; [done|].
  pose proof (ck_bound h1). pose proof (ck_bound h). unfold to_go.
  destruct Hr as [E|[E Hl]]; [rewrite (since_tick start h h1) by (done || lia); split_and?; try done; nia|]. assert (since start h1 = since start h) as -> by (unfold since; by rewrite E). lia.
Qed.
Lemma other_step start ticks h h1 :
  since start h < 2 ^ 31 + 9 → ck_count h1 = u32 (ck_count h + 1) ∨ ck_count h1 = ck_count h ∧ (ck_late h1 ≤ ck_late h)%nat →
  since start h ≤ since start h1 ≤ since start h + 1 ∧ to_go start ticks h1 ≤ to_go start ticks h.
Proof.
  intros Hs Hr. pose proof (ck_bound h1). pose proof (ck_bound h). unfold to_go.
  destruct Hr as [E|[E Hl]]; [rewrite (since_tick start h h1) by (done || lia); split_and?; try done; nia|]. assert (since start h1 = since start h) as -> by (unfold since; by rewrite E). lia.
Qed.

Lemma to_go_nonneg start ticks h : since start h < ticks → 0 ≤ to_go start ticks h.
Proof. intros Hs. pose proof (ck_bound h). unfold to_go. nia. Qed.

Lemma delay_loop_ends fuel start ticks s :
  0 ≤ ticks < 2 ^ 31 → since start (au_hw s) ≤ ticks + 1 → to_go start ticks (au_hw s) < Z.of_nat fuel →
  iwp (delay_loop fuel start ticks) (λ s' _, only_hw s s') s.
Proof.
  intros Ht. revert s. induction fuel as [|fuel IH]; intros s Hs Hgo; cbn [delay_loop]; apply iwp_bind;
    pose proof (read_step start ticks (au_hw s) ltac:(lia)) as Hr; destruct (tk_read (au_hw s)) as [h1 t] eqn:Et; destruct Hr as (E & Hb & Hlt);
    exists (set_hw h1 s), t; (split; [unfold timer_ticks; by rewrite Et|]); rewrite E; destruct (Z.ltb_spec (since start h1) ticks) as [Hc|Hc].
  - exfalso. pose proof (to_go_nonneg _ _ _ Hc). lia.
  - by apply iwp_ret.
  - apply iwp_bind, iwp_put. pose proof (ck_out 1 (u16 0x80) (u8 0) h1) as (_ & Ho).
    destruct (other_step start ticks h1 _ ltac:(lia) Ho) as [Hb2 Hg2]. eapply iwp_mono; [apply IH|]; cbn [au_hw set_hw ac97_has_hw]; [..|by intros s2 _ E2].
    + change (since start (p_out 1 (u16 128) (u8 0) h1) ≤ ticks + 1). lia.
    + change (to_go start ticks (p_out 1 (u16 128) (u8 0) h1) < Z.of_nat fuel). lia.
  - by apply iwp_ret.
Qed.

Lemma ticks_of_range ms hz : 0 ≤ ms ≤ 3900 → 0 < hz ≤ 1000 → 1 ≤ ticks_of ms hz ≤ 3900.
Proof.
  intros Hm Hh. unfold ticks_of. assert (0 ≤ ms * hz ≤ 3900000) by nia. rewrite u32_small by lia.
  assert (0 ≤ ms * hz / 1000 ≤ 3900) by (split; [apply Z.div_pos; lia|apply Z.div_le_upper_bound; lia]). destruct (Z.eqb_spec (ms * hz / 1000) 0); lia.
Qed.

Lemma hz_of_range s : 0 < hz_of s ≤ 1000.
Proof. unfold hz_of, timer_hz. pose proof (ck_hz (au_hw s)). destruct (Z.eqb_spec (tk_hz (au_hw s)) 0); lia. Qed.

(** The counter has just been read. *)
Lemma start_wait ticks h : let '(h1, t) := tk_read h in since t h1 = 0 ∧ to_go t ticks h1 ≤ (ck_reads (H := H) + 1) * ticks + ck_reads (H := H).
Proof.
  pose proof (ck_read h) as Hr. destruct (tk_read h) as [h1 t]. destruct Hr as (-> & _). pose proof (ck_bound h1).
  assert (since (ck_count h1) h1 = 0) as E by (unfold since; by rewrite Z.sub_diag). unfold to_go. rewrite E. lia.
Qed.

(** Fuel enough for the longest wait of the driver. *)
Variable fuel : nat.
Hypothesis fuel_enough : (ck_fuel H <= fuel)%nat.

Lemma wait_fits ticks go : 1 ≤ ticks ≤ 3900 → go ≤ (ck_reads (H := H) + 1) * ticks + ck_reads (H := H) → ∀ h : H, go < Z.of_nat fuel.
Proof using fuel_enough.
  intros Ht Hgo h. pose proof (ck_bound h). unfold ck_fuel in fuel_enough.
  assert ((ck_reads (H := H) + 1) * 3901 ≤ Z.of_nat fuel) by lia. nia.
Qed.

Lemma ends_delay ms : 0 ≤ ms ≤ 3900 → ends (delay_ms fuel ms).
Proof.
  intros Hm s. unfold delay_ms. apply iwp_bind, iwp_get. apply iwp_bind. pose proof (ticks_of_range ms (hz_of s) Hm (hz_of_range s)) as Ht.
  pose proof (start_wait (ticks_of ms (hz_of s)) (au_hw s)) as Hw. destruct (tk_read (au_hw s)) as [h1 t] eqn:Et. destruct Hw as [H0' Hg].
  exists (set_hw h1 s), t. split; [unfold timer_ticks; by rewrite Et|].
  eapply iwp_mono; [apply delay_loop_ends; cbn [au_hw set_hw ac97_has_hw]; [lia|lia|by apply (wait_fits _ _ Ht)]|]. cbv beta. intros s2 u E. exact E.
Qed.

(** *** The driver's operations *)

Lemma ends_cfg_read8 off : ends (cfg_read8 off).
Proof. unfold cfg_read8. ends. Qed.
Lemma ends_cfg_write8 off v : ends (cfg_write8 off v).
Proof. unfold cfg_write8. cbv zeta. ends. Qed.
Lemma ends_codec_write reg v : ends (codec_write reg v).
Proof. unfold codec_write, via_busy. ends. Qed.
Lemma ends_codec_read reg : ends (codec_read reg).
Proof.
  assert (∀ n last, ends (via_read_loop n reg last)) as Hloop.
  { intros n. induction n as [|n IH]; intros last; cbn [via_read_loop]; ends; apply IH. }
  unfold codec_read. ends; apply Hloop.
Qed.
Lemma ends_codec_ready n : ends (codec_ready fuel n).
Proof. induction n as [|n IH]; cbn [codec_ready]; [ends|]. apply ends_bind; [apply ends_codec_read|]. intros v. ends; [apply ends_delay; lia|apply IH]. Qed.

(** What bring-up leaves alone: the clips and the tables; and once the card is
    known, that too. *)
Definition kept s s' : Prop :=
  slot_bytes s' = slot_bytes s ∧ au_ram s' = au_ram s ∧ ich_bdl s' = ich_bdl s ∧ bdl_at s' = bdl_at s ∧ via_sgd s' = via_sgd s ∧ sgd_at s' = sgd_at s.
Definition same_card s s' : Prop := kept s s' ∧ variant s' = variant s ∧ present s' = present s.

Lemma aside_trans s1 s2 s3 : kept s1 s2 → kept s2 s3 → kept s1 s3.
Proof. unfold kept. intros (-> & -> & -> & -> & -> & ->). done. Qed.
Lemma same_card_trans s1 s2 s3 : same_card s1 s2 → same_card s2 s3 → same_card s1 s3.
Proof. intros (K1 & E1 & E2) (K2 & E3 & E4). split; [by eapply aside_trans|]. split; congruence. Qed.
Lemma only_hw_same s s' : only_hw s s' → same_card s s'.
Proof. intros ->. by split_and!. Qed.

(** In a sequence what comes first only concerns the machine. *)
Lemma ends_then_same {X Y} (m : IO (ac97 H) X) (k : X → IO (ac97 H) Y) (Q : ac97 H → Y → Prop) s :
  ends m → (∀ s1 x, same_card s s1 → iwp (k x) Q s1) → iwp (io_bind m k) Q s.
Proof. intros Hm Hk. apply ends_then; [done|]. intros s1 x E. by apply Hk, only_hw_same. Qed.

Definition taken s s' (r : bool) : Prop := kept s s' ∧ present s' = present s ∧ (r = true → variant s' ≠ AC_NONE).

Lemma taken_after s1 s2 s3 r : same_card s1 s2 → taken s2 s3 r → taken s1 s3 r.
Proof. intros (K1 & _ & E2) (K2 & E3 & Hr). split; [by eapply aside_trans|]. split; [congruence|done]. Qed.
Lemma taken_again s1 s2 s3 r : taken s1 s2 false → taken s2 s3 r → taken s1 s3 r.
Proof. intros (K1 & E2 & _) (K2 & E3 & Hr). split; [by eapply aside_trans|]. split; [congruence|done]. Qed.

Lemma check_fn_ends d f s : iwp (check_fn d f) (λ s' r, taken s s' r) s.
Proof.
  unfold check_fn. apply ends_then_same; [ends|]. intros s1 id Hs.
  assert (∀ c, c ≠ AC_NONE → taken s1 (with_card c 0 d f s1) true) as Hc by (intros c Hc; by split_and!).
  assert (taken s1 s1 false) as Hn by (by split_and!).
  repeat case_match; try (apply iwp_bind, iwp_put); apply iwp_ret; eapply taken_after; eauto; by apply Hc.
Qed.

Lemma fn_loop_ends n d f s : iwp (fn_loop n d f) (λ s' r, taken s s' r) s.
Proof.
  revert f s. induction n as [|n IH]; intros f s; cbn [fn_loop]; [apply iwp_ret; by split_and!|].
  apply iwp_bind. eapply iwp_mono; [apply check_fn_ends|]. cbv beta. intros s1 [|] Ht; [by apply iwp_ret|].
  eapply iwp_mono; [apply IH|]. cbv beta. intros s2 r Hr. by eapply taken_again.
Qed.

Lemma dev_loop_ends n d s : iwp (dev_loop n d) (λ s' r, taken s s' r) s.
Proof.
  revert d s. induction n as [|n IH]; intros d s; cbn [dev_loop]; [apply iwp_ret; by split_and!|].
  apply ends_then_same; [ends|]. intros s1 id Hs. case_match; [eapply iwp_mono; [apply IH|]; cbv beta; intros; by eapply taken_after|].
  apply ends_then_same; [ends|]. intros s2 ht Hs2. apply iwp_bind. eapply iwp_mono; [apply fn_loop_ends|]. cbv beta. intros s3 [|] Ht.
  - apply iwp_ret. eapply taken_after; [exact Hs|]. by eapply taken_after.
  - eapply iwp_mono; [apply IH|]. cbv beta. intros s4 r Hr. eapply taken_after; [exact Hs|]. eapply taken_after; [exact Hs2|]. by eapply taken_again.
Qed.

Lemma ends_same {X} (m : IO (ac97 H) X) s : ends m → iwp m (λ s' _, same_card s s') s.
Proof. intros Hm. eapply iwp_mono; [apply Hm|]. cbv beta. intros s' x. apply only_hw_same. Qed.

Lemma ich_up_ends s : iwp (ich_up fuel) (λ s' _, same_card s s') s.
Proof.
  unfold ich_up. apply iwp_bind, iwp_get. apply ends_then_same; [ends|]. intros s1 b0 H1. apply ends_then_same; [ends|]. intros s2 b1 H2.
  pose proof (same_card_trans _ _ _ H1 H2) as H12. cbv zeta. apply iwp_bind, iwp_put.
  match goal with |- iwp _ _ ?x => assert (same_card s x) as H3 by exact H12; revert H3; generalize x end. intros s3 H3.
  eapply iwp_mono; [apply ends_same; ends; apply ends_delay; lia|]. cbv beta. intros s4 u H4. by eapply same_card_trans.
Qed.

Lemma via_up_ends s : iwp (via_up fuel) (λ s' _, same_card s s') s.
Proof.
  unfold via_up. apply iwp_bind, iwp_get. apply ends_then_same; [ends|]. intros s1 b0 H1. apply iwp_bind, iwp_put.
  match goal with |- iwp _ _ ?x => assert (same_card s x) as H3 by exact H1; revert H3; generalize x end. intros s3 H3.
  eapply iwp_mono; [apply ends_same|].
  { ends; first [apply ends_cfg_read8 | apply ends_cfg_write8 | apply ends_delay; lia]. }
  cbv beta. intros s4 u H4. by eapply same_card_trans.
Qed.

Lemma init_ends s :
  iwp (ac97_init fuel) (λ s' _, kept s s' ∧ (present s' = true → variant s' ≠ AC_NONE)) s.
Proof.
  unfold ac97_init. apply iwp_bind, iwp_put. match goal with |- iwp _ _ ?x => assert (kept s x ∧ present x = false) as [K0 P0] by (by split_and!); revert K0 P0; generalize x end.
  intros s0 K0 P0. apply iwp_bind. eapply iwp_mono; [apply (dev_loop_ends 32 0)|]. cbv beta. intros s1 r (K1 & P1 & V1).
  pose proof (aside_trans _ _ _ K0 K1) as K01. rewrite P0 in P1. destruct r; cbn [negb]; [|apply iwp_ret; split; [done|by rewrite P1]].
  specialize (V1 eq_refl). apply iwp_bind, iwp_get. apply ends_then_same; [ends|]. intros s2 cmd H2. apply ends_then_same; [ends|]. intros s3 u H3.
  pose proof (same_card_trans _ _ _ H2 H3) as H23. apply iwp_bind.
  assert (iwp (match variant s1 with AC_ICH => ich_up fuel | _ => via_up fuel end) (λ s' _, same_card s3 s') s3) as Hup.
  { destruct (variant s1); [apply via_up_ends|apply ich_up_ends|apply via_up_ends]. }
  eapply iwp_mono; [exact Hup|]. cbv beta. intros s4 u4 H4. pose proof (same_card_trans _ _ _ H23 H4) as (K4 & V4 & P4).
  assert (kept s s4) as K04 by (by eapply aside_trans). rewrite P1 in P4. apply ends_then_same; [apply ends_codec_ready|]. intros s5 ready (K5 & V5 & P5).
  assert (kept s s5) as K05 by (by eapply aside_trans). destruct ready; cbn [negb]; [|apply iwp_ret; split; [done|by rewrite P5, P4]].
  do 5 (apply ends_then_same; [first [apply ends_codec_write | apply ends_delay; lia]|]; intros ? ? ?).
  apply iwp_put. repeat match goal with H : same_card _ _ |- _ => destruct H as (? & ? & ?) end.
  split; [repeat (eapply aside_trans; [eassumption|]); by split_and!|]. intros _. cbn [variant with_present]. congruence.
Qed.

(** *** Playing *)

Lemma ends_done (v : controller) : ends (match v with AC_ICH => ich_done | _ => via_done end).
Proof. destruct v; [unfold via_done|unfold ich_done|unfold via_done]; ends. Qed.

Lemma play_loop_ends m start limit s :
  0 ≤ limit < 2 ^ 31 → since start (au_hw s) ≤ limit + 2 → to_go start limit (au_hw s) < Z.of_nat m →
  iwp (play_loop m start limit) (λ s' _, only_hw s s') s.
Proof.
  intros Ht. revert s. induction m as [|m IH]; intros s Hs Hgo; cbn [play_loop]; apply iwp_bind;
    pose proof (read_step start limit (au_hw s) ltac:(lia)) as Hr; destruct (tk_read (au_hw s)) as [h1 t] eqn:Et; destruct Hr as (E & Hb & Hlt);
    exists (set_hw h1 s), t; (split; [unfold timer_ticks; by rewrite Et|]); rewrite E; destruct (Z.ltb_spec (since start h1) limit) as [Hc|Hc].
  - exfalso. pose proof (to_go_nonneg _ _ _ Hc). lia.
  - by apply iwp_ret.
  - apply iwp_bind, iwp_get. change (variant (set_hw h1 s)) with (variant s). apply iwp_bind.
    assert (iwp (match variant s with AC_ICH => ich_done | _ => via_done end) (λ s' _, ∃ w p, s' = set_hw (p_in w p h1).1 s) (set_hw h1 s)) as Hd.
    { destruct (variant s); [unfold via_done|unfold ich_done|unfold via_done]; apply iwp_bind, iwp_get; apply iwp_bind; unfold inb, inw, in_port;
        match goal with |- iwp (λ s, let '(h, v) := p_in ?w ?p _ in _) _ _ => destruct (p_in w p h1) as [h2 v] eqn:Ei; exists (set_hw h2 s), v;
          (split; [change (get_hw (set_hw h1 s)) with h1; by rewrite Ei|]); apply iwp_ret; exists w, p; by rewrite Ei end. }
    eapply iwp_mono; [exact Hd|]. cbv beta. intros s2 dn (w & p & ->). destruct dn; [by apply iwp_ret|].
    pose proof (ck_in w p h1) as [_ Hi]. destruct (other_step start limit h1 _ ltac:(lia) Hi) as [Hb2 Hg2]. set (h2 := (p_in w p h1).1) in *.
    apply iwp_bind, iwp_put. pose proof (ck_out 1 (u16 0x80) (u8 0) h2) as (_ & Ho). destruct (other_step start limit h2 _ ltac:(lia) Ho) as [Hb3 Hg3].
    eapply iwp_mono; [apply IH|]; [..|by intros s3 u E3].
    + change (since start (p_out 1 (u16 128) (u8 0) h2) ≤ limit + 2). lia.
    + change (to_go start limit (p_out 1 (u16 128) (u8 0) h2) < Z.of_nat m). lia.
  - by apply iwp_ret.
Qed.

(** What a start leaves: the engine's table, and everything else. *)
Definition started (buf bytes : Z) s : ac97 H :=
  match variant s with
  | AC_ICH => with_tables (bdl_of (ich_bdl s) buf bytes).1 (via_sgd s) s
  | _ => with_tables (ich_bdl s) (arr_set (arr_set (via_sgd s) 0 buf) 1 (u32 bytes ||| (1 <<< 31) ||| (1 <<< 30))) s
  end.

Lemma start_ends buf bytes s :
  iwp ((match variant s with AC_ICH => ich_start | _ => via_start end) buf bytes) (λ s' _, only_hw (started buf bytes s) s') s.
Proof.
  unfold started. destruct (variant s); [unfold via_start|unfold ich_start|unfold via_start]; apply iwp_bind, iwp_get.
  2:{ destruct (bdl_of (ich_bdl s) buf bytes) as [bdl idx]. apply iwp_bind, iwp_put.
      match goal with |- iwp ?m _ _ => assert (ends m) as He by ends end. apply He. }
  all: apply iwp_bind, iwp_put; match goal with |- iwp ?m _ _ => assert (ends m) as He by ends end; apply He.
Qed.

(** The clips and the table of the first engine have their sizes. *)
Record clips_ok s : Prop := {
  co_bdl : zlen (ich_bdl s) = 64;
  co_slot slot : slot = 0 ∨ slot = 1 → arr_get (slot_bytes s) slot ≤ slot_cap slot
}.

Definition playable slot s : bool := negb ((slot <? 0) || (1 <? slot) || negb (present s) || (arr_get (slot_bytes s) slot <=? 0)).

Lemma play_ms_range slot bytes : slot = 0 ∨ slot = 1 → 0 < bytes ≤ slot_cap slot → 0 ≤ play_ms bytes ≤ 3900.
Proof.
  intros Hslot Hb. assert (0 < bytes ≤ 655360) as Hb' by (destruct Hslot as [-> | ->]; unfold slot_cap, SLOT0_CAP, SLOT1_CAP in Hb; cbn in Hb; lia).
  unfold play_ms, AC97_RATE. assert (0 ≤ bytes / 4 ≤ 163840) as H4 by (clear -Hb'; zlia). rewrite (u32_small (bytes / 4 * 1000)) by lia.
  assert (0 ≤ bytes / 4 * 1000 / 48000 ≤ 3413) as H5 by (clear -H4; zlia). rewrite u32_small by lia. lia.
Qed.

Lemma play_ends slot wait s :
  clips_ok s →
  iwp (ac97_play fuel slot wait) (λ s' _, only_hw (if playable slot s then started (slot_buf slot) (arr_get (slot_bytes s) slot) s else s) s') s.
Proof.
  intros [Hbdl Hcap]. unfold ac97_play. apply iwp_bind, iwp_get. unfold playable.
  destruct ((slot <? 0) || (1 <? slot) || negb (present s) || (arr_get (slot_bytes s) slot <=? 0)) eqn:Eg; cbn [negb]; [apply iwp_ret, only_hw_refl|].
  rewrite !orb_false_iff, !Z.ltb_ge, Z.leb_gt in Eg. destruct Eg as [[[E1 E2] _] E3]. assert (slot = 0 ∨ slot = 1) as Hslot by lia.
  pose proof (play_ms_range slot _ Hslot (conj E3 (Hcap slot Hslot))) as Hms. set (bytes := arr_get (slot_bytes s) slot) in *.
  apply iwp_bind. eapply iwp_mono; [apply start_ends|]. cbv beta. intros s1 u1 K1. destruct (wait =? 0); [by apply iwp_ret|].
  apply iwp_bind. pose proof (ticks_of_range (play_ms bytes) (hz_of s) Hms (hz_of_range s)) as Ht.
  pose proof (start_wait (ticks_of (play_ms bytes) (hz_of s)) (au_hw s1)) as Hw. destruct (tk_read (au_hw s1)) as [h1 t] eqn:Et. destruct Hw as [H0' Hg].
  exists (set_hw h1 s1), t. split; [unfold timer_ticks; by rewrite Et|]. apply iwp_bind.
  eapply iwp_mono; [apply play_loop_ends; change (au_hw (set_hw h1 s1)) with h1; [lia|lia|by apply (wait_fits _ _ Ht)]|]. cbv beta. intros s2 u2 K2.
  assert (ends (match variant s with AC_ICH => ich_stop | _ => via_stop end)) as He by (destruct (variant s); [unfold via_stop|unfold ich_stop|unfold via_stop]; ends).
  eapply iwp_mono; [apply He|]. cbv beta. intros s3 u3 K3. eapply only_hw_trans; [exact K1|]. eapply only_hw_trans; [|exact K3]. exact K2.
Qed.

Lemma flags_off x : 0 ≤ x < 2 ^ 30 → (x ||| (1 <<< 31) ||| (1 <<< 30)) mod 2 ^ 30 = x.
Proof.
  intros Hx. rewrite <- Z.land_ones, !Z.land_lor_distr_l by lia. change ((1 <<< 31) &&& Z.ones 30) with 0. change ((1 <<< 30) &&& Z.ones 30) with 0.
  rewrite !Z.lor_0_r, Z.land_ones by lia. by apply Z.mod_small.
Qed.

(** C28: the audio driver (drivers/ac97.c) hangs neither the boot nor the shell,
    whatever the card and its codec answer, as long as the tick counter goes on,
    one by one and at most 1000 times a second, however many reads of it fit between
    two ticks: [ac97_init] comes back, reports a card present only when it has found
    one of the two, and leaves the clips alone; [ac97_play] comes back from every
    slot, waited for or not.  A clip that can be played has then been cut into
    adjacent pieces of at most 131068 bytes in the first engine's table, with their
    lengths in samples and the last one marked, or been given whole to the other
    engine; the samples are untouched.  The waits take no more than the reads of
    3901 ticks ([ck_fuel]). *)
Theorem audio_never_hangs s :
  iwp (ac97_init fuel) (λ s' _, kept s s' ∧ (ac97_present s' = true → variant s' ≠ AC_NONE)) s ∧
  (clips_ok s → ∀ slot wait, iwp (ac97_play fuel slot wait) (λ s' _,
    slot_bytes s' = slot_bytes s ∧ au_ram s' = au_ram s ∧ variant s' = variant s ∧ present s' = present s ∧
    (playable slot s = true →
      match variant s with
      | AC_ICH => tiles (ich_bdl s') (slot_buf slot) (arr_get (slot_bytes s) slot)
      | _ => zlen (via_sgd s) = 4 → arr_get (via_sgd s') 0 = slot_buf slot ∧ arr_get (via_sgd s') 1 mod 2 ^ 30 = arr_get (slot_bytes s) slot
      end)) s).
Proof.
  split; [apply init_ends|]. intros Hok slot wait. pose proof Hok as [Hbdl Hcap].
  eapply iwp_mono; [by apply play_ends|]. cbv beta. intros s' _ ->.
  destruct (playable slot s) eqn:Ep; [|by split_and!]. unfold started.
  unfold playable in Ep. rewrite negb_true_iff, !orb_false_iff, !Z.ltb_ge, Z.leb_gt in Ep. destruct Ep as [[[E1 E2] _] E3].
  assert (slot = 0 ∨ slot = 1) as Hslot by lia. pose proof (Hcap slot Hslot) as Hc. set (bytes := arr_get (slot_bytes s) slot) in *.
  assert (slot_cap slot ≤ 655360) as Hcap2 by (destruct Hslot as [-> | ->]; done). assert (0 < bytes ≤ 655360) as Hb by lia.
  pose proof (slots_apart slot Hslot) as (A1 & A2 & _). unfold AC97_DMA_PHYS, AC97_DMA_BYTES in *.
  destruct (variant s) eqn:Ev; (split; [done|]; split; [done|]; split; [exact Ev|]; split; [done|]; intros _).
  2:{ apply (bdl_of_ok (ich_bdl s) (slot_buf slot) bytes); [unfold PIECE; lia|done|lia|lia]. }
  all: intros Hz; cbn [with_tables via_sgd set_hw ac97_has_hw]; (split; [rewrite arr_get_set_ne, arr_get_set_eq by lia; done|]);
    rewrite arr_get_set_eq by (rewrite zlen_arr_set; lia); rewrite u32_small by lia; apply flags_off; lia.
Qed.
End Ends.

(** A machine without a card, whose clock ticks with every ten thousandth read. *)
Record ticker := Ticker { tick_count : Z; tick_left : nat }.
Definition TICKER_READS : nat := Z.to_nat 9999.
#[export] Instance ticker_ports : Ports ticker := {| p_out w p v h := h; p_in w p h := (h, 0xFFFFFFFF); p_hlt h := (h, []) |}.
Definition ticker_read (h : ticker) : ticker :=
  match tick_left h with
  | O => Ticker (u32 (tick_count h + 1)) TICKER_READS
  | S n => Ticker (u32 (tick_count h)) (Nat.min n (TICKER_READS - 1))
  end.
#[export] Instance ticker_ticks : Ticks ticker := {| tk_read h := (ticker_read h, tick_count (ticker_read h)); tk_hz h := 100 |}.
#[export] Instance ticker_clock : Clock ticker.
Proof.
  refine {| ck_count h := u32 (tick_count h); ck_late h := Nat.min (tick_left h) TICKER_READS; ck_reads := Z.of_nat TICKER_READS |}; intros; try lia.
  - apply u32_range.
  - cbn. lia.
  - cbn [tk_read ticker_ticks tk_hz]. unfold ticker_read. destruct h as [c [|n]]; cbn [tick_count tick_left]; unfold u32; zpow.
    + rewrite Z.mod_mod, Zplus_mod_idemp_l by lia. split_and!; [done|done|by left].
    + rewrite Z.mod_mod by lia. split_and!; [done|done|right; split; [done|]]. unfold TICKER_READS. lia.
  - cbn. split; [done|]. right. by split.
  - cbn. split; [done|]. right. by split.
Defined.

Definition demo_play : ac97 ticker := MkAc97 (Ticker 0xFFFFFFF0 42) AC_ICH 0 5 0 0x400 0x800 true [2448; 300000] (replicate 64 0) 0x2000 (replicate 4 0) 0x3000 ∅.

Lemma audio_never_hangs_witness :
  clips_ok demo_play ∧ playable 1 demo_play = true ∧ pieces 300000 = 3 ∧
  iwp (ac97_play (ck_fuel ticker) 1 1) (λ s' _, tiles (ich_bdl s') (AC97_DMA_PHYS + SLOT0_CAP) 300000) demo_play.
Proof.
  assert (clips_ok demo_play) as Hok.
  { split; [done|]. intros slot [-> | ->]; [change (2448 ≤ 655360)|change (300000 ≤ 393216)]; lia. }
  split; [exact Hok|]. split; [done|]. split; [done|].
  destruct (audio_never_hangs (ck_fuel ticker) (Nat.le_refl _) demo_play) as [_ Hplay].
  eapply iwp_mono; [exact (Hplay Hok 1 1)|]. cbv beta. intros s' u (_ & _ & _ & _ & Ht). exact (Ht eq_refl).
Defined.
