(* ===== verification/Vga.v ===== *)
(** The display driver: drivers/vga.c.  It provides what the graphics primitives
    take as [Gfx.video].  The card and the BIOS are a parameter: ports, the memory
    they share ([Io.Dma]), and the real-mode interrupts of cpu/bios.asm. *)
From Stdlib Require Import ZArith Lia Bool Ascii String.
From stdpp Require Import base numbers gmap option list.
From S2P Require Import Prelude Console Frames Pmm Paging Gfx Io.

#[local] Open Scope Z_scope.
#[local] Open Scope c_scope.
#[local] Open Scope io_scope.

Definition MISC_WRITE : Z := 0x3C2.
Definition SEQ_INDEX : Z := 0x3C4.
Definition SEQ_DATA : Z := 0x3C5.
Definition GC_INDEX : Z := 0x3CE.
Definition GC_DATA : Z := 0x3CF.
Definition CRTC_INDEX : Z := 0x3D4.
Definition CRTC_DATA : Z := 0x3D5.
Definition AC_INDEX : Z := 0x3C0.
Definition AC_WRITE : Z := 0x3C0.
Definition INPUT_STATUS : Z := 0x3DA.
Definition VBE_INDEX : Z := 0x01CE.
Definition VBE_DATA : Z := 0x01CF.
Definition VBE_I_ID : Z := 0.
Definition VBE_I_XRES : Z := 1.
Definition VBE_I_YRES : Z := 2.
Definition VBE_I_BPP : Z := 3.
Definition VBE_I_ENABLE : Z := 4.
Definition VBE_I_VWIDTH : Z := 6.
Definition VBE_ENABLED : Z := 0x01.
Definition VBE_GETCAPS : Z := 0x02.
Definition VBE_LFB : Z := 0x40.
Definition VBE_INFO : Z := 0x8000.
Definition VBE_MODE : Z := 0x8200.

Definition mode_13h : list Z :=
  [0x63;
   0x03; 0x01; 0x0F; 0x00; 0x0E;
   0x5F; 0x4F; 0x50; 0x82; 0x54; 0x80; 0xBF; 0x1F;
   0x00; 0x41; 0x00; 0x00; 0x00; 0x00; 0x00; 0x00;
   0x9C; 0x0E; 0x8F; 0x28; 0x40; 0x96; 0xB9; 0xA3;
   0xFF;
   0x00; 0x00; 0x00; 0x00; 0x00; 0x40; 0x05; 0x0F; 0xFF;
   0x00; 0x01; 0x02; 0x03; 0x04; 0x05; 0x06; 0x07;
   0x08; 0x09; 0x0A; 0x0B; 0x0C; 0x0D; 0x0E; 0x0F;
   0x41; 0x00; 0x0F; 0x00; 0x00].
Definition mode_03h : list Z :=
  [0x67;
   0x03; 0x00; 0x03; 0x00; 0x02;
   0x5F; 0x4F; 0x50; 0x82; 0x55; 0x81; 0xBF; 0x1F;
   0x00; 0x4F; 0x0D; 0x0E; 0x00; 0x00; 0x00; 0x50;
   0x9C; 0x0E; 0x8F; 0x28; 0x1F; 0x96; 0xB9; 0xA3;
   0xFF;
   0x00; 0x00; 0x00; 0x00; 0x00; 0x10; 0x0E; 0x00; 0xFF;
   0x00; 0x01; 0x02; 0x03; 0x04; 0x05; 0x06; 0x07;
   0x08; 0x09; 0x0A; 0x0B; 0x0C; 0x0D; 0x0E; 0x0F;
   0x0C; 0x00; 0x0F; 0x08; 0x00].
Definition dac16 : list (Z * Z * Z) :=
  [(0, 0, 0); (0, 0, 42); (0, 42, 0); (0, 42, 42);
   (42, 0, 0); (42, 0, 42); (42, 21, 0); (42, 42, 42);
   (21, 21, 21); (21, 21, 63); (21, 63, 21); (21, 63, 63);
   (63, 21, 21); (63, 21, 63); (63, 63, 21); (63, 63, 63)].

(** The module's statics with the page tables and the machine. *)
Record vga (A H : Type) := MkVga {
  vg_hw : H; vg_paging : paging A;
  g_mode : Z; g_kind : Z; g_width : Z; g_height : Z; g_bpp : Z; g_pitch : Z; g_fb : Z;
  font_backup : list Z
}.
Arguments MkVga {A H}. Arguments vg_hw {A H}. Arguments vg_paging {A H}. Arguments g_mode {A H}. Arguments g_kind {A H}. Arguments g_width {A H}.
Arguments g_height {A H}. Arguments g_bpp {A H}. Arguments g_pitch {A H}. Arguments g_fb {A H}. Arguments font_backup {A H}.

#[export] Instance vga_has_hw {A H} : HasHw (vga A H) H.
Proof.
  refine {| get_hw := vg_hw; set_hw h s := MkVga h (vg_paging s) (g_mode s) (g_kind s) (g_width s) (g_height s) (g_bpp s) (g_pitch s) (g_fb s) (font_backup s) |}.
  done.
Defined.

(** [regs16_t] *)
Record regs16 := Regs16 {
  r_di : Z; r_si : Z; r_bp : Z; r_sp : Z; r_bx : Z; r_dx : Z; r_cx : Z; r_ax : Z;
  r_gs : Z; r_fs : Z; r_es : Z; r_ds : Z; r_flags : Z
}.
(** A cleared block with [di], [bx], [cx] and [ax] set. *)
Definition regs_for (di bx cx ax : Z) : regs16 := Regs16 di 0 0 0 bx 0 cx ax 0 0 0 0 0.

Class Bios (H : Type) := { bios_int : Z → regs16 → H → H * regs16 }.

(** What the driver tells the others. *)
Definition video_of {A H} (s : vga A H) : video := Video (g_width s) (g_height s) (g_bpp s) (g_pitch s) (g_fb s) (font_backup s).

Section Driver.
Context {A H : Type} `{FrameAllocator A} `{Ports H} `{!Dma H} `{!Bios H}.
Abbreviation vg := (vga A H).
Abbreviation M := (IO vg).

Definition with_paging (p : paging A) (s : vg) : vg :=
  MkVga (vg_hw s) p (g_mode s) (g_kind s) (g_width s) (g_height s) (g_bpp s) (g_pitch s) (g_fb s) (font_backup s).
Definition with_font (f : list Z) (s : vg) : vg :=
  MkVga (vg_hw s) (vg_paging s) (g_mode s) (g_kind s) (g_width s) (g_height s) (g_bpp s) (g_pitch s) (g_fb s) f.
Definition with_mode (kind mode w h bpp pitch : Z) (s : vg) : vg :=
  MkVga (vg_hw s) (vg_paging s) mode kind w h bpp pitch (g_fb s) (font_backup s).
Definition with_fb (fb : Z) (s : vg) : vg :=
  MkVga (vg_hw s) (vg_paging s) (g_mode s) (g_kind s) (g_width s) (g_height s) (g_bpp s) (g_pitch s) fb (font_backup s).

(** Memory the card and the BIOS share, at physical addresses. *)
Definition peek (a : Z) : M Z := λ s, Some (s, dma_get a (vg_hw s)).
Definition poke (a : Z) (l : list Z) : M unit := io_put (λ s, set_hw (dma_put a l (vg_hw s)) s).

(** ** Registers *)

Definition indexed (index data i v : Z) : M unit := outb index i ;! outb data v.

Definition write_regs (regs : list Z) : M unit :=
  outb MISC_WRITE (arr_get regs 0) ;!
  io_for 5 0 (λ i, indexed SEQ_INDEX SEQ_DATA i (arr_get regs (1 + i))) ;!
  outb CRTC_INDEX 0x03 ;! (let! v := inb CRTC_DATA in outb CRTC_DATA (u8 (v ||| 0x80))) ;!
  outb CRTC_INDEX 0x11 ;! (let! v := inb CRTC_DATA in outb CRTC_DATA (u8 (v &&& Z.lnot 0x80))) ;!
  let crtc := take 25 (drop 6 regs) in
  let crtc := arr_set crtc 0x03 (arr_get crtc 0x03 ||| 0x80) in
  let crtc := arr_set crtc 0x11 (u8 (arr_get crtc 0x11 &&& Z.lnot 0x80)) in
  io_for 25 0 (λ i, indexed CRTC_INDEX CRTC_DATA i (arr_get crtc i)) ;!
  io_for 9 0 (λ i, indexed GC_INDEX GC_DATA i (arr_get regs (31 + i))) ;!
  io_for 21 0 (λ i, inb INPUT_STATUS ;! indexed AC_INDEX AC_WRITE i (arr_get regs (40 + i))) ;!
  inb INPUT_STATUS ;!
  outb AC_INDEX 0x20.

Definition font_access_begin : M unit :=
  indexed SEQ_INDEX SEQ_DATA 0x00 0x01 ;! indexed SEQ_INDEX SEQ_DATA 0x02 0x04 ;! indexed SEQ_INDEX SEQ_DATA 0x04 0x07 ;!
  indexed SEQ_INDEX SEQ_DATA 0x00 0x03 ;! indexed GC_INDEX GC_DATA 0x04 0x02 ;! indexed GC_INDEX GC_DATA 0x05 0x00 ;!
  indexed GC_INDEX GC_DATA 0x06 0x00.
Definition font_access_end : M unit :=
  indexed SEQ_INDEX SEQ_DATA 0x00 0x01 ;! indexed SEQ_INDEX SEQ_DATA 0x02 0x03 ;! indexed SEQ_INDEX SEQ_DATA 0x04 0x03 ;!
  indexed SEQ_INDEX SEQ_DATA 0x00 0x03 ;! indexed GC_INDEX GC_DATA 0x04 0x00 ;! indexed GC_INDEX GC_DATA 0x05 0x10 ;!
  indexed GC_INDEX GC_DATA 0x06 0x0E.

Definition FONT_BYTES : Z := 256 * 32.
Definition save_font : M unit :=
  font_access_begin ;!
  io_put (λ s, with_font (map (λ i, dma_get (0xA0000 + i) (vg_hw s)) (seqZ 0 FONT_BYTES)) s) ;!
  font_access_end.
Definition restore_font : M unit :=
  font_access_begin ;!
  let! s := io_get in
  poke 0xA0000 (font_backup s) ;!
  font_access_end.

(** ** The linear framebuffer *)

Definition vbe_write (index value : Z) : M unit := outw VBE_INDEX index ;! outw VBE_DATA value.
Definition vbe_read (index : Z) : M Z := outw VBE_INDEX index ;! let! v := inw VBE_DATA in io_ret (u16 v).

(** [n] devices more, from [dev] on. *)
Fixpoint pci_lfb_loop (n : nat) (dev : Z) : M Z :=
  match n with
  | O => io_ret 0
  | S n =>
      let addr := 0x80000000 ||| (dev <<< 11) in
      outl 0xCF8 (addr ||| 0x00) ;!
      let! id := inl 0xCFC in
      if (id &&& 0xFFFF) =? 0xFFFF then pci_lfb_loop n (dev + 1)
      else
        outl 0xCF8 (addr ||| 0x08) ;!
        let! class := inl 0xCFC in
        if negb ((class >>> 24) =? 0x03) then pci_lfb_loop n (dev + 1)
        else
          outl 0xCF8 (addr ||| 0x10) ;!
          let! bar := inl 0xCFC in
          io_ret (bar &&& 0xFFFFFFF0)
  end.
Definition pci_lfb : M Z := pci_lfb_loop 32 0.

(** The loop of [map_range], over at most 2^20 pages. *)
Fixpoint map_pages (fuel : nat) (a stop : Z) : M unit :=
  if a =? stop then io_ret tt
  else match fuel with
       | O => io_stuck
       | S fuel =>
           let! s := io_get in
           (if paging_get_phys a (vg_paging s) =? 0xFFFFFFFF
            then io_put (λ s, with_paging (paging_map a a (PAGE_PRESENT ||| PAGE_WRITE) (vg_paging s)).1 s)
            else io_ret tt) ;!
           map_pages fuel (u32 (a + 0x1000)) stop
       end.
Definition map_range (base size : Z) : M unit :=
  map_pages (Z.to_nat 0x100000) (base &&& u32_not 0xFFF) (u32 (base + size + 0xFFF) &&& u32_not 0xFFF).

(** ** The BIOS *)

Definition pic_mask_all : M (Z * Z) :=
  let! m1 := inb 0x21 in let! m2 := inb 0xA1 in
  outb 0x21 0xFF ;! outb 0xA1 0xFF ;! io_ret (m1, m2).
Definition pic_unmask (m : Z * Z) : M unit := outb 0x21 m.1 ;! outb 0xA1 m.2.

Definition call_bios (r : regs16) : M regs16 := λ s, let '(h, r) := bios_int 0x10 r (vg_hw s) in Some (set_hw h s, r).
Definition rd16b (p off : Z) : M Z := let! lo := peek (p + off) in let! hi := peek (p + off + 1) in io_ret (u16 (lo ||| (hi <<< 8))).

Definition cand : list Z := [0x118; 0x117; 0x115; 0x114; 0x112; 0x111].

Fixpoint try_modes (cand : list Z) (sm : Z * Z) : M Z :=
  match cand with
  | [] => pic_unmask sm ;! io_ret (-1)
  | c :: cand =>
      let! r := call_bios (regs_for VBE_MODE 0 c 0x4F01) in
      if negb (r_ax r =? 0x004F) then try_modes cand sm
      else
        let! attr := rd16b VBE_MODE 0 in
        if negb ((attr &&& 0x90) =? 0x90) then try_modes cand sm
        else
          let! bpp := peek (VBE_MODE + 25) in
          if negb (bpp =? 16) && negb (bpp =? 24) && negb (bpp =? 32) then try_modes cand sm
          else
            let! w := rd16b VBE_MODE 18 in
            let! h := rd16b VBE_MODE 20 in
            let! p50 := rd16b VBE_MODE 50 in
            let! pitch := (if p50 =? 0 then rd16b VBE_MODE 16 else io_ret p50) in
            let! lo := rd16b VBE_MODE 40 in
            let! hi := rd16b VBE_MODE 42 in
            let lfb := lo ||| (hi <<< 16) in
            if (w =? 0) || (h =? 0) || (lfb =? 0) then try_modes cand sm
            else
              let! r := call_bios (regs_for 0 (c ||| 0x4000) 0 0x4F02) in
              if negb (r_ax r =? 0x004F) then try_modes cand sm
              else
                pic_unmask sm ;!
                io_put (with_mode 2 1 w h bpp pitch) ;!
                map_range lfb (u32 (pitch * h)) ;!
                io_put (with_fb lfb) ;!
                io_ret 0
  end.

Definition bios_vbe_setup : M Z :=
  let! sm := pic_mask_all in
  poke VBE_INFO (replicate 512 0) ;!
  poke VBE_INFO (str "VBE2") ;!
  let! r := call_bios (regs_for VBE_INFO 0 0 0x4F00) in
  let! vesa :=
    (if negb (r_ax r =? 0x004F) then io_ret false
     else
       let! b0 := peek VBE_INFO in let! b1 := peek (VBE_INFO + 1) in let! b2 := peek (VBE_INFO + 2) in let! b3 := peek (VBE_INFO + 3) in
       io_ret (bool_decide ([b0; b1; b2; b3] = str "VESA"))) in
  if negb vesa then pic_unmask sm ;! io_ret (-1) else try_modes cand sm.

(** ** The dispi interface *)

Definition want : list (Z * Z) := [(1280, 1024); (1024, 768); (800, 600); (640, 480)].
Definition pick (maxx maxy : Z) : Z * Z :=
  match List.find (λ wh, (wh.1 <=? maxx) && (wh.2 <=? maxy)) want with Some wh => wh | None => (640, 480) end.

Definition vbe_setup : M Z :=
  let! id := vbe_read VBE_I_ID in
  if (id <? 0xB0C0) || (0xB0CF <? id) then io_ret (-1)
  else
    vbe_write VBE_I_ENABLE VBE_GETCAPS ;!
    let! maxx := vbe_read VBE_I_XRES in
    let! maxy := vbe_read VBE_I_YRES in
    vbe_write VBE_I_ENABLE 0 ;!
    let '(w, h) := pick maxx maxy in
    let! lfb := pci_lfb in
    if lfb =? 0 then io_ret (-1)
    else
      vbe_write VBE_I_ENABLE 0 ;!
      vbe_write VBE_I_XRES w ;!
      vbe_write VBE_I_YRES h ;!
      vbe_write VBE_I_BPP 32 ;!
      vbe_write VBE_I_ENABLE (VBE_ENABLED ||| VBE_LFB) ;!
      let! vw := vbe_read VBE_I_VWIDTH in
      let pitch := u32 (vw * 4) in
      let pitch := if pitch <? w * 4 then w * 4 else pitch in
      io_put (with_mode 1 1 w h 32 pitch) ;!
      map_range lfb (u32 (pitch * h)) ;!
      io_put (with_fb lfb) ;!
      io_ret 0.

(** ** Entering and leaving *)

Definition vga_enter_graphics : M unit :=
  save_font ;!
  let! r := bios_vbe_setup in
  if r =? 0 then io_ret tt
  else
    let! r := vbe_setup in
    if r =? 0 then io_ret tt
    else
      write_regs mode_13h ;!
      io_put (with_mode 0 0 320 200 8 320) ;!
      io_put (with_fb 0xA0000).

(** The bytes of [vga_set_palette], to the ports. *)
Fixpoint send (l : list (Z * Z)) : M unit :=
  match l with [] => io_ret tt | (p, v) :: l => outb p v ;! send l end.

Definition vga_leave_graphics : M unit :=
  let! s := io_get in
  (if g_kind s =? 2
   then let! sm := pic_mask_all in call_bios (regs_for 0 0 0 0x0003) ;! pic_unmask sm
   else if g_kind s =? 1 then vbe_write VBE_I_ENABLE 0 else io_ret tt) ;!
  write_regs mode_03h ;!
  restore_font ;!
  io_for 16 0 (λ i, let '(r, g, b) := nth (Z.to_nat i) dac16 (0, 0, 0) in send (vga_set_palette i r g b)) ;!
  poke 0xB8000 (concat (replicate (80 * 25) [0x00; 0x07])).
End Driver.
