(* ===== verification/VgaThm.v ===== *)
(** The display driver of [Vga.v] comes back with a mode in which the graphics
    primitives of [Gfx.v] can draw: the geometry fits, and the framebuffer is mapped. *)
From Stdlib Require Import ZArith Lia Bool.
From stdpp Require Import base numbers gmap option list.
From S2P Require Import Prelude Console Frames Pmm Paging Gfx Io Returns Elf IdentityMap Vga.

#[local] Open Scope Z_scope.
#[local] Open Scope c_scope.
#[local] Open Scope io_scope.

#[export] Instance vga_hw_field {A H} : HwField (vga A H) H.
Proof. split; [by intros []|done]. Defined.

Section Proofs.
Context {A H : Type} `{FrameAllocator A} `{Ports H} `{!Dma H} `{!Bios H}.
Abbreviation vg := (vga A H).
Implicit Types s : vg.

Lemma ends_peek a : ends (S := vg) (peek a).
Proof. intros s. exists s, (dma_get a (vg_hw s)). split; [done|apply only_hw_refl]. Qed.
Lemma ends_poke a l : ends (S := vg) (poke a l).
Proof. intros s. apply iwp_put, only_hw_set. Qed.
Lemma ends_rd16b p off : ends (S := vg) (rd16b p off).
Proof. unfold rd16b. repeat first [ends_step | apply ends_peek]. Qed.
Lemma ends_call_bios r : ends (S := vg) (call_bios r).
Proof. intros s. unfold call_bios. destruct (bios_int 0x10 r (vg_hw s)) as [h r'] eqn:E. exists (set_hw h s), r'. rewrite E. split; [done|apply only_hw_set]. Qed.

Ltac ends := repeat first [ ends_step | match goal with
  | |- ends (peek _) => apply ends_peek
  | |- ends (poke _ _) => apply ends_poke
  | |- ends (rd16b _ _) => apply ends_rd16b
  | |- ends (call_bios _) => apply ends_call_bios
  | |- ends (indexed _ _ _ _) => unfold indexed
  | |- ends (vbe_write _ _) => unfold vbe_write
  | |- ends (vbe_read _) => unfold vbe_read
  | |- ends (pic_unmask _) => unfold pic_unmask
  | |- ends pic_mask_all => unfold pic_mask_all
  | |- ends font_access_begin => unfold font_access_begin
  | |- ends font_access_end => unfold font_access_end
  end ].

Lemma ends_write_regs regs : ends (S := vg) (write_regs regs).
Proof. unfold write_regs. cbv zeta. ends. Qed.
Lemma ends_restore_font : ends (S := vg) restore_font.
Proof. unfold restore_font. ends. Qed.
Lemma ends_pci_lfb : ends (S := vg) pci_lfb.
Proof.
  assert (∀ n dev, ends (S := vg) (pci_lfb_loop n dev)) as Hl; [|apply Hl].
  intros n. induction n as [|n IH]; intros dev; cbn [pci_lfb_loop]; cbv zeta; ends; apply IH.
Qed.
Lemma ends_send l : ends (S := vg) (send l).
Proof. induction l as [|[p v] l IH]; cbn [send]; ends. apply IH. Qed.

(** Leaving comes back, and leaves the mode and the page tables. *)
Lemma leave_ends : ends (S := vg) vga_leave_graphics.
Proof.
  unfold vga_leave_graphics. ends; match goal with
    | |- ends (write_regs _) => apply ends_write_regs
    | |- ends restore_font => apply ends_restore_font
    | |- ends (send _) => apply ends_send
    end.
Qed.

(** ** The framebuffer *)

(** [p'] lets the framebuffer be seen, if it does not wrap around, nothing else is
    there, and there are frames for the page tables. *)
Definition covers (p p' : paging A) (fb size : Z) : Prop :=
  0 < size → fb + size + 0xFFF < 2 ^ 32 → (∀ w, page_start fb ≤ w < page_stop fb size → open_at p w) → size / 4096 + 2 ≤ fa_count (pg_frames p) →
  ∀ i, 0 ≤ i < size → mmu p' (fb + i) = Some (fb + i).

Lemma map_pages_new fuel a stop s :
  map_pages fuel a stop s = match map_new fuel a stop (vg_paging s) with Some p => Some (with_paging p s, tt) | None => None end.
Proof.
  revert a s. induction fuel as [|fuel IH]; intros a s; cbn [map_pages map_new]; destruct (a =? stop); try done; [by destruct s..|].
  unfold io_bind, io_get. change (map_page a (vg_paging s)) with
    (if paging_get_phys a (vg_paging s) =? 0xFFFFFFFF then (paging_map a a (PAGE_PRESENT ||| PAGE_WRITE) (vg_paging s)).1 else vg_paging s).
  destruct (_ =? _); cbn [io_put io_ret]; by rewrite IH.
Qed.

Lemma map_range_ok base size s :
  paging_wf (vg_paging s) → 0 ≤ base < 2 ^ 32 →
  iwp (map_range base size) (λ s' _, ∃ p' n, s' = with_paging p' s ∧ grown n (vg_paging s) p' ∧ covers (vg_paging s) p' base size) s.
Proof.
  intros Hw Hb. destruct (map_new_range base size (vg_paging s) Hw Hb) as (p' & n & E & G & Hc).
  exists (with_paging p' s), tt. split.
  - unfold map_range. change (base &&& u32_not 0xFFF) with (page_start base). change (u32 (base + size + 0xFFF) &&& u32_not 0xFFF) with (page_stop base size).
    by rewrite map_pages_new, E.
  - exists p', n. split; [done|]. split; [done|]. intros H1' H2' H3' H4'. by apply Hc.
Qed.

(** A mode with a linear framebuffer, set from the page tables [p]. *)
Record linear (p : paging A) (kind : Z) s' : Prop := {
  ln_mode : g_kind s' = kind ∧ g_mode s' = 1;
  ln_size : 0 < g_width s' < 65536 ∧ 0 < g_height s' < 65536;
  ln_pitch : 0 ≤ g_pitch s' ∧ g_pitch s' * g_height s' < 2 ^ 32;
  ln_fb : 0 < g_fb s' < 2 ^ 32;
  ln_grown : ∃ n, grown n p (vg_paging s');
  ln_covers : covers p (vg_paging s') (g_fb s') (g_pitch s' * g_height s')
}.

(** The end of both set-ups: the geometry is stored, the framebuffer mapped. *)
Abbreviation show kind w h bpp pitch lfb :=
  (io_put (with_mode kind 1 w h bpp pitch) ;! map_range lfb (u32 (pitch * h)) ;! io_put (with_fb lfb) ;! io_ret 0).

Lemma show_linear kind w h bpp pitch lfb s0 s :
  paging_wf (vg_paging s0) → only_hw s0 s → 0 < w < 65536 → 0 < h < 65536 → 0 ≤ pitch → pitch * h < 2 ^ 32 → 0 < lfb < 2 ^ 32 →
  iwp (S := vg) (show kind w h bpp pitch lfb) (λ s' r, r = 0 ∧ linear (vg_paging s0) kind s' ∧ font_backup s' = font_backup s0 ∧ g_width s' = w ∧ g_height s' = h ∧ g_bpp s' = bpp ∧ g_pitch s' = pitch) s.
Proof.
  intros Hw E Hx Hy Hp Hph Hl. rewrite u32_small by nia. apply iwp_bind, iwp_put, iwp_bind.
  assert (vg_paging s = vg_paging s0) as Ep by (by rewrite E). assert (font_backup s = font_backup s0) as Ef by (by rewrite E).
  eapply iwp_mono; [apply map_range_ok; [cbn; by rewrite Ep|lia]|]. cbv beta. intros s1 _u (p' & n & -> & G & Hc).
  apply iwp_bind, iwp_put, iwp_ret. cbn in G, Hc. rewrite Ep in G, Hc. split; [done|]. split; [|done]. split; cbn; [done|done|done|done|by exists n|done].
Qed.

(** ** The BIOS *)

Lemma iwp_peek a (Q : vg → Z → Prop) s : (∀ v, Q s v) → iwp (peek a) Q s.
Proof. intros HQ. exists s, (dma_get a (vg_hw s)). split; [done|apply HQ]. Qed.
Lemma iwp_rd16b p off (Q : vg → Z → Prop) s : (∀ v, 0 ≤ v < 65536 → Q s v) → iwp (rd16b p off) Q s.
Proof.
  intros HQ. unfold rd16b. apply iwp_bind, iwp_peek. intros lo. apply iwp_bind, iwp_peek. intros hi. apply iwp_ret, HQ. apply u16_range.
Qed.

Lemma lfb_range lo hi : 0 ≤ lo < 65536 → 0 ≤ hi < 65536 → 0 ≤ lo ||| (hi <<< 16) < 2 ^ 32.
Proof.
  intros Hl Hh. rewrite Z.shiftl_mul_pow2, (lor_disjoint_add _ _ 16) by first [done | zpow; lia | apply Z.mod_mul; lia]. zpow. lia.
Qed.

(** What a set-up of [kind] reports. *)
Definition set_up (kind : Z) (geometry : vg → Prop) s0 s' (r : Z) : Prop :=
  r = -1 ∧ only_hw s0 s' ∨ r = 0 ∧ linear (vg_paging s0) kind s' ∧ font_backup s' = font_backup s0 ∧ geometry s'.

Definition bios_geometry s' : Prop := g_bpp s' = 16 ∨ g_bpp s' = 24 ∨ g_bpp s' = 32.

Lemma try_modes_ok cand sm s0 s :
  paging_wf (vg_paging s0) → only_hw s0 s →
  iwp (try_modes cand sm) (set_up 2 bios_geometry s0) s.
Proof.
  intros Hw. revert s. induction cand as [|c cand IH]; intros s E; cbn [try_modes].
  - apply ends_then; [ends|]. intros s1 _u E1. apply iwp_ret. left. split; [done|by eapply only_hw_trans].
  - apply ends_then; [ends|]. intros s1 r E1. assert (only_hw s0 s1) as E01 by (by eapply only_hw_trans). clear E E1.
    destruct (negb (r_ax r =? 0x004F)); [by apply IH|]. apply iwp_bind, iwp_rd16b. intros attr _.
    destruct (negb ((attr &&& 0x90) =? 0x90)); [by apply IH|]. apply iwp_bind, iwp_peek. intros bpp.
    destruct (negb (bpp =? 16) && negb (bpp =? 24) && negb (bpp =? 32)) eqn:Eb; [by apply IH|].
    apply iwp_bind, iwp_rd16b. intros w Hx. apply iwp_bind, iwp_rd16b. intros h Hy. apply iwp_bind, iwp_rd16b. intros p50 Hp.
    apply iwp_bind. apply iwp_mono with (λ s' pitch, s' = s1 ∧ 0 ≤ pitch < 65536).
    { destruct (p50 =? 0); [apply iwp_rd16b|apply iwp_ret]; done. }
    intros s' pitch [-> Hpitch]. apply iwp_bind, iwp_rd16b. intros lo Hlo. apply iwp_bind, iwp_rd16b. intros hi Hhi. cbv zeta.
    pose proof (lfb_range lo hi Hlo Hhi) as Hl. set (lfb := lo ||| (hi <<< 16)) in *.
    destruct ((w =? 0) || (h =? 0) || (lfb =? 0)) eqn:Ez; [by apply IH|].
    apply ends_then; [ends|]. intros s2 r2 E2. assert (only_hw s0 s2) as E02 by (by eapply only_hw_trans).
    destruct (negb (r_ax r2 =? 0x004F)); [by apply IH|].
    apply ends_then; [ends|]. intros s3 _u E3. assert (only_hw s0 s3) as E03 by (by eapply only_hw_trans).
    eapply iwp_mono; [apply (show_linear 2 w h bpp pitch lfb s0); [done|done|lia|lia|lia|nia|lia]|].
    cbv beta. intros s4 r4 (-> & Hlin & Hf & _ & _ & Hbpp & _). right. split; [done|]. split; [done|]. split; [done|]. unfold bios_geometry. rewrite Hbpp. lia.
Qed.

Lemma bios_vbe_setup_ok s :
  paging_wf (vg_paging s) → iwp bios_vbe_setup (set_up 2 bios_geometry s) s.
Proof.
  intros Hw. unfold bios_vbe_setup. apply ends_then; [ends|]. intros s1 sm E1. apply ends_then; [ends|]. intros s2 _u2 E2.
  apply ends_then; [ends|]. intros s3 _u3 E3. apply ends_then; [ends|]. intros s4 r E4.
  apply ends_then; [ends|]. intros s5 vesa E5. assert (only_hw s s5) as E by hw_chain.
  destruct (negb vesa); [|by apply try_modes_ok]. apply ends_then; [ends|]. intros s6 _u6 E6. apply iwp_ret. left. split; [done|by eapply only_hw_trans].
Qed.

(** ** The dispi interface *)

Lemma pick_in maxx maxy : In (pick maxx maxy) want.
Proof.
  unfold pick. destruct (List.find _ want) as [wh|] eqn:E; [by apply find_some in E as [? _]|]. right; right; right; by left.
Qed.

(** It need not fit: 640x480 is kept when nothing does. *)
Lemma pick_may_not_fit : pick 512 384 = (640, 480).
Proof. reflexivity. Qed.

Lemma iwp_vbe_read i (Q : vg → Z → Prop) s : (∀ s' v, only_hw s s' → 0 ≤ v < 65536 → Q s' v) → iwp (vbe_read i) Q s.
Proof.
  intros HQ. unfold vbe_read. apply ends_then; [ends|]. intros s1 _u E1. apply ends_then; [ends|]. intros s2 v E2. apply iwp_ret, HQ; [by eapply only_hw_trans|apply u16_range].
Qed.
Lemma iwp_pci_lfb (Q : vg → Z → Prop) s : (∀ s' v, only_hw s s' → 0 ≤ v < 2 ^ 32 → Q s' v) → iwp pci_lfb Q s.
Proof.
  intros HQ. assert (∀ n dev s1, only_hw s s1 → iwp (pci_lfb_loop n dev) Q s1) as Hl; [|apply Hl, only_hw_refl].
  intros n. induction n as [|n IH]; intros dev s1 E1; cbn [pci_lfb_loop]; cbv zeta; [apply iwp_ret, HQ; [done|lia]|].
  apply ends_then; [ends|]. intros s2 _u E2. apply ends_then; [ends|]. intros s3 id E3.
  assert (only_hw s s3) as E by hw_chain. destruct (_ =? _); [by apply IH|].
  apply ends_then; [ends|]. intros s4 _u4 E4. apply ends_then; [ends|]. intros s5 class E5.
  assert (only_hw s s5) as E' by hw_chain. destruct (negb _); [by apply IH|].
  apply ends_then; [ends|]. intros s6 _u6 E6. apply ends_then; [ends|]. intros s7 bar E7.
  apply iwp_ret, HQ; [hw_chain|]. rewrite Z.land_comm. apply land_range; lia.
Qed.

(** A mode of the list, a pixel a word, and lines as long as the card has them. *)
Definition dispi_geometry s' : Prop :=
  In (g_width s', g_height s') want ∧ g_bpp s' = 32 ∧ 4 * g_width s' ≤ g_pitch s'.

Lemma vbe_setup_ok s : paging_wf (vg_paging s) → iwp vbe_setup (set_up 1 dispi_geometry s) s.
Proof.
  intros Hw. unfold vbe_setup. apply iwp_bind, iwp_vbe_read. intros s1 id E1 _.
  destruct ((id <? 0xB0C0) || (0xB0CF <? id)); [apply iwp_ret; by left|].
  apply ends_then; [ends|]. intros s2 _u2 E2. apply iwp_bind, iwp_vbe_read. intros s3 maxx E3 _. apply iwp_bind, iwp_vbe_read. intros s4 maxy E4 _.
  apply ends_then; [ends|]. intros s5 _u5 E5. pose proof (pick_in maxx maxy) as Hin. destruct (pick maxx maxy) as [w h].
  apply iwp_bind, iwp_pci_lfb. intros s6 lfb E6 Hl.
  assert (only_hw s s6) as E by hw_chain. clear E1 E2 E3 E4 E5 E6.
  destruct (Z.eqb_spec lfb 0) as [_|Hl0]; [apply iwp_ret; by left|].
  apply ends_then; [ends|]. intros t1 _u7 F1. apply ends_then; [ends|]. intros t2 _u8 F2. apply ends_then; [ends|]. intros t3 _u9 F3.
  apply ends_then; [ends|]. intros t4 _u10 F4. apply ends_then; [ends|]. intros t5 _u11 F5.
  apply iwp_bind, iwp_vbe_read. intros s7 vw E7 Hv. cbv zeta. rewrite (u32_small (vw * 4)) by lia.
  assert (0 < w < 65536 ∧ 0 < h ≤ 1024) as [Hx Hy] by (unfold want in Hin; clear -Hin; cbn in Hin; intuition (simplify_eq; lia)).
  set (pitch := if vw * 4 <? w * 4 then w * 4 else vw * 4).
  assert (4 * w ≤ pitch ∧ pitch ≤ 262140) as Hp by (unfold pitch; destruct (Z.ltb_spec (vw * 4) (w * 4)); lia). clearbody pitch.
  eapply iwp_mono; [apply (show_linear 1 w h 32 pitch lfb s); [done|hw_chain|lia|lia|lia|nia|lia]|].
  cbv beta. intros s8 r (-> & Hlin & Hf & Ew & Eh & Eb & Ep). right. split; [done|]. split; [done|]. split; [done|]. unfold dispi_geometry. rewrite Ew, Eh, Eb, Ep.
  split; [done|]. lia.
Qed.

(** ** Entering *)

Lemma save_font_ok s : iwp save_font (λ s' _, ∃ f, length f = Z.to_nat FONT_BYTES ∧ only_hw (with_font f s) s') s.
Proof.
  unfold save_font. apply ends_then; [ends|]. intros s1 _u1 E1. apply iwp_bind, iwp_put. cbv beta.
  set (f := map _ _). assert (length f = Z.to_nat FONT_BYTES) as Hf by (unfold f; rewrite length_map; apply length_seqZ). clearbody f.
  eapply iwp_mono; [assert (ends (S := vg) font_access_end) as He by ends; apply He|]. cbv beta. intros s2 _u2 E2. exists f. split; [done|].
  eapply only_hw_trans; [|exact E2]. unfold only_hw in *. rewrite E1. by destruct s.
Qed.

(** What [vga_enter_graphics] has set, from the page tables [p]. *)
Definition entered (p : paging A) s' : Prop :=
  g_mode s' = 0 ∧ g_kind s' = 0 ∧ video_of s' = Video 320 200 8 320 0xA0000 (font_backup s') ∧ vg_paging s' = p ∨
  linear p 1 s' ∧ dispi_geometry s' ∨
  linear p 2 s' ∧ bios_geometry s'.

Lemma entering_ok s :
  paging_wf (vg_paging s) →
  iwp vga_enter_graphics (λ s' _, length (font_backup s') = Z.to_nat FONT_BYTES ∧ entered (vg_paging s) s') s.
Proof.
  intros Hw. unfold vga_enter_graphics. apply iwp_bind. eapply iwp_mono; [apply save_font_ok|]. cbv beta. intros s1 _u1 (f & Hf & E1).
  assert (vg_paging s1 = vg_paging s) as Ep by exact (f_equal vg_paging E1). assert (font_backup s1 = f) as Ef by exact (f_equal font_backup E1). clear E1.
  apply iwp_bind. eapply iwp_mono; [apply bios_vbe_setup_ok; by rewrite Ep|]. unfold set_up at 1. cbv beta. rewrite Ep. intros s2 r [[-> E2]|(-> & Hl & Ef2 & Hg)]; cbn [Z.eqb].
  2:{ apply iwp_ret. rewrite Ef2, Ef. split; [done|]. right; right. by split. }
  assert (vg_paging s2 = vg_paging s) as Ep2 by (rewrite <- Ep; exact (f_equal vg_paging E2)). assert (font_backup s2 = f) as Ef2 by (rewrite <- Ef; exact (f_equal font_backup E2)). clear E2.
  apply iwp_bind. eapply iwp_mono; [apply vbe_setup_ok; by rewrite Ep2|]. unfold set_up at 1. cbv beta. rewrite Ep2. intros s3 r [[-> E3]|(-> & Hl & Ef3 & Hg)]; cbn [Z.eqb].
  2:{ apply iwp_ret. rewrite Ef3, Ef2. split; [done|]. right; left. by split. }
  apply ends_then; [apply ends_write_regs|]. intros s4 _u4 E4. apply iwp_bind, iwp_put, iwp_put. cbn.
  assert (only_hw s2 s4) as E by (by eapply only_hw_trans). rewrite E. cbn. split; [by rewrite Ef2|]. left. by rewrite <- Ep2.
Qed.

Lemma entered_display p s' g :
  entered p s' → gw g = g_width s' → gh g = g_height s' →
  (g_buf g + gh g * gw g ≤ g_fb s' ∨ g_fb s' + gh g * g_pitch s' ≤ g_buf g) →
  (g_kind s' = 2 → bpp_bytes (video_of s') * g_width s' ≤ g_pitch s') →
  display_ok (video_of s') g.
Proof.
  intros He Ew Eh Ha Hp. split; rewrite Ew, Eh in *; [| |exact Ha].
  - destruct He as [(_ & _ & [= Hv1 Hv2 _ _ _] & _)|[[Hl _]|[Hl _]]]; [lia|pose proof (ln_size _ _ _ Hl); lia..].
  - destruct He as [(_ & _ & Hv & _)|[[Hl (_ & Hb & Hg)]|[Hl _]]].
    + rewrite Hv. injection Hv as -> -> _ _ _. cbn. lia.
    + pose proof (ln_pitch _ _ _ Hl) as Hq. unfold bpp_bytes. cbn [video_of vga_bpp vga_pitch]. rewrite Hb. cbn. lia.
    + pose proof (ln_pitch _ _ _ Hl) as Hq. destruct (ln_mode _ _ _ Hl) as [Hk _]. specialize (Hp Hk). cbn [video_of vga_pitch] in *. lia.
Qed.

(** C32: Entering graphics always comes back, whatever the BIOS and the card answer
    and however often a BIOS call fails, in one of three modes: the plain 320x200
    mode with the page tables as they were; a mode of the dispi interface, one of
    the four sizes at 32 bits a pixel with lines at least as long as their pixels;
    or a BIOS mode at 16, 24 or 32 bits.  The linear framebuffers do not overflow 32
    bits, every address that was mapped keeps its mapping, and every byte of the
    framebuffer is mapped to itself when its range is free and frames are left.  The
    text font has been saved.  In the mode the graphics primitives' requirement on
    the display holds, for a back buffer apart from the framebuffer; for a BIOS mode
    only if the BIOS reports lines that hold their pixels, which is not checked.
    Leaving comes back too. *)
Theorem graphics_entered s :
  paging_wf (vg_paging s) →
  iwp vga_enter_graphics (λ s' _,
    zlen (font_backup s') = 256 * 32 ∧ entered (vg_paging s) s' ∧
    (∀ g, gw g = g_width s' → gh g = g_height s' →
      (g_buf g + gh g * gw g ≤ g_fb s' ∨ g_fb s' + gh g * g_pitch s' ≤ g_buf g) →
      (g_kind s' = 2 → bpp_bytes (video_of s') * g_width s' ≤ g_pitch s') → display_ok (video_of s') g) ∧
    iwp vga_leave_graphics (λ s'' _, only_hw s' s'') s') s.
Proof.
  intros Hw. eapply iwp_mono; [by apply entering_ok|]. cbv beta. intros s' _u [Hf He]. split; [unfold zlen; by rewrite Hf|]. split; [exact He|].
  split; [|apply leave_ends]. intros g. by apply entered_display with (vg_paging s).
Qed.
End Proofs.

(** ** A card with the dispi interface on a machine without a usable BIOS *)

#[export] Instance script_dma : Dma script := {| dma_get _ _ := 0; dma_put _ _ h := h |}.
#[export] Instance script_bios : Bios script := {| bios_int _ r h := (h, r) |}.

(** The card takes 1280x800 at most; it is the second device of the bus. *)
Definition demo_card : script :=
  Script [] ([0xB8; 0x8E] ++ [0xB0C5; 1280; 800] ++ [0x12378086; 0x06000000] ++ [0x11111234; 0x03000000; 0xFD000008] ++ [1024]) [].
Definition demo_vga : vga pmm script := MkVga demo_card (paging_init demo_boot) 0 0 0 0 0 0 0 [].

Lemma graphics_entered_witness :
  paging_wf (vg_paging demo_vga) ∧
  match vga_enter_graphics demo_vga with
  | Some (s', _) => zlen (font_backup s') = 256 * 32 ∧ entered (vg_paging demo_vga) s' ∧
      (g_kind s', g_width s', g_height s', g_bpp s', g_pitch s', g_fb s') = (1, 1024, 768, 32, 4096, 0xFD000000)
  | None => False
  end.
Proof.
  split; [exact demo_paging_wf|]. pose proof (graphics_entered demo_vga demo_paging_wf) as (s' & u & E & Hf & He & _).
  assert (option_map (λ r, (g_kind r.1, g_width r.1, g_height r.1, g_bpp r.1, g_pitch r.1, g_fb r.1)) (vga_enter_graphics demo_vga) = Some (1, 1024, 768, 32, 4096, 0xFD000000)) as Eg by (vm_compute; reflexivity).
  rewrite E in *. split; [exact Hf|]. split; [exact He|]. clear E Hf He. cbn [option_map fst] in Eg. injection Eg. intros -> -> -> -> -> ->. reflexivity.
Defined.
