(* ===== verification/Boot.v ===== *)
(** The kernel's entry: [kernel_main] of kernel/kernel.c, over the initialisation
    of every other component.  Its state is the machine of [Isr.v] with the
    statics of the components that handle no interrupts. *)
From Stdlib Require Import ZArith Lia Bool Ascii String.
From stdpp Require Import base numbers gmap option list.
From S2P Require Import Ata Acpi Ac97 Prelude Console Block Frames Pmm Paging Kheap Heaps Sched Fat12 Io Elf Pic Keyboard Timer Floppy Mouse Cpu Isr Net Tcp Shell.

#[local] Open Scope Z_scope.
#[local] Open Scope c_scope.
#[local] Open Scope io_scope.

Record boot (D N H : Type) := MkBoot {
  bt_machine : machine pmm D H;
  bt_tables : tables; bt_proc : proc;
  bt_console : console;
  bt_acpi : acpi pmm H; bt_ata : ata H; bt_ac97 : ac97 H;
  bt_net : net N;
  bt_reply : list Z; bt_hist : list (list Z) * Z * Z
}.
Arguments MkBoot {D N H}. Arguments bt_machine {D N H}. Arguments bt_tables {D N H}. Arguments bt_proc {D N H}. Arguments bt_console {D N H}.
Arguments bt_acpi {D N H}. Arguments bt_ata {D N H}. Arguments bt_ac97 {D N H}. Arguments bt_net {D N H}. Arguments bt_reply {D N H}. Arguments bt_hist {D N H}.

Definition with_machine {D N H} (x : machine pmm D H) (s : boot D N H) : boot D N H :=
  MkBoot x (bt_tables s) (bt_proc s) (bt_console s) (bt_acpi s) (bt_ata s) (bt_ac97 s) (bt_net s) (bt_reply s) (bt_hist s).
Definition with_tables {D N H} (t : tables) (p : proc) (s : boot D N H) : boot D N H :=
  MkBoot (bt_machine s) t p (bt_console s) (bt_acpi s) (bt_ata s) (bt_ac97 s) (bt_net s) (bt_reply s) (bt_hist s).
Definition with_console {D N H} (c : console) (s : boot D N H) : boot D N H :=
  MkBoot (bt_machine s) (bt_tables s) (bt_proc s) c (bt_acpi s) (bt_ata s) (bt_ac97 s) (bt_net s) (bt_reply s) (bt_hist s).
Definition with_drivers {D N H} (a : acpi pmm H) (d : ata H) (c : ac97 H) (s : boot D N H) : boot D N H :=
  MkBoot (bt_machine s) (bt_tables s) (bt_proc s) (bt_console s) a d c (bt_net s) (bt_reply s) (bt_hist s).
Definition with_shell {D N H} (n : net N) (r : list Z) (h : list (list Z) * Z * Z) (s : boot D N H) : boot D N H :=
  MkBoot (bt_machine s) (bt_tables s) (bt_proc s) (bt_console s) (bt_acpi s) (bt_ata s) (bt_ac97 s) n r h.

#[export] Instance boot_hw {D N H} : HasHw (boot D N H) H.
Proof. refine {| get_hw s := mc_hw (bt_machine s); set_hw h s := with_machine (set_hw h (bt_machine s)) s |}. done. Defined.

Section Entry.
Context {D N H : Type} `{BlockDevice D} `{Nic N} `{Ports H} `{!Dma H} `{!Ticks H} `{!Office D H}.
Abbreviation bt := (boot D N H).
Abbreviation M := (IO bt).
Implicit Types s : bt.

(** What the boot loader and the linker put where: the memory map, the tables, the
    interrupt stubs and the name of the boot task. *)
Variable map : list e820_entry.
Variables (gdt_addr tss_addr idt_addr : Z) (stub : Z → Z) (kmain : Z).
(** Whether the file allocation table fits the heap; what the shell reads unwritten. *)
Variable fat_fits : bool.
Variables (junk : list Z) (conn0 : tcp_conn).
(** The fuel of the waits of the keyboard, of the clock and of the shell. *)
Variables (key_fuel clock_fuel shell_fuel : nat).

(** ** The components' code on the one machine *)

Definition on_machine {X} (m : IO (machine pmm D H) X) : M X :=
  λ s, match m (bt_machine s) with Some (x, r) => Some (with_machine x s, r) | None => None end.
Definition on_part {S X} `{!HasHw S H} (get : bt → S) (put : S → bt → bt) (m : IO S X) : M X :=
  λ s, match m (set_hw (get_hw s) (get s)) with Some (t, x) => Some (set_hw (get_hw t) (put t s), x) | None => None end.

Definition the_kernel s : kernel pmm D := mc_kernel (bt_machine s).
Definition with_the_kernel (k : kernel pmm D) s : bt := with_machine (with_kernel k (bt_machine s)) s.
Definition the_sched s : sched (kheap pmm) := k_sched (the_kernel s).
Definition the_paging s : paging pmm := kh_paging (sched_heap (the_sched s)).

(** The allocators are nested, each within its client. *)
Definition on_sched (f : sched (kheap pmm) → sched (kheap pmm)) s : bt :=
  with_the_kernel (with_sched (f (the_sched s)) (the_kernel s)) s.
Definition on_heap (f : kheap pmm → kheap pmm) : bt → bt :=
  on_sched (λ x, MkSched (tasks x) (current x) (next_id x) (ntasks x) (tss_esp0 x) (regs x) (words x) (f (sched_heap x))).
Definition on_paging (f : paging pmm → paging pmm) : bt → bt :=
  on_heap (λ h, MkKheap (f (kh_paging h)) (kh_mem h) (heap_base h) (heap_end h) (head h)).
Definition on_frames (f : pmm → pmm) : bt → bt := on_paging (λ p, with_frames (f (pg_frames p)) p).

Definition on_fs {X} (m : Fat12.fs D → Fat12.fs D * X) : M X := λ s,
  let k := the_kernel s in
  let '(f, x) := m (k_fs k) in Some (with_the_kernel (Kernel (k_sched k) f (k_ram k) (k_out k)) s, x).
Definition on_clock {X} (m : IO (clock H) X) : M X :=
  on_part (λ s, Clock (get_hw s) (mc_timer (bt_machine s))) (λ c s, with_machine (with_timer (ck_timer c) (bt_machine s)) s) m.
(** The floppy driver waits on the timer. *)
Definition on_floppy {X} (m : IO (floppy H) X) : M X :=
  on_part (λ s, let f := mc_floppy (bt_machine s) in MkFloppy (fl_hw f) (mc_timer (bt_machine s)) (irq_fired f) (motor_on f))
    (λ f s, with_machine (with_timer (fl_timer f) (with_floppy f (bt_machine s))) s) m.
Definition on_acpi {X} (m : IO (acpi pmm H) X) : M X :=
  on_part
    (λ s, let a := bt_acpi s in
          MkAcpi (the_paging s) (k_ram (the_kernel s)) (ac_hw a) (available a) (pm1a_cnt a) (pm1b_cnt a) (slp_typa a) (slp_typb a) (smi_cmd a) (acpi_enable a))
    (λ a s, on_paging (λ _, ac_paging a) (with_drivers a (bt_ata s) (bt_ac97 s) s)) m.
Definition on_ata {X} (m : IO (ata H) X) : M X := on_part bt_ata (λ d s, with_drivers (bt_acpi s) d (bt_ac97 s) s) m.
Definition on_net {X} (m : IO (net N) X) : M X :=
  λ s, match m (bt_net s) with Some (n, x) => Some (with_shell n (bt_reply s) (bt_hist s) s, x) | None => None end.

(** The clips are in the machine's memory. *)
Definition audio s : ac97 H := with_slots (slot_bytes (bt_ac97 s)) (k_ram (the_kernel s)) (bt_ac97 s).
Definition with_audio (c : ac97 H) s : bt :=
  let k := the_kernel s in
  with_the_kernel (Kernel (k_sched k) (k_fs k) (au_ram c) (k_out k)) (with_drivers (bt_acpi s) (bt_ata s) c s).
Definition on_ac97 {X} (m : IO (ac97 H) X) : M X := on_part audio with_audio m.
Definition preload (slot : Z) (path : list Z) : M Z := λ s,
  let k := the_kernel s in
  let '(c, f, r) := ac97_preload slot path (audio s) (k_fs k) in
  Some (with_audio c (with_the_kernel (Kernel (k_sched k) f (k_ram k) (k_out k)) s), r).

Definition on_shell {X} (m : IO (shell D N H) X) : M X := λ s,
  let k := the_kernel s in
  match m (Shell (k_fs k) (bt_net s) (bt_reply s) (get_hw s) (bt_hist s).1.1 (bt_hist s).1.2 (bt_hist s).2) with
  | Some (x, r) =>
      Some (set_hw (get_hw x) (with_shell (sh_net x) (sh_reply x) (hist x, hist_n x, hist_next x)
        (with_the_kernel (Kernel (k_sched k) (sh_fs x) (k_ram k) (k_out k)) s)), r)
  | None => None
  end.

(** ** Messages: they are in the transcript that the file system and the shell keep *)

Definition say (k : list con_call) : M unit := on_fs (λ f, (print k f, tt)).
Definition color (c : vga_color) : M unit := say [CColor c VGA_BLACK].
Definition write (t : list Z) : M unit := say (con_write t).
Definition begin (label : string) : M unit := color VGA_LIGHT_GREY ;! write (str label).
Definition ok : M unit := color VGA_LIGHT_GREEN ;! write (str "ok" ++ nl).
Definition none : M unit := color VGA_YELLOW ;! write (str "none" ++ nl).
(** "ok" with a remark. *)
Definition ok_note (m : M unit) : M unit := color VGA_LIGHT_GREEN ;! write (str "ok") ;! color VGA_LIGHT_GREY ;! write (str "  (") ;! m.

Definition hex_char (d : Z) : Z := arr_get (str "0123456789abcdef") d.
Definition mac_note (m : list Z) : M unit :=
  io_for 6 0 (λ i, say ([CPutc (hex_char (arr_get m i >>> 4)); CPutc (hex_char (arr_get m i &&& 0xF))] ++ if i <? 5 then [CPutc 58] else [])) ;!
  write (str ")" ++ nl).

(** ** Until interrupts are on *)

Definition load_gdt s : bt :=
  let '(t, p) := gdt_init gdt_addr tss_addr (bt_tables s) (bt_proc s) in
  on_sched (λ x, MkSched (tasks x) (current x) (next_id x) (ntasks x) (arr_get (tss_words (tss t)) TSS_ESP0) (regs x) (words x) (sched_heap x)) (with_tables t p s).
Definition load_idt s : bt :=
  with_tables (idt_init idt_addr stub (λ i, stub (32 + i)) (stub 128) (bt_tables s)) (bt_proc s) s.

Definition bring_up : M unit :=
  io_put (λ s, with_console (console_init (bt_console s)) s) ;!
  on_shell shell_banner ;!
  color VGA_LIGHT_GREEN ;! write (nl ++ str "  PumpkinOS kernel is alive!" ++ nl ++ nl) ;!
  begin "  Loading GDT + TSS (ring 0/3) ....... ... " ;!
  io_put load_gdt ;! ok ;!
  begin "  Scanning physical memory (E820) .... ... " ;!
  io_put (on_frames (λ _, pmm_init map)) ;!
  io_put (on_frames (pmm_reserve AC97_DMA_PHYS AC97_DMA_BYTES)) ;!
  (let! s := io_get in
   ok_note (say (con_dec (u32 (pmm_total_frames (pg_frames (the_paging s)) * 4) / 1024)) ;! write (str " MB usable)" ++ nl))) ;!
  begin "  Installing interrupt descriptor table ... " ;!
  io_put load_idt ;! ok ;!
  begin "  Remapping the 8259 PIC .............. ... " ;!
  on_machine pic_remap ;! ok ;!
  begin "  Starting PIT timer @ 100 Hz ........ ... " ;!
  on_clock (timer_init 100) ;! ok ;!
  begin "  Starting PS/2 keyboard driver ...... ... " ;!
  on_machine (on_driver mc_keyboard with_keyboard (keyboard_init key_fuel)) ;! ok ;!
  begin "  Starting PS/2 mouse driver ......... ... " ;!
  on_machine (on_driver mc_mouse with_mouse mouse_init) ;! ok ;!
  begin "  Enabling paging (identity map) ..... ... " ;!
  io_put (on_paging paging_init) ;! ok ;!
  begin "  Initialising kernel heap ........... ... " ;!
  io_put (on_heap kheap_init) ;! ok ;!
  begin "  Reading ACPI tables (power-off) .... ... " ;!
  on_acpi acpi_init ;!
  (let! s := io_get in if acpi_available (bt_acpi s) then ok else none) ;!
  begin "  Starting the scheduler ............. ... " ;!
  io_put (on_sched (sched_init kmain)) ;! ok.

Definition sti s : bt := on_sched (λ x, Sched.with_regs (Sched.set_eflags (Sched.r_eflags (regs x) ||| IF_BIT) (regs x)) x) s.

(** ** With interrupts on *)

Definition start_up : M unit :=
  begin "  Resetting floppy controller ........ ... " ;!
  on_floppy floppy_init ;! ok ;!
  begin "  Detecting RTL8139 network card ..... ... " ;!
  (let! r := on_net net_init in
   if negb (r =? 0) then let! s := io_get in ok_note (mac_note (net_mac (bt_net s))) else none) ;!
  begin "  Detecting IDE/ATA hard disks ....... ... " ;!
  on_ata ata_init ;!
  (let! s := io_get in
   let n := ata_drive_count (bt_ata s) in
   if 0 <? n then ok_note (say (con_dec (u32 n)) ;! write ((if n =? 1 then str " disk)" else str " disks)") ++ nl)) else none) ;!
  begin "  Mounting FAT12 filesystem .......... ... " ;!
  (let! files := on_fs (fs_init fat_fits) in
   if 0 <=? files then ok_note (say (con_dec (u32 files)) ;! write (str " files)" ++ nl)) else none) ;!
  begin "  Detecting AC'97 audio codec ........ ... " ;!
  on_ac97 (ac97_init clock_fuel) ;!
  (let! s := io_get in
   if ac97_present (bt_ac97 s)
   then ok ;! preload 0 (str "/system/STARTUP.PCM") ;! preload 1 (str "/system/SHUTDOWN.PCM") ;! io_ret tt
   else none) ;!
  color VGA_LIGHT_GREY ;!
  color VGA_LIGHT_CYAN ;! write (nl ++ str "  Type 'help' to get started." ++ nl ++ nl) ;!
  color VGA_LIGHT_GREY.

(** [n] keys; [None]: halted. *)
Definition kernel_main (n : nat) : M (option input) :=
  bring_up ;! io_put sti ;! start_up ;! on_shell (shell_run junk conn0 shell_fuel n).
End Entry.
