(* ===== verification/BootThm.v ===== *)
(** Properties of [Boot.v]: what the components rely on holds once [kernel_main]
    has initialised them in its order. *)
From Stdlib Require Import ZArith Lia Bool Ascii String.
From stdpp Require Import base numbers gmap option list.
From S2P Require Import Fat12Volume NetThm ShellThm Ata Acpi Ac97 Prelude Console Block Frames Pmm Paging Kheap Heaps Sched Fat12 Io Returns Elf Pic Keyboard Timer Floppy Mouse Cpu Isr Net Tcp Shell IdentityMap AcpiThm Boot.

#[local] Open Scope Z_scope.
#[local] Open Scope c_scope.
#[local] Open Scope io_scope.

(** ** Frames that are never touched *)

Section Memory.
Context {A : Type} `{FrameAllocator A}.
Implicit Types p : paging A.

(** The frame [q] is not free, is no page table, and is mapped nowhere from [lo] to [hi]. *)
Definition spares (lo hi q : Z) p : Prop :=
  ¬ owned_frame p q ∧ ∀ v e, lo ≤ v < hi → pte p v = Some e → page_of e ≠ q.

Lemma paging_init_owned p q0 :
  fa_inv (pg_frames p) → (∀ a, 0 ≤ ld (pg_mem p) a < 2 ^ 32) → fa_is_free (pg_frames (paging_init p)) q0 →
  ∀ q, owned_frame (paging_init p) q → fa_is_free (pg_frames p) q.
Proof.
  intros Hi Hm Hq0. unfold paging_init in *. destruct (fa_alloc (pg_frames p)) as [a pd] eqn:Hall. destruct (Z.eq_dec pd 0) as [->|Hpd].
  - exfalso. destruct (fa_alloc_full _ _ Hi Hall) as [-> Hno]. set (p0 := MkPaging (pg_frames p) _ 0 _ _ _) in *.
    enough (fa_inv (pg_frames (map_identity p0)) ∧ exhausted (map_identity p0)) as [_ Hex] by by apply (Hex q0).
    apply (for_range_inv (λ t, fa_inv (pg_frames t) ∧ exhausted t)); [by split|]. intros i t _ [? ?]. by apply map_frames_inv.
  - clear Hq0. destruct (fresh_directory _ a (pg_mem p) pd (enabled p) (cr3 p) (cr0_pg p) Hi Hall Hpd Hm) as [Hw0 Hn0].
    set (p0 := MkPaging a _ pd _ _ _) in *. destruct (fa_alloc_ok _ _ _ Hi Hall Hpd) as (_ & _ & Hpdf & Hfr).
    destruct (identity_top_range p0 (pw_frames _ Hw0)) as (Htm & Htr & _). unfold IDENTITY_CAP in Htr.
    enough (paging_wf (map_identity p0) ∧ ∀ q, owned_frame (map_identity p0) q → fa_is_free (pg_frames p) q) as [_ Ho] by exact Ho.
    apply (for_range_inv (λ t, paging_wf t ∧ ∀ q, owned_frame t q → fa_is_free (pg_frames p) q)).
    + split; [done|]. intros q [->|[Hq|(i & Hir & Hp & _)]]; [exact Hpdf|by apply Hfr in Hq as [? _]|].
      unfold pde, p0 in Hp. cbn in Hp. by rewrite zero_table_eq in Hp.
    + intros i t Hir [Hwt Hot]. assert (0 ≤ i * PAGE_SIZE < 2 ^ 32) as Hr by (unfold PAGE_SIZE in *; zpow; clear -Hir Htr; zlia).
      pose proof (paging_map_spec t (i * PAGE_SIZE) (i * PAGE_SIZE) (PAGE_PRESENT ||| PAGE_WRITE) Hwt Hr Hr) as Hs.
      destruct (paging_map _ _ _ t) as [t' r]. destruct Hs as (Hw' & _ & _ & _ & Ho & _). split; [done|]. intros q Hq. by apply Hot, Ho.
Qed.

Lemma map_enabled virt phys flags p : enabled (paging_map virt phys flags p).1 = enabled p.
Proof.
  unfold paging_map, get_table. assert (∀ q : paging A, enabled (flush_tlb q) = enabled q) as Ef by (intros q; unfold flush_tlb; destruct (enabled q) eqn:E; cbn; congruence).
  destruct (negb _); [|cbn [fst]; by rewrite Ef]. destruct (fa_alloc _) as [a t]. destruct (_ =? _); [done|]. cbn [fst]. by rewrite Ef.
Qed.

Lemma written_page f flags : 0 ≤ f < 2 ^ 32 → f mod 4096 = 0 → 0 ≤ flags < 4096 → page_of (pte_value f flags) = f.
Proof.
  intros Hf Hm Hfl. destruct (pte_value_spec f flags Hf) as (Hr & Hp & _). rewrite addr_mask in Hp by done. unfold page_of in *. lia.
Qed.

Lemma map_pages_enabled n end_ p : enabled (map_pages n end_ p).1.1 = enabled p.
Proof.
  revert end_ p. induction n as [|n IH]; intros e p; [done|]. cbn [map_pages].
  destruct (fa_alloc (pg_frames p)) as [a f]. destruct (_ =? _); [done|]. pose proof (map_enabled e f (PAGE_PRESENT ||| PAGE_WRITE) (with_frames a p)) as Hen.
  destruct (paging_map _ _ _ _) as [p2 r]. cbn [fst] in Hen. destruct (negb _); [done|]. specialize (IH (u32 (e + PAGE_SIZE)) p2).
  destruct (map_pages _ _ _) as [[p' e'] m]. cbn [fst] in *. by rewrite IH.
Qed.

(** The pages of the heap are backed by frames that were free. *)
Lemma map_pages_spares n end_ p lo hi q :
  paging_wf p → 0 ≤ end_ → end_ + 4096 * fa_count (pg_frames p) < 2 ^ 32 → hi ≤ 2 ^ 32 → 0 ≤ lo →
  spares lo hi q p → spares lo hi q (map_pages n end_ p).1.1.
Proof.
  intros Hw He Hroom Hhi Hlo Hs. revert end_ p Hw He Hroom Hs. induction n as [|n IH]; intros end_ p Hw He Hroom Hs; [done|]. cbn [map_pages].
  pose proof (fa_count_range _ (pw_frames _ Hw)) as Hcr.
  destruct (fa_alloc (pg_frames p)) as [a f] eqn:Hall. destruct (Z.eqb_spec f 0) as [->|Hf].
  { destruct (fa_alloc_full _ _ (pw_frames _ Hw) Hall) as [-> _]. by destruct p. }
  assert (1 ≤ fa_count (pg_frames p)) as Hc1.
  { destruct (Z.eq_dec (fa_count (pg_frames p)) 0); [|lia]. pose proof (fa_alloc_count _ _ _ (pw_frames _ Hw) Hall Hf) as Hc.
    pose proof (fa_count_range _ (fa_alloc_inv _ _ _ (pw_frames _ Hw) Hall)). lia. }
  pose proof (map_fresh p a f end_ (PAGE_PRESENT ||| PAGE_WRITE) Hw Hall Hf ltac:(lia)) as Hmf.
  destruct (paging_map _ _ _ (with_frames a p)) as [p2 r]. destruct Hs as [Hn Hm].
  destruct Hmf as [(-> & Hw2 & Hfree & _ & Hf0 & Hfr & Ho2 & Hc2 & Hpte)|(-> & Hw3 & Ho3 & _ & _ & Hpte)]; cbn [Z.eqb negb].
  - change PAGE_SIZE with 4096. rewrite (u32_small (end_ + 4096)) by lia.
    enough (spares lo hi q p2) as Hs2 by (specialize (IH (end_ + 4096) p2 Hw2 ltac:(lia) ltac:(lia) Hs2); by destruct (map_pages _ _ _) as [[p' e] m]).
    split; [intros Hq; by apply Hn, Ho2|]. intros v e Hv. rewrite Hpte by lia. destruct (_ =? _); [|by apply Hm].
    intros [= <-] E. rewrite written_page in E by (done || lia). subst f. apply Hn. right. by left.
  - cbn [fst]. split; [intros Hq; by apply Hn, Ho3|]. intros v e Hv. rewrite Hpte. by apply Hm.
Qed.

(** ** The heap *)

Implicit Types h : kheap A.

Definition with_tables_of h (p : paging A) : kheap A := MkKheap p (kh_mem h) (heap_base h) (heap_end h) (head h).
Definition task_fits h : Prop := first_fit (kmalloc_need SIZEOF_TASK) (chain h) ≠ None.

Lemma kheap_init_ready h :
  paging_wf (kh_paging h) → KHEAP_BASE + 4096 * frames_left h < 2 ^ 32 → 2 ≤ frames_left (kheap_init h) →
  task_fits (kheap_init h) ∧ enabled (kh_paging (kheap_init h)) = enabled (kh_paging h) ∧
  (∀ w, 0 ≤ w < KHEAP_BASE → pte (kh_paging (kheap_init h)) w = pte (kh_paging h) w) ∧
  ∀ q, spares KHEAP_BASE (2 ^ 32) q (kh_paging h) → spares KHEAP_BASE (2 ^ 32) q (kh_paging (kheap_init h)).
Proof.
  intros Hw Hroom. set (h0 := MkKheap (kh_paging h) (kh_mem h) KHEAP_BASE KHEAP_BASE 0).
  assert (kheap_rep h0 []) as Hr.
  { split; cbn; try done; [by constructor|]. split; intros v; [intros ?; lia|intros w ?; lia]. }
  assert (kh_paging (kheap_init h) = (map_pages 4 KHEAP_BASE (kh_paging h)).1.1) as Ep.
  { unfold kheap_init, grow_heap. change (Z.to_nat (grow_bytes KHEAP_INITIAL / PAGE_SIZE)) with 4%nat. cbn [heap_end kh_paging].
    destruct (map_pages 4 KHEAP_BASE (kh_paging h)) as [[p e] m]. destruct (m =? 0); [done|]. cbn [head Z.eqb]. reflexivity. }
  pose proof (grow_rep h0 [] KHEAP_INITIAL Hr) as Hg. unfold kheap_init in Ep |- *. fold h0 in Ep |- *. destruct (grow_heap KHEAP_INITIAL h0) as [h' r]. cbn [fst] in *.
  intros H2. destruct Hg as ([_ Hsame] & _ & Hcase).
  assert (∀ q, spares KHEAP_BASE (2 ^ 32) q (kh_paging h) → spares KHEAP_BASE (2 ^ 32) q (kh_paging h')) as Hsp.
  { intros q. rewrite Ep. apply map_pages_spares; [done|unfold KHEAP_BASE; lia|exact Hroom|lia|unfold KHEAP_BASE; lia]. }
  split_and!.
  - destruct Hcase as [(_ & _ & _ & [Hx|Hx])|(_ & k & Hk & _ & Hrep & _)]; [by vm_compute in Hx|lia|].
    unfold task_fits. rewrite (rep_chain _ _ Hrep). apply first_fit_fits. cbn [app]. apply Exists_cons_hd. cbn [fst snd]. split; [done|].
    change (kmalloc_need SIZEOF_TASK) with 40. lia.
  - rewrite Ep. apply map_pages_enabled.
  - intros w Hwr. apply Hsame; [unfold KHEAP_BASE in *; zpow; lia|]. left. cbn. lia.
  - intros q Hq. by apply Hsp.
Qed.

(** More page tables below do not disturb the heap. *)
Lemma heap_grown h p n q :
  kheap_wf h → grown n (kh_paging h) p →
  let h' := with_tables_of h p in
  kheap_wf h' ∧ (task_fits h → task_fits h') ∧ (spares KHEAP_BASE (heap_end h) q (kh_paging h) → spares KHEAP_BASE (heap_end h') q (kh_paging h')).
Proof.
  intros [Hr Hadj] G h'. pose proof Hr as [Hb He Hseg Hs Hp Hbk Hroom]. destruct (rep_bounds _ _ Hr) as (_ & Hlt & _).
  assert (∀ w, KHEAP_BASE ≤ w < heap_end h → is_Some (pte (kh_paging h) w)) as Hsome.
  { intros w Hw. destruct (bk_map _ _ _ Hbk (page_of w)) as (_ & _ & _ & E); [unfold page_of, KHEAP_BASE in *; clear -Hw He; zlia|unfold page_of; clear; zlia|].
    rewrite (page_pte _ w (page_of w)) by (unfold page_of; clear; zlia). by eexists. }
  assert (∀ w, KHEAP_BASE ≤ w < heap_end h → pte p w = pte (kh_paging h) w) as Hkeep.
  { intros w Hw. apply (gr_keep _ _ _ G); [unfold KHEAP_BASE in *; lia|by apply Hsome]. }
  split; [|split].
  - split; [|exact Hadj]. destruct G as [G1 _ G3 G4 _ _]. split; cbn [h' with_tables_of kh_paging kh_mem heap_base heap_end head]; [done..| |lia].
    apply (backed_sub (kh_paging h)); [done|exact G4|]. intros w Hw. split; [by apply Hkeep|]. rewrite !get_phys_pte by done. by rewrite Hkeep.
  - done.
  - intros [Hn Hm]. split; [intros Hq; by apply Hn, (gr_owned _ _ _ G)|]. intros v e Hv. cbn [h' with_tables_of kh_paging heap_end] in *. rewrite Hkeep by done. by apply Hm.
Qed.

(** An allocation that fits needs no frame. *)
Lemma kmalloc_fits h size :
  kheap_wf h → 0 < size ≤ 0xFFFFFFF8 → first_fit (kmalloc_need size) (chain h) ≠ None →
  (kmalloc size h).2 ≠ 0 ∧ kh_paging (kmalloc size h).1 = kh_paging h ∧ heap_end (kmalloc size h).1 = heap_end h.
Proof.
  intros [Hr Hadj] Hs Hfit. destruct (kmalloc_need_spec size ltac:(lia)) as (Hn & Hn8 & _). unfold kmalloc.
  destruct (Z.eqb_spec size 0); [lia|]. cbn [kmalloc_attempts]. pose proof (take_rep h _ (kmalloc_need size) Hr ltac:(lia) Hn8) as Ht.
  destruct (first_fit (kmalloc_need size) (chain h)) as [[[l1 sz] l2]|] eqn:Ef; [|done]. destruct Ht as (h' & -> & _ & He & Hp). cbn [fst snd].
  split; [|by split]. destruct (first_fit_Some _ _ _ _ _ Ef) as (El & _ & _). pose proof (kr_sizes _ _ Hr) as Hsz. rewrite El in Hsz.
  apply sizes_app in Hsz as [Hsz _]. pose proof (extent_nonneg _ Hsz). unfold KHEAP_BASE, HEADER_SIZE. lia.
Qed.

(** Paging and then the heap, from memory that holds anything. *)
Lemma heap_up p h q0 :
  fa_inv (pg_frames p) → (∀ a, 0 ≤ ld (pg_mem p) a < 2 ^ 32) → fa_is_free (pg_frames (paging_init p)) q0 →
  let m := kheap_init (with_tables_of h (paging_init p)) in
  2 ≤ frames_left m → 4096 * fa_total (pg_frames p) < 2 ^ 30 →
  kheap_wf m ∧ task_fits m ∧ enabled (kh_paging m) = true ∧
  (∀ w, 0 ≤ w < KHEAP_BASE → pte (kh_paging m) w = if w <? 4096 * fa_total (pg_frames p) then Some (pte_value w (PAGE_PRESENT ||| PAGE_WRITE)) else None) ∧
  ∀ q, ¬ fa_is_free (pg_frames p) q → spares KHEAP_BASE (2 ^ 32) q (kh_paging m).
Proof.
  intros Hi Hwords Hq0 m Hleft Htot. pose proof (fa_total_range _ Hi) as Htr.
  assert (identity_top p = 4096 * fa_total (pg_frames p)) as Etop.
  { unfold identity_top, IDENTITY_CAP. zpow. rewrite Z.shiftl_mul_pow2 by done. change (2 ^ 12) with 4096.
    rewrite u64_small, (proj2 (Z.ltb_ge _ _)), u32_small by (zpow; lia). lia. }
  destruct (paging_init_cases p Hi Hwords) as [Hex|(Hw & He & _ & _ & Htt & Hid)]; [by destruct (Hex q0)|].
  pose proof (paging_init_owned p q0 Hi Hwords Hq0) as Howned. revert m Hleft. generalize dependent (paging_init p). intros p1 Hq0 Hw He Htt Hid Howned m Hleft.
  pose proof (fa_count_range _ (pw_frames _ Hw)) as Hc. rewrite Htt in Hc.
  assert (KHEAP_BASE + 4096 * frames_left (with_tables_of h p1) < 2 ^ 32) as Hroom.
  { unfold frames_left, KHEAP_BASE. cbn [kh_paging with_tables_of]. zpow. lia. }
  destruct (kheap_init_wf (with_tables_of h p1) Hw Hroom) as [Hwf _]. destruct (kheap_init_ready (with_tables_of h p1) Hw Hroom Hleft) as (Hfit & Hen & Hlow & Hsp).
  split; [done|]. split; [done|]. split; [unfold m; by rewrite Hen|]. unfold KHEAP_BASE in *. split.
  - intros w Hwr. unfold m. rewrite Hlow by done. cbn [with_tables_of kh_paging]. rewrite Hid, Etop by (zpow; lia). done.
  - intros q Hq. apply Hsp. cbn [with_tables_of kh_paging]. split; [intros Ho; by apply Hq, Howned|].
    intros v e Hv. rewrite Hid, Etop, (proj2 (Z.ltb_ge _ _)) by (zpow; lia). done.
Qed.
End Memory.

(** ** Memory as [kernel_main] sets it up *)

Abbreviation frames_up map := (pmm_reserve AC97_DMA_PHYS AC97_DMA_BYTES (pmm_init map)).
Abbreviation paging_up map h := (paging_init (with_frames (frames_up map) (kh_paging h))).
Abbreviation memory_up map h := (kheap_init (with_tables_of h (paging_up map h))).

(** The frames of the audio driver's fixed buffer. *)
Definition audio_frame (q : Z) : Prop := q mod 4096 = 0 ∧ AC97_DMA_PHYS ≤ q < AC97_DMA_PHYS + AC97_DMA_BYTES.

Lemma reserved_ok map :
  Forall entry_wf map →
  pmm_inv (frames_up map) ∧ total_frames (frames_up map) = total_frames (pmm_init map) ∧ ∀ q, audio_frame q → ¬ pmm_is_free (frames_up map) q.
Proof.
  intros HF. destruct (pmm_init_inv map HF) as [Hwf H0]. unfold pmm_reserve. change (u64 _) with 0x400000. unfold AC97_DMA_PHYS.
  destruct (reserve_range_spec 0x300000 0x400000 (pmm_init map) Hwf ltac:(lia)) as [(Hwf' & Ht & _) Hu].
  split; [split; [done|]|split; [done|]].
  - intros Hpos. rewrite Hu by lia. rewrite H0 by lia. done.
  - intros q [Hq0 Hq] (_ & Hqr & Hf). rewrite Hu in Hf by (clear -Hqr Ht; zlia). apply orb_false_iff in Hf as [_ Hf].
    unfold AC97_DMA_PHYS, AC97_DMA_BYTES, touches, FRAME_SIZE in *. rewrite !andb_false_iff, !Z.ltb_ge in Hf. clear -Hq Hq0 Hf. zlia.
Qed.

(** What is known of the machine: the map, RAM below 1 GiB and enough of it. *)
Record machine_ok (map : list e820_entry) (h : kheap pmm) : Prop := {
  mo_map : Forall entry_wf map;
  mo_words a : 0 ≤ ld (pg_mem (kh_paging h)) a < 2 ^ 32;
  mo_total : 0x200000 ≤ 4096 * total_frames (pmm_init map) < 2 ^ 30;
  mo_tables : ∃ q, pmm_is_free (pg_frames (paging_up map h)) q;
  mo_left : 2 ≤ frames_left (memory_up map h)
}.

Lemma memory_up_ok map h :
  machine_ok map h →
  let m := memory_up map h in
  kheap_wf m ∧ task_fits m ∧ enabled (kh_paging m) = true ∧
  (∀ w, 0 ≤ w < KHEAP_BASE → pte (kh_paging m) w = if w <? 4096 * total_frames (pmm_init map) then Some (pte_value w (PAGE_PRESENT ||| PAGE_WRITE)) else None) ∧
  ∀ q, audio_frame q → spares KHEAP_BASE (2 ^ 32) q (kh_paging m).
Proof.
  intros [Hmap Hwords Htot [q0 Hq0] Hleft]. destruct (reserved_ok map Hmap) as (Hi & Ht & Haud). cbv zeta.
  revert Hi Ht Haud Hq0 Hleft. generalize (pmm_reserve AC97_DMA_PHYS AC97_DMA_BYTES (pmm_init map)). intros a Hi Ht Haud Hq0 Hleft. rewrite <- Ht in *.
  destruct (heap_up (with_frames a (kh_paging h)) h q0) as (H1 & H2 & H3 & H4 & H5); [exact Hi|exact Hwords|exact Hq0|exact Hleft|apply Htot|].
  split_and!; [exact H1|exact H2|exact H3|exact H4|]. intros q Hq. apply H5. by apply Haud.
Qed.

(** ** The stages of [bring_up] *)

#[export] Instance clock_hw_field {H} : HwField (clock H) H.
Proof. split; [by intros []|done]. Defined.

#[export] Instance machine_hw_field {A D H} : HwField (machine A D H) H.
Proof. split; [by intros []|done]. Defined.
#[export] Instance keyboard_hw_field {H} : HwField (keyboard H) H.
Proof. split; [by intros []|done]. Defined.
#[export] Instance mouse_hw_field {H} : HwField (mouse H) H.
Proof. split; [by intros []|done]. Defined.

Section Stages.
Context {D N H : Type} `{BlockDevice D} `{Nic N} `{Ports H} `{!Dma H} `{!Ticks H} `{!Office D H}.
Abbreviation bt := (boot D N H).
Implicit Types s : bt.

Definition heap_of s : kheap pmm := sched_heap (the_sched s).
(** What the stages that only program a device or print leave alone. *)
Definition core s : sched (kheap pmm) * tables * gmap Z Z * acpi pmm H * timer :=
  (the_sched s, bt_tables s, k_ram (the_kernel s), bt_acpi s, mc_timer (bt_machine s)).
Definition keeps {X} (m : IO bt X) : Prop := ∀ s, iwp m (λ s' _, core s' = core s) s.

Lemma core_bind {X Y} (m : IO bt X) (k : X → IO bt Y) : keeps m → (∀ x, keeps (k x)) → keeps (io_bind m k).
Proof.
  intros Hm Hk s. apply iwp_bind. eapply iwp_mono; [apply Hm|]. cbv beta. intros s1 x E. eapply iwp_mono; [apply Hk|]. cbv beta. intros s2 y E2. by rewrite E2.
Qed.
Lemma keeps_then {X Y} (m : IO bt X) (k : X → IO bt Y) (Q : bt → Y → Prop) s :
  keeps m → (∀ s1 x, core s1 = core s → iwp (k x) Q s1) → iwp (io_bind m k) Q s.
Proof. intros Hm Hk. apply iwp_bind. eapply iwp_mono; [apply Hm|]. cbv beta. intros s1 x E. by apply Hk. Qed.
Lemma keeps_fs {X} (m : Fat12.fs D → Fat12.fs D * X) : keeps (on_fs m).
Proof. intros s. unfold on_fs. destruct (m (k_fs (the_kernel s))) as [f x] eqn:E. eexists _, x. rewrite E. by split. Qed.
Lemma keeps_begin l : keeps (begin l).
Proof. apply core_bind; [apply keeps_fs|intros _; apply keeps_fs]. Qed.
Lemma keeps_ok : keeps ok.
Proof. apply core_bind; [apply keeps_fs|intros _; apply keeps_fs]. Qed.
Lemma keeps_none : keeps none.
Proof. apply core_bind; [apply keeps_fs|intros _; apply keeps_fs]. Qed.
Lemma keeps_note m : keeps m → keeps (ok_note m).
Proof. intros Hm. do 4 (apply core_bind; [apply keeps_fs|intros _]). exact Hm. Qed.
Lemma keeps_machine {X} (m : IO (machine pmm D H) X) : ends m → keeps (on_machine m).
Proof.
  intros Hm s. destruct (Hm (bt_machine s)) as (x & r & E & Ho). exists (with_machine x s), r. split; [unfold on_machine; by rewrite E|]. by rewrite Ho.
Qed.

(** The shell's part of it prints. *)
Definition talks (m : IO (shell D N H) unit) : Prop := ∀ x, ∃ k, m x = Some (Shell.with_fs (print k (sh_fs x)) x, tt).
Lemma talks_say k : talks (Shell.say k).
Proof. intros x. by exists k. Qed.
Lemma talks_then k (m : IO (shell D N H) unit) : talks m → talks (io_bind (Shell.say k) (λ _, m)).
Proof.
  intros Hm x. destruct (Hm (Shell.with_fs (print k (sh_fs x)) x)) as [k' E]. exists (k ++ k').
  change (io_bind (Shell.say k) (λ _, m) x) with (m (Shell.with_fs (print k (sh_fs x)) x)). rewrite E. do 2 f_equal. unfold Shell.with_fs, print. cbn. by rewrite app_assoc.
Qed.
Lemma keeps_banner : keeps (on_shell shell_banner).
Proof.
  assert (talks shell_banner) as Ht by (unfold shell_banner; repeat first [apply talks_say | apply talks_then]).
  intros s. unfold iwp, on_shell. cbv zeta. set (x := Shell (k_fs (the_kernel s)) _ _ _ _ _ _). destruct (Ht x) as [k E]. eexists _, tt. rewrite E. by split.
Qed.

(** ** The devices *)

Lemma ends_pic_unmask {S} `{HwField S H} irq : ends (S := S) (Pic.pic_unmask irq).
Proof. unfold Pic.pic_unmask. repeat ends_step. Qed.
Lemma keeps_driver {S X} `{HwField S H} (get : machine pmm D H → S) put (m : IO S X) :
  (∀ t x, mc_kernel (put t x) = mc_kernel x ∧ mc_timer (put t x) = mc_timer x) → ends m → keeps (on_machine (on_driver get put m)).
Proof.
  intros Hput Hm s. unfold on_machine, on_driver. destruct (Hm (set_hw (mc_hw (bt_machine s)) (get (bt_machine s)))) as (t & r & E & _).
  eexists _, r. rewrite E. split; [done|]. destruct (Hput t (bt_machine s)) as [Ek Et]. unfold core, the_sched, the_kernel. cbn. by rewrite Ek, Et.
Qed.

Lemma ends_poll n stop : ends (S := mouse H) (poll_status n stop).
Proof. induction n as [|n IH]; cbn [poll_status]; repeat ends_step. apply IH. Qed.
Lemma ends_mouse_init : ends (S := mouse H) mouse_init.
Proof.
  assert (ends (S := mouse H) wait_write ∧ ends (S := mouse H) wait_read) as [Hw Hr] by (split; apply ends_poll).
  unfold mouse_init, mouse_command. cbv zeta. generalize dependent (wait_write (H := H)). generalize dependent (wait_read (H := H)). intros wr Hr ww Hw.
  repeat first [exact Hw | exact Hr | ends_step | match goal with |- ends (Pic.pic_unmask _) => apply ends_pic_unmask end].
Qed.

Lemma ends_keyboard_init fuel : (∀ k, drain fuel k ≠ None) → ends (S := keyboard H) (keyboard_init fuel).
Proof.
  intros Hd. apply ends_bind; [|intros _; apply ends_pic_unmask]. intros k. specialize (Hd k). revert k Hd. induction fuel as [|fuel IH]; intros k Hd; [done|].
  cbn [drain] in *. destruct (ends_in (S := keyboard H) 1 Keyboard.PS2_STATUS k) as (k1 & st & E1 & O1). unfold inb, io_bind in *. rewrite E1 in Hd.
  destruct (c_true (st &&& 0x01)) eqn:Est.
  - destruct (ends_in (S := keyboard H) 1 Keyboard.PS2_DATA k1) as (k2 & d & E2 & O2). rewrite E2 in Hd. destruct (IH k2 Hd) as (k3 & u & E3 & O3).
    exists k3, u. split; [by rewrite E1, Est, E2|]. by eapply only_hw_trans; [exact O1|eapply only_hw_trans].
  - exists k1, tt. split; [by rewrite E1, Est|done].
Qed.

Lemma ends_pic_remap : ends (S := machine pmm D H) pic_remap.
Proof. unfold pic_remap, outb_wait. repeat ends_step. Qed.

(** The timer is set to the frequency. *)
Lemma timer_started s (Q : bt → unit → Prop) :
  (∀ s1, core s1 = (the_sched s, bt_tables s, k_ram (the_kernel s), bt_acpi s, MkTimer (ticks (mc_timer (bt_machine s))) 100) → Q s1 tt) →
  iwp (on_clock (timer_init 100)) Q s.
Proof.
  intros HQ. set (c := set_hw (get_hw s) (Clock (get_hw s) (mc_timer (bt_machine s)))).
  assert (iwp (timer_init 100) (λ c' _, ck_timer c' = MkTimer (ticks (ck_timer c)) 100) c) as (c' & [] & E & Ho).
  { unfold timer_init. cbn [Z.eqb]. apply iwp_bind, iwp_put. cbv zeta.
    repeat (apply ends_then; [ends_step|]; intros ? _ ->). eapply iwp_mono; [apply ends_pic_unmask|]. by intros c' _ ->. }
  unfold iwp, on_clock, on_part. fold c. eexists _, tt. rewrite E. split; [done|]. apply HQ. unfold core. cbn. by rewrite Ho.
Qed.

(** ** Memory and the tables, stage by stage *)

Lemma frames_at f s h a :
  heap_of s = with_tables_of h (with_frames a (kh_paging h)) → heap_of (on_frames f s) = with_tables_of h (with_frames (f a) (kh_paging h)).
Proof. unfold heap_of. intros E. unfold on_frames, on_paging, on_heap, on_sched. cbn. by rewrite E. Qed.
Lemma paging_at f s h p : heap_of s = with_tables_of h p → heap_of (on_paging f s) = with_tables_of h (f p).
Proof. unfold heap_of. intros E. unfold on_paging, on_heap, on_sched. cbn. by rewrite E. Qed.
Lemma heap_at f s h : heap_of s = h → heap_of (on_heap f s) = f h.
Proof. unfold heap_of. intros E. unfold on_heap, on_sched. cbn. by rewrite E. Qed.

(** Everything but memory. *)
Definition rest s : tables * Z * gmap Z Z * timer := (bt_tables s, tss_esp0 (the_sched s), k_ram (the_kernel s), mc_timer (bt_machine s)).
Lemma rest_frames f s : rest (on_frames f s) = rest s.
Proof. done. Qed.
Lemma rest_paging f s : rest (on_paging f s) = rest s.
Proof. done. Qed.
Lemma rest_heap f s : rest (on_heap f s) = rest s.
Proof. done. Qed.

Lemma core_heap s1 s : core s1 = core s → heap_of s1 = heap_of s ∧ rest s1 = rest s ∧ bt_acpi s1 = bt_acpi s.
Proof. unfold core, heap_of, rest. intros [= -> -> -> -> ->]. done. Qed.

(** What the firmware's memory holds: no root pointer, or tables as ACPI has them,
    and frames to map them. *)
Inductive firmware_known (mem : gmap Z Z) (left : Z) : bool → Prop :=
  | No_tables : List.find (is_rsdp mem) (candidates mem) = None → firmware_known mem left false
  | With_tables rsdp rsdt fadt dsdt k a b :
      firmware mem rsdp rsdt fadt dsdt k a b → 520 * (k + 3) ≤ left → u16 (w32 mem (fadt + 64)) ≠ 0 → firmware_known mem left true.

Lemma acpi_stage found s (Q : bt → unit → Prop) :
  kheap_wf (heap_of s) → enabled (the_paging s) = true →
  (∀ w, 0 ≤ w < 0xC0000000 → open_at (the_paging s) w) → (∀ w, 0 ≤ w < 0x101000 → mmu (the_paging s) w = Some w) →
  firmware_known (k_ram (the_kernel s)) (frames_left (heap_of s)) found →
  (∀ s1 p n, grown n (the_paging s) p → heap_of s1 = with_tables_of (heap_of s) p → rest s1 = rest s → acpi_available (bt_acpi s1) = found → Q s1 tt) →
  iwp (on_acpi acpi_init) Q s.
Proof.
  intros Hwf He Hopen Hlow Hfw HQ. set (a0 := set_hw (get_hw s) (MkAcpi (the_paging s) (k_ram (the_kernel s)) (ac_hw (bt_acpi s)) (available (bt_acpi s)) (pm1a_cnt (bt_acpi s))
    (pm1b_cnt (bt_acpi s)) (slp_typa (bt_acpi s)) (slp_typb (bt_acpi s)) (smi_cmd (bt_acpi s)) (acpi_enable (bt_acpi s)))).
  assert (low a0) as Hl by (intros w Hw; unfold sees, phys_of; change (ac_paging a0) with (the_paging s); rewrite He; by apply Hlow).
  assert (paging_wf (the_paging s)) as Hpw by apply Hwf.
  enough (iwp acpi_init (λ a _, (∃ n, grown n (the_paging s) (ac_paging a)) ∧ available a = found) a0) as (a & [] & E & (n & G) & Ha).
  { unfold iwp, on_acpi, on_part. fold a0. eexists _, tt. rewrite E. split; [done|]. apply (HQ _ (ac_paging a) n); [done|done|done|exact Ha]. }
  destruct Hfw as [Hno|rsdp rsdt fadt dsdt k a b Hfw Hleft Hport].
  - exists (with_available false a0), tt. split; [by apply acpi_init_none|]. split; [|done]. exists 0. by apply grown_refl.
  - eapply iwp_mono; [apply (acpi_init_ok rsdp rsdt fadt dsdt k a b 0 a0); [exact Hfw|done|lia|]|].
    { right. split; [done|]. split; [exact Hopen|exact Hleft]. }
    intros a1 u [E G]. split; [by apply G|]. rewrite E. cbn. by rewrite (proj2 (Z.eqb_neq _ 0) Hport).
Qed.

(** What the other components take for granted. *)
Record ready (map : list e820_entry) (stub : Z → Z) (ram : gmap Z Z) (found : bool) s : Prop := {
  rd_tables : installed stub (bt_tables s) ∧ tss_esp0 (the_sched s) = 0x90000;
  rd_timer : frequency (mc_timer (bt_machine s)) = 100;
  rd_sched : sched_inv (the_sched s) [] ∅;
  rd_paging : paging_is_enabled (the_paging s) = true ∧ ∀ w, 0 ≤ w < 4096 * total_frames (pmm_init map) → mmu (the_paging s) w = Some w;
  rd_audio q : audio_frame q → spares KHEAP_BASE (heap_end (heap_of s)) q (the_paging s);
  rd_acpi : acpi_available (bt_acpi s) = found;
  rd_ram : k_ram (the_kernel s) = ram
}.

(** The boot task is the scheduler's first. *)
Lemma sched_stage kmain s :
  kheap_wf (heap_of s) → task_fits (heap_of s) →
  let s' := on_sched (sched_init kmain) s in
  sched_inv (the_sched s') [] ∅ ∧ the_paging s' = the_paging s ∧ heap_end (heap_of s') = heap_end (heap_of s) ∧ rest s' = rest s ∧ bt_acpi s' = bt_acpi s.
Proof.
  intros Hwf Hfit s'. destruct (kmalloc_fits (heap_of s) SIZEOF_TASK Hwf ltac:(by split) Hfit) as (Hp & Epg & Eend).
  destruct (hp_alloc SIZEOF_TASK (sched_heap (the_sched s))) as [h t] eqn:Ea. change (kmalloc SIZEOF_TASK (heap_of s) = (h, t)) in Ea. rewrite Ea in Hp, Epg, Eend. cbn [fst snd] in *.
  assert (hp_inv (sched_heap (the_sched s)) ∧ hp_alloc SIZEOF_TASK (sched_heap (the_sched s)) = (h, t)) as [Hhp Eal] by (split; [exact Hwf|exact Ea]).
  destruct (sched_init_inv (the_sched s) kmain h t Hhp Eal Hp) as [Hi _].
  assert (sched_heap (sched_init kmain (the_sched s)) = h ∧ tss_esp0 (sched_init kmain (the_sched s)) = tss_esp0 (the_sched s)) as [Eh Et].
  { unfold sched_init. by rewrite Eal. }
  unfold s', the_paging, heap_of, rest, on_sched. cbn [the_sched the_kernel with_the_kernel with_machine with_kernel bt_machine mc_kernel k_sched with_sched bt_tables k_ram mc_timer bt_acpi].
  split; [exact Hi|]. rewrite Eh, Et. split_and!; [exact Epg|exact Eend|done|done].
Qed.

Lemma flat_mmu (p : paging pmm) top w :
  0 ≤ w < 2 ^ 32 → pte p w = (if w <? top then Some (pte_value w (PAGE_PRESENT ||| PAGE_WRITE)) else None) → open_at p w ∧ (w < top → mmu p w = Some w).
Proof.
  intros Hw E. assert (w < top → mmu p w = Some w) as Hm.
  { intros Ht. unfold mmu. rewrite E, (proj2 (Z.ltb_lt _ _) Ht). cbn [mbind option_bind]. destruct (pte_value_spec w (PAGE_PRESENT ||| PAGE_WRITE) Hw) as (Hr & Hp & _).
    rewrite addr_mask in Hp by done. f_equal. unfold page_of in *. lia. }
  split; [|exact Hm]. unfold open_at. destruct (Z.ltb_spec w top); [right; by apply Hm|by left].
Qed.

(** Where the boot has got to. *)
Definition at_ (h : kheap pmm) (r : tables * Z * gmap Z Z * timer) (b : acpi pmm H) s : Prop := heap_of s = h ∧ rest s = r ∧ bt_acpi s = b.

Lemma at_keeps {X Y} (m : IO bt X) (k : X → IO bt Y) Q h r b s :
  keeps m → at_ h r b s → (∀ s1 x, at_ h r b s1 → iwp (k x) Q s1) → iwp (io_bind m k) Q s.
Proof.
  intros Hm (<- & <- & <-) Hk. apply keeps_then; [done|]. intros s1 x E. apply Hk. by apply core_heap.
Qed.
Lemma at_put {Y} f (k : unit → IO bt Y) Q h' r' b' s :
  at_ h' r' b' (f s) → (∀ s1, at_ h' r' b' s1 → iwp (k tt) Q s1) → iwp (io_bind (io_put f) k) Q s.
Proof. intros Ha Hk. by apply iwp_bind, iwp_put, Hk. Qed.

Lemma core_get {X} (k : bt → IO bt X) : (∀ s, keeps (k s)) → keeps (io_bind io_get k).
Proof. intros Hk s. apply iwp_bind, iwp_get, Hk. Qed.
Lemma at_timer {Y} (k : unit → IO bt Y) Q h t e ram tm b s :
  at_ h (t, e, ram, tm) b s → (∀ s1 tm1, at_ h (t, e, ram, tm1) b s1 → frequency tm1 = 100 → iwp (k tt) Q s1) → iwp (io_bind (on_clock (timer_init 100)) k) Q s.
Proof.
  intros (Eh & [= <- <- <- <-] & <-) Hk. apply iwp_bind, timer_started. intros s1 E. unfold core in E. injection E as E1 E2 E3 E4 E5. apply (Hk s1 (mc_timer (bt_machine s1))); [|by rewrite E5].
  unfold at_, rest, heap_of in *. by rewrite E1, E2, E3, E4.
Qed.
Lemma with_same (h : kheap pmm) : h = with_tables_of h (with_frames (pg_frames (kh_paging h)) (kh_paging h)).
Proof. by destruct h as [[] ? ? ? ?]. Qed.

(** The messages around a stage. *)
Ltac stage Hat := lazymatch goal with
  | |- iwp (io_bind (begin _) _) _ _ => eapply at_keeps; [apply keeps_begin|exact Hat|]
  | |- iwp (io_bind ok _) _ _ => eapply at_keeps; [apply keeps_ok|exact Hat|]
  | |- iwp (io_bind (color _) _) _ _ => eapply at_keeps; [apply keeps_fs|exact Hat|]
  | |- iwp (io_bind (write _) _) _ _ => eapply at_keeps; [apply keeps_fs|exact Hat|]
  | |- iwp (io_bind (on_shell _) _) _ _ => eapply at_keeps; [apply keeps_banner|exact Hat|]
  end; clear dependent Hat; let x := fresh "_x" in intros ? x Hat.

Lemma gdt_stage gdt_addr tss_addr p0 s :
  length (gdt (bt_tables s)) = 8%nat → 0 ≤ tss_addr < 2 ^ 32 →
  let s' := load_gdt gdt_addr tss_addr s in
  heap_of s' = heap_of s ∧ rest s' = ((gdt_init gdt_addr tss_addr (bt_tables s) p0).1, 0x90000, k_ram (the_kernel s), mc_timer (bt_machine s)).
Proof.
  intros Hg Ha s'. destruct (gdt_init_segments gdt_addr tss_addr (bt_tables s) (bt_proc s) Hg Ha) as (_ & Et & _).
  change (gdt_init gdt_addr tss_addr (bt_tables s) p0).1 with (gdt_init gdt_addr tss_addr (bt_tables s) (bt_proc s)).1.
  unfold s', load_gdt. destruct (gdt_init gdt_addr tss_addr (bt_tables s) (bt_proc s)) as [t p]. cbn [fst] in *. split; [done|].
  unfold rest. cbn. by rewrite Et.
Qed.

(** From ACPI on, over the heap [m]. *)
Lemma last_stages map stub kmain found m t ram tm b s :
  kheap_wf m → task_fits m → enabled (kh_paging m) = true → 0x200000 ≤ 4096 * total_frames (pmm_init map) < 2 ^ 30 →
  (∀ w, 0 ≤ w < KHEAP_BASE → pte (kh_paging m) w = if w <? 4096 * total_frames (pmm_init map) then Some (pte_value w (PAGE_PRESENT ||| PAGE_WRITE)) else None) →
  (∀ q, audio_frame q → spares KHEAP_BASE (2 ^ 32) q (kh_paging m)) →
  installed stub t → frequency tm = 100 → firmware_known ram (frames_left m) found → at_ m (t, 0x90000, ram, tm) b s →
  iwp (on_acpi acpi_init ;!
       (let! s := io_get in if acpi_available (bt_acpi s) then ok else none) ;!
       begin "  Starting the scheduler ............. ... " ;!
       io_put (on_sched (sched_init kmain)) ;! ok) (λ s' _, ready map stub ram found s') s.
Proof.
  intros Hwf Hfit Hen Htot Hid Haud Hinst Htm Hfw (Eh & Er & _). pose proof Er as [= Et Ee Eram Etm]. assert (the_paging s = kh_paging m) as Ep by (by rewrite <- Eh).
  set (top := 4096 * total_frames (pmm_init map)) in *. unfold KHEAP_BASE in Hid.
  assert (∀ w, 0 ≤ w < 0xC0000000 → open_at (kh_paging m) w ∧ (w < top → mmu (kh_paging m) w = Some w)) as Hflat.
  { intros w Hw. apply flat_mmu; [zpow; lia|by apply Hid]. }
  apply iwp_bind, (acpi_stage found); [by rewrite Eh|by rewrite Ep|intros w Hw; rewrite Ep; by apply Hflat|intros w Hw; rewrite Ep; apply Hflat; lia|by rewrite Eh, Eram|].
  intros s1 p n G Eh1 Er1 Ea1. rewrite Ep in G. rewrite Eh in Eh1.
  assert (∀ q, audio_frame q → spares KHEAP_BASE (heap_end m) q (kh_paging m)) as Haud1.
  { intros q Hq. destruct (Haud q Hq) as [Hn Hv]. split; [exact Hn|]. intros v e Hve. apply Hv. destruct Hwf as [Hr _]. pose proof (rep_bounds _ _ Hr). lia. }
  destruct (heap_grown m p n 0 Hwf G) as (Hwf1 & Hfit1 & _). specialize (Hfit1 Hfit).
  assert (at_ (with_tables_of m p) (t, 0x90000, ram, tm) (bt_acpi s1) s1) as Hat by (split; [exact Eh1|split; [by rewrite Er1, Er|done]]).
  eapply at_keeps; [apply core_get; intros s2; destruct (acpi_available (bt_acpi s2)); [apply keeps_ok|apply keeps_none]|exact Hat|clear Hat; intros s2 ? Hat].
  stage Hat. match type of Hat with at_ _ _ _ ?x => rename x into s3 end. apply iwp_bind, iwp_put. destruct Hat as (Eh3 & Er3 & Eb3). rewrite <- Eh3 in Hwf1, Hfit1.
  destruct (sched_stage kmain s3 Hwf1 Hfit1) as (Hi & Epg & Eend & Er4 & Eb4). set (s4 := on_sched _ s3) in *. clearbody s4.
  eapply iwp_mono; [apply keeps_ok|]. cbv beta. intros s5 _u Ec. assert (the_sched s5 = the_sched s4) as Es5 by (by injection Ec). apply core_heap in Ec as (Eh5 & Er5 & Eb5).
  assert (the_paging s5 = p) as Ep5 by (change (the_paging s5) with (kh_paging (heap_of s5)); rewrite Eh5; change (kh_paging (heap_of s4)) with (the_paging s4); rewrite Epg; change (the_paging s3) with (kh_paging (heap_of s3)); by rewrite Eh3).
  assert (rest s5 = (t, 0x90000, ram, tm)) as [= Et5 Ee5 Eram5 Etm5] by (by rewrite Er5, Er4).
  split; [by rewrite Et5|by rewrite Etm5| | | |by rewrite Eb5, Eb4, Eb3|done].
  - by rewrite Es5.
  - rewrite Ep5. split; [unfold paging_is_enabled; by rewrite (gr_enabled _ _ _ G)|]. intros w Hw. eapply grown_mmu; [exact G|lia|]. apply Hflat; lia.
  - intros q Hq. destruct (heap_grown m p n q Hwf G) as (_ & _ & Hsp). rewrite Ep5, Eh5, Eend, Eh3. by apply Hsp, Haud1.
Qed.

(** C33: On a machine with at least 2 MiB and less than 1 GiB of RAM, a well-formed
    memory map and frames enough, with the firmware's tables as ACPI has them or
    absent, and a keyboard controller that can be emptied, [kernel_main] gets as far
    as turning interrupts on, whatever else the devices answer, and leaves what the
    other components take for granted: the descriptor
    tables decode as the kernel means them, with the ring-0 stack at 0x90000; the
    timer is set to 100 Hz; paging is on and every address of RAM is its own; the
    heap and the scheduler's ring satisfy their invariants, with the boot task alone
    and running; and the audio driver's fixed buffer is out of everyone's reach: none
    of its frames is free, holds a page table or backs a page of the heap, so no
    allocation gives it out.  Power-off is available just when the tables are there. *)
Theorem kernel_ready map gdt_addr tss_addr idt_addr stub kmain key_fuel found s :
  machine_ok map (heap_of s) →
  length (gdt (bt_tables s)) = 8%nat → zlen (idt (bt_tables s)) = 256 → 0 ≤ tss_addr < 2 ^ 32 → (∀ v, 0 ≤ v < 256 → 0 ≤ stub v < 2 ^ 32) →
  (∀ k : keyboard H, drain key_fuel k ≠ None) →
  firmware_known (k_ram (the_kernel s)) (frames_left (memory_up map (heap_of s))) found →
  iwp (bring_up map gdt_addr tss_addr idt_addr stub kmain key_fuel) (λ s' _, ready map stub (k_ram (the_kernel s)) found s') s.
Proof.
  intros Hm Hg Hi Ha Hs Hkeys Hfw. destruct (memory_up_ok map (heap_of s) Hm) as (Hwf & Hfit & Hen & Hid & Haud). pose proof (mo_total _ _ Hm) as Htot.
  set (h0 := heap_of s) in *. set (b0 := bt_acpi s). set (ram := k_ram (the_kernel s)) in *.
  pose proof (boot_installed gdt_addr tss_addr idt_addr stub (bt_tables s) (bt_proc s) Hg Hi Ha Hs) as Hinst.
  set (t0 := bt_tables s) in *. set (t1 := (gdt_init gdt_addr tss_addr t0 (bt_proc s)).1) in *. set (t2 := idt_init idt_addr stub _ _ t1) in *.
  unfold bring_up. eapply (at_put _ _ _ h0 (t0, tss_esp0 (the_sched s), ram, mc_timer (bt_machine s)) b0); [done|]. intros s0 Hat. do 4 stage Hat.
  eapply (at_put _ _ _ h0 (t1, 0x90000, ram, mc_timer (bt_machine s)) b0).
  { destruct Hat as (Eh & [= Et _ Er Etm] & Eb). match goal with |- at_ _ _ _ (load_gdt _ _ ?x) => destruct (gdt_stage gdt_addr tss_addr (bt_proc s) x) as [Eh1 Er1]; [by rewrite Et|done|] end.
    rewrite Et, Er, Etm in Er1. split; [by rewrite Eh1|]. split; [exact Er1|]. rewrite <- Eb. unfold load_gdt. by destruct (gdt_init _ _ _ _). }
  clear Hat; intros ? Hat. do 2 stage Hat.
  eapply (at_put _ _ _ (with_tables_of h0 (with_frames (pmm_init map) (kh_paging h0))) (t1, 0x90000, ram, mc_timer (bt_machine s)) b0).
  { destruct Hat as (Eh & Er & Eb). split; [|by rewrite rest_frames]. rewrite (with_same h0) in Eh. by rewrite (frames_at _ _ _ _ Eh). }
  clear Hat; intros ? Hat.
  eapply (at_put _ _ _ (with_tables_of h0 (with_frames (frames_up map) (kh_paging h0))) (t1, 0x90000, ram, mc_timer (bt_machine s)) b0).
  { destruct Hat as (Eh & Er & Eb). split; [|by rewrite rest_frames]. by apply frames_at. }
  clear Hat; intros ? Hat.
  eapply at_keeps; [apply core_get; intros ?; apply keeps_note, core_bind; [apply keeps_fs|intros _; apply keeps_fs]|exact Hat|clear dependent Hat; intros ? ? Hat].
  stage Hat. eapply (at_put _ _ _ (with_tables_of h0 (with_frames (frames_up map) (kh_paging h0))) (t2, 0x90000, ram, mc_timer (bt_machine s)) b0).
  { destruct Hat as (Eh & [= Et Ee Er Etm] & Eb). split; [exact Eh|]. split; [|exact Eb]. unfold rest, load_idt. cbn. by rewrite Et, <- Er, <- Etm, <- Ee. }
  clear Hat; intros ? Hat. do 2 stage Hat.
  eapply at_keeps; [apply keeps_machine, ends_pic_remap|exact Hat|clear dependent Hat; intros ? ? Hat]. do 2 stage Hat.
  eapply at_timer; [exact Hat|clear dependent Hat; intros ? tm Hat Htm]. do 2 stage Hat.
  eapply at_keeps; [apply keeps_driver; [by split|by apply ends_keyboard_init]|exact Hat|clear dependent Hat; intros ? ? Hat]. do 2 stage Hat.
  eapply at_keeps; [apply keeps_driver; [by split|apply ends_mouse_init]|exact Hat|clear dependent Hat; intros ? ? Hat]. do 2 stage Hat.
  eapply (at_put _ _ _ (with_tables_of h0 (paging_up map h0)) (t2, 0x90000, ram, tm) b0).
  { destruct Hat as (Eh & Er & Eb). split; [|by rewrite rest_paging]. by apply paging_at. }
  clear Hat; intros ? Hat. do 2 stage Hat.
  eapply (at_put _ _ _ (memory_up map h0) (t2, 0x90000, ram, tm) b0).
  { destruct Hat as (Eh & Er & Eb). split; [|by rewrite rest_heap]. by apply heap_at. }
  clear Hat; intros ? Hat. do 2 stage Hat.
  clearbody t2. apply (last_stages map stub kmain found (memory_up map h0) t2 ram tm b0); assumption.
Qed.
End Stages.

(** ** A machine of 16 MiB with power-off and nothing else *)

#[export] Instance idle_dma : Dma unit := {| dma_get _ _ := 0; dma_put _ _ w := w |}.
#[export] Instance idle_ticks : Ticks unit := {| tk_read w := (w, 0); tk_hz _ := 100 |}.

Definition boot_map : list e820_entry := [E820 0 0x9FC00 1 0; E820 0xF0000 0x10000 2 0; E820 0x100000 0xF00000 1 0].
Definition cold_heap : kheap pmm := MkKheap (MkPaging (pmm_init []) ∅ 0 false 0 false) ∅ 0 0 0.
Definition cold_boot : boot ramdisk card unit :=
  MkBoot
    (Machine tt (MkTimer 0 0) (MkKeyboard tt false false false (replicate 128 0) 0 0) (MkMouse tt 320 200 160 100 0 0 (0, 0, 0) 0)
      (MkFloppy tt (MkTimer 0 0) false false)
      (Kernel (MkSched ∅ 0 0 0 0 (Sched.Cpu 0x90000 0 0 0 0 0 0) ∅ cold_heap) demo_fs demo_firmware []))
    demo_tables demo_user (MkConsole (replicate 2000 0) 0 0 7 [])
    (MkAcpi (kh_paging cold_heap) ∅ tt false 0 0 0 0 0 0) (MkAta tt [] 0)
    (MkAc97 tt AC_NONE 0 0 0 0 0 false [0; 0] (replicate 64 0) 0x2000 (replicate 4 0) 0x3000 ∅)
    (host 0 []) [] (replicate 16 [], 0, 0).

Lemma cold_machine : machine_ok boot_map cold_heap ∧ 2080 ≤ frames_left (memory_up boot_map cold_heap).
Proof.
  assert (total_frames (pmm_init boot_map) = 4096) as Et by (vm_compute; reflexivity).
  assert ((2080 <=? frames_left (memory_up boot_map cold_heap)) && negb (frame_used (pg_frames (paging_up boot_map cold_heap)) 0xF00)
    && (total_frames (pg_frames (paging_up boot_map cold_heap)) =? 4096) = true) as [[E1%Z.leb_le E2%negb_true_iff]%andb_true_iff E3%Z.eqb_eq]%andb_true_iff by (vm_compute; reflexivity).
  split; [|exact E1]. split.
  - repeat constructor; simpl; lia.
  - intros a. split; [reflexivity|]. vm_compute. reflexivity.
  - rewrite Et. lia.
  - exists 0xF00000. split; [reflexivity|]. rewrite E3. split; [lia|exact E2].
  - lia.
Qed.

Lemma kernel_ready_witness :
  machine_ok boot_map cold_heap ∧
  iwp (bring_up boot_map 0x8000 0x9000 0xA000 demo_stub 0x5000 4) (λ s' _, ready boot_map demo_stub demo_firmware true s') cold_boot.
Proof.
  destruct cold_machine as [Hm Hl]. split; [exact Hm|].
  apply (kernel_ready boot_map 0x8000 0x9000 0xA000 demo_stub 0x5000 4 true cold_boot Hm); [reflexivity|reflexivity|lia|unfold demo_stub; lia|discriminate|].
  apply (With_tables _ _ _ _ _ _ _ _ _ demo_firmware_ok); [exact Hl|]. replace (u16 _) with 0x604 by (vm_compute; reflexivity). lia.
Defined.
