(* ===== verification/User.v ===== *)
(** The program userprog/hello.c as the processor runs it in ring 3: its system
    calls go through the gate, the stub and the dispatcher of [Isr.v], its memory
    through the page tables. *)
From Stdlib Require Import ZArith Lia Bool Ascii String.
From stdpp Require Import base numbers gmap option list.
From S2P Require Import Prelude Console Block Frames Pmm Paging Kheap Heaps Sched Fat12 Fat12Volume Io Elf Keyboard Timer Floppy Mouse Cpu Isr.

#[local] Open Scope Z_scope.
#[local] Open Scope c_scope.
#[local] Open Scope io_scope.

Definition SYS_EXIT : Z := 0.
Definition SYS_WRITE : Z := 2.
Definition SYS_GETCPL : Z := 3.

Definition banner : list Z := Eval vm_compute in
  str "Hello from HELLO.ELF - a real ELF binary running in ring 3!" ++ nl ++
  str "Loaded off the FAT12 floppy and launched through int 0x80." ++ nl ++
  str "My privilege level is CPL ".

Section Program.
Context {A D H : Type} `{FrameAllocator A} `{BlockDevice D} `{Ports H}.
Abbreviation mach := (machine A D H).
Abbreviation M := (IO mach).
Implicit Types s : mach.

(** The descriptor tables, the program's registers but for those a call sets, and
    where the linker and the compiler put the two strings and the character. *)
Variable t : tables.
Variable user : proc.
Variables (banner_at dot_at c_at : Z).
(** What [isr_handler] takes. *)
Variables (fuel : nat) (ret cr2 : Z).

Definition with_call (a b c : Z) (p : proc) : proc :=
  Proc a c (edx p) b (esp p) (ebp p) (esi p) (edi p) (eip p) (eflags p) (cs p) (ss p) (ds p) (es p) (Cpu.fs p) (gs p) (stack p).

(** [int $0x80] *)
Definition int80 (a b c : Z) : M outcome :=
  match interrupt t true 128 0 (with_call a b c user) with
  | Some (v, q) => let k := isr_stub v q in isr_handler fuel ret cr2 (frame_at (stack k) (esp k))
  | None => io_stuck
  end.
(** The program goes on with [eax] if the call returns. *)
Definition call (m : M outcome) (k : Z → M outcome) : M outcome :=
  let! o := m in match o with Resumes r => k (r_eax r) | _ => io_ret o end.

Definition sys_write (p len : Z) : M outcome := int80 SYS_WRITE p len.
Definition sys_getcpl : M outcome := int80 SYS_GETCPL (ebx user) (ecx user).
Definition sys_exit : M outcome := int80 SYS_EXIT (ebx user) (ecx user).

(** [while (p[n]) n++;] over at most [i] bytes *)
Fixpoint slen (i : nat) (p n : Z) : M Z :=
  match i with
  | O => io_stuck
  | S i => let! b := on_kernel (vload (p + n)) in if b =? 0 then io_ret n else slen i p (u32 (n + 1))
  end.

Definition start : M outcome :=
  let! n := slen 4096 banner_at 0 in
  call (sys_write banner_at n) (λ _,
  call sys_getcpl (λ cpl,
  on_kernel (vstore c_at (u8 (48 + (cpl &&& 3)))) ;!
  call (sys_write c_at 1) (λ _,
  call (sys_write dot_at 2) (λ _,
  call sys_exit (λ _, io_stuck))))).

(** ** What it prints *)

Variable stub : Z → Z.
Hypothesis tables_ok : installed stub t.
Hypothesis user_ok : proc_ok user.
Hypothesis user_ring : cpl user = 3.
Hypothesis user_top : 64 ≤ kernel_top t user < 2 ^ 32.

Lemma int80_spec a b c l s :
  (a = 2 → 0 ≤ b < 2 ^ 32 ∧ zlen l = c ∧ readable (mc_kernel s) b l) →
  if a =? 0 then int80 a b c s = Some (Isr.with_kernel (with_sched (task_exit ret (k_sched (mc_kernel s))) (mc_kernel s)) s, Exits)
  else let '(out, v) := call_result a b c (cs user) l in
    ∃ r, int80 a b c s = Some (Isr.with_kernel (with_out out (mc_kernel s)) s, Resumes r) ∧ r_eax r = v.
Proof.
  intros Hw. set (p := with_call a b c user).
  assert (proc_ok p ∧ cpl p = 3 ∧ 64 ≤ kernel_top t p < 2 ^ 32) as (Hp & Hc & Ht) by (split; [by destruct user_ok|by split]).
  destruct (stub_spec stub t true 128 0 p _ tables_ok ltac:(lia) (gate_installed stub t 128 tables_ok ltac:(lia)) ltac:(intros _; rewrite Hc; done) (po_ring _ Hp) Ht)
    as (q & Eq & _ & Hk).
  unfold int80. fold p. unfold interrupt. rewrite Eq. cbv zeta. set (k := isr_stub 128 q) in *. clearbody k.
  pose proof (entry_frame _ _ _ _ _ Hk Ht) as Ef. destruct (Z.eqb_spec a 0) as [E0|Hn0].
  { rewrite Ef. unfold isr_handler, syscall_dispatch. cbn [int_no r_eax p with_call eax]. rewrite E0. done. }
  pose proof (syscall_spec fuel ret cr2 (frame_at (stack k) (esp k)) l s) as Hs. rewrite Ef in Hs |- *. cbn [r_eax r_ebx r_ecx r_cs p with_call eax ebx ecx cs int_no] in Hs |- *.
  destruct (call_result a b c (cs user) l) as [out v]. eexists. split; [by apply Hs|done].
Qed.

Lemma slen_spec i p l s n :
  0 ≤ n → readable (mc_kernel s) p (l ++ [0]) → Forall (λ b, b ≠ 0) l → (length l < i + Z.to_nat n)%nat → zlen l < 2 ^ 32 → n ≤ zlen l →
  slen i p n s = Some (s, zlen l).
Proof.
  intros Hn Hr Hl. revert n Hn. induction i as [|i IH]; intros n Hn Hi Hb Hle; [unfold zlen in *; lia|].
  assert (zlen (l ++ [0]) = zlen l + 1) as El by (unfold zlen; rewrite length_app; simpl; lia).
  destruct (Hr n ltac:(lia)) as (a & Ea & Eb). cbn [slen]. unfold io_bind, on_kernel, vload. rewrite Ea, Eb.
  assert (with_kernel (mc_kernel s) s = s) as Es by (by destruct s).
  assert (arr_get (l ++ [0]) n = if n =? zlen l then 0 else arr_get l n) as Eg.
  { unfold arr_get. rewrite (proj2 (Z.ltb_ge n 0)) by lia. unfold zlen in *. destruct (Z.eqb_spec n (Z.of_nat (length l))) as [->|].
    - by rewrite Nat2Z.id, lookup_app_r, Nat.sub_diag by lia.
    - by rewrite lookup_app_l by lia. }
  rewrite Eg, Es. destruct (Z.eqb_spec n (zlen l)) as [->|Hne]; [done|].
  assert (arr_get l n ≠ 0) as Hnz.
  { destruct (lookup_lt_is_Some_2 l (Z.to_nat n)) as [x Hx]; [unfold zlen in *; lia|]. rewrite (arr_get_lookup _ _ x) by done.
    rewrite Forall_lookup in Hl. by apply (Hl _ _ Hx). }
  rewrite (proj2 (Z.eqb_neq _ _) Hnz). rewrite u32_small by lia. apply IH; [lia|unfold zlen in *; lia|done|lia].
Qed.

(** A call that prints [l] and returns. *)
Lemma write_call p l s (k : Z → M outcome) :
  0 ≤ p < 2 ^ 32 → readable (mc_kernel s) p l →
  call (sys_write p (zlen l)) k s = k (zlen l) (Isr.with_kernel (with_out (con_write l) (mc_kernel s)) s).
Proof.
  intros Hp Hr. destruct (int80_spec 2 p (zlen l) l s ltac:(by intros _)) as (r & E & Er). unfold call, io_bind, sys_write, SYS_WRITE. by rewrite E, Er.
Qed.

(** C34: userprog/hello.c, end to end through [int 0x80]: in ring 3, with its strings
    and a stack byte mapped where the compiler put them, the program prints its
    banner, its privilege level, which the kernel reports as 3, and a full stop,
    changes one byte of memory, and ends as a task; nothing else of the machine
    changes.  It never loops for ever behind [sys_exit]. *)
Theorem hello_prints a s :
  0 ≤ banner_at < 2 ^ 32 → 0 ≤ dot_at < 2 ^ 32 → 0 ≤ c_at < 2 ^ 32 →
  readable (mc_kernel s) banner_at (banner ++ [0]) → readable (mc_kernel s) dot_at (str "." ++ nl) →
  mmu (paging_of (mc_kernel s)) c_at = Some a → (∀ i, 0 ≤ i < 2 → mmu (paging_of (mc_kernel s)) (u32 (dot_at + i)) ≠ Some a) →
  let k := with_out (con_write (banner ++ str "3." ++ nl)) (with_ram (st (k_ram (mc_kernel s)) a 51) (mc_kernel s)) in
  start s = Some (Isr.with_kernel (with_sched (task_exit ret (k_sched k)) k) s, Exits).
Proof.
  intros Hb Hd Hc Rb Rd Ea Hne. unfold start. unfold io_bind at 1.
  rewrite (slen_spec 4096 banner_at banner s 0) by first [done | lia | (apply (bool_decide_unpack _); vm_compute; exact I)].
  assert (readable (mc_kernel s) banner_at banner) as Rb'.
  { intros i Hi. destruct (Rb i) as (x & Ex & Eb); [unfold zlen in *; rewrite length_app; lia|]. exists x. split; [done|]. rewrite Eb. unfold arr_get.
    destruct (i <? 0); [done|]. by rewrite lookup_app_l by (unfold zlen in Hi; lia). }
  rewrite write_call by done. set (s1 := Isr.with_kernel _ s).
  destruct (int80_spec 3 (ebx user) (ecx user) [] s1 ltac:(done)) as (r & E & Er). unfold call at 1. unfold io_bind at 1, sys_getcpl, SYS_GETCPL. rewrite E, Er.
  change (cs user &&& 3) with (cpl user). rewrite user_ring. change (u8 (48 + (3 &&& 3))) with 51.
  set (s2 := Isr.with_kernel _ s1). unfold io_bind at 1, on_kernel, vstore. rewrite (u32_small c_at) by done.
  change (paging_of (mc_kernel s2)) with (paging_of (mc_kernel s)). rewrite Ea. change (k_ram (mc_kernel s2)) with (k_ram (mc_kernel s)).
  set (s3 := Isr.with_kernel _ s2).
  rewrite (write_call c_at [51] s3); [|done|].
  2:{ intros i Hi. assert (i = 0) as -> by (change (zlen [51]) with 1 in Hi; lia). exists a. rewrite Z.add_0_r, u32_small by done. split; [exact Ea|].
      cbn. unfold ld, st. by rewrite lookup_insert_eq. }
  set (s4 := Isr.with_kernel _ s3).
  rewrite (write_call dot_at (str "." ++ nl) s4); [|done|].
  2:{ intros i Hi. destruct (Rd i Hi) as (x & Ex & Eb). exists x. split; [exact Ex|]. rewrite <- Eb. cbn. unfold ld, st. rewrite lookup_insert_ne; [done|].
      intros <-. by apply (Hne i Hi). }
  set (s5 := Isr.with_kernel _ s4). pose proof (int80_spec 0 (ebx user) (ecx user) [] s5 ltac:(done)) as Ex. cbn [Z.eqb] in Ex.
  unfold call at 1. unfold io_bind at 1, sys_exit, SYS_EXIT. rewrite Ex. unfold io_ret. do 2 f_equal.
  destruct s as [? ? ? ? ? [? ? ? o]]. unfold s5, s4, s3, s2, s1, Isr.with_kernel, with_sched, with_out, with_ram. cbn -[con_write banner app str nl]. do 2 f_equal.
  change (str "3." ++ nl) with ([51] ++ str "." ++ nl). unfold con_write. by rewrite app_nil_r, !map_app, <- !app_assoc.
Qed.
End Program.

(** ** The program in memory *)

Fixpoint bytes_at (p : Z) (l : list Z) (m : gmap Z Z) : gmap Z Z :=
  match l with [] => m | b :: l => st (bytes_at (p + 1) l m) p b end.
Definition hello_machine : machine pmm ramdisk script :=
  let k := mc_kernel demo_machine in
  Isr.with_kernel (with_ram (bytes_at 0x6000 (banner ++ [0]) (bytes_at 0x7000 (str "." ++ nl) ∅)) k) demo_machine.

Lemma readable_bytes p l :
  forallb (λ i, match mmu (paging_of (mc_kernel hello_machine)) (u32 (p + i)) with Some a => ld (k_ram (mc_kernel hello_machine)) a =? arr_get l i | None => false end)
    (seqZ 0 (zlen l)) = true → readable (mc_kernel hello_machine) p l.
Proof.
  intros Hf i Hi. pose proof (proj1 (forallb_forall _ _) Hf i) as Hx. cbv beta in Hx. destruct (mmu _ _) as [a|]; [|destruct (diff_false_true (Hx ltac:(apply list_elem_of_In, elem_of_seqZ; lia)))].
  exists a. split; [done|]. apply Z.eqb_eq, Hx, list_elem_of_In, elem_of_seqZ. lia.
Qed.

Lemma hello_prints_witness :
  ∃ k, start demo_installed demo_user 0x6000 0x7000 0x8000 8 0x1234 0 hello_machine = Some (Isr.with_kernel k hello_machine, Exits) ∧
    k_out k = k_out (mc_kernel demo_machine) ++ con_write (banner ++ str "3." ++ nl).
Proof.
  destruct demo_user_ok as (Hp & Hc & Ht). eexists. split.
  - apply (hello_prints demo_installed demo_user 0x6000 0x7000 0x8000 8 0x1234 0 demo_stub demo_installed_ok Hp Hc ltac:(rewrite Ht; lia) 0x8000 hello_machine); [lia|lia|lia| | | |].
    + apply readable_bytes. vm_compute. reflexivity.
    + apply readable_bytes. vm_compute. reflexivity.
    + vm_compute. reflexivity.
    + intros i Hi. assert (i = 0 ∨ i = 1) as [-> | ->] by lia; vm_compute; discriminate.
  - reflexivity.
Defined.
